(* ===== verification/_CoqProject ===== *)
-Q . S2P
Prelude.v
Heap.v
FlashPort.v
FlashPortProps.v
OtaModule.v
OtaLaws.v
OtaSession.v
OtaBoot.v
OtaVerify.v
OtaBoard.v
OtaProps.v
OtaWitness.v
BootYmodem.v
YmodemLaws.v
YmodemTerm.v
YmodemSession.v
YmodemHost.v
YmodemProps.v
YmodemWitness.v
BootMain.v
HostLink.v
HostLinkInv.v
HostLinkOps.v
HostLinkWire.v
HostLinkRun.v
HostLinkApp.v
HostLinkProps.v
HostLinkWitness.v
FactoryFormat.v
FactoryProps.v
FactoryWitness.v
MsBridging.v
MsBridgingInv.v
MsBridgingOps.v
MsBridgingWire.v
MsBridgingProps.v
MsBridgingWitness.v
Ms41908mReg.v
Ms41908m.v
Ms41908mPort.v
Ms41908mRun.v
Ms41908mRounds.v
Ms41908mStart.v
Ms41908mProps.v
Ms41908mFaults.v
Ms41908mHome.v
Ms41908mSafe.v
Ms41908mCalls.v
Ms41908mWitness.v
LensController.v
LensInv.v
LensProps.v
LensWitness.v
BspCtrl.v
BspProps.v
BspIo.v
Rs485.v
Rs485Props.v
BoardWitness.v
HostCommands.v
HostCommandsProps.v
HostCommandsWitness.v
HostUart.v
HostUartProps.v
HostUartWitness.v
HalFloat.v
HalLensFg2009.v
HalLensAf0832.v
HalLensWait.v
HalLensBoot.v
HalLensSim.v
HalLensTable.v
HalLensGeometry.v
HalLensGeoProps.v
HalLensSafe.v
HalLensBridge.v
HalLensBridgeProps.v
HalLensBridgeWitness.v
HalPostprocess.v
HalPostprocessProps.v
