(* ===== verification/Prelude.v ===== *)
(** * Verification of the neoruntime firmware and its host protocols

    ** The program

    The repository holds the firmware of the camera board (an STM32G0
    microcontroller, [mcu_board_prj/]) and the software of the main processor
    ([hal_v2/], [platform/], [web/]).  The development models the parts of the C
    code that carry state and can lose it:

    - the bootloader ([mcu_board_prj/boot/]): [Core/Src/main.c] asks over the UART
      whether a host wants to send an image ([Core/Src/boot_ymodem.c], a Ymodem
      receiver fed by the UART interrupt), hands the received file chunk by chunk to
      the update module ([ota_module/src/ota_module.c]), which writes it to the flash
      through [ota_module/platform/stm32/stm32g0xx_port.c] and keeps a checksummed
      record of the slots; then it asks the module which image to start and jumps;
    - the host link ([mcu_board_prj/app/Custom/Components/host_link/], with a copy for
      the main processor in [hal_v2/common/host_link/]): framed requests, responses
      and events with acknowledgements over a serial line;
    - its application ([app/Custom/User/host_link_app.c]): the UART transport with a
      circular receive buffer, and the dispatcher that answers each request by calling
      the lens controller, the board control ([app/Custom/Components/bsp_ctrl/]: lamps,
      outputs, inputs, sensors), the RS485 driver ([app/Custom/Components/rs485_driver/])
      or the update module ([app/Custom/Components/ota_host/]);
    - the bridging protocol ([app/Custom/Components/ms_bridging/]), the older framed
      protocol between a master and a slave controller;
    - the lens: [app/Custom/Components/ms41908m/] drives the zoom, focus and iris motors
      through the MS41908M chip (batches of micro steps that the chip signals as done,
      a task that feeds the next batch, a state machine that finds the zero position),
      and [app/Custom/Components/lens/] converts physical steps for the mounted lens,
      serialises the calls and switches between lens profiles;
    - the factory identity store ([hal_v2/common/devices/hal_factory_format.c]): two
      alternating checksummed slots of an EEPROM;
    - the lens on the side of the main processor: [hal_v2/common/devices/] holds the
      device of the AF0832 lens ([hal_lens_af0832.c]: commands to the microcontroller,
      waits for its events, and a tracking table that turns zoom ratios and distances
      into motor positions) and the position model of the FG2009 lens; the bridge
      ([hal_v2/platforms/hailo15/bridge/hal_lens_bridge.c]) owns the link to the
      microcontroller and the device, and reopens the link after repeated errors;
    - the detection post-processing ([hal_v2/common/hal_postprocess_common.c]): the
      overlap of boxes and non-maximum suppression.

    ** Which file models what

    - [Prelude]: machine-width integers, byte buffers, little-endian codecs, the
      state-and-outcome monad [M] ([Ret], [Halt] for leaving the program, [Undef] for
      undefined behaviour, [NoFuel]), the tactics [cbool], [cif], [rstep] and the hint
      databases [cwidth] and [buf].  [Heap]: blocks of the heap and the pointers frames own.
    - [FlashPort], [FlashPortProps]: [stm32g0xx_port.c] over a class [FlashHw] of flash
      controllers; [flash_read], [flash_write] with the double-word cache, [flash_erase].
    - [OtaModule]: all of [ota_module.c], over the class [OtaBuild] of its
      build-time configurations; [OtaLaws]: what the module expects of its platform, as
      the classes [OtaPlatform] and [OtaPlatformLaws];
      [OtaSession], [OtaBoot], [OtaVerify]: lemmas on the download session, the choice
      of the slot, the confirmation; [OtaBoard]: [ota_record_default.c], the partition
      table, and the instance that connects the flash port to the module (the laws
      are proved of the port); [OtaProps], [OtaWitness].
    - [BootYmodem]: all of [boot_ymodem.c]; [YmodemLaws], [YmodemTerm], [YmodemSession],
      [YmodemHost]: its lemmas and a conforming sender; [YmodemProps], [YmodemWitness].
      [BootMain]: the decision sequence of [main.c].
    - [HostLink]: all of [host_link_core.c]; [HostLinkInv] (ownership invariant),
      [HostLinkOps], [HostLinkWire] (the wire round trip for every chunking),
      [HostLinkRun] (runs of calls), [HostLinkApp] (the callback of the application),
      [HostLinkProps], [HostLinkWitness].
    - [MsBridging]: all of [ms_bridging.c]; [MsBridgingInv], [MsBridgingOps],
      [MsBridgingWire], [MsBridgingProps], [MsBridgingWitness] in the same roles.
    - [Ms41908mReg]: the registers of the motor chip as [ms41908m_reg.h] packs them;
      [Ms41908m]: [ms41908m.c] and [ms41908m_port.c] over the class [LensHw] of buses,
      pins, kernels and clocks; [Ms41908mPort] (what working hardware does,
      [LensHwLaws], and the accesses on it), [Ms41908mRun], [Ms41908mRounds],
      [Ms41908mStart] (the lemmas of a move, from the call to its last batch);
      [Ms41908mProps], [Ms41908mHome] (moves and homing), [Ms41908mSafe],
      [Ms41908mCalls] (every call on arbitrary hardware), [Ms41908mFaults],
      [Ms41908mWitness].
    - [LensController]: [lens_controller.c], [lens_profile.c] and the two profiles over
      [LensHw] and the class [LensKernel] of the controller's mutex; [LensInv],
      [LensProps], [LensWitness].
    - [BspCtrl], [BspProps], [BspIo]: [bsp_ctrl.c] over the class [BspHw] of timers, pins,
      converter and kernel; the sensor formulas in binary floating point.  [Rs485],
      [Rs485Props]: [rs485_driver.c] over [Rs485Hw].  [BoardWitness]: both on a concrete
      board.
    - [HostCommands], [HostCommandsProps], [HostCommandsWitness]:
      [host_link_dispatch_request] with one definition for each kind of case, over the
      four components and the class [AppHw] of clocks; the commands of [ota_host.c].
    - [HostUart], [HostUartProps], [HostUartWitness]: the rest of [host_link_app.c] (DMA
      ring, receiving task, send, interrupt callbacks, event callbacks, start and stop)
      and [ota_host_init], over the class [UartHw].
    - [FactoryFormat]: all of [hal_factory_format.c]; [FactoryProps], [FactoryWitness].
    - [HalFloat]: the casts, literals and rounding of the host's floating point.
      [HalLensFg2009]: all of [hal_lens_fg2009.c], with a lens between hard stops.
      [HalLensAf0832]: [hal_lens_af0832.c] over the class [LensOps] of the lens commands,
      the clock, the condition variable and the other threads; [HalLensWait] (the laws
      [LensLaws] and the synchronous moves), [HalLensBoot] (homing and bootstrap),
      [HalLensSafe] (the calls as their clients see them, the move to a ratio),
      [HalLensSim] (a controller that executes commands).  [HalLensTable],
      [HalLensGeometry]: the table and its conversions in IEEE arithmetic;
      [HalLensGeoProps].
    - [HalLensBridge]: all of [hal_lens_bridge.c] over the device and the class [McuOps] of
      the link and the allocator; [HalLensBridgeProps], [HalLensBridgeWitness].
    - [HalPostprocess], [HalPostprocessProps]: boxes, sort and suppression.

    A C function is a definition of the same name.  A handler or a static variable is
    a record threaded through [M]; a function that returns a status returns it in [M];
    a loop is a [Fixpoint] on the data or on fuel.  What is not under the sources (the
    STM32 HAL, FreeRTOS, the EEPROM, the peer) is a type class or a field of an
    environment record: it answers calls from a script, and says what the other tasks
    and interrupts did while a call waited.

    ** What the theorems show

    - Update and boot: a file sent by a conforming Ymodem sender is installed and
      started; an installed image is exactly the package's bytes; only slots that are
      active, backup or under trial are started, at the entry their header gives; an
      aborted or out-of-order download is never started; a trial image is given up
      after its budget, and one that is confirmed becomes the active slot for good,
      the others its backup; flash writes split at any boundary commit the same bytes as one
      write and erases touch exactly the pages of the range.
    - Host link and bridging: a request delivered in any chunking is answered with the
      peer's payload; every call, for every input and every failure of an allocation
      or of the port, keeps the ownership invariant (no double free, no use after
      free, no leak) and returns; frames in the slots passed both checksums; waits end;
      overdue requests are reported once.
    - Lens: a move accepted from rest reaches its target in whatever order and grouping
      the motors signal, also when one axis joins while the other moves; a signal counts
      when it comes while the task sleeps or between two of its wake-ups ([arrival] in
      [Ms41908mRounds]), not while the task runs, where the code loses it
      ([late_signal_lost]); the limit sensor sets the zero position; no sequence of calls
      with arguments in range, on hardware that fails as it likes, reaches undefined
      behaviour or keeps a lock; the controller converts exactly, its moves refine the
      physical move, and a change of the profile takes effect or is undone.
    - Board: every call of the board control and of the RS485 driver, in any order and
      with interrupts in between, stays defined and keeps the recorded duties, buffers
      and locks in order; a lamp follows its duty; a received frame is delivered whole.
    - Dispatcher and transport: every checked request with arguments in the range of the
      lens driver is answered with exactly one response of its identifier, whatever
      the lens, the timers, the pins and the kernel answer (the flash has to work, and
      the RS485 task to be scheduled while a stop waits for it); payloads of the wrong
      size are refused and change nothing; a request to enter the bootloader leaves the
      flag the bootloader looks for.  The circular buffer, drained in whatever slices,
      feeds the link exactly the received stream when it never fills up; a send reports success only for a
      transmitted buffer when no completion was pending; the start of the link is all
      or nothing.
    - Factory store: what was set is read back, until the sequence number wraps, also after a power loss in the middle
      of a set (old or new value, never a mixture); the newest valid slot is in force.
    - Lens of the main processor: a synchronous move sends one command that takes exactly
      the axes asked for to their targets, and its status is the one that what happened
      from the command to its return calls for (a timeout only when the time is over); the bootstrap sends its commands in
      order and succeeds only when each reset was confirmed after its own command and
      before the next one; the counted position
      of the FG2009 is the true one, stops included; every zoom position survives the
      conversion to a ratio and back; a move to a ratio balances the speeds so that both
      axes arrive together.  No sequence of calls of the bridge uses a freed device or
      frees what is not its own; the reset after five errors closes the link, opens it
      with the saved configuration and starts the lens again, or leaves it closed.
    - Post-processing: non-maximum suppression is the greedy algorithm, for all floats.
    - Divergences: several theorems state behaviour that is surely not meant (a
      refused package header makes the receiver move memory out of bounds; a reset
      during the start of a download boots an erased slot; equal ticks count as an
      elapsed timeout; and others).  They are listed as findings in the manifest.

    ** Concurrency and observation

    Where another thread or an interrupt can run, the model names the places.  Waits
    and delays hand control to the environment record, which delivers events, bytes
    and ticks.  The lock of a component is held between two such places, so what lies
    between them is one step.  [host_link_request_async] takes as an argument what the
    other tasks do while its frame is sent without the lock; [hal_lens_af0832_destroy]
    is the three steps of the code (flag and wake-up, unsubscribe, free), and a wait of
    another thread may find the device in any of these stages.  A power cut is a flash
    callback that stops the processor when the record is about to be rewritten.
    The state of the AF0832 device and of the bridge carries a ghost trace
    ([af_trace]): commands with their status, answers of the controller, events, faults
    of the clock or the wait, and the closing and opening of the link.  The code never
    reads it; the theorems say in terms of it what happened after what.

    ** Fuel

    Loops that are not structural take fuel.  The receiver's loop over a poll needs
    [4 * work + 2] rounds, where [work] bounds the bytes still to consume
    ([YmodemTerm]); the busy wait for the end of a transmission counts one round for the
    looks within a millisecond and gives up after 40, so the length of the script plus 43
    is enough; a wait of the host link or of the bridging takes one round for each
    entry of the script of waits and then at most one for each 20 ms of the time-out,
    so the length of the script plus 28 is enough for the bridging ([MsBridgingOps];
    the bounds of the host link are in [HostLinkOps]).  The theorems take the fuel as
    an argument with such a lower bound and conclude that the call returns.

    The motor task needs none: one wake-up is one call of its body, in which the
    reset state machine takes at most 32 steps as the code itself limits it.  A
    batch has at most 255 micro steps for each of the two motors and a move less
    than 2^30, so the number of wake-ups of a move is bounded by its length.

    A wait of the AF0832 device takes one round for each time the condition variable
    returns; the laws only say that the clock is not set back and that time passes in
    each wait that does not fail, so one unit for each nanosecond of the timeout
    ([enough] in [HalLensWait]) is the general bound.  The clock and the wait may fail.

    ** Not modelled

    The Ymodem session of [YmodemProps] hands each frame to the reassembly buffer as one
    block on a quiet line: the interrupt, the queue of blocks and the polling loop are
    modelled and have theorems of their own (the queue is a FIFO, a poll ends), but are
    not part of that run.

    The vendor HAL, CMSIS and FreeRTOS, cJSON and the shell are vendored.  Log output
    is dropped.  Clock and pin setup is register access.  The media and inference code
    of [hal_v2/platforms] binds C++ vendor libraries; [platform/] and [web/] are Go, C++
    and TypeScript.  The shell commands of the boards ([cmd_console], [cmd_test.c]) are
    interactive tests.  The polling task and the dispatcher are joined only by the
    contract of the callback: [HostLink] runs a callback in the state of the link, the
    dispatcher also changes the components behind it.  The replies to the two sensor
    commands are evaluated on examples only, as their float casts have no general bound
    here; the interrupt callback that forwards a pin to the lens driver and the body of
    the reboot task are left out.
    The class [LensOps] of the lens device and the firmware's dispatcher are not composed:
    the transport between them ([hal_v2/platforms/hailo15/mcu/]) is C++.  The tables of
    the AF0832 lens that the build does not select, the stubs of [hal_v2/platforms/stub/],
    the log and the crash handler of [hal_v2/common/], and the default configurations of
    the post-processing other than the detector's are left out: they hold constants,
    answer with constants, or do only I/O. *)

(** Shared vocabulary of the development: machine-width arithmetic, byte
    buffers, little-endian encodings, byte-addressed memories, and the small
    state-and-outcome monad in which the stateful C code is written. *)
From stdpp Require Export base tactics list numbers sets.
From Stdlib Require Export ZArith Lia.
#[global] Open Scope Z_scope.

(** ** Machine-width integers

    A C unsigned integer of [w] bits is a [Z]; every operation that can wrap is
    followed by the truncation the C type performs. *)
Definition u8 (z : Z) : Z := z mod 256.
Definition u16 (z : Z) : Z := z mod 65536.
Definition u32 (z : Z) : Z := z mod 4294967296.

(** Reinterpretation of a 32-bit pattern as [int32_t]. *)
Definition s32 (z : Z) : Z :=
  let v := u32 z in if v <? 2147483648 then v else v - 4294967296.

(** C truth values. *)
Definition b2z (b : bool) : Z := if b then 1 else 0.

Declare Scope cexpr_scope.
Delimit Scope cexpr_scope with C.
Notation "x +u y" := (u32 (x + y)) (at level 50, left associativity) : cexpr_scope.
Notation "x -u y" := (u32 (x - y)) (at level 50, left associativity) : cexpr_scope.
Notation "x *u y" := (u32 (x * y)) (at level 40, left associativity) : cexpr_scope.
#[global] Open Scope cexpr_scope.

Ltac Zify.zify_post_hook ::= Z.div_mod_to_equations.

(** [cbool] turns the boolean guards of the code into the propositions they
    decide, in the hypotheses and in the goal. *)
Ltac cbool :=
  repeat match goal with
  | H : (_ && _) = true |- _ => apply andb_true_iff in H; destruct H
  | H : (_ || _) = false |- _ => apply orb_false_iff in H; destruct H
  | H : negb _ = true |- _ => apply negb_true_iff in H
  | H : negb _ = false |- _ => apply negb_false_iff in H
  | H : (_ =? _) = true |- _ => apply Z.eqb_eq in H
  | H : (_ =? _) = false |- _ => apply Z.eqb_neq in H
  | H : (_ <? _) = true |- _ => apply Z.ltb_lt in H
  | H : (_ <? _) = false |- _ => apply Z.ltb_ge in H
  | H : (_ <=? _) = true |- _ => apply Z.leb_le in H
  | H : (_ <=? _) = false |- _ => apply Z.leb_gt in H
  end.

(** Case analysis on the guard of the [if] at the head of the goal. *)
Ltac cif :=
  match goal with
  | |- context [if ?b then _ else _] => destruct b eqn:?; cbool
  end.

Lemma u32_small z : 0 <= z < 4294967296 -> u32 z = z.
Proof. intros; unfold u32; apply Z.mod_small; lia. Qed.

Lemma u16_small z : 0 <= z < 65536 -> u16 z = z.
Proof. intros; unfold u16; apply Z.mod_small; lia. Qed.

Lemma u8_small z : 0 <= z < 256 -> u8 z = z.
Proof. intros; unfold u8; apply Z.mod_small; lia. Qed.

Lemma u32_range z : 0 <= u32 z < 4294967296.
Proof. unfold u32; apply Z.mod_pos_bound; lia. Qed.

Lemma u16_range z : 0 <= u16 z < 65536.
Proof. unfold u16; apply Z.mod_pos_bound; lia. Qed.

Lemma u8_range z : 0 <= u8 z < 256.
Proof. unfold u8; apply Z.mod_pos_bound; lia. Qed.

Lemma u32_idem z : u32 (u32 z) = u32 z.
Proof. apply u32_small, u32_range. Qed.

Create HintDb cwidth.
#[export] Hint Resolve u32_range u16_range u8_range : cwidth.
#[export] Hint Rewrite u32_small u16_small u8_small using lia : cwidth.
#[export] Hint Rewrite u32_idem : cwidth.

(** ** Bytes and buffers *)
Definition is_byte (b : Z) : Prop := 0 <= b < 256.
Definition bytes_ok (l : list Z) : Prop := Forall is_byte l.

#[export] Instance is_byte_dec b : Decision (is_byte b).
Proof. unfold is_byte; solve_decision. Defined.

#[export] Instance bytes_ok_dec l : Decision (bytes_ok l).
Proof. unfold bytes_ok; apply _. Defined.

(** The length of a buffer as the C size type sees it. *)
Definition zlen {A} (l : list A) : Z := Z.of_nat (length l).

(** [sub off n l] is the [n]-byte object at offset [off] of [l]. *)
Definition sub {A} (off n : nat) (l : list A) : list A := take n (drop off l).

(** [nthz l i]: byte [i] of a buffer. *)
Definition nthz (l : list Z) (i : Z) : Z := nth (Z.to_nat i) l 0.

(** [memcpy_at off src dst]: the buffer [dst] after [memcpy(dst+off, src, ..)]. *)
Definition memcpy_at {A} (off : nat) (src dst : list A) : list A :=
  take off dst ++ src ++ drop (off + length src) dst.

Lemma length_memcpy_at {A} off (src dst : list A) :
  (off + length src <= length dst)%nat -> length (memcpy_at off src dst) = length dst.
Proof. intros; unfold memcpy_at; rewrite !length_app, length_take, length_drop; lia. Qed.

Lemma sub_memcpy_at {A} off (src dst : list A) :
  (off <= length dst)%nat -> sub off (length src) (memcpy_at off src dst) = src.
Proof.
  intros; unfold sub, memcpy_at.
  rewrite drop_app_ge by (rewrite length_take; lia).
  rewrite length_take, Nat.min_l by lia. replace (off - off)%nat with 0%nat by lia.
  rewrite drop_0. apply take_app_length.
Qed.

Lemma sub_memcpy_at_before {A} off o n (src dst : list A) :
  (o + n <= off)%nat -> (off <= length dst)%nat -> sub o n (memcpy_at off src dst) = sub o n dst.
Proof.
  intros. unfold sub, memcpy_at.
  rewrite drop_app_le by (rewrite length_take; lia).
  rewrite take_app_le by (rewrite length_drop, length_take; lia).
  rewrite <- (take_drop off dst) at 2.
  rewrite drop_app_le by (rewrite length_take; lia).
  rewrite take_app_le by (rewrite length_drop, length_take; lia). done.
Qed.

Lemma sub_memcpy_at_after {A} off o n (src dst : list A) :
  (off + length src <= o)%nat -> (off <= length dst)%nat ->
  sub o n (memcpy_at off src dst) = sub o n dst.
Proof.
  intros. unfold sub, memcpy_at.
  rewrite app_assoc, drop_app_ge by (rewrite length_app, length_take; lia).
  rewrite length_app, length_take, Nat.min_l, drop_drop by lia.
  f_equal; f_equal; lia.
Qed.

Lemma length_sub {A} off n (l : list A) : (off + n <= length l)%nat -> length (sub off n l) = n.
Proof. intros; unfold sub; rewrite length_take, length_drop; lia. Qed.

Lemma sub_all {A} n (l : list A) : length l = n -> sub 0 n l = l.
Proof. intros <-. unfold sub. rewrite drop_0. apply take_ge. lia. Qed.

Lemma sub_app_ge {A} o n (l k : list A) :
  (length l <= o)%nat -> sub o n (l ++ k) = sub (o - length l) n k.
Proof. intros. unfold sub. by rewrite drop_app_ge by done. Qed.

Lemma sub_app_hd {A} n (l k : list A) : length l = n -> sub 0 n (l ++ k) = l.
Proof. intros <-. unfold sub. rewrite drop_0. apply take_app_length. Qed.

Lemma bytes_ok_sub off n l : bytes_ok l -> bytes_ok (sub off n l).
Proof. intros; apply Forall_take, Forall_drop; done. Qed.

Lemma bytes_ok_app l k : bytes_ok l -> bytes_ok k -> bytes_ok (l ++ k).
Proof. intros; apply Forall_app; done. Qed.

Lemma bytes_ok_replicate n b : is_byte b -> bytes_ok (replicate n b).
Proof. apply Forall_replicate. Qed.

Lemma nthz_lookup l i b : l !! Z.to_nat i = Some b -> nthz l i = b.
Proof. intros H. unfold nthz. by apply nth_lookup_Some. Qed.

Lemma nthz_byte l i : bytes_ok l -> is_byte (nthz l i).
Proof.
  intros H. unfold nthz. destruct (l !! Z.to_nat i) as [b|] eqn:E.
  - rewrite (nth_lookup_Some _ _ _ _ E). eapply Forall_lookup_1; eauto.
  - rewrite nth_overflow by (apply lookup_ge_None in E; lia). unfold is_byte; lia.
Qed.

Create HintDb buf.
#[export] Hint Resolve bytes_ok_sub bytes_ok_app bytes_ok_replicate nthz_byte : buf.
#[export] Hint Rewrite @length_app @length_take @length_drop @length_replicate : buf.

(** ** Little-endian scalars, as the targets of this code store them *)
Fixpoint le_enc (n : nat) (v : Z) : list Z :=
  match n with
  | O => []
  | S n' => v mod 256 :: le_enc n' (v / 256)
  end.

Fixpoint le_dec (l : list Z) : Z :=
  match l with
  | [] => 0
  | b :: l' => b + 256 * le_dec l'
  end.

Lemma length_le_enc n v : length (le_enc n v) = n.
Proof. revert v; induction n; intros; simpl; auto. Qed.

Lemma bytes_ok_le_enc n v : bytes_ok (le_enc n v).
Proof.
  revert v; induction n as [|n IH]; intros; simpl; constructor; [unfold is_byte; lia|apply IH].
Qed.

Lemma le_dec_enc n v : 0 <= v < 256 ^ Z.of_nat n -> le_dec (le_enc n v) = v.
Proof.
  revert v; induction n as [|n IH]; intros v Hv.
  - simpl in *; lia.
  - rewrite Nat2Z.inj_succ, Z.pow_succ_r in Hv by lia.
    cbn [le_enc le_dec]. rewrite IH; [lia|]. split; [lia|].
    apply Z.div_lt_upper_bound; lia.
Qed.

Lemma le_dec_bound l : bytes_ok l -> 0 <= le_dec l < 256 ^ zlen l.
Proof.
  unfold zlen. induction 1 as [|b l Hb _ IH]; [simpl; lia|].
  cbn [le_dec length]. rewrite Nat2Z.inj_succ, Z.pow_succ_r by lia. unfold is_byte in Hb. lia.
Qed.

Lemma le_enc_dec l : bytes_ok l -> le_enc (length l) (le_dec l) = l.
Proof.
  induction 1 as [|b l Hb _ IH]; [done|]. cbn [le_dec length le_enc]. unfold is_byte in Hb.
  replace (b + 256 * le_dec l) with (b + le_dec l * 256) by lia.
  rewrite Z.mod_add, Z.div_add, Z.mod_small, Z.div_small by lia. by rewrite Z.add_0_l, IH.
Qed.

#[export] Hint Resolve bytes_ok_le_enc : buf.
#[export] Hint Rewrite @length_le_enc : buf.

(** A 16-bit value put together from its two bytes. *)
Lemma lor_bytes c : 0 <= c < 65536 -> Z.lor (Z.shiftl (c / 256) 8) (c mod 256) = c.
Proof.
  intros H. apply Z.bits_inj'. intros n Hn. rewrite Z.lor_spec, Z.shiftl_spec by lia.
  change 256 with (2 ^ 8). destruct (Z_lt_le_dec n 8).
  - rewrite Z.mod_pow2_bits_low, (Z.testbit_neg_r _ (n - 8)) by lia. done.
  - rewrite Z.mod_pow2_bits_high, Z.div_pow2_bits by lia. replace (n - 8 + 8) with n by lia.
    apply orb_false_r.
Qed.

(** ** Byte-addressed memories *)
Definition mem : Type := Z -> Z.

Definition mem_read (m : mem) (a : Z) (n : nat) : list Z :=
  map (fun i => m (a + Z.of_nat i)) (seq 0 n).

Definition in_range (a n x : Z) : bool := (a <=? x) && (x <? a + n).

Definition mem_write (m : mem) (a : Z) (l : list Z) : mem :=
  fun x => if in_range a (zlen l) x then nthz l (x - a) else m x.

Definition mem_fill (m : mem) (a n v : Z) : mem :=
  fun x => if in_range a n x then v else m x.

Lemma in_range_spec a n x : in_range a n x = true <-> a <= x < a + n.
Proof. unfold in_range. rewrite andb_true_iff, Z.leb_le, Z.ltb_lt. lia. Qed.

Lemma in_range_false a n x : in_range a n x = false <-> ~ (a <= x < a + n).
Proof. rewrite <- in_range_spec. destruct (in_range a n x); split; congruence. Qed.

(** Case analysis on a range test, leaving the arithmetic facts. *)
Ltac crange :=
  match goal with
  | |- context [in_range ?a ?n ?x] =>
      let H := fresh "Hr" in
      destruct (in_range a n x) eqn:H;
      [apply in_range_spec in H | apply in_range_false in H]
  | K : context [in_range ?a ?n ?x] |- _ =>
      let H := fresh "Hr" in
      destruct (in_range a n x) eqn:H;
      [apply in_range_spec in H | apply in_range_false in H]
  end.

Lemma length_mem_read m a n : length (mem_read m a n) = n.
Proof. unfold mem_read. by rewrite length_map, length_seq. Qed.

Lemma mem_read_lookup m a n i : (i < n)%nat -> mem_read m a n !! i = Some (m (a + Z.of_nat i)).
Proof.
  intros. unfold mem_read.
  rewrite list_lookup_fmap, lookup_seq_lt by lia. done.
Qed.

Lemma mem_read_ext m1 m2 a n :
  (forall x, a <= x < a + Z.of_nat n -> m1 x = m2 x) -> mem_read m1 a n = mem_read m2 a n.
Proof.
  intros H. apply list_eq_same_length with n; rewrite ?length_mem_read; auto.
  intros i x y Hi. rewrite !mem_read_lookup by lia.
  intros; simplify_eq. apply H. lia.
Qed.

Lemma mem_read_write m a l : mem_read (mem_write m a l) a (length l) = l.
Proof.
  apply list_eq_same_length with (length l); rewrite ?length_mem_read; auto.
  intros i x y Hi. rewrite mem_read_lookup by lia. intros ? Hy; simplify_eq.
  unfold mem_write. crange; unfold zlen in *; [|lia].
  replace (a + Z.of_nat i - a) with (Z.of_nat i) by lia.
  apply nthz_lookup. by rewrite Nat2Z.id.
Qed.

Lemma mem_read_app m a n k :
  mem_read m a (n + k) = mem_read m a n ++ mem_read m (a + Z.of_nat n) k.
Proof.
  apply list_eq_same_length with (n + k)%nat;
    autorewrite with buf; rewrite ?length_mem_read; auto.
  intros i x y Hi. rewrite mem_read_lookup by lia.
  destruct (decide (i < n)%nat).
  - rewrite lookup_app_l by (rewrite length_mem_read; lia).
    rewrite mem_read_lookup by lia. intros; simplify_eq. done.
  - rewrite lookup_app_r, length_mem_read by (rewrite length_mem_read; lia).
    rewrite mem_read_lookup by lia. intros; simplify_eq. f_equal. lia.
Qed.

Lemma sub_mem_read m a k o n :
  (o + n <= k)%nat -> sub o n (mem_read m a k) = mem_read m (a + Z.of_nat o) n.
Proof.
  intros Hle. replace k with (o + (n + (k - o - n)))%nat by lia. rewrite !mem_read_app.
  rewrite sub_app_ge by (rewrite length_mem_read; lia). rewrite length_mem_read, Nat.sub_diag.
  apply sub_app_hd, length_mem_read.
Qed.

Lemma bytes_ok_mem_read m a n : (forall x, is_byte (m x)) -> bytes_ok (mem_read m a n).
Proof. intros. unfold mem_read, bytes_ok. apply Forall_fmap, Forall_true. intros; simpl; auto. Qed.

Lemma mem_write_out m a l x : ~ (a <= x < a + zlen l) -> mem_write m a l x = m x.
Proof. intros. unfold mem_write. crange; [lia|done]. Qed.

Lemma mem_write_in m a l x :
  a <= x < a + zlen l -> mem_write m a l x = nthz l (x - a).
Proof. intros. unfold mem_write. crange; [done|lia]. Qed.

#[export] Hint Rewrite @length_mem_read : buf.

(** ** Outcomes and the state monad

    A C function over a state [S] either returns, leaves the program (a jump to
    the application, a system reset, the fatal error handler), or has undefined
    behaviour (an out-of-bounds copy, a read of an uninitialised object, a call
    through a null pointer).  [NoFuel] marks a loop whose bound was exhausted;
    the theorems that matter rule it out. *)
Inductive exit_kind : Type :=
| JumpedTo (addr : Z)
| SystemReset
| FatalError.

#[export] Instance exit_kind_eq_dec : EqDecision exit_kind.
Proof. solve_decision. Defined.

Inductive outcome (S A : Type) : Type :=
| Ret (a : A) (s : S)
| Halt (e : exit_kind) (s : S)
| Undef
| NoFuel.
Arguments Ret {S A} a s.
Arguments Halt {S A} e s.
Arguments Undef {S A}.
Arguments NoFuel {S A}.

Definition M (S A : Type) : Type := S -> outcome S A.

#[export] Instance M_ret S : MRet (M S) := fun A a s => Ret a s.
#[export] Instance M_bind S : MBind (M S) := fun A B f m s =>
  match m s with
  | Ret a s' => f a s'
  | Halt e s' => Halt e s'
  | Undef => Undef
  | NoFuel => NoFuel
  end.

Definition get {S} : M S S := fun s => Ret s s.
Definition gets {S A} (f : S -> A) : M S A := fun s => Ret (f s) s.
Definition modify {S} (f : S -> S) : M S unit := fun s => Ret tt (f s).
Definition undef {S A} : M S A := fun _ => Undef.
Definition halt {S A} (e : exit_kind) : M S A := fun s => Halt e s.

(** [zoom get put m] runs [m] on a component of the state. *)
Definition zoom {S P A} (proj : S -> P) (put : P -> S -> S) (m : M P A) : M S A :=
  fun s => match m (proj s) with
           | Ret a p => Ret a (put p s)
           | Halt e p => Halt e (put p s)
           | Undef => Undef
           | NoFuel => NoFuel
           end.

Lemma bind_ret_eq {S A B} (m : M S A) (f : A -> M S B) s a s' :
  m s = Ret a s' -> (m ≫= f) s = f a s'.
Proof. intros H. unfold mbind, M_bind. by rewrite H. Qed.

Lemma bind_ret_inv {S A B} (m : M S A) (f : A -> M S B) s b s' :
  (m ≫= f) s = Ret b s' -> exists a s1, m s = Ret a s1 /\ f a s1 = Ret b s'.
Proof. unfold mbind, M_bind. destruct (m s) as [a s1| | |]; try done. eauto. Qed.
Lemma bind_assoc {S A B C} (m : M S A) (f : A -> M S B) (g : B -> M S C) s :
  ((m ≫= f) ≫= g) s = (m ≫= (fun a => f a ≫= g)) s.
Proof. unfold mbind, M_bind. by destruct (m s). Qed.

Lemma bind_halt_eq {S A B} (m : M S A) (f : A -> M S B) s e s' :
  m s = Halt e s' -> (m ≫= f) s = Halt e s'.
Proof. intros H. unfold mbind, M_bind. by rewrite H. Qed.

Lemma zoom_ret_eq {S P A} (pr : S -> P) put (m : M P A) s a p :
  m (pr s) = Ret a p -> zoom pr put m s = Ret a (put p s).
Proof. intros H. unfold zoom. by rewrite H. Qed.

(** [mstep] reduces the head of a monadic computation whose first action is a
    return, a state access or an update; [mrun H] uses a known result. *)
Ltac mstep :=
  repeat (first
    [ progress (unfold mret at 1, M_ret at 1)
    | progress (unfold mbind at 1, M_bind at 1)
    | progress (unfold gets at 1)
    | progress (unfold get at 1)
    | progress (unfold modify at 1) ]; cbn beta iota).

Ltac mrun H := first [rewrite (bind_ret_eq _ _ _ _ _ H) | rewrite (bind_halt_eq _ _ _ _ _ H)]; cbn beta.

(** ** Total correctness

    [returns m Q s]: started in [s], [m] returns, and [Q] holds of the result
    and the final state.  An undefined behaviour, an exhausted loop bound or a
    jump out of the program all make it false. *)
Definition returns {S A} (m : M S A) (Q : A -> S -> Prop) (s : S) : Prop :=
  match m s with Ret a s' => Q a s' | _ => False end.

Lemma returns_bind {S A B} (m : M S A) (f : A -> M S B) Q s :
  returns m (fun a s' => returns (f a) Q s') s -> returns (m ≫= f) Q s.
Proof. unfold returns, mbind, M_bind. by destruct (m s). Qed.

Lemma returns_mono {S A} (m : M S A) (Q Q' : A -> S -> Prop) s :
  returns m Q s -> (forall a s', Q a s' -> Q' a s') -> returns m Q' s.
Proof. unfold returns. destruct (m s); auto. Qed.

Lemma returns_elim {S A} (m : M S A) (Q : A -> S -> Prop) s :
  returns m Q s -> exists a s', m s = Ret a s' /\ Q a s'.
Proof. unfold returns. destruct (m s); naive_solver. Qed.

Lemma returns_and {S A} (m : M S A) (Q Q' : A -> S -> Prop) s :
  returns m Q s -> returns m Q' s -> returns m (fun a s' => Q a s' /\ Q' a s') s.
Proof. unfold returns. destruct (m s); naive_solver. Qed.

Lemma returns_zoom {S P A} (pr : S -> P) put (m : M P A) Q s :
  returns m (fun a p => Q a (put p s)) (pr s) -> returns (zoom pr put m) Q s.
Proof. unfold returns, zoom. by destruct (m (pr s)). Qed.
Lemma returns_eq {S A} (m m' : M S A) Q s s' : m s = m' s' -> returns m' Q s' -> returns m Q s.
Proof. unfold returns. by intros ->. Qed.

Lemma returns_intro {S A} (m : M S A) (Q : A -> S -> Prop) s a s' : m s = Ret a s' -> Q a s' -> returns m Q s.
Proof. unfold returns. by intros ->. Qed.

(** [rstep] runs the head action of a goal [returns m Q s] when it is a
    return, a state access or an update; [rcall H] uses what is known of a call
    and keeps its result for the rest. *)
Section Steps.
Context {S A B : Type} (Q : B -> S -> Prop) (k : A -> M S B) (s : S).
Lemma returns_step_gets (f : S -> A) : returns (k (f s)) Q s -> returns (gets f ≫= k) Q s.
Proof. exact (fun H => H). Qed.
Lemma returns_step_ret (a : A) : returns (k a) Q s -> returns (mret a ≫= k) Q s.
Proof. exact (fun H => H). Qed.
Lemma returns_ret (b : B) : Q b s -> returns (mret b) Q s.
Proof. exact (fun H => H). Qed.
Lemma returns_gets (f : S -> B) : Q (f s) s -> returns (gets f) Q s.
Proof. exact (fun H => H). Qed.
End Steps.

Lemma returns_step_get {S B} (Q : B -> S -> Prop) k s : returns (k s) Q s -> returns (get ≫= k) Q s.
Proof. exact (fun H => H). Qed.
Lemma returns_step_modify {S B} (Q : B -> S -> Prop) k f s : returns (k tt) Q (f s) -> returns (modify f ≫= k) Q s.
Proof. exact (fun H => H). Qed.
Lemma returns_modify {S} (Q : unit -> S -> Prop) f s : Q tt (f s) -> returns (modify f) Q s.
Proof. exact (fun H => H). Qed.

Ltac rstep :=
  repeat (match goal with
  | |- returns (gets ?f ≫= ?k) ?Q ?s => refine (returns_step_gets Q k s f _)
  | |- returns (get ≫= ?k) ?Q ?s => refine (returns_step_get Q k s _)
  | |- returns (modify ?f ≫= ?k) ?Q ?s => refine (returns_step_modify Q k f s _)
  | |- returns (mret ?a ≫= ?k) ?Q ?s => refine (returns_step_ret Q k s a _)
  | |- returns (mret ?a) ?Q ?s => refine (returns_ret Q s a _)
  | |- returns (modify ?f) ?Q ?s => refine (returns_modify Q f s _)
  | |- returns (gets ?f) ?Q ?s => refine (returns_gets Q s f _)
  | |- returns ((_ ≫= _) ≫= _) _ _ => apply returns_bind
  end; cbn beta iota).

Ltac rcall H := apply returns_bind; eapply returns_mono; [apply H|]; cbn beta.

(** [rpure] runs a head action that reduces to a return; [rrun H] one whose outcome
    is the equation [H]. *)
Ltac rpure := eapply returns_eq; [erewrite bind_ret_eq by reflexivity; reflexivity|]; cbn beta iota.
Ltac rrun H := eapply returns_eq; [erewrite bind_ret_eq by exact H; reflexivity|]; cbn beta iota.
