(* ===== verification/Heap.v ===== *)
(** The heap of the firmware's allocator: blocks of bytes under distinct
    addresses, and the list of the addresses in use, against which the
    components state who owns what. *)
From stdpp Require Import gmap.
From S2P Require Import Prelude.

(** Addresses of heap blocks. *)
Definition ptr : Type := positive.

(** ** Ownership of heap blocks *)
Definition blocks (m : gmap ptr (list Z)) : list ptr := elements (dom m : gset ptr).

Lemma blocks_insert m p l : m !! p = None -> blocks (<[p := l]> m) ≡ₚ p :: blocks m.
Proof.
  intros H. unfold blocks. rewrite dom_insert_L.
  apply elements_union_singleton. by apply not_elem_of_dom.
Qed.

Lemma blocks_update m p l k : m !! p = Some k -> blocks (<[p := l]> m) = blocks m.
Proof.
  intros H. unfold blocks. rewrite dom_insert_L.
  replace ({[p]} ∪ dom m) with (dom m); [done|].
  assert (p ∈ dom m) by (apply elem_of_dom; eauto). set_solver.
Qed.

Lemma blocks_delete m p l : m !! p = Some l -> blocks m ≡ₚ p :: blocks (delete p m).
Proof.
  intros H. rewrite <- (blocks_insert (delete p m) p l) by apply lookup_delete_eq.
  by rewrite insert_delete_eq, insert_id.
Qed.

Lemma blocks_nodup m : NoDup (blocks m).
Proof. unfold blocks. apply NoDup_elements. Qed.

Lemma blocks_lookup m p : p ∈ blocks m -> exists l, m !! p = Some l.
Proof. unfold blocks. rewrite elem_of_elements, elem_of_dom. done. Qed.

(** ** Tables whose entries own blocks *)
Section Table.
Context {F : Type} (pay : F -> option ptr).

Lemma omap_insert (l : list F) i f g :
  l !! i = Some g ->
  option_list (pay g) ++ omap pay (<[i := f]> l) ≡ₚ option_list (pay f) ++ omap pay l.
Proof.
  intros H. rewrite insert_take_drop by (by eapply lookup_lt_Some).
  rewrite <- (take_drop_middle l i g H) at 3. rewrite !omap_app. cbn.
  destruct (pay g), (pay f); cbn; solve_Permutation.
Qed.

Lemma omap_elem (l : list F) (i : nat) f p : l !! i = Some f -> pay f = Some p -> p ∈ omap pay l.
Proof. intros. apply list_elem_of_omap. exists f. split; [by eapply list_elem_of_lookup_2|done]. Qed.
End Table.
