(* ===== verification/FlashPort.v ===== *)
(** The STM32G0 flash port of the bootloader
    ([boot/ota_module/platform/stm32/stm32g0xx_port.c]): double-word
    programming with a cache for the trailing partial double-word, page erase
    over two banks, and the read/write/erase entry points the OTA module is
    configured with.

    The flash controller itself is hardware: it is the parameter [FlashHw], and
    [FlashHwLaws] states the documented behaviour the port relies on. *)
From S2P Require Import Prelude.

(** ** The flash controller *)

(** Constants of [stm32g0xx_hal_flash.h] and of the device header. *)
Definition FLASH_BASE : Z := 134217728.            (* 0x08000000 *)
Definition FLASH_PAGE_SIZE : Z := 2048.            (* 0x800 *)
Definition FLASH_BANK_1 : Z := 4.                  (* FLASH_CR_MER1 *)
Definition FLASH_BANK_2 : Z := 32768.              (* FLASH_CR_MER2 *)

(** Operations of the controller, as the HAL driver exposes them; [true] is
    [HAL_OK].  [FLASH_BANK_SIZE] is read from the device's size register. *)
Class FlashHw (hw : Type) : Type := {
  hw_mem : hw -> mem;
  hw_unlocked : hw -> bool;
  FLASH_BANK_SIZE : Z;
  HAL_FLASH_Unlock : hw -> bool * hw;
  HAL_FLASH_Lock : hw -> bool * hw;
  HAL_FLASH_CLEAR_OPTVERR : hw -> hw;
  HAL_FLASH_Program : Z -> list Z -> hw -> bool * hw;
  HAL_FLASHEx_Erase : Z -> Z -> Z -> hw -> bool * hw
}.

(** First address of a page of a bank. *)
Definition page_addr `{FlashHw hw} (bank page : Z) : Z :=
  (if bank =? FLASH_BANK_1 then FLASH_BASE else FLASH_BASE + FLASH_BANK_SIZE)
  + page * FLASH_PAGE_SIZE.

(** What the reference manual says of a controller in working order: unlocking
    and locking succeed and do not change the array; a double-word can be
    programmed when it is erased and the control register is unlocked; a page
    erase sets the pages to [0xFF] and leaves the rest. *)
Class FlashHwLaws (hw : Type) `{FlashHw hw} : Type := {
  hw_healthy : hw -> Prop;
  bank_size_pos : 0 < FLASH_BANK_SIZE;
  bank_size_pages : FLASH_BANK_SIZE mod FLASH_PAGE_SIZE = 0;
  bank_size_addr : FLASH_BASE + 2 * FLASH_BANK_SIZE < 4294967296;
  unlock_ok h : hw_healthy h -> exists h', HAL_FLASH_Unlock h = (true, h') /\ hw_healthy h' /\
    hw_unlocked h' = true /\ (forall x, hw_mem h' x = hw_mem h x);
  lock_ok h : hw_healthy h -> exists h', HAL_FLASH_Lock h = (true, h') /\ hw_healthy h' /\
    (forall x, hw_mem h' x = hw_mem h x);
  clear_ok h : hw_healthy h -> hw_healthy (HAL_FLASH_CLEAR_OPTVERR h) /\
    hw_unlocked (HAL_FLASH_CLEAR_OPTVERR h) = hw_unlocked h /\
    (forall x, hw_mem (HAL_FLASH_CLEAR_OPTVERR h) x = hw_mem h x);
  mem_bytes h x : hw_healthy h -> is_byte (hw_mem h x);
  program_ok h a dw : hw_healthy h -> hw_unlocked h = true -> a mod 8 = 0 -> length dw = 8%nat ->
    bytes_ok dw ->
    (forall x, a <= x < a + 8 -> hw_mem h x = 255) ->
    exists h', HAL_FLASH_Program a dw h = (true, h') /\ hw_healthy h' /\ hw_unlocked h' = true /\
    (forall x, hw_mem h' x = mem_write (hw_mem h) a dw x);
  erase_ok h b p n : hw_healthy h -> hw_unlocked h = true -> 0 <= p -> 0 < n ->
    (p + n) * FLASH_PAGE_SIZE <= FLASH_BANK_SIZE ->
    exists h', HAL_FLASHEx_Erase b p n h = (true, h') /\ hw_healthy h' /\ hw_unlocked h' = true /\
    (forall x, hw_mem h' x = mem_fill (hw_mem h) (page_addr b p) (n * FLASH_PAGE_SIZE) 255 x)
}.

(** ** State of the port *)

(** The pending double-word [s_dw_cache]. *)
Record flash_dw_cache_t : Type := mkDwCache {
  addr_aligned : Z;
  buf : list Z;
  mask : Z;
  valid : Z
}.

Definition flash_dw_cache_empty : flash_dw_cache_t := mkDwCache 0 (replicate 8 0) 0 0.

(** Flash type codes of [ota_flash_type_t]. *)
Definition OTA_FLASH_TYPE_INTERNAL : Z := 0.
Definition OTA_FLASH_TYPE_EXTERNAL : Z := 1.
Definition OTA_FLASH_TYPE_RAM : Z := 2.

Definition align_down_u32 (v a : Z) : Z := if a =? 0 then v else (v / a) *u a.
Definition align_up_u32 (v a : Z) : Z := if a =? 0 then v else ((v +u a) -u 1) / a *u a.

Section Port.
Context {hw : Type} `{FlashHw hw}.

(** Controller, cache, and the interrupt mask register PRIMASK. *)
Record port : Type := mkPort {
  p_hw : hw;
  s_dw_cache : flash_dw_cache_t;
  p_primask : Z
}.

Definition set_hw (h : hw) (p : port) : port := mkPort h (s_dw_cache p) (p_primask p).
Definition set_cache (c : flash_dw_cache_t) (p : port) : port := mkPort (p_hw p) c (p_primask p).
Definition set_primask (v : Z) (p : port) : port := mkPort (p_hw p) (s_dw_cache p) v.

(** A HAL call that reports a status. *)
Definition hal (f : hw -> bool * hw) : M port bool :=
  fun p => let '(ok, h) := f (p_hw p) in Ret ok (set_hw h p).

Definition flash_irq_enter : M port Z :=
  saved ← gets p_primask;
  modify (set_primask 1);;
  mret saved.

Definition flash_irq_exit (saved_primask : Z) : M port unit :=
  if saved_primask =? 0 then modify (set_primask 0) else mret tt.

Definition flash_dw_cache_clear : M port unit := modify (set_cache flash_dw_cache_empty).

(** Flash contents through the memory map. *)
Definition flash_bytes (a : Z) (n : nat) : M port (list Z) :=
  gets (fun p => mem_read (hw_mem (p_hw p)) a n).

(** ** Programming *)
Definition internal_flash_program_doubleword (addr : Z) (desired_dw : list Z) : M port Z :=
  existing_dw ← flash_bytes addr 8;
  if bool_decide (existing_dw = desired_dw) then mret 0
  else if forallb (fun j => Z.land (nthz existing_dw j) (nthz desired_dw j) =? nthz desired_dw j)
                  [0; 1; 2; 3; 4; 5; 6; 7]
  then ok ← hal (HAL_FLASH_Program addr desired_dw); mret (if ok : bool then 0 else -1)
  else mret (-1).

Definition internal_flash_flush_dw_cache : M port Z :=
  c ← gets s_dw_cache;
  if valid c =? 0 then mret 0
  else rc ← internal_flash_program_doubleword (addr_aligned c) (buf c);
       flash_dw_cache_clear;;
       mret rc.

(** The bytes of the current write that fall in the double-word at [cur]. *)
Definition apply_byte (cur addr end_ : Z) (data : list Z) (dw : list Z * Z) (j : Z)
  : list Z * Z :=
  let byte_addr := cur +u j in
  if (addr <=? byte_addr) && (byte_addr <? end_)
  then (<[Z.to_nat j := nthz data (byte_addr -u addr)]> dw.1, Z.lor dw.2 (u8 (Z.shiftl 1 j)))
  else dw.

Definition apply_write (cur addr end_ : Z) (data : list Z) (dw : list Z * Z) : list Z * Z :=
  foldl (apply_byte cur addr end_ data) dw [0; 1; 2; 3; 4; 5; 6; 7].

(** One round of the loop of [internal_flash_program_bytes]: build the wanted
    image of the double-word at [cur], then cache it or program it. *)
Definition program_step (cur addr end_ last_dw : Z) (data : list Z) : M port Z :=
  c ← gets s_dw_cache;
  base ← (if negb (valid c =? 0) && (addr_aligned c =? cur) then mret (buf c, mask c)
          else bs ← flash_bytes cur 8; mret (bs, 0));
  let '(desired_dw, local_mask) := apply_write cur addr end_ data base in
  let is_last := cur =? last_dw in
  let full_mask := local_mask =? 255 in
  if is_last && negb full_mask then
    modify (set_cache (mkDwCache cur desired_dw local_mask 1));; mret 0
  else
    rc ← internal_flash_program_doubleword cur desired_dw;
    if negb (rc =? 0) then mret rc
    else
      (if negb (valid c =? 0) && (addr_aligned c =? cur) then flash_dw_cache_clear
       else mret tt);;
      mret 0.

Fixpoint program_loop (fuel : nat) (cur addr end_ last_dw : Z) (data : list Z) : M port Z :=
  if cur <? end_ then
    match fuel with
    | O => fun _ => NoFuel
    | S fuel' =>
        rc ← program_step cur addr end_ last_dw data;
        if negb (rc =? 0) then mret rc
        else program_loop fuel' (cur +u 8) addr end_ last_dw data
    end
  else mret 0.

Definition internal_flash_program_bytes (addr : Z) (data : list Z) (size : Z) : M port Z :=
  if size =? 0 then mret 0
  else
    let end_ := addr +u size in
    let first_dw := align_down_u32 addr 8 in
    let last_dw := align_down_u32 (end_ -u 1) 8 in
    c ← gets s_dw_cache;
    frc ← (if negb (valid c =? 0) && (addr_aligned c <? first_dw)
           then internal_flash_flush_dw_cache else mret 0);
    if negb (frc =? 0) then mret frc
    else program_loop (S (Z.to_nat (size / 8 + 1))) first_dw addr end_ last_dw data.

(** ** Erasing *)
Definition flash_page_from_address (addr : Z) : Z :=
  if addr <? FLASH_BASE +u FLASH_BANK_SIZE then (addr -u FLASH_BASE) / FLASH_PAGE_SIZE
  else (addr -u (FLASH_BASE +u FLASH_BANK_SIZE)) / FLASH_PAGE_SIZE.

(** The device has two banks ([FLASH_DBANK_SUPPORT]). *)
Definition flash_bank_from_address (addr : Z) : Z :=
  if addr <? FLASH_BASE +u FLASH_BANK_SIZE then FLASH_BANK_1 else FLASH_BANK_2.

Definition flash_bank_base_from_bank (bank : Z) : Z :=
  if bank =? FLASH_BANK_1 then FLASH_BASE else FLASH_BASE +u FLASH_BANK_SIZE.

Fixpoint erase_loop (fuel : nat) (cur remaining : Z) : M port Z :=
  if 0 <? remaining then
    match fuel with
    | O => fun _ => NoFuel
    | S fuel' =>
        let bank := flash_bank_from_address cur in
        let bank_end := flash_bank_base_from_bank bank +u FLASH_BANK_SIZE in
        let max_pages_in_bank := (bank_end -u cur) / FLASH_PAGE_SIZE in
        let pages_to_erase := Z.min (remaining / FLASH_PAGE_SIZE) max_pages_in_bank in
        ok ← hal (HAL_FLASHEx_Erase bank (flash_page_from_address cur) pages_to_erase);
        if negb ok then hal HAL_FLASH_Lock;; mret (-1)
        else erase_loop fuel' (cur +u pages_to_erase *u FLASH_PAGE_SIZE)
                        (remaining -u pages_to_erase *u FLASH_PAGE_SIZE)
    end
  else
    ok ← hal HAL_FLASH_Lock;
    mret (if ok : bool then 0 else -1).

(** Every round that erases at least one page shortens the rest by a page, so
    the number of pages bounds the rounds; a round with no page left in the
    bank does not make progress. *)
Definition flash_erase_internal_pages (addr size : Z) : M port Z :=
  if size =? 0 then mret 0
  else
    flash_dw_cache_clear;;
    let addr := align_down_u32 addr FLASH_PAGE_SIZE in
    let size := align_up_u32 size FLASH_PAGE_SIZE in
    irq_saved ← flash_irq_enter;
    ok ← hal HAL_FLASH_Unlock;
    if negb ok then flash_irq_exit irq_saved;; mret (-1)
    else
      modify (fun p => set_hw (HAL_FLASH_CLEAR_OPTVERR (p_hw p)) p);;
      rc ← erase_loop (Z.to_nat (size / FLASH_PAGE_SIZE)) addr size;
      flash_irq_exit irq_saved;;
      mret rc.

(** ** Entry points of the OTA module *)
Definition stm32g0xx_flash_read (flash_type addr size : Z) : M port (Z * list Z) :=
  if size =? 0 then mret (0, [])
  else if flash_type =? OTA_FLASH_TYPE_INTERNAL then
    bs ← flash_bytes addr (Z.to_nat size); mret (0, bs)
  else mret (-1, []).

(** Unlock, run [body], lock and restore the interrupt mask. *)
Definition with_flash_unlocked (body : M port Z) : M port Z :=
  irq_saved ← flash_irq_enter;
  ok ← hal HAL_FLASH_Unlock;
  if negb ok then flash_irq_exit irq_saved;; mret (-1)
  else
    modify (fun p => set_hw (HAL_FLASH_CLEAR_OPTVERR (p_hw p)) p);;
    rc ← body;
    hal HAL_FLASH_Lock;;
    flash_irq_exit irq_saved;;
    mret rc.

(** [data = None] is the null pointer of the explicit flush. *)
Definition stm32g0xx_flash_write (flash_type addr : Z) (data : option (list Z)) (size : Z)
  : M port Z :=
  if negb (flash_type =? OTA_FLASH_TYPE_INTERNAL) then mret (-1)
  else if size =? 0 then with_flash_unlocked internal_flash_flush_dw_cache
  else match data with
       | None => mret (-1)
       | Some d => with_flash_unlocked (internal_flash_program_bytes addr d size)
       end.

Definition stm32g0xx_flash_erase (flash_type addr size : Z) : M port Z :=
  if negb (flash_type =? OTA_FLASH_TYPE_INTERNAL) then mret (-1)
  else flash_erase_internal_pages addr size.

(** A jump to the null address is refused; any other leaves the bootloader. *)
Definition stm32g0xx_jump (jump_addr : Z) : M port Z :=
  if jump_addr =? 0 then mret (-1)
  else modify (set_primask 1);; halt (JumpedTo jump_addr).

End Port.
Arguments port hw : clear implicits.

(** ** Abstract view of the port

    [raw] is what a read returns; [view] is what the caller has written so far,
    pending double-word included; [pending] is the set of addresses whose bytes
    are still in the cache. *)
Section Views.
Context {hw : Type} `{FlashHwLaws hw}.
Implicit Types p : port hw.

Definition raw p : mem := hw_mem (p_hw p).

Definition cached p (x : Z) : bool :=
  negb (valid (s_dw_cache p) =? 0) && in_range (addr_aligned (s_dw_cache p)) 8 x.

Definition view p : mem := fun x =>
  if cached p x then nthz (buf (s_dw_cache p)) (x - addr_aligned (s_dw_cache p)) else raw p x.

Definition pending p (x : Z) : Prop :=
  cached p x = true /\ Z.testbit (mask (s_dw_cache p)) (x - addr_aligned (s_dw_cache p)) = true.

(** Well-formedness of the cache: an aligned double-word of bytes that has not
    been programmed since it was erased, with at least one byte provided. *)
Record cache_wf (p : port hw) : Prop := mkCacheWf {
  cw_align : valid (s_dw_cache p) <> 0 -> addr_aligned (s_dw_cache p) mod 8 = 0;
  cw_range : valid (s_dw_cache p) <> 0 ->
    0 <= addr_aligned (s_dw_cache p) /\ addr_aligned (s_dw_cache p) + 8 < 4294967296;
  cw_len : valid (s_dw_cache p) <> 0 -> length (buf (s_dw_cache p)) = 8%nat;
  cw_bytes : valid (s_dw_cache p) <> 0 -> bytes_ok (buf (s_dw_cache p));
  cw_erased : forall x, cached p x = true -> raw p x = 255;
  cw_some : valid (s_dw_cache p) <> 0 -> exists x, pending p x
}.

Definition port_ok p : Prop := hw_healthy (p_hw p) /\ cache_wf p.
Definition unlocked p : Prop := hw_unlocked (p_hw p) = true.

Lemma cached_spec p x :
  cached p x = true <-> valid (s_dw_cache p) <> 0 /\
    addr_aligned (s_dw_cache p) <= x < addr_aligned (s_dw_cache p) + 8.
Proof.
  unfold cached. rewrite andb_true_iff, in_range_spec, negb_true_iff, Z.eqb_neq. done.
Qed.

Lemma view_uncached p x : cached p x = false -> view p x = raw p x.
Proof. intros E. unfold view. by rewrite E. Qed.

Lemma pending_align p a :
  cache_wf p -> (forall x, pending p x -> x < a) -> valid (s_dw_cache p) <> 0 ->
  addr_aligned (s_dw_cache p) <= a / 8 * 8.
Proof.
  intros W Hp Hv. destruct (cw_some _ W Hv) as [x Hx]. pose proof (Hp x Hx).
  destruct Hx as [Hc%cached_spec _]. pose proof (cw_align _ W Hv). lia.
Qed.

Lemma cache_wf_empty h m : cache_wf (mkPort h flash_dw_cache_empty m).
Proof. split; simpl; try done. Qed.

(** ** Programming one double-word *)
Lemma land_255 b : is_byte b -> Z.land 255 b = b.
Proof.
  intros Hb. rewrite Z.land_comm. change 255 with (Z.ones 8).
  rewrite Z.land_ones by lia. apply Z.mod_small. unfold is_byte in Hb. lia.
Qed.

Lemma program_doubleword_ok p a dw :
  hw_healthy (p_hw p) -> unlocked p -> a mod 8 = 0 -> length dw = 8%nat -> bytes_ok dw ->
  (forall x, a <= x < a + 8 -> raw p x = 255) ->
  exists h', internal_flash_program_doubleword a dw p = Ret 0 (set_hw h' p) /\
    hw_healthy h' /\ hw_unlocked h' = true /\
    (forall x, hw_mem h' x = mem_write (raw p) a dw x).
Proof.
  intros Hh Hu Ha Hl Hb He. unfold internal_flash_program_doubleword, flash_bytes, raw in *.
  assert (Hff : mem_read (hw_mem (p_hw p)) a 8 = replicate 8 255).
  { unfold mem_read. simpl. rewrite !He by lia. done. }
  mstep. rewrite Hff. case_bool_decide as Hd.
  - exists (p_hw p). destruct p as [h c m]; simpl in *. split_and!; auto.
    intros x. unfold mem_write, raw in *; simpl in *. crange; auto.
    unfold zlen in Hr; rewrite Hl in Hr. rewrite He by lia.
    subst dw. symmetry. apply nthz_lookup. apply (lookup_replicate_2 8). lia.
  - replace (forallb _ _) with true.
    + destruct (program_ok _ _ _ Hh Hu Ha Hl Hb He) as (h' & Hp & ? & ? & ?).
      exists h'. mstep. unfold hal. rewrite Hp. done.
    + symmetry. apply forallb_forall. intros j Hj. apply Z.eqb_eq.
      replace (nthz (replicate 8 255) j) with 255
        by (simpl in Hj; destruct_or!; subst; try done).
      apply land_255, nthz_byte. done.
Qed.

(** Flushing the cache commits the pending bytes. *)
Lemma flush_ok p :
  port_ok p -> unlocked p ->
  exists h', internal_flash_flush_dw_cache p = Ret 0 (mkPort h' (if valid (s_dw_cache p) =? 0
      then s_dw_cache p else flash_dw_cache_empty) (p_primask p)) /\
    hw_healthy h' /\ hw_unlocked h' = true /\ (forall x, hw_mem h' x = view p x).
Proof.
  intros [Hh W] Hu. unfold internal_flash_flush_dw_cache. mstep. destruct (valid _ =? 0) eqn:Hv; cbool.
  - exists (p_hw p). destruct p; simpl in *. split_and!; auto.
    intros x. unfold view, cached, raw. simpl. rewrite Hv. done.
  - destruct (program_doubleword_ok p (addr_aligned (s_dw_cache p)) (buf (s_dw_cache p)))
      as (h' & Hp & ? & ? & Hm); auto using cw_align, cw_len, cw_bytes.
    { intros x Hx. apply cw_erased; auto. by apply cached_spec. }
    exists h'. rewrite Hp. destruct p as [h c m]; simpl in *. split_and!; auto.
    intros x. rewrite Hm. unfold view, mem_write, cached. simpl.
    rewrite (proj2 (Z.eqb_neq _ _) Hv). pose proof (cw_len _ W Hv) as Hl. simpl in Hl. unfold zlen. by rewrite Hl.
Qed.

(** ** Programming a byte range *)
Lemma apply_write_fold cur addr end_ data js dw mk :
  (forall j, j ∈ js -> 0 <= j < 8) -> 0 <= cur -> cur + 8 < 4294967296 -> 0 <= addr ->
  length dw = 8%nat ->
  let r := foldl (apply_byte cur addr end_ data) (dw, mk) js in
  length r.1 = 8%nat /\
  forall i, 0 <= i < 8 ->
    nthz r.1 i = (if bool_decide (i ∈ js) && in_range addr (end_ - addr) (cur + i)
                  then nthz data (cur + i - addr) else nthz dw i) /\
    Z.testbit r.2 i = (bool_decide (i ∈ js) && in_range addr (end_ - addr) (cur + i))
                      || Z.testbit mk i.
Proof.
  intros Hjs Hc Hc' Ha Hl. revert dw mk Hl. induction js as [|j js IH]; intros dw mk Hl r; subst r.
  { cbn [foldl fst snd]. split; [done|]. intros i Hi. by rewrite (bool_decide_eq_false_2 (i ∈ [])) by set_solver. }
  assert (0 <= j < 8) by (apply Hjs; left). specialize (IH ltac:(set_solver)). cbn [foldl].
  unfold apply_byte at 2 4 6. cbn [fst snd].
  replace (cur +u j) with (cur + j) by (rewrite u32_small; lia).
  destruct ((addr <=? cur + j) && (cur + j <? end_)) eqn:Hin; cbool.
  - replace (cur + j -u addr) with (cur + j - addr) by (rewrite u32_small; lia).
    replace (u8 (Z.shiftl 1 j)) with (2 ^ j) by
      (rewrite Z.shiftl_1_l; symmetry; apply u8_small; split; [lia|];
       change 256 with (2 ^ 8); apply Z.pow_lt_mono_r; lia).
    destruct (IH (<[Z.to_nat j:=nthz data (cur + j - addr)]> dw) (Z.lor mk (2 ^ j))) as [Hlen Hx];
      [by rewrite length_insert|]. cbn [fst snd]. split; [done|]. intros i Hi.
    destruct (Hx i Hi) as [-> ->]. rewrite Z.lor_spec, Z.pow2_bits_eqb by lia.
    destruct (decide (i = j)) as [->|Hne].
    + rewrite (bool_decide_eq_true_2 (j ∈ j :: js)) by left.
      assert (in_range addr (end_ - addr) (cur + j) = true) as -> by (apply in_range_spec; lia).
      rewrite Z.eqb_refl, !andb_true_r, !orb_true_r. split; [|done].
      destruct (bool_decide _); [done|]. apply nthz_lookup, list_lookup_insert_eq. lia.
    + assert (bool_decide (i ∈ j :: js) = bool_decide (i ∈ js)) as ->
        by (apply bool_decide_ext; set_solver).
      rewrite (proj2 (Z.eqb_neq j i)), orb_false_r by done. split; [|done].
      destruct (_ && _); [done|]. unfold nthz. rewrite !nth_lookup, list_lookup_insert_ne by lia. done.
  - destruct (IH dw mk Hl) as [Hlen Hx]. split; [done|]. intros i Hi. destruct (Hx i Hi) as [-> ->].
    destruct (decide (i = j)) as [->|Hne].
    + assert (in_range addr (end_ - addr) (cur + j) = false) as ->.
      { apply in_range_false. apply andb_false_iff in Hin as [?|?]; cbool; lia. }
      by rewrite !andb_false_r.
    + assert (bool_decide (i ∈ j :: js) = bool_decide (i ∈ js)) as ->
        by (apply bool_decide_ext; set_solver). done.
Qed.

Lemma apply_write_spec cur addr end_ data dw mk :
  0 <= cur -> cur + 8 < 4294967296 -> 0 <= addr -> length dw = 8%nat ->
  length (apply_write cur addr end_ data (dw, mk)).1 = 8%nat /\
  forall i, 0 <= i < 8 ->
    nthz (apply_write cur addr end_ data (dw, mk)).1 i =
      (if in_range addr (end_ - addr) (cur + i) then nthz data (cur + i - addr) else nthz dw i) /\
    Z.testbit (apply_write cur addr end_ data (dw, mk)).2 i =
      in_range addr (end_ - addr) (cur + i) || Z.testbit mk i.
Proof.
  intros. pose proof (apply_write_fold cur addr end_ data [0;1;2;3;4;5;6;7] dw mk) as Hf.
  destruct Hf as [Hl Hx]; auto; [set_solver by lia|]. split; [exact Hl|].
  intros i Hi. destruct (Hx i Hi) as [E1 E2].
  assert (i ∈ [0;1;2;3;4;5;6;7]) as Hin.
  { assert (i = 0 \/ i = 1 \/ i = 2 \/ i = 3 \/ i = 4 \/ i = 5 \/ i = 6 \/ i = 7) by lia.
    destruct_or!; subst; set_solver. }
  rewrite (bool_decide_eq_true_2 _ Hin), andb_true_l in E1, E2. split; assumption.
Qed.

(** The image from which a round starts is the view of the double-word. *)
Definition round_base p (cur : Z) : list Z * Z :=
  if cached p cur then (buf (s_dw_cache p), mask (s_dw_cache p))
  else (mem_read (raw p) cur 8, 0).

Lemma round_base_spec p cur :
  cache_wf p -> cur mod 8 = 0 -> (forall x, cur <= x < cur + 8 -> raw p x = 255) ->
  length (round_base p cur).1 = 8%nat /\ bytes_ok (round_base p cur).1 /\
  forall i, 0 <= i < 8 -> nthz (round_base p cur).1 i = view p (cur + i) /\
    (Z.testbit (round_base p cur).2 i = true -> pending p (cur + i)).
Proof.
  intros W Hc He. unfold round_base. destruct (cached p cur) eqn:E; cbn [fst snd].
  - apply cached_spec in E as [Hv Hr]. pose proof (cw_align _ W Hv).
    assert (addr_aligned (s_dw_cache p) = cur) as Ha by lia.
    split_and!; auto using cw_len, cw_bytes. intros i Hi.
    assert (cached p (cur + i) = true) as Hci by (apply cached_spec; split; [done|lia]).
    unfold pending, view. rewrite Hci, Ha. replace (cur + i - cur) with i by lia. done.
  - split_and!; [apply length_mem_read| |].
    + apply Forall_lookup_2. intros i b Hb.
      assert (i < 8)%nat by (apply lookup_lt_Some in Hb; rewrite length_mem_read in Hb; lia).
      rewrite mem_read_lookup in Hb by lia. simplify_eq. rewrite He by lia. unfold is_byte; lia.
    + intros i Hi. rewrite Z.bits_0. split; [|done]. rewrite view_uncached.
      * apply nthz_lookup. rewrite mem_read_lookup by lia. f_equal. f_equal. lia.
      * destruct (cached p (cur + i)) eqn:E'; [|done]. apply cached_spec in E' as [Hv Hr].
        pose proof (cw_align _ W Hv). assert (~ cached p cur = true) as Hn by congruence.
        exfalso. apply Hn, cached_spec. split; [done|lia].
Qed.

(** A write in progress: the range [addr, end_) of bytes [data], with nothing
    pending at or above [addr]. *)
Record write_pre (p : port hw) (addr end_ : Z) (data : list Z) : Prop := mkWritePre {
  wp_healthy : hw_healthy (p_hw p);
  wp_cache : cache_wf p;
  wp_range : 0 <= addr < end_ /\ end_ + 8 < 4294967296;
  wp_len : zlen data = end_ - addr;
  wp_bytes : bytes_ok data;
  wp_pending : forall x, pending p x -> x < addr
}.

Definition overlay (m : mem) (lo hi addr : Z) (data : list Z) : mem := fun x =>
  if in_range lo (hi - lo) x then nthz data (x - addr) else m x.

Lemma round_image p cur addr end_ data :
  write_pre p addr end_ data -> cur mod 8 = 0 -> 0 <= cur -> cur < end_ ->
  (forall x, cur <= x < cur + 8 -> raw p x = 255) ->
  let r := apply_write cur addr end_ data (round_base p cur) in
  length r.1 = 8%nat /\ bytes_ok r.1 /\
  (forall i, 0 <= i < 8 -> nthz r.1 i = overlay (view p) addr end_ addr data (cur + i)) /\
  (forall i, 0 <= i < 8 -> Z.testbit r.2 i = true -> cur + i < end_) /\
  (forall i, 0 <= i < 8 -> addr <= cur + i < end_ -> Z.testbit r.2 i = true).
Proof.
  intros WP Hc Hc0 Hce He r. subst r. pose proof (wp_range _ _ _ _ WP).
  destruct (round_base_spec p cur) as (Hl & Hb & Hx); eauto using wp_cache.
  destruct (round_base p cur) as [dw mk]; cbn [fst snd] in *.
  destruct (apply_write_spec cur addr end_ data dw mk) as [Hl' Hx']; auto; try lia.
  split_and!; [done| | | |].
  - apply Forall_lookup_2. intros i b Hi. pose proof (lookup_lt_Some _ _ _ Hi) as Hlt.
    rewrite <- (nthz_lookup _ (Z.of_nat i) b) by (by rewrite Nat2Z.id).
    rewrite (proj1 (Hx' (Z.of_nat i) ltac:(lia))).
    destruct (in_range _ _ _); eauto using nthz_byte, wp_bytes with buf.
  - intros i Hi. rewrite (proj1 (Hx' i Hi)), (proj1 (Hx i Hi)). done.
  - intros i Hi. rewrite (proj2 (Hx' i Hi)). crange; [lia|]. simpl. intros Ht.
    apply (proj2 (Hx i Hi)), (wp_pending _ _ _ _ WP) in Ht. lia.
  - intros i Hi ?. rewrite (proj2 (Hx' i Hi)). crange; [done|lia].
Qed.

Lemma program_step_ok p cur addr end_ data :
  write_pre p addr end_ data -> unlocked p ->
  cur mod 8 = 0 -> 0 <= cur -> addr < cur + 8 -> cur < end_ ->
  (valid (s_dw_cache p) <> 0 -> addr_aligned (s_dw_cache p) = cur) ->
  (forall x, cur <= x < cur + 8 -> raw p x = 255) ->
  exists p', program_step cur addr end_ ((end_ - 1) / 8 * 8) data p = Ret 0 p' /\
    hw_healthy (p_hw p') /\ unlocked p' /\ p_primask p' = p_primask p /\ cache_wf p' /\
    (forall x, view p' x = if in_range cur 8 x then overlay (view p) addr end_ addr data x
                           else view p x) /\
    (forall x, ~ (cur <= x < cur + 8) \/ end_ / 8 * 8 <= x -> raw p' x = raw p x) /\
    (cur + 8 < end_ -> valid (s_dw_cache p') = 0) /\
    (forall x, pending p' x -> x < end_).
Proof.
  intros WP Hu Hc Hc0 Hac Hce Hv He. pose proof (wp_range _ _ _ _ WP).
  destruct (round_image p cur addr end_ data) as (Hl & Hb & Hx & Hm & Hm'); auto.
  assert (Hcond : negb (valid (s_dw_cache p) =? 0) && (addr_aligned (s_dw_cache p) =? cur)
                  = cached p cur).
  { unfold cached. destruct (valid _ =? 0) eqn:E; cbool; simpl; [done|].
    rewrite (Hv E), Z.eqb_refl. symmetry. apply in_range_spec. lia. }
  assert (Hbase : (if cached p cur then mret (buf (s_dw_cache p), mask (s_dw_cache p))
                   else bs ← flash_bytes cur 8; mret (bs, 0)) p = Ret (round_base p cur) p)
    by (unfold round_base; by destruct (cached p cur)).
  unfold program_step. erewrite bind_ret_eq by reflexivity. rewrite Hcond. mrun Hbase.
  destruct (apply_write cur addr end_ data (round_base p cur)) as [dw mk]; cbn [fst snd] in *.
  destruct ((cur =? _) && negb (mk =? 255)) eqn:Hlast; cbool.
  - (* the trailing partial double-word goes to the cache *)
    eexists. split; [reflexivity|].
    assert (Hcv : forall x, cached (set_cache (mkDwCache cur dw mk 1) p) x = in_range cur 8 x) by done.
    split_and!; [exact (wp_healthy _ _ _ _ WP)|exact Hu|done| | | | |].
    + split; simpl; auto; try lia.
      * intros x Hcx. apply He. by apply in_range_spec.
      * intros _. exists (Z.max addr cur). split; [apply cached_spec; simpl; split; lia|].
        cbn. apply Hm'; lia.
    + intros x. unfold view at 1. rewrite Hcv. crange.
      * transitivity (nthz dw (x - cur)); [done|]. rewrite Hx by lia. f_equal. lia.
      * rewrite view_uncached; [done|]. destruct (cached p x) eqn:E; [|done].
        apply cached_spec in E as [Hvx Hrx]. rewrite (Hv Hvx) in Hrx. lia.
    + done.
    + lia.
    + intros x [Hcx Ht]. rewrite Hcv in Hcx. apply in_range_spec in Hcx. cbn in Ht.
      apply Hm in Ht; lia.
  - (* a complete or an inner double-word is programmed *)
    destruct (program_doubleword_ok p cur dw) as (h' & Hp & Hh' & Hu' & Hmem); eauto using wp_healthy.
    mrun Hp. cbn [Z.eqb negb].
    set (c' := if cached p cur then flash_dw_cache_empty else s_dw_cache p).
    exists (mkPort h' c' (p_primask p)). split.
    { subst c'. destruct (cached p cur); reflexivity. }
    assert (Hinv : valid c' = 0).
    { subst c'. destruct (cached p cur) eqn:E; [done|]. destruct (decide (valid (s_dw_cache p) = 0)); auto.
      exfalso. assert (cached p cur = true); [|congruence]. apply cached_spec. rewrite Hv; auto. lia. }
    assert (Hnc : forall x, cached (mkPort h' c' (p_primask p)) x = false).
    { intros x. unfold cached. simpl. by rewrite Hinv. }
    split_and!; auto.
    + split; simpl; intros; congruence.
    + intros x. rewrite (view_uncached (mkPort _ _ _)) by auto. unfold raw at 1. simpl.
      rewrite Hmem. unfold mem_write, zlen. rewrite Hl. change (Z.of_nat 8) with 8.
      destruct (in_range cur 8 x) eqn:Hin.
      * apply in_range_spec in Hin. rewrite Hx by lia. f_equal. lia.
      * rewrite view_uncached; [done|]. destruct (cached p x) eqn:E; [|done].
        apply cached_spec in E as [Hvx Hrx]. rewrite (Hv Hvx) in Hrx.
        apply in_range_false in Hin. lia.
    + intros x Hout. unfold raw at 1. simpl. rewrite Hmem. apply mem_write_out.
      unfold zlen. rewrite Hl. change (Z.of_nat 8) with 8.
      destruct Hout as [?|Hge]; [done|]. intros Hin.
      assert (cur = (end_ - 1) / 8 * 8) as Hcl by lia.
      rewrite Hcl, Z.eqb_refl in Hlast. simpl in Hlast. cbool. subst mk.
      assert (cur + (end_ - cur) < end_); [|lia]. apply Hm; [lia|].
      assert (0 <= end_ - cur < 8) as Hj by lia. clear -Hj.
      assert (end_ - cur = 0 \/ end_ - cur = 1 \/ end_ - cur = 2 \/ end_ - cur = 3 \/ end_ - cur = 4 \/
        end_ - cur = 5 \/ end_ - cur = 6 \/ end_ - cur = 7) as Hk by lia.
      destruct_or! Hk; rewrite Hk; done.
    + intros x [Hcx _]. by rewrite Hnc in Hcx.
Qed.

Lemma program_loop_ok n : forall fuel p cur addr end_ data,
  write_pre p addr end_ data -> unlocked p ->
  cur mod 8 = 0 -> 0 <= cur -> addr < cur + 8 -> cur < end_ ->
  (end_ - 1) / 8 * 8 = cur + 8 * Z.of_nat n -> (n < fuel)%nat ->
  (valid (s_dw_cache p) <> 0 -> addr_aligned (s_dw_cache p) = cur) ->
  (forall x, cur <= x < (end_ - 1) / 8 * 8 + 8 -> raw p x = 255) ->
  exists p', program_loop fuel cur addr end_ ((end_ - 1) / 8 * 8) data p = Ret 0 p' /\
    port_ok p' /\ unlocked p' /\ p_primask p' = p_primask p /\
    (forall x, view p' x = overlay (view p) (Z.max addr cur) end_ addr data x) /\
    (forall x, x < cur \/ end_ / 8 * 8 <= x -> raw p' x = raw p x) /\
    (forall x, pending p' x -> x < end_).
Proof.
  induction n as [|n IH]; intros fuel p cur addr end_ data WP Hu Hc Hc0 Hac Hce Hn Hf Hv He;
    destruct fuel as [|fuel]; try lia; pose proof (wp_range _ _ _ _ WP);
    destruct (program_step_ok p cur addr end_ data)
      as (p1 & Hs & Hh1 & Hu1 & Hi1 & Hw1 & Hvw1 & Hr1 & Hv1 & Hp1); auto;
    try (intros; apply He; lia);
    cbn [program_loop]; rewrite (proj2 (Z.ltb_lt _ _) Hce); mrun Hs; cbn [Z.eqb negb];
    rewrite u32_small by lia.
  - exists p1. destruct fuel; cbn [program_loop];
      rewrite (proj2 (Z.ltb_ge _ _)) by lia; split_and!; auto; try (split; assumption);
      try (intros; apply Hr1; lia);
      intros x; rewrite Hvw1; unfold overlay; repeat crange; try done; lia.
  - assert (Hnc : valid (s_dw_cache p1) = 0) by (apply Hv1; lia).
    destruct (IH fuel p1 (cur + 8) addr end_ data)
      as (p2 & Hs2 & Hok2 & Hu2 & Hi2 & Hvw2 & Hr2 & Hp2); auto; try lia.
    + split; eauto using wp_len, wp_bytes. intros x [Hcx%cached_spec _]. tauto.
    + intros x Hx. rewrite Hr1 by lia. apply He. lia.
    + exists p2. split_and!; auto; [congruence| |].
      * intros x. rewrite Hvw2. unfold overlay at 1 2. rewrite Hvw1. unfold overlay.
        repeat crange; try done; lia.
      * intros x Hx. rewrite Hr2, Hr1 by lia. done.
Qed.

(** Writing a range over erased flash: the whole range reaches the view, every
    touched double-word is programmed at most once, and nothing at or above the
    double-word of the end of the range is programmed. *)
Lemma program_bytes_ok p addr data :
  write_pre p addr (addr + zlen data) data -> unlocked p ->
  (forall x, addr / 8 * 8 <= x < (addr + zlen data - 1) / 8 * 8 + 8 -> raw p x = 255) ->
  exists p', internal_flash_program_bytes addr data (zlen data) p = Ret 0 p' /\
    port_ok p' /\ unlocked p' /\ p_primask p' = p_primask p /\
    (forall x, view p' x = mem_write (view p) addr data x) /\
    (forall x, (addr + zlen data) / 8 * 8 <= x -> raw p' x = raw p x) /\
    (forall x, x < addr / 8 * 8 -> raw p' x = raw p x \/ raw p' x = view p x) /\
    (forall x, pending p' x -> x < addr + zlen data).
Proof.
  intros WP Hu He. pose proof (wp_range _ _ _ _ WP) as Hr. pose proof (wp_cache _ _ _ _ WP) as W.
  unfold internal_flash_program_bytes, align_down_u32.
  rewrite (proj2 (Z.eqb_neq _ _)) by lia. cbn [Z.eqb].
  rewrite (u32_small (addr + zlen data)), (u32_small (addr + zlen data - 1)),
    !u32_small by lia.
  erewrite bind_ret_eq by reflexivity.
  assert (Hfl : exists p0, (if negb (valid (s_dw_cache p) =? 0) &&
      (addr_aligned (s_dw_cache p) <? addr / 8 * 8) then internal_flash_flush_dw_cache else mret 0) p
      = Ret 0 p0 /\ write_pre p0 addr (addr + zlen data) data /\ unlocked p0 /\
      p_primask p0 = p_primask p /\ (forall x, view p0 x = view p x) /\
      (forall x, raw p0 x = raw p x \/ (raw p0 x = view p x /\ x < addr / 8 * 8)) /\
      (valid (s_dw_cache p0) <> 0 -> addr_aligned (s_dw_cache p0) = addr / 8 * 8)).
  { destruct (valid (s_dw_cache p) =? 0) eqn:Hv; cbool; simpl.
    { exists p. split_and!; auto; tauto. }
    pose proof (pending_align p addr W (wp_pending _ _ _ _ WP) Hv).
    destruct (_ <? _) eqn:Hlt; cbool; [|exists p; split_and!; auto; lia].
    destruct (flush_ok p (conj (wp_healthy _ _ _ _ WP) W) Hu) as (h' & Hfl & Hh' & Hu' & Hm').
    rewrite Hfl, (proj2 (Z.eqb_neq _ _) Hv). eexists. split; [reflexivity|].
    split_and!; auto; [| |].
    - split; simpl; eauto using wp_len, wp_bytes, cache_wf_empty. intros x [? _]; done.
    - intros x. unfold raw at 1 3. simpl. rewrite !Hm'. destruct (cached p x) eqn:E.
      + right. split; [done|]. apply cached_spec in E. pose proof (cw_align _ W Hv). lia.
      + left. by apply view_uncached.
    - done. }
  destruct Hfl as (p0 & Hfl & WP0 & Hu0 & Hi0 & Hvw0 & Hr0 & Hv0). mrun Hfl. cbn [Z.eqb negb].
  destruct (program_loop_ok (Z.to_nat (((addr + zlen data - 1) / 8 * 8 - addr / 8 * 8) / 8))
    (S (Z.to_nat (zlen data / 8 + 1))) p0 (addr / 8 * 8) addr (addr + zlen data) data)
    as (p' & Hl & Hok & Hu' & Hi' & Hvw' & Hr' & Hp'); auto; try lia.
  { intros x Hx. destruct (Hr0 x) as [->|[_ ?]]; [apply He; lia|lia]. }
  exists p'. split; [exact Hl|]. split_and!; auto; [congruence| | |].
  - intros x. rewrite Hvw'. unfold overlay, mem_write. rewrite Hvw0.
    repeat crange; try done; lia.
  - intros x Hx. rewrite Hr' by lia. destruct (Hr0 x) as [?|[_ ?]]; [done|lia].
  - intros x Hx. rewrite Hr' by lia. destruct (Hr0 x) as [?|[? _]]; auto.
Qed.
End Views.

(** ** Ports that differ only in controller flags

    Two ports with the same cache and pointwise equal flash contents have the
    same view, pending set and well-formedness. *)
Section PortEquiv.
Context {hw : Type} `{FlashHwLaws hw}.
Implicit Types p : port hw.

#[export] Instance port_equiv : Equiv (port hw) := fun p q =>
  s_dw_cache p = s_dw_cache q /\ forall x, raw p x = raw q x.

#[export] Instance port_equivalence : Equivalence (≡@{port hw}).
Proof.
  split; unfold equiv, port_equiv.
  - intros p. done.
  - intros p q [E1 E2]. auto.
  - intros p q r [E1 E2] [F1 F2]. split; [congruence|]. intros. by rewrite E2.
Qed.

#[export] Instance s_dw_cache_proper : Proper ((≡) ==> eq) (@s_dw_cache hw).
Proof. by intros p q [E _]. Qed.

#[export] Instance raw_proper : Proper ((≡) ==> eq ==> eq) (@raw hw _).
Proof. intros p q [_ E] x ? <-. apply E. Qed.

#[export] Instance cached_proper : Proper ((≡) ==> eq ==> eq) (@cached hw).
Proof. intros p q E x ? <-. unfold cached. by rewrite E. Qed.

#[export] Instance view_proper : Proper ((≡) ==> eq ==> eq) (@view hw _).
Proof.
  intros p q E x ? <-. unfold view. replace (cached p x) with (cached q x) by (by rewrite E).
  destruct (cached q x); by rewrite E.
Qed.

#[export] Instance pending_proper : Proper ((≡) ==> eq ==> iff) (@pending hw).
Proof. intros p q E x ? <-. unfold pending. by rewrite E. Qed.

#[export] Instance cache_wf_proper : Proper ((≡) ==> impl) (@cache_wf hw _).
Proof.
  intros p q Hpq [W1 W2 W3 W4 W5 W6]. pose proof Hpq as [E1 E2].
  split; rewrite <- ?E1; auto.
  - intros x. rewrite <- Hpq. auto.
  - intros Hv. destruct (W6 Hv) as [x Hx]. exists x. by rewrite <- Hpq.
Qed.

(** Running a body with the controller unlocked and interrupts masked. *)
Lemma with_flash_unlocked_ok p (body : M (port hw) Z) (Q : port hw -> Prop) :
  port_ok p ->
  (forall q, q ≡ p -> port_ok q -> unlocked q ->
     exists q', body q = Ret 0 q' /\ port_ok q' /\ p_primask q' = p_primask q /\ Q q') ->
  (forall q q', q ≡ q' -> Q q -> Q q') ->
  exists p', with_flash_unlocked body p = Ret 0 p' /\ port_ok p' /\ Q p'.
Proof.
  intros [Hh W] Hbody HQ. unfold with_flash_unlocked, flash_irq_enter.
  destruct (unlock_ok (p_hw p) Hh) as (h1 & Hul & Hh1 & Hu1 & Hm1).
  destruct (clear_ok h1 Hh1) as (Hh2 & Hu2 & Hm2).
  mstep. unfold hal at 1. cbn [p_hw set_primask]. rewrite Hul. cbn [negb].
  set (q := mkPort (HAL_FLASH_CLEAR_OPTVERR h1) (s_dw_cache p) 1).
  assert (Hqp : q ≡ p) by (split; [done|]; intros x; unfold raw; simpl; by rewrite Hm2, Hm1).
  destruct (Hbody q) as (q' & Hb & [Hh3 W3] & Hi & HQq); auto.
  { split; [done|]. by rewrite Hqp. }
  { unfold unlocked. simpl. congruence. }
  destruct (lock_ok (p_hw q') Hh3) as (h4 & Hlk & Hh4 & Hm4).
  change (set_hw _ _) with q. rewrite Hb. unfold hal. rewrite Hlk.
  assert (Heq : forall m, q' ≡ mkPort h4 (s_dw_cache q') m)
    by (intros; split; [done|]; intros; unfold raw; simpl; by rewrite Hm4).
  unfold flash_irq_exit. destruct (p_primask p =? 0); (eexists; split; [reflexivity|]; split;
    [split; [done|]; eapply cache_wf_proper; [apply Heq|done] | eapply HQ; [apply Heq|done]]).
Qed.

(** What a successful range write establishes, relative to the port before. *)
Record write_post (p p' : port hw) (addr : Z) (data : list Z) : Prop := mkWritePost {
  wq_view : forall x, view p' x = mem_write (view p) addr data x;
  wq_above : forall x, (addr + zlen data) / 8 * 8 <= x -> raw p' x = raw p x;
  wq_below : forall x, x < addr / 8 * 8 -> raw p' x = raw p x \/ raw p' x = view p x;
  wq_pending : forall x, pending p' x -> x < addr + zlen data
}.

Lemma write_post_equiv p q q' addr data :
  q ≡ q' -> write_post p q addr data -> write_post p q' addr data.
Proof.
  intros E [A B C D]. pose proof E as [_ Er]. split; intros x; rewrite <- ?Er, <- ?E; auto.
Qed.

Lemma flash_write_range p addr data :
  port_ok p -> 0 <= addr -> 0 < zlen data -> addr + zlen data + 8 < 4294967296 ->
  bytes_ok data -> (forall x, pending p x -> x < addr) ->
  (forall x, addr / 8 * 8 <= x < (addr + zlen data - 1) / 8 * 8 + 8 -> raw p x = 255) ->
  exists p', stm32g0xx_flash_write OTA_FLASH_TYPE_INTERNAL addr (Some data) (zlen data) p = Ret 0 p' /\
    port_ok p' /\ write_post p p' addr data.
Proof.
  intros Hok Ha Hd Hend Hb Hp He. unfold stm32g0xx_flash_write.
  rewrite (proj2 (Z.eqb_neq (zlen data) 0)) by lia. cbn [Z.eqb OTA_FLASH_TYPE_INTERNAL negb].
  apply with_flash_unlocked_ok; [done| |intros; eapply write_post_equiv; eauto].
  intros q Hqp [Hhq Wq] Huq. pose proof Hqp as [_ Hrq].
  destruct (program_bytes_ok q addr data) as (q' & Hq & Hok' & _ & Hi & A & B & C & D); auto.
  - split; auto; [lia|lia|]. intros x. rewrite Hqp. auto.
  - intros x Hx. rewrite Hrq. auto.
  - exists q'. split_and!; auto. split; auto.
    + intros x. rewrite A. unfold mem_write. destruct (in_range _ _ _); [done|]. by rewrite Hqp.
    + intros x Hx. rewrite B, Hrq by lia. done.
    + intros x Hx. rewrite <- Hrq, <- Hqp. auto.
Qed.

Lemma flash_flush_commit p :
  port_ok p ->
  exists p', stm32g0xx_flash_write OTA_FLASH_TYPE_INTERNAL 0 None 0 p = Ret 0 p' /\
    port_ok p' /\ (valid (s_dw_cache p') = 0 /\ forall x, raw p' x = view p x).
Proof.
  intros Hok. unfold stm32g0xx_flash_write. cbn [Z.eqb OTA_FLASH_TYPE_INTERNAL negb].
  apply with_flash_unlocked_ok; [done| |].
  - intros q Hqp Hokq Huq. destruct (flush_ok q Hokq Huq) as (h' & Hf & Hh' & Hu' & Hm').
    exists (mkPort h' (if valid (s_dw_cache q) =? 0 then s_dw_cache q else flash_dw_cache_empty)
             (p_primask q)).
    assert (Hz : valid (if valid (s_dw_cache q) =? 0 then s_dw_cache q else flash_dw_cache_empty) = 0)
      by (destruct (valid (s_dw_cache q) =? 0) eqn:E; cbool; done).
    split_and!; auto.
    + split; [done|]. split; simpl; try (rewrite Hz; congruence).
      intros x Hcx. apply cached_spec in Hcx. simpl in Hcx. rewrite Hz in Hcx. tauto.
    + intros x. unfold raw. simpl. rewrite Hm'. by rewrite Hqp.
  - intros q q' [E1 E2] [F1 F2]. split; [congruence|]. intros. by rewrite <- E2.
Qed.
End PortEquiv.

(** ** Erasing pages *)
Section Erase.
Context {hw : Type} `{FlashHwLaws hw}.
Implicit Types p : port hw.

(** Last address of the array, exclusive. *)
Definition flash_end : Z := FLASH_BASE + 2 * FLASH_BANK_SIZE.

Lemma erase_round cur :
  FLASH_BASE <= cur < flash_end -> cur mod FLASH_PAGE_SIZE = 0 ->
  let bank := flash_bank_from_address cur in
  let page := flash_page_from_address cur in
  let bank_end := flash_bank_base_from_bank bank +u FLASH_BANK_SIZE in
  let room := (bank_end -u cur) / FLASH_PAGE_SIZE in
  0 < room /\ 0 <= page /\ page_addr bank page = cur /\
  (page + room) * FLASH_PAGE_SIZE <= FLASH_BANK_SIZE /\
  (cur + room * FLASH_PAGE_SIZE = FLASH_BASE + FLASH_BANK_SIZE \/
   cur + room * FLASH_PAGE_SIZE = flash_end).
Proof.
  intros Hr Ha bank page bank_end room. subst bank page bank_end room.
  unfold flash_end, flash_bank_from_address, flash_page_from_address, flash_bank_base_from_bank,
    page_addr, FLASH_BASE, FLASH_PAGE_SIZE in *.
  pose proof bank_size_pos as B1. pose proof bank_size_pages as B2. pose proof bank_size_addr as B3.
  unfold FLASH_BASE, FLASH_PAGE_SIZE in *. set (B := FLASH_BANK_SIZE) in *.
  rewrite (u32_small (134217728 + B)) by lia.
  destruct (cur <? 134217728 + B) eqn:E; cbool; cbn [Z.eqb FLASH_BANK_1 FLASH_BANK_2 Pos.eqb].
  - rewrite !(u32_small (134217728 + B)), !u32_small by lia. lia.
  - rewrite !(u32_small (134217728 + B + B)), !u32_small by lia. lia.
Qed.

Lemma erase_loop_ok fuel : forall cur remaining p,
  hw_healthy (p_hw p) -> unlocked p -> FLASH_BASE <= cur -> cur + remaining <= flash_end ->
  cur mod FLASH_PAGE_SIZE = 0 -> 0 <= remaining -> remaining mod FLASH_PAGE_SIZE = 0 ->
  remaining / FLASH_PAGE_SIZE <= Z.of_nat fuel ->
  exists h', erase_loop fuel cur remaining p = Ret 0 (set_hw h' p) /\ hw_healthy h' /\
    (forall x, hw_mem h' x = mem_fill (raw p) cur remaining 255 x).
Proof.
  induction fuel as [|fuel IH]; intros cur remaining p Hh Hu Hb He Ha Hr0 Hrm Hf;
    cbn [erase_loop]; destruct (0 <? remaining) eqn:Hpos; cbool;
    try (unfold FLASH_PAGE_SIZE in *; lia).
  1, 3: destruct (lock_ok (p_hw p) Hh) as (h' & Hl & Hh' & Hm); exists h';
    unfold hal; mstep; rewrite Hl; split_and!; auto;
    intros x; rewrite Hm; unfold mem_fill; crange; [lia|done].
  destruct (erase_round cur) as (Hroom & Hpage & Hpa & Hfit & Hend);
    [unfold FLASH_PAGE_SIZE in *; lia|done|].
  set (bank := flash_bank_from_address cur) in *. set (page := flash_page_from_address cur) in *.
  set (room := (_ -u cur) / FLASH_PAGE_SIZE) in *.
  set (k := Z.min (remaining / FLASH_PAGE_SIZE) room).
  assert (Hk : 0 < k /\ k * FLASH_PAGE_SIZE <= remaining /\ k <= room)
    by (unfold k, FLASH_PAGE_SIZE in *; lia).
  destruct (erase_ok (p_hw p) bank page k) as (h1 & He1 & Hh1 & Hu1 & Hm1); auto; try tauto.
  { unfold FLASH_PAGE_SIZE in *. lia. }
  assert (flash_end < 4294967296) by (pose proof bank_size_addr; unfold flash_end; lia).
  unfold hal. mstep. rewrite He1. cbn [negb].
  rewrite (u32_small (k * FLASH_PAGE_SIZE)), !u32_small
    by (unfold FLASH_BASE, FLASH_PAGE_SIZE in *; lia).
  destruct (IH (cur + k * FLASH_PAGE_SIZE) (remaining - k * FLASH_PAGE_SIZE) (set_hw h1 p))
    as (h' & Hl & Hh' & Hm'); auto; try (unfold FLASH_PAGE_SIZE in *; lia).
  exists h'. rewrite Hl. split_and!; auto. intros x. rewrite Hm'. unfold mem_fill, raw at 1.
  cbn [p_hw set_hw]. rewrite Hm1. unfold mem_fill. rewrite Hpa. unfold FLASH_PAGE_SIZE in *. repeat crange; try done; lia.
Qed.

Lemma align_down_id v :
  v mod FLASH_PAGE_SIZE = 0 -> 0 <= v < 4294967296 -> align_down_u32 v FLASH_PAGE_SIZE = v.
Proof. unfold align_down_u32, FLASH_PAGE_SIZE. intros. simpl. rewrite u32_small; lia. Qed.

Lemma align_up_id v :
  v mod FLASH_PAGE_SIZE = 0 -> 0 <= v -> v + FLASH_PAGE_SIZE < 4294967296 ->
  align_up_u32 v FLASH_PAGE_SIZE = v.
Proof.
  unfold align_up_u32, FLASH_PAGE_SIZE. intros. simpl.
  rewrite (u32_small (v + 2048)), (u32_small (v + 2048 - 1)), u32_small; lia.
Qed.

Lemma flash_erase_range p addr size :
  port_ok p -> FLASH_BASE <= addr -> 0 < size -> addr + size <= flash_end ->
  addr mod FLASH_PAGE_SIZE = 0 -> size mod FLASH_PAGE_SIZE = 0 ->
  exists p', stm32g0xx_flash_erase OTA_FLASH_TYPE_INTERNAL addr size p = Ret 0 p' /\
    port_ok p' /\ s_dw_cache p' = flash_dw_cache_empty /\
    (forall x, raw p' x = mem_fill (raw p) addr size 255 x).
Proof.
  intros [Hh W] Hb Hs He Ha Hsz. unfold stm32g0xx_flash_erase, flash_erase_internal_pages.
  assert (flash_end < 4294967296) by (pose proof bank_size_addr; unfold flash_end; lia).
  cbn [Z.eqb OTA_FLASH_TYPE_INTERNAL negb]. rewrite (proj2 (Z.eqb_neq size 0)) by lia.
  rewrite align_down_id, align_up_id by (unfold FLASH_BASE, FLASH_PAGE_SIZE in *; lia).
  destruct (unlock_ok (p_hw p) Hh) as (h1 & Hul & Hh1 & Hu1 & Hm1).
  destruct (clear_ok h1 Hh1) as (Hh2 & Hu2 & Hm2).
  unfold flash_dw_cache_clear, flash_irq_enter. mstep. unfold hal.
  cbn [p_hw set_primask set_cache]. rewrite Hul. cbn [negb].
  set (q := mkPort (HAL_FLASH_CLEAR_OPTVERR h1) flash_dw_cache_empty 1).
  change (set_hw _ _) with q.
  destruct (erase_loop_ok (Z.to_nat (size / FLASH_PAGE_SIZE)) addr size q) as (h' & Hl & Hh' & Hm');
    auto; try (unfold FLASH_PAGE_SIZE in *; lia).
  { unfold unlocked. simpl. congruence. }
  rewrite Hl. unfold flash_irq_exit. cbn [p_primask set_cache].
  assert (Hm : forall x, hw_mem h' x = mem_fill (raw p) addr size 255 x).
  { intros x. rewrite Hm'. unfold mem_fill. crange; [done|]. unfold raw. simpl. by rewrite Hm2, Hm1. }
  destruct (p_primask p =? 0); (eexists; split; [reflexivity|]); split_and!; try done;
    split; auto using cache_wf_empty.
Qed.
End Erase.
