(* ===== verification/FlashPortProps.v ===== *)
(** Properties of the STM32G0 flash port, and a simulated flash controller on
    which they are instantiated. *)
From S2P Require Import Prelude FlashPort.

(** ** A simulated controller

    A 512 KB array with two banks.  Programming needs the control register
    unlocked and the double-word erased, as on the device. *)
Module Sim.

Record sim : Type := mkSim { sim_mem : mem; sim_unlocked : bool }.

Definition sim_program (a : Z) (dw : list Z) (h : sim) : bool * sim :=
  if sim_unlocked h && (a mod 8 =? 0) && forallb (Z.eqb 255) (mem_read (fun x => u8 (sim_mem h x)) a 8)
  then (true, mkSim (mem_write (sim_mem h) a dw) true)
  else (false, h).

Definition sim_erase (b p n : Z) (h : sim) : bool * sim :=
  if sim_unlocked h then
    (true, mkSim (mem_fill (sim_mem h)
                   ((if b =? FLASH_BANK_1 then FLASH_BASE else FLASH_BASE + 262144)
                    + p * FLASH_PAGE_SIZE) (n * FLASH_PAGE_SIZE) 255) true)
  else (false, h).

#[export] Instance sim_hw : FlashHw sim := {
  hw_mem h x := u8 (sim_mem h x);
  hw_unlocked := sim_unlocked;
  FLASH_BANK_SIZE := 262144;
  HAL_FLASH_Unlock h := (true, mkSim (sim_mem h) true);
  HAL_FLASH_Lock h := (true, mkSim (sim_mem h) false);
  HAL_FLASH_CLEAR_OPTVERR h := h;
  HAL_FLASH_Program := sim_program;
  HAL_FLASHEx_Erase := sim_erase
}.

#[export, program] Instance sim_laws : FlashHwLaws sim := {
  hw_healthy _ := True
}.
Next Obligation. done. Qed.
Next Obligation. done. Qed.
Next Obligation. done. Qed.
Next Obligation. intros h _. eexists. split; [reflexivity|]. done. Qed.
Next Obligation. intros h _. eexists. split; [reflexivity|]. done. Qed.
Next Obligation. done. Qed.
Next Obligation. intros. apply u8_range. Qed.
Next Obligation.
  intros h a dw _ Hu Ha Hl Hdw He. simpl in *. unfold sim_program. rewrite Hu, Ha.
  replace (forallb _ _) with true.
  { eexists. split; [reflexivity|]. split_and!; auto. intros x. simpl. unfold mem_write. crange; [|done].
    apply u8_small, nthz_byte, Hdw. }
  symmetry. apply forallb_forall. intros b Hb. apply list_elem_of_In, list_elem_of_lookup in Hb as [i Hi].
  pose proof (lookup_lt_Some _ _ _ Hi) as Hlt. rewrite length_mem_read in Hlt.
  rewrite mem_read_lookup in Hi by done. simplify_eq. apply Z.eqb_eq. symmetry. apply He. lia.
Qed.
Next Obligation.
  intros h b p n _ Hu Hp Hn Hf. simpl in *. unfold sim_erase. rewrite Hu.
  eexists. split; [reflexivity|]. split_and!; auto. intros x. simpl. unfold mem_fill, page_addr. simpl.
  by destruct (in_range _ _ _).
Qed.

(** A locked controller over an erased array. *)
Definition blank : sim := mkSim (fun _ => 255) false.
Definition blank_port : port sim := mkPort blank flash_dw_cache_empty 0.

Lemma blank_port_ok : port_ok blank_port.
Proof. split; [done|]. apply cache_wf_empty. Qed.

End Sim.

(** ** Streamed writes *)
Section Stream.
Context {hw : Type} `{FlashHwLaws hw}.
Implicit Types p : port hw.

(** The writes of a download: consecutive chunks, stopping at the first error. *)
Fixpoint write_chunks (addr : Z) (chunks : list (list Z)) : M (port hw) Z :=
  match chunks with
  | [] => mret 0
  | c :: cs =>
      rc ← stm32g0xx_flash_write OTA_FLASH_TYPE_INTERNAL addr (Some c) (zlen c);
      if negb (rc =? 0) then mret rc else write_chunks (addr + zlen c) cs
  end.

Lemma zlen_app {A} (l k : list A) : zlen (l ++ k) = zlen l + zlen k.
Proof. unfold zlen. rewrite length_app. lia. Qed.

Lemma mem_write_app (m m' : mem) a l k :
  (forall x, m' x = mem_write m a l x) ->
  forall x, mem_write m' (a + zlen l) k x = mem_write m a (l ++ k) x.
Proof.
  intros Hm x. unfold mem_write at 1 2. rewrite zlen_app, Hm. unfold mem_write.
  unfold nthz, zlen in *. repeat crange; try lia; try done.
  - rewrite app_nth2 by lia. f_equal. lia.
  - rewrite app_nth1 by lia. done.
Qed.

Lemma write_chunks_view chunks : forall p addr,
  port_ok p -> 0 <= addr -> addr + zlen (concat chunks) + 8 < 4294967296 ->
  Forall (fun c => 0 < zlen c /\ bytes_ok c) chunks ->
  (forall x, pending p x -> x < addr) ->
  (forall x, addr / 8 * 8 <= x < (addr + zlen (concat chunks) + 7) / 8 * 8 -> raw p x = 255) ->
  exists p', write_chunks addr chunks p = Ret 0 p' /\ port_ok p' /\
    (forall x, view p' x = mem_write (view p) addr (concat chunks) x).
Proof.
  induction chunks as [|c cs IH]; intros p addr Hok Ha Hend Hcs Hp He.
  { exists p. split_and!; auto. intros x. rewrite mem_write_out; [done|]. unfold zlen; simpl; lia. }
  apply Forall_cons in Hcs as [[Hc0 Hcb] Hcs]. cbn [concat] in *. rewrite zlen_app in *.
  assert (0 <= zlen (concat cs)) by (unfold zlen; lia).
  destruct (flash_write_range p addr c) as (p1 & E1 & Hok1 & [V1 A1 B1 P1]); auto; try lia.
  { intros x Hx. apply He. lia. }
  cbn [write_chunks]. mrun E1. cbn [Z.eqb negb].
  destruct (IH p1 (addr + zlen c)) as (p' & E2 & Hok2 & V2); auto; try lia.
  { intros x Hx. rewrite A1 by lia. apply He. lia. }
  exists p'. split_and!; auto. intros x. rewrite V2. by apply mem_write_app.
Qed.
End Stream.

(** ** The interrupt mask *)
Section Irq.
Context {hw : Type} `{FlashHw hw}.
Implicit Types p : port hw.

Definition keeps_mask {A} (m : M (port hw) A) : Prop :=
  forall p a p', m p = Ret a p' -> p_primask p' = p_primask p.

Lemma mask_ret {A} (a : A) : keeps_mask (mret a).
Proof. intros p b p' E. unfold mret, M_ret in E. by simplify_eq. Qed.

Lemma mask_bind {A B} (m : M (port hw) A) (f : A -> M (port hw) B) :
  keeps_mask m -> (forall a, keeps_mask (f a)) -> keeps_mask (m ≫= f).
Proof.
  intros Hm Hf p b p' E. unfold mbind, M_bind in E. destruct (m p) as [a q| | |] eqn:Em; try done.
  rewrite (Hf _ _ _ _ E). eapply Hm; eauto.
Qed.

Lemma mask_hal f : keeps_mask (hal f).
Proof. intros p a p' E. unfold hal in E. destruct (f (p_hw p)). by simplify_eq. Qed.

Lemma mask_gets {A} (f : port hw -> A) : keeps_mask (gets f).
Proof. intros p a p' E. unfold gets in E. by simplify_eq. Qed.

Lemma mask_modify f : (forall p, p_primask (f p) = p_primask p) -> keeps_mask (modify f).
Proof. intros Hf p a p' E. unfold modify in E. simplify_eq. apply Hf. Qed.

Ltac keeps := repeat first
  [ apply mask_bind; [|intros ?] | apply mask_ret | apply mask_hal | apply mask_gets
  | apply mask_modify; done | match goal with |- keeps_mask (if ?b then _ else _) => destruct b end
  | match goal with |- keeps_mask (let '(_, _) := ?x in _) => destruct x end
  | progress cbv zeta ].

Lemma mask_flush : keeps_mask internal_flash_flush_dw_cache.
Proof. unfold internal_flash_flush_dw_cache, flash_dw_cache_clear. keeps. Qed.

Lemma mask_program_loop fuel : forall cur addr end_ last_dw data,
  keeps_mask (program_loop fuel cur addr end_ last_dw data).
Proof.
  induction fuel as [|fuel IH]; intros; cbn [program_loop]; keeps; try done; apply IH.
Qed.

Lemma mask_program_bytes addr data size : keeps_mask (internal_flash_program_bytes addr data size).
Proof.
  unfold internal_flash_program_bytes. keeps; auto using mask_flush, mask_program_loop.
Qed.

Lemma mask_erase_loop fuel : forall cur remaining, keeps_mask (erase_loop fuel cur remaining).
Proof. induction fuel as [|fuel IH]; intros; cbn [erase_loop]; keeps; done. Qed.

(** A body between masking and restoring leaves PRIMASK as it found it. *)
Lemma with_flash_unlocked_mask (body : M (port hw) Z) p rc p' :
  keeps_mask body -> p_primask p = 0 \/ p_primask p = 1 ->
  with_flash_unlocked body p = Ret rc p' -> p_primask p' = p_primask p.
Proof.
  intros Hb Hm E. unfold with_flash_unlocked, flash_irq_enter in E.
  erewrite bind_ret_eq in E by reflexivity. cbn beta in E.
  unfold mbind, M_bind in E. unfold hal at 1 in E. destruct (HAL_FLASH_Unlock _) as [[] h1].
  - cbn [negb] in E. unfold modify in E. destruct (body _) as [r q| | |] eqn:Eb; try done.
    apply Hb in Eb. simpl in Eb. unfold hal in E. destruct (HAL_FLASH_Lock _) as [ok h2].
    unfold flash_irq_exit in E. destruct Hm as [Hm|Hm]; rewrite Hm in *; simpl in E;
      unfold modify, mret, M_ret in E; simplify_eq; simpl; congruence.
  - cbn [negb] in E. unfold flash_irq_exit in E. destruct Hm as [Hm|Hm]; rewrite Hm in *; simpl in E;
      unfold modify, mret, M_ret in E; simplify_eq; simpl; congruence.
Qed.

Lemma erase_pages_mask p addr size rc p' :
  p_primask p = 0 \/ p_primask p = 1 ->
  (flash_dw_cache_clear;;
   irq_saved ← flash_irq_enter;
   ok ← hal HAL_FLASH_Unlock;
   if negb ok then flash_irq_exit irq_saved;; mret (-1)
   else modify (fun p => set_hw (HAL_FLASH_CLEAR_OPTVERR (p_hw p)) p);;
        rc ← erase_loop (Z.to_nat (size / FLASH_PAGE_SIZE)) addr size;
        flash_irq_exit irq_saved;;
        mret rc) p = Ret rc p' ->
  p_primask p' = p_primask p.
Proof.
  intros Hm E. unfold flash_dw_cache_clear, flash_irq_enter in E.
  unfold mbind, M_bind, modify, gets, mret, M_ret in E. cbn beta iota in E.
  unfold hal at 1 in E. destruct (HAL_FLASH_Unlock _) as [[] h1]; cbn [negb] in E.
  - destruct (erase_loop _ _ _ _) as [r q| | |] eqn:Eb; try done.
    apply mask_erase_loop in Eb. simpl in Eb.
    unfold flash_irq_exit, modify, mret, M_ret in E.
    destruct Hm as [Hm|Hm]; simpl in E; rewrite Hm in *; simpl in E; simplify_eq; simpl; congruence.
  - unfold flash_irq_exit, modify, mret, M_ret in E.
    destruct Hm as [Hm|Hm]; simpl in E; rewrite Hm in *; simpl in E; simplify_eq; simpl; congruence.
Qed.
End Irq.

(** ** Properties *)
Section Properties.
Context {hw : Type} `{FlashHwLaws hw}.
Implicit Types p : port hw.

(** C5 [chunked_write_commits]: a download written in consecutive chunks of any
    sizes over erased flash, with nothing pending, succeeds chunk by chunk on a
    working controller (which refuses to program a double-word twice), and
    after the explicit flush the flash holds the concatenation of the chunks
    at the start address and is unchanged elsewhere. *)
Theorem chunked_write_commits p addr chunks :
  port_ok p -> valid (s_dw_cache p) = 0 ->
  0 <= addr -> addr + zlen (concat chunks) + 8 < 4294967296 ->
  Forall (fun c => 0 < zlen c /\ bytes_ok c) chunks ->
  (forall x, addr / 8 * 8 <= x < (addr + zlen (concat chunks) + 7) / 8 * 8 -> raw p x = 255) ->
  exists p1 p2, write_chunks addr chunks p = Ret 0 p1 /\
    stm32g0xx_flash_write OTA_FLASH_TYPE_INTERNAL 0 None 0 p1 = Ret 0 p2 /\
    valid (s_dw_cache p2) = 0 /\
    forall x, raw p2 x = mem_write (raw p) addr (concat chunks) x.
Proof.
  intros Hok Hv Ha Hend Hcs He.
  assert (Hnc : forall x, cached p x = false) by (intros; unfold cached; by rewrite Hv).
  destruct (write_chunks_view chunks p addr) as (p1 & E1 & Hok1 & V1); auto.
  { intros x [Hc _]. by rewrite Hnc in Hc. }
  destruct (flash_flush_commit p1 Hok1) as (p2 & E2 & _ & Hv2 & R2).
  exists p1, p2. split_and!; auto. intros x. rewrite R2, V1. unfold mem_write.
  destruct (in_range _ _ _); [done|]. by apply view_uncached.
Qed.

(** Erasing a page-aligned range inside the array
    succeeds, drops the pending double-word, reads back as [0xFF] over exactly
    the range, across the boundary of the two banks, and leaves every other
    byte. *)
Theorem erase_exact_pages p addr size :
  port_ok p -> FLASH_BASE <= addr -> 0 < size -> addr + size <= flash_end ->
  addr mod FLASH_PAGE_SIZE = 0 -> size mod FLASH_PAGE_SIZE = 0 ->
  exists p', stm32g0xx_flash_erase OTA_FLASH_TYPE_INTERNAL addr size p = Ret 0 p' /\
    port_ok p' /\ valid (s_dw_cache p') = 0 /\
    (forall x, addr <= x < addr + size -> raw p' x = 255) /\
    (forall x, ~ (addr <= x < addr + size) -> raw p' x = raw p x).
Proof.
  intros. destruct (flash_erase_range p addr size) as (p' & E & Hok & Hc & Hr); auto.
  exists p'. split_and!; auto; [by rewrite Hc| |]; intros x Hx; rewrite Hr; unfold mem_fill;
    crange; try done; lia.
Qed.

(** Whatever the controller reports, a write,
    a flush or an erase that returns leaves the interrupt mask as it found
    it. *)
Theorem write_erase_restore_primask p flash_type addr data size rc p' :
  p_primask p = 0 \/ p_primask p = 1 ->
  stm32g0xx_flash_write flash_type addr data size p = Ret rc p' \/
  stm32g0xx_flash_erase flash_type addr size p = Ret rc p' ->
  p_primask p' = p_primask p.
Proof.
  intros Hm [E|E].
  - unfold stm32g0xx_flash_write in E. destruct (negb _); [by apply mask_ret in E|].
    destruct (size =? 0); [eapply with_flash_unlocked_mask; eauto using mask_flush|].
    destruct data; [|by apply mask_ret in E].
    eapply with_flash_unlocked_mask; eauto using mask_program_bytes.
  - unfold stm32g0xx_flash_erase, flash_erase_internal_pages in E.
    destruct (negb _); [by apply mask_ret in E|]. destruct (size =? 0); [by apply mask_ret in E|].
    eapply erase_pages_mask; eauto.
Qed.

(** Programming a double-word some byte of which
    would need a bit to go from 0 to 1 is refused before the controller is
    touched. *)
Theorem program_refuses_set_bits p addr dw j :
  0 <= j < 8 ->
  Z.land (raw p (addr + j)) (nthz dw j) <> nthz dw j ->
  internal_flash_program_doubleword addr dw p = Ret (-1) p.
Proof.
  intros Hj Hne. unfold internal_flash_program_doubleword, flash_bytes.
  erewrite bind_ret_eq by reflexivity.
  assert (Hx : nthz (mem_read (hw_mem (p_hw p)) addr 8) j = raw p (addr + j)).
  { apply nthz_lookup. rewrite mem_read_lookup by lia. unfold raw. do 2 f_equal. lia. }
  case_bool_decide as Hd.
  - exfalso. apply Hne. rewrite <- Hd, Hx. apply Z.land_diag.
  - replace (forallb _ _) with false; [done|]. symmetry. apply not_true_iff_false.
    rewrite forallb_forall. intros Hall. apply Hne. rewrite <- Hx. apply Z.eqb_eq, Hall.
    assert (j = 0 \/ j = 1 \/ j = 2 \/ j = 3 \/ j = 4 \/ j = 5 \/ j = 6 \/ j = 7) by lia.
    simpl. intuition lia.
Qed.
End Properties.

(** ** The properties at concrete ports *)
Section Witnesses.
Import Sim.

Lemma chunked_write_commits_witness :
  exists p1 p2,
    write_chunks 134283267 [[1; 2; 3]; [4; 5; 6; 7; 8; 9]; [10]] blank_port = Ret 0 p1 /\
    stm32g0xx_flash_write OTA_FLASH_TYPE_INTERNAL 0 None 0 p1 = Ret 0 p2 /\
    valid (s_dw_cache p2) = 0 /\
    forall x, raw p2 x = mem_write (raw blank_port) 134283267
      (concat [[1; 2; 3]; [4; 5; 6; 7; 8; 9]; [10]]) x.
Proof.
  apply (chunked_write_commits blank_port 134283267 [[1; 2; 3]; [4; 5; 6; 7; 8; 9]; [10]]).
  - exact blank_port_ok.
  - reflexivity.
  - lia.
  - vm_compute. reflexivity.
  - repeat constructor; vm_compute; congruence.
  - reflexivity.
Defined.

Lemma erase_exact_pages_witness :
  exists p', stm32g0xx_flash_erase OTA_FLASH_TYPE_INTERNAL 134475776 8192 blank_port = Ret 0 p' /\
    port_ok p' /\ valid (s_dw_cache p') = 0 /\
    (forall x, 134475776 <= x < 134475776 + 8192 -> raw p' x = 255) /\
    (forall x, ~ (134475776 <= x < 134475776 + 8192) -> raw p' x = raw blank_port x).
Proof.
  apply (erase_exact_pages blank_port 134475776 8192);
    [exact blank_port_ok|vm_compute; congruence..|vm_compute; reflexivity|vm_compute; reflexivity].
Defined.

Lemma write_erase_restore_primask_witness :
  exists rc p', stm32g0xx_flash_write OTA_FLASH_TYPE_INTERNAL 134283264 (Some [1; 2; 3]) 3 blank_port
      = Ret rc p' /\ p_primask p' = 0.
Proof.
  eexists _, _. split; [reflexivity|].
  eapply (write_erase_restore_primask blank_port OTA_FLASH_TYPE_INTERNAL 134283264 (Some [1; 2; 3]) 3).
  - left. reflexivity.
  - left. reflexivity.
Defined.

Lemma program_refuses_set_bits_witness :
  internal_flash_program_doubleword 134283264 [255; 255; 255; 255; 255; 255; 255; 255]
    (mkPort (mkSim (fun _ => 240) true) flash_dw_cache_empty 0)
  = Ret (-1) (mkPort (mkSim (fun _ => 240) true) flash_dw_cache_empty 0).
Proof.
  apply (program_refuses_set_bits (mkPort (mkSim (fun _ => 240) true) flash_dw_cache_empty 0)
           134283264 [255; 255; 255; 255; 255; 255; 255; 255] 2).
  - lia.
  - vm_compute. congruence.
Defined.
End Witnesses.
