(* ===== verification/OtaModule.v ===== *)
(** The OTA state machine of the bootloader
    ([boot/ota_module/src/ota_module.c], [inc/ota_module.h],
    [inc/ota_module_config.h], [src/ota_record_default.c]): the persistent
    record with its CRC, the download session, slot selection, boot selection
    with the verification budget, and the promotion of a verified image.

    The platform (flash, CRC unit, jump) is reached through the function
    pointers of [ota_module_config_t], as in the source. *)
From S2P Require Import Prelude FlashPort.

(** ** Constants and data *)
Definition OTA_PACKAGE_MAGIC : Z := 1413567567.      (* 0x5441544F *)
Definition OTA_INFO_MAGIC : Z := OTA_PACKAGE_MAGIC.
Definition OTA_APP_MAX_VERIFY_COUNT : Z := 3.
Definition OTA_MODULE_FLASH_COPY_BUF_SIZE : Z := 256.

Inductive ota_module_err_t : Type :=
| OTA_MODULE_ERR_OK
| OTA_MODULE_ERR_INVALID_ARG
| OTA_MODULE_ERR_NOT_INIT
| OTA_MODULE_ERR_ALREADY_IN_PROGRESS
| OTA_MODULE_ERR_FLASH_OP
| OTA_MODULE_ERR_RECORD_IO
| OTA_MODULE_ERR_RECORD_INVALID
| OTA_MODULE_ERR_PACKAGE_MAGIC
| OTA_MODULE_ERR_PACKAGE_HEADER_CRC
| OTA_MODULE_ERR_SLOT_UNAVAILABLE
| OTA_MODULE_ERR_FLASH_SIZE
| OTA_MODULE_ERR_SESSION_MISMATCH
| OTA_MODULE_ERR_OFFSET_MISMATCH
| OTA_MODULE_ERR_SIZE_MISMATCH
| OTA_MODULE_ERR_APP_STATUS
| OTA_MODULE_ERR_CRC_MISMATCH
| OTA_MODULE_ERR_NO_BOOT_CANDIDATE
| OTA_MODULE_ERR_JUMP_FAILED.

#[export] Instance ota_module_err_eq_dec : EqDecision ota_module_err_t.
Proof. solve_decision. Defined.

Definition err_ok (e : ota_module_err_t) : bool :=
  match e with OTA_MODULE_ERR_OK => true | _ => false end.

(** [ota_app_status_t].  A status is read back from flash, so it can hold any
    value of the enumeration's width. *)
Definition OTA_APP_STATUS_INVALID : Z := 0.
Definition OTA_APP_STATUS_DOWNLOADING : Z := 1.
Definition OTA_APP_STATUS_UNVERIFIED : Z := 2.
Definition OTA_APP_STATUS_ACTIVE : Z := 3.
Definition OTA_APP_STATUS_BACKUP : Z := 4.

(** [ota_download_status_t]. *)
Definition OTA_DOWNLOAD_STATUS_INVALID : Z := 0.
Definition OTA_DOWNLOAD_STATUS_DOWNLOADING : Z := 1.

Record ota_package_header_t : Type := mkHeader {
  h_magic : Z;
  build_timestamp : Z;
  app_offset : Z;
  app_size : Z;
  app_crc32 : Z;
  app_version : list Z;
  header_crc32 : Z
}.

Record ota_app_info_t : Type := mkApp {
  status : Z;
  verify_count : Z;
  flash_type : Z;
  flash_addr : Z;
  flash_size : Z
}.

Record ota_record_info_t : Type := mkRecord {
  r_magic : Z;
  ota_app_info : list ota_app_info_t;
  boot_ymodem_flag : Z;
  info_crc32 : Z
}.

#[export] Instance ota_package_header_eq_dec : EqDecision ota_package_header_t.
Proof. solve_decision. Defined.
#[export] Instance ota_app_info_eq_dec : EqDecision ota_app_info_t.
Proof. solve_decision. Defined.
#[export] Instance ota_record_info_eq_dec : EqDecision ota_record_info_t.
Proof. solve_decision. Defined.

(** Build configuration: the number of OTA slots ([OTA_IS_DUAL_APP]; no factory
    slot, as in [ota_module_config.h]), the width the compiler gives to
    enumerations, and the default record the platform provides. *)
Class OtaBuild : Type := {
  OTA_IS_DUAL_APP : bool;
  sizeof_enum : nat;
  ota_record_default_info : ota_record_info_t
}.

Definition slot_count `{OtaBuild} : nat := if OTA_IS_DUAL_APP then 2 else 1.

(** ** Wire and flash layout (packed, little-endian) *)
Definition sizeof_header : nat := 56.

Definition enc_header_body (h : ota_package_header_t) : list Z :=
  le_enc 4 (h_magic h) ++ le_enc 4 (build_timestamp h) ++ le_enc 4 (app_offset h) ++
  le_enc 4 (app_size h) ++ le_enc 4 (app_crc32 h) ++ app_version h.

Definition enc_header (h : ota_package_header_t) : list Z :=
  enc_header_body h ++ le_enc 4 (header_crc32 h).

Definition dec_header (l : list Z) : ota_package_header_t := {|
  h_magic := le_dec (sub 0 4 l);
  build_timestamp := le_dec (sub 4 4 l);
  app_offset := le_dec (sub 8 4 l);
  app_size := le_dec (sub 12 4 l);
  app_crc32 := le_dec (sub 16 4 l);
  app_version := sub 20 32 l;
  header_crc32 := le_dec (sub 52 4 l)
|}.

Section Layout.
Context `{OtaBuild}.

Definition sizeof_app : nat := (sizeof_enum + 4 + sizeof_enum + 4 + 4)%nat.
Definition sizeof_record : nat := (4 + slot_count * sizeof_app + 4 + 4)%nat.

Definition enc_app (a : ota_app_info_t) : list Z :=
  le_enc sizeof_enum (status a) ++ le_enc 4 (verify_count a) ++
  le_enc sizeof_enum (flash_type a) ++ le_enc 4 (flash_addr a) ++ le_enc 4 (flash_size a).

Definition dec_app (l : list Z) : ota_app_info_t := {|
  status := le_dec (sub 0 sizeof_enum l);
  verify_count := le_dec (sub sizeof_enum 4 l);
  flash_type := le_dec (sub (sizeof_enum + 4) sizeof_enum l);
  flash_addr := le_dec (sub (sizeof_enum + 4 + sizeof_enum) 4 l);
  flash_size := le_dec (sub (sizeof_enum + 4 + sizeof_enum + 4) 4 l)
|}.

Fixpoint dec_apps (n : nat) (l : list Z) : list ota_app_info_t :=
  match n with
  | O => []
  | S n' => dec_app (take sizeof_app l) :: dec_apps n' (drop sizeof_app l)
  end.

(** The bytes the record CRC covers, up to [offsetof(.., info_crc32)]. *)
Definition enc_record_body (r : ota_record_info_t) : list Z :=
  le_enc 4 (r_magic r) ++ concat (map enc_app (ota_app_info r)) ++ le_enc 4 (boot_ymodem_flag r).

Definition enc_record (r : ota_record_info_t) : list Z :=
  enc_record_body r ++ le_enc 4 (info_crc32 r).

Definition dec_record (l : list Z) : ota_record_info_t := {|
  r_magic := le_dec (sub 0 4 l);
  ota_app_info := dec_apps slot_count (drop 4 l);
  boot_ymodem_flag := le_dec (sub (4 + slot_count * sizeof_app) 4 l);
  info_crc32 := le_dec (sub (8 + slot_count * sizeof_app) 4 l)
|}.
End Layout.

(** Field updates of the C code. *)
Definition set_status (s : Z) (a : ota_app_info_t) : ota_app_info_t :=
  mkApp s (verify_count a) (flash_type a) (flash_addr a) (flash_size a).
Definition set_verify_count (v : Z) (a : ota_app_info_t) : ota_app_info_t :=
  mkApp (status a) v (flash_type a) (flash_addr a) (flash_size a).
Definition set_app (i : nat) (a : ota_app_info_t) (r : ota_record_info_t) : ota_record_info_t :=
  mkRecord (r_magic r) (<[i := a]> (ota_app_info r)) (boot_ymodem_flag r) (info_crc32 r).
Definition set_r_magic (m : Z) (r : ota_record_info_t) : ota_record_info_t :=
  mkRecord m (ota_app_info r) (boot_ymodem_flag r) (info_crc32 r).
Definition set_boot_flag (f : Z) (r : ota_record_info_t) : ota_record_info_t :=
  mkRecord (r_magic r) (ota_app_info r) f (info_crc32 r).
Definition set_info_crc32 (c : Z) (r : ota_record_info_t) : ota_record_info_t :=
  mkRecord (r_magic r) (ota_app_info r) (boot_ymodem_flag r) c.

(** ** Module state *)

(** Platform configuration over a platform state [P]; a function pointer may be
    null. *)
Record ota_module_config_t (P : Type) : Type := mkConfig {
  record_flash_type : Z;
  record_addr : Z;
  flash_start_addr : list Z;
  flash_sizes : list Z;
  flash_sector_size : list Z;
  flash_read_func : option (Z -> Z -> Z -> M P (Z * list Z));
  flash_write_func : option (Z -> Z -> option (list Z) -> Z -> M P Z);
  flash_erase_func : option (Z -> Z -> Z -> M P Z);
  crc32_func : option (Z -> list Z -> Z -> M P Z);
  jump_func : option (Z -> M P Z)
}.
Arguments mkConfig {P}.
Arguments record_flash_type {P}.
Arguments record_addr {P}.
Arguments flash_start_addr {P}.
Arguments flash_sizes {P}.
Arguments flash_sector_size {P}.
Arguments flash_read_func {P}.
Arguments flash_write_func {P}.
Arguments flash_erase_func {P}.
Arguments crc32_func {P}.
Arguments jump_func {P}.

(** [ota_download_session_t]. *)
Record ota_download_session_t : Type := mkSession {
  started : bool;
  target_index : nat;
  package_header_copy : ota_package_header_t;
  expected_app_size : Z;
  expected_total_size : Z;
  expected_app_crc32 : Z;
  downloaded_size : Z;
  downloaded_crc32 : Z;
  crc_inited : bool
}.

Definition header_zero : ota_package_header_t := mkHeader 0 0 0 0 0 (replicate 32 0) 0.
Definition app_zero : ota_app_info_t := mkApp 0 0 0 0 0.
Definition session_zero : ota_download_session_t := mkSession false 0 header_zero 0 0 0 0 0 false.

Record ota_state (P : Type) : Type := mkOta {
  g_cfg : ota_module_config_t P;
  g_inited : bool;
  g_dl : ota_download_session_t;
  plat : P
}.
Arguments mkOta {P}.
Arguments g_cfg {P}.
Arguments g_inited {P}.
Arguments g_dl {P}.
Arguments plat {P}.

(** [ota_download_info_t]. *)
Record ota_download_info_t : Type := mkInfo {
  di_status : Z;
  di_app_info : ota_app_info_t;
  di_package_header : ota_package_header_t;
  di_download_size : Z;
  di_download_crc32 : Z
}.

(** ** Helpers *)
Definition align_up (v a : Z) : Z := if a =? 0 then v else ((v +u a) -u 1) / a *u a.
Definition align_down (v a : Z) : Z := if a =? 0 then v else (v / a) *u a.

(** First slot of a given status. *)
Fixpoint find_status (st : Z) (l : list ota_app_info_t) : option nat :=
  match l with
  | [] => None
  | a :: l' => if status a =? st then Some 0%nat else S <$> find_status st l'
  end.

Section Ota.
Context `{B : OtaBuild} {P : Type}.
Notation st := (ota_state P).

Definition set_plat (p : P) (s : st) : st := mkOta (g_cfg s) (g_inited s) (g_dl s) p.
Definition set_dl (d : ota_download_session_t) : M st unit :=
  modify (fun s => mkOta (g_cfg s) (g_inited s) d (plat s)).

(** A call through a function pointer of the configuration. *)
Definition call {A} (f : ota_module_config_t P -> option (M P A)) : M st A :=
  fun s => match f (g_cfg s) with
           | Some m => zoom plat set_plat m s
           | None => Undef
           end.

Definition flash_read (t a n : Z) : M st (Z * list Z) :=
  call (fun c => (fun f => f t a n) <$> flash_read_func c).
Definition flash_write (t a : Z) (d : option (list Z)) (n : Z) : M st Z :=
  call (fun c => (fun f => f t a d n) <$> flash_write_func c).
Definition flash_erase (t a n : Z) : M st Z :=
  call (fun c => (fun f => f t a n) <$> flash_erase_func c).
Definition crc32 (mode : Z) (d : list Z) : M st Z :=
  call (fun c => (fun f => f mode d (zlen d)) <$> crc32_func c).
Definition jump (a : Z) : M st Z :=
  call (fun c => (fun f => f a) <$> jump_func c).

(** Array element of a record, undefined out of bounds. *)
Definition slot (r : ota_record_info_t) (i : nat) : M st ota_app_info_t :=
  match ota_app_info r !! i with Some a => mret a | None => undef end.

(** *** CRC validation and record persistence *)
Definition crc32_one_shot (d : list Z) : M st Z := crc32 0 d.

Definition record_crc32_without_info_crc32 (r : ota_record_info_t) : M st Z :=
  crc32_one_shot (enc_record_body r).

Definition package_header_crc32_without_header_crc32 (h : ota_package_header_t) : M st Z :=
  crc32_one_shot (enc_header_body h).

(** [None] in the second component: the output object was not written. *)
Definition record_load : M st (ota_module_err_t * option ota_record_info_t) :=
  inited ← gets g_inited;
  if negb inited then mret (OTA_MODULE_ERR_NOT_INIT, None)
  else
    cfg ← gets g_cfg;
    '(rc, bs) ← flash_read (record_flash_type cfg) (record_addr cfg) (Z.of_nat sizeof_record);
    if negb (rc =? 0) then mret (OTA_MODULE_ERR_RECORD_IO, Some ota_record_default_info)
    else
      let tmp := dec_record bs in
      if negb (r_magic tmp =? OTA_INFO_MAGIC)
      then mret (OTA_MODULE_ERR_RECORD_INVALID, Some ota_record_default_info)
      else
        crc ← record_crc32_without_info_crc32 tmp;
        if negb (crc =? info_crc32 tmp)
        then mret (OTA_MODULE_ERR_RECORD_INVALID, Some ota_record_default_info)
        else mret (OTA_MODULE_ERR_OK, Some tmp).

Definition flash_erase_slot (type addr size : Z) : M st ota_module_err_t :=
  cfg ← gets g_cfg;
  match flash_sector_size cfg !! Z.to_nat type with
  | None => undef
  | Some sector =>
      if sector =? 0 then mret OTA_MODULE_ERR_INVALID_ARG
      else
        let erase_addr := align_down addr sector in
        let erase_size := align_up ((addr +u size) -u erase_addr) sector in
        rc ← flash_erase type erase_addr erase_size;
        mret (if rc =? 0 then OTA_MODULE_ERR_OK else OTA_MODULE_ERR_FLASH_OP)
  end.

Definition record_store (r : ota_record_info_t) : M st ota_module_err_t :=
  inited ← gets g_inited;
  if negb inited then mret OTA_MODULE_ERR_NOT_INIT
  else
    let tmp := set_r_magic OTA_INFO_MAGIC r in
    crc ← record_crc32_without_info_crc32 tmp;
    let tmp := set_info_crc32 crc tmp in
    cfg ← gets g_cfg;
    e ← flash_erase_slot (record_flash_type cfg) (record_addr cfg) (Z.of_nat sizeof_record);
    if negb (err_ok e) then mret OTA_MODULE_ERR_FLASH_OP
    else
      rc ← flash_write (record_flash_type cfg) (record_addr cfg) (Some (enc_record tmp))
                       (Z.of_nat sizeof_record);
      if negb (rc =? 0) then mret OTA_MODULE_ERR_FLASH_OP
      else
        flash_write (record_flash_type cfg) 0 None 0;;
        mret OTA_MODULE_ERR_OK.

(** *** Slot selection *)

(** [None] is [OTA_MODULE_ERR_SLOT_UNAVAILABLE]. *)
Definition choose_target_ota_slot (r : ota_record_info_t) : option nat :=
  match find_status OTA_APP_STATUS_DOWNLOADING (ota_app_info r) with
  | Some i => Some i
  | None =>
      match find_status OTA_APP_STATUS_INVALID (ota_app_info r) with
      | Some i => Some i
      | None =>
          match find_status OTA_APP_STATUS_BACKUP (ota_app_info r) with
          | Some i => Some i
          | None => if (slot_count =? 1)%nat then Some 0%nat else None
          end
      end
  end.

(** [None] is [OTA_MODULE_ERR_NO_BOOT_CANDIDATE]. *)
Definition choose_boot_candidate_ota_slot (r : ota_record_info_t) : option nat :=
  match find_status OTA_APP_STATUS_UNVERIFIED (ota_app_info r) with
  | Some i => Some i
  | None =>
      match find_status OTA_APP_STATUS_ACTIVE (ota_app_info r) with
      | Some i => Some i
      | None => find_status OTA_APP_STATUS_BACKUP (ota_app_info r)
      end
  end.

Definition ota_calc_entry_addr_from_header (a : ota_app_info_t) : M st Z :=
  cfg ← gets g_cfg;
  let base := flash_addr a in
  match flash_read_func cfg with
  | None => mret base
  | Some _ =>
      if flash_size a <? Z.of_nat sizeof_header then mret base
      else
        '(rc, bs) ← flash_read (flash_type a) (flash_addr a) (Z.of_nat sizeof_header);
        if negb (rc =? 0) then mret base
        else
          let hdr := dec_header bs in
          if negb (h_magic hdr =? OTA_PACKAGE_MAGIC) then mret base
          else
            crc ← package_header_crc32_without_header_crc32 hdr;
            if negb (header_crc32 hdr =? crc) then mret base
            else if flash_size a <=? app_offset hdr then mret base
            else mret (base +u app_offset hdr)
  end.

(** The loop of [flash_crc32_app_body]; [None] is a failed read. *)
Fixpoint crc_body_loop (fuel : nat) (type addr remaining crc : Z) (first : bool)
  : M st (option Z) :=
  if 0 <? remaining then
    match fuel with
    | O => fun _ => NoFuel
    | S fuel' =>
        let want := Z.min remaining OTA_MODULE_FLASH_COPY_BUF_SIZE in
        '(rc, bs) ← flash_read type addr want;
        if negb (rc =? 0) then mret None
        else
          crc ← crc32 (if first then 0 else 1) bs;
          crc_body_loop fuel' type (addr +u want) (remaining -u want) crc false
    end
  else mret (Some crc).

(** Each round consumes up to 256 bytes, so [app_size / 256 + 1] rounds do. *)
Definition flash_crc32_app_body (a : ota_app_info_t) (h : ota_package_header_t)
  : M st (ota_module_err_t * Z) :=
  if flash_size a <? (app_offset h +u app_size h) then mret (OTA_MODULE_ERR_FLASH_SIZE, 0)
  else
    r ← crc_body_loop (Z.to_nat (app_size h / OTA_MODULE_FLASH_COPY_BUF_SIZE + 1))
          (flash_type a) (flash_addr a +u app_offset h) (app_size h) 0 true;
    mret match r with
         | Some crc => (OTA_MODULE_ERR_OK, crc)
         | None => (OTA_MODULE_ERR_FLASH_OP, 0)
         end.

(** *** Public API *)
Definition is_some {A} (o : option A) : bool := match o with Some _ => true | None => false end.

Definition ota_module_init (config : option (ota_module_config_t P)) : M st ota_module_err_t :=
  match config with
  | None => mret OTA_MODULE_ERR_INVALID_ARG
  | Some c =>
      if negb (is_some (flash_read_func c)) || negb (is_some (flash_write_func c)) ||
         negb (is_some (flash_erase_func c)) || negb (is_some (crc32_func c)) ||
         negb (is_some (jump_func c))
      then mret OTA_MODULE_ERR_INVALID_ARG
      else
        modify (fun s => mkOta c true session_zero (plat s));;
        '(rc, _) ← record_load;
        if negb (err_ok rc) then
          record_store (set_r_magic OTA_INFO_MAGIC ota_record_default_info)
        else mret OTA_MODULE_ERR_OK
  end.

(** Jump and report: the platform does not return from a successful jump. *)
Definition boot_slot (a : ota_app_info_t) : M st ota_module_err_t :=
  entry ← ota_calc_entry_addr_from_header a;
  rc ← jump entry;
  mret (if rc =? 0 then OTA_MODULE_ERR_OK else OTA_MODULE_ERR_JUMP_FAILED).

(** Selection of step 2 of [ota_module_boot_preprocess]. *)
Definition boot_candidate (r : ota_record_info_t) : M st ota_module_err_t :=
  match choose_boot_candidate_ota_slot r with
  | Some i => a ← slot r i; boot_slot a
  | None => mret OTA_MODULE_ERR_NO_BOOT_CANDIDATE
  end.

Definition ota_module_boot_preprocess : M st ota_module_err_t :=
  '(_, rec) ← record_load;
  match rec with
  | None => undef
  | Some r =>
      match find_status OTA_APP_STATUS_UNVERIFIED (ota_app_info r) with
      | Some i =>
          uv ← slot r i;
          if OTA_APP_MAX_VERIFY_COUNT <=? verify_count uv +u 1 then
            let r := set_app i (set_verify_count 0 (set_status OTA_APP_STATUS_INVALID uv)) r in
            rc ← record_store r;
            if negb (err_ok rc) then mret rc else boot_candidate r
          else
            let uv := set_verify_count (verify_count uv +u 1) uv in
            rc ← record_store (set_app i uv r);
            if negb (err_ok rc) then mret rc else boot_slot uv
      | None => boot_candidate r
      end
  end.

Definition ota_module_has_active_app_region : M st Z :=
  inited ← gets g_inited;
  if negb inited then mret 0
  else
    '(rc, rec) ← record_load;
    if negb (err_ok rc) then mret 0
    else match rec with
         | None => undef
         | Some r => mret (b2z (is_some (find_status OTA_APP_STATUS_ACTIVE (ota_app_info r))))
         end.

(** The record that is copied out is indeterminate when the module was never
    initialised; [has_out] is whether the caller passed a buffer. *)
Definition ota_module_get_record_info (has_out : bool)
  : M st (ota_module_err_t * option ota_record_info_t) :=
  if negb has_out then mret (OTA_MODULE_ERR_INVALID_ARG, None) else record_load.

Definition ota_module_ota_download_start (package_header : option ota_package_header_t)
  : M st ota_module_err_t :=
  match package_header with
  | None => mret OTA_MODULE_ERR_INVALID_ARG
  | Some h =>
      inited ← gets g_inited;
      dl ← gets g_dl;
      if negb inited then mret OTA_MODULE_ERR_NOT_INIT
      else if started dl then mret OTA_MODULE_ERR_ALREADY_IN_PROGRESS
      else if negb (h_magic h =? OTA_PACKAGE_MAGIC) then mret OTA_MODULE_ERR_PACKAGE_MAGIC
      else
        expected_hdr_crc ← package_header_crc32_without_header_crc32 h;
        if negb (expected_hdr_crc =? header_crc32 h) then mret OTA_MODULE_ERR_PACKAGE_HEADER_CRC
        else
          '(_, rec) ← record_load;
          match rec with
          | None => undef
          | Some r =>
              match choose_target_ota_slot r with
              | None => mret OTA_MODULE_ERR_SLOT_UNAVAILABLE
              | Some i =>
                  target ← slot r i;
                  let erase_len := app_offset h +u app_size h in
                  if flash_size target <=? app_offset h then mret OTA_MODULE_ERR_FLASH_SIZE
                  else if flash_size target <? app_offset h +u app_size h
                  then mret OTA_MODULE_ERR_FLASH_SIZE
                  else if flash_size target <? app_size h then mret OTA_MODULE_ERR_FLASH_SIZE
                  else if flash_size target <? erase_len then mret OTA_MODULE_ERR_FLASH_SIZE
                  else
                    e ← flash_erase_slot (flash_type target) (flash_addr target) erase_len;
                    if negb (err_ok e) then mret OTA_MODULE_ERR_FLASH_OP
                    else
                      let target :=
                        set_verify_count 0 (set_status OTA_APP_STATUS_DOWNLOADING target) in
                      let r := set_info_crc32 0 (set_app i target r) in
                      rc ← record_store r;
                      if negb (err_ok rc) then
                        record_store (set_app i (set_status OTA_APP_STATUS_INVALID target) r);;
                        mret rc
                      else
                        set_dl (mkSession true i h (app_size h) (app_offset h +u app_size h)
                                  (app_crc32 h) 0 0 false);;
                        mret OTA_MODULE_ERR_OK
              end
          end
  end.

Definition ota_module_ota_download (offset : Z) (data : option (list Z)) (size : Z)
  : M st ota_module_err_t :=
  if negb (is_some data) && negb (size =? 0) then mret OTA_MODULE_ERR_INVALID_ARG
  else
    inited ← gets g_inited;
    dl ← gets g_dl;
    if negb inited then mret OTA_MODULE_ERR_NOT_INIT
    else if negb (started dl) then mret OTA_MODULE_ERR_SESSION_MISMATCH
    else
      '(rc, rec) ← record_load;
      if negb (err_ok rc) then mret rc
      else match rec with
      | None => undef
      | Some r =>
          target ← slot r (target_index dl);
          if negb (status target =? OTA_APP_STATUS_DOWNLOADING)
          then mret OTA_MODULE_ERR_SESSION_MISMATCH
          else if negb (offset =? downloaded_size dl) then mret OTA_MODULE_ERR_OFFSET_MISMATCH
          else if expected_total_size dl <? offset +u size then mret OTA_MODULE_ERR_SIZE_MISMATCH
          else if size =? 0 then mret OTA_MODULE_ERR_OK
          else
            let dst_addr := flash_addr target +u offset in
            if flash_addr target +u flash_size target <? dst_addr +u size
            then mret OTA_MODULE_ERR_FLASH_SIZE
            else
              wrc ← flash_write (flash_type target) dst_addr data size;
              if negb (wrc =? 0) then mret OTA_MODULE_ERR_FLASH_OP
              else
                set_dl (mkSession (started dl) (target_index dl) (package_header_copy dl)
                          (expected_app_size dl) (expected_total_size dl) (expected_app_crc32 dl)
                          (downloaded_size dl +u size) (downloaded_crc32 dl) (crc_inited dl));;
                mret OTA_MODULE_ERR_OK
      end.

(** The information structure is left alone when the record cannot be read. *)
Definition ota_module_ota_get_download_info (has_out : bool)
  : M st (ota_module_err_t * option ota_download_info_t) :=
  if negb has_out then mret (OTA_MODULE_ERR_INVALID_ARG, None)
  else
    inited ← gets g_inited;
    dl ← gets g_dl;
    if negb inited then mret (OTA_MODULE_ERR_NOT_INIT, None)
    else if negb (started dl) then
      mret (OTA_MODULE_ERR_SESSION_MISMATCH,
            Some (mkInfo OTA_DOWNLOAD_STATUS_INVALID app_zero header_zero 0 0))
    else
      '(rc, rec) ← record_load;
      if negb (err_ok rc) then mret (rc, None)
      else match rec with
      | None => undef
      | Some r =>
          target ← slot r (target_index dl);
          mret (OTA_MODULE_ERR_OK,
                Some (mkInfo OTA_DOWNLOAD_STATUS_DOWNLOADING target (package_header_copy dl)
                        (downloaded_size dl) 0))
      end.

Definition ota_module_ota_download_finish : M st ota_module_err_t :=
  inited ← gets g_inited;
  dl ← gets g_dl;
  if negb inited then mret OTA_MODULE_ERR_NOT_INIT
  else if negb (started dl) then mret OTA_MODULE_ERR_SESSION_MISMATCH
  else
    '(rc, rec) ← record_load;
    if negb (err_ok rc) then mret rc
    else match rec with
    | None => undef
    | Some r =>
        target ← slot r (target_index dl);
        if negb (status target =? OTA_APP_STATUS_DOWNLOADING) then mret OTA_MODULE_ERR_APP_STATUS
        else if negb (downloaded_size dl =? expected_total_size dl)
        then mret OTA_MODULE_ERR_SIZE_MISMATCH
        else
          flash_write (flash_type target) 0 None 0;;
          '(rc, flash_crc) ← flash_crc32_app_body target (package_header_copy dl);
          if negb (err_ok rc) then mret rc
          else if negb (flash_crc =? expected_app_crc32 dl) then
            rc ← record_store
              (set_app (target_index dl)
                 (set_verify_count 0 (set_status OTA_APP_STATUS_INVALID target)) r);
            if negb (err_ok rc) then mret rc
            else set_dl session_zero;; mret OTA_MODULE_ERR_CRC_MISMATCH
          else
            rc ← record_store
              (set_app (target_index dl)
                 (set_verify_count 0 (set_status OTA_APP_STATUS_UNVERIFIED target)) r);
            if negb (err_ok rc) then mret rc
            else set_dl session_zero;; mret OTA_MODULE_ERR_OK
    end.

Definition ota_module_ota_download_abort : M st ota_module_err_t :=
  inited ← gets g_inited;
  dl ← gets g_dl;
  if negb inited then mret OTA_MODULE_ERR_NOT_INIT
  else
    '(_, rec) ← record_load;
    match rec with
    | None => undef
    | Some r =>
        match (if started dl then Some (target_index dl)
               else find_status OTA_APP_STATUS_DOWNLOADING (ota_app_info r)) with
        | None => mret OTA_MODULE_ERR_SLOT_UNAVAILABLE
        | Some i =>
            target ← slot r i;
            rc ← record_store
              (set_app i (set_verify_count 0 (set_status OTA_APP_STATUS_INVALID target)) r);
            if negb (err_ok rc) then mret rc
            else set_dl session_zero;; mret OTA_MODULE_ERR_OK
        end
    end.

(** Demotion of the slots other than the promoted one. *)
Definition demote (a : ota_app_info_t) : ota_app_info_t :=
  if (status a =? OTA_APP_STATUS_ACTIVE) || (status a =? OTA_APP_STATUS_UNVERIFIED)
  then set_verify_count 0 (set_status OTA_APP_STATUS_BACKUP a) else a.

Inductive promote_result : Type :=
| PromoteStore (r : ota_record_info_t)   (* returns 0 *)
| PromoteIdempotent                      (* returns 1 *)
| PromoteError.                          (* returns -1 *)

Definition mark_verified_promote_unverified_ota_slot (r : ota_record_info_t) : promote_result :=
  match find_status OTA_APP_STATUS_UNVERIFIED (ota_app_info r) with
  | None =>
      if is_some (find_status OTA_APP_STATUS_ACTIVE (ota_app_info r)) then PromoteIdempotent
      else PromoteError
  | Some uv =>
      PromoteStore
        (mkRecord (r_magic r)
           (imap (fun i a => if (i =? uv)%nat
                             then set_verify_count 0 (set_status OTA_APP_STATUS_ACTIVE a)
                             else demote a) (ota_app_info r))
           (boot_ymodem_flag r) (info_crc32 r))
  end.

Definition ota_module_app_mark_verified : M st ota_module_err_t :=
  inited ← gets g_inited;
  if negb inited then mret OTA_MODULE_ERR_NOT_INIT
  else
    '(rc, rec) ← record_load;
    if negb (err_ok rc) then mret rc
    else match rec with
    | None => undef
    | Some r =>
        match mark_verified_promote_unverified_ota_slot r with
        | PromoteIdempotent => mret OTA_MODULE_ERR_OK
        | PromoteError => mret OTA_MODULE_ERR_APP_STATUS
        | PromoteStore r' =>
            rc ← record_store r';
            mret (if err_ok rc then OTA_MODULE_ERR_OK else OTA_MODULE_ERR_FLASH_OP)
        end
    end.

Definition ota_module_set_boot_ymodem_flag (flag : Z) : M st ota_module_err_t :=
  inited ← gets g_inited;
  if negb inited then mret OTA_MODULE_ERR_NOT_INIT
  else
    '(_, rec) ← record_load;
    match rec with
    | None => undef
    | Some r => record_store (set_boot_flag flag r)
    end.

Definition ota_module_get_boot_ymodem_flag : M st Z :=
  inited ← gets g_inited;
  if negb inited then mret 0
  else
    '(_, rec) ← record_load;
    match rec with
    | None => undef
    | Some r => mret (boot_ymodem_flag r)
    end.

End Ota.
