(* ===== verification/OtaLaws.v ===== *)
(** What the OTA module needs from its platform, as the interface
    [OtaPlatform], and the lemmas on record persistence proved against it. *)
From S2P Require Import Prelude FlashPort OtaModule.

(** ** Layout round trips *)
Definition u32_field (v : Z) : Prop := 0 <= v < 4294967296.

#[export] Instance u32_field_dec v : Decision (u32_field v).
Proof. unfold u32_field; solve_decision. Defined.

Record header_wf (h : ota_package_header_t) : Prop := mkHeaderWf {
  hw_magic : u32_field (h_magic h);
  hw_ts : u32_field (build_timestamp h);
  hw_off : u32_field (app_offset h);
  hw_size : u32_field (app_size h);
  hw_crc : u32_field (app_crc32 h);
  hw_version : length (app_version h) = 32%nat;
  hw_version_bytes : bytes_ok (app_version h);
  hw_hcrc : u32_field (header_crc32 h)
}.

(** [field_at] peels the fields of a packed object off its encoding. *)
Ltac field_at :=
  repeat (rewrite sub_app_ge by (autorewrite with buf; lia); autorewrite with buf);
  rewrite ?Nat.sub_diag; cbn [Nat.sub].

Lemma le_dec_enc4 v : u32_field v -> le_dec (le_enc 4 v) = v.
Proof. intros. apply le_dec_enc. unfold u32_field in *. simpl. lia. Qed.

Lemma dec_enc_header h : header_wf h -> dec_header (enc_header h) = h.
Proof.
  intros [Hm Ht Ho Hs Hc Hv Hvb Hh]. destruct h as [m t o s c v hc]. simpl in *.
  unfold dec_header, enc_header, enc_header_body. cbn [h_magic build_timestamp app_offset app_size
    app_crc32 app_version header_crc32]. rewrite <- !app_assoc. f_equal; field_at;
    rewrite ?sub_app_hd by (autorewrite with buf; done); auto using le_dec_enc4.
  all: field_at; rewrite ?Hv; field_at; rewrite ?sub_app_hd, ?sub_all by (autorewrite with buf; done);
    auto using le_dec_enc4.
Qed.

Lemma length_enc_header h : length (app_version h) = 32%nat -> length (enc_header h) = sizeof_header.
Proof. intros. unfold enc_header, enc_header_body. autorewrite with buf. rewrite H. done. Qed.

Section RecordLayout.
Context `{B : OtaBuild}.

Definition enum_field (v : Z) : Prop := 0 <= v < 256 ^ Z.of_nat sizeof_enum.

Record app_wf (a : ota_app_info_t) : Prop := mkAppWf {
  aw_status : enum_field (status a);
  aw_count : u32_field (verify_count a);
  aw_type : enum_field (flash_type a);
  aw_addr : u32_field (flash_addr a);
  aw_size : u32_field (flash_size a)
}.

Record record_wf (r : ota_record_info_t) : Prop := mkRecordWf {
  rw_magic : u32_field (r_magic r);
  rw_slots : length (ota_app_info r) = slot_count;
  rw_apps : Forall app_wf (ota_app_info r);
  rw_flag : u32_field (boot_ymodem_flag r);
  rw_crc : u32_field (info_crc32 r)
}.

Lemma length_enc_app a : length (enc_app a) = sizeof_app.
Proof. unfold enc_app, sizeof_app. autorewrite with buf. lia. Qed.

Lemma dec_enc_app a : app_wf a -> dec_app (enc_app a) = a.
Proof.
  intros [Hs Hv Ht Ha Hz]. destruct a as [s v t ad z]. simpl in *.
  unfold dec_app, enc_app. cbn [status verify_count flash_type flash_addr flash_size].
  assert (D : forall w, enum_field w -> le_dec (le_enc sizeof_enum w) = w)
    by (intros; apply le_dec_enc; done).
  f_equal.
  - rewrite sub_app_hd by apply length_le_enc. auto.
  - field_at. rewrite sub_app_hd by apply length_le_enc. auto using le_dec_enc4.
  - field_at. replace (sizeof_enum + 4 - sizeof_enum - 4)%nat with 0%nat by lia.
    rewrite sub_app_hd by apply length_le_enc. auto.
  - field_at. replace (_ - _)%nat with 0%nat by lia.
    rewrite sub_app_hd by apply length_le_enc. auto using le_dec_enc4.
  - field_at. replace (_ - _)%nat with 0%nat by lia.
    rewrite sub_all by apply length_le_enc. auto using le_dec_enc4.
Qed.

Lemma dec_enc_apps l k :
  Forall app_wf l -> dec_apps (length l) (concat (map enc_app l) ++ k) = l.
Proof.
  induction 1 as [|a l Ha _ IH]; [done|]. cbn [length dec_apps map concat].
  rewrite <- app_assoc. rewrite take_app_length', drop_app_length' by (by rewrite length_enc_app).
  by rewrite dec_enc_app, IH.
Qed.

Lemma length_enc_apps l : length (concat (map enc_app l)) = (length l * sizeof_app)%nat.
Proof.
  induction l as [|a l IH]; [done|]. cbn [map concat length]. rewrite length_app, length_enc_app, IH. lia.
Qed.

Lemma length_enc_record r : length (ota_app_info r) = slot_count -> length (enc_record r) = sizeof_record.
Proof.
  intros Hl. unfold enc_record, enc_record_body, sizeof_record. autorewrite with buf.
  rewrite length_enc_apps, Hl. lia.
Qed.

Lemma dec_enc_record r : record_wf r -> dec_record (enc_record r) = r.
Proof.
  intros [Hm Hl Ha Hf Hc]. destruct r as [m l f c]. simpl in *.
  unfold dec_record, enc_record, enc_record_body. cbn [r_magic ota_app_info boot_ymodem_flag info_crc32].
  rewrite <- !app_assoc. pose proof (length_enc_apps l) as Hle. rewrite Hl in Hle. f_equal.
  - rewrite sub_app_hd by apply length_le_enc. auto using le_dec_enc4.
  - rewrite drop_app_length' by (by rewrite length_le_enc). rewrite <- Hl. by apply dec_enc_apps.
  - rewrite sub_app_ge by (autorewrite with buf; lia). autorewrite with buf.
    rewrite sub_app_ge by (rewrite Hle; lia). rewrite Hle. replace (_ - _)%nat with 0%nat by lia.
    rewrite sub_app_hd by apply length_le_enc. auto using le_dec_enc4.
  - rewrite sub_app_ge by (autorewrite with buf; lia). autorewrite with buf.
    rewrite sub_app_ge by (rewrite Hle; lia). rewrite Hle.
    rewrite sub_app_ge by (autorewrite with buf; lia). autorewrite with buf.
    replace (_ - _)%nat with 0%nat by lia. rewrite sub_all by apply length_le_enc. auto using le_dec_enc4.
Qed.

Lemma bytes_ok_enc_record r : bytes_ok (enc_record r).
Proof.
  unfold enc_record, enc_record_body. repeat apply bytes_ok_app; auto using bytes_ok_le_enc.
  induction (ota_app_info r) as [|a l IH]; [by constructor|]. cbn [map concat].
  apply bytes_ok_app; [|done]. unfold enc_app. repeat apply bytes_ok_app; auto using bytes_ok_le_enc.
Qed.
End RecordLayout.

(** Enumerations take one to four bytes. *)
Class OtaBuildLaws `{B : OtaBuild} : Prop := {
  enum_size_ok : (1 <= sizeof_enum <= 4)%nat;
  default_wf : record_wf ota_record_default_info
}.

(** ** The platform interface

    [op_raw] is what the flash holds, [op_view] what has been written to it
    including bytes a driver still buffers, [op_pending] the buffered
    addresses.  [crc_acc] is the input of the CRC unit since its last reset. *)
Class OtaPlatform (P : Type) : Type := {
  op_read : Z -> Z -> Z -> M P (Z * list Z);
  op_write : Z -> Z -> option (list Z) -> Z -> M P Z;
  op_erase : Z -> Z -> Z -> M P Z;
  op_crc32 : Z -> list Z -> Z -> M P Z;
  op_jump : Z -> M P Z;
  op_record_addr : Z;
  op_start : list Z;
  op_sizes : list Z;
  op_sector : Z;
  op_lo : Z;
  op_hi : Z;
  op_ok : P -> Prop;
  op_raw : P -> mem;
  op_view : P -> mem;
  op_pending : P -> Z -> Prop;
  crc_of : list Z -> Z;
  crc_acc : P -> list Z
}.

Definition op_config (P : Type) `{OtaPlatform P} : ota_module_config_t P :=
  mkConfig OTA_FLASH_TYPE_INTERNAL op_record_addr op_start op_sizes [op_sector; 0; 0]
    (Some op_read) (Some op_write) (Some op_erase) (Some op_crc32) (Some op_jump).

(** Same flash, as seen through the driver. *)
Record same_flash {P} `{OtaPlatform P} (p p' : P) : Prop := mkSameFlash {
  sf_raw : forall x, op_raw p' x = op_raw p x;
  sf_view : forall x, op_view p' x = op_view p x;
  sf_pending : forall x, op_pending p' x -> op_pending p x;
  sf_ok : op_ok p'
}.

Class OtaPlatformLaws (P : Type) `{OtaPlatform P} : Type := {
  sector_pos : 64 <= op_sector;
  sector_8 : op_sector mod 8 = 0;
  array_bounds : 0 < op_lo /\ op_lo < op_hi /\ op_hi + op_sector < 2147483648;
  array_aligned : op_lo mod op_sector = 0 /\ op_hi mod op_sector = 0;
  record_aligned : op_record_addr mod op_sector = 0;
  record_inside : op_lo <= op_record_addr /\ op_record_addr + op_sector <= op_hi;
  crc_range d : u32_field (crc_of d);
  law_bytes p x : op_ok p -> is_byte (op_raw p x);
  law_read p a n : op_ok p -> 0 < n ->
    op_read OTA_FLASH_TYPE_INTERNAL a n p = Ret (0, mem_read (op_raw p) a (Z.to_nat n)) p;
  law_write p a d : op_ok p -> op_lo <= a -> 0 < zlen d -> a + zlen d <= op_hi -> bytes_ok d ->
    (forall x, op_pending p x -> x < a) ->
    (forall x, a / 8 * 8 <= x < (a + zlen d - 1) / 8 * 8 + 8 -> op_raw p x = 255) ->
    exists p', op_write OTA_FLASH_TYPE_INTERNAL a (Some d) (zlen d) p = Ret 0 p' /\ op_ok p' /\
      (forall x, op_view p' x = mem_write (op_view p) a d x) /\
      (forall x, (a + zlen d) / 8 * 8 <= x -> op_raw p' x = op_raw p x) /\
      (forall x, x < a / 8 * 8 -> op_raw p' x = op_raw p x \/ op_raw p' x = op_view p x) /\
      (forall x, op_pending p' x -> x < a + zlen d);
  law_flush p : op_ok p ->
    exists p', op_write OTA_FLASH_TYPE_INTERNAL 0 None 0 p = Ret 0 p' /\ op_ok p' /\
      (forall x, op_raw p' x = op_view p x) /\ (forall x, op_view p' x = op_view p x) /\
      (forall x, ~ op_pending p' x);
  law_erase p a n : op_ok p -> op_lo <= a -> 0 < n -> a + n <= op_hi ->
    a mod op_sector = 0 -> n mod op_sector = 0 ->
    exists p', op_erase OTA_FLASH_TYPE_INTERNAL a n p = Ret 0 p' /\ op_ok p' /\
      (forall x, op_raw p' x = mem_fill (op_raw p) a n 255 x) /\
      (forall x, op_view p' x = op_raw p' x) /\ (forall x, ~ op_pending p' x);
  law_crc_reset p d : op_ok p -> 0 < zlen d ->
    exists p', op_crc32 0 d (zlen d) p = Ret (crc_of d) p' /\ same_flash p p' /\ crc_acc p' = d;
  law_crc_continue p d : op_ok p -> 0 < zlen d ->
    exists p', op_crc32 1 d (zlen d) p = Ret (crc_of (crc_acc p ++ d)) p' /\ same_flash p p' /\
      crc_acc p' = crc_acc p ++ d;
  law_jump p a : op_ok p -> a <> 0 ->
    exists p', op_jump a p = Halt (JumpedTo a) p' /\ same_flash p p'
}.

(** ** Alignment *)
Lemma align_down_multiple v a : 0 < a -> 0 <= v < 4294967296 -> v mod a = 0 -> align_down v a = v.
Proof.
  intros Ha Hv Hm. unfold align_down. rewrite (proj2 (Z.eqb_neq a 0)) by lia.
  assert (v / a * a = v) as -> by (pose proof (Z.div_mod v a); lia). by apply u32_small.
Qed.

Lemma align_up_spec v a :
  0 < a -> 0 <= v -> v + a < 4294967296 ->
  v <= align_up v a < v + a /\ align_up v a mod a = 0.
Proof.
  intros Ha Hv Hb. unfold align_up. rewrite (proj2 (Z.eqb_neq a 0)) by lia.
  rewrite (u32_small (v + a)), (u32_small (v + a - 1)) by lia.
  pose proof (Z.div_mod (v + a - 1) a ltac:(lia)). pose proof (Z.mod_pos_bound (v + a - 1) a Ha).
  rewrite u32_small by nia. split; [nia|]. apply Z_mod_mult.
Qed.

Lemma multiple_le u v a : 0 < a -> u mod a = 0 -> v mod a = 0 -> u < v + a -> u <= v.
Proof.
  intros Ha Hu Hv Hlt. pose proof (Z.div_mod u a). pose proof (Z.div_mod v a).
  assert (u / a < v / a + 1) by nia. nia.
Qed.

Lemma mod8_of_sector v a : 0 < a -> a mod 8 = 0 -> v mod a = 0 -> v mod 8 = 0.
Proof.
  intros Ha Ha8 Hv. apply Z.mod_divide in Hv, Ha8; try lia.
  apply Z.mod_divide; [lia|]. by transitivity a.
Qed.

(** ** Calls through the configuration *)
Section Calls.
Context `{B : OtaBuild} {BL : OtaBuildLaws} {P : Type} `{OtaPlatformLaws P}.
Implicit Types s : ota_state P.

(** An initialised module over a working platform. *)
Record ready s : Prop := mkReady {
  rd_cfg : g_cfg s = op_config P;
  rd_inited : g_inited s = true;
  rd_ok : op_ok (plat s)
}.

Lemma ready_plat s p' : ready s -> op_ok p' -> ready (set_plat p' s).
Proof. intros [? ? ?] ?. by split. Qed.

Lemma same_flash_refl p : op_ok p -> same_flash p p.
Proof. by split. Qed.

Lemma same_flash_trans p q r : same_flash p q -> same_flash q r -> same_flash p r.
Proof.
  intros [A1 A2 A3 A4] [B1 B2 B3 B4]. split; auto; intros x; rewrite ?B1, ?B2; auto.
Qed.

Lemma call_eq {A} (f : ota_module_config_t P -> option (M P A)) s m :
  f (g_cfg s) = Some m -> call f s = zoom plat set_plat m s.
Proof. intros E. unfold call. by rewrite E. Qed.

(** What reading the flash and its CRCs takes of the configuration; the erase
    and write callbacks may be others. *)
Record readable s : Prop := mkReadable {
  rb_type : record_flash_type (g_cfg s) = OTA_FLASH_TYPE_INTERNAL;
  rb_addr : record_addr (g_cfg s) = op_record_addr;
  rb_read : flash_read_func (g_cfg s) = Some op_read;
  rb_crc : crc32_func (g_cfg s) = Some op_crc32;
  rb_inited : g_inited s = true;
  rb_ok : op_ok (plat s)
}.

Lemma ready_readable s : ready s -> readable s.
Proof. intros [Hc ? ?]. by split; rewrite ?Hc. Qed.

Lemma readable_plat s p' : readable s -> op_ok p' -> readable (set_plat p' s).
Proof. intros [] ?. by split. Qed.

Lemma readable_flash_read s a n :
  readable s -> 0 < n ->
  flash_read OTA_FLASH_TYPE_INTERNAL a n s
  = Ret (0, mem_read (op_raw (plat s)) a (Z.to_nat n)) s.
Proof.
  intros [_ _ Hc _ Hi Ho] Hn. unfold flash_read. erewrite call_eq by (rewrite Hc; reflexivity).
  unfold zoom. rewrite law_read by done. by destruct s.
Qed.

Lemma readable_crc s d :
  readable s -> 0 < zlen d ->
  exists p', crc32 0 d s = Ret (crc_of d) (set_plat p' s) /\ same_flash (plat s) p' /\ crc_acc p' = d.
Proof.
  intros [_ _ _ Hc Hi Ho] Hd. destruct (law_crc_reset _ _ Ho Hd) as (p' & E & Hs & Ha).
  exists p'. unfold crc32. erewrite call_eq by (rewrite Hc; reflexivity).
  split; [by apply zoom_ret_eq|done].
Qed.

Lemma flash_read_eq s a n :
  ready s -> 0 < n ->
  flash_read OTA_FLASH_TYPE_INTERNAL a n s
  = Ret (0, mem_read (op_raw (plat s)) a (Z.to_nat n)) s.
Proof. intros Hr. by apply readable_flash_read, ready_readable. Qed.

Lemma crc_reset_eq s d :
  ready s -> 0 < zlen d ->
  exists p', crc32 0 d s = Ret (crc_of d) (set_plat p' s) /\ same_flash (plat s) p' /\ crc_acc p' = d.
Proof. intros Hr. by apply readable_crc, ready_readable. Qed.

Lemma crc_continue_eq s d :
  ready s -> 0 < zlen d ->
  exists p', crc32 1 d s = Ret (crc_of (crc_acc (plat s) ++ d)) (set_plat p' s) /\
    same_flash (plat s) p' /\ crc_acc p' = crc_acc (plat s) ++ d.
Proof.
  intros [Hc Hi Ho] Hd. destruct (law_crc_continue _ _ Ho Hd) as (p' & E & Hs & Ha).
  exists p'. unfold crc32. erewrite call_eq by (rewrite Hc; reflexivity).
  split; [by apply zoom_ret_eq|done].
Qed.

Lemma jump_eq s a :
  ready s -> a <> 0 ->
  exists p', jump a s = Halt (JumpedTo a) (set_plat p' s) /\ same_flash (plat s) p'.
Proof.
  intros [Hc Hi Ho] Ha. destruct (law_jump _ _ Ho Ha) as (p' & E & Hs).
  exists p'. unfold jump. erewrite call_eq by (rewrite Hc; reflexivity).
  split; [|done]. unfold zoom. by rewrite E.
Qed.

(** Erase of an aligned range of [n] bytes, rounded up to sectors. *)
Lemma flash_erase_slot_eq s a n :
  ready s -> op_lo <= a -> 0 < n -> a mod op_sector = 0 ->
  a + n <= op_hi -> a + align_up n op_sector <= op_hi ->
  exists p', flash_erase_slot OTA_FLASH_TYPE_INTERNAL a n s = Ret OTA_MODULE_ERR_OK (set_plat p' s) /\
    op_ok p' /\
    (forall x, op_raw p' x = mem_fill (op_raw (plat s)) a (align_up n op_sector) 255 x) /\
    (forall x, op_view p' x = op_raw p' x) /\ (forall x, ~ op_pending p' x).
Proof.
  intros [Hc Hi Ho] Ha Hn Hm Hhi Hhi'. pose proof array_bounds. pose proof sector_pos.
  destruct (align_up_spec n op_sector) as [[Hu1 Hu2] Hu3]; try lia.
  destruct (law_erase (plat s) a (align_up n op_sector)) as (p' & E & Hok & Hr & Hv & Hp); auto; try lia.
  exists p'. split; [|done]. unfold flash_erase_slot. erewrite bind_ret_eq by reflexivity.
  assert (flash_sector_size (g_cfg s) !! Z.to_nat OTA_FLASH_TYPE_INTERNAL = Some op_sector) as ->
    by (rewrite Hc; reflexivity).
  rewrite (proj2 (Z.eqb_neq op_sector 0)) by lia. rewrite align_down_multiple by lia.
  rewrite (u32_small (a + n)), (u32_small (a + n - a)) by lia. replace (a + n - a) with n by lia.
  assert (Ee : flash_erase OTA_FLASH_TYPE_INTERNAL a (align_up n op_sector) s = Ret 0 (set_plat p' s)).
  { unfold flash_erase. erewrite call_eq by (rewrite Hc; reflexivity). by apply zoom_ret_eq. }
  mrun Ee. done.
Qed.

Lemma flash_write_eq s a d :
  ready s -> op_lo <= a -> 0 < zlen d -> a + zlen d <= op_hi -> bytes_ok d ->
  (forall x, op_pending (plat s) x -> x < a) ->
  (forall x, a / 8 * 8 <= x < (a + zlen d - 1) / 8 * 8 + 8 -> op_raw (plat s) x = 255) ->
  exists p', flash_write OTA_FLASH_TYPE_INTERNAL a (Some d) (zlen d) s = Ret 0 (set_plat p' s) /\
    op_ok p' /\
    (forall x, op_view p' x = mem_write (op_view (plat s)) a d x) /\
    (forall x, (a + zlen d) / 8 * 8 <= x -> op_raw p' x = op_raw (plat s) x) /\
    (forall x, x < a / 8 * 8 ->
       op_raw p' x = op_raw (plat s) x \/ op_raw p' x = op_view (plat s) x) /\
    (forall x, op_pending p' x -> x < a + zlen d).
Proof.
  intros [Hc Hi Ho] Ha Hd Hhi Hb Hp He.
  destruct (law_write (plat s) a d) as (p' & E & Q); auto.
  exists p'. split; [|done]. unfold flash_write. erewrite call_eq by (rewrite Hc; reflexivity).
  by apply zoom_ret_eq.
Qed.

Lemma flash_flush_eq s :
  ready s ->
  exists p', flash_write OTA_FLASH_TYPE_INTERNAL 0 None 0 s = Ret 0 (set_plat p' s) /\ op_ok p' /\
    (forall x, op_raw p' x = op_view (plat s) x) /\ (forall x, op_view p' x = op_view (plat s) x) /\
    (forall x, ~ op_pending p' x).
Proof.
  intros [Hc Hi Ho]. destruct (law_flush (plat s)) as (p' & E & Q); auto.
  exists p'. split; [|done]. unfold flash_write. erewrite call_eq by (rewrite Hc; reflexivity).
  by apply zoom_ret_eq.
Qed.

(** ** The persistent record *)

(** A valid record is stored at the record address. *)
Record record_at (p : P) (r : ota_record_info_t) : Prop := mkRecordAt {
  ra_bytes : mem_read (op_raw p) op_record_addr sizeof_record = enc_record r;
  ra_wf : record_wf r;
  ra_magic : r_magic r = OTA_INFO_MAGIC;
  ra_crc : info_crc32 r = crc_of (enc_record_body r)
}.

Definition in_record_sector (x : Z) : Prop :=
  op_record_addr <= x < op_record_addr + op_sector.

Lemma sizeof_record_fits : 0 < Z.of_nat sizeof_record <= op_sector.
Proof.
  pose proof enum_size_ok. pose proof sector_pos.
  unfold sizeof_record, sizeof_app, slot_count. destruct OTA_IS_DUAL_APP; lia.
Qed.

Lemma record_at_frame p p' r :
  record_at p r -> (forall x, in_record_sector x -> op_raw p' x = op_raw p x) -> record_at p' r.
Proof.
  intros [A B' C D] Hf. split; auto. rewrite <- A. apply mem_read_ext. intros x Hx. apply Hf.
  pose proof sizeof_record_fits. unfold in_record_sector. lia.
Qed.

Lemma record_at_same p p' r : record_at p r -> same_flash p p' -> record_at p' r.
Proof. intros Hr [Hs _ _ _]. eapply record_at_frame; eauto. Qed.

Lemma zlen_enc_record_body r : 0 < zlen (enc_record_body r).
Proof. unfold zlen, enc_record_body. autorewrite with buf. lia. Qed.

Lemma readable_record_load s r :
  readable s -> record_at (plat s) r ->
  exists p', record_load s = Ret (OTA_MODULE_ERR_OK, Some r) (set_plat p' s) /\
    same_flash (plat s) p'.
Proof.
  intros Hr [Hb Hw Hm Hcrc]. unfold record_load. pose proof sizeof_record_fits.
  erewrite bind_ret_eq by reflexivity. rewrite (rb_inited _ Hr). cbn [negb].
  erewrite bind_ret_eq by reflexivity. rewrite (rb_type _ Hr), (rb_addr _ Hr).
  erewrite bind_ret_eq by (apply readable_flash_read; [done|lia]). cbn beta iota.
  rewrite Nat2Z.id, Hb, dec_enc_record by done. cbn [Z.eqb negb]. rewrite Hm, Z.eqb_refl. cbn [negb].
  destruct (readable_crc s (enc_record_body r) Hr (zlen_enc_record_body r)) as (p' & E & Hs & _).
  exists p'. unfold record_crc32_without_info_crc32, crc32_one_shot. mrun E.
  rewrite Hcrc, Z.eqb_refl. done.
Qed.

Lemma record_load_ok s r :
  ready s -> record_at (plat s) r ->
  exists p', record_load s = Ret (OTA_MODULE_ERR_OK, Some r) (set_plat p' s) /\
    same_flash (plat s) p'.
Proof. intros Hr. by apply readable_record_load, ready_readable. Qed.

(** The record as it is stored: magic and CRC filled in. *)
Definition seal (r : ota_record_info_t) : ota_record_info_t :=
  let r := set_r_magic OTA_INFO_MAGIC r in set_info_crc32 (crc_of (enc_record_body r)) r.

Lemma seal_wf r : record_wf r -> record_wf (seal r).
Proof. intros [A B' C D E]. split; simpl; auto; [by vm_compute|apply crc_range]. Qed.

Lemma record_store_ok s r :
  ready s -> record_wf r ->
  exists p', record_store r s = Ret OTA_MODULE_ERR_OK (set_plat p' s) /\ op_ok p' /\
    record_at p' (seal r) /\
    (forall x, ~ in_record_sector x -> op_raw p' x = op_raw (plat s) x) /\
    (forall x, op_view p' x = op_raw p' x) /\ (forall x, ~ op_pending p' x).
Proof.
  intros Hr Hw. pose proof Hr as [Hc Hi Ho]. pose proof sizeof_record_fits as Hsz.
  pose proof array_bounds as Hab. pose proof sector_pos as Hsp. pose proof record_inside as Hri.
  pose proof record_aligned as Hra. pose proof sector_8 as Hs8.
  unfold record_store. erewrite bind_ret_eq by reflexivity. rewrite Hi. cbn [negb].
  unfold record_crc32_without_info_crc32, crc32_one_shot.
  destruct (crc_reset_eq s (enc_record_body (set_r_magic OTA_INFO_MAGIC r)) Hr
              (zlen_enc_record_body _)) as (p1 & E1 & Hs1 & _). mrun E1.
  pose proof (ready_plat s p1 Hr (sf_ok _ _ Hs1)) as Hr1.
  erewrite bind_ret_eq by reflexivity. cbn [g_cfg set_plat]. rewrite Hc.
  cbn [record_flash_type record_addr op_config].
  destruct (align_up_spec (Z.of_nat sizeof_record) op_sector) as [[Hu1 Hu2] Hu3]; try lia.
  assert (Hau : align_up (Z.of_nat sizeof_record) op_sector <= op_sector)
    by (apply (multiple_le _ _ op_sector); auto; [lia|apply Z_mod_same_full|lia]).
  destruct (flash_erase_slot_eq (set_plat p1 s) op_record_addr (Z.of_nat sizeof_record) Hr1)
    as (p2 & E2 & Ho2 & Hraw2 & Hv2 & Hp2); try lia; auto. mrun E2. cbn [err_ok negb].
  change (set_plat p2 (set_plat p1 s)) with (set_plat p2 s).
  pose proof (ready_plat s p2 Hr Ho2) as Hr2. pose proof (seal_wf r Hw) as Hsw.
  fold (seal r). assert (Hlen : zlen (enc_record (seal r)) = Z.of_nat sizeof_record)
    by (unfold zlen; rewrite length_enc_record by apply Hsw; done).
  destruct (flash_write_eq (set_plat p2 s) op_record_addr (enc_record (seal r)) Hr2)
    as (p3 & E3 & Ho3 & Hv3 & Ha3 & Hb3 & Hp3); rewrite ?Hlen; auto using bytes_ok_enc_record; try lia.
  { intros x Hx. cbn [plat set_plat] in Hx. destruct (Hp2 x Hx). }
  { intros x Hx. cbn [plat set_plat]. rewrite Hraw2. unfold mem_fill. crange; [done|].
    exfalso. assert (op_record_addr mod 8 = 0) by (eapply mod8_of_sector; eauto; lia).
    assert (align_up (Z.of_nat sizeof_record) op_sector mod 8 = 0)
      by (eapply mod8_of_sector; eauto; lia). lia. }
  rewrite Hlen in E3. mrun E3. cbn [Z.eqb negb].
  change (set_plat p3 (set_plat p2 s)) with (set_plat p3 s).
  destruct (flash_flush_eq (set_plat p3 s) (ready_plat s p3 Hr Ho3))
    as (p4 & E4 & Ho4 & Hraw4 & Hv4 & Hp4). mrun E4.
  exists p4. split; [done|]. split; [done|].
  assert (Hmem : forall x, op_raw p4 x = mem_write (op_raw p2) op_record_addr (enc_record (seal r)) x).
  { intros x. rewrite Hraw4. cbn [plat set_plat]. rewrite Hv3. unfold mem_write.
    destruct (in_range _ _ _); [done|]. apply Hv2. }
  split_and!.
  - split; auto. rewrite <- (length_enc_record (seal r)) by apply Hsw.
    etransitivity; [apply mem_read_ext; intros; apply Hmem|]. apply mem_read_write.
  - intros x Hx. rewrite Hmem, mem_write_out by (unfold in_record_sector in Hx; lia).
    rewrite Hraw2. unfold mem_fill. crange; [unfold in_record_sector in Hx; lia|].
    by rewrite (sf_raw _ _ Hs1).
  - intros x. rewrite Hv4, Hraw4. done.
  - done.
Qed.
End Calls.
