(* ===== verification/OtaSession.v ===== *)
(** A download session of the OTA module, proved against the platform
    interface: start, the chunk invariant, the CRC pass, finish and abort. *)
From S2P Require Import Prelude FlashPort OtaModule OtaLaws.

Section Session.
Context `{B : OtaBuild} {BL : OtaBuildLaws} {P : Type} `{OtaPlatformLaws P}.
Implicit Types s : ota_state P.

(** A slot whose partition is made of whole sectors of the array, apart from
    the record sector. *)
Record slot_layout (a : ota_app_info_t) : Prop := mkSlotLayout {
  sl_type : flash_type a = OTA_FLASH_TYPE_INTERNAL;
  sl_aligned : flash_addr a mod op_sector = 0;
  sl_size : 0 < flash_size a /\ flash_size a mod op_sector = 0;
  sl_inside : op_lo <= flash_addr a /\ flash_addr a + flash_size a <= op_hi;
  sl_apart : flash_addr a + flash_size a <= op_record_addr \/
             op_record_addr + op_sector <= flash_addr a
}.

(** A header the module accepts for a slot. *)
Record header_for (h : ota_package_header_t) (a : ota_app_info_t) : Prop := mkHeaderFor {
  hf_wf : header_wf h;
  hf_magic : h_magic h = OTA_PACKAGE_MAGIC;
  hf_crc : header_crc32 h = crc_of (enc_header_body h);
  hf_offset : app_offset h < flash_size a;
  hf_total : 0 < app_offset h + app_size h <= flash_size a
}.

Definition total (h : ota_package_header_t) : Z := app_offset h + app_size h.

Lemma slot_eq r i a s : ota_app_info r !! i = Some a -> slot r i s = Ret a s.
Proof. intros E. unfold slot. by rewrite E. Qed.

Lemma set_app_wf r i a : record_wf r -> app_wf a -> record_wf (set_app i a r).
Proof.
  intros [A B' C D E] Ha. split; simpl; auto; [by rewrite length_insert|]. by apply Forall_insert.
Qed.

Lemma set_status_wf st v a :
  app_wf a -> 0 <= st < 256 -> u32_field v -> app_wf (set_verify_count v (set_status st a)).
Proof.
  intros [A B' C D E] Hs Hv. split; simpl; auto. unfold enum_field. pose proof enum_size_ok.
  assert (256 ^ 1 <= 256 ^ Z.of_nat sizeof_enum) by (apply Z.pow_le_mono_r; lia). lia.
Qed.

Lemma total_bound h a : header_for h a -> slot_layout a -> 0 < total h < 2147483648 /\
  app_offset h +u app_size h = total h /\ 0 <= app_offset h /\ 0 <= app_size h.
Proof.
  intros [W _ _ Ho Ht] [_ _ _ Hi _]. pose proof array_bounds.
  pose proof sector_pos. destruct W. unfold u32_field, total in *.
  rewrite u32_small; lia.
Qed.

Lemma erase_bound h a : header_for h a -> slot_layout a ->
  total h <= align_up (total h) op_sector <= flash_size a /\
  align_up (total h) op_sector mod 8 = 0 /\ flash_addr a mod 8 = 0.
Proof.
  intros Hh Hl. destruct (total_bound h a Hh Hl) as (Ht & _). pose proof array_bounds.
  pose proof sector_pos. pose proof sector_8. destruct Hl as [_ Ha [Hs0 Hs] Hi _].
  destruct (align_up_spec (total h) op_sector) as [[Hu1 Hu2] Hu3]; try lia.
  split_and!; [lia| |apply (mod8_of_sector _ op_sector); auto; lia..].
  apply (multiple_le _ _ op_sector); auto; try lia. destruct Hh as [_ _ _ _ Hht]. unfold total in *. lia.
Qed.

(** ** The session invariant *)

(** [img] is what the slot has received so far. *)
Record downloading s (r : ota_record_info_t) (i : nat) (a : ota_app_info_t)
    (h : ota_package_header_t) (img : list Z) : Prop := mkDownloading {
  dn_ready : ready s;
  dn_dl : g_dl s = mkSession true i h (app_size h) (total h) (app_crc32 h) (zlen img) 0 false;
  dn_record : record_at (plat s) r;
  dn_slot : ota_app_info r !! i = Some a;
  dn_status : status a = OTA_APP_STATUS_DOWNLOADING;
  dn_layout : slot_layout a;
  dn_header : header_for h a;
  dn_len : zlen img <= total h;
  dn_view : mem_read (op_view (plat s)) (flash_addr a) (length img) = img;
  dn_erased : forall x, (flash_addr a + zlen img) / 8 * 8 <= x
                        < flash_addr a + align_up (total h) op_sector -> op_raw (plat s) x = 255;
  dn_outside : forall x, ~ (flash_addr a <= x < flash_addr a + zlen img) ->
                 op_view (plat s) x = op_raw (plat s) x;
  dn_pending : forall x, op_pending (plat s) x -> x < flash_addr a + zlen img
}.

(** ** Start *)
Lemma readable_package_crc s h :
  readable s -> exists p', package_header_crc32_without_header_crc32 h s
    = Ret (crc_of (enc_header_body h)) (set_plat p' s) /\ same_flash (plat s) p'.
Proof.
  intros Hr. destruct (readable_crc s (enc_header_body h) Hr) as (p' & E & Hs & _).
  - unfold zlen, enc_header_body. autorewrite with buf. lia.
  - exists p'. done.
Qed.

Lemma package_crc_ok s h :
  ready s -> exists p', package_header_crc32_without_header_crc32 h s
    = Ret (crc_of (enc_header_body h)) (set_plat p' s) /\ same_flash (plat s) p'.
Proof. intros Hr. by apply readable_package_crc, ready_readable. Qed.

Lemma header_checks_pass h a :
  header_for h a -> slot_layout a ->
  (flash_size a <=? app_offset h) = false /\ (flash_size a <? app_offset h +u app_size h) = false /\
  (flash_size a <? app_size h) = false.
Proof.
  intros Hh Hl. destruct (total_bound h a Hh Hl) as (Ht & -> & Ho & Hs). destruct Hh. unfold total in *.
  split_and!; [apply Z.leb_gt|apply Z.ltb_ge|apply Z.ltb_ge]; lia.
Qed.

Definition downloading_app (a : ota_app_info_t) : ota_app_info_t :=
  set_verify_count 0 (set_status OTA_APP_STATUS_DOWNLOADING a).

Lemma slot_layout_status st v a : slot_layout a -> slot_layout (set_verify_count v (set_status st a)).
Proof. intros [A B' C D E]. by split. Qed.

Lemma header_for_status st v h a :
  header_for h a -> header_for h (set_verify_count v (set_status st a)).
Proof. intros [A B' C D E]. by split. Qed.

Lemma download_start_ok s r i a h :
  ready s -> started (g_dl s) = false -> record_at (plat s) r ->
  choose_target_ota_slot r = Some i -> ota_app_info r !! i = Some a ->
  slot_layout a -> header_for h a ->
  let r' := seal (set_info_crc32 0 (set_app i (downloading_app a) r)) in
  exists s', ota_module_ota_download_start (Some h) s = Ret OTA_MODULE_ERR_OK s' /\
    downloading s' r' i (downloading_app a) h [] /\
    (forall x, ~ in_record_sector x ->
       ~ (flash_addr a <= x < flash_addr a + align_up (total h) op_sector) ->
       op_raw (plat s') x = op_raw (plat s) x).
Proof.
  intros Hr Hst Hrec Hch Hi Hl Hh r'. pose proof Hr as [Hc Hin Ho]. pose proof Hh as [_ Hm Hcrc _ _].
  destruct (total_bound h a Hh Hl) as (Ht & Hsum & _). destruct (erase_bound h a Hh Hl) as (He & He8 & Ha8).
  destruct (header_checks_pass h a Hh Hl) as (C1 & C2 & C3).
  unfold ota_module_ota_download_start. do 2 erewrite bind_ret_eq by reflexivity.
  rewrite Hin, Hst, Hm, Z.eqb_refl. cbn [negb].
  destruct (package_crc_ok s h Hr) as (p1 & E1 & S1). mrun E1. rewrite Hcrc, Z.eqb_refl. cbn [negb].
  destruct (record_load_ok (set_plat p1 s) r) as (p2 & E2 & S2);
    [by apply ready_plat, (sf_ok _ _ S1)|by eapply record_at_same|]. mrun E2.
  change (set_plat p2 (set_plat p1 s)) with (set_plat p2 s). cbn iota.
  pose proof (same_flash_trans _ _ _ S1 S2) as S12. cbn [plat set_plat] in S12.
  rewrite Hch. rewrite (bind_ret_eq _ _ _ _ _ (slot_eq r i a (set_plat p2 s) Hi)).
  rewrite C1, C2, C3, Hsum, (sl_type _ Hl).
  destruct (flash_erase_slot_eq (set_plat p2 s) (flash_addr a) (total h))
    as (p3 & E3 & O3 & R3 & V3 & N3);
    [by apply ready_plat, (sf_ok _ _ S12)|destruct Hl; unfold total in *; lia..|].
  mrun E3. cbn [err_ok negb]. change (set_plat p3 (set_plat p2 s)) with (set_plat p3 s).
  assert (W : record_wf (set_info_crc32 0 (set_app i (downloading_app a) r))).
  { destruct (set_app_wf r i (downloading_app a)) as [W1 W2 W3 W4 W5];
      [by destruct Hrec|apply set_status_wf; [|done..]|].
    - eapply Forall_lookup_1; [|done]. apply Hrec.
    - split; auto. done. }
  destruct (record_store_ok (set_plat p3 s) _ (ready_plat s p3 Hr O3) W)
    as (p4 & E4 & O4 & A4 & R4 & V4 & N4).
  mrun E4. cbn [err_ok negb]. change (set_plat p4 (set_plat p3 s)) with (set_plat p4 s).
  eexists. split; [reflexivity|]. cbn [plat set_plat] in *. fold (downloading_app a) in *.
  assert (Hap : forall x, flash_addr a <= x < flash_addr a + align_up (total h) op_sector ->
                ~ in_record_sector x) by (destruct Hl; unfold in_record_sector; lia).
  split; [split; cbn [plat set_plat]|].
  - by split.
  - done.
  - done.
  - cbn. apply list_lookup_insert_eq. by eapply lookup_lt_Some.
  - done.
  - by apply slot_layout_status.
  - by apply header_for_status.
  - unfold zlen; simpl; lia.
  - done.
  - cbn [flash_addr downloading_app set_verify_count set_status]. unfold zlen; simpl length. intros x Hx.
    rewrite R4, R3 by (apply Hap; lia). unfold mem_fill. crange; [done|lia].
  - intros x _. apply V4.
  - intros x Hx. destruct (N4 x Hx).
  - intros x Hx1 Hx2. rewrite R4, R3 by done. unfold mem_fill. crange; [done|].
    apply (sf_raw _ _ S12).
Qed.

(** ** One chunk *)
Lemma download_chunk_ok s r i a h img d :
  downloading s r i a h img -> 0 < zlen d -> zlen img + zlen d <= total h -> bytes_ok d ->
  exists s', ota_module_ota_download (zlen img) (Some d) (zlen d) s = Ret OTA_MODULE_ERR_OK s' /\
    downloading s' r i a h (img ++ d) /\
    (forall x, ~ (flash_addr a <= x < flash_addr a + align_up (total h) op_sector) ->
       op_raw (plat s') x = op_raw (plat s) x).
Proof.
  intros [Hr Hdl Hrec Hi Hst Hl Hh Hlen Hvw Her Hout Hpd] Hd Hfit Hb.
  destruct (total_bound h a Hh Hl) as (Ht & _). destruct (erase_bound h a Hh Hl) as (He & He8 & Ha8).
  assert (0 <= zlen img) by (unfold zlen; lia). pose proof array_bounds. pose proof sector_pos.
  pose proof (sl_inside _ Hl) as Hin. pose proof (sl_apart _ Hl) as Hap.
  unfold ota_module_ota_download. cbn [is_some negb andb]. do 2 erewrite bind_ret_eq by reflexivity.
  rewrite (rd_inited _ Hr), Hdl. cbn [negb started].
  destruct (record_load_ok s r Hr Hrec) as (p1 & E1 & S1). mrun E1. cbn [err_ok negb].
  cbn [target_index]. rewrite (bind_ret_eq _ _ _ _ _ (slot_eq r i a _ Hi)).
  rewrite Hst. cbn [Z.eqb OTA_APP_STATUS_DOWNLOADING Pos.eqb negb downloaded_size expected_total_size].
  rewrite Z.eqb_refl, (u32_small (zlen img + zlen d)) by lia. cbn [negb].
  rewrite (proj2 (Z.ltb_ge (total h) _)), (proj2 (Z.eqb_neq (zlen d) 0)) by lia.
  rewrite (u32_small (flash_addr a + flash_size a)), (u32_small (flash_addr a + zlen img)),
    (u32_small (flash_addr a + zlen img + zlen d)) by lia.
  rewrite (proj2 (Z.ltb_ge _ _)), (sl_type _ Hl) by lia.
  destruct (flash_write_eq (set_plat p1 s) (flash_addr a + zlen img) d)
    as (p2 & E2 & O2 & V2 & R2 & L2 & N2); auto; try lia.
  { apply ready_plat; [done|apply S1]. }
  { intros x Hx. apply Hpd, (sf_pending _ _ S1), Hx. }
  { intros x Hx. cbn [plat set_plat]. rewrite (sf_raw _ _ S1). apply Her. lia. }
  mrun E2. cbn [Z.eqb negb]. eexists. split; [reflexivity|]. cbn [plat set_plat] in *.
  assert (Hzl : zlen (img ++ d) = zlen img + zlen d) by (unfold zlen; rewrite length_app; lia).
  assert (Hraw : forall x, ~ (flash_addr a <= x < flash_addr a + zlen img + zlen d) ->
                   op_raw p2 x = op_raw (plat s) x).
  { intros x Hx. destruct (Z_lt_le_dec x ((flash_addr a + zlen img + zlen d) / 8 * 8)).
    - destruct (L2 x) as [->| ->]; [lia|by rewrite (sf_raw _ _ S1)|].
      rewrite (sf_view _ _ S1). apply Hout. lia.
    - rewrite R2, (sf_raw _ _ S1) by lia. done. }
  split; [split; cbn [plat set_plat]|]; rewrite ?Hzl; auto.
  - split; [apply Hr|apply Hr|done].
  - eapply record_at_frame; [done|]. intros x Hx. apply Hraw. unfold in_record_sector in Hx. lia.
  - rewrite length_app, mem_read_app. f_equal.
    + rewrite <- Hvw at 2. apply mem_read_ext. intros x Hx. rewrite V2, mem_write_out by (unfold zlen; lia).
      apply (sf_view _ _ S1).
    + etransitivity; [apply mem_read_ext; intros; apply V2|]. apply mem_read_write.
  - intros x Hx. rewrite R2, (sf_raw _ _ S1) by lia. apply Her. lia.
  - intros x Hx. rewrite V2, mem_write_out, (sf_view _ _ S1), Hout, Hraw by lia. done.
  - intros x Hx. apply N2 in Hx. lia.
  - intros x Hx. apply Hraw. lia.
Qed.

(** ** The CRC pass *)
Definition body_crc (l : list Z) : Z := match l with [] => 0 | _ => crc_of l end.

Lemma crc_body_loop_ok fuel : forall s addr rem crc first acc,
  ready s -> 0 <= rem <= 256 * Z.of_nat fuel -> 0 <= addr -> addr + rem < 4294967296 ->
  (if first : bool then acc = [] /\ crc = 0
   else acc = crc_acc (plat s) /\ crc = body_crc acc) ->
  exists p', crc_body_loop fuel OTA_FLASH_TYPE_INTERNAL addr rem crc first s
    = Ret (Some (body_crc (acc ++ mem_read (op_raw (plat s)) addr (Z.to_nat rem)))) (set_plat p' s) /\
    same_flash (plat s) p'.
Proof.
  induction fuel as [|fuel IH]; intros s addr rem crc first acc Hr Hrem Ha Hend Hacc;
    cbn [crc_body_loop]; destruct (0 <? rem) eqn:Hpos; cbool; try lia.
  1, 3: exists (plat s); replace rem with 0 by lia; split; [|apply same_flash_refl, Hr];
    rewrite app_nil_r; destruct s; destruct first; destruct Hacc as [-> ->]; done.
  set (want := Z.min rem OTA_MODULE_FLASH_COPY_BUF_SIZE).
  assert (Hw : 0 < want <= rem /\ (want = rem \/ want = 256))
    by (unfold want, OTA_MODULE_FLASH_COPY_BUF_SIZE; lia).
  erewrite bind_ret_eq by (apply flash_read_eq; [done|lia]). cbn beta iota. cbn [Z.eqb negb].
  set (bs := mem_read _ addr (Z.to_nat want)).
  assert (Hz : 0 < zlen bs) by (unfold zlen, bs; rewrite length_mem_read; lia).
  assert (Hc : exists p1, crc32 (if first then 0 else 1) bs s = Ret (crc_of (acc ++ bs)) (set_plat p1 s)
               /\ same_flash (plat s) p1 /\ crc_acc p1 = acc ++ bs).
  { destruct first; destruct Hacc as [-> _]; [apply crc_reset_eq|apply crc_continue_eq]; auto. }
  destruct Hc as (p1 & E1 & S1 & A1). mrun E1. rewrite !u32_small by lia.
  assert (Hne : body_crc (acc ++ bs) = crc_of (acc ++ bs)).
  { unfold zlen in Hz. destruct (acc ++ bs) eqn:E; [|done]. apply app_eq_nil in E as [_ ->]. simpl in Hz; lia. }
  destruct (IH (set_plat p1 s) (addr + want) (rem - want) (crc_of (acc ++ bs)) false (acc ++ bs))
    as (p2 & E2 & S2); try lia.
  { by apply ready_plat, (sf_ok _ _ S1). }
  { cbn [plat set_plat]. by rewrite A1, Hne. }
  exists p2. rewrite E2. split; [|by eapply same_flash_trans]. cbn [plat set_plat].
  do 3 f_equal. rewrite <- app_assoc. f_equal. unfold bs.
  replace (Z.to_nat rem) with (Z.to_nat want + Z.to_nat (rem - want))%nat by lia.
  rewrite mem_read_app, Z2Nat.id by lia. f_equal. apply mem_read_ext. intros. apply (sf_raw _ _ S1).
Qed.

(** ** Finish *)
Definition app_body (h : ota_package_header_t) (img : list Z) : list Z :=
  sub (Z.to_nat (app_offset h)) (Z.to_nat (app_size h)) img.

(** The record after the CRC verdict. *)
Definition verdict_app (ok : bool) (a : ota_app_info_t) : ota_app_info_t :=
  set_verify_count 0
    (set_status (if ok then OTA_APP_STATUS_UNVERIFIED else OTA_APP_STATUS_INVALID) a).

(** The flash pass of [finish]: flush, then the CRC of the application body. *)
Lemma finish_crc_ok s r i a h img :
  downloading s r i a h img -> zlen img = total h ->
  exists p1 p2, flash_write OTA_FLASH_TYPE_INTERNAL 0 None 0 s = Ret 0 (set_plat p1 s) /\
    flash_crc32_app_body a h (set_plat p1 s)
      = Ret (OTA_MODULE_ERR_OK, body_crc (app_body h img)) (set_plat p2 s) /\
    op_ok p2 /\ (forall x, op_raw p2 x = op_view (plat s) x).
Proof.
  intros [Hr Hdl Hrec Hi Hst Hl Hh Hlen Hvw Her Hout Hpd] Hz.
  destruct (total_bound h a Hh Hl) as (Ht & Hsum & Ho & Hs). pose proof array_bounds. pose proof sector_pos.
  pose proof (sl_inside _ Hl) as Hin. pose proof (hf_total _ _ Hh) as Htt.
  destruct (flash_flush_eq s Hr) as (p1 & E1 & O1 & R1 & V1 & N1).
  assert (Hf : app_size h / 256 >= 0) by (pose proof (Z.div_pos (app_size h) 256); lia).
  destruct (crc_body_loop_ok (Z.to_nat (app_size h / OTA_MODULE_FLASH_COPY_BUF_SIZE + 1)) (set_plat p1 s)
    (flash_addr a + app_offset h) (app_size h) 0 true []) as (p2 & E2 & S2);
    try (unfold OTA_MODULE_FLASH_COPY_BUF_SIZE, total in *; lia); auto using ready_plat.
  exists p1, p2. split; [done|]. split.
  - unfold flash_crc32_app_body. rewrite Hsum, (proj2 (Z.ltb_ge _ _)), (sl_type _ Hl) by (unfold total in *; lia).
    rewrite (u32_small (flash_addr a + app_offset h)) by (unfold total in *; lia). mrun E2.
    cbn [plat set_plat app]. unfold mret, M_ret. do 3 f_equal. unfold app_body. rewrite <- Hvw.
    unfold zlen, total in *. rewrite sub_mem_read, Z2Nat.id by lia.
    apply mem_read_ext. intros. apply R1.
  - split; [apply S2|]. intros x. rewrite (sf_raw _ _ S2). apply R1.
Qed.

Lemma downloading_same s r i a h img p' :
  downloading s r i a h img -> same_flash (plat s) p' -> downloading (set_plat p' s) r i a h img.
Proof.
  intros [Hr Hdl Hrec Hi Hst Hl Hh Hlen Hvw Her Hout Hpd] S. pose proof S as [S1 S2 S3 S4].
  split; cbn [plat set_plat g_dl]; auto.
  - by apply ready_plat.
  - by eapply record_at_same.
  - rewrite <- Hvw at 2. by apply mem_read_ext.
  - intros x Hx. rewrite S1. auto.
  - intros x Hx. rewrite S1, S2. auto.
Qed.

Lemma restatus_wf r i a st v :
  record_wf r -> ota_app_info r !! i = Some a -> 0 <= st < 256 -> u32_field v ->
  record_wf (set_app i (set_verify_count v (set_status st a)) r).
Proof.
  intros W Hi Hs Hv. apply set_app_wf; [done|]. apply set_status_wf; auto.
  eapply Forall_lookup_1; [|done]. apply W.
Qed.

Lemma download_finish_ok s r i a h img :
  downloading s r i a h img -> zlen img = total h ->
  let ok := body_crc (app_body h img) =? app_crc32 h in
  exists s', ota_module_ota_download_finish s
      = Ret (if ok then OTA_MODULE_ERR_OK else OTA_MODULE_ERR_CRC_MISMATCH) s' /\
    ready s' /\ g_dl s' = session_zero /\
    record_at (plat s') (seal (set_app i (verdict_app ok a) r)) /\
    mem_read (op_raw (plat s')) (flash_addr a) (length img) = img /\
    (forall x, ~ in_record_sector x -> ~ (flash_addr a <= x < flash_addr a + zlen img) ->
       op_raw (plat s') x = op_raw (plat s) x).
Proof.
  intros D Hz ok. pose proof D as [Hr Hdl Hrec Hi Hst Hl Hh Hlen Hvw Her Hout Hpd].
  destruct (record_load_ok s r Hr Hrec) as (p1 & E1 & S1).
  destruct (finish_crc_ok _ _ _ _ _ _ (downloading_same _ _ _ _ _ _ p1 D S1) Hz)
    as (p2 & p3 & E2 & E3 & O3 & R3). cbn [plat set_plat] in R3.
  assert (W : record_wf (set_app i (verdict_app ok a) r))
    by (apply restatus_wf; auto; [apply Hrec|clearbody ok; by destruct ok|done]).
  destruct (record_store_ok (set_plat p3 s) _ (ready_plat s p3 Hr O3) W)
    as (p4 & E4 & O4 & A4 & R4 & V4 & N4). cbn [plat set_plat] in R4.
  exists (mkOta (g_cfg s) (g_inited s) session_zero p4). split.
  { unfold ota_module_ota_download_finish. do 2 erewrite bind_ret_eq by reflexivity.
    rewrite (rd_inited _ Hr), Hdl. cbn [negb started]. mrun E1. cbn [err_ok negb target_index].
    rewrite (bind_ret_eq _ _ _ _ _ (slot_eq r i a _ Hi)), Hst. cbn [downloaded_size expected_total_size].
    rewrite Hz, !Z.eqb_refl. cbn [negb].
    rewrite (sl_type _ Hl). mrun E2. cbn [package_header_copy]. mrun E3. cbn [err_ok negb expected_app_crc32].
    fold ok. clearbody ok. change (set_plat p3 (set_plat p1 s)) with (set_plat p3 s).
    unfold verdict_app in E4. destruct ok; cbn [negb]; mrun E4; by rewrite <- (rd_inited _ Hr). }
  assert (Hraw : forall x, ~ in_record_sector x -> op_raw p4 x = op_view (plat s) x)
    by (intros x Hx; rewrite R4, R3 by done; apply (sf_view _ _ S1)).
  split_and!; auto.
  - split; [apply Hr|apply Hr|done].
  - rewrite <- Hvw at 2. apply mem_read_ext. intros x Hx. apply Hraw.
    pose proof (sl_apart _ Hl). pose proof (hf_total _ _ Hh). unfold in_record_sector, zlen, total in *. lia.
  - intros x Hx Hx'. cbn [plat]. rewrite Hraw, Hout by done. done.
Qed.

(** ** Abort *)
Lemma download_abort_ok s r i a :
  ready s -> record_at (plat s) r -> ota_app_info r !! i = Some a ->
  (if started (g_dl s) then target_index (g_dl s) = i
   else find_status OTA_APP_STATUS_DOWNLOADING (ota_app_info r) = Some i) ->
  exists s', ota_module_ota_download_abort s = Ret OTA_MODULE_ERR_OK s' /\ ready s' /\
    g_dl s' = session_zero /\ record_at (plat s') (seal (set_app i (verdict_app false a) r)) /\
    (forall x, ~ in_record_sector x -> op_raw (plat s') x = op_raw (plat s) x).
Proof.
  intros Hr Hrec Hi Hsel. destruct (record_load_ok s r Hr Hrec) as (p1 & E1 & S1).
  assert (W : record_wf (set_app i (verdict_app false a) r))
    by (apply restatus_wf; auto; [apply Hrec|done|done]).
  destruct (record_store_ok (set_plat p1 s) _ (ready_plat s p1 Hr (sf_ok _ _ S1)) W)
    as (p4 & E4 & O4 & A4 & R4 & V4 & N4). cbn [plat set_plat] in R4.
  exists (mkOta (g_cfg s) (g_inited s) session_zero p4). split.
  { unfold ota_module_ota_download_abort. do 2 erewrite bind_ret_eq by reflexivity.
    rewrite (rd_inited _ Hr). cbn [negb]. mrun E1. cbn iota.
    assert ((if started (g_dl s) then Some (target_index (g_dl s))
             else find_status OTA_APP_STATUS_DOWNLOADING (ota_app_info r)) = Some i) as ->
      by (destruct (started (g_dl s)); congruence).
    rewrite (bind_ret_eq _ _ _ _ _ (slot_eq r i a _ Hi)). unfold verdict_app in E4. mrun E4.
    by rewrite <- (rd_inited _ Hr). }
  split_and!; auto; [split; [apply Hr|apply Hr|done]|].
  intros x Hx. cbn [plat]. rewrite R4 by done. apply (sf_raw _ _ S1).
Qed.

(** ** A whole transfer *)

(** The calls a transport makes: one [ota_module_ota_download] per chunk, each
    at the offset reached so far, stopping at the first error. *)
Fixpoint download_chunks (off : Z) (chunks : list (list Z)) : M (ota_state P) ota_module_err_t :=
  match chunks with
  | [] => mret OTA_MODULE_ERR_OK
  | c :: cs =>
      rc ← ota_module_ota_download off (Some c) (zlen c);
      if negb (err_ok rc) then mret rc else download_chunks (off + zlen c) cs
  end.

Lemma download_chunks_ok chunks : forall s r i a h img,
  downloading s r i a h img -> Forall (fun c => 0 < zlen c /\ bytes_ok c) chunks ->
  zlen img + zlen (concat chunks) <= total h ->
  exists s', download_chunks (zlen img) chunks s = Ret OTA_MODULE_ERR_OK s' /\
    downloading s' r i a h (img ++ concat chunks) /\
    (forall x, ~ (flash_addr a <= x < flash_addr a + align_up (total h) op_sector) ->
       op_raw (plat s') x = op_raw (plat s) x).
Proof.
  induction chunks as [|c cs IH]; intros s r i a h img D Hcs Hfit.
  { exists s. cbn [concat]. rewrite app_nil_r. done. }
  apply Forall_cons in Hcs as [[Hc0 Hcb] Hcs]. cbn [concat download_chunks] in *.
  assert (Hz : forall (l k : list Z), zlen (l ++ k) = zlen l + zlen k)
    by (intros; unfold zlen; rewrite length_app; lia).
  rewrite Hz in Hfit. assert (0 <= zlen (concat cs)) by (unfold zlen; lia).
  destruct (download_chunk_ok s r i a h img c) as (s1 & E1 & D1 & R1); auto; try lia.
  mrun E1. cbn [err_ok negb]. rewrite <- Hz.
  destruct (IH s1 r i a h (img ++ c) D1) as (s2 & E2 & D2 & R2); auto; [rewrite Hz; lia|].
  exists s2. rewrite app_assoc. split_and!; auto. intros x Hx. rewrite R2, R1 by done. done.
Qed.
End Session.
