(* ===== verification/OtaBoot.v ===== *)
(** Boot selection, verification and initialisation of the OTA module: the
    abstract boot decision and the lemmas that tie the code to it. *)
From S2P Require Import Prelude FlashPort OtaModule OtaLaws OtaSession.

(** ** Selection by status *)
Lemma find_status_Some st l i :
  find_status st l = Some i -> exists a, l !! i = Some a /\ status a = st /\
    forall j b, (j < i)%nat -> l !! j = Some b -> status b <> st.
Proof.
  revert i; induction l as [|x l IH]; intros i Hf; [done|]. cbn [find_status] in Hf.
  destruct (status x =? st) eqn:E; cbool.
  - simplify_eq. exists x. split_and!; auto. intros; lia.
  - destruct (find_status st l) as [k|]; [|done]. simpl in Hf. simplify_eq.
    destruct (IH k eq_refl) as (a & Ha & Hs & Hb). exists a. split_and!; auto.
    intros [|j] b Hj Hl; simpl in Hl; [by simplify_eq|]. eapply Hb; eauto; lia.
Qed.

Lemma find_status_None st l :
  find_status st l = None <-> Forall (fun a => status a <> st) l.
Proof.
  induction l as [|x l IH]; cbn [find_status]; [done|]. rewrite Forall_cons, <- IH.
  destruct (status x =? st) eqn:E; cbool.
  - split; [done|]. by intros [].
  - destruct (find_status st l); simpl; split; try done; by intros [].
Qed.

Lemma find_status_insert st l i b :
  find_status st l = Some i -> status b = st -> find_status st (<[i := b]> l) = Some i.
Proof.
  revert i; induction l as [|x l IH]; intros i Hf Hb; [done|]. cbn [find_status] in Hf.
  destruct (status x =? st) eqn:E; cbool.
  - simplify_eq. cbn [insert list_insert find_status]. by rewrite (proj2 (Z.eqb_eq _ _)) by done.
  - destruct (find_status st l) as [k|] eqn:Ek; [|done]. simpl in Hf. simplify_eq.
    cbn. rewrite (proj2 (Z.eqb_neq _ _)) by done. by rewrite IH.
Qed.

Lemma find_status_insert_None st l i b :
  find_status st l = None -> (i < length l)%nat -> status b = st -> find_status st (<[i := b]> l) = Some i.
Proof.
  revert i; induction l as [|x l IH]; intros i Hf Hi Hb; simpl in Hi; [lia|]. cbn [find_status] in Hf.
  destruct (status x =? st) eqn:E; cbool; [done|]. destruct i as [|i]; cbn.
  - by rewrite Hb, Z.eqb_refl.
  - rewrite (proj2 (Z.eqb_neq _ _)) by done. destruct (find_status st l); [done|].
    by rewrite IH by (done || lia).
Qed.

(** ** The abstract boot decision *)

(** A status a slot may be started with. *)
Definition bootable (st : Z) : Prop :=
  st = OTA_APP_STATUS_UNVERIFIED \/ st = OTA_APP_STATUS_ACTIVE \/ st = OTA_APP_STATUS_BACKUP.

(** The slot that spends one attempt of its verification budget. *)
Definition count_attempt (a : ota_app_info_t) : ota_app_info_t :=
  set_verify_count (verify_count a +u 1) a.
Definition give_up_slot (a : ota_app_info_t) : ota_app_info_t :=
  set_verify_count 0 (set_status OTA_APP_STATUS_INVALID a).

(** [boot_decision r]: the record to persist before the jump, if it changes,
    and the slot to start. *)
Definition boot_decision `{OtaBuild} (r : ota_record_info_t)
  : option ota_record_info_t * option nat :=
  match find_status OTA_APP_STATUS_UNVERIFIED (ota_app_info r) with
  | Some i =>
      match ota_app_info r !! i with
      | Some a =>
          if verify_count a +u 1 <? OTA_APP_MAX_VERIFY_COUNT
          then (Some (set_app i (count_attempt a) r), Some i)
          else let r' := set_app i (give_up_slot a) r in (Some r', choose_boot_candidate_ota_slot r')
      | None => (None, None)
      end
  | None => (None, choose_boot_candidate_ota_slot r)
  end.

Section Boot.
Context `{B : OtaBuild} {BL : OtaBuildLaws} {P : Type} `{OtaPlatformLaws P}.
Implicit Types s : ota_state P.

(** Entry address of a slot: after the package header when the flash holds a
    valid one, the start of the partition otherwise. *)
Definition entry_of (m : mem) (a : ota_app_info_t) : Z :=
  let hdr := dec_header (mem_read m (flash_addr a) sizeof_header) in
  if (h_magic hdr =? OTA_PACKAGE_MAGIC) && (header_crc32 hdr =? crc_of (enc_header_body hdr)) &&
     (app_offset hdr <? flash_size a)
  then flash_addr a + app_offset hdr else flash_addr a.

Definition record_ok (r : ota_record_info_t) : Prop := Forall slot_layout (ota_app_info r).

Lemma dec_header_offset l : bytes_ok l -> 0 <= app_offset (dec_header l).
Proof. intros Hb. cbn. apply le_dec_bound. by apply bytes_ok_sub. Qed.

Lemma entry_bounds (m : mem) a : (forall x, is_byte (m x)) -> slot_layout a ->
  flash_addr a <= entry_of m a < flash_addr a + flash_size a.
Proof.
  intros Hm [_ _ [Hz _] _ _]. unfold entry_of.
  pose proof (dec_header_offset (mem_read m (flash_addr a) sizeof_header)
    (bytes_ok_mem_read _ _ _ Hm)).
  destruct (_ && _) eqn:E; cbool; lia.
Qed.

Lemma entry_ext (m m' : mem) a :
  (forall x, flash_addr a <= x < flash_addr a + 56 -> m x = m' x) -> entry_of m a = entry_of m' a.
Proof. intros Hx. unfold entry_of. by rewrite (mem_read_ext m m') by done. Qed.

Lemma one_sector a : slot_layout a -> op_sector <= flash_size a.
Proof.
  intros [_ _ [Hz Hzm] _ _]. pose proof sector_pos.
  apply (multiple_le _ _ op_sector); auto; [lia|apply Z_mod_same_full|lia].
Qed.

Lemma calc_entry_ok s a :
  ready s -> slot_layout a ->
  exists p', ota_calc_entry_addr_from_header a s = Ret (entry_of (op_raw (plat s)) a) (set_plat p' s) /\
    same_flash (plat s) p'.
Proof.
  intros Hr Hl. pose proof (fun x => law_bytes (plat s) x (rd_ok _ Hr)) as Hby. pose proof Hr as [Hc Hi Ho]. pose proof array_bounds. pose proof sector_pos.
  pose proof (sl_inside _ Hl) as Hin. pose proof (one_sector a Hl).
  assert (Hbig : Z.of_nat sizeof_header <= flash_size a) by (unfold sizeof_header; lia).
  unfold ota_calc_entry_addr_from_header. erewrite bind_ret_eq by reflexivity. rewrite Hc.
  cbn [flash_read_func op_config]. rewrite (proj2 (Z.ltb_ge _ _)), (sl_type _ Hl) by done.
  erewrite bind_ret_eq by (apply flash_read_eq; [done|unfold sizeof_header; lia]). cbn beta iota.
  rewrite Nat2Z.id. cbn [Z.eqb negb]. unfold entry_of.
  set (hdr := dec_header _).
  assert (Hoff : 0 <= app_offset hdr) by (apply dec_header_offset, bytes_ok_mem_read, Hby).
  destruct (h_magic hdr =? OTA_PACKAGE_MAGIC); cbn [negb andb];
    [|exists (plat s); split; [by destruct s|by apply same_flash_refl]].
  destruct (package_crc_ok s hdr Hr) as (p1 & E1 & S1). mrun E1. exists p1. split; [|done].
  destruct (header_crc32 hdr =? _); cbn [negb andb]; [|done].
  destruct (app_offset hdr <? flash_size a) eqn:E; cbool.
  - rewrite (proj2 (Z.leb_gt _ _)), u32_small by lia. done.
  - by rewrite (proj2 (Z.leb_le _ _)) by lia.
Qed.

Lemma boot_slot_ok s a :
  ready s -> slot_layout a ->
  exists p', boot_slot a s = Halt (JumpedTo (entry_of (op_raw (plat s)) a)) (set_plat p' s) /\
    same_flash (plat s) p'.
Proof.
  intros Hr Hl. pose proof (fun x => law_bytes (plat s) x (rd_ok _ Hr)) as Hby. destruct (calc_entry_ok s a Hr Hl) as (p1 & E1 & S1).
  pose proof (entry_bounds _ a Hby Hl). pose proof (sl_inside _ Hl). pose proof array_bounds.
  destruct (jump_eq (set_plat p1 s) (entry_of (op_raw (plat s)) a)) as (p2 & E2 & S2); [|lia|].
  { apply ready_plat; [done|apply S1]. }
  exists p2. split; [|by eapply same_flash_trans]. unfold boot_slot. mrun E1. mrun E2. done.
Qed.

Lemma candidate_bootable r i :
  choose_boot_candidate_ota_slot r = Some i ->
  exists a, ota_app_info r !! i = Some a /\ bootable (status a).
Proof.
  unfold choose_boot_candidate_ota_slot, bootable. intros Hc.
  destruct (find_status OTA_APP_STATUS_UNVERIFIED _) as [j|] eqn:E1.
  { simplify_eq. apply find_status_Some in E1 as (a & ? & ? & _). eauto. }
  destruct (find_status OTA_APP_STATUS_ACTIVE _) as [j|] eqn:E2.
  { simplify_eq. apply find_status_Some in E2 as (a & ? & ? & _). eauto. }
  apply find_status_Some in Hc as (a & ? & ? & _). eauto.
Qed.

Lemma boot_candidate_ok s r :
  ready s -> record_ok r ->
  exists p', same_flash (plat s) p' /\
    match choose_boot_candidate_ota_slot r with
    | Some i => exists a, ota_app_info r !! i = Some a /\ bootable (status a) /\
        boot_candidate r s = Halt (JumpedTo (entry_of (op_raw (plat s)) a)) (set_plat p' s)
    | None => boot_candidate r s = Ret OTA_MODULE_ERR_NO_BOOT_CANDIDATE (set_plat p' s)
    end.
Proof.
  intros Hr Hok. unfold boot_candidate. destruct (choose_boot_candidate_ota_slot r) as [i|] eqn:E.
  - destruct (candidate_bootable r i E) as (a & Ha & Hb).
    destruct (boot_slot_ok s a Hr) as (p' & E' & S'); [by eapply Forall_lookup_1|].
    exists p'. split; [done|]. exists a. split_and!; auto.
    by rewrite (bind_ret_eq _ _ _ _ _ (slot_eq r i a s Ha)).
  - exists (plat s). split; [apply same_flash_refl, Hr|by destruct s].
Qed.

(** What a boot leaves behind: the decision's record, everything else as it
    was. *)
Record boot_result s (r : ota_record_info_t) (s' : ota_state P) : Prop := mkBootResult {
  br_ready : ready s';
  br_dl : g_dl s' = g_dl s;
  br_record : record_at (plat s') (match fst (boot_decision r) with Some r' => seal r' | None => r end);
  br_raw : forall x, ~ in_record_sector x -> op_raw (plat s') x = op_raw (plat s) x;
  br_stored : fst (boot_decision r) = None -> forall x, op_raw (plat s') x = op_raw (plat s) x
}.

(** The record a decision stores is one the module can store, over the same
    partitions. *)
Lemma decision_record r r' :
  record_wf r -> record_ok r -> fst (boot_decision r) = Some r' -> record_wf r' /\ record_ok r'.
Proof.
  intros Hw Hok. unfold boot_decision.
  destruct (find_status OTA_APP_STATUS_UNVERIFIED _) as [i|] eqn:E; [|done].
  apply find_status_Some in E as (a & Ha & Hst & _). rewrite Ha.
  pose proof (Forall_lookup_1 _ _ _ _ Hok Ha) as Hl.
  pose proof (Forall_lookup_1 _ _ _ _ (rw_apps _ Hw) Ha) as Hwa.
  destruct (_ <? _) eqn:Ec; cbn [fst]; intros ?; simplify_eq; cbool; unfold record_ok;
    cbn [set_app ota_app_info].
  - split; [|by apply Forall_insert; [|destruct Hl; split]]. apply set_app_wf; [done|].
    destruct Hwa. split; simpl; auto. apply u32_range.
  - split; [by apply restatus_wf|]. apply Forall_insert; [done|]. by apply slot_layout_status.
Qed.

Lemma apart_entry (m m' : mem) a :
  slot_layout a -> (forall x, ~ in_record_sector x -> m x = m' x) -> entry_of m a = entry_of m' a.
Proof.
  intros Hl Hx. apply entry_ext. intros x Hin. apply Hx. pose proof (one_sector a Hl).
  pose proof sector_pos. pose proof (sl_apart _ Hl). unfold in_record_sector. lia.
Qed.

Lemma boot_result_same s r p' :
  ready s -> record_at (plat s) r -> fst (boot_decision r) = None -> same_flash (plat s) p' ->
  boot_result s r (set_plat p' s).
Proof.
  intros Hr Hrec Hn S. split; cbn [plat set_plat g_dl].
  - apply ready_plat, S. done.
  - done.
  - rewrite Hn. by eapply record_at_same.
  - intros x _. apply (sf_raw _ _ S).
  - intros _. apply (sf_raw _ _ S).
Qed.

Lemma boot_result_stored s r r' p1 p' :
  ready s -> fst (boot_decision r) = Some r' -> record_at p1 (seal r') ->
  (forall x, ~ in_record_sector x -> op_raw p1 x = op_raw (plat s) x) -> same_flash p1 p' ->
  boot_result s r (set_plat p' s).
Proof.
  intros Hr Hn Hrec Hraw S. split; cbn [plat set_plat g_dl].
  - apply ready_plat, S. done.
  - done.
  - rewrite Hn. by eapply record_at_same.
  - intros x Hx. rewrite (sf_raw _ _ S). auto.
  - by rewrite Hn.
Qed.

(** The outcome the decision asks for. *)
Definition boot_outcome (r : ota_record_info_t) (m : mem) (s' : ota_state P)
  : outcome (ota_state P) ota_module_err_t -> Prop := fun o =>
  match snd (boot_decision r) with
  | Some i => exists a, ota_app_info (default r (fst (boot_decision r))) !! i = Some a /\
      bootable (status a) /\ o = Halt (JumpedTo (entry_of m a)) s'
  | None => o = Ret OTA_MODULE_ERR_NO_BOOT_CANDIDATE s'
  end.

Lemma boot_preprocess_ok s r :
  ready s -> record_at (plat s) r -> record_ok r ->
  exists s', boot_result s r s' /\ boot_outcome r (op_raw (plat s)) s' (ota_module_boot_preprocess s).
Proof.
  intros Hr Hrec Hok. destruct (record_load_ok s r Hr Hrec) as (p1 & E1 & S1).
  pose proof (decision_record r) as Hdec. unfold ota_module_boot_preprocess, boot_outcome. mrun E1.
  pose proof (ready_plat s p1 Hr (sf_ok _ _ S1)) as Hr1. cbn iota.
  pose proof (boot_result_same s r) as Hsame. pose proof (boot_result_stored s r) as Hstored.
  unfold boot_decision in Hdec, Hsame, Hstored |- *.
  destruct (find_status OTA_APP_STATUS_UNVERIFIED _) as [i|] eqn:Eu.
  2:{ destruct (boot_candidate_ok (set_plat p1 s) r Hr1 Hok) as (p2 & S2 & Hm).
      cbn [fst snd default plat set_plat] in *. exists (set_plat p2 s).
      split; [apply Hsame; auto; by eapply same_flash_trans|]. destruct (choose_boot_candidate_ota_slot r); [|done].
      destruct Hm as (a & Ha & Hb & E). exists a. split_and!; auto. etransitivity; [exact E|].
      do 2 f_equal. apply entry_ext. intros. apply (sf_raw _ _ S1). }
  apply find_status_Some in Eu as (a & Ha & Hst & _). rewrite Ha in *.
  rewrite (bind_ret_eq _ _ _ _ _ (slot_eq r i a _ Ha)).
  pose proof (Forall_lookup_1 _ _ _ _ Hok Ha) as Hl.
  destruct (verify_count a +u 1 <? OTA_APP_MAX_VERIFY_COUNT) eqn:Ec; cbn [fst snd default] in *;
    [rewrite (proj2 (Z.leb_gt _ _)) by by cbool|rewrite (proj2 (Z.leb_le _ _)) by by cbool];
    destruct (Hdec _ (ra_wf _ _ Hrec) Hok eq_refl) as [Hw' Hok'];
    destruct (record_store_ok (set_plat p1 s) _ Hr1 Hw') as (p2 & E2 & O2 & A2 & R2 & _ & _).
  - unfold count_attempt in E2. mrun E2. cbn [err_ok negb].
    change (set_plat p2 (set_plat p1 s)) with (set_plat p2 s).
    destruct (boot_slot_ok (set_plat p2 s) (count_attempt a)) as (p3 & E3 & S3);
      [by apply ready_plat|by destruct Hl|]. exists (set_plat p3 s). split.
    + eapply Hstored; eauto. intros x Hx. rewrite R2 by done. apply (sf_raw _ _ S1).
    + exists (count_attempt a). split_and!; [|left; done|].
      * cbn. apply list_lookup_insert_eq. by eapply lookup_lt_Some.
      * etransitivity; [exact E3|]. do 2 f_equal. apply apart_entry; [by destruct Hl|].
        intros x Hx. cbn [plat set_plat] in *. rewrite R2 by done. apply (sf_raw _ _ S1).
  - unfold give_up_slot in E2. mrun E2. cbn [err_ok negb].
    change (set_plat p2 (set_plat p1 s)) with (set_plat p2 s).
    destruct (boot_candidate_ok (set_plat p2 s) (set_app i (give_up_slot a) r)) as (p3 & S3 & Hm);
      [by apply ready_plat|done|]. exists (set_plat p3 s). split.
    + eapply Hstored; eauto. intros x Hx. rewrite R2 by done. apply (sf_raw _ _ S1).
    + destruct (choose_boot_candidate_ota_slot _); [|exact Hm].
      destruct Hm as (b & Hb & Hbb & E3). exists b. split_and!; auto. etransitivity; [exact E3|].
      do 2 f_equal. apply apart_entry; [by eapply Forall_lookup_1|].
      intros x Hx. cbn [plat set_plat] in *. rewrite R2 by done. apply (sf_raw _ _ S1).
Qed.
End Boot.
