(* ===== verification/OtaVerify.v ===== *)
(** Record validation, initialisation, promotion of a verified image and the
    boot flag of the OTA module. *)
From S2P Require Import Prelude FlashPort OtaModule OtaLaws OtaSession OtaBoot.

Section Verify.
Context `{B : OtaBuild} {BL : OtaBuildLaws} {P : Type} `{OtaPlatformLaws P}.
Implicit Types s : ota_state P.

(** ** Record validation *)

(** The record the flash holds, when its magic and its CRC are right. *)
Definition stored_record (m : mem) : option ota_record_info_t :=
  let r := dec_record (mem_read m op_record_addr sizeof_record) in
  if (r_magic r =? OTA_INFO_MAGIC) && (crc_of (enc_record_body r) =? info_crc32 r)
  then Some r else None.

Lemma record_load_spec s :
  ready s ->
  exists p', record_load s
    = Ret (match stored_record (op_raw (plat s)) with
           | Some r => (OTA_MODULE_ERR_OK, Some r)
           | None => (OTA_MODULE_ERR_RECORD_INVALID, Some ota_record_default_info)
           end) (set_plat p' s) /\ same_flash (plat s) p'.
Proof.
  intros Hr. pose proof Hr as [Hc Hi Ho]. pose proof sizeof_record_fits.
  unfold record_load, stored_record. erewrite bind_ret_eq by reflexivity. rewrite Hi. cbn [negb].
  erewrite bind_ret_eq by reflexivity. rewrite Hc. cbn [record_flash_type record_addr op_config].
  erewrite bind_ret_eq by (apply flash_read_eq; [done|lia]). cbn beta iota.
  rewrite Nat2Z.id. cbn [Z.eqb negb]. set (r := dec_record _).
  destruct (r_magic r =? OTA_INFO_MAGIC); cbn [negb andb];
    [|exists (plat s); split; [by destruct s|by apply same_flash_refl]].
  destruct (crc_reset_eq s (enc_record_body r) Hr (zlen_enc_record_body r)) as (p' & E & Hs & _).
  exists p'. split; [|done]. unfold record_crc32_without_info_crc32, crc32_one_shot. mrun E.
  by destruct (_ =? _).
Qed.

Lemma stored_record_at p r : record_at p r -> stored_record (op_raw p) = Some r.
Proof.
  intros [Hb Hw Hm Hc]. unfold stored_record. rewrite Hb, dec_enc_record by done.
  by rewrite Hm, <- Hc, !Z.eqb_refl.
Qed.

Lemma stored_record_ext (m m' : mem) :
  (forall x, in_record_sector x -> m x = m' x) -> stored_record m = stored_record m'.
Proof.
  intros Hx. unfold stored_record. rewrite (mem_read_ext m m'); [done|]. intros x Hr. apply Hx.
  pose proof sizeof_record_fits. unfold in_record_sector. lia.
Qed.

(** Whatever bytes it is read from, a record is well-formed. *)
Lemma le_dec_sub o n l : bytes_ok l -> (o + n <= length l)%nat -> 0 <= le_dec (sub o n l) < 256 ^ Z.of_nat n.
Proof.
  intros Hb Hn. pose proof (le_dec_bound (sub o n l) (bytes_ok_sub _ _ _ Hb)) as Hd.
  unfold zlen in Hd. by rewrite length_sub in Hd.
Qed.

Lemma dec_apps_wf n : forall l, bytes_ok l -> (n * sizeof_app <= length l)%nat ->
  Forall app_wf (dec_apps n l) /\ length (dec_apps n l) = n.
Proof.
  induction n as [|n IH]; intros l Hb Hl; [by split|]. cbn [dec_apps].
  destruct (IH (drop sizeof_app l)) as [F L]; [by apply Forall_drop|rewrite length_drop; lia|].
  split; [|by cbn; rewrite L]. constructor; [|done].
  assert (Ht : length (take sizeof_app l) = sizeof_app) by (rewrite length_take; lia).
  assert (Htb : bytes_ok (take sizeof_app l)) by (by apply Forall_take).
  split; cbn [status verify_count flash_type flash_addr flash_size dec_app]; unfold enum_field;
    (apply (le_dec_sub _ 4) || apply le_dec_sub); auto; rewrite Ht; unfold sizeof_app; lia.
Qed.

Lemma dec_record_wf l : bytes_ok l -> length l = sizeof_record -> record_wf (dec_record l).
Proof.
  intros Hb Hl. unfold sizeof_record in Hl.
  destruct (dec_apps_wf slot_count (drop 4 l)) as [F L]; [by apply Forall_drop|rewrite length_drop; lia|].
  split; cbn [r_magic ota_app_info boot_ymodem_flag info_crc32 dec_record]; auto;
    apply (le_dec_sub _ 4); auto; lia.
Qed.

Lemma stored_record_wf p r : op_ok p -> stored_record (op_raw p) = Some r -> record_wf r.
Proof.
  intros Ho. unfold stored_record. destruct (_ && _); [|done]. intros ?; simplify_eq.
  apply dec_record_wf; [|apply length_mem_read]. apply bytes_ok_mem_read. intros. by apply law_bytes.
Qed.

(** ** Initialisation *)

(** The state of the module after a reset: nothing but the flash survives. *)
Definition reset_state (p : P) : ota_state P := mkOta (op_config P) false session_zero p.

Definition default_record : ota_record_info_t := seal ota_record_default_info.

(** The record the module works with from now on. *)
Definition effective_record (m : mem) : ota_record_info_t := default default_record (stored_record m).

Lemma init_ok s r :
  op_ok (plat s) -> stored_record (op_raw (plat s)) = Some r ->
  exists p', ota_module_init (Some (op_config P)) s
      = Ret OTA_MODULE_ERR_OK (mkOta (op_config P) true session_zero p') /\ same_flash (plat s) p'.
Proof.
  intros Ho Hst. unfold ota_module_init. cbn [is_some op_config negb orb flash_read_func
    flash_write_func flash_erase_func crc32_func jump_func].
  erewrite bind_ret_eq by reflexivity.
  destruct (record_load_spec (mkOta (op_config P) true session_zero (plat s))) as (p' & E & S); [done|].
  cbn [plat] in *. fold (op_config P). mrun E. rewrite Hst. cbn [err_ok negb]. by exists p'.
Qed.

Lemma init_default_ok s :
  op_ok (plat s) -> stored_record (op_raw (plat s)) = None ->
  exists p', ota_module_init (Some (op_config P)) s
      = Ret OTA_MODULE_ERR_OK (mkOta (op_config P) true session_zero p') /\
    op_ok p' /\ record_at p' default_record /\
    (forall x, ~ in_record_sector x -> op_raw p' x = op_raw (plat s) x) /\
    (forall x, op_view p' x = op_raw p' x) /\ (forall x, ~ op_pending p' x).
Proof.
  intros Ho Hst. unfold ota_module_init. cbn [is_some op_config negb orb flash_read_func
    flash_write_func flash_erase_func crc32_func jump_func].
  erewrite bind_ret_eq by reflexivity.
  destruct (record_load_spec (mkOta (op_config P) true session_zero (plat s))) as (p1 & E & S); [done|].
  cbn [plat] in *. fold (op_config P). mrun E. rewrite Hst. cbn [err_ok negb].
  pose proof default_wf as Wd.
  destruct (record_store_ok (mkOta (op_config P) true session_zero p1)
    (set_r_magic OTA_INFO_MAGIC ota_record_default_info)) as (p2 & E2 & O2 & A2 & R2 & V2 & N2).
  { split; [done|done|apply S]. }
  { destruct Wd. by split. }
  exists p2. split; [exact E2|]. split_and!; auto. intros x Hx. cbn [plat] in R2. rewrite R2 by done.
  apply (sf_raw _ _ S).
Qed.

Lemma effective_wf p : op_ok p -> record_wf (effective_record (op_raw p)).
Proof.
  intros Ho. unfold effective_record. destruct (stored_record _) as [r|] eqn:E.
  - by eapply stored_record_wf.
  - apply seal_wf, default_wf.
Qed.

(** ** Promotion *)

(** [promoted uv l]: slot [uv] becomes the active one, every other slot that
    was active or unverified becomes a backup. *)
Definition promoted (uv : nat) (l : list ota_app_info_t) : list ota_app_info_t :=
  imap (fun i a => if (i =? uv)%nat then set_verify_count 0 (set_status OTA_APP_STATUS_ACTIVE a)
                   else demote a) l.

Lemma demote_status a :
  status (demote a) <> OTA_APP_STATUS_ACTIVE /\ status (demote a) <> OTA_APP_STATUS_UNVERIFIED.
Proof.
  unfold demote. destruct (_ || _) eqn:E; [by split|]. cbool. done.
Qed.

Lemma demote_wf a : app_wf a -> app_wf (demote a).
Proof. intros. unfold demote. destruct (_ || _); [by apply set_status_wf|done]. Qed.

Lemma promoted_wf uv r :
  record_wf r ->
  record_wf (mkRecord (r_magic r) (promoted uv (ota_app_info r)) (boot_ymodem_flag r) (info_crc32 r)).
Proof.
  intros [A B' C D E]. split; simpl; auto; unfold promoted; [by rewrite length_imap|].
  apply Forall_lookup. intros i a Ha. rewrite list_lookup_imap in Ha.
  destruct (ota_app_info r !! i) as [b|] eqn:Eb; [|done]. simpl in Ha. simplify_eq.
  pose proof (Forall_lookup_1 _ _ _ _ C Eb) as Hb.
  destruct (i =? uv)%nat; [by apply set_status_wf|by apply demote_wf].
Qed.

(** What a slot becomes when slot [uv] is confirmed: [uv] is active with its
    attempts forgotten, a slot that was active or waiting is the backup, any
    other keeps its status; the partitions stay where they are. *)
Record confirmed (uv i : nat) (a b : ota_app_info_t) : Prop := mkConfirmed {
  cf_own : i = uv -> status b = OTA_APP_STATUS_ACTIVE /\ verify_count b = 0;
  cf_live : i <> uv -> status a = OTA_APP_STATUS_ACTIVE \/ status a = OTA_APP_STATUS_UNVERIFIED ->
    status b = OTA_APP_STATUS_BACKUP /\ verify_count b = 0;
  cf_other : i <> uv -> status a <> OTA_APP_STATUS_ACTIVE -> status a <> OTA_APP_STATUS_UNVERIFIED -> b = a;
  cf_place : flash_type b = flash_type a /\ flash_addr b = flash_addr a /\ flash_size b = flash_size a
}.

Definition settled (l l' : list ota_app_info_t) (uv : nat) : Prop :=
  length l' = length l /\ forall i a b, l !! i = Some a -> l' !! i = Some b -> confirmed uv i a b.

Lemma demote_place a :
  flash_type (demote a) = flash_type a /\ flash_addr (demote a) = flash_addr a /\ flash_size (demote a) = flash_size a.
Proof. unfold demote. by destruct (_ || _). Qed.

Lemma promoted_settled uv l : settled l (promoted uv l) uv.
Proof.
  unfold settled, promoted. split; [by rewrite length_imap|].
  intros i a b Ha Hb. rewrite list_lookup_imap, Ha in Hb. simpl in Hb. simplify_eq.
  destruct (Nat.eqb_spec i uv) as [->|Hn]; [by split|]. split; [done|..|apply demote_place]; intros _; unfold demote.
  - by intros [->| ->].
  - intros H1 H2. by rewrite (proj2 (Z.eqb_neq _ _) H1), (proj2 (Z.eqb_neq _ _) H2).
Qed.

(** Exactly one active slot, no unverified one. *)
Lemma promoted_status uv l i a :
  promoted uv l !! i = Some a ->
  (status a = OTA_APP_STATUS_ACTIVE <-> i = uv) /\ status a <> OTA_APP_STATUS_UNVERIFIED.
Proof.
  intros Ha. unfold promoted in Ha. rewrite list_lookup_imap in Ha.
  destruct (l !! i) as [b|]; [|done]. simpl in Ha. simplify_eq.
  destruct (Nat.eqb_spec i uv) as [->|Hn]; [by split|].
  destruct (demote_status b). split; [tauto|done].
Qed.

(** Promotion never moves a partition. *)
Lemma promoted_partition uv l i b :
  promoted uv l !! i = Some b -> exists a, l !! i = Some a /\
    flash_type b = flash_type a /\ flash_addr b = flash_addr a /\ flash_size b = flash_size a.
Proof.
  unfold promoted. rewrite list_lookup_imap. destruct (l !! i) as [a|]; [|done].
  intros Hb. simpl in Hb. simplify_eq. exists a. split; [done|].
  destruct (_ =? _)%nat; [done|]. unfold demote. by destruct (_ || _).
Qed.

Lemma mark_verified_ok s r uv :
  ready s -> record_at (plat s) r ->
  find_status OTA_APP_STATUS_UNVERIFIED (ota_app_info r) = Some uv ->
  exists p', ota_module_app_mark_verified s = Ret OTA_MODULE_ERR_OK (set_plat p' s) /\ op_ok p' /\
    record_at p' (seal (mkRecord (r_magic r) (promoted uv (ota_app_info r))
                          (boot_ymodem_flag r) (info_crc32 r))) /\
    (forall x, ~ in_record_sector x -> op_raw p' x = op_raw (plat s) x).
Proof.
  intros Hr Hrec Hf. destruct (record_load_ok s r Hr Hrec) as (p1 & E1 & S1).
  destruct (record_store_ok (set_plat p1 s) _ (ready_plat s p1 Hr (sf_ok _ _ S1))
    (promoted_wf uv r (ra_wf _ _ Hrec))) as (p2 & E2 & O2 & A2 & R2 & _ & _).
  exists p2. split.
  - unfold ota_module_app_mark_verified. erewrite bind_ret_eq by reflexivity.
    rewrite (rd_inited _ Hr). cbn [negb]. mrun E1. cbn [err_ok negb].
    unfold mark_verified_promote_unverified_ota_slot. rewrite Hf. mrun E2. done.
  - split_and!; auto. intros x Hx. rewrite R2 by done. apply (sf_raw _ _ S1).
Qed.

Lemma mark_verified_again s r :
  ready s -> record_at (plat s) r ->
  find_status OTA_APP_STATUS_UNVERIFIED (ota_app_info r) = None ->
  exists p', same_flash (plat s) p' /\ ota_module_app_mark_verified s
    = Ret (if is_some (find_status OTA_APP_STATUS_ACTIVE (ota_app_info r))
           then OTA_MODULE_ERR_OK else OTA_MODULE_ERR_APP_STATUS) (set_plat p' s).
Proof.
  intros Hr Hrec Hf. destruct (record_load_ok s r Hr Hrec) as (p1 & E1 & S1).
  exists p1. split; [done|]. unfold ota_module_app_mark_verified. erewrite bind_ret_eq by reflexivity.
  rewrite (rd_inited _ Hr). cbn [negb]. mrun E1. cbn [err_ok negb].
  unfold mark_verified_promote_unverified_ota_slot. rewrite Hf. by destruct (is_some _).
Qed.

(** ** The boot flag *)
Lemma set_flag_ok s f :
  ready s -> u32_field f ->
  exists p', ota_module_set_boot_ymodem_flag f s = Ret OTA_MODULE_ERR_OK (set_plat p' s) /\ op_ok p' /\
    record_at p' (seal (set_boot_flag f (effective_record (op_raw (plat s))))) /\
    (forall x, ~ in_record_sector x -> op_raw p' x = op_raw (plat s) x).
Proof.
  intros Hr Hf. pose proof (effective_wf _ (rd_ok _ Hr)) as Hw. destruct (record_load_spec s Hr) as (p1 & E1 & S1).
  pose proof (ready_plat s p1 Hr (sf_ok _ _ S1)) as Hr1.
  unfold ota_module_set_boot_ymodem_flag. erewrite bind_ret_eq by reflexivity.
  rewrite (rd_inited _ Hr). cbn [negb]. mrun E1.
  unfold effective_record in *. destruct (stored_record _) as [r|]; cbn [default] in *.
  - destruct (record_store_ok (set_plat p1 s) (set_boot_flag f r) Hr1) as (p2 & E2 & O2 & A2 & R2 & _);
      [destruct Hw; by split|]. exists p2. split; [exact E2|]. split_and!; auto.
    intros x Hx. rewrite R2 by done. apply (sf_raw _ _ S1).
  - pose proof default_wf as Wd.
    destruct (record_store_ok (set_plat p1 s) (set_boot_flag f ota_record_default_info) Hr1)
      as (p2 & E2 & O2 & A2 & R2 & _); [destruct Wd; by split|].
    exists p2. split; [exact E2|]. split_and!; auto.
    intros x Hx. rewrite R2 by done. apply (sf_raw _ _ S1).
Qed.

Lemma get_flag_ok s r :
  ready s -> record_at (plat s) r ->
  exists p', ota_module_get_boot_ymodem_flag s = Ret (boot_ymodem_flag r) (set_plat p' s) /\
    same_flash (plat s) p'.
Proof.
  intros Hr Hrec. destruct (record_load_ok s r Hr Hrec) as (p1 & E1 & S1). exists p1. split; [|done].
  unfold ota_module_get_boot_ymodem_flag. erewrite bind_ret_eq by reflexivity.
  rewrite (rd_inited _ Hr). cbn [negb]. mrun E1. done.
Qed.
End Verify.
