(* ===== verification/OtaBoard.v ===== *)
(** The OTA module on its board: the CRC entry point of the STM32G0 port, the
    platform configuration ([stm32g0xx_port.c]), the partition layout
    ([ota_module_config.h]) and the default record ([ota_record_default.c]),
    with the proof that the port implements the interface the OTA module is
    verified against. *)
From S2P Require Import Prelude FlashPort FlashPortProps OtaModule OtaLaws OtaSession.

(** ** Partition layout *)
Definition OTA_PLATFORM_FLASH_BASE : Z := 134217728.                      (* 0x08000000 *)
Definition OTA_PLATFORM_FLASH_SIZE : Z := 512 * 1024.
Definition OTA_PLATFORM_FLASH_PAGE_SIZE : Z := FLASH_PAGE_SIZE.
Definition OTA_PLATFORM_RECORD_ADDR : Z := OTA_PLATFORM_FLASH_BASE + 56 * 1024.
Definition OTA_PLATFORM_RECORD_SIZE : Z := 4 * 1024.
Definition OTA_PLATFORM_RESERVED_SIZE : Z := 4 * 1024.
Definition OTA_PLATFORM_APP_PARTITION_SIZE : Z := 448 * 1024.
Definition OTA_PLATFORM_APP1_ADDR : Z :=
  OTA_PLATFORM_RECORD_ADDR + OTA_PLATFORM_RECORD_SIZE + OTA_PLATFORM_RESERVED_SIZE.

(** The single application slot of the default record. *)
Definition default_app1 : ota_app_info_t :=
  mkApp OTA_APP_STATUS_ACTIVE 0 OTA_FLASH_TYPE_INTERNAL OTA_PLATFORM_APP1_ADDR
    OTA_PLATFORM_APP_PARTITION_SIZE.

Definition board_default_record : ota_record_info_t :=
  mkRecord OTA_INFO_MAGIC [default_app1] 0 0.

(** The build of this board: one slot ([OTA_IS_DUAL_APP] is 0), enumerations of
    one byte as the ARM EABI lays them out. *)
#[export] Instance board_build : OtaBuild := {
  OTA_IS_DUAL_APP := false;
  sizeof_enum := 1;
  ota_record_default_info := board_default_record
}.

#[export] Instance board_build_laws : OtaBuildLaws.
Proof.
  split; [simpl; lia|]. split; simpl; try done.
  repeat constructor; by vm_compute.
Qed.

(** ** The CRC unit

    [HAL_CRC_Calculate] starts a computation afresh, [HAL_CRC_Accumulate]
    continues the previous one, both on bytes ([MX_CRC_Init]). *)
Class CrcUnit (cu : Type) : Type := {
  HAL_CRC_DR_RESET : cu -> cu;
  HAL_CRC_Calculate : list Z -> Z -> cu -> Z * cu;
  HAL_CRC_Accumulate : list Z -> Z -> cu -> Z * cu
}.

(** [cu_input c] is what the unit has been fed since it was last restarted, and
    [cu_value] the value it reports for that input. *)
Class CrcUnitLaws (cu : Type) `{CrcUnit cu} : Type := {
  cu_input : cu -> list Z;
  cu_value : list Z -> Z;
  cu_value_range d : u32_field (cu_value d);
  calculate_ok c d : exists c', HAL_CRC_Calculate d (zlen d) c = (cu_value d, c') /\ cu_input c' = d;
  accumulate_ok c d : exists c', HAL_CRC_Accumulate d (zlen d) c = (cu_value (cu_input c ++ d), c') /\
    cu_input c' = cu_input c ++ d
}.

(** ** The platform state and its entry points *)
Section Board.
Context {hw cu : Type} `{FlashHw hw} `{CrcUnit cu}.

Record board : Type := mkBoard { b_port : port hw; b_crc : cu }.

Definition set_port (p : port hw) (b : board) : board := mkBoard p (b_crc b).
Definition on_port {A} (m : M (port hw) A) : M board A := zoom b_port set_port m.

Definition hal_crc (f : cu -> Z * cu) : M board Z :=
  fun b => let '(v, c) := f (b_crc b) in Ret v (mkBoard (b_port b) c).

Definition stm32g0xx_crc32 (mode : Z) (data : list Z) (size : Z) : M board Z :=
  if size =? 0 then mret 0
  else if mode =? 0 then
    modify (fun b => mkBoard (b_port b) (HAL_CRC_DR_RESET (b_crc b)));;
    hal_crc (HAL_CRC_Calculate data size)
  else hal_crc (HAL_CRC_Accumulate data size).

Definition ota_module_platform_config : ota_module_config_t board :=
  mkConfig OTA_FLASH_TYPE_INTERNAL OTA_PLATFORM_RECORD_ADDR
    [OTA_PLATFORM_FLASH_BASE; 0; 0] [OTA_PLATFORM_FLASH_SIZE; 0; 0]
    [OTA_PLATFORM_FLASH_PAGE_SIZE; 0; 0]
    (Some (fun t a n => on_port (stm32g0xx_flash_read t a n)))
    (Some (fun t a d n => on_port (stm32g0xx_flash_write t a d n)))
    (Some (fun t a n => on_port (stm32g0xx_flash_erase t a n)))
    (Some stm32g0xx_crc32)
    (Some (fun a => on_port (stm32g0xx_jump a))).
End Board.
Arguments board hw cu : clear implicits.
Arguments mkBoard {hw cu}.

(** ** The port implements the OTA platform *)
Section Implements.
Context {hw cu : Type} `{FL : FlashHwLaws hw} `{CL : CrcUnitLaws cu}.

(** The 512 KB part of the board: two banks of 256 KB. *)
Class BoardFlash : Prop := board_bank_size : FLASH_BANK_SIZE = 262144.

Context `{BF : BoardFlash}.

#[export] Instance board_platform : OtaPlatform (board hw cu) := {
  op_read t a n := on_port (stm32g0xx_flash_read t a n);
  op_write t a d n := on_port (stm32g0xx_flash_write t a d n);
  op_erase t a n := on_port (stm32g0xx_flash_erase t a n);
  op_crc32 := stm32g0xx_crc32;
  op_jump a := on_port (stm32g0xx_jump a);
  op_record_addr := OTA_PLATFORM_RECORD_ADDR;
  op_start := [OTA_PLATFORM_FLASH_BASE; 0; 0];
  op_sizes := [OTA_PLATFORM_FLASH_SIZE; 0; 0];
  op_sector := OTA_PLATFORM_FLASH_PAGE_SIZE;
  op_lo := OTA_PLATFORM_FLASH_BASE;
  op_hi := OTA_PLATFORM_FLASH_BASE + OTA_PLATFORM_FLASH_SIZE;
  op_ok b := port_ok (b_port b);
  op_raw b := raw (b_port b);
  op_view b := view (b_port b);
  op_pending b := pending (b_port b);
  crc_of := cu_value;
  crc_acc b := cu_input (b_crc b)
}.

Lemma board_config : op_config (board hw cu) = ota_module_platform_config.
Proof. reflexivity. Qed.

Lemma on_port_ret {A} (m : M (port hw) A) (b : board hw cu) a p' :
  m (b_port b) = Ret a p' -> on_port m b = Ret a (mkBoard p' (b_crc b)).
Proof. intros E. unfold on_port. by rewrite (zoom_ret_eq _ _ _ _ _ _ E). Qed.

Lemma idle_view (p : port hw) : valid (s_dw_cache p) = 0 ->
  (forall x, view p x = raw p x) /\ (forall x, ~ pending p x).
Proof.
  intros Hv. assert (Hc : forall x, cached p x = false) by (intros; unfold cached; by rewrite Hv).
  split; intros x; [by apply view_uncached|]. intros [Hp _]. by rewrite Hc in Hp.
Qed.

Lemma board_flash_end : flash_end = OTA_PLATFORM_FLASH_BASE + OTA_PLATFORM_FLASH_SIZE.
Proof. unfold flash_end. rewrite board_bank_size. reflexivity. Qed.

Lemma board_write (b : board hw cu) a d :
  op_ok b -> OTA_PLATFORM_FLASH_BASE <= a -> 0 < zlen d ->
  a + zlen d <= OTA_PLATFORM_FLASH_BASE + OTA_PLATFORM_FLASH_SIZE -> bytes_ok d ->
  (forall x, op_pending b x -> x < a) ->
  (forall x, a / 8 * 8 <= x < (a + zlen d - 1) / 8 * 8 + 8 -> op_raw b x = 255) ->
  exists b', op_write OTA_FLASH_TYPE_INTERNAL a (Some d) (zlen d) b = Ret 0 b' /\ op_ok b' /\
    (forall x, op_view b' x = mem_write (op_view b) a d x) /\
    (forall x, (a + zlen d) / 8 * 8 <= x -> op_raw b' x = op_raw b x) /\
    (forall x, x < a / 8 * 8 -> op_raw b' x = op_raw b x \/ op_raw b' x = op_view b x) /\
    (forall x, op_pending b' x -> x < a + zlen d).
Proof.
  intros Hok Ha Hd Hhi Hb Hp He. unfold OTA_PLATFORM_FLASH_BASE, OTA_PLATFORM_FLASH_SIZE in *.
  destruct (flash_write_range (b_port b) a d) as (p' & E & Hok' & [V A Bl Pn]); auto; try lia.
  exists (mkBoard p' (b_crc b)). split; [by apply on_port_ret|]. split_and!; auto.
Qed.

#[export] Instance board_platform_laws : OtaPlatformLaws (board hw cu).
Proof.
  split; cbn [op_sector op_lo op_hi op_record_addr board_platform].
  1-6: vm_compute; repeat split; congruence.
  - apply cu_value_range.
  - intros b x [Hh _]. by apply mem_bytes.
  - intros [p c] a n Hok Hn. apply (on_port_ret _ (mkBoard p c)). unfold stm32g0xx_flash_read.
    rewrite (proj2 (Z.eqb_neq n 0)) by lia. done.
  - apply board_write.
  - intros b Hok. destruct (flash_flush_commit (b_port b) Hok) as (p' & E & Hok' & Hv & Hr).
    exists (mkBoard p' (b_crc b)). destruct (idle_view p' Hv) as [Iv Ip].
    split; [by apply on_port_ret|]. split_and!; auto. intros x. etransitivity; [apply Iv|apply Hr].
  - intros b a n Hok Ha Hn Hhi Hm1 Hm2.
    destruct (flash_erase_range (b_port b) a n) as (p' & E & Hok' & Hc & Hr); auto.
    { by rewrite board_flash_end. }
    exists (mkBoard p' (b_crc b)). destruct (idle_view p') as [Iv Ip]; [by rewrite Hc|].
    split; [by apply on_port_ret|]. split_and!; auto.
  - intros b d Hok Hd. destruct (calculate_ok (HAL_CRC_DR_RESET (b_crc b)) d) as (c' & E & Hi).
    exists (mkBoard (b_port b) c'). split; [|done]. cbn [op_crc32 board_platform].
    unfold stm32g0xx_crc32. rewrite (proj2 (Z.eqb_neq (zlen d) 0)) by lia.
    cbn [Z.eqb]. erewrite bind_ret_eq by reflexivity. unfold hal_crc. cbn [b_crc b_port]. by rewrite E.
  - intros b d Hok Hd. destruct (accumulate_ok (b_crc b) d) as (c' & E & Hi).
    exists (mkBoard (b_port b) c'). split; [|done]. cbn [op_crc32 board_platform].
    unfold stm32g0xx_crc32. rewrite (proj2 (Z.eqb_neq (zlen d) 0)) by lia.
    unfold hal_crc. cbn [Z.eqb]. by rewrite E.
  - intros b a Hok Ha. exists (mkBoard (set_primask 1 (b_port b)) (b_crc b)). split.
    + cbn [op_jump board_platform]. unfold on_port, zoom, stm32g0xx_jump.
      by rewrite (proj2 (Z.eqb_neq a 0)).
    + destruct Hok as [Hh [A1 A2 A3 A4 A5 A6]]. split; auto. split; [done|]. by split.
Qed.

(** The application partition of the default record is made of whole pages,
    inside the array and after the record sector. *)
Lemma default_app1_layout : slot_layout (P := board hw cu) default_app1.
Proof. split; vm_compute; repeat split; try congruence. right. congruence. Qed.
End Implements.

(** ** A simulated CRC unit

    The default polynomial and initial value of the device, byte by byte, most
    significant bit first. *)
Module SimCrc.
Import Sim.

Definition crc_bit (c : Z) : Z :=
  if Z.testbit c 31 then Z.lxor (u32 (Z.shiftl c 1)) 79764919 else u32 (Z.shiftl c 1).

Definition crc_byte (c b : Z) : Z :=
  Nat.iter 8 crc_bit (Z.lxor c (Z.shiftl b 24)).

Definition crc_value (d : list Z) : Z := u32 (foldl crc_byte 4294967295 d).

#[export] Instance sim_crc : CrcUnit (list Z) := {
  HAL_CRC_DR_RESET _ := [];
  HAL_CRC_Calculate d _ _ := (crc_value d, d);
  HAL_CRC_Accumulate d _ acc := (crc_value (acc ++ d), acc ++ d)
}.

#[export, program] Instance sim_crc_laws : CrcUnitLaws (list Z) := {
  cu_input c := c;
  cu_value := crc_value
}.
Next Obligation. intros. apply u32_range. Qed.
Next Obligation. intros. by eexists. Qed.
Next Obligation. intros. by eexists. Qed.

(** CRC-32/MPEG-2 of the ASCII digits 1 to 9, its published check value. *)
Example crc_check : crc_value [49; 50; 51; 52; 53; 54; 55; 56; 57] = 58124007.
Proof. reflexivity. Qed.

#[export] Instance sim_board_flash : BoardFlash (hw := Sim.sim).
Proof. reflexivity. Qed.

(** The simulated board: erased flash, module not initialised. *)
Definition sim_board : board Sim.sim (list Z) := mkBoard Sim.blank_port [].
End SimCrc.
