(* ===== verification/OtaProps.v ===== *)
(** Properties of the OTA module: what an update, a boot, a verification and an
    aborted transfer establish, for every platform that satisfies the
    interface, with witnesses on the simulated board. *)
From S2P Require Import Prelude FlashPort FlashPortProps OtaModule OtaLaws OtaSession OtaBoot OtaVerify OtaBoard.

Section Props.
Context `{B : OtaBuild} {BL : OtaBuildLaws} {P : Type} `{OtaPlatformLaws P}.
Implicit Types s : ota_state P.

(** ** Sequences of calls *)

(** A transport's use of the module: announce the header, send the chunks in
    order, finish; the first error ends it. *)
Definition ota_transfer (h : ota_package_header_t) (chunks : list (list Z))
  : M (ota_state P) ota_module_err_t :=
  rc ← ota_module_ota_download_start (Some h);
  if negb (err_ok rc) then mret rc
  else
    rc ← download_chunks 0 chunks;
    if negb (err_ok rc) then mret rc else ota_module_ota_download_finish.

(** Initialisation and boot, as the start-up code runs them. *)
Definition boot_once : M (ota_state P) ota_module_err_t :=
  rc ← ota_module_init (Some (op_config P));
  if negb (err_ok rc) then mret rc else ota_module_boot_preprocess.

Lemma boot_once_ok p r :
  op_ok p -> record_at p r -> record_ok r ->
  exists s', boot_result (mkOta (op_config P) true session_zero p) r s' /\
    boot_outcome r (op_raw p) s' (boot_once (reset_state p)).
Proof.
  intros Ho Hrec Hok. destruct (init_ok (reset_state p) r Ho (stored_record_at _ _ Hrec)) as (p1 & E1 & S1).
  cbn [plat reset_state] in S1. set (s1 := mkOta (op_config P) true session_zero p1) in *.
  destruct (boot_preprocess_ok s1 r) as (s' & [R1 R2 R3 R4 R5] & O');
    [by split; [..|apply S1]|by eapply record_at_same|done|].
  exists s'. split.
  - split; auto; cbn [plat].
    + intros x Hx. rewrite R4 by done. apply (sf_raw _ _ S1).
    + intros Hn x. rewrite R5 by done. apply (sf_raw _ _ S1).
  - unfold boot_once. mrun E1. cbn [err_ok negb]. unfold boot_outcome in *.
    destruct (boot_decision r) as [st [i|]]; cbn [snd] in *; [|exact O'].
    destruct O' as (a & Ha & Hb & E). exists a. split_and!; auto. etransitivity; [exact E|].
    do 2 f_equal. apply entry_ext. intros. apply (sf_raw _ _ S1).
Qed.

Lemma transfer_ok s r i a h chunks :
  ready s -> started (g_dl s) = false -> record_at (plat s) r ->
  choose_target_ota_slot r = Some i -> ota_app_info r !! i = Some a ->
  slot_layout a -> header_for h a ->
  Forall (fun c => 0 < zlen c /\ bytes_ok c) chunks -> zlen (concat chunks) = total h ->
  let img := concat chunks in
  let ok := body_crc (app_body h img) =? app_crc32 h in
  exists s' r', ota_transfer h chunks s
      = Ret (if ok then OTA_MODULE_ERR_OK else OTA_MODULE_ERR_CRC_MISMATCH) s' /\
    ready s' /\ g_dl s' = session_zero /\ record_at (plat s') r' /\
    ota_app_info r' = <[i := verdict_app ok a]> (ota_app_info r) /\
    boot_ymodem_flag r' = boot_ymodem_flag r /\
    mem_read (op_raw (plat s')) (flash_addr a) (length img) = img /\
    (forall x, ~ in_record_sector x ->
       ~ (flash_addr a <= x < flash_addr a + align_up (total h) op_sector) ->
       op_raw (plat s') x = op_raw (plat s) x).
Proof.
  intros Hr Hst Hrec Hch Hi Hl Hh Hcs Hlen img ok.
  destruct (download_start_ok s r i a h Hr Hst Hrec Hch Hi Hl Hh) as (s1 & E1 & D1 & R1).
  destruct (download_chunks_ok chunks _ _ _ _ _ _ D1 Hcs) as (s2 & E2 & D2 & R2); [unfold zlen in *; cbn; lia|].
  destruct (download_finish_ok _ _ _ _ _ _ D2 Hlen) as (s3 & E3 & Hr3 & Hd3 & A3 & M3 & R3).
  cbn [app] in *. fold img in E3, A3, M3, R3. fold ok in E3, A3. clearbody ok.
  destruct (erase_bound h a Hh Hl) as (He & _).
  eexists s3, _. split_and!; try done.
  - unfold ota_transfer. mrun E1. cbn [err_ok negb]. change (zlen (@nil Z)) with 0 in E2. mrun E2. exact E3.
  - cbn. by rewrite list_insert_insert_eq.
  - intros x Hx1 Hx2. rewrite R3; [rewrite R2; [by apply R1|done]|done|].
    cbn [flash_addr downloading_app set_verify_count set_status]. unfold img. rewrite Hlen. lia.
Qed.

(** ** Spending the verification budget *)
Lemma record_ok_seal r : record_ok r -> record_ok (seal r).
Proof. done. Qed.

Lemma record_ok_set r i a b :
  record_ok r -> ota_app_info r !! i = Some a -> flash_type b = flash_type a ->
  flash_addr b = flash_addr a -> flash_size b = flash_size a -> record_ok (set_app i b r).
Proof.
  intros Hok Hi Ht Ha Hs. apply Forall_insert; [done|].
  destruct (Forall_lookup_1 _ _ _ _ Hok Hi) as [L1 L2 L3 L4 L5]. split; congruence || (rewrite ?Ha, ?Hs; done).
Qed.

Lemma boot_attempt p r i a :
  op_ok p -> record_at p r -> record_ok r ->
  find_status OTA_APP_STATUS_UNVERIFIED (ota_app_info r) = Some i -> ota_app_info r !! i = Some a ->
  0 <= verify_count a -> verify_count a + 1 < OTA_APP_MAX_VERIFY_COUNT ->
  exists s', boot_once (reset_state p) = Halt (JumpedTo (entry_of (op_raw p) a)) s' /\
    op_ok (plat s') /\ record_at (plat s') (seal (set_app i (count_attempt a) r)) /\
    (forall x, ~ in_record_sector x -> op_raw (plat s') x = op_raw p x).
Proof.
  intros Ho Hrec Hok Hf Hi Hv0 Hv. unfold OTA_APP_MAX_VERIFY_COUNT in Hv.
  destruct (boot_once_ok p r Ho Hrec Hok) as (s' & [R1 R2 R3 R4 R5] & O').
  assert (Hd : boot_decision r = (Some (set_app i (count_attempt a) r), Some i)).
  { unfold boot_decision. rewrite Hf, Hi, u32_small, (proj2 (Z.ltb_lt _ _)) by (unfold OTA_APP_MAX_VERIFY_COUNT; lia). done. }
  unfold boot_outcome in O'. rewrite Hd in R3, O'. cbn [fst snd default] in *.
  destruct O' as (b & Hb & _ & E). cbn in Hb. rewrite list_lookup_insert_eq in Hb by (by eapply lookup_lt_Some).
  simplify_eq. exists s'. split_and!; auto. apply R1.
Qed.

Lemma boot_exhausted p r i a :
  op_ok p -> record_at p r -> record_ok r ->
  find_status OTA_APP_STATUS_UNVERIFIED (ota_app_info r) = Some i -> ota_app_info r !! i = Some a ->
  verify_count a + 1 = OTA_APP_MAX_VERIFY_COUNT ->
  exists s' r', op_ok (plat s') /\ record_at (plat s') r' /\
    ota_app_info r' = <[i := give_up_slot a]> (ota_app_info r) /\
    (boot_once (reset_state p) = Ret OTA_MODULE_ERR_NO_BOOT_CANDIDATE s' \/
     exists j b, j <> i /\ ota_app_info r' !! j = Some b /\ bootable (status b) /\
       boot_once (reset_state p) = Halt (JumpedTo (entry_of (op_raw p) b)) s').
Proof.
  intros Ho Hrec Hok Hf Hi Hv. unfold OTA_APP_MAX_VERIFY_COUNT in Hv.
  destruct (boot_once_ok p r Ho Hrec Hok) as (s' & [R1 R2 R3 R4 R5] & O').
  set (r' := set_app i (give_up_slot a) r).
  assert (Hd : boot_decision r = (Some r', choose_boot_candidate_ota_slot r')).
  { unfold boot_decision. rewrite Hf, Hi, u32_small, (proj2 (Z.ltb_ge _ _)) by (unfold OTA_APP_MAX_VERIFY_COUNT; lia). done. }
  unfold boot_outcome in O'. rewrite Hd in R3, O'. cbn [fst snd default] in *.
  exists s', (seal r'). split_and!; auto; [apply R1|].
  destruct (choose_boot_candidate_ota_slot r') as [j|]; [right|by left].
  destruct O' as (b & Hb & Hbb & E). exists j, b. split_and!; auto. intros ->. cbn in Hb.
  rewrite list_lookup_insert_eq in Hb by (by eapply lookup_lt_Some). simplify_eq.
  destruct Hbb as [|[|]]; done.
Qed.

(** A slot that is not bootable is not started. *)
Lemma decision_keeps r i a :
  ota_app_info r !! i = Some a -> ~ bootable (status a) ->
  ota_app_info (default r (fst (boot_decision r))) !! i = Some a.
Proof.
  intros Hi Hb. unfold boot_decision.
  destruct (find_status OTA_APP_STATUS_UNVERIFIED _) as [j|] eqn:E; [|done].
  apply find_status_Some in E as (b & Hj & Hs & _). rewrite Hj.
  assert (j <> i) by (intros ->; simplify_eq; apply Hb; by left).
  destruct (_ <? _); cbn; by rewrite list_lookup_insert_ne.
Qed.

(** A decision only moves the statuses and counts of slots: the slot it starts
    is one the stored record already holds as bootable, at the same place. *)
Lemma decision_origin r j b' :
  ota_app_info (default r (fst (boot_decision r))) !! j = Some b' -> bootable (status b') ->
  exists b, ota_app_info r !! j = Some b /\ bootable (status b) /\
    flash_addr b' = flash_addr b /\ flash_size b' = flash_size b.
Proof.
  unfold boot_decision.
  destruct (find_status OTA_APP_STATUS_UNVERIFIED _) as [i|] eqn:E; [|by eauto].
  apply find_status_Some in E as (a & Hi & Hs & _). rewrite Hi.
  assert (Hlt := lookup_lt_Some _ _ _ Hi).
  destruct (decide (j = i)) as [->|Hne].
  - intros Hj _. exists a. split_and!; [done|by left|..]; revert Hj; destruct (_ <? _); cbn;
      rewrite list_lookup_insert_eq by done; intros; by simplify_eq.
  - destruct (_ <? _); cbn; rewrite list_lookup_insert_ne by done; eauto.
Qed.

Lemma boot_avoids p r i a :
  op_ok p -> record_at p r -> record_ok r -> ota_app_info r !! i = Some a -> ~ bootable (status a) ->
  exists s', boot_once (reset_state p) = Ret OTA_MODULE_ERR_NO_BOOT_CANDIDATE s' \/
    exists j b, j <> i /\ ota_app_info r !! j = Some b /\ bootable (status b) /\
      boot_once (reset_state p) = Halt (JumpedTo (entry_of (op_raw p) b)) s'.
Proof.
  intros Ho Hrec Hok Hi Hb. destruct (boot_once_ok p r Ho Hrec Hok) as (s' & _ & O').
  exists s'. unfold boot_outcome in O'. destruct (snd (boot_decision r)) as [j|]; [right|by left].
  destruct O' as (b' & Hj & Hbb & E). destruct (decision_origin r j b' Hj Hbb) as (b & Hjb & Hb2 & Ea & Es).
  exists j, b. split_and!; auto.
  - intros ->. by simplify_eq.
  - rewrite E. unfold entry_of. by rewrite Ea, Es.
Qed.

(** ** Every answer of [ota_module_ota_download_start] *)
Definition start_verdict (h : ota_package_header_t) (a : ota_app_info_t) : ota_module_err_t :=
  if negb (h_magic h =? OTA_PACKAGE_MAGIC) then OTA_MODULE_ERR_PACKAGE_MAGIC
  else if negb (header_crc32 h =? crc_of (enc_header_body h)) then OTA_MODULE_ERR_PACKAGE_HEADER_CRC
  else if (app_offset h <? flash_size a) && (total h <=? flash_size a) then OTA_MODULE_ERR_OK
  else OTA_MODULE_ERR_FLASH_SIZE.

(** The four size tests of the code, in 32-bit arithmetic, decide the exact
    comparison. *)
Lemma size_tests h a :
  header_wf h -> slot_layout a ->
  (flash_size a <=? app_offset h) || (flash_size a <? app_offset h +u app_size h) ||
    (flash_size a <? app_size h)
  = negb ((app_offset h <? flash_size a) && (total h <=? flash_size a)).
Proof.
  intros [_ _ Ho Hs _ _ _ _] [_ _ [Hz _] Hi _]. pose proof array_bounds. pose proof sector_pos.
  unfold u32_field, total, u32 in *. apply eq_bool_prop_intro.
  rewrite !orb_True, negb_True, andb_True, !Is_true_true, !Z.leb_le, !Z.ltb_lt. lia.
Qed.

Lemma start_rejects s r i a h :
  ready s -> started (g_dl s) = false -> record_at (plat s) r ->
  choose_target_ota_slot r = Some i -> ota_app_info r !! i = Some a -> slot_layout a -> header_wf h ->
  start_verdict h a <> OTA_MODULE_ERR_OK ->
  exists p', ota_module_ota_download_start (Some h) s = Ret (start_verdict h a) (set_plat p' s) /\
    same_flash (plat s) p'.
Proof.
  intros Hr Hst Hrec Hch Hi Hl Hw. pose proof (size_tests h a Hw Hl) as Hsz. unfold start_verdict.
  unfold ota_module_ota_download_start. do 2 erewrite bind_ret_eq by reflexivity.
  rewrite (rd_inited _ Hr), Hst. cbn [negb]. destruct (h_magic h =? OTA_PACKAGE_MAGIC); cbn [negb].
  2:{ intros _. exists (plat s). split; [by destruct s|apply same_flash_refl, Hr]. }
  destruct (package_crc_ok s h Hr) as (p1 & E1 & S1). mrun E1. rewrite (Z.eqb_sym (crc_of _) (header_crc32 h)).
  destruct (header_crc32 h =? crc_of _); cbn [negb]; [|by exists p1].
  destruct (record_load_ok (set_plat p1 s) r) as (p2 & E2 & S2);
    [by apply ready_plat, (sf_ok _ _ S1)|by eapply record_at_same|]. mrun E2. cbn iota. rewrite Hch.
  rewrite (bind_ret_eq _ _ _ _ _ (slot_eq r i a _ Hi)).
  destruct ((app_offset h <? flash_size a) && (total h <=? flash_size a)); [done|]. intros _.
  exists p2. split; [|by eapply same_flash_trans]. cbn [negb] in Hsz.
  destruct (flash_size a <=? app_offset h); [done|].
  destruct (flash_size a <? app_offset h +u app_size h); [done|].
  destruct (flash_size a <? app_size h); done.
Qed.

(** ** Every answer of [ota_module_ota_download] *)
Definition chunk_verdict (h : ota_package_header_t) (img : list Z) (off size : Z) : ota_module_err_t :=
  if negb (off =? zlen img) then OTA_MODULE_ERR_OFFSET_MISMATCH
  else if total h <? off + size then OTA_MODULE_ERR_SIZE_MISMATCH
  else OTA_MODULE_ERR_OK.

Lemma chunk_rejected s r i a h img off d :
  downloading s r i a h img -> 0 <= off -> off + zlen d < 4294967296 ->
  chunk_verdict h img off (zlen d) <> OTA_MODULE_ERR_OK ->
  exists p', ota_module_ota_download off (Some d) (zlen d) s
      = Ret (chunk_verdict h img off (zlen d)) (set_plat p' s) /\ same_flash (plat s) p'.
Proof.
  intros D Ho Hw. pose proof D as [Hr Hdl Hrec Hi Hst Hl Hh Hlen Hvw Her Hout Hpd].
  destruct (record_load_ok s r Hr Hrec) as (p1 & E1 & S1). unfold chunk_verdict. intros Hv.
  exists p1. split; [|done]. assert (0 <= zlen d) by (unfold zlen; lia).
  unfold ota_module_ota_download. cbn [is_some negb andb]. do 2 erewrite bind_ret_eq by reflexivity.
  rewrite (rd_inited _ Hr), Hdl. cbn [negb started]. mrun E1. cbn [err_ok negb target_index].
  rewrite (bind_ret_eq _ _ _ _ _ (slot_eq r i a _ Hi)), Hst, Z.eqb_refl.
  cbn [negb downloaded_size expected_total_size]. rewrite u32_small by lia.
  destruct (off =? zlen img); cbn [negb] in *; [|done]. by destruct (total h <? off + zlen d).
Qed.

(** ** Properties *)

(** C2 [install_image]: a transfer of a package that fits its slot, cut into
    chunks of any sizes, runs to the end; the flash then holds the package at
    the slot's address byte for byte, nothing outside the slot's erased range
    and the record sector has changed, and the persistent record marks the slot
    unverified when the CRC of the application body read back from flash is the
    one the header announces, invalid (with the CRC error) when it is not. *)
Theorem install_image s r i a h chunks :
  ready s -> started (g_dl s) = false -> record_at (plat s) r ->
  choose_target_ota_slot r = Some i -> ota_app_info r !! i = Some a ->
  slot_layout a -> header_for h a ->
  Forall (fun c => 0 < zlen c /\ bytes_ok c) chunks -> zlen (concat chunks) = total h ->
  let img := concat chunks in
  let ok := body_crc (app_body h img) =? app_crc32 h in
  exists s' r', ota_transfer h chunks s
      = Ret (if ok then OTA_MODULE_ERR_OK else OTA_MODULE_ERR_CRC_MISMATCH) s' /\
    ready s' /\ g_dl s' = session_zero /\ record_at (plat s') r' /\
    ota_app_info r' = <[i := verdict_app ok a]> (ota_app_info r) /\
    boot_ymodem_flag r' = boot_ymodem_flag r /\
    mem_read (op_raw (plat s')) (flash_addr a) (length img) = img /\
    (forall x, ~ in_record_sector x ->
       ~ (flash_addr a <= x < flash_addr a + align_up (total h) op_sector) ->
       op_raw (plat s') x = op_raw (plat s) x).
Proof. apply transfer_ok. Qed.

(** C8 [update_then_boot]: when the package that was installed starts with its
    own header and its CRC is right, the next start jumps to the application
    body of that slot, just after the header, and has spent one attempt of the
    slot's verification budget in the persistent record. *)
Theorem update_then_boot s r i a h chunks body :
  ready s -> started (g_dl s) = false -> record_at (plat s) r -> record_ok r ->
  choose_target_ota_slot r = Some i -> ota_app_info r !! i = Some a ->
  find_status OTA_APP_STATUS_UNVERIFIED (ota_app_info r) = None -> header_for h a ->
  Forall (fun c => 0 < zlen c /\ bytes_ok c) chunks ->
  concat chunks = enc_header h ++ body -> zlen (concat chunks) = total h ->
  body_crc (app_body h (concat chunks)) = app_crc32 h ->
  exists s1 s2 r', ota_transfer h chunks s = Ret OTA_MODULE_ERR_OK s1 /\
    boot_once (reset_state (plat s1)) = Halt (JumpedTo (flash_addr a + app_offset h)) s2 /\
    record_at (plat s2) r' /\
    ota_app_info r' = <[i := count_attempt (verdict_app true a)]> (ota_app_info r).
Proof.
  intros Hr Hst Hrec Hok Hch Hi Hf Hh Hcs Himg Hlen Hcrc.
  pose proof (Forall_lookup_1 _ _ _ _ Hok Hi) as Hl.
  destruct (transfer_ok s r i a h chunks Hr Hst Hrec Hch Hi Hl Hh Hcs Hlen)
    as (s1 & r1 & E1 & Hr1 & _ & A1 & I1 & F1 & M1 & _).
  rewrite Hcrc, Z.eqb_refl in E1, I1.
  assert (Hi1 : ota_app_info r1 !! i = Some (verdict_app true a))
    by (rewrite I1; apply list_lookup_insert_eq; by eapply lookup_lt_Some).
  destruct (boot_attempt (plat s1) r1 i (verdict_app true a)) as (s2 & E2 & _ & A2 & _);
    [apply Hr1|done| | |done|cbn; lia|cbn; unfold OTA_APP_MAX_VERIFY_COUNT; lia|].
  { unfold record_ok. rewrite I1. apply Forall_insert; [done|by apply slot_layout_status]. }
  { rewrite I1. apply find_status_insert_None; [done|by eapply lookup_lt_Some|done]. }
  exists s1, s2, (seal (set_app i (count_attempt (verdict_app true a)) r1)). split_and!; auto.
  - rewrite E2. do 2 f_equal. unfold entry_of. cbn [flash_addr flash_size verdict_app set_verify_count set_status].
    assert (Hhdr : mem_read (op_raw (plat s1)) (flash_addr a) sizeof_header = enc_header h).
    { rewrite Himg, length_app, mem_read_app in M1.
      rewrite <- (length_enc_header h) by apply Hh. apply app_inj_1 in M1; [tauto|]. by rewrite length_mem_read. }
    rewrite Hhdr, dec_enc_header by apply Hh. destruct Hh as [W Hm Hc Ho _].
    by rewrite Hm, Hc, !Z.eqb_refl, (proj2 (Z.ltb_lt _ _)) by done.
  - cbn. by rewrite I1, list_insert_insert_eq.
Qed.

(** C21 [boot_only_bootable]: started on a valid record, the module either jumps
    to an address inside the partition of a slot whose recorded status is
    unverified, active or backup, or returns [NO_BOOT_CANDIDATE], and that only
    when no slot has such a status in the record it leaves; the record stays
    valid, and only the record sector is ever written. *)
Theorem boot_only_bootable s r :
  ready s -> record_at (plat s) r -> record_ok r ->
  exists s' r', record_at (plat s') r' /\
    (forall x, ~ in_record_sector x -> op_raw (plat s') x = op_raw (plat s) x) /\
    ((exists i a e, ota_app_info r' !! i = Some a /\ bootable (status a) /\
        flash_addr a <= e < flash_addr a + flash_size a /\
        ota_module_boot_preprocess s = Halt (JumpedTo e) s') \/
     (Forall (fun a => ~ bootable (status a)) (ota_app_info r') /\
        ota_module_boot_preprocess s = Ret OTA_MODULE_ERR_NO_BOOT_CANDIDATE s')).
Proof.
  intros Hr Hrec Hok. destruct (boot_preprocess_ok s r Hr Hrec Hok) as (s' & [R1 R2 R3 R4 R5] & O').
  unfold boot_outcome in O'. eexists s', _. split; [exact R3|]. split; [done|].
  pose proof (decision_record r) as Hdec.
  assert (Hokd : record_ok (default r (fst (boot_decision r)))).
  { destruct (fst (boot_decision r)) eqn:E; [|done]. by destruct (Hdec _ (ra_wf _ _ Hrec) Hok eq_refl). }
  assert (Hinfo : ota_app_info (match fst (boot_decision r) with Some r' => seal r' | None => r end)
            = ota_app_info (default r (fst (boot_decision r)))) by (by destruct (fst (boot_decision r))).
  rewrite Hinfo. destruct (snd (boot_decision r)) as [i|] eqn:Es; [left|right; split; [|done]].
  - destruct O' as (a & Ha & Hb & E). exists i, a, (entry_of (op_raw (plat s)) a).
    pose proof (entry_bounds (op_raw (plat s)) a (fun x => law_bytes _ x (rd_ok _ Hr))
      (Forall_lookup_1 _ _ _ _ Hokd Ha)). split_and!; auto; lia.
  - assert (Hnone : choose_boot_candidate_ota_slot (default r (fst (boot_decision r))) = None).
    { unfold boot_decision in *. destruct (find_status OTA_APP_STATUS_UNVERIFIED _) as [j|] eqn:Eu; [|done].
      apply find_status_Some in Eu as (a & Ha & _). rewrite Ha in *. by destruct (_ <? _). }
    clear -Hnone. unfold choose_boot_candidate_ota_slot, bootable in *.
    destruct (find_status OTA_APP_STATUS_UNVERIFIED _) eqn:E1; [done|].
    destruct (find_status OTA_APP_STATUS_ACTIVE _) eqn:E2; [done|].
    rewrite find_status_None in *. apply Forall_forall. intros a Ha.
    rewrite Forall_forall in E1, E2, Hnone. naive_solver.
Qed.

(** C31 [verify_budget]: an unverified image that is never confirmed is started
    exactly twice: two starts jump to its entry, the third marks it invalid in
    the persistent record and runs some other bootable slot, or reports that
    there is none. *)
Theorem verify_budget p r i a :
  op_ok p -> record_at p r -> record_ok r ->
  find_status OTA_APP_STATUS_UNVERIFIED (ota_app_info r) = Some i ->
  ota_app_info r !! i = Some a -> verify_count a = 0 ->
  exists s1 s2 s3 r3,
    boot_once (reset_state p) = Halt (JumpedTo (entry_of (op_raw p) a)) s1 /\
    boot_once (reset_state (plat s1)) = Halt (JumpedTo (entry_of (op_raw p) a)) s2 /\
    record_at (plat s3) r3 /\ ota_app_info r3 = <[i := give_up_slot a]> (ota_app_info r) /\
    (boot_once (reset_state (plat s2)) = Ret OTA_MODULE_ERR_NO_BOOT_CANDIDATE s3 \/
     exists j b, j <> i /\ ota_app_info r3 !! j = Some b /\ bootable (status b) /\
       boot_once (reset_state (plat s2)) = Halt (JumpedTo (entry_of (op_raw (plat s2)) b)) s3).
Proof.
  intros Ho Hrec Hok Hf Hi Hv. pose proof (Forall_lookup_1 _ _ _ _ Hok Hi) as Hl.
  assert (Hlt : (i < length (ota_app_info r))%nat) by (by eapply lookup_lt_Some).
  pose proof (find_status_Some _ _ _ Hf) as (a' & Ha' & Hs & _). simplify_eq.
  destruct (boot_attempt p r i a) as (s1 & E1 & O1 & A1 & R1); auto; try (rewrite Hv; by vm_compute).
  set (a1 := count_attempt a) in *.
  assert (Hv1 : verify_count a1 = 1) by (cbn; rewrite Hv; done).
  assert (Hok1 : record_ok (seal (set_app i a1 r))) by (eapply record_ok_seal, record_ok_set; eauto).
  destruct (boot_attempt (plat s1) (seal (set_app i a1 r)) i a1) as (s2 & E2 & O2 & A2 & R2);
    auto; try (rewrite Hv1; by vm_compute).
  { by apply find_status_insert. }
  { by apply list_lookup_insert_eq. }
  set (r2 := set_app i (count_attempt a1) (seal (set_app i a1 r))) in *.
  destruct (boot_exhausted (plat s2) (seal r2) i (count_attempt a1)) as (s3 & r3 & O3 & A3 & I3 & D3); auto.
  { apply record_ok_seal. eapply (record_ok_set _ _ a1); eauto. by apply list_lookup_insert_eq. }
  { cbn. apply find_status_insert; [|done]. by apply find_status_insert. }
  { cbn. apply list_lookup_insert_eq. by rewrite length_insert. }
  { unfold count_attempt at 1. cbn [verify_count set_verify_count]. by rewrite Hv1. }
  exists s1, s2, s3, r3. split_and!; auto.
  - rewrite E2. do 2 f_equal. change (entry_of (op_raw (plat s1)) a = entry_of (op_raw p) a).
    by apply apart_entry.
  - rewrite I3. cbn. rewrite !list_insert_insert_eq. f_equal.
Qed.

(** For a non-empty package, the answer of
    [ota_module_ota_download_start] is decided by the magic, the header CRC and
    the exact, unwrapped size of the package against the slot; a refused
    package leaves the flash and the session as they were, an accepted one
    opens a session over the erased slot, recorded as downloading. *)
Theorem start_validates s r i a h :
  ready s -> started (g_dl s) = false -> record_at (plat s) r ->
  choose_target_ota_slot r = Some i -> ota_app_info r !! i = Some a ->
  slot_layout a -> header_wf h -> 0 < total h ->
  exists s', ota_module_ota_download_start (Some h) s = Ret (start_verdict h a) s' /\
    (start_verdict h a <> OTA_MODULE_ERR_OK ->
       g_dl s' = g_dl s /\ same_flash (plat s) (plat s')) /\
    (start_verdict h a = OTA_MODULE_ERR_OK -> exists r', downloading s' r' i (downloading_app a) h []).
Proof.
  intros Hr Hst Hrec Hch Hi Hl Hw Ht. destruct (decide (start_verdict h a = OTA_MODULE_ERR_OK)) as [Hv|Hv].
  - assert (Hh : header_for h a).
    { unfold start_verdict in Hv. destruct (h_magic h =? _) eqn:E1; [|done].
      destruct (header_crc32 h =? _) eqn:E2; [|done]. cbn [negb] in Hv.
      destruct (_ && _) eqn:E3; [|done]. cbool. unfold total in *. split; auto. }
    destruct (download_start_ok s r i a h Hr Hst Hrec Hch Hi Hl Hh) as (s' & E & D & _).
    exists s'. rewrite Hv. split_and!; eauto. congruence.
  - destruct (start_rejects s r i a h Hr Hst Hrec Hch Hi Hl Hw Hv) as (p' & E & S).
    exists (set_plat p' s). split_and!; auto. congruence.
Qed.

(** C35 [chunks_in_order]: during a session a chunk is answered
    [OFFSET_MISMATCH] unless it starts where the previous one ended,
    [SIZE_MISMATCH] when it would overrun the announced total, and otherwise is
    appended; on every answer the session invariant holds of what has been
    received so far. *)
Theorem chunks_in_order s r i a h img off d :
  downloading s r i a h img -> 0 < zlen d -> bytes_ok d -> 0 <= off -> off + zlen d < 4294967296 ->
  let rc := chunk_verdict h img off (zlen d) in
  exists s', ota_module_ota_download off (Some d) (zlen d) s = Ret rc s' /\
    downloading s' r i a h (if err_ok rc then img ++ d else img).
Proof.
  intros D Hd Hb Ho Hw rc. subst rc.
  destruct (decide (chunk_verdict h img off (zlen d) = OTA_MODULE_ERR_OK)) as [Hv|Hv].
  - rewrite Hv. unfold chunk_verdict in Hv. destruct (off =? zlen img) eqn:E1; [|done].
    cbn [negb] in Hv. destruct (total h <? off + zlen d) eqn:E2; [done|]. cbool. subst off.
    destruct (download_chunk_ok s r i a h img d) as (s' & E & D' & _); auto. by exists s'.
  - destruct (chunk_rejected s r i a h img off d D Ho Hw Hv) as (p' & E & S).
    exists (set_plat p' s). split; [done|]. replace (err_ok _) with false.
    + by apply downloading_same.
    + by destruct (chunk_verdict h img off (zlen d)).
Qed.

(** C36 [abort_unbootable]: aborting a session at any point succeeds, closes it,
    marks the slot invalid in the record and changes no other slot of it, and
    the next start either finds no candidate or jumps to the entry of another
    slot that the record held as bootable, never of the half-written one. *)
Theorem abort_unbootable s r i a h img :
  downloading s r i a h img -> record_ok r ->
  exists s1 r1 s2, ota_module_ota_download_abort s = Ret OTA_MODULE_ERR_OK s1 /\
    g_dl s1 = session_zero /\ record_at (plat s1) r1 /\
    ota_app_info r1 = <[i := verdict_app false a]> (ota_app_info r) /\
    (boot_once (reset_state (plat s1)) = Ret OTA_MODULE_ERR_NO_BOOT_CANDIDATE s2 \/
     exists j b, j <> i /\ ota_app_info r !! j = Some b /\ bootable (status b) /\
       boot_once (reset_state (plat s1)) = Halt (JumpedTo (entry_of (op_raw (plat s1)) b)) s2).
Proof.
  intros D Hok. pose proof D as [Hr Hdl Hrec Hi _ _ _ _ _ _ _ _].
  destruct (download_abort_ok s r i a Hr Hrec Hi) as (s1 & E1 & Hr1 & Hd1 & A1 & _); [by rewrite Hdl|].
  destruct (boot_avoids (plat s1) (seal (set_app i (verdict_app false a) r)) i (verdict_app false a))
    as (s2 & O2).
  - apply Hr1.
  - done.
  - eapply record_ok_seal, record_ok_set; eauto.
  - cbn. apply list_lookup_insert_eq. by eapply lookup_lt_Some.
  - by intros [|[|]].
  - exists s1, (seal (set_app i (verdict_app false a) r)), s2. split_and!; auto.
    destruct O2 as [|(j & b & Hj & Hb & Hbb & E2)]; [by left|right]. exists j, b. split_and!; auto.
    cbn in Hb. by rewrite list_lookup_insert_ne in Hb.
Qed.

(** C24 [confirm_settles]: on a board whose flash works and whose record lays
    its slots out in it, confirming an unverified image makes it the active slot
    with no attempt counted, turns every other slot that was active or unverified
    into a backup, keeps the rest of the record, the partitions and the boot
    flag, and writes only the record sector; confirming again succeeds without
    touching the flash; and from then on a start jumps to that image and does
    not write the flash. *)
Theorem confirm_settles s r uv a :
  ready s -> record_at (plat s) r -> record_ok r ->
  find_status OTA_APP_STATUS_UNVERIFIED (ota_app_info r) = Some uv -> ota_app_info r !! uv = Some a ->
  exists s1 r1 s2 s3, ota_module_app_mark_verified s = Ret OTA_MODULE_ERR_OK s1 /\
    record_at (plat s1) r1 /\ settled (ota_app_info r) (ota_app_info r1) uv /\
    boot_ymodem_flag r1 = boot_ymodem_flag r /\
    (forall x, ~ in_record_sector x -> op_raw (plat s1) x = op_raw (plat s) x) /\
    ota_module_app_mark_verified s1 = Ret OTA_MODULE_ERR_OK s2 /\ same_flash (plat s1) (plat s2) /\
    boot_once (reset_state (plat s1)) = Halt (JumpedTo (entry_of (op_raw (plat s)) a)) s3 /\
    (forall x, op_raw (plat s3) x = op_raw (plat s1) x).
Proof.
  intros Hr Hrec Hok Hf Hi. pose proof (Forall_lookup_1 _ _ _ _ Hok Hi) as Hl.
  destruct (mark_verified_ok s r uv Hr Hrec Hf) as (p1 & E1 & O1 & A1 & R1).
  set (r1 := seal _) in A1. set (a1 := set_verify_count 0 (set_status OTA_APP_STATUS_ACTIVE a)).
  pose proof (promoted_status uv (ota_app_info r)) as Hset.
  assert (Ha1 : ota_app_info r1 !! uv = Some a1).
  { cbn. unfold promoted. by rewrite list_lookup_imap, Hi, Nat.eqb_refl. }
  assert (Hok1 : record_ok r1).
  { apply Forall_lookup. intros j b (c & Hc & Ht & Had & Hsz)%promoted_partition.
    destruct (Forall_lookup_1 _ _ _ _ Hok Hc) as [L1 L2 L3 L4 L5].
    split; [congruence|by rewrite ?Had, ?Hsz..]. }
  assert (Hnu : find_status OTA_APP_STATUS_UNVERIFIED (ota_app_info r1) = None)
    by (apply find_status_None, Forall_lookup; intros j b Hb; by destruct (Hset j b Hb)).
  assert (Hact : find_status OTA_APP_STATUS_ACTIVE (ota_app_info r1) = Some uv).
  { destruct (find_status OTA_APP_STATUS_ACTIVE _) as [k|] eqn:E.
    - apply find_status_Some in E as (b & Hb & Hs & _). f_equal. by apply (Hset k b Hb).
    - apply find_status_None in E. by destruct (Forall_lookup_1 _ _ _ _ E Ha1). }
  destruct (mark_verified_again (set_plat p1 s) r1) as (p2 & S2 & E2); [by apply ready_plat|done|done|].
  rewrite Hact in E2. destruct (boot_once_ok p1 r1 O1 A1 Hok1) as (s3 & [B1 B2 B3 B4 B5] & O').
  assert (Hd : boot_decision r1 = (None, Some uv)).
  { unfold boot_decision, choose_boot_candidate_ota_slot. by rewrite Hnu, Hact. }
  unfold boot_outcome in O'. rewrite Hd in *. cbn [fst snd default] in *.
  destruct O' as (b & Hb & _ & E3). rewrite Ha1 in Hb. simplify_eq.
  exists (set_plat p1 s), r1, (set_plat p2 (set_plat p1 s)), s3. split_and!; auto; [apply promoted_settled|].
  cbn [plat set_plat]. rewrite E3. do 2 f_equal. change (entry_of (op_raw p1) a = entry_of (op_raw (plat s)) a).
  by apply apart_entry.
Qed.

(** Whatever the record sector holds, setting the
    boot flag stores a valid record, a later read of the flag returns the value
    set, and the slots are those of the stored record, or of the default one
    when the sector held no valid record. *)
Theorem boot_flag_roundtrip s f :
  ready s -> u32_field f ->
  exists s1 r1 s2, ota_module_set_boot_ymodem_flag f s = Ret OTA_MODULE_ERR_OK s1 /\
    record_at (plat s1) r1 /\
    ota_app_info r1 = ota_app_info (effective_record (op_raw (plat s))) /\
    ota_module_get_boot_ymodem_flag s1 = Ret f s2.
Proof.
  intros Hr Hf. destruct (set_flag_ok s f Hr Hf) as (p1 & E1 & O1 & A1 & _).
  destruct (get_flag_ok (set_plat p1 s) _ (ready_plat s p1 Hr O1) A1) as (p2 & E2 & _).
  exists (set_plat p1 s). eexists _, _. split_and!; eauto.
Qed.

(** ** Power loss *)

(** An operation on [n] bytes from [a] that touches the record sector. *)
Definition touches_record (a n : Z) : bool :=
  (a <? op_record_addr + op_sector) && (op_record_addr <? a + n).

(** The platform whose power fails at the first erase or write of the record
    sector, before the flash changes there. *)
Definition cut_config : ota_module_config_t P :=
  mkConfig OTA_FLASH_TYPE_INTERNAL op_record_addr op_start op_sizes [op_sector; 0; 0]
    (Some op_read)
    (Some (fun t a d n => if touches_record a n then halt SystemReset else op_write t a d n))
    (Some (fun t a n => if touches_record a n then halt SystemReset else op_erase t a n))
    (Some op_crc32) (Some op_jump).

Definition cut_state (p : P) : ota_state P := mkOta cut_config true session_zero p.

Lemma cut_readable p : op_ok p -> readable (cut_state p).
Proof. by split. Qed.

(** On that platform a slot is erased as before, and storing a record loses
    the power. *)
Lemma cut_erase_slot p a n :
  op_ok p -> slot_layout a -> 0 < n <= flash_size a -> align_up n op_sector <= flash_size a ->
  exists p', flash_erase_slot OTA_FLASH_TYPE_INTERNAL (flash_addr a) n (cut_state p)
      = Ret OTA_MODULE_ERR_OK (cut_state p') /\
    op_ok p' /\ forall x, op_raw p' x = mem_fill (op_raw p) (flash_addr a) (align_up n op_sector) 255 x.
Proof.
  intros Ho Hl Hn Hs. pose proof Hl as [_ Hm [Hz _] Hin Hap]. pose proof array_bounds. pose proof sector_pos.
  destruct (align_up_spec n op_sector) as [[Hu1 Hu2] Hu3]; try lia.
  destruct (law_erase p (flash_addr a) (align_up n op_sector)) as (p' & E & Hok & Hr & _);
    [done|lia|lia|lia|done|done|].
  exists p'. split; [|done]. unfold flash_erase_slot. erewrite bind_ret_eq by reflexivity.
  change (flash_sector_size (g_cfg (cut_state p)) !! Z.to_nat OTA_FLASH_TYPE_INTERNAL) with (Some op_sector).
  cbv beta iota. rewrite (proj2 (Z.eqb_neq op_sector 0)), align_down_multiple by lia.
  rewrite (u32_small (flash_addr a + n)), (u32_small (flash_addr a + n - flash_addr a)) by lia.
  replace (flash_addr a + n - flash_addr a) with n by lia.
  assert (Ee : flash_erase OTA_FLASH_TYPE_INTERNAL (flash_addr a) (align_up n op_sector) (cut_state p)
               = Ret 0 (cut_state p')).
  { unfold flash_erase. erewrite call_eq by reflexivity. apply (zoom_ret_eq plat set_plat _ (cut_state p)).
    replace (touches_record _ _) with false; [exact E|]. symmetry. unfold touches_record.
    apply andb_false_iff. rewrite !Z.ltb_ge. lia. }
  mrun Ee. done.
Qed.

Lemma cut_record_store p r :
  op_ok p -> exists p', record_store r (cut_state p) = Halt SystemReset (cut_state p') /\ same_flash p p'.
Proof.
  intros Ho. unfold record_store. erewrite bind_ret_eq by reflexivity. cbn [g_inited cut_state negb].
  destruct (readable_crc (cut_state p) (enc_record_body (set_r_magic OTA_INFO_MAGIC r))
    (cut_readable p Ho) (zlen_enc_record_body _)) as (p1 & E1 & S1 & _).
  exists p1. split; [|done]. unfold record_crc32_without_info_crc32, crc32_one_shot. mrun E1.
  erewrite bind_ret_eq by reflexivity. pose proof sizeof_record_fits. pose proof sector_pos.
  pose proof array_bounds. pose proof record_inside. pose proof record_aligned.
  destruct (align_up_spec (Z.of_nat sizeof_record) op_sector) as [[Hu1 Hu2] Hu3]; try lia.
  change (set_plat p1 (cut_state p)) with (cut_state p1).
  cbn [record_flash_type record_addr g_cfg cut_state cut_config]. unfold flash_erase_slot.
  erewrite bind_halt_eq; [reflexivity|]. erewrite bind_ret_eq by reflexivity.
  change (flash_sector_size (g_cfg (cut_state p1)) !! Z.to_nat OTA_FLASH_TYPE_INTERNAL) with (Some op_sector).
  cbv beta iota. rewrite (proj2 (Z.eqb_neq op_sector 0)), align_down_multiple by lia.
  rewrite (u32_small (op_record_addr + Z.of_nat sizeof_record)),
    (u32_small (op_record_addr + Z.of_nat sizeof_record - op_record_addr)) by lia.
  replace (op_record_addr + Z.of_nat sizeof_record - op_record_addr) with (Z.of_nat sizeof_record) by lia.
  apply bind_halt_eq. unfold flash_erase. erewrite call_eq by reflexivity. unfold zoom.
  replace (touches_record _ _) with true; [done|]. symmetry. unfold touches_record.
  apply andb_true_iff. rewrite !Z.ltb_lt. lia.
Qed.

Lemma cut_start_ok p r i a h :
  op_ok p -> record_at p r -> slot_layout a -> ota_app_info r !! i = Some a ->
  choose_target_ota_slot r = Some i -> header_for h a ->
  exists p1, ota_module_ota_download_start (Some h) (cut_state p) = Halt SystemReset (cut_state p1) /\
    op_ok p1 /\
    (forall x, flash_addr a <= x < flash_addr a + align_up (total h) op_sector -> op_raw p1 x = 255) /\
    record_at p1 r.
Proof.
  intros Ho Hrec Hl Hi Hch Hh. pose proof Hh as [_ Hm Hcrc _ _].
  destruct (total_bound h a Hh Hl) as (Ht & Hsum & _). destruct (erase_bound h a Hh Hl) as (He & _).
  destruct (header_checks_pass h a Hh Hl) as (C1 & C2 & C3).
  unfold ota_module_ota_download_start. do 2 erewrite bind_ret_eq by reflexivity.
  cbn [g_inited g_dl cut_state started session_zero negb]. rewrite Hm, Z.eqb_refl. cbn [negb].
  destruct (readable_package_crc (cut_state p) h (cut_readable p Ho)) as (p1 & E1 & S1). mrun E1.
  rewrite Hcrc, Z.eqb_refl. cbn [negb]. change (set_plat p1 (cut_state p)) with (cut_state p1).
  destruct (readable_record_load (cut_state p1) r) as (p2 & E2 & S2);
    [apply cut_readable, S1|by eapply record_at_same|]. mrun E2.
  change (set_plat p2 (cut_state p1)) with (cut_state p2). cbn iota.
  pose proof (same_flash_trans _ _ _ S1 S2) as S12. rewrite Hch.
  rewrite (bind_ret_eq _ _ _ _ _ (slot_eq r i a (cut_state p2) Hi)).
  rewrite C1, C2, C3, Hsum, (sl_type _ Hl).
  destruct (cut_erase_slot p2 a (total h)) as (p3 & E3 & O3 & R3); [apply S12|done|lia|lia|].
  mrun E3. cbn [err_ok negb].
  destruct (cut_record_store p3 (set_info_crc32 0 (set_app i (downloading_app a) r)) O3) as (p4 & E4 & S4).
  unfold downloading_app in E4. mrun E4. exists p4. split_and!; [done|apply S4|..].
  - intros x Hx. rewrite (sf_raw _ _ S4), R3. unfold mem_fill. crange; [done|lia].
  - apply (record_at_frame p); [done|]. intros x Hx. rewrite (sf_raw _ _ S4), R3. unfold mem_fill.
    pose proof (sl_apart _ Hl). crange; [unfold in_record_sector in Hx; lia|]. apply (sf_raw _ _ S12).
Qed.

(** C39 [interrupted_start_boots_erased]: [ota_module_ota_download_start] erases
    the target slot before it touches the record.  When the slot it takes is the
    active one (the single-slot build) and the power fails as the record is
    about to be rewritten, the start has erased the slot and the record still
    calls it active, so the next start jumps to its first address, where the
    flash reads [0xFF]. *)
Theorem interrupted_start_boots_erased p r i a h :
  op_ok p -> record_at p r -> record_ok r -> ota_app_info r !! i = Some a ->
  choose_target_ota_slot r = Some i ->
  find_status OTA_APP_STATUS_UNVERIFIED (ota_app_info r) = None ->
  find_status OTA_APP_STATUS_ACTIVE (ota_app_info r) = Some i -> header_for h a ->
  exists p1 s2, ota_module_ota_download_start (Some h) (cut_state p) = Halt SystemReset (cut_state p1) /\
    (forall x, flash_addr a <= x < flash_addr a + total h -> op_raw p1 x = 255) /\
    record_at p1 r /\
    boot_once (reset_state p1) = Halt (JumpedTo (flash_addr a)) s2.
Proof.
  intros Ho Hrec Hok Hi Hch Hnu Hact Hh. pose proof (Forall_lookup_1 _ _ _ _ Hok Hi) as Hl.
  destruct (cut_start_ok p r i a h) as (p1 & E1 & O1 & Hff & A1); auto.
  pose proof (one_sector a Hl). pose proof sector_pos. pose proof array_bounds.
  destruct (total_bound h a Hh Hl) as (Ht & _). destruct (erase_bound h a Hh Hl) as (He & _).
  destruct (align_up_spec (total h) op_sector) as [_ Hau]; try lia.
  assert (Hbig : op_sector <= align_up (total h) op_sector)
    by (apply (multiple_le _ _ op_sector); auto; [lia|apply Z_mod_same_full|lia]).
  destruct (boot_once_ok p1 r) as (s2 & _ & O'); auto.
  assert (Hd : boot_decision r = (None, Some i)).
  { unfold boot_decision, choose_boot_candidate_ota_slot. by rewrite Hnu, Hact. }
  unfold boot_outcome in O'. rewrite Hd in O'. cbn [fst snd default] in O'.
  destruct O' as (b & Hb & _ & E2). rewrite Hi in Hb. simplify_eq.
  exists p1, s2. split_and!; auto.
  - intros x Hx. apply Hff. lia.
  - rewrite E2. do 2 f_equal. unfold entry_of.
    rewrite (mem_read_ext _ (fun _ => 255)) by (intros; apply Hff; unfold sizeof_header in *; lia). done.
Qed.
End Props.
