(* ===== verification/OtaWitness.v ===== *)
(** The OTA properties on the simulated board: a concrete record, package and
    chunk sequence for each. *)
From S2P Require Import Prelude FlashPort FlashPortProps OtaModule OtaLaws OtaSession OtaBoot OtaVerify OtaBoard OtaProps.
Import Sim SimCrc.

Notation sboard := (board sim (list Z)).

(** A board whose record sector holds [r], the rest of the flash erased. *)
Definition sim_flash (r : ota_record_info_t) : sboard :=
  mkBoard (mkPort (mkSim (mem_write (fun _ => 255) OTA_PLATFORM_RECORD_ADDR
                            (enc_record (seal (P := sboard) r))) false)
             flash_dw_cache_empty 0) [].

Definition sim_state (r : ota_record_info_t) : ota_state sboard :=
  mkOta (op_config sboard) true session_zero (sim_flash r).

(** The board's single slot in a given status. *)
Definition one_slot (st count : Z) : ota_record_info_t :=
  mkRecord OTA_INFO_MAGIC [set_verify_count count (set_status st default_app1)] 0 0.

Lemma one_slot_wf st count : 0 <= st < 256 -> u32_field count -> record_wf (one_slot st count).
Proof.
  intros Hs Hc. split; cbn; try done. constructor; [|constructor].
  apply set_status_wf; auto. pose proof default_wf as [_ _ D _ _]. by inversion D.
Qed.

Lemma one_slot_ok st count : record_ok (P := sboard) (seal (P := sboard) (one_slot st count)).
Proof. constructor; [|constructor]. apply slot_layout_status, default_app1_layout. Qed.

Lemma sim_flash_ok r : op_ok (sim_flash r).
Proof. split; [done|]. apply cache_wf_empty. Qed.

Lemma sim_state_ready r : ready (sim_state r).
Proof. split; [done|done|apply sim_flash_ok]. Qed.

Lemma sim_flash_record r : record_wf r -> record_at (sim_flash r) (seal (P := sboard) r).
Proof.
  intros Hw. pose proof (seal_wf (P := sboard) r Hw) as Hs. split; try done.
  rewrite <- (length_enc_record (seal (P := sboard) r)) by apply Hs. etransitivity; [|apply mem_read_write].
  apply mem_read_ext. intros x Hx. apply (u8_small (mem_write (fun _ => 255) _ _ x)).
  unfold mem_write. crange; [apply nthz_byte, bytes_ok_enc_record|lia].
Qed.

(** A package: a 56-byte header and an eight-byte application. *)
Definition sim_body : list Z := [1; 2; 3; 4; 5; 6; 7; 8].
Definition sim_header_raw : ota_package_header_t :=
  mkHeader OTA_PACKAGE_MAGIC 7 56 8 (crc_value sim_body) (replicate 32 65) 0.
Definition sim_header : ota_package_header_t :=
  mkHeader OTA_PACKAGE_MAGIC 7 56 8 (crc_value sim_body) (replicate 32 65)
    (crc_value (enc_header_body sim_header_raw)).
Definition sim_chunks : list (list Z) :=
  [take 5 (enc_header sim_header); drop 5 (enc_header sim_header) ++ take 3 sim_body; drop 3 sim_body].

Lemma sim_header_wf : header_wf sim_header.
Proof. split; vm_compute; try (split; congruence); try done. repeat constructor; congruence. Qed.

Lemma sim_header_for st count :
  header_for (P := sboard) sim_header (set_verify_count count (set_status st default_app1)).
Proof. split; [apply sim_header_wf|reflexivity..|vm_compute; done|vm_compute; split; congruence]. Qed.

Lemma sim_chunks_ok : Forall (fun c => 0 < zlen c /\ bytes_ok c) sim_chunks.
Proof. repeat constructor; vm_compute; congruence. Qed.

Notation active := (one_slot OTA_APP_STATUS_ACTIVE 0).
Notation unverified := (one_slot OTA_APP_STATUS_UNVERIFIED 0).

Lemma active_wf : record_wf active.
Proof. by apply one_slot_wf. Qed.
Lemma unverified_wf : record_wf unverified.
Proof. by apply one_slot_wf. Qed.

Lemma install_image_witness :
  exists s' r', ota_transfer sim_header sim_chunks (sim_state active) = Ret OTA_MODULE_ERR_OK s' /\
    record_at (plat s') r' /\
    ota_app_info r' = [verdict_app true default_app1] /\
    mem_read (op_raw (plat s')) OTA_PLATFORM_APP1_ADDR 64 = enc_header sim_header ++ sim_body.
Proof.
  destruct (install_image (sim_state active) (seal (P := sboard) active) 0
    (set_verify_count 0 (set_status OTA_APP_STATUS_ACTIVE default_app1)) sim_header sim_chunks)
    as (s' & r' & E & _ & _ & A & I & _ & Mm & _).
  - apply sim_state_ready.
  - reflexivity.
  - apply sim_flash_record, active_wf.
  - reflexivity.
  - reflexivity.
  - apply slot_layout_status, default_app1_layout.
  - apply sim_header_for.
  - apply sim_chunks_ok.
  - vm_compute. reflexivity.
  - exists s', r'. split_and!; [exact E|exact A|exact I|exact Mm].
Defined.

Lemma update_then_boot_witness :
  exists s1 s2, ota_transfer sim_header sim_chunks (sim_state active) = Ret OTA_MODULE_ERR_OK s1 /\
    boot_once (reset_state (plat s1)) = Halt (JumpedTo (OTA_PLATFORM_APP1_ADDR + 56)) s2.
Proof.
  destruct (update_then_boot (sim_state active) (seal (P := sboard) active) 0
    (set_verify_count 0 (set_status OTA_APP_STATUS_ACTIVE default_app1)) sim_header sim_chunks sim_body)
    as (s1 & s2 & r' & E1 & E2 & _).
  - apply sim_state_ready.
  - reflexivity.
  - apply sim_flash_record, active_wf.
  - apply one_slot_ok.
  - reflexivity.
  - reflexivity.
  - reflexivity.
  - apply sim_header_for.
  - apply sim_chunks_ok.
  - vm_compute. reflexivity.
  - vm_compute. reflexivity.
  - vm_compute. reflexivity.
  - exists s1, s2. split; [exact E1|exact E2].
Defined.

Lemma boot_only_bootable_witness :
  exists s' r', record_at (plat s') r' /\
    ((exists i a e, ota_app_info r' !! i = Some a /\ bootable (status a) /\
        flash_addr a <= e < flash_addr a + flash_size a /\
        ota_module_boot_preprocess (sim_state unverified) = Halt (JumpedTo e) s') \/
     (Forall (fun a => ~ bootable (status a)) (ota_app_info r') /\
        ota_module_boot_preprocess (sim_state unverified) = Ret OTA_MODULE_ERR_NO_BOOT_CANDIDATE s')).
Proof.
  destruct (boot_only_bootable (sim_state unverified) (seal (P := sboard) unverified))
    as (s' & r' & A & _ & O').
  - apply sim_state_ready.
  - apply sim_flash_record, unverified_wf.
  - apply one_slot_ok.
  - exists s', r'. split; [exact A|exact O'].
Defined.

Lemma verify_budget_witness :
  exists s1 s2 s3 r3,
    boot_once (reset_state (sim_flash unverified)) = Halt (JumpedTo OTA_PLATFORM_APP1_ADDR) s1 /\
    boot_once (reset_state (plat s1)) = Halt (JumpedTo OTA_PLATFORM_APP1_ADDR) s2 /\
    record_at (plat s3) r3 /\ map status (ota_app_info r3) = [OTA_APP_STATUS_INVALID].
Proof.
  destruct (verify_budget (sim_flash unverified) (seal (P := sboard) unverified) 0
    (set_verify_count 0 (set_status OTA_APP_STATUS_UNVERIFIED default_app1)))
    as (s1 & s2 & s3 & r3 & E1 & E2 & A3 & I3 & _).
  - apply sim_flash_ok.
  - apply sim_flash_record, unverified_wf.
  - apply one_slot_ok.
  - reflexivity.
  - reflexivity.
  - reflexivity.
  - exists s1, s2, s3, r3. split_and!.
    + etransitivity; [exact E1|]. vm_compute. reflexivity.
    + etransitivity; [exact E2|]. vm_compute. reflexivity.
    + exact A3.
    + rewrite I3. reflexivity.
Defined.

Lemma start_validates_witness :
  exists s', ota_module_ota_download_start (Some sim_header) (sim_state active)
      = Ret OTA_MODULE_ERR_OK s'.
Proof.
  destruct (start_validates (sim_state active) (seal (P := sboard) active) 0
    (set_verify_count 0 (set_status OTA_APP_STATUS_ACTIVE default_app1)) sim_header) as (s' & E & _).
  - apply sim_state_ready.
  - reflexivity.
  - apply sim_flash_record, active_wf.
  - reflexivity.
  - reflexivity.
  - apply slot_layout_status, default_app1_layout.
  - apply sim_header_wf.
  - vm_compute. reflexivity.
  - exists s'. exact E.
Defined.

(** An open session on the board. *)
Lemma sim_session : exists s r,
  downloading s r 0 (downloading_app default_app1) sim_header [] /\ record_ok (P := sboard) r.
Proof.
  destruct (download_start_ok (sim_state active) (seal (P := sboard) active) 0 default_app1 sim_header)
    as (s & _ & D & _).
  - apply sim_state_ready.
  - reflexivity.
  - apply sim_flash_record, active_wf.
  - reflexivity.
  - reflexivity.
  - apply default_app1_layout.
  - apply (sim_header_for OTA_APP_STATUS_ACTIVE 0).
  - eexists s, _. split; [exact D|]. constructor; [|constructor].
    apply slot_layout_status, default_app1_layout.
Qed.

Lemma chunks_in_order_witness :
  exists (s : ota_state sboard) s1 s2,
    ota_module_ota_download 3 (Some sim_body) 8 s = Ret OTA_MODULE_ERR_OFFSET_MISMATCH s1 /\
    ota_module_ota_download 0 (Some sim_body) 8 s = Ret OTA_MODULE_ERR_OK s2.
Proof.
  destruct sim_session as (s & r & D & _). exists s.
  destruct (chunks_in_order s r 0 _ sim_header [] 3 sim_body D) as (s1 & E1 & _);
    [reflexivity|repeat constructor; vm_compute; congruence|lia|reflexivity|].
  destruct (chunks_in_order s r 0 _ sim_header [] 0 sim_body D) as (s2 & E2 & _);
    [reflexivity|repeat constructor; vm_compute; congruence|lia|reflexivity|].
  exists s1, s2. split; [exact E1|exact E2].
Defined.

Lemma abort_unbootable_witness :
  exists (s : ota_state sboard) s1 r1, ota_module_ota_download_abort s = Ret OTA_MODULE_ERR_OK s1 /\
    record_at (plat s1) r1.
Proof.
  destruct sim_session as (s & r & D & Hok). exists s.
  destruct (abort_unbootable s r 0 _ sim_header [] D Hok) as (s1 & r1 & s2 & E & _ & A & _).
  exists s1, r1. split; [exact E|exact A].
Defined.

Lemma confirm_settles_witness :
  exists s1 r1, ota_module_app_mark_verified (sim_state unverified) = Ret OTA_MODULE_ERR_OK s1 /\
    record_at (plat s1) r1 /\ settled (ota_app_info unverified) (ota_app_info r1) 0.
Proof.
  destruct (confirm_settles (sim_state unverified) (seal (P := sboard) unverified) 0
    (set_verify_count 0 (set_status OTA_APP_STATUS_UNVERIFIED default_app1)))
    as (s1 & r1 & s2 & s3 & E & A & Hs & _).
  - apply sim_state_ready.
  - apply sim_flash_record, unverified_wf.
  - apply one_slot_ok.
  - reflexivity.
  - reflexivity.
  - exists s1, r1. split_and!; [exact E|exact A|exact Hs].
Defined.

Lemma boot_flag_roundtrip_witness :
  exists s1 s2, ota_module_set_boot_ymodem_flag 1 (sim_state active) = Ret OTA_MODULE_ERR_OK s1 /\
    ota_module_get_boot_ymodem_flag s1 = Ret 1 s2.
Proof.
  destruct (boot_flag_roundtrip (sim_state active) 1) as (s1 & r1 & s2 & E1 & _ & _ & E2).
  - apply sim_state_ready.
  - vm_compute. split; congruence.
  - exists s1, s2. split; [exact E1|exact E2].
Defined.

Lemma interrupted_start_boots_erased_witness :
  exists p1 s2,
    ota_module_ota_download_start (Some sim_header) (cut_state (sim_flash active))
      = Halt SystemReset (cut_state p1) /\
    boot_once (reset_state p1) = Halt (JumpedTo OTA_PLATFORM_APP1_ADDR) s2.
Proof.
  destruct (interrupted_start_boots_erased (sim_flash active) (seal (P := sboard) active) 0
    (set_verify_count 0 (set_status OTA_APP_STATUS_ACTIVE default_app1)) sim_header)
    as (p1 & s2 & E1 & _ & _ & E2).
  - apply sim_flash_ok.
  - apply sim_flash_record, active_wf.
  - apply one_slot_ok.
  - reflexivity.
  - reflexivity.
  - reflexivity.
  - reflexivity.
  - apply sim_header_for.
  - exists p1, s2. split; [exact E1|exact E2].
Defined.
