(* ===== verification/BootYmodem.v ===== *)
(** The bootloader's dual-UART Ymodem receiver
    ([boot/Core/Src/boot_ymodem.c]) and the start-up sequence of
    [boot/Core/Src/main.c].

    The two UARTs are [huart1] and [huart2] (the code's index 0 and 1).  The
    reassembly buffer of a UART is the list of the bytes it holds, so [s_sl] is
    its length; a copy whose size would go below zero is undefined behaviour.
    Reception is interrupt driven: the environment is a script of steps, each
    with the time it takes and the DMA blocks that arrive, and the code takes a
    step wherever it waits, the busy wait for the end of a transmission included
    (the counts of [tx_busy] say how long the flag stays clear).  What the code prints for diagnosis is left out. *)
From S2P Require Import Prelude FlashPort OtaModule.

(** ** Constants and data *)
Definition YM_SOH : Z := 1.
Definition YM_STX : Z := 2.
Definition YM_EOT : Z := 4.
Definition YM_ACK : Z := 6.
Definition YM_NAK : Z := 21.
Definition YM_CAN : Z := 24.
Definition YM_C : Z := 67.
Definition RX_DMA_BUF : Z := 2048.
Definition STREAM_MAX : Z := 4096.
Definition CHUNK_Q : Z := 16.
Definition T_DISC_C_MS : Z := 200.
Definition T_SESSION_MS : Z := 3000.
Definition NAK_RETRIES : Z := 20.
Definition YM_CANCEL_BURST : nat := 8.
Definition BOOT_YM_PROBE_WINDOW_MS : Z := 100.

Inductive uart : Type := huart1 | huart2.

#[export] Instance uart_eq_dec : EqDecision uart.
Proof. solve_decision. Defined.

Record rx_chunk_t : Type := mkChunk { ch_uidx : uart; ch_len : Z; ch_data : list Z }.

(** One wait of the code: how long it lasted beyond what was asked, and the
    blocks received meanwhile. *)
Record env_step : Type := mkEnv { e_ms : Z; e_rx : list (uart * list Z) }.

(** Session variables, cleared by [session_vars_clear] ([s_ota_session] by
    [ota_fail_abort]). *)
Record sess_t : Type := mkSess {
  s_sb1 : list Z;
  s_sb2 : list Z;
  s_in_filename_phase : bool;
  s_expected_seq : Z;
  s_last_acked_seq : Z;
  s_eot_count : Z;
  s_hdr_accum : list Z;
  s_hdr_accum_len : Z;
  s_hdr_done : bool;
  s_ota_offset : Z;
  s_expected_total : Z;
  s_can_count : Z;
  s_wire_tail_discard : bool;
  s_nak_streak : Z;
  s_ota_session : bool
}.

(** The link: which UART is used for the transfer, and the timers. *)
Record link_t : Type := mkLink {
  s_active : option uart;
  s_debug : uart;
  s_locked : bool;
  g_boot_debug_uart : uart;
  s_last_rx_ms : Z;
  s_last_c_ms : Z
}.

(** The chunk queue between the interrupt handler and the main loop. *)
Record rxq_t : Type := mkRxq {
  s_q : list rx_chunk_t;
  s_q_w : Z;
  s_q_r : Z;
  s_chunk_overflow : bool;
  s_chunk_ovf_uidx : uart
}.

(** The peripherals: the millisecond tick, whether reception is armed on each
    UART, the bytes sent, the steps of the environment still to come, and for
    the coming waits for the end of a transmission how many rounds the flag
    stays reset (none left: it is set). *)
Record io_t : Type := mkIo {
  tick : Z;
  armed1 : bool;
  armed2 : bool;
  tx_log : list (uart * Z);
  script : list env_step;
  tx_busy : list nat
}.

Definition set_s_sb1 (v : list Z) (r : sess_t) : sess_t :=
  mkSess v (s_sb2 r) (s_in_filename_phase r) (s_expected_seq r) (s_last_acked_seq r) (s_eot_count r) (s_hdr_accum r) (s_hdr_accum_len r) (s_hdr_done r) (s_ota_offset r) (s_expected_total r) (s_can_count r) (s_wire_tail_discard r) (s_nak_streak r) (s_ota_session r).
Definition set_s_sb2 (v : list Z) (r : sess_t) : sess_t :=
  mkSess (s_sb1 r) v (s_in_filename_phase r) (s_expected_seq r) (s_last_acked_seq r) (s_eot_count r) (s_hdr_accum r) (s_hdr_accum_len r) (s_hdr_done r) (s_ota_offset r) (s_expected_total r) (s_can_count r) (s_wire_tail_discard r) (s_nak_streak r) (s_ota_session r).
Definition set_s_in_filename_phase (v : bool) (r : sess_t) : sess_t :=
  mkSess (s_sb1 r) (s_sb2 r) v (s_expected_seq r) (s_last_acked_seq r) (s_eot_count r) (s_hdr_accum r) (s_hdr_accum_len r) (s_hdr_done r) (s_ota_offset r) (s_expected_total r) (s_can_count r) (s_wire_tail_discard r) (s_nak_streak r) (s_ota_session r).
Definition set_s_expected_seq (v : Z) (r : sess_t) : sess_t :=
  mkSess (s_sb1 r) (s_sb2 r) (s_in_filename_phase r) v (s_last_acked_seq r) (s_eot_count r) (s_hdr_accum r) (s_hdr_accum_len r) (s_hdr_done r) (s_ota_offset r) (s_expected_total r) (s_can_count r) (s_wire_tail_discard r) (s_nak_streak r) (s_ota_session r).
Definition set_s_last_acked_seq (v : Z) (r : sess_t) : sess_t :=
  mkSess (s_sb1 r) (s_sb2 r) (s_in_filename_phase r) (s_expected_seq r) v (s_eot_count r) (s_hdr_accum r) (s_hdr_accum_len r) (s_hdr_done r) (s_ota_offset r) (s_expected_total r) (s_can_count r) (s_wire_tail_discard r) (s_nak_streak r) (s_ota_session r).
Definition set_s_eot_count (v : Z) (r : sess_t) : sess_t :=
  mkSess (s_sb1 r) (s_sb2 r) (s_in_filename_phase r) (s_expected_seq r) (s_last_acked_seq r) v (s_hdr_accum r) (s_hdr_accum_len r) (s_hdr_done r) (s_ota_offset r) (s_expected_total r) (s_can_count r) (s_wire_tail_discard r) (s_nak_streak r) (s_ota_session r).
Definition set_s_hdr_accum (v : list Z) (r : sess_t) : sess_t :=
  mkSess (s_sb1 r) (s_sb2 r) (s_in_filename_phase r) (s_expected_seq r) (s_last_acked_seq r) (s_eot_count r) v (s_hdr_accum_len r) (s_hdr_done r) (s_ota_offset r) (s_expected_total r) (s_can_count r) (s_wire_tail_discard r) (s_nak_streak r) (s_ota_session r).
Definition set_s_hdr_accum_len (v : Z) (r : sess_t) : sess_t :=
  mkSess (s_sb1 r) (s_sb2 r) (s_in_filename_phase r) (s_expected_seq r) (s_last_acked_seq r) (s_eot_count r) (s_hdr_accum r) v (s_hdr_done r) (s_ota_offset r) (s_expected_total r) (s_can_count r) (s_wire_tail_discard r) (s_nak_streak r) (s_ota_session r).
Definition set_s_hdr_done (v : bool) (r : sess_t) : sess_t :=
  mkSess (s_sb1 r) (s_sb2 r) (s_in_filename_phase r) (s_expected_seq r) (s_last_acked_seq r) (s_eot_count r) (s_hdr_accum r) (s_hdr_accum_len r) v (s_ota_offset r) (s_expected_total r) (s_can_count r) (s_wire_tail_discard r) (s_nak_streak r) (s_ota_session r).
Definition set_s_ota_offset (v : Z) (r : sess_t) : sess_t :=
  mkSess (s_sb1 r) (s_sb2 r) (s_in_filename_phase r) (s_expected_seq r) (s_last_acked_seq r) (s_eot_count r) (s_hdr_accum r) (s_hdr_accum_len r) (s_hdr_done r) v (s_expected_total r) (s_can_count r) (s_wire_tail_discard r) (s_nak_streak r) (s_ota_session r).
Definition set_s_expected_total (v : Z) (r : sess_t) : sess_t :=
  mkSess (s_sb1 r) (s_sb2 r) (s_in_filename_phase r) (s_expected_seq r) (s_last_acked_seq r) (s_eot_count r) (s_hdr_accum r) (s_hdr_accum_len r) (s_hdr_done r) (s_ota_offset r) v (s_can_count r) (s_wire_tail_discard r) (s_nak_streak r) (s_ota_session r).
Definition set_s_can_count (v : Z) (r : sess_t) : sess_t :=
  mkSess (s_sb1 r) (s_sb2 r) (s_in_filename_phase r) (s_expected_seq r) (s_last_acked_seq r) (s_eot_count r) (s_hdr_accum r) (s_hdr_accum_len r) (s_hdr_done r) (s_ota_offset r) (s_expected_total r) v (s_wire_tail_discard r) (s_nak_streak r) (s_ota_session r).
Definition set_s_wire_tail_discard (v : bool) (r : sess_t) : sess_t :=
  mkSess (s_sb1 r) (s_sb2 r) (s_in_filename_phase r) (s_expected_seq r) (s_last_acked_seq r) (s_eot_count r) (s_hdr_accum r) (s_hdr_accum_len r) (s_hdr_done r) (s_ota_offset r) (s_expected_total r) (s_can_count r) v (s_nak_streak r) (s_ota_session r).
Definition set_s_nak_streak (v : Z) (r : sess_t) : sess_t :=
  mkSess (s_sb1 r) (s_sb2 r) (s_in_filename_phase r) (s_expected_seq r) (s_last_acked_seq r) (s_eot_count r) (s_hdr_accum r) (s_hdr_accum_len r) (s_hdr_done r) (s_ota_offset r) (s_expected_total r) (s_can_count r) (s_wire_tail_discard r) v (s_ota_session r).
Definition set_s_ota_session (v : bool) (r : sess_t) : sess_t :=
  mkSess (s_sb1 r) (s_sb2 r) (s_in_filename_phase r) (s_expected_seq r) (s_last_acked_seq r) (s_eot_count r) (s_hdr_accum r) (s_hdr_accum_len r) (s_hdr_done r) (s_ota_offset r) (s_expected_total r) (s_can_count r) (s_wire_tail_discard r) (s_nak_streak r) v.

Definition set_s_active (v : option uart) (r : link_t) : link_t :=
  mkLink v (s_debug r) (s_locked r) (g_boot_debug_uart r) (s_last_rx_ms r) (s_last_c_ms r).
Definition set_s_debug (v : uart) (r : link_t) : link_t :=
  mkLink (s_active r) v (s_locked r) (g_boot_debug_uart r) (s_last_rx_ms r) (s_last_c_ms r).
Definition set_s_locked (v : bool) (r : link_t) : link_t :=
  mkLink (s_active r) (s_debug r) v (g_boot_debug_uart r) (s_last_rx_ms r) (s_last_c_ms r).
Definition set_g_boot_debug_uart (v : uart) (r : link_t) : link_t :=
  mkLink (s_active r) (s_debug r) (s_locked r) v (s_last_rx_ms r) (s_last_c_ms r).
Definition set_s_last_rx_ms (v : Z) (r : link_t) : link_t :=
  mkLink (s_active r) (s_debug r) (s_locked r) (g_boot_debug_uart r) v (s_last_c_ms r).
Definition set_s_last_c_ms (v : Z) (r : link_t) : link_t :=
  mkLink (s_active r) (s_debug r) (s_locked r) (g_boot_debug_uart r) (s_last_rx_ms r) v.

Definition set_s_q (v : list rx_chunk_t) (r : rxq_t) : rxq_t :=
  mkRxq v (s_q_w r) (s_q_r r) (s_chunk_overflow r) (s_chunk_ovf_uidx r).
Definition set_s_q_w (v : Z) (r : rxq_t) : rxq_t :=
  mkRxq (s_q r) v (s_q_r r) (s_chunk_overflow r) (s_chunk_ovf_uidx r).
Definition set_s_q_r (v : Z) (r : rxq_t) : rxq_t :=
  mkRxq (s_q r) (s_q_w r) v (s_chunk_overflow r) (s_chunk_ovf_uidx r).
Definition set_s_chunk_overflow (v : bool) (r : rxq_t) : rxq_t :=
  mkRxq (s_q r) (s_q_w r) (s_q_r r) v (s_chunk_ovf_uidx r).
Definition set_s_chunk_ovf_uidx (v : uart) (r : rxq_t) : rxq_t :=
  mkRxq (s_q r) (s_q_w r) (s_q_r r) (s_chunk_overflow r) v.

Definition set_tick (v : Z) (r : io_t) : io_t :=
  mkIo v (armed1 r) (armed2 r) (tx_log r) (script r) (tx_busy r).
Definition set_armed1 (v : bool) (r : io_t) : io_t :=
  mkIo (tick r) v (armed2 r) (tx_log r) (script r) (tx_busy r).
Definition set_armed2 (v : bool) (r : io_t) : io_t :=
  mkIo (tick r) (armed1 r) v (tx_log r) (script r) (tx_busy r).
Definition set_tx_log (v : list (uart * Z)) (r : io_t) : io_t :=
  mkIo (tick r) (armed1 r) (armed2 r) v (script r) (tx_busy r).
Definition set_script (v : list env_step) (r : io_t) : io_t :=
  mkIo (tick r) (armed1 r) (armed2 r) (tx_log r) v (tx_busy r).
Definition set_tx_busy (v : list nat) (r : io_t) : io_t :=
  mkIo (tick r) (armed1 r) (armed2 r) (tx_log r) (script r) v.

(** ** What the receiver asks of the OTA module *)
Class OtaOps (O : Type) : Type := {
  oo_start : ota_package_header_t -> M O ota_module_err_t;
  oo_download : Z -> list Z -> Z -> M O ota_module_err_t;
  oo_finish : M O ota_module_err_t;
  oo_abort : M O ota_module_err_t;
  oo_set_flag : Z -> M O ota_module_err_t;
  oo_get_flag : M O Z;
  oo_boot : M O ota_module_err_t;
  oo_has_active : M O Z
}.

#[export] Instance ota_module_ops `{OtaBuild} {P : Type} : OtaOps (ota_state P) := {
  oo_start h := ota_module_ota_download_start (Some h);
  oo_download off d n := ota_module_ota_download off (Some d) n;
  oo_finish := ota_module_ota_download_finish;
  oo_abort := ota_module_ota_download_abort;
  oo_set_flag := ota_module_set_boot_ymodem_flag;
  oo_get_flag := ota_module_get_boot_ymodem_flag;
  oo_boot := ota_module_boot_preprocess;
  oo_has_active := ota_module_has_active_app_region
}.

(** CRC-16/XMODEM, bit by bit. *)
Definition ymodem_crc_bit (crc : Z) : Z :=
  if Z.testbit crc 15 then u16 (Z.lxor (Z.shiftl crc 1) 4129) else u16 (Z.shiftl crc 1).

Definition ymodem_crc_byte (crc b : Z) : Z :=
  Nat.iter 8 ymodem_crc_bit (Z.lxor crc (Z.shiftl b 8)).

Definition ymodem_crc16 (l : list Z) : Z := foldl ymodem_crc_byte 0 l.

Definition is_frame_byte (b : Z) : bool :=
  (b =? YM_SOH) || (b =? YM_STX) || (b =? YM_EOT) || (b =? YM_CAN).

Definition rx_buf_has_ymodem_frame (l : list Z) : bool := existsb is_frame_byte l.

Section Ymodem.
Context {OS : Type} `{OtaOps OS}.

Record ym : Type := mkYm {
  y_sess : sess_t;
  y_link : link_t;
  y_rxq : rxq_t;
  y_io : io_t;
  y_ota : OS
}.

Definition on_sess (f : sess_t -> sess_t) : M ym unit :=
  modify (fun y => mkYm (f (y_sess y)) (y_link y) (y_rxq y) (y_io y) (y_ota y)).
Definition on_link (f : link_t -> link_t) : M ym unit :=
  modify (fun y => mkYm (y_sess y) (f (y_link y)) (y_rxq y) (y_io y) (y_ota y)).
Definition on_rxq (f : rxq_t -> rxq_t) : M ym unit :=
  modify (fun y => mkYm (y_sess y) (y_link y) (f (y_rxq y)) (y_io y) (y_ota y)).
Definition on_io (f : io_t -> io_t) : M ym unit :=
  modify (fun y => mkYm (y_sess y) (y_link y) (y_rxq y) (f (y_io y)) (y_ota y)).
Definition set_ota (o : OS) (y : ym) : ym := mkYm (y_sess y) (y_link y) (y_rxq y) (y_io y) o.
Definition on_ota {A} (m : M OS A) : M ym A := zoom y_ota set_ota m.

Definition sess {A} (f : sess_t -> A) : M ym A := gets (fun y => f (y_sess y)).
Definition link {A} (f : link_t -> A) : M ym A := gets (fun y => f (y_link y)).
Definition rxq {A} (f : rxq_t -> A) : M ym A := gets (fun y => f (y_rxq y)).
Definition HAL_GetTick : M ym Z := gets (fun y => tick (y_io y)).

(** *** Transmission *)
Definition HAL_UART_Transmit (u : uart) (b : Z) : M ym unit :=
  on_io (fun r => set_tx_log (tx_log r ++ [(u, b)]) r).

Definition tx_byte (hu : option uart) (b : Z) : M ym unit :=
  match hu with None => mret tt | Some u => HAL_UART_Transmit u b end.

Definition send_ack : M ym unit := hu ← link s_active; tx_byte hu YM_ACK.
Definition send_nak : M ym unit := hu ← link s_active; tx_byte hu YM_NAK.

Definition send_c_discovery : M ym unit :=
  locked ← link s_locked;
  if negb locked : bool then HAL_UART_Transmit huart1 YM_C;; HAL_UART_Transmit huart2 YM_C
  else
    hu ← link s_active;
    tx_byte hu YM_C.

(** *** Reception *)
Definition armed (u : uart) (r : io_t) : bool :=
  match u with huart1 => armed1 r | huart2 => armed2 r end.
Definition set_armed (u : uart) (v : bool) (r : io_t) : io_t :=
  match u with huart1 => set_armed1 v r | huart2 => set_armed2 v r end.

(** The driver refuses to start a reception that is already running. *)
Definition HAL_UARTEx_ReceiveToIdle_DMA (u : uart) : M ym bool :=
  a ← gets (fun y => armed u (y_io y));
  if a : bool then mret false else on_io (set_armed u true);; mret true.
Definition HAL_UART_AbortReceive (u : uart) : M ym unit := on_io (set_armed u false).

Definition abort_rx_inactive : M ym unit :=
  hu ← link s_active;
  match hu with
  | Some huart1 => HAL_UART_AbortReceive huart2
  | Some huart2 => HAL_UART_AbortReceive huart1
  | None => mret tt
  end.

Definition start_rx_dma_one (u : uart) : M ym unit :=
  ok ← HAL_UARTEx_ReceiveToIdle_DMA u;
  if ok : bool then mret tt
  else HAL_UART_AbortReceive u;; HAL_UARTEx_ReceiveToIdle_DMA u;; mret tt.

Definition start_rx_dma_both : M ym unit :=
  on_link (fun r => set_g_boot_debug_uart huart1 (set_s_debug huart1
                      (set_s_active None (set_s_locked false r))));;
  HAL_UART_AbortReceive huart1;;
  HAL_UART_AbortReceive huart2;;
  start_rx_dma_one huart1;;
  start_rx_dma_one huart2.

Definition should_listen (u : uart) : M ym bool :=
  locked ← link s_locked;
  if negb locked : bool then mret true
  else hu ← link s_active; mret (bool_decide (hu = Some u)).

(** [true] is the return value 0. *)
Definition rx_sm_enqueue (u : uart) (p : list Z) (len : Z) : M ym bool :=
  q ← gets y_rxq;
  let nw := (s_q_w q + 1) mod CHUNK_Q in
  if nw =? s_q_r q then mret false
  else
    on_rxq (fun q => set_s_q_w nw
      (set_s_q (<[Z.to_nat (s_q_w q) := mkChunk u len (take (Z.to_nat (Z.min len RX_DMA_BUF)) p)]>
                  (s_q q)) q));;
    mret true.

(** [buf] is the DMA buffer of the UART, of which [Size] bytes are new. *)
Definition HAL_UARTEx_RxEventCallback (u : uart) (buf : list Z) (Size : Z) : M ym unit :=
  let Size := if RX_DMA_BUF <? Size then RX_DMA_BUF else Size in
  listen ← should_listen u;
  (if (0 <? Size) && (rx_buf_has_ymodem_frame (take (Z.to_nat Size) buf) || listen)
   then now ← HAL_GetTick; on_link (set_s_last_rx_ms now)
   else mret tt);;
  if negb listen then start_rx_dma_one u
  else
    ok ← rx_sm_enqueue u buf Size;
    if negb ok then
      on_rxq (fun q => set_s_chunk_overflow true (set_s_chunk_ovf_uidx u q));;
      HAL_UART_AbortReceive u
    else start_rx_dma_one u.

(** The DMA is stopped when the callback runs, and must be restarted by it. *)
Definition deliver (rx : uart * list Z) : M ym unit :=
  a ← gets (fun y => armed (fst rx) (y_io y));
  if a : bool then
    on_io (set_armed (fst rx) false);;
    HAL_UARTEx_RxEventCallback (fst rx) (snd rx) (zlen (snd rx))
  else mret tt.

Fixpoint deliver_all (l : list (uart * list Z)) : M ym unit :=
  match l with
  | [] => mret tt
  | rx :: l' => deliver rx;; deliver_all l'
  end.

(** A wait of [ms] milliseconds takes the next step of the environment. *)
Definition HAL_Delay (ms : Z) : M ym unit :=
  sc ← gets (fun y => script (y_io y));
  match sc with
  | [] => on_io (fun r => set_tick (tick r +u ms) r)
  | e :: sc' =>
      on_io (fun r => set_script sc' (set_tick (u32 (tick r + ms + e_ms e)) r));;
      deliver_all (e_rx e)
  end.

(** [__HAL_UART_GET_FLAG(hu, UART_FLAG_TC) == RESET]; each look at the flag
    counts, and a set flag ends this wait's count. *)
Definition uart_tc_reset : M ym bool :=
  l ← gets (fun y => tx_busy (y_io y));
  match l with
  | S n :: l' => on_io (set_tx_busy (n :: l'));; mret true
  | O :: l' => on_io (set_tx_busy l');; mret false
  | [] => mret false
  end.

(** The busy wait; a round stands for the looks within one millisecond, during
    which the environment may take a step. *)
Fixpoint tc_loop (fuel : nat) (t0 : Z) : M ym unit :=
  match fuel with
  | O => fun _ => NoFuel
  | S f =>
      reset ← uart_tc_reset;
      if reset : bool then
        now ← HAL_GetTick;
        if 40 <? now -u t0 then mret tt
        else HAL_Delay 1;; tc_loop f t0
      else mret tt
  end.

(** One round per step the environment has left, then at most 42 of one
    millisecond each. *)
Definition uart_wait_tx_line_done (hu : option uart) : M ym unit :=
  match hu with
  | None => mret tt
  | Some _ =>
      t0 ← HAL_GetTick;
      n ← gets (fun y => length (script (y_io y)));
      tc_loop (n + 43) t0;;
      HAL_Delay 10
  end.

Fixpoint repeatM (n : nat) (m : M ym unit) : M ym unit :=
  match n with O => mret tt | S n' => m;; repeatM n' m end.

Definition send_ymodem_cancel_on (hu : option uart) : M ym unit :=
  match hu with
  | None => mret tt
  | Some _ => repeatM YM_CANCEL_BURST (tx_byte hu YM_CAN);; uart_wait_tx_line_done hu
  end.

Definition send_ymodem_cancel : M ym unit := hu ← link s_active; send_ymodem_cancel_on hu.

(** *** Session *)
Definition ota_fail_abort : M ym unit :=
  on ← sess s_ota_session;
  if on : bool then on_ota oo_abort;; on_sess (set_s_ota_session false) else mret tt.

Definition session_vars_clear : M ym unit :=
  on_sess (fun r => mkSess [] [] false 0 255 0 (replicate sizeof_header 0) 0 false 0 0 0 false 0
                      (s_ota_session r));;
  ota_fail_abort.

Definition full_reset : M ym unit :=
  ota_fail_abort;;
  session_vars_clear;;
  now ← HAL_GetTick;
  on_link (fun r => set_s_last_rx_ms now (set_s_last_c_ms now
             (set_g_boot_debug_uart huart1 (set_s_active None (set_s_locked false r)))));;
  on_rxq (fun q => set_s_chunk_ovf_uidx huart1 (set_s_chunk_overflow false
             (set_s_q_w 0 (set_s_q_r 0 q))));;
  start_rx_dma_both.

Definition stream (u : uart) (r : sess_t) : list Z :=
  match u with huart1 => s_sb1 r | huart2 => s_sb2 r end.
Definition set_stream (u : uart) (l : list Z) (r : sess_t) : sess_t :=
  match u with huart1 => set_s_sb1 l r | huart2 => set_s_sb2 l r end.
Definition other (u : uart) : uart := match u with huart1 => huart2 | huart2 => huart1 end.

Definition lock_ports (u : uart) : M ym unit :=
  on_link (fun r => set_g_boot_debug_uart (other u) (set_s_debug (other u)
                      (set_s_active (Some u) (set_s_locked true r))));;
  on_sess (fun r => set_s_eot_count 0 (set_s_in_filename_phase true (set_s_expected_seq 0
                      (set_stream (other u) [] r))));;
  abort_rx_inactive.

(** One round of the loop of [append_file_payload] on the payload bytes [p]
    not consumed yet: [Some rest] to go on with [rest], [None] to leave. *)
Definition payload_step (p : list Z) : M ym (option (list Z)) :=
  r ← gets y_sess;
  if negb (s_hdr_done r) then
    let need := u16 (Z.of_nat sizeof_header - s_hdr_accum_len r) in
    let k := Z.min (zlen p) need in
    let acc := memcpy_at (Z.to_nat (s_hdr_accum_len r)) (take (Z.to_nat k) p) (s_hdr_accum r) in
    let alen := u16 (s_hdr_accum_len r + k) in
    on_sess (fun r => set_s_hdr_accum acc (set_s_hdr_accum_len alen r));;
    if Z.of_nat sizeof_header <=? alen then
      let hdr := dec_header acc in
      rc ← on_ota (oo_start hdr);
      if negb (err_ok rc) then on_sess (set_s_nak_streak NAK_RETRIES);; mret None
      else
        on_sess (set_s_ota_session true);;
        rc ← on_ota (oo_download 0 acc (Z.of_nat sizeof_header));
        if negb (err_ok rc) then on_sess (set_s_nak_streak NAK_RETRIES);; mret None
        else
          on_sess (fun r => set_s_hdr_done true (set_s_ota_offset (Z.of_nat sizeof_header)
                     (set_s_expected_total (app_offset hdr +u app_size hdr) r)));;
          mret (Some (drop (Z.to_nat k) p))
    else mret (Some (drop (Z.to_nat k) p))
  else
    let remain := if s_ota_offset r <=? s_expected_total r
                  then s_expected_total r - s_ota_offset r else 0 in
    if remain =? 0 then mret None
    else
      let chunk := if remain <? zlen p then u16 remain else zlen p in
      rc ← on_ota (oo_download (s_ota_offset r) (take (Z.to_nat chunk) p) chunk);
      if negb (err_ok rc) then on_sess (set_s_nak_streak NAK_RETRIES);; mret None
      else
        on_sess (fun r => set_s_ota_offset (s_ota_offset r +u chunk) r);;
        mret (Some (drop (Z.to_nat chunk) p)).

Fixpoint payload_loop (fuel : nat) (p : list Z) : M ym unit :=
  match p with
  | [] => mret tt
  | _ =>
      match fuel with
      | O => fun _ => NoFuel
      | S fuel' =>
          next ← payload_step p;
          match next with None => mret tt | Some rest => payload_loop fuel' rest end
      end
  end.

(** Every round takes a byte of the payload, except the one that completes the
    header with nothing left to add. *)
Definition append_file_payload (p : list Z) : M ym unit := payload_loop (length p + 1) p.

Definition handle_data_block (seq : Z) (payload : list Z) : M ym unit :=
  r ← gets y_sess;
  if negb (seq =? s_expected_seq r) then
    if seq =? s_last_acked_seq r then send_ack
    else
      send_nak;;
      let streak := u8 (s_nak_streak r + 1) in
      on_sess (set_s_nak_streak streak);;
      if NAK_RETRIES <? streak then send_ymodem_cancel;; full_reset else mret tt
  else if s_in_filename_phase r then
    on_sess (fun r => set_s_last_acked_seq seq (set_s_expected_seq 1
                        (set_s_in_filename_phase false r)));;
    send_ack;;
    on_sess (set_s_nak_streak 0)
  else
    append_file_payload payload;;
    streak ← sess s_nak_streak;
    if NAK_RETRIES <=? streak then send_ymodem_cancel;; full_reset
    else
      on_sess (fun r => set_s_expected_seq (u8 (seq + 1)) (set_s_last_acked_seq seq r));;
      send_ack;;
      on_sess (set_s_nak_streak 0).

(** [memmove(buf, buf + n, *plen - n); *plen -= n]. *)
Definition consume (u : uart) (n : nat) : M ym unit :=
  l ← sess (stream u);
  if (length l <? n)%nat then undef else on_sess (set_stream u (drop n l)).

(** Bytes before the first frame byte. *)
Fixpoint skip_garbage (l : list Z) : nat :=
  match l with
  | [] => 0
  | b :: l' => if is_frame_byte b then 0 else S (skip_garbage l')
  end.

Definition data_len (st : Z) : nat := if st =? YM_SOH then 128 else 1024.
Definition frame_len (st : Z) : nat := (1 + 1 + 1 + data_len st + 2)%nat.

(** A complete frame at the head of the buffer. *)
Definition frame_body (u : uart) (l : list Z) : M ym unit :=
  let st := nthz l 0 in
  let seq := nthz l 1 in
  let nseq := nthz l 2 in
  locked ← link s_locked;
  if negb (u8 (seq + nseq) =? 255) then
    consume u 1;;
    if locked : bool then send_nak else mret tt
  else
    let pay := sub 3 (data_len st) l in
    let crc_rx := u16 (Z.lor (Z.shiftl (nthz l (3 + Z.of_nat (data_len st))) 8)
                             (nthz l (4 + Z.of_nat (data_len st)))) in
    let crc_ok := ymodem_crc16 pay in
    if negb (crc_rx =? crc_ok) then
      consume u 1;;
      if locked : bool then
        send_nak;;
        streak ← sess (fun r => u8 (s_nak_streak r + 1));
        on_sess (set_s_nak_streak streak);;
        if NAK_RETRIES <? streak then send_ymodem_cancel;; full_reset else mret tt
      else mret tt
    else
      r ← gets y_sess;
      if (st =? YM_SOH) && (seq =? 0) && (nthz pay 0 =? 0) && s_hdr_done r && (2 <=? s_eot_count r)
      then
        (if negb locked then lock_ports u else mret tt);;
        send_ack;;
        consume u (frame_len st)
      else
        (if negb locked then lock_ports u else mret tt);;
        handle_data_block seq pay;;
        consume u (frame_len st).

(** One round of the loop of [try_consume_frame]; [true] to loop again. *)
Definition frame_step (handle_eot : uart -> M ym unit) (u : uart) : M ym bool :=
  l ← sess (stream u);
  on_sess (set_stream u (drop (skip_garbage l) l));;
  let l := drop (skip_garbage l) l in
  lk ← gets y_link;
  match l with
  | [] => mret false
  | b0 :: _ =>
      if s_locked lk && negb (bool_decide (s_active lk = Some u)) then
        on_sess (set_stream u []);; mret false
      else if b0 =? YM_CAN then
        discard ← sess s_wire_tail_discard;
        if discard : bool then consume u 1;; mret true
        else
          on_sess (fun r => set_s_can_count (u8 (s_can_count r + 1)) r);;
          consume u 1;;
          cc ← sess s_can_count;
          (if 2 <=? cc then full_reset else mret tt);;
          mret true
      else
        on_sess (set_s_can_count 0);;
        if b0 =? YM_EOT then
          consume u 1;;
          discard ← sess s_wire_tail_discard;
          (if discard : bool then mret tt else handle_eot u);;
          mret true
        else if (length l <? frame_len b0)%nat then mret false
        else frame_body u l;; mret true
  end.

(** The second EOT: acknowledge, take the closing frame, finish and boot. *)
Definition second_eot (drain : M ym unit) (consume_frames : M ym unit) : M ym unit :=
  on_sess (set_s_eot_count 2);;
  send_ack;;
  hu ← link s_active;
  uart_wait_tx_line_done hu;;
  send_c_discovery;;
  HAL_Delay 15;;
  drain;;
  consume_frames;;
  hu ← link s_active;
  tx_byte hu 79;;
  uart_wait_tx_line_done hu;;
  on_sess (fun r => set_s_wire_tail_discard true (set_s_can_count 0 r));;
  drain;;
  consume_frames;;
  r ← gets y_sess;
  (if s_ota_session r && s_hdr_done r then
     fin ← on_ota oo_finish;
     if err_ok fin then
       on_ota (oo_set_flag 0);;
       on_sess (set_s_ota_session false);;
       on_ota oo_boot;;
       mret tt
     else
       on_ota oo_abort;;
       on_sess (set_s_ota_session false)
   else mret tt);;
  full_reset.

Definition handle_eot_with (drain : M ym unit) (consume_frames : M ym unit) : M ym unit :=
  lk ← gets y_link;
  if negb (s_locked lk) || bool_decide (s_active lk = None) then mret tt
  else
    n ← sess s_eot_count;
    if n =? 0 then send_nak;; on_sess (set_s_eot_count 1)
    else if 2 <=? n then mret tt
    else second_eot drain consume_frames.

(** Reassembly: a block that would not fit cancels the transfer. *)
Definition append_stream_with (consume_frames : uart -> M ym unit) (u : uart) (p : list Z) (len : Z)
  : M ym unit :=
  l ← sess (stream u);
  if STREAM_MAX <? zlen l + len then
    hu ← link s_active;
    send_ymodem_cancel_on (Some (default u hu));;
    full_reset
  else if zlen p <? len then undef
  else
    on_sess (set_stream u (l ++ take (Z.to_nat len) p));;
    consume_frames u.

(** The functions of the receiver call each other: a frame loop runs the EOT
    handler, which drains the queue and runs the frame loop again.  [fuel]
    bounds the rounds; every round takes a byte, a queued block or a step of the
    environment. *)
Fixpoint try_consume_frame (fuel : nat) (u : uart) {struct fuel} : M ym unit :=
  match fuel with
  | O => fun _ => NoFuel
  | S f =>
      l ← sess (stream u);
      match l with
      | [] => mret tt
      | _ =>
          again ← frame_step (handle_eot f) u;
          if again : bool then try_consume_frame f u else mret tt
      end
  end
with handle_eot (fuel : nat) (u : uart) {struct fuel} : M ym unit :=
  match fuel with
  | O => fun _ => NoFuel
  | S f => handle_eot_with (drain_chunks f) (try_consume_frame f u)
  end
with drain_chunks (fuel : nat) {struct fuel} : M ym unit :=
  match fuel with
  | O => fun _ => NoFuel
  | S f =>
      q ← gets y_rxq;
      if s_chunk_overflow q then
        hu ← link s_active;
        send_ymodem_cancel_on (Some (default (s_chunk_ovf_uidx q) hu));;
        full_reset
      else drain_loop f
  end
with drain_loop (fuel : nat) {struct fuel} : M ym unit :=
  match fuel with
  | O => fun _ => NoFuel
  | S f =>
      q ← gets y_rxq;
      if s_q_r q =? s_q_w q then mret tt
      else
        match s_q q !! Z.to_nat (s_q_r q) with
        | None => undef
        | Some ch =>
            on_rxq (fun q => set_s_q_r ((s_q_r q + 1) mod CHUNK_Q) q);;
            listen ← should_listen (ch_uidx ch);
            (if listen : bool
             then append_stream_with (try_consume_frame f) (ch_uidx ch) (ch_data ch) (ch_len ch)
             else mret tt);;
            drain_loop f
        end
  end.

(** ** Entry points *)
Definition boot_ymodem_init : M ym unit :=
  on_link (set_g_boot_debug_uart huart1);;
  session_vars_clear;;
  on_rxq (fun q => set_s_chunk_ovf_uidx huart1 (set_s_chunk_overflow false
                     (set_s_q_r 0 (set_s_q_w 0 q))));;
  now ← HAL_GetTick;
  on_link (fun r => set_s_last_rx_ms now (set_s_last_c_ms now r));;
  start_rx_dma_both;;
  send_c_discovery.

(** The window of one probe round: [Some 0] when the host has answered. *)
Fixpoint probe_window (fuel : nat) (drain_fuel : nat) (t0 : Z) : M ym bool :=
  match fuel with
  | O => fun _ => NoFuel
  | S f =>
      now ← HAL_GetTick;
      if (now -u t0) <? BOOT_YM_PROBE_WINDOW_MS then
        drain_chunks drain_fuel;;
        lk ← link s_locked;
        r ← gets y_sess;
        if (lk : bool) || (0 <? zlen (s_sb1 r)) || (0 <? zlen (s_sb2 r)) then mret true
        else HAL_Delay 1;; probe_window f drain_fuel t0
      else mret false
  end.

Fixpoint probe_rounds (fuel drain_fuel n : nat) : M ym bool :=
  match n with
  | O => mret false
  | S n' =>
      send_c_discovery;;
      now ← HAL_GetTick;
      on_link (set_s_last_c_ms now);;
      t0 ← HAL_GetTick;
      hit ← probe_window fuel drain_fuel t0;
      if hit : bool then mret true else probe_rounds fuel drain_fuel n'
  end.

Definition boot_ymodem_probe (fuel drain_fuel : nat) (discovery_rounds : Z) : M ym Z :=
  if discovery_rounds =? 0 then mret (-1)
  else
    hit ← probe_rounds fuel drain_fuel (Z.to_nat discovery_rounds);
    if hit : bool then mret 0
    else
      now ← HAL_GetTick;
      on_link (fun r => set_s_last_c_ms now (set_s_last_rx_ms now r));;
      mret (-1).

Definition boot_ymodem_poll (fuel : nat) : M ym unit :=
  drain_chunks fuel;;
  now ← HAL_GetTick;
  lk ← gets y_link;
  (if T_DISC_C_MS <=? (now -u s_last_c_ms lk) then
     (if negb (s_locked lk) then send_c_discovery else mret tt);;
     on_link (set_s_last_c_ms now)
   else mret tt);;
  let idle_dt := s32 (now - s_last_rx_ms lk) in
  if (0 <=? idle_dt) && (T_SESSION_MS <=? idle_dt) then
    (if s_locked lk then send_ymodem_cancel else mret tt);;
    act ← on_ota oo_has_active;
    if negb (act =? 0) then halt SystemReset else full_reset
  else mret tt.

Definition HAL_UART_ErrorCallback (u : uart) : M ym unit := start_rx_dma_one u.
End Ymodem.
Arguments ym OS : clear implicits.
