(* ===== verification/YmodemLaws.v ===== *)
(** Lemmas on the Ymodem receiver: the CRC, the chunk queue as a FIFO, and the
    measure that bounds the rounds of its mutually recursive loops. *)
From S2P Require Import Prelude FlashPort OtaModule BootYmodem.

(** ** CRC-16 *)
Lemma ymodem_crc_bit_range c : 0 <= ymodem_crc_bit c < 65536.
Proof. unfold ymodem_crc_bit. destruct (Z.testbit _ _); apply u16_range. Qed.

Lemma ymodem_crc_byte_range c b : 0 <= ymodem_crc_byte c b < 65536.
Proof. unfold ymodem_crc_byte. cbn [Nat.iter]. apply ymodem_crc_bit_range. Qed.

Lemma ymodem_crc16_range l : 0 <= ymodem_crc16 l < 65536.
Proof.
  unfold ymodem_crc16. assert (G : forall c, 0 <= c < 65536 -> 0 <= foldl ymodem_crc_byte c l < 65536).
  { induction l as [|b l IH]; intros c Hc; [done|]. cbn [foldl]. apply IH, ymodem_crc_byte_range. }
  by apply G.
Qed.

(** Shifting a low byte out: no feedback for eight rounds. *)
Lemma crc_low_byte lo : 0 <= lo < 256 -> Nat.iter 8 ymodem_crc_bit lo = lo * 256.
Proof.
  intros H. assert (E : forallb (fun n => Nat.iter 8 ymodem_crc_bit (Z.of_nat n) =? Z.of_nat n * 256)
                         (seq 0 256) = true) by (vm_compute; reflexivity).
  rewrite forallb_forall in E. specialize (E (Z.to_nat lo)). rewrite Z2Nat.id in E by lia.
  apply Z.eqb_eq, E, in_seq. lia.
Qed.

Lemma crc_strip_high c : 0 <= c < 65536 -> Z.lxor c (Z.shiftl (c / 256) 8) = c mod 256.
Proof.
  intros H. apply Z.bits_inj'. intros n Hn. rewrite Z.lxor_spec, Z.shiftl_spec by lia.
  change 256 with (2 ^ 8). destruct (Z_lt_le_dec n 8).
  - rewrite Z.mod_pow2_bits_low, (Z.testbit_neg_r _ (n - 8)) by lia. apply xorb_false_r.
  - rewrite Z.mod_pow2_bits_high, Z.div_pow2_bits by lia. replace (n - 8 + 8) with n by lia.
    apply xorb_nilpotent.
Qed.

(** The two CRC bytes of a frame, most significant first. *)
Definition crc_bytes (l : list Z) : list Z := [ymodem_crc16 l / 256; ymodem_crc16 l mod 256].

Lemma crc_residue l : ymodem_crc16 (l ++ crc_bytes l) = 0.
Proof.
  pose proof (ymodem_crc16_range l) as Hr. unfold crc_bytes, ymodem_crc16 in *. rewrite foldl_app.
  cbn [foldl]. set (c := foldl ymodem_crc_byte 0 l) in *. unfold ymodem_crc_byte at 2.
  rewrite crc_strip_high, crc_low_byte by lia. unfold ymodem_crc_byte.
  rewrite Z.shiftl_mul_pow2 by lia. change (2 ^ 8) with 256. by rewrite Z.lxor_nilpotent.
Qed.

(** ** The chunk queue *)

(** Well-formed indices over the sixteen slots. *)
Record rxq_wf (q : rxq_t) : Prop := mkRxqWf {
  qw_slots : length (s_q q) = 16%nat;
  qw_w : 0 <= s_q_w q < 16;
  qw_r : 0 <= s_q_r q < 16
}.

(** The blocks between the read and the write index, oldest first. *)
Definition pending_count (q : rxq_t) : nat := Z.to_nat ((s_q_w q - s_q_r q) mod 16).
Definition chunk_zero : rx_chunk_t := mkChunk huart1 0 [].
Definition slot_at (q : rxq_t) (i : Z) : rx_chunk_t := nth (Z.to_nat (i mod 16)) (s_q q) chunk_zero.
Definition fifo (q : rxq_t) : list rx_chunk_t :=
  map (fun k => slot_at q (s_q_r q + Z.of_nat k)) (seq 0 (pending_count q)).

Lemma fifo_nil q : rxq_wf q -> s_q_r q = s_q_w q <-> fifo q = [].
Proof.
  intros [_ Hw Hr]. unfold fifo, pending_count. split; intros E.
  - by rewrite E, Z.sub_diag.
  - apply map_eq_nil in E. destruct (Z.to_nat ((s_q_w q - s_q_r q) mod 16)) eqn:En; [|done]. lia.
Qed.

Definition enqueued (c : rx_chunk_t) (q : rxq_t) : rxq_t :=
  set_s_q_w ((s_q_w q + 1) mod CHUNK_Q) (set_s_q (<[Z.to_nat (s_q_w q) := c]> (s_q q)) q).
Definition dequeued (q : rxq_t) : rxq_t := set_s_q_r ((s_q_r q + 1) mod CHUNK_Q) q.

Lemma enqueued_wf c q : rxq_wf q -> rxq_wf (enqueued c q).
Proof. intros [A B C]. split; cbn; unfold CHUNK_Q; try lia. by rewrite length_insert. Qed.

Lemma dequeued_wf q : rxq_wf q -> rxq_wf (dequeued q).
Proof. intros [A B C]. split; cbn; unfold CHUNK_Q; lia. Qed.

Lemma fifo_enqueued c q :
  rxq_wf q -> (s_q_w q + 1) mod CHUNK_Q <> s_q_r q -> fifo (enqueued c q) = fifo q ++ [c].
Proof.
  intros [Hl Hw Hr] Hfull. unfold CHUNK_Q in Hfull. unfold fifo.
  assert (Hn : pending_count (enqueued c q) = S (pending_count q)).
  { unfold pending_count. cbn. unfold CHUNK_Q. lia. }
  rewrite Hn, seq_S, map_app. cbn [map Nat.add]. f_equal.
  - apply map_ext_in. intros k Hk%in_seq. unfold slot_at, pending_count in *. cbn [s_q enqueued set_s_q_w set_s_q s_q_r].
    apply nth_lookup_Some. rewrite list_lookup_insert_ne by lia.
    destruct (s_q q !! Z.to_nat ((s_q_r q + Z.of_nat k) mod 16)) as [x|] eqn:E.
    + by rewrite (nth_lookup_Some _ _ _ _ E).
    + apply lookup_ge_None in E. lia.
  - f_equal. unfold slot_at, pending_count. cbn [s_q enqueued set_s_q_w set_s_q s_q_r].
    apply nth_lookup_Some.
    replace (Z.to_nat ((s_q_r q + Z.of_nat (Z.to_nat ((s_q_w q - s_q_r q) mod 16))) mod 16))
      with (Z.to_nat (s_q_w q)) by (f_equal; lia).
    apply list_lookup_insert_eq. lia.
Qed.

Lemma fifo_dequeued q :
  rxq_wf q -> s_q_r q <> s_q_w q ->
  exists c, s_q q !! Z.to_nat (s_q_r q) = Some c /\ fifo q = c :: fifo (dequeued q).
Proof.
  intros [Hl Hw Hr] Hne.
  destruct (s_q q !! Z.to_nat (s_q_r q)) as [c|] eqn:E; [|apply lookup_ge_None in E; lia].
  exists c. split; [done|]. unfold fifo.
  assert (Hn : pending_count q = S (pending_count (dequeued q))).
  { unfold pending_count. cbn. unfold CHUNK_Q. lia. }
  rewrite Hn. cbn [seq map]. f_equal.
  - unfold slot_at. replace ((s_q_r q + Z.of_nat 0) mod 16) with (s_q_r q) by lia.
    by apply nth_lookup_Some.
  - rewrite <- seq_shift, map_map. apply map_ext. intros k. unfold slot_at. cbn. unfold CHUNK_Q.
    f_equal. f_equal. lia.
Qed.

(** ** Bounded work

    [runs m Q y]: started in [y], [m] does not run out of fuel, and [Q] holds of
    what it returns, if it returns. *)
Definition runs {S A} (m : M S A) (Q : A -> S -> Prop) (s : S) : Prop :=
  match m s with Ret a s' => Q a s' | NoFuel => False | _ => True end.

Lemma runs_bind {S A B} (m : M S A) (f : A -> M S B) Q s :
  runs m (fun a s' => runs (f a) Q s') s -> runs (m ≫= f) Q s.
Proof. unfold runs, mbind, M_bind. by destruct (m s). Qed.

Lemma runs_mono {S A} (m : M S A) (Q Q' : A -> S -> Prop) s :
  runs m Q s -> (forall a s', Q a s' -> Q' a s') -> runs m Q' s.
Proof. unfold runs. destruct (m s); auto. Qed.

(** The OTA module always comes back, and keeps its own invariant. *)
Class OtaOpsTotal (OS : Type) `{OtaOps OS} : Type := {
  oo_inv : OS -> Prop;
  start_total h o : oo_inv o -> runs (oo_start h) (fun _ => oo_inv) o;
  download_total off d n o : oo_inv o -> runs (oo_download off d n) (fun _ => oo_inv) o;
  finish_total o : oo_inv o -> runs oo_finish (fun _ => oo_inv) o;
  abort_total o : oo_inv o -> runs oo_abort (fun _ => oo_inv) o;
  set_flag_total f o : oo_inv o -> runs (oo_set_flag f) (fun _ => oo_inv) o;
  boot_total o : oo_inv o -> runs oo_boot (fun _ => oo_inv) o;
  has_active_total o : oo_inv o -> runs oo_has_active (fun _ => oo_inv) o
}.

Section Bound.
Context {OS : Type} `{OtaOpsTotal OS}.
Implicit Types y : ym OS.

Definition chunk_weight (c : rx_chunk_t) : nat := S (length (ch_data c)).
Definition rx_weight (rx : uart * list Z) : nat := S (length (snd rx)).
Definition total_weight {A} (w : A -> nat) (l : list A) : nat := foldr (fun x n => (w x + n)%nat) 0%nat l.

Lemma total_weight_app {A} (w : A -> nat) l k :
  total_weight w (l ++ k) = (total_weight w l + total_weight w k)%nat.
Proof. induction l as [|x l IH]; [done|]. cbn. fold (total_weight w (l ++ k)) (total_weight w l). lia. Qed.

(** Bytes in the reassembly buffers, in the queue and still to come; a queued
    block and a block to come count one more. *)
Definition work y : nat :=
  (length (s_sb1 (y_sess y)) + length (s_sb2 (y_sess y)) + total_weight chunk_weight (fifo (y_rxq y))
   + total_weight (fun e => total_weight rx_weight (e_rx e)) (script (y_io y)))%nat.

Definition sess_wf (r : sess_t) : Prop := 0 <= s_hdr_accum_len r <= 56.
Definition ym_wf y : Prop := rxq_wf (y_rxq y) /\ sess_wf (y_sess y) /\ oo_inv (y_ota y).

(** [m] adds no work. *)
Definition calm {A} (m : M (ym OS) A) : Prop :=
  forall y, ym_wf y -> runs m (fun _ y' => ym_wf y' /\ (work y' <= work y)%nat) y.

Lemma calm_ret {A} (a : A) : calm (mret a).
Proof. intros y Hy. split; [done|lia]. Qed.

Lemma calm_bind {A B} (m : M (ym OS) A) (f : A -> M (ym OS) B) :
  calm m -> (forall a, calm (f a)) -> calm (m ≫= f).
Proof.
  intros Hm Hf y Hy. apply runs_bind. eapply runs_mono; [by apply Hm|].
  intros a y1 [Hy1 Hw1]. eapply runs_mono; [by apply Hf|]. intros b y2 [Hy2 Hw2]. split; [done|lia].
Qed.

Lemma calm_gets {A} (f : ym OS -> A) : calm (gets f).
Proof. intros y Hy. split; [done|cbn; lia]. Qed.

Lemma calm_undef {A} : calm (A := A) undef.
Proof. by intros y Hy. Qed.

Lemma calm_sess f :
  (forall r, sess_wf r -> sess_wf (f r) /\
     (length (s_sb1 (f r)) + length (s_sb2 (f r)) <= length (s_sb1 r) + length (s_sb2 r))%nat) ->
  calm (on_sess f).
Proof.
  intros Hf y (Hq & Hs & Ho). destruct (Hf (y_sess y) Hs). split; [by split_and!|]. unfold work. cbn. lia.
Qed.

Lemma calm_link f : calm (on_link f).
Proof. intros y Hy. split; [done|]. unfold work. cbn. lia. Qed.

Lemma calm_io f : (forall r, script (f r) = script r) -> calm (on_io f).
Proof. intros Hf y Hy. split; [done|]. unfold work. cbn. rewrite Hf. lia. Qed.

Lemma calm_rxq f :
  (forall q, rxq_wf q -> rxq_wf (f q) /\
     (total_weight chunk_weight (fifo (f q)) <= total_weight chunk_weight (fifo q))%nat) ->
  calm (on_rxq f).
Proof. intros Hf y (Hq & Hs & Ho). destruct (Hf _ Hq). split; [by split_and!|]. unfold work. cbn. lia. Qed.

Lemma calm_ota {A} (m : M OS A) :
  (forall o, oo_inv o -> runs m (fun _ => oo_inv) o) -> calm (on_ota m).
Proof.
  intros Hm y (Hq & Hs & Ho). specialize (Hm (y_ota y) Ho). unfold runs, on_ota, zoom in *.
  destruct (m (y_ota y)); auto. split; [by split_and!|]. unfold work. cbn. lia.
Qed.
End Bound.

Create HintDb calm.
#[export] Hint Resolve calm_ret calm_gets calm_undef calm_link start_total download_total finish_total
  abort_total set_flag_total boot_total has_active_total : calm.

(** [calms] follows the structure of a program, leaving what it does not know. *)
Ltac calms := repeat first
  [ progress intros
  | solve [auto with calm nocore] | apply calm_bind
  | apply calm_io; by (intros []; unfold set_armed; cbn; repeat case_match)
  | apply calm_sess; intros []; unfold sess_wf; cbn; lia
  | apply calm_ota; solve [auto with calm nocore]
  | match goal with
    | |- calm (if ?b then _ else _) => destruct b
    | |- calm (match ?x with _ => _ end) => destruct x
    end
  | progress cbv zeta ].

Section Calm.
Context {OS : Type} `{OtaOpsTotal OS}.
Implicit Types y : ym OS.

Lemma calm_tx u b : calm (OS := OS) (HAL_UART_Transmit u b).
Proof. unfold HAL_UART_Transmit. calms. Qed.
Hint Resolve calm_tx : calm.

Lemma calm_tx_byte hu b : calm (OS := OS) (tx_byte hu b).
Proof. unfold tx_byte. calms. Qed.
Hint Resolve calm_tx_byte : calm.

Lemma calm_send_ack : calm (OS := OS) send_ack.
Proof. unfold send_ack, link. calms. Qed.
Lemma calm_send_nak : calm (OS := OS) send_nak.
Proof. unfold send_nak, link. calms. Qed.
Lemma calm_send_c : calm (OS := OS) send_c_discovery.
Proof. unfold send_c_discovery, link. calms. Qed.
Hint Resolve calm_send_ack calm_send_nak calm_send_c : calm.

Lemma calm_abort_receive u : calm (OS := OS) (HAL_UART_AbortReceive u).
Proof. unfold HAL_UART_AbortReceive. calms. Qed.
Hint Resolve calm_abort_receive : calm.

Lemma calm_start_rx u : calm (OS := OS) (start_rx_dma_one u).
Proof. unfold start_rx_dma_one, HAL_UARTEx_ReceiveToIdle_DMA. calms. Qed.
Hint Resolve calm_start_rx : calm.

Lemma calm_start_both : calm (OS := OS) start_rx_dma_both.
Proof. unfold start_rx_dma_both. calms. Qed.
Hint Resolve calm_start_both : calm.

Lemma calm_ota_fail_abort : calm (OS := OS) ota_fail_abort.
Proof. unfold ota_fail_abort, sess. calms. Qed.
Hint Resolve calm_ota_fail_abort : calm.

Lemma calm_session_clear : calm (OS := OS) session_vars_clear.
Proof. unfold session_vars_clear. calms. Qed.
Hint Resolve calm_session_clear : calm.

Lemma calm_full_reset : calm (OS := OS) full_reset.
Proof.
  unfold full_reset, HAL_GetTick. calms. apply calm_rxq. intros q [A B' C]. split; [by split; cbn|].
  exact (Nat.le_0_l _).
Qed.
Hint Resolve calm_full_reset : calm.

Lemma calm_lock_ports u : calm (OS := OS) (lock_ports u).
Proof.
  unfold lock_ports, abort_rx_inactive, link. calms. apply calm_sess. intros []. unfold sess_wf. destruct u; cbn; lia.
Qed.
Hint Resolve calm_lock_ports : calm.

Lemma calm_should_listen u : calm (OS := OS) (should_listen u).
Proof. unfold should_listen, link. calms. Qed.
Hint Resolve calm_should_listen : calm.

(** *** Arrivals *)
Lemma enqueue_work u p len y :
  ym_wf y -> runs (rx_sm_enqueue u p len)
    (fun _ y' => ym_wf y' /\ (work y' <= work y + rx_weight (u, p))%nat) y.
Proof.
  intros (Hq & Hs & Ho). unfold rx_sm_enqueue. apply runs_bind. unfold runs, gets.
  destruct ((s_q_w (y_rxq y) + 1) mod CHUNK_Q =? s_q_r (y_rxq y)) eqn:E; cbool.
  { split; [by split_and!|lia]. }
  set (c := mkChunk u len (take (Z.to_nat (Z.min len RX_DMA_BUF)) p)).
  split; [split_and!; [by apply (enqueued_wf c)|done|done]|].
  change (work (mkYm (y_sess y) (y_link y) (enqueued c (y_rxq y)) (y_io y) (y_ota y))
          <= work y + rx_weight (u, p))%nat.
  unfold work. cbn [y_rxq y_sess y_io]. rewrite (fifo_enqueued c) by done.
  rewrite total_weight_app. cbn [total_weight foldr]. unfold rx_weight, chunk_weight at 2, c.
  cbn [snd ch_data]. rewrite length_take. lia.
Qed.

Lemma callback_work u p n y :
  ym_wf y -> runs (HAL_UARTEx_RxEventCallback u p n)
    (fun _ y' => ym_wf y' /\ (work y' <= work y + rx_weight (u, p))%nat) y.
Proof.
  intros Hy. unfold HAL_UARTEx_RxEventCallback. cbv zeta. apply runs_bind.
  eapply runs_mono; [by apply calm_should_listen|]. intros listen y1 [Hy1 W1]. apply runs_bind.
  eapply runs_mono; [match goal with |- runs ?m _ _ => assert (C : calm m) by (unfold HAL_GetTick; calms) end;
                     by apply C|].
  intros _ y2 [Hy2 W2]. destruct (negb listen).
  { eapply runs_mono; [by apply calm_start_rx|]. intros _ y3 [Hy3 W3]. split; [done|lia]. }
  apply runs_bind. eapply runs_mono; [by apply enqueue_work|]. intros ok y3 [Hy3 W3].
  match goal with |- runs ?m _ _ => assert (C : calm m) end.
  { destruct (negb ok); [|apply calm_start_rx]. calms. apply calm_rxq. by intros q []. }
  eapply runs_mono; [by apply C|]. intros _ y4 [Hy4 W4]. split; [done|lia].
Qed.

Lemma deliver_work rx y :
  ym_wf y -> runs (deliver rx) (fun _ y' => ym_wf y' /\ (work y' <= work y + rx_weight rx)%nat) y.
Proof.
  intros Hy. unfold deliver. apply runs_bind. unfold runs at 1, gets.
  destruct (armed _ _); [|split; [done|lia]].
  apply runs_bind. eapply runs_mono; [apply calm_io; [|done]|].
  { intros []; unfold set_armed; destruct (fst rx); done. }
  intros _ y1 [Hy1 W1]. eapply runs_mono; [by apply callback_work|]. intros _ y2 [Hy2 W2].
  split; [done|]. destruct rx. cbn [fst snd] in *. lia.
Qed.

Lemma deliver_all_work l : forall y,
  ym_wf y -> runs (deliver_all l) (fun _ y' => ym_wf y' /\ (work y' <= work y + total_weight rx_weight l)%nat) y.
Proof.
  induction l as [|rx l IH]; intros y Hy; cbn [deliver_all].
  { split; [done|cbn; lia]. }
  apply runs_bind. eapply runs_mono; [by apply deliver_work|]. intros _ y1 [Hy1 W1].
  eapply runs_mono; [by apply IH|]. intros _ y2 [Hy2 W2]. split; [done|].
  cbn [total_weight foldr]. fold (total_weight rx_weight l). lia.
Qed.

Lemma calm_delay ms : calm (OS := OS) (HAL_Delay ms).
Proof.
  intros y Hy. unfold HAL_Delay. apply runs_bind. unfold runs at 1, gets.
  destruct (script (y_io y)) as [|e sc] eqn:E.
  { split; [done|]. unfold work. cbn [y_sess y_rxq y_io script set_tick]. lia. }
  apply runs_bind. unfold runs at 1, on_io, modify.
  set (y1 := mkYm _ _ _ _ _). assert (Hy1 : ym_wf y1) by done.
  eapply runs_mono; [by apply deliver_all_work|]. intros _ y2 [Hy2 W2]. split; [done|].
  assert (work y = work y1 + total_weight rx_weight (e_rx e))%nat; [|lia].
  unfold work, y1. cbn [y_sess y_rxq y_io script set_script set_tick]. rewrite E. cbn [total_weight foldr].
  unfold total_weight. lia.
Qed.
Hint Resolve calm_delay : calm.

(** [m] takes no step of the environment. *)
Definition stays {A} (m : M (ym OS) A) : Prop :=
  forall y, runs m (fun _ y' => script (y_io y') = script (y_io y)) y.

Lemma line_stays_bind {A B} (m : M (ym OS) A) (f : A -> M (ym OS) B) :
  stays m -> (forall a, stays (f a)) -> stays (m ≫= f).
Proof.
  intros Hm Hf y. apply runs_bind. eapply runs_mono; [apply Hm|]. intros a y1 E1.
  eapply runs_mono; [apply Hf|]. intros b y2 E2. congruence.
Qed.

Lemma deliver_all_script l : stays (deliver_all l).
Proof.
  assert (Hr : forall u, stays (start_rx_dma_one u)).
  { intros u. unfold start_rx_dma_one, HAL_UARTEx_ReceiveToIdle_DMA.
    repeat first [apply line_stays_bind; [|intros ?] | match goal with |- stays (if ?b then _ else _) => destruct b end
                 | by intros ? | by destruct u; intros ?]. }
  induction l as [|[u p] l IH]; [by intros ?|]. apply line_stays_bind; [|done].
  unfold deliver, HAL_UARTEx_RxEventCallback, should_listen, rx_sm_enqueue, link, HAL_GetTick. cbn [fst snd].
  repeat first [apply line_stays_bind; [|intros ?] | apply Hr
    | match goal with |- stays (if ?b then _ else _) => destruct b end
    | by intros ? | by destruct u; intros ?].
Qed.

(** A delay takes one step of the environment if there is one, and otherwise
    only moves the clock. *)
Lemma delay_script ms y : ym_wf (OS := OS) y -> runs (HAL_Delay ms) (fun _ y' =>
  match script (y_io y) with
  | [] => y_io y' = set_tick (tick (y_io y) +u ms) (y_io y)
  | _ :: sc => script (y_io y') = sc
  end) y.
Proof.
  intros Hy. unfold HAL_Delay. apply runs_bind. unfold runs at 1, gets.
  destruct (script (y_io y)) as [|e sc] eqn:E; [done|]. apply runs_bind.
  unfold runs at 1, on_io, modify. eapply runs_mono; [apply deliver_all_script|]. intros [] y' Es. exact Es.
Qed.

Lemma calm_tc_reset : calm (OS := OS) uart_tc_reset.
Proof. unfold uart_tc_reset. calms. Qed.

Lemma tc_reset_keeps y : runs (uart_tc_reset (OS := OS)) (fun _ y' =>
  script (y_io y') = script (y_io y) /\ tick (y_io y') = tick (y_io y)) y.
Proof.
  unfold uart_tc_reset. apply runs_bind. unfold runs at 1, gets. by destruct (tx_busy (y_io y)) as [|[] ?].
Qed.

(** Rounds of the busy wait: one per step of the environment left, then one per
    millisecond until 41 have passed. *)
Definition tc_rounds (t0 : Z) y : nat :=
  match script (y_io y) with
  | [] => S (Z.to_nat (41 - (tick (y_io y) -u t0)))
  | sc => (length sc + 42)%nat
  end.

Lemma tc_rounds_bound t0 y : (tc_rounds t0 y <= length (script (y_io y)) + 42)%nat.
Proof. unfold tc_rounds. pose proof (u32_range (tick (y_io y) - t0)). destruct (script _); cbn; lia. Qed.

Lemma tc_loop_calm fuel t0 : forall y, ym_wf y -> (tc_rounds t0 y <= fuel)%nat ->
  runs (tc_loop (OS := OS) fuel t0) (fun _ y' => ym_wf y' /\ (work y' <= work y)%nat) y.
Proof.
  induction fuel as [|fuel IH]; intros y Hy Hf.
  { unfold tc_rounds in Hf. destruct (script _); cbn in Hf; lia. }
  cbn [tc_loop]. apply runs_bind.
  pose proof (calm_tc_reset y Hy) as H1. pose proof (tc_reset_keeps y) as H2. unfold runs in H1, H2 |- *.
  destruct (uart_tc_reset y) as [[] y1|?| |]; try done; destruct H1 as [Hy1 W1], H2 as [S1 T1].
  change (runs (now ← HAL_GetTick; if 40 <? now -u t0 then mret tt else HAL_Delay 1;; tc_loop fuel t0)
    (fun _ y' => ym_wf y' /\ (work y' <= work y)%nat) y1).
  apply runs_bind. unfold runs at 1, HAL_GetTick, gets. destruct (40 <? _) eqn:E; cbool; [by split|].
  apply runs_bind. pose proof (calm_delay 1 y1 Hy1) as H3. pose proof (delay_script 1 y1 Hy1) as H4.
  unfold runs in H3, H4 |- *. destruct (HAL_Delay 1 y1) as [[] y2|?| |]; try done. destruct H3 as [Hy2 W2].
  change (runs (tc_loop fuel t0) (fun _ y' => ym_wf y' /\ (work y' <= work y)%nat) y2).
  eapply runs_mono; [apply IH; [done|]|]; [|intros _ y3 [Hy3 W3]; split; [done|lia]].
  pose proof (tc_rounds_bound t0 y2) as Hb. rewrite S1 in H4. unfold tc_rounds in Hf.
  destruct (script (y_io y)) as [|e sc] eqn:Es.
  - unfold tc_rounds. rewrite H4. cbn [script set_tick tick]. rewrite S1. rewrite T1 in *.
    unfold u32 in *. lia.
  - rewrite H4 in Hb. cbn [length] in Hf. lia.
Qed.

Lemma calm_wait hu : calm (OS := OS) (uart_wait_tx_line_done hu).
Proof.
  destruct hu as [u|]; [|by apply calm_ret]. intros y Hy. unfold uart_wait_tx_line_done, HAL_GetTick.
  do 2 (apply runs_bind; unfold runs at 1, gets). apply runs_bind.
  eapply runs_mono; [apply tc_loop_calm; [done|]|].
  { pose proof (tc_rounds_bound (tick (y_io y)) y). lia. }
  intros _ y1 [Hy1 W1]. eapply runs_mono; [by apply calm_delay|]. intros _ y2 [Hy2 W2]. split; [done|lia].
Qed.
Hint Resolve calm_wait : calm.

Lemma calm_cancel_on hu : calm (OS := OS) (send_ymodem_cancel_on hu).
Proof. unfold send_ymodem_cancel_on. cbn [repeatM YM_CANCEL_BURST]. calms. Qed.
Hint Resolve calm_cancel_on : calm.

Lemma calm_cancel : calm (OS := OS) send_ymodem_cancel.
Proof. unfold send_ymodem_cancel, link. calms. Qed.
Hint Resolve calm_cancel : calm.
End Calm.

#[export] Hint Resolve calm_tx calm_tx_byte calm_send_ack calm_send_nak calm_send_c calm_abort_receive
  calm_start_rx calm_start_both calm_ota_fail_abort calm_session_clear calm_full_reset calm_lock_ports
  calm_should_listen calm_delay calm_wait calm_cancel_on calm_cancel : calm.
