(* ===== verification/YmodemTerm.v ===== *)
(** Termination of the Ymodem receiver: enough fuel for the state it starts in
    always lets the mutually recursive loops finish.  What it needs of the OTA
    module is proved of [OtaModule] for any platform whose callbacks come back. *)
From S2P Require Import Prelude FlashPort OtaModule BootYmodem YmodemLaws.

Section OtaTotal.
Context `{B : OtaBuild} {P : Type}.

(** A callback of the platform comes back, or the processor is gone. *)
Definition comes_back {A} (m : M P A) : Prop := forall p, runs m (fun _ _ => True) p.
Definition callbacks_return (c : ota_module_config_t P) : Prop :=
  (forall f t a n, flash_read_func c = Some f -> comes_back (f t a n)) /\
  (forall f t a d n, flash_write_func c = Some f -> comes_back (f t a d n)) /\
  (forall f t a n, flash_erase_func c = Some f -> comes_back (f t a n)) /\
  (forall f m d n, crc32_func c = Some f -> comes_back (f m d n)) /\
  (forall f a, jump_func c = Some f -> comes_back (f a)).

(** [m] comes back and keeps the configuration. *)
Definition ota_returns {A} (m : M (ota_state P) A) : Prop :=
  forall o, callbacks_return (g_cfg o) -> runs m (fun _ o' => callbacks_return (g_cfg o')) o.

Lemma back_bind {A C} (m : M (ota_state P) A) (f : A -> M (ota_state P) C) :
  ota_returns m -> (forall a, ota_returns (f a)) -> ota_returns (m ≫= f).
Proof. intros Hm Hf o Ho. apply runs_bind. eapply runs_mono; [by apply Hm|]. intros a o' Ho'. by apply Hf. Qed.

Lemma back_call {A} (f : ota_module_config_t P -> option (M P A)) :
  (forall c m, callbacks_return c -> f c = Some m -> comes_back m) -> ota_returns (call f).
Proof.
  intros Hf o Ho. unfold runs, call, zoom. destruct (f (g_cfg o)) as [m|] eqn:E; [|done].
  specialize (Hf _ _ Ho E (plat o)). unfold runs in Hf. by destruct (m (plat o)).
Qed.

Lemma total_read t a n : ota_returns (flash_read t a n).
Proof. apply back_call. intros c m (H & _) (f & Hm & E)%fmap_Some. subst. by apply H. Qed.
Lemma total_write t a d n : ota_returns (flash_write t a d n).
Proof. apply back_call. intros c m (_ & H & _) (f & Hm & E)%fmap_Some. subst. by apply H. Qed.
Lemma total_erase t a n : ota_returns (flash_erase t a n).
Proof. apply back_call. intros c m (_ & _ & H & _) (f & Hm & E)%fmap_Some. subst. by apply H. Qed.
Lemma total_crc mode d : ota_returns (crc32 mode d).
Proof. apply back_call. intros c m (_ & _ & _ & H & _) (f & Hm & E)%fmap_Some. subst. by apply H. Qed.
Lemma total_jump a : ota_returns (jump a).
Proof. apply back_call. intros c m (_ & _ & _ & _ & H) (f & Hm & E)%fmap_Some. subst. by apply H. Qed.

Ltac totals := repeat first
  [ progress intros
  | solve [auto using total_read, total_write, total_erase, total_crc, total_jump with nocore]
  | apply back_bind
  | solve [by intros ?]
  | match goal with
    | |- ota_returns (if ?b then _ else _) => destruct b
    | |- ota_returns (match ?x with _ => _ end) => destruct x
    end
  | progress cbv zeta ].

Lemma total_record_load : ota_returns record_load.
Proof. unfold record_load, record_crc32_without_info_crc32, crc32_one_shot. totals. Qed.
Lemma total_record_store r : ota_returns (record_store r).
Proof. unfold record_store, record_crc32_without_info_crc32, crc32_one_shot, flash_erase_slot. totals. Qed.
Lemma total_boot_slot a : ota_returns (boot_slot a).
Proof. unfold boot_slot, ota_calc_entry_addr_from_header, package_header_crc32_without_header_crc32, crc32_one_shot. totals. Qed.

(** The verification loop: the rest shrinks by a block, or to nothing. *)
Lemma total_crc_body fuel : forall t a n crc first,
  n <= OTA_MODULE_FLASH_COPY_BUF_SIZE * Z.of_nat fuel -> ota_returns (crc_body_loop fuel t a n crc first).
Proof.
  induction fuel as [|fuel IH]; intros t a n crc first Hn; cbn [crc_body_loop];
    destruct (Z.ltb_spec 0 n); try lia; totals.
  apply IH. unfold OTA_MODULE_FLASH_COPY_BUF_SIZE in *.
  destruct (Z.min_spec n 256) as [[? ->]|[? ->]].
  - rewrite Z.sub_diag, u32_small; lia.
  - unfold u32. pose proof (Z.mod_le (n - 256) 4294967296). lia.
Qed.
Lemma total_verify a h : ota_returns (flash_crc32_app_body a h).
Proof.
  unfold flash_crc32_app_body. totals. apply total_crc_body. unfold OTA_MODULE_FLASH_COPY_BUF_SIZE.
  pose proof (Z.div_mod (app_size h) 256). pose proof (Z.mod_pos_bound (app_size h) 256).
  destruct (decide (0 <= app_size h / 256 + 1)); lia.
Qed.

(** The OTA module, over a platform whose callbacks come back, always does. *)
#[export] Instance ota_module_total : OtaOpsTotal (ota_state P).
Proof.
  pose proof total_record_load. pose proof total_record_store. pose proof total_boot_slot. pose proof total_verify.
  exists (fun o => callbacks_return (g_cfg o)).
  - intros h. change (ota_returns (ota_module_ota_download_start (Some h))).
    unfold ota_module_ota_download_start, package_header_crc32_without_header_crc32, crc32_one_shot, flash_erase_slot, slot.
    totals.
  - intros off d n. change (ota_returns (ota_module_ota_download off (Some d) n)). unfold ota_module_ota_download, slot. totals.
  - change (ota_returns ota_module_ota_download_finish). unfold ota_module_ota_download_finish, slot. totals.
  - change (ota_returns ota_module_ota_download_abort). unfold ota_module_ota_download_abort, slot. totals.
  - intros f. change (ota_returns (ota_module_set_boot_ymodem_flag f)). unfold ota_module_set_boot_ymodem_flag. totals.
  - change (ota_returns ota_module_boot_preprocess). unfold ota_module_boot_preprocess, boot_candidate, slot. totals.
  - change (ota_returns ota_module_has_active_app_region). unfold ota_module_has_active_app_region. totals.
Defined.
End OtaTotal.

Section Payload.
Context {OS : Type} `{OtaOpsTotal OS}.
Implicit Types y : ym OS.

(** [m] is calm and its result satisfies [Q]. *)
Definition calmly {A} (m : M (ym OS) A) (y : ym OS) (Q : A -> ym OS -> Prop) : Prop :=
  runs m (fun a y' => ym_wf y' /\ (work y' <= work y)%nat /\ Q a y') y.

Lemma calmly_bind {A B} (m : M (ym OS) A) (f : A -> M (ym OS) B) y (Q : A -> ym OS -> Prop)
    (R : B -> ym OS -> Prop) :
  calmly m y Q -> (forall a y', ym_wf y' -> Q a y' -> calmly (f a) y' R) -> calmly (m ≫= f) y R.
Proof.
  intros Hm Hf. apply runs_bind. eapply runs_mono; [exact Hm|]. intros a y1 (W1 & L1 & Q1).
  eapply runs_mono; [by apply Hf|]. intros b y2 (W2 & L2 & R2). split_and!; auto. lia.
Qed.

Lemma calmly_calm {A} (m : M (ym OS) A) y : calm m -> ym_wf y -> calmly m y (fun _ _ => True).
Proof. intros Hc Hy. eapply runs_mono; [by apply Hc|]. intros a y1 []. done. Qed.

(** Rounds left: one per byte, and one for a header that is already complete. *)
Definition rounds (p : list Z) y : nat := (length p + if s_hdr_done (y_sess y) then 0 else 1)%nat.

Lemma on_sess_calmly f y :
  ym_wf y -> sess_wf (f (y_sess y)) ->
  (length (s_sb1 (f (y_sess y))) + length (s_sb2 (f (y_sess y)))
   <= length (s_sb1 (y_sess y)) + length (s_sb2 (y_sess y)))%nat ->
  calmly (on_sess f) y (fun _ y' => y_sess y' = f (y_sess y)).
Proof. intros (Hq & Hs & Ho) Hf Hl. split; [by split_and!|]. split; [|done]. unfold work. cbn. lia. Qed.

Lemma on_ota_calmly {A} (m : M OS A) y :
  (forall o, oo_inv o -> runs m (fun _ => oo_inv) o) -> ym_wf y ->
  calmly (on_ota m) y (fun _ y' => y_sess y' = y_sess y).
Proof.
  intros Hm (Hq & Hs & Ho). specialize (Hm (y_ota y) Ho). unfold calmly, runs, on_ota, zoom in *.
  destruct (m (y_ota y)); try done.
Qed.

Lemma give_up_calmly y (Q : option (list Z) -> ym OS -> Prop) :
  ym_wf y -> (forall y', Q None y') -> calmly (on_sess (set_s_nak_streak NAK_RETRIES);; mret None) y Q.
Proof.
  intros Hy HQ. apply (calmly_bind _ _ _ (fun _ _ => True)).
  - apply calmly_calm; [|done]. apply calm_sess. intros []. unfold sess_wf. cbn. lia.
  - intros _ y1 W1 _. split_and!; auto.
Qed.

Lemma payload_step_calmly p y :
  ym_wf y -> p <> [] -> zlen p <= 65535 ->
  calmly (payload_step p) y (fun o y' => match o with
    | None => True
    | Some rest => (rounds rest y' < rounds p y)%nat /\ zlen rest <= zlen p end).
Proof.
  intros Hy Hp Hlen. pose proof Hy as (_ & Hs & _). unfold sess_wf in Hs.
  assert (Hz : 0 < zlen p <= 65535) by (unfold zlen in *; assert (length p <> 0%nat) by (by destruct p); lia).
  unfold payload_step, rounds. eapply (calmly_bind _ _ _ (fun r y' => r = y_sess y /\ y' = y)).
  { by split_and!; auto. }
  intros r y' _ [-> ->]. destruct (s_hdr_done (y_sess y)) eqn:Hd; cbn [negb]; cbv zeta.
  - set (remain := if _ <=? _ then _ else 0). destruct (remain =? 0) eqn:Er; cbool; [by split_and!|].
    assert (0 < remain) by (unfold remain in *; destruct (_ <=? _) eqn:E; cbool; lia).
    set (chunk := if _ <? _ then _ else _).
    assert (Hc : 0 < chunk <= zlen p)
      by (unfold chunk, u16; destruct (remain <? zlen p) eqn:E; cbool; lia).
    clearbody chunk. eapply calmly_bind; [apply on_ota_calmly; auto with calm|]. intros rc y1 W1 E1. cbn beta in E1.
    destruct (negb (err_ok rc)); [by apply give_up_calmly|].
    eapply calmly_bind; [apply on_sess_calmly; [done|apply W1|done]|].
    intros [] y2 W2 E2. cbn beta in E2. split_and!; auto; unfold zlen in *; rewrite length_drop, ?E2; cbn;
      rewrite ?E1, ?Hd; lia.
  - set (need := u16 (Z.of_nat sizeof_header - _)). assert (Hn : need = 56 - s_hdr_accum_len (y_sess y))
      by (unfold need, u16, sizeof_header; lia).
    set (k := Z.min (zlen p) need). set (acc := memcpy_at _ _ _). set (alen := u16 (_ + k)).
    assert (Hk : k = Z.min (zlen p) (56 - s_hdr_accum_len (y_sess y))) by (unfold k; lia).
    assert (Ha : alen = s_hdr_accum_len (y_sess y) + k) by (unfold alen, u16; lia).
    clearbody acc alen k. clear need Hn.
    eapply calmly_bind; [apply on_sess_calmly; [done|unfold sess_wf; cbn; lia|done]|].
    intros [] y1 W1 E1. cbn beta in E1. destruct (_ <=? alen) eqn:Ec; cbool.
    2:{ unfold sizeof_header, zlen in *. split_and!; auto; rewrite length_drop, ?E1; cbn; rewrite ?Hd; lia. }
    eapply calmly_bind; [apply on_ota_calmly; auto with calm|]. intros rc y2 W2 E2. cbn beta in E2.
    destruct (negb (err_ok rc)); [by apply give_up_calmly|].
    eapply calmly_bind; [apply on_sess_calmly; [done|apply W2|done]|]. intros [] y3 W3 E3. cbn beta in E3.
    eapply calmly_bind; [apply on_ota_calmly; auto with calm|]. intros rc2 y4 W4 E4. cbn beta in E4.
    destruct (negb (err_ok rc2)); [by apply give_up_calmly|].
    eapply calmly_bind; [apply on_sess_calmly; [done|apply W4|done]|]. intros [] y5 W5 E5. cbn beta in E5.
    unfold zlen. split_and!; auto; rewrite length_drop, ?E5; cbn; lia.
Qed.

Lemma payload_loop_calm fuel : forall p y,
  ym_wf y -> zlen p <= 65535 -> (rounds p y <= fuel)%nat ->
  runs (payload_loop fuel p) (fun _ y' => ym_wf y' /\ (work y' <= work y)%nat) y.
Proof.
  induction fuel as [|fuel IH]; intros [|b p] y Hy Hl Hr.
  1, 3: by split. { unfold rounds in Hr. cbn in Hr. lia. }
  cbn [payload_loop]. apply runs_bind.
  eapply runs_mono; [by apply (payload_step_calmly (b :: p))|]. intros [rest|] y1 (W1 & L1 & R1); [|by split].
  destruct R1 as [R1 R2]. eapply runs_mono; [apply IH; [done|lia|lia]|].
  intros _ y2 [W2 L2]. split; [done|lia].
Qed.

Lemma append_payload_calm p : zlen p <= 65535 -> calm (OS := OS) (append_file_payload p).
Proof.
  intros Hl y Hy. apply payload_loop_calm; auto. unfold rounds. destruct (s_hdr_done _); lia.
Qed.

Lemma data_block_calm seq p : zlen p <= 65535 -> calm (OS := OS) (handle_data_block seq p).
Proof.
  intros Hl. unfold handle_data_block, sess. pose proof (append_payload_calm p Hl). calms.
Qed.
End Payload.

#[export] Hint Resolve append_payload_calm data_block_calm : calm.

Section Frames.
Context {OS : Type} `{OtaOpsTotal OS}.
Implicit Types y : ym OS.

Definition spends (k : nat) {A} (m : M (ym OS) A) (y : ym OS) : Prop :=
  runs m (fun _ y' => ym_wf y' /\ (work y' + k <= work y)%nat) y.

Lemma spends_bind k1 k2 {A B} (m : M (ym OS) A) (f : A -> M (ym OS) B) y :
  spends k1 m y -> (forall a y', ym_wf y' -> (work y' + k1 <= work y)%nat -> spends k2 (f a) y') ->
  spends (k1 + k2) (m ≫= f) y.
Proof.
  intros Hm Hf. apply runs_bind. eapply runs_mono; [exact Hm|]. intros a y1 [W1 L1].
  eapply runs_mono; [by apply Hf|]. intros b y2 [W2 L2]. split; [done|lia].
Qed.

Lemma spends_calm {A} (m : M (ym OS) A) y : calm m -> ym_wf y -> spends 0 m y.
Proof. intros Hc Hy. eapply runs_mono; [by apply Hc|]. intros a y1 []. split; [done|lia]. Qed.

Lemma spends_weaken k k' {A} (m : M (ym OS) A) y : spends k m y -> (k' <= k)%nat -> spends k' m y.
Proof. intros Hs Hk. eapply runs_mono; [exact Hs|]. intros a y1 []. split; [done|lia]. Qed.

Lemma set_stream_work u l y :
  ym_wf y -> (length l <= length (stream u (y_sess y)))%nat ->
  spends (length (stream u (y_sess y)) - length l) (on_sess (set_stream u l)) y.
Proof.
  intros (Hq & Hs & Ho) Hl. unfold spends, runs, on_sess, modify. split.
  - split_and!; [done| |done]. by destruct u, (y_sess y).
  - unfold work. cbn [y_sess y_rxq y_io]. destruct u, (y_sess y); cbn in *; lia.
Qed.

Lemma consume_spends u n y : ym_wf y -> spends n (consume u n) y.
Proof.
  intros Hy. unfold consume, spends. apply runs_bind. unfold runs at 1, sess, gets.
  destruct (_ <? _)%nat eqn:E; [done|]. apply Nat.ltb_ge in E.
  eapply (spends_weaken _ n); [apply set_stream_work; [done|rewrite length_drop; lia]|].
  rewrite length_drop. lia.
Qed.

Lemma data_len_bound st (l : list Z) : zlen (sub 3 (data_len st) l) <= 65535.
Proof.
  unfold zlen, sub. rewrite length_take. unfold data_len. destruct (_ =? _); lia.
Qed.

(** A frame is taken off whatever becomes of it. *)
Lemma frame_body_spends u l y : ym_wf y -> spends 1 (frame_body u l) y.
Proof.
  intros Hy. unfold frame_body. cbv zeta. change 1%nat with (0 + 1)%nat at 1.
  apply spends_bind; [apply spends_calm; [apply calm_gets|done]|]. intros lk y1 W1 _.
  destruct (negb (_ =? 255)).
  { change 1%nat with (1 + 0)%nat at 1. apply spends_bind; [by apply consume_spends|].
    intros _ y2 W2 _. apply spends_calm; [|done]. calms. }
  destruct (negb _).
  { change 1%nat with (1 + 0)%nat at 1. apply spends_bind; [by apply consume_spends|].
    intros _ y2 W2 _. apply spends_calm; [|done]. unfold sess. calms. }
  change 1%nat with (0 + 1)%nat at 1.
  apply spends_bind; [apply spends_calm; [apply calm_gets|done]|]. intros r y2 W2 _.
  pose proof (data_len_bound (nthz l 0) l) as Hb.
  destruct (_ && _); change 1%nat with (0 + 1)%nat at 1;
    (apply spends_bind; [apply spends_calm; [calms|done]|]; intros _ y3 W3 _);
    change 1%nat with (0 + 1)%nat at 1;
    (apply spends_bind; [apply spends_calm; [auto with calm|done]|]; intros _ y4 W4 _);
    (eapply spends_weaken; [by apply consume_spends|]; unfold frame_len; lia).
Qed.

(** One round: when it asks for another one, it has taken at least a byte. *)
Lemma frame_step_work (eot : uart -> M (ym OS) unit) u y :
  ym_wf y -> (forall y', ym_wf y' -> (work y' < work y)%nat -> spends 0 (eot u) y') ->
  runs (frame_step eot u) (fun again y' => ym_wf y' /\
    (work y' + (if again : bool then 1 else 0) <= work y)%nat) y.
Proof.
  intros Hy He. unfold frame_step. apply runs_bind. unfold runs at 1, sess at 1, gets.
  set (l := stream u (y_sess y)). set (l' := drop (skip_garbage l) l). apply runs_bind.
  eapply runs_mono; [apply set_stream_work; [done|unfold l', l; rewrite length_drop; lia]|].
  intros _ y1 [W1 L1]. apply runs_bind. unfold runs at 1, gets.
  assert (Hgo : forall A k (m : M (ym OS) A) y2, ym_wf y2 -> (work y2 <= work y)%nat -> spends (S k) m y2 ->
    runs (m;; mret true) (fun again y' => ym_wf y' /\ (work y' + (if again : bool then 1 else 0) <= work y)%nat) y2).
  { intros A k m y2 _ L2 Hm. apply runs_bind. eapply runs_mono; [exact Hm|]. intros _ y3 [W3 L3].
    unfold runs, mret, M_ret. split; [done|lia]. }
  destruct l' as [|b0 l0] eqn:El; [unfold runs, mret, M_ret; split; [done|lia]|].
  destruct (_ && _).
  { apply runs_bind. eapply runs_mono; [apply set_stream_work; [done|cbn; lia]|]. intros _ y2 [W2 L2].
    unfold runs, mret, M_ret. split; [done|lia]. }
  destruct (b0 =? YM_CAN).
  { apply runs_bind. unfold runs at 1, sess, gets. destruct (s_wire_tail_discard _).
    { eapply (Hgo unit 0%nat); [done|lia|by apply consume_spends]. }
    apply runs_bind. eapply runs_mono; [apply calm_sess; [|done]|].
    { intros []; unfold sess_wf; cbn; lia. }
    intros _ y2 [W2 L2]. apply runs_bind. eapply runs_mono; [by apply consume_spends|]. intros _ y3 [W3 L3].
    apply runs_bind. unfold runs at 1. apply runs_bind.
    eapply runs_mono; [apply spends_calm; [calms|done]|].
    intros _ y4 [W4 L4]. unfold runs, mret, M_ret. split; [done|lia]. }
  apply runs_bind. eapply runs_mono; [apply calm_sess; [|done]|].
  { intros []; unfold sess_wf; cbn; lia. }
  intros _ y2 [W2 L2]. destruct (b0 =? YM_EOT).
  - apply runs_bind. eapply runs_mono; [by apply consume_spends|]. intros _ y3 [W3 L3].
    apply runs_bind. unfold runs at 1, sess, gets. apply runs_bind.
    destruct (s_wire_tail_discard _).
    + unfold runs, mret, M_ret. split; [done|lia].
    + eapply runs_mono; [apply He; [done|lia]|]. intros _ y4 [W4 L4].
      unfold runs, mret, M_ret. split; [done|lia].
  - destruct (_ <? _)%nat; [unfold runs, mret, M_ret; split; [done|lia]|].
    eapply (Hgo unit 0%nat); [done|lia|by apply frame_body_spends].
Qed.

(** Sequencing for programs that never add work. *)
Lemma spends0_bind {A B} (m : M (ym OS) A) (f : A -> M (ym OS) B) y :
  spends 0 m y -> (forall a y', ym_wf y' -> (work y' <= work y)%nat -> spends 0 (f a) y') ->
  spends 0 (m ≫= f) y.
Proof. intros Hm Hf. apply (spends_bind 0 0); [done|]. intros a y1 W1 L1. apply Hf; [done|lia]. Qed.

Lemma second_eot_spends (drain frames : M (ym OS) unit) y :
  ym_wf y ->
  (forall y', ym_wf y' -> (work y' <= work y)%nat -> spends 0 drain y') ->
  (forall y', ym_wf y' -> (work y' <= work y)%nat -> spends 0 frames y') ->
  spends 0 (second_eot drain frames) y.
Proof.
  intros Hy Hd Hf. unfold second_eot, link, sess.
  repeat first
    [ progress cbv zeta
    | solve [apply Hd; [done|lia]] | solve [apply Hf; [done|lia]]
    | solve [apply spends_calm; [calms|done]]
    | apply spends0_bind; [|intros ????] ].
Qed.

Lemma handle_eot_spends (drain frames : M (ym OS) unit) y :
  ym_wf y ->
  (forall y', ym_wf y' -> (work y' <= work y)%nat -> spends 0 drain y') ->
  (forall y', ym_wf y' -> (work y' <= work y)%nat -> spends 0 frames y') ->
  spends 0 (handle_eot_with drain frames) y.
Proof.
  intros Hy Hd Hf. unfold handle_eot_with. apply spends0_bind; [apply spends_calm; [apply calm_gets|done]|].
  intros lk y1 W1 L1. destruct (_ || _); [apply spends_calm; [apply calm_ret|done]|].
  apply spends0_bind; [apply spends_calm; [apply calm_gets|done]|]. intros n y2 W2 L2.
  destruct (n =? 0); [apply spends_calm; [calms|done]|].
  destruct (2 <=? n); [apply spends_calm; [apply calm_ret|done]|].
  apply second_eot_spends; [done|..]; intros y3 W3 L3; [apply Hd|apply Hf]; auto; lia.
Qed.

(** Appending a dequeued block: its bytes replace its place in the queue. *)
Lemma append_stream_work (frames : uart -> M (ym OS) unit) u p len y n :
  ym_wf y -> (work y + length p < n)%nat ->
  (forall y', ym_wf y' -> (work y' < n)%nat -> spends 0 (frames u) y') ->
  runs (append_stream_with frames u p len) (fun _ y' => ym_wf y' /\ (work y' < n)%nat) y.
Proof.
  intros Hy Hn Hf. unfold append_stream_with. apply runs_bind. unfold runs at 1, sess, gets.
  destruct (STREAM_MAX <? _).
  { match goal with |- runs ?m _ _ => assert (C : calm m) by (unfold link; calms) end.
    eapply runs_mono; [by apply C|]. intros _ y1 [W1 L1]. split; [done|lia]. }
  destruct (zlen p <? len); [done|]. apply runs_bind. unfold runs at 1, on_sess, modify.
  set (y1 := mkYm _ _ _ _ _).
  assert (H1 : ym_wf y1 /\ (work y1 < n)%nat).
  { unfold y1. split.
    - destruct Hy as (Hq & Hs & Ho). split_and!; [done| |done]. by destruct u, (y_sess y).
    - unfold work in *. cbn [y_sess y_rxq y_io].
      pose proof (length_take p (Z.to_nat len)).
      destruct u, (y_sess y); cbn -[total_weight fifo take] in *; rewrite length_app; lia. }
  destruct H1 as [W1 L1]. eapply runs_mono; [by apply Hf|]. intros _ y2 [W2 L2]. split; [done|lia].
Qed.

Lemma dequeue_work y c :
  ym_wf y -> fifo (y_rxq y) = c :: fifo (dequeued (y_rxq y)) ->
  let y1 := mkYm (y_sess y) (y_link y) (dequeued (y_rxq y)) (y_io y) (y_ota y) in
  ym_wf y1 /\ (work y1 + length (ch_data c) + 1 = work y)%nat.
Proof.
  intros (Hq & Hs & Ho) E y1. split; [split_and!; [by apply dequeued_wf|done|done]|].
  unfold work, y1. cbn [y_sess y_rxq y_io]. rewrite E. cbn [total_weight foldr].
  unfold chunk_weight at 2. unfold total_weight. lia.
Qed.

Definition enough (fuel : nat) : Prop :=
  (forall u y, ym_wf y -> (4 * work y + 1 <= fuel)%nat -> spends 0 (try_consume_frame fuel u) y) /\
  (forall u y, ym_wf y -> (4 * work y + 3 <= fuel)%nat -> spends 0 (handle_eot fuel u) y) /\
  (forall y, ym_wf y -> (4 * work y + 2 <= fuel)%nat -> spends 0 (drain_chunks fuel) y) /\
  (forall y, ym_wf y -> (4 * work y + 1 <= fuel)%nat -> spends 0 (drain_loop fuel) y).

Lemma try_enough f u y :
  enough f -> ym_wf y -> (4 * work y + 1 <= S f)%nat -> spends 0 (try_consume_frame (S f) u) y.
Proof.
  intros (It & Ie & _) Hy Hf. cbn [try_consume_frame].
  apply spends0_bind; [apply spends_calm; [apply calm_gets|done]|]. intros l y1 W1 L1.
  destruct l as [|b l]; [apply spends_calm; [apply calm_ret|done]|].
  apply runs_bind. eapply runs_mono; [apply (frame_step_work (handle_eot f)); [done|]|].
  { intros y2 W2 L2. apply Ie; [done|lia]. }
  intros [] y2 [W2 L2]; [|split; [done|lia]].
  eapply runs_mono; [apply It; [done|lia]|]. intros _ y3 [W3 L3]. split; [done|lia].
Qed.

Lemma drain_loop_enough f y :
  enough f -> ym_wf y -> (4 * work y + 1 <= S f)%nat -> spends 0 (drain_loop (S f)) y.
Proof.
  intros (It & _ & _ & Il) Hy Hf. cbn [drain_loop]. unfold spends. apply runs_bind. unfold runs at 1, gets.
  destruct (s_q_r (y_rxq y) =? s_q_w (y_rxq y)) eqn:E; cbool; [split; [done|lia]|].
  destruct (fifo_dequeued (y_rxq y)) as (c & -> & Ef); [apply Hy|done|].
  apply runs_bind. unfold runs at 1, on_rxq, modify. destruct (dequeue_work y c Hy Ef) as [W1 L1].
  fold (dequeued (y_rxq y)). set (y1 := mkYm _ _ (dequeued _) _ _) in *.
  apply runs_bind. eapply runs_mono; [by apply calm_should_listen|]. intros listen y2 [W2 L2].
  apply runs_bind. apply (runs_mono _ (fun _ y' => ym_wf y' /\ (work y' < work y)%nat)).
  - destruct listen; [|split; [done|lia]]. apply append_stream_work; [done|lia|].
    intros y3 W3 L3. apply It; [done|lia].
  - intros _ y3 [W3 L3]. eapply runs_mono; [apply Il; [done|lia]|]. intros _ y4 [W4 L4]. split; [done|lia].
Qed.

Lemma fuel_enough fuel : enough fuel.
Proof.
  induction fuel as [|f IH]; [split_and!; intros; lia|]. pose proof IH as (It & Ie & Id & Il).
  split_and!.
  - intros u y Hy Hf. by apply try_enough.
  - intros u y Hy Hf. cbn [handle_eot]. apply handle_eot_spends; [done|..]; intros y1 W1 L1;
      [apply Id|apply It]; auto; lia.
  - intros y Hy Hf. cbn [drain_chunks]. apply spends0_bind; [apply spends_calm; [apply calm_gets|done]|].
    intros q y1 W1 L1. destruct (s_chunk_overflow q).
    + apply spends_calm; [|done]. unfold link. calms.
    + apply Il; [done|lia].
  - intros y Hy Hf. by apply drain_loop_enough.
Qed.
End Frames.
