(* ===== verification/YmodemSession.v ===== *)
(** A Ymodem session seen from the host: frames, blocks, and the file they
    carry, proved against what the receiver needs of the OTA module. *)
From S2P Require Import Prelude FlashPort OtaModule OtaLaws OtaSession BootYmodem YmodemLaws.

(** ** The host's frames *)
Definition ym_frame (st seq : Z) (pay : list Z) : list Z :=
  [st; seq; 255 - seq] ++ pay ++ crc_bytes pay.

(** A well-formed block: the payload size its start byte announces. *)
Record block_ok (st seq : Z) (pay : list Z) : Prop := mkBlockOk {
  bk_start : st = YM_SOH \/ st = YM_STX;
  bk_seq : is_byte seq;
  bk_len : length pay = data_len st;
  bk_bytes : bytes_ok pay
}.

Lemma length_ym_frame st seq pay : length pay = data_len st -> length (ym_frame st seq pay) = frame_len st.
Proof. intros E. unfold ym_frame, frame_len, crc_bytes. rewrite !length_app, E. cbn. lia. Qed.

Lemma frame_len_bound st : (133 <= frame_len st <= 1029)%nat.
Proof. unfold frame_len, data_len. destruct (_ =? _); lia. Qed.

(** The receiver reads back what the host framed. *)
Lemma frame_fields st seq pay rest :
  block_ok st seq pay -> let l := ym_frame st seq pay ++ rest in
  nthz l 0 = st /\ nthz l 1 = seq /\ nthz l 2 = 255 - seq /\ sub 3 (data_len st) l = pay /\
  u16 (Z.lor (Z.shiftl (nthz l (3 + Z.of_nat (data_len st))) 8) (nthz l (4 + Z.of_nat (data_len st))))
    = ymodem_crc16 pay.
Proof.
  intros [_ _ Hl _] l. subst l. unfold ym_frame. rewrite <- !app_assoc. split_and!; try done.
  - rewrite <- Hl. unfold sub. cbn [app drop]. apply take_app_length.
  - assert (N : forall i x, (i < 2)%nat -> crc_bytes pay !! i = Some x ->
        nthz ([st; seq; 255 - seq] ++ pay ++ crc_bytes pay ++ rest)
             (3 + Z.of_nat (data_len st) + Z.of_nat i) = x).
    { intros i x Hi Hx. apply nthz_lookup. rewrite lookup_app_r by (cbn; lia).
      rewrite lookup_app_r by (cbn; lia). rewrite lookup_app_l by (cbn; lia). rewrite <- Hx. f_equal. cbn. lia. }
    pose proof (ymodem_crc16_range pay) as Hr.
    pose proof (N 0%nat _ ltac:(lia) eq_refl) as N0. pose proof (N 1%nat _ ltac:(lia) eq_refl) as N1.
    replace (4 + Z.of_nat (data_len st)) with (3 + Z.of_nat (data_len st) + Z.of_nat 1) by lia.
    replace (3 + Z.of_nat (data_len st)) with (3 + Z.of_nat (data_len st) + Z.of_nat 0) at 1 by lia.
    rewrite N0, N1. set (c := ymodem_crc16 pay) in *.
    rewrite lor_bytes by done. by apply u16_small.
Qed.

Lemma skip_garbage_frame st seq pay rest :
  block_ok st seq pay -> skip_garbage (ym_frame st seq pay ++ rest) = 0%nat.
Proof. intros [[-> | ->] _ _ _]; done. Qed.

(** ** What the receiver relies on in the OTA module *)

(** [rx_idle o h]: no session is open and a package with header [h] would be
    accepted; [rx_open o h img]: a session is open and has received [img]. *)
Class OtaReceiver (OS : Type) `{OtaOps OS} : Type := {
  rx_idle : OS -> ota_package_header_t -> Prop;
  rx_open : OS -> ota_package_header_t -> list Z -> Prop;
  rx_start o h : rx_idle o h -> exists o', oo_start h o = Ret OTA_MODULE_ERR_OK o' /\ rx_open o' h [];
  rx_chunk o h img d : rx_open o h img -> 0 < zlen d -> zlen img + zlen d <= total h -> bytes_ok d ->
    exists o', oo_download (zlen img) d (zlen d) o = Ret OTA_MODULE_ERR_OK o' /\ rx_open o' h (img ++ d)
}.

(** The OTA module on a working platform is such a receiver, for the slot [i]
    its record [r] selects. *)
Section Module.
Context `{B : OtaBuild} {BL : OtaBuildLaws} {P : Type} `{OtaPlatformLaws P}.

Definition opened (r : ota_record_info_t) (i : nat) (a : ota_app_info_t) : ota_record_info_t :=
  seal (set_info_crc32 0 (set_app i (downloading_app a) r)).

#[program] Definition ota_receiver (r : ota_record_info_t) (i : nat) (a : ota_app_info_t)
  : OtaReceiver (ota_state P) := {|
  rx_idle s h := ready s /\ started (g_dl s) = false /\ record_at (plat s) r /\
    choose_target_ota_slot r = Some i /\ ota_app_info r !! i = Some a /\ slot_layout a /\ header_for h a;
  rx_open s h img := downloading s (opened r i a) i (downloading_app a) h img
|}.
Next Obligation.
  intros r i a s h (Hr & Hst & Hrec & Hch & Hi & Hl & Hh).
  destruct (download_start_ok s r i a h Hr Hst Hrec Hch Hi Hl Hh) as (s' & E & D & _). eauto.
Qed.
Next Obligation.
  intros r i a s h img d D Hd Hfit Hb.
  destruct (download_chunk_ok s _ i _ h img d D Hd Hfit Hb) as (s' & E & D' & _). eauto.
Qed.
End Module.

(** ** Blocks of a file *)
Section File.
Context {OS : Type} `{RX : OtaReceiver OS}.
Variable h : ota_package_header_t.
Variable tail : list Z.
Hypothesis h_wf : header_wf h.
Hypothesis h_total : Z.of_nat sizeof_header <= total h < 4294967296.
Implicit Types y : ym OS.

(** The bytes of the data blocks, in order: the package, then padding. *)
Definition file_bytes : list Z := enc_header h ++ tail.

(** [got] is what the data blocks have carried so far. *)
Record file_rx (r : sess_t) (o : OS) (got : list Z) : Prop := mkFileRx {
  fr_prefix : got `prefix_of` file_bytes;
  fr_header : (length got < sizeof_header)%nat ->
    s_hdr_done r = false /\ s_hdr_accum_len r = zlen got /\ length (s_hdr_accum r) = sizeof_header /\
    take (length got) (s_hdr_accum r) = got /\ rx_idle o h;
  fr_body : (sizeof_header <= length got)%nat ->
    s_hdr_done r = true /\ s_ota_session r = true /\ s_expected_total r = total h /\
    s_ota_offset r = Z.min (zlen got) (total h) /\
    rx_open o h (take (Z.to_nat (total h)) got)
}.

(** The part of the session a payload does not touch. *)
Record same_session (r r' : sess_t) : Prop := mkSameSession {
  ss_sb1 : s_sb1 r' = s_sb1 r;
  ss_sb2 : s_sb2 r' = s_sb2 r;
  ss_phase : s_in_filename_phase r' = s_in_filename_phase r;
  ss_seq : s_expected_seq r' = s_expected_seq r;
  ss_acked : s_last_acked_seq r' = s_last_acked_seq r;
  ss_eot : s_eot_count r' = s_eot_count r;
  ss_can : s_can_count r' = s_can_count r;
  ss_tail : s_wire_tail_discard r' = s_wire_tail_discard r;
  ss_nak : s_nak_streak r' = s_nak_streak r
}.

Lemma same_session_trans r1 r2 r3 : same_session r1 r2 -> same_session r2 r3 -> same_session r1 r3.
Proof. intros [] []. split; congruence. Qed.

Definition with_sess (r : sess_t) (o : OS) y : ym OS := mkYm r (y_link y) (y_rxq y) (y_io y) o.

Lemma length_header : length (enc_header h) = sizeof_header.
Proof. apply length_enc_header, h_wf. Qed.

Lemma bytes_ok_header : bytes_ok (enc_header h).
Proof.
  destruct h_wf as [_ _ _ _ _ _ Hv _]. unfold enc_header, enc_header_body.
  repeat apply bytes_ok_app; auto using bytes_ok_le_enc.
Qed.

Lemma prefix_header got :
  got `prefix_of` file_bytes -> (length got <= sizeof_header)%nat ->
  got = take (length got) (enc_header h).
Proof.
  intros [k E] Hl. unfold file_bytes in E. rewrite <- length_header in Hl.
  assert (take (length got) (enc_header h ++ tail) = got) as Et by (rewrite E; apply take_app_length).
  by rewrite take_app_le in Et.
Qed.

Lemma prefix_step (got p : list Z) k :
  got ++ p `prefix_of` file_bytes -> got ++ take k p `prefix_of` file_bytes.
Proof.
  intros Hp. etransitivity; [|exact Hp]. apply prefix_app. exists (drop k p). by rewrite take_drop.
Qed.

Lemma on_ota_ret {A} (m : M OS A) y a o : m (y_ota y) = Ret a o -> on_ota m y = Ret a (set_ota o y).
Proof. intros E. unfold on_ota. by rewrite (zoom_ret_eq _ _ _ _ _ _ E). Qed.

(** One round on the header bytes. *)
Lemma header_accum (got p acc : list Z) n :
  (length got < sizeof_header)%nat -> (n <= length p)%nat -> (length got + n <= sizeof_header)%nat ->
  length acc = sizeof_header -> take (length got) acc = got ->
  let acc' := memcpy_at (length got) (take n p) acc in
  length acc' = sizeof_header /\ take (length got + n) acc' = got ++ take n p.
Proof.
  intros Hg Hn Hs Ha Ht acc'. unfold acc'. split.
  - rewrite length_memcpy_at by (rewrite length_take; lia). done.
  - unfold memcpy_at. rewrite Ht, app_assoc, take_app_length'; [done|].
    rewrite length_app, length_take. lia.
Qed.

(** What one round of the payload loop establishes. *)
Definition step_result (got p : list Z) y (o : option (list Z)) y' : Prop :=
  y' = with_sess (y_sess y') (y_ota y') y /\ same_session (y_sess y) (y_sess y') /\
  match o with
  | None => file_rx (y_sess y') (y_ota y') (got ++ p)
  | Some rest => exists c, p = c ++ rest /\ file_rx (y_sess y') (y_ota y') (got ++ c) /\
                   (length rest < length p)%nat
  end.

Lemma payload_step_header got p y :
  file_rx (y_sess y) (y_ota y) got -> (length got < sizeof_header)%nat ->
  (got ++ p) `prefix_of` file_bytes -> bytes_ok p -> p <> [] -> zlen p <= 65535 ->
  exists o y', payload_step p y = Ret o y' /\ step_result got p y o y'.
Proof.
  intros [Hpre Hh _] Hlt Hfull Hb Hne Hp. destruct (Hh Hlt) as (Hd & Hal & Hacl & Hact & Hidle).
  set (n := Z.to_nat (Z.min (zlen p) (56 - zlen got))).
  assert (Hn : (0 < n <= length p)%nat /\ (length got + n <= sizeof_header)%nat).
  { assert (length p <> 0%nat) by (by destruct p). unfold n, zlen, sizeof_header in *. lia. }
  destruct (header_accum got p (s_hdr_accum (y_sess y)) n) as [Hl' Ht']; try lia; auto.
  unfold payload_step. erewrite bind_ret_eq by reflexivity. rewrite Hd. cbn [negb]. cbv zeta.
  rewrite Hal. replace (u16 (Z.of_nat sizeof_header - zlen got)) with (56 - zlen got)
    by (rewrite u16_small; unfold zlen, sizeof_header in *; lia).
  change (Z.to_nat (Z.min (zlen p) (56 - zlen got))) with n.
  replace (Z.to_nat (zlen got)) with (length got) by (unfold zlen; lia).
  set (acc' := memcpy_at _ _ _) in *.
  replace (u16 (zlen got + Z.min (zlen p) (56 - zlen got))) with (zlen got + Z.of_nat n)
    by (rewrite u16_small; unfold n, zlen, sizeof_header in *; lia).
  erewrite bind_ret_eq by reflexivity.
  pose proof (prefix_step got p n Hfull) as Hpre'.
  assert (Hsplit : p = take n p ++ drop n p) by (by rewrite take_drop).
  assert (Hdl : (length (drop n p) < length p)%nat) by (rewrite length_drop; lia).
  assert (Hgl : length (got ++ take n p) = (length got + n)%nat) by (rewrite length_app, length_take; lia).
  destruct (_ <=? zlen got + Z.of_nat n) eqn:Ec; cbool.
  2:{ eexists _, _. split; [reflexivity|]. split_and!; [done|done|]. exists (take n p). split_and!; auto.
      split; [done|intros _; cbn; rewrite Hgl; split_and!; auto; unfold zlen; rewrite Hgl; lia|].
      intros Hge. rewrite Hgl in Hge. unfold zlen, sizeof_header in *. lia. }
  assert (Hk : (length got + n)%nat = sizeof_header) by (unfold zlen, sizeof_header in *; lia).
  assert (Hacc : acc' = enc_header h).
  { rewrite <- (take_ge acc' (length got + n)) by lia. rewrite Ht'.
    rewrite (prefix_header (got ++ take n p)) by (done || lia). rewrite Hgl, Hk, <- length_header.
    by rewrite firstn_all. }
  rewrite Hacc, dec_enc_header by done.
  destruct (rx_start (y_ota y) h Hidle) as (o1 & E1 & Ho1).
  erewrite bind_ret_eq by (apply on_ota_ret; exact E1). cbn [err_ok negb].
  erewrite bind_ret_eq by reflexivity.
  assert (Hez : zlen (enc_header h) = Z.of_nat sizeof_header) by (unfold zlen; by rewrite length_header).
  destruct (rx_chunk o1 h [] (enc_header h) Ho1) as (o2 & E2 & Ho2);
    [rewrite Hez; unfold sizeof_header; lia|change (zlen (@nil Z)) with 0; rewrite Hez; lia|apply bytes_ok_header|].
  rewrite Hez in E2. change (zlen (@nil Z)) with 0 in E2.
  erewrite bind_ret_eq by (apply on_ota_ret; exact E2). cbn [err_ok negb].
  erewrite bind_ret_eq by reflexivity.
  assert (Hsum : app_offset h +u app_size h = total h) by (apply u32_small; unfold total in *; lia).
  assert (Hgt : got ++ take n p = enc_header h)
    by (rewrite <- Hacc, <- Ht'; apply take_ge; lia).
  eexists _, _. split; [reflexivity|]. split_and!; [done|done|]. exists (take n p). split_and!; auto.
  rewrite Hgt in *. split; [done|lia|]. intros _. cbn -[enc_header zlen sizeof_header take Z.of_nat Z.to_nat]. rewrite Hsum, Hez. split_and!; auto; [lia|].
  rewrite take_ge by (rewrite length_header; unfold sizeof_header in *; lia). exact Ho2.
Qed.

Lemma payload_step_body got p y :
  file_rx (y_sess y) (y_ota y) got -> (sizeof_header <= length got)%nat ->
  (got ++ p) `prefix_of` file_bytes -> bytes_ok p -> p <> [] -> zlen p <= 65535 ->
  exists o y', payload_step p y = Ret o y' /\ step_result got p y o y'.
Proof.
  intros [Hpre _ Hbody] Hge Hfull Hb Hne Hp. destruct (Hbody Hge) as (Hd & Hses & Het & Hoff & Hopen).
  assert (Hpos : 0 < zlen p) by (unfold zlen; assert (length p <> 0%nat) by (by destruct p); lia).
  unfold payload_step. erewrite bind_ret_eq by reflexivity. rewrite Hd. cbn [negb]. cbv zeta.
  rewrite Het, Hoff, (proj2 (Z.leb_le _ _)) by lia.
  destruct (total h - Z.min (zlen got) (total h) =? 0) eqn:E0; cbool.
  - eexists _, _. split; [reflexivity|]. split_and!; [by destruct y|done|]. split; [done| |].
    + rewrite length_app. lia.
    + intros _. rewrite Het, Hoff. split_and!; auto.
      * unfold zlen in *. rewrite length_app. lia.
      * rewrite take_app_le; [done|]. unfold zlen in *. lia.
  - assert (Hlt : zlen got < total h) by lia. rewrite Z.min_l in * by lia.
    set (chunk := if _ <? zlen p then _ else zlen p).
    assert (Hc : chunk = Z.min (total h - zlen got) (zlen p)).
    { unfold chunk. destruct (_ <? _) eqn:E; cbool; [rewrite u16_small|]; lia. }
    clearbody chunk. set (n := Z.to_nat chunk).
    assert (Hn : (0 < n <= length p)%nat /\ Z.of_nat n = chunk) by (unfold n, zlen in *; lia).
    assert (Hnl : zlen (take n p) = chunk) by (unfold zlen; rewrite length_take; lia).
    rewrite take_ge in Hopen by (unfold zlen in *; lia).
    destruct (rx_chunk (y_ota y) h got (take n p) Hopen) as (o1 & E1 & Ho1); try lia.
    { by apply Forall_take. }
    rewrite Hnl in E1. erewrite bind_ret_eq by (apply on_ota_ret; exact E1). cbn [err_ok negb].
    erewrite bind_ret_eq by reflexivity. eexists _, _. split; [reflexivity|]. split_and!; [done|done|].
    assert (Hgl : length (got ++ take n p) = (length got + n)%nat) by (rewrite length_app, length_take; lia).
    exists (take n p). split_and!; [by rewrite take_drop| |rewrite length_drop; lia].
    split; [by apply prefix_step|lia|]. intros _. cbn. rewrite Het, Hoff, Hd. split_and!; auto.
    + rewrite u32_small by (unfold zlen in *; lia). unfold zlen in *. rewrite Hgl. lia.
    + rewrite take_ge by (unfold zlen in *; lia). done.
Qed.

Lemma payload_loop_file fuel : forall p got y,
  file_rx (y_sess y) (y_ota y) got -> (got ++ p) `prefix_of` file_bytes -> bytes_ok p ->
  zlen p <= 65535 -> (length p <= fuel)%nat ->
  exists y', payload_loop fuel p y = Ret tt y' /\ y' = with_sess (y_sess y') (y_ota y') y /\
    same_session (y_sess y) (y_sess y') /\ file_rx (y_sess y') (y_ota y') (got ++ p).
Proof.
  induction fuel as [|fuel IH]; intros [|b p] got y Hf Hpre Hb Hl Hfuel.
  1, 3: exists y; rewrite app_nil_r; destruct y; split_and!; done.
  { simpl in Hfuel. lia. }
  cbn [payload_loop].
  assert (Hs : exists o y', payload_step (b :: p) y = Ret o y' /\ step_result got (b :: p) y o y').
  { destruct (decide (length got < sizeof_header)%nat);
      [by apply payload_step_header|apply payload_step_body; auto; lia]. }
  destruct Hs as (o & y1 & E1 & Hy1 & Hss1 & Ho). mrun E1. destruct o as [rest|]; [|by exists y1].
  destruct Ho as (c & Ec & Hf1 & Hlt). rewrite Ec in *.
  destruct (IH rest (got ++ c) y1) as (y2 & E2 & Hy2 & Hss2 & Hf2); auto.
  - by rewrite <- app_assoc.
  - by apply Forall_app in Hb as [].
  - unfold zlen in *. rewrite length_app in Hl. lia.
  - rewrite length_app in *. simpl in Hfuel. assert (length (c ++ rest) = S (length p)) by (by rewrite <- Ec).
    rewrite length_app in *. lia.
  - exists y2. rewrite app_assoc. split_and!; auto; [|by eapply same_session_trans].
    rewrite Hy2, Hy1. done.
Qed.

Lemma append_payload_file p got y :
  file_rx (y_sess y) (y_ota y) got -> (got ++ p) `prefix_of` file_bytes -> bytes_ok p -> zlen p <= 65535 ->
  exists r o, append_file_payload p y = Ret tt (with_sess r o y) /\
    same_session (y_sess y) r /\ file_rx r o (got ++ p).
Proof.
  intros Hf Hpre Hb Hl. destruct (payload_loop_file (length p + 1) p got y Hf Hpre Hb Hl)
    as (y1 & E1 & Hy1 & S1 & F1); [lia|].
  exists (y_sess y1), (y_ota y1). rewrite <- Hy1. done.
Qed.

(** *** One block *)
Definition logged (u : uart) (b : Z) (i : io_t) : io_t := set_tx_log (tx_log i ++ [(u, b)]) i.

Lemma send_ack_eq u y : s_active (y_link y) = Some u ->
  send_ack y = Ret tt (mkYm (y_sess y) (y_link y) (y_rxq y) (logged u YM_ACK (y_io y)) (y_ota y)).
Proof. intros E. unfold send_ack, link. erewrite bind_ret_eq by reflexivity. by rewrite E. Qed.

(** The session between two data blocks of a file. *)
Record between (r : sess_t) (o : OS) (seq : Z) (got : list Z) : Prop := mkBetween {
  bt_phase : s_in_filename_phase r = false;
  bt_seq : s_expected_seq r = seq;
  bt_eot : s_eot_count r = 0;
  bt_tail : s_wire_tail_discard r = false;
  bt_nak : 0 <= s_nak_streak r < NAK_RETRIES;
  bt_file : file_rx r o got
}.

Lemma data_block_ok u y seq pay got :
  s_active (y_link y) = Some u -> between (y_sess y) (y_ota y) seq got -> is_byte seq ->
  (got ++ pay) `prefix_of` file_bytes -> bytes_ok pay -> zlen pay <= 65535 ->
  exists r' o', handle_data_block seq pay y
      = Ret tt (mkYm r' (y_link y) (y_rxq y) (logged u YM_ACK (y_io y)) o') /\
    between r' o' (u8 (seq + 1)) (got ++ pay) /\
    (forall v, stream v r' = stream v (y_sess y)).
Proof.
  intros Ha [Hph Hsq He Ht Hn Hf] Hs Hpre Hb Hl. unfold handle_data_block.
  erewrite bind_ret_eq by reflexivity. rewrite Hsq, Z.eqb_refl, Hph. cbn [negb].
  destruct (append_payload_file pay got y Hf Hpre Hb Hl) as (r1 & o1 & E1 & S1 & F1).
  mrun E1. erewrite bind_ret_eq by reflexivity. pose proof (ss_nak _ _ S1) as Hnk.
  cbn [y_sess with_sess]. rewrite Hnk, (proj2 (Z.leb_gt _ _)) by (unfold NAK_RETRIES in *; lia).
  erewrite bind_ret_eq by reflexivity.
  erewrite (bind_ret_eq send_ack) by (apply (send_ack_eq u); exact Ha).
  eexists _, _. split; [reflexivity|]. destruct S1 as [Q1 Q2 Q3 Q4 Q5 Q6 Q7 Q8 Q9]. split.
  - split; cbn; try congruence; [unfold NAK_RETRIES; lia|]. destruct F1 as [G1 G2 G3]. by split.
  - intros []; cbn; congruence.
Qed.

(** *** One frame *)
Lemma set_stream_id u r : set_stream u (stream u r) r = r.
Proof. by destruct u, r. Qed.

Lemma stream_set u l r : stream u (set_stream u l r) = l.
Proof. by destruct u. Qed.

(** A frame at the head of the buffer goes to the block handler and is taken
    off. *)
Lemma frame_body_eq u y st seq pay :
  block_ok st seq pay -> (s_eot_count (y_sess y) < 2) ->
  frame_body u (ym_frame st seq pay) y
  = ((if negb (s_locked (y_link y)) then lock_ports u else mret tt);;
     handle_data_block seq pay;; consume u (frame_len st)) y.
Proof.
  intros Hk He. destruct (frame_fields st seq pay [] Hk) as (F0 & F1 & F2 & F3 & F4).
  rewrite app_nil_r in F0, F1, F2, F3, F4. unfold frame_body. cbv zeta. rewrite F0, F1, F2, F3, F4.
  erewrite bind_ret_eq by reflexivity. replace (seq + (255 - seq)) with 255 by lia.
  rewrite !Z.eqb_refl. cbn [negb Z.eqb u8]. change (u8 255 =? 255) with true. cbn [negb].
  erewrite bind_ret_eq by reflexivity. rewrite (proj2 (Z.leb_gt 2 _)) by done.
  by rewrite andb_false_r.
Qed.

Lemma frame_body_block u y st seq pay y1 y2 :
  block_ok st seq pay -> (s_eot_count (y_sess y) < 2) ->
  (if s_locked (y_link y) then mret tt else lock_ports u) y = Ret tt y1 ->
  handle_data_block seq pay y1 = Ret tt y2 -> stream u (y_sess y2) = ym_frame st seq pay ->
  frame_body u (ym_frame st seq pay) y
  = Ret tt (mkYm (set_stream u [] (y_sess y2)) (y_link y2) (y_rxq y2) (y_io y2) (y_ota y2)).
Proof.
  intros Hk He E1 E2 Hst. rewrite frame_body_eq by done.
  assert (E1' : (if negb (s_locked (y_link y)) then lock_ports u else mret tt) y = Ret tt y1)
    by (by destruct (s_locked (y_link y))).
  mrun E1'. mrun E2. unfold consume. erewrite bind_ret_eq by reflexivity. rewrite Hst.
  rewrite (length_ym_frame st seq pay) by apply Hk. rewrite Nat.ltb_irrefl.
  rewrite drop_ge by (rewrite (length_ym_frame st seq pay) by apply Hk; done). done.
Qed.

(** The receiver as the frame handler sees it: the CAN counter is cleared. *)
Definition no_can y : ym OS :=
  mkYm (set_s_can_count 0 (y_sess y)) (y_link y) (y_rxq y) (y_io y) (y_ota y).

Lemma frame_step_eq eot u y st seq pay :
  block_ok st seq pay -> stream u (y_sess y) = ym_frame st seq pay ->
  (s_locked (y_link y) = true -> s_active (y_link y) = Some u) ->
  frame_step eot u y = (frame_body u (ym_frame st seq pay);; mret true) (no_can y).
Proof.
  intros Hk Hst Hlk. unfold frame_step. erewrite bind_ret_eq by reflexivity. rewrite Hst.
  pose proof (skip_garbage_frame st seq pay [] Hk) as Hg. rewrite app_nil_r in Hg. rewrite Hg, drop_0.
  erewrite bind_ret_eq by (unfold on_sess, modify; rewrite <- Hst, set_stream_id; reflexivity).
  erewrite bind_ret_eq by reflexivity. cbn [y_link].
  destruct (ym_frame st seq pay) as [|b0 l] eqn:El; [done|].
  assert (Hb0 : b0 = st) by (unfold ym_frame in El; cbn [app] in El; congruence). subst b0.
  assert (Hand : s_locked (y_link y) && negb (bool_decide (s_active (y_link y) = Some u)) = false).
  { destruct (s_locked (y_link y)); [|done]. rewrite bool_decide_true by auto. done. }
  rewrite Hand. assert (Hc : (st =? YM_CAN) = false /\ (st =? YM_EOT) = false)
    by (destruct Hk as [[-> | ->] _ _ _]; done).
  destruct Hc as [-> ->]. erewrite bind_ret_eq by reflexivity.
  assert (Hlen : (length (st :: l) <? frame_len st)%nat = false)
    by (rewrite <- El, length_ym_frame by apply Hk; apply Nat.ltb_irrefl). rewrite Hlen.
  done.
Qed.

Lemma frame_step_frame eot u y st seq pay y' :
  block_ok st seq pay -> stream u (y_sess y) = ym_frame st seq pay ->
  (s_locked (y_link y) = true -> s_active (y_link y) = Some u) ->
  frame_body u (ym_frame st seq pay) (no_can y) = Ret tt y' ->
  frame_step eot u y = Ret true y'.
Proof. intros Hk Hst Hlk E. rewrite (frame_step_eq eot u y st seq pay) by done. mrun E. done. Qed.

(** A frame received as one block while the reassembly buffer is empty. *)
Definition recv_frame (fuel : nat) (u : uart) (st seq : Z) (pay : list Z) : M (ym OS) unit :=
  append_stream_with (try_consume_frame fuel) u (ym_frame st seq pay) (zlen (ym_frame st seq pay)).

Lemma recv_frame_eq fuel u y st seq pay y' :
  block_ok st seq pay -> stream u (y_sess y) = [] ->
  (s_locked (y_link y) = true -> s_active (y_link y) = Some u) ->
  frame_body u (ym_frame st seq pay)
    (no_can (mkYm (set_stream u (ym_frame st seq pay) (y_sess y)) (y_link y) (y_rxq y) (y_io y) (y_ota y)))
    = Ret tt y' -> stream u (y_sess y') = [] ->
  recv_frame (S (S fuel)) u st seq pay y = Ret tt y'.
Proof.
  intros Hk Hst Hlk E Hst'. unfold recv_frame, append_stream_with. erewrite bind_ret_eq by reflexivity.
  rewrite Hst. pose proof (length_ym_frame st seq pay (bk_len _ _ _ Hk)) as Hl.
  pose proof (frame_len_bound st) as Hb.
  rewrite (proj2 (Z.ltb_ge _ _)) by (unfold zlen, STREAM_MAX; rewrite Hl; simpl length; lia).
  rewrite Z.ltb_irrefl. unfold zlen. rewrite Nat2Z.id, firstn_all. cbn [app].
  erewrite bind_ret_eq by reflexivity. set (y1 := mkYm _ _ _ _ _) in *.
  cbn [try_consume_frame]. erewrite bind_ret_eq by reflexivity.
  assert (Hs1 : stream u (y_sess y1) = ym_frame st seq pay) by apply stream_set. rewrite Hs1.
  assert (Estep : frame_step (handle_eot (S fuel)) u y1 = Ret true y')
    by (eapply frame_step_frame; eauto).
  destruct (ym_frame st seq pay) eqn:Ef; [done|]. rewrite <- Ef in *. mrun Estep.
  erewrite bind_ret_eq by reflexivity. by rewrite Hst'.
Qed.

(** *** The blocks of a file *)
Fixpoint recv_blocks (fuel : nat) (u : uart) (seq : Z) (blocks : list (Z * list Z)) : M (ym OS) unit :=
  match blocks with
  | [] => mret tt
  | (st, pay) :: bs => recv_frame fuel u st seq pay;; recv_blocks fuel u (u8 (seq + 1)) bs
  end.

Definition payloads (blocks : list (Z * list Z)) : list Z := concat (map snd blocks).
Definition seq_after (seq : Z) (n : nat) : Z := Nat.iter n (fun s => u8 (s + 1)) seq.

(** The link when the transfer runs on [u]. *)
Definition linked (u : uart) y : Prop := s_locked (y_link y) = true /\ s_active (y_link y) = Some u.

Definition acks (u : uart) (n : nat) (i : io_t) : io_t := Nat.iter n (logged u YM_ACK) i.

Lemma recv_data_frame fuel u y st seq pay got :
  block_ok st seq pay -> linked u y -> stream u (y_sess y) = [] ->
  between (y_sess y) (y_ota y) seq got -> (got ++ pay) `prefix_of` file_bytes ->
  exists r' o', recv_frame (S (S fuel)) u st seq pay y
      = Ret tt (mkYm r' (y_link y) (y_rxq y) (logged u YM_ACK (y_io y)) o') /\
    between r' o' (u8 (seq + 1)) (got ++ pay) /\ stream u r' = [].
Proof.
  intros Hk [Hlk Hact] Hst Hbt Hpre. set (l := ym_frame st seq pay).
  set (y1 := no_can (mkYm (set_stream u l (y_sess y)) (y_link y) (y_rxq y) (y_io y) (y_ota y))).
  assert (Hbt1 : between (y_sess y1) (y_ota y1) seq got).
  { destruct Hbt as [B1 B2 B3 B4 B5 [G1 G2 G3]]. unfold y1, no_can. cbn [y_sess y_ota].
    destruct u; split; try done. }
  assert (Hzl : zlen pay <= 65535) by (destruct Hk as [_ _ Hl _]; unfold zlen; rewrite Hl;
    unfold data_len; destruct (_ =? _); lia).
  destruct (data_block_ok u y1 seq pay got Hact Hbt1 (bk_seq _ _ _ Hk) Hpre (bk_bytes _ _ _ Hk) Hzl)
    as (r2 & o2 & E2 & B2 & S2).
  assert (Hs1 : stream u (y_sess y1) = l) by (unfold y1, no_can; by destruct u).
  exists (set_stream u [] r2), o2. split; [|split].
  - eapply recv_frame_eq; [done|done|done| |].
    + change (no_can _) with y1. etransitivity; [eapply (frame_body_block u y1 st seq pay y1);
        [done|rewrite (bt_eot _ _ _ _ Hbt1); lia| |exact E2|]|reflexivity].
      * unfold y1, no_can. cbn [y_link]. by rewrite Hlk.
      * cbn [y_sess]. by rewrite S2.
    + cbn [y_sess]. apply stream_set.
  - destruct B2 as [B1 B3 B4 B5 B6 [G1 G2 G3]]. destruct u; split; try done.
  - apply stream_set.
Qed.

Lemma recv_blocks_ok fuel u blocks : forall y seq got,
  linked u y -> stream u (y_sess y) = [] -> is_byte seq -> between (y_sess y) (y_ota y) seq got ->
  Forall (fun b => forall s, is_byte s -> block_ok (fst b) s (snd b)) blocks ->
  (got ++ payloads blocks) `prefix_of` file_bytes ->
  exists r' o', recv_blocks (S (S fuel)) u seq blocks y
      = Ret tt (mkYm r' (y_link y) (y_rxq y) (acks u (length blocks) (y_io y)) o') /\
    between r' o' (seq_after seq (length blocks)) (got ++ payloads blocks) /\ stream u r' = [].
Proof.
  induction blocks as [|[st pay] bs IH]; intros y seq got Hlk Hst Hsq Hbt Hok Hpre.
  { exists (y_sess y), (y_ota y). rewrite app_nil_r. by destruct y. }
  apply Forall_cons in Hok as [Hk Hok]. cbn [fst snd] in Hk. unfold payloads in Hpre. cbn [map concat snd] in Hpre.
  rewrite app_assoc in Hpre. cbn [recv_blocks].
  destruct (recv_data_frame fuel u y st seq pay got) as (r1 & o1 & E1 & B1 & S1); auto.
  { eapply prefix_app_l. exact Hpre. }
  mrun E1. set (y1 := mkYm r1 _ _ _ o1).
  destruct (IH y1 (u8 (seq + 1)) (got ++ pay)) as (r2 & o2 & E2 & B2 & S2); auto.
  { apply u8_range. }
  exists r2, o2. rewrite E2. unfold payloads. cbn [map concat snd length].
  rewrite app_assoc. split_and!; auto.
  - unfold acks, y1. cbn [y_link y_rxq y_io]. by rewrite <- Nat.iter_succ_r.
  - unfold seq_after. by rewrite Nat.iter_succ_r.
Qed.
End File.
