(* ===== verification/YmodemHost.v ===== *)
(** The opening and the end of a Ymodem session: the name block that locks the
    link, and the two EOT bytes that finish the update and start the image. *)
From S2P Require Import Prelude FlashPort OtaModule OtaLaws OtaSession BootYmodem YmodemLaws YmodemSession.

Section Host.
Context {OS : Type} `{RX : OtaReceiver OS}.
Implicit Types y : ym OS.

(** The session variables after a reset. *)
Definition sess_clear : sess_t :=
  mkSess [] [] false 0 255 0 (replicate sizeof_header 0) 0 false 0 0 0 false 0 false.

(** A receiver that waits for a host. *)
Record listening y : Prop := mkListening {
  ls_sess : y_sess y = sess_clear;
  ls_locked : s_locked (y_link y) = false
}.

Definition lock_link (u : uart) (r : link_t) : link_t :=
  set_g_boot_debug_uart (other u) (set_s_debug (other u) (set_s_active (Some u) (set_s_locked true r))).
Definition lock_sess (u : uart) (r : sess_t) : sess_t :=
  set_s_eot_count 0 (set_s_in_filename_phase true (set_s_expected_seq 0 (set_stream (other u) [] r))).

Lemma lock_ports_eq u y :
  lock_ports u y = Ret tt (mkYm (lock_sess u (y_sess y)) (lock_link u (y_link y)) (y_rxq y)
                             (set_armed (other u) false (y_io y)) (y_ota y)).
Proof. by destruct u. Qed.

Lemma name_block_eq y u pay :
  s_expected_seq (y_sess y) = 0 -> s_in_filename_phase (y_sess y) = true ->
  s_active (y_link y) = Some u ->
  handle_data_block 0 pay y
  = Ret tt (mkYm (set_s_nak_streak 0 (set_s_last_acked_seq 0 (set_s_expected_seq 1
                    (set_s_in_filename_phase false (y_sess y))))) (y_link y) (y_rxq y)
              (logged u YM_ACK (y_io y)) (y_ota y)).
Proof.
  intros Hs Hp Ha. unfold handle_data_block. erewrite bind_ret_eq by reflexivity. rewrite Hs, Hp.
  cbn [Z.eqb negb]. erewrite bind_ret_eq by reflexivity.
  by erewrite (bind_ret_eq send_ack) by (apply (send_ack_eq u); exact Ha).
Qed.

(** The name block locks the link on the UART it came from. *)
Lemma recv_name_frame fuel u y st pay h tail :
  listening y -> block_ok st 0 pay -> rx_idle (y_ota y) h ->
  exists y', recv_frame (S (S fuel)) u st 0 pay y = Ret tt y' /\ linked u y' /\
    stream u (y_sess y') = [] /\ between h tail (y_sess y') (y_ota y') 1 [] /\
    y_rxq y' = y_rxq y /\ y_ota y' = y_ota y /\ script (y_io y') = script (y_io y).
Proof.
  intros [Hs Hl] Hk Hidle. set (l := ym_frame st 0 pay).
  set (y1 := no_can (mkYm (set_stream u l (y_sess y)) (y_link y) (y_rxq y) (y_io y) (y_ota y))).
  set (y2 := mkYm (lock_sess u (y_sess y1)) (lock_link u (y_link y1)) (y_rxq y1)
               (set_armed (other u) false (y_io y1)) (y_ota y1)).
  assert (E1 : (if s_locked (y_link y1) then mret tt else lock_ports u) y1 = Ret tt y2)
    by (unfold y1, no_can; cbn [y_link]; rewrite Hl; apply lock_ports_eq).
  eexists. split; [|split_and!].
  - eapply recv_frame_eq; [done|by rewrite Hs; destruct u|by rewrite Hl| |].
    + change (no_can _) with y1. eapply (frame_body_block u y1 st 0 pay y2); [done| |exact E1| |].
      * unfold y1, no_can. cbn [y_sess]. rewrite Hs. by destruct u.
      * eapply (name_block_eq y2 u); by destruct u.
      * unfold y2, y1, no_can. cbn [y_sess]. rewrite Hs. by destruct u.
    + cbn [y_sess]. apply stream_set.
  - by split.
  - apply stream_set.
  - unfold y2, y1, no_can. cbn [y_sess y_ota]. rewrite Hs.
    destruct u; (split; [done..|cbn; unfold NAK_RETRIES; lia|]); (split; [apply prefix_nil|intros _; split_and!; done|]);
      intros Hx; cbn in Hx; unfold sizeof_header in Hx; lia.
  - done.
  - done.
  - by destruct u.
Qed.

(** ** A quiet line *)
Definition with_io (i : io_t) y : ym OS := mkYm (y_sess y) (y_link y) (y_rxq y) i (y_ota y).

Record quiet y : Prop := mkQuiet {
  qt_script : script (y_io y) = [];
  qt_queue : s_q_r (y_rxq y) = s_q_w (y_rxq y);
  qt_ovf : s_chunk_overflow (y_rxq y) = false
}.

Lemma delay_quiet ms y : quiet y ->
  HAL_Delay ms y = Ret tt (mkYm (y_sess y) (y_link y) (y_rxq y) (set_tick (tick (y_io y) +u ms) (y_io y)) (y_ota y)).
Proof. intros [Hs _ _]. unfold HAL_Delay. erewrite bind_ret_eq by reflexivity. by rewrite Hs. Qed.

(** On a quiet line the wait for the end of a transmission ends, whatever the
    flag does, and moves only the clock. *)
Lemma tc_reset_io y : exists b i, uart_tc_reset y = Ret b (with_io i y) /\
  script i = script (y_io y) /\ tick i = tick (y_io y).
Proof.
  unfold uart_tc_reset. erewrite bind_ret_eq by reflexivity.
  destruct (tx_busy (y_io y)) as [|[|n] l]; eexists _, _; (split; [|split]); try reflexivity. by destruct y as [? ? ? [] ?].
Qed.

Lemma tc_loop_quiet fuel t0 : forall y, script (y_io y) = [] ->
  (S (Z.to_nat (41 - (tick (y_io y) -u t0))) <= fuel)%nat ->
  exists i, tc_loop fuel t0 y = Ret tt (with_io i y) /\ script i = [].
Proof.
  induction fuel as [|fuel IH]; intros y Hs Hf; [lia|]. cbn [tc_loop].
  destruct (tc_reset_io y) as (b & i & E & Si & Ti). mrun E. destruct b; [|by exists i; rewrite Si].
  erewrite bind_ret_eq by reflexivity. cbn [y_io with_io]. destruct (40 <? _) eqn:Ec; cbool.
  { exists i. by rewrite Si. }
  set (i2 := set_tick (tick i +u 1) i).
  assert (Ed : HAL_Delay 1 (with_io i y) = Ret tt (with_io i2 y)).
  { unfold HAL_Delay. erewrite bind_ret_eq by reflexivity. cbn [y_io with_io]. by rewrite Si, Hs. }
  mrun Ed. destruct (IH (with_io i2 y)) as (i3 & E3 & S3).
  - cbn. by rewrite Si.
  - unfold i2. cbn [y_io with_io tick set_tick]. rewrite Ti in *. unfold u32 in *. lia.
  - by exists i3.
Qed.

Lemma wait_quiet u y : quiet y ->
  exists i, uart_wait_tx_line_done (Some u) y = Ret tt (with_io i y) /\ script i = [].
Proof.
  intros Hq. pose proof Hq as [Hs Hr Ho]. unfold uart_wait_tx_line_done. do 2 erewrite bind_ret_eq by reflexivity.
  destruct (tc_loop_quiet (length (script (y_io y)) + 43) (tick (y_io y)) y Hs) as (i & E & Si).
  { rewrite Z.sub_diag. change (u32 0) with 0. lia. }
  mrun E. rewrite delay_quiet by (by split). eexists. split; [reflexivity|done].
Qed.

Lemma drain_quiet f y : quiet y -> drain_chunks (S (S f)) y = Ret tt y.
Proof.
  intros [_ Hq Ho]. cbn [drain_chunks]. erewrite bind_ret_eq by reflexivity. rewrite Ho.
  cbn [drain_loop]. erewrite bind_ret_eq by reflexivity. by rewrite Hq, Z.eqb_refl.
Qed.

Lemma try_quiet f u y : stream u (y_sess y) = [] -> try_consume_frame (S f) u y = Ret tt y.
Proof. intros Hs. cbn [try_consume_frame]. erewrite bind_ret_eq by reflexivity. by rewrite Hs. Qed.

Lemma tx_eq u b y : tx_byte (Some u) b y = Ret tt (with_io (logged u b (y_io y)) y).
Proof. done. Qed.

Lemma send_c_linked u y : linked u y ->
  send_c_discovery y = Ret tt (with_io (logged u YM_C (y_io y)) y).
Proof.
  intros [Hl Ha]. unfold send_c_discovery, link. erewrite bind_ret_eq by reflexivity. rewrite Hl. cbn [negb].
  erewrite bind_ret_eq by reflexivity. by rewrite Ha.
Qed.

(** The part of the state the end of a session reads, up to the output, the
    clock and the counters it sets. *)
Record ending u y (o : OS) (y' : ym OS) : Prop := mkEnding {
  en_linked : linked u y';
  en_quiet : quiet y';
  en_stream : stream u (y_sess y') = [];
  en_session : s_ota_session (y_sess y') = true;
  en_header : s_hdr_done (y_sess y') = true;
  en_ota : y_ota y' = o
}.

Lemma ending_io u y o y' i :
  ending u y o y' -> script i = script (y_io y') -> ending u y o (with_io i y').
Proof. intros [[A B] [C D E] F G I J] Hs. split; try done. split; try done. cbn. congruence. Qed.

Lemma ending_sess u y o y' f :
  ending u y o y' -> (forall r, stream u (f r) = stream u r /\ s_ota_session (f r) = s_ota_session r /\
    s_hdr_done (f r) = s_hdr_done r) ->
  ending u y o (mkYm (f (y_sess y')) (y_link y') (y_rxq y') (y_io y') (y_ota y')).
Proof.
  intros [[A B] [C D E] F G I J] Hf. destruct (Hf (y_sess y')) as (F1 & F2 & F3).
  split; cbn [y_sess y_ota]; try done; congruence.
Qed.

(** A step that only touches what [ending] ignores. *)
Definition ends u y o {A} (m : M (ym OS) A) : Prop :=
  forall y', ending u y o y' -> exists a y'', m y' = Ret a y'' /\ ending u y o y''.

Lemma ends_bind u y o {A B} (m : M (ym OS) A) (f : A -> M (ym OS) B) (Q : outcome (ym OS) B -> Prop) y' :
  ends u y o m -> ending u y o y' ->
  (forall a y'', ending u y o y'' -> Q (f a y'')) -> Q ((m ≫= f) y').
Proof.
  intros Hm Hy Hf. destruct (Hm y' Hy) as (a & y'' & E & Hy''). by rewrite (bind_ret_eq _ _ _ _ _ E); auto.
Qed.

Lemma ends_tx u y o b : ends u y o (tx_byte (Some u) b).
Proof. intros y' Hy. eexists _, _. split; [reflexivity|]. by apply ending_io. Qed.

Lemma ends_delay u y o ms : ends u y o (HAL_Delay ms).
Proof.
  intros y' Hy. eexists _, _. split; [apply delay_quiet; apply Hy|]. by apply (ending_io _ _ _ y').
Qed.

Lemma ends_wait u y o : ends u y o (uart_wait_tx_line_done (Some u)).
Proof.
  intros y' Hy. destruct (wait_quiet u y' (en_quiet _ _ _ _ Hy)) as (i & E & Si). eexists _, _.
  split; [exact E|]. apply ending_io; [done|]. rewrite Si. by destruct Hy as [_ [-> _ _] _ _ _ _].
Qed.

Lemma ends_sess u y o f :
  (forall r, stream u (f r) = stream u r /\ s_ota_session (f r) = s_ota_session r /\
    s_hdr_done (f r) = s_hdr_done r) -> ends u y o (on_sess f).
Proof. intros Hf y' Hy. eexists _, _. split; [reflexivity|]. by apply ending_sess. Qed.

Lemma ends_ack u y o : ends u y o send_ack.
Proof.
  intros y' Hy. eexists _, _. split; [apply (send_ack_eq u), Hy|]. by apply (ending_io _ _ _ y').
Qed.

Lemma ends_c u y o : ends u y o send_c_discovery.
Proof.
  intros y' Hy. eexists _, _. split; [apply (send_c_linked u), Hy|]. by apply (ending_io _ _ _ y').
Qed.

Lemma ends_drain u y o f : ends u y o (drain_chunks (S (S f))).
Proof. intros y' Hy. eexists _, _. split; [apply drain_quiet, Hy|done]. Qed.

Lemma ends_try u y o f : ends u y o (try_consume_frame (S f) u).
Proof. intros y' Hy. eexists _, _. split; [apply try_quiet, Hy|done]. Qed.

Lemma ends_active u y o {B} (f : option uart -> M (ym OS) B) (Q : outcome (ym OS) B -> Prop) y' :
  ending u y o y' -> Q (f (Some u) y') -> Q ((link s_active ≫= f) y').
Proof. intros [[_ Ha] _ _ _ _ _] Hf. unfold link. erewrite bind_ret_eq by reflexivity. by rewrite Ha. Qed.

(** The second EOT, on a quiet line, with the package complete: the image is
    finished, the boot flag cleared, and the boot code called, in that order. *)
Lemma second_eot_boots f g u y o1 rc2 o2 e o3 :
  ending u y (y_ota y) y ->
  oo_finish (y_ota y) = Ret OTA_MODULE_ERR_OK o1 -> oo_set_flag 0 o1 = Ret rc2 o2 ->
  oo_boot o2 = Halt e o3 ->
  exists y', second_eot (drain_chunks (S (S f))) (try_consume_frame (S g) u) y = Halt e y' /\
    y_ota y' = o3.
Proof.
  intros Hy E1 E2 E3. set (o := y_ota y) in *.
  pose (Q := fun r : outcome (ym OS) unit => exists y', r = Halt e y' /\ y_ota y' = o3).
  change (Q (second_eot (drain_chunks (S (S f))) (try_consume_frame (S g) u) y)). unfold second_eot.
  eapply ends_bind; [apply ends_sess; by destruct u|exact Hy|]. intros _ y1 H1.
  eapply ends_bind; [apply ends_ack|exact H1|]. intros _ y2 H2.
  eapply ends_active; [exact H2|].
  eapply ends_bind; [apply ends_wait|exact H2|]. intros _ y3 H3.
  eapply ends_bind; [apply ends_c|exact H3|]. intros _ y4 H4.
  eapply ends_bind; [apply ends_delay|exact H4|]. intros _ y5 H5.
  eapply ends_bind; [apply ends_drain|exact H5|]. intros _ y6 H6.
  eapply ends_bind; [apply ends_try|exact H6|]. intros _ y7 H7.
  eapply ends_active; [exact H7|].
  eapply ends_bind; [apply ends_tx|exact H7|]. intros _ y8 H8.
  eapply ends_bind; [apply ends_wait|exact H8|]. intros _ y9 H9.
  eapply ends_bind; [apply ends_sess; by destruct u|exact H9|]. intros _ ya Ha.
  eapply ends_bind; [apply ends_drain|exact Ha|]. intros _ yb Hb.
  eapply ends_bind; [apply ends_try|exact Hb|]. intros _ yc [_ _ _ Hse Hhd Ho].
  unfold Q. erewrite bind_ret_eq by reflexivity. rewrite Hse, Hhd. cbn [andb].
  eexists. split.
  - apply bind_halt_eq. erewrite bind_ret_eq by (apply on_ota_ret; rewrite Ho; exact E1). cbn [err_ok].
    erewrite bind_ret_eq by (apply on_ota_ret; exact E2). erewrite bind_ret_eq by reflexivity.
    apply bind_halt_eq. unfold on_ota, zoom. cbn [y_ota set_ota]. by rewrite E3.
  - done.
Qed.

Lemma send_nak_eq u y : s_active (y_link y) = Some u ->
  send_nak y = Ret tt (with_io (logged u YM_NAK (y_io y)) y).
Proof. intros E. unfold send_nak, link. erewrite bind_ret_eq by reflexivity. by rewrite E. Qed.

(** ** An EOT byte *)
Definition recv_eot (fuel : nat) (u : uart) : M (ym OS) unit :=
  append_stream_with (try_consume_frame fuel) u [YM_EOT] 1.

Lemma try_consume_frame_S f u : try_consume_frame (OS := OS) (S f) u =
  (l ← sess (stream u);
   match l with
   | [] => mret tt
   | _ => again ← frame_step (handle_eot f) u; if again : bool then try_consume_frame f u else mret tt
   end).
Proof. reflexivity. Qed.

Lemma recv_eot_eq fuel u y :
  linked u y -> stream u (y_sess y) = [] -> s_wire_tail_discard (y_sess y) = false ->
  recv_eot (S fuel) u y = (handle_eot fuel u;; try_consume_frame fuel u) (no_can y).
Proof.
  intros [Hl Ha] Hst Ht. unfold recv_eot, append_stream_with. erewrite bind_ret_eq by reflexivity.
  rewrite Hst. change (STREAM_MAX <? zlen (@nil Z) + 1) with false.
  change (zlen [YM_EOT] <? 1) with false. change (take (Z.to_nat 1) [YM_EOT]) with [YM_EOT].
  cbn iota. cbn [app]. erewrite bind_ret_eq by reflexivity.
  rewrite try_consume_frame_S. erewrite bind_ret_eq by reflexivity.
  cbn [y_sess]. rewrite stream_set. set (y1 := mkYm _ _ _ _ _).
  assert (Es : forall (eot : uart -> M (ym OS) unit), frame_step eot u y1 = (eot u;; mret true) (no_can y)).
  { intros eot. assert (Hs1 : stream u (y_sess y1) = [YM_EOT]) by apply stream_set.
    unfold frame_step. erewrite bind_ret_eq by reflexivity. rewrite !Hs1.
    change (drop (skip_garbage [YM_EOT]) [YM_EOT]) with [YM_EOT]. cbv zeta.
    erewrite bind_ret_eq by reflexivity. erewrite bind_ret_eq by reflexivity.
    unfold y1. cbn [y_link]. rewrite Hl, Ha, bool_decide_true by done.
    cbn [negb andb Z.eqb YM_EOT YM_CAN Pos.eqb]. erewrite bind_ret_eq by reflexivity.
    assert (Hc : forall z : ym OS, stream u (y_sess z) = [YM_EOT] ->
      consume u 1 z = Ret tt (mkYm (set_stream u [] (y_sess z)) (y_link z) (y_rxq z) (y_io z) (y_ota z))).
    { intros z Hz. unfold consume. erewrite bind_ret_eq by reflexivity. by rewrite Hz. }
    erewrite bind_ret_eq by (apply Hc; by destruct u). erewrite bind_ret_eq by reflexivity.
    match goal with |- ((if ?d then _ else _) ≫= _) ?z = _ =>
      replace d with false by (rewrite <- Ht; by destruct u);
      replace z with (no_can y) by (unfold no_can; f_equal; revert Hst; destruct u, (y_sess y); cbn; by intros ->)
    end. done. }
  unfold mbind at 1, M_bind at 1. rewrite Es. unfold mbind, M_bind.
  destruct (handle_eot fuel u (no_can y)); done.
Qed.

(** ** Giving up *)
Lemma repeat_tx_quiet n u b : forall y, quiet y ->
  exists i, repeatM n (tx_byte (Some u) b) y = Ret tt (with_io i y) /\ script i = [].
Proof.
  induction n as [|n IH]; intros y Hq; cbn [repeatM].
  { exists (y_io y). split; [by destruct y|apply Hq]. }
  rewrite (bind_ret_eq _ _ _ _ _ (tx_eq u b y)).
  destruct (IH (with_io (logged u b (y_io y)) y)) as (i & E & Hi); [destruct Hq; by split|].
  exists i. by rewrite E.
Qed.

Lemma cancel_on_quiet u y : quiet y ->
  exists i, send_ymodem_cancel_on (Some u) y = Ret tt (with_io i y) /\ script i = [].
Proof.
  intros Hq. unfold send_ymodem_cancel_on.
  destruct (repeat_tx_quiet YM_CANCEL_BURST u YM_CAN y Hq) as (i & E & Hi). mrun E.
  destruct (wait_quiet u (with_io i y)) as (i2 & E2 & Hi2); [destruct Hq; by split|].
  exists i2. split; [exact E2|done].
Qed.

Lemma cancel_quiet y : quiet y -> exists i, send_ymodem_cancel y = Ret tt (with_io i y) /\ script i = [].
Proof.
  intros Hq. unfold send_ymodem_cancel, link. erewrite bind_ret_eq by reflexivity.
  destruct (s_active (y_link y)) as [u|]; [by apply cancel_on_quiet|].
  exists (y_io y). split; [by destruct y|apply Hq].
Qed.

(** Same environment and clock. *)
Definition same_env (i i' : io_t) : Prop := script i' = script i /\ tick i' = tick i.

Lemma start_rx_keeps u y : exists i, start_rx_dma_one u y = Ret tt (with_io i y) /\ same_env (y_io y) i.
Proof.
  unfold start_rx_dma_one, HAL_UARTEx_ReceiveToIdle_DMA.
  destruct (armed u (y_io y)) eqn:E.
  - erewrite (bind_ret_eq _ _ y) by (erewrite bind_ret_eq by reflexivity; rewrite E; reflexivity).
    unfold HAL_UART_AbortReceive. erewrite bind_ret_eq by reflexivity.
    erewrite bind_ret_eq by (erewrite bind_ret_eq by reflexivity; by destruct u).
    eexists. split; [reflexivity|]. by destruct u.
  - erewrite (bind_ret_eq _ _ y) by (erewrite bind_ret_eq by reflexivity; rewrite E; reflexivity).
    eexists. split; [reflexivity|]. by destruct u.
Qed.

Definition unlock_link (r : link_t) : link_t :=
  set_g_boot_debug_uart huart1 (set_s_debug huart1 (set_s_active None (set_s_locked false r))).

Lemma start_both_eq y : exists i, start_rx_dma_both y
    = Ret tt (mkYm (y_sess y) (unlock_link (y_link y)) (y_rxq y) i (y_ota y)) /\ same_env (y_io y) i.
Proof.
  unfold start_rx_dma_both, HAL_UART_AbortReceive. do 3 erewrite bind_ret_eq by reflexivity.
  match goal with |- context [(start_rx_dma_one huart1 ≫= _) ?z] =>
    destruct (start_rx_keeps huart1 z) as (i1 & E1 & T1) end.
  mrun E1. match goal with |- context [start_rx_dma_one huart2 ?z] =>
    destruct (start_rx_keeps huart2 z) as (i2 & E2 & T2) end.
  exists i2. split; [exact E2|]. destruct T1, T2. split; etransitivity; eauto.
Qed.

Lemma no_abort y : s_ota_session (y_sess y) = false -> ota_fail_abort y = Ret tt y.
Proof. intros Hz. unfold ota_fail_abort, sess. erewrite bind_ret_eq by reflexivity. by rewrite Hz. Qed.

Lemma clear_eq y : s_ota_session (y_sess y) = false ->
  session_vars_clear y = Ret tt (mkYm sess_clear (y_link y) (y_rxq y) (y_io y) (y_ota y)).
Proof.
  intros Hs. unfold session_vars_clear. erewrite bind_ret_eq by reflexivity.
  rewrite no_abort by exact Hs. cbn. by rewrite Hs.
Qed.

Lemma full_reset_clears y :
  s_ota_session (y_sess y) = false -> exists y', full_reset y = Ret tt y' /\ y_sess y' = sess_clear.
Proof.
  intros Hs. unfold full_reset. erewrite bind_ret_eq by (by apply no_abort).
  erewrite bind_ret_eq by (by apply clear_eq). do 3 erewrite bind_ret_eq by reflexivity.
  match goal with |- context [start_rx_dma_both ?z] => destruct (start_both_eq z) as (i & E & _) end.
  eexists. split; [exact E|]. done.
Qed.
End Host.
