(* ===== verification/YmodemProps.v ===== *)
(** Properties of the bootloader's Ymodem receiver, alone and together with the
    OTA module. *)
From S2P Require Import Prelude FlashPort FlashPortProps OtaModule OtaLaws OtaSession OtaBoot OtaVerify.
From S2P Require Import OtaBoard OtaProps OtaWitness BootYmodem YmodemLaws YmodemTerm YmodemSession YmodemHost.

(** ** A whole session *)
Section Session.
Context {OS : Type} `{RX : OtaReceiver OS}.
Implicit Types y : ym OS.

(** What a host sends: the name block, the data blocks, and EOT twice. *)
Definition host_session (fuel : nat) (u : uart) (name : Z * list Z) (blocks : list (Z * list Z))
  : M (ym OS) unit :=
  recv_frame fuel u (fst name) 0 (snd name);;
  recv_blocks fuel u 1 blocks;;
  recv_eot fuel u;;
  recv_eot fuel u.

Definition blocks_ok (blocks : list (Z * list Z)) : Prop :=
  Forall (fun b => forall s, is_byte s -> block_ok (fst b) s (snd b)) blocks.

(** The blocks reach the OTA module as one package. *)
Lemma session_received fuel u name blocks h tail y :
  header_wf h -> Z.of_nat sizeof_header <= total h < 4294967296 ->
  listening y -> quiet y -> block_ok (fst name) 0 (snd name) -> blocks_ok blocks ->
  rx_idle (y_ota y) h -> payloads blocks = enc_header h ++ tail -> total h <= zlen (payloads blocks) ->
  exists y', (recv_frame (S (S fuel)) u (fst name) 0 (snd name);; recv_blocks (S (S fuel)) u 1 blocks) y = Ret tt y' /\
    linked u y' /\ quiet y' /\ stream u (y_sess y') = [] /\ s_eot_count (y_sess y') = 0 /\
    s_wire_tail_discard (y_sess y') = false /\ s_ota_session (y_sess y') = true /\
    s_hdr_done (y_sess y') = true /\
    rx_open (y_ota y') h (take (Z.to_nat (total h)) (payloads blocks)).
Proof.
  intros Hw Ht Hls Hq Hk Hbs Hid Hpay Hlen.
  destruct (recv_name_frame fuel u y (fst name) (snd name) h tail Hls Hk Hid)
    as (y1 & E1 & L1 & S1 & B1 & Q1 & O1 & C1).
  destruct (recv_blocks_ok h tail Hw Ht fuel u blocks y1 1 [] L1 S1) as (r2 & o2 & E2 & B2 & S2);
    [done|done|done|cbn [app]; unfold file_bytes; by rewrite Hpay|].
  eexists. split; [mrun E1; exact E2|]. destruct B2 as [_ _ B3 B4 _ [_ _ B5]].
  destruct B5 as (D1 & D2 & _ & _ & D3).
  { cbn [app]. unfold zlen, sizeof_header in *. lia. }
  destruct Hq as [K1 K2 K3]. split_and!; try done; [split|..]; cbn [y_rxq y_io].
  - rewrite <- K1, <- C1. clear. induction (length blocks); [done|]. done.
  - by rewrite Q1.
  - by rewrite Q1.
Qed.

Lemma handle_eot_S f u : handle_eot (OS := OS) (S f) u = handle_eot_with (drain_chunks f) (try_consume_frame f u).
Proof. reflexivity. Qed.

Lemma first_eot fuel u y :
  linked u y -> stream u (y_sess y) = [] -> s_wire_tail_discard (y_sess y) = false ->
  s_eot_count (y_sess y) = 0 ->
  recv_eot (S (S fuel)) u y
  = Ret tt (mkYm (set_s_eot_count 1 (set_s_can_count 0 (y_sess y))) (y_link y) (y_rxq y)
              (logged u YM_NAK (y_io y)) (y_ota y)).
Proof.
  intros [Hl Ha] Hs Ht He. rewrite recv_eot_eq by done.
  assert (E : handle_eot (S fuel) u (no_can y)
    = Ret tt (mkYm (set_s_eot_count 1 (set_s_can_count 0 (y_sess y))) (y_link y) (y_rxq y)
                (logged u YM_NAK (y_io y)) (y_ota y))).
  { rewrite handle_eot_S. unfold handle_eot_with. erewrite bind_ret_eq by reflexivity.
    change (y_link (no_can y)) with (y_link y). rewrite Hl, Ha. cbn [negb orb].
    rewrite bool_decide_false by done. erewrite bind_ret_eq by reflexivity.
    change (s_eot_count (y_sess (no_can y))) with (s_eot_count (y_sess y)). rewrite He.
    cbn [Z.eqb]. by erewrite (bind_ret_eq send_nak) by (apply (send_nak_eq u); exact Ha). }
  mrun E. rewrite try_quiet; [done|]. by destruct u.
Qed.

(** The end of a session over a complete package. *)
Lemma eot_pair_boots fuel u y o1 rc2 o2 e o3 :
  linked u y -> quiet y -> stream u (y_sess y) = [] -> s_wire_tail_discard (y_sess y) = false ->
  s_eot_count (y_sess y) = 0 -> s_ota_session (y_sess y) = true -> s_hdr_done (y_sess y) = true ->
  oo_finish (y_ota y) = Ret OTA_MODULE_ERR_OK o1 -> oo_set_flag 0 o1 = Ret rc2 o2 ->
  oo_boot o2 = Halt e o3 ->
  exists y', (recv_eot (S (S (S (S fuel)))) u;; recv_eot (S (S (S (S fuel)))) u) y = Halt e y' /\
    y_ota y' = o3.
Proof.
  intros Hl Hq Hs Ht He Hse Hhd E1 E2 E3. erewrite bind_ret_eq by (by apply first_eot).
  set (y1 := mkYm _ _ _ _ _). rewrite recv_eot_eq by (by destruct u).
  destruct (second_eot_boots fuel (S fuel) u (no_can y1) o1 rc2 o2 e o3) as (y' & E & Ho); auto.
  { destruct Hq. destruct u; by split. }
  exists y'. split; [|done]. apply bind_halt_eq. rewrite handle_eot_S. unfold handle_eot_with.
  destruct Hl as [Hl Ha]. erewrite bind_ret_eq by reflexivity. change (y_link (no_can y1)) with (y_link y).
  rewrite Hl, Ha. cbn [negb orb]. rewrite bool_decide_false by done.
  erewrite bind_ret_eq by reflexivity. exact E.
Qed.
End Session.

(** ** With the OTA module *)
Section Update.
Context `{B : OtaBuild} {BL : OtaBuildLaws} {P : Type} `{OtaPlatformLaws P}.

(** Finish, clear the flag, boot: what the second EOT runs. *)
Lemma finish_flag_boot (s : ota_state P) r i a h img :
  downloading s r i a h img -> zlen img = total h -> record_ok r ->
  body_crc (app_body h img) = app_crc32 h ->
  find_status OTA_APP_STATUS_UNVERIFIED (<[i := verdict_app true a]> (ota_app_info r)) = Some i ->
  exists s1 s2 s3 r3, ota_module_ota_download_finish s = Ret OTA_MODULE_ERR_OK s1 /\
    ota_module_set_boot_ymodem_flag 0 s1 = Ret OTA_MODULE_ERR_OK s2 /\
    ota_module_boot_preprocess s2 = Halt (JumpedTo (entry_of (op_raw (plat s3)) a)) s3 /\
    record_at (plat s3) r3 /\ boot_ymodem_flag r3 = 0 /\
    ota_app_info r3 = <[i := count_attempt (verdict_app true a)]> (ota_app_info r) /\
    mem_read (op_raw (plat s3)) (flash_addr a) (length img) = img.
Proof.
  intros D Hlen Hok Hcrc Hfind. pose proof D as [Hr _ Hrec Hi _ Hl Hh _ _ _ _ _].
  destruct (download_finish_ok s r i a h img D Hlen) as (s1 & E1 & R1 & _ & A1 & M1 & _).
  rewrite Hcrc, Z.eqb_refl in E1, A1. set (r1 := seal (set_app i (verdict_app true a) r)) in *.
  destruct (set_flag_ok s1 0 R1) as (p2 & E2 & O2 & A2 & F2); [done|].
  unfold effective_record in A2. rewrite (stored_record_at _ _ A1) in A2. cbn [default] in A2.
  set (r2 := seal (set_boot_flag 0 r1)) in *. set (s2 := set_plat p2 s1) in *.
  assert (Hi2 : ota_app_info r2 !! i = Some (verdict_app true a))
    by (cbn; apply list_lookup_insert_eq; by eapply lookup_lt_Some).
  assert (Hok2 : record_ok r2) by (unfold record_ok; cbn; apply Forall_insert;
    [done|apply slot_layout_status; by eapply Forall_lookup_1]).
  destruct (boot_preprocess_ok s2 r2 (ready_plat s1 p2 R1 O2) A2 Hok2) as (s3 & [B1 B2 B3 B4 B5] & O').
  assert (Hd : boot_decision r2 = (Some (set_app i (count_attempt (verdict_app true a)) r2), Some i)).
  { unfold boot_decision. cbn [ota_app_info r2 seal set_info_crc32 set_r_magic set_boot_flag r1 set_app].
    by rewrite Hfind, list_lookup_insert_eq by (by eapply lookup_lt_Some). }
  unfold boot_outcome in O'. rewrite Hd in B3, O'. cbn [fst snd default] in B3, O'.
  destruct O' as (b & Hb & _ & E3). cbn in Hb.
  rewrite list_lookup_insert_eq in Hb by (rewrite length_insert; by eapply lookup_lt_Some). simplify_eq.
  assert (Hraw : forall x, ~ in_record_sector x -> op_raw (plat s3) x = op_raw (plat s1) x)
    by (intros x Hx; rewrite B4 by done; by apply F2).
  eexists s1, s2, s3, _. split_and!; [done|done| |exact B3|done| |].
  - rewrite E3. do 2 f_equal. change (entry_of (op_raw p2) a = entry_of (op_raw (plat s3)) a).
    apply apart_entry; [done|]. intros x Hx. rewrite F2, Hraw by done. done.
  - cbn. by rewrite !list_insert_insert_eq.
  - rewrite <- M1 at 2. apply mem_read_ext. intros x Hx. apply Hraw.
    pose proof (sl_apart _ Hl). pose proof (hf_total _ _ Hh). unfold in_record_sector, zlen, total in *. lia.
Qed.

(** C1 [ymodem_update_boots]: a host that sends, on either UART, a name block,
    data blocks carrying a package (and padding), and EOT twice, to a receiver
    that waits on a board with no unverified image, gets the image installed
    and started: the package is in flash byte for byte, padding dropped, the
    slot is recorded unverified with one attempt spent and the boot flag
    cleared, and the bootloader jumps to the application behind the header.
    Each frame reaches the reassembly buffer as one whole block and the line is
    otherwise quiet, so the receive interrupt, the block queue and the polling
    loop are not part of this run; the transmitter may stay busy at will. *)
Theorem ymodem_update_boots fuel u name blocks h tail r i a (y : ym (ota_state P)) :
  listening y -> quiet y ->
  ready (y_ota y) -> started (g_dl (y_ota y)) = false -> record_at (plat (y_ota y)) r -> record_ok r ->
  choose_target_ota_slot r = Some i -> ota_app_info r !! i = Some a ->
  find_status OTA_APP_STATUS_UNVERIFIED (ota_app_info r) = None -> header_for h a ->
  Z.of_nat sizeof_header <= total h ->
  block_ok (fst name) 0 (snd name) -> blocks_ok blocks ->
  payloads blocks = enc_header h ++ tail -> total h <= zlen (payloads blocks) ->
  let img := take (Z.to_nat (total h)) (payloads blocks) in
  body_crc (app_body h img) = app_crc32 h ->
  exists y' r', host_session (S (S (S (S fuel)))) u name blocks y
      = Halt (JumpedTo (flash_addr a + app_offset h)) y' /\
    record_at (plat (y_ota y')) r' /\ boot_ymodem_flag r' = 0 /\
    ota_app_info r' = <[i := count_attempt (verdict_app true a)]> (ota_app_info r) /\
    mem_read (op_raw (plat (y_ota y'))) (flash_addr a) (length img) = img.
Proof.
  intros Hls Hq Hr Hst Hrec Hok Hch Hi Hnu Hh Hbig Hk Hbs Hpay Hlen img Hcrc.
  pose proof (Forall_lookup_1 _ _ _ _ Hok Hi) as Hl. destruct (total_bound h a Hh Hl) as (Ht & _).
  destruct (session_received (RX := ota_receiver r i a) (S (S fuel)) u name blocks h tail y (hf_wf _ _ Hh))
    as (y1 & E1 & L1 & Q1 & S1 & C1 & T1 & Hse & Hhd & Hopen); auto; [lia|by split_and!|].
  fold img in Hopen. cbn [rx_open ota_receiver] in Hopen.
  assert (Hil : zlen img = total h) by (unfold img, zlen in *; rewrite length_take; lia).
  destruct (finish_flag_boot (y_ota y1) (opened r i a) i (downloading_app a) h img Hopen Hil)
    as (s1 & s2 & s3 & r3 & F1 & F2 & F3 & A3 & G3 & I3 & M3); auto.
  { unfold record_ok. cbn. apply Forall_insert; [done|by apply slot_layout_status]. }
  { cbn. rewrite list_insert_insert_eq.
    apply find_status_insert_None; [done|by eapply lookup_lt_Some|done]. }
  destruct (eot_pair_boots (H := ota_module_ops) fuel u y1 s1 OTA_MODULE_ERR_OK s2 _ s3 L1 Q1 S1 T1 C1 Hse Hhd F1 F2 F3)
    as (y2 & E2 & O2).
  exists y2, r3. subst s3. split_and!; auto.
  - unfold host_session. unfold mbind, M_bind in E1, E2 |- *.
    destruct (recv_frame _ _ _ _ _ y) as [[] z| | |]; try done. rewrite E1, E2. do 2 f_equal.
    unfold entry_of. cbn [flash_addr flash_size downloading_app set_verify_count set_status].
    assert (Hhdr : mem_read (op_raw (plat (y_ota y2))) (flash_addr a) sizeof_header = enc_header h).
    { assert (Hle : (sizeof_header <= length img)%nat) by (unfold zlen in *; lia).
      replace (length img) with (sizeof_header + (length img - sizeof_header))%nat in M3 by lia.
      rewrite mem_read_app in M3. apply (f_equal (take sizeof_header)) in M3.
      rewrite take_app_length' in M3 by (by rewrite length_mem_read).
      cbn [flash_addr downloading_app set_verify_count set_status] in M3. rewrite M3.
      unfold img. rewrite take_take, Hpay, Nat.min_l by lia.
      rewrite take_app_length'; [done|]. symmetry. by apply length_enc_header, Hh. }
    rewrite Hhdr, dec_enc_header by apply Hh. destruct Hh as [W Hm Hc Ho _].
    by rewrite Hm, Hc, !Z.eqb_refl, (proj2 (Z.ltb_lt _ _)) by done.
  - rewrite I3. cbn. by rewrite list_insert_insert_eq.
Qed.
End Update.

(** ** The receiver alone *)
Section Receiver.
Context {OS : Type} `{OT : OtaOpsTotal OS}.
Implicit Types y : ym OS.

(** The sixteen-slot ring between the interrupt handler
    and the main loop is a FIFO of fifteen blocks: a block is accepted exactly
    when fewer than fifteen are waiting and then goes behind them, a refused one
    changes nothing, and the slot at the read index holds the oldest block,
    whose removal leaves the others in order. *)
Theorem rx_queue_is_fifo y u p len :
  rxq_wf (y_rxq y) ->
  let q := y_rxq y in
  let room := (length (fifo q) <? 15)%nat in
  (exists y', rx_sm_enqueue u p len y = Ret room y' /\ rxq_wf (y_rxq y') /\
     fifo (y_rxq y') = if room
       then fifo q ++ [mkChunk u len (take (Z.to_nat (Z.min len RX_DMA_BUF)) p)] else fifo q) /\
  (s_q_r q = s_q_w q <-> fifo q = []) /\
  (forall c l, fifo q = c :: l ->
     s_q q !! Z.to_nat (s_q_r q) = Some c /\ fifo (dequeued q) = l /\ rxq_wf (dequeued q)).
Proof.
  intros Hq q room. assert (Hroom : room = negb ((s_q_w q + 1) mod CHUNK_Q =? s_q_r q)).
  { unfold room, fifo. rewrite length_map, length_seq. unfold pending_count, CHUNK_Q.
    destruct Hq as [_ Hw Hr]. fold q in Hw, Hr. apply eq_bool_prop_intro.
    rewrite negb_True, !Is_true_true, Nat.ltb_lt, Z.eqb_eq. lia. }
  split_and!.
  - unfold rx_sm_enqueue. erewrite bind_ret_eq by reflexivity. fold q. rewrite Hroom.
    destruct ((s_q_w q + 1) mod CHUNK_Q =? s_q_r q) eqn:E; cbool; cbn [negb].
    + eexists. split; [reflexivity|]. done.
    + eexists. split; [reflexivity|]. split; [by apply (enqueued_wf (mkChunk _ _ _))|].
      by apply fifo_enqueued.
  - by apply fifo_nil.
  - intros c l Hf. assert (s_q_r q <> s_q_w q) as Hne.
    { intros E. apply fifo_nil in E; [|done]. congruence. }
    destruct (fifo_dequeued q Hq Hne) as (c' & Hc & Hf'). rewrite Hf in Hf'. simplify_eq.
    split_and!; auto. by apply dequeued_wf.
Qed.

(** One call of [boot_ymodem_poll] always comes to an end,
    however frames, EOT handling, queue draining and arrivals nest: fuel in
    proportion to the bytes buffered, queued and still to arrive is enough, and
    a call that returns leaves no more of them than there were.  (It may also
    end in the overrun of [refused_package_overruns].) *)
Theorem poll_terminates y fuel :
  ym_wf y -> (4 * work y + 2 <= fuel)%nat ->
  boot_ymodem_poll fuel y <> NoFuel /\
  forall y', boot_ymodem_poll fuel y = Ret tt y' -> ym_wf y' /\ (work y' <= work y)%nat.
Proof.
  intros Hy Hf.
  assert (R : spends 0 (boot_ymodem_poll fuel) y).
  { unfold boot_ymodem_poll. apply spends0_bind; [by apply fuel_enough|]. intros _ y1 W1 L1.
    unfold HAL_GetTick. apply spends_calm; [|done]. calms. intros y2 W2. done. }
  unfold spends, runs in R. destruct (boot_ymodem_poll fuel y) as [[] y1| | |]; try done.
  split; [done|]. intros y' E. simplify_eq. destruct R. split; [done|lia].
Qed.
End Receiver.

Section Blocks.
Context {OS : Type} `{OO : OtaOps OS}.
Implicit Types y : ym OS.

(** A block the host repeats because it missed the
    acknowledgement is acknowledged again and changes nothing else: no byte of
    it reaches the OTA module. *)
Theorem duplicate_block_acked y u seq pay :
  s_active (y_link y) = Some u -> seq = s_last_acked_seq (y_sess y) -> seq <> s_expected_seq (y_sess y) ->
  handle_data_block seq pay y = Ret tt (with_io (logged u YM_ACK (y_io y)) y).
Proof.
  intros Ha Hs Hne. unfold handle_data_block. erewrite bind_ret_eq by reflexivity.
  rewrite (proj2 (Z.eqb_neq _ _)) by done. cbn [negb]. rewrite <- Hs, Z.eqb_refl.
  by apply send_ack_eq.
Qed.

(** A package whose header the OTA module refuses: the transfer is cancelled
    and the session reset. *)
Lemma refused_block y u seq pay rc o' :
  linked u y -> quiet y -> s_in_filename_phase (y_sess y) = false -> s_expected_seq (y_sess y) = seq ->
  s_hdr_done (y_sess y) = false -> s_hdr_accum_len (y_sess y) = 0 ->
  length (s_hdr_accum (y_sess y)) = sizeof_header -> s_ota_session (y_sess y) = false ->
  (sizeof_header <= length pay)%nat -> oo_start (dec_header (take sizeof_header pay)) (y_ota y) = Ret rc o' ->
  rc <> OTA_MODULE_ERR_OK ->
  exists y', handle_data_block seq pay y = Ret tt y' /\ y_sess y' = sess_clear.
Proof.
  intros [Hl Ha] Hq Hp Hsq Hd Hal Hac Hse Hlen Hst Hrc. unfold handle_data_block.
  erewrite bind_ret_eq by reflexivity. rewrite Hsq, Z.eqb_refl, Hp. cbn [negb].
  assert (Happ : exists y1, append_file_payload pay y = Ret tt y1 /\ quiet y1 /\
    s_nak_streak (y_sess y1) = NAK_RETRIES /\ s_ota_session (y_sess y1) = false).
  { unfold append_file_payload. rewrite Nat.add_1_r. cbn [payload_loop].
    destruct pay as [|b p] eqn:Epay; [cbn in Hlen; unfold sizeof_header in Hlen; lia|]. rewrite <- Epay in *.
    assert (Es : exists y1, payload_step pay y = Ret None y1 /\ quiet y1 /\
      s_nak_streak (y_sess y1) = NAK_RETRIES /\ s_ota_session (y_sess y1) = false).
    { unfold payload_step. erewrite bind_ret_eq by reflexivity. rewrite Hd, Hal. cbn [negb]. cbv zeta.
      change (u16 (Z.of_nat sizeof_header - 0)) with 56.
      rewrite Z.min_r by (unfold zlen, sizeof_header in *; lia). change (Z.to_nat 56) with sizeof_header.
      change (u16 (0 + 56)) with 56. erewrite bind_ret_eq by reflexivity.
      change (Z.of_nat sizeof_header <=? 56) with true. cbn iota.
      assert (Hacc : memcpy_at (Z.to_nat 0) (take sizeof_header pay) (s_hdr_accum (y_sess y))
                = take sizeof_header pay).
      { unfold memcpy_at. rewrite drop_ge by (rewrite length_take; lia). by rewrite app_nil_r. }
      rewrite Hacc. erewrite bind_ret_eq by (apply on_ota_ret; exact Hst).
      replace (err_ok rc) with false by (by destruct rc). cbn [negb]. eexists. split; [reflexivity|].
      destruct Hq. split_and!; [by split|done|done]. }
    destruct Es as (y1 & E1 & Q1). exists y1. mrun E1. done. }
  destruct Happ as (y1 & E1 & Q1 & N1 & S1). mrun E1. erewrite bind_ret_eq by reflexivity. rewrite N1.
  rewrite Z.leb_refl. destruct (cancel_quiet y1 Q1) as (i2 & E2 & _). mrun E2.
  by apply full_reset_clears.
Qed.

(** C38 [refused_package_overruns]: when the OTA module refuses the header of a
    package (a wrong magic, a bad CRC, a package too large), the block handler
    resets the session and empties the reassembly buffer, and the frame loop
    then still removes the frame from it: it moves [0 - 133] (or [0 - 1029])
    bytes, a copy far outside the buffer. *)
Theorem refused_package_overruns eot y u st seq pay rc o' :
  linked u y -> quiet y -> block_ok st seq pay -> stream u (y_sess y) = ym_frame st seq pay ->
  s_in_filename_phase (y_sess y) = false -> s_expected_seq (y_sess y) = seq ->
  s_eot_count (y_sess y) < 2 -> s_hdr_done (y_sess y) = false -> s_hdr_accum_len (y_sess y) = 0 ->
  length (s_hdr_accum (y_sess y)) = sizeof_header -> s_ota_session (y_sess y) = false ->
  oo_start (dec_header (take sizeof_header pay)) (y_ota y) = Ret rc o' -> rc <> OTA_MODULE_ERR_OK ->
  frame_step eot u y = Undef.
Proof.
  intros Hlk Hq Hk Hst Hp Hsq He Hd Hal Hac Hse Hrun Hrc. pose proof Hlk as [Hl Ha].
  rewrite (frame_step_eq eot u y st seq pay) by done.
  assert (Hlen : (sizeof_header <= length pay)%nat).
  { rewrite (bk_len _ _ _ Hk). unfold data_len, sizeof_header. destruct (_ =? _); lia. }
  destruct (refused_block (no_can y) u seq pay rc o') as (y1 & E1 & S1); auto.
  { destruct Hq. by split. }
  unfold mbind at 1, M_bind at 1. rewrite frame_body_eq by done.
  change (y_link (no_can y)) with (y_link y). rewrite Hl. cbn [negb].
  erewrite bind_ret_eq by reflexivity. mrun E1. unfold consume. erewrite bind_ret_eq by reflexivity.
  rewrite S1. pose proof (frame_len_bound st).
  replace (length (stream u sess_clear) <? frame_len st)%nat with true; [done|].
  symmetry. apply Nat.ltb_lt. destruct u; cbn; lia.
Qed.

(** On a quiet line, the poll leaves the transfer alone
    unless the last byte came between 3 s and 2^31 ms ago, measured on the
    wrapping tick; then it restarts the board when the record has an active
    image. *)
Theorem poll_idle_decision y fuel :
  quiet y -> let elapsed := u32 (tick (y_io y) - s_last_rx_ms (y_link y)) in
  (elapsed < 3000 \/ 2147483648 <= elapsed ->
     exists y', boot_ymodem_poll (S (S fuel)) y = Ret tt y' /\ y_sess y' = y_sess y /\
       y_rxq y' = y_rxq y /\ y_ota y' = y_ota y /\ s_locked (y_link y') = s_locked (y_link y)) /\
  (3000 <= elapsed < 2147483648 -> forall o, oo_has_active (y_ota y) = Ret 1 o ->
     exists y', boot_ymodem_poll (S (S fuel)) y = Halt SystemReset y').
Proof.
  intros Hq elapsed. unfold boot_ymodem_poll. erewrite bind_ret_eq by (by apply drain_quiet).
  do 2 erewrite bind_ret_eq by reflexivity.
  assert (Ht : exists y1, (if T_DISC_C_MS <=? (tick (y_io y) -u s_last_c_ms (y_link y)) then
      (if negb (s_locked (y_link y)) then send_c_discovery else mret tt);;
      on_link (set_s_last_c_ms (tick (y_io y))) else mret tt) y = Ret tt y1 /\ quiet y1 /\
      y_sess y1 = y_sess y /\ y_rxq y1 = y_rxq y /\ y_ota y1 = y_ota y /\
      s_locked (y_link y1) = s_locked (y_link y)).
  { destruct Hq as [Q1 Q2 Q3]. destruct (T_DISC_C_MS <=? _); [|exists y; split_and!; done].
    destruct (s_locked (y_link y)) eqn:El; cbn [negb].
    - eexists. split; [reflexivity|]. split_and!; done.
    - unfold send_c_discovery, link. unfold mbind, M_bind, gets. rewrite El. cbn [negb].
      eexists. split; [reflexivity|]. split_and!; done. }
  destruct Ht as (y1 & E1 & Q1 & S1 & R1 & O1 & L1). mrun E1. cbv zeta. unfold s32. fold elapsed.
  change T_SESSION_MS with 3000. split; intros Hel.
  - replace (_ && _) with false; [exists y1; by split_and!|]. symmetry. apply andb_false_iff.
    destruct (elapsed <? 2147483648) eqn:E; cbool; [right; apply Z.leb_gt; lia|].
    pose proof (u32_range (tick (y_io y) - s_last_rx_ms (y_link y))). left. apply Z.leb_gt. lia.
  - intros o Hact. rewrite (proj2 (Z.ltb_lt elapsed _)) by lia.
    rewrite (proj2 (Z.leb_le 0 _)), (proj2 (Z.leb_le 3000 _)) by lia. cbn [andb].
    assert (Hc : exists i, (if s_locked (y_link y) then send_ymodem_cancel else mret tt) y1
        = Ret tt (with_io i y1)).
    { destruct (s_locked (y_link y)); [|exists (y_io y1); by destruct y1].
      destruct (cancel_quiet y1 Q1) as (i & E & _). by exists i. }
    destruct Hc as (i2 & E2). mrun E2. erewrite bind_ret_eq by (apply on_ota_ret; cbn; rewrite O1; exact Hact).
    by eexists.
Qed.
End Blocks.
