(* ===== verification/YmodemWitness.v ===== *)
(** The Ymodem properties on concrete sessions: the simulated board, and a
    stand-in OTA module for those that do not depend on it. *)
From S2P Require Import Prelude FlashPort FlashPortProps OtaModule OtaLaws OtaSession OtaBoot OtaVerify OtaBoard.
From S2P Require Import OtaProps OtaWitness BootYmodem YmodemLaws YmodemTerm YmodemSession YmodemHost YmodemProps.
Import Sim SimCrc.

Definition link_idle : link_t := mkLink None huart1 false huart1 0 0.
Definition rxq_idle : rxq_t := mkRxq (replicate 16 chunk_zero) 0 0 false huart1.
Definition io_idle : io_t := mkIo 0 true true [] [] [3%nat; 100%nat].

(** A receiver that waits, over a given OTA module. *)
Definition ym_idle {OS} (o : OS) : ym OS := mkYm sess_clear link_idle rxq_idle io_idle o.

(** ** On the board *)
Definition sim_name : Z * list Z := (YM_SOH, replicate 128 65).
Definition sim_blocks : list (Z * list Z) :=
  [(YM_SOH, enc_header sim_header ++ sim_body ++ replicate 64 26)].

Lemma sim_blocks_ok : blocks_ok sim_blocks.
Proof.
  constructor; [|constructor]. intros s Hs.
  split; [by left|done|reflexivity|]. apply Forall_forall. intros b Hb.
  assert (Hall : forallb (fun z => (0 <=? z) && (z <? 256))
    (snd (YM_SOH, enc_header sim_header ++ sim_body ++ replicate 64 26)) = true)
    by (vm_compute; reflexivity).
  rewrite forallb_forall in Hall. apply list_elem_of_In in Hb. specialize (Hall b Hb). cbool.
  unfold is_byte. lia.
Qed.

Lemma ymodem_update_boots_witness :
  exists y', host_session 4 huart2 sim_name sim_blocks (ym_idle (sim_state active))
      = Halt (JumpedTo (OTA_PLATFORM_APP1_ADDR + 56)) y' /\
    mem_read (op_raw (plat (y_ota y'))) OTA_PLATFORM_APP1_ADDR 64 = enc_header sim_header ++ sim_body.
Proof.
  destruct (ymodem_update_boots 0 huart2 sim_name sim_blocks sim_header (sim_body ++ replicate 64 26)
    (seal (P := sboard) active) 0 (set_verify_count 0 (set_status OTA_APP_STATUS_ACTIVE default_app1))
    (ym_idle (sim_state active))) as (y' & r' & E & _ & _ & _ & Mm).
  - split; reflexivity.
  - split; reflexivity.
  - apply sim_state_ready.
  - reflexivity.
  - apply sim_flash_record, active_wf.
  - apply one_slot_ok.
  - reflexivity.
  - reflexivity.
  - reflexivity.
  - apply sim_header_for.
  - vm_compute. congruence.
  - split; [by left|vm_compute; split; congruence|reflexivity|repeat constructor; vm_compute; congruence].
  - apply sim_blocks_ok.
  - vm_compute. reflexivity.
  - vm_compute. congruence.
  - vm_compute. reflexivity.
  - exists y'. split; [exact E|]. etransitivity; [exact Mm|]. vm_compute. reflexivity.
Defined.

(** ** Over a stand-in module that refuses every package *)
Definition refusing : OtaOps unit := {|
  oo_start _ := mret OTA_MODULE_ERR_PACKAGE_MAGIC;
  oo_download _ _ _ := mret OTA_MODULE_ERR_SESSION_MISMATCH;
  oo_finish := mret OTA_MODULE_ERR_SESSION_MISMATCH;
  oo_abort := mret OTA_MODULE_ERR_OK;
  oo_set_flag _ := mret OTA_MODULE_ERR_OK;
  oo_get_flag := mret 0;
  oo_boot := mret OTA_MODULE_ERR_NO_BOOT_CANDIDATE;
  oo_has_active := mret 1
|}.
#[local] Existing Instance refusing.

(** A queue that holds one EOT block. *)
Definition rxq_one : rxq_t :=
  mkRxq (<[0%nat := mkChunk huart1 1 [YM_EOT]]> (replicate 16 chunk_zero)) 1 0 false huart1.

Lemma rxq_one_wf : rxq_wf rxq_one.
Proof. split; [reflexivity|vm_compute; split; congruence..]. Qed.

Lemma rx_queue_is_fifo_witness :
  exists y', rx_sm_enqueue huart2 [1; 2; 3] 3 (mkYm sess_clear link_idle rxq_one io_idle tt) = Ret true y' /\
    fifo (y_rxq y') = [mkChunk huart1 1 [YM_EOT]; mkChunk huart2 3 [1; 2; 3]].
Proof.
  destruct (rx_queue_is_fifo (mkYm sess_clear link_idle rxq_one io_idle tt) huart2 [1; 2; 3] 3 rxq_one_wf)
    as ((y' & E & _ & F) & _).
  exists y'. split; [exact E|exact F].
Defined.

(** The OTA module over a flash that refuses everything. *)
Definition dead_config : ota_module_config_t unit :=
  mkConfig OTA_FLASH_TYPE_INTERNAL 0 [0; 0; 0] [0; 0; 0] [1; 0; 0] (Some (fun _ _ _ => mret (-1, [])))
    (Some (fun _ _ _ _ => mret (-1))) (Some (fun _ _ _ => mret (-1))) (Some (fun _ _ _ => mret 0))
    (Some (fun _ => mret (-1))).
Definition dead_ota : ota_state unit := mkOta dead_config true session_zero tt.

Lemma poll_terminates_witness :
  boot_ymodem_poll 20 (mkYm sess_clear link_idle rxq_one io_idle dead_ota) <> NoFuel.
Proof.
  apply (poll_terminates (mkYm sess_clear link_idle rxq_one io_idle dead_ota) 20).
  - split; [apply rxq_one_wf|]. split; [vm_compute; split; congruence|].
    repeat split; intros; cbn in *; by simplify_eq.
  - vm_compute. lia.
Defined.

(** A receiver in the middle of a transfer on [huart1], at block 5. *)
Definition mid_sess (sb : list Z) : sess_t :=
  mkSess sb [] false 5 4 0 (replicate sizeof_header 0) 0 false 0 0 0 false 0 false.
Definition mid_link : link_t := mkLink (Some huart1) huart2 true huart2 0 0.

Lemma duplicate_block_acked_witness :
  exists y', handle_data_block 4 [7; 7] (mkYm (mid_sess []) mid_link rxq_idle io_idle tt) = Ret tt y' /\
    tx_log (y_io y') = [(huart1, YM_ACK)].
Proof.
  eexists. split.
  - apply (duplicate_block_acked (mkYm (mid_sess []) mid_link rxq_idle io_idle tt) huart1 4 [7; 7]);
      [reflexivity|reflexivity|vm_compute; congruence].
  - reflexivity.
Defined.

Lemma refused_package_overruns_witness :
  frame_step (fun _ => mret tt) huart1
    (mkYm (mid_sess (ym_frame YM_SOH 5 (replicate 128 9))) mid_link rxq_idle io_idle tt) = Undef.
Proof.
  eapply (refused_package_overruns (fun _ => mret tt)
    (mkYm (mid_sess (ym_frame YM_SOH 5 (replicate 128 9))) mid_link rxq_idle io_idle tt)
    huart1 YM_SOH 5 (replicate 128 9)); try reflexivity.
  - split; reflexivity.
  - split; reflexivity.
  - split; [by left|vm_compute; split; congruence|reflexivity|repeat constructor; vm_compute; congruence].
  - congruence.
Defined.

Lemma poll_idle_decision_witness :
  exists y', boot_ymodem_poll 2 (mkYm (mid_sess []) (mkLink (Some huart1) huart2 true huart2 4294967290 0)
      rxq_idle (mkIo 5000 true true [] [] [7%nat]) tt) = Halt SystemReset y'.
Proof.
  apply (poll_idle_decision (mkYm (mid_sess []) (mkLink (Some huart1) huart2 true huart2 4294967290 0)
      rxq_idle (mkIo 5000 true true [] [] [7%nat]) tt) 0) with (o := tt).
  - split; reflexivity.
  - vm_compute. split; congruence.
  - reflexivity.
Defined.
