(* ===== verification/BootMain.v ===== *)
(** The start-up sequence of the bootloader ([boot/Core/Src/main.c]), up to the
    endless loop that polls the Ymodem receiver. *)
From S2P Require Import Prelude FlashPort FlashPortProps OtaModule OtaLaws OtaSession OtaBoot OtaVerify.
From S2P Require Import OtaBoard OtaWitness BootYmodem YmodemLaws YmodemSession YmodemHost YmodemWitness.

Definition BOOT_YMODEM_PROBE_ROUNDS : Z := 3.

Section Main.
Context `{B : OtaBuild} {P : Type}.

(** [probe_fuel] bounds the passes of a probe window and [drain_fuel] the work
    of each; peripheral initialisation is left to the hardware. *)
Definition boot_main (ota_module_platform_config : ota_module_config_t P) (probe_fuel drain_fuel : nat)
  : M (ym (ota_state P)) unit :=
  boot_ymodem_init;;
  ret ← on_ota (ota_module_init (Some ota_module_platform_config));
  if negb (err_ok ret) then halt FatalError
  else
    flag ← on_ota ota_module_get_boot_ymodem_flag;
    if flag =? 0 then
      hit ← boot_ymodem_probe probe_fuel drain_fuel BOOT_YMODEM_PROBE_ROUNDS;
      if negb (hit =? 0) then on_ota ota_module_boot_preprocess;; mret tt else mret tt
    else on_ota (ota_module_set_boot_ymodem_flag 0);; mret tt.
End Main.

(** ** A line on which nobody answers *)
Section Silence.
Context {OS : Type} `{OO : OtaOps OS}.
Implicit Types y : ym OS.

(** Nothing but the clock, the output and the timers moves. *)
Record silent y (o : OS) (t : Z) : Prop := mkSilent {
  si_quiet : quiet y;
  si_locked : s_locked (y_link y) = false;
  si_streams : s_sb1 (y_sess y) = [] /\ s_sb2 (y_sess y) = [];
  si_ota : y_ota y = o;
  si_tick : tick (y_io y) = t
}.

Lemma init_silent y :
  s_ota_session (y_sess y) = false -> script (y_io y) = [] ->
  exists y', boot_ymodem_init y = Ret tt y' /\ silent y' (y_ota y) (tick (y_io y)) /\
    y_sess y' = sess_clear.
Proof.
  intros Hs Hsc. unfold boot_ymodem_init. erewrite bind_ret_eq by reflexivity.
  erewrite bind_ret_eq by (by apply clear_eq). do 3 erewrite bind_ret_eq by reflexivity.
  match goal with |- context [(start_rx_dma_both ≫= _) ?z] =>
    destruct (start_both_eq z) as (i & E & T1 & T2) end.
  mrun E. unfold send_c_discovery, link. erewrite bind_ret_eq by reflexivity. cbn [negb s_locked y_link unlock_link].
  eexists. split; [reflexivity|]. split; [|done].
  split; [split; try done; cbn; by rewrite T1|..]; done.
Qed.

Lemma silent_c y o t : silent y o t -> exists y', send_c_discovery y = Ret tt y' /\ silent y' o t.
Proof.
  intros [[Q1 Q2 Q3] L S Oo T]. unfold send_c_discovery, link. erewrite bind_ret_eq by reflexivity.
  rewrite L. cbn [negb]. eexists. split; [reflexivity|]. by split.
Qed.

Lemma silent_link y o t f :
  silent y o t -> (forall r, s_locked (f r) = s_locked r) ->
  silent (mkYm (y_sess y) (f (y_link y)) (y_rxq y) (y_io y) (y_ota y)) o t.
Proof. intros [[Q1 Q2 Q3] L S Oo T] Hf. split; try done. cbn. by rewrite Hf. Qed.

(** A window runs out, one millisecond per pass. *)
Lemma window_silent f k : forall y o t t0,
  silent y o t -> 0 <= t0 -> t0 <= t -> t <= t0 + BOOT_YM_PROBE_WINDOW_MS ->
  t0 + BOOT_YM_PROBE_WINDOW_MS < 4294967296 -> t0 + BOOT_YM_PROBE_WINDOW_MS - t < Z.of_nat k ->
  exists y', probe_window k (S (S f)) t0 y = Ret false y' /\
    silent y' o (t0 + BOOT_YM_PROBE_WINDOW_MS).
Proof.
  unfold BOOT_YM_PROBE_WINDOW_MS. induction k as [|k IH]; intros y o t t0 Hsi H0 H1 H2 H3 Hk; [lia|].
  cbn [probe_window]. unfold HAL_GetTick. erewrite bind_ret_eq by reflexivity.
  rewrite (si_tick _ _ _ Hsi), u32_small by lia. destruct (t - t0 <? BOOT_YM_PROBE_WINDOW_MS) eqn:E;
    unfold BOOT_YM_PROBE_WINDOW_MS in E; cbool.
  - erewrite bind_ret_eq by (apply drain_quiet, Hsi). do 2 erewrite bind_ret_eq by reflexivity.
    rewrite (si_locked _ _ _ Hsi). destruct (si_streams _ _ _ Hsi) as [-> ->].
    change (false || (0 <? zlen (@nil Z)) || (0 <? zlen (@nil Z))) with false. cbn iota.
    erewrite bind_ret_eq by (apply delay_quiet, Hsi).
    eapply (IH _ o (t + 1)); try lia. destruct Hsi as [[Q1 Q2 Q3] L S Oo T]. split; try done; cbn.
    rewrite T. apply u32_small. lia.
  - exists y. replace (t0 + 100) with t by lia. done.
Qed.

Lemma rounds_silent f k n : forall y o t,
  silent y o t -> 0 <= t -> BOOT_YM_PROBE_WINDOW_MS < Z.of_nat k ->
  t + Z.of_nat n * BOOT_YM_PROBE_WINDOW_MS < 4294967296 ->
  exists y', probe_rounds k (S (S f)) n y = Ret false y' /\
    silent y' o (t + Z.of_nat n * BOOT_YM_PROBE_WINDOW_MS).
Proof.
  induction n as [|n IH]; intros y o t Hsi H0 Hk Hn; cbn [probe_rounds].
  { exists y. rewrite Z.mul_0_l, Z.add_0_r. done. }
  destruct (silent_c y o t Hsi) as (y1 & E1 & S1). mrun E1. unfold HAL_GetTick.
  do 3 erewrite bind_ret_eq by reflexivity. cbn [y_io]. rewrite (si_tick _ _ _ S1).
  match goal with |- context [(probe_window _ _ _ ≫= _) ?z] =>
    assert (S2 : silent z o t) by (by apply silent_link) end.
  unfold BOOT_YM_PROBE_WINDOW_MS in *.
  destruct (window_silent f k _ o t t S2) as (y3 & E3 & S3); unfold BOOT_YM_PROBE_WINDOW_MS; try lia.
  mrun E3. destruct (IH y3 o (t + 100)) as (y4 & E4 & S4); auto; try lia.
  exists y4. split; [done|]. by replace (t + Z.of_nat (S n) * 100) with (t + 100 + Z.of_nat n * 100) by lia.
Qed.

Lemma probe_silent f k y o t :
  silent y o t -> 0 <= t -> t + 300 < 4294967296 -> 100 < Z.of_nat k ->
  exists y', boot_ymodem_probe k (S (S f)) BOOT_YMODEM_PROBE_ROUNDS y = Ret (-1) y' /\
    silent y' o (t + 300).
Proof.
  intros Hsi H0 Ht Hk. unfold boot_ymodem_probe. change (BOOT_YMODEM_PROBE_ROUNDS =? 0) with false.
  cbn iota. destruct (rounds_silent f k 3 y o t) as (y1 & E1 & S1); auto; unfold BOOT_YM_PROBE_WINDOW_MS in *; try lia.
  mrun E1. unfold HAL_GetTick. do 2 erewrite bind_ret_eq by reflexivity.
  eexists. split; [reflexivity|].
  by apply (silent_link y1 o (t + 300) (fun r => set_s_last_c_ms _ (set_s_last_rx_ms _ r))).
Qed.
End Silence.

(** ** Start-up *)
Section StartUp.
Context `{B : OtaBuild} {BL : OtaBuildLaws} {P : Type} `{OtaPlatformLaws P}.

(** A processor that has just been reset, over a flash [p]. *)
Definition cold (p : P) (y : ym (ota_state P)) : Prop :=
  y_ota y = reset_state p /\ s_ota_session (y_sess y) = false /\ script (y_io y) = [] /\
  tick (y_io y) = 0.

(** At power-up with the boot flag clear and no host on
    either UART, the bootloader probes for 300 ms and then does exactly what
    the record asks for: it jumps to the slot the boot decision picks, after
    storing the decision's record, or falls through to the Ymodem loop when no
    slot is bootable. *)
Theorem silent_start_boots fuel f p r y :
  cold p y -> op_ok p -> record_at p r -> record_ok r -> boot_ymodem_flag r = 0 -> (100 < fuel)%nat ->
  exists y' s', boot_result (mkOta (op_config P) true session_zero p) r s' /\ y_ota y' = s' /\
    match snd (boot_decision r) with
    | Some i => exists a, ota_app_info (default r (fst (boot_decision r))) !! i = Some a /\
        bootable (status a) /\
        boot_main (op_config P) fuel (S (S f)) y = Halt (JumpedTo (entry_of (op_raw p) a)) y'
    | None => boot_main (op_config P) fuel (S (S f)) y = Ret tt y'
    end.
Proof.
  intros (Ho & Hse & Hsc & Htk) Hok Hrec Hrok Hfl Hk.
  destruct (init_silent y Hse Hsc) as (y1 & E1 & S1 & _). rewrite Ho, Htk in S1.
  destruct (init_ok (reset_state p) r Hok (stored_record_at _ _ Hrec)) as (p2 & E2 & F2).
  cbn [plat reset_state] in F2. set (s2 := mkOta (op_config P) true session_zero p2) in *.
  assert (R2 : ready s2) by (split; [done|done|apply F2]).
  assert (A2 : record_at (plat s2) r) by (by eapply record_at_same).
  destruct (get_flag_ok s2 r R2 A2) as (p3 & E3 & F3). set (s3 := set_plat p3 s2) in *.
  assert (R3 : ready s3) by (apply ready_plat; [done|apply F3]).
  assert (S3 : silent (set_ota s3 (set_ota s2 y1)) s3 0)
    by (destruct S1 as [[Q1 Q2 Q3] L Ss _ T]; split; [by split|done..]).
  destruct (probe_silent f fuel _ s3 0 S3) as (y4 & E4 & S4); try lia.
  destruct (boot_preprocess_ok s3 r R3) as (s5 & [B1 B2 B3 B4 B5] & O5);
    [by eapply record_at_same|done|].
  assert (Hraw : forall x, op_raw (plat s3) x = op_raw p x)
    by (intros x; cbn; rewrite (sf_raw _ _ F3); apply (sf_raw _ _ F2)).
  exists (set_ota s5 y4), s5. split; [|split; [done|]].
  { split; auto; cbn [plat]; [intros x Hx; rewrite <- Hraw; by apply B4|intros Hn x; rewrite <- Hraw; by apply B5]. }
  assert (Hmain : forall e, (exists a, ota_module_boot_preprocess s3 = Ret a s5 /\ e = Ret tt (set_ota s5 y4)) \/
      (exists k, ota_module_boot_preprocess s3 = Halt k s5 /\ e = Halt k (set_ota s5 y4)) ->
      boot_main (op_config P) fuel (S (S f)) y = e).
  { intros e He. unfold boot_main. mrun E1.
    erewrite bind_ret_eq by (apply on_ota_ret; rewrite (si_ota _ _ _ S1); exact E2). cbn [err_ok negb].
    erewrite bind_ret_eq by (apply on_ota_ret; exact E3). rewrite Hfl. cbn [Z.eqb].
    mrun E4. cbn [Z.eqb negb]. destruct He as [(a & Eb & ->)|(k & Eb & ->)].
    - erewrite bind_ret_eq by (apply on_ota_ret; rewrite (si_ota _ _ _ S4); exact Eb). done.
    - apply bind_halt_eq. unfold on_ota, zoom. by rewrite (si_ota _ _ _ S4), Eb. }
  unfold boot_outcome in O5. destruct (snd (boot_decision r)) as [i|].
  - destruct O5 as (a & Ha & Hb & Eb). exists a. split_and!; auto. apply Hmain. right. eexists. split; [exact Eb|].
    do 2 f_equal. apply entry_ext. intros. symmetry. apply Hraw.
  - apply Hmain. left. eauto.
Qed.
End StartUp.

(** On the simulated board, with an active image. *)
Import Sim SimCrc.

Lemma silent_start_boots_witness :
  exists y', boot_main (op_config sboard) 101 2 (ym_idle (reset_state (sim_flash active)))
    = Halt (JumpedTo OTA_PLATFORM_APP1_ADDR) y'.
Proof.
  destruct (silent_start_boots 101 0 (sim_flash active) (seal (P := sboard) active)
    (ym_idle (reset_state (sim_flash active)))) as (y' & s' & _ & _ & Hm).
  - repeat split; reflexivity.
  - apply sim_flash_ok.
  - apply sim_flash_record, active_wf.
  - apply one_slot_ok.
  - reflexivity.
  - lia.
  - exists y'. destruct Hm as (a & Ha & _ & E). etransitivity; [exact E|].
    change (Some (set_verify_count 0 (set_status OTA_APP_STATUS_ACTIVE default_app1)) = Some a) in Ha.
    injection Ha as <-. vm_compute. reflexivity.
Defined.
