(* ===== verification/HostLink.v ===== *)
(** The MCU to Linux host link
    ([app/Custom/Components/host_link/host_link_core.c], [host_link.h],
    [host_link_proto.h], the tick arithmetic of [host_link_port_freertos.c], and
    the two functions only the Linux copy [hal_v2/common/host_link] has):
    framing with header and payload CRC, the byte parser, the notify,
    acknowledgement and asynchronous slots, requests, responses and events.

    Payload buffers live in an explicit heap, so that a leak, a double free or
    an access outside a block would show.  The handler is the state (the tests
    for a null handler are not written).  The mutex makes the regions it
    protects atomic, which is how they are written; where [host_link_poll] is
    between two regions and where a task waits on a semaphore, the receiving task
    may run, on the bytes the environment gives it; what runs while an
    asynchronous request is sent without the lock is an argument.  The environment also
    decides which allocations and transmissions fail.  The notify callback is a
    parameter; the completion of an asynchronous request is an event of the log,
    and the buffer it carries belongs to the application from then on. *)
From stdpp Require Import gmap.
From S2P Require Import Prelude Heap.

(** ** Constants *)
Definition HOST_LINK_MAGIC : Z := 19528.             (* 0x4C48 *)
Definition HOST_LINK_VERSION_CURRENT : Z := 1.
Definition HOST_LINK_HDR_CRC_LEN : nat := 12.
Definition HOST_LINK_HEADER_WIRE_LEN : nat := 14.
Definition HOST_LINK_CFG_MAX_PAYLOAD : Z := 512.
Definition HOST_LINK_CFG_NOTIFY_DEPTH : nat := 16.
Definition HOST_LINK_CFG_ACK_SLOTS : nat := 8.
Definition HOST_LINK_CFG_ASYNC_MAX : nat := 4.
Definition HOST_LINK_CFG_ACK_WAIT_SLICE_MS : Z := 20.
Definition HOST_LINK_CFG_ACK_TIMEOUT_MS : Z := 500.
Definition HOST_LINK_CFG_POLL_WAIT_MS : Z := 20.
Definition HOST_LINK_CFG_REQUEST_RETRY : nat := 3.

Inductive host_link_err_t : Type :=
| HOST_LINK_OK
| HOST_LINK_ERR_INVALID_ARG
| HOST_LINK_ERR_INVALID_STATE
| HOST_LINK_ERR_INVALID_SIZE
| HOST_LINK_ERR_NO_MEM
| HOST_LINK_ERR_NO_SLOT
| HOST_LINK_ERR_TIMEOUT
| HOST_LINK_ERR_CRC
| HOST_LINK_ERR_SEND
| HOST_LINK_ERR_PROTO.

#[export] Instance host_link_err_eq_dec : EqDecision host_link_err_t.
Proof. solve_decision. Defined.

Definition hl_ok (e : host_link_err_t) : bool := match e with HOST_LINK_OK => true | _ => false end.

Definition HOST_LINK_TYPE_REQUEST : Z := 0.
Definition HOST_LINK_TYPE_RESPONSE : Z := 1.
Definition HOST_LINK_TYPE_EVENT : Z := 2.
Definition HOST_LINK_TYPE_EVENT_ACK : Z := 3.

(** ** Data *)
Record host_link_header_t : Type := mkHlHeader {
  hl_magic : Z;
  hl_version : Z;
  hl_reserved : Z;
  hl_frame_id : Z;
  hl_type : Z;
  hl_reserved2 : Z;
  hl_cmd : Z;
  hl_len : Z;
  hl_hdr_crc : Z
}.

(** The packed header, little-endian. *)
Definition enc_hl_body (h : host_link_header_t) : list Z :=
  le_enc 2 (hl_magic h) ++ le_enc 1 (hl_version h) ++ le_enc 1 (hl_reserved h) ++
  le_enc 2 (hl_frame_id h) ++ le_enc 1 (hl_type h) ++ le_enc 1 (hl_reserved2 h) ++
  le_enc 2 (hl_cmd h) ++ le_enc 2 (hl_len h).

Definition enc_hl_header (h : host_link_header_t) : list Z := enc_hl_body h ++ le_enc 2 (hl_hdr_crc h).

Definition dec_hl_header (l : list Z) : host_link_header_t := {|
  hl_magic := le_dec (sub 0 2 l);
  hl_version := le_dec (sub 2 1 l);
  hl_reserved := le_dec (sub 3 1 l);
  hl_frame_id := le_dec (sub 4 2 l);
  hl_type := le_dec (sub 6 1 l);
  hl_reserved2 := le_dec (sub 7 1 l);
  hl_cmd := le_dec (sub 8 2 l);
  hl_len := le_dec (sub 10 2 l);
  hl_hdr_crc := le_dec (sub 12 2 l)
|}.

Record host_link_frame_t : Type := mkFrame {
  fr_header : host_link_header_t;
  fr_payload : option ptr;
  fr_payload_crc : Z;
  fr_is_valid : bool
}.

Definition hl_header_zero : host_link_header_t := mkHlHeader 0 0 0 0 0 0 0 0 0.
Definition frame_zero : host_link_frame_t := mkFrame hl_header_zero None 0 false.

Record async_slot_t : Type := mkAsync {
  as_used : bool;
  as_id : Z;
  as_cmd : Z;
  as_started_ms : Z;
  as_user : nat
}.
Definition async_zero : async_slot_t := mkAsync false 0 0 0 0.

Inductive parse_state_t : Type := PS_SYNC0 | PS_SYNC1 | PS_HDR | PS_PAYLOAD.

(** What the outside world decides: whether the next allocations and the next
    transmissions fail, the millisecond tick, and, for each wait on a semaphore
    and each point where the polling task can be preempted, how much time goes
    by and the bytes the receiving task feeds meanwhile. *)
Record env_t : Type := mkHlEnv {
  malloc_fails : list bool;
  send_fails : list bool;
  hl_tick : Z;
  waits : list (Z * list Z);
  preempts : list (Z * list Z)
}.

(** What the application and the transport see: the completion of an
    asynchronous request (with the buffer the application becomes the owner of)
    and the bytes handed to the transport. *)
Inductive event : Type :=
| EvDone (user : nat) (err : host_link_err_t) (data : option ptr) (len : Z)
| EvSend (bytes : list Z).

Record hl : Type := mkHl {
  ready : bool;
  next_frame_id : Z;
  parse_state : parse_state_t;
  parse_got : Z;
  hdr_raw : list Z;
  pend_hdr : host_link_header_t;
  pend_payload : option ptr;
  pend_pay_need : Z;
  notify_slot : list host_link_frame_t;
  ack_slot : list host_link_frame_t;
  ack_tick : list Z;
  async_slot : list async_slot_t;
  heap : gmap ptr (list Z);
  env : env_t;
  log : list event
}.

Definition set_ready (v : bool) (r : hl) : hl :=
  mkHl v (next_frame_id r) (parse_state r) (parse_got r) (hdr_raw r) (pend_hdr r) (pend_payload r) (pend_pay_need r) (notify_slot r) (ack_slot r) (ack_tick r) (async_slot r) (heap r) (env r) (log r).
Definition set_next_frame_id (v : Z) (r : hl) : hl :=
  mkHl (ready r) v (parse_state r) (parse_got r) (hdr_raw r) (pend_hdr r) (pend_payload r) (pend_pay_need r) (notify_slot r) (ack_slot r) (ack_tick r) (async_slot r) (heap r) (env r) (log r).
Definition set_parse_state (v : parse_state_t) (r : hl) : hl :=
  mkHl (ready r) (next_frame_id r) v (parse_got r) (hdr_raw r) (pend_hdr r) (pend_payload r) (pend_pay_need r) (notify_slot r) (ack_slot r) (ack_tick r) (async_slot r) (heap r) (env r) (log r).
Definition set_parse_got (v : Z) (r : hl) : hl :=
  mkHl (ready r) (next_frame_id r) (parse_state r) v (hdr_raw r) (pend_hdr r) (pend_payload r) (pend_pay_need r) (notify_slot r) (ack_slot r) (ack_tick r) (async_slot r) (heap r) (env r) (log r).
Definition set_hdr_raw (v : list Z) (r : hl) : hl :=
  mkHl (ready r) (next_frame_id r) (parse_state r) (parse_got r) v (pend_hdr r) (pend_payload r) (pend_pay_need r) (notify_slot r) (ack_slot r) (ack_tick r) (async_slot r) (heap r) (env r) (log r).
Definition set_pend_hdr (v : host_link_header_t) (r : hl) : hl :=
  mkHl (ready r) (next_frame_id r) (parse_state r) (parse_got r) (hdr_raw r) v (pend_payload r) (pend_pay_need r) (notify_slot r) (ack_slot r) (ack_tick r) (async_slot r) (heap r) (env r) (log r).
Definition set_pend_payload (v : option ptr) (r : hl) : hl :=
  mkHl (ready r) (next_frame_id r) (parse_state r) (parse_got r) (hdr_raw r) (pend_hdr r) v (pend_pay_need r) (notify_slot r) (ack_slot r) (ack_tick r) (async_slot r) (heap r) (env r) (log r).
Definition set_pend_pay_need (v : Z) (r : hl) : hl :=
  mkHl (ready r) (next_frame_id r) (parse_state r) (parse_got r) (hdr_raw r) (pend_hdr r) (pend_payload r) v (notify_slot r) (ack_slot r) (ack_tick r) (async_slot r) (heap r) (env r) (log r).
Definition set_notify_slot (v : list host_link_frame_t) (r : hl) : hl :=
  mkHl (ready r) (next_frame_id r) (parse_state r) (parse_got r) (hdr_raw r) (pend_hdr r) (pend_payload r) (pend_pay_need r) v (ack_slot r) (ack_tick r) (async_slot r) (heap r) (env r) (log r).
Definition set_ack_slot (v : list host_link_frame_t) (r : hl) : hl :=
  mkHl (ready r) (next_frame_id r) (parse_state r) (parse_got r) (hdr_raw r) (pend_hdr r) (pend_payload r) (pend_pay_need r) (notify_slot r) v (ack_tick r) (async_slot r) (heap r) (env r) (log r).
Definition set_ack_tick (v : list Z) (r : hl) : hl :=
  mkHl (ready r) (next_frame_id r) (parse_state r) (parse_got r) (hdr_raw r) (pend_hdr r) (pend_payload r) (pend_pay_need r) (notify_slot r) (ack_slot r) v (async_slot r) (heap r) (env r) (log r).
Definition set_async_slot (v : list async_slot_t) (r : hl) : hl :=
  mkHl (ready r) (next_frame_id r) (parse_state r) (parse_got r) (hdr_raw r) (pend_hdr r) (pend_payload r) (pend_pay_need r) (notify_slot r) (ack_slot r) (ack_tick r) v (heap r) (env r) (log r).
Definition set_heap (v : gmap ptr (list Z)) (r : hl) : hl :=
  mkHl (ready r) (next_frame_id r) (parse_state r) (parse_got r) (hdr_raw r) (pend_hdr r) (pend_payload r) (pend_pay_need r) (notify_slot r) (ack_slot r) (ack_tick r) (async_slot r) v (env r) (log r).
Definition set_env (v : env_t) (r : hl) : hl :=
  mkHl (ready r) (next_frame_id r) (parse_state r) (parse_got r) (hdr_raw r) (pend_hdr r) (pend_payload r) (pend_pay_need r) (notify_slot r) (ack_slot r) (ack_tick r) (async_slot r) (heap r) v (log r).
Definition set_log (v : list event) (r : hl) : hl :=
  mkHl (ready r) (next_frame_id r) (parse_state r) (parse_got r) (hdr_raw r) (pend_hdr r) (pend_payload r) (pend_pay_need r) (notify_slot r) (ack_slot r) (ack_tick r) (async_slot r) (heap r) (env r) v.

(** ** The port *)
Definition host_link_port_tick_ms : M hl Z := gets (fun h => hl_tick (env h)).

Definition host_link_port_tick_diff_ms (start_ms now_ms : Z) : Z :=
  if start_ms <=? now_ms then now_ms - start_ms
  else u32 (4294967295 - start_ms + now_ms + 1).

(** A block of [n] bytes, with what the memory happened to hold (zeroes). *)
Definition host_link_port_malloc (n : Z) : M hl (option ptr) :=
  e ← gets env;
  let take_env := modify (fun h => set_env (mkHlEnv (tail (malloc_fails e)) (send_fails e)
                                              (hl_tick e) (waits e) (preempts e)) h) in
  match malloc_fails e with
  | true :: _ => take_env;; mret None
  | _ =>
      take_env;;
      h ← get;
      let p := fresh (dom (heap h)) in
      modify (fun h => set_heap (<[p := replicate (Z.to_nat n) 0]> (heap h)) h);;
      mret (Some p)
  end.

(** Freeing null does nothing; freeing a block twice is undefined. *)
Definition host_link_port_free (p : option ptr) : M hl unit :=
  match p with
  | None => mret tt
  | Some a =>
      m ← gets heap;
      match m !! a with
      | None => undef
      | Some _ => modify (fun h => set_heap (delete a (heap h)) h)
      end
  end.

(** The contents of a block; a store of [b] at [i]. *)
Definition load (p : ptr) : M hl (list Z) :=
  m ← gets heap;
  match m !! p with None => undef | Some l => mret l end.
Definition store (p : ptr) (l : list Z) : M hl unit :=
  m ← gets heap;
  match m !! p with
  | None => undef
  | Some old => if (length old =? length l)%nat
                then modify (fun h => set_heap (<[p := l]> (heap h)) h) else undef
  end.

Definition emit (e : event) : M hl unit := modify (fun h => set_log (log h ++ [e]) h).

(** ** CRC *)
Definition hl_crc_bit (crc : Z) : Z :=
  if Z.testbit crc 15 then u16 (Z.lxor (Z.shiftl crc 1) 4129) else u16 (Z.shiftl crc 1).
Definition hl_crc_byte (crc b : Z) : Z := Nat.iter 8 hl_crc_bit (Z.lxor crc (Z.shiftl b 8)).
Definition host_link_crc16 (l : list Z) : Z := foldl hl_crc_byte 65535 l.
#[global] Arguments host_link_crc16 : simpl never.

Definition hdr_crc_ok (h : host_link_header_t) : host_link_err_t :=
  if host_link_crc16 (enc_hl_body h) =? hl_hdr_crc h then HOST_LINK_OK else HOST_LINK_ERR_CRC.

Definition payload_crc_ok (pay : list Z) (expect_crc : Z) : host_link_err_t :=
  if host_link_crc16 pay =? expect_crc then HOST_LINK_OK else HOST_LINK_ERR_CRC.

(** ** Slots *)
Definition parse_reset : M hl unit :=
  modify (fun h => set_parse_got 0 (set_parse_state PS_SYNC0 h));;
  p ← gets pend_payload;
  match p with
  | None => mret tt
  | Some _ => host_link_port_free p;; modify (set_pend_payload None)
  end;;
  modify (fun h => set_hdr_raw (replicate HOST_LINK_HEADER_WIRE_LEN 0) (set_pend_pay_need 0 h)).

(** First slot that is not in use. *)
Fixpoint find_empty (l : list host_link_frame_t) : option nat :=
  match l with
  | [] => None
  | f :: l' => if negb (fr_is_valid f) then Some 0%nat else S <$> find_empty l'
  end.
Definition find_empty_notify (h : hl) : option nat := find_empty (notify_slot h).
Definition find_empty_ack (h : hl) : option nat := find_empty (ack_slot h).

(** Frees the payload of a frame; the caller's copy is then empty. *)
Definition free_frame_payload (f : host_link_frame_t) : M hl host_link_frame_t :=
  host_link_port_free (fr_payload f);;
  mret (mkFrame (fr_header f) None (fr_payload_crc f) false).

Definition async_match (f : host_link_frame_t) (a : async_slot_t) : bool :=
  as_used a && (as_id a =? hl_frame_id (fr_header f)) && (as_cmd a =? hl_cmd (fr_header f)).

Fixpoint find_async (f : host_link_frame_t) (l : list async_slot_t) : option nat :=
  match l with
  | [] => None
  | a :: l' => if async_match f a then Some 0%nat else S <$> find_async f l'
  end.

Definition release_async (i : nat) (h : hl) : hl :=
  set_async_slot (alter (fun a => mkAsync false (as_id a) (as_cmd a) (as_started_ms a) (as_user a)) i
                    (async_slot h)) h.

(** The frame is moved into the slots (or to the application) when the result
    is [HOST_LINK_OK]; otherwise the caller still owns its payload. *)
Definition add_ack_frame_locked (f : host_link_frame_t) : M hl host_link_err_t :=
  h ← get;
  match (if hl_type (fr_header f) =? HOST_LINK_TYPE_RESPONSE then find_async f (async_slot h) else None) with
  | Some i =>
      match async_slot h !! i with
      | None => undef
      | Some a =>
          modify (release_async i);;
          emit (EvDone (as_user a) HOST_LINK_OK (fr_payload f) (hl_len (fr_header f)));;
          mret HOST_LINK_OK
      end
  | None =>
      match find_empty_ack h with
      | None => mret HOST_LINK_ERR_NO_SLOT
      | Some i =>
          now ← host_link_port_tick_ms;
          modify (fun h => set_ack_tick (<[i := now]> (ack_tick h))
            (set_ack_slot (<[i := mkFrame (fr_header f) (fr_payload f) (fr_payload_crc f) true]>
                             (ack_slot h)) h));;
          mret HOST_LINK_OK
      end
  end.

Definition add_notify_frame_locked (f : host_link_frame_t) : M hl host_link_err_t :=
  h ← get;
  match find_empty_notify h with
  | None => mret HOST_LINK_ERR_NO_SLOT
  | Some i =>
      modify (fun h => set_notify_slot
        (<[i := mkFrame (fr_header f) (fr_payload f) (fr_payload_crc f) true]> (notify_slot h)) h);;
      mret HOST_LINK_OK
  end.

(** The bytes [payload_crc_ok] reads. *)
Definition payload_bytes (f : host_link_frame_t) : M hl (list Z) :=
  if hl_len (fr_header f) =? 0 then mret []
  else match fr_payload f with
       | None => undef
       | Some p => l ← load p; if zlen l <? hl_len (fr_header f) then undef
                              else mret (take (Z.to_nat (hl_len (fr_header f))) l)
       end.

Definition deal_one_frame (f : host_link_frame_t) : M hl host_link_err_t :=
  let e := hdr_crc_ok (fr_header f) in
  if negb (hl_ok e) then mret e
  else if negb (hl_magic (fr_header f) =? HOST_LINK_MAGIC) ||
          negb (hl_version (fr_header f) =? HOST_LINK_VERSION_CURRENT)
  then mret HOST_LINK_ERR_PROTO
  else
    pay ← payload_bytes f;
    let e := payload_crc_ok pay (fr_payload_crc f) in
    if negb (hl_ok e) then mret e
    else
      rdy ← gets ready;
      if negb rdy : bool then mret HOST_LINK_ERR_INVALID_STATE
      else
        let ty := hl_type (fr_header f) in
        if (ty =? HOST_LINK_TYPE_REQUEST) || (ty =? HOST_LINK_TYPE_EVENT) then add_notify_frame_locked f
        else if (ty =? HOST_LINK_TYPE_RESPONSE) || (ty =? HOST_LINK_TYPE_EVENT_ACK)
        then add_ack_frame_locked f
        else mret HOST_LINK_ERR_PROTO.

(** ** The byte parser *)
Definition drop_pending (raw : ptr) : M hl unit :=
  host_link_port_free (Some raw);; modify (set_pend_payload None).

(** The frame's own copy of its payload: [None] when there is no memory. *)
Definition copy_payload (l : Z) (pay : list Z) : M hl (option (option ptr)) :=
  if 0 <? l then
    p ← host_link_port_malloc l;
    match p with
    | None => mret None
    | Some q => store q pay;; mret (Some (Some q))
    end
  else mret (Some None).

Definition feed_finish_payload : M hl unit :=
  h ← get;
  match pend_payload h with
  | None => undef
  | Some raw =>
      bytes ← load raw;
      let l := hl_len (pend_hdr h) in
      if zlen bytes <? l + 2 then undef
      else
        let pay := take (Z.to_nat l) bytes in
        let wire_crc := le_dec (sub (Z.to_nat l) 2 bytes) in
        if negb (hl_ok (payload_crc_ok pay wire_crc)) then drop_pending raw;; parse_reset
        else
          copy ← copy_payload l pay;
          match copy with
          | None => drop_pending raw;; parse_reset
          | Some q =>
              drop_pending raw;;
              let fr := mkFrame (pend_hdr h) q wire_crc true in
              r ← deal_one_frame fr;
              (if negb (hl_ok r) then free_frame_payload fr;; mret tt else mret tt);;
              parse_reset
          end
  end.

(** Room for the payload and its CRC. *)
Definition alloc_pending (n : Z) : M hl unit :=
  p ← host_link_port_malloc n;
  match p with
  | None => parse_reset
  | Some q =>
      modify (fun h => set_parse_state PS_PAYLOAD (set_parse_got 0 (set_pend_payload (Some q) h)))
  end.

Definition header_complete : M hl unit :=
  modify (fun h => set_pend_hdr (dec_hl_header (hdr_raw h)) h);;
  h ← get;
  let len := hl_len (pend_hdr h) in
  if HOST_LINK_CFG_MAX_PAYLOAD <? len then parse_reset
  else
    let need := u16 (len + 2) in
    modify (set_pend_pay_need need);;
    if (need =? 2) && (len =? 0) then alloc_pending 2
    else if 0 <? len then alloc_pending need
    else parse_reset.

Definition feed_byte (b : Z) : M hl unit :=
  h ← get;
  match parse_state h with
  | PS_SYNC0 => if b =? u8 HOST_LINK_MAGIC then modify (set_parse_state PS_SYNC1) else mret tt
  | PS_SYNC1 =>
      if b =? u8 (Z.shiftr HOST_LINK_MAGIC 8) then
        modify (fun h => set_parse_state PS_HDR (set_parse_got 2
          (set_hdr_raw (<[1%nat := u8 (Z.shiftr HOST_LINK_MAGIC 8)]>
                          (<[0%nat := u8 HOST_LINK_MAGIC]> (hdr_raw h))) h)))
      else if b =? u8 HOST_LINK_MAGIC then modify (set_parse_state PS_SYNC1)
      else modify (set_parse_state PS_SYNC0)
  | PS_HDR =>
      (if parse_got h <? Z.of_nat HOST_LINK_HEADER_WIRE_LEN then
         modify (fun h => set_parse_got (u16 (parse_got h + 1))
           (set_hdr_raw (<[Z.to_nat (parse_got h) := b]> (hdr_raw h)) h))
       else mret tt);;
      got ← gets parse_got;
      if got =? Z.of_nat HOST_LINK_HEADER_WIRE_LEN then header_complete else mret tt
  | PS_PAYLOAD =>
      match pend_payload h with
      | Some p =>
          if parse_got h <? pend_pay_need h then
            l ← load p;
            if zlen l <=? parse_got h then undef
            else
              store p (<[Z.to_nat (parse_got h) := b]> l);;
              modify (set_parse_got (u16 (parse_got h + 1)))
          else mret tt
      | None => mret tt
      end;;
      h ← get;
      if pend_pay_need h <=? parse_got h then feed_finish_payload else mret tt
  end.

Fixpoint host_link_feed (data : list Z) : M hl unit :=
  match data with
  | [] => mret tt
  | b :: data' =>
      rdy ← gets ready;
      if negb rdy : bool then mret tt else feed_byte b;; host_link_feed data'
  end.

(** ** Sending *)

(** The transport sees the bytes; it may report a failure. *)
Definition send_fn (bytes : list Z) : M hl Z :=
  emit (EvSend bytes);;
  e ← gets env;
  modify (fun h => set_env (mkHlEnv (malloc_fails e) (tail (send_fails e)) (hl_tick e)
    (waits e) (preempts e)) h);;
  mret (match send_fails e with true :: _ => -1 | _ => 0 end).

Definition set_hl_hdr_crc (c : Z) (h : host_link_header_t) : host_link_header_t :=
  mkHlHeader (hl_magic h) (hl_version h) (hl_reserved h) (hl_frame_id h) (hl_type h) (hl_reserved2 h)
    (hl_cmd h) (hl_len h) c.

(** The bytes of a frame on the wire. *)
Definition wire_bytes (hdr : host_link_header_t) (payload : list Z) : list Z :=
  let hdr := set_hl_hdr_crc (host_link_crc16 (enc_hl_body hdr)) hdr in
  enc_hl_header hdr ++ payload ++ le_enc 2 (host_link_crc16 payload).

Definition send_wire (hdr : host_link_header_t) (payload : list Z) : M hl host_link_err_t :=
  let total := u16 (Z.of_nat HOST_LINK_HEADER_WIRE_LEN + zlen payload + 2) in
  buf ← host_link_port_malloc total;
  match buf with
  | None => mret HOST_LINK_ERR_NO_MEM
  | Some p =>
      store p (wire_bytes hdr payload);;
      bytes ← load p;
      sr ← send_fn bytes;
      host_link_port_free (Some p);;
      mret (if sr =? 0 then HOST_LINK_OK else HOST_LINK_ERR_SEND)
  end.

Definition make_header (frame_id type cmd len : Z) : host_link_header_t :=
  mkHlHeader HOST_LINK_MAGIC HOST_LINK_VERSION_CURRENT 0 frame_id type 0 cmd len 0.

(** ** Waiting *)
Definition ack_match (typ cmd frame_id : Z) (f : host_link_frame_t) : bool :=
  fr_is_valid f && (hl_frame_id (fr_header f) =? frame_id) && (hl_cmd (fr_header f) =? cmd) &&
  (hl_type (fr_header f) =? typ).

Fixpoint find_ack (typ cmd frame_id : Z) (l : list host_link_frame_t) : option nat :=
  match l with
  | [] => None
  | f :: l' => if ack_match typ cmd frame_id f then Some 0%nat
               else S <$> find_ack typ cmd frame_id l'
  end.

(** Takes a frame out of a slot, without its payload being freed. *)
Definition take_frame (f : host_link_frame_t) : host_link_frame_t :=
  mkFrame (fr_header f) None (fr_payload_crc f) false.

(** The receiving task runs for [dt] milliseconds and feeds [bytes]. *)
Definition rx_task (dt : Z) (bytes : list Z) : M hl unit :=
  modify (fun h => set_env (mkHlEnv (malloc_fails (env h)) (send_fails (env h)) (hl_tick (env h) +u dt)
                             (waits (env h)) (preempts (env h))) h);;
  host_link_feed bytes.

(** A wait of at most [ms]; without anything left to receive it times out. *)
Definition host_link_port_sem_wait (ms : Z) : M hl unit :=
  e ← gets env;
  match waits e with
  | [] => rx_task ms []
  | (dt, bytes) :: ws =>
      modify (set_env (mkHlEnv (malloc_fails e) (send_fails e) (hl_tick e) ws (preempts e)));;
      rx_task dt bytes
  end.

(** A point outside the locked regions: the receiving task may run. *)
Definition preempt : M hl unit :=
  e ← gets env;
  match preempts e with
  | [] => mret tt
  | (dt, bytes) :: ps =>
      modify (set_env (mkHlEnv (malloc_fails e) (send_fails e) (hl_tick e) (waits e) ps));;
      rx_task dt bytes
  end.

(** [fuel] bounds the rounds; the time-out bounds them when waits take time. *)
Fixpoint wait_loop (fuel : nat) (t0 typ cmd frame_id timeout_ms : Z)
  : M hl (host_link_err_t * host_link_frame_t) :=
  match fuel with
  | O => fun _ => NoFuel
  | S f =>
      h ← get;
      if negb (ready h) then mret (HOST_LINK_ERR_INVALID_STATE, frame_zero)
      else
        match find_ack typ cmd frame_id (ack_slot h) with
        | Some i =>
            match ack_slot h !! i with
            | None => undef
            | Some fr =>
                modify (fun h => set_ack_slot (<[i := take_frame fr]> (ack_slot h)) h);;
                mret (HOST_LINK_OK, fr)
            end
        | None =>
            now ← host_link_port_tick_ms;
            if timeout_ms <=? host_link_port_tick_diff_ms t0 now
            then mret (HOST_LINK_ERR_TIMEOUT, frame_zero)
            else host_link_port_sem_wait HOST_LINK_CFG_ACK_WAIT_SLICE_MS;;
                 wait_loop f t0 typ cmd frame_id timeout_ms
        end
  end.

Definition wait_for_ack_timeout (fuel : nat) (typ cmd frame_id timeout_ms : Z)
  : M hl (host_link_err_t * host_link_frame_t) :=
  t0 ← host_link_port_tick_ms;
  wait_loop fuel t0 typ cmd frame_id timeout_ms.

Definition wait_for_ack (fuel : nat) (typ cmd frame_id : Z) : M hl (host_link_err_t * host_link_frame_t) :=
  t0 ← host_link_port_tick_ms;
  wait_loop fuel t0 typ cmd frame_id HOST_LINK_CFG_ACK_TIMEOUT_MS.

(** ** Life cycle *)
(** The objects a handler holds. *)
Inductive os_obj : Type := ObjHandler | ObjLock | ObjAckSem | ObjNotifySem.
Inductive os_op : Type := OsCreate (o : os_obj) | OsDestroy (o : os_obj).

#[export] Instance os_obj_eq_dec : EqDecision os_obj.
Proof. solve_decision. Defined.

(** Which of the allocations of [host_link_init] succeed. *)
Record init_env : Type := mkInitEnv {
  handler_ok : bool;
  lock_ok : bool;
  ack_sem_ok : bool;
  notify_sem_ok : bool
}.

Definition when (b : bool) (o : os_op) : list os_op := if b then [o] else [].

Definition fresh_handler (e : env_t) : hl :=
  mkHl true 0 PS_SYNC0 0 (replicate HOST_LINK_HEADER_WIRE_LEN 0) hl_header_zero None 0
    (replicate HOST_LINK_CFG_NOTIFY_DEPTH frame_zero) (replicate HOST_LINK_CFG_ACK_SLOTS frame_zero)
    (replicate HOST_LINK_CFG_ACK_SLOTS 0) (replicate HOST_LINK_CFG_ASYNC_MAX async_zero) ∅ e [].

(** The new handler, if any, and the operations on the objects it holds. *)
Definition host_link_init (send_null notify_null : bool) (ie : init_env) (e : env_t)
  : option hl * list os_op :=
  if send_null || notify_null then (None, [])
  else if negb (handler_ok ie) then (None, [])
  else
    let created := [OsCreate ObjHandler] ++ when (lock_ok ie) (OsCreate ObjLock) ++
                   when (ack_sem_ok ie) (OsCreate ObjAckSem) ++
                   when (notify_sem_ok ie) (OsCreate ObjNotifySem) in
    if negb (lock_ok ie) || negb (ack_sem_ok ie) || negb (notify_sem_ok ie) then
      (None, created ++ when (notify_sem_ok ie) (OsDestroy ObjNotifySem) ++
             when (ack_sem_ok ie) (OsDestroy ObjAckSem) ++
             when (lock_ok ie) (OsDestroy ObjLock) ++ [OsDestroy ObjHandler])
    else (Some (fresh_handler e), created).

Fixpoint free_frames (l : list host_link_frame_t) : M hl (list host_link_frame_t) :=
  match l with
  | [] => mret []
  | f :: l' => f' ← free_frame_payload f; l'' ← free_frames l'; mret (f' :: l'')
  end.

(** What remains of the handler's blocks once it is released; the objects it
    held are destroyed in the order of the result. *)
Definition host_link_deinit : M hl (list os_op) :=
  modify (set_ready false);;
  ns ← gets notify_slot;
  ns' ← free_frames ns;
  modify (set_notify_slot ns');;
  ks ← gets ack_slot;
  ks' ← free_frames ks;
  modify (set_ack_slot ks');;
  modify (fun h => set_async_slot
    (map (fun a => mkAsync false (as_id a) (as_cmd a) (as_started_ms a) (as_user a)) (async_slot h)) h);;
  p ← gets pend_payload;
  match p with
  | None => mret tt
  | Some _ => host_link_port_free p;; modify (set_pend_payload None)
  end;;
  mret [OsDestroy ObjAckSem; OsDestroy ObjNotifySem; OsDestroy ObjLock; OsDestroy ObjHandler].

(** ** Dispatch *)

(** A loop over slot indices whose body may leave the function ([true]). *)
Fixpoint for_slots (f : nat -> M hl bool) (ks : list nat) : M hl bool :=
  match ks with
  | [] => mret false
  | i :: ks' => leave ← f i; if leave : bool then mret true else for_slots f ks'
  end.

Definition expire_ack (now : Z) (i : nat) : M hl bool :=
  h ← get;
  match ack_slot h !! i, ack_tick h !! i with
  | Some fr, Some t =>
      if fr_is_valid fr && (HOST_LINK_CFG_ACK_TIMEOUT_MS <=? host_link_port_tick_diff_ms t now) then
        fr' ← free_frame_payload fr;
        modify (fun h => set_ack_slot (<[i := fr']> (ack_slot h)) h);;
        mret false
      else mret false
  | _, _ => undef
  end.

Definition expire_async (now : Z) (i : nat) : M hl bool :=
  h ← get;
  match async_slot h !! i with
  | None => undef
  | Some a =>
      if as_used a && (HOST_LINK_CFG_ACK_TIMEOUT_MS <=? host_link_port_tick_diff_ms (as_started_ms a) now)
      then modify (release_async i);; emit (EvDone (as_user a) HOST_LINK_ERR_TIMEOUT None 0);; mret false
      else mret false
  end.

Section Poll.
(** The notify callback may use the link, and may take the payload over by
    clearing the frame it is given. *)
Context (notify_cb : host_link_frame_t -> M hl host_link_frame_t).

Definition notify_one (i : nat) : M hl bool :=
  rdy ← gets ready;
  if negb rdy : bool then mret true
  else
    preempt;;
    h ← get;
    match notify_slot h !! i with
    | None => undef
    | Some fr =>
        if fr_is_valid fr then
          modify (fun h => set_notify_slot (<[i := take_frame fr]> (notify_slot h)) h);;
          fr' ← notify_cb fr;
          free_frame_payload fr';;
          mret false
        else mret false
    end.

Definition host_link_poll : M hl unit :=
  leave ← for_slots notify_one (seq 0 HOST_LINK_CFG_NOTIFY_DEPTH);
  if leave : bool then mret tt
  else
    now ← host_link_port_tick_ms;
    preempt;;
    for_slots (expire_ack now) (seq 0 HOST_LINK_CFG_ACK_SLOTS);;
    for_slots (expire_async now) (seq 0 HOST_LINK_CFG_ASYNC_MAX);;
    rdy ← gets ready;
    if rdy : bool then host_link_port_sem_wait HOST_LINK_CFG_POLL_WAIT_MS
    else rx_task HOST_LINK_CFG_POLL_WAIT_MS [].
End Poll.

(** ** Requests, responses, events *)
Definition alloc_frame_id : M hl Z :=
  id ← gets next_frame_id;
  modify (set_next_frame_id (u16 (id + 1)));;
  mret id.

(** A buffer argument of the API: a null pointer or the bytes it points at. *)
Definition null_arg (data : option (list Z)) (len : Z) : bool :=
  (0 <? len) && match data with None => true | Some _ => false end.

Definition arg_bytes (data : option (list Z)) (len : Z) : M hl (list Z) :=
  if len =? 0 then mret []
  else match data with
       | None => undef
       | Some l => if zlen l <? len then undef else mret (take (Z.to_nat len) l)
       end.

(** The response of one attempt goes to the caller or is freed. *)
Definition settle (want : bool) (ret : host_link_err_t) (ack : host_link_frame_t)
  : M hl (option (ptr * Z)) :=
  match fr_payload ack with
  | Some p =>
      if hl_ok ret && (0 <? hl_len (fr_header ack)) && want
      then mret (Some (p, hl_len (fr_header ack)))
      else host_link_port_free (Some p);; mret None
  | None => mret None
  end.

(** The attempts of a synchronous exchange; the response payload becomes the
    caller's when it asked for one ([want]). *)
Fixpoint request_loop (fuel retries : nat) (cmd : Z) (req : list Z) (want : bool) (timeout_ms : Z)
    (ret : host_link_err_t) : M hl (host_link_err_t * option (ptr * Z)) :=
  match retries with
  | O => mret (ret, None)
  | S n =>
      fid ← alloc_frame_id;
      ret ← send_wire (make_header fid HOST_LINK_TYPE_REQUEST cmd (zlen req)) req;
      if negb (hl_ok ret) then request_loop fuel n cmd req want timeout_ms ret
      else
        '(ret, ack) ← wait_for_ack_timeout fuel HOST_LINK_TYPE_RESPONSE cmd fid timeout_ms;
        resp ← settle want ret ack;
        if hl_ok ret then mret (ret, resp) else request_loop fuel n cmd req want timeout_ms ret
  end.

Definition host_link_request_timeout (fuel : nat) (cmd : Z) (req_data : option (list Z)) (req_len : Z)
    (want : bool) (timeout_ms : Z) : M hl (host_link_err_t * option (ptr * Z)) :=
  if null_arg req_data req_len then mret (HOST_LINK_ERR_INVALID_ARG, None)
  else if HOST_LINK_CFG_MAX_PAYLOAD <? req_len then mret (HOST_LINK_ERR_INVALID_SIZE, None)
  else
    req ← arg_bytes req_data req_len;
    request_loop fuel HOST_LINK_CFG_REQUEST_RETRY cmd req want timeout_ms HOST_LINK_ERR_TIMEOUT.

Definition host_link_request (fuel : nat) (cmd : Z) (req_data : option (list Z)) (req_len : Z)
    (want : bool) : M hl (host_link_err_t * option (ptr * Z)) :=
  host_link_request_timeout fuel cmd req_data req_len want HOST_LINK_CFG_ACK_TIMEOUT_MS.

Fixpoint find_free_async (l : list async_slot_t) : option nat :=
  match l with
  | [] => None
  | a :: l' => if negb (as_used a) then Some 0%nat else S <$> find_free_async l'
  end.

(** [done] is the callback with its argument; [None] is a null callback.  The
    frame is sent outside the lock: [meanwhile] is what the other tasks do with
    the link before the lock is taken again. *)
Definition host_link_request_async (meanwhile : M hl unit) (cmd : Z) (req_data : option (list Z)) (req_len : Z)
    (done : option nat) : M hl host_link_err_t :=
  match done with
  | None => mret HOST_LINK_ERR_INVALID_ARG
  | Some user =>
      if null_arg req_data req_len then mret HOST_LINK_ERR_INVALID_ARG
      else if HOST_LINK_CFG_MAX_PAYLOAD <? req_len then mret HOST_LINK_ERR_INVALID_SIZE
      else
        h ← get;
        match find_free_async (async_slot h) with
        | None => mret HOST_LINK_ERR_NO_SLOT
        | Some i =>
            fid ← alloc_frame_id;
            now ← host_link_port_tick_ms;
            modify (fun h => set_async_slot (<[i := mkAsync true fid cmd now user]> (async_slot h)) h);;
            req ← arg_bytes req_data req_len;
            ret ← send_wire (make_header fid HOST_LINK_TYPE_REQUEST cmd (zlen req)) req;
            meanwhile;;
            (if negb (hl_ok ret) then
               modify (release_async i);; emit (EvDone user ret None 0)
             else mret tt);;
            mret ret
        end
  end.

Definition host_link_response (req_frame : option host_link_frame_t) (data : option (list Z)) (len : Z)
  : M hl host_link_err_t :=
  match req_frame with
  | None => mret HOST_LINK_ERR_INVALID_ARG
  | Some f =>
      if null_arg data len then mret HOST_LINK_ERR_INVALID_ARG
      else if HOST_LINK_CFG_MAX_PAYLOAD <? len then mret HOST_LINK_ERR_INVALID_SIZE
      else
        pay ← arg_bytes data len;
        send_wire (make_header (hl_frame_id (fr_header f)) HOST_LINK_TYPE_RESPONSE
                     (hl_cmd (fr_header f)) (zlen pay)) pay
  end.

Fixpoint event_loop (fuel retries : nat) (cmd : Z) (data : list Z) (ret : host_link_err_t)
  : M hl host_link_err_t :=
  match retries with
  | O => mret ret
  | S n =>
      fid ← alloc_frame_id;
      ret ← send_wire (make_header fid HOST_LINK_TYPE_EVENT cmd (zlen data)) data;
      if negb (hl_ok ret) then event_loop fuel n cmd data ret
      else
        '(ret, ack) ← wait_for_ack fuel HOST_LINK_TYPE_EVENT_ACK cmd fid;
        host_link_port_free (fr_payload ack);;
        if hl_ok ret then mret HOST_LINK_OK else event_loop fuel n cmd data ret
  end.

Definition host_link_send_event (fuel : nat) (cmd : Z) (data : option (list Z)) (len : Z)
  : M hl host_link_err_t :=
  if null_arg data len then mret HOST_LINK_ERR_INVALID_ARG
  else if HOST_LINK_CFG_MAX_PAYLOAD <? len then mret HOST_LINK_ERR_INVALID_SIZE
  else
    pay ← arg_bytes data len;
    event_loop fuel HOST_LINK_CFG_REQUEST_RETRY cmd pay HOST_LINK_ERR_TIMEOUT.

Definition host_link_event_ack (event_frame : option host_link_frame_t) : M hl host_link_err_t :=
  match event_frame with
  | None => mret HOST_LINK_ERR_INVALID_ARG
  | Some f => send_wire (make_header (hl_frame_id (fr_header f)) HOST_LINK_TYPE_EVENT_ACK
                           (hl_cmd (fr_header f)) 0) []
  end.

Definition host_link_free (p : option ptr) : M hl unit := host_link_port_free p.
