(* ===== verification/HostLinkInv.v ===== *)
(** Memory safety of the host link: the invariant of the handler, with exact
    ownership of every heap block, and its preservation by the byte parser and
    the slots. *)
From stdpp Require Import gmap.
From S2P Require Import Prelude Heap HostLink.

(** ** Frames *)
Definition payloads (l : list host_link_frame_t) : list ptr := omap fr_payload l.

Lemma payloads_insert l i f g :
  l !! i = Some g ->
  option_list (fr_payload g) ++ payloads (<[i := f]> l) ≡ₚ option_list (fr_payload f) ++ payloads l.
Proof. apply omap_insert. Qed.

Lemma payloads_elem l i f p : l !! i = Some f -> fr_payload f = Some p -> p ∈ payloads l.
Proof. apply omap_elem. Qed.

(** The frames the link hands on: checked headers and checked payloads. *)
Definition payload_ok (m : gmap ptr (list Z)) (f : host_link_frame_t) : Prop :=
  match fr_payload f with
  | None => hl_len (fr_header f) = 0 /\ fr_payload_crc f = host_link_crc16 []
  | Some p => exists l, m !! p = Some l /\ zlen l = hl_len (fr_header f) /\ l <> [] /\ bytes_ok l /\
                        fr_payload_crc f = host_link_crc16 l
  end.

Record frame_good (m : gmap ptr (list Z)) (f : host_link_frame_t) : Prop := {
  fg_crc : host_link_crc16 (enc_hl_body (fr_header f)) = hl_hdr_crc (fr_header f);
  fg_magic : hl_magic (fr_header f) = HOST_LINK_MAGIC;
  fg_version : hl_version (fr_header f) = HOST_LINK_VERSION_CURRENT;
  fg_len : 0 <= hl_len (fr_header f) <= HOST_LINK_CFG_MAX_PAYLOAD;
  fg_payload : payload_ok m f
}.

Definition notify_type (t : Z) : bool := (t =? HOST_LINK_TYPE_REQUEST) || (t =? HOST_LINK_TYPE_EVENT).
Definition ack_type (t : Z) : bool := (t =? HOST_LINK_TYPE_RESPONSE) || (t =? HOST_LINK_TYPE_EVENT_ACK).

Definition slot_ok (ty : Z -> bool) (m : gmap ptr (list Z)) (f : host_link_frame_t) : Prop :=
  if fr_is_valid f then ty (hl_type (fr_header f)) = true /\ frame_good m f
  else fr_payload f = None.

Lemma payload_ok_agree m m' f :
  payload_ok m f -> (forall p, fr_payload f = Some p -> m' !! p = m !! p) -> payload_ok m' f.
Proof. unfold payload_ok. destruct (fr_payload f); [|done]. intros ? E. by rewrite (E p). Qed.

Lemma slot_ok_agree ty m m' f :
  slot_ok ty m f -> (forall p, fr_payload f = Some p -> m' !! p = m !! p) -> slot_ok ty m' f.
Proof.
  unfold slot_ok. destruct (fr_is_valid f); [|done]. intros [? []] ?. split; [done|].
  constructor; auto. by eapply payload_ok_agree.
Qed.

Lemma slots_agree ty m m' l :
  Forall (slot_ok ty m) l -> (forall p, p ∈ payloads l -> m' !! p = m !! p) -> Forall (slot_ok ty m') l.
Proof.
  rewrite !Forall_forall. intros H E f Hf. eapply slot_ok_agree; [by apply H|].
  intros p Hp. apply E, list_elem_of_omap. eauto.
Qed.

(** ** The slots and the heap

    [A] lists the blocks that are not the handler's: what the application owns,
    and what is in flight inside an operation. *)
Record core (A : list ptr) (pp : option ptr) (ns ks : list host_link_frame_t)
    (m : gmap ptr (list Z)) : Prop := {
  c_ns : length ns = HOST_LINK_CFG_NOTIFY_DEPTH;
  c_ks : length ks = HOST_LINK_CFG_ACK_SLOTS;
  c_nok : Forall (slot_ok notify_type m) ns;
  c_kok : Forall (slot_ok ack_type m) ks;
  c_own : blocks m ≡ₚ option_list pp ++ payloads ns ++ payloads ks ++ A
}.

Section Core.
Context (A : list ptr) (pp : option ptr) (ns ks : list host_link_frame_t) (m : gmap ptr (list Z)).

Lemma core_perm A' : core A pp ns ks m -> A ≡ₚ A' -> core A' pp ns ks m.
Proof. intros [] E. constructor; auto. by rewrite c_own0, E. Qed.

Lemma core_nodup : core A pp ns ks m -> NoDup (option_list pp ++ payloads ns ++ payloads ks ++ A).
Proof. intros H. rewrite <- (c_own _ _ _ _ _ H). apply blocks_nodup. Qed.

(** A block outside the slots can change without the slots noticing. *)
Lemma core_slots_agree m' :
  core A pp ns ks m ->
  (forall p, p ∈ payloads ns ++ payloads ks -> m' !! p = m !! p) ->
  Forall (slot_ok notify_type m') ns /\ Forall (slot_ok ack_type m') ks.
Proof.
  intros [] E.
  split; (eapply slots_agree; [done|]); intros p Hp; apply E; rewrite elem_of_app; auto.
Qed.

Lemma core_alloc p l : core A pp ns ks m -> m !! p = None -> core (p :: A) pp ns ks (<[p := l]> m).
Proof.
  intros H Hp.
  assert (Hout : p ∉ blocks m) by (intros [l' E]%blocks_lookup; congruence).
  destruct (core_slots_agree (<[p := l]> m) H) as [? ?].
  { intros q Hq. apply lookup_insert_ne. intros ->. apply Hout.
    rewrite (c_own _ _ _ _ _ H), !elem_of_app in *. tauto. }
  destruct H. constructor; auto. rewrite blocks_insert, c_own0 by done. solve_Permutation.
Qed.

Lemma core_held p : core A pp ns ks m -> p ∈ A -> exists l, m !! p = Some l.
Proof.
  intros H Hp. apply blocks_lookup. rewrite (c_own _ _ _ _ _ H), !elem_of_app. tauto.
Qed.

Lemma core_pend p : core A (Some p) ns ks m -> exists l, m !! p = Some l.
Proof. intros H. apply blocks_lookup. rewrite (c_own _ _ _ _ _ H). cbn. left. Qed.
End Core.

Section CoreMoves.
Context (A : list ptr) (pp : option ptr) (ns ks : list host_link_frame_t) (m : gmap ptr (list Z)).

(** A block held outside the handler is not in the slots. *)
Lemma core_apart p q : core (p :: A) pp ns ks m -> q ∈ payloads ns ++ payloads ks -> q <> p.
Proof.
  intros H%core_nodup Hq ->. rewrite !app_assoc in H.
  apply NoDup_app in H as (_ & H & _).
  apply (H p); [|left]. rewrite !elem_of_app in *. tauto.
Qed.

Lemma core_free p : core (p :: A) pp ns ks m -> core A pp ns ks (delete p m).
Proof.
  intros H. destruct (core_held _ _ _ _ _ p H ltac:(left)) as [l Hl].
  destruct (core_slots_agree _ _ _ _ _ (delete p m) H) as [? ?].
  { intros q Hq. apply lookup_delete_ne. intros <-. by eapply core_apart. }
  destruct H. constructor; auto. apply (Permutation_cons_inv (a:=p)).
  rewrite <- (blocks_delete m p l) by done. rewrite c_own0. solve_Permutation.
Qed.

Lemma core_store p l : core (p :: A) pp ns ks m -> core (p :: A) pp ns ks (<[p := l]> m).
Proof.
  intros H. destruct (core_held _ _ _ _ _ p H ltac:(left)) as [k Hk].
  destruct (core_slots_agree _ _ _ _ _ (<[p := l]> m) H) as [? ?].
  { intros q Hq. apply lookup_insert_ne. intros <-. by eapply core_apart. }
  destruct H. constructor; auto. by rewrite (blocks_update _ _ _ k).
Qed.

(** The parser's buffer goes in flight and back. *)
Lemma core_take_pend p : core A (Some p) ns ks m -> core (p :: A) None ns ks m.
Proof. intros []. constructor; auto. rewrite c_own0. cbn. solve_Permutation. Qed.

Lemma core_put_pend p : core (p :: A) None ns ks m -> core A (Some p) ns ks m.
Proof. intros []. constructor; auto. rewrite c_own0. cbn. solve_Permutation. Qed.

(** A frame is moved into a free slot, or taken out of one. *)
Lemma core_put_notify i g f :
  core (option_list (fr_payload f) ++ A) pp ns ks m -> ns !! i = Some g -> fr_is_valid g = false ->
  slot_ok notify_type m f -> core A pp (<[i := f]> ns) ks m.
Proof.
  intros [] Hg Hv Hf. pose proof (Forall_lookup_1 _ _ _ _ c_nok0 Hg) as Hk.
  unfold slot_ok in Hk. rewrite Hv in Hk. pose proof (payloads_insert ns i f g Hg) as E.
  rewrite Hk in E. cbn in E. constructor; auto.
  - by rewrite length_insert.
  - by apply Forall_insert.
  - rewrite c_own0, E. solve_Permutation.
Qed.

Lemma core_put_ack i g f :
  core (option_list (fr_payload f) ++ A) pp ns ks m -> ks !! i = Some g -> fr_is_valid g = false ->
  slot_ok ack_type m f -> core A pp ns (<[i := f]> ks) m.
Proof.
  intros [] Hg Hv Hf. pose proof (Forall_lookup_1 _ _ _ _ c_kok0 Hg) as Hk.
  unfold slot_ok in Hk. rewrite Hv in Hk. pose proof (payloads_insert ks i f g Hg) as E.
  rewrite Hk in E. cbn in E. constructor; auto.
  - by rewrite length_insert.
  - by apply Forall_insert.
  - rewrite c_own0, E. solve_Permutation.
Qed.

Lemma core_take_notify i f :
  core A pp ns ks m -> ns !! i = Some f ->
  core (option_list (fr_payload f) ++ A) pp (<[i := take_frame f]> ns) ks m.
Proof.
  intros [] Hf. pose proof (payloads_insert ns i (take_frame f) f Hf) as E. cbn in E.
  constructor; auto.
  - by rewrite length_insert.
  - by apply Forall_insert.
  - rewrite c_own0, <- E. solve_Permutation.
Qed.

Lemma core_take_ack i f g :
  core A pp ns ks m -> ks !! i = Some f -> fr_payload g = None -> fr_is_valid g = false ->
  core (option_list (fr_payload f) ++ A) pp ns (<[i := g]> ks) m.
Proof.
  intros [] Hf Hp Hv. pose proof (payloads_insert ks i g f Hf) as E. rewrite Hp in E. cbn in E.
  constructor; auto.
  - by rewrite length_insert.
  - apply Forall_insert; [done|]. unfold slot_ok. by rewrite Hv.
  - rewrite c_own0, <- E. solve_Permutation.
Qed.
End CoreMoves.

(** ** The handler *)
Definition rx_ok (w : Z * list Z) : Prop := 0 <= w.1 /\ bytes_ok w.2.
Definition env_ok (e : env_t) : Prop :=
  Forall rx_ok (waits e) /\ Forall rx_ok (preempts e) /\ 0 <= hl_tick e < 4294967296.

Record aux (h : hl) : Prop := {
  a_tick : length (ack_tick h) = HOST_LINK_CFG_ACK_SLOTS;
  a_async : length (async_slot h) = HOST_LINK_CFG_ASYNC_MAX;
  a_raw : length (hdr_raw h) = HOST_LINK_HEADER_WIRE_LEN;
  a_rawb : bytes_ok (hdr_raw h);
  a_env : env_ok (env h)
}.

(** The parser owns a buffer exactly while it collects a payload, and the
    buffer has room for the payload and its CRC. *)
Definition parser_ok (h : hl) : Prop :=
  match parse_state h with
  | PS_SYNC0 | PS_SYNC1 => pend_payload h = None
  | PS_HDR => pend_payload h = None /\ 2 <= parse_got h < Z.of_nat HOST_LINK_HEADER_WIRE_LEN
  | PS_PAYLOAD =>
      exists p l, pend_payload h = Some p /\ heap h !! p = Some l /\ bytes_ok l /\
        zlen l = pend_pay_need h /\ pend_pay_need h = hl_len (pend_hdr h) + 2 /\
        0 <= hl_len (pend_hdr h) <= HOST_LINK_CFG_MAX_PAYLOAD /\ 0 <= parse_got h < pend_pay_need h
  end.

Definition core_of (A : list ptr) (h : hl) : Prop :=
  core A (pend_payload h) (notify_slot h) (ack_slot h) (heap h).

Record inv (A : list ptr) (h : hl) : Prop := {
  i_core : core_of A h;
  i_aux : aux h;
  i_parser : parser_ok h
}.

(** ** What an operation does to the application's side *)
Definition handed_by (e : event) : option ptr :=
  match e with EvDone _ _ p _ => p | EvSend _ => None end.
Definition handed (evs : list event) : list ptr := omap handed_by evs.

Definition done_of (u : nat) (e : event) : bool :=
  match e with EvDone v _ _ _ => Nat.eqb u v | EvSend _ => false end.
Definition dones (u : nat) (evs : list event) : nat := length (List.filter (done_of u) evs).

Definition open_for (u : nat) (a : async_slot_t) : bool := as_used a && Nat.eqb u (as_user a).
Definition pending (u : nat) (l : list async_slot_t) : nat := length (List.filter (open_for u) l).

Lemma handed_app e1 e2 : handed (e1 ++ e2) = handed e1 ++ handed e2.
Proof. apply omap_app. Qed.

Lemma dones_app u e1 e2 : dones u (e1 ++ e2) = (dones u e1 + dones u e2)%nat.
Proof. unfold dones. by rewrite List.filter_app, length_app. Qed.

(** [evolves A h A' h']: the log grew, the application's blocks grew by what the
    new events hand over, and every completion came from a pending request. *)
Definition evolves (A : list ptr) (h : hl) (A' : list ptr) (h' : hl) : Prop :=
  exists evs, log h' = log h ++ evs /\ A' ≡ₚ handed evs ++ A /\ ready h' = ready h /\
    forall u, (pending u (async_slot h') + dones u evs)%nat = pending u (async_slot h).

Lemma evolves_same A h h' :
  log h' = log h -> async_slot h' = async_slot h -> ready h' = ready h -> evolves A h A h'.
Proof.
  intros E1 E2 E3. exists []. rewrite app_nil_r, E1, E2, E3. repeat split; [done|].
  intros u. cbn. lia.
Qed.

Lemma evolves_trans A h A1 h1 A2 h2 :
  evolves A h A1 h1 -> evolves A1 h1 A2 h2 -> evolves A h A2 h2.
Proof.
  intros (e1 & L1 & P1 & R1 & C1) (e2 & L2 & P2 & R2 & C2). exists (e1 ++ e2). repeat split.
  - by rewrite L2, L1, app_assoc.
  - rewrite P2, P1, handed_app. solve_Permutation.
  - congruence.
  - intros u. rewrite dones_app, <- (C1 u), <- (C2 u). lia.
Qed.

(** The usual postcondition: the invariant, and an evolution. *)
Definition safely (A : list ptr) (h h' : hl) : Prop :=
  exists A', evolves A h A' h' /\ inv A' h'.

Lemma safely_trans A h A1 h1 h2 : evolves A h A1 h1 -> safely A1 h1 h2 -> safely A h h2.
Proof. intros E (A2 & E2 & I2). exists A2. split; [by eapply evolves_trans|done]. Qed.

Lemma safely_refl A h : inv A h -> safely A h h.
Proof. intros. exists A. split; [by apply evolves_same|done]. Qed.

(** ** The pieces *)
Definition pop_malloc (e : env_t) : env_t :=
  mkHlEnv (tail (malloc_fails e)) (send_fails e) (hl_tick e) (waits e) (preempts e).

Lemma returns_malloc n h (Q : option ptr -> hl -> Prop) :
  Q None (set_env (pop_malloc (env h)) h) ->
  (forall p, heap h !! p = None ->
     Q (Some p) (set_heap (<[p := replicate (Z.to_nat n) 0]> (heap h)) (set_env (pop_malloc (env h)) h))) ->
  returns (host_link_port_malloc n) Q h.
Proof.
  intros HN HS. unfold host_link_port_malloc. rstep.
  assert (Hok : forall p, p = fresh (dom (heap h)) -> heap h !! p = None).
  { intros p ->. apply not_elem_of_dom. apply is_fresh. }
  destruct (malloc_fails (env h)) as [|[|] ?] eqn:E.
  - rstep. specialize (HS _ (Hok _ eq_refl)). unfold pop_malloc in HS. rewrite E in HS. apply HS.
  - rstep. unfold pop_malloc in HN. rewrite E in HN. apply HN.
  - rstep. specialize (HS _ (Hok _ eq_refl)). unfold pop_malloc in HS. rewrite E in HS. apply HS.
Qed.

Lemma returns_free p l h (Q : unit -> hl -> Prop) :
  heap h !! p = Some l -> Q tt (set_heap (delete p (heap h)) h) ->
  returns (host_link_port_free (Some p)) Q h.
Proof. intros E HQ. unfold host_link_port_free. rstep. rewrite E. by rstep. Qed.

Lemma returns_load p l h (Q : list Z -> hl -> Prop) :
  heap h !! p = Some l -> Q l h -> returns (load p) Q h.
Proof. intros E HQ. unfold load. rstep. rewrite E. by rstep. Qed.

Lemma returns_store p k l h (Q : unit -> hl -> Prop) :
  heap h !! p = Some k -> length k = length l -> Q tt (set_heap (<[p := l]> (heap h)) h) ->
  returns (store p l) Q h.
Proof.
  intros E HL HQ. unfold store. rstep. rewrite E. rewrite (proj2 (Nat.eqb_eq _ _) HL). by rstep.
Qed.

Lemma aux_zero_raw h h' :
  aux h -> ack_tick h' = ack_tick h -> async_slot h' = async_slot h -> env h' = env h ->
  hdr_raw h' = replicate HOST_LINK_HEADER_WIRE_LEN 0 -> aux h'.
Proof.
  intros [] E1 E2 E3 E4. constructor; rewrite ?E1, ?E2, ?E3, ?E4; auto.
  apply bytes_ok_replicate. unfold is_byte; lia.
Qed.

Lemma parse_reset_ok A h :
  core_of A h -> aux h ->
  returns parse_reset (fun _ h' => inv A h' /\ log h' = log h /\ async_slot h' = async_slot h /\
                                   ready h' = ready h) h.
Proof.
  intros HC HA. unfold parse_reset. rstep. cbn [pend_payload set_parse_got set_parse_state].
  destruct (pend_payload h) as [p|] eqn:Ep.
  - unfold core_of in HC. rewrite Ep in HC.
    destruct (core_pend _ _ _ _ _ HC) as [l Hl]. apply core_take_pend, core_free in HC.
    apply returns_bind. apply returns_bind. eapply returns_free; [exact Hl|]. rstep.
    split; [|done]. constructor; [done|by apply (aux_zero_raw h)|done].
  - rstep. unfold core_of in HC. split; [|done]. constructor; [|by apply (aux_zero_raw h)|done].
    unfold core_of. cbn. by rewrite Ep in *.
Qed.

(** A step that leaves the application alone, then the rest. *)
Lemma parse_reset_safely A h h0 :
  core_of A h -> aux h -> log h = log h0 -> async_slot h = async_slot h0 -> ready h = ready h0 ->
  returns parse_reset (fun _ => safely A h0) h.
Proof.
  intros HC HA E1 E2 E3. eapply returns_mono; [by apply parse_reset_ok|].
  cbn. intros _ h' (I & L & S & R). exists A. split; [|done]. apply evolves_same; congruence.
Qed.

(** ** Slots *)
Lemma find_empty_spec l i :
  find_empty l = Some i -> exists g, l !! i = Some g /\ fr_is_valid g = false.
Proof.
  revert i. induction l as [|f l IH]; intros i; cbn; [done|].
  destruct (fr_is_valid f) eqn:E; cbn.
  - intros (j & Hj & ->)%fmap_Some. by apply IH.
  - intros [= <-]. eauto.
Qed.

Lemma find_async_spec f l i :
  find_async f l = Some i -> exists a, l !! i = Some a /\ async_match f a = true.
Proof.
  revert i. induction l as [|a l IH]; intros i; cbn; [done|].
  destruct (async_match f a) eqn:E; cbn.
  - intros [= <-]. eauto.
  - intros (j & Hj & ->)%fmap_Some. by apply IH.
Qed.

Lemma pending_split u l i a :
  l !! i = Some a ->
  pending u l = ((if open_for u a then 1 else 0) + pending u (take i l ++ drop (S i) l))%nat.
Proof.
  intros H. rewrite <- (take_drop_middle l i a H) at 1. unfold pending.
  rewrite !List.filter_app. cbn. destruct (open_for u a); rewrite !length_app; cbn; lia.
Qed.

Lemma pending_insert u l i a b :
  l !! i = Some a ->
  ((if open_for u a then 1 else 0) + pending u (<[i := b]> l) =
   (if open_for u b then 1 else 0) + pending u l)%nat.
Proof.
  intros H. pose proof (lookup_lt_Some _ _ _ H) as Hi.
  rewrite (pending_split u l i a H), (pending_split u (<[i := b]> l) i b)
    by (by apply list_lookup_insert_eq).
  rewrite take_insert_ge by lia. rewrite drop_insert_lt by lia. lia.
Qed.

(** A completion closes one request of its user. *)
Lemma release_async_pending i a h :
  async_slot h !! i = Some a -> as_used a = true ->
  forall u, (pending u (async_slot (release_async i h)) + (if Nat.eqb u (as_user a) then 1 else 0))%nat
            = pending u (async_slot h).
Proof.
  intros H Hu u. cbn [release_async async_slot set_async_slot].
  set (b := mkAsync false (as_id a) (as_cmd a) (as_started_ms a) (as_user a)).
  replace (alter _ i (async_slot h)) with (<[i := b]> (async_slot h)).
  2:{ apply list_eq. intros j. destruct (decide (i = j)) as [<-|Hne].
      - rewrite list_lookup_insert_eq by (by eapply lookup_lt_Some).
        by rewrite list_lookup_alter_eq, H.
      - by rewrite list_lookup_insert_ne, list_lookup_alter_ne by done. }
  pose proof (pending_insert u _ _ _ b H) as E. unfold open_for in E. rewrite Hu in E. cbn in E.
  lia.
Qed.

Lemma aux_release i h : aux h -> aux (release_async i h).
Proof. intros []. constructor; cbn; auto. by rewrite length_alter. Qed.

(** What the slots need of a frame on its way in. *)
Definition arrives (A : list ptr) (f : host_link_frame_t) (h : hl) : Prop :=
  core_of (option_list (fr_payload f) ++ A) h /\ aux h /\ payload_ok (heap h) f /\
  0 <= hl_len (fr_header f) <= HOST_LINK_CFG_MAX_PAYLOAD.

(** What became of it. *)
Definition dealt (A : list ptr) (h : hl) (r : host_link_err_t) (h' : hl) : Prop :=
  if hl_ok r then exists A', evolves A h A' h' /\ core_of A' h' /\ aux h' /\
                             pend_payload h' = pend_payload h
  else h' = h.

Lemma add_notify_ok A f h :
  arrives A f h -> frame_good (heap h) f -> notify_type (hl_type (fr_header f)) = true ->
  returns (add_notify_frame_locked f) (dealt A h) h.
Proof.
  intros (HC & HA & HP & HL) HG HT. unfold add_notify_frame_locked. rstep.
  unfold find_empty_notify. destruct (find_empty (notify_slot h)) as [i|] eqn:E; [|by rstep].
  apply find_empty_spec in E as (g & Hg & Hv). rstep. exists A.
  split; [by apply evolves_same|]. split; [|split; [by destruct HA; constructor|done]].
  eapply core_put_notify; [exact HC|exact Hg|done|]. split; [done|]. by destruct HG; constructor.
Qed.

Lemma add_ack_slot_ok A f h i :
  arrives A f h -> frame_good (heap h) f -> ack_type (hl_type (fr_header f)) = true ->
  find_empty (ack_slot h) = Some i ->
  forall now,
  dealt A h HOST_LINK_OK (set_ack_tick (<[i := now]> (ack_tick h))
    (set_ack_slot (<[i := mkFrame (fr_header f) (fr_payload f) (fr_payload_crc f) true]> (ack_slot h)) h)).
Proof.
  intros (HC & HA & HP & HL) HG HT (g & Hg & Hv)%find_empty_spec now. exists A.
  split; [by apply evolves_same|]. split.
  - eapply core_put_ack; [exact HC|exact Hg|done|]. split; [done|]. by destruct HG; constructor.
  - split; [|done]. destruct HA; constructor; auto. cbn. by rewrite length_insert.
Qed.

Lemma add_ack_done_ok A f h i a :
  arrives A f h -> async_slot h !! i = Some a -> as_used a = true ->
  dealt A h HOST_LINK_OK (set_log (log h ++ [EvDone (as_user a) HOST_LINK_OK (fr_payload f)
                                               (hl_len (fr_header f))]) (release_async i h)).
Proof.
  intros (HC & HA & HP & HL) Ha Hu. exists (option_list (fr_payload f) ++ A).
  split; [|split; [done|split; [|done]]].
  - eexists. split; [done|]. split; [|split; [done|]].
    + cbn. by destruct (fr_payload f).
    + intros u. rewrite <- (release_async_pending i a h Ha Hu u). unfold dones. cbn.
      by destruct (u =? as_user a)%nat.
  - destruct (aux_release i h HA). by constructor.
Qed.

Lemma add_ack_ok A f h :
  arrives A f h -> frame_good (heap h) f -> ack_type (hl_type (fr_header f)) = true ->
  returns (add_ack_frame_locked f) (dealt A h) h.
Proof.
  intros HI HG HT. unfold add_ack_frame_locked. rstep.
  destruct (if hl_type _ =? _ then _ else _) as [i|] eqn:E.
  - destruct (hl_type (fr_header f) =? HOST_LINK_TYPE_RESPONSE); [|done].
    apply find_async_spec in E as (a & Ha & Hm). rewrite Ha. unfold emit. rstep.
    refine (add_ack_done_ok A f h i a HI Ha _). unfold async_match in Hm. by cbool.
  - unfold find_empty_ack. destruct (find_empty (ack_slot h)) as [i|] eqn:E2; [|by rstep].
    unfold host_link_port_tick_ms. rstep. by apply add_ack_slot_ok.
Qed.

Lemma hl_ok_crc (b : bool) : hl_ok (if b then HOST_LINK_OK else HOST_LINK_ERR_CRC) = b.
Proof. by destruct b. Qed.

Lemma payload_bytes_ok f h :
  payload_ok (heap h) f -> 0 <= hl_len (fr_header f) ->
  returns (payload_bytes f) (fun pay h' => h' = h /\ host_link_crc16 pay = fr_payload_crc f) h.
Proof.
  unfold payload_ok, payload_bytes. intros HP HL. destruct (fr_payload f) as [p|].
  - destruct HP as (l & Hl & Hlen & Hne & _ & Hc). rewrite <- Hlen.
    assert (zlen l <> 0) by (unfold zlen; destruct l; cbn; [done|lia]).
    rewrite (proj2 (Z.eqb_neq _ _)) by done.
    apply returns_bind. eapply returns_load; [done|]. rewrite Z.ltb_irrefl. rstep. split; [done|].
    rewrite Hc. f_equal. apply take_ge. unfold zlen. lia.
  - destruct HP as [-> ->]. by rstep.
Qed.

Lemma deal_one_frame_ok A f h :
  arrives A f h -> returns (deal_one_frame f) (dealt A h) h.
Proof.
  intros HI. pose proof HI as (HC & HA & HP & HL). unfold deal_one_frame, hdr_crc_ok.
  rewrite hl_ok_crc. destruct (_ =? hl_hdr_crc _) eqn:Ec; cbn; [|by rstep].
  destruct (negb _ || negb _) eqn:Em; [by rstep|].
  apply returns_bind. eapply returns_mono; [apply payload_bytes_ok; [done|lia]|]. cbn.
  intros pay h' [-> Hcrc]. unfold payload_crc_ok. rewrite Hcrc, Z.eqb_refl. cbn. rstep.
  destruct (ready h); cbn; [|by rstep]. cbool.
  assert (HG : frame_good (heap h) f) by (by constructor).
  destruct ((_ =? HOST_LINK_TYPE_REQUEST) || _) eqn:Et; [by apply add_notify_ok|].
  destruct ((_ =? HOST_LINK_TYPE_RESPONSE) || _) eqn:Et2; [by apply add_ack_ok|by rstep].
Qed.

(** ** The parser *)
Lemma drop_pending_ok A h p l (Q : unit -> hl -> Prop) :
  core (p :: A) None (notify_slot h) (ack_slot h) (heap h) -> heap h !! p = Some l ->
  (core A None (notify_slot h) (ack_slot h) (delete p (heap h)) ->
   Q tt (set_pend_payload None (set_heap (delete p (heap h)) h))) ->
  returns (drop_pending p) Q h.
Proof.
  intros HC Hl HQ. unfold drop_pending. apply returns_bind. eapply returns_free; [exact Hl|].
  rstep. by apply HQ, core_free.
Qed.

(** Freeing a frame gives its block back and touches nothing else. *)
Lemma set_heap_id h : set_heap (heap h) h = h.
Proof. by destruct h. Qed.

Lemma returns_free_frame A f h (Q : host_link_frame_t -> hl -> Prop) :
  core_of (option_list (fr_payload f) ++ A) h ->
  (forall m, core_of A (set_heap m h) -> Q (take_frame f) (set_heap m h)) ->
  returns (free_frame_payload f) Q h.
Proof.
  intros HC HQ. unfold free_frame_payload. apply returns_bind. destruct (fr_payload f) as [p|] eqn:E.
  - destruct (core_held _ _ _ _ _ p HC ltac:(left)) as [k Hk]. eapply returns_free; [exact Hk|].
    rstep. apply HQ. by eapply core_free.
  - unfold host_link_port_free. rstep. rewrite <- (set_heap_id h). apply HQ. by rewrite set_heap_id.
Qed.

Lemma aux_set_heap m h : aux h -> aux (set_heap m h).
Proof. intros []. by constructor. Qed.

(** The payload is complete: its CRC is the last two bytes of the buffer. *)
Lemma finish_deal_ok A h q l :
  core (option_list q ++ A) None (notify_slot h) (ack_slot h) (heap h) -> pend_payload h = None ->
  aux h -> 0 <= hl_len (pend_hdr h) <= HOST_LINK_CFG_MAX_PAYLOAD ->
  payload_ok (heap h) (mkFrame (pend_hdr h) q l true) ->
  returns (r ← deal_one_frame (mkFrame (pend_hdr h) q l true);
           (if negb (hl_ok r) then free_frame_payload (mkFrame (pend_hdr h) q l true);; mret tt
            else mret tt);; parse_reset) (fun _ => safely A h) h.
Proof.
  intros HC Hn HA HL HP. apply returns_bind.
  eapply returns_mono; [apply deal_one_frame_ok with (A := A)|].
  { split; [|done]. unfold core_of. by rewrite Hn. }
  cbn. intros r h' Hd. unfold dealt in Hd. destruct (hl_ok r) eqn:Er; cbn.
  - destruct Hd as (A' & HE & HC' & HA' & _). rstep.
    eapply returns_mono; [by apply parse_reset_safely|]. cbn.
    intros _ h2. by apply safely_trans.
  - subst h'. rstep. apply returns_bind, (returns_free_frame A).
    { unfold core_of. cbn. by rewrite Hn. }
    intros m HC'. rstep. apply parse_reset_safely; [done|by apply aux_set_heap|done..].
Qed.

(** The copy: a new block with the payload, beside everything else. *)
Definition copied (A : list ptr) (h : hl) (pay : list Z) (r : option (option ptr)) (h' : hl) : Prop :=
  exists m, h' = set_heap m (set_env (env h') h) /\ env_ok (env h') /\
    (forall p l, heap h !! p = Some l -> m !! p = Some l) /\
    match r with
    | None => core A None (notify_slot h) (ack_slot h) m
    | Some q => core (option_list q ++ A) None (notify_slot h) (ack_slot h) m /\
                forall hd, hl_len hd = zlen pay ->
                  payload_ok m (mkFrame hd q (host_link_crc16 pay) true)
    end.

Lemma copy_payload_ok A h pay :
  core A None (notify_slot h) (ack_slot h) (heap h) -> aux h -> bytes_ok pay ->
  returns (copy_payload (zlen pay) pay) (copied A h pay) h.
Proof.
  intros HC HA Hb. unfold copy_payload. destruct (0 <? zlen pay) eqn:E; cbool.
  - apply returns_bind, returns_malloc.
    + rstep. exists (heap h). cbn. split; [by destruct h|]. by destruct HA.
    + intros q Hq. apply returns_bind. eapply returns_store; [by apply lookup_insert_eq| |].
      { rewrite length_replicate. unfold zlen. lia. }
      rstep. eexists. split; [done|]. split; [by destruct HA|]. cbn. rewrite insert_insert_eq.
      split; [|split].
      * intros p l Hp. rewrite lookup_insert_ne; [done|congruence].
      * by apply core_alloc.
      * intros hd Hd. exists pay. cbn. rewrite lookup_insert_eq. repeat split; auto.
        intros ->. by cbv in E.
  - rstep. exists (heap h). cbn. split; [by destruct h|]. split; [by destruct HA|].
    split; [done|]. split; [done|]. intros hd ->. destruct pay; [done|]. unfold zlen in E. cbn in E. lia.
Qed.

Lemma feed_finish_payload_ok A h p l :
  core_of A h -> aux h -> pend_payload h = Some p -> heap h !! p = Some l -> bytes_ok l ->
  zlen l = hl_len (pend_hdr h) + 2 -> 0 <= hl_len (pend_hdr h) <= HOST_LINK_CFG_MAX_PAYLOAD ->
  returns feed_finish_payload (fun _ => safely A h) h.
Proof.
  intros HC HA Hp Hl Hb Hz HL. unfold feed_finish_payload. rstep. rewrite Hp. rstep.
  apply returns_bind. eapply returns_load; [exact Hl|]. rewrite Hz, Z.ltb_irrefl.
  unfold core_of in HC. rewrite Hp in HC. apply core_take_pend in HC.
  set (pay := take (Z.to_nat (hl_len (pend_hdr h))) l).
  assert (Hpay : zlen pay = hl_len (pend_hdr h)).
  { unfold pay, zlen in *. rewrite length_take. lia. }
  unfold payload_crc_ok. rewrite hl_ok_crc. destruct (_ =? le_dec _) eqn:Ec; cbn [negb]; cbool.
  2:{ apply returns_bind. eapply drop_pending_ok; [done|done|]. intros HC'.
      by apply parse_reset_safely; [|destruct HA; constructor|..]. }
  apply returns_bind. rewrite <- Hpay at 1.
  eapply returns_mono; [apply (copy_payload_ok (p :: A)); [done..|by apply Forall_take]|].
  cbn. intros r h' (m & -> & He & Hm & HC'). cbn [env set_heap set_env]. destruct r as [q|].
  - destruct HC' as [HC' HP]. apply returns_bind.
    eapply (drop_pending_ok (option_list q ++ A)); [|by apply Hm|].
    { eapply core_perm; [exact HC'|]. solve_Permutation. }
    cbn [notify_slot ack_slot heap set_heap set_env]. intros HC2. rewrite <- Ec.
    match goal with |- returns _ _ ?s => set (h2 := s) in * end.
    eapply returns_mono; [apply (finish_deal_ok A h2 q); try done|].
    + by destruct HA; constructor.
    + eapply payload_ok_agree; [by apply HP|]. cbn. intros q' ->. apply lookup_delete_ne.
      intros <-. apply core_nodup in HC'. cbn in HC'. rewrite !app_assoc in HC'.
      apply NoDup_app in HC' as (_ & _ & HC'). apply NoDup_cons in HC' as [HC' _]. apply HC'. left.
    + cbn. intros _ h3. apply safely_trans. by apply evolves_same.
  - apply returns_bind. eapply drop_pending_ok; [done|by apply Hm|]. intros HC2.
    by apply parse_reset_safely; [|destruct HA; constructor|..].
Qed.

Lemma dec_hl_len_bound l :
  bytes_ok l -> length l = HOST_LINK_HEADER_WIRE_LEN -> 0 <= hl_len (dec_hl_header l) < 65536.
Proof.
  intros Hb Hl. cbn [dec_hl_header hl_len].
  pose proof (le_dec_bound (sub 10 2 l) (bytes_ok_sub _ _ _ Hb)) as H.
  unfold zlen in H. rewrite length_sub in H by (rewrite Hl; unfold HOST_LINK_HEADER_WIRE_LEN; lia).
  exact H.
Qed.

(** The buffer is allocated for exactly the announced length. *)
Lemma alloc_pending_ok A h h0 n :
  core_of A h -> aux h -> pend_payload h = None -> n = hl_len (pend_hdr h) + 2 ->
  pend_pay_need h = n -> 0 <= hl_len (pend_hdr h) <= HOST_LINK_CFG_MAX_PAYLOAD ->
  log h = log h0 -> async_slot h = async_slot h0 -> ready h = ready h0 ->
  returns (alloc_pending n) (fun _ => safely A h0) h.
Proof.
  intros HC HA Hn En Ew HL E1 E2 E3. unfold alloc_pending. apply returns_bind, returns_malloc.
  - apply parse_reset_safely; [done|by destruct HA; constructor|done..].
  - intros p Hp. rstep. exists A. split; [by apply evolves_same|]. unfold core_of in HC.
    rewrite Hn in HC. constructor.
    + unfold core_of. cbn. by apply core_put_pend, core_alloc.
    + by destruct HA; constructor.
    + cbn. exists p, (replicate (Z.to_nat n) 0). rewrite lookup_insert_eq.
      unfold zlen. rewrite length_replicate. unfold HOST_LINK_CFG_MAX_PAYLOAD in *.
      repeat split; try lia. apply bytes_ok_replicate. unfold is_byte; lia.
Qed.

Lemma header_complete_ok A h :
  core_of A h -> aux h -> pend_payload h = None ->
  returns header_complete (fun _ => safely A h) h.
Proof.
  intros HC HA Hn. unfold header_complete. rstep. cbn [pend_hdr set_pend_hdr].
  destruct (dec_hl_len_bound (hdr_raw h) (a_rawb _ HA) (a_raw _ HA)) as [Hlo Hhi].
  unfold HOST_LINK_CFG_MAX_PAYLOAD in *. cif.
  - apply parse_reset_safely; [done|by destruct HA; constructor|done..].
  - rstep. rewrite u16_small by lia. repeat cif.
    + apply alloc_pending_ok; try done; cbn; try lia. by destruct HA; constructor.
    + apply alloc_pending_ok; try done; cbn; try lia. by destruct HA; constructor.
    + apply parse_reset_safely; [done|by destruct HA; constructor|done..].
Qed.

(** A state change of the parser that keeps the buffer. *)
Lemma parser_move A h h' :
  core_of A h' -> aux h' -> parser_ok h' ->
  log h' = log h -> async_slot h' = async_slot h -> ready h' = ready h -> safely A h h'.
Proof. intros. exists A. split; [by apply evolves_same|by constructor]. Qed.

Lemma feed_hdr_ok A h b :
  inv A h -> is_byte b -> parse_state h = PS_HDR -> returns (feed_byte b) (fun _ => safely A h) h.
Proof.
  intros [HC HA HP] Hb Es. unfold parser_ok in HP. rewrite Es in HP. destruct HP as [Hn Hg].
  unfold feed_byte. rstep. rewrite Es. rewrite (proj2 (Z.ltb_lt _ _)) by lia. rstep.
  set (h1 := set_parse_got _ _).
  assert (HA1 : aux h1).
  { destruct HA; constructor; cbn; auto; [by rewrite length_insert|by apply Forall_insert]. }
  assert (Eg : parse_got h1 = parse_got h + 1).
  { cbn. apply u16_small. unfold HOST_LINK_HEADER_WIRE_LEN in Hg. lia. }
  cif.
  - eapply returns_mono; [by apply header_complete_ok|]. cbn. intros _ h2.
    apply safely_trans. by apply evolves_same.
  - rstep. apply parser_move; try done. unfold parser_ok.
    change (parse_state h1) with (parse_state h). rewrite Es, Eg. split; [done|]. lia.
Qed.

Lemma feed_payload_ok A h b :
  inv A h -> is_byte b -> parse_state h = PS_PAYLOAD -> returns (feed_byte b) (fun _ => safely A h) h.
Proof.
  intros [HC HA HP] Hb Es. unfold parser_ok in HP. rewrite Es in HP.
  destruct HP as (p & l & Hp & Hl & Hbl & Hz & Hw & HL & Hg).
  unfold HOST_LINK_CFG_MAX_PAYLOAD in HL.
  unfold feed_byte. rstep. rewrite Es, Hp, (proj2 (Z.ltb_lt _ _)) by lia. rstep.
  apply returns_bind. eapply returns_load; [exact Hl|]. rewrite (proj2 (Z.leb_gt _ _)) by lia.
  apply returns_bind. eapply returns_store; [exact Hl|by rewrite length_insert|]. rstep.
  set (l' := <[Z.to_nat (parse_got h) := b]> l). set (h1 := set_parse_got _ _).
  assert (HC1 : core_of A h1).
  { unfold core_of in *. cbn. rewrite Hp in *. by apply core_put_pend, core_store, core_take_pend. }
  assert (HA1 : aux h1) by (by destruct HA; constructor).
  assert (Eg : parse_got h1 = parse_got h + 1) by (cbn; apply u16_small; lia).
  assert (Hl1 : heap h1 !! p = Some l') by apply lookup_insert_eq.
  assert (Hb1 : bytes_ok l') by (by apply Forall_insert).
  assert (Hz1 : zlen l' = zlen l) by (unfold zlen, l'; by rewrite length_insert).
  cif.
  - eapply returns_mono; [eapply feed_finish_payload_ok; try done; cbn; lia|].
    cbn. intros _ h2. apply safely_trans. by apply evolves_same.
  - rstep. change (pend_pay_need h1) with (pend_pay_need h) in *.
    apply parser_move; try done. unfold parser_ok.
    change (parse_state h1) with (parse_state h). rewrite Es. exists p, l'.
    change (pend_pay_need h1) with (pend_pay_need h). change (pend_hdr h1) with (pend_hdr h).
    unfold HOST_LINK_CFG_MAX_PAYLOAD. by repeat split; try lia.
Qed.

Lemma feed_sync_ok A h b :
  inv A h -> (parse_state h = PS_SYNC0 \/ parse_state h = PS_SYNC1) ->
  returns (feed_byte b) (fun _ => safely A h) h.
Proof.
  intros I Es. pose proof I as [HC HA HP]. unfold parser_ok in HP. unfold feed_byte. rstep.
  assert (HA2 : aux (set_hdr_raw (<[1%nat := u8 (Z.shiftr HOST_LINK_MAGIC 8)]>
                       (<[0%nat := u8 HOST_LINK_MAGIC]> (hdr_raw h))) h)).
  { destruct HA; constructor; cbn; rewrite ?length_insert; auto.
    repeat apply Forall_insert; [done|by apply u8_range..]. }
  destruct Es as [Es|Es]; rewrite Es in *; repeat cif; rstep; try (by apply safely_refl);
    apply parser_move; try done; try (by destruct HA; constructor); try (by destruct HA2; constructor).
Qed.

Lemma feed_byte_ok A h b :
  inv A h -> is_byte b -> returns (feed_byte b) (fun _ => safely A h) h.
Proof.
  intros HI Hb. destruct (parse_state h) eqn:E.
  - apply feed_sync_ok; auto.
  - apply feed_sync_ok; auto.
  - by apply feed_hdr_ok.
  - by apply feed_payload_ok.
Qed.

Lemma host_link_feed_ok data : bytes_ok data ->
  forall A h, inv A h -> returns (host_link_feed data) (fun _ => safely A h) h.
Proof.
  induction 1 as [|b data Hb Hd IH]; intros A h HI; cbn [host_link_feed].
  - rstep. by apply safely_refl.
  - rstep. destruct (negb (ready h)); [rstep; by apply safely_refl|].
    rcall (feed_byte_ok A h b HI Hb). intros _ h' (A' & HE & HI').
    eapply returns_mono; [by apply IH|]. cbn. intros _ h2. by apply safely_trans.
Qed.

(** ** Waiting and preemption *)
Lemma env_move A h e : inv A h -> env_ok e -> inv A (set_env e h).
Proof. intros [HC HA HP] He. constructor; [done|destruct HA; by constructor|done]. Qed.

Lemma rx_task_ok A h dt bytes :
  inv A h -> bytes_ok bytes -> returns (rx_task dt bytes) (fun _ => safely A h) h.
Proof.
  intros HI Hb. unfold rx_task. rstep.
  eapply returns_mono; [apply (host_link_feed_ok bytes Hb A)|].
  { apply env_move; [done|]. destruct (a_env _ (i_aux _ _ HI)) as (? & ? & _).
    split; [done|]. split; [done|]. apply u32_range. }
  cbn. intros _ h2. apply safely_trans. by apply evolves_same.
Qed.

Lemma sem_wait_ok A h ms :
  inv A h -> returns (host_link_port_sem_wait ms) (fun _ => safely A h) h.
Proof.
  intros HI. unfold host_link_port_sem_wait. rstep.
  destruct (a_env _ (i_aux _ _ HI)) as (Hw & Hp & Ht).
  destruct (waits (env h)) as [|[dt bytes] ws] eqn:E; [by apply rx_task_ok; [|constructor]|].
  inversion Hw as [|? ? [? Hb] Hws]; subst. rstep.
  eapply returns_mono; [apply (rx_task_ok A); [by apply env_move|done]|].
  cbn. intros _ h2. apply safely_trans. by apply evolves_same.
Qed.

Lemma preempt_ok A h : inv A h -> returns preempt (fun _ => safely A h) h.
Proof.
  intros HI. unfold preempt. rstep. destruct (a_env _ (i_aux _ _ HI)) as (Hw & Hp & Ht).
  destruct (preempts (env h)) as [|[dt bytes] ws] eqn:E; [rstep; by apply safely_refl|].
  inversion Hp as [|? ? [? Hb] Hws]; subst. rstep.
  eapply returns_mono; [apply (rx_task_ok A); [by apply env_move|done]|].
  cbn. intros _ h2. apply safely_trans. by apply evolves_same.
Qed.
