(* ===== verification/HostLinkOps.v ===== *)
(** The API of the host link keeps the invariant: sending, waiting with a
    time-out, synchronous and asynchronous requests, responses, events, polling
    and shutdown. *)
From stdpp Require Import gmap.
From S2P Require Import Prelude Heap HostLink HostLinkInv.

(** ** What the parser leaves alone *)
Definition clock (h : hl) : Z * list (Z * list Z) * list (Z * list Z) * Z :=
  (hl_tick (env h), waits (env h), preempts (env h), next_frame_id h).

Definition keeps {A} (m : M hl A) : Prop :=
  forall h, match m h with Ret _ h' => clock h' = clock h | _ => True end.

Lemma keeps_ret {A} (a : A) : keeps (mret a).
Proof. done. Qed.
Lemma keeps_gets {A} (f : hl -> A) : keeps (gets f).
Proof. done. Qed.
Lemma keeps_get : keeps get.
Proof. done. Qed.
Lemma keeps_undef {A} : keeps (undef : M hl A).
Proof. done. Qed.
Lemma keeps_modify f : (forall h, clock (f h) = clock h) -> keeps (modify f).
Proof. done. Qed.

Lemma keeps_bind {A B} (m : M hl A) (f : A -> M hl B) :
  keeps m -> (forall a, keeps (f a)) -> keeps (m ≫= f).
Proof.
  intros Hm Hf h. unfold mbind, M_bind. specialize (Hm h). destruct (m h) as [a h'| | |]; [|done..].
  specialize (Hf a h'). destruct (f a h'); [congruence|done..].
Qed.

Create HintDb keeps.
#[export] Hint Resolve keeps_ret keeps_gets keeps_get keeps_undef : keeps.

(** Walks through a computation; [keeps] hints close the calls. *)
Ltac keeping := repeat first
  [ solve [eauto with keeps]
  | apply keeps_bind; [|intros]
  | apply keeps_modify; done
  | match goal with |- keeps (match ?x with _ => _ end) => destruct x end ].

Lemma keeps_malloc n : keeps (host_link_port_malloc n).
Proof.
  unfold host_link_port_malloc. intros h. unfold mbind, M_bind, gets, get. cbn.
  by destruct (malloc_fails (env h)) as [|[]].
Qed.

Lemma keeps_free p : keeps (host_link_port_free p).
Proof. unfold host_link_port_free. keeping. Qed.
Lemma keeps_load p : keeps (load p).
Proof. unfold load. keeping. Qed.
Lemma keeps_store p l : keeps (store p l).
Proof. unfold store. keeping. Qed.
#[export] Hint Resolve keeps_malloc keeps_free keeps_load keeps_store : keeps.

Lemma keeps_parse_reset : keeps parse_reset.
Proof. unfold parse_reset. keeping. Qed.
Lemma keeps_free_frame f : keeps (free_frame_payload f).
Proof. unfold free_frame_payload. keeping. Qed.
Lemma keeps_drop_pending p : keeps (drop_pending p).
Proof. unfold drop_pending. keeping. Qed.
Lemma keeps_copy l pay : keeps (copy_payload l pay).
Proof. unfold copy_payload. keeping. Qed.
#[export] Hint Resolve keeps_parse_reset keeps_free_frame keeps_drop_pending keeps_copy : keeps.

Lemma keeps_deal f : keeps (deal_one_frame f).
Proof.
  unfold deal_one_frame, payload_bytes, add_notify_frame_locked, add_ack_frame_locked,
    host_link_port_tick_ms, emit. keeping.
Qed.
#[export] Hint Resolve keeps_deal : keeps.

Lemma keeps_feed_byte b : keeps (feed_byte b).
Proof. unfold feed_byte, feed_finish_payload, header_complete, alloc_pending. keeping. Qed.
#[export] Hint Resolve keeps_feed_byte : keeps.

Lemma keeps_feed data : keeps (host_link_feed data).
Proof. induction data; cbn [host_link_feed]; keeping. Qed.

(** The clock after a call whose result is known. *)
Lemma keeps_returns {A} (m : M hl A) Q h :
  keeps m -> returns m Q h -> returns m (fun a h' => Q a h' /\ clock h' = clock h) h.
Proof. intros Hk. unfold returns. specialize (Hk h). destruct (m h); auto. Qed.

(** ** Time *)
Lemma tick_diff_mod a b :
  0 <= a < 4294967296 -> 0 <= b < 4294967296 -> host_link_port_tick_diff_ms a b = u32 (b - a).
Proof. intros. unfold host_link_port_tick_diff_ms, u32. cif; lia. Qed.

(** The waits the environment still has in store. *)
Definition rounds (h : hl) : nat := length (waits (env h)).

(** One wait: either the environment had something in store, or the full time
    goes by. *)
Definition waited (ms : Z) (h h' : hl) : Prop :=
  next_frame_id h' = next_frame_id h /\
  ((rounds h = S (rounds h')) \/
   (waits (env h) = [] /\ waits (env h') = [] /\ hl_tick (env h') = u32 (hl_tick (env h) + ms))).

Lemma sem_wait_clock A h ms :
  inv A h -> returns (host_link_port_sem_wait ms) (fun _ h' => safely A h h' /\ waited ms h h') h.
Proof.
  intros HI. apply returns_and; [by apply sem_wait_ok|].
  pose proof (sem_wait_ok A h ms HI) as HS. revert HS. unfold host_link_port_sem_wait, returns, rx_task.
  unfold mbind, M_bind, gets, modify. cbn. unfold waited, rounds.
  destruct (waits (env h)) as [|[dt bytes] ws] eqn:E; cbn.
  - rewrite E. auto.
  - match goal with |- context [host_link_feed bytes ?s] => pose proof (keeps_feed bytes s) as K;
      destruct (host_link_feed bytes s) as [[] h'| | |]; try done end.
    intros _. unfold clock in K. cbn in K. injection K as K1 K2 K3 K4. rewrite K2, K4. auto.
Qed.

(** ** Sending *)
Lemma length_enc_hl_body x : length (enc_hl_body x) = HOST_LINK_HDR_CRC_LEN.
Proof. unfold enc_hl_body. autorewrite with buf. done. Qed.

Lemma length_wire x pay : zlen (wire_bytes x pay) = zlen pay + 16.
Proof.
  unfold wire_bytes, enc_hl_header, zlen. autorewrite with buf. rewrite length_enc_hl_body.
  unfold HOST_LINK_HDR_CRC_LEN. lia.
Qed.

(** A transmission: the same handler, less what the environment used up. *)
Definition quiet (e e' : env_t) : Prop :=
  hl_tick e' = hl_tick e /\ waits e' = waits e /\ preempts e' = preempts e.

Definition sent (x : host_link_header_t) (pay : list Z) (h : hl) (r : host_link_err_t) (h' : hl) : Prop :=
  exists e', quiet (env h) e' /\
    ((r = HOST_LINK_ERR_NO_MEM /\ h' = set_env e' h) \/
     ((r = HOST_LINK_OK \/ r = HOST_LINK_ERR_SEND) /\
      h' = set_log (log h ++ [EvSend (wire_bytes x pay)]) (set_env e' h))).

Lemma send_wire_ok x pay h :
  zlen pay <= HOST_LINK_CFG_MAX_PAYLOAD -> returns (send_wire x pay) (sent x pay h) h.
Proof.
  intros HL. unfold HOST_LINK_CFG_MAX_PAYLOAD in HL. unfold send_wire.
  assert (Ht : u16 (Z.of_nat HOST_LINK_HEADER_WIRE_LEN + zlen pay + 2) = zlen (wire_bytes x pay)).
  { rewrite length_wire. unfold HOST_LINK_HEADER_WIRE_LEN, zlen in *. rewrite u16_small; lia. }
  rewrite Ht. apply returns_bind, returns_malloc.
  - rstep. exists (pop_malloc (env h)). split; [done|]. by left.
  - intros p Hp. apply returns_bind. eapply returns_store; [apply lookup_insert_eq| |].
    { rewrite length_replicate. unfold zlen. lia. }
    apply returns_bind. eapply returns_load; [apply lookup_insert_eq|].
    unfold send_fn, emit. rstep. apply returns_bind. eapply returns_free; [apply lookup_insert_eq|].
    rstep. exists (mkHlEnv (tail (malloc_fails (env h))) (tail (send_fails (env h)))
                     (hl_tick (env h)) (waits (env h)) (preempts (env h))).
    split; [done|]. right. split.
    + cbn. destruct (send_fails (env h)) as [|[] ?]; cbn; auto.
    + cbn. rewrite insert_insert_eq, delete_insert_id by done. by destruct h.
Qed.

Lemma env_ok_quiet e e' : env_ok e -> quiet e e' -> env_ok e'.
Proof. intros (? & ? & ?) (E1 & E2 & E3). by unfold env_ok; rewrite E1, E2, E3. Qed.

(** Sending keeps the invariant and completes nothing. *)
Lemma sent_inv A x pay h r h' :
  inv A h -> sent x pay h r h' ->
  evolves A h A h' /\ inv A h' /\ rounds h' = rounds h /\ next_frame_id h' = next_frame_id h /\
  hl_tick (env h') = hl_tick (env h) /\ async_slot h' = async_slot h.
Proof.
  intros HI (e' & HQ & HS). pose proof (env_ok_quiet _ _ (a_env _ (i_aux _ _ HI)) HQ) as He.
  pose proof (env_move A h e' HI He) as HI'. destruct HQ as (Q1 & Q2 & Q3).
  destruct HS as [[-> ->]|[Hr ->]]; unfold rounds; cbn; rewrite Q1, Q2.
  - split; [by apply evolves_same|]. done.
  - split; [|split; [|done]].
    + eexists. split; [done|]. split; [done|]. split; [done|]. intros u. apply Nat.add_0_r.
    + destruct HI' as [? [] ?]. constructor; [done|by constructor|done].
Qed.

(** ** Waiting for an acknowledgement *)
Lemma find_ack_spec typ cmd fid l i :
  find_ack typ cmd fid l = Some i -> exists f, l !! i = Some f /\ ack_match typ cmd fid f = true.
Proof.
  revert i. induction l as [|a l IH]; intros i; cbn; [done|].
  destruct (ack_match typ cmd fid a) eqn:E; cbn.
  - intros [= <-]. eauto.
  - intros (j & Hj & ->)%fmap_Some. by apply IH.
Qed.

(** A frame taken out of the acknowledgement slots answers the wait. *)
Definition answers (typ cmd fid : Z) (m : gmap ptr (list Z)) (f : host_link_frame_t) : Prop :=
  hl_type (fr_header f) = typ /\ hl_cmd (fr_header f) = cmd /\ hl_frame_id (fr_header f) = fid /\
  frame_good m f.

(** The outcome of a wait: a matching frame, now the caller's, or an error and
    nothing. *)
Definition wait_result (A : list ptr) (typ cmd fid : Z) (h : hl)
    (res : host_link_err_t * host_link_frame_t) (h' : hl) : Prop :=
  (rounds h' <= rounds h)%nat /\ next_frame_id h' = next_frame_id h /\
  exists A', evolves A h A' h' /\ inv (option_list (fr_payload res.2) ++ A') h' /\
    ((res.1 = HOST_LINK_OK /\ answers typ cmd fid (heap h') res.2) \/
     ((res.1 = HOST_LINK_ERR_TIMEOUT \/ res.1 = HOST_LINK_ERR_INVALID_STATE) /\ res.2 = frame_zero)).

Lemma inv_take_ack A h i f :
  inv A h -> ack_slot h !! i = Some f ->
  inv (option_list (fr_payload f) ++ A) (set_ack_slot (<[i := take_frame f]> (ack_slot h)) h).
Proof.
  intros [HC HA HP] Hf. constructor; [|by destruct HA; constructor|done]. by apply core_take_ack.
Qed.

Lemma wait_found A typ cmd fid h i :
  inv A h -> find_ack typ cmd fid (ack_slot h) = Some i ->
  exists f, ack_slot h !! i = Some f /\
    wait_result A typ cmd fid h (HOST_LINK_OK, f)
      (set_ack_slot (<[i := take_frame f]> (ack_slot h)) h).
Proof.
  intros HI (f & Hf & Hm)%find_ack_spec. exists f. split; [done|]. split; [done|]. split; [done|].
  exists A. split; [by apply evolves_same|]. split; [by apply inv_take_ack|]. left. split; [done|].
  pose proof (Forall_lookup_1 _ _ _ _ (c_kok _ _ _ _ _ (i_core _ _ HI)) Hf) as Hk.
  unfold ack_match in Hm. unfold slot_ok in Hk. destruct (fr_is_valid f); [|done].
  destruct Hk as [_ Hg]. cbool. by split; [|split; [|split]].
Qed.

(** Rounds left before the time-out, once the environment has no more to say. *)
Definition wait_fuel (timeout_ms : Z) : nat := S (S (Z.to_nat (timeout_ms / 20))).

Lemma wait_idle_step t0 t ms timeout :
  0 <= t0 < 4294967296 -> 0 <= t < 4294967296 -> 0 <= ms ->
  host_link_port_tick_diff_ms t0 t < timeout -> timeout + ms <= 4294967296 ->
  host_link_port_tick_diff_ms t0 (u32 (t + ms)) = host_link_port_tick_diff_ms t0 t + ms.
Proof.
  intros ? ? ?. rewrite !tick_diff_mod by (try apply u32_range; lia). unfold u32.
  intros Hd Ht. rewrite Zminus_mod_idemp_l.
  replace (t + ms - t0) with ((t - t0) + ms) by lia.
  rewrite <- Zplus_mod_idemp_l. apply Z.mod_small. lia.
Qed.

Definition wait_need (t0 timeout_ms : Z) (h : hl) : nat :=
  match waits (env h) with
  | [] => S (Z.to_nat ((timeout_ms - host_link_port_tick_diff_ms t0 (hl_tick (env h)) + 19) / 20))
  | _ => rounds h + wait_fuel timeout_ms
  end.

Lemma wait_need_le t0 timeout h :
  0 <= t0 < 4294967296 -> 0 <= hl_tick (env h) < 4294967296 -> 0 <= timeout ->
  (wait_need t0 timeout h <= rounds h + wait_fuel timeout)%nat.
Proof.
  intros. unfold wait_need. destruct (waits (env h)); [|done].
  pose proof (u32_range (hl_tick (env h) - t0)). rewrite tick_diff_mod by done.
  unfold wait_fuel. lia.
Qed.

(** A wait brings the loop closer to its end. *)
Lemma waited_need t0 timeout h h' :
  0 <= t0 < 4294967296 -> 0 <= hl_tick (env h) < 4294967296 ->
  0 <= hl_tick (env h') < 4294967296 -> timeout + 20 <= 4294967296 ->
  host_link_port_tick_diff_ms t0 (hl_tick (env h)) < timeout ->
  waited HOST_LINK_CFG_ACK_WAIT_SLICE_MS h h' -> (S (wait_need t0 timeout h') <= wait_need t0 timeout h)%nat.
Proof.
  intros H0 Ht Ht' Hto Hd [_ [Hr|(E & E' & Etk)]].
  - assert (0 <= timeout) by (rewrite tick_diff_mod in Hd by done; pose proof (u32_range (hl_tick (env h) - t0)); lia).
    pose proof (wait_need_le t0 timeout h' H0 Ht' ltac:(done)) as Hn.
    unfold wait_need at 2. unfold rounds in *. destruct (waits (env h)); [done|]. lia.
  - unfold wait_need. rewrite E, E', Etk. unfold HOST_LINK_CFG_ACK_WAIT_SLICE_MS in *.
    rewrite (wait_idle_step t0 _ 20 timeout) by (try done; lia). lia.
Qed.

Section WaitLoop.
Context (typ cmd fid timeout t0 : Z).
Context (Ht0 : 0 <= t0 < 4294967296) (Hto : timeout + 20 <= 4294967296).

Lemma wait_loop_ok fuel : forall A h,
  inv A h -> (wait_need t0 timeout h <= fuel)%nat ->
  returns (wait_loop fuel t0 typ cmd fid timeout) (wait_result A typ cmd fid h) h.
Proof.
  induction fuel as [|fuel IH]; intros A h HI Hf; [unfold wait_need in Hf; destruct (waits (env h)); unfold wait_fuel in Hf; lia|].
  assert (Herr : forall r, r = HOST_LINK_ERR_TIMEOUT \/ r = HOST_LINK_ERR_INVALID_STATE ->
                   wait_result A typ cmd fid h (r, frame_zero) h).
  { intros r Hr. split; [done|]. split; [done|]. exists A. split; [by apply evolves_same|]. auto. }
  cbn [wait_loop]. rstep. destruct (negb (ready h)); [rstep; auto|].
  destruct (find_ack typ cmd fid (ack_slot h)) as [i|] eqn:E.
  { destruct (wait_found A typ cmd fid h i HI E) as (f & Hi & Hw). rewrite Hi. rstep. exact Hw. }
  unfold host_link_port_tick_ms. rstep. cif; [rstep; auto|].
  rcall (sem_wait_clock A h HOST_LINK_CFG_ACK_WAIT_SLICE_MS HI). intros _ h' [(A' & HE & HI') HW].
  destruct (a_env _ (i_aux _ _ HI)) as (_ & _ & Hck).
  destruct (a_env _ (i_aux _ _ HI')) as (_ & _ & Hck').
  pose proof (waited_need t0 timeout h h' Ht0 Hck Hck' Hto ltac:(done) HW).
  eapply returns_mono; [apply IH; [done|lia]|]. cbn.
  intros res h2 (Hr & Hid & A2 & HE2 & HI2 & Hans). destruct HW as [Hid' Hw'].
  split; [|split; [congruence|]].
  { unfold rounds in *. destruct Hw' as [Hw'|(E1 & E2 & _)]; [lia|rewrite E1, E2 in *; done]. }
  exists A2. split; [by eapply evolves_trans|]. done.
Qed.
End WaitLoop.

(** Every wait ends: with the environment's remaining rounds and the time-out
    as fuel, it returns. *)
Lemma wait_for_ack_timeout_ok fuel A h typ cmd fid timeout :
  inv A h -> 0 <= timeout -> timeout + 20 <= 4294967296 -> (rounds h + wait_fuel timeout <= fuel)%nat ->
  returns (wait_for_ack_timeout fuel typ cmd fid timeout) (wait_result A typ cmd fid h) h.
Proof.
  intros HI Hp Hto Hf. unfold wait_for_ack_timeout, host_link_port_tick_ms. rstep.
  destruct (a_env _ (i_aux _ _ HI)) as (_ & _ & Hck).
  pose proof (wait_need_le (hl_tick (env h)) timeout h Hck Hck Hp).
  apply wait_loop_ok; [done..|lia].
Qed.

(** ** Synchronous exchanges *)
Lemma inv_perm A A' h : inv A h -> A ≡ₚ A' -> inv A' h.
Proof. intros [] E. constructor; auto. by eapply core_perm. Qed.

Lemma inv_delete A h p : inv (p :: A) h -> inv A (set_heap (delete p (heap h)) h).
Proof.
  intros [HC HA HP]. constructor; [by eapply core_free|by apply aux_set_heap|].
  unfold parser_ok in *. cbn. destruct (parse_state h); try done.
  destruct HP as (q & k & Hq & Hk & ?). exists q, k. split; [done|]. split; [|done].
  rewrite lookup_delete_ne; [done|]. intros <-. unfold core_of in HC. rewrite Hq in HC.
  apply core_nodup in HC. cbn in HC. apply NoDup_cons in HC as [HC _].
  apply HC. rewrite !elem_of_app. right. right. left.
Qed.

Lemma inv_held A h p : inv (p :: A) h -> exists l, heap h !! p = Some l.
Proof. intros [HC _ _]. eapply core_held; [exact HC|left]. Qed.

Lemma inv_free A h p (Q : unit -> hl -> Prop) :
  inv (p :: A) h ->
  (inv A (set_heap (delete p (heap h)) h) -> Q tt (set_heap (delete p (heap h)) h)) ->
  returns (host_link_port_free (Some p)) Q h.
Proof.
  intros HI HQ. destruct (inv_held _ _ _ HI) as [l Hl].
  eapply returns_free; [exact Hl|]. by apply HQ, inv_delete.
Qed.

Lemma frame_id_next A h :
  inv A h ->
  returns alloc_frame_id (fun id h' => id = next_frame_id h /\ h' = set_next_frame_id (u16 (id + 1)) h /\
                                       inv A h' /\ evolves A h A h' /\ rounds h' = rounds h) h.
Proof.
  intros [HC HA HP]. unfold alloc_frame_id. rstep. split; [done|]. split; [done|].
  split; [|by split; [apply evolves_same|]]. constructor; [done|by destruct HA; constructor|done].
Qed.

(** What a synchronous request leaves: the response buffer, if any, is the
    caller's, and has the length reported with it. *)
Definition reply_result (A : list ptr) (h : hl) (res : host_link_err_t * option (ptr * Z)) (h' : hl) : Prop :=
  (rounds h' <= rounds h)%nat /\
  exists A', evolves A h A' h' /\ inv (option_list (fst <$> res.2) ++ A') h' /\
    (forall p n, res.2 = Some (p, n) -> res.1 = HOST_LINK_OK /\ exists l, heap h' !! p = Some l /\ zlen l = n).

Lemma reply_result_trans A h A1 h1 res h2 :
  evolves A h A1 h1 -> (rounds h1 <= rounds h)%nat -> reply_result A1 h1 res h2 -> reply_result A h res h2.
Proof.
  intros HE HR (Hr & A2 & HE2 & HI2 & HP). split; [lia|]. exists A2.
  split; [by eapply evolves_trans|done].
Qed.

Lemma settle_ok A typ cmd fid h0 want res h :
  wait_result A typ cmd fid h0 res h ->
  returns (settle want res.1 res.2) (fun resp h' => reply_result A h0 (res.1, resp) h') h.
Proof.
  intros (Hr & Hid & A' & HE & HI & HW). destruct res as [ret ack]. cbn in *. unfold settle.
  destruct (fr_payload ack) as [p|] eqn:Ep.
  - destruct HW as [[-> (_ & _ & _ & HG)]|[_ ->]]; [|done]. cbn in *.
    destruct HG as [_ _ _ _ HP]. unfold payload_ok in HP. rewrite Ep in HP.
    destruct HP as (l & Hl & Hz & _). destruct ((0 <? _) && want).
    + rstep. split; [done|]. exists A'. split; [done|]. split; [done|].
      intros q n [= <- <-]. split; [done|]. eauto.
    + apply returns_bind. eapply inv_free; [exact HI|]. intros HI'. rstep.
      split; [done|]. exists A'. split; [|split; [done|by intros]].
      eapply evolves_trans; [exact HE|]. by apply evolves_same.
  - rstep. split; [done|]. exists A'. split; [done|]. split; [done|]. by intros.
Qed.

Lemma request_loop_ok fuel cmd req want timeout retries :
  zlen req <= HOST_LINK_CFG_MAX_PAYLOAD -> 0 <= timeout -> timeout + 20 <= 4294967296 ->
  forall ret A h, inv A h -> (rounds h + wait_fuel timeout <= fuel)%nat ->
  returns (request_loop fuel retries cmd req want timeout ret) (reply_result A h) h.
Proof.
  intros HL Hp Hto. induction retries as [|n IH]; intros ret A h HI Hf; cbn [request_loop].
  - rstep. split; [done|]. exists A. split; [by apply evolves_same|]. split; [done|]. by intros.
  - rcall (frame_id_next A h HI). intros fid h1 (-> & _ & HI1 & HE1 & HR1).
    apply returns_bind. eapply returns_mono; [by apply send_wire_ok|]. cbn. intros r h2 HS.
    apply (sent_inv A) in HS as (HE2 & HI2 & HR2 & _); [|done].
    assert (HE : evolves A h A h2) by (by eapply evolves_trans).
    destruct (hl_ok r); cbn.
    + rcall (wait_for_ack_timeout_ok fuel A h2 HOST_LINK_TYPE_RESPONSE cmd (next_frame_id h) timeout HI2 Hp Hto ltac:(lia)).
      intros [ret2 ack] h3 HW. apply returns_bind.
      eapply returns_mono; [by apply (settle_ok _ _ _ _ _ want _ _ HW)|]. cbn. intros resp h4 HR.
      destruct (hl_ok ret2) eqn:Er.
      * rstep. eapply reply_result_trans; [done|lia|done].
      * destruct HR as (HR4 & A4 & HE4 & HI4 & HP4). cbn in *.
        destruct resp as [[p k]|].
        { destruct (HP4 p k eq_refl) as [E _]. by subst. }
        eapply returns_mono; [apply IH; [exact HI4|lia]|]. cbn. intros res h5.
        apply reply_result_trans; [|lia]. by eapply evolves_trans.
    + eapply returns_mono; [apply IH; [exact HI2|lia]|]. cbn. intros res h5.
      apply reply_result_trans; [done|lia].
Qed.

Lemma arg_bytes_ok data len h :
  null_arg data len = false -> (forall l, data = Some l -> len <= zlen l) -> 0 <= len ->
  returns (arg_bytes data len) (fun pay h' => h' = h /\ zlen pay = len /\
                                  pay = take (Z.to_nat len) (default [] data)) h.
Proof.
  unfold null_arg, arg_bytes. intros Hn Hl H0. destruct (len =? 0) eqn:E; cbool.
  - rstep. subst. by destruct data.
  - destruct data as [l|].
    + specialize (Hl l eq_refl). rewrite (proj2 (Z.ltb_ge _ _)) by done. rstep.
      split; [done|]. split; [|done]. unfold zlen in *. rewrite length_take. lia.
    + rewrite andb_true_r in Hn. cbool. lia.
Qed.

(** What the API asks of a buffer argument: it has the bytes it announces. *)
Definition buffer_arg (data : option (list Z)) (len : Z) : Prop :=
  0 <= len < 65536 /\ forall l, data = Some l -> len <= zlen l.

Lemma request_ok fuel cmd data len want timeout A h :
  inv A h -> buffer_arg data len -> 0 <= timeout -> timeout + 20 <= 4294967296 ->
  (rounds h + wait_fuel timeout <= fuel)%nat ->
  returns (host_link_request_timeout fuel cmd data len want timeout) (reply_result A h) h.
Proof.
  intros HI [Hl Hd] Hp Hto Hf. unfold host_link_request_timeout.
  assert (Hno : forall r, reply_result A h (r, None) h).
  { intros r. split; [done|]. exists A. split; [by apply evolves_same|]. split; [done|]. by intros. }
  cif; [by rstep|]. cif; [by rstep|].
  apply returns_bind. eapply returns_mono; [apply arg_bytes_ok; [done..|lia]|]. cbn beta.
  intros pay h' (-> & Hz & _). apply request_loop_ok; [lia|done..].
Qed.

(** ** Events *)
Lemma event_loop_ok fuel cmd data retries :
  zlen data <= HOST_LINK_CFG_MAX_PAYLOAD ->
  forall ret A h, inv A h -> (rounds h + wait_fuel HOST_LINK_CFG_ACK_TIMEOUT_MS <= fuel)%nat ->
  returns (event_loop fuel retries cmd data ret)
    (fun _ h' => safely A h h' /\ (rounds h' <= rounds h)%nat) h.
Proof.
  intros HL. induction retries as [|n IH]; intros ret A h HI Hf; cbn [event_loop].
  - rstep. split; [by apply safely_refl|done].
  - rcall (frame_id_next A h HI). intros fid h1 (-> & _ & HI1 & HE1 & HR1).
    apply returns_bind. eapply returns_mono; [by apply send_wire_ok|]. cbn. intros r h2 HS.
    apply (sent_inv A) in HS as (HE2 & HI2 & HR2 & _); [|done].
    assert (HE : evolves A h A h2) by (by eapply evolves_trans).
    destruct (hl_ok r); cbn.
    + rcall (wait_for_ack_timeout_ok fuel A h2 HOST_LINK_TYPE_EVENT_ACK cmd (next_frame_id h)
               HOST_LINK_CFG_ACK_TIMEOUT_MS HI2 ltac:(done) ltac:(done) ltac:(lia)).
      intros [ret2 ack] h3 (HR3 & _ & A3 & HE3 & HI3 & _). cbn in *. apply returns_bind.
      assert (HEa : evolves A h A3 h3) by (by eapply evolves_trans).
      destruct (fr_payload ack) as [p|].
      * eapply inv_free; [exact HI3|]. intros HI4.
        assert (HEb : evolves A h A3 (set_heap (delete p (heap h3)) h3)).
        { eapply evolves_trans; [exact HEa|]. by apply evolves_same. }
        cif; [rstep; split; [by exists A3|change (rounds h3 <= rounds h)%nat; lia]|].
        eapply returns_mono; [apply IH; [exact HI4|change (rounds h3 + wait_fuel HOST_LINK_CFG_ACK_TIMEOUT_MS <= fuel)%nat; lia]|].
        cbn. intros _ h5 [HS5 HR5]. split; [by eapply safely_trans|].
        change (rounds h5 <= rounds h3)%nat in HR5. lia.
      * cbn. rstep. cif; [rstep; split; [by exists A3|lia]|].
        eapply returns_mono; [apply IH; [exact HI3|lia]|]. cbn. intros _ h5 [HS5 HR5].
        split; [by eapply safely_trans|lia].
    + eapply returns_mono; [apply IH; [exact HI2|lia]|]. cbn. intros _ h5 [HS5 HR5].
      split; [by eapply safely_trans|lia].
Qed.

Lemma send_event_ok fuel cmd data len A h :
  inv A h -> buffer_arg data len -> (rounds h + wait_fuel HOST_LINK_CFG_ACK_TIMEOUT_MS <= fuel)%nat ->
  returns (host_link_send_event fuel cmd data len) (fun _ => safely A h) h.
Proof.
  intros HI [Hl Hd] Hf. unfold host_link_send_event.
  cif; [rstep; by apply safely_refl|]. cif; [rstep; by apply safely_refl|].
  apply returns_bind. eapply returns_mono; [apply arg_bytes_ok; [done..|lia]|]. cbn beta.
  intros pay h' (-> & Hz & _).
  eapply returns_mono; [apply event_loop_ok; [lia|exact HI|done]|]. cbn. by intros ? ? [? _].
Qed.

Lemma response_ok f data len A h :
  inv A h -> buffer_arg data len -> returns (host_link_response f data len) (fun _ => safely A h) h.
Proof.
  intros HI [Hl Hd]. unfold host_link_response. destruct f as [f|]; [|rstep; by apply safely_refl].
  cif; [rstep; by apply safely_refl|]. cif; [rstep; by apply safely_refl|].
  apply returns_bind. eapply returns_mono; [apply arg_bytes_ok; [done..|lia]|]. cbn beta.
  intros pay h' (-> & Hz & _). eapply returns_mono; [apply send_wire_ok; lia|]. cbn.
  intros r h' (HE & HI' & _)%(sent_inv A); [|done]. by exists A.
Qed.

Lemma event_ack_ok f A h :
  inv A h -> returns (host_link_event_ack f) (fun _ => safely A h) h.
Proof.
  intros HI. unfold host_link_event_ack. destruct f as [f|]; [|rstep; by apply safely_refl].
  eapply returns_mono; [by apply send_wire_ok|]. cbn.
  intros r h' (HE & HI' & _)%(sent_inv A); [|done]. by exists A.
Qed.

(** ** Asynchronous requests *)
Lemma find_free_async_spec l i :
  find_free_async l = Some i -> exists a, l !! i = Some a /\ as_used a = false.
Proof.
  revert i. induction l as [|a l IH]; intros i; cbn; [done|].
  destruct (as_used a) eqn:E; cbn.
  - intros (j & Hj & ->)%fmap_Some. by apply IH.
  - intros [= <-]. eauto.
Qed.

(** Results after which the completion callback runs exactly once. *)
Definition booked (r : host_link_err_t) : bool :=
  match r with
  | HOST_LINK_ERR_INVALID_ARG | HOST_LINK_ERR_INVALID_SIZE | HOST_LINK_ERR_NO_SLOT => false
  | _ => true
  end.

(** As [evolves], with [n] requests of user [u] opened on the way. *)
Definition opens (n : nat) (u : nat) (A : list ptr) (h : hl) (A' : list ptr) (h' : hl) : Prop :=
  exists evs, log h' = log h ++ evs /\ A' ≡ₚ handed evs ++ A /\ ready h' = ready h /\
    forall v, (pending v (async_slot h') + dones v evs =
               pending v (async_slot h) + if Nat.eqb v u then n else 0)%nat.

Lemma evolves_opens u A h A' h' : evolves A h A' h' -> opens 0 u A h A' h'.
Proof.
  intros (evs & L & P & R & C). exists evs. repeat split; auto. intros v. rewrite C.
  destruct (v =? u)%nat; lia.
Qed.

Definition book (i : nat) (a : async_slot_t) (h : hl) : hl :=
  set_async_slot (<[i := a]> (async_slot h)) h.

Lemma book_pending h i g a u :
  async_slot h !! i = Some g -> as_used g = false -> as_used a = true -> as_user a = u ->
  forall v, pending v (async_slot (book i a h)) =
            (pending v (async_slot h) + if Nat.eqb v u then 1 else 0)%nat.
Proof.
  intros Hg Hu Ha Hw v. pose proof (pending_insert v _ _ _ a Hg) as E.
  unfold open_for in E. rewrite Hu, Ha, Hw in E. cbn [andb] in E.
  cbn [book async_slot set_async_slot]. lia.
Qed.

Lemma inv_async A h l :
  inv A h -> length l = HOST_LINK_CFG_ASYNC_MAX -> inv A (set_async_slot l h).
Proof. intros [HC [] HP] Hl. by constructor; [|constructor|]. Qed.

Lemma inv_log A h l : inv A h -> inv A (set_log l h).
Proof. intros [HC [] HP]. by constructor; [|constructor|]. Qed.

Lemma inv_next_id A h v : inv A h -> inv A (set_next_frame_id v h).
Proof. intros [HC [] HP]. by constructor; [|constructor|]. Qed.

(** As [opens], without the accounting of the requests. *)
Definition grows (A : list ptr) (h : hl) (A' : list ptr) (h' : hl) : Prop :=
  exists evs, log h' = log h ++ evs /\ A' ≡ₚ handed evs ++ A /\ ready h' = ready h.

Lemma opens_grows n u A h A' h' : opens n u A h A' h' -> grows A h A' h'.
Proof. intros (evs & L & P & R & _). by exists evs. Qed.

(** What the other tasks do during the send keeps the link's invariant. *)
Definition harmless (m : M hl unit) : Prop :=
  forall A h, inv A h -> returns m (fun _ => safely A h) h.

(** Every request is accounted for, unless its send failed while another task
    used the link. *)
Definition accounted (m : M hl unit) (r : host_link_err_t) : Prop :=
  hl_ok r = true \/ booked r = false \/ m = mret tt.

(** The end of a request whose send failed. *)
Lemma send_failed_ok u i r A h :
  inv A h -> returns (modify (release_async i);; emit (EvDone u r None 0))
    (fun _ h' => inv A h' /\ grows A h A h' /\ (forall a, async_slot h !! i = Some a -> as_used a = true ->
       as_user a = u -> evolves A h A h')) h.
Proof.
  intros HI. unfold emit. rstep. split; [|split].
  - apply inv_log, inv_async; [done|]. rewrite length_alter. apply (i_aux _ _ HI).
  - by exists [EvDone u r None 0].
  - intros a Ha Hu Hw. exists [EvDone u r None 0]. split; [done|]. split; [done|]. split; [done|].
    intros v. rewrite <- (release_async_pending i a h Ha Hu v). subst u. unfold dones. cbn.
    by destruct (v =? as_user a)%nat.
Qed.

Lemma opens_evolves n u A h A1 h1 A2 h2 :
  opens n u A h A1 h1 -> evolves A1 h1 A2 h2 -> opens n u A h A2 h2.
Proof.
  intros (e1 & L1 & P1 & R1 & C1) (e2 & L2 & P2 & R2 & C2). exists (e1 ++ e2). split_and!.
  - by rewrite L2, L1, app_assoc.
  - rewrite P2, P1, handed_app. solve_Permutation.
  - congruence.
  - intros v. rewrite dones_app, <- (C1 v), <- (C2 v). lia.
Qed.

Lemma grows_trans A h A1 h1 A2 h2 : grows A h A1 h1 -> grows A1 h1 A2 h2 -> grows A h A2 h2.
Proof.
  intros (e1 & L1 & P1 & R1) (e2 & L2 & P2 & R2). exists (e1 ++ e2). split_and!.
  - by rewrite L2, L1, app_assoc.
  - rewrite P2, P1, handed_app. solve_Permutation.
  - congruence.
Qed.

Lemma request_async_ok m cmd data len u A h :
  harmless m -> inv A h -> buffer_arg data len ->
  returns (host_link_request_async m cmd data len (Some u))
    (fun r h' => exists A', inv A' h' /\ grows A h A' h' /\
       (accounted m r -> opens (if booked r then 1 else 0) u A h A' h')) h.
Proof.
  intros Hm HI [Hl Hd]. unfold host_link_request_async.
  assert (Hsame : opens 0 u A h A h) by (apply evolves_opens, evolves_same; done).
  assert (Hno : forall r, booked r = false -> exists A', inv A' h /\ grows A h A' h /\
            (accounted m r -> opens (if booked r then 1 else 0) u A h A' h)).
  { intros r ->. exists A. split_and!; [done|by eapply opens_grows|done]. }
  cif; [rstep; by apply Hno|]. cif; [rstep; by apply Hno|]. rstep.
  destruct (find_free_async (async_slot h)) as [i|] eqn:E; [|rstep; by apply Hno].
  apply find_free_async_spec in E as (g & Hg & Hu).
  unfold alloc_frame_id, host_link_port_tick_ms. rstep.
  set (a := mkAsync true _ _ _ _). set (h1 := set_async_slot _ _).
  assert (HI1 : inv A h1).
  { apply inv_async; [by apply inv_next_id|]. cbn. rewrite length_insert. apply (i_aux _ _ HI). }
  assert (O1 : opens 1 u A h A h1).
  { exists []. split; [cbn; by rewrite app_nil_r|]. split; [done|]. split; [done|].
    intros v. pose proof (book_pending h i g a u Hg Hu eq_refl eq_refl v) as Hp. cbn in Hp |- *. lia. }
  apply returns_bind. eapply returns_mono; [apply arg_bytes_ok; [done..|lia]|]. cbn beta.
  intros pay h' (-> & Hz & _). apply returns_bind.
  eapply returns_mono; [apply send_wire_ok; lia|]. cbn beta. intros r h2 HS.
  assert (Hb : booked r = true) by (destruct HS as (? & _ & [[-> _]|[[->| ->] _]]); done).
  apply (sent_inv A) in HS as (HE2 & HI2 & _ & _ & _ & Es2); [|done].
  pose proof (opens_evolves _ _ _ _ _ _ _ _ O1 HE2) as O2.
  assert (Hi2 : async_slot h2 !! i = Some a).
  { rewrite Es2. cbn. apply list_lookup_insert_eq. by eapply lookup_lt_Some. }
  apply returns_bind. eapply returns_mono.
  { apply (returns_and _ (fun _ => safely A h2) (fun _ h3 => m = mret tt -> h3 = h2)); [by apply Hm|].
    destruct (returns_elim _ _ _ (Hm A h2 HI2)) as ([] & h3 & E3 & _). unfold returns. rewrite E3.
    intros ->. by injection E3. }
  cbn beta. intros _ h3 [(A3 & HE3 & HI3) Hq]. pose proof (opens_evolves _ _ _ _ _ _ _ _ O2 HE3) as O3.
  destruct (hl_ok r) eqn:Er; cbn [negb].
  - rstep. exists A3. rewrite Hb. split_and!; [done|by eapply opens_grows|done].
  - apply returns_bind. eapply returns_mono; [by apply (send_failed_ok u i r A3)|]. cbn beta.
    intros _ h4 (HI4 & G4 & HE4). rstep. exists A3. rewrite Hb. split_and!; [done| |].
    + eapply grows_trans; [by eapply opens_grows|done].
    + intros [?|[?| ->]]; [congruence..|]. eapply opens_evolves; [exact O3|].
      apply (HE4 a); [|done..]. by rewrite Hq.
Qed.

(** ** Polling *)

(** What the link relies on when it hands a frame to the application: the
    callback returns, uses the link only through operations that keep the
    invariant, and leaves it the frame it has not taken over. *)
Class NotifyCb (cb : host_link_frame_t -> M hl host_link_frame_t) : Prop :=
  notify_cb_ok A f h :
    inv (option_list (fr_payload f) ++ A) h -> frame_good (heap h) f ->
    notify_type (hl_type (fr_header f)) = true ->
    returns (cb f) (fun f' h' => exists A', evolves A h A' h' /\
                                   inv (option_list (fr_payload f') ++ A') h') h.

Lemma for_slots_ok (f : nat -> M hl bool) ks :
  (forall i A h, In i ks -> inv A h -> returns (f i) (fun _ => safely A h) h) ->
  forall A h, inv A h -> returns (for_slots f ks) (fun _ => safely A h) h.
Proof.
  induction ks as [|i ks IH]; intros Hf A h HI; cbn [for_slots]; [rstep; by apply safely_refl|].
  apply returns_bind. eapply returns_mono; [by apply (Hf i A); [left|]|]. cbn beta.
  intros b h' (A' & HE & HI'). destruct b; [rstep; by exists A'|].
  eapply returns_mono; [apply IH; [|exact HI']|].
  { intros j B k Hj. apply Hf. by right. }
  cbn beta. intros _ h2. by apply safely_trans.
Qed.

Lemma free_frame_safely A h h0 f :
  inv (option_list (fr_payload f) ++ A) h -> evolves A h0 A h ->
  returns (free_frame_payload f) (fun _ => safely A h0) h.
Proof.
  intros HI HE. unfold free_frame_payload. apply returns_bind.
  destruct (fr_payload f) as [p|].
  - eapply inv_free; [exact HI|]. intros HI'. rstep. exists A. split; [|done].
    eapply evolves_trans; [exact HE|]. by apply evolves_same.
  - unfold host_link_port_free. rstep. by exists A.
Qed.

Lemma notify_one_ok cb `{NotifyCb cb} i A h :
  (i < HOST_LINK_CFG_NOTIFY_DEPTH)%nat -> inv A h -> returns (notify_one cb i) (fun _ => safely A h) h.
Proof.
  intros Hi HI. unfold notify_one. rstep. cif; [rstep; by apply safely_refl|].
  rcall (preempt_ok A h HI). intros _ h1 (A1 & HE1 & HI1). rstep.
  pose proof HI1 as [HC1 HA1 HP1]. rewrite <- (c_ns _ _ _ _ _ HC1) in Hi.
  destruct (lookup_lt_is_Some_2 _ _ Hi) as [f Hf]. rewrite Hf.
  destruct (fr_is_valid f) eqn:Ev; [|rstep; by exists A1]. rstep.
  pose proof (Forall_lookup_1 _ _ _ _ (c_nok _ _ _ _ _ HC1) Hf) as Hk.
  unfold slot_ok in Hk. rewrite Ev in Hk. destruct Hk as [Ht Hg].
  apply returns_bind. eapply returns_mono; [apply (notify_cb_ok A1)|].
  { constructor; [by apply core_take_notify|by destruct HA1; constructor|done]. }
  { done. }
  { done. }
  cbn beta. intros f' h2 (A2 & HE2 & HI2). apply returns_bind.
  eapply returns_mono; [apply (free_frame_safely A2 h2 h2); [done|by apply evolves_same]|].
  cbn beta. intros _ h3 HS. rstep. eapply safely_trans; [exact HE1|].
  eapply safely_trans; [|exact HS]. eapply evolves_trans; [|exact HE2]. by apply evolves_same.
Qed.

Lemma expire_ack_ok now i A h :
  (i < HOST_LINK_CFG_ACK_SLOTS)%nat -> inv A h -> returns (expire_ack now i) (fun _ => safely A h) h.
Proof.
  intros Hi HI. pose proof HI as [HC HA HP]. unfold expire_ack. rstep.
  pose proof Hi as Hi2. rewrite <- (c_ks _ _ _ _ _ HC) in Hi. rewrite <- (a_tick _ HA) in Hi2.
  destruct (lookup_lt_is_Some_2 _ _ Hi) as [f Hf], (lookup_lt_is_Some_2 _ _ Hi2) as [t Ht].
  rewrite Hf, Ht. cif; [|rstep; by apply safely_refl].
  pose proof (inv_take_ack A h i f HI Hf) as HI'. unfold free_frame_payload. rstep. apply returns_bind.
  destruct (fr_payload f) as [p|] eqn:Ep.
  - destruct (inv_held _ _ _ HI') as [l Hl]. eapply returns_free; [exact Hl|]. rstep.
    exists A. split; [by apply evolves_same|]. by apply inv_delete in HI'.
  - unfold host_link_port_free. rstep. exists A. split; [by apply evolves_same|]. done.
Qed.

Lemma expire_async_ok now i A h :
  (i < HOST_LINK_CFG_ASYNC_MAX)%nat -> inv A h -> returns (expire_async now i) (fun _ => safely A h) h.
Proof.
  intros Hi HI. pose proof HI as [HC HA HP]. unfold expire_async. rstep.
  rewrite <- (a_async _ HA) in Hi. destruct (lookup_lt_is_Some_2 _ _ Hi) as [a Ha]. rewrite Ha.
  cif; [|rstep; by apply safely_refl]. unfold emit. rstep. exists A. split.
  - eexists. split; [done|]. split; [done|]. split; [done|]. intros u.
    rewrite <- (release_async_pending i a h Ha ltac:(done) u). unfold dones. cbn.
    by destruct (u =? as_user a)%nat.
  - apply inv_log. apply inv_async; [done|]. rewrite length_alter. apply HA.
Qed.

Lemma poll_ok cb `{NotifyCb cb} A h :
  inv A h -> returns (host_link_poll cb) (fun _ => safely A h) h.
Proof.
  intros HI. unfold host_link_poll. apply returns_bind.
  eapply returns_mono; [apply for_slots_ok; [|exact HI]|].
  { intros i B k Hi%in_seq HB. apply notify_one_ok; [done|lia|done]. }
  cbn beta. intros b h1 (A1 & HE1 & HI1). destruct b; [rstep; by exists A1|].
  unfold host_link_port_tick_ms. rstep.
  rcall (preempt_ok A1 h1 HI1). intros _ h2 (A2 & HE2 & HI2). apply returns_bind.
  eapply returns_mono; [apply for_slots_ok; [|exact HI2]|].
  { intros i B k Hi%in_seq HB. apply expire_ack_ok; [lia|done]. }
  cbn beta. intros _ h3 (A3 & HE3 & HI3). apply returns_bind.
  eapply returns_mono; [apply for_slots_ok; [|exact HI3]|].
  { intros i B k Hi%in_seq HB. apply expire_async_ok; [lia|done]. }
  cbn beta. intros _ h4 (A4 & HE4 & HI4). rstep.
  assert (HE : evolves A h A4 h4).
  { eapply evolves_trans; [exact HE1|]. eapply evolves_trans; [exact HE2|].
    eapply evolves_trans; [exact HE3|exact HE4]. }
  destruct (ready h4).
  - eapply returns_mono; [by apply sem_wait_ok|]. cbn beta. intros _ h5. by apply safely_trans.
  - eapply returns_mono; [by apply rx_task_ok; [|constructor]|]. cbn beta. intros _ h5.
    by apply safely_trans.
Qed.
