(* ===== verification/HostLinkWire.v ===== *)
(** The wire format of the host link: the parser takes back what the sender
    put on the wire. *)
From stdpp Require Import gmap.
From S2P Require Import Prelude Heap HostLink HostLinkInv HostLinkOps.

(** ** Headers *)
Record hl_header_wf (x : host_link_header_t) : Prop := {
  hw_magic : 0 <= hl_magic x < 65536;
  hw_version : 0 <= hl_version x < 256;
  hw_reserved : 0 <= hl_reserved x < 256;
  hw_frame_id : 0 <= hl_frame_id x < 65536;
  hw_type : 0 <= hl_type x < 256;
  hw_reserved2 : 0 <= hl_reserved2 x < 256;
  hw_cmd : 0 <= hl_cmd x < 65536;
  hw_len : 0 <= hl_len x < 65536;
  hw_crc : 0 <= hl_hdr_crc x < 65536
}.

Lemma length_enc_hl_header x : length (enc_hl_header x) = HOST_LINK_HEADER_WIRE_LEN.
Proof. unfold enc_hl_header. rewrite length_app, length_enc_hl_body, length_le_enc. done. Qed.

Lemma bytes_ok_enc_hl_header x : bytes_ok (enc_hl_header x).
Proof. unfold enc_hl_header, enc_hl_body. repeat apply bytes_ok_app; apply bytes_ok_le_enc. Qed.

Lemma le_enc_1 v : le_enc 1 v = [v mod 256].
Proof. done. Qed.
Lemma le_enc_2 v : le_enc 2 v = [v mod 256; (v / 256) mod 256].
Proof. done. Qed.

Lemma dec_enc_hl_header x : hl_header_wf x -> dec_hl_header (enc_hl_header x) = x.
Proof.
  intros []. unfold enc_hl_header, enc_hl_body. rewrite !le_enc_1, !le_enc_2.
  destruct x. unfold dec_hl_header. cbn in *. f_equal; lia.
Qed.

(** ** Feeding *)
Lemma feed_app l1 l2 h :
  host_link_feed (l1 ++ l2) h = (host_link_feed l1;; host_link_feed l2) h.
Proof.
  revert h. induction l1 as [|b l1 IH]; intros h; [done|].
  cbn [host_link_feed app]. unfold mbind, M_bind, gets. destruct (ready h) eqn:E; cbn [negb].
  - destruct (feed_byte b h) as [u h'| | |]; [apply IH|done..].
  - unfold mret, M_ret. destruct l2; cbn; [done|]. unfold mbind, M_bind, gets. by rewrite E.
Qed.

Lemma feed_one b l h :
  ready h = true -> host_link_feed (b :: l) h = (feed_byte b;; host_link_feed l) h.
Proof. intros E. cbn [host_link_feed]. unfold mbind, M_bind, gets. by rewrite E. Qed.

(** The header bytes after the magic. *)
Definition got_header (bs : list Z) (h : hl) : hl :=
  set_parse_got (Z.of_nat HOST_LINK_HEADER_WIRE_LEN)
    (set_hdr_raw (take (Z.to_nat (parse_got h)) (hdr_raw h) ++ bs) h).

Lemma take_insert_snoc {A} (l : list A) i x :
  (i < length l)%nat -> take (S i) (<[i := x]> l) = take i l ++ [x].
Proof.
  intros. rewrite insert_take_drop by done. rewrite take_app_ge by (rewrite length_take; lia).
  rewrite length_take. replace (S i - i `min` length l)%nat with 1%nat by lia. done.
Qed.

Lemma hdr_step b h :
  ready h = true -> parse_state h = PS_HDR -> 0 <= parse_got h ->
  parse_got h + 1 < Z.of_nat HOST_LINK_HEADER_WIRE_LEN ->
  feed_byte b h = Ret tt (set_parse_got (parse_got h + 1)
                            (set_hdr_raw (<[Z.to_nat (parse_got h) := b]> (hdr_raw h)) h)).
Proof.
  intros Hr Hs H0 Hg. unfold HOST_LINK_HEADER_WIRE_LEN in Hg. unfold feed_byte.
  unfold mbind, M_bind, get, gets, modify, mret, M_ret. rewrite Hs.
  rewrite (proj2 (Z.ltb_lt _ _)) by (unfold HOST_LINK_HEADER_WIRE_LEN; lia).
  cbn [parse_got set_parse_got set_hdr_raw]. rewrite u16_small by lia.
  by rewrite (proj2 (Z.eqb_neq _ _)) by (unfold HOST_LINK_HEADER_WIRE_LEN; lia).
Qed.

Lemma feed_header bs : forall h,
  ready h = true -> parse_state h = PS_HDR -> bs <> [] -> 0 <= parse_got h ->
  parse_got h + zlen bs = Z.of_nat HOST_LINK_HEADER_WIRE_LEN ->
  length (hdr_raw h) = HOST_LINK_HEADER_WIRE_LEN ->
  host_link_feed bs h = header_complete (got_header bs h).
Proof.
  induction bs as [|b bs IH]; intros h Hr Hs Hne H0 Hg Hl; [done|].
  rewrite feed_one by done. unfold zlen in Hg. cbn [length] in Hg. destruct bs as [|c bs].
  - cbn in Hg. unfold feed_byte, got_header. unfold mbind, M_bind, get, gets, modify, mret, M_ret.
    rewrite Hs, (proj2 (Z.ltb_lt _ _)) by lia. cbn [parse_got set_parse_got set_hdr_raw].
    replace (u16 (parse_got h + 1)) with (Z.of_nat HOST_LINK_HEADER_WIRE_LEN)
      by (rewrite u16_small; [lia|unfold HOST_LINK_HEADER_WIRE_LEN in Hg; lia]).
    rewrite Z.eqb_refl.
    replace (<[Z.to_nat (parse_got h):=b]> (hdr_raw h)) with (take (Z.to_nat (parse_got h)) (hdr_raw h) ++ [b]).
    { destruct (header_complete _) as [[] h'| | |]; done. }
    rewrite <- take_insert_snoc by lia. apply take_ge. rewrite length_insert. lia.
  - unfold HOST_LINK_HEADER_WIRE_LEN in Hg. cbn [length] in Hg.
    rewrite (bind_ret_eq _ _ _ _ _ (hdr_step b h Hr Hs H0 ltac:(unfold HOST_LINK_HEADER_WIRE_LEN; lia))).
    rewrite IH; cbn [ready parse_state parse_got hdr_raw set_parse_got set_hdr_raw].
    + f_equal. unfold got_header. cbn [parse_got hdr_raw set_parse_got set_hdr_raw].
      replace (Z.to_nat (parse_got h + 1)) with (S (Z.to_nat (parse_got h))) by lia.
      rewrite take_insert_snoc by (rewrite Hl; unfold HOST_LINK_HEADER_WIRE_LEN; lia).
      by rewrite <- app_assoc.
    + done.
    + done.
    + done.
    + lia.
    + unfold zlen, HOST_LINK_HEADER_WIRE_LEN. cbn [length]. lia.
    + by rewrite length_insert.
Qed.

(** The payload bytes and their CRC. *)
Definition got_payload (p : ptr) (l bs : list Z) (h : hl) : hl :=
  set_parse_got (pend_pay_need h)
    (set_heap (<[p := take (Z.to_nat (parse_got h)) l ++ bs]> (heap h)) h).

(** One byte stored in the parser's buffer. *)
Definition stored (p : ptr) (l : list Z) (b : Z) (h : hl) : hl :=
  set_parse_got (parse_got h + 1) (set_heap (<[p := <[Z.to_nat (parse_got h) := b]> l]> (heap h)) h).

Lemma feed_payload_step b h p l :
  parse_state h = PS_PAYLOAD -> pend_payload h = Some p -> heap h !! p = Some l ->
  zlen l = pend_pay_need h -> 0 <= parse_got h < pend_pay_need h -> pend_pay_need h < 65536 ->
  feed_byte b h =
    (if pend_pay_need h <=? parse_got h + 1 then feed_finish_payload else mret tt) (stored p l b h).
Proof.
  intros Hs Hp Hl Hz Hg Hw. unfold feed_byte. erewrite bind_ret_eq by reflexivity.
  rewrite Hs, Hp, (proj2 (Z.ltb_lt _ _)) by lia.
  assert (E : (l ← load p;
               (if zlen l <=? parse_got h then undef
                else store p (<[Z.to_nat (parse_got h) := b]> l);;
                     modify (set_parse_got (u16 (parse_got h + 1))))) h = Ret tt (stored p l b h)).
  { unfold load, store, mbind, M_bind, gets. rewrite Hl. cbn beta iota. unfold mret, M_ret.
    rewrite (proj2 (Z.leb_gt _ _)) by lia. rewrite Hl, length_insert, Nat.eqb_refl.
    unfold modify. unfold stored. rewrite u16_small by lia. done. }
  rewrite (bind_ret_eq _ _ _ _ _ E). erewrite bind_ret_eq by reflexivity. done.
Qed.

Lemma feed_payload bs p : forall h l,
  ready h = true -> parse_state h = PS_PAYLOAD -> bs <> [] ->
  pend_payload h = Some p -> heap h !! p = Some l -> zlen l = pend_pay_need h ->
  0 <= parse_got h -> pend_pay_need h < 65536 -> parse_got h + zlen bs = pend_pay_need h ->
  host_link_feed bs h = feed_finish_payload (got_payload p l bs h).
Proof.
  induction bs as [|b bs IH]; intros h l Hr Hs Hne Hp Hl Hz H0 Hw Hg; [done|].
  rewrite feed_one by done. unfold zlen in Hg, Hz. cbn [length] in Hg.
  unfold mbind at 1, M_bind at 1. rewrite (feed_payload_step b h p l) by (unfold zlen; done || lia).
  destruct bs as [|c bs].
  - cbn [length] in Hg. rewrite (proj2 (Z.leb_le _ _)) by lia.
    replace (stored p l b h) with (got_payload p l [b] h).
    { destruct (feed_finish_payload _) as [[] h'| | |]; done. }
    unfold got_payload, stored. replace (parse_got h + 1) with (pend_pay_need h) by lia.
    do 3 f_equal. rewrite <- take_insert_snoc by lia. apply take_ge. rewrite length_insert. lia.
  - cbn [length] in Hg. rewrite (proj2 (Z.leb_gt _ _)) by lia. unfold mret, M_ret.
    rewrite (IH _ (<[Z.to_nat (parse_got h) := b]> l));
      cbn [stored ready parse_state parse_got pend_payload pend_pay_need heap set_parse_got set_heap].
    + f_equal. unfold got_payload, stored.
      cbn [parse_got pend_pay_need heap set_parse_got set_heap].
      rewrite insert_insert_eq. replace (Z.to_nat (parse_got h + 1)) with (S (Z.to_nat (parse_got h))) by lia.
      rewrite take_insert_snoc by lia. by rewrite <- app_assoc.
    + done.
    + done.
    + done.
    + done.
    + by rewrite lookup_insert_eq.
    + unfold zlen. rewrite length_insert. lia.
    + lia.
    + done.
    + unfold zlen. cbn [length]. lia.
Qed.

(** ** A whole frame *)
Definition sealed (x : host_link_header_t) : host_link_header_t :=
  set_hl_hdr_crc (host_link_crc16 (enc_hl_body x)) x.

Lemma hl_crc_bit_range c : 0 <= hl_crc_bit c < 65536.
Proof. unfold hl_crc_bit. destruct (Z.testbit c 15); apply u16_range. Qed.

Lemma crc16_range l : 0 <= host_link_crc16 l < 65536.
Proof.
  unfold host_link_crc16. assert (H : 0 <= 65535 < 65536) by lia. revert H. generalize 65535.
  induction l as [|b l IH]; intros c Hc; [done|]. cbn [foldl]. apply IH.
  unfold hl_crc_byte. apply hl_crc_bit_range.
Qed.

(** A header as the senders of this module build it. *)
Record sendable (x : host_link_header_t) (pay : list Z) : Prop := {
  sd_wf : hl_header_wf x;
  sd_magic : hl_magic x = HOST_LINK_MAGIC;
  sd_version : hl_version x = HOST_LINK_VERSION_CURRENT;
  sd_len : hl_len x = zlen pay;
  sd_max : zlen pay <= HOST_LINK_CFG_MAX_PAYLOAD;
  sd_bytes : bytes_ok pay
}.

Lemma sealed_wf x : hl_header_wf x -> hl_header_wf (sealed x).
Proof. intros []. constructor; cbn; auto. apply crc16_range. Qed.

Lemma wire_split x pay :
  hl_magic x = HOST_LINK_MAGIC ->
  wire_bytes x pay = [72; 76] ++ drop 2 (enc_hl_header (sealed x)) ++ pay ++ le_enc 2 (host_link_crc16 pay).
Proof.
  intros E. unfold wire_bytes. fold (sealed x). rewrite !app_assoc. do 2 f_equal.
  unfold enc_hl_header, enc_hl_body. rewrite !le_enc_2.
  replace (hl_magic (sealed x)) with HOST_LINK_MAGIC by (by rewrite <- E). done.
Qed.

(** The two magic bytes take the idle parser to the header. *)
Definition synced (h : hl) : hl :=
  set_parse_state PS_HDR (set_parse_got 2 (set_hdr_raw (<[1%nat := 76]> (<[0%nat := 72]> (hdr_raw h)))
    (set_parse_state PS_SYNC1 h))).

Lemma feed_sync h :
  ready h = true -> parse_state h = PS_SYNC0 -> host_link_feed [72; 76] h = Ret tt (synced h).
Proof.
  intros Hr Hs.
  assert (E1 : feed_byte 72 h = Ret tt (set_parse_state PS_SYNC1 h)).
  { unfold feed_byte. erewrite bind_ret_eq by reflexivity. by rewrite Hs. }
  assert (E2 : feed_byte 76 (set_parse_state PS_SYNC1 h) = Ret tt (synced h)) by done.
  rewrite feed_one, (bind_ret_eq _ _ _ _ _ E1) by done.
  rewrite feed_one, (bind_ret_eq _ _ _ _ _ E2) by done. done.
Qed.

(** The state when the checks of a received frame begin, and what it keeps. *)
Record collected (x : host_link_header_t) (pay : list Z) (q : option ptr) (h hx : hl) : Prop := {
  co_hdr : pend_hdr hx = sealed x;
  co_pend : pend_payload hx = None;
  co_notify : notify_slot hx = notify_slot h;
  co_ack : ack_slot hx = ack_slot h;
  co_tick : ack_tick hx = ack_tick h;
  co_async : async_slot hx = async_slot h;
  co_log : log hx = log h;
  co_ready : ready hx = ready h;
  co_id : next_frame_id hx = next_frame_id h;
  co_env : env hx = env h;
  co_heap : match q with
            | None => pay = [] /\ heap hx = heap h
            | Some p => pay <> [] /\ heap h !! p = None /\ heap hx = <[p := pay]> (heap h)
            end
}.

Lemma pop_malloc_idle e : malloc_fails e = [] -> pop_malloc e = e.
Proof. intros E. unfold pop_malloc. rewrite E. cbn. rewrite <- E. by destruct e. Qed.

Lemma returns_malloc_idle n h (Q : option ptr -> hl -> Prop) :
  malloc_fails (env h) = [] ->
  (forall p, heap h !! p = None -> Q (Some p) (set_heap (<[p := replicate (Z.to_nat n) 0]> (heap h)) h)) ->
  returns (host_link_port_malloc n) Q h.
Proof.
  intros E HQ. unfold host_link_port_malloc. rstep. rewrite E. rstep.
  replace (set_env _ h) with h by (destruct h as [????????????? [] ?]; cbn in *; by rewrite E).
  apply HQ. apply not_elem_of_dom, is_fresh.
Qed.

(** The header is taken: a buffer of the right size waits for the payload. *)
Definition header_taken (x : host_link_header_t) (p : ptr) (h : hl) : hl :=
  set_parse_state PS_PAYLOAD (set_parse_got 0 (set_pend_payload (Some p)
    (set_heap (<[p := replicate (Z.to_nat (hl_len x + 2)) 0]> (heap h))
      (set_pend_pay_need (hl_len x + 2) (set_pend_hdr (sealed x)
        (set_parse_got 14 (set_hdr_raw (enc_hl_header (sealed x)) (synced h)))))))).

Lemma feed_magic_header x h (Q : unit -> hl -> Prop) :
  hl_header_wf x -> hl_magic x = HOST_LINK_MAGIC -> hl_len x <= HOST_LINK_CFG_MAX_PAYLOAD ->
  ready h = true -> parse_state h = PS_SYNC0 -> length (hdr_raw h) = HOST_LINK_HEADER_WIRE_LEN ->
  malloc_fails (env h) = [] ->
  (forall p, heap h !! p = None -> Q tt (header_taken x p h)) ->
  returns (host_link_feed ([72; 76] ++ drop 2 (enc_hl_header (sealed x)))) Q h.
Proof.
  intros Hwf Hm Hl Hr Hs Hraw Hmf HQ. pose proof (sealed_wf x Hwf) as Hwf'.
  set (rest := drop 2 (enc_hl_header (sealed x))).
  assert (Hrest : zlen rest = 12).
  { unfold zlen, rest. rewrite length_drop, length_enc_hl_header. done. }
  eapply returns_eq; [apply feed_app|].
  eapply returns_eq; [exact (bind_ret_eq _ _ _ _ _ (feed_sync h Hr Hs))|]. cbn beta.
  eapply returns_eq; [apply feed_header; try done|].
  { cbn. by rewrite !length_insert. }
  set (h1 := got_header rest (synced h)).
  assert (Eraw : hdr_raw h1 = enc_hl_header (sealed x)).
  { unfold h1, got_header. cbn [hdr_raw set_parse_got set_hdr_raw parse_got synced set_parse_state].
    transitivity (take 2 (enc_hl_header (sealed x)) ++ rest); [f_equal|apply take_drop].
    destruct (hdr_raw h) as [|? [|? ?]]; [done..|].
    unfold enc_hl_header, enc_hl_body. rewrite !le_enc_2.
    replace (hl_magic (sealed x)) with HOST_LINK_MAGIC by (by rewrite <- Hm). done. }
  unfold header_complete. rstep. cbn [pend_hdr set_pend_hdr]. rewrite Eraw.
  rewrite dec_enc_hl_header by done. change (hl_len (sealed x)) with (hl_len x).
  pose proof (hw_len _ Hwf). unfold HOST_LINK_CFG_MAX_PAYLOAD in *.
  rewrite (proj2 (Z.ltb_ge _ _)) by done. rstep. rewrite u16_small by lia.
  assert (Ealloc : forall n, n = hl_len x + 2 ->
            returns (alloc_pending n) Q (set_pend_pay_need (hl_len x + 2) (set_pend_hdr (sealed x) h1))).
  { intros n ->. unfold alloc_pending. apply returns_bind, returns_malloc_idle; [done|].
    intros p Hp. rstep. unfold h1, got_header in *. cbn [hdr_raw set_parse_got set_hdr_raw] in Eraw.
    rewrite Eraw. by apply HQ. }
  repeat cif; cbool; [apply Ealloc; lia|apply Ealloc; lia|lia].
Qed.

(** The payload is complete in the parser's buffer [p]. *)
Lemma finish_wire x pay p h h2 (Q : unit -> hl -> Prop) :
  pend_hdr h2 = sealed x -> pend_payload h2 = Some p -> heap h !! p = None ->
  heap h2 = <[p := pay ++ le_enc 2 (host_link_crc16 pay)]> (heap h) ->
  malloc_fails (env h2) = [] -> hl_len x = zlen pay ->
  (forall q hx, collected x pay q (set_heap (heap h) h2) hx ->
     let fr := mkFrame (sealed x) q (host_link_crc16 pay) true in
     returns (r ← deal_one_frame fr;
              (if negb (hl_ok r) then free_frame_payload fr;; mret tt else mret tt);; parse_reset) Q hx) ->
  returns feed_finish_payload Q h2.
Proof.
  intros Ehd Epp Hp Eh Hmf Hlen HQ. set (buf := pay ++ le_enc 2 (host_link_crc16 pay)) in *.
  unfold feed_finish_payload. rstep. rewrite Epp. rstep. apply returns_bind.
  eapply returns_load; [rewrite Eh; apply lookup_insert_eq|].
  rewrite Ehd. change (hl_len (sealed x)) with (hl_len x). rewrite Hlen.
  assert (Etk : take (Z.to_nat (zlen pay)) buf = pay).
  { unfold zlen, buf. rewrite Nat2Z.id. apply take_app_length. }
  assert (Esb : le_dec (sub (Z.to_nat (zlen pay)) 2 buf) = host_link_crc16 pay).
  { unfold zlen, buf. rewrite Nat2Z.id, sub_app_ge, Nat.sub_diag, sub_all by (done || apply length_le_enc).
    apply le_dec_enc, crc16_range. }
  rewrite Etk, Esb. rewrite (proj2 (Z.ltb_ge _ _)).
  2:{ unfold buf, zlen. rewrite length_app, length_le_enc. lia. }
  unfold payload_crc_ok. rewrite Z.eqb_refl. cbn [hl_ok negb]. unfold copy_payload.
  destruct (0 <? zlen pay) eqn:E; cbool.
  - rstep. apply returns_bind, returns_malloc_idle; [done|]. intros q Hq. rstep. apply returns_bind.
    assert (Hqp : p <> q) by (intros ->; rewrite Eh, lookup_insert_eq in Hq; done).
    eapply returns_store; [apply lookup_insert_eq| |].
    { rewrite length_replicate. unfold zlen. lia. }
    rstep. unfold drop_pending. rstep. apply returns_bind.
    eapply returns_free.
    { cbn. rewrite !lookup_insert_ne, Eh by done. apply lookup_insert_eq. }
    rstep. apply (HQ (Some q)). constructor; [exact Ehd|reflexivity..|]. split; [intros Hn; subst pay; discriminate E|].
    cbn. rewrite Eh in *. rewrite lookup_insert_ne in Hq by done. split; [done|].
    rewrite insert_insert_eq, delete_insert_ne, delete_insert_id by done. done.
  - rstep. unfold drop_pending. rstep. apply returns_bind. eapply returns_free.
    { rewrite Eh. apply lookup_insert_eq. }
    rstep. destruct pay; [|unfold zlen in E; cbn in E; lia].
    apply (HQ None). constructor; [exact Ehd|reflexivity..|]. split; [reflexivity|]. cbn. rewrite Eh. by apply delete_insert_id.
Qed.

(** The payload and its CRC follow: everything is ready for the checks. *)
Lemma feed_wire x pay h (Q : unit -> hl -> Prop) :
  sendable x pay -> ready h = true -> parse_state h = PS_SYNC0 ->
  length (hdr_raw h) = HOST_LINK_HEADER_WIRE_LEN -> malloc_fails (env h) = [] ->
  (forall q hx, collected x pay q h hx ->
     let fr := mkFrame (sealed x) q (host_link_crc16 pay) true in
     returns (r ← deal_one_frame fr;
              (if negb (hl_ok r) then free_frame_payload fr;; mret tt else mret tt);; parse_reset) Q hx) ->
  returns (host_link_feed (wire_bytes x pay)) Q h.
Proof.
  intros [Hwf Hm _ Hlen Hmax Hb] Hr Hs Hraw Hmf HQ. rewrite (wire_split x pay Hm), app_assoc.
  eapply returns_eq; [apply feed_app|]. apply returns_bind.
  apply feed_magic_header; [done|done|lia|done..|]. intros p Hp. unfold HOST_LINK_CFG_MAX_PAYLOAD in *.
  set (l0 := replicate (Z.to_nat (hl_len x + 2)) 0).
  assert (Hz0 : zlen l0 = hl_len x + 2) by (unfold zlen, l0; rewrite length_replicate; unfold zlen in *; lia).
  set (crc := le_enc 2 (host_link_crc16 pay)).
  assert (Hz : zlen (pay ++ crc) = hl_len x + 2).
  { unfold zlen in *. rewrite length_app. unfold crc. rewrite length_le_enc. lia. }
  eapply returns_eq.
  { apply (feed_payload (pay ++ crc) p (header_taken x p h) l0).
    - exact Hr.
    - reflexivity.
    - intros E. rewrite E in Hz. unfold zlen in *. cbn in Hz. lia.
    - reflexivity.
    - cbn [heap header_taken set_heap set_parse_state set_parse_got set_pend_payload]. apply lookup_insert_eq.
    - exact Hz0.
    - cbn. lia.
    - cbn. unfold zlen in *. lia.
    - exact Hz. }
  set (h2 := got_payload p l0 (pay ++ crc) (header_taken x p h)).
  assert (Eh : heap h2 = <[p := pay ++ crc]> (heap h)).
  { unfold h2, got_payload. cbn [heap set_parse_got set_heap header_taken set_parse_state set_pend_payload].
    apply insert_insert_eq. }
  apply (finish_wire x pay p h h2); [reflexivity|reflexivity|exact Hp|exact Eh|exact Hmf|exact Hlen|].
  intros q hx HC. apply HQ. destruct HC. by constructor.
Qed.

(** ** Delivery *)
Lemma enc_sealed_body x : enc_hl_body (sealed x) = enc_hl_body x.
Proof. done. Qed.

(** Every check of a frame sent by this module succeeds. *)
Lemma deal_sent x pay q h hx :
  sendable x pay -> collected x pay q h hx -> ready h = true ->
  let fr := mkFrame (sealed x) q (host_link_crc16 pay) true in
  deal_one_frame fr hx =
    (if notify_type (hl_type x) then add_notify_frame_locked fr
     else if ack_type (hl_type x) then add_ack_frame_locked fr
     else mret HOST_LINK_ERR_PROTO) hx.
Proof.
  intros [Hwf Hm Hv Hlen Hmax Hb] [] Hr fr. unfold deal_one_frame, hdr_crc_ok.
  rewrite hl_ok_crc. cbn [fr_header fr]. rewrite enc_sealed_body.
  change (hl_hdr_crc (sealed x)) with (host_link_crc16 (enc_hl_body x)). rewrite Z.eqb_refl.
  change (hl_magic (sealed x)) with (hl_magic x). change (hl_version (sealed x)) with (hl_version x).
  rewrite Hm, Hv. cbn [negb orb Z.eqb].
  assert (E : payload_bytes fr hx = Ret pay hx).
  { unfold payload_bytes. cbn [fr_header fr fr_payload]. change (hl_len (sealed x)) with (hl_len x).
    rewrite Hlen. destruct q as [p|].
    - destruct co_heap0 as (Hne & _ & Eh). assert (zlen pay <> 0) by (unfold zlen; destruct pay; [done|cbn; lia]).
      rewrite (proj2 (Z.eqb_neq _ _)) by done. unfold load, mbind, M_bind, gets.
      rewrite Eh, lookup_insert_eq. unfold mret, M_ret. rewrite Z.ltb_irrefl. f_equal.
      apply take_ge. unfold zlen. lia.
    - by destruct co_heap0 as [-> _]. }
  cbn [negb orb Z.eqb Pos.eqb]. change (HOST_LINK_MAGIC =? HOST_LINK_MAGIC) with true.
  change (HOST_LINK_VERSION_CURRENT =? HOST_LINK_VERSION_CURRENT) with true. cbn [negb orb].
  rewrite (bind_ret_eq _ _ _ _ _ E). unfold payload_crc_ok. cbn [fr_payload_crc fr].
  rewrite Z.eqb_refl. cbn [hl_ok negb]. erewrite bind_ret_eq by reflexivity.
  rewrite co_ready0, Hr. cbn [negb]. done.
Qed.

(** What every delivered frame leaves behind: an idle parser, and one more
    block for a non-empty payload. *)
Record landed (pay : list Z) (q : option ptr) (h h' : hl) : Prop := {
  ln_state : parse_state h' = PS_SYNC0;
  ln_raw : length (hdr_raw h') = HOST_LINK_HEADER_WIRE_LEN;
  ln_ready : ready h' = ready h;
  ln_env : env h' = env h;
  ln_id : next_frame_id h' = next_frame_id h;
  ln_heap : match q with
            | None => pay = [] /\ heap h' = heap h
            | Some p => pay <> [] /\ heap h !! p = None /\ heap h' = <[p := pay]> (heap h)
            end
}.

Lemma parse_reset_idle h :
  pend_payload h = None ->
  parse_reset h = Ret tt (set_hdr_raw (replicate HOST_LINK_HEADER_WIRE_LEN 0) (set_pend_pay_need 0
                           (set_parse_got 0 (set_parse_state PS_SYNC0 h)))).
Proof.
  intros E. unfold parse_reset. erewrite bind_ret_eq by reflexivity. erewrite bind_ret_eq by reflexivity.
  cbn [pend_payload set_parse_got set_parse_state]. by rewrite E.
Qed.

Lemma wire_to_notify x pay h i :
  sendable x pay -> ready h = true -> parse_state h = PS_SYNC0 ->
  length (hdr_raw h) = HOST_LINK_HEADER_WIRE_LEN -> malloc_fails (env h) = [] ->
  notify_type (hl_type x) = true -> find_empty (notify_slot h) = Some i ->
  returns (host_link_feed (wire_bytes x pay))
    (fun _ h' => exists q, landed pay q h h' /\ log h' = log h /\ ack_slot h' = ack_slot h /\
       async_slot h' = async_slot h /\
       notify_slot h' = <[i := mkFrame (sealed x) q (host_link_crc16 pay) true]> (notify_slot h)) h.
Proof.
  intros Hsd Hr Hs Hraw Hmf Ht Hi. apply feed_wire; [done..|]. intros q hx HC fr.
  eapply returns_eq.
  { eapply bind_ret_eq. etransitivity; [by eapply deal_sent|]. rewrite Ht. destruct HC.
    unfold add_notify_frame_locked. erewrite bind_ret_eq by reflexivity.
    unfold find_empty_notify. rewrite co_notify0, Hi. reflexivity. }
  cbn [hl_ok negb]. rstep. eapply returns_intro; [apply parse_reset_idle; apply HC|]. exists q. destruct HC. cbn. rewrite co_notify0.
  by repeat split.
Qed.

Lemma wire_to_async x pay h i a :
  sendable x pay -> ready h = true -> parse_state h = PS_SYNC0 ->
  length (hdr_raw h) = HOST_LINK_HEADER_WIRE_LEN -> malloc_fails (env h) = [] ->
  hl_type x = HOST_LINK_TYPE_RESPONSE -> async_slot h !! i = Some a ->
  (forall q, find_async (mkFrame (sealed x) q (host_link_crc16 pay) true) (async_slot h) = Some i) ->
  returns (host_link_feed (wire_bytes x pay))
    (fun _ h' => exists q, landed pay q h h' /\ ack_slot h' = ack_slot h /\
       notify_slot h' = notify_slot h /\ async_slot h' = async_slot (release_async i h) /\
       log h' = log h ++ [EvDone (as_user a) HOST_LINK_OK q (zlen pay)]) h.
Proof.
  intros Hsd Hr Hs Hraw Hmf Ht Ha Hf. apply feed_wire; [done..|]. intros q hx HC fr.
  eapply returns_eq.
  { eapply bind_ret_eq. etransitivity; [by eapply deal_sent|]. rewrite Ht. destruct HC.
    change (notify_type HOST_LINK_TYPE_RESPONSE) with false.
    change (ack_type HOST_LINK_TYPE_RESPONSE) with true. cbv iota.
    unfold add_ack_frame_locked. erewrite bind_ret_eq by reflexivity.
    cbn [fr_header]. change (hl_type (sealed x)) with (hl_type x). rewrite Ht.
    change (HOST_LINK_TYPE_RESPONSE =? HOST_LINK_TYPE_RESPONSE) with true. cbv iota.
    rewrite co_async0. rewrite Hf, Ha. reflexivity. }
  cbn [hl_ok negb]. rstep. eapply returns_intro; [apply parse_reset_idle; apply HC|]. exists q. destruct Hsd, HC. cbn. rewrite co_async0, co_log0, sd_len0.
  by repeat split.
Qed.

(** A response that nobody asked for asynchronously waits in a slot. *)
Lemma wire_to_ack x pay h i :
  sendable x pay -> ready h = true -> parse_state h = PS_SYNC0 ->
  length (hdr_raw h) = HOST_LINK_HEADER_WIRE_LEN -> malloc_fails (env h) = [] ->
  ack_type (hl_type x) = true -> notify_type (hl_type x) = false ->
  (forall q, find_async (mkFrame (sealed x) q (host_link_crc16 pay) true) (async_slot h) = None) ->
  find_empty (ack_slot h) = Some i ->
  returns (host_link_feed (wire_bytes x pay))
    (fun _ h' => exists q, landed pay q h h' /\ log h' = log h /\ notify_slot h' = notify_slot h /\
       async_slot h' = async_slot h /\
       ack_slot h' = <[i := mkFrame (sealed x) q (host_link_crc16 pay) true]> (ack_slot h)) h.
Proof.
  intros Hsd Hr Hs Hraw Hmf Ht Htn Hf Hi. apply feed_wire; [done..|]. intros q hx HC fr.
  eapply returns_eq.
  { eapply bind_ret_eq. etransitivity; [by eapply deal_sent|]. rewrite Htn, Ht. destruct HC.
    unfold add_ack_frame_locked. erewrite bind_ret_eq by reflexivity. rewrite co_async0, Hf.
    replace (if hl_type (fr_header _) =? HOST_LINK_TYPE_RESPONSE then None else None) with (@None nat)
      by (by destruct (_ =? _)).
    unfold find_empty_ack. rewrite co_ack0, Hi. reflexivity. }
  cbn [hl_ok negb]. rstep. eapply returns_intro; [apply parse_reset_idle; apply HC|]. exists q. destruct HC. cbn. rewrite co_ack0. by repeat split.
Qed.
