(* ===== verification/HostLinkRun.v ===== *)
(** Runs of the host link: every sequence of API calls, with the blocks the
    application holds and the asynchronous requests it has opened, each marked
    when its send failed while another task was at work. *)
From stdpp Require Import gmap.
From S2P Require Import Prelude Heap HostLink HostLinkInv HostLinkOps.

(** ** Calls *)

(** What the other tasks do while an asynchronous request is being sent: the
    receiving task runs for some time and feeds bytes, the polling task makes a
    pass. *)
Inductive beside : Type :=
| BesideFeed (dt : Z) (bytes : list Z)
| BesidePoll.

Inductive api : Type :=
| ApiFeed (bytes : list Z)
| ApiPoll
| ApiRequest (cmd : Z) (data : option (list Z)) (len : Z) (want : bool) (timeout_ms : Z)
| ApiAsync (cmd : Z) (data : option (list Z)) (len : Z) (done : option nat) (during : list beside)
| ApiResponse (f : option host_link_frame_t) (data : option (list Z)) (len : Z)
| ApiEvent (cmd : Z) (data : option (list Z)) (len : Z)
| ApiEventAck (f : option host_link_frame_t)
| ApiFree (p : ptr)
| ApiWorld (e : env_t).

Definition beside_ok (b : beside) : Prop :=
  match b with BesideFeed _ bytes => bytes_ok bytes | BesidePoll => True end.

(** What the callers must respect; [ApiWorld] lets the environment change its
    mind between two calls. *)
Definition admissible (A : list ptr) (c : api) : Prop :=
  match c with
  | ApiFeed bytes => bytes_ok bytes
  | ApiRequest _ data len _ timeout_ms =>
      buffer_arg data len /\ 0 <= timeout_ms /\ timeout_ms + 20 <= 4294967296
  | ApiAsync _ data len _ during => buffer_arg data len /\ Forall beside_ok during
  | ApiResponse _ data len | ApiEvent _ data len => buffer_arg data len
  | ApiFree p => p ∈ A
  | ApiWorld e => env_ok e
  | ApiPoll | ApiEventAck _ => True
  end.

(** An asynchronous request a call opened: its caller, and whether its send
    failed while another task used the link. *)
Definition opening : Type := nat * bool.

Section Exec.
Context (cb : host_link_frame_t -> M hl host_link_frame_t).

Fixpoint run_beside (l : list beside) : M hl unit :=
  match l with
  | [] => mret tt
  | BesideFeed dt bytes :: l' => rx_task dt bytes;; run_beside l'
  | BesidePoll :: l' => host_link_poll cb;; run_beside l'
  end.

Definition crossed (r : host_link_err_t) (during : list beside) : bool :=
  negb (hl_ok r) && match during with [] => false | _ => true end.

(** The result of a call: a buffer for the caller, and the asynchronous
    requests it opened. *)
Definition exec (c : api) : M hl (option ptr * list opening) :=
  match c with
  | ApiFeed bytes => host_link_feed bytes;; mret (None, [])
  | ApiPoll => host_link_poll cb;; mret (None, [])
  | ApiRequest cmd data len want timeout_ms =>
      h ← get;
      res ← host_link_request_timeout (rounds h + wait_fuel timeout_ms) cmd data len want timeout_ms;
      mret (fst <$> res.2, [])
  | ApiAsync cmd data len done during =>
      r ← host_link_request_async (run_beside during) cmd data len done;
      mret (None, match done with
                  | Some u => if booked r then [(u, crossed r during)] else []
                  | None => []
                  end)
  | ApiResponse f data len => host_link_response f data len;; mret (None, [])
  | ApiEvent cmd data len =>
      h ← get;
      host_link_send_event (rounds h + wait_fuel HOST_LINK_CFG_ACK_TIMEOUT_MS) cmd data len;;
      mret (None, [])
  | ApiEventAck f => host_link_event_ack f;; mret (None, [])
  | ApiFree p => host_link_free (Some p);; mret (None, [])
  | ApiWorld e => modify (set_env e);; mret (None, [])
  end.

(** The buffers completions handed over between two states. *)
Definition gained (h h' : hl) : list ptr := handed (drop (length (log h)) (log h')).

(** The application's blocks after a call. *)
Definition app_blocks (c : api) (r : option ptr) (h h' : hl) (A A' : list ptr) : Prop :=
  match c with
  | ApiFree p => A ≡ₚ p :: A'
  | _ => A' ≡ₚ option_list r ++ gained h h' ++ A
  end.

Definition opened (u : nat) (us : list opening) : nat :=
  length (List.filter (fun o => Nat.eqb u o.1) us).

(** No request was sent in vain while another task used the link. *)
Definition uncrossed (us : list opening) : Prop := Forall (fun o => o.2 = false) us.

Inductive reach : list opening -> list ptr -> hl -> Prop :=
| reach_init e : env_ok e -> reach [] [] (fresh_handler e)
| reach_call os A h c r h' A' :
    reach os A h -> admissible A c -> exec c h = Ret r h' -> app_blocks c r.1 h h' A A' ->
    reach (r.2 ++ os) A' h'.

(** ** One call *)
Lemma opened_app u us vs : opened u (us ++ vs) = (opened u us + opened u vs)%nat.
Proof. unfold opened. by rewrite List.filter_app, length_app. Qed.

Definition call_ok (c : api) (A : list ptr) (h : hl) (r : option ptr * list opening) (h' : hl) : Prop :=
  exists A', app_blocks c r.1 h h' A A' /\ inv A' h' /\
  exists evs, log h' = log h ++ evs /\
    (uncrossed r.2 -> forall u,
       (pending u (async_slot h') + dones u evs = pending u (async_slot h) + opened u r.2)%nat).

Lemma gained_eq h h' evs : log h' = log h ++ evs -> gained h h' = handed evs.
Proof. intros E. unfold gained. by rewrite E, drop_app_length. Qed.

(** A call that opens nothing and returns the buffer [p]. *)
Lemma call_ok_evolves c A h p A' h' :
  (forall q, c <> ApiFree q) -> evolves A h A' h' -> inv (option_list p ++ A') h' ->
  call_ok c A h (p, []) h'.
Proof.
  intros Hc (evs & L & P & R & C) HI. exists (option_list p ++ A'). split; [|split; [done|]].
  - assert (E : option_list p ++ A' ≡ₚ option_list p ++ gained h h' ++ A).
    { by rewrite (gained_eq _ _ _ L), P. }
    unfold app_blocks. destruct c; try exact E. by destruct (Hc p0).
  - exists evs. split; [done|]. intros _ u. rewrite C. cbn. lia.
Qed.

Lemma call_safely {B} c A h (m : M hl B) :
  (forall q, c <> ApiFree q) -> returns m (fun _ => safely A h) h ->
  returns (m;; mret (None, [])) (call_ok c A h) h.
Proof.
  intros Hc Hm. apply returns_bind. eapply returns_mono; [exact Hm|]. cbn beta.
  intros _ h' (A' & HE & HI). rstep. by eapply call_ok_evolves.
Qed.

Lemma run_beside_ok `{NotifyCb cb} l : Forall beside_ok l -> harmless (run_beside l).
Proof.
  induction 1 as [|[dt bytes|] l Hb _ IH]; intros A h HI; cbn [run_beside].
  - rstep. by apply safely_refl.
  - rcall (rx_task_ok A h dt bytes HI Hb). intros _ h1 (A1 & HE & HI1).
    eapply returns_mono; [by apply IH|]. cbn beta. intros _ h2. by apply safely_trans.
  - rcall (poll_ok cb A h HI). intros _ h1 (A1 & HE & HI1).
    eapply returns_mono; [by apply IH|]. cbn beta. intros _ h2. by apply safely_trans.
Qed.

Lemma crossed_accounted r during :
  uncrossed (if booked r then [(0%nat, crossed r during)] else []) -> accounted (run_beside during) r.
Proof.
  unfold accounted. destruct (booked r); [|auto]. intros Hu. inversion Hu as [|? ? Hc _]. cbn in Hc.
  unfold crossed in Hc. destruct (hl_ok r); [auto|]. destruct during; [auto|done].
Qed.

Lemma call_async `{NotifyCb cb} A h cmd data len done during :
  inv A h -> buffer_arg data len -> Forall beside_ok during ->
  returns (exec (ApiAsync cmd data len done during)) (call_ok (ApiAsync cmd data len done during) A h) h.
Proof.
  intros HI Hb Hd. cbn [exec]. destruct done as [u|].
  - apply returns_bind. eapply returns_mono.
    { exact (request_async_ok _ cmd data len u A h (run_beside_ok during Hd) HI Hb). } cbn beta.
    intros r h' (A' & HI' & (evs & L & P & R) & HO). rstep. exists A'. split.
    + cbn. by rewrite (gained_eq _ _ _ L).
    + split; [done|]. exists evs. split; [done|]. cbn [snd]. intros Hu v.
      destruct HO as (evs' & L' & _ & _ & C).
      { apply crossed_accounted. destruct (booked r); [|done]. inversion Hu. by repeat constructor. }
      assert (evs' = evs) as -> by (rewrite L in L'; by eapply app_inv_head). rewrite C. f_equal.
      destruct (booked r); cbn; [|by destruct (v =? u)%nat]. unfold opened. cbn.
      by destruct (v =? u)%nat.
  - cbn. rstep. eapply call_ok_evolves; [done|by apply evolves_same|done].
Qed.

Lemma call_free A h p :
  inv A h -> p ∈ A -> returns (exec (ApiFree p)) (call_ok (ApiFree p) A h) h.
Proof.
  intros HI (A' & E)%elem_of_Permutation. cbn [exec].
  apply returns_bind. unfold host_link_free. eapply (inv_free A').
  { by eapply inv_perm. }
  intros HI'. rstep. exists A'. split; [done|]. split; [done|].
  exists []. split; [cbn; by rewrite app_nil_r|]. intros _ u. cbn. done.
Qed.

Lemma exec_ok `{NotifyCb cb} c A h :
  inv A h -> admissible A c -> returns (exec c) (call_ok c A h) h.
Proof.
  intros HI HA. destruct c; cbn [admissible] in HA.
  - apply call_safely; [done|by apply host_link_feed_ok].
  - apply call_safely; [done|by apply poll_ok].
  - destruct HA as (Hb & H0 & Hm). cbn [exec]. rstep. apply returns_bind.
    eapply returns_mono; [by apply (request_ok _ _ _ _ _ _ A)|]. cbn beta.
    intros res h' (_ & A' & HE & HI' & _). rstep. by eapply call_ok_evolves.
  - destruct HA. by apply call_async.
  - apply call_safely; [done|by apply response_ok].
  - cbn [exec]. rstep. apply call_safely; [done|by apply send_event_ok].
  - apply call_safely; [done|by apply event_ack_ok].
  - by apply call_free.
  - cbn [exec]. rstep. eapply call_ok_evolves; [done|by apply evolves_same|].
    by apply env_move.
Qed.

(** ** Runs *)
Lemma app_blocks_det c r h h' A A1 A2 :
  app_blocks c r h h' A A1 -> app_blocks c r h h' A A2 -> A1 ≡ₚ A2.
Proof.
  unfold app_blocks. destruct c; intros E1 E2; try (by rewrite E1, E2).
  apply (Permutation_cons_inv (a := p)). by rewrite <- E1, <- E2.
Qed.

Lemma fresh_inv e : env_ok e -> inv [] (fresh_handler e).
Proof.
  intros He. constructor.
  - constructor; try done; apply Forall_replicate; done.
  - constructor; try done. apply bytes_ok_replicate. unfold is_byte; lia.
  - done.
Qed.

Lemma pending_zero u n : pending u (replicate n async_zero) = 0%nat.
Proof. induction n; [done|]. unfold pending in *. cbn. done. Qed.

Lemma reach_inv `{NotifyCb cb} os A h :
  reach os A h ->
  inv A h /\ (uncrossed os -> forall u, (pending u (async_slot h) + dones u (log h))%nat = opened u os).
Proof.
  induction 1 as [e He|os A h c r h' A' _ [HI HC] HA HX HB].
  - split; [by apply fresh_inv|]. intros _ u. cbn [fresh_handler async_slot log]. by rewrite pending_zero.
  - pose proof (exec_ok c A h HI HA) as HR. unfold returns in HR. rewrite HX in HR.
    destruct HR as (A2 & HB2 & HI2 & evs & L & C). split.
    + eapply inv_perm; [exact HI2|]. by eapply app_blocks_det.
    + intros [Hu1 Hu2]%Forall_app u. rewrite L, dones_app, opened_app, <- (HC Hu2).
      specialize (C Hu1 u). lia.
Qed.
End Exec.

(** ** Shutdown *)
Lemma free_frames_ok l : forall R h,
  blocks (heap h) ≡ₚ payloads l ++ R ->
  returns (free_frames l) (fun l' h' => exists m, h' = set_heap m h /\ blocks m ≡ₚ R) h.
Proof.
  induction l as [|f l IH]; intros R h HB; cbn [free_frames].
  - rstep. exists (heap h). by rewrite set_heap_id.
  - unfold free_frame_payload. rstep. apply returns_bind.
    unfold payloads in HB. cbn in HB. destruct (fr_payload f) as [p|].
    + destruct (blocks_lookup (heap h) p) as [k Hk].
      { rewrite HB. left. }
      eapply returns_free; [exact Hk|]. rstep. apply returns_bind.
      eapply returns_mono; [apply (IH R)|].
      { apply (Permutation_cons_inv (a := p)). cbn. by rewrite <- (blocks_delete _ _ _ Hk). }
      cbn beta. intros l' h' (m & -> & Hm). rstep. by exists m.
    + unfold host_link_port_free. rstep. apply returns_bind. eapply returns_mono; [by apply (IH R)|].
      cbn beta. intros l' h' (m & -> & Hm). rstep. by exists m.
Qed.

(** Shutting down gives back every block of the handler and nothing else. *)
Lemma deinit_ok A h :
  inv A h ->
  returns host_link_deinit (fun ops h' => blocks (heap h') ≡ₚ A /\ ready h' = false /\
    log h' = log h /\ (forall a, a ∈ async_slot h' -> as_used a = false) /\
    ops = [OsDestroy ObjAckSem; OsDestroy ObjNotifySem; OsDestroy ObjLock; OsDestroy ObjHandler]) h.
Proof.
  intros [[_ _ _ _ HB] _ _]. unfold host_link_deinit. rstep. apply returns_bind.
  eapply returns_mono; [apply (free_frames_ok _ (option_list (pend_payload h) ++ payloads (ack_slot h) ++ A))|].
  { cbn. rewrite HB. solve_Permutation. }
  cbn beta. intros ns' h1 (m1 & -> & H1). rstep. apply returns_bind.
  eapply returns_mono; [apply (free_frames_ok _ (option_list (pend_payload h) ++ A))|].
  { cbn. rewrite H1. solve_Permutation. }
  cbn beta. intros ks' h2 (m2 & -> & H2). rstep.
  assert (Has : forall a, a ∈ map (fun a => mkAsync false (as_id a) (as_cmd a) (as_started_ms a) (as_user a))
                            (async_slot h) -> as_used a = false).
  { intros a Ha%list_elem_of_In. apply in_map_iff in Ha as (b & <- & _). done. }
  cbn [pend_payload set_async_slot set_ack_slot set_notify_slot set_heap set_ready].
  destruct (pend_payload h) as [p|].
  - destruct (blocks_lookup m2 p) as [k Hk]; [rewrite H2; left|].
    rstep. apply returns_bind. eapply returns_free; [exact Hk|]. rstep. split; [|done].
    apply (Permutation_cons_inv (a := p)). cbn. by rewrite <- (blocks_delete _ _ _ Hk).
  - rstep. done.
Qed.
