(* ===== verification/HostLinkApp.v ===== *)
(** The application end of the host link ([app/Custom/User/host_link_app.c]): the
    notify callback, and the echo command of its request dispatcher.  The other
    commands of the dispatcher are a parameter. *)
From stdpp Require Import gmap.
From S2P Require Import Prelude Heap HostLink HostLinkInv HostLinkOps HostLinkRun.

Definition HOST_LINK_CMD_ECHO : Z := 1.

(** [case HOST_LINK_CMD_ECHO]: the payload is sent back. *)
Definition dispatch_echo (f : host_link_frame_t) : M hl unit :=
  match fr_payload f with
  | Some p =>
      if 0 <? hl_len (fr_header f) then
        l ← load p;
        host_link_response (Some f) (Some l) (hl_len (fr_header f));; mret tt
      else host_link_response (Some f) None 0;; mret tt
  | None => host_link_response (Some f) None 0;; mret tt
  end.

Section Notify.
(** [host_link_dispatch_request]. *)
Context (dispatch : host_link_frame_t -> M hl unit).

Definition host_link_app_notify (f : host_link_frame_t) : M hl host_link_frame_t :=
  (if hl_type (fr_header f) =? HOST_LINK_TYPE_REQUEST then dispatch f
   else if hl_type (fr_header f) =? HOST_LINK_TYPE_EVENT then host_link_event_ack (Some f);; mret tt
   else mret tt);;
  mret f.

(** What the dispatcher must keep: the link's invariant, with the frame still
    in the callback's hands. *)
Definition dispatch_ok : Prop := forall A f h,
  inv A h -> frame_good (heap h) f -> returns (dispatch f) (fun _ => safely A h) h.

(** The callback may be called while the frame's block is the application's. *)
Lemma lend A p h h' : safely (option_list p ++ A) h h' ->
  exists A', evolves A h A' h' /\ inv (option_list p ++ A') h'.
Proof.
  intros (A' & (evs & L & P & R & C) & HI). exists (handed evs ++ A). split.
  - exists evs. by repeat split.
  - eapply inv_perm; [exact HI|]. rewrite P. solve_Permutation.
Qed.

Lemma app_notify_ok : dispatch_ok -> NotifyCb host_link_app_notify.
Proof.
  intros Hd A f h HI HG HT. unfold host_link_app_notify. apply returns_bind.
  eapply returns_mono with (Q := fun _ => safely (option_list (fr_payload f) ++ A) h).
  - cif; [by apply Hd|]. cif.
    + apply returns_bind. eapply returns_mono; [by eapply event_ack_ok|]. cbn beta. intros. by rstep.
    + rstep. by apply safely_refl.
  - cbn beta. intros _ h' HS. rstep. by apply lend.
Qed.
End Notify.

Lemma dispatch_echo_ok : dispatch_ok dispatch_echo.
Proof.
  intros A f h HI [_ _ _ HL HP]. unfold dispatch_echo, payload_ok in *.
  assert (Hnone : returns (host_link_response (Some f) None 0;; mret tt) (fun _ => safely A h) h).
  { apply returns_bind. eapply returns_mono; [apply (response_ok _ _ _ A h HI)|].
    - split; [lia|done].
    - cbn beta. intros. by rstep. }
  destruct (fr_payload f) as [p|]; [|done]. cif; [|done].
  destruct HP as (l & Hl & Hz & _). apply returns_bind. eapply returns_load; [exact Hl|].
  apply returns_bind. eapply returns_mono; [apply (response_ok _ _ _ A h HI)|].
  - unfold HOST_LINK_CFG_MAX_PAYLOAD in HL. split; [lia|]. intros ? [= <-]. lia.
  - cbn beta. intros. by rstep.
Qed.

#[export] Instance echo_notify : NotifyCb (host_link_app_notify dispatch_echo).
Proof. apply app_notify_ok, dispatch_echo_ok. Qed.
