(* ===== verification/HostLinkProps.v ===== *)
(** The properties of the host link: memory safety of every run, checked
    delivery, the remote call, exactly-once completion, waiting, shutdown. *)
From stdpp Require Import gmap.
From S2P Require Import Prelude Heap HostLink HostLinkInv HostLinkOps HostLinkWire HostLinkRun.

(** ** Lemmas *)
Lemma send_wire_idle x pay h :
  zlen pay <= HOST_LINK_CFG_MAX_PAYLOAD -> malloc_fails (env h) = [] -> send_fails (env h) = [] ->
  send_wire x pay h = Ret HOST_LINK_OK (set_log (log h ++ [EvSend (wire_bytes x pay)]) h).
Proof.
  intros HL Hm Hs. unfold HOST_LINK_CFG_MAX_PAYLOAD in HL.
  enough (H : returns (send_wire x pay)
                (fun r h' => r = HOST_LINK_OK /\ h' = set_log (log h ++ [EvSend (wire_bytes x pay)]) h) h).
  { apply returns_elim in H as (r & h' & E & -> & ->). exact E. }
  unfold send_wire.
  assert (Ht : u16 (Z.of_nat HOST_LINK_HEADER_WIRE_LEN + zlen pay + 2) = zlen (wire_bytes x pay)).
  { rewrite length_wire. unfold HOST_LINK_HEADER_WIRE_LEN, zlen in *. rewrite u16_small; lia. }
  rewrite Ht. apply returns_bind, returns_malloc_idle; [done|]. intros p Hp. apply returns_bind.
  eapply returns_store; [apply lookup_insert_eq| |].
  { rewrite length_replicate. unfold zlen. lia. }
  apply returns_bind. eapply returns_load; [apply lookup_insert_eq|].
  unfold send_fn, emit. rstep. apply returns_bind. eapply returns_free; [apply lookup_insert_eq|].
  rstep. cbn. rewrite Hs, insert_insert_eq, delete_insert_id by done. split; [done|].
  destruct h as [????????????? [] ?]. cbn in *. by rewrite Hs.
Qed.

Lemma make_header_sendable fid type cmd pay :
  0 <= fid < 65536 -> 0 <= type < 256 -> 0 <= cmd < 65536 -> bytes_ok pay ->
  zlen pay <= HOST_LINK_CFG_MAX_PAYLOAD -> sendable (make_header fid type cmd (zlen pay)) pay.
Proof.
  intros. unfold HOST_LINK_CFG_MAX_PAYLOAD in *. constructor; try done.
  constructor; cbn; unfold HOST_LINK_MAGIC, HOST_LINK_VERSION_CURRENT, zlen in *; lia.
Qed.

(** A handler with an idle parser, memory and a working transport. *)
Record idle_link (h : hl) : Prop := {
  il_ready : ready h = true;
  il_state : parse_state h = PS_SYNC0;
  il_raw : length (hdr_raw h) = HOST_LINK_HEADER_WIRE_LEN;
  il_malloc : malloc_fails (env h) = [];
  il_send : send_fails (env h) = [];
  il_id : 0 <= next_frame_id h < 65536
}.

(** No asynchronous request of [h] is open under the identifier [fid]. *)
Definition id_free (fid cmd : Z) (h : hl) : Prop :=
  forall k a, async_slot h !! k = Some a -> as_used a && (as_id a =? fid) && (as_cmd a =? cmd) = false.

Lemma find_async_none f l :
  (forall k a, l !! k = Some a -> async_match f a = false) -> find_async f l = None.
Proof.
  induction l as [|a l IH]; intros H; [done|]. cbn. rewrite (H 0%nat a eq_refl).
  rewrite IH; [done|]. intros k b Hb. by apply (H (S k)).
Qed.

Lemma find_async_insert f l i a :
  (i < length l)%nat -> async_match f a = true ->
  (forall k b, l !! k = Some b -> async_match f b = false) -> find_async f (<[i := a]> l) = Some i.
Proof.
  revert i. induction l as [|b l IH]; intros [|i] Hi Ha H; cbn in *; try lia.
  - by rewrite Ha.
  - rewrite (H 0%nat b eq_refl). rewrite IH; [done|lia|done|]. intros k c Hc. by apply (H (S k)).
Qed.

(** The bytes of the payload of a frame. *)
Definition content (m : gmap ptr (list Z)) (q : option ptr) : list Z :=
  match q with None => [] | Some p => default [] (m !! p) end.

Lemma landed_content pay q h h' : landed pay q h h' -> content (heap h') q = pay.
Proof.
  intros [_ _ _ _ _ H]. unfold content. destruct q as [p|].
  - destruct H as (_ & _ & ->). by rewrite lookup_insert_eq.
  - by destruct H as [-> _].
Qed.

Lemma arg_bytes_all l h :
  arg_bytes (Some l) (zlen l) h = Ret l h.
Proof.
  unfold arg_bytes. destruct (zlen l =? 0) eqn:E; cbool.
  - destruct l; [done|]. unfold zlen in E. cbn in E. lia.
  - rewrite Z.ltb_irrefl. unfold mret, M_ret. f_equal. apply take_ge. unfold zlen. lia.
Qed.

(** The slot a request of user [u] takes. *)
Definition request_booked (h : hl) (cmd : Z) (u i : nat) : hl :=
  book i (mkAsync true (next_frame_id h) cmd (hl_tick (env h)) u)
    (set_next_frame_id (u16 (next_frame_id h + 1)) h).

Lemma request_async_idle h cmd req u i :
  idle_link h -> zlen req <= HOST_LINK_CFG_MAX_PAYLOAD -> find_free_async (async_slot h) = Some i ->
  host_link_request_async (mret tt) cmd (Some req) (zlen req) (Some u) h =
    Ret HOST_LINK_OK (set_log (log h ++ [EvSend (wire_bytes
      (make_header (next_frame_id h) HOST_LINK_TYPE_REQUEST cmd (zlen req)) req)]) (request_booked h cmd u i)).
Proof.
  intros [] HL Hi. unfold host_link_request_async. unfold null_arg. rewrite andb_false_r.
  rewrite (proj2 (Z.ltb_ge _ _)) by done. erewrite bind_ret_eq by reflexivity. rewrite Hi.
  erewrite bind_ret_eq by reflexivity. erewrite bind_ret_eq by reflexivity.
  erewrite bind_ret_eq by reflexivity. rewrite (bind_ret_eq _ _ _ _ _ (arg_bytes_all req _)).
  erewrite bind_ret_eq by (by apply send_wire_idle). done.
Qed.

Lemma response_idle h f data :
  idle_link h -> zlen data <= HOST_LINK_CFG_MAX_PAYLOAD ->
  host_link_response (Some f) (Some data) (zlen data) h =
    Ret HOST_LINK_OK (set_log (log h ++ [EvSend (wire_bytes
      (make_header (hl_frame_id (fr_header f)) HOST_LINK_TYPE_RESPONSE (hl_cmd (fr_header f)) (zlen data))
      data)]) h).
Proof.
  intros [] HL. unfold host_link_response, null_arg. rewrite andb_false_r.
  rewrite (proj2 (Z.ltb_ge _ _)) by done. rewrite (bind_ret_eq _ _ _ _ _ (arg_bytes_all data _)).
  by apply send_wire_idle.
Qed.

Lemma landed_idle pay q h h' : landed pay q h h' -> idle_link h -> idle_link h'.
Proof. intros [] []. constructor; congruence. Qed.

Lemma booked_idle h cmd u i l : idle_link h -> idle_link (set_log l (request_booked h cmd u i)).
Proof. intros []. constructor; try done. apply u16_range. Qed.

(** *** Expiry of asynchronous requests *)
Definition due (now : Z) (a : async_slot_t) : Prop :=
  as_used a = true -> HOST_LINK_CFG_ACK_TIMEOUT_MS <= host_link_port_tick_diff_ms (as_started_ms a) now.

Lemma notify_idle cb ks h :
  ready h = true -> preempts (env h) = [] -> Forall (fun f => fr_is_valid f = false) (notify_slot h) ->
  (forall i, In i ks -> (i < length (notify_slot h))%nat) ->
  for_slots (notify_one cb) ks h = Ret false h.
Proof.
  intros Hr Hp Hn. induction ks as [|i ks IH]; intros Hk; [done|]. cbn [for_slots].
  destruct (lookup_lt_is_Some_2 (notify_slot h) i (Hk i ltac:(by left))) as [f Hf].
  assert (E : notify_one cb i h = Ret false h).
  { unfold notify_one. erewrite bind_ret_eq by reflexivity. rewrite Hr. cbn [negb].
    assert (Ep : preempt h = Ret tt h).
    { unfold preempt. erewrite bind_ret_eq by reflexivity. by rewrite Hp. }
    rewrite (bind_ret_eq _ _ _ _ _ Ep). erewrite bind_ret_eq by reflexivity. rewrite Hf.
    by rewrite (Forall_lookup_1 _ _ _ _ Hn Hf). }
  rewrite (bind_ret_eq _ _ _ _ _ E). apply IH. intros j Hj. apply Hk. by right.
Qed.

Lemma expire_ack_frame now i A h :
  (i < HOST_LINK_CFG_ACK_SLOTS)%nat -> inv A h ->
  returns (expire_ack now i) (fun _ h' => safely A h h' /\ async_slot h' = async_slot h) h.
Proof.
  intros Hi HI. apply returns_and; [by apply expire_ack_ok|].
  pose proof (expire_ack_ok now i A h Hi HI) as HS. revert HS.
  unfold expire_ack, returns, free_frame_payload, host_link_port_free.
  unfold mbind, M_bind, get, mret, M_ret, gets, modify, undef.
  destruct (ack_slot h !! i) as [f|], (ack_tick h !! i) as [t|]; try done.
  destruct (_ && _); [|done]. destruct (fr_payload f) as [p|]; [|done].
  by destruct (heap h !! p).
Qed.

Lemma expire_acks ks now : forall A h, inv A h ->
  (forall i, In i ks -> (i < HOST_LINK_CFG_ACK_SLOTS)%nat) ->
  returns (for_slots (expire_ack now) ks) (fun _ h' => safely A h h' /\ async_slot h' = async_slot h) h.
Proof.
  induction ks as [|i ks IH]; intros A h HI Hk; cbn [for_slots].
  - rstep. split; [by apply safely_refl|done].
  - rcall (expire_ack_frame now i A h (Hk i ltac:(by left)) HI). intros b h1 [(A1 & HE & HI1) Ea].
    destruct b; [rstep; split; [by exists A1|done]|].
    eapply returns_mono; [apply (IH A1 h1 HI1); intros j Hj; apply Hk; by right|]. cbn beta.
    intros _ h2 [HS Ea2]. split; [by eapply safely_trans|congruence].
Qed.

(** A pass over the asynchronous slots releases every one that is due. *)
Lemma expire_asyncs ks now : forall A h, inv A h ->
  (forall i, In i ks -> (i < HOST_LINK_CFG_ASYNC_MAX)%nat) -> Forall (due now) (async_slot h) ->
  returns (for_slots (expire_async now) ks)
    (fun _ h' => safely A h h' /\ length (async_slot h') = length (async_slot h) /\
       forall i a, async_slot h' !! i = Some a -> as_used a = true ->
         async_slot h !! i = Some a /\ ~ In i ks) h.
Proof.
  induction ks as [|i ks IH]; intros A h HI Hk Hd; cbn [for_slots].
  - rstep. split; [by apply safely_refl|]. split; [done|]. auto.
  - pose proof (Hk i ltac:(by left)) as Hi. rewrite <- (a_async _ (i_aux _ _ HI)) in Hi.
    destruct (lookup_lt_is_Some_2 _ _ Hi) as [a Ha].
    pose proof (Forall_lookup_1 _ _ _ _ Hd Ha) as Hda.
    set (h1 := if as_used a then set_log (log h ++ [EvDone (as_user a) HOST_LINK_ERR_TIMEOUT None 0])
                                   (release_async i h) else h).
    assert (E : expire_async now i h = Ret false h1).
    { unfold expire_async, h1. erewrite bind_ret_eq by reflexivity. rewrite Ha.
      destruct (as_used a) eqn:Eu; [|done]. cbn [andb]. rewrite (proj2 (Z.leb_le _ _)) by (by apply Hda).
      done. }
    pose proof (expire_async_ok now i A h (Hk i ltac:(by left)) HI) as HS. unfold returns in HS.
    rewrite E in HS. destruct HS as (A1 & HE1 & HI1).
    assert (Hsl : forall j b, async_slot h1 !! j = Some b -> as_used b = true ->
                    async_slot h !! j = Some b /\ j <> i).
    { unfold h1. intros j b Hb Hu. destruct (as_used a) eqn:Eu.
      - cbn in Hb. destruct (decide (j = i)) as [->|Hne].
        + rewrite list_lookup_alter_eq, Ha in Hb. injection Hb as <-. done.
        + by rewrite list_lookup_alter_ne in Hb by done.
      - split; [done|]. intros ->. congruence. }
    assert (Hl1 : length (async_slot h1) = length (async_slot h)).
    { unfold h1. destruct (as_used a); [|done]. cbn. by rewrite length_alter. }
    eapply returns_eq; [exact (bind_ret_eq _ _ _ _ _ E)|].
    eapply returns_mono; [apply (IH A1 h1 HI1)|].
    + intros j Hj. apply Hk. by right.
    + apply Forall_lookup. intros j b Hb Hu. destruct (Hsl j b Hb Hu) as [Hb' _].
      by apply (Forall_lookup_1 _ _ _ _ Hd Hb').
    + cbn beta. intros _ h2 (HS2 & Hl2 & H2). split; [by eapply safely_trans|]. split; [congruence|].
      intros j b Hb Hu. destruct (H2 j b Hb Hu) as [Hb1 Hn]. destruct (Hsl j b Hb1 Hu) as [Hb0 Hne].
      split; [done|]. by intros [->|?].
Qed.

Lemma pending_none l : (forall i a, l !! i = Some a -> as_used a = false) -> forall u, pending u l = 0%nat.
Proof.
  induction l as [|a l IH]; intros H u; [done|]. unfold pending in *. cbn [List.filter].
  unfold open_for at 1. rewrite (H 0%nat a eq_refl). cbn [andb]. apply IH. intros i b. apply (H (S i)).
Qed.

(** ** Properties *)

(** C3 [async_rpc_roundtrip]: between two handlers that work (memory, transport,
    an idle parser), an asynchronous request and its response make the round
    trip: the bytes the requester hands to its transport put a request frame with
    the same command and payload in a notify slot of the peer; the bytes of the
    peer's response complete the request at the requester, with the response
    payload in a block the application now owns, and the request slot is free
    again.  Nothing else uses the requester's link during its send. *)
Theorem async_rpc_roundtrip a b cmd req data u i j :
  idle_link a -> idle_link b -> 0 <= cmd < 65536 ->
  bytes_ok req -> zlen req <= HOST_LINK_CFG_MAX_PAYLOAD ->
  bytes_ok data -> zlen data <= HOST_LINK_CFG_MAX_PAYLOAD ->
  find_free_async (async_slot a) = Some i -> id_free (next_frame_id a) cmd a ->
  find_empty (notify_slot b) = Some j ->
  exists a1 w1 b1 f b2 w2 a2 q,
    host_link_request_async (mret tt) cmd (Some req) (zlen req) (Some u) a = Ret HOST_LINK_OK a1 /\
    log a1 = log a ++ [EvSend w1] /\
    host_link_feed w1 b = Ret tt b1 /\
    notify_slot b1 !! j = Some f /\ fr_is_valid f = true /\
    hl_type (fr_header f) = HOST_LINK_TYPE_REQUEST /\ hl_cmd (fr_header f) = cmd /\
    content (heap b1) (fr_payload f) = req /\
    host_link_response (Some f) (Some data) (zlen data) b1 = Ret HOST_LINK_OK b2 /\
    log b2 = log b ++ [EvSend w2] /\
    host_link_feed w2 a1 = Ret tt a2 /\
    log a2 = log a ++ [EvSend w1; EvDone u HOST_LINK_OK q (zlen data)] /\
    content (heap a2) q = data /\
    forall v, pending v (async_slot a2) = pending v (async_slot a).
Proof.
  intros Ia Ib Hcmd Hreq Hrl Hdata Hdl Hi Hid Hj.
  set (x1 := make_header (next_frame_id a) HOST_LINK_TYPE_REQUEST cmd (zlen req)).
  assert (S1 : sendable x1 req) by (apply make_header_sendable; auto; [apply Ia|done]).
  pose proof (request_async_idle a cmd req u i Ia Hrl Hi) as E1. set (a1 := set_log _ _) in E1.
  destruct (returns_elim _ _ _ (wire_to_notify x1 req b j S1 (il_ready _ Ib) (il_state _ Ib) (il_raw _ Ib)
    (il_malloc _ Ib) eq_refl Hj)) as ([] & b1 & E2 & q1 & L1 & Lg1 & _ & _ & N1).
  set (f := mkFrame (sealed x1) q1 (host_link_crc16 req) true) in N1.
  pose proof (response_idle b1 f data (landed_idle _ _ _ _ L1 Ib) Hdl) as E3. set (b2 := set_log _ _) in E3.
  set (x2 := make_header _ HOST_LINK_TYPE_RESPONSE _ _) in *.
  assert (S2 : sendable x2 data) by (apply make_header_sendable; auto; [apply Ia|done]).
  pose proof (booked_idle a cmd u i (log a1) Ia) as Ia1.
  set (sl := mkAsync true (next_frame_id a) cmd (hl_tick (env a)) u).
  destruct (find_free_async_spec _ _ Hi) as (g & Hg & Hgu). pose proof (lookup_lt_Some _ _ _ Hg) as Hlt.
  assert (Hsl : async_slot a1 !! i = Some sl) by (by apply list_lookup_insert_eq).
  destruct (returns_elim _ _ _ (wire_to_async x2 data a1 i sl S2 (il_ready _ Ia1) (il_state _ Ia1) (il_raw _ Ia1)
    (il_malloc _ Ia1) eq_refl Hsl
    ltac:(intros q; apply find_async_insert; [done|unfold async_match; cbn; by rewrite !Z.eqb_refl|exact Hid])))
    as ([] & a2 & E4 & q2 & L2 & _ & _ & As2 & Lg2).
  exists a1, (wire_bytes x1 req), b1, f, b2, (wire_bytes x2 data), a2, q2.
  split; [done|]. split; [done|]. split; [done|].
  split. { rewrite N1. apply list_lookup_insert_eq. destruct (find_empty_spec _ _ Hj) as (? & ? & _). by eapply lookup_lt_Some. }
  split; [done|]. split; [done|]. split; [done|]. split; [by eapply landed_content|].
  split; [done|]. split; [cbn; by rewrite Lg1|]. split; [done|].
  split; [rewrite Lg2; cbn; by rewrite <- app_assoc|]. split; [by eapply landed_content|].
  intros v. pose proof (release_async_pending i sl a1 Hsl eq_refl v) as P1. rewrite As2.
  pose proof (book_pending a i g sl u Hg Hgu eq_refl eq_refl v) as P2.
  change (async_slot (book i sl a)) with (async_slot a1) in P2. rewrite P2 in P1. cbn [as_user sl] in P1. lia.
Qed.

(** C6 [link_memory_safe]: in every state that API calls can reach, whatever
    bytes arrive and whichever allocations and transmissions fail, the heap holds
    exactly the parser's buffer, the payloads of the slots and the blocks the
    application was given and has not freed (so nothing leaks, nothing is owned
    twice); and the next call returns (no access outside a block, no double free,
    no endless wait). *)
Theorem link_memory_safe cb `{NotifyCb cb} os A h :
  reach cb os A h ->
  blocks (heap h) ≡ₚ option_list (pend_payload h) ++ payloads (notify_slot h) ++
                     payloads (ack_slot h) ++ A /\
  forall c, admissible A c -> exists r h', exec cb c h = Ret r h'.
Proof.
  intros [HI _]%reach_inv; [|done]. split; [apply HI|]. intros c Hc.
  destruct (returns_elim _ _ _ (exec_ok cb c A h HI Hc)) as (r & h' & E & _). eauto.
Qed.

(** C34 [slots_hold_checked_frames]: in every reachable state a valid frame of a
    slot passed every check (header CRC, magic, version, length limit, payload
    CRC), owns a block with exactly its payload, and is in the table of its
    type: requests and events in the notify slots, responses and event
    acknowledgements in the others. *)
Theorem slots_hold_checked_frames cb `{NotifyCb cb} os A h f :
  reach cb os A h -> fr_is_valid f = true ->
  (f ∈ notify_slot h -> notify_type (hl_type (fr_header f)) = true /\ frame_good (heap h) f) /\
  (f ∈ ack_slot h -> ack_type (hl_type (fr_header f)) = true /\ frame_good (heap h) f).
Proof.
  intros [HI _]%reach_inv Hv; [|done]. destruct (i_core _ _ HI) as [_ _ Hn Hk _].
  rewrite Forall_forall in Hn, Hk. unfold slot_ok in *.
  split; intros Hf; [specialize (Hn f Hf)|specialize (Hk f Hf)]; by rewrite Hv in *.
Qed.

(** C37 [async_exactly_once]: along every run of calls on an open handler, with
    the receiving and the polling task at work during the unlocked send of a
    request too, and provided no request's send failed while one of them was at
    work, the asynchronous requests a caller opened are exactly those still
    pending plus those whose completion callback ran: no completion is lost, none
    is delivered twice.  Closing the handler then drops the pending ones: it
    calls no callback and leaves none pending. *)
Theorem async_exactly_once cb `{NotifyCb cb} os A h u :
  reach cb os A h ->
  (uncrossed os -> (pending u (async_slot h) + dones u (log h))%nat = opened u os) /\
  exists ops h', host_link_deinit h = Ret ops h' /\ log h' = log h /\ pending u (async_slot h') = 0%nat.
Proof.
  intros [HI H1]%reach_inv; [|done]. split; [auto|].
  destruct (returns_elim _ _ _ (deinit_ok A h HI)) as (ops & h' & E & _ & _ & L & Hn & _).
  exists ops, h'. split_and!; [done..|]. apply pending_none. intros i a Hi. apply Hn.
  by eapply list_elem_of_lookup_2.
Qed.

(** A wait for an acknowledgement always ends, within
    the rounds the environment provides and the time-out; it returns a frame only
    when type, command and frame identifier are the ones waited for and the frame
    passed every check, and that frame has left the slots; otherwise it reports a
    time-out or a closed handler and returns no frame. *)
Theorem wait_ends_with_match cb `{NotifyCb cb} os A h typ cmd fid timeout_ms fuel :
  reach cb os A h -> 0 <= timeout_ms -> timeout_ms + 20 <= 4294967296 ->
  (rounds h + wait_fuel timeout_ms <= fuel)%nat ->
  exists r f h', wait_for_ack_timeout fuel typ cmd fid timeout_ms h = Ret (r, f) h' /\
    ((r = HOST_LINK_OK /\ answers typ cmd fid (heap h') f /\
      forall p, fr_payload f = Some p -> p ∉ payloads (notify_slot h') ++ payloads (ack_slot h')) \/
     ((r = HOST_LINK_ERR_TIMEOUT \/ r = HOST_LINK_ERR_INVALID_STATE) /\ f = frame_zero)).
Proof.
  intros [HI _]%reach_inv H0 Hm Hf; [|done].
  destruct (returns_elim _ _ _ (wait_for_ack_timeout_ok fuel A h typ cmd fid timeout_ms HI H0 Hm Hf))
    as ([r f] & h' & E & _ & _ & A' & _ & HI' & [[Hr HA]|[Hr Hz]]); cbn in Hr; exists r, f, h'.
  - split; [done|]. left. split; [done|]. split; [done|]. cbn in HI'. intros p Hp Hin.
    rewrite Hp in HI'. by eapply (core_apart A' _ _ _ _ p p (i_core _ _ HI')).
  - split; [done|]. by right.
Qed.

(** Closing a handler in any reachable state
    returns every block it held, so that the heap keeps only the application's
    own blocks, and destroys each object that opening created, exactly once. *)
Theorem deinit_frees_everything cb `{NotifyCb cb} os A h :
  reach cb os A h ->
  exists ops h', host_link_deinit h = Ret ops h' /\ blocks (heap h') ≡ₚ A /\ ready h' = false /\
    forall ie e h0 created, host_link_init false false ie e = (Some h0, created) ->
      map OsDestroy [ObjHandler; ObjLock; ObjAckSem; ObjNotifySem] ≡ₚ ops /\
      created = map OsCreate [ObjHandler; ObjLock; ObjAckSem; ObjNotifySem].
Proof.
  intros [HI _]%reach_inv; [|done].
  destruct (returns_elim _ _ _ (deinit_ok A h HI)) as (ops & h' & E & HB & HR & _ & _ & ->).
  eexists _, h'. split; [exact E|]. split; [done|]. split; [done|].
  intros [[] [] [] []] e h0 created; cbn; intros [= <- <-]. split; [|done]. cbn. solve_Permutation.
Qed.

(** How often an object was created less how often it was destroyed. *)
Definition live (o : os_obj) (ops : list os_op) : Z :=
  Z.of_nat (length (List.filter (fun x => match x with OsCreate o' => bool_decide (o' = o) | _ => false end) ops)) -
  Z.of_nat (length (List.filter (fun x => match x with OsDestroy o' => bool_decide (o' = o) | _ => false end) ops)).

(** Opening a handler either succeeds with every object
    it needs alive and an idle, empty handler, or fails with every object that was
    created on the way destroyed again. *)
Theorem init_all_or_nothing send_null notify_null ie e o :
  match host_link_init send_null notify_null ie e with
  | (Some h, ops) => live o ops = 1 /\ h = fresh_handler e /\ send_null = false /\ notify_null = false
  | (None, ops) => live o ops = 0
  end.
Proof. destruct send_null, notify_null, ie as [[] [] [] []], o; cbn; auto. Qed.

(** When every pending asynchronous request is at
    least the time-out old, one call of [host_link_poll] completes them all: no
    request is pending afterwards, and each caller got exactly as many
    completions as it had requests pending. *)
Theorem poll_times_out_requests cb `{NotifyCb cb} os A h :
  reach cb os A h -> ready h = true -> preempts (env h) = [] ->
  Forall (fun f => fr_is_valid f = false) (notify_slot h) ->
  Forall (due (hl_tick (env h))) (async_slot h) ->
  exists h' evs, host_link_poll cb h = Ret tt h' /\ log h' = log h ++ evs /\
    forall u, pending u (async_slot h') = 0%nat /\ dones u evs = pending u (async_slot h).
Proof.
  intros [HI _]%reach_inv Hr Hp Hn Hd; [|done].
  enough (HR : returns (host_link_poll cb) (fun _ h' => exists A', evolves A h A' h' /\
                 forall u, pending u (async_slot h') = 0%nat) h).
  { apply returns_elim in HR as ([] & h' & E & A' & (evs & L & _ & _ & C) & P). exists h', evs.
    split; [done|]. split; [done|]. intros u. split; [done|]. rewrite <- C, P. done. }
  unfold host_link_poll. eapply returns_eq.
  { apply bind_ret_eq, notify_idle; [done..|]. intros i Hi%in_seq.
    rewrite (c_ns _ _ _ _ _ (i_core _ _ HI)). lia. }
  cbn beta iota. unfold host_link_port_tick_ms. rstep. eapply returns_eq.
  { apply bind_ret_eq. unfold preempt. erewrite bind_ret_eq by reflexivity. by rewrite Hp. }
  apply returns_bind. eapply returns_mono; [apply (expire_acks _ _ A h HI); intros i Hi%in_seq; lia|].
  cbn beta. intros _ h1 [(A1 & HE1 & HI1) Ea]. apply returns_bind.
  eapply returns_mono; [apply (expire_asyncs _ (hl_tick (env h)) A1 h1 HI1)|].
  { intros i Hi%in_seq. lia. }
  { by rewrite Ea. }
  cbn beta. intros _ h2 ((A2 & HE2 & HI2) & Hl2 & H2). rstep.
  assert (Hz : forall u, pending u (async_slot h2) = 0%nat).
  { apply pending_none. intros i a Hia. destruct (as_used a) eqn:Eu; [|done].
    destruct (H2 i a Hia Eu) as [_ Hni]. destruct Hni. apply in_seq.
    apply lookup_lt_Some in Hia. rewrite (a_async _ (i_aux _ _ HI2)) in Hia. lia. }
  eapply returns_mono with (Q := fun _ => safely A2 h2).
  - destruct (ready h2); [by apply sem_wait_ok|by apply rx_task_ok; [|constructor]].
  - cbn beta. intros _ h3 (A3 & HE3 & HI3). exists A3. split.
    + eapply evolves_trans; [exact HE1|]. by eapply evolves_trans.
    + destruct HE3 as (evs & _ & _ & _ & C). intros u. specialize (C u). rewrite Hz in C. lia.
Qed.

Lemma find_ack_insert typ cmd fid l i f :
  (i < length l)%nat -> find_ack typ cmd fid l = None -> ack_match typ cmd fid f = true ->
  find_ack typ cmd fid (<[i := f]> l) = Some i.
Proof.
  revert i. induction l as [|g l IH]; intros [|i] Hi Hn Hm; cbn in *; try lia.
  - by rewrite Hm.
  - destruct (ack_match typ cmd fid g); [done|]. destruct (find_ack typ cmd fid l) eqn:E; [done|].
    by rewrite IH by (done || lia).
Qed.

(** The state in which the receiving task starts on the reply. *)
Definition reply_env (h : hl) (dt : Z) (ws : list (Z * list Z)) : env_t :=
  mkHlEnv (malloc_fails (env h)) (send_fails (env h)) (hl_tick (env h) +u dt) ws (preempts (env h)).

Lemma sem_wait_pops h ms dt bytes ws :
  waits (env h) = (dt, bytes) :: ws ->
  host_link_port_sem_wait ms h = host_link_feed bytes (set_env (reply_env h dt ws) h).
Proof.
  intros E. unfold host_link_port_sem_wait. erewrite bind_ret_eq by reflexivity. rewrite E.
  erewrite bind_ret_eq by reflexivity. done.
Qed.

(** Waiting for a response that arrives during the first wait. *)
Lemma wait_gets_reply h cmd fid data dt ws fuel i :
  idle_link h -> 0 <= cmd < 65536 -> 0 <= fid < 65536 -> 0 <= hl_tick (env h) < 4294967296 ->
  bytes_ok data -> zlen data <= HOST_LINK_CFG_MAX_PAYLOAD ->
  waits (env h) = (dt, wire_bytes (make_header fid HOST_LINK_TYPE_RESPONSE cmd (zlen data)) data) :: ws ->
  id_free fid cmd h -> find_ack HOST_LINK_TYPE_RESPONSE cmd fid (ack_slot h) = None ->
  find_empty (ack_slot h) = Some i -> (2 <= fuel)%nat ->
  exists f h', wait_for_ack_timeout fuel HOST_LINK_TYPE_RESPONSE cmd fid HOST_LINK_CFG_ACK_TIMEOUT_MS h =
      Ret (HOST_LINK_OK, f) h' /\
    hl_len (fr_header f) = zlen data /\ content (heap h') (fr_payload f) = data /\ log h' = log h /\
    (data <> [] -> exists p, fr_payload f = Some p /\ heap h' !! p = Some data).
Proof.
  intros Ih Hcmd Hfid Htk Hb Hl Hw Hid Hna He Hf. destruct fuel as [|[|fuel]]; try lia.
  set (x := make_header fid HOST_LINK_TYPE_RESPONSE cmd (zlen data)) in *.
  assert (Sx : sendable x data) by (by apply make_header_sendable).
  set (h1 := set_env (reply_env h dt ws) h).
  assert (I1 : idle_link h1) by (destruct Ih; by constructor).
  destruct (returns_elim _ _ _ (wire_to_ack x data h1 i Sx (il_ready _ I1) (il_state _ I1) (il_raw _ I1)
    (il_malloc _ I1) eq_refl eq_refl ltac:(intros q; apply find_async_none; exact Hid) He))
    as ([] & h2 & E2 & q & L & Lg & _ & _ & Ea).
  set (f := mkFrame (sealed x) q (host_link_crc16 data) true) in *.
  destruct (find_empty_spec _ _ He) as (g & Hg & _). pose proof (lookup_lt_Some _ _ _ Hg) as Hlt.
  assert (Hfa : find_ack HOST_LINK_TYPE_RESPONSE cmd fid (ack_slot h2) = Some i).
  { rewrite Ea. apply find_ack_insert; [done..|]. unfold ack_match. cbn. by rewrite !Z.eqb_refl. }
  assert (Hi2 : ack_slot h2 !! i = Some f) by (rewrite Ea; by apply list_lookup_insert_eq).
  exists f. eexists. split.
  { unfold wait_for_ack_timeout. erewrite bind_ret_eq by reflexivity. cbn [wait_loop].
    erewrite bind_ret_eq by reflexivity. rewrite (il_ready _ Ih), Hna. cbn [negb].
    erewrite bind_ret_eq by reflexivity. rewrite tick_diff_mod, Z.sub_diag by done.
    change (HOST_LINK_CFG_ACK_TIMEOUT_MS <=? u32 0) with false. cbv iota.
    erewrite bind_ret_eq by (rewrite (sem_wait_pops _ _ _ _ _ Hw); exact E2).
    erewrite bind_ret_eq by reflexivity. rewrite (ln_ready _ _ _ _ L), (il_ready _ I1), Hfa, Hi2.
    cbn [negb]. reflexivity. }
  split; [done|]. split; [exact (landed_content _ _ _ _ L)|]. split; [exact Lg|].
  intros Hne. pose proof (ln_heap _ _ _ _ L) as Hh. destruct q as [p|]; [|by destruct Hh].
  exists p. split; [done|]. destruct Hh as (_ & _ & Hh). cbn. rewrite Hh. apply lookup_insert_eq.
Qed.

(** A synchronous request on a working link sends
    one request frame with a fresh identifier; when the matching response arrives
    while it waits, it returns success with a block that holds exactly the
    response payload, which the caller then owns. *)
Theorem request_returns_reply h cmd req data dt ws fuel i :
  idle_link h -> 0 <= cmd < 65536 -> 0 <= hl_tick (env h) < 4294967296 ->
  bytes_ok req -> zlen req <= HOST_LINK_CFG_MAX_PAYLOAD ->
  bytes_ok data -> zlen data <= HOST_LINK_CFG_MAX_PAYLOAD -> data <> [] ->
  waits (env h) =
    (dt, wire_bytes (make_header (next_frame_id h) HOST_LINK_TYPE_RESPONSE cmd (zlen data)) data) :: ws ->
  id_free (next_frame_id h) cmd h ->
  find_ack HOST_LINK_TYPE_RESPONSE cmd (next_frame_id h) (ack_slot h) = None ->
  find_empty (ack_slot h) = Some i -> (2 <= fuel)%nat ->
  exists p h', host_link_request fuel cmd (Some req) (zlen req) true h =
      Ret (HOST_LINK_OK, Some (p, zlen data)) h' /\ heap h' !! p = Some data /\
    log h' = log h ++ [EvSend (wire_bytes
      (make_header (next_frame_id h) HOST_LINK_TYPE_REQUEST cmd (zlen req)) req)].
Proof.
  intros Ih Hcmd Htk Hrb Hrl Hb Hl Hne Hw Hid Hna He Hf. pose proof Ih as [].
  set (x := make_header (next_frame_id h) HOST_LINK_TYPE_REQUEST cmd (zlen req)).
  set (h1 := set_log (log h ++ [EvSend (wire_bytes x req)]) (set_next_frame_id (u16 (next_frame_id h + 1)) h)).
  assert (I1 : idle_link h1) by (constructor; try done; apply u16_range).
  destruct (wait_gets_reply h1 cmd (next_frame_id h) data dt ws fuel i I1) as (f & h2 & E & Hlen & _ & Lg & Hp);
    try done.
  destruct (Hp Hne) as (p & Hfp & Hhp). exists p, h2. split; [|split; [done|by rewrite Lg]].
  unfold host_link_request, host_link_request_timeout, null_arg. rewrite andb_false_r.
  rewrite (proj2 (Z.ltb_ge _ _)) by done. rewrite (bind_ret_eq _ _ _ _ _ (arg_bytes_all req _)).
  unfold HOST_LINK_CFG_REQUEST_RETRY. cbn [request_loop]. erewrite bind_ret_eq by reflexivity.
  erewrite bind_ret_eq by (by apply send_wire_idle). cbn [hl_ok negb].
  erewrite bind_ret_eq by (exact E). unfold settle. rewrite Hfp, Hlen. cbn [hl_ok andb].
  rewrite (proj2 (Z.ltb_lt _ _)) by (unfold zlen; destruct data; [done|cbn; lia]). cbn [andb].
  erewrite bind_ret_eq by reflexivity. done.
Qed.
