(* ===== verification/HostLinkWitness.v ===== *)
(** Concrete runs of the host link: the hypotheses of its properties can hold,
    and a response that arrives at the wrong moment is lost. *)
From stdpp Require Import gmap.
From S2P Require Import Prelude Heap HostLink HostLinkInv HostLinkOps HostLinkWire HostLinkRun HostLinkApp HostLinkProps.

Definition calm_env (t : Z) : env_t := mkHlEnv [] [] t [] [].
Definition link0 : hl := fresh_handler (calm_env 1000).
Definition echo_cb : host_link_frame_t -> M hl host_link_frame_t := host_link_app_notify dispatch_echo.

(** A response to request 5, command 1, and the moment it arrives: after the
    polling task has read the tick for its expiry pass. *)
Definition late_reply : list Z := wire_bytes (make_header 5 HOST_LINK_TYPE_RESPONSE 1 2) [10; 20].
Definition link_racing (dt : Z) : hl :=
  fresh_handler (mkHlEnv [] [] 1000 [] (replicate HOST_LINK_CFG_NOTIFY_DEPTH (0, []) ++ [(dt, late_reply)])).

Definition ack_after_poll (dt : Z) : option (option nat) :=
  match host_link_poll echo_cb (link_racing dt) with
  | Ret _ h' => Some (find_ack HOST_LINK_TYPE_RESPONSE 1 5 (ack_slot h'))
  | _ => None
  end.

(** [host_link_poll] reads the tick before it takes
    the lock for its expiry pass; a response that arrives in between one
    millisecond later has a later time stamp, so its age wraps around to almost
    2^32 ms and the pass frees it at once; the same response in the same
    millisecond stays available. *)
Theorem poll_drops_fresh_response :
  ack_after_poll 0 = Some (Some 0%nat) /\ ack_after_poll 1 = Some None.
Proof. split; vm_compute; reflexivity. Qed.

(** The send of a request reports a failure although the frame went out: its
    response arrives, or the polling pass finds it too old, while the lock is
    not held. *)
Definition first_reply : list Z := wire_bytes (make_header 0 HOST_LINK_TYPE_RESPONSE 1 2) [5; 6].
Definition link_deaf : hl := fresh_handler (mkHlEnv [] [true] 1000 [] []).

Definition completions (during : list beside) : option (list host_link_err_t) :=
  match exec echo_cb (ApiAsync 1 (Some [4]) 1 (Some 7%nat) during) link_deaf with
  | Ret _ h' => Some (omap (fun e => match e with EvDone 7 r _ _ => Some r | _ => None end) (log h'))
  | _ => None
  end.

(** [host_link_request_async] completes a request whose send failed without
    looking whether it is still pending: when the response, or the polling
    task's time-out, completed it during the send, its callback runs a second
    time; with nothing at work during the send it runs once. *)
Theorem failed_send_completes_twice :
  completions [] = Some [HOST_LINK_ERR_SEND] /\
  completions [BesideFeed 5 first_reply] = Some [HOST_LINK_OK; HOST_LINK_ERR_SEND] /\
  completions [BesideFeed 500 []; BesidePoll] = Some [HOST_LINK_ERR_TIMEOUT; HOST_LINK_ERR_SEND].
Proof. split_and!; vm_compute; reflexivity. Qed.

(** ** Witnesses *)
Lemma idle0 : idle_link link0.
Proof. constructor; done || (cbn; lia). Qed.

Lemma id_free0 fid cmd : id_free fid cmd link0.
Proof. intros k a Hk. cbn in Hk. repeat (destruct k as [|k]; [by injection Hk as <-|]). done. Qed.

Lemma env_ok0 t : 0 <= t < 4294967296 -> env_ok (calm_env t).
Proof. intros. split; [constructor|split; [constructor|done]]. Qed.

Lemma async_rpc_roundtrip_witness :
  exists a1 w1 b1 f b2 w2 a2 q,
    host_link_request_async (mret tt) 1 (Some [1; 2; 3]) 3 (Some 7%nat) link0 = Ret HOST_LINK_OK a1 /\
    host_link_feed w1 link0 = Ret tt b1 /\
    host_link_response (Some f) (Some [9]) 1 b1 = Ret HOST_LINK_OK b2 /\
    host_link_feed w2 a1 = Ret tt a2 /\
    log a2 = [EvSend w1; EvDone 7 HOST_LINK_OK q 1] /\ content (heap a2) q = [9].
Proof.
  destruct (async_rpc_roundtrip link0 link0 1 [1; 2; 3] [9] 7 0 0 idle0 idle0)
    as (a1 & w1 & b1 & f & b2 & w2 & a2 & q & H1 & H2 & H3 & H4 & H5 & H6 & H7 & H8 & H9 & H10 & H11 & H12 & H13 & H14).
  - lia.
  - apply (bool_decide_eq_true_1 (bytes_ok _)); vm_compute; reflexivity.
  - vm_compute. discriminate.
  - apply (bool_decide_eq_true_1 (bytes_ok _)); vm_compute; reflexivity.
  - vm_compute. discriminate.
  - reflexivity.
  - apply id_free0.
  - reflexivity.
  - exists a1, w1, b1, f, b2, w2, a2, q. repeat split; assumption.
Defined.

Definition reply_wire : list Z := wire_bytes (make_header 0 HOST_LINK_TYPE_RESPONSE 1 2) [5; 6].
Definition link_reply : hl := fresh_handler (mkHlEnv [] [] 1000 [(3, reply_wire)] []).

Lemma request_returns_reply_witness :
  exists p h', host_link_request 2 1 (Some [4]) 1 true link_reply = Ret (HOST_LINK_OK, Some (p, 2)) h' /\
    heap h' !! p = Some [5; 6].
Proof.
  destruct (request_returns_reply link_reply 1 [4] [5; 6] 3 [] 2 0) as (p & h' & H1 & H2 & _).
  - constructor; done || (cbn; lia).
  - lia.
  - cbn. lia.
  - apply (bool_decide_eq_true_1 (bytes_ok _)); vm_compute; reflexivity.
  - vm_compute. discriminate.
  - apply (bool_decide_eq_true_1 (bytes_ok _)); vm_compute; reflexivity.
  - vm_compute. discriminate.
  - discriminate.
  - reflexivity.
  - intros k a Hk. cbn in Hk. repeat (destruct k as [|k]; [by injection Hk as <-|]). done.
  - reflexivity.
  - reflexivity.
  - lia.
  - exists p, h'. split; assumption.
Defined.

(** A reachable state with a pending request: user 7 asks for command 1. *)
Definition get_state {S A} (d : S) (o : outcome S A) : S := match o with Ret _ s => s | _ => d end.
Definition link1 : hl := get_state link0 (exec echo_cb (ApiAsync 1 (Some [4]) 1 (Some 7%nat) []) link0).

Lemma reach1 : reach echo_cb [(7%nat, false)] [] link1.
Proof.
  refine (reach_call echo_cb [] [] link0 (ApiAsync 1 (Some [4]) 1 (Some 7%nat) []) (None, [(7%nat, false)]) link1 [] _ _ _ _).
  - apply reach_init. apply env_ok0. lia.
  - split; [|constructor]. split; [lia|]. intros l [= <-]. vm_compute. discriminate.
  - vm_compute. reflexivity.
  - vm_compute. reflexivity.
Qed.

Lemma link_memory_safe_witness :
  exists r h', exec echo_cb (ApiFeed late_reply) link1 = Ret r h'.
Proof.
  apply (proj2 (link_memory_safe echo_cb [(7%nat, false)] [] link1 reach1)).
  apply (bool_decide_eq_true_1 (bytes_ok _)); vm_compute; reflexivity.
Defined.

Lemma async_exactly_once_witness : (pending 7 (async_slot link1) + dones 7 (log link1))%nat = 1%nat.
Proof.
  refine (proj1 (async_exactly_once echo_cb [(7%nat, false)] [] link1 7 reach1) _).
  repeat constructor.
Defined.

Lemma wait_ends_with_match_witness :
  exists r f h', wait_for_ack_timeout 27 HOST_LINK_TYPE_RESPONSE 1 0 500 link1 = Ret (r, f) h'.
Proof.
  destruct (wait_ends_with_match echo_cb [(7%nat, false)] [] link1 HOST_LINK_TYPE_RESPONSE 1 0 500 27 reach1)
    as (r & f & h' & E & _); [lia|lia|vm_compute; lia|]. eauto.
Defined.

Lemma deinit_frees_everything_witness :
  exists ops h', host_link_deinit link1 = Ret ops h' /\ blocks (heap h') ≡ₚ [].
Proof.
  destruct (deinit_frees_everything echo_cb [(7%nat, false)] [] link1 reach1) as (ops & h' & E & B & _). eauto.
Defined.

(** The same link with a request from the host in a notify slot. *)
Definition hello : list Z := wire_bytes (make_header 3 HOST_LINK_TYPE_REQUEST 1 1) [8].
Definition link2 : hl := get_state link0 (exec echo_cb (ApiFeed hello) link1).

Lemma reach2 : reach echo_cb [(7%nat, false)] [] link2.
Proof.
  refine (reach_call echo_cb [(7%nat, false)] [] link1 (ApiFeed hello) (None, []) link2 [] reach1 _ _ _).
  - apply (bool_decide_eq_true_1 (bytes_ok _)); vm_compute; reflexivity.
  - vm_compute. reflexivity.
  - vm_compute. reflexivity.
Qed.

Lemma slots_hold_checked_frames_witness :
  exists f, f ∈ notify_slot link2 /\ frame_good (heap link2) f.
Proof.
  set (f := default frame_zero (head (notify_slot link2))).
  assert (Hf : f ∈ notify_slot link2) by (vm_compute; left).
  exists f. split; [exact Hf|].
  refine (proj2 (proj1 (slots_hold_checked_frames echo_cb [(7%nat, false)] [] link2 f reach2 _) Hf)).
  vm_compute. reflexivity.
Defined.

(** Half a second later. *)
Definition link3 : hl := get_state link0 (exec echo_cb (ApiWorld (calm_env 1500)) link1).

Lemma reach3 : reach echo_cb [(7%nat, false)] [] link3.
Proof.
  refine (reach_call echo_cb [(7%nat, false)] [] link1 (ApiWorld (calm_env 1500)) (None, []) link3 [] reach1 _ _ _).
  - apply env_ok0. lia.
  - vm_compute. reflexivity.
  - vm_compute. reflexivity.
Qed.

Lemma poll_times_out_requests_witness :
  exists h' evs, host_link_poll echo_cb link3 = Ret tt h' /\ dones 7 evs = 1%nat.
Proof.
  destruct (poll_times_out_requests echo_cb [(7%nat, false)] [] link3 reach3) as (h' & evs & E & _ & H).
  - vm_compute. reflexivity.
  - vm_compute. reflexivity.
  - apply Forall_forall. intros f Hf. apply list_elem_of_lookup in Hf as [k Hk]. vm_compute in Hk.
    repeat (destruct k as [|k]; [by injection Hk as <-|]). done.
  - apply Forall_forall. intros a Ha. apply list_elem_of_lookup in Ha as [k Hk]. vm_compute in Hk.
    destruct k as [|k]; [injection Hk as <-; vm_compute; discriminate|].
    repeat (destruct k as [|k]; [by injection Hk as <-|]). done.
  - exists h', evs. split; [exact E|]. rewrite (proj2 (H 7%nat)). vm_compute. reflexivity.
Defined.
