(* ===== verification/FactoryFormat.v ===== *)
(** The factory identity block ([hal_v2/common/devices/hal_factory_format.c]):
    two 128-byte slots with magic, version, CRC and sequence number; the valid
    slot with the highest sequence number is the active one, and writes go to
    the other.

    Storage is a parameter: [FactoryIo] is the [HalFactoryIo] interface, with
    what its documentation promises in [FactoryIoLaws].  A C string is the list
    of its bytes before the terminator; [None] is a null pointer. *)
From S2P Require Import Prelude.

(** ** Constants *)
Definition HAL_OK : Z := 0.
Definition HAL_ERROR : Z := -2815.                       (* -0x0AFF *)
Definition HAL_ERR_INVALID_ARG : Z := HAL_ERROR + 1.
Definition HAL_ERR_INVALID_SIZE : Z := HAL_ERROR + 4.
Definition HAL_ERR_NOT_READY : Z := HAL_ERROR + 11.
Definition HAL_ERR_CHECK : Z := HAL_ERROR + 13.
Definition HAL_ERR_NOT_FOUND : Z := HAL_ERROR + 15.

Definition HAL_FACTORY_EEPROM_SIZE : nat := 256.
Definition HAL_FACTORY_SLOT_SIZE : nat := 128.
Definition HAL_FACTORY_SLOT_A_BASE : nat := 0.
Definition HAL_FACTORY_SLOT_B_BASE : nat := 128.

Definition K_OFF_MAGIC : nat := 0.
Definition K_OFF_VERSION : nat := 4.
Definition K_OFF_FLAGS : nat := 5.
Definition K_OFF_CRC : nat := 6.
Definition K_OFF_SEQ : nat := 8.
Definition K_OFF_RESERVED : nat := 12.
Definition K_OFF_MAC : nat := 16.
Definition K_OFF_SN : nat := 24.
Definition K_OFF_PN : nat := 56.
Definition K_OFF_BATCH : nat := 72.
Definition K_OFF_HWREV : nat := 80.
Definition K_PAYLOAD_LEN : nat := 112.

Definition K_FLAG_PROGRAMMED : Z := 1.
Definition K_FLAG_MAC_VALID : Z := 2.

(** "CTFB" *)
Definition k_magic : list Z := [67; 84; 70; 66].

(** ** Data *)
Inductive HalFactoryField : Type :=
| HAL_FACTORY_FIELD_SN
| HAL_FACTORY_FIELD_MAC
| HAL_FACTORY_FIELD_PN
| HAL_FACTORY_FIELD_BATCH
| HAL_FACTORY_FIELD_HWREV
| HAL_FACTORY_FIELD_OTHER (v : Z).   (* any other integer *)

#[export] Instance HalFactoryField_eq_dec : EqDecision HalFactoryField.
Proof. solve_decision. Defined.

Record field_meta_t : Type := mkFieldMeta { fm_off : nat; fm_len : nat; fm_mac : bool }.

Definition field_meta (f : HalFactoryField) : option field_meta_t :=
  match f with
  | HAL_FACTORY_FIELD_MAC => Some (mkFieldMeta K_OFF_MAC 6 true)
  | HAL_FACTORY_FIELD_SN => Some (mkFieldMeta K_OFF_SN 32 false)
  | HAL_FACTORY_FIELD_PN => Some (mkFieldMeta K_OFF_PN 16 false)
  | HAL_FACTORY_FIELD_BATCH => Some (mkFieldMeta K_OFF_BATCH 8 false)
  | HAL_FACTORY_FIELD_HWREV => Some (mkFieldMeta K_OFF_HWREV 8 false)
  | HAL_FACTORY_FIELD_OTHER _ => None
  end.

(** ** Little-endian primitives *)
Definition rd16 (l : list Z) (off : nat) : Z :=
  Z.lor (nth off l 0) (u16 (Z.shiftl (nth (off + 1) l 0) 8)).

Definition rd32 (l : list Z) (off : nat) : Z :=
  Z.lor (Z.lor (Z.lor (nth off l 0) (Z.shiftl (nth (off + 1) l 0) 8))
               (Z.shiftl (nth (off + 2) l 0) 16))
        (Z.shiftl (nth (off + 3) l 0) 24).

Definition wr16 (off : nat) (v : Z) (l : list Z) : list Z :=
  memcpy_at off [Z.land v 255; Z.land (Z.shiftr v 8) 255] l.

Definition wr32 (off : nat) (v : Z) (l : list Z) : list Z :=
  memcpy_at off [Z.land v 255; Z.land (Z.shiftr v 8) 255; Z.land (Z.shiftr v 16) 255;
                 Z.land (Z.shiftr v 24) 255] l.

Definition crc16_bit (crc : Z) : Z :=
  if Z.testbit crc 15 then u16 (Z.lxor (Z.shiftl crc 1) 4129) else u16 (Z.shiftl crc 1).
Definition crc16_byte (crc b : Z) : Z := Nat.iter 8 crc16_bit (Z.lxor crc (u16 (Z.shiftl b 8))).
Definition crc16_ccitt_false (l : list Z) : Z := foldl crc16_byte 65535 l.
#[global] Arguments crc16_ccitt_false : simpl never.

(** ** Slots *)
Definition slot_valid (s : list Z) : bool :=
  bool_decide (take 4 s = k_magic) && (nth K_OFF_VERSION s 0 =? 1) &&
  (rd16 s K_OFF_CRC =? crc16_ccitt_false (sub K_OFF_MAC K_PAYLOAD_LEN s)).

Definition slot_seq (s : list Z) : Z := rd32 s K_OFF_SEQ.

Inductive letter : Type := LetterA | LetterB.

#[export] Instance letter_eq_dec : EqDecision letter.
Proof. solve_decision. Defined.

Definition base_of (x : letter) : nat :=
  match x with LetterA => HAL_FACTORY_SLOT_A_BASE | LetterB => HAL_FACTORY_SLOT_B_BASE end.

Record active_slot_t : Type := mkActive {
  as_data : list Z;
  as_letter : letter;
  as_seq : Z
}.

(** The choice between the two slots, from what the two reads gave. *)
Definition pick_slot (rca : Z) (a : list Z) (rcb : Z) (b : list Z) : Z * option active_slot_t :=
  if negb (rca =? 0) && negb (rcb =? 0) then (HAL_ERR_NOT_READY, None)
  else
    let va := (rca =? 0) && slot_valid a in
    let vb := (rcb =? 0) && slot_valid b in
    if va && vb then
      if slot_seq b <=? slot_seq a then (0, Some (mkActive a LetterA (slot_seq a)))
      else (0, Some (mkActive b LetterB (slot_seq b)))
    else if va then (0, Some (mkActive a LetterA (slot_seq a)))
    else if vb then (0, Some (mkActive b LetterB (slot_seq b)))
    else (HAL_ERR_NOT_FOUND, None).

(** ** Field encodings *)

(** "%02x" *)
Definition hex_digit (d : Z) : Z := if d <? 10 then 48 + d else 87 + d.
Definition hex2 (b : Z) : list Z := [hex_digit (b / 16); hex_digit (b mod 16)].

Definition decode_mac (raw : list Z) : list Z :=
  match raw with
  | [a; b; c; d; e; f] =>
      hex2 a ++ 58 :: hex2 b ++ 58 :: hex2 c ++ 58 :: hex2 d ++ 58 :: hex2 e ++ 58 :: hex2 f
  | _ => []
  end.

(** The length left when padding bytes (0xFF and 0x00) are dropped at the end. *)
Fixpoint trim (raw : list Z) (n : nat) : nat :=
  match n with
  | O => O
  | S n' => if (nth n' raw 0 =? 255) || (nth n' raw 0 =? 0) then trim raw n' else n
  end.

Definition decode_ascii (raw : list Z) (out_size : nat) : list Z :=
  take (Nat.min (trim raw (length raw)) (out_size - 1)) raw.

(** [sscanf] with "%2x": white space is skipped, then at most two characters:
    an optional sign and hexadecimal digits; "0x" alone does not match. *)
Definition is_space (c : Z) : bool := (c =? 32) || ((9 <=? c) && (c <=? 13)).

Definition hex_val (c : Z) : option Z :=
  if (48 <=? c) && (c <=? 57) then Some (c - 48)
  else if (97 <=? c) && (c <=? 102) then Some (c - 87)
  else if (65 <=? c) && (c <=? 70) then Some (c - 55)
  else None.

Fixpoint skip_spaces (s : list Z) : list Z :=
  match s with
  | c :: s' => if is_space c then skip_spaces s' else s
  | [] => []
  end.

Definition scan_hex2 (s : list Z) : option (Z * list Z) :=
  match skip_spaces s with
  | [] => None
  | c :: r =>
      if (c =? 43) || (c =? 45) then
        match r with
        | d :: r' => v ← hex_val d; Some (if c =? 45 then - v else v, r')
        | [] => None
        end
      else
        v ← hex_val c;
        match r with
        | [] => Some (v, [])
        | d :: r' =>
            if (c =? 48) && ((d =? 120) || (d =? 88)) then None
            else match hex_val d with
                 | Some w => Some (16 * v + w, r')
                 | None => Some (v, r)
                 end
        end
  end.

(** The literal colon of the format. *)
Definition scan_colon (s : list Z) : option (list Z) :=
  match s with c :: s' => if c =? 58 then Some s' else None | [] => None end.

Definition scan_mac (s : list Z) : option (list Z) :=
  '(b0, s) ← scan_hex2 s; s ← scan_colon s;
  '(b1, s) ← scan_hex2 s; s ← scan_colon s;
  '(b2, s) ← scan_hex2 s; s ← scan_colon s;
  '(b3, s) ← scan_hex2 s; s ← scan_colon s;
  '(b4, s) ← scan_hex2 s; s ← scan_colon s;
  '(b5, s) ← scan_hex2 s;
  Some [b0; b1; b2; b3; b4; b5].

Definition parse_mac (s : list Z) : option (list Z) :=
  if negb (zlen s =? 17) then None
  else
    b ← scan_mac s;
    if forallb (fun x => (0 <=? x) && (x <=? 255)) b then Some (map u8 b) else None.

(** ** The record as [hal_factory_format_set] builds it *)
Definition put_field (m : field_meta_t) (mac value out : list Z) : list Z :=
  if fm_mac m then memcpy_at (fm_off m) mac out
  else memcpy_at (fm_off m + length value) (replicate (fm_len m - length value) 255)
         (memcpy_at (fm_off m) value out).

Definition slot_flags (out : list Z) : Z :=
  if negb (nth K_OFF_MAC out 0 =? 255) then Z.lor K_FLAG_PROGRAMMED K_FLAG_MAC_VALID
  else K_FLAG_PROGRAMMED.

Definition seal_slot (seq : Z) (out : list Z) : list Z :=
  let out := memcpy_at K_OFF_MAGIC k_magic out in
  let out := <[K_OFF_VERSION := 1]> out in
  let out := <[K_OFF_FLAGS := slot_flags out]> out in
  let out := wr16 K_OFF_CRC (crc16_ccitt_false (sub K_OFF_MAC K_PAYLOAD_LEN out)) out in
  let out := wr32 K_OFF_SEQ seq out in
  memcpy_at K_OFF_RESERVED (replicate 4 255) out.

(** ** The interface to the medium *)
Class FactoryIo (St : Type) : Type := {
  io_read : nat -> nat -> M St (Z * list Z);
  io_write : nat -> list Z -> M St Z
}.

Record HalFactoryInfo : Type := mkInfo {
  serial_number : list Z;
  mac_address : list Z;
  product_number : list Z;
  batch : list Z;
  hardware_revision : list Z;
  active_slot : option letter;
  info_seq : Z;
  valid : bool
}.

Definition info_zero : HalFactoryInfo := mkInfo [] [] [] [] [] None 0 false.

(** What a slot says. *)
Definition slot_mac (s : list Z) : list Z :=
  if negb (Z.land (nth K_OFF_FLAGS s 0) K_FLAG_MAC_VALID =? 0) then decode_mac (sub K_OFF_MAC 6 s) else [].

Definition info_of (a : active_slot_t) : HalFactoryInfo :=
  mkInfo (decode_ascii (sub K_OFF_SN 32 (as_data a)) 33) (slot_mac (as_data a))
    (decode_ascii (sub K_OFF_PN 16 (as_data a)) 17) (decode_ascii (sub K_OFF_BATCH 8 (as_data a)) 9)
    (decode_ascii (sub K_OFF_HWREV 8 (as_data a)) 9) (Some (as_letter a)) (as_seq a) true.

Section Ops.
Context {St : Type} `{FactoryIo St}.

Definition read_active : M St (Z * option active_slot_t) :=
  '(rca, a) ← io_read HAL_FACTORY_SLOT_A_BASE HAL_FACTORY_SLOT_SIZE;
  '(rcb, b) ← io_read HAL_FACTORY_SLOT_B_BASE HAL_FACTORY_SLOT_SIZE;
  mret (pick_slot rca a rcb b).

Definition hal_factory_format_read_all : M St (Z * HalFactoryInfo) :=
  '(rc, a) ← read_active;
  if rc =? HAL_ERR_NOT_FOUND then mret (HAL_ERR_NOT_FOUND, info_zero)
  else if negb (rc =? 0) then mret (rc, info_zero)
  else match a with
       | None => undef
       | Some a => mret (0, info_of a)
       end.

(** The value of a field as [hal_factory_format_get] writes it in a buffer of
    [value_size] bytes. *)
Definition field_value (m : field_meta_t) (value_size : nat) (s : list Z) : list Z :=
  if fm_mac m then take (value_size - 1) (slot_mac s)
  else decode_ascii (sub (fm_off m) (fm_len m) s) value_size.

Definition hal_factory_format_get (field : HalFactoryField) (value_size : nat) : M St (Z * list Z) :=
  match field_meta field with
  | None => mret (HAL_ERR_INVALID_ARG, [])
  | Some m =>
      if (value_size =? 0)%nat then mret (HAL_ERR_INVALID_ARG, [])
      else
        '(rc, a) ← read_active;
        if negb (rc =? 0) then mret (rc, [])
        else match a with
             | None => undef
             | Some a => mret (0, field_value m value_size (as_data a))
             end
  end.

(** The write and its verification. *)
Definition write_verified (base : nat) (out : list Z) : M St Z :=
  rc ← io_write base out;
  if negb (rc =? 0) then mret rc
  else
    '(rc, ver) ← io_read base HAL_FACTORY_SLOT_SIZE;
    if negb (rc =? 0) then mret rc
    else if negb (slot_valid ver) then mret HAL_ERR_CHECK
    else mret 0.

(** Where the next record goes, and what it starts from. *)
Definition next_slot (a : option active_slot_t) : nat * Z * list Z :=
  match a with
  | None => (HAL_FACTORY_SLOT_A_BASE, 1, replicate HAL_FACTORY_SLOT_SIZE 255)
  | Some a =>
      (if bool_decide (as_letter a = LetterA) then HAL_FACTORY_SLOT_B_BASE else HAL_FACTORY_SLOT_A_BASE,
       as_seq a +u 1, as_data a)
  end.

(** The checks of the value: the six bytes of an address, or an error. *)
Definition prepare (m : field_meta_t) (value : list Z) : list Z + Z :=
  if fm_mac m then match parse_mac value with None => inr HAL_ERR_INVALID_ARG | Some b => inl b end
  else if (fm_len m <? length value)%nat then inr HAL_ERR_INVALID_SIZE
  else inl (replicate 6 0).

Definition hal_factory_format_set (field : HalFactoryField) (value : option (list Z)) : M St Z :=
  match value, field_meta field with
  | Some value, Some m =>
      match prepare m value with
      | inr e => mret e
      | inl mac =>
          '(rc, a) ← read_active;
          if negb (rc =? HAL_ERR_NOT_FOUND) && negb (rc =? 0) then mret rc
          else
            let '(target_base, seq, out) := next_slot a in
            write_verified target_base (seal_slot seq (put_field m mac value out))
      end
  | _, _ => mret HAL_ERR_INVALID_ARG
  end.

Definition hal_factory_format_erase : M St Z :=
  io_write 0 (replicate HAL_FACTORY_EEPROM_SIZE 255).
End Ops.

(** ** What the medium promises *)
Class FactoryIoLaws (St : Type) `{FactoryIo St} : Type := {
  image : St -> list Z;
  rd_up : St -> Prop;          (* reads succeed until the next write *)
  io_up : St -> Prop;          (* reads and writes succeed from now on *)
  io_up_rd s : io_up s -> rd_up s;
  image_len s : length (image s) = HAL_FACTORY_EEPROM_SIZE;
  image_bytes s : bytes_ok (image s);
  (* a read returns; on success it gave the bytes of the range *)
  read_law s addr len : (addr + len <= HAL_FACTORY_EEPROM_SIZE)%nat ->
    returns (io_read addr len) (fun r s' => image s' = image s /\ (io_up s -> io_up s') /\
      (rd_up s -> rd_up s' /\ r.1 = 0) /\ (r.1 = 0 -> r.2 = sub addr len (image s))) s;
  (* a write returns; it changes nothing outside its range, and on success
     stores its data *)
  write_law s addr data : (addr + length data <= HAL_FACTORY_EEPROM_SIZE)%nat -> bytes_ok data ->
    returns (io_write addr data) (fun rc s' =>
      (io_up s -> io_up s' /\ rc = 0) /\
      (rc = 0 -> image s' = memcpy_at addr data (image s)) /\
      take addr (image s') = take addr (image s) /\
      drop (addr + length data) (image s') = drop (addr + length data) (image s)) s
}.
