(* ===== verification/FactoryProps.v ===== *)
(** The properties of the factory identity block: the newest valid slot is the
    active one, a field set is the field read back, the other fields keep their
    values, and an interrupted write loses nothing. *)
From S2P Require Import Prelude FactoryFormat.

(** ** Encodings *)
Lemma land_255_mod v : Z.land v 255 = v mod 256.
Proof. change 255 with (Z.ones 8). by rewrite Z.land_ones by lia. Qed.

Lemma shiftr_div v k : 0 <= k -> Z.shiftr v k = v / 2 ^ k.
Proof. intros. by apply Z.shiftr_div_pow2. Qed.

Lemma lor_shift a b k : 0 <= k -> 0 <= a < 2 ^ k -> Z.lor a (Z.shiftl b k) = a + b * 2 ^ k.
Proof.
  intros Hk Ha. rewrite Z.shiftl_mul_pow2 by done. rewrite Z.lor_comm.
  apply Z.bits_inj'. intros n Hn. rewrite Z.lor_spec.
  destruct (Z_lt_le_dec n k) as [Hlt|Hge].
  - rewrite Z.mul_pow2_bits_low by lia. rewrite orb_false_l.
    rewrite <- (Z.mod_pow2_bits_low (a + b * 2 ^ k) k n) by lia.
    rewrite Z.mod_add by (pose proof (Z.pow_pos_nonneg 2 k ltac:(lia) Hk); lia).
    by rewrite Z.mod_small by done.
  - rewrite Z.mul_pow2_bits by lia.
    replace n with ((n - k) + k) at 3 by lia.
    rewrite <- Z.div_pow2_bits by lia.
    rewrite Z.div_add by (pose proof (Z.pow_pos_nonneg 2 k ltac:(lia) Hk); lia).
    rewrite Z.div_small by done. rewrite Z.add_0_l.
    replace (Z.testbit a n) with false; [apply orb_false_r|]. symmetry.
    destruct (Z.eq_dec a 0) as [->|]; [apply Z.testbit_0_l|]. apply Z.bits_above_log2; [lia|].
    apply Z.log2_lt_pow2; [lia|]. apply Z.lt_le_trans with (2 ^ k); [lia|]. apply Z.pow_le_mono_r; lia.
Qed.

Definition seq_bytes (v : Z) : list Z :=
  [Z.land v 255; Z.land (Z.shiftr v 8) 255; Z.land (Z.shiftr v 16) 255; Z.land (Z.shiftr v 24) 255].
Definition crc_bytes (v : Z) : list Z := [Z.land v 255; Z.land (Z.shiftr v 8) 255].

Lemma crc_bytes_back v : 0 <= v < 65536 ->
  Z.lor (nth 0 (crc_bytes v) 0) (u16 (Z.shiftl (nth 1 (crc_bytes v) 0) 8)) = v.
Proof.
  intros H. cbn [crc_bytes nth]. rewrite !land_255_mod, shiftr_div by lia. change (2 ^ 8) with 256.
  rewrite (u16_small (Z.shiftl _ _)) by (rewrite Z.shiftl_mul_pow2 by lia; change (2 ^ 8) with 256; lia).
  rewrite lor_shift by (change (2 ^ 8) with 256; lia). change (2 ^ 8) with 256. lia.
Qed.

Lemma seq_bytes_back v : 0 <= v < 4294967296 ->
  Z.lor (Z.lor (Z.lor (nth 0 (seq_bytes v) 0) (Z.shiftl (nth 1 (seq_bytes v) 0) 8))
               (Z.shiftl (nth 2 (seq_bytes v) 0) 16)) (Z.shiftl (nth 3 (seq_bytes v) 0) 24) = v.
Proof.
  intros H. cbn [seq_bytes nth]. rewrite !land_255_mod, !shiftr_div by lia.
  change (2 ^ 8) with 256. change (2 ^ 16) with 65536. change (2 ^ 24) with 16777216.
  rewrite (lor_shift (v mod 256)) by (change (2 ^ 8) with 256; lia). change (2 ^ 8) with 256.
  rewrite (lor_shift (v mod 256 + (v / 256) mod 256 * 256)) by (change (2 ^ 16) with 65536; lia).
  change (2 ^ 16) with 65536.
  rewrite lor_shift by (change (2 ^ 24) with 16777216; lia). change (2 ^ 24) with 16777216. lia.
Qed.

Lemma crc16_bit_range c : 0 <= crc16_bit c < 65536.
Proof. unfold crc16_bit. destruct (Z.testbit c 15); apply u16_range. Qed.

Lemma crc16_ccitt_range l : 0 <= crc16_ccitt_false l < 65536.
Proof.
  unfold crc16_ccitt_false. assert (H : 0 <= 65535 < 65536) by lia. revert H. generalize 65535.
  induction l as [|b l IH]; intros c Hc; [done|]. cbn [foldl]. apply IH. apply crc16_bit_range.
Qed.

(** ** Records *)
Lemma seal_layout seq out :
  length out = HAL_FACTORY_SLOT_SIZE ->
  seal_slot seq out =
    k_magic ++ [1; slot_flags out] ++ crc_bytes (crc16_ccitt_false (drop 16 out)) ++ seq_bytes seq ++
    replicate 4 255 ++ drop 16 out.
Proof.
  intros Hl. unfold HAL_FACTORY_SLOT_SIZE in Hl.
  do 16 (destruct out as [|? out]; [done|]). cbn in Hl.
  assert (Hl2 : length out = 112%nat) by lia. clear Hl.
  unfold seal_slot, wr16, wr32, memcpy_at, slot_flags. cbn [take drop app length K_OFF_MAGIC k_magic
    K_OFF_VERSION K_OFF_FLAGS K_OFF_CRC K_OFF_SEQ K_OFF_RESERVED Nat.add replicate].
  unfold sub, K_OFF_MAC, K_PAYLOAD_LEN. cbn [insert list_insert drop nth take app length Nat.add].
  rewrite (take_ge out) by lia. reflexivity.
Qed.

Section Sealed.
Context (seq : Z) (out : list Z).
Context (Hlen : length out = HAL_FACTORY_SLOT_SIZE) (Hseq : 0 <= seq < 4294967296).

Lemma sealed_length : length (seal_slot seq out) = HAL_FACTORY_SLOT_SIZE.
Proof.
  rewrite seal_layout by done. rewrite !length_app, length_drop, Hlen. done.
Qed.

(** From offset 16 on the record is what it was. *)
Lemma sealed_field off n : (16 <= off)%nat -> sub off n (seal_slot seq out) = sub off n out.
Proof.
  intros Ho. rewrite seal_layout by done. rewrite !app_assoc, sub_app_ge by (cbn; lia).
  cbn [length app]. unfold sub. rewrite drop_drop. f_equal. f_equal. cbn. lia.
Qed.

Lemma sealed_seq : slot_seq (seal_slot seq out) = seq.
Proof.
  unfold slot_seq, rd32. rewrite seal_layout by done. etransitivity; [|exact (seq_bytes_back seq Hseq)].
  reflexivity.
Qed.

Lemma sealed_flags : nth K_OFF_FLAGS (seal_slot seq out) 0 = slot_flags out.
Proof. by rewrite seal_layout. Qed.

Lemma sealed_valid : slot_valid (seal_slot seq out) = true.
Proof.
  assert (Hr : rd16 (seal_slot seq out) K_OFF_CRC = crc16_ccitt_false (drop 16 out)).
  { rewrite seal_layout by done. etransitivity; [|exact (crc_bytes_back _ (crc16_ccitt_range _))].
    reflexivity. }
  assert (Hp : sub K_OFF_MAC K_PAYLOAD_LEN (seal_slot seq out) = drop 16 out).
  { rewrite sealed_field by (unfold K_OFF_MAC; lia). unfold sub, K_OFF_MAC, K_PAYLOAD_LEN.
    apply take_ge. rewrite length_drop, Hlen. done. }
  unfold slot_valid. rewrite Hr, Hp, Z.eqb_refl, seal_layout by done. done.
Qed.

Lemma sealed_bytes : bytes_ok out -> bytes_ok (seal_slot seq out).
Proof.
  intros Hb. rewrite seal_layout by done.
  assert (H255 : forall z, is_byte (Z.land z 255)) by (intros; rewrite land_255_mod; unfold is_byte; lia).
  assert (Hf : is_byte (slot_flags out)) by (unfold slot_flags; by destruct (negb _)).
  unfold bytes_ok, k_magic, crc_bytes, seq_bytes. cbn [replicate app].
  repeat first [apply Forall_cons_2; [first [apply H255|exact Hf|unfold is_byte; lia]|]].
  by apply Forall_drop.
Qed.
End Sealed.

(** ** Fields *)
Lemma trim_pad v k : trim (v ++ replicate k 255) (length v + k) = trim (v ++ replicate k 255) (length v).
Proof.
  induction k as [|k IH]; [by rewrite Nat.add_0_r|].
  assert (E : forall j n, (n <= length v + j)%nat ->
            trim (v ++ replicate (S j) 255) n = trim (v ++ replicate j 255) n).
  { intros j. induction n as [|n IHn]; intros Hn; [done|]. cbn [trim].
    assert (En : nth n (v ++ replicate (S j) 255) 0 = nth n (v ++ replicate j 255) 0).
    { rewrite replicate_S_end, app_assoc. apply app_nth1. rewrite length_app, length_replicate. lia. }
    rewrite En, IHn by lia. done. }
  replace (length v + S k)%nat with (S (length v + k)) by lia. cbn [trim].
  replace (nth (length v + k) (v ++ replicate (S k) 255) 0) with 255.
  2:{ rewrite app_nth2 by lia. replace (length v + k - length v)%nat with k by lia.
      rewrite replicate_S_end, app_nth2 by (rewrite length_replicate; lia).
      by rewrite length_replicate, Nat.sub_diag. }
  rewrite !E by lia. exact IH.
Qed.

(** A value whose end the padding cannot hide. *)
Definition ends_well (v : list Z) : Prop := match last v with None => True | Some b => b <> 255 /\ b <> 0 end.

Lemma trim_value v k : ends_well v -> trim (v ++ replicate k 255) (length v) = length v.
Proof.
  intros He. destruct v as [|x v' _] using rev_ind; [done|]. rewrite length_app. cbn [length].
  replace (length v' + 1)%nat with (S (length v')) by lia. cbn [trim].
  unfold ends_well in He. rewrite last_snoc in He.
  rewrite <- app_assoc, app_nth2, Nat.sub_diag by lia. cbn [app nth].
  rewrite (proj2 (Z.eqb_neq _ _)), (proj2 (Z.eqb_neq _ _)) by tauto. done.
Qed.

Lemma decode_padded v n size :
  ends_well v -> (length v <= n)%nat ->
  decode_ascii (v ++ replicate (n - length v) 255) size = take (size - 1) v.
Proof.
  intros He Hn. unfold decode_ascii. rewrite length_app, length_replicate, trim_pad, trim_value by done.
  rewrite take_app_le by lia. by rewrite Nat.min_comm, <- take_take, (take_ge v (length v)) by lia.
Qed.

(** Offsets and lengths as numbers. *)
Ltac offsets := cbv [fm_off fm_len fm_mac K_OFF_MAC K_OFF_SN K_OFF_PN K_OFF_BATCH K_OFF_HWREV
  K_OFF_FLAGS HAL_FACTORY_SLOT_SIZE HAL_FACTORY_EEPROM_SIZE HAL_FACTORY_SLOT_A_BASE
  HAL_FACTORY_SLOT_B_BASE base_of] in *.

Lemma meta_bounds f m : field_meta f = Some m ->
  (16 <= fm_off m)%nat /\ (fm_off m + fm_len m <= 88)%nat.
Proof. destruct f; cbn; intros [= <-]; offsets; lia. Qed.

Lemma length_put_field f m mac v out :
  field_meta f = Some m -> length mac = 6%nat -> (length v <= fm_len m)%nat \/ fm_mac m = true ->
  length out = HAL_FACTORY_SLOT_SIZE -> length (put_field m mac v out) = HAL_FACTORY_SLOT_SIZE.
Proof.
  intros Hm Hmac Hv Hl. pose proof (meta_bounds _ _ Hm) as [? ?]. unfold HAL_FACTORY_SLOT_SIZE in *.
  unfold put_field. destruct (fm_mac m) eqn:E.
  - destruct f; cbn in Hm; try discriminate; injection Hm as <-; try discriminate.
    rewrite length_memcpy_at; [done|]. cbn. lia.
  - destruct Hv as [Hv|]; [|done].
    rewrite length_memcpy_at; rewrite length_memcpy_at; rewrite ?length_replicate; lia.
Qed.

Lemma put_field_value m mac v out :
  fm_mac m = false -> (length v <= fm_len m)%nat -> (fm_off m + fm_len m <= length out)%nat ->
  sub (fm_off m) (fm_len m) (put_field m mac v out) = v ++ replicate (fm_len m - length v) 255.
Proof.
  intros Em Hv Hl. unfold put_field. rewrite Em.
  replace (fm_len m) with (length v + (fm_len m - length v))%nat at 1 by lia.
  set (k := (fm_len m - length v)%nat). set (pad := replicate k 255).
  assert (Hp : length pad = k) by (unfold pad; apply length_replicate).
  assert (Hs : forall l : list Z, sub (fm_off m) (length v + k) l =
                sub (fm_off m) (length v) l ++ sub (fm_off m + length v) k l).
  { intros l. unfold sub. rewrite <- drop_drop.
    rewrite <- (take_drop (length v) (take (length v + k) (drop (fm_off m) l))).
    rewrite take_take, Nat.min_l, skipn_firstn_comm by lia.
    by replace (length v + k - length v)%nat with k by lia. }
  rewrite Hs. f_equal.
  - rewrite sub_memcpy_at_before by (rewrite ?length_memcpy_at; lia). apply sub_memcpy_at. lia.
  - rewrite <- Hp. apply sub_memcpy_at. rewrite length_memcpy_at; lia.
Qed.

(** The fields do not overlap. *)
Lemma fields_apart f g mf mg :
  field_meta f = Some mf -> field_meta g = Some mg -> f <> g ->
  (fm_off mg + fm_len mg <= fm_off mf)%nat \/ (fm_off mf + fm_len mf <= fm_off mg)%nat.
Proof. intros Hf Hg Hne. destruct f, g; cbn in *; simplify_eq; offsets; lia. Qed.

Lemma put_field_other m mac v out off n :
  (length v <= fm_len m)%nat \/ fm_mac m = true -> length mac = 6%nat -> (6 <= fm_len m)%nat ->
  (fm_off m + fm_len m <= length out)%nat ->
  (off + n <= fm_off m)%nat \/ (fm_off m + fm_len m <= off)%nat ->
  sub off n (put_field m mac v out) = sub off n out.
Proof.
  intros Hv Hmac H6 Hl Hd. unfold put_field. destruct (fm_mac m).
  - destruct Hd; [by rewrite sub_memcpy_at_before by lia|by rewrite sub_memcpy_at_after by lia].
  - destruct Hv as [Hv|]; [|done].
    assert (E : length (memcpy_at (fm_off m) v out) = length out) by (apply length_memcpy_at; lia).
    destruct Hd.
    + by rewrite sub_memcpy_at_before, sub_memcpy_at_before by lia.
    + by rewrite sub_memcpy_at_after, sub_memcpy_at_after by (rewrite ?length_replicate; lia).
Qed.

(** ** Addresses *)
Lemma hex_digit_cases d : 0 <= d < 16 -> exists n : nat, d = Z.of_nat n /\ (n < 16)%nat.
Proof. intros. exists (Z.to_nat d). lia. Qed.

Lemma scan_hex2_digits b rest : is_byte b -> scan_hex2 (hex2 b ++ rest) = Some (b, rest).
Proof.
  unfold is_byte. intros Hb.
  destruct (hex_digit_cases (b / 16)) as (x & Ex & Hx); [lia|].
  destruct (hex_digit_cases (b mod 16)) as (y & Ey & Hy); [lia|].
  assert (E : scan_hex2 (hex2 b ++ rest) = Some (16 * Z.of_nat x + Z.of_nat y, rest)).
  { unfold hex2. rewrite Ex, Ey. clear Ex Ey Hb.
    do 16 (destruct x as [|x]; [do 16 (destruct y as [|y]; [reflexivity|]); lia|]). lia. }
  rewrite E. f_equal. f_equal. lia.
Qed.

Lemma scan_colon_here rest : scan_colon (58 :: rest) = Some rest.
Proof. done. Qed.

Lemma parse_decode_mac raw : length raw = 6%nat -> bytes_ok raw -> parse_mac (decode_mac raw) = Some raw.
Proof.
  intros Hl Hb. do 6 (destruct raw as [|? raw]; [done|]). destruct raw; [|done].
  unfold bytes_ok in Hb. rewrite !Forall_cons in Hb. destruct Hb as (B0 & B1 & B2 & B3 & B4 & B5 & _).
  assert (E : scan_mac (decode_mac [z; z0; z1; z2; z3; z4]) = Some [z; z0; z1; z2; z3; z4]).
  { unfold decode_mac, scan_mac. rewrite scan_hex2_digits by done. cbn [mbind option_bind]. rewrite scan_colon_here.
    cbn [mbind option_bind]. rewrite scan_hex2_digits by done. cbn [mbind option_bind]. rewrite scan_colon_here.
    cbn [mbind option_bind]. rewrite scan_hex2_digits by done. cbn [mbind option_bind]. rewrite scan_colon_here.
    cbn [mbind option_bind]. rewrite scan_hex2_digits by done. cbn [mbind option_bind]. rewrite scan_colon_here.
    cbn [mbind option_bind]. rewrite scan_hex2_digits by done. cbn [mbind option_bind]. rewrite scan_colon_here.
    cbn [mbind option_bind]. rewrite <- (app_nil_r (hex2 z4)). rewrite scan_hex2_digits by done. done. }
  unfold parse_mac. rewrite E. change (zlen (decode_mac [z; z0; z1; z2; z3; z4]) =? 17) with true.
  cbn [negb mbind option_bind forallb map]. unfold is_byte in *.
  rewrite !(proj2 (Z.leb_le 0 _)), !(proj2 (Z.leb_le _ 255)) by lia. cbn [andb].
  by rewrite !u8_small by lia.
Qed.

(** ** Storage *)
Section Storage.
Context {St : Type} `{FactoryIoLaws St}.

Definition slot_at (x : letter) (s : St) : list Z := sub (base_of x) HAL_FACTORY_SLOT_SIZE (image s).
Definition other (x : letter) : letter := match x with LetterA => LetterB | LetterB => LetterA end.

(** The record in force. *)
Definition active (s : St) : Z * option active_slot_t :=
  pick_slot 0 (slot_at LetterA s) 0 (slot_at LetterB s).

Lemma slot_at_length x s : length (slot_at x s) = HAL_FACTORY_SLOT_SIZE.
Proof. apply length_sub. rewrite image_len. destruct x; offsets; lia. Qed.

Lemma slot_at_bytes x s : bytes_ok (slot_at x s).
Proof. apply bytes_ok_sub, image_bytes. Qed.

Lemma rd32_bound l off : bytes_ok l -> 0 <= rd32 l off < 4294967296.
Proof.
  intros Hb. unfold rd32.
  assert (Hn : forall k, is_byte (nth k l 0)).
  { intros k. pose proof (nthz_byte l (Z.of_nat k) Hb) as Hk. unfold nthz in Hk. by rewrite Nat2Z.id in Hk. }
  pose proof (Hn off). pose proof (Hn (off + 1)%nat). pose proof (Hn (off + 2)%nat).
  pose proof (Hn (off + 3)%nat). unfold is_byte in *.
  rewrite (lor_shift (nth off l 0)) by (change (2 ^ 8) with 256; lia). change (2 ^ 8) with 256.
  rewrite (lor_shift (_ + _)) by (change (2 ^ 16) with 65536; lia). change (2 ^ 16) with 65536.
  rewrite lor_shift by (change (2 ^ 24) with 16777216; lia). change (2 ^ 24) with 16777216. lia.
Qed.

(** Reading both slots: what was read is the image, and only readable slots
    count. *)
Lemma pick_slot_reads rca a rcb b a' b' :
  (rca = 0 -> a = a') -> (rcb = 0 -> b = b') -> pick_slot rca a rcb b = pick_slot rca a' rcb b'.
Proof.
  intros Ha Hb. unfold pick_slot. destruct (rca =? 0) eqn:Ea, (rcb =? 0) eqn:Eb; cbool;
    [rewrite Ha, Hb by done|rewrite Ha by done; destruct (slot_valid a')|rewrite Hb by done|]; done.
Qed.

Lemma read_active_any s :
  returns read_active (fun r s' => image s' = image s /\ (io_up s -> io_up s') /\ (rd_up s -> r = active s) /\
    exists rca rcb, r = pick_slot rca (slot_at LetterA s) rcb (slot_at LetterB s)) s.
Proof.
  unfold read_active. apply returns_bind.
  eapply returns_mono; [apply read_law; offsets; lia|]. cbn beta. intros [rca a] s1 (I1 & V1 & U1 & D1).
  apply returns_bind. eapply returns_mono; [apply read_law; offsets; lia|]. cbn beta.
  intros [rcb b] s2 (I2 & V2 & U2 & D2). rstep. cbn [fst snd] in *. rewrite I1 in *. split; [done|].
  split; [auto|]. split.
  - intros Hu. destruct (U1 Hu) as [Hu1 ->], (U2 (proj1 (U1 Hu))) as [Hu2 ->].
    unfold active. apply pick_slot_reads; auto.
  - exists rca, rcb. apply pick_slot_reads; auto.
Qed.

Lemma pick_cases rca a rcb b r :
  pick_slot rca a rcb b = r ->
  r = (HAL_ERR_NOT_READY, None) \/
  (r = (HAL_ERR_NOT_FOUND, None) /\ (rca =? 0) && slot_valid a = false /\ (rcb =? 0) && slot_valid b = false) \/
  (r = (0, Some (mkActive a LetterA (slot_seq a))) /\ (rca =? 0) && slot_valid a = true /\
   ((rcb =? 0) && slot_valid b = true -> slot_seq b <= slot_seq a)) \/
  (r = (0, Some (mkActive b LetterB (slot_seq b))) /\ (rcb =? 0) && slot_valid b = true /\
   ((rca =? 0) && slot_valid a = true -> slot_seq a < slot_seq b)).
Proof.
  intros <-. unfold pick_slot. destruct (negb (rca =? 0) && negb (rcb =? 0)); [by left|]. right.
  destruct ((rca =? 0) && slot_valid a) eqn:Ea, ((rcb =? 0) && slot_valid b) eqn:Eb; cbn [andb].
  - destruct (slot_seq b <=? slot_seq a) eqn:E; cbool; right; [left|right]; auto.
  - right. left. by repeat split.
  - right. right. by repeat split.
  - by left.
Qed.

(** The record in force is a slot of the image. *)
Lemma active_slot_of s x :
  active s = (0, Some x) ->
  as_data x = slot_at (as_letter x) s /\ as_seq x = slot_seq (as_data x) /\
  slot_valid (as_data x) = true /\
  (slot_valid (slot_at (other (as_letter x)) s) = true ->
   slot_seq (slot_at (other (as_letter x)) s) <= as_seq x).
Proof.
  intros E. destruct (pick_cases _ _ _ _ _ E) as [C|[[C _]|[(C & V & N)|(C & V & N)]]]; try discriminate;
    injection C as ->; cbn in *; repeat split; auto. intros Hv. specialize (N Hv). lia.
Qed.

(** ** Writing *)
Lemma write_slot x new s :
  length new = HAL_FACTORY_SLOT_SIZE -> bytes_ok new -> slot_valid new = true -> io_up s ->
  returns (write_verified (base_of x) new)
    (fun rc s' => rc = 0 /\ io_up s' /\ slot_at x s' = new /\ slot_at (other x) s' = slot_at (other x) s) s.
Proof.
  intros Hl Hb Hv Hu. unfold write_verified. apply returns_bind.
  eapply returns_mono; [apply write_law; [destruct x; rewrite Hl; offsets; lia|done]|]. cbn beta.
  intros rc s1 (U1 & W1 & _). destruct (U1 Hu) as [Hu1 ->]. specialize (W1 eq_refl).
  cbn [Z.eqb negb]. apply returns_bind.
  eapply returns_mono; [apply read_law; destruct x; offsets; lia|]. cbn beta.
  intros [rc ver] s2 (I2 & V2 & U2 & D2). destruct (U2 (io_up_rd _ Hu1)) as [_ E2]. cbn [fst snd] in *. rewrite E2.
  cbn [Z.eqb negb]. rewrite (D2 E2).
  assert (En : slot_at x s1 = new).
  { unfold slot_at. rewrite W1, <- Hl. apply sub_memcpy_at. rewrite image_len. destruct x; offsets; lia. }
  unfold slot_at in *. rewrite En, Hv. cbn [negb]. rstep. rewrite I2. split; [done|]. split; [auto|].
  split; [done|]. rewrite W1.
  destruct x; [apply sub_memcpy_at_after|apply sub_memcpy_at_before];
    rewrite ?image_len, ?Hl; cbn [other]; offsets; lia.
Qed.

(** A failed or interrupted write leaves the other slot alone. *)
Lemma write_keeps_other x new s :
  length new = HAL_FACTORY_SLOT_SIZE -> bytes_ok new ->
  returns (write_verified (base_of x) new) (fun _ s' => slot_at (other x) s' = slot_at (other x) s) s.
Proof.
  intros Hl Hb. unfold write_verified. apply returns_bind.
  eapply returns_mono; [apply write_law; [destruct x; rewrite Hl; offsets; lia|done]|]. cbn beta.
  intros rc s1 (_ & _ & Ht & Hd).
  assert (Ho : slot_at (other x) s1 = slot_at (other x) s).
  { unfold slot_at, sub. destruct x; offsets; rewrite ?Hl in *; cbn [other] in *.
    - change (0 + 128)%nat with 128%nat in Hd. by rewrite Hd.
    - rewrite !drop_0. by rewrite Ht. }
  destruct (negb (rc =? 0)); [by rstep|]. apply returns_bind.
  eapply returns_mono; [apply read_law; destruct x; offsets; lia|]. cbn beta.
  intros [rc2 ver] s2 (I2 & _). unfold slot_at in *. rewrite <- Ho, <- I2.
  destruct (negb (rc2 =? 0)); [by rstep|]. destruct (negb _); by rstep.
Qed.

(** ** Setting a field *)
Lemma prepare_ok f m v mac :
  field_meta f = Some m -> prepare m v = inl mac ->
  length mac = 6%nat /\ bytes_ok mac /\ ((length v <= fm_len m)%nat \/ fm_mac m = true) /\
  (fm_mac m = true -> parse_mac v = Some mac).
Proof.
  intros Hm. unfold prepare. destruct (fm_mac m).
  - destruct (parse_mac v) as [b|] eqn:E; [|done]. intros [= ->]. unfold parse_mac in E.
    destruct (negb _); [done|]. destruct (scan_mac v) as [r|] eqn:Es; [|done]. cbn in E.
    destruct (forallb _ r); [|done]. injection E as <-.
    assert (length r = 6%nat).
    { unfold scan_mac in Es.
      repeat match type of Es with
      | (x ← ?y; _) = Some _ => destruct y as [?|]; cbn in Es; [|done]
      | (let '(_, _) := ?y in _) = Some _ => destruct y
      | context [let '(_, _) := ?y in _] => destruct y; cbn in Es
      end. by injection Es as <-. }
    repeat split; auto.
    + by rewrite length_map.
    + apply Forall_fmap, Forall_true. intros. cbn. apply u8_range.
  - destruct (fm_len m <? length v)%nat eqn:E; [done|]. intros [= <-]. apply Nat.ltb_ge in E.
    split; [done|]. split; [apply (bytes_ok_replicate 6 0); unfold is_byte; lia|]. split; [by left|done].
Qed.

(** What the new record starts from, and whether its sequence number fits. *)
Definition base_data (s : St) : list Z :=
  match snd (active s) with None => replicate HAL_FACTORY_SLOT_SIZE 255 | Some a => as_data a end.
Definition seq_room (s : St) : Prop :=
  match snd (active s) with None => True | Some a => as_seq a < 4294967295 end.

Lemma active_up_cases s :
  (active s = (HAL_ERR_NOT_FOUND, None) /\ slot_valid (slot_at LetterA s) = false /\
   slot_valid (slot_at LetterB s) = false) \/
  exists a, active s = (0, Some a).
Proof.
  destruct (pick_cases 0 (slot_at LetterA s) 0 (slot_at LetterB s) _ eq_refl)
    as [C|[(C & A & B)|[(C & _)|(C & _)]]].
  - exfalso. revert C. unfold pick_slot. cbn [Z.eqb negb andb]. repeat case_match; discriminate.
  - left. unfold active. rewrite C. by repeat split.
  - right. eauto.
  - right. eauto.
Qed.

Lemma base_data_ok s : length (base_data s) = HAL_FACTORY_SLOT_SIZE /\ bytes_ok (base_data s).
Proof.
  unfold base_data. destruct (active_up_cases s) as [(-> & _)|(a & E)]; cbn [snd].
  - rewrite length_replicate. split; [done|]. apply bytes_ok_replicate. unfold is_byte; lia.
  - rewrite E. cbn [snd]. destruct (active_slot_of s a E) as (-> & _).
    split; [apply slot_at_length|apply slot_at_bytes].
Qed.

Lemma bytes_ok_memcpy off src dst : bytes_ok src -> bytes_ok dst -> bytes_ok (memcpy_at off src dst).
Proof.
  intros. unfold memcpy_at. repeat apply bytes_ok_app; [by apply Forall_take|done|by apply Forall_drop].
Qed.

Lemma put_field_bytes m mac v out :
  bytes_ok mac -> bytes_ok v -> bytes_ok out -> bytes_ok (put_field m mac v out).
Proof.
  intros. unfold put_field. destruct (fm_mac m); repeat apply bytes_ok_memcpy; auto.
  apply bytes_ok_replicate. unfold is_byte; lia.
Qed.

(** The new record. *)
Definition new_record (s : St) (m : field_meta_t) (mac v : list Z) (q : Z) : list Z :=
  seal_slot q (put_field m mac v (base_data s)).

(** A record written over the slot that is not in force is in force, provided
    its number is the greater one. *)
Lemma newest_wins x new s s' :
  slot_at x s' = new -> slot_at (other x) s' = slot_at (other x) s ->
  slot_valid new = true ->
  (slot_valid (slot_at (other x) s) = true -> slot_seq (slot_at (other x) s) < slot_seq new) ->
  active s' = (0, Some (mkActive new x (slot_seq new))).
Proof.
  intros E1 E2 Hv Hs. unfold active, pick_slot. cbn [Z.eqb negb andb].
  destruct x; cbn [other] in *; rewrite E1, E2, Hv; cbn [andb].
  - destruct (slot_valid (slot_at LetterB s)) eqn:V; [|done].
    by rewrite (proj2 (Z.leb_le _ _)) by (specialize (Hs eq_refl); lia).
  - destruct (slot_valid (slot_at LetterA s)) eqn:V; cbn [andb]; [|done].
    by rewrite (proj2 (Z.leb_gt _ _)) by (by apply Hs).
Qed.

Lemma set_up f m v mac s :
  field_meta f = Some m -> prepare m v = inl mac -> bytes_ok v -> io_up s -> seq_room s ->
  returns (hal_factory_format_set f (Some v)) (fun rc s' => rc = 0 /\ io_up s' /\
    exists x q, active s' = (0, Some (mkActive (new_record s m mac v q) x q)) /\
                0 <= q < 4294967296) s.
Proof.
  intros Hm Hp Hb Hu Hroom. destruct (prepare_ok f m v mac Hm Hp) as (Hl & Hmb & Hv & _).
  destruct (base_data_ok s) as [Hbl Hbb].
  assert (Hnl : length (put_field m mac v (base_data s)) = HAL_FACTORY_SLOT_SIZE)
    by (by eapply length_put_field).
  assert (Hnb : bytes_ok (put_field m mac v (base_data s))) by (by apply put_field_bytes).
  unfold hal_factory_format_set. rewrite Hm, Hp. apply returns_bind.
  eapply returns_mono; [apply read_active_any|]. cbn beta. intros [rc a] s1 (I1 & V1 & U1 & _).
  pose proof (V1 Hu) as Hu1. pose proof (U1 (io_up_rd _ Hu)) as Er. symmetry in Er.
  assert (Hsame : forall x, slot_at x s1 = slot_at x s) by (intros; unfold slot_at; by rewrite I1).
  assert (Hgo : forall x q, next_slot a = (base_of x, q, base_data s) -> 0 <= q < 4294967296 ->
            (slot_valid (slot_at (other x) s) = true -> slot_seq (slot_at (other x) s) < q) ->
            returns (let '(target_base, seq, out) := next_slot a in
                     write_verified target_base (seal_slot seq (put_field m mac v out)))
              (fun rc s' => rc = 0 /\ io_up s' /\
                 exists x q, active s' = (0, Some (mkActive (new_record s m mac v q) x q)) /\
                             0 <= q < 4294967296) s1).
  { intros x q -> Hq Hs. fold (new_record s m mac v q).
    eapply returns_mono; [apply write_slot; [by apply sealed_length|by apply sealed_bytes|by apply sealed_valid|done]|].
    cbn beta. intros rc' s' (-> & Hu' & E1 & E2). split; [done|]. split; [done|]. exists x, q.
    split; [|done]. rewrite Hsame in E2.
    rewrite <- (sealed_seq q (put_field m mac v (base_data s)) Hnl Hq) at 2.
    apply (newest_wins x _ s); [done..|by apply sealed_valid|]. unfold new_record; by rewrite sealed_seq. }
  unfold base_data, seq_room in *. destruct (active_up_cases s) as [(E & Va & Vb)|(y & E)];
    rewrite E in Er, Hgo, Hroom; injection Er as <- <-; cbn [snd] in *.
  - change (negb (HAL_ERR_NOT_FOUND =? HAL_ERR_NOT_FOUND) && negb (HAL_ERR_NOT_FOUND =? 0)) with false.
    cbv iota. apply (Hgo LetterA 1); [done|lia|]. cbn [other]. by rewrite Vb.
  - change (negb (0 =? HAL_ERR_NOT_FOUND) && negb (0 =? 0)) with false. cbv iota.
    destruct (active_slot_of s y E) as (Ed & Es & _ & _).
    pose proof (rd32_bound (as_data y) K_OFF_SEQ ltac:(rewrite Ed; apply slot_at_bytes)) as Hr.
    change (rd32 (as_data y) K_OFF_SEQ) with (slot_seq (as_data y)) in Hr. rewrite <- Es in Hr.
    apply (Hgo (other (as_letter y)) (as_seq y + 1)).
    + unfold next_slot. rewrite u32_small by lia. by destruct (as_letter y).
    + lia.
    + intros _. replace (other (other (as_letter y))) with (as_letter y) by (by destruct (as_letter y)).
      rewrite <- Ed, <- Es. lia.
Qed.

(** ** Reading a field *)
Lemma get_up f m size a s :
  field_meta f = Some m -> (0 < size)%nat -> io_up s -> active s = (0, Some a) ->
  returns (hal_factory_format_get f size)
    (fun r s' => r = (0, field_value m size (as_data a)) /\ io_up s' /\ image s' = image s) s.
Proof.
  intros Hm Hs Hu Ha. unfold hal_factory_format_get. rewrite Hm.
  destruct (size =? 0)%nat eqn:E; [apply Nat.eqb_eq in E; lia|]. apply returns_bind.
  eapply returns_mono; [apply read_active_any|]. cbn beta. intros r s1 (I1 & V1 & U1 & _).
  rewrite (U1 (io_up_rd _ Hu)), Ha. cbn [Z.eqb negb]. rstep. auto.
Qed.

(** What a successful read says about the record in force. *)
Lemma get_result f m size s r s' :
  field_meta f = Some m -> io_up s -> hal_factory_format_get f size s = Ret (0, r) s' ->
  exists a, active s = (0, Some a) /\ r = field_value m size (as_data a).
Proof.
  intros Hm Hu E. unfold hal_factory_format_get in E. rewrite Hm in E.
  destruct (size =? 0)%nat; [discriminate|].
  destruct (returns_elim _ _ _ (read_active_any s)) as (x & s1 & E1 & _ & _ & U1 & _).
  rewrite (bind_ret_eq _ _ _ _ _ E1), (U1 (io_up_rd _ Hu)) in E.
  destruct (active_up_cases s) as [(Ea & _)|(a & Ea)]; rewrite Ea in E; [discriminate|].
  exists a. cbn [Z.eqb negb] in E. injection E as <- _. done.
Qed.

(** ** Properties *)

(** C7 [factory_set_get]: on a working medium, while the sequence number of the record in
    force is below 2^32-1, setting a text field to a value
    that fits and does not end in a padding byte succeeds, reading the field back
    gives the value (cut to the caller's buffer), and every other text field that
    could be read before reads the same.  (At 2^32-1 the number wraps and the set does
    not take effect: [seq_wrap_hides_update].) *)
Theorem factory_set_get f m v size s :
  field_meta f = Some m -> fm_mac m = false -> bytes_ok v -> (length v <= fm_len m)%nat ->
  ends_well v -> (0 < size)%nat -> io_up s -> seq_room s ->
  exists s1, hal_factory_format_set f (Some v) s = Ret 0 s1 /\
    (exists s2, hal_factory_format_get f size s1 = Ret (0, take (size - 1) v) s2) /\
    forall g mg r s', field_meta g = Some mg -> fm_mac mg = false -> g <> f ->
      hal_factory_format_get g size s = Ret (0, r) s' ->
      exists s2, hal_factory_format_get g size s1 = Ret (0, r) s2.
Proof.
  intros Hm Em Hb Hl He Hsz Hu Hroom.
  assert (Hp : prepare m v = inl (replicate 6 0)).
  { unfold prepare. rewrite Em. by rewrite (proj2 (Nat.ltb_ge _ _)) by done. }
  destruct (prepare_ok f m v _ Hm Hp) as (Hml & _ & Hv & _).
  pose proof (meta_bounds _ _ Hm) as [Hlo Hhi]. destruct (base_data_ok s) as [Hbl _].
  destruct (returns_elim _ _ _ (set_up f m v _ s Hm Hp Hb Hu Hroom)) as (rc & s1 & E & -> & Hu1 & x & q & Ha & Hq).
  assert (Hnl : length (put_field m (replicate 6 0) v (base_data s)) = HAL_FACTORY_SLOT_SIZE)
    by (by eapply length_put_field).
  exists s1. split; [done|]. split.
  - destruct (returns_elim _ _ _ (get_up f m size _ s1 Hm Hsz Hu1 Ha)) as (r & s2 & E2 & -> & _).
    exists s2. rewrite E2. unfold field_value. rewrite Em. cbn [as_data]. unfold new_record.
    rewrite sealed_field, put_field_value, decode_padded by (done || (rewrite ?Hbl; offsets; lia)). done.
  - intros g mg r s' Hmg Emg Hne Hg. destruct (get_result g mg size s r s' Hmg Hu Hg) as (a & Ea & ->).
    pose proof (meta_bounds _ _ Hmg) as [Hglo Hghi].
    destruct (returns_elim _ _ _ (get_up g mg size _ s1 Hmg Hsz Hu1 Ha)) as (r & s2 & E2 & -> & _).
    exists s2. rewrite E2. unfold field_value. rewrite Emg. cbn [as_data]. unfold new_record.
    rewrite sealed_field by done. rewrite put_field_other.
    + unfold base_data. by rewrite Ea.
    + done.
    + done.
    + destruct f; cbn in Hm; simplify_eq; offsets; lia.
    + rewrite Hbl. offsets. lia.
    + by eapply fields_apart.
Qed.

(** C22 [set_survives_power_loss]: once the record in force has been read, whatever
    a write does to the slot it targets, a [hal_factory_format_set] leaves the
    record in force untouched; unless the other slot now holds a complete valid
    record, that record is still the one in force. *)
Theorem set_survives_power_loss f m v mac s a :
  field_meta f = Some m -> prepare m v = inl mac -> bytes_ok v -> rd_up s -> active s = (0, Some a) ->
  exists rc s', hal_factory_format_set f (Some v) s = Ret rc s' /\
    slot_at (as_letter a) s' = as_data a /\
    (slot_valid (slot_at (other (as_letter a)) s') = false -> active s' = (0, Some a)).
Proof.
  intros Hm Hp Hb Hu Ha. destruct (prepare_ok f m v mac Hm Hp) as (Hl & Hmb & Hv & _).
  destruct (base_data_ok s) as [Hbl Hbb]. unfold base_data in Hbl, Hbb. rewrite Ha in Hbl, Hbb. cbn [snd] in *.
  destruct (active_slot_of s a Ha) as (Ed & Es & Ev & _).
  enough (HR : returns (hal_factory_format_set f (Some v)) (fun _ s' => slot_at (as_letter a) s' = as_data a) s).
  { destruct (returns_elim _ _ _ HR) as (rc & s' & E & Hk). exists rc, s'. split; [done|]. split; [done|].
    intros Hi. unfold active, pick_slot. cbn [Z.eqb negb andb].
    destruct a as [d [] q]; cbn [as_letter as_data as_seq other] in *; rewrite Hk, Hi, Ev, Es; done. }
  unfold hal_factory_format_set. rewrite Hm, Hp. apply returns_bind.
  eapply returns_mono; [apply read_active_any|]. cbn beta. intros r s1 (I1 & _ & U1 & _).
  rewrite (U1 Hu), Ha. change (negb (0 =? HAL_ERR_NOT_FOUND) && negb (0 =? 0)) with false. cbv iota.
  assert (Hsame : forall x, slot_at x s1 = slot_at x s) by (intros; unfold slot_at; by rewrite I1).
  set (new := seal_slot (as_seq a +u 1) (put_field m mac v (as_data a))). assert (Hq : 0 <= as_seq a +u 1 < 4294967296) by apply u32_range.
  assert (Hnl : length (put_field m mac v (as_data a)) = HAL_FACTORY_SLOT_SIZE) by (by eapply length_put_field).
  assert (HW : returns (write_verified (base_of (other (as_letter a))) new)
                 (fun _ s' => slot_at (as_letter a) s' = as_data a) s1).
  { eapply returns_mono; [apply write_keeps_other; [by apply sealed_length|by apply sealed_bytes, put_field_bytes]|].
    cbn beta. intros _ s'. replace (other (other (as_letter a))) with (as_letter a) by (by destruct (as_letter a)).
    intros ->. by rewrite Hsame. }
  unfold next_slot. by destruct (as_letter a).
Qed.

(** What [read_active] returns, whichever of the two
    reads fail: a success is a slot that could be read, is valid, and whose
    sequence number is at least that of the other slot if that one could be read
    and is valid; "not found" means that no readable slot is valid, and "not
    ready" that neither could be read. *)
Theorem active_record_is_newest s :
  exists rca rcb r s', read_active s = Ret r s' /\ image s' = image s /\
    let readable x := (match x with LetterA => rca | LetterB => rcb end =? 0) && slot_valid (slot_at x s) in
    (exists a, r = (0, Some a) /\ readable (as_letter a) = true /\
       as_data a = slot_at (as_letter a) s /\ as_seq a = slot_seq (as_data a) /\
       forall x, readable x = true -> slot_seq (slot_at x s) <= as_seq a) \/
    (r = (HAL_ERR_NOT_FOUND, None) /\ forall x, readable x = false) \/
    r = (HAL_ERR_NOT_READY, None).
Proof.
  destruct (returns_elim _ _ _ (read_active_any s)) as (r & s' & E & I1 & _ & _ & rca & rcb & ->).
  exists rca, rcb. eexists _, s'. split; [exact E|]. split; [done|]. intros readable.
  destruct (pick_cases rca (slot_at LetterA s) rcb (slot_at LetterB s) _ eq_refl)
    as [C|[(C & Va & Vb)|[(C & V & N)|(C & V & N)]]]; rewrite C.
  - auto.
  - right. left. split; [done|]. by intros [].
  - left. eexists. split; [done|]. split; [exact V|]. split; [done|]. split; [done|].
    cbn [as_seq as_data]. intros [] Hx; [lia|by apply N].
  - left. eexists. split; [done|]. split; [exact V|]. split; [done|]. split; [done|].
    cbn [as_seq as_data]. intros [] Hx; [specialize (N Hx); lia|lia].
Qed.

(** The sequence numbers are compared as plain
    integers; when the record in force has the number 2^32-1 the next one gets
    the number 0, so a set that succeeds and verifies does not take effect: the
    old record stays in force. *)
Theorem seq_wrap_hides_update f m v mac s a :
  field_meta f = Some m -> prepare m v = inl mac -> bytes_ok v -> io_up s ->
  active s = (0, Some a) -> as_seq a = 4294967295 ->
  exists s', hal_factory_format_set f (Some v) s = Ret 0 s' /\ active s' = (0, Some a).
Proof.
  intros Hm Hp Hb Hu Ha Hq. destruct (prepare_ok f m v mac Hm Hp) as (Hl & Hmb & Hv & _).
  destruct (base_data_ok s) as [Hbl Hbb]. unfold base_data in Hbl, Hbb. rewrite Ha in Hbl, Hbb. cbn [snd] in *.
  destruct (active_slot_of s a Ha) as (Ed & Es & Ev & _).
  assert (Hnl : length (put_field m mac v (as_data a)) = HAL_FACTORY_SLOT_SIZE) by (by eapply length_put_field).
  set (new := seal_slot 0 (put_field m mac v (as_data a))).
  assert (Hn0 : slot_seq new = 0) by (by apply sealed_seq).
  assert (Hnv : slot_valid new = true) by (by apply sealed_valid).
  enough (HR : returns (hal_factory_format_set f (Some v))
            (fun rc s' => rc = 0 /\ active s' = (0, Some a)) s).
  { destruct (returns_elim _ _ _ HR) as (rc & s' & E & -> & Hk). eauto. }
  unfold hal_factory_format_set. rewrite Hm, Hp. apply returns_bind.
  eapply returns_mono; [apply read_active_any|]. cbn beta. intros r s1 (I1 & V1 & U1 & _).
  rewrite (U1 (io_up_rd _ Hu)), Ha.
  change (negb (0 =? HAL_ERR_NOT_FOUND) && negb (0 =? 0)) with false. cbv iota.
  assert (Hsame : forall x, slot_at x s1 = slot_at x s) by (intros; unfold slot_at; by rewrite I1).
  assert (HW : returns (write_verified (base_of (other (as_letter a))) new)
                 (fun rc s' => rc = 0 /\ active s' = (0, Some a)) s1).
  { eapply returns_mono; [apply write_slot; [by apply sealed_length|by apply sealed_bytes, put_field_bytes|done|auto]|].
    cbn beta. intros rc s' (-> & _ & E1 & E2). split; [done|].
    unfold active, pick_slot. cbn [Z.eqb negb andb].
    destruct a as [d [] q]; cbn [as_letter as_data as_seq other] in *;
      rewrite E1, E2, Hsame, <- Ed, Ev, Hnv, Hn0, <- Es, Hq; done. }
  unfold next_slot. rewrite Hq. by destruct (as_letter a).
Qed.

(** After a successful erase there is no record: reading
    reports "not found" and an empty identity. *)
Theorem erase_forgets s :
  io_up s ->
  exists s1 s2, hal_factory_format_erase s = Ret 0 s1 /\
    hal_factory_format_read_all s1 = Ret (HAL_ERR_NOT_FOUND, info_zero) s2.
Proof.
  intros Hu. unfold hal_factory_format_erase.
  destruct (returns_elim _ _ _ (write_law s 0 (replicate HAL_FACTORY_EEPROM_SIZE 255) ltac:(done)
    ltac:(apply bytes_ok_replicate; unfold is_byte; lia))) as (rc & s1 & E & U1 & W1 & _).
  destruct (U1 Hu) as [Hu1 ->]. specialize (W1 eq_refl).
  assert (Ei : image s1 = replicate 256 255).
  { rewrite W1. unfold memcpy_at. rewrite take_0, drop_ge, app_nil_r; [done|].
    rewrite length_replicate, image_len. done. }
  assert (Ea : active s1 = (HAL_ERR_NOT_FOUND, None)).
  { unfold active, slot_at. rewrite Ei. vm_compute. reflexivity. }
  destruct (returns_elim _ _ _ (read_active_any s1)) as (r & s2 & E2 & _ & _ & U2 & _).
  exists s1, s2. split; [done|]. unfold hal_factory_format_read_all.
  rewrite (bind_ret_eq _ _ _ _ _ E2), (U2 (io_up_rd _ Hu1)), Ea. done.
Qed.

(** On a working medium, setting the address to the
    text form of six bytes succeeds, and reading it back gives the same text
    (cut to the caller's buffer), except that an address whose first byte is
    0xFF counts as unprogrammed and reads back empty. *)
Theorem factory_mac_roundtrip raw size s :
  length raw = 6%nat -> bytes_ok raw -> (0 < size)%nat -> io_up s -> seq_room s ->
  exists s1 s2, hal_factory_format_set HAL_FACTORY_FIELD_MAC (Some (decode_mac raw)) s = Ret 0 s1 /\
    hal_factory_format_get HAL_FACTORY_FIELD_MAC size s1 =
      Ret (0, if nth 0 raw 0 =? 255 then [] else take (size - 1) (decode_mac raw)) s2.
Proof.
  intros Hl Hb Hsz Hu Hroom. set (m := mkFieldMeta K_OFF_MAC 6 true).
  assert (Hp : prepare m (decode_mac raw) = inl raw).
  { unfold prepare. cbn [fm_mac m]. by rewrite parse_decode_mac. }
  assert (Hvb : bytes_ok (decode_mac raw)).
  { do 6 (destruct raw as [|? raw]; [done|]). destruct raw; [|done].
    unfold bytes_ok in Hb. rewrite !Forall_cons in Hb. unfold is_byte in Hb.
    assert (Hx : forall d, 0 <= d < 16 -> is_byte (hex_digit d)) by (intros; unfold hex_digit, is_byte; cif; lia).
    unfold decode_mac, hex2. cbn [app].
    repeat (apply Forall_cons_2; [first [apply Hx; lia|unfold is_byte; lia]|]). by apply Forall_nil_2. }
  destruct (base_data_ok s) as [Hbl _].
  destruct (returns_elim _ _ _ (set_up HAL_FACTORY_FIELD_MAC m _ raw s eq_refl Hp Hvb Hu Hroom))
    as (rc & s1 & E & -> & Hu1 & x & q & Ha & Hq).
  assert (Hnl : length (put_field m raw (decode_mac raw) (base_data s)) = HAL_FACTORY_SLOT_SIZE)
    by (eapply (length_put_field HAL_FACTORY_FIELD_MAC); auto).
  destruct (returns_elim _ _ _ (get_up HAL_FACTORY_FIELD_MAC m size _ s1 eq_refl Hsz Hu1 Ha)) as (r & s2 & E2 & -> & _).
  exists s1, s2. split; [done|]. rewrite E2. do 2 f_equal. unfold field_value, slot_mac. cbn [fm_mac m as_data].
  unfold new_record. rewrite sealed_flags by done. rewrite sealed_field by (unfold K_OFF_MAC; lia).
  assert (Ef : sub K_OFF_MAC 6 (put_field m raw (decode_mac raw) (base_data s)) = raw).
  { unfold put_field. cbn [fm_mac m fm_off]. rewrite <- Hl. apply sub_memcpy_at. rewrite Hbl. offsets. lia. }
  assert (E0 : nth K_OFF_MAC (put_field m raw (decode_mac raw) (base_data s)) 0 = nth 0 raw 0).
  { transitivity (nth 0 (sub K_OFF_MAC 6 (put_field m raw (decode_mac raw) (base_data s))) 0);
      [|by rewrite Ef]. unfold sub. rewrite nth_firstn. cbn [Nat.ltb Nat.leb]. rewrite nth_skipn.
    by rewrite Nat.add_0_r. }
  rewrite Ef. unfold slot_flags. rewrite E0. destruct (nth 0 raw 0 =? 255); cbn; [|done].
  by destruct (size - 1)%nat.
Qed.
End Storage.
