(* ===== verification/FactoryWitness.v ===== *)
(** A concrete medium for the factory identity block (256 bytes, with read
    errors on demand): the hypotheses of its properties can hold, and a read
    error at the wrong moment costs the newest record. *)
From S2P Require Import Prelude FactoryFormat FactoryProps.

(** The bytes, and which of the next reads fail; [None] is a medium that has
    seen an access outside its range. *)
Record medium : Type := mkMedium { md_image : list Z; md_fail : list bool }.

(** The medium keeps 256 bytes whatever it is given. *)
Definition fit (l : list Z) : list Z :=
  take HAL_FACTORY_EEPROM_SIZE (map u8 l ++ replicate HAL_FACTORY_EEPROM_SIZE 255).

#[export] Instance medium_io : FactoryIo medium := {|
  io_read addr len s :=
    let s' := mkMedium (md_image s) (tail (md_fail s)) in
    match md_fail s with
    | true :: _ => Ret (-1, []) s'
    | _ => Ret (0, sub addr len (fit (md_image s))) s'
    end;
  io_write addr data s :=
    Ret 0 (mkMedium (memcpy_at addr data (fit (md_image s))) (md_fail s))
|}.

Lemma length_fit l : length (fit l) = HAL_FACTORY_EEPROM_SIZE.
Proof. unfold fit. rewrite length_take, length_app, length_replicate. lia. Qed.

Lemma fit_bytes l : bytes_ok (fit l).
Proof.
  unfold fit. apply Forall_take, bytes_ok_app.
  - apply Forall_fmap, Forall_true. intros. cbn. apply u8_range.
  - apply bytes_ok_replicate. unfold is_byte; lia.
Qed.

Lemma fit_id l : length l = HAL_FACTORY_EEPROM_SIZE -> bytes_ok l -> fit l = l.
Proof.
  intros Hl Hb. unfold fit.
  assert (E : map u8 l = l).
  { clear Hl. induction Hb as [|b l Hx _ IH]; [done|]. cbn. rewrite IH. f_equal. by apply u8_small. }
  rewrite E, <- Hl. apply take_app_length.
Qed.

#[export] Instance medium_laws : FactoryIoLaws medium.
Proof.
  refine {| image s := fit (md_image s); rd_up s := md_fail s = []; io_up s := md_fail s = [] |}.
  - done.
  - intros. apply length_fit.
  - intros. apply fit_bytes.
  - intros [img fl] addr len Hr. unfold returns.
    by destruct fl as [|[] fl]; cbn -[fit]; (split; [|split; [|split]]).
  - intros [img fl] addr data Hr Hb. unfold returns. cbn [io_write medium_io md_image md_fail].
    assert (E : fit (memcpy_at addr data (fit img)) = memcpy_at addr data (fit img)).
    { apply fit_id.
      - rewrite length_memcpy_at; rewrite length_fit; [done|lia].
      - apply bytes_ok_memcpy; [done|apply fit_bytes]. }
    rewrite E. split; [by intros|]. split; [done|].
    pose proof (length_fit img) as Hl. split.
    + unfold memcpy_at. rewrite take_app_le by (rewrite length_take; lia).
      rewrite take_take. f_equal. lia.
    + unfold memcpy_at. rewrite app_assoc, drop_app_ge by (rewrite length_app, length_take; lia).
      rewrite length_app, length_take, Nat.min_l by lia. by rewrite Nat.sub_diag, drop_0.
Defined.

(** ** Witnesses *)
Definition blank : medium := mkMedium [] [].
Definition sn1 : list Z := [65; 66; 49].                    (* "AB1" *)
Definition programmed : medium :=
  match hal_factory_format_set HAL_FACTORY_FIELD_SN (Some sn1) blank with Ret _ s => s | _ => blank end.

Lemma factory_set_get_witness :
  exists s1 s2, hal_factory_format_set HAL_FACTORY_FIELD_PN (Some [80; 55]) programmed = Ret 0 s1 /\
    hal_factory_format_get HAL_FACTORY_FIELD_PN 17 s1 = Ret (0, [80; 55]) s2.
Proof.
  destruct (factory_set_get HAL_FACTORY_FIELD_PN (mkFieldMeta K_OFF_PN 16 false) [80; 55] 17 programmed)
    as (s1 & E & (s2 & E2) & _).
  - reflexivity.
  - reflexivity.
  - apply (bool_decide_eq_true_1 (bytes_ok _)). reflexivity.
  - cbn. lia.
  - split; discriminate.
  - lia.
  - reflexivity.
  - vm_compute. reflexivity.
  - exists s1, s2. split; [exact E|exact E2].
Defined.

Lemma factory_mac_roundtrip_witness :
  exists s1 s2, hal_factory_format_set HAL_FACTORY_FIELD_MAC (Some (decode_mac [2; 0; 0; 171; 205; 239])) programmed
      = Ret 0 s1 /\
    hal_factory_format_get HAL_FACTORY_FIELD_MAC 18 s1 = Ret (0, decode_mac [2; 0; 0; 171; 205; 239]) s2.
Proof.
  destruct (factory_mac_roundtrip [2; 0; 0; 171; 205; 239] 18 programmed) as (s1 & s2 & E & E2).
  - reflexivity.
  - apply (bool_decide_eq_true_1 (bytes_ok _)). reflexivity.
  - lia.
  - reflexivity.
  - vm_compute. reflexivity.
  - exists s1, s2. split; [exact E|exact E2].
Defined.

(** The record in force on a programmed medium. *)
Definition record1 : active_slot_t :=
  match active programmed with (_, Some a) => a | _ => mkActive [] LetterA 0 end.

Lemma set_survives_power_loss_witness :
  exists rc s', hal_factory_format_set HAL_FACTORY_FIELD_PN (Some [80; 55]) programmed = Ret rc s' /\
    slot_at LetterA s' = as_data record1.
Proof.
  destruct (set_survives_power_loss HAL_FACTORY_FIELD_PN (mkFieldMeta K_OFF_PN 16 false) [80; 55]
              (replicate 6 0) programmed record1) as (rc & s' & E & Hk & _).
  - reflexivity.
  - reflexivity.
  - apply (bool_decide_eq_true_1 (bytes_ok _)). reflexivity.
  - reflexivity.
  - vm_compute. reflexivity.
  - exists rc, s'. split; [exact E|exact Hk].
Defined.

(** A record with the last sequence number. *)
Definition worn : medium :=
  mkMedium (seal_slot 4294967295 (replicate HAL_FACTORY_SLOT_SIZE 255)) [].
Definition record_worn : active_slot_t :=
  match active worn with (_, Some a) => a | _ => mkActive [] LetterA 0 end.

Lemma seq_wrap_hides_update_witness :
  exists s', hal_factory_format_set HAL_FACTORY_FIELD_PN (Some [80; 55]) worn = Ret 0 s' /\
    active s' = (0, Some record_worn).
Proof.
  apply (seq_wrap_hides_update HAL_FACTORY_FIELD_PN (mkFieldMeta K_OFF_PN 16 false) [80; 55]
           (replicate 6 0) worn record_worn).
  - reflexivity.
  - reflexivity.
  - apply (bool_decide_eq_true_1 (bytes_ok _)). reflexivity.
  - reflexivity.
  - vm_compute. reflexivity.
  - vm_compute. reflexivity.
Defined.

Lemma erase_forgets_witness :
  exists s1 s2, hal_factory_format_erase programmed = Ret 0 s1 /\
    hal_factory_format_read_all s1 = Ret (HAL_ERR_NOT_FOUND, info_zero) s2.
Proof. apply (erase_forgets programmed). reflexivity. Defined.

(** ** A read error at the wrong moment *)

(** Three updates: the serial number twice, then the product number while the
    first read (of slot A, which holds the newest record) fails once. *)
Definition sn_of (o : outcome medium Z) : option (list Z) :=
  match o with
  | Ret 0 s => match hal_factory_format_get HAL_FACTORY_FIELD_SN 33 s with Ret (0, v) _ => Some v | _ => None end
  | _ => None
  end.

Definition updates (fail : list bool) : outcome medium Z :=
  (hal_factory_format_set HAL_FACTORY_FIELD_SN (Some [79; 49]);;
   hal_factory_format_set HAL_FACTORY_FIELD_SN (Some [79; 50]);;
   hal_factory_format_set HAL_FACTORY_FIELD_SN (Some [79; 51]);;
   modify (fun s => mkMedium (md_image s) fail);;
   hal_factory_format_set HAL_FACTORY_FIELD_PN (Some [80])) blank.

(** [read_active] treats a slot it cannot read like
    an invalid one.  When the read of the slot in force fails once during a set
    of another field, the set takes the older record as its base and overwrites
    the newest one, and reports success: the serial number goes back to its
    previous value.  Without the read error it is kept. *)
Theorem read_error_loses_newest :
  sn_of (updates []) = Some [79; 51] /\ sn_of (updates [true]) = Some [79; 50].
Proof. split; vm_compute; reflexivity. Qed.
