(* ===== verification/MsBridging.v ===== *)
(** The master/slave bridging protocol
    ([app/Custom/Components/ms_bridging/ms_bridging.c] and [ms_bridging.h]):
    frames with a header CRC and a payload CRC, the byte parser, four slots each
    for incoming notifications and acknowledgements, requests and events with
    retries, and the typed requests built on them.

    Payload buffers live in an explicit heap, as in the host link.  The handler
    is the state (the tests for a null handler are not written).
    [ms_bridging_recv] runs in the receive interrupt: where a call waits on a
    semaphore, and before each slot of [ms_bridging_polling], it may be called
    any number of times with the bytes the environment gives it.  The
    environment also decides which allocations fail and what the transmit
    function returns.  Semaphores are only wake-ups here: how long a wait takes
    is the environment's choice. *)
From stdpp Require Import gmap.
From S2P Require Import Prelude Heap.

(** ** Constants *)
Definition MS_BR_BUF_MAX_SIZE : Z := 512.
Definition MS_BR_FRAME_BUF_NUM : nat := 4.
Definition MS_BR_WAIT_ACK_TIMEOUT_MS : Z := 500.
Definition MS_BR_WAIT_ACK_DELAY_MS : Z := 20.
Definition MS_BR_RETRY_TIMES : nat := 3.
Definition MS_BR_MAX_TICK_VALUE : Z := 4294967295.   (* osWaitForever *)
Definition MS_BR_FRAME_SOF : Z := 189.               (* 0xBD *)
Definition MS_BR_FRAME_HEADER_LEN : nat := 11.

(** Error codes; -0xBF and up. *)
Definition MS_BR_OK : Z := 0.
Definition MS_BR_ERR_INVALID_ARG : Z := -191.
Definition MS_BR_ERR_INVALID_STATE : Z := -190.
Definition MS_BR_ERR_NO_MEM : Z := -187.
Definition MS_BR_ERR_TIMEOUT : Z := -185.
Definition MS_BR_ERR_CRC_CHECK : Z := -184.
Definition MS_BR_ERR_UNKNOW : Z := -182.

Definition MS_BR_FRAME_TYPE_REQUEST : Z := 0.
Definition MS_BR_FRAME_TYPE_RESPONSE : Z := 1.
Definition MS_BR_FRAME_TYPE_EVENT : Z := 2.
Definition MS_BR_FRAME_TYPE_EVENT_ACK : Z := 3.

Definition MS_BR_FRAME_CMD_KEEPLIVE : Z := 0.
Definition MS_BR_FRAME_CMD_GET_TIME : Z := 1.
Definition MS_BR_FRAME_CMD_SET_TIME : Z := 2.
Definition MS_BR_FRAME_CMD_PWR_CTRL : Z := 3.
Definition MS_BR_FRAME_CMD_PWR_STATUS : Z := 4.
Definition MS_BR_FRAME_CMD_WKUP_FLAG : Z := 5.
Definition MS_BR_FRAME_CMD_KEY_VALUE : Z := 6.
Definition MS_BR_FRAME_CMD_PIR_VALUE : Z := 7.
Definition MS_BR_FRAME_CMD_CLEAR_FLAG : Z := 8.
Definition MS_BR_FRAME_CMD_RST_N6 : Z := 9.
Definition MS_BR_FRAME_CMD_PIR_CFG : Z := 10.
Definition MS_BR_FRAME_CMD_USB_VIN_VALUE : Z := 11.
Definition MS_BR_FRAME_CMD_GET_VERSION : Z := 12.

(** ** Data *)
Record ms_bridging_frame_header_t : Type := mkBrHeader {
  bh_sof : Z;
  bh_id : Z;
  bh_len : Z;
  bh_type : Z;
  bh_cmd : Z;
  bh_crc : Z
}.

(** The packed header, little-endian; the CRC covers the part before it. *)
Definition enc_br_body (h : ms_bridging_frame_header_t) : list Z :=
  le_enc 1 (bh_sof h) ++ le_enc 2 (bh_id h) ++ le_enc 2 (bh_len h) ++ le_enc 2 (bh_type h) ++
  le_enc 2 (bh_cmd h).
Definition enc_br_header (h : ms_bridging_frame_header_t) : list Z := enc_br_body h ++ le_enc 2 (bh_crc h).
Definition dec_br_header (l : list Z) : ms_bridging_frame_header_t := {|
  bh_sof := le_dec (sub 0 1 l);
  bh_id := le_dec (sub 1 2 l);
  bh_len := le_dec (sub 3 2 l);
  bh_type := le_dec (sub 5 2 l);
  bh_cmd := le_dec (sub 7 2 l);
  bh_crc := le_dec (sub 9 2 l)
|}.

Record ms_bridging_frame_t : Type := mkBrFrame {
  bf_header : ms_bridging_frame_header_t;
  bf_data : option ptr;
  bf_data_crc : Z;
  bf_is_valid : bool
}.

Definition br_header_zero : ms_bridging_frame_header_t := mkBrHeader 0 0 0 0 0 0.
Definition br_frame_zero : ms_bridging_frame_t := mkBrFrame br_header_zero None 0 false.

(** The size of the frame on the wire ([MS_BR_FRAME_ALL_LEN]). *)
Definition MS_BR_FRAME_ALL_LEN (f : ms_bridging_frame_t) : Z :=
  if 0 <? bh_len (bf_header f) then Z.of_nat MS_BR_FRAME_HEADER_LEN + bh_len (bf_header f) + 2
  else Z.of_nat MS_BR_FRAME_HEADER_LEN.

(** What the outside world decides: which allocations fail, what the transmit
    function returns, the tick, for each wait how long it takes and the calls of
    [ms_bridging_recv] meanwhile, and the calls at the interrupt points of the
    polling loop.  [w_sent] records what was handed to the transport. *)
Record world : Type := mkWorld {
  w_malloc_fails : list bool;
  w_send_results : list Z;
  w_tick : Z;
  w_waits : list (Z * list (list Z));
  w_irqs : list (list (list Z));
  w_sent : list (list Z)
}.

Record ms_bridging_handler_t : Type := mkBr {
  br_is_ready : bool;
  global_frame_id : Z;
  input_frame_len : Z;
  input_frame : ms_bridging_frame_t;
  ack_frame : list ms_bridging_frame_t;
  ack_frame_received_tick : list Z;
  notify_frame : list ms_bridging_frame_t;
  br_heap : gmap ptr (list Z);
  br_world : world
}.

Definition set_br_is_ready (v : bool) (r : ms_bridging_handler_t) : ms_bridging_handler_t :=
  mkBr v (global_frame_id r) (input_frame_len r) (input_frame r) (ack_frame r) (ack_frame_received_tick r) (notify_frame r) (br_heap r) (br_world r).
Definition set_global_frame_id (v : Z) (r : ms_bridging_handler_t) : ms_bridging_handler_t :=
  mkBr (br_is_ready r) v (input_frame_len r) (input_frame r) (ack_frame r) (ack_frame_received_tick r) (notify_frame r) (br_heap r) (br_world r).
Definition set_input_frame_len (v : Z) (r : ms_bridging_handler_t) : ms_bridging_handler_t :=
  mkBr (br_is_ready r) (global_frame_id r) v (input_frame r) (ack_frame r) (ack_frame_received_tick r) (notify_frame r) (br_heap r) (br_world r).
Definition set_input_frame (v : ms_bridging_frame_t) (r : ms_bridging_handler_t) : ms_bridging_handler_t :=
  mkBr (br_is_ready r) (global_frame_id r) (input_frame_len r) v (ack_frame r) (ack_frame_received_tick r) (notify_frame r) (br_heap r) (br_world r).
Definition set_ack_frame (v : list ms_bridging_frame_t) (r : ms_bridging_handler_t) : ms_bridging_handler_t :=
  mkBr (br_is_ready r) (global_frame_id r) (input_frame_len r) (input_frame r) v (ack_frame_received_tick r) (notify_frame r) (br_heap r) (br_world r).
Definition set_ack_frame_received_tick (v : list Z) (r : ms_bridging_handler_t) : ms_bridging_handler_t :=
  mkBr (br_is_ready r) (global_frame_id r) (input_frame_len r) (input_frame r) (ack_frame r) v (notify_frame r) (br_heap r) (br_world r).
Definition set_notify_frame (v : list ms_bridging_frame_t) (r : ms_bridging_handler_t) : ms_bridging_handler_t :=
  mkBr (br_is_ready r) (global_frame_id r) (input_frame_len r) (input_frame r) (ack_frame r) (ack_frame_received_tick r) v (br_heap r) (br_world r).
Definition set_br_heap (v : gmap ptr (list Z)) (r : ms_bridging_handler_t) : ms_bridging_handler_t :=
  mkBr (br_is_ready r) (global_frame_id r) (input_frame_len r) (input_frame r) (ack_frame r) (ack_frame_received_tick r) (notify_frame r) v (br_world r).
Definition set_br_world (v : world) (r : ms_bridging_handler_t) : ms_bridging_handler_t :=
  mkBr (br_is_ready r) (global_frame_id r) (input_frame_len r) (input_frame r) (ack_frame r) (ack_frame_received_tick r) (notify_frame r) (br_heap r) v.

Notation br := ms_bridging_handler_t.

(** ** The platform *)
Definition on_world (f : world -> world) : M br unit := modify (fun h => set_br_world (f (br_world h)) h).

Definition MS_BR_GET_TICK_MS : M br Z := gets (fun h => w_tick (br_world h)).

(** [(now > last) ? now - last : MAX - last + now], on 32 bits. *)
Definition MS_BR_TICK_DIFF_MS (last now : Z) : Z :=
  if last <? now then now - last else u32 (MS_BR_MAX_TICK_VALUE - last + now).

Definition MS_BR_MALLOC (n : Z) : M br (option ptr) :=
  w ← gets br_world;
  on_world (fun w => mkWorld (tail (w_malloc_fails w)) (w_send_results w) (w_tick w) (w_waits w) (w_irqs w) (w_sent w));;
  match w_malloc_fails w with
  | true :: _ => mret None
  | _ =>
      h ← get;
      let p := fresh (dom (br_heap h)) in
      modify (set_br_heap (<[p := replicate (Z.to_nat n) 0]> (br_heap h)));;
      mret (Some p)
  end.

(** Freeing a block that is not allocated is undefined. *)
Definition MS_BR_FREE (p : ptr) : M br unit :=
  m ← gets br_heap;
  match m !! p with
  | None => undef
  | Some _ => modify (set_br_heap (delete p m))
  end.

Definition br_load (p : ptr) : M br (list Z) :=
  m ← gets br_heap;
  match m !! p with None => undef | Some l => mret l end.

(** Copies [bs] into the block [p] at [off]; outside of it this is undefined. *)
Definition br_write (p : ptr) (off : Z) (bs : list Z) : M br unit :=
  l ← br_load p;
  if zlen l <? off + zlen bs then undef
  else modify (fun h => set_br_heap (<[p := memcpy_at (Z.to_nat off) bs l]> (br_heap h)) h).

(** ** CRC *)
Definition br_crc_bit (crc : Z) : Z :=
  if Z.testbit crc 15 then u16 (Z.lxor (Z.shiftl crc 1) 4129) else u16 (Z.shiftl crc 1).
Definition br_crc_byte (crc b : Z) : Z := Nat.iter 8 br_crc_bit (Z.lxor crc (u16 (Z.shiftl b 8))).
Definition ms_bridging_crc16 (l : list Z) : Z := foldl br_crc_byte 65535 l.
#[global] Arguments ms_bridging_crc16 : simpl never.

(** ** Slots *)
Fixpoint br_find_empty (l : list ms_bridging_frame_t) : option nat :=
  match l with
  | [] => None
  | f :: l' => if negb (bf_is_valid f) then Some 0%nat else S <$> br_find_empty l'
  end.
Definition ms_bridging_find_empty_ack_slot (h : br) : option nat := br_find_empty (ack_frame h).
Definition ms_bridging_find_empty_notify_slot (h : br) : option nat := br_find_empty (notify_frame h).

Definition set_bf_data (p : option ptr) (f : ms_bridging_frame_t) : ms_bridging_frame_t :=
  mkBrFrame (bf_header f) p (bf_data_crc f) (bf_is_valid f).
Definition set_bf_is_valid (v : bool) (f : ms_bridging_frame_t) : ms_bridging_frame_t :=
  mkBrFrame (bf_header f) (bf_data f) (bf_data_crc f) v.

Definition on_input (g : ms_bridging_frame_t -> ms_bridging_frame_t) : M br unit :=
  modify (fun h => set_input_frame (g (input_frame h)) h).

(** The frame added is the input frame of the handler. *)
Definition ms_bridging_add_ack_frame : M br Z :=
  h ← get;
  match ms_bridging_find_empty_ack_slot h with
  | None => mret MS_BR_ERR_NO_MEM
  | Some i =>
      modify (fun h => set_ack_frame (<[i := input_frame h]> (ack_frame h)) h);;
      now ← MS_BR_GET_TICK_MS;
      modify (fun h => set_ack_frame_received_tick (<[i := now]> (ack_frame_received_tick h)) h);;
      on_input (set_bf_data None);;
      mret MS_BR_OK
  end.

Definition ms_bridging_add_notify_frame : M br Z :=
  h ← get;
  match ms_bridging_find_empty_notify_slot h with
  | None => mret MS_BR_ERR_NO_MEM
  | Some i =>
      modify (fun h => set_notify_frame (<[i := input_frame h]> (notify_frame h)) h);;
      on_input (set_bf_data None);;
      mret MS_BR_OK
  end.

(** The payload bytes the CRC is taken over, when there is a payload. *)
Definition br_payload (f : ms_bridging_frame_t) : M br (option (list Z)) :=
  match bf_data f with
  | Some p =>
      if 0 <? bh_len (bf_header f) then
        l ← br_load p;
        if zlen l <? bh_len (bf_header f) then undef
        else mret (Some (take (Z.to_nat (bh_len (bf_header f))) l))
      else mret None
  | None => mret None
  end.

Definition ms_bridging_check_frame_crc (f : ms_bridging_frame_t) : M br Z :=
  if negb (ms_bridging_crc16 (enc_br_body (bf_header f)) =? bh_crc (bf_header f)) then mret MS_BR_ERR_CRC_CHECK
  else
    pay ← br_payload f;
    match pay with
    | Some l => mret (if negb (ms_bridging_crc16 l =? bf_data_crc f) then MS_BR_ERR_CRC_CHECK else MS_BR_OK)
    | None => mret MS_BR_OK
    end.

(** ** Receiving *)
Definition ms_bridging_deal_input_frame : M br unit :=
  f ← gets input_frame;
  ret ← ms_bridging_check_frame_crc f;
  ret ← (if ret =? MS_BR_OK then
           on_input (set_bf_is_valid true);;
           let ty := bh_type (bf_header f) in
           if (ty =? MS_BR_FRAME_TYPE_EVENT) || (ty =? MS_BR_FRAME_TYPE_REQUEST) then ms_bridging_add_notify_frame
           else if (ty =? MS_BR_FRAME_TYPE_EVENT_ACK) || (ty =? MS_BR_FRAME_TYPE_RESPONSE) then ms_bridging_add_ack_frame
           else mret MS_BR_ERR_UNKNOW
         else mret ret);
  d ← gets (fun h => bf_data (input_frame h));
  match d with
  | Some p => if negb (ret =? MS_BR_OK) then MS_BR_FREE p;; on_input (set_bf_data None) else mret tt
  | None => mret tt
  end;;
  modify (set_input_frame_len 0);;
  on_input (set_bf_is_valid false).

(** The label [ms_bridging_recv_err]. *)
Definition recv_err : M br unit :=
  d ← gets (fun h => bf_data (input_frame h));
  match d with
  | Some p => MS_BR_FREE p;; on_input (set_bf_data None)
  | None => mret tt
  end;;
  modify (set_input_frame_len 0);;
  on_input (set_bf_is_valid false).

(** Writing one byte of the header, and of the payload CRC. *)
Definition put_header_byte (k : nat) (b : Z) (f : ms_bridging_frame_t) : ms_bridging_frame_t :=
  mkBrFrame (dec_br_header (<[k := b]> (enc_br_header (bf_header f)))) (bf_data f) (bf_data_crc f) (bf_is_valid f).
Definition put_crc_byte (k : nat) (b : Z) (f : ms_bridging_frame_t) : ms_bridging_frame_t :=
  mkBrFrame (bf_header f) (bf_data f) (le_dec (<[k := b]> (le_enc 2 (bf_data_crc f)))) (bf_is_valid f).

Definition count_byte : M br unit := modify (fun h => set_input_frame_len (u16 (input_frame_len h + 1)) h).

(** The buffer of the payload, allocated at its first byte. *)
Definition input_data : M br (option ptr) :=
  f ← gets input_frame;
  match bf_data f with
  | Some p => mret (Some p)
  | None =>
      p ← MS_BR_MALLOC (bh_len (bf_header f));
      on_input (set_bf_data p);;
      mret p
  end.

(** The part of the frame the byte belongs to; [false] when there is no memory. *)
Definition recv_store (b : Z) : M br bool :=
  n ← gets input_frame_len;
  f ← gets input_frame;
  let hlen := Z.of_nat MS_BR_FRAME_HEADER_LEN in
  if n <? hlen then
    on_input (put_header_byte (Z.to_nat n) b);; count_byte;; mret true
  else if n <? hlen + bh_len (bf_header f) then
    d ← input_data;
    match d with
    | None => mret false
    | Some p => br_write p (n - hlen) [b];; count_byte;; mret true
    end
  else if n <? MS_BR_FRAME_ALL_LEN f then
    on_input (put_crc_byte (Z.to_nat (n - hlen - bh_len (bf_header f))) b);; count_byte;; mret true
  else mret true.

(** One round of the loop of [ms_bridging_recv]; [false] leaves the function. *)
Definition recv_byte (b : Z) : M br bool :=
  h ← get;
  if negb (br_is_ready h) then mret false
  else if (input_frame_len h =? 0) && negb (b =? MS_BR_FRAME_SOF) then mret false
  else if MS_BR_BUF_MAX_SIZE <? input_frame_len h then recv_err;; mret false
  else
    stored ← recv_store b;
    if negb stored : bool then recv_err;; mret false
    else
      h ← get;
      (if input_frame_len h =? MS_BR_FRAME_ALL_LEN (input_frame h) then ms_bridging_deal_input_frame else mret tt);;
      mret true.

Fixpoint ms_bridging_recv (buf : list Z) : M br unit :=
  match buf with
  | [] => mret tt
  | b :: buf' => go ← recv_byte b; if go : bool then ms_bridging_recv buf' else mret tt
  end.

(** Successive calls of the receive interrupt. *)
Fixpoint recv_chunks (chunks : list (list Z)) : M br unit :=
  match chunks with
  | [] => mret tt
  | c :: cs => ms_bridging_recv c;; recv_chunks cs
  end.

(** ** Sending

    A frame to be sent has its payload in a buffer of the caller: a null pointer
    or the bytes it points at. *)
Definition out_payload (hdr : ms_bridging_frame_header_t) (data : option (list Z)) : M br (option (list Z)) :=
  match data with
  | Some l => if 0 <? bh_len hdr then
                if zlen l <? bh_len hdr then undef else mret (Some (take (Z.to_nat (bh_len hdr)) l))
              else mret None
  | None => mret None
  end.

(** The header with its CRC, and the CRC of the payload (0 when there is none). *)
Definition ms_bridging_calculate_frame_crc (hdr : ms_bridging_frame_header_t) (pay : option (list Z))
  : ms_bridging_frame_header_t * Z :=
  (mkBrHeader (bh_sof hdr) (bh_id hdr) (bh_len hdr) (bh_type hdr) (bh_cmd hdr) (ms_bridging_crc16 (enc_br_body hdr)),
   match pay with Some l => ms_bridging_crc16 l | None => 0 end).

(** A header for a new frame, with the next frame number. *)
Definition ms_bridging_build_frame (type cmd len : Z) : M br ms_bridging_frame_header_t :=
  id ← gets global_frame_id;
  modify (set_global_frame_id (u16 (id + 1)));;
  mret (mkBrHeader MS_BR_FRAME_SOF id len type cmd 0).

Definition send_func (bytes : list Z) : M br Z :=
  w ← gets br_world;
  on_world (fun w => mkWorld (w_malloc_fails w) (tail (w_send_results w)) (w_tick w) (w_waits w) (w_irqs w)
                       (w_sent w ++ [bytes]));;
  mret (default 0 (head (w_send_results w))).

(** The length of the buffer is a 16-bit number. *)
Definition ms_bridging_send_frame (hdr : ms_bridging_frame_header_t) (data : option (list Z)) : M br Z :=
  pay ← out_payload hdr data;
  let '(hdr, data_crc) := ms_bridging_calculate_frame_crc hdr pay in
  let hlen := Z.of_nat MS_BR_FRAME_HEADER_LEN in
  let len := match pay with Some _ => u16 (hlen + (bh_len hdr + 2)) | None => hlen end in
  buf ← MS_BR_MALLOC len;
  match buf with
  | None => mret MS_BR_ERR_NO_MEM
  | Some p =>
      br_write p 0 (enc_br_header hdr);;
      (if hlen <? len then
         match pay with
         | Some l => br_write p hlen l;; br_write p (hlen + bh_len hdr) (le_enc 2 data_crc)
         | None => mret tt
         end
       else mret tt);;
      bytes ← br_load p;
      ret ← send_func bytes;
      MS_BR_FREE p;;
      mret ret
  end.

(** ** Waiting *)

(** Time passes and the receive interrupt runs. *)
Definition pass_time (dt : Z) (chunks : list (list Z)) : M br unit :=
  on_world (fun w => mkWorld (w_malloc_fails w) (w_send_results w) (w_tick w +u dt) (w_waits w) (w_irqs w) (w_sent w));;
  recv_chunks chunks.

(** A wait of at most [ms]; when the environment has nothing more in store it
    times out. *)
Definition MS_BR_SEM_WAIT (ms : Z) : M br unit :=
  w ← gets br_world;
  match w_waits w with
  | [] => pass_time ms []
  | (dt, chunks) :: ws =>
      on_world (fun w => mkWorld (w_malloc_fails w) (w_send_results w) (w_tick w) ws (w_irqs w) (w_sent w));;
      pass_time dt chunks
  end.

(** A point of the polling loop where the interrupt may run. *)
Definition irq_point : M br unit :=
  w ← gets br_world;
  match w_irqs w with
  | [] => mret tt
  | chunks :: rest =>
      on_world (fun w => mkWorld (w_malloc_fails w) (w_send_results w) (w_tick w) (w_waits w) rest (w_sent w));;
      recv_chunks chunks
  end.

Definition br_ack_match (type cmd id : Z) (f : ms_bridging_frame_t) : bool :=
  bf_is_valid f && (bh_id (bf_header f) =? id) && (bh_cmd (bf_header f) =? cmd) &&
  (bh_type (bf_header f) =? type).

Fixpoint br_find_ack (type cmd id : Z) (l : list ms_bridging_frame_t) : option nat :=
  match l with
  | [] => None
  | f :: l' => if br_ack_match type cmd id f then Some 0%nat else S <$> br_find_ack type cmd id l'
  end.

Definition vacate (f : ms_bridging_frame_t) : ms_bridging_frame_t := set_bf_is_valid false (set_bf_data None f).

Fixpoint ack_loop (fuel : nat) (start_tick type cmd id : Z) : M br (Z * ms_bridging_frame_t) :=
  match fuel with
  | O => fun _ => NoFuel
  | S fuel' =>
      MS_BR_SEM_WAIT MS_BR_WAIT_ACK_DELAY_MS;;
      h ← get;
      if negb (br_is_ready h) then mret (MS_BR_ERR_INVALID_STATE, br_frame_zero)
      else
        match br_find_ack type cmd id (ack_frame h) with
        | Some i =>
            match ack_frame h !! i with
            | None => undef
            | Some f =>
                modify (set_ack_frame (<[i := vacate f]> (ack_frame h)));;
                mret (MS_BR_OK, f)
            end
        | None =>
            now ← MS_BR_GET_TICK_MS;
            if MS_BR_TICK_DIFF_MS start_tick now <? MS_BR_WAIT_ACK_TIMEOUT_MS
            then ack_loop fuel' start_tick type cmd id
            else mret (MS_BR_ERR_TIMEOUT, br_frame_zero)
        end
  end.

Definition ms_bridging_wait_for_ack (fuel : nat) (type cmd id : Z) : M br (Z * ms_bridging_frame_t) :=
  start_tick ← MS_BR_GET_TICK_MS;
  ack_loop fuel start_tick type cmd id.

(** ** Requests, responses, events *)

(** What the caller of a request gets of the reply: a copy in a new block, when
    it asked for one. *)
Definition reply_out (want : bool) (f : ms_bridging_frame_t) : M br (Z * option (ptr * Z)) :=
  match bf_data f with
  | Some q =>
      let len := bh_len (bf_header f) in
      if (0 <? len) && want then
        out ← MS_BR_MALLOC len;
        match out with
        | None => MS_BR_FREE q;; mret (MS_BR_ERR_NO_MEM, None)
        | Some p =>
            l ← br_load q;
            if zlen l <? len then undef
            else
              br_write p 0 (take (Z.to_nat len) l);;
              MS_BR_FREE q;;
              mret (MS_BR_OK, Some (p, len))
        end
      else mret (MS_BR_OK, None)
  | None => mret (MS_BR_OK, None)
  end.

Fixpoint br_request_loop (fuel retries : nat) (hdr : ms_bridging_frame_header_t) (data : option (list Z)) (want : bool)
  : M br (Z * option (ptr * Z)) :=
  rdy ← gets br_is_ready;
  if negb rdy : bool then mret (MS_BR_ERR_INVALID_STATE, None)
  else
    ret ← ms_bridging_send_frame hdr data;
    if negb (ret =? MS_BR_OK) then mret (ret, None)
    else
      '(ret, ack) ← ms_bridging_wait_for_ack fuel MS_BR_FRAME_TYPE_RESPONSE (bh_cmd hdr) (bh_id hdr);
      if ret =? MS_BR_OK then reply_out want ack
      else match retries with
           | O => mret (ret, None)
           | S n => br_request_loop fuel n hdr data want
           end.

(** [want]: both output pointers are given. *)
Definition ms_bridging_request (fuel : nat) (cmd : Z) (data : option (list Z)) (len : Z) (want : bool)
  : M br (Z * option (ptr * Z)) :=
  hdr ← ms_bridging_build_frame MS_BR_FRAME_TYPE_REQUEST cmd len;
  br_request_loop fuel MS_BR_RETRY_TIMES hdr data want.

Definition ms_bridging_response (req : ms_bridging_frame_t) (data : option (list Z)) (len : Z) : M br Z :=
  ms_bridging_send_frame
    (mkBrHeader MS_BR_FRAME_SOF (bh_id (bf_header req)) len MS_BR_FRAME_TYPE_RESPONSE (bh_cmd (bf_header req)) 0) data.

Fixpoint br_event_loop (fuel retries : nat) (hdr : ms_bridging_frame_header_t) (data : option (list Z)) : M br Z :=
  rdy ← gets br_is_ready;
  if negb rdy : bool then mret MS_BR_ERR_INVALID_STATE
  else
    ret ← ms_bridging_send_frame hdr data;
    if negb (ret =? MS_BR_OK) then mret ret
    else
      '(ret, _) ← ms_bridging_wait_for_ack fuel MS_BR_FRAME_TYPE_EVENT_ACK (bh_cmd hdr) (bh_id hdr);
      if ret =? MS_BR_OK then mret ret
      else match retries with
           | O => mret ret
           | S n => br_event_loop fuel n hdr data
           end.

Definition ms_bridging_send_event (fuel : nat) (cmd : Z) (data : option (list Z)) (len : Z) : M br Z :=
  hdr ← ms_bridging_build_frame MS_BR_FRAME_TYPE_EVENT cmd len;
  br_event_loop fuel MS_BR_RETRY_TIMES hdr data.

Definition ms_bridging_event_ack (event : ms_bridging_frame_t) : M br Z :=
  ms_bridging_send_frame
    (mkBrHeader MS_BR_FRAME_SOF (bh_id (bf_header event)) 0 MS_BR_FRAME_TYPE_EVENT_ACK (bh_cmd (bf_header event)) 0) None.

(** ** Polling *)
Section Polling.
(** The notify callback reads the slot's frame and may use the link; it does not
    write the slot. *)
Context (notify_cb : ms_bridging_frame_t -> M br unit).

Definition free_data (f : ms_bridging_frame_t) : M br unit :=
  match bf_data f with Some p => MS_BR_FREE p | None => mret tt end.

(** The notification of slot [i]. *)
Definition poll_notify (i : nat) : M br unit :=
  h ← get;
  match notify_frame h !! i with
  | None => undef
  | Some f =>
      if bf_is_valid f then
        notify_cb f;;
        free_data f;;
        modify (fun h => set_notify_frame (<[i := vacate f]> (notify_frame h)) h)
      else mret tt
  end.

Definition poll_ack (i : nat) : M br unit :=
  h ← get;
  match ack_frame h !! i, ack_frame_received_tick h !! i with
  | Some f, Some t =>
      if bf_is_valid f then
        now ← MS_BR_GET_TICK_MS;
        if MS_BR_WAIT_ACK_TIMEOUT_MS <=? MS_BR_TICK_DIFF_MS t now then
          free_data f;;
          modify (fun h => set_ack_frame (<[i := vacate f]> (ack_frame h)) h)
        else mret tt
      else mret tt
  | _, _ => undef
  end.

Fixpoint poll_slots (ks : list nat) : M br unit :=
  match ks with
  | [] => mret tt
  | i :: ks' =>
      irq_point;;
      rdy ← gets br_is_ready;
      if negb rdy : bool then mret tt
      else
        poll_notify i;;
        rdy ← gets br_is_ready;
        if negb rdy : bool then mret tt else poll_ack i;; poll_slots ks'
  end.

Definition ms_bridging_polling : M br unit :=
  poll_slots (seq 0 MS_BR_FRAME_BUF_NUM);;
  rdy ← gets br_is_ready;
  if rdy : bool then MS_BR_SEM_WAIT MS_BR_WAIT_ACK_DELAY_MS else pass_time MS_BR_WAIT_ACK_DELAY_MS [].
End Polling.

(** ** Life cycle *)
Definition br_fresh (w : world) : br :=
  mkBr true 0 0 br_frame_zero (replicate MS_BR_FRAME_BUF_NUM br_frame_zero) (replicate MS_BR_FRAME_BUF_NUM 0)
    (replicate MS_BR_FRAME_BUF_NUM br_frame_zero) ∅ w.

(** The semaphores and the handler, created and released. *)
Inductive br_obj : Type := BrHandler | BrAckSem | BrNotifySem.
Inductive br_op : Type := BrCreate (o : br_obj) | BrDelete (o : br_obj).

(** The new handler, if any, and what happened to the objects it holds; the three
    booleans tell which of them could be created. *)
Definition ms_bridging_init (send_null cb_null handler_ok ack_ok notify_ok : bool) (w : world) : option br * list br_op :=
  if send_null || cb_null then (None, [])
  else if negb handler_ok then (None, [])
  else if negb ack_ok then (None, [BrCreate BrHandler; BrDelete BrHandler])
  else if negb notify_ok then
    (None, [BrCreate BrHandler; BrCreate BrAckSem; BrDelete BrAckSem; BrDelete BrHandler])
  else (Some (br_fresh w), [BrCreate BrHandler; BrCreate BrAckSem; BrCreate BrNotifySem]).

(** Releases the payload of one slot, if it has one. *)
Definition drop_slot (slots : br -> list ms_bridging_frame_t) (put : list ms_bridging_frame_t -> br -> br) (i : nat)
  : M br unit :=
  h ← get;
  match slots h !! i with
  | None => undef
  | Some f =>
      match bf_data f with
      | Some p => MS_BR_FREE p;; modify (fun h => put (<[i := vacate f]> (slots h)) h)
      | None => mret tt
      end
  end.

Fixpoint drop_slots (ks : list nat) : M br unit :=
  match ks with
  | [] => mret tt
  | i :: ks' =>
      drop_slot ack_frame set_ack_frame i;;
      drop_slot notify_frame set_notify_frame i;;
      drop_slots ks'
  end.

Definition ms_bridging_deinit : M br (list br_op) :=
  modify (set_br_is_ready false);;
  drop_slots (seq 0 MS_BR_FRAME_BUF_NUM);;
  d ← gets (fun h => bf_data (input_frame h));
  match d with
  | Some p => MS_BR_FREE p;; on_input vacate
  | None => mret tt
  end;;
  mret [BrDelete BrAckSem; BrDelete BrNotifySem; BrDelete BrHandler].

(** ** Typed requests *)
Record ms_bridging_time_t : Type := mkBrTime {
  bt_year : Z; bt_month : Z; bt_day : Z; bt_week : Z; bt_hour : Z; bt_minute : Z; bt_second : Z
}.
Definition enc_time (t : ms_bridging_time_t) : list Z :=
  le_enc 2 (bt_year t) ++ le_enc 1 (bt_month t) ++ le_enc 1 (bt_day t) ++ le_enc 1 (bt_week t) ++
  le_enc 1 (bt_hour t) ++ le_enc 1 (bt_minute t) ++ le_enc 1 (bt_second t).
Definition dec_time (l : list Z) : ms_bridging_time_t :=
  mkBrTime (le_dec (sub 0 2 l)) (le_dec (sub 2 1 l)) (le_dec (sub 3 1 l)) (le_dec (sub 4 1 l)) (le_dec (sub 5 1 l))
    (le_dec (sub 6 1 l)) (le_dec (sub 7 1 l)).
Definition sizeof_time : Z := 8.

Record ms_bridging_alarm_t : Type := mkBrAlarm {
  ba_is_valid : Z; ba_week_day : Z; ba_date : Z; ba_hour : Z; ba_minute : Z; ba_second : Z
}.
Definition enc_alarm (a : ms_bridging_alarm_t) : list Z :=
  le_enc 1 (ba_is_valid a) ++ le_enc 1 (ba_week_day a) ++ le_enc 1 (ba_date a) ++ le_enc 1 (ba_hour a) ++
  le_enc 1 (ba_minute a) ++ le_enc 1 (ba_second a).

Record ms_bridging_power_ctrl_t : Type := mkBrPower {
  bp_power_mode : Z; bp_switch_bits : Z; bp_wakeup_flags : Z; bp_sleep_second : Z;
  bp_alarm_a : ms_bridging_alarm_t; bp_alarm_b : ms_bridging_alarm_t
}.
Definition enc_power (c : ms_bridging_power_ctrl_t) : list Z :=
  le_enc 1 (bp_power_mode c) ++ le_enc 4 (bp_switch_bits c) ++ le_enc 4 (bp_wakeup_flags c) ++
  le_enc 4 (bp_sleep_second c) ++ enc_alarm (bp_alarm_a c) ++ enc_alarm (bp_alarm_b c).
Definition sizeof_power : Z := 25.

(** The nine bytes of the sensor configuration. *)
Record ms_bridging_pir_cfg_t : Type := mkBrPir {
  pir_sensitivity_level : Z; pir_ignore_time_s : Z; pir_pulse_count : Z; pir_window_time_s : Z; pir_motion_enable : Z;
  pir_interrupt_src : Z; pir_volt_select : Z; pir_reserved1 : Z; pir_reserved2 : Z
}.
Definition enc_pir (c : ms_bridging_pir_cfg_t) : list Z :=
  le_enc 1 (pir_sensitivity_level c) ++ le_enc 1 (pir_ignore_time_s c) ++ le_enc 1 (pir_pulse_count c) ++
  le_enc 1 (pir_window_time_s c) ++ le_enc 1 (pir_motion_enable c) ++ le_enc 1 (pir_interrupt_src c) ++
  le_enc 1 (pir_volt_select c) ++ le_enc 1 (pir_reserved1 c) ++ le_enc 1 (pir_reserved2 c).
Definition sizeof_pir : Z := 9.

(** A signed 32-bit number from its unsigned representation. *)
Definition to_i32 (v : Z) : Z := if v <? 2147483648 then v else v - 4294967296.

Record ms_bridging_version_t : Type := mkBrVersion { bv_major : Z; bv_minor : Z; bv_patch : Z; bv_build : Z }.
Definition dec_version (l : list Z) : ms_bridging_version_t :=
  mkBrVersion (to_i32 (le_dec (sub 0 4 l))) (to_i32 (le_dec (sub 4 4 l))) (to_i32 (le_dec (sub 8 4 l)))
    (to_i32 (le_dec (sub 12 4 l))).
Definition sizeof_version : Z := 16.

(** The bytes of a reply of the expected size [n]; the reply is freed in any case. *)
Definition fixed_reply (n : Z) (r : Z * option (ptr * Z)) : M br (Z * option (list Z)) :=
  match r with
  | (ret, Some (p, len)) =>
      if (ret =? MS_BR_OK) && (len =? n) then
        l ← br_load p;
        if zlen l <? n then undef else MS_BR_FREE p;; mret (ret, Some (take (Z.to_nat n) l))
      else MS_BR_FREE p;; mret (ret, None)
  | (ret, None) => mret (ret, None)
  end.

(** A request without payload whose reply is a 32-bit number. *)
Definition request_u32 (fuel : nat) (cmd : Z) : M br (Z * option Z) :=
  r ← ms_bridging_request fuel cmd None 0 true;
  '(ret, out) ← fixed_reply 4 r;
  mret (ret, le_dec <$> out).

Definition ms_bridging_request_keep_alive (fuel : nat) : M br Z :=
  '(ret, _) ← ms_bridging_request fuel MS_BR_FRAME_CMD_KEEPLIVE None 0 false; mret ret.

(** The result, and what is copied to the caller's structure, if anything. *)
Definition ms_bridging_request_get_time (fuel : nat) : M br (Z * option ms_bridging_time_t) :=
  r ← ms_bridging_request fuel MS_BR_FRAME_CMD_GET_TIME None 0 true;
  '(ret, out) ← fixed_reply sizeof_time r;
  mret (ret, dec_time <$> out).

Definition ms_bridging_request_set_time (fuel : nat) (t : ms_bridging_time_t) : M br Z :=
  '(ret, _) ← ms_bridging_request fuel MS_BR_FRAME_CMD_SET_TIME (Some (enc_time t)) sizeof_time false; mret ret.

Definition ms_bridging_request_power_control (fuel : nat) (c : ms_bridging_power_ctrl_t) : M br Z :=
  '(ret, _) ← ms_bridging_request fuel MS_BR_FRAME_CMD_PWR_CTRL (Some (enc_power c)) sizeof_power false; mret ret.

Definition ms_bridging_request_power_status (fuel : nat) : M br (Z * option Z) :=
  request_u32 fuel MS_BR_FRAME_CMD_PWR_STATUS.
Definition ms_bridging_request_wakeup_flag (fuel : nat) : M br (Z * option Z) :=
  request_u32 fuel MS_BR_FRAME_CMD_WKUP_FLAG.
Definition ms_bridging_request_key_value (fuel : nat) : M br (Z * option Z) :=
  request_u32 fuel MS_BR_FRAME_CMD_KEY_VALUE.
Definition ms_bridging_request_usb_vin_value (fuel : nat) : M br (Z * option Z) :=
  request_u32 fuel MS_BR_FRAME_CMD_USB_VIN_VALUE.
Definition ms_bridging_request_pir_value (fuel : nat) : M br (Z * option Z) :=
  request_u32 fuel MS_BR_FRAME_CMD_PIR_VALUE.

Definition ms_bridging_request_clear_flag (fuel : nat) : M br Z :=
  '(ret, _) ← ms_bridging_request fuel MS_BR_FRAME_CMD_CLEAR_FLAG None 0 false; mret ret.
Definition ms_bridging_request_reset_n6 (fuel : nat) : M br Z :=
  '(ret, _) ← ms_bridging_request fuel MS_BR_FRAME_CMD_RST_N6 None 0 false; mret ret.

Definition ms_bridging_event_key_value (fuel : nat) (v : Z) : M br Z :=
  ms_bridging_send_event fuel MS_BR_FRAME_CMD_KEY_VALUE (Some (le_enc 4 v)) 4.
Definition ms_bridging_event_usb_vin_value (fuel : nat) (v : Z) : M br Z :=
  ms_bridging_send_event fuel MS_BR_FRAME_CMD_USB_VIN_VALUE (Some (le_enc 4 v)) 4.
Definition ms_bridging_event_pir_value (fuel : nat) (v : Z) : M br Z :=
  ms_bridging_send_event fuel MS_BR_FRAME_CMD_PIR_VALUE (Some (le_enc 4 v)) 4.

(** The reply is the result of the configuration. *)
Definition ms_bridging_request_pir_cfg (fuel : nat) (c : option ms_bridging_pir_cfg_t) : M br Z :=
  r ← ms_bridging_request fuel MS_BR_FRAME_CMD_PIR_CFG (enc_pir <$> c)
        (match c with None => 0 | Some _ => sizeof_pir end) true;
  '(ret, out) ← fixed_reply 4 r;
  mret (match out with Some l => to_i32 (le_dec l) | None => ret end).

(** [want_version]: the output pointer is given. *)
Definition ms_bridging_request_version (fuel : nat) (want_version : bool) : M br (Z * option ms_bridging_version_t) :=
  r ← ms_bridging_request fuel MS_BR_FRAME_CMD_GET_VERSION None 0 true;
  '(ret, out) ← fixed_reply sizeof_version r;
  mret (ret, if want_version then dec_version <$> out else None).

(** ** The version string

    [sscanf] with "%d.%d.%d.%d": each number may be preceded by white space and a
    sign; the conversions stop at the first text that does not match, and the
    numbers not reached stay 0.  A number outside the range of [int] is undefined. *)
Definition scan_space (c : Z) : bool := (c =? 32) || ((9 <=? c) && (c <=? 13)).
Definition is_digit (c : Z) : bool := (48 <=? c) && (c <=? 57).

Fixpoint scan_digits (acc : Z) (l : list Z) : Z * list Z :=
  match l with
  | c :: l' => if is_digit c then scan_digits (acc * 10 + (c - 48)) l' else (acc, l)
  | [] => (acc, [])
  end.

Definition scan_unsigned (l : list Z) : option (Z * list Z) :=
  match l with
  | c :: _ => if is_digit c then Some (scan_digits 0 l) else None
  | [] => None
  end.

Fixpoint scan_d (l : list Z) : option (Z * list Z) :=
  match l with
  | c :: l' =>
      if scan_space c then scan_d l'
      else if c =? 45 then (fun '(v, r) => (- v, r)) <$> scan_unsigned l'
      else if c =? 43 then scan_unsigned l'
      else scan_unsigned l
  | [] => None
  end.

(** At most [n] numbers with dots between them. *)
Fixpoint scan_dotted (n : nat) (l : list Z) : list Z :=
  match n with
  | O => []
  | S n' =>
      match scan_d l with
      | None => []
      | Some (v, r) => v :: match r with c :: r' => if c =? 46 then scan_dotted n' r' else [] | [] => [] end
      end
  end.

Definition fits_int (v : Z) : bool := (-2147483648 <=? v) && (v <=? 2147483647).

(** [None] where the behaviour is undefined. *)
Definition ms_bridging_get_version_from_str (version_str : option (list Z)) (has_version : bool)
  : option (Z * option ms_bridging_version_t) :=
  match version_str with
  | Some l =>
      if negb has_version then Some (MS_BR_ERR_INVALID_ARG, None)
      else
        let vs := scan_dotted 4 l in
        if forallb fits_int vs
        then Some (MS_BR_OK, Some (mkBrVersion (nth 0 vs 0) (nth 1 vs 0) (nth 2 vs 0) (nth 3 vs 0)))
        else None
  | None => Some (MS_BR_ERR_INVALID_ARG, None)
  end.
