(* ===== verification/MsBridgingInv.v ===== *)
(** Memory safety of the bridging handler: the invariant with exact ownership of
    every heap block, and its preservation by the receive interrupt. *)
From stdpp Require Import gmap.
From S2P Require Import Prelude Heap MsBridging.

(** ** Headers as bytes *)
Definition half (v : Z) : Prop := 0 <= v < 65536.
Record br_header_wf (h : ms_bridging_frame_header_t) : Prop := {
  bw_sof : 0 <= bh_sof h < 256;
  bw_id : half (bh_id h);
  bw_len : half (bh_len h);
  bw_type : half (bh_type h);
  bw_cmd : half (bh_cmd h);
  bw_crc : half (bh_crc h)
}.

Lemma length_enc_br_header h : length (enc_br_header h) = MS_BR_FRAME_HEADER_LEN.
Proof. reflexivity. Qed.

Lemma bytes_ok_enc_br_header h : bytes_ok (enc_br_header h).
Proof. unfold enc_br_header, enc_br_body. auto 10 with buf. Qed.

Lemma dec_br_header_wf l : bytes_ok l -> br_header_wf (dec_br_header l).
Proof.
  intros H. assert (B : forall o n, 0 <= le_dec (sub o n l) < 256 ^ Z.of_nat n).
  { intros o n. pose proof (le_dec_bound (sub o n l) (bytes_ok_sub _ _ _ H)) as [? Hu]. split; [done|].
    eapply Z.lt_le_trans; [exact Hu|]. apply Z.pow_le_mono_r; [lia|].
    unfold zlen, sub. rewrite length_take. lia. }
  constructor; cbn [dec_br_header bh_sof bh_id bh_len bh_type bh_cmd bh_crc]; unfold half;
    first [exact (B 0%nat 1%nat) | exact (B 1%nat 2%nat) | exact (B 3%nat 2%nat) | exact (B 5%nat 2%nat)
          | exact (B 7%nat 2%nat) | exact (B 9%nat 2%nat)].
Qed.

Lemma dec_enc_br_header h : br_header_wf h -> dec_br_header (enc_br_header h) = h.
Proof.
  intros [? ? ? ? ? ?]. destruct h as [s i n t c k]. unfold half in *. cbn in *.
  unfold dec_br_header. cbn. f_equal; lia.
Qed.

Lemma enc_dec_br_header l :
  bytes_ok l -> length l = MS_BR_FRAME_HEADER_LEN -> enc_br_header (dec_br_header l) = l.
Proof.
  intros H L. do 12 (destruct l as [|? l]; try discriminate L). unfold bytes_ok in H.
  repeat match goal with H : Forall _ (_ :: _) |- _ => apply Forall_cons_1 in H as [? H] end. unfold is_byte in *.
  unfold enc_br_header, enc_br_body, dec_br_header. cbn. repeat (f_equal; [lia|]). f_equal. lia.
Qed.

Lemma put_header_wf k b f :
  is_byte b -> br_header_wf (bf_header (put_header_byte k b f)).
Proof.
  intros Hb. apply dec_br_header_wf. apply Forall_insert; [apply bytes_ok_enc_br_header|done].
Qed.

(** ** Frames *)
Definition datas (l : list ms_bridging_frame_t) : list ptr := omap bf_data l.

Definition data_ok (m : gmap ptr (list Z)) (f : ms_bridging_frame_t) : Prop :=
  match bf_data f with
  | None => bh_len (bf_header f) = 0
  | Some p => exists l, m !! p = Some l /\ zlen l = bh_len (bf_header f) /\ 0 < zlen l /\ bytes_ok l /\
                        bf_data_crc f = ms_bridging_crc16 l
  end.

(** A frame that passed the checks: both CRCs, and a payload of at most 500 bytes. *)
Record br_frame_good (m : gmap ptr (list Z)) (f : ms_bridging_frame_t) : Prop := {
  bg_crc : ms_bridging_crc16 (enc_br_body (bf_header f)) = bh_crc (bf_header f);
  bg_len : bh_len (bf_header f) <= 500;
  bg_data : data_ok m f
}.

Definition br_notify_type (t : Z) : bool := (t =? MS_BR_FRAME_TYPE_EVENT) || (t =? MS_BR_FRAME_TYPE_REQUEST).
Definition br_ack_type (t : Z) : bool := (t =? MS_BR_FRAME_TYPE_EVENT_ACK) || (t =? MS_BR_FRAME_TYPE_RESPONSE).

Definition br_slot_ok (ty : Z -> bool) (m : gmap ptr (list Z)) (f : ms_bridging_frame_t) : Prop :=
  if bf_is_valid f then ty (bh_type (bf_header f)) = true /\ br_frame_good m f else bf_data f = None.

Lemma data_ok_agree m m' f :
  data_ok m f -> (forall p, bf_data f = Some p -> m' !! p = m !! p) -> data_ok m' f.
Proof. unfold data_ok. destruct (bf_data f) as [p|]; [|done]. intros ? E. by rewrite (E p). Qed.

Lemma br_slots_agree ty m m' l :
  Forall (br_slot_ok ty m) l -> (forall p, p ∈ datas l -> m' !! p = m !! p) -> Forall (br_slot_ok ty m') l.
Proof.
  rewrite !Forall_forall. intros H E f Hf. specialize (H f Hf). unfold br_slot_ok in *.
  destruct (bf_is_valid f); [|done]. destruct H as [Ht []]. split; [done|]. constructor; auto.
  eapply data_ok_agree; [done|]. intros p Hp. apply E, list_elem_of_omap. eauto.
Qed.

(** ** The slots and the heap; [A] lists the blocks that are in no slot. *)
Record br_core (A : list ptr) (ns ks : list ms_bridging_frame_t) (m : gmap ptr (list Z)) : Prop := {
  bc_ns : length ns = MS_BR_FRAME_BUF_NUM;
  bc_ks : length ks = MS_BR_FRAME_BUF_NUM;
  bc_nok : Forall (br_slot_ok br_notify_type m) ns;
  bc_kok : Forall (br_slot_ok br_ack_type m) ks;
  bc_own : blocks m ≡ₚ datas ns ++ datas ks ++ A
}.

Section Core.
Context (A : list ptr) (ns ks : list ms_bridging_frame_t) (m : gmap ptr (list Z)).

Lemma br_core_perm A' : br_core A ns ks m -> A ≡ₚ A' -> br_core A' ns ks m.
Proof. intros [] E. constructor; auto. by rewrite bc_own0, E. Qed.

Lemma br_core_held p : br_core A ns ks m -> p ∈ A -> exists l, m !! p = Some l.
Proof. intros H Hp. apply blocks_lookup. rewrite (bc_own _ _ _ _ H), !elem_of_app. tauto. Qed.

Lemma br_core_apart p q : br_core (p :: A) ns ks m -> q ∈ datas ns ++ datas ks -> q <> p.
Proof.
  intros [_ _ _ _ E] Hq ->. pose proof (blocks_nodup m) as H. rewrite E, app_assoc in H.
  apply NoDup_app in H as (_ & H & _). apply (H p Hq). left.
Qed.

(** The heap changes outside the slots. *)
Lemma br_core_change B m' :
  br_core A ns ks m -> (forall q, q ∈ datas ns ++ datas ks -> m' !! q = m !! q) ->
  blocks m' ≡ₚ datas ns ++ datas ks ++ B -> br_core B ns ks m'.
Proof.
  intros [] E ?. constructor; auto; eapply br_slots_agree; try done; intros p Hp; apply E, elem_of_app; auto.
Qed.

Lemma br_core_alloc p l : br_core A ns ks m -> m !! p = None -> br_core (p :: A) ns ks (<[p := l]> m).
Proof.
  intros H Hp. apply br_core_change; [done|..].
  - intros q Hq. apply lookup_insert_ne. intros <-.
    destruct (blocks_lookup m p) as [? E]; [|by rewrite E in Hp].
    rewrite (bc_own _ _ _ _ H), app_assoc. apply elem_of_app; auto.
  - rewrite blocks_insert, (bc_own _ _ _ _ H) by done. solve_Permutation.
Qed.
End Core.

Section CoreMoves.
Context (A : list ptr) (ns ks : list ms_bridging_frame_t) (m : gmap ptr (list Z)).

Lemma br_core_free p : br_core (p :: A) ns ks m -> br_core A ns ks (delete p m).
Proof.
  intros H. destruct (br_core_held _ _ _ _ p H ltac:(left)) as [l Hl]. eapply br_core_change; [done|..].
  - intros q Hq. apply lookup_delete_ne. intros <-. by eapply br_core_apart.
  - apply (Permutation_cons_inv (a := p)).
    rewrite <- (blocks_delete m p l Hl), (bc_own _ _ _ _ H). solve_Permutation.
Qed.

Lemma br_core_store p l : br_core (p :: A) ns ks m -> br_core (p :: A) ns ks (<[p := l]> m).
Proof.
  intros H. destruct (br_core_held _ _ _ _ p H ltac:(left)) as [k Hk]. eapply br_core_change; [done|..].
  - intros q Hq. apply lookup_insert_ne. intros <-. by eapply br_core_apart.
  - rewrite (blocks_update _ _ _ k) by done. apply (bc_own _ _ _ _ H).
Qed.

(** A frame goes into a free slot, or out of a slot. *)
Lemma br_core_put_notify i g f :
  br_core (option_list (bf_data f) ++ A) ns ks m -> ns !! i = Some g -> bf_is_valid g = false ->
  br_slot_ok br_notify_type m f -> br_core A (<[i := f]> ns) ks m.
Proof.
  intros [] Hg Hv Hf. pose proof (Forall_lookup_1 _ _ _ _ bc_nok0 Hg) as Hk.
  unfold br_slot_ok in Hk. rewrite Hv in Hk. pose proof (omap_insert bf_data ns i f g Hg) as E.
  rewrite Hk in E. cbn in E. constructor; auto.
  - by rewrite length_insert.
  - by apply Forall_insert.
  - rewrite bc_own0. unfold datas. rewrite E. solve_Permutation.
Qed.

Lemma br_core_put_ack i g f :
  br_core (option_list (bf_data f) ++ A) ns ks m -> ks !! i = Some g -> bf_is_valid g = false ->
  br_slot_ok br_ack_type m f -> br_core A ns (<[i := f]> ks) m.
Proof.
  intros [] Hg Hv Hf. pose proof (Forall_lookup_1 _ _ _ _ bc_kok0 Hg) as Hk.
  unfold br_slot_ok in Hk. rewrite Hv in Hk. pose proof (omap_insert bf_data ks i f g Hg) as E.
  rewrite Hk in E. cbn in E. constructor; auto.
  - by rewrite length_insert.
  - by apply Forall_insert.
  - rewrite bc_own0. unfold datas. rewrite E. solve_Permutation.
Qed.

Lemma br_core_take_notify i f :
  br_core A ns ks m -> ns !! i = Some f ->
  br_core (option_list (bf_data f) ++ A) (<[i := vacate f]> ns) ks m.
Proof.
  intros [] Hf. pose proof (omap_insert bf_data ns i (vacate f) f Hf) as E. cbn in E. constructor; auto.
  - by rewrite length_insert.
  - by apply Forall_insert.
  - rewrite bc_own0. unfold datas. rewrite <- E. solve_Permutation.
Qed.

Lemma br_core_take_ack i f :
  br_core A ns ks m -> ks !! i = Some f ->
  br_core (option_list (bf_data f) ++ A) ns (<[i := vacate f]> ks) m.
Proof.
  intros [] Hf. pose proof (omap_insert bf_data ks i (vacate f) f Hf) as E. cbn in E. constructor; auto.
  - by rewrite length_insert.
  - by apply Forall_insert.
  - rewrite bc_own0. unfold datas. rewrite <- E. solve_Permutation.
Qed.
End CoreMoves.

(** ** The handler *)
Definition chunks_ok (cs : list (list Z)) : Prop := Forall bytes_ok cs.

Record world_ok (w : world) : Prop := {
  wo_waits : Forall (fun '(dt, cs) => 0 <= dt /\ chunks_ok cs) (w_waits w);
  wo_irqs : Forall chunks_ok (w_irqs w);
  wo_tick : 0 <= w_tick w < 4294967296
}.

(** What the parser has collected after [n] bytes; the buffer of the payload is
    there from its first byte on and has exactly the announced size. *)
Record input_ok (m : gmap ptr (list Z)) (n : Z) (f : ms_bridging_frame_t) : Prop := {
  in_header : br_header_wf (bf_header f);
  in_crc : half (bf_data_crc f);
  in_count : 0 <= n <= 513;
  in_data : match bf_data f with
            | None => n <= 11 /\ (n = 11 -> 0 < bh_len (bf_header f))
            | Some p => 11 < n < 11 + bh_len (bf_header f) + 2 /\
                        exists l, m !! p = Some l /\ zlen l = bh_len (bf_header f) /\ 0 < zlen l /\ bytes_ok l
            end
}.

Record br_inv (A : list ptr) (h : br) : Prop := {
  bi_core : br_core (option_list (bf_data (input_frame h)) ++ A) (notify_frame h) (ack_frame h) (br_heap h);
  bi_input : input_ok (br_heap h) (input_frame_len h) (input_frame h);
  bi_ticks : length (ack_frame_received_tick h) = MS_BR_FRAME_BUF_NUM;
  bi_world : world_ok (br_world h)
}.

(** What the receive interrupt leaves alone. *)
Record br_same (h h' : br) : Prop := {
  bs_ready : br_is_ready h' = br_is_ready h;
  bs_id : global_frame_id h' = global_frame_id h;
  bs_tick : w_tick (br_world h') = w_tick (br_world h);
  bs_waits : w_waits (br_world h') = w_waits (br_world h);
  bs_irqs : w_irqs (br_world h') = w_irqs (br_world h);
  bs_sends : w_send_results (br_world h') = w_send_results (br_world h);
  bs_sent : w_sent (br_world h') = w_sent (br_world h)
}.

#[export] Instance br_same_refl : Reflexive br_same.
Proof. by constructor. Qed.
#[export] Instance br_same_trans : Transitive br_same.
Proof. intros x y z [] []. constructor; congruence. Qed.

Definition received (A : list ptr) (h h' : br) : Prop := br_inv A h' /\ br_same h h'.

(** ** The platform *)
Definition pop_alloc (w : world) : world :=
  mkWorld (tail (w_malloc_fails w)) (w_send_results w) (w_tick w) (w_waits w) (w_irqs w) (w_sent w).

Lemma pop_alloc_ok w : world_ok w -> world_ok (pop_alloc w).
Proof. by intros []. Qed.

Lemma returns_br_malloc n h (Q : option ptr -> br -> Prop) :
  (head (w_malloc_fails (br_world h)) = Some true -> Q None (set_br_world (pop_alloc (br_world h)) h)) ->
  (forall p, br_heap h !! p = None ->
     Q (Some p) (set_br_heap (<[p := replicate (Z.to_nat n) 0]> (br_heap h)) (set_br_world (pop_alloc (br_world h)) h))) ->
  returns (MS_BR_MALLOC n) Q h.
Proof.
  intros HN HS. unfold MS_BR_MALLOC, on_world. rstep.
  assert (Hok : br_heap h !! fresh (dom (br_heap h)) = None) by (apply not_elem_of_dom, is_fresh).
  revert HN HS. unfold pop_alloc.
  destruct (w_malloc_fails (br_world h)) as [|[|] ?]; intros HN HS; rstep; [apply (HS _ Hok)|by apply HN|apply (HS _ Hok)].
Qed.

Lemma returns_br_free p l h (Q : unit -> br -> Prop) :
  br_heap h !! p = Some l -> Q tt (set_br_heap (delete p (br_heap h)) h) -> returns (MS_BR_FREE p) Q h.
Proof. intros E HQ. unfold MS_BR_FREE. rstep. rewrite E. by rstep. Qed.

Lemma returns_br_load p l h (Q : list Z -> br -> Prop) :
  br_heap h !! p = Some l -> Q l h -> returns (br_load p) Q h.
Proof. intros E HQ. unfold br_load. rstep. rewrite E. by rstep. Qed.

Lemma returns_br_write p off bs l h (Q : unit -> br -> Prop) :
  br_heap h !! p = Some l -> off + zlen bs <= zlen l ->
  Q tt (set_br_heap (<[p := memcpy_at (Z.to_nat off) bs l]> (br_heap h)) h) -> returns (br_write p off bs) Q h.
Proof.
  intros E HL HQ. unfold br_write. apply returns_bind. eapply returns_br_load; [done|].
  rewrite (proj2 (Z.ltb_ge _ _)) by lia. by rstep.
Qed.

(** ** A complete frame *)
Lemma br_find_empty_spec l i :
  br_find_empty l = Some i -> exists g, l !! i = Some g /\ bf_is_valid g = false.
Proof.
  revert i. induction l as [|f l IH]; intros i; cbn; [done|].
  destruct (bf_is_valid f) eqn:E; cbn; intros H.
  - destruct (br_find_empty l) as [j|]; [|done]. injection H as <-. by apply IH.
  - injection H as <-. by exists f.
Qed.

(** The input frame, all of whose bytes are there. *)
Record complete (A : list ptr) (h : br) : Prop := {
  cp_core : br_core (option_list (bf_data (input_frame h)) ++ A) (notify_frame h) (ack_frame h) (br_heap h);
  cp_header : br_header_wf (bf_header (input_frame h));
  cp_crc : half (bf_data_crc (input_frame h));
  cp_len : bh_len (bf_header (input_frame h)) <= 500;
  cp_data : match bf_data (input_frame h) with
            | None => bh_len (bf_header (input_frame h)) = 0
            | Some p => exists l, br_heap h !! p = Some l /\ zlen l = bh_len (bf_header (input_frame h)) /\
                                  0 < zlen l /\ bytes_ok l
            end;
  cp_ticks : length (ack_frame_received_tick h) = MS_BR_FRAME_BUF_NUM;
  cp_world : world_ok (br_world h)
}.

Lemma br_payload_ok A h :
  complete A h ->
  br_payload (input_frame h) h = Ret (match bf_data (input_frame h) with Some p => br_heap h !! p | None => None end) h.
Proof.
  intros [_ _ _ _ HD _ _]. unfold br_payload. destruct (bf_data (input_frame h)) as [p|]; [|done].
  destruct HD as (l & El & Ez & Hpos & _). rewrite (proj2 (Z.ltb_lt _ _)) by lia.
  unfold br_load. erewrite bind_ret_eq by (erewrite bind_ret_eq by reflexivity; rewrite El; reflexivity).
  rewrite Ez, Z.ltb_irrefl. rewrite <- Ez. unfold zlen. rewrite Nat2Z.id, take_ge, El by lia. done.
Qed.

(** The answer of the checks, and what a positive one says. *)
Lemma check_crc_ok A h :
  complete A h -> exists ret, ms_bridging_check_frame_crc (input_frame h) h = Ret ret h /\
    (ret = MS_BR_OK -> br_frame_good (br_heap h) (input_frame h)).
Proof.
  intros HC. unfold ms_bridging_check_frame_crc. destruct (_ =? bh_crc _) eqn:E1; cbn [negb].
  2:{ eexists. by split; [reflexivity|]. }
  rewrite (bind_ret_eq _ _ _ _ _ (br_payload_ok A h HC)). apply Z.eqb_eq in E1. destruct HC as [_ _ _ HL HD _ _].
  unfold data_ok in *. destruct (bf_data (input_frame h)) as [p|] eqn:Ed.
  - destruct HD as (l & El & Ez & Hpos & Hb). rewrite El. eexists. split; [reflexivity|].
    destruct (_ =? bf_data_crc _) eqn:E2; [|done]. apply Z.eqb_eq in E2. intros _. constructor; [done..|].
    unfold data_ok. rewrite Ed. by exists l.
  - eexists. split; [reflexivity|]. intros _. constructor; [done..|]. unfold data_ok. by rewrite Ed.
Qed.

(** The parser starts over. *)
Lemma br_inv_restart A h :
  br_core A (notify_frame h) (ack_frame h) (br_heap h) -> bf_data (input_frame h) = None ->
  br_header_wf (bf_header (input_frame h)) -> half (bf_data_crc (input_frame h)) ->
  length (ack_frame_received_tick h) = MS_BR_FRAME_BUF_NUM -> world_ok (br_world h) ->
  br_inv A (set_input_frame (set_bf_is_valid false (input_frame h)) (set_input_frame_len 0 h)).
Proof.
  intros HC Hd Hh Hc Ht Hw. constructor; cbn; try done; [by rewrite Hd|].
  constructor; cbn; [done|done|lia|]. rewrite Hd. split; lia.
Qed.

(** A payload collected so far is freed. *)
Lemma recv_err_ok A h0 h :
  br_core (option_list (bf_data (input_frame h)) ++ A) (notify_frame h) (ack_frame h) (br_heap h) ->
  br_header_wf (bf_header (input_frame h)) -> half (bf_data_crc (input_frame h)) ->
  length (ack_frame_received_tick h) = MS_BR_FRAME_BUF_NUM -> world_ok (br_world h) -> br_same h0 h ->
  returns recv_err (fun _ => received A h0) h.
Proof.
  intros HC Hh Hc Ht Hw HS. unfold recv_err. rstep. destruct (bf_data (input_frame h)) as [p|] eqn:Ed.
  - cbn in HC. destruct (br_core_held _ _ _ _ p HC ltac:(left)) as [l El]. rstep. apply returns_bind.
    eapply returns_br_free; [done|]. unfold on_input. rstep. split; [|destruct HS; by constructor].
    apply (br_inv_restart A (set_input_frame (set_bf_data None (input_frame h)) (set_br_heap (delete p (br_heap h)) h)));
      try done. cbn. by apply br_core_free.
  - unfold on_input. rstep. split; [|destruct HS; by constructor]. by apply (br_inv_restart A h).
Qed.

(** The input frame without its payload, which has moved to a slot. *)
Record moved (A : list ptr) (h : br) : Prop := {
  mv_core : br_core A (notify_frame h) (ack_frame h) (br_heap h);
  mv_data : bf_data (input_frame h) = None;
  mv_header : br_header_wf (bf_header (input_frame h));
  mv_crc : half (bf_data_crc (input_frame h));
  mv_ticks : length (ack_frame_received_tick h) = MS_BR_FRAME_BUF_NUM;
  mv_world : world_ok (br_world h)
}.

Definition filed (A : list ptr) (h0 h : br) (ret : Z) (h' : br) : Prop :=
  br_same h0 h' /\ (ret = MS_BR_OK /\ moved A h' \/ ret <> MS_BR_OK /\ h' = h).

Lemma br_add_notify_ok A h0 h :
  complete A h -> br_slot_ok br_notify_type (br_heap h) (input_frame h) -> br_same h0 h ->
  returns ms_bridging_add_notify_frame (filed A h0 h) h.
Proof.
  intros [HC Hh Hc _ _ Ht Hw] Hk HS. unfold ms_bridging_add_notify_frame, ms_bridging_find_empty_notify_slot, on_input.
  rstep. destruct (br_find_empty (notify_frame h)) as [i|] eqn:Ei; [|rstep; by split; [|right]].
  destruct (br_find_empty_spec _ _ Ei) as (g & Hg & Hv). rstep. split; [destruct HS; by constructor|].
  left. split; [done|]. constructor; cbn; try done. by eapply br_core_put_notify.
Qed.

Lemma br_add_ack_ok A h0 h :
  complete A h -> br_slot_ok br_ack_type (br_heap h) (input_frame h) -> br_same h0 h ->
  returns ms_bridging_add_ack_frame (filed A h0 h) h.
Proof.
  intros [HC Hh Hc _ _ Ht Hw] Hk HS. unfold ms_bridging_add_ack_frame, ms_bridging_find_empty_ack_slot, on_input, MS_BR_GET_TICK_MS.
  rstep. destruct (br_find_empty (ack_frame h)) as [i|] eqn:Ei; [|rstep; by split; [|right]].
  destruct (br_find_empty_spec _ _ Ei) as (g & Hg & Hv). rstep. split; [destruct HS; by constructor|].
  left. split; [done|]. constructor; cbn; try done; [by eapply br_core_put_ack|by rewrite length_insert].
Qed.

Lemma complete_valid A h v : complete A h -> complete A (set_input_frame (set_bf_is_valid v (input_frame h)) h).
Proof. intros []. constructor; assumption. Qed.

(** Dealing with a complete frame leaves the parser idle and every block owned. *)
Lemma deal_input_ok A h0 h :
  complete A h -> br_same h0 h -> returns ms_bridging_deal_input_frame (fun _ => received A h0) h.
Proof.
  intros HC HS. unfold ms_bridging_deal_input_frame. rstep.
  destruct (check_crc_ok A h HC) as (r & Er & Hgood). apply returns_bind. eapply returns_intro; [exact Er|].
  set (f := input_frame h) in *. apply returns_bind.
  eapply (returns_mono _ (fun ret h' => br_same h0 h' /\ (ret = MS_BR_OK /\ moved A h' \/ ret <> MS_BR_OK /\ complete A h'))).
  - destruct (r =? MS_BR_OK) eqn:E; [|rstep; by apply Z.eqb_neq in E; auto].
    apply Z.eqb_eq in E. specialize (Hgood E). unfold on_input. rstep.
    pose proof (complete_valid A h true HC) as HV. set (hv := set_input_frame _ h) in *.
    assert (HSv : br_same h0 hv) by (destruct HS; by constructor).
    assert (Hk : forall ty, ty (bh_type (bf_header f)) = true -> br_slot_ok ty (br_heap hv) (input_frame hv)).
    { intros ty Ht. split; [exact Ht|]. destruct Hgood. constructor; assumption. }
    assert (Hfin : forall ret h', filed A h0 hv ret h' ->
              br_same h0 h' /\ (ret = MS_BR_OK /\ moved A h' \/ ret <> MS_BR_OK /\ complete A h')).
    { intros ret h' [? [[? ?]|[? ->]]]; auto. }
    fold (br_notify_type (bh_type (bf_header f))) (br_ack_type (bh_type (bf_header f))).
    destruct (br_notify_type _) eqn:En; [eapply returns_mono; [by apply br_add_notify_ok; auto|done]|].
    destruct (br_ack_type _) eqn:Ek; [eapply returns_mono; [by apply br_add_ack_ok; auto|done]|].
    rstep. auto.
  - intros ret h' (HS' & [[-> HM]|[Hne HC']]).
    + destruct HM. rstep. rewrite mv_data0. unfold on_input. rstep.
      split; [by apply (br_inv_restart A h')|destruct HS'; by constructor].
    + apply Z.eqb_neq in Hne. destruct HC'. rewrite Hne.
      eapply returns_eq; [|by eapply recv_err_ok]. unfold recv_err. reflexivity.
Qed.

(** ** One byte *)

(** After a byte has been stored, before the test for a complete frame. *)
Record grown (A : list ptr) (h : br) : Prop := {
  gr_core : br_core (option_list (bf_data (input_frame h)) ++ A) (notify_frame h) (ack_frame h) (br_heap h);
  gr_header : br_header_wf (bf_header (input_frame h));
  gr_crc : half (bf_data_crc (input_frame h));
  gr_count : 0 < input_frame_len h <= 513;
  gr_data : match bf_data (input_frame h) with
            | None => input_frame_len h <= 11
            | Some p => 11 < input_frame_len h <= 11 + bh_len (bf_header (input_frame h)) + 2 /\
                        exists l, br_heap h !! p = Some l /\ zlen l = bh_len (bf_header (input_frame h)) /\
                                  0 < zlen l /\ bytes_ok l
            end;
  gr_ticks : length (ack_frame_received_tick h) = MS_BR_FRAME_BUF_NUM;
  gr_world : world_ok (br_world h)
}.

Lemma all_len_cases f :
  (0 < bh_len (bf_header f) /\ MS_BR_FRAME_ALL_LEN f = 11 + bh_len (bf_header f) + 2) \/
  (bh_len (bf_header f) <= 0 /\ MS_BR_FRAME_ALL_LEN f = 11).
Proof. unfold MS_BR_FRAME_ALL_LEN. destruct (0 <? _) eqn:E; [apply Z.ltb_lt in E|apply Z.ltb_ge in E]; auto. Qed.

Lemma grown_ok A h0 h :
  grown A h -> br_same h0 h ->
  returns (if input_frame_len h =? MS_BR_FRAME_ALL_LEN (input_frame h) then ms_bridging_deal_input_frame else mret tt)
    (fun _ => received A h0) h.
Proof.
  intros [HC Hh Hc Hn HD Ht Hw] HS. pose proof (bw_len _ Hh) as [Hl0 _].
  destruct (_ =? _) eqn:E; [apply Z.eqb_eq in E|apply Z.eqb_neq in E];
    destruct (all_len_cases (input_frame h)) as [[? Ea]|[? Ea]]; rewrite Ea in E.
  - apply deal_input_ok; [|done]. constructor; try done; [lia|].
    destruct (bf_data (input_frame h)); [by destruct HD|lia].
  - apply deal_input_ok; [|done]. constructor; try done; [lia|].
    destruct (bf_data (input_frame h)); [by destruct HD|lia].
  - rstep. split; [|done]. constructor; try done. constructor; try done; [lia|].
    destruct (bf_data (input_frame h)); [|lia]. destruct HD as [? (l & ? & ? & ? & ?)]. split; [lia|]. by exists l.
  - rstep. split; [|done]. constructor; try done. constructor; try done; [lia|].
    destruct (bf_data (input_frame h)); [|lia]. destruct HD as [? (l & ? & ? & ? & ?)]. lia.
Qed.

Lemma put_crc_half k b f : is_byte b -> half (bf_data_crc (put_crc_byte k b f)).
Proof.
  intros Hb. cbn. pose proof (le_dec_bound (<[k:=b]> (le_enc 2 (bf_data_crc f)))) as H.
  unfold zlen in H. rewrite length_insert in H. apply H. apply Forall_insert; [apply bytes_ok_le_enc|done].
Qed.

(** The payload buffer gets one more byte. *)
Lemma store_data_ok A h0 h p l b :
  br_core (p :: A) (notify_frame h) (ack_frame h) (br_heap h) -> bf_data (input_frame h) = Some p ->
  br_header_wf (bf_header (input_frame h)) -> half (bf_data_crc (input_frame h)) ->
  length (ack_frame_received_tick h) = MS_BR_FRAME_BUF_NUM -> world_ok (br_world h) -> br_same h0 h ->
  br_heap h !! p = Some l -> zlen l = bh_len (bf_header (input_frame h)) -> bytes_ok l -> is_byte b ->
  11 <= input_frame_len h <= 512 -> input_frame_len h < 11 + bh_len (bf_header (input_frame h)) ->
  returns (br_write p (input_frame_len h - 11) [b];; count_byte;; mret true)
    (fun ok h1 => ok = true /\ grown A h1 /\ br_same h0 h1) h.
Proof.
  intros HC Hd Hh Hc Ht Hw HS El Ez Hb Hbb Hn Hlt. apply returns_bind.
  eapply returns_br_write; [done|unfold zlen in *; cbn; lia|].
  unfold count_byte. rstep. split; [done|]. split; [|destruct HS; by constructor].
  set (l' := memcpy_at _ _ _). assert (El' : length l' = length l).
  { apply length_memcpy_at. unfold zlen in *. cbn. lia. }
  constructor; cbn; try done.
  - rewrite Hd. cbn. by apply br_core_store.
  - rewrite u16_small by lia. lia.
  - rewrite Hd, u16_small by lia. split; [lia|]. exists l'. rewrite lookup_insert_eq. unfold zlen in *. rewrite El'.
    split_and!; [done|lia|lia|]. unfold l', memcpy_at. apply bytes_ok_app; [by apply Forall_take|].
    apply bytes_ok_app; [by constructor|by apply Forall_drop].
Qed.

(** Without memory for the payload the parser is left as it was. *)
Definition stalled (A : list ptr) (h : br) : Prop := moved A h.

Lemma recv_store_ok A h b :
  br_inv A h -> is_byte b -> input_frame_len h <= 512 ->
  returns (recv_store b) (fun ok h1 => br_same h h1 /\ if ok : bool then grown A h1 else stalled A h1) h.
Proof.
  intros [HC [Hh Hc Hn HD] Ht Hw] Hb Hle. unfold recv_store. rstep. pose proof (bw_len _ Hh) as [Hl0 _].
  change (Z.of_nat MS_BR_FRAME_HEADER_LEN) with 11.
  destruct (_ <? 11) eqn:E1; [apply Z.ltb_lt in E1|apply Z.ltb_ge in E1].
  { destruct (bf_data (input_frame h)) as [p|] eqn:Ed; [lia|].
    unfold on_input, count_byte. rstep. split; [by constructor|].
    constructor; cbn; rewrite ?Ed, ?u16_small; try done; try lia. by apply put_header_wf. }
  destruct (_ <? 11 + _) eqn:E2; [apply Z.ltb_lt in E2|apply Z.ltb_ge in E2].
  { unfold input_data. rstep. destruct (bf_data (input_frame h)) as [p|] eqn:Ed.
    - rstep. destruct HD as [? (l & El & Ez & Hpos & Hbl)]. eapply returns_mono; [apply (store_data_ok A h h p l b); try done; lia|].
      by intros ? ? (-> & ? & ?).
    - assert (Hw' : world_ok (pop_alloc (br_world h))) by (by apply pop_alloc_ok).
      rstep. apply returns_bind. apply returns_br_malloc.
      + intros _. unfold on_input. rstep. split; [by constructor|]. constructor; cbn; try done.
      + intros p Hp. unfold on_input. rstep.
        set (l0 := replicate (Z.to_nat (bh_len (bf_header (input_frame h)))) 0).
        set (h1 := set_input_frame _ _). change (input_frame_len h) with (input_frame_len h1).
        eapply (returns_mono _ (fun ok h2 => ok = true /\ grown A h2 /\ br_same h h2)).
        * apply (store_data_ok A h h1 p l0 b); try done; cbn.
          -- by apply br_core_alloc.
          -- apply lookup_insert_eq.
          -- unfold zlen, l0. rewrite length_replicate. lia.
          -- apply bytes_ok_replicate. unfold is_byte. lia.
        * by intros ? ? (-> & ? & ?). }
  destruct (bf_data (input_frame h)) as [p|] eqn:Ed; [|lia]. destruct HD as [? (l & El & Ez & Hpos & Hbl)].
  destruct (_ <? MS_BR_FRAME_ALL_LEN _) eqn:E3; [apply Z.ltb_lt in E3|apply Z.ltb_ge in E3].
  - unfold on_input, count_byte. rstep. split; [by constructor|].
    destruct (all_len_cases (input_frame h)) as [[? Ea]|[? Ea]]; rewrite Ea in E3; [|lia].
    constructor; cbn; rewrite ?Ed, ?u16_small; try done; try lia.
    + by apply put_crc_half.
    + split; [lia|]. exists l. by split_and!.
  - destruct (all_len_cases (input_frame h)) as [[? Ea]|[? Ea]]; lia.
Qed.

(** Whatever byte arrives, the handler stays in order. *)
Lemma recv_byte_ok A h b :
  br_inv A h -> is_byte b -> returns (recv_byte b) (fun _ => received A h) h.
Proof.
  intros HI Hb. unfold recv_byte. rstep. destruct (negb (br_is_ready h)); [by rstep|].
  destruct ((input_frame_len h =? 0) && _); [by rstep|].
  destruct (MS_BR_BUF_MAX_SIZE <? _) eqn:E; [apply Z.ltb_lt in E|apply Z.ltb_ge in E].
  - destruct HI as [HC [Hh Hc _ _] Ht Hw]. apply returns_bind.
    eapply (returns_mono _ (fun _ => received A h)); [by apply recv_err_ok|]. intros ? h' ?. by rstep.
  - rcall recv_store_ok; [done|done|done|]. intros [|] h1 [HS HG]; cbn [negb].
    + rstep. apply returns_bind. eapply returns_mono; [by eapply grown_ok|]. intros ? h2 ?. by rstep.
    + destruct HG. apply returns_bind. eapply (returns_mono _ (fun _ => received A h)).
      { apply recv_err_ok; try done. by rewrite mv_data0. }
      intros ? h' ?. by rstep.
Qed.

Lemma received_trans A h h1 h2 : received A h h1 -> received A h1 h2 -> received A h h2.
Proof. intros [_ S1] [I2 S2]. split; [done|by etransitivity]. Qed.

Lemma recv_ok A l : forall h, br_inv A h -> bytes_ok l -> returns (ms_bridging_recv l) (fun _ => received A h) h.
Proof.
  induction l as [|b l IH]; intros h HI Hb; [by rstep|]. cbn [ms_bridging_recv].
  apply Forall_cons_1 in Hb as [Hb Hl]. rcall recv_byte_ok; [done|done|]. intros [|] h1 R1; [|by rstep].
  eapply returns_mono; [apply IH; [apply R1|done]|]. intros ? h2 R2. by eapply received_trans.
Qed.

Lemma recv_chunks_ok A cs : forall h, br_inv A h -> chunks_ok cs -> returns (recv_chunks cs) (fun _ => received A h) h.
Proof.
  induction cs as [|c cs IH]; intros h HI Hb; [by rstep|]. cbn [recv_chunks].
  apply Forall_cons_1 in Hb as [Hb Hl]. rcall recv_ok; [done|done|]. intros ? h1 R1.
  eapply returns_mono; [apply IH; [apply R1|done]|]. intros ? h2 R2. by eapply received_trans.
Qed.
