(* ===== verification/MsBridgingOps.v ===== *)
(** The calls of the bridging API keep the handler's invariant and return:
    sending, waiting for an acknowledgement, requests, events, polling. *)
From stdpp Require Import gmap.
From S2P Require Import Prelude Heap MsBridging MsBridgingInv.

(** ** Sending *)

(** What a call does not change besides the slots and the heap. *)
Record br_calm (h h' : br) : Prop := {
  cl_ready : br_is_ready h' = br_is_ready h;
  cl_id : global_frame_id h' = global_frame_id h;
  cl_tick : w_tick (br_world h') = w_tick (br_world h);
  cl_waits : w_waits (br_world h') = w_waits (br_world h)
}.

Lemma same_calm h h' : br_same h h' -> br_calm h h'.
Proof. intros []. by constructor. Qed.

(** A buffer argument: a null pointer, or at least [len] bytes. *)
Definition br_arg_ok (data : option (list Z)) (len : Z) : Prop :=
  0 <= len <= 65522 /\ match data with Some l => len <= zlen l /\ bytes_ok l | None => True end.

(** The payload a frame carries. *)
Definition carried (len : Z) (data : option (list Z)) : list Z :=
  match data with Some l => take (Z.to_nat len) l | None => [] end.

Definition sealed_header (hdr : ms_bridging_frame_header_t) : ms_bridging_frame_header_t :=
  mkBrHeader (bh_sof hdr) (bh_id hdr) (bh_len hdr) (bh_type hdr) (bh_cmd hdr) (ms_bridging_crc16 (enc_br_body hdr)).

(** The payload and its CRC, when there is one; the bytes of a frame on the wire. *)
Definition behind_header (pay : list Z) : list Z :=
  if 0 <? zlen pay then pay ++ le_enc 2 (ms_bridging_crc16 pay) else [].

Definition br_wire (hdr : ms_bridging_frame_header_t) (pay : list Z) : list Z :=
  enc_br_header (sealed_header hdr) ++ behind_header pay.

Definition sent_one (bytes : list Z) (h : br) : br :=
  set_br_world (mkWorld (w_malloc_fails (br_world h)) (tail (w_send_results (br_world h))) (w_tick (br_world h))
                  (w_waits (br_world h)) (w_irqs (br_world h)) (w_sent (br_world h) ++ [bytes])) h.

Lemma memcpy_at_end (l k r : list Z) (n : nat) :
  n = length l -> length r = length k -> memcpy_at n k (l ++ r) = l ++ k.
Proof.
  intros -> E. unfold memcpy_at. rewrite take_app_length, drop_app_ge by lia.
  rewrite drop_ge by lia. by rewrite app_nil_r.
Qed.

Lemma memcpy_at_mid (l k r s : list Z) (n : nat) :
  n = length l -> length r = length k -> memcpy_at n k (l ++ r ++ s) = l ++ k ++ s.
Proof.
  intros -> E. unfold memcpy_at. rewrite take_app_length, drop_app_ge by lia.
  replace (length l + length k - length l)%nat with (length r) by lia. by rewrite drop_app_length.
Qed.

Lemma wire_header hdr pay :
  memcpy_at (Z.to_nat 0) (enc_br_header (sealed_header hdr)) (replicate (Z.to_nat (zlen (br_wire hdr pay))) 0) =
  enc_br_header (sealed_header hdr) ++ replicate (length (behind_header pay)) 0.
Proof.
  unfold br_wire, memcpy_at, zlen. rewrite Nat2Z.id, length_app, replicate_add. cbn [take app Z.to_nat].
  rewrite Nat.add_0_l, drop_app_ge by (rewrite length_replicate; done). by rewrite length_replicate, Nat.sub_diag.
Qed.

(** The buffer behind the header is filled with the payload and its CRC. *)
Lemma fill_payload p pay hd h (Q : unit -> br -> Prop) :
  length hd = 11%nat -> br_heap h !! p = Some (hd ++ replicate (length (behind_header pay)) 0) ->
  (forall m, m = <[p := hd ++ behind_header pay]> (br_heap h) -> Q tt (set_br_heap m h)) ->
  returns (if 11 <? zlen (hd ++ behind_header pay) then
             match (if 0 <? zlen pay then Some pay else None) with
             | Some l => br_write p 11 l;; br_write p (11 + zlen pay) (le_enc 2 (ms_bridging_crc16 pay))
             | None => mret tt
             end
           else mret tt) Q h.
Proof.
  intros Hhd Hp HQ. unfold behind_header in *. destruct (0 <? zlen pay) eqn:E.
  - apply Z.ltb_lt in E. unfold zlen in E. rewrite (proj2 (Z.ltb_lt _ _)) by (unfold zlen; rewrite !length_app; lia).
    rewrite length_app, length_le_enc, replicate_add in Hp.
    apply returns_bind. eapply returns_br_write; [exact Hp|unfold zlen; rewrite !length_app, !length_replicate; lia|].
    rewrite memcpy_at_mid by (rewrite ?length_replicate; done).
    eapply returns_br_write; [apply lookup_insert_eq|unfold zlen; rewrite !length_app, length_le_enc, length_replicate; lia|].
    cbn [br_heap set_br_heap]. rewrite app_assoc, memcpy_at_end.
    + apply HQ. rewrite insert_insert_eq, <- app_assoc. done.
    + rewrite length_app. unfold zlen. lia.
    + done.
  - change (replicate (length []) 0) with (@nil Z) in Hp. rewrite app_nil_r in *.
    rewrite (proj2 (Z.ltb_ge _ _)) by (unfold zlen; lia). rstep. specialize (HQ (br_heap h)). rewrite insert_id in HQ by done.
    replace h with (set_br_heap (br_heap h) h) by (by destruct h). auto.
Qed.

(** A frame is sent: the transport gets the bytes of the wire format, and the
    heap is as before; or there is no memory for it. *)
Lemma send_frame_eq hdr data h (Q : Z -> br -> Prop) :
  br_arg_ok data (bh_len hdr) ->
  (head (w_malloc_fails (br_world h)) = Some true -> Q MS_BR_ERR_NO_MEM (set_br_world (pop_alloc (br_world h)) h)) ->
  Q (default 0 (head (w_send_results (br_world h))))
    (sent_one (br_wire hdr (carried (bh_len hdr) data)) (set_br_world (pop_alloc (br_world h)) h)) ->
  returns (ms_bridging_send_frame hdr data) Q h.
Proof.
  intros [Hl Ha] HN HS. unfold ms_bridging_send_frame.
  set (pay := carried (bh_len hdr) data) in *.
  assert (Ep : out_payload hdr data h = Ret (if 0 <? zlen pay then Some pay else None) h).
  { unfold out_payload, pay, carried. destruct data as [l|]; [|done]. destruct Ha as [Hle _].
    destruct (0 <? bh_len hdr) eqn:E; [apply Z.ltb_lt in E|apply Z.ltb_ge in E].
    - rewrite (proj2 (Z.ltb_ge _ _)) by lia. rewrite (proj2 (Z.ltb_lt _ _)); [done|].
      unfold zlen in *. rewrite length_take. lia.
    - replace (Z.to_nat (bh_len hdr)) with 0%nat by lia. done. }
  apply returns_bind. eapply returns_intro; [exact Ep|]. cbn [ms_bridging_calculate_frame_crc].
  change (Z.of_nat MS_BR_FRAME_HEADER_LEN) with 11. fold (sealed_header hdr).
  assert (Hz : 0 < zlen pay -> zlen pay = bh_len hdr).
  { unfold pay, carried, zlen. destruct data as [l|]; [|cbn; lia]. destruct Ha as [Hle _]. unfold zlen in Hle.
    rewrite length_take. lia. }
  assert (Elen : match (if 0 <? zlen pay then Some pay else None) with
                 | Some _ => u16 (11 + (bh_len (sealed_header hdr) + 2)) | None => 11 end =
                 zlen (br_wire hdr pay)).
  { unfold br_wire, behind_header. destruct (0 <? zlen pay) eqn:E.
    - apply Z.ltb_lt in E. specialize (Hz E). change (bh_len (sealed_header hdr)) with (bh_len hdr).
      rewrite u16_small by lia. unfold zlen in *. rewrite !length_app, length_enc_br_header, length_le_enc.
      unfold MS_BR_FRAME_HEADER_LEN. lia.
    - unfold zlen. rewrite app_nil_r, length_enc_br_header. done. }
  rewrite Elen. apply returns_bind, returns_br_malloc; [intros Hm; rstep; by apply HN|]. intros p Hp.
  apply returns_bind. eapply returns_br_write; [apply lookup_insert_eq| |].
  { unfold br_wire, zlen. rewrite length_replicate, length_app. lia. }
  rewrite wire_header. cbn [br_heap set_br_heap]. apply returns_bind.
  match goal with |- returns _ _ ?s1 =>
    eapply (returns_mono _ (fun _ s => s = set_br_heap (<[p := br_wire hdr pay]> (br_heap s1)) s1)) end.
  { eapply returns_eq; [|apply (fill_payload p pay (enc_br_header (sealed_header hdr)))].
    - fold (br_wire hdr pay). destruct (11 <? zlen (br_wire hdr pay)); [|reflexivity].
      destruct (0 <? zlen pay) eqn:E; [|reflexivity]. apply Z.ltb_lt in E. rewrite (Hz E). reflexivity.
    - apply length_enc_br_header.
    - apply lookup_insert_eq.
    - intros m ->. reflexivity. }
  intros _ s ->. cbn [br_heap set_br_heap]. apply returns_bind. eapply returns_br_load; [apply lookup_insert_eq|].
  unfold send_func, on_world. rstep. apply returns_bind. eapply returns_br_free; [apply lookup_insert_eq|]. rstep.
  cbn [br_heap set_br_heap set_br_world]. rewrite !insert_insert_eq, delete_insert_id by done.
  unfold sent_one in HS. destruct h. exact HS.
Qed.

(** Sending keeps everything. *)
Lemma send_frame_ok A hdr data h :
  br_inv A h -> br_arg_ok data (bh_len hdr) ->
  returns (ms_bridging_send_frame hdr data) (fun _ h' => br_inv A h' /\ br_calm h h') h.
Proof.
  intros [HC HI Ht Hw] Ha. apply send_frame_eq; [done|intros _|]; (split; [|by constructor]);
    destruct Hw; constructor; try done; by constructor.
Qed.

(** ** Waiting *)
Definition next_dt (h : br) : Z := match w_waits (br_world h) with [] => MS_BR_WAIT_ACK_DELAY_MS | (dt, _) :: _ => dt end.

(** One wait of 20 ms: time passes, and the receive interrupt keeps the invariant. *)
Record waited (A : list ptr) (h h' : br) : Prop := {
  wt_inv : br_inv A h';
  wt_ready : br_is_ready h' = br_is_ready h;
  wt_id : global_frame_id h' = global_frame_id h;
  wt_tick : w_tick (br_world h') = u32 (w_tick (br_world h) + next_dt h);
  wt_waits : w_waits (br_world h') = tail (w_waits (br_world h))
}.

Lemma pass_time_ok A dt cs h :
  br_inv A h -> chunks_ok cs ->
  returns (pass_time dt cs) (fun _ h' => br_inv A h' /\ br_is_ready h' = br_is_ready h /\
    global_frame_id h' = global_frame_id h /\ w_tick (br_world h') = u32 (w_tick (br_world h) + dt) /\
    w_waits (br_world h') = w_waits (br_world h)) h.
Proof.
  intros [HC HI Ht Hw] Hcs. unfold pass_time, on_world. rstep.
  eapply returns_mono; [apply (recv_chunks_ok A); [|done]|].
  - destruct Hw. constructor; try done. constructor; try done. apply u32_range.
  - intros ? h' [HI' []]. by split_and!.
Qed.

Lemma sem_wait_br_ok A h :
  br_inv A h -> returns (MS_BR_SEM_WAIT MS_BR_WAIT_ACK_DELAY_MS) (fun _ => waited A h) h.
Proof.
  intros HI. unfold MS_BR_SEM_WAIT. rstep. destruct (w_waits (br_world h)) as [|[dt cs] ws] eqn:Ew.
  - eapply returns_mono; [apply (pass_time_ok A); [done|constructor]|]. intros ? h' (? & ? & ? & Et & Ew').
    constructor; try done; unfold next_dt; by rewrite ?Et, ?Ew', ?Ew.
  - unfold on_world. rstep. destruct HI as [HC HI Ht Hw]. pose proof (wo_waits _ Hw) as Hws. rewrite Ew in Hws.
    apply Forall_cons_1 in Hws as [[_ Hcs] Hws].
    eapply returns_mono; [apply (pass_time_ok A); [|done]|].
    + destruct Hw. constructor; done.
    + intros ? h' (? & ? & ? & Et & Ew'). constructor; try done; unfold next_dt; by rewrite ?Et, ?Ew', ?Ew.
Qed.

Lemma irq_point_ok A h : br_inv A h -> returns irq_point (fun _ h' => br_inv A h' /\ br_calm h h') h.
Proof.
  intros HI. unfold irq_point. rstep. destruct (w_irqs (br_world h)) as [|cs rest] eqn:Ei; [by rstep|].
  unfold on_world. rstep. destruct HI as [HC HI Ht Hw]. pose proof (wo_irqs _ Hw) as Hws. rewrite Ei in Hws.
  apply Forall_cons_1 in Hws as [Hcs Hws]. eapply returns_mono; [apply (recv_chunks_ok A); [|done]|].
  - destruct Hw. constructor; done.
  - intros ? h' [HI' []]. by split; [|constructor].
Qed.

(** ** The acknowledgement *)
Lemma br_find_ack_spec ty cmd id l i :
  br_find_ack ty cmd id l = Some i -> exists f, l !! i = Some f /\ br_ack_match ty cmd id f = true.
Proof.
  revert i. induction l as [|f l IH]; intros i; cbn; [done|].
  destruct (br_ack_match ty cmd id f) eqn:E; intros H; [injection H as <-; by exists f|].
  destruct (br_find_ack ty cmd id l) as [j|]; [|done]. injection H as <-. by apply IH.
Qed.

(** How a wait for an acknowledgement ends: with a checked frame that answers the
    question, whose payload the caller now owns; or with nothing. *)
Definition acked (A : list ptr) (ty cmd id : Z) (h : br) (r : Z * ms_bridging_frame_t) (h' : br) : Prop :=
  br_is_ready h' = br_is_ready h /\ global_frame_id h' = global_frame_id h /\
  (length (w_waits (br_world h')) <= length (w_waits (br_world h)))%nat /\
  ((r.1 = MS_BR_OK /\ br_ack_match ty cmd id r.2 = true /\ br_frame_good (br_heap h') r.2 /\
    br_inv (option_list (bf_data r.2) ++ A) h') \/
   (r.1 <> MS_BR_OK /\ br_inv A h')).

Lemma take_ack_inv A h i f :
  br_inv A h -> ack_frame h !! i = Some f -> bf_is_valid f = true ->
  br_frame_good (br_heap h) f /\
  br_inv (option_list (bf_data f) ++ A) (set_ack_frame (<[i := vacate f]> (ack_frame h)) h).
Proof.
  intros [HC HI Ht Hw] Hf Hv. split.
  - pose proof (Forall_lookup_1 _ _ _ _ (bc_kok _ _ _ _ HC) Hf) as Hs. unfold br_slot_ok in Hs.
    rewrite Hv in Hs. apply Hs.
  - constructor; try done. cbn. eapply br_core_perm; [by eapply br_core_take_ack|]. solve_Permutation.
Qed.

Lemma length_tail_le {T} (l : list T) : (length (tail l) <= length l)%nat.
Proof. destruct l; cbn; lia. Qed.

(** One round of the loop. *)
Lemma ack_loop_step A ty cmd id t0 fuel h (Q : Z * ms_bridging_frame_t -> br -> Prop) :
  br_inv A h -> (forall r h', acked A ty cmd id h r h' -> Q r h') ->
  (forall h1, waited A h h1 -> MS_BR_TICK_DIFF_MS t0 (w_tick (br_world h1)) < MS_BR_WAIT_ACK_TIMEOUT_MS ->
     returns (ack_loop fuel t0 ty cmd id) Q h1) ->
  returns (ack_loop (S fuel) t0 ty cmd id) Q h.
Proof.
  intros HI HQ Hgo. cbn [ack_loop]. rcall sem_wait_br_ok; [done|]. intros ? h1 HW. rstep.
  assert (Hend : forall ret, ret <> MS_BR_OK -> Q (ret, br_frame_zero) h1).
  { intros ret Hr. apply HQ. destruct HW. unfold acked. rewrite wt_waits0. split_and!; auto using length_tail_le. }
  destruct (negb (br_is_ready h1)); [rstep; by apply Hend|].
  destruct (br_find_ack ty cmd id (ack_frame h1)) as [i|] eqn:Ei.
  - destruct (br_find_ack_spec _ _ _ _ _ Ei) as (f & Hf & Hm). rewrite Hf. rstep. apply HQ. destruct HW.
    assert (Hv : bf_is_valid f = true) by (unfold br_ack_match in Hm; by destruct (bf_is_valid f)).
    destruct (take_ack_inv A h1 i f wt_inv0 Hf Hv) as [Hg HI'].
    unfold acked. cbn [br_world set_ack_frame]. rewrite wt_waits0. split_and!; auto using length_tail_le.
  - unfold MS_BR_GET_TICK_MS. rstep. destruct (_ <? MS_BR_WAIT_ACK_TIMEOUT_MS) eqn:E; [|rstep; by apply Hend].
    apply Z.ltb_lt in E. by apply Hgo.
Qed.

(** The wait ends: after what the environment still has in store, 28 rounds are
    enough for 500 ms to go by. *)
Definition elapsed (t0 : Z) (h : br) : Z := u32 (w_tick (br_world h) - t0).

Lemma tick_diff_elapsed t0 t :
  0 <= t0 < 4294967296 -> 0 <= t < 4294967296 -> MS_BR_TICK_DIFF_MS t0 t < MS_BR_WAIT_ACK_TIMEOUT_MS ->
  1 <= u32 (t - t0) <= 500.
Proof.
  unfold MS_BR_TICK_DIFF_MS, MS_BR_WAIT_ACK_TIMEOUT_MS, MS_BR_MAX_TICK_VALUE, u32. intros H0 H1.
  destruct (t0 <? t) eqn:E; [apply Z.ltb_lt in E|apply Z.ltb_ge in E]; lia.
Qed.

Section AckLoop.
Context (A : list ptr) (ty cmd id t0 : Z) (Ht0 : 0 <= t0 < 4294967296).

Lemma acked_step h h1 r h' : waited A h h1 -> acked A ty cmd id h1 r h' -> acked A ty cmd id h r h'.
Proof.
  intros [] (R & I & L & D). split_and!; [congruence|congruence| |done].
  rewrite wt_waits0 in L. pose proof (length_tail_le (w_waits (br_world h))). lia.
Qed.

(** Only the time-outs of the semaphore are left. *)
Lemma ack_loop_idle k : forall fuel h,
  br_inv A h -> w_waits (br_world h) = [] -> elapsed t0 h <= 500 -> 500 - elapsed t0 h < 20 * Z.of_nat k ->
  (k < fuel)%nat -> returns (ack_loop fuel t0 ty cmd id) (acked A ty cmd id h) h.
Proof.
  induction k as [|k IH]; intros fuel h HI Hw He Hk Hf.
  { lia. }
  destruct fuel as [|fuel]; [lia|]. apply (ack_loop_step A); [done|auto|]. intros h1 HW Hd.
  pose proof HW as [I1 _ _ T1 W1]. unfold next_dt in T1. rewrite Hw in *. unfold MS_BR_WAIT_ACK_DELAY_MS in T1.
  assert (Ee : elapsed t0 h1 = u32 (elapsed t0 h + 20)) by (unfold elapsed, u32 in *; rewrite T1; lia).
  apply tick_diff_elapsed in Hd; [|done|apply (wo_tick _ (bi_world _ _ I1))]. fold (elapsed t0 h1) in Hd.
  assert (0 <= elapsed t0 h) by (unfold elapsed, u32; lia). rewrite u32_small in Ee by lia.
  eapply returns_mono; [apply IH; [done|done|lia|lia|lia]|]. intros r h' ?. by eapply acked_step.
Qed.

Lemma ack_loop_ok n : forall fuel h,
  br_inv A h -> length (w_waits (br_world h)) = n -> (n + 28 <= fuel)%nat ->
  returns (ack_loop fuel t0 ty cmd id) (acked A ty cmd id h) h.
Proof.
  induction n as [|n IH]; intros fuel h HI Hn Hf; (destruct fuel as [|fuel]; [lia|]);
    (apply (ack_loop_step A); [done|auto|]); intros h1 HW Hd; pose proof HW as [I1 _ _ T1 W1];
    (eapply (returns_mono _ (acked A ty cmd id h1)); [|intros r h' ?; by eapply acked_step]).
  - apply length_zero_iff_nil in Hn. rewrite Hn in W1.
    apply tick_diff_elapsed in Hd; [|done|apply (wo_tick _ (bi_world _ _ I1))].
    apply (ack_loop_idle 26); [done|done|unfold elapsed; lia|unfold elapsed; lia|lia].
  - apply IH; [done| |lia]. rewrite W1. destruct (w_waits (br_world h)); cbn in *; lia.
Qed.
End AckLoop.

Lemma wait_for_ack_ok A ty cmd id fuel h :
  br_inv A h -> (length (w_waits (br_world h)) + 28 <= fuel)%nat ->
  returns (ms_bridging_wait_for_ack fuel ty cmd id) (acked A ty cmd id h) h.
Proof.
  intros HI Hf. unfold ms_bridging_wait_for_ack, MS_BR_GET_TICK_MS. rstep.
  by eapply ack_loop_ok; [apply (wo_tick _ (bi_world _ _ HI))|..].
Qed.

(** ** Requests and events *)
Definition out_block (out : option (ptr * Z)) : list ptr := match out with Some (p, _) => [p] | None => [] end.

(** What a call leaves: the blocks [B] are no longer the handler's. *)
Record settled_to (B : list ptr) (h h' : br) : Prop := {
  se_inv : br_inv B h';
  se_ready : br_is_ready h' = br_is_ready h;
  se_waits : (length (w_waits (br_world h')) <= length (w_waits (br_world h)))%nat
}.

Lemma settled_trans B C h h1 h2 : settled_to B h h1 -> settled_to C h1 h2 -> settled_to C h h2.
Proof. intros [] []. constructor; [done|congruence|lia]. Qed.

Lemma br_inv_perm A B h : br_inv A h -> A ≡ₚ B -> br_inv B h.
Proof. intros [] E. constructor; try done. eapply br_core_perm; [done|]. by rewrite E. Qed.

(** Blocks outside the handler come and go. *)
Lemma br_inv_core A B h m w :
  br_inv A h -> br_core (option_list (bf_data (input_frame h)) ++ B) (notify_frame h) (ack_frame h) m ->
  (forall p, bf_data (input_frame h) = Some p -> m !! p = br_heap h !! p) -> world_ok w ->
  br_inv B (set_br_heap m (set_br_world w h)).
Proof.
  intros [HC HI Ht Hw] HC' Em Hw'. constructor; try done. destruct HI. constructor; try done. cbn.
  destruct (bf_data (input_frame h)) as [p|]; [|done]. by rewrite (Em p eq_refl).
Qed.

Lemma input_apart A p h q : br_inv (p :: A) h -> bf_data (input_frame h) = Some q -> q <> p.
Proof.
  intros [HC _ _ _] Hq ->. rewrite Hq in HC. pose proof (blocks_nodup (br_heap h)) as H.
  rewrite (bc_own _ _ _ _ HC) in H. apply NoDup_app in H as (_ & _ & H). apply NoDup_app in H as (_ & _ & H).
  apply NoDup_cons_1_1 in H. apply H. left.
Qed.

Lemma set_world_id h : set_br_world (br_world h) h = h.
Proof. by destruct h. Qed.

Lemma br_inv_free A p h : br_inv (p :: A) h -> br_inv A (set_br_heap (delete p (br_heap h)) h).
Proof.
  intros HI. rewrite <- (set_world_id h) at 2. apply (br_inv_core (p :: A)); [done|..].
  - apply br_core_free. eapply br_core_perm; [apply HI|]. solve_Permutation.
  - intros q Hq. apply lookup_delete_ne. intros <-. by eapply input_apart.
  - apply HI.
Qed.

Lemma br_inv_store A p l h : br_inv (p :: A) h -> br_inv (p :: A) (set_br_heap (<[p := l]> (br_heap h)) h).
Proof.
  intros HI. rewrite <- (set_world_id h) at 2. apply (br_inv_core (p :: A)); [done|..].
  - eapply br_core_perm; [apply (br_core_store (option_list (bf_data (input_frame h)) ++ A))|solve_Permutation].
    eapply br_core_perm; [apply HI|]. solve_Permutation.
  - intros q Hq. apply lookup_insert_ne. intros <-. by eapply input_apart.
  - apply HI.
Qed.

Lemma br_inv_alloc A p l h :
  br_inv A h -> br_heap h !! p = None ->
  br_inv (p :: A) (set_br_heap (<[p := l]> (br_heap h)) (set_br_world (pop_alloc (br_world h)) h)).
Proof.
  intros HI Hp. apply (br_inv_core A); [done|..].
  - eapply br_core_perm; [apply br_core_alloc; [apply HI|done]|]. solve_Permutation.
  - intros q Hq. apply lookup_insert_ne. intros <-. destruct HI as [_ [_ _ _ HD] _ _]. rewrite Hq in HD.
    destruct HD as [_ (l0 & E & _)]. by rewrite E in Hp.
  - apply pop_alloc_ok, HI.
Qed.

Lemma br_inv_alloc_fail A h : br_inv A h -> br_inv A (set_br_world (pop_alloc (br_world h)) h).
Proof. intros [HC HI Ht Hw]. constructor; try done. by apply pop_alloc_ok. Qed.

(** The block handed out has the size that goes with it. *)
Definition out_sized (out : option (ptr * Z)) (h : br) : Prop :=
  match out with Some (p, len) => exists l, br_heap h !! p = Some l /\ zlen l = len | None => True end.

(** The reply goes to the caller as a copy, when it asked for one; otherwise its
    payload stays in the heap with no owner. *)
Lemma reply_out_ok A want f h :
  br_inv (option_list (bf_data f) ++ A) h -> br_frame_good (br_heap h) f ->
  returns (reply_out want f)
    (fun r h' => exists L, settled_to (out_block r.2 ++ L ++ A) h h' /\ (want = true -> L = []) /\
       (want = false -> L = option_list (bf_data f) /\ r.2 = None) /\ out_sized r.2 h') h.
Proof.
  intros HI [_ _ HD]. unfold reply_out, data_ok in *. destruct (bf_data f) as [q|] eqn:Eq.
  2:{ rstep. exists []. by split_and!; [constructor|..]. }
  destruct HD as (l & El & Ez & Hpos & _). rewrite (proj2 (Z.ltb_lt _ _)) by lia. cbn [andb option_list app] in *.
  destruct want; [|rstep; exists [q]; by split_and!; [constructor|..]].
  rstep. apply returns_bind, returns_br_malloc.
  - intros _. rstep. apply returns_bind. eapply returns_br_free; [exact El|]. rstep. exists []. split_and!; [|done|done|done].
    constructor; [|done|done]. cbn. apply (br_inv_free A q (set_br_world (pop_alloc (br_world h)) h)).
    by apply br_inv_alloc_fail.
  - intros p Hp. assert (Hpq : p <> q) by (intros ->; by rewrite El in Hp). rstep. apply returns_bind.
    eapply returns_br_load; [cbn; rewrite lookup_insert_ne by done; exact El|].
    rewrite (proj2 (Z.ltb_ge _ _)) by lia. apply returns_bind.
    eapply returns_br_write; [apply lookup_insert_eq| |].
    { unfold zlen in *. rewrite length_take, length_replicate. lia. }
    apply returns_bind. eapply returns_br_free; [cbn; rewrite !lookup_insert_ne by done; exact El|]. rstep.
    exists []. split_and!; [|done|done|].
    2:{ cbn [out_sized snd br_heap set_br_heap]. rewrite lookup_delete_ne, lookup_insert_eq by done. eexists.
        split; [done|]. unfold zlen in *. rewrite length_memcpy_at; rewrite ?length_take, ?length_replicate; lia. }
    constructor; [|done|done]. cbn [out_block app snd].
    eapply (br_inv_free (p :: A) q). eapply br_inv_perm; [|apply Permutation_swap].
    apply (br_inv_store _ p). by apply br_inv_alloc.
Qed.

Lemma calm_settled A h h' : br_inv A h' -> br_calm h h' -> settled_to A h h'.
Proof. intros ? []. constructor; [done|done|]. by rewrite cl_waits0. Qed.

Lemma acked_none A ty cmd id h r h' : acked A ty cmd id h r h' -> r.1 <> MS_BR_OK -> settled_to A h h'.
Proof. intros (R & _ & L & [(E & _)|[_ HI]]) Hn; [done|]. by constructor. Qed.

(** A request returns, and every block is accounted for; a reply nobody asked for
    is the only one that is left without an owner ([L]). *)
Definition request_post (A : list ptr) (want : bool) (h : br) (r : Z * option (ptr * Z)) (h' : br) : Prop :=
  exists L, settled_to (out_block r.2 ++ L ++ A) h h' /\ (want = true -> L = []) /\ (length L <= 1)%nat /\
    (want = false -> r.2 = None) /\ out_sized r.2 h'.

Lemma reply_post A want ty cmd id h1 ack h2 :
  acked A ty cmd id h1 (MS_BR_OK, ack) h2 -> returns (reply_out want ack) (request_post A want h1) h2.
Proof.
  intros (R2 & _ & L2 & [(_ & _ & G2 & I2)|[F2 _]]); [|done].
  eapply returns_mono; [by apply (reply_out_ok A want)|]. intros r h3 (L & [I3 R3 W3] & Ht & Hf & Hz). exists L.
  split; [constructor; [done|congruence|lia]|]. split; [done|]. split; [|split; [intros E; by apply Hf|done]].
  destruct want; [rewrite Ht by done|rewrite (proj1 (Hf eq_refl)); destruct (bf_data ack)]; cbn; lia.
Qed.

Lemma request_loop_br_ok A want hdr data fuel n : forall h,
  br_inv A h -> br_arg_ok data (bh_len hdr) -> (length (w_waits (br_world h)) + 28 <= fuel)%nat ->
  returns (br_request_loop fuel n hdr data want) (request_post A want h) h.
Proof.
  assert (Hnone : forall h h' ret, settled_to A h h' -> request_post A want h (ret, None) h').
  { intros h h' ret HS. exists []. split; [done|]. split; [done|]. cbn. split; [lia|done]. }
  assert (Htrans : forall h h1 h2 r, settled_to A h h1 -> request_post A want h1 r h2 -> request_post A want h r h2).
  { intros h h1 h2 r HS (L & HS2 & HL). exists L. split; [by eapply settled_trans|done]. }
  induction n as [|n IH]; intros h HI Ha Hf; cbn [br_request_loop]; rstep;
    (destruct (negb (br_is_ready h)); [rstep; by apply Hnone; constructor|]);
    (rcall send_frame_ok; [done|done|]); intros ret h1 [I1 C1]; pose proof (calm_settled _ _ _ I1 C1) as S1;
    (destruct (negb (ret =? MS_BR_OK)); [rstep; by apply Hnone|]);
    (rcall wait_for_ack_ok; [done|by rewrite (cl_waits _ _ C1)|]); intros [ret2 ack] h2 K2; cbn [fst snd];
    (destruct (ret2 =? MS_BR_OK) eqn:E2; [apply Z.eqb_eq in E2|apply Z.eqb_neq in E2]);
    try (subst ret2; eapply returns_mono; [by eapply reply_post|]; intros r h3 P3; by eapply Htrans).
  - rstep. apply Hnone. eapply settled_trans; [done|]. by eapply acked_none.
  - pose proof (acked_none _ _ _ _ _ _ _ K2 E2) as S2.
    eapply returns_mono; [apply IH; [apply S2|done|]|].
    + pose proof (se_waits _ _ _ S2). pose proof (se_waits _ _ _ S1). lia.
    + intros r h3 P3. eapply Htrans; [|done]. by eapply settled_trans.
Qed.

Lemma request_br_ok A want cmd data len fuel h :
  br_inv A h -> br_arg_ok data len -> (length (w_waits (br_world h)) + 28 <= fuel)%nat ->
  returns (ms_bridging_request fuel cmd data len want) (request_post A want h) h.
Proof.
  intros HI Ha Hf. unfold ms_bridging_request, ms_bridging_build_frame. rstep.
  eapply returns_mono; [apply (request_loop_br_ok A); [|done|done]|].
  - destruct HI. by constructor.
  - intros r h' (L & [] & HL). exists L. split; [by constructor|done].
Qed.

Lemma event_loop_br_ok A hdr data fuel n : forall h,
  br_inv A h -> br_arg_ok data (bh_len hdr) -> (length (w_waits (br_world h)) + 28 <= fuel)%nat ->
  returns (br_event_loop fuel n hdr data)
    (fun _ h' => exists L, settled_to (L ++ A) h h' /\ (length L <= 1)%nat) h.
Proof.
  assert (Hnone : forall h h', settled_to A h h' -> exists L, settled_to (L ++ A) h h' /\ (length L <= 1)%nat).
  { intros h h' HS. exists []. split; [done|]. cbn. lia. }
  induction n as [|n IH]; intros h HI Ha Hf; cbn [br_event_loop]; rstep;
    (destruct (negb (br_is_ready h)); [rstep; by apply Hnone; constructor|]);
    (rcall send_frame_ok; [done|done|]); intros ret h1 [I1 C1]; pose proof (calm_settled _ _ _ I1 C1) as S1;
    (destruct (negb (ret =? MS_BR_OK)); [rstep; by apply Hnone|]);
    (rcall wait_for_ack_ok; [done|by rewrite (cl_waits _ _ C1)|]); intros [ret2 ack] h2 K2; cbn [fst snd];
    (destruct (ret2 =? MS_BR_OK) eqn:E2; [apply Z.eqb_eq in E2|apply Z.eqb_neq in E2]);
    try (rstep; destruct K2 as (R2 & _ & L2 & [(_ & _ & G2 & I2)|[F2 _]]); [|done];
         exists (option_list (bf_data ack)); split; [|by destruct (bf_data ack); cbn; lia];
         eapply settled_trans; [exact S1|by constructor]).
  - rstep. apply Hnone. eapply settled_trans; [done|]. by eapply acked_none.
  - pose proof (acked_none _ _ _ _ _ _ _ K2 E2) as S2.
    eapply returns_mono; [apply IH; [apply S2|done|]|].
    + pose proof (se_waits _ _ _ S2). pose proof (se_waits _ _ _ S1). lia.
    + intros r h3 (L & P3 & HL). exists L. split; [|done].
      eapply settled_trans; [by eapply settled_trans|done].
Qed.

Lemma send_event_br_ok A cmd data len fuel h :
  br_inv A h -> br_arg_ok data len -> (length (w_waits (br_world h)) + 28 <= fuel)%nat ->
  returns (ms_bridging_send_event fuel cmd data len)
    (fun _ h' => exists L, settled_to (L ++ A) h h' /\ (length L <= 1)%nat) h.
Proof.
  intros HI Ha Hf. unfold ms_bridging_send_event, ms_bridging_build_frame. rstep.
  eapply returns_mono; [apply (event_loop_br_ok A); [|done|done]|].
  - destruct HI. by constructor.
  - intros r h' (L & [] & HL). exists L. split; [by constructor|done].
Qed.

(** ** Typed requests *)

(** The block of the reply is read and freed. *)
Lemma fixed_reply_ok A n r h :
  br_inv (out_block r.2 ++ A) h -> out_sized r.2 h -> returns (fixed_reply n r) (fun _ h' => settled_to A h h') h.
Proof.
  destruct r as [ret [[p len]|]]; cbn [fixed_reply snd out_block out_sized app]; [|intros; rstep; by constructor].
  intros HI (l & El & Ez).
  assert (HF : forall (Q : unit -> br -> Prop), (forall h', settled_to A h h' -> Q tt h') -> returns (MS_BR_FREE p) Q h).
  { intros Q HQ. eapply returns_br_free; [done|]. apply HQ. constructor; [by apply br_inv_free|done|done]. }
  destruct ((ret =? MS_BR_OK) && (len =? n)) eqn:E.
  - apply andb_true_iff in E as [_ E]. apply Z.eqb_eq in E. apply returns_bind. eapply returns_br_load; [done|].
    rewrite (proj2 (Z.ltb_ge _ _)) by lia. apply returns_bind, HF. intros h' HS. by rstep.
  - apply returns_bind, HF. intros h' HS. by rstep.
Qed.

(** A request for a reply of fixed size leaves nothing behind. *)
Lemma fixed_request_ok {T} A cmd data len n (g : Z * option (list Z) -> M br T) fuel h :
  (forall o h', returns (g o) (fun _ h2 => h2 = h') h') -> br_inv A h -> br_arg_ok data len -> (length (w_waits (br_world h)) + 28 <= fuel)%nat ->
  returns (r ← ms_bridging_request fuel cmd data len true; o ← fixed_reply n r; g o) (fun _ => settled_to A h) h.
Proof.
  intros Hg HI Ha Hf. rcall request_br_ok; [done|done|done|]. intros r h1 (L & S1 & HL & _ & _ & Hz).
  rewrite HL in S1 by done. rcall fixed_reply_ok; [apply S1|done|]. intros o h2 S2.
  eapply returns_mono; [apply Hg|]. intros ? ? ->. by eapply settled_trans.
Qed.

(** ** Polling *)

(** What the application's callback promises: it keeps the handler in order, gives
    back what it takes, and leaves the occupied notify slots alone. *)
Class BrNotify (cb : ms_bridging_frame_t -> M br unit) : Prop :=
  br_notify_ok A h f : br_inv A h -> bf_is_valid f = true -> br_frame_good (br_heap h) f ->
    returns (cb f) (fun _ h' => br_inv A h' /\
      forall j g, notify_frame h !! j = Some g -> bf_is_valid g = true -> notify_frame h' !! j = Some g) h.

Lemma take_notify_inv A h i f :
  br_inv A h -> notify_frame h !! i = Some f ->
  br_inv (option_list (bf_data f) ++ A) (set_notify_frame (<[i := vacate f]> (notify_frame h)) h).
Proof.
  intros [HC HI Ht Hw] Hf. constructor; try done. cbn.
  eapply br_core_perm; [by eapply br_core_take_notify|]. solve_Permutation.
Qed.

(** The payload of a slot is freed and the slot given back. *)
Lemma free_notify_ok A h i f :
  br_inv A h -> notify_frame h !! i = Some f -> bf_is_valid f = true ->
  returns (free_data f;; modify (fun h => set_notify_frame (<[i := vacate f]> (notify_frame h)) h)) (fun _ => br_inv A) h.
Proof.
  intros HI Hf Hv. pose proof (take_notify_inv A h i f HI Hf) as HT. unfold free_data.
  destruct (bf_data f) as [p|] eqn:Ed; [|by rstep]. destruct (br_core_held _ _ _ _ p (bi_core _ _ HT)) as [l El].
  { apply elem_of_app. right. left. }
  apply returns_bind. eapply returns_br_free; [exact El|]. rstep.
  apply (br_inv_free A p (set_notify_frame (<[i:=vacate f]> (notify_frame h)) h) HT).
Qed.

Lemma free_ack_ok A h i f :
  br_inv A h -> ack_frame h !! i = Some f -> bf_is_valid f = true ->
  returns (free_data f;; modify (fun h => set_ack_frame (<[i := vacate f]> (ack_frame h)) h)) (fun _ => br_inv A) h.
Proof.
  intros HI Hf Hv. destruct (take_ack_inv A h i f HI Hf Hv) as [_ HT]. unfold free_data.
  destruct (bf_data f) as [p|] eqn:Ed; [|by rstep]. destruct (br_core_held _ _ _ _ p (bi_core _ _ HT)) as [l El].
  { apply elem_of_app. right. left. }
  apply returns_bind. eapply returns_br_free; [exact El|]. rstep.
  apply (br_inv_free A p (set_ack_frame (<[i:=vacate f]> (ack_frame h)) h) HT).
Qed.

Section PollOk.
Context (cb : ms_bridging_frame_t -> M br unit) `{BrNotify cb}.

Lemma poll_notify_ok A h i :
  br_inv A h -> (i < MS_BR_FRAME_BUF_NUM)%nat -> returns (poll_notify cb i) (fun _ => br_inv A) h.
Proof.
  intros HI Hi. unfold poll_notify. rstep.
  destruct (lookup_lt_is_Some_2 (notify_frame h) i) as [f Hf].
  { by rewrite (bc_ns _ _ _ _ (bi_core _ _ HI)). }
  rewrite Hf. destruct (bf_is_valid f) eqn:Hv; [|by rstep].
  pose proof (Forall_lookup_1 _ _ _ _ (bc_nok _ _ _ _ (bi_core _ _ HI)) Hf) as Hs. unfold br_slot_ok in Hs.
  rewrite Hv in Hs. destruct Hs as [_ Hg]. rcall (br_notify_ok A h f); [done|done|done|].
  intros ? h1 [I1 Keep]. apply free_notify_ok; auto.
Qed.

Lemma poll_ack_ok A h i :
  br_inv A h -> (i < MS_BR_FRAME_BUF_NUM)%nat -> returns (poll_ack i) (fun _ => br_inv A) h.
Proof.
  intros HI Hi. unfold poll_ack. rstep.
  destruct (lookup_lt_is_Some_2 (ack_frame h) i) as [f Hf].
  { by rewrite (bc_ks _ _ _ _ (bi_core _ _ HI)). }
  destruct (lookup_lt_is_Some_2 (ack_frame_received_tick h) i) as [t Hti].
  { by rewrite (bi_ticks _ _ HI). }
  rewrite Hf, Hti. destruct (bf_is_valid f) eqn:Hv; [|by rstep]. unfold MS_BR_GET_TICK_MS. rstep.
  destruct (_ <=? _); [|by rstep]. by apply free_ack_ok.
Qed.

Lemma poll_slots_ok A ks : forall h,
  br_inv A h -> Forall (fun i => (i < MS_BR_FRAME_BUF_NUM)%nat) ks -> returns (poll_slots cb ks) (fun _ => br_inv A) h.
Proof.
  induction ks as [|i ks IH]; intros h HI Hks; cbn [poll_slots]; [by rstep|].
  apply Forall_cons_1 in Hks as [Hi Hks]. rcall irq_point_ok; [done|]. intros ? h1 [I1 _]. rstep.
  destruct (negb (br_is_ready h1)); [by rstep|]. rcall poll_notify_ok; [done|done|]. intros ? h2 I2. rstep.
  destruct (negb (br_is_ready h2)); [by rstep|]. rcall poll_ack_ok; [done|done|]. intros ? h3 I3. by apply IH.
Qed.

Lemma polling_ok A h : br_inv A h -> returns (ms_bridging_polling cb) (fun _ => br_inv A) h.
Proof.
  intros HI. unfold ms_bridging_polling. rcall poll_slots_ok; [done|repeat constructor; lia|].
  intros ? h1 I1. rstep. destruct (br_is_ready h1).
  - eapply returns_mono; [by apply sem_wait_br_ok|]. intros ? ? []. done.
  - eapply returns_mono; [apply (pass_time_ok A); [done|constructor]|]. by intros ? ? (? & _).
Qed.
End PollOk.

(** ** The end of a handler *)
Lemma slot_data_valid ty m f p : br_slot_ok ty m f -> bf_data f = Some p -> bf_is_valid f = true.
Proof. unfold br_slot_ok. destruct (bf_is_valid f); [done|]. by intros ->. Qed.

(** Dropping slot [i] empties it and leaves the others. *)
Definition dropped (l l' : list ms_bridging_frame_t) (i : nat) : Prop :=
  exists f, bf_data f = None /\ l' = <[i := f]> l.

Lemma drop_ack_ok A h i :
  br_inv A h -> (i < MS_BR_FRAME_BUF_NUM)%nat ->
  returns (drop_slot ack_frame set_ack_frame i)
    (fun _ h' => br_inv A h' /\ dropped (ack_frame h) (ack_frame h') i /\ notify_frame h' = notify_frame h) h.
Proof.
  intros HI Hi. unfold drop_slot. rstep. pose proof (bi_core _ _ HI) as HC.
  destruct (lookup_lt_is_Some_2 (ack_frame h) i) as [f Hf]; [by rewrite (bc_ks _ _ _ _ HC)|]. rewrite Hf.
  destruct (bf_data f) as [p|] eqn:Ed.
  - pose proof (slot_data_valid _ _ _ _ (Forall_lookup_1 _ _ _ _ (bc_kok _ _ _ _ HC) Hf) Ed) as Hv.
    pose proof (free_ack_ok A h i f HI Hf Hv) as R. unfold free_data in R. rewrite Ed in R.
    assert (exists l, br_heap h !! p = Some l) as [l El].
    { apply blocks_lookup. rewrite (bc_own _ _ _ _ HC), !elem_of_app. right. left. by eapply omap_elem. }
    unfold MS_BR_FREE in *. revert R. unfold returns, mbind, M_bind, gets, modify. cbn. rewrite El.
    intros R. split; [exact R|]. split; [by exists (vacate f)|done].
  - rstep. split; [done|]. split; [|done]. exists f. by rewrite list_insert_id.
Qed.

Lemma drop_notify_ok A h i :
  br_inv A h -> (i < MS_BR_FRAME_BUF_NUM)%nat ->
  returns (drop_slot notify_frame set_notify_frame i)
    (fun _ h' => br_inv A h' /\ dropped (notify_frame h) (notify_frame h') i /\ ack_frame h' = ack_frame h) h.
Proof.
  intros HI Hi. unfold drop_slot. rstep. pose proof (bi_core _ _ HI) as HC.
  destruct (lookup_lt_is_Some_2 (notify_frame h) i) as [f Hf]; [by rewrite (bc_ns _ _ _ _ HC)|]. rewrite Hf.
  destruct (bf_data f) as [p|] eqn:Ed.
  - pose proof (slot_data_valid _ _ _ _ (Forall_lookup_1 _ _ _ _ (bc_nok _ _ _ _ HC) Hf) Ed) as Hv.
    pose proof (free_notify_ok A h i f HI Hf Hv) as R. unfold free_data in R. rewrite Ed in R.
    assert (exists l, br_heap h !! p = Some l) as [l El].
    { apply blocks_lookup. rewrite (bc_own _ _ _ _ HC), !elem_of_app. left. by eapply omap_elem. }
    unfold MS_BR_FREE in *. revert R. unfold returns, mbind, M_bind, gets, modify. cbn. rewrite El.
    intros R. split; [exact R|]. split; [by exists (vacate f)|done].
  - rstep. split; [done|]. split; [|done]. exists f. by rewrite list_insert_id.
Qed.

(** The slots below [n] hold nothing. *)
Definition bare (n : nat) (l : list ms_bridging_frame_t) : Prop :=
  forall j f, (j < n)%nat -> l !! j = Some f -> bf_data f = None.

Lemma bare_dropped n l l' : bare n l -> dropped l l' n -> bare (S n) l'.
Proof.
  intros Hb (f & Hf & ->) j g Hj Hg. destruct (decide (j = n)) as [->|Hne].
  - apply list_lookup_insert_Some in Hg as [(_ & -> & _)|[? _]]; done.
  - rewrite list_lookup_insert_ne in Hg by done. eapply Hb; [|done]. lia.
Qed.

Lemma drop_slots_ok A k : forall n h,
  br_inv A h -> (n + k <= MS_BR_FRAME_BUF_NUM)%nat -> bare n (ack_frame h) -> bare n (notify_frame h) ->
  returns (drop_slots (seq n k)) (fun _ h' => br_inv A h' /\ bare (n + k) (ack_frame h') /\ bare (n + k) (notify_frame h')) h.
Proof.
  induction k as [|k IH]; intros n h HI Hn Ha Hb; cbn [seq drop_slots].
  { rstep. by rewrite Nat.add_0_r. }
  rcall drop_ack_ok; [done|lia|]. intros ? h1 (I1 & D1 & E1). rcall drop_notify_ok; [done|lia|].
  intros ? h2 (I2 & D2 & E2). replace (n + S k)%nat with (S n + k)%nat by lia. apply IH; [done|lia|..].
  - rewrite E2. by apply (bare_dropped n (ack_frame h)).
  - apply (bare_dropped n (notify_frame h1)); [by rewrite E1|done].
Qed.

Lemma bare_datas l : bare (length l) l -> datas l = [].
Proof.
  intros H. unfold datas. destruct (omap bf_data l) as [|p ps] eqn:E; [done|].
  assert (Hp : p ∈ omap bf_data l) by (rewrite E; left). apply list_elem_of_omap in Hp as (f & Hf & Hd).
  apply list_elem_of_lookup in Hf as [i Hi]. rewrite (H i f) in Hd; [done| |done]. by eapply lookup_lt_Some.
Qed.

Lemma bare_0 l : bare 0 l.
Proof. intros j f Hj. lia. Qed.

Lemma deinit_br_ok A h :
  br_inv A h -> returns ms_bridging_deinit (fun _ h' => blocks (br_heap h') ≡ₚ A) h.
Proof.
  intros HI. unfold ms_bridging_deinit. rstep.
  rcall (drop_slots_ok A 4 0); auto using bare_0; [by destruct HI|]. intros ? h1 (I1 & Ba & Bn).
  cbn [Nat.add] in *. destruct I1 as [HC _ _ _]. pose proof (bc_own _ _ _ _ HC) as HB.
  rewrite !bare_datas in HB by (by rewrite ?(bc_ns _ _ _ _ HC), ?(bc_ks _ _ _ _ HC)). cbn [app] in HB.
  rstep. destruct (bf_data (input_frame h1)) as [p|]; [|by rstep]. cbn [option_list app] in HB.
  destruct (blocks_lookup (br_heap h1) p) as [l El]; [rewrite HB; left|].
  rstep. apply returns_bind. eapply returns_br_free; [done|]. unfold on_input. rstep. cbn.
  apply (Permutation_cons_inv (a := p)). by rewrite <- (blocks_delete _ _ _ El).
Qed.
