(* ===== verification/MsBridgingWire.v ===== *)
(** The wire format of the bridging protocol: the bytes of a frame that
    [ms_bridging_send_frame] produces, delivered in pieces of any sizes to an
    idle handler, put the same frame with the same payload into a slot. *)
From stdpp Require Import gmap.
From S2P Require Import Prelude Heap MsBridging MsBridgingInv MsBridgingOps.

(** ** Bytes one after the other *)
Fixpoint feeds (l : list Z) (h h' : br) : Prop :=
  match l with
  | [] => h' = h
  | b :: l' => exists h1, recv_byte b h = Ret true h1 /\ feeds l' h1 h'
  end.

Lemma feeds_app l k h h1 h2 : feeds l h h1 -> feeds k h1 h2 -> feeds (l ++ k) h h2.
Proof.
  revert h. induction l as [|b l IH]; intros h; cbn; [by intros ->|]. intros (h3 & E & H) Hk. eauto.
Qed.

Lemma feeds_split l k h h2 : feeds (l ++ k) h h2 -> exists h1, feeds l h h1 /\ feeds k h1 h2.
Proof.
  revert h. induction l as [|b l IH]; intros h; cbn; [by eauto|]. intros (h3 & E & H).
  destruct (IH h3 H) as (h1 & F1 & F2). exists h1. split; [by exists h3|done].
Qed.

Lemma feeds_recv l : forall h h', feeds l h h' -> ms_bridging_recv l h = Ret tt h'.
Proof.
  induction l as [|b l IH]; intros h h'; cbn [feeds ms_bridging_recv]; [by intros ->|].
  intros (h1 & E & H). rewrite (bind_ret_eq _ _ _ _ _ E). by apply IH.
Qed.

(** How the bytes are cut into calls does not matter. *)
Lemma feeds_chunks cs : forall h h', feeds (concat cs) h h' -> recv_chunks cs h = Ret tt h'.
Proof.
  induction cs as [|c cs IH]; intros h h'; cbn [concat recv_chunks]; [by intros ->|].
  intros (h1 & F1 & F2)%feeds_split. rewrite (bind_ret_eq _ _ _ _ _ (feeds_recv _ _ _ F1)). by apply IH.
Qed.

(** ** The header *)
Definition taking (raw : list Z) (n crc : Z) (h : br) : br :=
  set_input_frame (mkBrFrame (dec_br_header raw) None crc false) (set_input_frame_len n h).

Definition conclude (h : br) : outcome br bool :=
  ((if input_frame_len h =? MS_BR_FRAME_ALL_LEN (input_frame h) then ms_bridging_deal_input_frame else mret tt);;
   mret true) h.

Lemma header_step raw n crc b h :
  br_is_ready h = true -> bytes_ok raw -> length raw = MS_BR_FRAME_HEADER_LEN -> 0 <= n < 11 ->
  (n = 0 -> b = MS_BR_FRAME_SOF) ->
  recv_byte b (taking raw n crc h) = conclude (taking (<[Z.to_nat n := b]> raw) (n + 1) crc h).
Proof.
  intros Hr Hb Hl Hn Hs. unfold recv_byte. erewrite bind_ret_eq by reflexivity.
  cbn [br_is_ready taking set_input_frame set_input_frame_len input_frame_len]. rewrite Hr. cbn [negb].
  assert (E0 : (n =? 0) && negb (b =? MS_BR_FRAME_SOF) = false).
  { destruct (n =? 0) eqn:E; [|done]. apply Z.eqb_eq in E. rewrite (Hs E). done. }
  rewrite E0, (proj2 (Z.ltb_ge _ _)) by (unfold MS_BR_BUF_MAX_SIZE; lia).
  assert (E : recv_store b (taking raw n crc h) = Ret true (taking (<[Z.to_nat n := b]> raw) (n + 1) crc h)).
  { unfold recv_store. do 2 erewrite bind_ret_eq by reflexivity.
    cbn [taking set_input_frame set_input_frame_len input_frame_len].
    rewrite (proj2 (Z.ltb_lt _ _)) by (unfold MS_BR_FRAME_HEADER_LEN; lia).
    unfold on_input, count_byte. do 2 erewrite bind_ret_eq by reflexivity.
    cbn [taking set_input_frame set_input_frame_len input_frame input_frame_len]. unfold put_header_byte.
    cbn [bf_header bf_data bf_data_crc bf_is_valid]. rewrite enc_dec_br_header by done. rewrite u16_small by lia.
    reflexivity. }
  fold (taking raw n crc h). rewrite (bind_ret_eq _ _ _ _ _ E). cbn [negb]. by erewrite bind_ret_eq by reflexivity.
Qed.

Lemma insert_next (w raw : list Z) (n : nat) b :
  w !! n = Some b -> length w = length raw ->
  <[n := b]> (take n w ++ drop n raw) = take (S n) w ++ drop (S n) raw.
Proof.
  intros Hb Hl. assert (n < length w)%nat by (by eapply lookup_lt_Some).
  rewrite insert_app_r_alt by (rewrite length_take; lia). rewrite length_take, Nat.min_l by lia.
  rewrite Nat.sub_diag, (take_S_r _ _ b) by done. rewrite <- app_assoc. f_equal.
  destruct (drop n raw) as [|x t] eqn:E.
  - assert (length (drop n raw) = 0%nat) by (by rewrite E). rewrite length_drop in *. lia.
  - cbn [list_insert insert app]. f_equal. replace (S n) with (n + 1)%nat by lia. by rewrite <- drop_drop, E.
Qed.

(** The first bytes of a header, none of them the last one. *)
Lemma feeds_header w raw crc h k :
  br_is_ready h = true -> bytes_ok raw -> length raw = MS_BR_FRAME_HEADER_LEN ->
  bytes_ok w -> length w = MS_BR_FRAME_HEADER_LEN -> w !! 0%nat = Some MS_BR_FRAME_SOF ->
  forall n, (n + k <= 10)%nat ->
  feeds (sub n k w) (taking (take n w ++ drop n raw) (Z.of_nat n) crc h)
    (taking (take (n + k) w ++ drop (n + k) raw) (Z.of_nat (n + k)) crc h).
Proof.
  intros Hr Hb Hl Hbw Hlw H0. unfold MS_BR_FRAME_HEADER_LEN in *. induction k as [|k IH]; intros n Hn.
  { unfold sub. rewrite take_0. cbn. by rewrite Nat.add_0_r. }
  destruct (lookup_lt_is_Some_2 w n) as [b Hbn]; [lia|].
  assert (Es : sub n (S k) w = b :: sub (S n) k w).
  { unfold sub. by rewrite (drop_S _ _ _ Hbn). }
  rewrite Es. cbn [feeds]. exists (taking (take (S n) w ++ drop (S n) raw) (Z.of_nat (S n)) crc h). split.
  - rewrite header_step; try done.
    + rewrite Nat2Z.id, (insert_next _ _ _ b) by (done || lia). unfold conclude.
      replace (Z.of_nat n + 1) with (Z.of_nat (S n)) by lia.
      rewrite (proj2 (Z.eqb_neq _ _)); [reflexivity|]. unfold MS_BR_FRAME_ALL_LEN, MS_BR_FRAME_HEADER_LEN.
      cbn [input_frame_len taking set_input_frame set_input_frame_len]. destruct (0 <? _) eqn:E; [apply Z.ltb_lt in E|]; lia.
    + apply bytes_ok_app; [by apply Forall_take|by apply Forall_drop].
    + rewrite length_app, length_take, length_drop. unfold MS_BR_FRAME_HEADER_LEN. lia.
    + lia.
    + intros E. assert (n = 0%nat) as -> by lia. congruence.
  - replace (n + S k)%nat with (S n + k)%nat by lia. apply IH. lia.
Qed.

(** ** The payload *)
Definition holding (hd : ms_bridging_frame_header_t) (p : ptr) (l : list Z) (n crc : Z) (h : br) : br :=
  set_br_heap (<[p := l]> (br_heap h)) (set_input_frame (mkBrFrame hd (Some p) crc false) (set_input_frame_len n h)).

Lemma memcpy_at_one (l : list Z) n b : (n < length l)%nat -> memcpy_at n [b] l = <[n := b]> l.
Proof. intros. unfold memcpy_at. rewrite insert_take_drop by done. cbn. by rewrite Nat.add_1_r. Qed.

Lemma pop_alloc_id h : w_malloc_fails (br_world h) = [] -> set_br_world (pop_alloc (br_world h)) h = h.
Proof. intros E. unfold pop_alloc. rewrite E. cbn. rewrite <- E. by destruct h as [? ? ? ? ? ? ? ? []]. Qed.

Lemma malloc_idle n h :
  w_malloc_fails (br_world h) = [] ->
  MS_BR_MALLOC n h = Ret (Some (fresh (dom (br_heap h))))
    (set_br_heap (<[fresh (dom (br_heap h)) := replicate (Z.to_nat n) 0]> (br_heap h)) h).
Proof.
  intros Hm. unfold MS_BR_MALLOC. erewrite bind_ret_eq by reflexivity.
  assert (E : on_world (fun w => mkWorld (tail (w_malloc_fails w)) (w_send_results w) (w_tick w) (w_waits w) (w_irqs w)
                (w_sent w)) h = Ret tt h).
  { unfold on_world, modify. f_equal. by apply (pop_alloc_id h). }
  rewrite (bind_ret_eq _ _ _ _ _ E), Hm. reflexivity.
Qed.

Lemma br_write_one p n b l h :
  br_heap h !! p = Some l -> 0 <= n < zlen l ->
  br_write p n [b] h = Ret tt (set_br_heap (<[p := <[Z.to_nat n := b]> l]> (br_heap h)) h).
Proof.
  intros E Hn. unfold br_write, br_load. erewrite bind_ret_eq; [|erewrite bind_ret_eq by reflexivity; by rewrite E].
  rewrite (proj2 (Z.ltb_ge _ _)) by (unfold zlen in *; cbn; lia).
  rewrite memcpy_at_one by (unfold zlen in *; lia). reflexivity.
Qed.

(** A byte that is neither the first of a frame nor one too many. *)
Lemma recv_byte_store b h h1 :
  br_is_ready h = true -> 0 < input_frame_len h <= 512 -> recv_store b h = Ret true h1 ->
  recv_byte b h = conclude h1.
Proof.
  intros Hr Hn E. unfold recv_byte. erewrite bind_ret_eq by reflexivity. rewrite Hr. cbn [negb].
  rewrite (proj2 (Z.eqb_neq _ 0)) by lia. cbn [andb]. rewrite (proj2 (Z.ltb_ge _ _)) by (unfold MS_BR_BUF_MAX_SIZE; lia).
  rewrite (bind_ret_eq _ _ _ _ _ E). cbn [negb]. by erewrite bind_ret_eq by reflexivity.
Qed.

Lemma payload_first w crc b h :
  let hd := dec_br_header w in
  br_is_ready h = true -> w_malloc_fails (br_world h) = [] -> 0 < bh_len hd ->
  recv_byte b (taking w 11 crc h) =
    Ret true (holding hd (fresh (dom (br_heap h))) (<[0%nat := b]> (replicate (Z.to_nat (bh_len hd)) 0)) 12 crc h).
Proof.
  intros hd Hr Hm Hl. set (p := fresh (dom (br_heap h))).
  rewrite (recv_byte_store _ _ (holding hd p (<[0%nat := b]> (replicate (Z.to_nat (bh_len hd)) 0)) 12 crc h)); [|done|done|].
  - unfold conclude, MS_BR_FRAME_ALL_LEN, MS_BR_FRAME_HEADER_LEN. cbn [input_frame_len input_frame holding set_br_heap
      set_input_frame set_input_frame_len bf_header]. rewrite (proj2 (Z.ltb_lt _ _)) by done.
    rewrite (proj2 (Z.eqb_neq _ _)) by lia. done.
  - unfold recv_store. do 2 erewrite bind_ret_eq by reflexivity.
    cbn [taking set_input_frame set_input_frame_len input_frame input_frame_len bf_header].
    change (Z.of_nat MS_BR_FRAME_HEADER_LEN) with 11. fold hd. change (11 <? 11) with false. cbn iota.
    rewrite (proj2 (Z.ltb_lt _ _)) by lia.
    assert (E : input_data (taking w 11 crc h) =
                Ret (Some p) (holding hd p (replicate (Z.to_nat (bh_len hd)) 0) 11 crc h)).
    { unfold input_data. erewrite bind_ret_eq by reflexivity.
      cbn [bf_data bf_header taking set_input_frame set_input_frame_len input_frame]. fold hd.
      rewrite (bind_ret_eq _ _ _ _ _ (malloc_idle (bh_len hd) (taking w 11 crc h) Hm)). reflexivity. }
    rewrite (bind_ret_eq _ _ _ _ _ E). set (l0 := replicate _ 0).
    assert (E2 : br_write p (11 - 11) [b] (holding hd p l0 11 crc h) = Ret tt (holding hd p (<[0%nat := b]> l0) 11 crc h)).
    { rewrite (br_write_one p (11 - 11) b l0).
      - unfold holding. cbn [br_heap set_br_heap]. rewrite insert_insert_eq. reflexivity.
      - apply lookup_insert_eq.
      - unfold zlen, l0. rewrite length_replicate. lia. }
    rewrite (bind_ret_eq _ _ _ _ _ E2). reflexivity.
Qed.

Lemma payload_next hd p l n crc b h :
  br_is_ready h = true -> zlen l = bh_len hd -> 11 < n <= 512 -> n < 11 + bh_len hd ->
  recv_byte b (holding hd p l n crc h) = Ret true (holding hd p (<[Z.to_nat (n - 11) := b]> l) (n + 1) crc h).
Proof.
  intros Hr Hz Hn Hl.
  rewrite (recv_byte_store _ _ (holding hd p (<[Z.to_nat (n - 11) := b]> l) (n + 1) crc h)); [|done|cbn; lia|].
  - unfold conclude, MS_BR_FRAME_ALL_LEN, MS_BR_FRAME_HEADER_LEN. cbn [input_frame_len input_frame holding set_br_heap
      set_input_frame set_input_frame_len bf_header]. rewrite (proj2 (Z.ltb_lt _ _)) by lia.
    rewrite (proj2 (Z.eqb_neq _ _)) by lia. done.
  - unfold recv_store. do 2 erewrite bind_ret_eq by reflexivity.
    cbn [holding set_br_heap set_input_frame set_input_frame_len input_frame input_frame_len bf_header].
    change (Z.of_nat MS_BR_FRAME_HEADER_LEN) with 11. rewrite (proj2 (Z.ltb_ge n 11)) by lia.
    rewrite (proj2 (Z.ltb_lt _ _)) by lia. erewrite bind_ret_eq by reflexivity. cbn beta iota.
    erewrite bind_ret_eq by (apply br_write_one; [apply lookup_insert_eq|lia]).
    unfold holding, count_byte. cbn [br_heap set_br_heap]. rewrite insert_insert_eq. erewrite bind_ret_eq by reflexivity.
    cbn [input_frame_len set_br_heap set_input_frame set_input_frame_len]. rewrite u16_small by lia. reflexivity.
Qed.

Lemma feeds_payload_rest hd p pay crc h k : forall n,
  br_is_ready h = true -> zlen pay = bh_len hd -> bh_len hd <= 500 -> (0 < n)%nat -> (n + k = length pay)%nat ->
  feeds (drop n pay) (holding hd p (take n pay ++ replicate k 0) (11 + Z.of_nat n) crc h)
    (holding hd p pay (11 + bh_len hd) crc h).
Proof.
  induction k as [|k IH]; intros n Hr Hz Hm Hn Hk.
  { rewrite drop_ge, take_ge by lia. rewrite app_nil_r. cbn. rewrite <- Hz. unfold zlen. do 2 f_equal. lia. }
  destruct (lookup_lt_is_Some_2 pay n) as [b Hb]; [lia|]. rewrite (drop_S _ _ _ Hb). cbn [feeds].
  unfold zlen in Hz. exists (holding hd p (take (S n) pay ++ replicate k 0) (11 + Z.of_nat (S n)) crc h).
  split; [|apply IH; unfold zlen; try done; lia].
  rewrite payload_next; [|done|unfold zlen; rewrite length_app, length_take, length_replicate; lia|lia|lia].
  replace (Z.to_nat (11 + Z.of_nat n - 11)) with n by lia. replace (11 + Z.of_nat n + 1) with (11 + Z.of_nat (S n)) by lia.
  do 2 f_equal. rewrite insert_app_r_alt by (rewrite length_take; lia). rewrite length_take, Nat.min_l by lia.
  rewrite Nat.sub_diag, (take_S_r _ _ b) by done. by rewrite <- app_assoc.
Qed.

Lemma feeds_payload w pay crc h :
  let hd := dec_br_header w in
  br_is_ready h = true -> w_malloc_fails (br_world h) = [] -> 0 < bh_len hd <= 500 -> zlen pay = bh_len hd ->
  feeds pay (taking w 11 crc h) (holding hd (fresh (dom (br_heap h))) pay (11 + bh_len hd) crc h).
Proof.
  intros hd Hr Hm Hl Hz. destruct pay as [|b pay]; [change (zlen []) with 0 in Hz; lia|]. cbn [feeds].
  eexists. split; [apply payload_first; [done|done|apply Hl]|]. fold hd.
  pose proof (feeds_payload_rest hd (fresh (dom (br_heap h))) (b :: pay) crc h (length pay) 1) as F.
  rewrite <- Hz at 1. unfold zlen. cbn [length]. rewrite Nat2Z.id. cbn [replicate insert list_insert].
  apply F; try done; lia.
Qed.

(** ** The CRC of the payload *)
Lemma crc_step hd p l k crc b h :
  br_is_ready h = true -> 0 < bh_len hd <= 500 -> (k < 2)%nat ->
  recv_byte b (holding hd p l (11 + bh_len hd + Z.of_nat k) crc h) =
    conclude (holding hd p l (11 + bh_len hd + Z.of_nat k + 1) (le_dec (<[k := b]> (le_enc 2 crc))) h).
Proof.
  intros Hr Hl Hk. apply recv_byte_store; [done|cbn; lia|]. unfold recv_store. do 2 erewrite bind_ret_eq by reflexivity.
  cbn [holding set_br_heap set_input_frame set_input_frame_len input_frame input_frame_len bf_header].
  unfold MS_BR_FRAME_ALL_LEN. cbn [bf_header]. change (Z.of_nat MS_BR_FRAME_HEADER_LEN) with 11.
  rewrite (proj2 (Z.ltb_ge _ 11)) by lia. rewrite (proj2 (Z.ltb_ge _ (11 + bh_len hd))) by lia.
  rewrite (proj2 (Z.ltb_lt 0 _)) by lia. rewrite (proj2 (Z.ltb_lt _ _)) by lia.
  unfold on_input, count_byte. do 2 erewrite bind_ret_eq by reflexivity.
  unfold holding. cbn [input_frame_len input_frame set_br_heap set_input_frame set_input_frame_len].
  unfold put_crc_byte. cbn [bf_header bf_data bf_data_crc bf_is_valid]. rewrite u16_small by lia.
  replace (Z.to_nat (11 + bh_len hd + Z.of_nat k - 11 - bh_len hd)) with k by lia. reflexivity.
Qed.

Lemma crc_assembled c crc :
  half c -> le_dec (<[1%nat := c / 256 mod 256]> (le_enc 2 (le_dec (<[0%nat := c mod 256]> (le_enc 2 crc))))) = c.
Proof. unfold half. intros. cbn. lia. Qed.

(** ** A complete frame of ours passes the checks *)
Definition dealt (h : br) : br :=
  set_input_frame (set_bf_is_valid false (set_bf_data None (input_frame h))) (set_input_frame_len 0 h).

Definition checked (h : br) : Prop :=
  ms_bridging_check_frame_crc (input_frame h) h = Ret MS_BR_OK h.

Lemma conclude_notify h i :
  checked h -> input_frame_len h = MS_BR_FRAME_ALL_LEN (input_frame h) ->
  br_notify_type (bh_type (bf_header (input_frame h))) = true -> br_find_empty (notify_frame h) = Some i ->
  conclude h = Ret true (dealt (set_notify_frame (<[i := set_bf_is_valid true (input_frame h)]> (notify_frame h)) h)).
Proof.
  intros Hc Hn Ht Hi. unfold conclude. rewrite Hn, Z.eqb_refl. unfold ms_bridging_deal_input_frame.
  erewrite bind_ret_eq; [reflexivity|]. erewrite bind_ret_eq by reflexivity. rewrite (bind_ret_eq _ _ _ _ _ Hc).
  change (MS_BR_OK =? MS_BR_OK) with true. cbn iota. unfold br_notify_type in Ht.
  erewrite bind_ret_eq; [|unfold on_input; erewrite bind_ret_eq by reflexivity; cbn zeta; rewrite Ht;
    unfold ms_bridging_add_notify_frame, ms_bridging_find_empty_notify_slot; erewrite bind_ret_eq by reflexivity;
    cbn [notify_frame set_input_frame]; rewrite Hi; reflexivity].
  reflexivity.
Qed.

Lemma conclude_ack h i :
  checked h -> input_frame_len h = MS_BR_FRAME_ALL_LEN (input_frame h) ->
  br_notify_type (bh_type (bf_header (input_frame h))) = false ->
  br_ack_type (bh_type (bf_header (input_frame h))) = true -> br_find_empty (ack_frame h) = Some i ->
  conclude h = Ret true (dealt (set_ack_frame_received_tick (<[i := w_tick (br_world h)]> (ack_frame_received_tick h))
                  (set_ack_frame (<[i := set_bf_is_valid true (input_frame h)]> (ack_frame h)) h))).
Proof.
  intros Hc Hn Ht Hk Hi. unfold conclude. rewrite Hn, Z.eqb_refl. unfold ms_bridging_deal_input_frame.
  erewrite bind_ret_eq; [reflexivity|]. erewrite bind_ret_eq by reflexivity. rewrite (bind_ret_eq _ _ _ _ _ Hc).
  change (MS_BR_OK =? MS_BR_OK) with true. cbn iota. unfold br_notify_type, br_ack_type in *.
  erewrite bind_ret_eq; [|unfold on_input; erewrite bind_ret_eq by reflexivity; cbn zeta; rewrite Ht, Hk;
    unfold ms_bridging_add_ack_frame, ms_bridging_find_empty_ack_slot; erewrite bind_ret_eq by reflexivity;
    cbn [ack_frame set_input_frame]; rewrite Hi; reflexivity].
  reflexivity.
Qed.

Lemma br_crc_range l : half (ms_bridging_crc16 l).
Proof.
  unfold ms_bridging_crc16. assert (G : forall c, half c -> half (foldl br_crc_byte c l)); [|by apply G; unfold half; lia].
  assert (B : forall c, half (br_crc_bit c)) by (intros c; unfold br_crc_bit; destruct (Z.testbit c 15); apply u16_range).
  induction l as [|b l IH]; intros c Hc; cbn [foldl]; [done|]. apply IH, B.
Qed.

(** ** Idle handlers and sendable frames *)
Record br_idle (h : br) : Prop := {
  id_ready : br_is_ready h = true;
  id_count : input_frame_len h = 0;
  id_data : bf_data (input_frame h) = None;
  id_valid : bf_is_valid (input_frame h) = false;
  id_header : br_header_wf (bf_header (input_frame h));
  id_malloc : w_malloc_fails (br_world h) = []
}.

Record br_sendable (hdr : ms_bridging_frame_header_t) (pay : list Z) : Prop := {
  sd_wf : br_header_wf hdr;
  sd_sof : bh_sof hdr = MS_BR_FRAME_SOF;
  sd_len : bh_len hdr = zlen pay;
  sd_max : zlen pay <= 500
}.

Lemma sealed_wf_br hdr : br_header_wf hdr -> br_header_wf (sealed_header hdr).
Proof. intros []. constructor; try done. apply br_crc_range. Qed.

Definition gathered (hdr : ms_bridging_frame_header_t) (pay : list Z) (h : br) : br :=
  if 0 <? zlen pay
  then holding (sealed_header hdr) (fresh (dom (br_heap h))) pay (13 + bh_len hdr) (ms_bridging_crc16 pay) h
  else taking (enc_br_header (sealed_header hdr)) 11 (bf_data_crc (input_frame h)) h.

Lemma idle_taking h :
  br_idle h -> taking (enc_br_header (bf_header (input_frame h))) 0 (bf_data_crc (input_frame h)) h = h.
Proof.
  intros []. unfold taking. rewrite dec_enc_br_header by done. rewrite <- id_valid0, <- id_count0.
  rewrite <- id_data0 at 1. destruct h as [? ? ? [] ? ? ? ? ?]. done.
Qed.

(** The bytes of a frame lead to the point where it is complete. *)
Lemma feeds_wire_br hdr pay h h' :
  br_idle h -> br_sendable hdr pay -> conclude (gathered hdr pay h) = Ret true h' -> feeds (br_wire hdr pay) h h'.
Proof.
  intros HI [Hwf Hs Hl Hm] HC. set (w := enc_br_header (sealed_header hdr)).
  assert (Hsw : dec_br_header w = sealed_header hdr) by (apply dec_enc_br_header, sealed_wf_br, Hwf).
  set (raw := enc_br_header (bf_header (input_frame h))). set (c0 := bf_data_crc (input_frame h)).
  assert (Hr : br_is_ready h = true) by apply HI.
  assert (H0 : w !! 0%nat = Some MS_BR_FRAME_SOF) by (unfold w, enc_br_header, enc_br_body; cbn; by rewrite Hs).
  assert (F10 : feeds (take 10 w) h (taking (take 10 w ++ drop 10 raw) 10 c0 h)).
  { pose proof (feeds_header w raw c0 h 10 Hr (bytes_ok_enc_br_header _) eq_refl (bytes_ok_enc_br_header _) eq_refl H0 0 ltac:(lia)) as F.
    rewrite Nat.add_0_l, take_0, drop_0 in F. cbn [app] in F. change (Z.of_nat 0) with 0 in F.
    unfold raw, c0 in F. rewrite (idle_taking h HI) in F. exact F. }
  assert (Hlw : length w = 11%nat) by reflexivity. assert (Hlr : length raw = 11%nat) by reflexivity.
  destruct (lookup_lt_is_Some_2 w 10) as [b Hb]; [lia|].
  assert (E11 : recv_byte b (taking (take 10 w ++ drop 10 raw) 10 c0 h) = conclude (taking w 11 c0 h)).
  { rewrite header_step; [|done| |done|lia|lia].
    - change (Z.to_nat 10) with 10%nat. rewrite (insert_next w raw 10 b) by (done || lia). rewrite (drop_ge raw), app_nil_r, take_ge by lia. done.
    - apply bytes_ok_app; [apply Forall_take|apply Forall_drop]; apply bytes_ok_enc_br_header. }
  assert (Ew : w = take 10 w ++ [b]) by (rewrite <- (take_S_r w 10 b Hb), take_ge by lia; done).
  unfold br_wire, gathered in *. fold w in HC |- *. rewrite Ew, <- app_assoc. eapply feeds_app; [exact F10|].
  unfold behind_header. destruct (0 <? zlen pay) eqn:Ez; [apply Z.ltb_lt in Ez|].
  2:{ exists h'. split; [by rewrite E11|done]. }
  cbn [app feeds]. exists (taking w 11 c0 h). split.
  { rewrite E11. unfold conclude, MS_BR_FRAME_ALL_LEN. cbn [input_frame input_frame_len taking set_input_frame
      set_input_frame_len bf_header]. rewrite Hsw. cbn [sealed_header bh_len]. rewrite (proj2 (Z.ltb_lt _ _)) by lia.
    change (Z.of_nat MS_BR_FRAME_HEADER_LEN) with 11. by rewrite (proj2 (Z.eqb_neq _ _)) by lia. }
  eapply feeds_app; [apply feeds_payload; rewrite ?Hsw; try done; [apply HI|cbn; lia]|].
  rewrite Hsw. cbn [sealed_header bh_len]. fold (sealed_header hdr). set (p := fresh _) in *.
  set (c := ms_bridging_crc16 pay) in *. cbn [le_enc feeds].
  pose proof (crc_step (sealed_header hdr) p pay 0 c0 (c mod 256) h Hr) as S1.
  pose proof (crc_step (sealed_header hdr) p pay 1 (le_dec (<[0%nat := c mod 256]> (le_enc 2 c0))) (c / 256 mod 256) h Hr) as S2.
  cbn [sealed_header bh_len] in S1, S2. fold (sealed_header hdr) in S1, S2.
  specialize (S1 ltac:(lia) ltac:(lia)). specialize (S2 ltac:(lia) ltac:(lia)).
  set (n1 := 11 + bh_len hdr + Z.of_nat 0 + 1) in S1. set (n2 := 11 + bh_len hdr + Z.of_nat 1 + 1) in S2.
  rewrite (crc_assembled c c0 (br_crc_range pay)) in S2.
  replace (11 + bh_len hdr + Z.of_nat 0) with (11 + bh_len hdr) in S1 by lia.
  replace (11 + bh_len hdr + Z.of_nat 1) with n1 in S2 by (unfold n1; lia).
  exists (holding (sealed_header hdr) p pay n1 (le_dec (<[0%nat := c mod 256]> (le_enc 2 c0))) h). split.
  - rewrite S1. unfold conclude, MS_BR_FRAME_ALL_LEN. cbn [input_frame input_frame_len holding set_br_heap set_input_frame
      set_input_frame_len bf_header sealed_header bh_len]. rewrite (proj2 (Z.ltb_lt _ _)) by lia.
    change (Z.of_nat MS_BR_FRAME_HEADER_LEN) with 11. by rewrite (proj2 (Z.eqb_neq _ _)) by (unfold n1; lia).
  - exists h'. split; [|done]. rewrite S2. replace n2 with (13 + bh_len hdr) by (unfold n2; lia). exact HC.
Qed.

(** Both CRCs match. *)
Lemma gathered_checked hdr pay h :
  br_sendable hdr pay ->
  checked (gathered hdr pay h) /\ bf_header (input_frame (gathered hdr pay h)) = sealed_header hdr /\
  input_frame_len (gathered hdr pay h) = MS_BR_FRAME_ALL_LEN (input_frame (gathered hdr pay h)).
Proof.
  intros [Hwf Hs Hl Hm]. pose proof (dec_enc_br_header _ (sealed_wf_br _ Hwf)) as Hsw.
  assert (Ez : zlen pay = 0 \/ 0 < zlen pay) by (unfold zlen; lia).
  unfold checked, gathered, ms_bridging_check_frame_crc, MS_BR_FRAME_ALL_LEN. destruct Ez as [Ez|Ez].
  - rewrite (proj2 (Z.ltb_ge 0 (zlen pay))) by lia.
    cbn [input_frame input_frame_len taking set_input_frame set_input_frame_len bf_header]. rewrite Hsw.
    change (enc_br_body (sealed_header hdr)) with (enc_br_body hdr).
    change (bh_crc (sealed_header hdr)) with (ms_bridging_crc16 (enc_br_body hdr)). rewrite Z.eqb_refl. cbn [negb].
    change (bh_len (sealed_header hdr)) with (bh_len hdr). rewrite (proj2 (Z.ltb_ge 0 (bh_len hdr))) by lia.
    split; [reflexivity|]. done.
  - rewrite (proj2 (Z.ltb_lt 0 (zlen pay))) by lia.
    cbn [input_frame input_frame_len holding set_br_heap set_input_frame set_input_frame_len bf_header].
    change (enc_br_body (sealed_header hdr)) with (enc_br_body hdr).
    change (bh_crc (sealed_header hdr)) with (ms_bridging_crc16 (enc_br_body hdr)). rewrite Z.eqb_refl. cbn [negb].
    change (bh_len (sealed_header hdr)) with (bh_len hdr). rewrite (proj2 (Z.ltb_lt 0 (bh_len hdr))) by lia.
    split; [|split; [done|unfold MS_BR_FRAME_HEADER_LEN; lia]].
    assert (Etk : take (Z.to_nat (bh_len hdr)) pay = pay).
    { rewrite Hl. unfold zlen. rewrite Nat2Z.id. apply take_ge. lia. }
    unfold br_payload. cbn [bf_data bf_header]. change (bh_len (sealed_header hdr)) with (bh_len hdr).
    rewrite (proj2 (Z.ltb_lt 0 (bh_len hdr))) by lia. unfold br_load.
    erewrite bind_ret_eq.
    2:{ erewrite bind_ret_eq.
        2:{ erewrite bind_ret_eq by reflexivity. cbn [br_heap holding set_br_heap]. rewrite lookup_insert_eq. reflexivity. }
        rewrite (proj2 (Z.ltb_ge (zlen pay) (bh_len hdr))) by lia. rewrite Etk. reflexivity. }
    cbn [bf_data_crc]. rewrite Z.eqb_refl. reflexivity.
Qed.

(** ** Delivery *)

(** What a delivered frame leaves: an idle parser, one more block for a non-empty
    payload, and nothing else changed but the slot. *)
Record br_landed (hdr : ms_bridging_frame_header_t) (pay : list Z) (f : ms_bridging_frame_t) (h h' : br) : Prop := {
  ld_idle : br_idle h';
  ld_world : br_world h' = br_world h;
  ld_id : global_frame_id h' = global_frame_id h;
  ld_header : bf_header f = sealed_header hdr;
  ld_valid : bf_is_valid f = true;
  ld_heap : match bf_data f with
            | None => pay = [] /\ br_heap h' = br_heap h
            | Some p => pay <> [] /\ br_heap h !! p = None /\ br_heap h' = <[p := pay]> (br_heap h)
            end
}.

Lemma landed_gathered hdr pay h hx :
  br_idle h -> br_sendable hdr pay ->
  input_frame hx = input_frame (gathered hdr pay h) -> br_heap hx = br_heap (gathered hdr pay h) ->
  br_is_ready hx = br_is_ready h -> global_frame_id hx = global_frame_id h -> br_world hx = br_world h ->
  br_landed hdr pay (set_bf_is_valid true (input_frame (gathered hdr pay h))) h (dealt hx).
Proof.
  intros HI [Hwf Hs Hl Hm] Ei Eh Er Eg Ew. destruct HI.
  assert (Eh1 : bf_header (input_frame (gathered hdr pay h)) = sealed_header hdr).
  { unfold gathered. destruct (0 <? zlen pay); [done|]. apply (dec_enc_br_header (sealed_header hdr)), sealed_wf_br, Hwf. }
  constructor; try done.
  - constructor; cbn; rewrite ?Er, ?Ew, ?Ei; try done. rewrite Eh1. by apply sealed_wf_br.
  - cbn [bf_data set_bf_is_valid br_heap dealt set_input_frame set_input_frame_len]. rewrite Eh.
    unfold gathered. destruct (0 <? zlen pay) eqn:E; [apply Z.ltb_lt in E|apply Z.ltb_ge in E].
    + split; [intros ->; unfold zlen in E; cbn in E; lia|]. split; [|done]. apply not_elem_of_dom, is_fresh.
    + split; [|done]. destruct pay; [done|]. unfold zlen in E. cbn in E. lia.
Qed.

Lemma wire_to_br_notify hdr pay h i :
  br_idle h -> br_sendable hdr pay -> br_notify_type (bh_type hdr) = true -> br_find_empty (notify_frame h) = Some i ->
  exists f h', feeds (br_wire hdr pay) h h' /\ br_landed hdr pay f h h' /\
    notify_frame h' = <[i := f]> (notify_frame h) /\ ack_frame h' = ack_frame h /\
    ack_frame_received_tick h' = ack_frame_received_tick h.
Proof.
  intros HI HS Ht Hi. destruct (gathered_checked hdr pay h HS) as (Hc & Hh & Hn).
  set (g := gathered hdr pay h) in *.
  assert (En : notify_frame g = notify_frame h) by (unfold g, gathered; by destruct (0 <? zlen pay)).
  assert (Ek : ack_frame g = ack_frame h) by (unfold g, gathered; by destruct (0 <? zlen pay)).
  assert (Et : ack_frame_received_tick g = ack_frame_received_tick h) by (unfold g, gathered; by destruct (0 <? zlen pay)).
  eexists _, _. split; [apply feeds_wire_br; [done|done|]; apply (conclude_notify g i); [done|done|by rewrite Hh|by rewrite En]|].
  split; [|by rewrite <- En, <- Ek, <- Et].
  apply landed_gathered; try done; unfold g, gathered; by destruct (0 <? zlen pay).
Qed.

Lemma wire_to_br_ack hdr pay h i :
  br_idle h -> br_sendable hdr pay -> br_ack_type (bh_type hdr) = true -> br_find_empty (ack_frame h) = Some i ->
  exists f h', feeds (br_wire hdr pay) h h' /\ br_landed hdr pay f h h' /\
    ack_frame h' = <[i := f]> (ack_frame h) /\ notify_frame h' = notify_frame h /\
    ack_frame_received_tick h' = <[i := w_tick (br_world h)]> (ack_frame_received_tick h).
Proof.
  intros HI HS Ht Hi. destruct (gathered_checked hdr pay h HS) as (Hc & Hh & Hn).
  set (g := gathered hdr pay h) in *.
  assert (En : notify_frame g = notify_frame h) by (unfold g, gathered; by destruct (0 <? zlen pay)).
  assert (Ek : ack_frame g = ack_frame h) by (unfold g, gathered; by destruct (0 <? zlen pay)).
  assert (Et : ack_frame_received_tick g = ack_frame_received_tick h) by (unfold g, gathered; by destruct (0 <? zlen pay)).
  assert (Ew : br_world g = br_world h) by (unfold g, gathered; by destruct (0 <? zlen pay)).
  assert (Hnt : br_notify_type (bh_type hdr) = false).
  { unfold br_ack_type, br_notify_type, MS_BR_FRAME_TYPE_EVENT, MS_BR_FRAME_TYPE_REQUEST, MS_BR_FRAME_TYPE_EVENT_ACK,
      MS_BR_FRAME_TYPE_RESPONSE in *. apply orb_true_iff in Ht as [E|E]; apply Z.eqb_eq in E; by rewrite E. }
  eexists _, _. split; [apply feeds_wire_br; [done|done|]; apply (conclude_ack g i); [done|done|by rewrite Hh|by rewrite Hh|by rewrite Ek]|].
  split; [|by rewrite <- En, <- Ek, <- Et, <- Ew].
  apply landed_gathered; try done; unfold g, gathered; by destruct (0 <? zlen pay).
Qed.
