(* ===== verification/MsBridgingProps.v ===== *)
(** The properties of the bridging protocol. *)
From stdpp Require Import gmap.
From S2P Require Import Prelude Heap MsBridging MsBridgingInv MsBridgingOps MsBridgingWire.

(** ** The steps of an exchange *)
Lemma send_frame_idle hdr data h :
  br_arg_ok data (bh_len hdr) -> w_malloc_fails (br_world h) = [] ->
  ms_bridging_send_frame hdr data h =
    Ret (default 0 (head (w_send_results (br_world h)))) (sent_one (br_wire hdr (carried (bh_len hdr) data)) h).
Proof.
  intros Ha Hm. pose proof (send_frame_eq hdr data h
    (fun r h' => r = default 0 (head (w_send_results (br_world h))) /\
                 h' = sent_one (br_wire hdr (carried (bh_len hdr) data)) h) Ha) as R.
  destruct (returns_elim _ _ _ (R ltac:(rewrite Hm; done) ltac:(by rewrite pop_alloc_id))) as (r & h' & E & -> & ->). done.
Qed.

Lemma carried_all l : carried (zlen l) (Some l) = l.
Proof. unfold carried, zlen. rewrite Nat2Z.id. by apply take_ge. Qed.

Lemma br_find_ack_insert ty cmd id l i f :
  br_find_ack ty cmd id l = None -> (i < length l)%nat -> br_ack_match ty cmd id f = true ->
  br_find_ack ty cmd id (<[i := f]> l) = Some i.
Proof.
  revert i. induction l as [|g l IH]; intros i Hn Hi Hf; cbn in *; [lia|].
  destruct (br_ack_match ty cmd id g) eqn:E; [done|]. destruct i as [|i]; cbn; [by rewrite Hf|].
  rewrite E, IH; [done| |lia|done]. by destruct (br_find_ack ty cmd id l).
Qed.

(** The bytes of the acknowledgement arrive during the first wait. *)
Lemma wait_gets_ack fuel ty cmd id hdr pay dt cs ws i h :
  br_idle h -> br_sendable hdr pay -> br_ack_type (bh_type hdr) = true ->
  bh_type hdr = ty -> bh_cmd hdr = cmd -> bh_id hdr = id ->
  br_find_empty (ack_frame h) = Some i -> br_find_ack ty cmd id (ack_frame h) = None ->
  w_waits (br_world h) = (dt, cs) :: ws -> concat cs = br_wire hdr pay ->
  exists f h', ms_bridging_wait_for_ack (S fuel) ty cmd id h = Ret (MS_BR_OK, f) h' /\
    bf_header f = sealed_header hdr /\ w_sent (br_world h') = w_sent (br_world h) /\
    w_malloc_fails (br_world h') = [] /\
    match bf_data f with
    | None => pay = [] /\ br_heap h' = br_heap h
    | Some p => pay <> [] /\ br_heap h !! p = None /\ br_heap h' = <[p := pay]> (br_heap h)
    end.
Proof.
  intros HI HS Hk Et Ec Ed Hi Hn Hw Hcs.
  set (h1 := set_br_world (mkWorld (w_malloc_fails (br_world h)) (w_send_results (br_world h))
               (w_tick (br_world h) +u dt) ws (w_irqs (br_world h)) (w_sent (br_world h))) h).
  assert (I1 : br_idle h1) by (destruct HI; by constructor).
  destruct (wire_to_br_ack hdr pay h1 i I1 HS Hk Hi) as (f & h2 & F & L & Ek & _ & _).
  assert (Er : recv_chunks cs h1 = Ret tt h2) by (apply feeds_chunks; by rewrite Hcs).
  assert (Ewait : MS_BR_SEM_WAIT MS_BR_WAIT_ACK_DELAY_MS h = Ret tt h2).
  { unfold MS_BR_SEM_WAIT. erewrite bind_ret_eq by reflexivity. rewrite Hw. exact Er. }
  destruct L as [I2 Lw Lg Lh Lv Lp].
  unfold ms_bridging_wait_for_ack. erewrite bind_ret_eq by reflexivity. cbn [ack_loop].
  rewrite (bind_ret_eq _ _ _ _ _ Ewait). erewrite bind_ret_eq by reflexivity. rewrite (id_ready _ I2). cbn [negb].
  assert (Hil : (i < length (ack_frame h))%nat).
  { destruct (br_find_empty_spec _ _ Hi) as (g & Hg & _). by eapply lookup_lt_Some. }
  rewrite Ek, br_find_ack_insert; [|done|done|].
  2:{ unfold br_ack_match. rewrite Lv, Lh. cbn [sealed_header bh_id bh_cmd bh_type]. rewrite Et, Ec, Ed, !Z.eqb_refl. done. }
  rewrite list_lookup_insert_eq by done. eexists f, _. split; [reflexivity|]. split; [done|].
  cbn [br_world set_ack_frame br_heap]. rewrite Lw. split; [done|]. split; [apply HI|].
  by destruct (bf_data f).
Qed.

Lemma reply_copied f pay h :
  w_malloc_fails (br_world h) = [] -> bh_len (bf_header f) = zlen pay -> pay <> [] ->
  (exists q, bf_data f = Some q /\ br_heap h !! q = Some pay) ->
  exists p h', reply_out true f h = Ret (MS_BR_OK, Some (p, zlen pay)) h' /\ br_heap h' !! p = Some pay /\
    br_world h' = br_world h.
Proof.
  intros Hm Hl Hne (q & Hq & El). assert (Hpos : 0 < zlen pay) by (unfold zlen; destruct pay; [done|cbn; lia]).
  unfold reply_out. rewrite Hq, Hl, (proj2 (Z.ltb_lt _ _)) by done. cbn [andb].
  rewrite (bind_ret_eq _ _ _ _ _ (malloc_idle (zlen pay) h Hm)). set (p := fresh (dom (br_heap h))).
  assert (Hp : br_heap h !! p = None) by apply not_elem_of_dom, is_fresh.
  assert (Hpq : p <> q) by (intros E; rewrite E in Hp; by rewrite El in Hp).
  set (h1 := set_br_heap _ h).
  assert (E1 : br_load q h1 = Ret pay h1).
  { unfold br_load. erewrite bind_ret_eq by reflexivity. cbn [br_heap h1 set_br_heap]. by rewrite lookup_insert_ne, El. }
  rewrite (bind_ret_eq _ _ _ _ _ E1), Z.ltb_irrefl.
  assert (Etk : take (Z.to_nat (zlen pay)) pay = pay) by (unfold zlen; rewrite Nat2Z.id; by apply take_ge).
  rewrite Etk. set (h2 := set_br_heap (<[p := pay]> (br_heap h1)) h1).
  assert (E2 : br_write p 0 pay h1 = Ret tt h2).
  { unfold br_write, br_load. erewrite bind_ret_eq.
    2:{ erewrite bind_ret_eq by reflexivity. cbn [br_heap h1 set_br_heap]. rewrite lookup_insert_eq. reflexivity. }
    rewrite (proj2 (Z.ltb_ge _ _)) by (unfold zlen; rewrite length_replicate; lia).
    unfold memcpy_at. cbn [Z.to_nat take app]. rewrite Nat.add_0_l, drop_ge, app_nil_r; [done|].
    rewrite length_replicate. unfold zlen. lia. }
  rewrite (bind_ret_eq _ _ _ _ _ E2).
  assert (E3 : MS_BR_FREE q h2 = Ret tt (set_br_heap (delete q (br_heap h2)) h2)).
  { unfold MS_BR_FREE. erewrite bind_ret_eq by reflexivity. cbn [br_heap h2 h1 set_br_heap].
    by rewrite !lookup_insert_ne, El by done. }
  rewrite (bind_ret_eq _ _ _ _ _ E3). eexists p, _. split; [reflexivity|]. split; [|done].
  cbn [br_heap set_br_heap h2]. by rewrite lookup_delete_ne, lookup_insert_eq by done.
Qed.

Definition request_header (id cmd len : Z) : ms_bridging_frame_header_t :=
  mkBrHeader MS_BR_FRAME_SOF id len MS_BR_FRAME_TYPE_REQUEST cmd 0.
Definition response_header (id cmd len : Z) : ms_bridging_frame_header_t :=
  mkBrHeader MS_BR_FRAME_SOF id len MS_BR_FRAME_TYPE_RESPONSE cmd 0.

Lemma header_sendable id cmd ty pay :
  half id -> half cmd -> half ty -> zlen pay <= 500 -> br_sendable (mkBrHeader MS_BR_FRAME_SOF id (zlen pay) ty cmd 0) pay.
Proof.
  intros. constructor; try done. constructor; cbn; try done; unfold half, MS_BR_FRAME_SOF, zlen in *; lia.
Qed.

Lemma send_arg_ok (l : list Z) : bytes_ok l -> zlen l <= 500 -> br_arg_ok (Some l) (zlen l).
Proof. intros Hb Hl. split; [unfold zlen in *; lia|]. split; [lia|done]. Qed.

(** The requester: a request whose reply arrives during its first wait. *)
Lemma request_answered a cmd req reply cs dt ws fuel i want :
  br_idle a -> half cmd -> half (global_frame_id a) -> bytes_ok req -> zlen req <= 500 -> zlen reply <= 500 ->
  w_send_results (br_world a) = [] -> br_find_empty (ack_frame a) = Some i ->
  br_find_ack MS_BR_FRAME_TYPE_RESPONSE cmd (global_frame_id a) (ack_frame a) = None ->
  w_waits (br_world a) = (dt, cs) :: ws ->
  concat cs = br_wire (response_header (global_frame_id a) cmd (zlen reply)) reply ->
  exists f a2, ms_bridging_request (S fuel) cmd (Some req) (zlen req) want a = reply_out want f a2 /\
    bh_len (bf_header f) = zlen reply /\ w_malloc_fails (br_world a2) = [] /\
    w_sent (br_world a2) = w_sent (br_world a) ++ [br_wire (request_header (global_frame_id a) cmd (zlen req)) req] /\
    match bf_data f with
    | None => reply = [] /\ br_heap a2 = br_heap a
    | Some p => reply <> [] /\ br_heap a !! p = None /\ br_heap a2 = <[p := reply]> (br_heap a)
    end /\
    (forall A, br_inv A a -> (length (w_waits (br_world a)) + 28 <= S fuel)%nat ->
       br_inv (option_list (bf_data f) ++ A) a2).
Proof.
  intros Ia Hc Hid Hrq Hlq Hlp Sa Hi Hn Hw Hcs. set (wire := br_wire _ req).
  unfold ms_bridging_request, ms_bridging_build_frame.
  erewrite bind_ret_eq by (do 2 erewrite bind_ret_eq by reflexivity; reflexivity).
  set (a1 := set_global_frame_id _ a). set (hdr := mkBrHeader _ _ _ _ _ _). cbn [br_request_loop MS_BR_RETRY_TIMES].
  erewrite bind_ret_eq by reflexivity. change (br_is_ready a1) with (br_is_ready a). rewrite (id_ready _ Ia). cbn [negb].
  assert (Es : ms_bridging_send_frame hdr (Some req) a1 = Ret MS_BR_OK (sent_one wire a1)).
  { rewrite send_frame_idle; [|by apply send_arg_ok|apply Ia].
    cbn [br_world a1 set_global_frame_id bh_len hdr]. rewrite Sa, carried_all. done. }
  rewrite (bind_ret_eq _ _ _ _ _ Es). change (MS_BR_OK =? MS_BR_OK) with true. cbn [negb].
  destruct (wait_gets_ack fuel MS_BR_FRAME_TYPE_RESPONSE cmd (global_frame_id a)
              (response_header (global_frame_id a) cmd (zlen reply)) reply dt cs ws i (sent_one wire a1))
    as (f & a2 & Ew & Hh & Hsent & Hm & Hd); try done.
  { destruct Ia. by constructor. }
  { apply header_sendable; [done|done|unfold half, MS_BR_FRAME_TYPE_RESPONSE; lia|lia]. }
  rewrite (bind_ret_eq _ _ _ _ _ Ew). change (MS_BR_OK =? MS_BR_OK) with true. cbn iota.
  exists f, a2. rewrite Hh, Hsent. split_and!; try done. intros A HA Hf.
  destruct (returns_elim _ _ _ (send_frame_ok A hdr (Some req) a1 ltac:(by destruct HA) (send_arg_ok _ Hrq Hlq)))
    as (? & ? & E & I1 & C1). rewrite Es in E. injection E as <- <-.
  destruct (returns_elim _ _ _ (wait_for_ack_ok A MS_BR_FRAME_TYPE_RESPONSE cmd (global_frame_id a) (S fuel) _ I1 Hf))
    as (? & ? & E & _ & _ & _ & K). rewrite Ew in E. injection E as <- <-.
  by destruct K as [(_ & _ & _ & K)|[K _]].
Qed.

(** The peer: the request arrives and is answered. *)
Lemma request_delivered b id cmd req reply chunks j :
  br_idle b -> half cmd -> half id -> bytes_ok req -> zlen req <= 500 -> bytes_ok reply -> zlen reply <= 500 ->
  w_send_results (br_world b) = [] -> br_find_empty (notify_frame b) = Some j ->
  concat chunks = br_wire (request_header id cmd (zlen req)) req ->
  exists b1 f b2, recv_chunks chunks b = Ret tt b1 /\ notify_frame b1 !! j = Some f /\ bf_is_valid f = true /\
    bh_type (bf_header f) = MS_BR_FRAME_TYPE_REQUEST /\ bh_cmd (bf_header f) = cmd /\ bh_len (bf_header f) = zlen req /\
    match bf_data f with Some q => br_heap b1 !! q = Some req | None => req = [] end /\
    ms_bridging_response f (Some reply) (zlen reply) b1 = Ret MS_BR_OK b2 /\
    w_sent (br_world b2) = w_sent (br_world b) ++ [br_wire (response_header id cmd (zlen reply)) reply].
Proof.
  intros Ib Hc Hid Hrq Hlq Hrp Hlp Sb Hj Hch.
  destruct (wire_to_br_notify (request_header id cmd (zlen req)) req b j) as (f & b1 & F & L & En & _); try done.
  { apply header_sendable; [done|done|unfold half, MS_BR_FRAME_TYPE_REQUEST; lia|lia]. }
  destruct L as [I1 Lw Lg Lh Lv Lp]. exists b1, f.
  assert (Hjl : (j < length (notify_frame b))%nat).
  { destruct (br_find_empty_spec _ _ Hj) as (g & Hg & _). by eapply lookup_lt_Some. }
  eexists. split; [apply feeds_chunks; by rewrite Hch|]. split; [rewrite En; by apply list_lookup_insert_eq|].
  rewrite Lh. split_and!; try done.
  - destruct (bf_data f) as [q|]; [|by destruct Lp]. destruct Lp as (_ & _ & ->). apply lookup_insert_eq.
  - unfold ms_bridging_response. rewrite Lh. rewrite send_frame_idle; [|by apply send_arg_ok|apply I1].
    rewrite Lw, Sb. reflexivity.
  - cbn [sent_one br_world set_br_world w_sent]. rewrite Lw. cbn [bh_len]. by rewrite carried_all.
Qed.

(** C20 [bridge_request_roundtrip]: between two idle handlers that work, a request of at
    most 500 bytes and its reply of 1 to 500 (the receiver drops frames above 512) make the
    round trip.  The bytes the requester hands to its
    transport, cut into receive interrupts in any way, put the request with its
    command and payload in a notify slot of the peer; the peer's response sends
    the bytes of the reply; and when these arrive, again cut in any way, during
    the requester's first wait, the request returns success after a single
    transmission with the reply in a block of its own. *)
Theorem bridge_request_roundtrip a b cmd req reply cs dt ws fuel i j :
  br_idle a -> br_idle b -> half cmd -> half (global_frame_id a) ->
  bytes_ok req -> zlen req <= 500 -> bytes_ok reply -> 0 < zlen reply <= 500 ->
  w_send_results (br_world a) = [] -> w_send_results (br_world b) = [] ->
  br_find_empty (ack_frame a) = Some i -> br_find_empty (notify_frame b) = Some j ->
  br_find_ack MS_BR_FRAME_TYPE_RESPONSE cmd (global_frame_id a) (ack_frame a) = None ->
  w_waits (br_world a) = (dt, cs) :: ws ->
  concat cs = br_wire (response_header (global_frame_id a) cmd (zlen reply)) reply ->
  let wire := br_wire (request_header (global_frame_id a) cmd (zlen req)) req in
  (exists a' p, ms_bridging_request (S fuel) cmd (Some req) (zlen req) true a = Ret (MS_BR_OK, Some (p, zlen reply)) a' /\
     br_heap a' !! p = Some reply /\ w_sent (br_world a') = w_sent (br_world a) ++ [wire]) /\
  (forall chunks, concat chunks = wire ->
     exists b1 f b2, recv_chunks chunks b = Ret tt b1 /\ notify_frame b1 !! j = Some f /\ bf_is_valid f = true /\
       bh_type (bf_header f) = MS_BR_FRAME_TYPE_REQUEST /\ bh_cmd (bf_header f) = cmd /\
       bh_len (bf_header f) = zlen req /\
       match bf_data f with Some q => br_heap b1 !! q = Some req | None => req = [] end /\
       ms_bridging_response f (Some reply) (zlen reply) b1 = Ret MS_BR_OK b2 /\
       w_sent (br_world b2) = w_sent (br_world b) ++ [concat cs]).
Proof.
  intros Ia Ib Hc Hid Hrq Hlq Hrp Hlp Sa Sb Hi Hj Hn Hw Hcs wire. split.
  - destruct (request_answered a cmd req reply cs dt ws fuel i true) as (f & a2 & Er & Hl & Hm & Hsent & Hd & _); try done; [lia|].
    assert (Hne : reply <> []) by (intros ->; unfold zlen in Hlp; cbn in Hlp; lia).
    destruct (reply_copied f reply a2 Hm Hl Hne) as (p & a3 & Ec & Hp & Hwd).
    { destruct (bf_data f) as [q|]; [|by destruct Hd]. exists q. split; [done|].
      destruct Hd as (_ & _ & ->). apply lookup_insert_eq. }
    exists a3, p. rewrite Er, Hwd. by split_and!.
  - intros chunks Hch. rewrite Hcs. apply request_delivered; try done. lia.
Qed.

(** A request that is given no place for the reply (as
    the ones that set the time, control the power or clear the flags) and is
    answered with a payload succeeds, and leaves the payload in the heap: no slot
    and no caller has its address, so it is never freed. *)
Theorem unasked_reply_leaks a A cmd req reply cs dt ws fuel i :
  br_inv A a -> br_idle a -> half cmd -> half (global_frame_id a) ->
  bytes_ok req -> zlen req <= 500 -> bytes_ok reply -> 0 < zlen reply <= 500 ->
  w_send_results (br_world a) = [] -> br_find_empty (ack_frame a) = Some i ->
  br_find_ack MS_BR_FRAME_TYPE_RESPONSE cmd (global_frame_id a) (ack_frame a) = None ->
  w_waits (br_world a) = (dt, cs) :: ws ->
  concat cs = br_wire (response_header (global_frame_id a) cmd (zlen reply)) reply ->
  (length (w_waits (br_world a)) + 28 <= S fuel)%nat ->
  exists a' q, ms_bridging_request (S fuel) cmd (Some req) (zlen req) false a = Ret (MS_BR_OK, None) a' /\
    br_heap a !! q = None /\ br_heap a' !! q = Some reply /\ br_inv (q :: A) a'.
Proof.
  intros HI Ia Hc Hid Hrq Hlq Hrp Hlp Sa Hi Hn Hw Hcs Hf.
  destruct (request_answered a cmd req reply cs dt ws fuel i false) as (f & a2 & Er & Hl & _ & _ & Hd & Hinv); try done; [lia|].
  specialize (Hinv A HI Hf). destruct (bf_data f) as [q|] eqn:Eq.
  2:{ destruct Hd as [-> _]. unfold zlen in Hlp. cbn in Hlp. lia. }
  destruct Hd as (_ & Hq & Eh). exists a2, q. split.
  - rewrite Er. unfold reply_out. rewrite Eq, andb_false_r. reflexivity.
  - rewrite Eh. split; [done|]. split; [apply lookup_insert_eq|done].
Qed.

(** ** The calls of the interface *)
Inductive br_typed : Type :=
| KeepAlive | GetTime | SetTime (t : ms_bridging_time_t) | PowerControl (c : ms_bridging_power_ctrl_t) | PowerStatus
| WakeupFlag | KeyValue | UsbVinValue | PirValue | ClearFlag | ResetN6 | PirCfg (cfg : option ms_bridging_pir_cfg_t)
| Version (want : bool) | KeyEvent (v : Z) | UsbVinEvent (v : Z) | PirEvent (v : Z).
Inductive br_call : Type :=
| CallRecv (buf : list Z)
| CallPolling
| CallRequest (cmd : Z) (data : option (list Z)) (len : Z) (want : bool)
| CallResponse (req : ms_bridging_frame_t) (data : option (list Z)) (len : Z)
| CallEvent (cmd : Z) (data : option (list Z)) (len : Z)
| CallEventAck (event : ms_bridging_frame_t)
| CallTyped (t : br_typed).

Definition br_call_ok (c : br_call) : Prop :=
  match c with
  | CallRecv buf => bytes_ok buf
  | CallRequest _ data len _ | CallResponse _ data len | CallEvent _ data len => br_arg_ok data len
  | _ => True
  end.

(** The calls that drop the payload of the reply. *)
Definition typed_drops (t : br_typed) : bool :=
  match t with
  | KeepAlive | SetTime _ | PowerControl _ | ClearFlag | ResetN6 | KeyEvent _ | UsbVinEvent _ | PirEvent _ => true
  | _ => false
  end.
Definition drops_reply (c : br_call) : bool :=
  match c with CallRequest _ _ _ want => negb want | CallEvent _ _ _ => true | CallTyped t => typed_drops t | _ => false end.

(** Runs a call; the result is the block the caller gets. *)
Definition typed_exec (fuel : nat) (t : br_typed) : M br unit :=
  match t with
  | KeepAlive => ms_bridging_request_keep_alive fuel;; mret tt
  | GetTime => ms_bridging_request_get_time fuel;; mret tt
  | SetTime t => ms_bridging_request_set_time fuel t;; mret tt
  | PowerControl c => ms_bridging_request_power_control fuel c;; mret tt
  | PowerStatus => ms_bridging_request_power_status fuel;; mret tt
  | WakeupFlag => ms_bridging_request_wakeup_flag fuel;; mret tt
  | KeyValue => ms_bridging_request_key_value fuel;; mret tt
  | UsbVinValue => ms_bridging_request_usb_vin_value fuel;; mret tt
  | PirValue => ms_bridging_request_pir_value fuel;; mret tt
  | ClearFlag => ms_bridging_request_clear_flag fuel;; mret tt
  | ResetN6 => ms_bridging_request_reset_n6 fuel;; mret tt
  | PirCfg cfg => ms_bridging_request_pir_cfg fuel cfg;; mret tt
  | Version want => ms_bridging_request_version fuel want;; mret tt
  | KeyEvent v => ms_bridging_event_key_value fuel v;; mret tt
  | UsbVinEvent v => ms_bridging_event_usb_vin_value fuel v;; mret tt
  | PirEvent v => ms_bridging_event_pir_value fuel v;; mret tt
  end.
Definition br_exec (cb : ms_bridging_frame_t -> M br unit) (fuel : nat) (c : br_call) : M br (option ptr) :=
  match c with
  | CallRecv buf => ms_bridging_recv buf;; mret None
  | CallPolling => ms_bridging_polling cb;; mret None
  | CallRequest cmd data len want => '(_, out) ← ms_bridging_request fuel cmd data len want; mret (fst <$> out)
  | CallResponse req data len => ms_bridging_response req data len;; mret None
  | CallEvent cmd data len => ms_bridging_send_event fuel cmd data len;; mret None
  | CallEventAck event => ms_bridging_event_ack event;; mret None
  | CallTyped t => typed_exec fuel t;; mret None
  end.

Definition call_post (A : list ptr) (c : br_call) (r : option ptr) (h' : br) : Prop :=
  exists L, br_inv (option_list r ++ L ++ A) h' /\ (length L <= 1)%nat /\ (drops_reply c = false -> L = []).

Lemma call_plain {T} A c (m : M br T) h :
  returns m (fun _ => br_inv A) h -> returns (m;; mret None) (call_post A c) h.
Proof.
  intros H. apply returns_bind. eapply returns_mono; [exact H|]. intros ? h' HI. rstep. exists [].
  split; [done|]. split; [cbn; lia|done].
Qed.

Lemma settled_inv {T} A h (m : M br T) : returns m (fun _ => settled_to A h) h -> returns m (fun _ => br_inv A) h.
Proof. intros H. eapply returns_mono; [exact H|]. by intros ? ? []. Qed.

Lemma sent_inv_br A hdr data h :
  br_inv A h -> br_arg_ok data (bh_len hdr) -> returns (ms_bridging_send_frame hdr data) (fun _ => br_inv A) h.
Proof. intros HI Ha. eapply returns_mono; [by apply send_frame_ok|]. by intros ? ? []. Qed.

(** The kinds of typed calls: those that free a reply of fixed size, those that do not ask
    for the reply, and the events. *)
Section Typed.
Context (A : list ptr) (fuel : nat) (h : br) (HI : br_inv A h) (Hf : (length (w_waits (br_world h)) + 28 <= fuel)%nat).
Definition typed_post (t : br_typed) (_ : unit) (h' : br) : Prop :=
  exists L, br_inv (L ++ A) h' /\ (length L <= 1)%nat /\ (typed_drops t = false -> L = []).

Lemma typed_fixed {T} t (m : M br T) : returns m (fun _ => settled_to A h) h -> returns (m;; mret tt) (typed_post t) h.
Proof. intros H. apply returns_bind. eapply returns_mono; [exact H|]. intros ? h' []. rstep. exists []. by split_and!; [|cbn; lia|]. Qed.
Lemma typed_dropped t cmd data len : typed_drops t = true -> br_arg_ok data len ->
  returns (('(ret, _) ← ms_bridging_request fuel cmd data len false; mret ret);; mret tt) (typed_post t) h.
Proof.
  intros Ht Ha. apply returns_bind. rcall request_br_ok; [done|done|done|]. intros [ret out] h1 (L & [I1 _ _] & _ & Hlen & Ho & _).
  rstep. cbn [snd] in *. rewrite (Ho eq_refl) in I1. exists L. split_and!; [done|done|by rewrite Ht].
Qed.
Lemma typed_event t cmd v : typed_drops t = true -> returns (ms_bridging_send_event fuel cmd (Some (le_enc 4 v)) 4;; mret tt) (typed_post t) h.
Proof.
  intros Ht. rcall send_event_br_ok; [done|split; [lia|split; [done|auto with buf]]|done|]. intros ret h1 (L & [I1 _ _] & Hlen).
  rstep. exists L. split_and!; [done|done|by rewrite Ht].
Qed.
Lemma typed_ok t : returns (typed_exec fuel t) (typed_post t) h.
Proof.
  assert (H0 : br_arg_ok None 0) by (split; [lia|done]).
  assert (Hv : forall t cmd (m : Z * option (list Z) -> M br (Z * option Z)), (forall o h', returns (m o) (fun _ h2 => h2 = h') h') ->
    returns ((r ← ms_bridging_request fuel cmd None 0 true; o ← fixed_reply 4 r; m o);; mret tt) (typed_post t) h).
  { intros t' cmd m Hm. by apply typed_fixed, (fixed_request_ok A). }
  destruct t; cbn [typed_exec].
  - exact (typed_dropped KeepAlive _ None 0 eq_refl H0).
  - apply (typed_fixed GetTime), (fixed_request_ok A); [by intros [] ?; rstep|done..].
  - apply typed_dropped; [done|]. split; [unfold sizeof_time; lia|]. split; [done|]. unfold enc_time. auto 20 with buf.
  - apply typed_dropped; [done|]. split; [unfold sizeof_power; lia|]. split; [done|]. unfold enc_power, enc_alarm. auto 30 with buf.
  - apply Hv. by intros [] ?; rstep.
  - apply Hv. by intros [] ?; rstep.
  - apply Hv. by intros [] ?; rstep.
  - apply Hv. by intros [] ?; rstep.
  - apply Hv. by intros [] ?; rstep.
  - exact (typed_dropped ClearFlag _ None 0 eq_refl H0).
  - exact (typed_dropped ResetN6 _ None 0 eq_refl H0).
  - apply (typed_fixed (PirCfg cfg)), (fixed_request_ok A); [by intros [] ?; rstep|done| |done].
    destruct cfg; [|done]. split; [unfold sizeof_pir; lia|]. split; [done|]. unfold enc_pir. auto 20 with buf.
  - apply (typed_fixed (Version want)), (fixed_request_ok A); [by intros [] ?; rstep|done..].
  - exact (typed_event (KeyEvent v) _ v eq_refl).
  - exact (typed_event (UsbVinEvent v) _ v eq_refl).
  - exact (typed_event (PirEvent v) _ v eq_refl).
Qed.
End Typed.

(** C23 [bridge_calls_safe]: take a handler in order, a callback of the application that
    keeps it in order and gives back what it takes, and, for the calls that take a
    payload, at most 65522 bytes of it in a buffer that holds as many (longer ones overrun
    the block of the frame).  Whatever bytes arrive and whichever allocations and
    transmissions fail, every call of the interface, the typed requests and events included,
    returns (no access outside a
    block, no double free, no endless wait) and keeps the invariant: the heap
    holds exactly the payload being received, the payloads of the slots, and what
    is outside the handler; every occupied slot holds a frame whose two CRCs were
    checked.  Outside the handler there is afterwards what was there before, the
    block handed to the caller and, only for the calls that drop the reply, at most
    one more.  Closing the handler returns, too, and leaves only what is outside it. *)
Theorem bridge_calls_safe cb `{BrNotify cb} A h c fuel :
  br_inv A h -> br_call_ok c -> (length (w_waits (br_world h)) + 28 <= fuel)%nat ->
  (exists r h' L, br_exec cb fuel c h = Ret r h' /\ br_inv (option_list r ++ L ++ A) h' /\ (length L <= 1)%nat /\
    (drops_reply c = false -> L = [])) /\
  (exists ops h', ms_bridging_deinit h = Ret ops h' /\ blocks (br_heap h') ≡ₚ A).
Proof.
  intros HI Hc Hf. split; [|by destruct (returns_elim _ _ _ (deinit_br_ok A h HI)) as (ops & h' & E & K); exists ops, h'].
  assert (R : returns (br_exec cb fuel c) (call_post A c) h).
  2:{ apply returns_elim in R as (r & h' & E & L & K). eauto. }
  assert (H0 : br_arg_ok None 0) by (split; [lia|done]).
  destruct c; cbn [br_exec br_call_ok] in *.
  - apply call_plain. eapply returns_mono; [by apply (recv_ok A)|]. by intros ? ? [].
  - by apply call_plain, polling_ok.
  - rcall request_br_ok; [done|done|done|]. intros [ret out] h1 (L & [I1 _ _] & HL & Hlen & _). rstep. exists L.
    split; [by destruct out as [[p ?]|]|]. split; [done|]. cbn [drops_reply]. destruct want; [auto|done].
  - by apply call_plain, sent_inv_br.
  - rcall send_event_br_ok; [done|done|done|]. intros ret h1 (L & [I1 _ _] & Hlen). rstep. by exists L.
  - by apply call_plain, sent_inv_br.
  - rcall (typed_ok A fuel h HI Hf t). intros _ h1 (L & I1 & HL). rstep. by exists L.
Qed.

(** ** Equal ticks *)
Lemma tick_diff_same t : 0 <= t < 4294967296 -> MS_BR_TICK_DIFF_MS t t = 4294967295.
Proof. intros. unfold MS_BR_TICK_DIFF_MS. rewrite Z.ltb_irrefl. unfold MS_BR_MAX_TICK_VALUE. rewrite u32_small; lia. Qed.

(** The difference of two equal ticks is
    2^32-1, not 0.  So a wait for an acknowledgement whose semaphore is already
    free (a late acknowledgement of an earlier request released it) reports a
    time-out in the tick it began, instead of waiting for 500 ms; and the polling
    loop drops an acknowledgement it sees in the tick it arrived, before the
    caller that waits for it could take it. *)
Theorem same_tick_counts_as_elapsed A h fuel ty cmd id ws i f :
  br_inv A h -> br_is_ready h = true -> w_waits (br_world h) = (0, []) :: ws ->
  br_find_ack ty cmd id (ack_frame h) = None ->
  ack_frame h !! i = Some f -> bf_is_valid f = true ->
  ack_frame_received_tick h !! i = Some (w_tick (br_world h)) ->
  (exists h1, ms_bridging_wait_for_ack (S fuel) ty cmd id h = Ret (MS_BR_ERR_TIMEOUT, br_frame_zero) h1 /\
     w_tick (br_world h1) = w_tick (br_world h)) /\
  (exists h2, poll_ack i h = Ret tt h2 /\ ack_frame h2 !! i = Some (vacate f)).
Proof.
  intros HI Hr Hw Hn Hf Hv Ht. pose proof (wo_tick _ (bi_world _ _ HI)) as Hrange.
  assert (Eu : w_tick (br_world h) +u 0 = w_tick (br_world h)) by (unfold u32; lia). split.
  - unfold ms_bridging_wait_for_ack. erewrite bind_ret_eq by reflexivity. cbn [ack_loop].
    erewrite bind_ret_eq.
    2:{ unfold MS_BR_SEM_WAIT. erewrite bind_ret_eq by reflexivity. rewrite Hw. unfold pass_time, on_world.
        do 2 erewrite bind_ret_eq by reflexivity. reflexivity. }
    erewrite bind_ret_eq by reflexivity. cbn [br_is_ready set_br_world]. rewrite Hr. cbn [negb ack_frame set_br_world].
    rewrite Hn. unfold MS_BR_GET_TICK_MS. erewrite bind_ret_eq by reflexivity. cbn [br_world set_br_world w_tick].
    rewrite Eu, tick_diff_same by done. eexists. split; reflexivity.
  - pose proof (poll_ack_ok A h i HI) as R.
    assert (Hi : (i < MS_BR_FRAME_BUF_NUM)%nat).
    { rewrite <- (bc_ks _ _ _ _ (bi_core _ _ HI)). by eapply lookup_lt_Some. }
    specialize (R Hi). unfold poll_ack in *. revert R. unfold returns. erewrite !bind_ret_eq by reflexivity.
    rewrite Hf, Ht, Hv. unfold MS_BR_GET_TICK_MS. erewrite !bind_ret_eq by reflexivity.
    rewrite tick_diff_same by done. change (MS_BR_WAIT_ACK_TIMEOUT_MS <=? 4294967295) with true. cbn iota.
    assert (Hlt : (i < length (ack_frame h))%nat) by (by eapply lookup_lt_Some).
    unfold free_data, MS_BR_FREE. destruct (bf_data f) as [p|].
    + unfold mbind, M_bind, gets, modify. cbn. destruct (br_heap h !! p); [|done]. intros _. eexists. split; [done|].
      cbn. by apply list_lookup_insert_eq.
    + intros _. eexists. split; [reflexivity|]. cbn. by apply list_lookup_insert_eq.
Qed.
