(* ===== verification/MsBridgingWitness.v ===== *)
(** Concrete runs of the bridging protocol, on which its properties are applied. *)
From stdpp Require Import gmap.
From S2P Require Import Prelude Heap MsBridging MsBridgingInv MsBridgingOps MsBridgingWire MsBridgingProps.

Lemma fresh_br_inv w : world_ok w -> br_inv [] (br_fresh w).
Proof.
  intros Hw. constructor.
  - constructor; [done|done|by repeat constructor|by repeat constructor|done].
  - constructor; [|cbn; unfold half; lia|cbn; lia|cbn; split; lia]. constructor; cbn; unfold half; lia.
  - done.
  - done.
Qed.

Lemma fresh_br_idle w : w_malloc_fails w = [] -> br_idle (br_fresh w).
Proof. intros. constructor; try reflexivity; [constructor; cbn; unfold half; lia|done]. Qed.

(** A request for the time and its reply, which arrives in two interrupts. *)
Definition ask : list Z := [7; 8; 9].
Definition answer : list Z := [232; 7; 5; 17; 3; 12; 30; 0].
Definition answer_wire : list Z := br_wire (response_header 0 MS_BR_FRAME_CMD_GET_TIME (zlen answer)) answer.
Definition split_answer : list (list Z) := [take 4 answer_wire; drop 4 answer_wire].
Definition asking : br := br_fresh (mkWorld [] [] 100 [(5, split_answer)] [] []).
Definition serving : br := br_fresh (mkWorld [] [] 0 [] [] []).

Lemma split_answer_all : concat split_answer = answer_wire.
Proof. unfold split_answer. cbn [concat]. rewrite app_nil_r. apply take_drop. Qed.

Lemma ask_ok : bytes_ok ask.
Proof. apply (bool_decide_eq_true_1 (bytes_ok _)). vm_compute. reflexivity. Qed.
Lemma answer_ok : bytes_ok answer.
Proof. apply (bool_decide_eq_true_1 (bytes_ok _)). vm_compute. reflexivity. Qed.

Lemma asking_inv : br_inv [] asking.
Proof.
  apply fresh_br_inv. constructor; cbn; [|by constructor|lia].
  constructor; [|constructor]. split; [lia|]. constructor; [|constructor; [|constructor]].
  - apply (bool_decide_eq_true_1 (bytes_ok _)). vm_compute. reflexivity.
  - apply (bool_decide_eq_true_1 (bytes_ok _)). vm_compute. reflexivity.
Qed.

Lemma bridge_request_roundtrip_witness :
  exists a' p, ms_bridging_request 40 MS_BR_FRAME_CMD_GET_TIME (Some ask) (zlen ask) true asking =
    Ret (MS_BR_OK, Some (p, 8)) a' /\ br_heap a' !! p = Some answer.
Proof.
  destruct (bridge_request_roundtrip asking serving MS_BR_FRAME_CMD_GET_TIME ask answer split_answer 5 [] 39 0 0)
    as [(a' & p & E & Hp & _) _].
  - by apply fresh_br_idle.
  - by apply fresh_br_idle.
  - unfold half, MS_BR_FRAME_CMD_GET_TIME. lia.
  - cbn. unfold half. lia.
  - apply ask_ok.
  - unfold zlen. cbn. lia.
  - apply answer_ok.
  - unfold zlen. cbn. lia.
  - reflexivity.
  - reflexivity.
  - reflexivity.
  - reflexivity.
  - reflexivity.
  - reflexivity.
  - apply split_answer_all.
  - exists a', p. split; [exact E|exact Hp].
Defined.

Lemma unasked_reply_leaks_witness :
  exists a' q, ms_bridging_request 40 MS_BR_FRAME_CMD_GET_TIME (Some ask) (zlen ask) false asking =
    Ret (MS_BR_OK, None) a' /\ br_heap asking !! q = None /\ br_heap a' !! q = Some answer /\ br_inv [q] a'.
Proof.
  apply (unasked_reply_leaks asking [] MS_BR_FRAME_CMD_GET_TIME ask answer split_answer 5 [] 39 0).
  - apply asking_inv.
  - by apply fresh_br_idle.
  - unfold half, MS_BR_FRAME_CMD_GET_TIME. lia.
  - cbn. unfold half. lia.
  - apply ask_ok.
  - unfold zlen. cbn. lia.
  - apply answer_ok.
  - unfold zlen. cbn. lia.
  - reflexivity.
  - reflexivity.
  - reflexivity.
  - reflexivity.
  - apply split_answer_all.
  - cbn. lia.
Defined.

(** A callback that acknowledges what it is given. *)
Definition ack_cb (f : ms_bridging_frame_t) : M br unit := ms_bridging_event_ack f;; mret tt.

#[export] Instance ack_cb_ok : BrNotify ack_cb.
Proof.
  intros A h f HI Hv Hg. unfold ack_cb, ms_bridging_event_ack. apply returns_bind.
  apply send_frame_eq; [split; [cbn; lia|done]|intros _|]; rstep; (split; [|by intros]);
    destruct HI as [? ? ? []]; constructor; try done; by constructor.
Qed.

Lemma bridge_calls_safe_witness :
  exists r h' L, br_exec ack_cb 40 (CallRequest MS_BR_FRAME_CMD_GET_TIME (Some ask) (zlen ask) true) asking = Ret r h' /\
    br_inv (option_list r ++ L ++ []) h' /\ L = [].
Proof.
  destruct (bridge_calls_safe ack_cb [] asking (CallRequest MS_BR_FRAME_CMD_GET_TIME (Some ask) (zlen ask) true) 40)
    as ((r & h' & L & E & HI & _ & HL) & _).
  - apply asking_inv.
  - apply send_arg_ok; [apply ask_ok|unfold zlen; cbn; lia].
  - cbn. lia.
  - exists r, h', L. split; [exact E|]. split; [exact HI|]. apply HL. reflexivity.
Defined.

(** An acknowledgement that has just arrived, and a wait that returns at once. *)
Definition stale_wire : list Z := br_wire (mkBrHeader MS_BR_FRAME_SOF 3 0 MS_BR_FRAME_TYPE_EVENT_ACK 6 0) [].
Definition hurried0 : br := br_fresh (mkWorld [] [] 77 [(0, [])] [] []).
Definition hurried : br := match ms_bridging_recv stale_wire hurried0 with Ret _ h => h | _ => hurried0 end.

Lemma recv_inv A l h :
  br_inv A h -> bytes_ok l -> br_inv A (match ms_bridging_recv l h with Ret _ h' => h' | _ => h end).
Proof.
  intros HI Hb. pose proof (recv_ok A l h HI Hb) as R. unfold returns in R.
  destruct (ms_bridging_recv l h); [apply R|done..].
Qed.

Lemma hurried_inv : br_inv [] hurried.
Proof.
  apply recv_inv.
  - apply fresh_br_inv. constructor; cbn; [by repeat constructor|by constructor|lia].
  - apply (bool_decide_eq_true_1 (bytes_ok _)). vm_compute. reflexivity.
Qed.

Lemma same_tick_counts_as_elapsed_witness :
  exists h1, ms_bridging_wait_for_ack 30 MS_BR_FRAME_TYPE_RESPONSE 1 9 hurried = Ret (MS_BR_ERR_TIMEOUT, br_frame_zero) h1 /\
    w_tick (br_world h1) = 77.
Proof.
  destruct (same_tick_counts_as_elapsed [] hurried 29 MS_BR_FRAME_TYPE_RESPONSE 1 9 [] 0
              (nth 0 (ack_frame hurried) br_frame_zero)) as [(h1 & E & Et) _].
  - apply hurried_inv.
  - vm_compute. reflexivity.
  - vm_compute. reflexivity.
  - vm_compute. reflexivity.
  - vm_compute. reflexivity.
  - vm_compute. reflexivity.
  - vm_compute. reflexivity.
  - exists h1. split; [exact E|]. rewrite Et. vm_compute. reflexivity.
Defined.
