(* ===== verification/Ms41908mReg.v ===== *)
(** Registers of the MS41908M lens driver chip and the two configuration tables
    of the firmware ([app/Custom/Components/ms41908m/ms41908m_reg.h], [ms41908m.h] and
    the first part of [ms41908m.c]): addresses, fields, and the register images
    computed from a configuration. *)
From S2P Require Import Prelude.

(** ** Error codes of [sys_config.h] *)
Definition SYS_OK : Z := 0.
Definition SYS_ERR_INVALID_ARG : Z := -255.
Definition SYS_ERR_INVALID_STATE : Z := -254.
Definition SYS_ERR_INVALID_SIZE : Z := -253.
Definition SYS_ERR_INVALID_FMT : Z := -252.
Definition SYS_ERR_NO_MEM : Z := -251.
Definition SYS_ERR_NOT_FOUND : Z := -250.
Definition SYS_ERR_NOT_SUPPORTED : Z := -249.
Definition SYS_ERR_NOT_FINISHED : Z := -248.
Definition SYS_ERR_TIMEOUT : Z := -247.
Definition SYS_ERR_CHECK : Z := -246.
Definition SYS_ERR_RESULT : Z := -245.
Definition SYS_ERR_MUTEX : Z := -244.
Definition SYS_ERR_HAL : Z := -243.
Definition SYS_ERR_BUSY : Z := -242.
Definition SYS_ERR_OUT_OF_RANGE : Z := -241.
Definition SYS_ERR_FAILED : Z := -240.
Definition SYS_ERR_UNKNOW : Z := -239.

(** ** Register addresses *)
Definition MS41908M_REG_IRIS_TGT : Z := 0.
Definition MS41908M_REG_IRIS_CFG1 : Z := 1.
Definition MS41908M_REG_IRIS_CFG2 : Z := 2.
Definition MS41908M_REG_IRIS_CFG3 : Z := 3.
Definition MS41908M_REG_HALL_CFG : Z := 4.
Definition MS41908M_REG_IRIS_CFG4 : Z := 5.
Definition MS41908M_REG_PULSE1_START : Z := 6.
Definition MS41908M_REG_PULSE1_CFG : Z := 7.
Definition MS41908M_REG_PULSE2_START : Z := 8.
Definition MS41908M_REG_PULSE2_CFG : Z := 9.
Definition MS41908M_REG_IRIS_TEST : Z := 10.
Definition MS41908M_REG_MODE_CFG : Z := 11.
Definition MS41908M_REG_IRSAD : Z := 12.
Definition MS41908M_REG_TGT_UPDATE : Z := 14.
Definition MS41908M_REG_PWM_CFG : Z := 32.
Definition MS41908M_REG_TEST_CFG : Z := 33.
Definition MS41908M_REG_MOTOR_AB_DT2 : Z := 34.
Definition MS41908M_REG_MOTOR_AB_PPW : Z := 35.
Definition MS41908M_REG_MOTOR_CD_DT2 : Z := 39.
Definition MS41908M_REG_MOTOR_CD_PPW : Z := 40.
Definition MS41908M_REG_FOCUS_STEP : Z := 36.
Definition MS41908M_REG_FOCUS_PPS : Z := 37.
Definition MS41908M_REG_ZOOM_STEP : Z := 41.
Definition MS41908M_REG_ZOOM_PPS : Z := 42.

(** ** Positions and masks of the fields *)
Definition MS41908M_IRIS_TGT_MASK : Z := 1023.
Definition MS41908M_OVER_LPF_FC_1ST_SHIFT : Z := 0.
Definition MS41908M_OVER_LPF_FC_1ST_MASK : Z := 3.
Definition MS41908M_OVER_LPF_FC_2ND_SHIFT : Z := 2.
Definition MS41908M_OVER_LPF_FC_2ND_MASK : Z := 12.
Definition MS41908M_DEC_AVE_SHIFT : Z := 4.
Definition MS41908M_DEC_AVE_MASK : Z := 16.
Definition MS41908M_AS_FLT_OFF_SHIFT : Z := 5.
Definition MS41908M_AS_FLT_OFF_MASK : Z := 32.
Definition MS41908M_ASOUND_LPF_FC_SHIFT : Z := 6.
Definition MS41908M_ASOUND_LPF_FC_MASK : Z := 448.
Definition MS41908M_DGAIN_SHIFT : Z := 9.
Definition MS41908M_DGAIN_MASK : Z := 65024.
Definition MS41908M_IRIS_CALC_NR_SHIFT : Z := 0.
Definition MS41908M_IRIS_CALC_NR_MASK : Z := 15.
Definition MS41908M_IRIS_ROUND_SHIFT : Z := 4.
Definition MS41908M_IRIS_ROUND_MASK : Z := 240.
Definition MS41908M_PID_ZERO_SHIFT : Z := 8.
Definition MS41908M_PID_ZERO_MASK : Z := 3840.
Definition MS41908M_PID_POLE_SHIFT : Z := 12.
Definition MS41908M_PID_POLE_MASK : Z := 61440.
Definition MS41908M_ARW_SHIFT : Z := 0.
Definition MS41908M_ARW_MASK : Z := 15.
Definition MS41908M_LMT_ENB_SHIFT : Z := 4.
Definition MS41908M_LMT_ENB_MASK : Z := 16.
Definition MS41908M_PWM_FLT_OFF_SHIFT : Z := 5.
Definition MS41908M_PWM_FLT_OFF_MASK : Z := 32.
Definition MS41908M_PWM_LPF_FC_SHIFT : Z := 6.
Definition MS41908M_PWM_LPF_FC_MASK : Z := 448.
Definition MS41908M_PWM_IRIS_SHIFT : Z := 9.
Definition MS41908M_PWM_IRIS_MASK : Z := 3584.
Definition MS41908M_DT_ADJ_IRIS_SHIFT : Z := 12.
Definition MS41908M_DT_ADJ_IRIS_MASK : Z := 12288.
Definition MS41908M_HALL_BAIS_DAC_SHIFT : Z := 0.
Definition MS41908M_HALL_BAIS_DAC_MASK : Z := 255.
Definition MS41908M_HALL_OFFSET_DAC_SHIFT : Z := 8.
Definition MS41908M_HALL_OFFSET_DAC_MASK : Z := 65280.
Definition MS41908M_TGT_LPF_FC_SHIFT : Z := 0.
Definition MS41908M_TGT_LPF_FC_MASK : Z := 15.
Definition MS41908M_TGT_FLT_OFF_SHIFT : Z := 4.
Definition MS41908M_TGT_FLT_OFF_MASK : Z := 16.
Definition MS41908M_PID_INV_SHIFT : Z := 5.
Definition MS41908M_PID_INV_MASK : Z := 32.
Definition MS41908M_HALL_GAIN_SHIFT : Z := 8.
Definition MS41908M_HALL_GAIN_MASK : Z := 3840.
Definition MS41908M_AAF_FC_SHIFT : Z := 12.
Definition MS41908M_AAF_FC_MASK : Z := 4096.
Definition MS41908M_START1_MASK : Z := 1023.
Definition MS41908M_WIDTH1_MASK : Z := 4095.
Definition MS41908M_P1EN_SHIFT : Z := 15.
Definition MS41908M_START2_MASK : Z := 1023.
Definition MS41908M_WIDTH2_MASK : Z := 63.
Definition MS41908M_P2EN_SHIFT : Z := 15.
Definition MS41908M_TGT_IN_TEST_MASK : Z := 1023.
Definition MS41908M_DUTY_TEST_SHIFT : Z := 10.
Definition MS41908M_DUTY_TEST_MASK : Z := 1024.
Definition MS41908M_ASWMODE_SHIFT : Z := 3.
Definition MS41908M_ASWMODE_MASK : Z := 24.
Definition MS41908M_TEST_EN1_SHIFT : Z := 7.
Definition MS41908M_TEST_EN1_MASK : Z := 128.
Definition MS41908M_MODESEL_IRIS_SHIFT : Z := 8.
Definition MS41908M_MODESEL_IRIS_MASK : Z := 256.
Definition MS41908M_MODESEL_FZ_SHIFT : Z := 9.
Definition MS41908M_MODESEL_FZ_MASK : Z := 512.
Definition MS41908M_PDWNB_SHIFT : Z := 10.
Definition MS41908M_PDWNB_MASK : Z := 1024.
Definition MS41908M_ADC_TEST_SHIFT : Z := 11.
Definition MS41908M_ADC_TEST_MASK : Z := 2048.
Definition MS41908M_PID_CLIP_SHIFT : Z := 12.
Definition MS41908M_PID_CLIP_MASK : Z := 61440.
Definition MS41908M_TGT_UPDATE_MASK : Z := 255.
Definition MS41908M_AVE_SPEED_SHIFT : Z := 8.
Definition MS41908M_AVE_SPEED_MASK : Z := 7936.
Definition MS41908M_DT1_MASK : Z := 255.
Definition MS41908M_PWMMODE_SHIFT : Z := 8.
Definition MS41908M_PWMMODE_MASK : Z := 7936.
Definition MS41908M_PWMRES_SHIFT : Z := 13.
Definition MS41908M_PWMRES_MASK : Z := 24576.
Definition MS41908M_FZTEST_MASK : Z := 31.
Definition MS41908M_TESTEN2_SHIFT : Z := 7.
Definition MS41908M_TESTEN2_MASK : Z := 128.
Definition MS41908M_DT2A_MASK : Z := 255.
Definition MS41908M_PHMODAB_SHIFT : Z := 8.
Definition MS41908M_PHMODAB_MASK : Z := 16128.
Definition MS41908M_PPWA_MASK : Z := 255.
Definition MS41908M_PPWB_SHIFT : Z := 8.
Definition MS41908M_PPWB_MASK : Z := 65280.
Definition MS41908M_DT2B_MASK : Z := 255.
Definition MS41908M_PHMODCD_SHIFT : Z := 8.
Definition MS41908M_PHMODCD_MASK : Z := 16128.
Definition MS41908M_PPWC_MASK : Z := 255.
Definition MS41908M_PPWD_SHIFT : Z := 8.
Definition MS41908M_PPWD_MASK : Z := 65280.
Definition MS41908M_STEP_CCWCW_BIT : Z := 256.
Definition MS41908M_STEP_ENDIS_BIT : Z := 1024.
Definition MS41908M_STEP_LED_BIT : Z := 2048.
Definition MS41908M_STEP_MICRO_MASK : Z := 12288.

(** ** Configurations *)
Record ms41908m_iris_config_t : Type := mkIrisConfig {
  ic_iris_tgt : Z;
  ic_over_lpf_fc_1st : Z;
  ic_over_lpf_fc_2nd : Z;
  ic_dec_ave : Z;
  ic_as_flt_off : Z;
  ic_asound_lpf_fc : Z;
  ic_dgain : Z;
  ic_iris_calc_nr : Z;
  ic_iris_round : Z;
  ic_pid_zero : Z;
  ic_pid_pole : Z;
  ic_arw : Z;
  ic_lmt_enb : Z;
  ic_pwm_flt_off : Z;
  ic_pwm_lpf_fc : Z;
  ic_pwm_iris : Z;
  ic_dt_adj_iris : Z;
  ic_hall_bias_dac : Z;
  ic_hall_offset_dac : Z;
  ic_tgt_lpf_fc : Z;
  ic_tgt_flt_off : Z;
  ic_pid_inv : Z;
  ic_hall_gain : Z;
  ic_aaf_fc : Z;
  ic_start1 : Z;
  ic_width1 : Z;
  ic_p1_en : Z;
  ic_start2 : Z;
  ic_width2 : Z;
  ic_p2_en : Z;
  ic_tgt_in_test : Z;
  ic_duty_test : Z;
  ic_asw_mode : Z;
  ic_test_en1 : Z;
  ic_mode_sel_iris : Z;
  ic_mode_sel_fz : Z;
  ic_pdwnb : Z;
  ic_adc_test : Z;
  ic_pid_clip : Z;
  ic_tgt_update : Z;
  ic_ave_speed : Z
}.

Record ms41908m_motor_config_t : Type := mkMotorConfig {
  mc_dt1 : Z;
  mc_pwm_mode : Z;
  mc_pwm_res : Z;
  mc_fz_test : Z;
  mc_test_en2 : Z;
  mc_dt2a : Z;
  mc_phmodab : Z;
  mc_ppwa : Z;
  mc_ppwb : Z;
  mc_leda : Z;
  mc_microab : Z;
  mc_dt2b : Z;
  mc_phmodcd : Z;
  mc_ppwc : Z;
  mc_ppwd : Z;
  mc_ledb : Z;
  mc_microcd : Z
}.

Definition g_default_iris_config : ms41908m_iris_config_t :=
  mkIrisConfig 0 2 2 0 0 2 48 0 15 6 6 0 1 0 0 7 0 76 128 4 0 0 5 0 0 0 0 0 0 0 128 0 0 1 0 0 1 0 0 0 12.
Definition g_default_motor_config : ms41908m_motor_config_t :=
  mkMotorConfig 10 30 2 7 1 3 0 200 200 0 0 3 22 200 200 0 0.

Notation "x |: y" := (Z.lor x y) (at level 50, left associativity, only parsing) : cexpr_scope.

(** ** Register images

    [((uint16_t)v << shift) & mask]. *)
Definition field (v shift mask : Z) : Z := Z.land (Z.shiftl v shift) mask.

(** The values [ms41908m_write_iris_config] writes, in its order. *)
Definition iris_image (c : ms41908m_iris_config_t) : list (Z * Z) :=
  [ (MS41908M_REG_IRIS_TGT, u16 (Z.land (ic_iris_tgt c) MS41908M_IRIS_TGT_MASK));
    (MS41908M_REG_IRIS_CFG1, u16 (field (ic_over_lpf_fc_1st c) MS41908M_OVER_LPF_FC_1ST_SHIFT MS41908M_OVER_LPF_FC_1ST_MASK
        |: field (ic_over_lpf_fc_2nd c) MS41908M_OVER_LPF_FC_2ND_SHIFT MS41908M_OVER_LPF_FC_2ND_MASK
        |: field (ic_dec_ave c) MS41908M_DEC_AVE_SHIFT MS41908M_DEC_AVE_MASK
        |: field (ic_as_flt_off c) MS41908M_AS_FLT_OFF_SHIFT MS41908M_AS_FLT_OFF_MASK
        |: field (ic_asound_lpf_fc c) MS41908M_ASOUND_LPF_FC_SHIFT MS41908M_ASOUND_LPF_FC_MASK
        |: field (ic_dgain c) MS41908M_DGAIN_SHIFT MS41908M_DGAIN_MASK));
    (MS41908M_REG_IRIS_CFG2, u16 (field (ic_iris_calc_nr c) MS41908M_IRIS_CALC_NR_SHIFT MS41908M_IRIS_CALC_NR_MASK
        |: field (ic_iris_round c) MS41908M_IRIS_ROUND_SHIFT MS41908M_IRIS_ROUND_MASK
        |: field (ic_pid_zero c) MS41908M_PID_ZERO_SHIFT MS41908M_PID_ZERO_MASK
        |: field (ic_pid_pole c) MS41908M_PID_POLE_SHIFT MS41908M_PID_POLE_MASK));
    (MS41908M_REG_IRIS_CFG3, u16 (field (ic_arw c) MS41908M_ARW_SHIFT MS41908M_ARW_MASK
        |: field (ic_lmt_enb c) MS41908M_LMT_ENB_SHIFT MS41908M_LMT_ENB_MASK
        |: field (ic_pwm_flt_off c) MS41908M_PWM_FLT_OFF_SHIFT MS41908M_PWM_FLT_OFF_MASK
        |: field (ic_pwm_lpf_fc c) MS41908M_PWM_LPF_FC_SHIFT MS41908M_PWM_LPF_FC_MASK
        |: field (ic_pwm_iris c) MS41908M_PWM_IRIS_SHIFT MS41908M_PWM_IRIS_MASK
        |: field (ic_dt_adj_iris c) MS41908M_DT_ADJ_IRIS_SHIFT MS41908M_DT_ADJ_IRIS_MASK));
    (MS41908M_REG_HALL_CFG, u16 (field (ic_hall_bias_dac c) MS41908M_HALL_BAIS_DAC_SHIFT MS41908M_HALL_BAIS_DAC_MASK
        |: field (ic_hall_offset_dac c) MS41908M_HALL_OFFSET_DAC_SHIFT MS41908M_HALL_OFFSET_DAC_MASK));
    (MS41908M_REG_IRIS_CFG4, u16 (field (ic_tgt_lpf_fc c) MS41908M_TGT_LPF_FC_SHIFT MS41908M_TGT_LPF_FC_MASK
        |: field (ic_tgt_flt_off c) MS41908M_TGT_FLT_OFF_SHIFT MS41908M_TGT_FLT_OFF_MASK
        |: field (ic_pid_inv c) MS41908M_PID_INV_SHIFT MS41908M_PID_INV_MASK
        |: field (ic_hall_gain c) MS41908M_HALL_GAIN_SHIFT MS41908M_HALL_GAIN_MASK
        |: field (ic_aaf_fc c) MS41908M_AAF_FC_SHIFT MS41908M_AAF_FC_MASK));
    (MS41908M_REG_PULSE1_START, u16 (Z.land (ic_start1 c) MS41908M_START1_MASK));
    (MS41908M_REG_PULSE1_CFG, u16 (Z.land (ic_width1 c) MS41908M_WIDTH1_MASK
        |: Z.shiftl (Z.land (ic_p1_en c) 1) MS41908M_P1EN_SHIFT));
    (MS41908M_REG_PULSE2_START, u16 (Z.land (ic_start2 c) MS41908M_START2_MASK));
    (MS41908M_REG_PULSE2_CFG, u16 (Z.land (ic_width2 c) MS41908M_WIDTH2_MASK
        |: Z.shiftl (Z.land (ic_p2_en c) 1) MS41908M_P2EN_SHIFT));
    (MS41908M_REG_IRIS_TEST, u16 (Z.land (ic_tgt_in_test c) MS41908M_TGT_IN_TEST_MASK
        |: field (ic_duty_test c) MS41908M_DUTY_TEST_SHIFT MS41908M_DUTY_TEST_MASK));
    (MS41908M_REG_MODE_CFG, u16 (field (ic_asw_mode c) MS41908M_ASWMODE_SHIFT MS41908M_ASWMODE_MASK
        |: MS41908M_TEST_EN1_MASK
        |: field (ic_mode_sel_iris c) MS41908M_MODESEL_IRIS_SHIFT MS41908M_MODESEL_IRIS_MASK
        |: field (ic_mode_sel_fz c) MS41908M_MODESEL_FZ_SHIFT MS41908M_MODESEL_FZ_MASK
        |: field (ic_pdwnb c) MS41908M_PDWNB_SHIFT MS41908M_PDWNB_MASK
        |: field (ic_adc_test c) MS41908M_ADC_TEST_SHIFT MS41908M_ADC_TEST_MASK
        |: field (ic_pid_clip c) MS41908M_PID_CLIP_SHIFT MS41908M_PID_CLIP_MASK));
    (MS41908M_REG_TGT_UPDATE, u16 (Z.land (ic_tgt_update c) MS41908M_TGT_UPDATE_MASK
        |: field (ic_ave_speed c) MS41908M_AVE_SPEED_SHIFT MS41908M_AVE_SPEED_MASK)) ].
