(* ===== verification/Ms41908m.v ===== *)
(** The MS41908M lens driver ([app/Custom/Components/ms41908m/ms41908m_port.c] and
    [ms41908m.c]): register access over SPI, the event group, the motor task with its
    batches of micro steps, the reset-zero state machine, and the interface calls.

    The two axes of [ms41908m_instance_t] have the same fields; they are one record
    [axis_t] here, and the pairs of functions that differ only in the axis are one
    definition with the axis as an argument, of which the functions of the source
    are instances.  The pointers kept in the reset state machine point to the fields
    of the axis [rz_type].

    The peripherals and the kernel are the parameter [LensHw].  A blocking wait takes
    as an argument what interrupts and other tasks do meanwhile. *)
From S2P Require Import Prelude Ms41908mReg.

(** ** Hardware and kernel *)
Inductive gpio_t : Type :=
| SPI1_CS | VD_IS | VD_FZ | LENS_EN | RSTB | PLS1_Pin | PLS2_Pin | Z_RST_Pin | F_RST_Pin | IR_CUT_EN_Pin.
#[export] Instance gpio_t_eq : EqDecision gpio_t.
Proof. solve_decision. Defined.

Inductive os_object : Type := OsMutex | OsEventGroup | OsTask | OsTimer.
Inductive timer_cmd : Type := TimerStart | TimerStop | TimerDelete.

(** [true] is [HAL_OK], [pdTRUE] or a handle that is not [NULL]; [gpio_pi_irq] arms or
    releases the two limit inputs. *)
Class LensHw (D : Type) : Type := {
  HAL_SPI_Transmit : list Z -> D -> bool * D;
  HAL_SPI_TransmitReceive : list Z -> D -> bool * list Z * D;
  HAL_GPIO_WritePin : gpio_t -> bool -> D -> D;
  HAL_GPIO_ReadPin : gpio_t -> D -> bool;
  gpio_pi_irq : bool -> D -> D;
  osDelay : Z -> D -> D;
  osKernelGetTickCount : D -> Z;
  os_create : os_object -> D -> bool * D;
  xSemaphoreTake : D -> bool * D;
  xTimer : timer_cmd -> D -> bool * D
}.

(** ** Types of [ms41908m_port.h] and [ms41908m.h] *)
Definition MS41908M_EVENT_PLS1 : Z := 1.
Definition MS41908M_EVENT_PLS2 : Z := 2.
Definition MS41908M_EVENT_PI_FOCUS : Z := 4.
Definition MS41908M_EVENT_PI_ZOOM : Z := 8.
Definition MS41908M_EVENT_FOCUS_COMPLETED : Z := 16.
Definition MS41908M_EVENT_ZOOM_COMPLETED : Z := 32.
Definition MS41908M_EVENT_REQ_RESET_ZOOM : Z := 64.
Definition MS41908M_EVENT_REQ_RESET_FOCUS : Z := 128.
Definition MS41908M_EVENT_ZOOM_RESET_DONE : Z := 256.
Definition MS41908M_EVENT_FOCUS_RESET_DONE : Z := 512.

Inductive ms41908m_type_t : Type := MS41908M_TYPE_FOCUS | MS41908M_TYPE_ZOOM | MS41908M_TYPE_IRIS.
#[export] Instance ms41908m_type_t_eq : EqDecision ms41908m_type_t.
Proof. solve_decision. Defined.

Inductive ms41908m_irq_type_t : Type :=
| MS41908M_IRQ_PLS1 | MS41908M_IRQ_PLS2 | MS41908M_IRQ_PI_FOCUS | MS41908M_IRQ_PI_ZOOM.

Definition MS41908M_OSCIN_FREQ : Z := 27000000.
Definition MS41908M_VD_FREQ : Z := 16.
Definition MS41908M_VD_DELAY_MS : Z := 1000 / MS41908M_VD_FREQ.
Definition MS41908M_RAW_PPS_MIN : Z := 24.
Definition MS41908M_RAW_PPS_MAX : Z := 8000.
Definition MS41908M_RAW_PSUM_MIN : Z := 1.
Definition MS41908M_RAW_PSUM_MAX : Z := 65535.
Definition MS41908M_RESET_FAST_PPS : Z := 1200.
Definition MS41908M_RESET_SLOW_PPS : Z := 400.
Definition MS41908M_TRAVEL_MARGIN : Z := 400.
Definition MS41908M_MOTOR_TIMEOUT_MS : Z := 5000.
Definition MS41908M_APP_NOTIFY_CAP : nat := 8.

(** Divisions of [unsigned long] values, here never by zero. *)
Definition MS41908M_CALC_INTCT_FROM_PPS (pps : Z) : Z := MS41908M_OSCIN_FREQ / (pps *u 24).
Definition MS41908M_CALC_INTCT_FROM_PSUM (psum : Z) : Z := MS41908M_OSCIN_FREQ / (psum *u MS41908M_VD_FREQ *u 24).
Definition MS41908M_CALC_PSUM_FROM_INTCT (intct : Z) : Z := MS41908M_OSCIN_FREQ / (intct *u MS41908M_VD_FREQ *u 24).

Inductive ms41908m_state_t : Type :=
| MS41908M_STATE_NO_CFG | MS41908M_STATE_STOPPED | MS41908M_STATE_RUNNING
| MS41908M_STATE_RESET_ZERO | MS41908M_STATE_ERROR.
#[export] Instance ms41908m_state_t_eq : EqDecision ms41908m_state_t.
Proof. solve_decision. Defined.

Inductive ms41908m_rz_phase_t : Type :=
| MS41908M_RZ_IDLE | MS41908M_RZ_EXIT_LOW_START | MS41908M_RZ_EXIT_LOW_WAIT
| MS41908M_RZ_CAPTURE_START | MS41908M_RZ_CAPTURE_WAIT.
#[export] Instance ms41908m_rz_phase_t_eq : EqDecision ms41908m_rz_phase_t.
Proof. solve_decision. Defined.

(** ** State *)
Record ms41908m_run_config_t : Type := mkRun {
  rc_is_valid : bool;
  rc_direction : Z;
  rc_intct : Z;
  rc_unload_psum : Z;
  rc_load_psum : Z
}.

Definition set_rc_is_valid (v : bool) (r : ms41908m_run_config_t) : ms41908m_run_config_t :=
  mkRun v (rc_direction r) (rc_intct r) (rc_unload_psum r) (rc_load_psum r).
Definition set_rc_direction (v : Z) (r : ms41908m_run_config_t) : ms41908m_run_config_t :=
  mkRun (rc_is_valid r) v (rc_intct r) (rc_unload_psum r) (rc_load_psum r).
Definition set_rc_intct (v : Z) (r : ms41908m_run_config_t) : ms41908m_run_config_t :=
  mkRun (rc_is_valid r) (rc_direction r) v (rc_unload_psum r) (rc_load_psum r).
Definition set_rc_unload_psum (v : Z) (r : ms41908m_run_config_t) : ms41908m_run_config_t :=
  mkRun (rc_is_valid r) (rc_direction r) (rc_intct r) v (rc_load_psum r).
Definition set_rc_load_psum (v : Z) (r : ms41908m_run_config_t) : ms41908m_run_config_t :=
  mkRun (rc_is_valid r) (rc_direction r) (rc_intct r) (rc_unload_psum r) v.

(** The fields of one axis. *)
Record axis_t : Type := mkAxis {
  ax_state : ms41908m_state_t;
  ax_is_r_zero : bool;
  ax_position : Z;
  ax_pos_min : Z;
  ax_pos_max : Z;
  ax_run_config : ms41908m_run_config_t;
  ax_start_tick : Z;
  ax_batch_active : bool;
  ax_pls_rcvd : bool
}.

Definition set_ax_state (v : ms41908m_state_t) (r : axis_t) : axis_t :=
  mkAxis v (ax_is_r_zero r) (ax_position r) (ax_pos_min r) (ax_pos_max r) (ax_run_config r) (ax_start_tick r)
    (ax_batch_active r) (ax_pls_rcvd r).
Definition set_ax_is_r_zero (v : bool) (r : axis_t) : axis_t :=
  mkAxis (ax_state r) v (ax_position r) (ax_pos_min r) (ax_pos_max r) (ax_run_config r) (ax_start_tick r)
    (ax_batch_active r) (ax_pls_rcvd r).
Definition set_ax_position (v : Z) (r : axis_t) : axis_t :=
  mkAxis (ax_state r) (ax_is_r_zero r) v (ax_pos_min r) (ax_pos_max r) (ax_run_config r) (ax_start_tick r)
    (ax_batch_active r) (ax_pls_rcvd r).
Definition set_ax_pos_min (v : Z) (r : axis_t) : axis_t :=
  mkAxis (ax_state r) (ax_is_r_zero r) (ax_position r) v (ax_pos_max r) (ax_run_config r) (ax_start_tick r)
    (ax_batch_active r) (ax_pls_rcvd r).
Definition set_ax_pos_max (v : Z) (r : axis_t) : axis_t :=
  mkAxis (ax_state r) (ax_is_r_zero r) (ax_position r) (ax_pos_min r) v (ax_run_config r) (ax_start_tick r)
    (ax_batch_active r) (ax_pls_rcvd r).
Definition set_ax_run_config (v : ms41908m_run_config_t) (r : axis_t) : axis_t :=
  mkAxis (ax_state r) (ax_is_r_zero r) (ax_position r) (ax_pos_min r) (ax_pos_max r) v (ax_start_tick r)
    (ax_batch_active r) (ax_pls_rcvd r).
Definition set_ax_start_tick (v : Z) (r : axis_t) : axis_t :=
  mkAxis (ax_state r) (ax_is_r_zero r) (ax_position r) (ax_pos_min r) (ax_pos_max r) (ax_run_config r) v
    (ax_batch_active r) (ax_pls_rcvd r).
Definition set_ax_batch_active (v : bool) (r : axis_t) : axis_t :=
  mkAxis (ax_state r) (ax_is_r_zero r) (ax_position r) (ax_pos_min r) (ax_pos_max r) (ax_run_config r)
    (ax_start_tick r) v (ax_pls_rcvd r).
Definition set_ax_pls_rcvd (v : bool) (r : axis_t) : axis_t :=
  mkAxis (ax_state r) (ax_is_r_zero r) (ax_position r) (ax_pos_min r) (ax_pos_max r) (ax_run_config r)
    (ax_start_tick r) (ax_batch_active r) v.

Record ms41908m_instance_t : Type := mkInstance {
  is_initialized : bool;
  iris_state : ms41908m_state_t;
  i_zoom : axis_t;
  i_focus : axis_t
}.

Definition set_is_initialized (v : bool) (r : ms41908m_instance_t) : ms41908m_instance_t :=
  mkInstance v (iris_state r) (i_zoom r) (i_focus r).
Definition set_iris_state (v : ms41908m_state_t) (r : ms41908m_instance_t) : ms41908m_instance_t :=
  mkInstance (is_initialized r) v (i_zoom r) (i_focus r).
Definition set_i_zoom (v : axis_t) (r : ms41908m_instance_t) : ms41908m_instance_t :=
  mkInstance (is_initialized r) (iris_state r) v (i_focus r).
Definition set_i_focus (v : axis_t) (r : ms41908m_instance_t) : ms41908m_instance_t :=
  mkInstance (is_initialized r) (iris_state r) (i_zoom r) v.

Record ms41908m_reset_sm_t : Type := mkRst {
  rz_phase : ms41908m_rz_phase_t;
  rz_type : ms41908m_type_t;
  rz_pi_irq : ms41908m_irq_type_t;
  rz_pi_event : Z;
  rz_complete_event : Z;
  rz_pi_triggered : bool;
  rz_abort_requested : bool
}.

Definition set_rz_phase (v : ms41908m_rz_phase_t) (r : ms41908m_reset_sm_t) : ms41908m_reset_sm_t :=
  mkRst v (rz_type r) (rz_pi_irq r) (rz_pi_event r) (rz_complete_event r) (rz_pi_triggered r) (rz_abort_requested
    r).
Definition set_rz_type (v : ms41908m_type_t) (r : ms41908m_reset_sm_t) : ms41908m_reset_sm_t :=
  mkRst (rz_phase r) v (rz_pi_irq r) (rz_pi_event r) (rz_complete_event r) (rz_pi_triggered r)
    (rz_abort_requested r).
Definition set_rz_pi_irq (v : ms41908m_irq_type_t) (r : ms41908m_reset_sm_t) : ms41908m_reset_sm_t :=
  mkRst (rz_phase r) (rz_type r) v (rz_pi_event r) (rz_complete_event r) (rz_pi_triggered r) (rz_abort_requested r).
Definition set_rz_pi_event (v : Z) (r : ms41908m_reset_sm_t) : ms41908m_reset_sm_t :=
  mkRst (rz_phase r) (rz_type r) (rz_pi_irq r) v (rz_complete_event r) (rz_pi_triggered r) (rz_abort_requested r).
Definition set_rz_complete_event (v : Z) (r : ms41908m_reset_sm_t) : ms41908m_reset_sm_t :=
  mkRst (rz_phase r) (rz_type r) (rz_pi_irq r) (rz_pi_event r) v (rz_pi_triggered r) (rz_abort_requested r).
Definition set_rz_pi_triggered (v : bool) (r : ms41908m_reset_sm_t) : ms41908m_reset_sm_t :=
  mkRst (rz_phase r) (rz_type r) (rz_pi_irq r) (rz_pi_event r) (rz_complete_event r) v (rz_abort_requested r).
Definition set_rz_abort_requested (v : bool) (r : ms41908m_reset_sm_t) : ms41908m_reset_sm_t :=
  mkRst (rz_phase r) (rz_type r) (rz_pi_irq r) (rz_pi_event r) (rz_complete_event r) (rz_pi_triggered r) v.

(** Static variables of both files, the hardware, and the calls of the application
    callback made so far (callback, event, result).  [s_mutex] is [Some held] once the
    mutex exists; [s_event_group] holds the bits. *)
Record ms_state (D : Type) : Type := mkMs {
  s_instance : ms41908m_instance_t;
  s_rst : ms41908m_reset_sm_t;
  s_zoom_rst_last_result : Z;
  s_focus_rst_last_result : Z;
  s_motor_task : bool;
  s_iris_timer : bool;
  s_app_event_cb : option Z;
  s_app_notify : list (Z * Z);
  s_mutex : option bool;
  s_event_group : option Z;
  s_hw : D;
  s_app_calls : list (Z * Z * Z)
}.
Arguments mkMs {D}.
Arguments s_instance {D}.
Arguments s_rst {D}.
Arguments s_zoom_rst_last_result {D}.
Arguments s_focus_rst_last_result {D}.
Arguments s_motor_task {D}.
Arguments s_iris_timer {D}.
Arguments s_app_event_cb {D}.
Arguments s_app_notify {D}.
Arguments s_mutex {D}.
Arguments s_event_group {D}.
Arguments s_hw {D}.
Arguments s_app_calls {D}.

Definition set_s_instance {D} (v : ms41908m_instance_t) (r : ms_state D) : ms_state D :=
  mkMs v (s_rst r) (s_zoom_rst_last_result r) (s_focus_rst_last_result r) (s_motor_task r) (s_iris_timer r)
    (s_app_event_cb r) (s_app_notify r) (s_mutex r) (s_event_group r) (s_hw r) (s_app_calls r).
Definition set_s_rst {D} (v : ms41908m_reset_sm_t) (r : ms_state D) : ms_state D :=
  mkMs (s_instance r) v (s_zoom_rst_last_result r) (s_focus_rst_last_result r) (s_motor_task r) (s_iris_timer r)
    (s_app_event_cb r) (s_app_notify r) (s_mutex r) (s_event_group r) (s_hw r) (s_app_calls r).
Definition set_s_zoom_rst_last_result {D} (v : Z) (r : ms_state D) : ms_state D :=
  mkMs (s_instance r) (s_rst r) v (s_focus_rst_last_result r) (s_motor_task r) (s_iris_timer r) (s_app_event_cb
    r) (s_app_notify r) (s_mutex r) (s_event_group r) (s_hw r) (s_app_calls r).
Definition set_s_focus_rst_last_result {D} (v : Z) (r : ms_state D) : ms_state D :=
  mkMs (s_instance r) (s_rst r) (s_zoom_rst_last_result r) v (s_motor_task r) (s_iris_timer r) (s_app_event_cb r)
    (s_app_notify r) (s_mutex r) (s_event_group r) (s_hw r) (s_app_calls r).
Definition set_s_motor_task {D} (v : bool) (r : ms_state D) : ms_state D :=
  mkMs (s_instance r) (s_rst r) (s_zoom_rst_last_result r) (s_focus_rst_last_result r) v (s_iris_timer r)
    (s_app_event_cb r) (s_app_notify r) (s_mutex r) (s_event_group r) (s_hw r) (s_app_calls r).
Definition set_s_iris_timer {D} (v : bool) (r : ms_state D) : ms_state D :=
  mkMs (s_instance r) (s_rst r) (s_zoom_rst_last_result r) (s_focus_rst_last_result r) (s_motor_task r) v
    (s_app_event_cb r) (s_app_notify r) (s_mutex r) (s_event_group r) (s_hw r) (s_app_calls r).
Definition set_s_app_event_cb {D} (v : option Z) (r : ms_state D) : ms_state D :=
  mkMs (s_instance r) (s_rst r) (s_zoom_rst_last_result r) (s_focus_rst_last_result r) (s_motor_task r)
    (s_iris_timer r) v (s_app_notify r) (s_mutex r) (s_event_group r) (s_hw r) (s_app_calls r).
Definition set_s_app_notify {D} (v : list (Z * Z)) (r : ms_state D) : ms_state D :=
  mkMs (s_instance r) (s_rst r) (s_zoom_rst_last_result r) (s_focus_rst_last_result r) (s_motor_task r)
    (s_iris_timer r) (s_app_event_cb r) v (s_mutex r) (s_event_group r) (s_hw r) (s_app_calls r).
Definition set_s_mutex {D} (v : option bool) (r : ms_state D) : ms_state D :=
  mkMs (s_instance r) (s_rst r) (s_zoom_rst_last_result r) (s_focus_rst_last_result r) (s_motor_task r)
    (s_iris_timer r) (s_app_event_cb r) (s_app_notify r) v (s_event_group r) (s_hw r) (s_app_calls r).
Definition set_s_event_group {D} (v : option Z) (r : ms_state D) : ms_state D :=
  mkMs (s_instance r) (s_rst r) (s_zoom_rst_last_result r) (s_focus_rst_last_result r) (s_motor_task r)
    (s_iris_timer r) (s_app_event_cb r) (s_app_notify r) (s_mutex r) v (s_hw r) (s_app_calls r).
Definition set_s_hw {D} (v : D) (r : ms_state D) : ms_state D :=
  mkMs (s_instance r) (s_rst r) (s_zoom_rst_last_result r) (s_focus_rst_last_result r) (s_motor_task r)
    (s_iris_timer r) (s_app_event_cb r) (s_app_notify r) (s_mutex r) (s_event_group r) v (s_app_calls r).
Definition set_s_app_calls {D} (v : list (Z * Z * Z)) (r : ms_state D) : ms_state D :=
  mkMs (s_instance r) (s_rst r) (s_zoom_rst_last_result r) (s_focus_rst_last_result r) (s_motor_task r)
    (s_iris_timer r) (s_app_event_cb r) (s_app_notify r) (s_mutex r) (s_event_group r) (s_hw r) v.

(** ** Zero values *)
Definition run_zero : ms41908m_run_config_t := mkRun false 0 0 0 0.
Definition axis_zero : axis_t :=
  mkAxis MS41908M_STATE_NO_CFG false 0 0 0 run_zero 0 false false.
Definition instance_zero : ms41908m_instance_t := mkInstance false MS41908M_STATE_NO_CFG axis_zero axis_zero.
Definition rst_zero : ms41908m_reset_sm_t :=
  mkRst MS41908M_RZ_IDLE MS41908M_TYPE_FOCUS MS41908M_IRQ_PLS1 0 0 false false.

Definition st_eq (a b : ms41908m_state_t) : bool := bool_decide (a = b).
Definition ty_eq (a b : ms41908m_type_t) : bool := bool_decide (a = b).
Definition ph_idle (p : ms41908m_rz_phase_t) : bool := bool_decide (p = MS41908M_RZ_IDLE).
Definition has (events bits : Z) : bool := negb (Z.land events bits =? 0).

Section Driver.
Context `{LensHw D}.
Notation ms := (ms_state D).

(** ** Access to the state *)
Definition upd_inst (f : ms41908m_instance_t -> ms41908m_instance_t) : M ms unit :=
  modify (fun s => set_s_instance (f (s_instance s)) s).
Definition axis_of (ty : ms41908m_type_t) (i : ms41908m_instance_t) : axis_t :=
  match ty with MS41908M_TYPE_FOCUS => i_focus i | _ => i_zoom i end.
Definition put_axis (ty : ms41908m_type_t) (a : axis_t) (i : ms41908m_instance_t) : ms41908m_instance_t :=
  match ty with MS41908M_TYPE_FOCUS => set_i_focus a i | _ => set_i_zoom a i end.
Definition ax (ty : ms41908m_type_t) : M ms axis_t := gets (fun s => axis_of ty (s_instance s)).
Definition upd_ax (ty : ms41908m_type_t) (f : axis_t -> axis_t) : M ms unit :=
  upd_inst (fun i => put_axis ty (f (axis_of ty i)) i).
Definition upd_run (ty : ms41908m_type_t) (f : ms41908m_run_config_t -> ms41908m_run_config_t) : M ms unit :=
  upd_ax ty (fun a => set_ax_run_config (f (ax_run_config a)) a).
Definition upd_rst (f : ms41908m_reset_sm_t -> ms41908m_reset_sm_t) : M ms unit :=
  modify (fun s => set_s_rst (f (s_rst s)) s).

(** Signed arithmetic outside [int32_t] is undefined. *)
Definition int32 (z : Z) : M ms Z :=
  if (-2147483648 <=? z) && (z <=? 2147483647) then mret z else undef.
Definition MS41908M_ABS (x : Z) : M ms Z := if x <? 0 then int32 (- x) else mret x.

Definition hw_do (f : D -> D) : M ms unit := modify (fun s => set_s_hw (f (s_hw s)) s).
Definition hw_call {A} (f : D -> A * D) : M ms A :=
  d ← gets s_hw;
  let '(a, d') := f d in
  modify (set_s_hw d');;
  mret a.
Definition tick : M ms Z := gets (fun s => osKernelGetTickCount (s_hw s)).

(** ** The port layer *)
Definition ms41908m_cs_low : M ms unit := hw_do (HAL_GPIO_WritePin SPI1_CS false).
Definition ms41908m_cs_high : M ms unit := hw_do (HAL_GPIO_WritePin SPI1_CS true).

Definition ms41908m_vd_pulse (pin : gpio_t) : M ms unit :=
  hw_do (HAL_GPIO_WritePin pin true);;
  hw_do (HAL_GPIO_WritePin pin false).

Definition ms41908m_port_init : M ms Z :=
  s ← get;
  if bool_decide (is_Some (s_mutex s)) || bool_decide (is_Some (s_event_group s)) then mret SYS_ERR_INVALID_STATE
  else
    m ← hw_call (os_create OsMutex);
    if negb m : bool then mret SYS_ERR_NO_MEM
    else
      modify (set_s_mutex (Some false));;
      g ← hw_call (os_create OsEventGroup);
      if negb g : bool then modify (set_s_mutex None);; mret SYS_ERR_NO_MEM
      else
        modify (set_s_event_group (Some 0));;
        hw_do (HAL_GPIO_WritePin LENS_EN false);;
        hw_do (osDelay 10);;
        hw_do (HAL_GPIO_WritePin RSTB false);;
        hw_do (osDelay 10);;
        hw_do (HAL_GPIO_WritePin RSTB true);;
        hw_do (osDelay 50);;
        mret SYS_OK.

Definition ms41908m_port_deinit : M ms unit :=
  modify (set_s_event_group None);;
  modify (set_s_mutex None).

Definition ms41908m_port_write (addr data : Z) : M ms Z :=
  let tx_buf := [Z.land addr 63; Z.land data 255; Z.land (Z.shiftr data 8) 255] in
  ms41908m_cs_high;;
  status ← hw_call (HAL_SPI_Transmit tx_buf);
  ms41908m_cs_low;;
  mret (if status : bool then SYS_OK else SYS_ERR_HAL).

(** [*data] is written only on success: the result is the value then. *)
Definition ms41908m_port_read (addr : Z) : M ms (Z * option Z) :=
  let tx_buf := [Z.lor (Z.land addr 63) 64; 0; 0] in
  ms41908m_cs_high;;
  r ← hw_call (HAL_SPI_TransmitReceive tx_buf);
  ms41908m_cs_low;;
  let '(status, rx_buf) := r in
  if negb status : bool then mret (SYS_ERR_HAL, None)
  else mret (SYS_OK, Some (u16 (Z.lor (nth 1 rx_buf 0) (Z.shiftl (nth 2 rx_buf 0) 8)))).

Definition ms41908m_port_output_vd (ty : ms41908m_type_t) : M ms unit :=
  match ty with
  | MS41908M_TYPE_IRIS => ms41908m_vd_pulse VD_IS
  | MS41908M_TYPE_FOCUS | MS41908M_TYPE_ZOOM => ms41908m_vd_pulse VD_FZ
  end.

Definition irq_gpio (ty : ms41908m_irq_type_t) : gpio_t :=
  match ty with
  | MS41908M_IRQ_PLS1 => PLS1_Pin
  | MS41908M_IRQ_PLS2 => PLS2_Pin
  | MS41908M_IRQ_PI_ZOOM => Z_RST_Pin
  | MS41908M_IRQ_PI_FOCUS => F_RST_Pin
  end.
Definition ms41908m_port_read_irq_status (ty : ms41908m_irq_type_t) : M ms Z :=
  gets (fun s => b2z (HAL_GPIO_ReadPin (irq_gpio ty) (s_hw s))).

Definition set_bits (bits : Z) : M ms unit :=
  modify (fun s => match s_event_group s with
                   | Some b => set_s_event_group (Some (Z.lor b bits)) s
                   | None => s
                   end).
Definition irq_event (pin : gpio_t) : Z :=
  match pin with
  | PLS1_Pin => MS41908M_EVENT_PLS1
  | PLS2_Pin => MS41908M_EVENT_PLS2
  | Z_RST_Pin => MS41908M_EVENT_PI_ZOOM
  | F_RST_Pin => MS41908M_EVENT_PI_FOCUS
  | _ => 0
  end.
Definition ms41908m_port_irq_handler (pin : gpio_t) : M ms unit := set_bits (irq_event pin).

Definition ms41908m_port_lock : M ms Z :=
  m ← gets s_mutex;
  match m with
  | None => mret SYS_ERR_INVALID_STATE
  | Some held =>
      ok ← hw_call xSemaphoreTake;
      if negb held && ok then modify (set_s_mutex (Some true));; mret SYS_OK else mret SYS_ERR_MUTEX
  end.

Definition ms41908m_port_unlock : M ms Z :=
  m ← gets s_mutex;
  match m with
  | None => mret SYS_ERR_INVALID_STATE
  | Some held =>
      modify (set_s_mutex (Some false));;
      mret (if held : bool then SYS_OK else SYS_ERR_MUTEX)
  end.

(** [xEventGroupWaitBits]: when the condition does not hold yet and the time-out is
    not zero, the task blocks while [meanwhile] happens; the bits it then sees are
    returned, and cleared when asked for and the condition holds. *)
Definition bits_ready (bits want : Z) (wait_all : bool) : bool :=
  if wait_all then Z.land bits want =? want else has bits want.

Definition ms41908m_port_wait_for_event (meanwhile : M ms unit) (event_bits timeout_ms : Z)
    (clear_on_exit wait_all : bool) : M ms Z :=
  g ← gets s_event_group;
  match g with
  | None => mret 0
  | Some b0 =>
      (if negb (bits_ready b0 event_bits wait_all) && negb (timeout_ms =? 0) then meanwhile else mret tt);;
      g ← gets s_event_group;
      let bits := default 0 g in
      (if clear_on_exit && bits_ready bits event_bits wait_all then
         modify (set_s_event_group (Some (Z.ldiff bits event_bits)))
       else mret tt);;
      mret (if has bits event_bits then bits else 0)
  end.

Definition ms41908m_port_set_event (event_bits : Z) : M ms Z :=
  g ← gets s_event_group;
  match g with
  | None => mret SYS_ERR_INVALID_STATE
  | Some _ => set_bits event_bits;; mret SYS_OK
  end.

Definition ms41908m_port_clear_event (event_bits : Z) : M ms unit :=
  modify (fun s => match s_event_group s with
                   | Some b => set_s_event_group (Some (Z.ldiff b event_bits)) s
                   | None => s
                   end).

Definition ms41908m_port_create_timer : M ms bool := hw_call (os_create OsTimer).
Definition ms41908m_port_timer (c : timer_cmd) : M ms Z :=
  t ← gets s_iris_timer;
  if negb t : bool then mret SYS_ERR_INVALID_ARG
  else
    ok ← hw_call (xTimer c);
    mret (if ok : bool then SYS_OK else SYS_ERR_FAILED).
Definition ms41908m_port_delete_timer : M ms Z := ms41908m_port_timer TimerDelete.
Definition ms41908m_port_start_timer : M ms Z := ms41908m_port_timer TimerStart.
Definition ms41908m_port_stop_timer : M ms Z := ms41908m_port_timer TimerStop.
Definition ms41908m_port_create_task : M ms bool := hw_call (os_create OsTask).

Definition PI_EVENTS : Z := Z.lor MS41908M_EVENT_PI_ZOOM MS41908M_EVENT_PI_FOCUS.
Definition ms41908m_port_pi_irq_enable : M ms unit :=
  ms41908m_port_clear_event PI_EVENTS;;
  hw_do (gpio_pi_irq true).
Definition ms41908m_port_pi_irq_disable : M ms unit :=
  hw_do (gpio_pi_irq false);;
  ms41908m_port_clear_event PI_EVENTS.

(** ** Notifications for the application *)
Definition ms41908m_queue_app_notify (event_bits result : Z) : M ms unit :=
  q ← gets s_app_notify;
  if (length q <? MS41908M_APP_NOTIFY_CAP)%nat then modify (set_s_app_notify (q ++ [(event_bits, result)]))
  else mret tt.

Definition ms41908m_port_set_event_notify (event_bits result : Z) : M ms unit :=
  ms41908m_port_set_event event_bits;;
  ms41908m_queue_app_notify event_bits result.

Definition ms41908m_dispatch_pending_app_events : M ms unit :=
  s ← get;
  match s_app_event_cb s with
  | None => modify (set_s_app_notify [])
  | Some cb =>
      modify (set_s_app_calls (s_app_calls s ++ map (fun '(e, r) => (cb, e, r)) (s_app_notify s)));;
      modify (set_s_app_notify [])
  end.

(** ** VD_FZ coordination *)
Definition batch_pending (a : axis_t) : bool := ax_batch_active a && negb (ax_pls_rcvd a).
Definition MS41908M_BATCH_PENDING (i : ms41908m_instance_t) : bool :=
  batch_pending (i_focus i) || batch_pending (i_zoom i).
Definition can_fire_vd_fz : M ms bool := gets (fun s => negb (MS41908M_BATCH_PENDING (s_instance s))).

Definition running (a : axis_t) : bool := st_eq (ax_state a) MS41908M_STATE_RUNNING.

(** The block that marks an axis when the pulse is issued. *)
Definition mark_batch (ty : ms41908m_type_t) : M ms unit :=
  a ← ax ty;
  if running a then
    now ← tick;
    upd_ax ty (fun a => set_ax_start_tick now (set_ax_pls_rcvd false (set_ax_batch_active true a)))
  else mret tt.

Definition ms41908m_iris_timer_handler : M ms unit :=
  i ← gets s_instance;
  if st_eq (iris_state i) MS41908M_STATE_RUNNING then ms41908m_port_output_vd MS41908M_TYPE_IRIS else mret tt.

(** ** Motor start and stop *)
Definition step_addr (ty : ms41908m_type_t) : Z :=
  match ty with MS41908M_TYPE_FOCUS => MS41908M_REG_FOCUS_STEP | _ => MS41908M_REG_ZOOM_STEP end.
Definition pps_addr (ty : ms41908m_type_t) : Z :=
  match ty with MS41908M_TYPE_FOCUS => MS41908M_REG_FOCUS_PPS | _ => MS41908M_REG_ZOOM_PPS end.
Definition completed_event (ty : ms41908m_type_t) : Z :=
  match ty with MS41908M_TYPE_FOCUS => MS41908M_EVENT_FOCUS_COMPLETED | _ => MS41908M_EVENT_ZOOM_COMPLETED end.

Definition fire_vd (ty : ms41908m_type_t) : M ms unit :=
  ok ← can_fire_vd_fz;
  if ok : bool then
    mark_batch MS41908M_TYPE_FOCUS;;
    mark_batch MS41908M_TYPE_ZOOM;;
    ms41908m_port_output_vd ty
  else mret tt.

(** The step register for a batch of [psum] micro steps: MICRO and LED are kept. *)
Definition step_value (old psum direction : Z) : Z :=
  let r := Z.land old (Z.lor MS41908M_STEP_MICRO_MASK MS41908M_STEP_LED_BIT) in
  let r := Z.lor (Z.lor r MS41908M_STEP_ENDIS_BIT) (Z.land psum 255) in
  if direction =? 0 then Z.lor r MS41908M_STEP_CCWCW_BIT else r.

(** Interval counter and first batch of a move of [n] micro steps. *)
Definition start_intct (pps : Z) : Z :=
  let intct := u16 (MS41908M_CALC_INTCT_FROM_PPS pps) in
  if 65535 <? intct then 65535 else if intct <? 1 then 1 else intct.
Definition start_psum (pps n : Z) : Z :=
  let psum := u16 (MS41908M_CALC_PSUM_FROM_INTCT (start_intct pps)) in
  let psum := if 255 <? psum then 255 else if psum <? 1 then 1 else psum in
  if n <? psum then u16 n else psum.

Definition limits_refuse (a : axis_t) (micro_steps : Z) : M ms bool :=
  if ax_is_r_zero a && (ax_pos_min a <? ax_pos_max a) then
    target_pos ← int32 (ax_position a + micro_steps);
    mret ((target_pos <? ax_pos_min a) || (ax_pos_max a <? target_pos))
  else mret false.

Definition fail_run (ty : ms41908m_type_t) (ret : Z) : M ms Z :=
  upd_run ty (set_rc_is_valid false);; mret ret.

Definition ms41908m_motor_start_impl (ty : ms41908m_type_t) (pps micro_steps : Z) : M ms Z :=
  if (pps <? MS41908M_RAW_PPS_MIN) || (MS41908M_RAW_PPS_MAX <? pps) then mret SYS_ERR_INVALID_ARG
  else
    n ← MS41908M_ABS micro_steps;
    if (n <? MS41908M_RAW_PSUM_MIN) || (MS41908M_RAW_PSUM_MAX <? n) then mret SYS_ERR_INVALID_ARG
    else if ty_eq ty MS41908M_TYPE_IRIS then mret SYS_ERR_INVALID_ARG
    else
      a ← ax ty;
      if st_eq (ax_state a) MS41908M_STATE_NO_CFG then mret SYS_ERR_INVALID_STATE
      else if running a then mret SYS_ERR_BUSY
      else if negb (st_eq (ax_state a) MS41908M_STATE_STOPPED) && negb (st_eq (ax_state a) MS41908M_STATE_RESET_ZERO)
      then mret SYS_ERR_INVALID_STATE
      else
        out ← limits_refuse a micro_steps;
        if out : bool then mret SYS_ERR_OUT_OF_RANGE
        else
          let intct := start_intct pps in
          let psum := start_psum pps n in
          let direction := if 0 <=? micro_steps then 1 else 0 in
          upd_run ty (fun _ => mkRun true direction intct (n - psum) psum);;
          '(ret, v) ← ms41908m_port_read (step_addr ty);
          if negb (ret =? SYS_OK) then fail_run ty ret
          else
            let step_reg := step_value (default 0 v) psum direction in
            ret ← ms41908m_port_write (pps_addr ty) (Z.land intct 65535);
            if negb (ret =? SYS_OK) then fail_run ty ret
            else
              ret ← ms41908m_port_write (step_addr ty) step_reg;
              if negb (ret =? SYS_OK) then fail_run ty ret
              else
                ms41908m_port_clear_event (completed_event ty);;
                now ← tick;
                upd_ax ty (fun a => set_ax_pls_rcvd false (set_ax_batch_active false
                                      (set_ax_start_tick now (set_ax_state MS41908M_STATE_RUNNING a))));;
                fire_vd ty;;
                mret SYS_OK.

Definition ms41908m_motor_stop_impl (ty : ms41908m_type_t) : M ms Z :=
  if ty_eq ty MS41908M_TYPE_IRIS then mret SYS_ERR_INVALID_ARG
  else
    a ← ax ty;
    if st_eq (ax_state a) MS41908M_STATE_NO_CFG then mret SYS_OK
    else
      '(ret, v) ← ms41908m_port_read (step_addr ty);
      if negb (ret =? SYS_OK) then mret ret
      else
        ret ← ms41908m_port_write (step_addr ty) (Z.land (default 0 v) 65280);
        if negb (ret =? SYS_OK) then mret ret
        else
          upd_ax ty (fun a => set_ax_pls_rcvd false (set_ax_batch_active false a));;
          upd_run ty (fun r => set_rc_unload_psum 0 (set_rc_is_valid false r));;
          r ← gets s_rst;
          upd_ax ty (set_ax_state (if negb (ph_idle (rz_phase r)) && ty_eq (rz_type r) ty
                                   then MS41908M_STATE_RESET_ZERO else MS41908M_STATE_STOPPED));;
          fire_vd ty;;
          mret SYS_OK.

(** ** Configuration registers *)
Fixpoint write_regs (l : list (Z * Z)) : M ms Z :=
  match l with
  | [] => mret SYS_OK
  | (addr, v) :: l' =>
      ret ← ms41908m_port_write addr v;
      if negb (ret =? SYS_OK) then mret ret else write_regs l'
  end.

Definition ms41908m_write_iris_config (c : ms41908m_iris_config_t) : M ms Z := write_regs (iris_image c).

Definition ms41908m_write_motor_config (c : ms41908m_motor_config_t) : M ms Z :=
  ret ← write_regs
    [ (MS41908M_REG_PWM_CFG, u16 (Z.land (mc_dt1 c) MS41908M_DT1_MASK
        |: field (mc_pwm_mode c) MS41908M_PWMMODE_SHIFT MS41908M_PWMMODE_MASK
        |: field (mc_pwm_res c) MS41908M_PWMRES_SHIFT MS41908M_PWMRES_MASK));
      (MS41908M_REG_TEST_CFG, 135) ];
  if negb (ret =? SYS_OK) then mret ret
  else
    '(ret, v) ← ms41908m_port_read MS41908M_REG_MODE_CFG;
    if negb (ret =? SYS_OK) then mret ret
    else
      write_regs
        [ (MS41908M_REG_MODE_CFG, Z.lor (default 0 v) MS41908M_TEST_EN1_MASK);
          (MS41908M_REG_MOTOR_AB_DT2, u16 (field (mc_dt2a c) 0 MS41908M_DT2A_MASK
            |: field (mc_phmodab c) MS41908M_PHMODAB_SHIFT MS41908M_PHMODAB_MASK));
          (MS41908M_REG_MOTOR_AB_PPW, u16 (Z.land (mc_ppwa c) MS41908M_PPWA_MASK
            |: field (mc_ppwb c) MS41908M_PPWB_SHIFT MS41908M_PPWB_MASK));
          (MS41908M_REG_FOCUS_STEP, u16 (MS41908M_STEP_ENDIS_BIT
            |: (if Z.land (mc_leda c) 1 =? 0 then 0 else MS41908M_STEP_LED_BIT)
            |: Z.shiftl (Z.land (mc_microab c) 3) 12));
          (MS41908M_REG_FOCUS_PPS, 0);
          (MS41908M_REG_MOTOR_CD_DT2, u16 (field (mc_dt2b c) 0 MS41908M_DT2B_MASK
            |: field (mc_phmodcd c) MS41908M_PHMODCD_SHIFT MS41908M_PHMODCD_MASK));
          (MS41908M_REG_MOTOR_CD_PPW, u16 (Z.land (mc_ppwc c) MS41908M_PPWC_MASK
            |: field (mc_ppwd c) MS41908M_PPWD_SHIFT MS41908M_PPWD_MASK));
          (MS41908M_REG_ZOOM_STEP, u16 (MS41908M_STEP_ENDIS_BIT
            |: (if Z.land (mc_ledb c) 1 =? 0 then 0 else MS41908M_STEP_LED_BIT)
            |: Z.shiftl (Z.land (mc_microcd c) 3) 12));
          (MS41908M_REG_ZOOM_PPS, 0) ].

(** ** The reset-zero state machine *)
Definition ms41908m_reset_sm_active : M ms bool := gets (fun s => negb (ph_idle (rz_phase (s_rst s)))).

Definition set_last_result (ty : ms41908m_type_t) (v : Z) : M ms unit :=
  match ty with
  | MS41908M_TYPE_FOCUS => modify (set_s_focus_rst_last_result v)
  | _ => modify (set_s_zoom_rst_last_result v)
  end.
Definition reset_done_event (ty : ms41908m_type_t) : Z :=
  match ty with MS41908M_TYPE_FOCUS => MS41908M_EVENT_FOCUS_RESET_DONE | _ => MS41908M_EVENT_ZOOM_RESET_DONE end.

(** The common body of the two completion functions. *)
Definition reset_sm_complete (update : axis_t -> axis_t) (result : Z) : M ms unit :=
  ty ← gets (fun s => rz_type (s_rst s));
  a ← ax ty;
  (if running a then ms41908m_motor_stop_impl ty;; mret tt else mret tt);;
  upd_ax ty (fun a => set_ax_state MS41908M_STATE_STOPPED (update a));;
  upd_rst (fun r => set_rz_abort_requested false (set_rz_phase MS41908M_RZ_IDLE r));;
  r ← gets s_rst;
  ms41908m_port_clear_event (Z.lor (rz_pi_event r) (rz_complete_event r));;
  ms41908m_port_pi_irq_disable;;
  set_last_result ty result;;
  ms41908m_port_set_event_notify (reset_done_event ty) result.

Definition ms41908m_reset_sm_complete_ok_locked : M ms unit :=
  reset_sm_complete (fun a => set_ax_is_r_zero true (set_ax_position 0 a)) SYS_OK.
Definition ms41908m_reset_sm_complete_err_locked (err : Z) : M ms unit :=
  reset_sm_complete (set_ax_is_r_zero false) err.

Definition ms41908m_rz_pi_is_high_locked : M ms bool :=
  r ← gets s_rst;
  v ← ms41908m_port_read_irq_status (rz_pi_irq r);
  mret (negb (v =? 0)).

(** The margin is an [unsigned long], so the sum is taken without a sign. *)
Definition with_margin (span : Z) : Z := s32 ((if span <? 0 then 0 else span) +u MS41908M_TRAVEL_MARGIN).
Definition ms41908m_rz_span_zero_to_min_locked : M ms Z :=
  ty ← gets (fun s => rz_type (s_rst s));
  a ← ax ty;
  span ← int32 (- ax_pos_min a);
  mret (with_margin span).
Definition ms41908m_rz_span_zero_to_max_locked : M ms Z :=
  ty ← gets (fun s => rz_type (s_rst s));
  a ← ax ty;
  mret (with_margin (ax_pos_max a)).

Definition ms41908m_rz_steps_to_clear_pi_locked : M ms Z :=
  ty ← gets (fun s => rz_type (s_rst s));
  if ty_eq ty MS41908M_TYPE_ZOOM then ms41908m_rz_span_zero_to_min_locked
  else span ← ms41908m_rz_span_zero_to_max_locked; int32 (- span).
Definition ms41908m_rz_steps_to_home_edge_locked : M ms Z :=
  ty ← gets (fun s => rz_type (s_rst s));
  if ty_eq ty MS41908M_TYPE_ZOOM then span ← ms41908m_rz_span_zero_to_max_locked; int32 (- span)
  else ms41908m_rz_span_zero_to_min_locked.

Definition ms41908m_reset_sm_arm_locked (ty : ms41908m_type_t) (pi_irq : ms41908m_irq_type_t)
    (pi_event complete_event : Z) : M ms unit :=
  modify (set_s_rst (mkRst MS41908M_RZ_IDLE ty pi_irq pi_event complete_event false false));;
  upd_ax ty (set_ax_is_r_zero false);;
  ms41908m_port_clear_event (Z.lor pi_event complete_event);;
  ms41908m_port_pi_irq_enable;;
  pi_high ← ms41908m_rz_pi_is_high_locked;
  upd_rst (set_rz_phase (if pi_high : bool then MS41908M_RZ_CAPTURE_START else MS41908M_RZ_EXIT_LOW_START)).

Definition pi_irq_of (ty : ms41908m_type_t) : ms41908m_irq_type_t :=
  match ty with MS41908M_TYPE_FOCUS => MS41908M_IRQ_PI_FOCUS | _ => MS41908M_IRQ_PI_ZOOM end.
Definition pi_event_of (ty : ms41908m_type_t) : Z :=
  match ty with MS41908M_TYPE_FOCUS => MS41908M_EVENT_PI_FOCUS | _ => MS41908M_EVENT_PI_ZOOM end.

Definition limits_bad (a : axis_t) : bool :=
  (ax_pos_max a <=? ax_pos_min a) || (0 <? ax_pos_min a) || (ax_pos_max a <? 0).

Definition try_arm (ty : ms41908m_type_t) : M ms unit :=
  r ← gets s_rst;
  a ← ax ty;
  if negb (ph_idle (rz_phase r)) then mret tt
  else if negb (st_eq (ax_state a) MS41908M_STATE_RESET_ZERO) then mret tt
  else if limits_bad a then
    upd_ax ty (set_ax_state MS41908M_STATE_STOPPED);;
    set_last_result ty SYS_ERR_INVALID_STATE;;
    ms41908m_port_set_event_notify (reset_done_event ty) SYS_ERR_INVALID_STATE
  else ms41908m_reset_sm_arm_locked ty (pi_irq_of ty) (pi_event_of ty) (completed_event ty).
Definition ms41908m_reset_sm_try_arm_zoom_locked : M ms unit := try_arm MS41908M_TYPE_ZOOM.
Definition ms41908m_reset_sm_try_arm_focus_locked : M ms unit := try_arm MS41908M_TYPE_FOCUS.

Definition set_phase (p : ms41908m_rz_phase_t) : M ms unit := upd_rst (set_rz_phase p).
Definition rst_events (r : ms41908m_reset_sm_t) : Z := Z.lor (rz_pi_event r) (rz_complete_event r).

(** A wait of the state machine has a zero time-out: nothing happens meanwhile. *)
Definition poll_event (bits : Z) : M ms Z := ms41908m_port_wait_for_event (mret tt) bits 0 false false.

Definition exit_low_start : M ms unit :=
  high ← ms41908m_rz_pi_is_high_locked;
  if high : bool then set_phase MS41908M_RZ_CAPTURE_START
  else
    exit_travel ← ms41908m_rz_steps_to_clear_pi_locked;
    ty ← gets (fun s => rz_type (s_rst s));
    ret ← ms41908m_motor_start_impl ty MS41908M_RESET_FAST_PPS exit_travel;
    if negb (ret =? SYS_OK) then ms41908m_reset_sm_complete_err_locked ret
    else set_phase MS41908M_RZ_EXIT_LOW_WAIT.

Definition exit_low_wait : M ms unit :=
  r ← gets s_rst;
  high ← ms41908m_rz_pi_is_high_locked;
  if high : bool then
    ms41908m_motor_stop_impl (rz_type r);;
    ms41908m_port_clear_event (rst_events r);;
    set_phase MS41908M_RZ_CAPTURE_START
  else
    ev ← poll_event (rz_complete_event r);
    a ← ax (rz_type r);
    (if has ev (rz_complete_event r) then ms41908m_port_clear_event (rz_complete_event r) else mret tt);;
    if running a then mret tt
    else
      high ← ms41908m_rz_pi_is_high_locked;
      if high : bool then set_phase MS41908M_RZ_CAPTURE_START
      else ms41908m_reset_sm_complete_err_locked SYS_ERR_TIMEOUT.

Definition capture_start : M ms unit :=
  r ← gets s_rst;
  ms41908m_port_clear_event (rst_events r);;
  capture_travel ← ms41908m_rz_steps_to_home_edge_locked;
  ret ← ms41908m_motor_start_impl (rz_type r) MS41908M_RESET_SLOW_PPS capture_travel;
  if negb (ret =? SYS_OK) then ms41908m_reset_sm_complete_err_locked ret
  else set_phase MS41908M_RZ_CAPTURE_WAIT.

Definition capture_wait : M ms unit :=
  r ← gets s_rst;
  ev ← poll_event (rst_events r);
  a ← ax (rz_type r);
  if has ev (rz_pi_event r) then
    ms41908m_motor_stop_impl (rz_type r);;
    upd_rst (set_rz_pi_triggered true);;
    ms41908m_port_clear_event (rst_events r);;
    ms41908m_reset_sm_complete_ok_locked
  else if has ev (rz_complete_event r) then
    ms41908m_port_clear_event (rz_complete_event r);;
    if negb (running a) && negb (rz_pi_triggered r) then ms41908m_reset_sm_complete_err_locked SYS_ERR_TIMEOUT
    else mret tt
  else mret tt.

Definition ms41908m_reset_sm_step_once_locked : M ms unit :=
  r ← gets s_rst;
  let aborted (k : M ms unit) : M ms unit :=
    if rz_abort_requested r then ms41908m_reset_sm_complete_err_locked SYS_ERR_NOT_FINISHED else k in
  match rz_phase r with
  | MS41908M_RZ_IDLE => mret tt
  | MS41908M_RZ_EXIT_LOW_START => aborted exit_low_start
  | MS41908M_RZ_EXIT_LOW_WAIT => aborted exit_low_wait
  | MS41908M_RZ_CAPTURE_START => aborted capture_start
  | MS41908M_RZ_CAPTURE_WAIT => aborted capture_wait
  end.

(** [guard] is the bound 32 of the loop, counted down. *)
Fixpoint reset_sm_loop (guard : nat) : M ms unit :=
  match guard with
  | O => mret tt
  | S guard' =>
      r ← gets s_rst;
      if ph_idle (rz_phase r) then mret tt
      else ms41908m_reset_sm_step_once_locked;; reset_sm_loop guard'
  end.
Definition ms41908m_reset_sm_run_locked : M ms unit := reset_sm_loop 32.

(** ** The motor task *)

(** [now - start_tick >= pdMS_TO_TICKS(5000)], one tick being a millisecond. *)
Definition timeout_guard (ty : ms41908m_type_t) (now : Z) : M ms unit :=
  a ← ax ty;
  if running a && (MS41908M_MOTOR_TIMEOUT_MS <=? now -u ax_start_tick a) then
    ms41908m_motor_stop_impl ty;;
    upd_ax ty (fun a => set_ax_is_r_zero false (set_ax_state MS41908M_STATE_ERROR a));;
    ms41908m_port_set_event_notify (completed_event ty) SYS_ERR_TIMEOUT
  else mret tt.

(** The rest of a batch that is shorter than the one before is written to the step
    register; otherwise the register is left as it is, and [ret] as well. *)
Definition next_batch (ty : ms41908m_type_t) (ret : Z) : M ms Z :=
  a ← ax ty;
  let rc := ax_run_config a in
  if rc_load_psum rc <=? rc_unload_psum rc then
    upd_run ty (set_rc_unload_psum (rc_unload_psum rc - rc_load_psum rc));;
    mret ret
  else
    upd_run ty (fun r => set_rc_unload_psum 0 (set_rc_load_psum (rc_unload_psum rc) r));;
    '(ret, v) ← ms41908m_port_read (step_addr ty);
    if ret =? SYS_OK then
      ms41908m_port_write (step_addr ty) (u16 (Z.lor (Z.land (default 0 v) 65280) (rc_unload_psum rc)))
    else mret ret.

Definition run_completed (ty : ms41908m_type_t) : M ms unit :=
  ms41908m_motor_stop_impl ty;;
  r ← gets s_rst;
  if negb (ph_idle (rz_phase r)) && ty_eq (rz_type r) ty && (rz_complete_event r =? completed_event ty)
  then ms41908m_port_set_event (completed_event ty);; mret tt
  else ms41908m_port_set_event_notify (completed_event ty) SYS_OK.

(** One axis has finished its batch; the result is the variable [ret]. *)
Definition handle_pls (ty : ms41908m_type_t) (ret : Z) : M ms Z :=
  upd_ax ty (set_ax_pls_rcvd true);;
  a ← ax ty;
  let rc := ax_run_config a in
  if negb (rc_is_valid rc) then mret ret
  else
    pos ← int32 (if rc_direction rc =? 1 then ax_position a + rc_load_psum rc else ax_position a - rc_load_psum rc);
    upd_ax ty (set_ax_position pos);;
    if 0 <? rc_unload_psum rc then
      ret ← next_batch ty ret;
      (if negb (ret =? SYS_OK) then
         ms41908m_motor_stop_impl ty;;
         upd_ax ty (fun a => set_ax_is_r_zero false (set_ax_state MS41908M_STATE_ERROR a))
       else mret tt);;
      mret ret
    else run_completed ty;; mret ret.

Definition pls_event (ty : ms41908m_type_t) : Z :=
  match ty with MS41908M_TYPE_FOCUS => MS41908M_EVENT_PLS1 | _ => MS41908M_EVENT_PLS2 end.

Definition pls_of_axis (ty : ms41908m_type_t) (event_bits ret : Z) : M ms Z :=
  a ← ax ty;
  if has event_bits (pls_event ty) && running a then handle_pls ty ret else mret ret.

(** Phase 2: one pulse when all running axes are ready. *)
Definition fire_phase : M ms unit :=
  ok ← can_fire_vd_fz;
  if ok : bool then
    i ← gets s_instance;
    mark_batch MS41908M_TYPE_FOCUS;;
    mark_batch MS41908M_TYPE_ZOOM;;
    if running (i_focus i) || running (i_zoom i) then ms41908m_port_output_vd MS41908M_TYPE_FOCUS else mret tt
  else mret tt.

Definition PLS_EVENTS : Z := Z.lor MS41908M_EVENT_PLS1 MS41908M_EVENT_PLS2.
Definition handle_pls_events (event_bits ret : Z) : M ms unit :=
  if has event_bits PLS_EVENTS then
    ret ← pls_of_axis MS41908M_TYPE_FOCUS event_bits ret;
    pls_of_axis MS41908M_TYPE_ZOOM event_bits ret;;
    fire_phase;;
    ms41908m_port_clear_event PLS_EVENTS
  else mret tt.

Definition handle_requests (event_bits : Z) : M ms unit :=
  (if has event_bits MS41908M_EVENT_REQ_RESET_ZOOM then
     ms41908m_reset_sm_try_arm_zoom_locked;;
     ms41908m_port_clear_event MS41908M_EVENT_REQ_RESET_ZOOM
   else mret tt);;
  (if has event_bits MS41908M_EVENT_REQ_RESET_FOCUS then
     ms41908m_reset_sm_try_arm_focus_locked;;
     ms41908m_port_clear_event MS41908M_EVENT_REQ_RESET_FOCUS
   else mret tt).

Definition task_wait_mask (r : ms41908m_reset_sm_t) : Z :=
  let m := Z.lor (Z.lor PLS_EVENTS MS41908M_EVENT_REQ_RESET_ZOOM) MS41908M_EVENT_REQ_RESET_FOCUS in
  if ph_idle (rz_phase r) then m else Z.lor m (rst_events r).

(** The part of an iteration under the lock. *)
Definition motor_task_locked (event_bits : Z) : M ms unit :=
  r ← gets s_rst;
  (if ph_idle (rz_phase r) then
     now ← tick;
     timeout_guard MS41908M_TYPE_FOCUS now;;
     timeout_guard MS41908M_TYPE_ZOOM now
   else mret tt);;
  handle_requests event_bits;;
  handle_pls_events event_bits SYS_OK;;
  r ← gets s_rst;
  if ph_idle (rz_phase r) then mret tt else ms41908m_reset_sm_run_locked.

(** One iteration of the endless loop of the task: [meanwhile] happens while it waits
    for events, [during] while it waits for the lock. *)
Definition ms41908m_motor_task_handler (meanwhile during : M ms unit) : M ms unit :=
  r ← gets s_rst;
  event_bits ← ms41908m_port_wait_for_event meanwhile (task_wait_mask r) 100 false false;
  during;;
  ret ← ms41908m_port_lock;
  if negb (ret =? SYS_OK) then mret tt
  else
    motor_task_locked event_bits;;
    ms41908m_port_unlock;;
    ms41908m_dispatch_pending_app_events.

(** ** Iris *)
Definition initialized : M ms bool := gets (fun s => is_initialized (s_instance s)).
Definition upd_iris (v : ms41908m_state_t) : M ms unit := upd_inst (set_iris_state v).

Definition ms41908m_iris_config (config : option ms41908m_iris_config_t) : M ms Z :=
  ini ← initialized;
  match config with
  | None => mret SYS_ERR_INVALID_ARG
  | Some c =>
      if negb ini : bool then mret SYS_ERR_INVALID_ARG
      else
        ret ← ms41908m_port_lock;
        if negb (ret =? SYS_OK) then mret ret
        else
          ret ← ms41908m_write_iris_config c;
          i ← gets s_instance;
          (if (ret =? SYS_OK) && (st_eq (iris_state i) MS41908M_STATE_NO_CFG || st_eq (iris_state i) MS41908M_STATE_ERROR)
           then upd_iris MS41908M_STATE_STOPPED else mret tt);;
          ms41908m_port_output_vd MS41908M_TYPE_IRIS;;
          ms41908m_port_unlock;;
          mret ret
  end.

Definition iris_ready : M ms bool :=
  i ← gets s_instance;
  mret (is_initialized i && negb (st_eq (iris_state i) MS41908M_STATE_NO_CFG)).

Definition ms41908m_iris_update_target (target : Z) : M ms Z :=
  ok ← iris_ready;
  if negb ok : bool then mret SYS_ERR_INVALID_STATE
  else
    ret ← ms41908m_port_lock;
    if negb (ret =? SYS_OK) then mret ret
    else
      ret ← ms41908m_port_write MS41908M_REG_IRIS_TGT (Z.land target MS41908M_IRIS_TGT_MASK);
      ms41908m_port_unlock;;
      mret ret.

Definition ms41908m_iris_read_adc : M ms Z :=
  ini ← initialized;
  if negb ini : bool then mret 0
  else
    ret ← ms41908m_port_lock;
    if negb (ret =? SYS_OK) then mret 0
    else
      '(_, v) ← ms41908m_port_read MS41908M_REG_IRSAD;
      ms41908m_port_unlock;;
      mret (Z.land (default 0 v) 1023).

Definition ms41908m_iris_get_state : M ms ms41908m_state_t := gets (fun s => iris_state (s_instance s)).

Definition ms41908m_iris_run : M ms Z :=
  ok ← iris_ready;
  if negb ok : bool then mret SYS_ERR_INVALID_STATE
  else
    st ← ms41908m_iris_get_state;
    if st_eq st MS41908M_STATE_RUNNING then mret SYS_OK
    else
      ret ← ms41908m_port_start_timer;
      (if ret =? SYS_OK then upd_iris MS41908M_STATE_RUNNING;; ms41908m_port_output_vd MS41908M_TYPE_IRIS else mret tt);;
      mret ret.

Definition ms41908m_iris_stop : M ms Z :=
  i ← gets s_instance;
  if negb (is_initialized i) then mret SYS_ERR_INVALID_STATE
  else if st_eq (iris_state i) MS41908M_STATE_NO_CFG then mret SYS_OK
  else
    ms41908m_port_stop_timer;;
    upd_iris MS41908M_STATE_STOPPED;;
    mret SYS_OK.

(** ** Motor configuration, state and position *)
Definition settle (ty : ms41908m_type_t) : M ms unit :=
  a ← ax ty;
  if st_eq (ax_state a) MS41908M_STATE_NO_CFG || st_eq (ax_state a) MS41908M_STATE_ERROR
  then upd_ax ty (set_ax_state MS41908M_STATE_STOPPED) else mret tt.

Definition ms41908m_motor_config (config : option ms41908m_motor_config_t) : M ms Z :=
  ini ← initialized;
  match config with
  | None => mret SYS_ERR_INVALID_ARG
  | Some c =>
      if negb ini : bool then mret SYS_ERR_INVALID_ARG
      else
        ret ← ms41908m_port_lock;
        if negb (ret =? SYS_OK) then mret ret
        else
          act ← ms41908m_reset_sm_active;
          if act : bool then ms41908m_port_unlock;; mret SYS_ERR_BUSY
          else
            ret ← ms41908m_write_motor_config c;
            (if ret =? SYS_OK then settle MS41908M_TYPE_ZOOM;; settle MS41908M_TYPE_FOCUS else mret tt);;
            ms41908m_port_unlock;;
            mret ret
  end.

Definition get_state (ty : ms41908m_type_t) : M ms ms41908m_state_t := a ← ax ty; mret (ax_state a).
Definition ms41908m_get_zoom_state : M ms ms41908m_state_t := get_state MS41908M_TYPE_ZOOM.
Definition ms41908m_get_focus_state : M ms ms41908m_state_t := get_state MS41908M_TYPE_FOCUS.
Definition get_position (ty : ms41908m_type_t) : M ms Z := a ← ax ty; mret (ax_position a).
Definition ms41908m_get_zoom_position : M ms Z := get_position MS41908M_TYPE_ZOOM.
Definition ms41908m_get_focus_position : M ms Z := get_position MS41908M_TYPE_FOCUS.

(** ** Moves *)
Definition axis_busy (ty : ms41908m_type_t) : M ms bool :=
  a ← ax ty;
  act ← ms41908m_reset_sm_active;
  mret (running a || st_eq (ax_state a) MS41908M_STATE_RESET_ZERO || act).

Definition no_cfg (ty : ms41908m_type_t) : M ms bool :=
  a ← ax ty; mret (st_eq (ax_state a) MS41908M_STATE_NO_CFG).

Definition axis_run (ty : ms41908m_type_t) (pps micro_steps : Z) : M ms Z :=
  ini ← initialized;
  if negb ini : bool then mret SYS_ERR_INVALID_STATE
  else if micro_steps =? 0 then mret SYS_OK
  else
    nc ← no_cfg ty;
    if nc : bool then mret SYS_ERR_INVALID_STATE
    else
      ret ← ms41908m_port_lock;
      if negb (ret =? SYS_OK) then mret ret
      else
        busy ← axis_busy ty;
        if busy : bool then ms41908m_port_unlock;; mret SYS_ERR_BUSY
        else
          ret ← ms41908m_motor_start_impl ty pps micro_steps;
          ms41908m_port_unlock;;
          mret ret.
Definition ms41908m_zoom_run (pps micro_steps : Z) : M ms Z := axis_run MS41908M_TYPE_ZOOM pps micro_steps.
Definition ms41908m_focus_run (pps micro_steps : Z) : M ms Z := axis_run MS41908M_TYPE_FOCUS pps micro_steps.

Definition axis_run_to (ty : ms41908m_type_t) (pps position : Z) : M ms Z :=
  ini ← initialized;
  if negb ini : bool then mret SYS_ERR_INVALID_STATE
  else
    a ← ax ty;
    if st_eq (ax_state a) MS41908M_STATE_NO_CFG then mret SYS_ERR_INVALID_STATE
    else if negb (ax_is_r_zero a) then mret SYS_ERR_INVALID_STATE
    else
      ret ← ms41908m_port_lock;
      if negb (ret =? SYS_OK) then mret ret
      else
        busy ← axis_busy ty;
        if busy : bool then ms41908m_port_unlock;; mret SYS_ERR_BUSY
        else
          a ← ax ty;
          delta ← int32 (position - ax_position a);
          if delta =? 0 then ms41908m_port_unlock;; mret SYS_OK
          else
            ret ← ms41908m_motor_start_impl ty pps delta;
            ms41908m_port_unlock;;
            mret ret.
Definition ms41908m_zoom_run_to_position (pps position : Z) : M ms Z := axis_run_to MS41908M_TYPE_ZOOM pps position.
Definition ms41908m_focus_run_to_position (pps position : Z) : M ms Z := axis_run_to MS41908M_TYPE_FOCUS pps position.

(** ** Reset to zero *)
Definition other_axis (ty : ms41908m_type_t) : ms41908m_type_t :=
  match ty with MS41908M_TYPE_FOCUS => MS41908M_TYPE_ZOOM | _ => MS41908M_TYPE_FOCUS end.
Definition req_reset_event (ty : ms41908m_type_t) : Z :=
  match ty with MS41908M_TYPE_FOCUS => MS41908M_EVENT_REQ_RESET_FOCUS | _ => MS41908M_EVENT_REQ_RESET_ZOOM end.

Definition axis_reset_zero (ty : ms41908m_type_t) : M ms Z :=
  ini ← initialized;
  if negb ini : bool then mret SYS_ERR_INVALID_STATE
  else
    nc ← no_cfg ty;
    if nc : bool then mret SYS_ERR_INVALID_STATE
    else
      ret ← ms41908m_port_lock;
      if negb (ret =? SYS_OK) then mret ret
      else
        o ← ax (other_axis ty);
        busy ← axis_busy ty;
        if running o || busy then ms41908m_port_unlock;; mret SYS_ERR_BUSY
        else
          ms41908m_port_clear_event (reset_done_event ty);;
          upd_ax ty (fun a => set_ax_state MS41908M_STATE_RESET_ZERO (set_ax_is_r_zero false a));;
          ms41908m_port_unlock;;
          ms41908m_port_set_event (req_reset_event ty);;
          mret SYS_OK.
Definition ms41908m_zoom_reset_zero : M ms Z := axis_reset_zero MS41908M_TYPE_ZOOM.
Definition ms41908m_focus_reset_zero : M ms Z := axis_reset_zero MS41908M_TYPE_FOCUS.

Definition last_result (ty : ms41908m_type_t) : M ms Z :=
  gets (match ty with MS41908M_TYPE_FOCUS => s_focus_rst_last_result | _ => s_zoom_rst_last_result end).
Definition ms41908m_zoom_get_last_reset_result : M ms Z := last_result MS41908M_TYPE_ZOOM.
Definition ms41908m_focus_get_last_reset_result : M ms Z := last_result MS41908M_TYPE_FOCUS.

Definition axis_wait_reset (ty : ms41908m_type_t) (meanwhile : M ms unit) (timeout_ms : Z) : M ms Z :=
  ini ← initialized;
  if negb ini : bool then mret SYS_ERR_INVALID_STATE
  else
    ev ← ms41908m_port_wait_for_event meanwhile (reset_done_event ty) timeout_ms true false;
    if has ev (reset_done_event ty) then last_result ty else mret SYS_ERR_TIMEOUT.
Definition ms41908m_zoom_wait_reset_done (meanwhile : M ms unit) (timeout_ms : Z) : M ms Z :=
  axis_wait_reset MS41908M_TYPE_ZOOM meanwhile timeout_ms.
Definition ms41908m_focus_wait_reset_done (meanwhile : M ms unit) (timeout_ms : Z) : M ms Z :=
  axis_wait_reset MS41908M_TYPE_FOCUS meanwhile timeout_ms.

Definition axis_wait_run (ty : ms41908m_type_t) (meanwhile : M ms unit) (timeout_ms : Z) : M ms Z :=
  ini ← initialized;
  if negb ini : bool then mret SYS_ERR_INVALID_STATE
  else
    a ← ax ty;
    if negb (running a) then mret SYS_OK
    else
      ev ← ms41908m_port_wait_for_event meanwhile (completed_event ty) timeout_ms true false;
      mret (if has ev (completed_event ty) then SYS_OK else SYS_ERR_TIMEOUT).
Definition ms41908m_zoom_wait_for_completion (meanwhile : M ms unit) (timeout_ms : Z) : M ms Z :=
  axis_wait_run MS41908M_TYPE_ZOOM meanwhile timeout_ms.
Definition ms41908m_focus_wait_for_completion (meanwhile : M ms unit) (timeout_ms : Z) : M ms Z :=
  axis_wait_run MS41908M_TYPE_FOCUS meanwhile timeout_ms.

(** ** Limits, sensors, stop *)
Definition axis_set_limit (ty : ms41908m_type_t) (position_min position_max : Z) : M ms Z :=
  ini ← initialized;
  if negb ini : bool then mret SYS_ERR_INVALID_STATE
  else if position_max <=? position_min then mret SYS_ERR_INVALID_ARG
  else if (0 <? position_min) || (position_max <? 0) then mret SYS_ERR_INVALID_ARG
  else upd_ax ty (fun a => set_ax_pos_max position_max (set_ax_pos_min position_min a));; mret SYS_OK.
Definition ms41908m_zoom_set_position_limit (lo hi : Z) : M ms Z := axis_set_limit MS41908M_TYPE_ZOOM lo hi.
Definition ms41908m_focus_set_position_limit (lo hi : Z) : M ms Z := axis_set_limit MS41908M_TYPE_FOCUS lo hi.

Definition is_reset_zero (ty : ms41908m_type_t) : M ms Z := a ← ax ty; mret (b2z (ax_is_r_zero a)).
Definition ms41908m_zoom_is_reset_zero : M ms Z := is_reset_zero MS41908M_TYPE_ZOOM.
Definition ms41908m_focus_is_reset_zero : M ms Z := is_reset_zero MS41908M_TYPE_FOCUS.

Definition read_pi (ty : ms41908m_type_t) : M ms Z :=
  ini ← initialized;
  if negb ini : bool then mret (-1)
  else
    v ← ms41908m_port_read_irq_status (pi_irq_of ty);
    mret (if negb (v =? 0) then 1 else 0).
Definition ms41908m_read_pi_zoom : M ms Z := read_pi MS41908M_TYPE_ZOOM.
Definition ms41908m_read_pi_focus : M ms Z := read_pi MS41908M_TYPE_FOCUS.

Definition axis_stop (ty : ms41908m_type_t) : M ms Z :=
  ini ← initialized;
  if negb ini : bool then mret SYS_ERR_INVALID_STATE
  else
    ret ← ms41908m_port_lock;
    if negb (ret =? SYS_OK) then mret ret
    else
      a ← ax ty;
      r ← gets s_rst;
      (if negb (ph_idle (rz_phase r)) && ty_eq (rz_type r) ty then upd_rst (set_rz_abort_requested true) else mret tt);;
      ret ← ms41908m_motor_stop_impl ty;
      (if (ret =? SYS_OK) && running a then upd_ax ty (set_ax_is_r_zero false) else mret tt);;
      ms41908m_port_unlock;;
      mret ret.
Definition ms41908m_zoom_stop : M ms Z := axis_stop MS41908M_TYPE_ZOOM.
Definition ms41908m_focus_stop : M ms Z := axis_stop MS41908M_TYPE_FOCUS.

(** ** Both axes at once *)
Definition sync_psum (pps n : Z) : Z :=
  let psum := u16 (MS41908M_CALC_PSUM_FROM_INTCT (u16 (MS41908M_CALC_INTCT_FROM_PPS pps))) in
  let psum := if n <? psum then u16 n else psum in
  let psum := if 255 <? psum then 255 else psum in
  if psum <? 1 then 1 else psum.
Definition sync_intct (psum : Z) : Z :=
  let intct := u16 (MS41908M_CALC_INTCT_FROM_PSUM psum) in
  let intct := if 65535 <? intct then 65535 else intct in
  if intct <? 1 then 1 else intct.

(** How the block that prepares one axis leaves the function. *)
Inductive sync_out : Type := SyncDone | SyncArg | SyncErr (ret : Z).

Definition sync_axis (ty : ms41908m_type_t) (pps micro_steps : Z) : M ms sync_out :=
  if micro_steps =? 0 then mret SyncDone
  else if (pps <? MS41908M_RAW_PPS_MIN) || (MS41908M_RAW_PPS_MAX <? pps) then mret SyncArg
  else
    n ← MS41908M_ABS micro_steps;
    if (n <? MS41908M_RAW_PSUM_MIN) || (MS41908M_RAW_PSUM_MAX <? n) then mret SyncArg
    else
      let psum := sync_psum pps n in
      let intct := sync_intct psum in
      let direction := if 0 <=? micro_steps then 1 else 0 in
      upd_run ty (fun _ => mkRun true direction intct (n - psum) psum);;
      ret ← ms41908m_port_write (pps_addr ty) (Z.land intct 65535);
      if negb (ret =? SYS_OK) then mret (SyncErr ret)
      else
        '(ret, v) ← ms41908m_port_read (step_addr ty);
        if negb (ret =? SYS_OK) then mret (SyncErr ret)
        else
          ret ← ms41908m_port_write (step_addr ty) (step_value (default 0 v) psum direction);
          if negb (ret =? SYS_OK) then mret (SyncErr ret)
          else
            ms41908m_port_clear_event (completed_event ty);;
            now ← tick;
            upd_ax ty (fun a => set_ax_state MS41908M_STATE_RUNNING (set_ax_start_tick now a));;
            mret SyncDone.

Definition stopped_unless_no_cfg (a : axis_t) : axis_t :=
  set_ax_state (if st_eq (ax_state a) MS41908M_STATE_NO_CFG then MS41908M_STATE_NO_CFG else MS41908M_STATE_STOPPED) a.

(** The label [sync_err]. *)
Definition sync_err (ret : Z) : M ms Z :=
  upd_run MS41908M_TYPE_ZOOM (set_rc_is_valid false);;
  upd_run MS41908M_TYPE_FOCUS (set_rc_is_valid false);;
  upd_ax MS41908M_TYPE_ZOOM stopped_unless_no_cfg;;
  upd_ax MS41908M_TYPE_FOCUS stopped_unless_no_cfg;;
  ms41908m_port_unlock;;
  mret ret.

Definition sync_go : M ms Z :=
  i ← gets s_instance;
  if negb (running (i_zoom i)) && negb (running (i_focus i)) then ms41908m_port_unlock;; mret SYS_OK
  else
    mark_batch MS41908M_TYPE_ZOOM;;
    mark_batch MS41908M_TYPE_FOCUS;;
    ms41908m_port_output_vd MS41908M_TYPE_FOCUS;;
    ms41908m_port_unlock;;
    mret SYS_OK.

Definition ms41908m_zf_sync_run (zm_pps zm_micro_steps fs_pps fs_micro_steps : Z) : M ms Z :=
  ini ← initialized;
  if negb ini : bool then mret SYS_ERR_INVALID_STATE
  else
    ncz ← no_cfg MS41908M_TYPE_ZOOM;
    ncf ← no_cfg MS41908M_TYPE_FOCUS;
    if ncz || ncf then mret SYS_ERR_INVALID_STATE
    else
      ret ← ms41908m_port_lock;
      if negb (ret =? SYS_OK) then mret ret
      else
        bz ← axis_busy MS41908M_TYPE_ZOOM;
        bf ← axis_busy MS41908M_TYPE_FOCUS;
        if bz || bf then ms41908m_port_unlock;; mret SYS_ERR_BUSY
        else
          z ← sync_axis MS41908M_TYPE_ZOOM zm_pps zm_micro_steps;
          match z with
          | SyncArg => ms41908m_port_unlock;; mret SYS_ERR_INVALID_ARG
          | SyncErr ret => sync_err ret
          | SyncDone =>
              f ← sync_axis MS41908M_TYPE_FOCUS fs_pps fs_micro_steps;
              match f with
              | SyncArg =>
                  (if negb (zm_micro_steps =? 0) then
                     upd_run MS41908M_TYPE_ZOOM (set_rc_is_valid false);;
                     upd_ax MS41908M_TYPE_ZOOM (set_ax_state MS41908M_STATE_STOPPED)
                   else mret tt);;
                  ms41908m_port_unlock;;
                  mret SYS_ERR_INVALID_ARG
              | SyncErr ret => sync_err ret
              | SyncDone => sync_go
              end
          end.

Definition ms41908m_zf_sync_wait_for_completion (meanwhile : M ms unit) (timeout_ms : Z) : M ms Z :=
  let wait_mask := Z.lor MS41908M_EVENT_FOCUS_COMPLETED MS41908M_EVENT_ZOOM_COMPLETED in
  i ← gets s_instance;
  if negb (is_initialized i) then mret SYS_ERR_INVALID_STATE
  else if negb (running (i_zoom i)) && negb (running (i_focus i)) then mret SYS_OK
  else
    ev ← ms41908m_port_wait_for_event meanwhile wait_mask timeout_ms true true;
    mret (if Z.land ev wait_mask =? wait_mask then SYS_OK else SYS_ERR_TIMEOUT).

(** ** Initialisation *)
Definition ms41908m_init : M ms Z :=
  ini ← initialized;
  if ini : bool then mret SYS_ERR_INVALID_STATE
  else
    modify (set_s_instance instance_zero);;
    modify (set_s_rst rst_zero);;
    modify (set_s_zoom_rst_last_result SYS_ERR_INVALID_STATE);;
    modify (set_s_focus_rst_last_result SYS_ERR_INVALID_STATE);;
    ret ← ms41908m_port_init;
    if negb (ret =? SYS_OK) then mret ret
    else
      t ← ms41908m_port_create_task;
      modify (set_s_motor_task t);;
      if negb t : bool then ms41908m_port_deinit;; mret SYS_ERR_NO_MEM
      else
        t ← ms41908m_port_create_timer;
        modify (set_s_iris_timer t);;
        if negb t : bool then
          modify (set_s_motor_task false);;
          ms41908m_port_deinit;;
          mret SYS_ERR_NO_MEM
        else
          upd_inst (set_is_initialized true);;
          mret SYS_OK.

Definition ms41908m_deinit : M ms unit :=
  ini ← initialized;
  if negb ini : bool then mret tt
  else
    ms41908m_iris_stop;;
    ms41908m_focus_stop;;
    ms41908m_zoom_stop;;
    t ← gets s_iris_timer;
    (if t : bool then
       ms41908m_port_stop_timer;;
       ms41908m_port_delete_timer;;
       modify (set_s_iris_timer false)
     else mret tt);;
    modify (set_s_motor_task false);;
    ms41908m_port_deinit;;
    modify (set_s_app_event_cb None);;
    modify (set_s_app_notify []);;
    modify (set_s_instance instance_zero);;
    modify (set_s_rst rst_zero).

Definition ms41908m_set_event_callback (callback : option Z) : M ms unit := modify (set_s_app_event_cb callback).
End Driver.
