(* ===== verification/Ms41908mPort.v ===== *)
(** What the documentation says of a lens driver chip, its bus and the kernel in
    working order, with a bench on which the driver can be run; and the port layer on such
    hardware: what each access changes, and the two register values the driver computes. *)
From S2P Require Import Prelude Ms41908mReg Ms41908m.

(** The micro steps a pulse on VD_FZ starts, by the value of the step register: PSUM
    in bits 7..0, the direction in bit 8, the output enabled by bit 10. *)
Definition commanded (reg : Z) : Z :=
  if Z.testbit reg 10 then if Z.testbit reg 8 then - Z.land reg 255 else Z.land reg 255 else 0.

Definition chip_pin (p : gpio_t) : Prop := p = SPI1_CS \/ p = VD_IS \/ p = VD_FZ.

(** [hw_reg] are the registers, [hw_moved] the micro steps each of the two motor
    channels was made to take, [hw_cs] the select line.  The status register of the iris (0x0C) is not
    among the registers that read back what was written. *)
Class LensHwLaws (D : Type) `{LensHw D} : Type := {
  hw_ok : D -> Prop;
  hw_reg : D -> Z -> Z;
  hw_moved : D -> ms41908m_type_t -> Z;
  hw_cs : D -> bool;
  reg_half d a : hw_ok d -> 0 <= hw_reg d a < 65536;
  transmit_ok d a lo hi : hw_ok d -> hw_cs d = true -> 0 <= a < 64 -> is_byte lo -> is_byte hi ->
    exists d', HAL_SPI_Transmit [a; lo; hi] d = (true, d') /\ hw_ok d' /\ hw_cs d' = true /\
      (forall x, hw_reg d' x = if x =? a then lo + 256 * hi else hw_reg d x) /\
      (forall ty, hw_moved d' ty = hw_moved d ty);
  receive_ok d a : hw_ok d -> hw_cs d = true -> 0 <= a < 64 -> a <> MS41908M_REG_IRSAD ->
    exists d' x lo hi, HAL_SPI_TransmitReceive [Z.lor a 64; 0; 0] d = (true, [x; lo; hi], d') /\
      is_byte lo /\ is_byte hi /\ lo + 256 * hi = hw_reg d a /\
      hw_ok d' /\ hw_cs d' = true /\ (forall x, hw_reg d' x = hw_reg d x) /\
      (forall ty, hw_moved d' ty = hw_moved d ty);
  pin_ok d p b : hw_ok d -> chip_pin p ->
    hw_ok (HAL_GPIO_WritePin p b d) /\
    hw_cs (HAL_GPIO_WritePin p b d) = (if bool_decide (p = SPI1_CS) then b else hw_cs d) /\
    (forall x, hw_reg (HAL_GPIO_WritePin p b d) x = hw_reg d x) /\
    (forall ty, hw_moved (HAL_GPIO_WritePin p b d) ty =
      hw_moved d ty + if bool_decide (p = VD_FZ) && b then commanded (hw_reg d (step_addr ty)) else 0);
  take_ok d : hw_ok d -> exists d', xSemaphoreTake d = (true, d') /\ hw_ok d' /\
      (forall x, hw_reg d' x = hw_reg d x) /\ (forall ty, hw_moved d' ty = hw_moved d ty);
  pi_irq_ok d b : hw_ok d -> hw_ok (gpio_pi_irq b d) /\
      (forall x, hw_reg (gpio_pi_irq b d) x = hw_reg d x) /\
      (forall ty, hw_moved (gpio_pi_irq b d) ty = hw_moved d ty)
}.

(** ** A bench

    Registers as a function, the levels of the inputs, scripts of the transfers,
    lock attempts and creations that fail, the time, and the distance of each
    motor. *)
Record bench : Type := mkBench {
  b_regs : Z -> Z;
  b_pins : gpio_t -> bool;
  b_fails : list bool;
  b_tick : Z;
  b_focus : Z;
  b_zoom : Z
}.
Definition b_reg (d : bench) (a : Z) : Z := u16 (b_regs d a).
Definition b_pop (d : bench) : bool * bench :=
  (negb (default false (head (b_fails d))),
   mkBench (b_regs d) (b_pins d) (tail (b_fails d)) (b_tick d) (b_focus d) (b_zoom d)).
Definition b_set_pin (p : gpio_t) (b : bool) (d : bench) : bench :=
  mkBench (b_regs d) (fun q => if bool_decide (q = p) then b else b_pins d q) (b_fails d) (b_tick d) (b_focus d) (b_zoom d).
Definition b_edge (d : bench) : bench :=
  mkBench (b_regs d) (b_pins d) (b_fails d) (b_tick d)
    (b_focus d + commanded (b_reg d MS41908M_REG_FOCUS_STEP)) (b_zoom d + commanded (b_reg d MS41908M_REG_ZOOM_STEP)).
Definition b_write (tx : list Z) (d : bench) : bench :=
  let a := nth 0 tx 0 in
  let v := u8 (nth 1 tx 0) + 256 * u8 (nth 2 tx 0) in
  if b_pins d SPI1_CS then
    mkBench (fun x => if x =? a then v else b_regs d x) (b_pins d) (b_fails d) (b_tick d) (b_focus d) (b_zoom d)
  else d.
Definition b_at (t : Z) (d : bench) : bench :=
  mkBench (b_regs d) (b_pins d) (b_fails d) t (b_focus d) (b_zoom d).

#[export] Instance bench_hw : LensHw bench := {
  HAL_SPI_Transmit tx d := let '(ok, d') := b_pop d in (ok, if ok then b_write tx d' else d');
  HAL_SPI_TransmitReceive tx d :=
    let v := b_reg d (Z.land (nth 0 tx 0) 63) in
    let '(ok, d') := b_pop d in (ok, [0; Z.land v 255; Z.land (Z.shiftr v 8) 255], d');
  HAL_GPIO_WritePin p b d := b_set_pin p b (if bool_decide (p = VD_FZ) && b then b_edge d else d);
  HAL_GPIO_ReadPin p d := b_pins d p;
  gpio_pi_irq _ d := d;
  osDelay n d := b_at (u32 (b_tick d + n)) d;
  osKernelGetTickCount d := b_tick d;
  os_create _ d := b_pop d;
  xSemaphoreTake d := b_pop d;
  xTimer _ d := b_pop d
}.

(** Fresh out of power-on; both limit inputs are high. *)
Definition bench0 : bench :=
  mkBench (fun _ => 0) (fun p => bool_decide (p = Z_RST_Pin \/ p = F_RST_Pin)) [] 0 0 0.
Definition ms0 {D} (d : D) : ms_state D :=
  mkMs instance_zero rst_zero 0 0 false false None [] None None d [].

(** ** The port layer *)
(** ** Bits of the step register *)
Lemma byte_land z : is_byte (Z.land z 255).
Proof. unfold is_byte. change 255 with (Z.ones 8). rewrite Z.land_ones by lia. lia. Qed.

Lemma land_address a : 0 <= a < 64 -> Z.land a 63 = a.
Proof. intros. change 63 with (Z.ones 6). rewrite Z.land_ones by lia. change (2 ^ 6) with 64. apply Z.mod_small. lia. Qed.

Lemma split_half v : 0 <= v < 65536 -> Z.land v 255 + 256 * Z.land (Z.shiftr v 8) 255 = v.
Proof.
  intros. change 255 with (Z.ones 8). rewrite !Z.land_ones, Z.shiftr_div_pow2 by lia.
  change (2 ^ 8) with 256. lia.
Qed.

Lemma testbit_byte_high x k : 0 <= x < 256 -> 8 <= k -> Z.testbit x k = false.
Proof.
  intros Hx Hk. rewrite Z.testbit_false by lia. rewrite Z.div_small; [done|]. split; [lia|].
  eapply Z.lt_le_trans; [apply Hx|]. change 256 with (2 ^ 8). apply Z.pow_le_mono_r; lia.
Qed.

Lemma join_half lo hi : is_byte lo -> is_byte hi -> u16 (Z.lor lo (Z.shiftl hi 8)) = lo + 256 * hi.
Proof.
  unfold is_byte. intros Hl Hh.
  assert (E0 : Z.land lo (Z.shiftl hi 8) = 0).
  { apply Z.bits_inj'. intros k Hk. rewrite Z.land_spec, Z.bits_0. destruct (Z.ltb_spec k 8).
    - rewrite Z.shiftl_spec_low by lia. apply andb_false_r.
    - by rewrite testbit_byte_high by lia. }
  rewrite <- Z.lxor_lor, <- Z.add_nocarry_lxor, Z.shiftl_mul_pow2 by (done || lia).
  unfold u16. change (2 ^ 8) with 256. rewrite Z.mod_small; lia.
Qed.

(** A step register that moves [load] micro steps in direction [dir] on each pulse. *)
Record step_loaded (reg dir load : Z) : Prop := {
  sl_range : 0 <= reg < 65536;
  sl_enable : Z.testbit reg 10 = true;
  sl_dir : Z.testbit reg 8 = (dir =? 0);
  sl_psum : Z.land reg 255 = load
}.

Definition sign (dir : Z) : Z := if dir =? 0 then -1 else 1.

Lemma commanded_loaded reg dir load : step_loaded reg dir load -> commanded reg = sign dir * load.
Proof.
  intros [_ He Hd Hp]. unfold commanded, sign. rewrite He, Hd, Hp. destruct (dir =? 0); lia.
Qed.

Lemma commanded_zero reg : Z.land reg 255 = 0 -> commanded reg = 0.
Proof. intros E. unfold commanded. rewrite E. by destruct (Z.testbit reg 10), (Z.testbit reg 8). Qed.

Lemma half_bits z : 0 <= z -> (forall k, 16 <= k -> Z.testbit z k = false) -> 0 <= z < 65536.
Proof.
  intros Hz Hb. split; [done|]. destruct (Z.eq_dec z 0) as [->|]; [lia|].
  change 65536 with (2 ^ 16). apply Z.log2_lt_pow2; [lia|].
  destruct (Z.le_gt_cases 16 (Z.log2 z)) as [Hl|]; [|done].
  specialize (Hb _ Hl). rewrite Z.bit_log2 in Hb by lia. done.
Qed.

Lemma testbit_const_high c k : 0 <= c < 65536 -> 16 <= k -> Z.testbit c k = false.
Proof.
  intros Hc Hk. rewrite Z.testbit_false by lia. rewrite Z.div_small; [done|]. split; [lia|].
  eapply Z.lt_le_trans; [apply Hc|]. change 65536 with (2 ^ 16). apply Z.pow_le_mono_r; lia.
Qed.

Lemma land_255_bits x y : 0 <= y < 256 -> (forall k, 0 <= k < 8 -> Z.testbit x k = Z.testbit y k) -> Z.land x 255 = y.
Proof.
  intros Hy Hx. change 255 with (Z.ones 8). apply Z.bits_inj'. intros k Hk.
  rewrite Z.land_spec. destruct (Z.ltb_spec k 8).
  - rewrite Z.ones_spec_low, andb_true_r by lia. apply Hx. lia.
  - rewrite Z.ones_spec_high, andb_false_r by lia. symmetry. by apply testbit_byte_high.
Qed.

(** The masks the driver uses have no bit among the eight of PSUM. *)
Definition step_masks : list Z :=
  [MS41908M_STEP_MICRO_MASK; MS41908M_STEP_LED_BIT; MS41908M_STEP_ENDIS_BIT; MS41908M_STEP_CCWCW_BIT; 65280].
Lemma step_mask_low c k : In c step_masks -> 0 <= k < 8 -> Z.testbit c k = false.
Proof.
  intros Hc Hk. assert (k = 0 \/ k = 1 \/ k = 2 \/ k = 3 \/ k = 4 \/ k = 5 \/ k = 6 \/ k = 7) as Hd by lia.
  cbn in Hc. intuition (subst; reflexivity).
Qed.

Lemma step_value_loaded old psum dir :
  0 <= old < 65536 -> 0 <= psum < 256 -> step_loaded (step_value old psum dir) dir psum.
Proof.
  intros Ho Hp. unfold step_value.
  assert (Ep : Z.land psum 255 = psum) by (change 255 with (Z.ones 8); rewrite Z.land_ones by lia; apply Z.mod_small; lia).
  rewrite Ep. set (base := Z.lor (Z.lor (Z.land old _) _) psum).
  assert (Hb : forall k, Z.testbit base k = (Z.testbit old k && (Z.testbit MS41908M_STEP_MICRO_MASK k || Z.testbit MS41908M_STEP_LED_BIT k))
                || Z.testbit MS41908M_STEP_ENDIS_BIT k || Z.testbit psum k).
  { intros k. unfold base. by rewrite !Z.lor_spec, Z.land_spec, Z.lor_spec. }
  assert (Hm : forall k, 16 <= k -> Z.testbit base k = false).
  { intros k Hk. rewrite Hb, (testbit_byte_high psum) by lia.
    rewrite !(testbit_const_high _ k) by (unfold MS41908M_STEP_MICRO_MASK, MS41908M_STEP_LED_BIT, MS41908M_STEP_ENDIS_BIT; lia).
    by rewrite andb_false_r. }
  assert (Hl : forall k, 0 <= k < 8 -> Z.testbit base k = Z.testbit psum k).
  { intros k Hk. rewrite Hb, (step_mask_low MS41908M_STEP_MICRO_MASK k), (step_mask_low MS41908M_STEP_LED_BIT k),
      (step_mask_low MS41908M_STEP_ENDIS_BIT k) by first [lia | cbn; tauto]. by rewrite andb_false_r. }
  assert (H0 : 0 <= base).
  { unfold base. rewrite !Z.lor_nonneg, Z.land_nonneg. unfold MS41908M_STEP_ENDIS_BIT. lia. }
  assert (E10 : Z.testbit base 10 = true).
  { rewrite Hb. change (Z.testbit MS41908M_STEP_ENDIS_BIT 10) with true. by rewrite orb_true_r. }
  assert (E8 : Z.testbit base 8 = false).
  { rewrite Hb, (testbit_byte_high psum 8) by lia. change (Z.testbit MS41908M_STEP_ENDIS_BIT 8) with false.
    change (Z.testbit MS41908M_STEP_MICRO_MASK 8) with false. change (Z.testbit MS41908M_STEP_LED_BIT 8) with false.
    by rewrite andb_false_r. }
  destruct (dir =? 0) eqn:Ed.
  - constructor; rewrite ?Ed, ?Z.lor_spec, ?E10, ?E8; try done.
    + apply half_bits; [rewrite Z.lor_nonneg; unfold MS41908M_STEP_CCWCW_BIT; lia|]. intros k Hk.
      rewrite Z.lor_spec, Hm, (testbit_const_high _ k) by (unfold MS41908M_STEP_CCWCW_BIT; lia). done.
    + apply land_255_bits; [lia|]. intros k Hk.
      rewrite Z.lor_spec, Hl, (step_mask_low MS41908M_STEP_CCWCW_BIT) by first [lia | cbn; tauto]. apply orb_false_r.
  - constructor; rewrite ?Ed; try done; [by apply half_bits|by apply land_255_bits].
Qed.

Lemma restep_loaded old dir load psum :
  step_loaded old dir load -> 0 <= psum < 256 ->
  step_loaded (u16 (Z.lor (Z.land old 65280) psum)) dir psum.
Proof.
  intros [Hr He Hd _] Hp. set (v := Z.lor _ psum).
  assert (Hb : forall k, Z.testbit v k = (Z.testbit old k && Z.testbit 65280 k) || Z.testbit psum k).
  { intros k. unfold v. by rewrite Z.lor_spec, Z.land_spec. }
  assert (Hv : 0 <= v < 65536).
  { apply half_bits; [unfold v; rewrite Z.lor_nonneg, Z.land_nonneg; lia|]. intros k Hk.
    rewrite Hb, (testbit_byte_high psum), (testbit_const_high 65280 k) by lia. by rewrite andb_false_r. }
  unfold u16. rewrite Z.mod_small by lia. constructor; [done| | |].
  - rewrite Hb, He. by rewrite (testbit_byte_high psum 10) by lia.
  - rewrite Hb, Hd, (testbit_byte_high psum 8) by lia. change (Z.testbit 65280 8) with true. by rewrite andb_true_r, orb_false_r.
  - apply land_255_bits; [lia|]. intros k Hk. rewrite Hb, (step_mask_low 65280) by first [lia | cbn; tauto]. by rewrite andb_false_r.
Qed.

Lemma unstep_zero old : 0 <= old < 65536 -> 0 <= Z.land old 65280 < 65536 /\ Z.land (Z.land old 65280) 255 = 0.
Proof.
  intros Ho. split.
  - apply half_bits; [rewrite Z.land_nonneg; lia|]. intros k Hk.
    by rewrite Z.land_spec, (testbit_const_high 65280 k), andb_false_r by lia.
  - rewrite <- Z.land_assoc. apply Z.land_0_r.
Qed.

(** ** Accesses *)
Section Port.
Context `{LensHwLaws D}.
Notation ms := (ms_state D).

(** [d'] has the registers and the distances of [d]. *)
Definition hw_same (d d' : D) : Prop :=
  hw_ok d' /\ (forall x, hw_reg d' x = hw_reg d x) /\ (forall ty, hw_moved d' ty = hw_moved d ty).

Lemma hw_same_refl d : hw_ok d -> hw_same d d.
Proof. by intros. Qed.
Lemma hw_same_trans d1 d2 d3 : hw_same d1 d2 -> hw_same d2 d3 -> hw_same d1 d3.
Proof. intros (? & R1 & M1) (? & R2 & M2). split_and!; [done| |]; intros; by rewrite ?R2, ?M2. Qed.

Definition hw_written (a v : Z) (d d' : D) : Prop :=
  hw_ok d' /\ (forall x, hw_reg d' x = if x =? a then v else hw_reg d x) /\ (forall ty, hw_moved d' ty = hw_moved d ty).

Lemma cs_same d b : hw_ok d -> hw_same d (HAL_GPIO_WritePin SPI1_CS b d) /\ hw_cs (HAL_GPIO_WritePin SPI1_CS b d) = b.
Proof.
  intros Hd. destruct (pin_ok d SPI1_CS b Hd) as (Ho & Hc & Hr & Hm); [by left|].
  split; [|done]. split_and!; [done..|]. intros ty. rewrite Hm, bool_decide_eq_false_2 by done. cbn [andb]. lia.
Qed.

Lemma port_write_ok s a v :
  hw_ok (s_hw s) -> 0 <= a < 64 -> 0 <= v < 65536 ->
  exists d', ms41908m_port_write a v s = Ret SYS_OK (set_s_hw d' s) /\ hw_written a v (s_hw s) d'.
Proof.
  intros Hd Ha Hv. destruct (cs_same _ true Hd) as [(H1 & R1 & M1) C1].
  pose proof (land_address a Ha) as Ea.
  destruct (transmit_ok _ (Z.land a 63) (Z.land v 255) (Z.land (Z.shiftr v 8) 255) H1 C1)
    as (d2 & E2 & H2 & C2 & R2 & M2); [rewrite Ea; lia|apply byte_land..|].
  destruct (cs_same _ false H2) as [(H3 & R3 & M3) _].
  exists (HAL_GPIO_WritePin SPI1_CS false d2). split.
  - unfold ms41908m_port_write. mstep. unfold ms41908m_cs_high, hw_do. mstep. unfold hw_call. mstep.
    cbn [s_hw set_s_hw]. rewrite E2. mstep. reflexivity.
  - split_and!; [done| |]; intros.
    + rewrite R3, R2, R1, split_half, Ea by done. done.
    + by rewrite M3, M2, M1.
Qed.

Lemma port_read_ok s a :
  hw_ok (s_hw s) -> 0 <= a < 64 -> a <> MS41908M_REG_IRSAD ->
  exists d', ms41908m_port_read a s = Ret (SYS_OK, Some (hw_reg (s_hw s) a)) (set_s_hw d' s) /\ hw_same (s_hw s) d'.
Proof.
  intros Hd Ha Hi. destruct (cs_same _ true Hd) as [(H1 & R1 & M1) C1].
  pose proof (land_address a Ha) as Ea.
  destruct (receive_ok _ a H1 C1 Ha Hi) as (d2 & x & lo & hi & E2 & Hlo & Hhi & Ev & H2 & C2 & R2 & M2).
  destruct (cs_same _ false H2) as [(H3 & R3 & M3) _].
  exists (HAL_GPIO_WritePin SPI1_CS false d2). split.
  - unfold ms41908m_port_read. mstep. unfold ms41908m_cs_high, hw_do. mstep. unfold hw_call. mstep.
    cbn [s_hw set_s_hw]. rewrite Ea, E2. mstep. cbn [nth negb]. rewrite join_half, Ev, R1 by done. reflexivity.
  - split_and!; [done| |]; intros; by rewrite ?R3, ?R2, ?R1, ?M3, ?M2, ?M1.
Qed.

(** A pulse on VD_FZ starts what the step registers hold. *)
Definition hw_edge (d d' : D) : Prop :=
  hw_ok d' /\ (forall x, hw_reg d' x = hw_reg d x) /\
  (forall ty, hw_moved d' ty = hw_moved d ty + commanded (hw_reg d (step_addr ty))).

Lemma output_vd_ok s ty :
  hw_ok (s_hw s) -> ty <> MS41908M_TYPE_IRIS ->
  exists d', ms41908m_port_output_vd ty s = Ret tt (set_s_hw d' s) /\ hw_edge (s_hw s) d'.
Proof.
  intros Hd Ht. destruct (pin_ok _ VD_FZ true Hd) as (H1 & _ & R1 & M1); [by right; right|].
  destruct (pin_ok _ VD_FZ false H1) as (H2 & _ & R2 & M2); [by right; right|].
  exists (HAL_GPIO_WritePin VD_FZ false (HAL_GPIO_WritePin VD_FZ true (s_hw s))). split.
  - by destruct ty.
  - split_and!; [done| |]; intros; rewrite ?R2, ?R1, ?M2, ?M1; [done|].
    rewrite bool_decide_eq_true_2 by done. cbn [andb]. lia.
Qed.

Lemma port_unlock_ok (s : ms) : s_mutex s = Some true -> ms41908m_port_unlock s = Ret SYS_OK (set_s_mutex (Some false) s).
Proof. intros Hm. unfold ms41908m_port_unlock. mstep. by rewrite Hm. Qed.

Definition taken (d : D) : D := snd (xSemaphoreTake d).
Lemma port_lock_ok s :
  hw_ok (s_hw s) -> s_mutex s = Some false ->
  ms41908m_port_lock s = Ret SYS_OK (set_s_mutex (Some true) (set_s_hw (taken (s_hw s)) s)) /\
  hw_same (s_hw s) (taken (s_hw s)).
Proof.
  intros Hd Hm. unfold taken. destruct (take_ok _ Hd) as (d' & E & Hs). rewrite E. split; [|done].
  unfold ms41908m_port_lock. mstep. rewrite Hm. unfold hw_call. mstep. rewrite E. mstep. reflexivity.
Qed.
End Port.
