(* ===== verification/Ms41908mRun.v ===== *)
(** The position counters follow the motors: an invariant of the driver during moves
    that relates, for each axis, the counter, the step register of the chip and the
    micro steps the chip was made to take; and its preservation by the motor task
    on hardware in working order: pulses, stops and the end of a batch. *)
From S2P Require Import Prelude Ms41908mReg Ms41908m Ms41908mPort.

Definition in32 (z : Z) : Prop := -2147483648 <= z <= 2147483647.
Definition motor (ty : ms41908m_type_t) : Prop := ty <> MS41908M_TYPE_IRIS.

(** ** Pure descriptions *)
Definition marked (now : Z) (a : axis_t) : axis_t :=
  if running a then set_ax_start_tick now (set_ax_pls_rcvd false (set_ax_batch_active true a)) else a.
Definition mark_all (now : Z) (i : ms41908m_instance_t) : ms41908m_instance_t :=
  set_i_zoom (marked now (i_zoom i)) (set_i_focus (marked now (i_focus i)) i).
Definition halted (st : ms41908m_state_t) (a : axis_t) : axis_t :=
  let a := set_ax_pls_rcvd false (set_ax_batch_active false a) in
  let a := set_ax_run_config (set_rc_unload_psum 0 (set_rc_is_valid false (ax_run_config a))) a in
  set_ax_state st a.

(** Batches an axis has still to run. *)
Definition left_of (a : axis_t) : nat :=
  if running a then
    S (Z.to_nat ((rc_unload_psum (ax_run_config a) + rc_load_psum (ax_run_config a) - 1) / rc_load_psum (ax_run_config a)))
  else 0.

Lemma axis_of_put ty a i : motor ty -> axis_of ty (put_axis ty a i) = a.
Proof. by destruct ty. Qed.
Lemma axis_of_put_other ty a i : motor ty -> axis_of (other_axis ty) (put_axis ty a i) = axis_of (other_axis ty) i.
Proof. by destruct ty. Qed.
Lemma put_axis_id ty i : motor ty -> put_axis ty (axis_of ty i) i = i.
Proof. by destruct ty, i. Qed.
Lemma motor_cases (P : ms41908m_type_t -> Prop) ty :
  motor ty -> P ty -> P (other_axis ty) -> forall ty', motor ty' -> P ty'.
Proof. unfold motor. by destruct ty; intros ? ? ? [| |]. Qed.
Lemma motor_other ty : motor (other_axis ty).
Proof. by destruct ty. Qed.
#[export] Hint Resolve motor_other : core.

Lemma axis_of_mark_all now i ty : axis_of ty (mark_all now i) = marked now (axis_of ty i).
Proof. by destruct ty. Qed.

Lemma pending_either ty i : motor ty ->
  MS41908M_BATCH_PENDING i = batch_pending (axis_of ty i) || batch_pending (axis_of (other_axis ty) i).
Proof. unfold MS41908M_BATCH_PENDING. destruct ty; intros Hm; [done|apply orb_comm|by destruct Hm]. Qed.

Lemma running_state a : running a = true <-> ax_state a = MS41908M_STATE_RUNNING.
Proof. unfold running, st_eq. apply bool_decide_eq_true. Qed.

Section Track.
Context `{LensHwLaws D}.
Notation ms := (ms_state D).
Notation axis ty s := (axis_of ty (s_instance s)).

(** ** The invariant of one axis

    [off] is the fixed difference between the motor and the counter, [dst] where the
    move in progress ends. *)
Record axis_idle (ty : ms41908m_type_t) (d : D) (off dst : Z) (a : axis_t) : Prop := {
  ai_run : running a = false;
  ai_batch : ax_batch_active a = false;
  ai_reg : Z.land (hw_reg d (step_addr ty)) 255 = 0;
  ai_moved : hw_moved d ty = off + ax_position a;
  ai_dst : ax_position a = dst;
  ai_in : in32 dst
}.

Record axis_moving (ty : ms41908m_type_t) (d : D) (off dst : Z) (a : axis_t) : Prop := {
  am_run : running a = true;
  am_valid : rc_is_valid (ax_run_config a) = true;
  am_dir : rc_direction (ax_run_config a) = 0 \/ rc_direction (ax_run_config a) = 1;
  am_load : 1 <= rc_load_psum (ax_run_config a) <= 255;
  am_unload : 0 <= rc_unload_psum (ax_run_config a);
  am_dst : ax_position a + sign (rc_direction (ax_run_config a)) *
             (rc_load_psum (ax_run_config a) + rc_unload_psum (ax_run_config a)) = dst;
  am_reg : step_loaded (hw_reg d (step_addr ty)) (rc_direction (ax_run_config a)) (rc_load_psum (ax_run_config a));
  am_moved : hw_moved d ty = off + ax_position a +
               (if batch_pending a then sign (rc_direction (ax_run_config a)) * rc_load_psum (ax_run_config a) else 0);
  am_pos : in32 (ax_position a);
  am_in : in32 dst
}.

Definition axis_track ty d off dst a : Prop := axis_idle ty d off dst a \/ axis_moving ty d off dst a.

Lemma axis_track_same ty d d' off dst a :
  hw_same d d' -> axis_track ty d off dst a -> axis_track ty d' off dst a.
Proof.
  intros (_ & R & Mv) [[]|[]]; [left|right]; constructor; rewrite ?R, ?Mv; done.
Qed.

Lemma axis_track_written ty ty' v d d' off dst a :
  motor ty -> motor ty' -> ty' <> ty -> hw_written (step_addr ty') v d d' ->
  axis_track ty d off dst a -> axis_track ty d' off dst a.
Proof.
  intros Ht Ht' Hne (_ & R & Mv). assert (E : (step_addr ty =? step_addr ty') = false) by (by destruct ty, ty').
  intros [[]|[]]; [left|right]; constructor; rewrite ?R, ?Mv, ?E; done.
Qed.

Lemma axis_pending_moving ty d off dst a :
  axis_track ty d off dst a -> batch_pending a = true -> axis_moving ty d off dst a.
Proof. intros [[]|] Hp; [|done]. unfold batch_pending in Hp. by rewrite ai_batch0 in Hp. Qed.

Lemma marked_run now a : running (marked now a) = running a.
Proof. unfold marked. by destruct (running a) eqn:E; cbn. Qed.
Lemma marked_pending now a : batch_pending a = false -> batch_pending (marked now a) = running a.
Proof. intros Hp. unfold marked. by destruct (running a). Qed.
Lemma marked_left now a : left_of (marked now a) = left_of a.
Proof. unfold left_of. rewrite marked_run. unfold marked. by destruct (running a). Qed.

(** A pulse is issued only when no batch is pending. *)
Lemma axis_track_fire ty d d' off dst a now :
  hw_edge d d' -> batch_pending a = false -> axis_track ty d off dst a -> axis_track ty d' off dst (marked now a).
Proof.
  intros (_ & R & Mv) Hp [Hi|Hm].
  - left. destruct Hi. unfold marked. rewrite ai_run0. constructor; rewrite ?R, ?Mv; try done.
    rewrite commanded_zero by done. lia.
  - right. destruct Hm. rewrite Hp in am_moved0. unfold marked. rewrite am_run0.
    constructor; cbn; rewrite ?R, ?Mv; try done. rewrite (commanded_loaded _ _ _ am_reg0). lia.
Qed.

(** ** The invariant of the driver *)
Definition is_done (ty : ms41908m_type_t) (x : Z * Z) : bool := (fst x =? completed_event ty) && (snd x =? SYS_OK).
Definition log_of (s : ms) : list (Z * Z) := map (fun '(_, e, r) => (e, r)) (s_app_calls s) ++ s_app_notify s.
Definition done_count (ty : ms41908m_type_t) (s : ms) : nat := length (List.filter (is_done ty) (log_of s)).

(** Initialised, with a callback, no reset in progress or requested; [m] tells
    whether the lock is held. *)
Record base (cb : Z) (m : bool) (s : ms) : Prop := {
  bs_hw : hw_ok (s_hw s);
  bs_ini : is_initialized (s_instance s) = true;
  bs_idle : rz_phase (s_rst s) = MS41908M_RZ_IDLE;
  bs_cb : s_app_event_cb s = Some cb;
  bs_mutex : s_mutex s = Some m;
  bs_group : exists b, s_event_group s = Some b /\ Z.land b 192 = 0
}.

(** [cnt] is the number of completions reported once the axis is at rest. *)
Definition axis_ok (off dst : ms41908m_type_t -> Z) (cnt : ms41908m_type_t -> nat) (s : ms) (ty : ms41908m_type_t) : Prop :=
  axis_track ty (s_hw s) (off ty) (dst ty) (axis ty s) /\
  (done_count ty s + if running (axis ty s) then 1 else 0)%nat = cnt ty.

Definition tracked off dst cnt (s : ms) : Prop := forall ty, motor ty -> axis_ok off dst cnt s ty.

(** While an axis runs, a batch is under way: its signal will come. *)
Definition live (s : ms) : Prop := forall ty, motor ty -> running (axis ty s) = true -> MS41908M_BATCH_PENDING (s_instance s) = true.
End Track.

(** ** Runs *)
(** ** Batches left *)
Lemma left_next U L : 1 <= L -> L <= U ->
  S (Z.to_nat ((U + L - 1) / L)) = S (S (Z.to_nat ((U - L + L - 1) / L))).
Proof.
  intros HL HU. replace (U + L - 1) with ((U - 1) + 1 * L) by lia. rewrite Z.div_add by lia.
  replace (U - L + L - 1) with (U - 1) by lia. rewrite Z2Nat.inj_add by (try apply Z.div_pos; lia). lia.
Qed.
Lemma left_rest U L : 1 <= U -> U < L -> S (Z.to_nat ((U + L - 1) / L)) = S (S (Z.to_nat ((0 + U - 1) / U))).
Proof.
  intros HU HL. replace (U + L - 1) with ((U - 1) + 1 * L) by lia.
  rewrite Z.div_add, !Z.div_small by lia. reflexivity.
Qed.
Lemma left_last L : 1 <= L -> S (Z.to_nat ((0 + L - 1) / L)) = 1%nat.
Proof. intros. by rewrite Z.div_small by lia. Qed.

Section Run.
Context `{LensHwLaws D}.
Notation ms := (ms_state D).
Notation axis ty s := (axis_of ty (s_instance s)).

(** ** Pulses *)
Definition now_of (s : ms) : Z := osKernelGetTickCount (s_hw s).

Lemma set_instance_id (s : ms) : set_s_instance (s_instance s) s = s.
Proof. by destruct s. Qed.

Lemma mark_batch_eq ty s : motor ty ->
  mark_batch ty s = Ret tt (set_s_instance (put_axis ty (marked (now_of s) (axis ty s)) (s_instance s)) s).
Proof.
  intros Ht. unfold mark_batch. erewrite bind_ret_eq by reflexivity. unfold marked.
  destruct (running (axis ty s)); [reflexivity|]. by rewrite put_axis_id, set_instance_id.
Qed.

Lemma mark_both_eq (k : unit -> M ms unit) s :
  (mark_batch MS41908M_TYPE_FOCUS;; mark_batch MS41908M_TYPE_ZOOM ≫= k) s =
  k tt (set_s_instance (mark_all (now_of s) (s_instance s)) s).
Proof.
  erewrite bind_ret_eq by (by apply mark_batch_eq). erewrite bind_ret_eq by (by apply mark_batch_eq). reflexivity.
Qed.

(** What a call that may pulse leaves as it was. *)
Record fired (s s' : ms) : Prop := {
  fd_log : log_of s' = log_of s;
  fd_notify : s_app_notify s' = s_app_notify s;
  fd_calls : s_app_calls s' = s_app_calls s;
  fd_group : s_event_group s' = s_event_group s;
  fd_left ty : left_of (axis ty s') = left_of (axis ty s);
  fd_pos ty : ax_position (axis ty s') = ax_position (axis ty s);
  fd_run ty : running (axis ty s') = running (axis ty s);
  fd_pending : MS41908M_BATCH_PENDING (s_instance s) = true -> s_instance s' = s_instance s
}.

Lemma fired_refl s : fired s s.
Proof. by constructor. Qed.

Lemma base_hw cb m (s : ms) d i :
  base cb m s -> hw_ok d -> is_initialized i = true -> base cb m (set_s_hw d (set_s_instance i s)).
Proof. intros [] ? ?. by constructor. Qed.

Lemma live_pending (s : ms) : MS41908M_BATCH_PENDING (s_instance s) = true -> live s.
Proof. by intros ? ? ? ?. Qed.

(** The state after the marks and the pulse. *)
Lemma fire_state off dst cnt cb m s d' :
  base cb m s -> tracked off dst cnt s -> MS41908M_BATCH_PENDING (s_instance s) = false -> hw_edge (s_hw s) d' ->
  let s' := set_s_hw d' (set_s_instance (mark_all (now_of s) (s_instance s)) s) in
  base cb m s' /\ tracked off dst cnt s' /\ live s' /\ fired s s'.
Proof.
  intros Hb Ht Hp He s'.
  assert (Hp' : forall ty, motor ty -> batch_pending (axis ty s) = false).
  { intros ty Hm. rewrite (pending_either ty) in Hp by done. by apply orb_false_elim in Hp as [? _]. }
  split_and!.
  - apply base_hw; [done|apply He|apply (bs_ini _ _ _ Hb)].
  - intros ty Hm. destruct (Ht ty Hm) as [T C]. split.
    + unfold s'. cbn [s_hw s_instance set_s_hw set_s_instance]. rewrite axis_of_mark_all.
      apply axis_track_fire with (d := s_hw s); auto.
    + unfold s'. cbn [s_instance set_s_hw set_s_instance]. rewrite axis_of_mark_all, marked_run. exact C.
  - intros ty Hm Hr. unfold s' in *. cbn [s_instance set_s_hw set_s_instance] in *.
    rewrite axis_of_mark_all, marked_run in Hr. rewrite (pending_either ty), axis_of_mark_all, marked_pending by auto.
    by rewrite Hr.
  - constructor; try done; intros; unfold s'; cbn [s_instance set_s_hw set_s_instance].
    + by rewrite axis_of_mark_all, marked_left.
    + rewrite axis_of_mark_all. unfold marked. by destruct (running _).
    + by rewrite axis_of_mark_all, marked_run.
    + congruence.
Qed.

Lemma fire_vd_ok off dst cnt cb m s ty :
  motor ty -> base cb m s -> tracked off dst cnt s ->
  returns (fire_vd ty) (fun _ s' => base cb m s' /\ tracked off dst cnt s' /\ live s' /\ fired s s') s.
Proof.
  intros Hm Hb Ht. unfold fire_vd, can_fire_vd_fz. rstep.
  destruct (MS41908M_BATCH_PENDING (s_instance s)) eqn:Ep; cbn [negb].
  - rstep. split_and!; [done..|by apply live_pending|apply fired_refl].
  - set (s1 := set_s_instance (mark_all (now_of s) (s_instance s)) s).
    destruct (output_vd_ok s1 ty (bs_hw _ _ _ Hb) Hm) as (d' & E & He).
    eapply returns_eq; [apply (mark_both_eq (fun _ => ms41908m_port_output_vd ty))|].
    eapply returns_intro; [exact E|]. by apply fire_state.
Qed.

(** ** Stops *)
Lemma hw_written_same a v d d1 d2 : hw_same d d1 -> hw_written a v d1 d2 -> hw_written a v d d2.
Proof. intros (? & R & Mv) (? & R2 & M2). split_and!; [done| |]; intros; by rewrite ?R2, ?M2, ?R, ?Mv. Qed.

Lemma step_addr_range ty : 0 <= step_addr ty < 64 /\ step_addr ty <> MS41908M_REG_IRSAD.
Proof. destruct ty; cbn; unfold MS41908M_REG_FOCUS_STEP, MS41908M_REG_ZOOM_STEP, MS41908M_REG_IRSAD; lia. Qed.

Lemma ty_eq_iris ty : motor ty -> ty_eq ty MS41908M_TYPE_IRIS = false.
Proof. intros. by apply bool_decide_eq_false_2. Qed.

(** Reading a step register and writing it back changed. *)
Lemma read_write_step {A} ty (f : Z -> Z) (s : ms) (k1 : Z -> M ms A) (k2 : Z -> M ms A) :
  hw_ok (s_hw s) -> 0 <= f (hw_reg (s_hw s) (step_addr ty)) < 65536 ->
  exists d', hw_written (step_addr ty) (f (hw_reg (s_hw s) (step_addr ty))) (s_hw s) d' /\
    ('(ret, v) ← ms41908m_port_read (step_addr ty);
     if negb (ret =? SYS_OK) then k1 ret else ret ← ms41908m_port_write (step_addr ty) (f (default 0 v)); k2 ret) s =
    k2 SYS_OK (set_s_hw d' s).
Proof.
  intros Hd Hf. destruct (step_addr_range ty) as [Ha Hi].
  destruct (port_read_ok s _ Hd Ha Hi) as (d1 & E1 & S1).
  destruct (port_write_ok (set_s_hw d1 s) (step_addr ty) (f (hw_reg (s_hw s) (step_addr ty)))) as (d2 & E2 & W2);
    [apply S1|done|done|].
  exists d2. split; [by eapply hw_written_same|].
  erewrite bind_ret_eq by exact E1. cbn beta iota. change (SYS_OK =? SYS_OK) with true. cbn [negb default].
  erewrite bind_ret_eq by exact E2. reflexivity.
Qed.

(** The state a stopped axis is in: a reset in progress keeps its own. *)
Definition stop_state (ty : ms41908m_type_t) (r : ms41908m_reset_sm_t) : ms41908m_state_t :=
  if negb (ph_idle (rz_phase r)) && ty_eq (rz_type r) ty then MS41908M_STATE_RESET_ZERO else MS41908M_STATE_STOPPED.

Lemma stop_impl_eq ty s :
  motor ty -> hw_ok (s_hw s) -> ax_state (axis ty s) <> MS41908M_STATE_NO_CFG ->
  exists d', hw_written (step_addr ty) (Z.land (hw_reg (s_hw s) (step_addr ty)) 65280) (s_hw s) d' /\
    ms41908m_motor_stop_impl ty s =
    (fire_vd ty;; mret SYS_OK)
      (set_s_instance (put_axis ty (halted (stop_state ty (s_rst s)) (axis ty s)) (s_instance s)) (set_s_hw d' s)).
Proof.
  intros Hm Hd Hn. unfold ms41908m_motor_stop_impl. rewrite ty_eq_iris by done.
  erewrite bind_ret_eq by reflexivity. unfold st_eq. rewrite bool_decide_eq_false_2 by done.
  destruct (read_write_step ty (fun v => Z.land v 65280) s mret
    (fun ret => if negb (ret =? SYS_OK) then mret ret
        else
          upd_ax ty (fun a => set_ax_pls_rcvd false (set_ax_batch_active false a));;
          upd_run ty (fun r => set_rc_unload_psum 0 (set_rc_is_valid false r));;
          r ← gets s_rst;
          upd_ax ty (set_ax_state (if negb (ph_idle (rz_phase r)) && ty_eq (rz_type r) ty
                                   then MS41908M_STATE_RESET_ZERO else MS41908M_STATE_STOPPED));;
          fire_vd ty;;
          mret SYS_OK) Hd) as (d' & W & E); [apply unstep_zero, reg_half, Hd|].
  exists d'. split; [exact W|]. rewrite E. change (SYS_OK =? SYS_OK) with true. cbn [negb].
  erewrite bind_ret_eq by reflexivity. erewrite bind_ret_eq by reflexivity. erewrite bind_ret_eq by reflexivity.
  erewrite bind_ret_eq by reflexivity. by destruct ty.
Qed.

(** ** The end of a batch *)

(** The step register of the other axis and the motors are as they were. *)
Definition hw_touch (ty : ms41908m_type_t) (d d' : D) : Prop :=
  hw_ok d' /\ hw_reg d' (step_addr (other_axis ty)) = hw_reg d (step_addr (other_axis ty)) /\
  (forall t, hw_moved d' t = hw_moved d t).

Lemma touch_same ty d d' : hw_same d d' -> hw_touch ty d d'.
Proof. intros (? & ? & ?). by split_and!. Qed.
Lemma touch_written ty a v d d' :
  a = step_addr ty \/ a = pps_addr ty -> motor ty -> hw_written a v d d' -> hw_touch ty d d'.
Proof.
  intros Ha Hm (? & R & ?). split_and!; [done| |done]. rewrite R.
  by destruct Ha as [-> | ->], ty; try (by destruct Hm).
Qed.
Lemma touch_trans ty d1 d2 d3 : hw_touch ty d1 d2 -> hw_touch ty d2 d3 -> hw_touch ty d1 d3.
Proof. intros (? & R1 & M1) (? & R2 & M2). split_and!; [done|congruence|]. intros. by rewrite M2. Qed.

Lemma axis_track_touch ty d d' off dst a :
  hw_touch ty d d' -> axis_track (other_axis ty) d off dst a -> axis_track (other_axis ty) d' off dst a.
Proof. intros (_ & R & Mv) [[]|[]]; [left|right]; constructor; rewrite ?R, ?Mv; done. Qed.

Lemma tracked_upd off dst dst' cnt cnt' ty s s' a :
  motor ty -> tracked off dst cnt s -> hw_touch ty (s_hw s) (s_hw s') ->
  s_instance s' = put_axis ty a (s_instance s) -> log_of s' = log_of s ->
  axis_track ty (s_hw s') (off ty) (dst' ty) a -> (done_count ty s + if running a then 1 else 0)%nat = cnt' ty ->
  dst' (other_axis ty) = dst (other_axis ty) -> cnt' (other_axis ty) = cnt (other_axis ty) ->
  tracked off dst' cnt' s'.
Proof.
  intros Hm Ht Hh Hi Hl Ha Hc Ed Ec. unfold tracked. apply (motor_cases _ ty); [done|split|split].
  - by rewrite Hi, axis_of_put.
  - unfold done_count in *. by rewrite Hi, axis_of_put, Hl.
  - rewrite Hi, axis_of_put_other, Ed by done. apply axis_track_touch with (d := s_hw s); [done|]. apply Ht; auto.
  - unfold done_count. rewrite Hi, axis_of_put_other, Ec, Hl by done. apply Ht; auto.
Qed.

Lemma group_lor b e : Z.land b 192 = 0 -> Z.land e 192 = 0 -> Z.land (Z.lor b e) 192 = 0.
Proof. intros Hb He. by rewrite Z.land_lor_distr_l, Hb, He. Qed.
Lemma group_ldiff b e : Z.land b 192 = 0 -> Z.land (Z.ldiff b e) 192 = 0.
Proof. intros Hb. rewrite Z.ldiff_land, <- Z.land_assoc, (Z.land_comm _ 192), Z.land_assoc, Hb. apply Z.land_0_l. Qed.
Lemma completed_plain ty : Z.land (completed_event ty) 192 = 0.
Proof. by destruct ty. Qed.

Lemma set_event_notify_eq cb m ev r s :
  base cb m s -> (length (s_app_notify s) < 8)%nat -> Z.land ev 192 = 0 ->
  exists s', ms41908m_port_set_event_notify ev r s = Ret tt s' /\ base cb m s' /\
    s_instance s' = s_instance s /\ s_hw s' = s_hw s /\ s_app_calls s' = s_app_calls s /\
    s_app_notify s' = s_app_notify s ++ [(ev, r)].
Proof.
  intros Hb Hq He. destruct (bs_group _ _ _ Hb) as (b & Eg & Hg).
  unfold ms41908m_port_set_event_notify, ms41908m_port_set_event, set_bits, ms41908m_queue_app_notify.
  erewrite bind_ret_eq. 2:{ erewrite bind_ret_eq by reflexivity. rewrite Eg. erewrite bind_ret_eq by reflexivity. reflexivity. }
  rewrite Eg. erewrite bind_ret_eq by reflexivity. cbn [s_app_notify set_s_event_group].
  rewrite (proj2 (Nat.ltb_lt _ MS41908M_APP_NOTIFY_CAP) Hq). eexists. split; [reflexivity|]. split; [|done].
  destruct Hb. constructor; try done. eexists. split; [reflexivity|]. by apply group_lor.
Qed.

(** The axis has run its last batch. *)
Lemma halted_idle ty d d' off dst a :
  axis_moving ty d off dst a -> hw_written (step_addr ty) (Z.land (hw_reg d (step_addr ty)) 65280) d d' ->
  rc_unload_psum (ax_run_config a) = 0 -> batch_pending a = true ->
  axis_idle ty d' off dst (halted MS41908M_STATE_STOPPED (set_ax_position dst (set_ax_pls_rcvd true a))).
Proof.
  intros HM (Ho & R & Mv) Hu Hp. pose proof (am_moved _ _ _ _ _ HM) as Hv. pose proof (am_dst _ _ _ _ _ HM) as Hd.
  rewrite Hp in Hv. rewrite Hu in Hd. constructor; cbn; try done.
  - rewrite R, Z.eqb_refl. apply unstep_zero, (am_reg _ _ _ _ _ HM).
  - rewrite Mv, Hv, <- Hd. lia.
  - apply HM.
Qed.

(** What the end of a batch leaves: one batch less on [ty], the other axis as it was
    if it is in the middle of one. *)
Record batch_ended (ty : ms41908m_type_t) (s s' : ms) : Prop := {
  be_left : S (left_of (axis ty s')) = left_of (axis ty s);
  be_other : left_of (axis (other_axis ty) s') = left_of (axis (other_axis ty) s);
  be_calls : s_app_calls s' = s_app_calls s;
  be_notify : (length (s_app_notify s') <= S (length (s_app_notify s)))%nat;
  be_pending : batch_pending (axis (other_axis ty) s) = true -> axis (other_axis ty) s' = axis (other_axis ty) s
}.

Lemma is_done_own ty : is_done ty (completed_event ty, SYS_OK) = true.
Proof. by destruct ty. Qed.
Lemma is_done_other ty : motor ty -> is_done (other_axis ty) (completed_event ty, SYS_OK) = false.
Proof. intros Hm. by destruct ty; [| |destruct Hm]. Qed.

Lemma done_count_push t (s s' : ms) x :
  s_app_calls s' = s_app_calls s -> s_app_notify s' = s_app_notify s ++ [x] ->
  done_count t s' = (done_count t s + if is_done t x then 1 else 0)%nat.
Proof.
  intros Ec En. unfold done_count, log_of. rewrite Ec, En, app_assoc, List.filter_app, length_app.
  cbn [List.filter]. by destruct (is_done t x).
Qed.

Lemma run_completed_ok off dst cnt cb m ty s s0 a :
  motor ty -> base cb m s0 -> tracked off dst cnt s0 -> axis_moving ty (s_hw s0) (off ty) (dst ty) (axis ty s0) ->
  a = axis ty s0 -> rc_unload_psum (ax_run_config a) = 0 -> batch_pending a = true ->
  (length (s_app_notify s0) < 8)%nat ->
  s = set_s_instance (put_axis ty (set_ax_position (dst ty) (set_ax_pls_rcvd true a)) (s_instance s0)) s0 ->
  returns (run_completed ty) (fun _ s' => base cb m s' /\ tracked off dst cnt s' /\ batch_ended ty s0 s') s.
Proof.
  intros Hm Hb Ht Ha Ea Hu Hp Hq Es. unfold run_completed.
  assert (Hax : axis ty s = set_ax_position (dst ty) (set_ax_pls_rcvd true a)) by (subst s; apply axis_of_put; done).
  assert (Hrun : ax_state a = MS41908M_STATE_RUNNING) by (subst a; apply running_state, Ha).
  destruct (stop_impl_eq ty s) as (d' & W & E); [done|subst s; apply Hb| |].
  { rewrite Hax. cbn. by rewrite Hrun. }
  assert (Hss : stop_state ty (s_rst s) = MS41908M_STATE_STOPPED) by (subst s; unfold stop_state; cbn; by rewrite (bs_idle _ _ _ Hb)).
  rewrite Hax, Hss in E. set (s1 := set_s_instance _ _) in E.
  set (cnt1 := fun t => if bool_decide (t = ty) then done_count ty s0 else cnt t).
  assert (Hid : axis_idle ty d' (off ty) (dst ty) (axis ty s1)).
  { unfold s1. cbn [s_instance set_s_instance set_s_hw]. rewrite axis_of_put by done.
    subst a. apply halted_idle with (d := s_hw s0); try done. subst s. exact W. }
  assert (H1 : base cb m s1) by (destruct Hb; subst s; constructor; try done; [apply W|by destruct ty]).
  assert (T1 : tracked off dst cnt1 s1).
  { apply tracked_upd with (dst := dst) (cnt := cnt) (ty := ty) (s := s0) (a := axis ty s1); try done.
    - eapply touch_written; [by left|done|]. subst s. exact W.
    - unfold s1. cbn [s_instance set_s_instance set_s_hw]. rewrite axis_of_put by done. subst s. by destruct ty.
    - unfold s1. subst s. done.
    - by left.
    - unfold cnt1. rewrite bool_decide_eq_true_2, (ai_run _ _ _ _ _ Hid) by done. lia.
    - unfold cnt1. by rewrite bool_decide_eq_false_2 by (by destruct ty; [| |destruct Hm]). }
  apply returns_bind. eapply returns_eq; [exact E|].
  rcall (fire_vd_ok off dst cnt1 cb m s1 ty Hm H1 T1). intros _ s2 (H2 & T2 & _ & F2). rstep.
  rewrite (bs_idle _ _ _ H2). cbn [ph_idle negb andb].
  destruct (set_event_notify_eq cb m (completed_event ty) SYS_OK s2 H2) as (s3 & E3 & H3 & I3 & D3 & C3 & N3);
    [rewrite (fd_notify _ _ F2); subst s; done|apply completed_plain|].
  eapply returns_intro; [exact E3|]. split; [done|]. split.
  - unfold tracked. apply (motor_cases _ ty); [done|split|split].
    + rewrite I3, D3. apply T2, Hm.
    + rewrite (done_count_push ty _ _ _ C3 N3), is_done_own, I3. destruct (Ht ty Hm) as [_ <-].
      rewrite (am_run _ _ _ _ _ Ha). destruct (T2 ty Hm) as [_ C]. unfold cnt1 in C. rewrite bool_decide_eq_true_2 in C by done.
      rewrite (fd_run _ _ F2), (ai_run _ _ _ _ _ Hid) in *. lia.
    + rewrite I3, D3. apply T2; auto.
    + rewrite (done_count_push _ _ _ _ C3 N3), is_done_other, I3, Nat.add_0_r by done.
      destruct (T2 (other_axis ty) (motor_other ty)) as [_ C]. unfold cnt1 in C.
      rewrite bool_decide_eq_false_2 in C by (by destruct ty; [| |destruct Hm]). exact C.
  - assert (Ho : axis (other_axis ty) s1 = axis (other_axis ty) s0).
    { unfold s1. cbn [s_instance set_s_instance set_s_hw]. subst s. by destruct ty; [| |destruct Hm]. }
    constructor; rewrite ?I3.
    + rewrite (fd_left _ _ F2). unfold left_of. rewrite (ai_run _ _ _ _ _ Hid), (am_run _ _ _ _ _ Ha).
      rewrite <- Ea, Hu. symmetry. apply left_last. subst a. apply Ha.
    + by rewrite (fd_left _ _ F2), Ho.
    + rewrite C3, (fd_calls _ _ F2). by subst s.
    + rewrite N3, (fd_notify _ _ F2), length_app. subst s. cbn. lia.
    + intros Hpo. rewrite (fd_pending _ _ F2); [exact Ho|].
      rewrite (pending_either ty), Ho, Hpo by done. apply orb_true_r.
Qed.

Lemma int32_ok z (s : ms) : in32 z -> int32 z s = Ret z s.
Proof.
  intros [? ?]. unfold int32. rewrite (proj2 (Z.leb_le _ _)), (proj2 (Z.leb_le _ _)) by done. reflexivity.
Qed.

(** The axis after the counter was moved on and the next batch prepared. *)
Definition advanced (a : axis_t) : axis_t :=
  let rc := ax_run_config a in
  let a' := set_ax_position (ax_position a + sign (rc_direction rc) * rc_load_psum rc) (set_ax_pls_rcvd true a) in
  set_ax_run_config
    (if rc_load_psum rc <=? rc_unload_psum rc then set_rc_unload_psum (rc_unload_psum rc - rc_load_psum rc) rc
     else set_rc_unload_psum 0 (set_rc_load_psum (rc_unload_psum rc) rc)) a'.

Lemma advanced_run a : running (advanced a) = running a.
Proof. done. Qed.

Lemma advanced_left ty d off dst a :
  axis_moving ty d off dst a -> 0 < rc_unload_psum (ax_run_config a) -> S (left_of (advanced a)) = left_of a.
Proof.
  intros HM Hu. pose proof (am_load _ _ _ _ _ HM). unfold left_of. rewrite advanced_run, (am_run _ _ _ _ _ HM).
  unfold advanced. cbn [ax_run_config set_ax_run_config]. destruct (_ <=? _) eqn:E; cbool;
    cbn [rc_unload_psum rc_load_psum set_rc_unload_psum set_rc_load_psum]; symmetry; [apply left_next|apply left_rest]; lia.
Qed.

Lemma advanced_moving ty d d' off dst a :
  axis_moving ty d off dst a -> 0 < rc_unload_psum (ax_run_config a) -> batch_pending a = true ->
  (forall t, hw_moved d' t = hw_moved d t) ->
  step_loaded (hw_reg d' (step_addr ty)) (rc_direction (ax_run_config a))
    (if rc_load_psum (ax_run_config a) <=? rc_unload_psum (ax_run_config a) then rc_load_psum (ax_run_config a)
     else rc_unload_psum (ax_run_config a)) ->
  axis_moving ty d' off dst (advanced a).
Proof.
  intros HM Hu Hp Mv Hs. pose proof (am_moved _ _ _ _ _ HM) as Hv. rewrite Hp in Hv. destruct HM.
  assert (Hpos : in32 (ax_position a + sign (rc_direction (ax_run_config a)) * rc_load_psum (ax_run_config a))).
  { unfold in32, sign in *. destruct (_ =? 0); lia. }
  assert (Hb : batch_pending (advanced a) = false) by apply andb_false_r.
  constructor; rewrite ?Hb; unfold advanced; cbn [ax_run_config ax_position set_ax_run_config set_ax_position];
    destruct (_ <=? _) eqn:E; cbool;
    cbn [rc_is_valid rc_direction rc_load_psum rc_unload_psum set_rc_unload_psum set_rc_load_psum]; rewrite ?Mv; try done; lia.
Qed.

(** The rest of the move is prepared. *)
Lemma next_batch_ok off dst cnt cb m ty s s0 a :
  motor ty -> base cb m s0 -> tracked off dst cnt s0 -> axis_moving ty (s_hw s0) (off ty) (dst ty) (axis ty s0) ->
  a = axis ty s0 -> 0 < rc_unload_psum (ax_run_config a) -> batch_pending a = true ->
  s = set_s_instance (put_axis ty (set_ax_position (ax_position a + sign (rc_direction (ax_run_config a)) *
        rc_load_psum (ax_run_config a)) (set_ax_pls_rcvd true a)) (s_instance s0)) s0 ->
  returns (next_batch ty SYS_OK)
    (fun r s' => r = SYS_OK /\ base cb m s' /\ tracked off dst cnt s' /\ batch_ended ty s0 s') s.
Proof.
  intros Hm Hb Ht HM Ea Hu Hp Es.
  assert (Post : forall s' d', hw_touch ty (s_hw s0) d' ->
    step_loaded (hw_reg d' (step_addr ty)) (rc_direction (ax_run_config a))
      (if rc_load_psum (ax_run_config a) <=? rc_unload_psum (ax_run_config a) then rc_load_psum (ax_run_config a)
       else rc_unload_psum (ax_run_config a)) ->
    s' = set_s_hw d' (set_s_instance (put_axis ty (advanced a) (s_instance s0)) s0) ->
    base cb m s' /\ tracked off dst cnt s' /\ batch_ended ty s0 s').
  { intros s' d' (Hd & Hr & Hmv) Hs ->. split_and!.
    - apply base_hw; [done..|]. destruct Hb. by destruct ty.
    - apply tracked_upd with (dst := dst) (cnt := cnt) (ty := ty) (s := s0) (a := advanced a); try done.
      + right. subst a. apply advanced_moving with (d := s_hw s0); done.
      + rewrite advanced_run. subst a. apply Ht, Hm.
    - constructor; cbn [s_instance s_app_calls s_app_notify set_s_hw set_s_instance];
        rewrite ?axis_of_put, ?axis_of_put_other by done; try done; [|lia].
      subst a. by eapply advanced_left. }
  assert (Hax : axis ty s = set_ax_position (ax_position a + sign (rc_direction (ax_run_config a)) *
        rc_load_psum (ax_run_config a)) (set_ax_pls_rcvd true a)) by (subst s; apply axis_of_put; done).
  unfold next_batch, ax. rstep. rewrite Hax. cbn [ax_run_config set_ax_position set_ax_pls_rcvd].
  destruct (_ <=? _) eqn:E.
  - unfold upd_run, upd_ax, upd_inst. rstep. split; [done|]. apply (Post _ (s_hw s0)).
    + by apply touch_same, hw_same_refl, Hb.
    + subst a. apply HM.
    + subst s. unfold advanced. rewrite E. by destruct ty, s0, s_instance; [| |destruct Hm].
  - unfold upd_run at 1, upd_ax at 1, upd_inst at 1. rstep.
    destruct (step_addr_range ty) as [Hra Hri].
    set (s1 := set_s_instance _ _).
    assert (Hd1 : hw_ok (s_hw s1)) by (subst s; apply Hb).
    destruct (port_read_ok s1 _ Hd1 Hra Hri) as (d1 & E1 & S1).
    rrun E1.
    change (SYS_OK =? SYS_OK) with true. cbn [default].
    assert (Hl : rc_unload_psum (ax_run_config a) < 256) by (pose proof (am_load _ _ _ _ _ HM); subst a; cbool; lia).
    assert (HL : step_loaded (u16 (Z.lor (Z.land (hw_reg (s_hw s1) (step_addr ty)) 65280) (rc_unload_psum (ax_run_config a))))
                   (rc_direction (ax_run_config a)) (rc_unload_psum (ax_run_config a))).
    { eapply restep_loaded; [|lia]. subst a s. apply HM. }
    destruct (port_write_ok (set_s_hw d1 s1) _ _ (proj1 S1) Hra (sl_range _ _ _ HL)) as (d2 & E2 & W2).
    eapply returns_intro; [exact E2|]. split; [done|].
    pose proof (hw_written_same _ _ _ _ _ S1 W2) as W3. apply (Post _ d2).
    + eapply touch_written; [by left|done|]. subst s. exact W3.
    + destruct W3 as (_ & R & _). by rewrite R, Z.eqb_refl.
    + subst s. unfold s1, advanced. rewrite E. by destruct ty, s0, s_instance; [| |destruct Hm].
Qed.

Lemma handle_pls_ok off dst cnt cb m ty s :
  motor ty -> base cb m s -> tracked off dst cnt s -> batch_pending (axis ty s) = true ->
  (length (s_app_notify s) < 8)%nat ->
  returns (handle_pls ty SYS_OK)
    (fun r s' => r = SYS_OK /\ base cb m s' /\ tracked off dst cnt s' /\ batch_ended ty s s') s.
Proof.
  intros Hm Hb Ht Hp Hq. pose proof (axis_pending_moving _ _ _ _ _ (proj1 (Ht ty Hm)) Hp) as HM.
  unfold handle_pls, ax, upd_ax, upd_inst. rstep. cbn [s_instance set_s_instance]. rewrite axis_of_put by done.
  cbn [ax_run_config ax_position set_ax_pls_rcvd]. set (a := axis ty s) in *. rewrite (am_valid _ _ _ _ _ HM). cbn [negb].
  assert (Epos : (if rc_direction (ax_run_config a) =? 1 then ax_position a + rc_load_psum (ax_run_config a)
                  else ax_position a - rc_load_psum (ax_run_config a)) =
                 ax_position a + sign (rc_direction (ax_run_config a)) * rc_load_psum (ax_run_config a)).
  { unfold sign. destruct (am_dir _ _ _ _ _ HM) as [E|E]; rewrite E; cbn; lia. }
  rewrite Epos. eapply returns_eq; [erewrite bind_ret_eq; [reflexivity|apply int32_ok]|].
  { destruct HM. unfold in32, sign in *. destruct (_ =? 0); lia. }
  rstep. destruct (0 <? rc_unload_psum (ax_run_config a)) eqn:Eu; cbool.
  - apply returns_bind. eapply returns_mono.
    + eapply (next_batch_ok off dst cnt cb m ty); try done. by destruct ty, s, s_instance; [| |destruct Hm].
    + intros r s' (-> & Hb' & Ht' & He). change (SYS_OK =? SYS_OK) with true. cbn [negb]. rstep. done.
  - assert (Hu : rc_unload_psum (ax_run_config a) = 0) by (pose proof (am_unload _ _ _ _ _ HM); lia).
    apply returns_bind. eapply returns_mono.
    + eapply (run_completed_ok off dst cnt cb m ty); try done. pose proof (am_dst _ _ _ _ _ HM) as Hd. rewrite Hu, Z.add_0_r in Hd. rewrite <- Hd.
      by destruct ty, s, s_instance; [| |destruct Hm].
    + intros _ s' (Hb' & Ht' & He). rstep. done.
Qed.
End Run.
