(* ===== verification/Ms41908mRounds.v ===== *)
(** Rounds of a move: the chip signals the end of batches, the motor task wakes up
    and handles them.  Every round keeps the counters in step with the motors and
    brings the moves nearer to their ends. *)
From S2P Require Import Prelude Ms41908mReg Ms41908m Ms41908mPort Ms41908mRun.

(** ** Event bits *)
Lemma land_sub b m e : Z.land m e = e -> Z.land b m = 0 -> Z.land b e = 0.
Proof. intros He Hb. by rewrite <- He, Z.land_assoc, Hb, Z.land_0_l. Qed.

Lemma has_lor b x e : Z.land b e = 0 -> has (Z.lor b x) e = has x e.
Proof. intros Hb. unfold has. by rewrite Z.land_lor_distr_l, Hb, Z.lor_0_l. Qed.

Definition sig_bits (pf pz : bool) : Z := (if pf then MS41908M_EVENT_PLS1 else 0) + (if pz then MS41908M_EVENT_PLS2 else 0).

Section Rounds.
Context `{LensHwLaws D}.
Notation ms := (ms_state D).
Notation axis ty s := (axis_of ty (s_instance s)).

(** ** The second phase *)
Lemma marked_idle now a : running a = false -> marked now a = a.
Proof. intros E. unfold marked. by rewrite E. Qed.

Lemma fire_phase_ok off dst cnt cb m s :
  base cb m s -> tracked off dst cnt s ->
  returns fire_phase (fun _ s' => base cb m s' /\ tracked off dst cnt s' /\ live s' /\ fired s s') s.
Proof.
  intros Hb Ht. unfold fire_phase, can_fire_vd_fz. rstep.
  destruct (MS41908M_BATCH_PENDING (s_instance s)) eqn:Ep; cbn [negb].
  - rstep. split_and!; [done..|by apply live_pending|apply fired_refl].
  - rstep. eapply returns_eq; [apply mark_both_eq|]. cbn beta.
    destruct (running (i_focus (s_instance s)) || running (i_zoom (s_instance s))) eqn:Er.
    + set (s1 := set_s_instance (mark_all (now_of s) (s_instance s)) s).
      destruct (output_vd_ok s1 MS41908M_TYPE_FOCUS (bs_hw _ _ _ Hb)) as (d' & E & He); [done|].
      eapply returns_intro; [exact E|]. by apply fire_state.
    + apply orb_false_elim in Er as [Ef Ez]. rstep.
      assert (E : set_s_instance (mark_all (now_of s) (s_instance s)) s = s).
      { unfold mark_all. rewrite !marked_idle by done. by destruct s, s_instance. }
      rewrite E. split_and!; [done|done| |apply fired_refl]. intros ty Hm Hr. by destruct ty; cbn in Hr; congruence.
Qed.

(** ** One wake-up of the task *)
Definition signal (pf pz : bool) : M ms unit :=
  (if pf then ms41908m_port_irq_handler PLS1_Pin else mret tt);;
  (if pz then ms41908m_port_irq_handler PLS2_Pin else mret tt).

(** The last pulse of every running axis is less than five seconds old when the task
    has the lock. *)
Definition in_time (s : ms) : Prop := forall ty, motor ty -> running (axis ty s) = true ->
  osKernelGetTickCount (taken (s_hw s)) -u ax_start_tick (axis ty s) < MS41908M_MOTOR_TIMEOUT_MS.

(** Between two rounds: the lock is free, nothing is queued, no signal is pending. *)
Record ready (cb : Z) (s : ms) : Prop := {
  rd_base : base cb false s;
  rd_notify : s_app_notify s = [];
  rd_group : exists b, s_event_group s = Some b /\ Z.land b 195 = 0
}.

(** When the reports of a round reach the task: between two wake-ups, while it sleeps in
    its wait, or after a wake-up for which there was no report (its wait ended after
    100 ms), while it waits for the lock; then the next wake-up handles them.  One case
    is left out: a report that arrives after the task has woken up for another one, before
    it clears the bits, is lost ([late_signal_lost]). *)
Inductive arrival : Type := Between | Asleep | IdleWake.
Definition task : M ms unit := ms41908m_motor_task_handler (mret tt) (mret tt).
Definition handled (w : arrival) (pf pz : bool) : M ms unit :=
  match w with
  | Between => signal pf pz;; task
  | Asleep => ms41908m_motor_task_handler (signal pf pz) (mret tt)
  | IdleWake => ms41908m_motor_task_handler (mret tt) (signal pf pz);; task
  end.

(** A non-empty set of the axes in the middle of a batch signals its end, and the task
    handles the signals, in time. *)
Inductive round (s s' : ms) : Prop :=
| round_intro (w : arrival) (pf pz : bool) :
    (pf = true -> batch_pending (axis MS41908M_TYPE_FOCUS s) = true) ->
    (pz = true -> batch_pending (axis MS41908M_TYPE_ZOOM s) = true) ->
    pf || pz = true -> in_time s ->
    (w = IdleWake -> forall s1, ms41908m_motor_task_handler (mret tt) (signal pf pz) s = Ret tt s1 -> in_time s1) ->
    handled w pf pz s = Ret tt s' ->
    round s s'.

Definition work (s : ms) : nat := left_of (axis MS41908M_TYPE_FOCUS s) + left_of (axis MS41908M_TYPE_ZOOM s).

Lemma signal_eq s b pf pz : s_event_group s = Some b ->
  signal pf pz s = Ret tt (if pf || pz then set_s_event_group (Some (Z.lor b (sig_bits pf pz))) s else s).
Proof.
  intros Eg. unfold signal, ms41908m_port_irq_handler, set_bits, sig_bits.
  destruct pf, pz; cbn [orb]; repeat (erewrite bind_ret_eq by reflexivity); cbn [s_event_group set_s_event_group];
    unfold modify; rewrite ?Eg; cbn [s_event_group set_s_event_group]; try done.
  cbn. by rewrite <- Z.lor_assoc.
Qed.

Lemma timeout_guard_ok ty now s :
  (running (axis ty s) = true -> now -u ax_start_tick (axis ty s) < MS41908M_MOTOR_TIMEOUT_MS) ->
  timeout_guard ty now s = Ret tt s.
Proof.
  intros Ht. unfold timeout_guard, ax. erewrite bind_ret_eq by reflexivity.
  destruct (running (axis ty s)) eqn:Er; [|done]. cbn [andb].
  by rewrite (proj2 (Z.leb_gt _ _)) by auto.
Qed.

(** The handling of one axis' signal, when there is one. *)
Lemma pls_of_axis_ok off dst cnt cb m ty s bits (sg : bool) :
  motor ty -> base cb m s -> tracked off dst cnt s -> has bits (pls_event ty) = sg ->
  (sg = true -> batch_pending (axis ty s) = true) -> (length (s_app_notify s) < 8)%nat ->
  returns (pls_of_axis ty bits SYS_OK)
    (fun r s' => r = SYS_OK /\ base cb m s' /\ tracked off dst cnt s' /\ s_app_calls s' = s_app_calls s /\
       (length (s_app_notify s') <= S (length (s_app_notify s)))%nat /\
       (left_of (axis ty s') + (if sg then 1 else 0) = left_of (axis ty s))%nat /\
       left_of (axis (other_axis ty) s') = left_of (axis (other_axis ty) s) /\
       (batch_pending (axis (other_axis ty) s) = true -> axis (other_axis ty) s' = axis (other_axis ty) s) /\
       (sg = false -> s' = s)) s.
Proof.
  intros Hm Hb Ht Hs Hp Hq. unfold pls_of_axis, ax. rstep. rewrite Hs. destruct sg; cbn [andb].
  - rewrite (am_run _ _ _ _ _ (axis_pending_moving _ _ _ _ _ (proj1 (Ht ty Hm)) (Hp eq_refl))).
    eapply returns_mono; [apply (handle_pls_ok off dst cnt cb m ty); auto|].
    intros r s' (-> & Hb' & Ht' & [HL HO HC HN HP]). split_and!; try done. lia.
  - rstep. split_and!; try done; lia.
Qed.

Lemma clear_event_eq bits (s : ms) b : s_event_group s = Some b ->
  ms41908m_port_clear_event bits s = Ret tt (set_s_event_group (Some (Z.ldiff b bits)) s).
Proof. intros E. unfold ms41908m_port_clear_event, modify. by rewrite E. Qed.

(** The part under the lock. *)
Lemma pls_events_ok off dst cnt cb s bits (pf pz : bool) :
  base cb true s -> tracked off dst cnt s -> s_app_notify s = [] ->
  has bits MS41908M_EVENT_PLS1 = pf -> has bits MS41908M_EVENT_PLS2 = pz -> has bits PLS_EVENTS = true ->
  (pf = true -> batch_pending (axis MS41908M_TYPE_FOCUS s) = true) ->
  (pz = true -> batch_pending (axis MS41908M_TYPE_ZOOM s) = true) ->
  returns (handle_pls_events bits SYS_OK)
    (fun _ s' => base cb true s' /\ tracked off dst cnt s' /\ live s' /\
       (exists b, s_event_group s' = Some b /\ Z.land b 195 = 0) /\
       (work s' + (if pf then 1 else 0) + (if pz then 1 else 0) = work s)%nat /\
       (pz = false -> batch_pending (axis MS41908M_TYPE_ZOOM s) = true -> axis MS41908M_TYPE_ZOOM s' = axis MS41908M_TYPE_ZOOM s)) s.
Proof.
  intros Hb Ht Hn Ef Ez Ea Hf Hz. unfold handle_pls_events. rewrite Ea.
  rcall (pls_of_axis_ok off dst cnt cb true MS41908M_TYPE_FOCUS s bits pf);
    [done|done|done|done|done|rewrite Hn; cbn; lia|].
  intros r s1 (-> & Hb1 & Ht1 & _ & Hn1 & L1 & O1 & P1 & _). cbn [other_axis] in *.
  rcall (pls_of_axis_ok off dst cnt cb true MS41908M_TYPE_ZOOM s1 bits pz); [done|done|done|done| | |].
  { intros Hpz. rewrite P1; auto. }
  { rewrite Hn in Hn1. cbn in Hn1. lia. }
  intros r s2 (-> & Hb2 & Ht2 & _ & _ & L2 & O2 & _ & N2). cbn [other_axis] in *.
  rcall (fire_phase_ok off dst cnt cb true s2 Hb2 Ht2). intros _ s3 (Hb3 & Ht3 & Hl3 & F3).
  destruct (bs_group _ _ _ Hb3) as (b & Eb & Hg).
  eapply returns_intro; [by apply clear_event_eq|]. split_and!.
  - destruct Hb3. constructor; try done. eexists. split; [done|]. by apply group_ldiff.
  - exact Ht3.
  - exact Hl3.
  - eexists. split; [done|]. apply Z.bits_inj'. intros k Hk. rewrite Z.bits_0, Z.land_spec, Z.ldiff_spec.
    assert (Hbk : Z.testbit (Z.land b 192) k = false) by (by rewrite Hg, Z.bits_0). rewrite Z.land_spec in Hbk.
    destruct (Z.testbit b k); [|done]. cbn [andb] in *.
    change 195 with (Z.lor 192 PLS_EVENTS). rewrite Z.lor_spec, Hbk. cbn [orb]. by destruct (Z.testbit PLS_EVENTS k).
  - unfold work in *. cbn [s_instance set_s_event_group]. rewrite !(fd_left _ _ F3). lia.
  - intros Hpz Hpend. cbn [s_instance set_s_event_group]. rewrite <- (P1 Hpend), <- (N2 Hpz). f_equal. apply (fd_pending _ _ F3).
    rewrite (pending_either MS41908M_TYPE_ZOOM), (N2 Hpz), (P1 Hpend), Hpend by done. done.
Qed.

(** A wait for a bit that is set returns at once. *)
Lemma wait_ready meanwhile mask timeout_ms (s : ms) b :
  s_event_group s = Some b -> has b mask = true ->
  ms41908m_port_wait_for_event meanwhile mask timeout_ms false false s = Ret b s.
Proof.
  intros Eg Hh. unfold ms41908m_port_wait_for_event. erewrite bind_ret_eq by reflexivity. rewrite Eg.
  unfold bits_ready. rewrite Hh. cbn [negb andb]. erewrite bind_ret_eq by reflexivity. erewrite bind_ret_eq by reflexivity.
  rewrite Eg. erewrite bind_ret_eq by reflexivity. change (default 0 (Some b)) with b. by rewrite Hh.
Qed.

(** A wait during which nothing happens and nothing is set. *)
Lemma wait_nothing mask timeout_ms (s : ms) b :
  s_event_group s = Some b -> has b mask = false ->
  ms41908m_port_wait_for_event (mret tt) mask timeout_ms false false s = Ret 0 s.
Proof.
  intros Eg Hh. unfold ms41908m_port_wait_for_event. erewrite bind_ret_eq by reflexivity. rewrite Eg.
  unfold bits_ready. rewrite Hh. cbn [negb andb]. erewrite bind_ret_eq by (by destruct (negb (timeout_ms =? 0))).
  erewrite bind_ret_eq by reflexivity. rewrite Eg. erewrite bind_ret_eq by reflexivity.
  change (default 0 (Some b)) with b. by rewrite Hh.
Qed.

(** A wait during which the bits are set. *)
Lemma wait_filled meanwhile mask timeout_ms (s : ms) b b' s' :
  s_event_group s = Some b -> timeout_ms <> 0 -> has b mask = false -> meanwhile s = Ret tt s' -> s_event_group s' = Some b' ->
  has b' mask = true -> ms41908m_port_wait_for_event meanwhile mask timeout_ms false false s = Ret b' s'.
Proof.
  intros Eg Ht Hh Em Eg' Hh'. unfold ms41908m_port_wait_for_event. erewrite bind_ret_eq by reflexivity. rewrite Eg.
  unfold bits_ready. rewrite Hh, (proj2 (Z.eqb_neq _ _) Ht). cbn [negb andb]. erewrite bind_ret_eq by exact Em.
  erewrite bind_ret_eq by reflexivity. rewrite Eg'. erewrite bind_ret_eq by reflexivity.
  change (default 0 (Some b')) with b'. by rewrite Hh'.
Qed.

(** The task has been woken up with [bits]. *)
Lemma task_woken off dst cnt cb s bits (pf pz : bool) :
  base cb false s -> tracked off dst cnt s -> s_app_notify s = [] ->
  (forall e, Z.land 195 e = e -> has bits e = has (sig_bits pf pz) e) -> pf || pz = true ->
  (pf = true -> batch_pending (axis MS41908M_TYPE_FOCUS s) = true) ->
  (pz = true -> batch_pending (axis MS41908M_TYPE_ZOOM s) = true) -> in_time s ->
  returns (ret ← ms41908m_port_lock;
           if negb (ret =? SYS_OK) then mret tt
           else motor_task_locked bits;; ms41908m_port_unlock;; ms41908m_dispatch_pending_app_events)
    (fun _ s' => ready cb s' /\ tracked off dst cnt s' /\ live s' /\ (work s' < work s)%nat /\
       (pz = false -> batch_pending (axis MS41908M_TYPE_ZOOM s) = true -> axis MS41908M_TYPE_ZOOM s' = axis MS41908M_TYPE_ZOOM s)) s.
Proof.
  intros Hb1 Ht1 Hn Hbits Hp Hf Hz Htime.
  destruct (port_lock_ok s (bs_hw _ _ _ Hb1) (bs_mutex _ _ _ Hb1)) as (E2 & S2). rrun E2.
  change (SYS_OK =? SYS_OK) with true. cbn [negb].
  set (s2 := set_s_mutex (Some true) (set_s_hw (taken (s_hw s)) s)).
  assert (Hb2 : base cb true s2) by (destruct Hb1; constructor; try done; apply S2).
  assert (Ht2 : tracked off dst cnt s2).
  { intros ty Hm. destruct (Ht1 ty Hm) as [T C]. split; [|done]. by apply axis_track_same with (d := s_hw s). }
  unfold motor_task_locked. rstep. rewrite (bs_idle _ _ _ Hb2).
  change (ph_idle MS41908M_RZ_IDLE) with true. cbn iota. unfold tick. rstep.
  eapply returns_eq; [erewrite bind_ret_eq; [reflexivity|apply timeout_guard_ok; intros; by apply (Htime MS41908M_TYPE_FOCUS)]|].
  cbn beta. eapply returns_intro; [apply timeout_guard_ok; intros; by apply (Htime MS41908M_TYPE_ZOOM)|].
  unfold handle_requests. rewrite !Hbits by reflexivity.
  replace (has (sig_bits pf pz) MS41908M_EVENT_REQ_RESET_ZOOM) with false by (by destruct pf, pz).
  replace (has (sig_bits pf pz) MS41908M_EVENT_REQ_RESET_FOCUS) with false by (by destruct pf, pz). rstep.
  rcall (pls_events_ok off dst cnt cb s2 bits pf pz); [done|done|done|..]; try (rewrite Hbits by reflexivity; by destruct pf, pz);
    [done..|].
  intros _ s3 (Hb3 & Ht3 & Hl3 & (b3 & Eg3 & Hg3) & Hw3 & HZ3). rstep. rewrite (bs_idle _ _ _ Hb3).
  change (ph_idle MS41908M_RZ_IDLE) with true. cbn iota. rstep. rrun (port_unlock_ok _ (bs_mutex _ _ _ Hb3)).
  unfold ms41908m_dispatch_pending_app_events. rstep. cbn [s_app_event_cb set_s_mutex]. rewrite (bs_cb _ _ _ Hb3). rstep.
  split_and!.
  - constructor; [destruct Hb3; constructor; try done|done|by exists b3].
  - intros ty Hm. destruct (Ht3 ty Hm) as [T C]. split; [exact T|]. rewrite <- C.
    unfold done_count, log_of. cbn [s_app_calls s_app_notify set_s_app_notify set_s_app_calls set_s_mutex s_instance].
    rewrite map_app, map_map, app_nil_r. do 4 f_equal. rewrite <- (map_id (s_app_notify s3)) at 2. apply map_ext. by intros [].
  - exact Hl3.
  - assert (Ew : work s2 = work s) by reflexivity. unfold work in *. cbn [s_instance set_s_app_notify set_s_app_calls set_s_mutex] in *.
    destruct pf, pz; [lia..|done].
  - exact HZ3.
Qed.

(** ** One round *)
(** The signals are in the event group when the task looks at it. *)
Lemma signalled_wake off dst cnt cb s b (pf pz : bool) :
  base cb false s -> tracked off dst cnt s -> s_app_notify s = [] -> Z.land b 195 = 0 ->
  s_event_group s = Some (Z.lor b (sig_bits pf pz)) ->
  (pf = true -> batch_pending (axis MS41908M_TYPE_FOCUS s) = true) ->
  (pz = true -> batch_pending (axis MS41908M_TYPE_ZOOM s) = true) -> pf || pz = true -> in_time s ->
  returns task (fun _ s' => ready cb s' /\ tracked off dst cnt s' /\ live s' /\ (work s' < work s)%nat) s.
Proof.
  intros Hb Ht Hn Hg Eg Hf Hz Hp Htime. set (b1 := Z.lor b (sig_bits pf pz)) in *.
  assert (Hbits : forall e, Z.land 195 e = e -> has b1 e = has (sig_bits pf pz) e).
  { intros e He. apply has_lor. by eapply land_sub. }
  unfold task, ms41908m_motor_task_handler. rstep. apply returns_bind.
  eapply returns_intro; [apply wait_ready with (b := b1); [done|]|].
  { unfold task_wait_mask. rewrite (bs_idle _ _ _ Hb), Hbits by reflexivity. by destruct pf, pz. }
  rstep. eapply returns_mono; [by apply (task_woken off dst cnt cb s b1 pf pz)|]. naive_solver.
Qed.

(** A signal sets its bits and nothing else. *)
Lemma base_signalled cb s b pf pz : base cb false s -> Z.land b 195 = 0 ->
  base cb false (set_s_event_group (Some (Z.lor b (sig_bits pf pz))) s).
Proof.
  intros Hb Hg. destruct Hb. constructor; try done. eexists. split; [done|]. apply group_lor; [|by destruct pf, pz].
  by apply (land_sub b 195).
Qed.

(** A wake-up with no signal changes no axis and no motor; what arrives while the task
    waits for the lock stays pending. *)
Lemma idle_wake off dst cnt cb s b (pf pz : bool) :
  base cb false s -> tracked off dst cnt s -> live s -> s_app_notify s = [] -> s_event_group s = Some b -> Z.land b 195 = 0 ->
  in_time s -> pf || pz = true ->
  returns (ms41908m_motor_task_handler (mret tt) (signal pf pz))
    (fun _ s' => base cb false s' /\ tracked off dst cnt s' /\ live s' /\ s_app_notify s' = [] /\
       s_event_group s' = Some (Z.lor b (sig_bits pf pz)) /\ s_instance s' = s_instance s) s.
Proof.
  intros Hb Ht Hl Hn Eg Hg Htime Hp. unfold ms41908m_motor_task_handler. rstep. apply returns_bind.
  eapply returns_intro with (a := 0) (s' := s).
  { apply wait_nothing with (b := b); [done|]. unfold task_wait_mask. rewrite (bs_idle _ _ _ Hb).
    change (ph_idle MS41908M_RZ_IDLE) with true. cbn iota. unfold has. by rewrite (land_sub b 195). }
  rrun (signal_eq s b pf pz Eg). rewrite Hp. set (s1 := set_s_event_group _ s).
  pose proof (base_signalled cb s b pf pz Hb Hg) as Hb1. fold s1 in Hb1.
  destruct (port_lock_ok s1 (bs_hw _ _ _ Hb1) (bs_mutex _ _ _ Hb1)) as (E2 & S2). rrun E2.
  change (SYS_OK =? SYS_OK) with true. cbn [negb]. unfold motor_task_locked. rstep.
  cbn [s_rst set_s_mutex set_s_hw]. rewrite (bs_idle _ _ _ Hb1). change (ph_idle MS41908M_RZ_IDLE) with true. cbn iota.
  unfold tick. rstep.
  eapply returns_eq; [erewrite bind_ret_eq; [reflexivity|apply timeout_guard_ok; intros; by apply (Htime MS41908M_TYPE_FOCUS)]|].
  cbn beta. eapply returns_intro; [apply timeout_guard_ok; intros; by apply (Htime MS41908M_TYPE_ZOOM)|].
  do 3 rpure. cbn [s_rst set_s_mutex set_s_hw]. rewrite (bs_idle _ _ _ Hb1). change (ph_idle MS41908M_RZ_IDLE) with true. cbn iota.
  rstep. rpure. unfold ms41908m_dispatch_pending_app_events. rstep. cbn [s_app_event_cb set_s_mutex set_s_hw].
  rewrite (bs_cb _ _ _ Hb1). rstep. split_and!.
  - destruct Hb1. constructor; try done. apply S2.
  - intros ty Hm. destruct (Ht ty Hm) as [T C]. split; [by apply axis_track_same with (d := s_hw s)|].
    rewrite <- C. unfold done_count, log_of. cbn. by rewrite Hn, !app_nil_r.
  - exact Hl.
  - done.
  - done.
  - done.
Qed.

Lemma round_ok off dst cnt cb s w (pf pz : bool) :
  ready cb s -> tracked off dst cnt s -> live s ->
  (pf = true -> batch_pending (axis MS41908M_TYPE_FOCUS s) = true) ->
  (pz = true -> batch_pending (axis MS41908M_TYPE_ZOOM s) = true) -> pf || pz = true -> in_time s ->
  (w = IdleWake -> forall s1, ms41908m_motor_task_handler (mret tt) (signal pf pz) s = Ret tt s1 -> in_time s1) ->
  returns (handled w pf pz)
    (fun _ s' => ready cb s' /\ tracked off dst cnt s' /\ live s' /\ (work s' < work s)%nat) s.
Proof.
  intros [Hb Hn (b & Eg & Hg)] Ht Hl Hf Hz Hp Htime Hlate.
  pose proof (base_signalled cb s b pf pz Hb Hg) as Hb1. set (s1 := set_s_event_group _ s) in Hb1.
  assert (Es : signal pf pz s = Ret tt s1) by (rewrite (signal_eq s b pf pz Eg); by rewrite Hp).
  destruct w; cbn [handled].
  - rrun Es. by apply (signalled_wake off dst cnt cb s1 b pf pz).
  - unfold ms41908m_motor_task_handler. rstep. apply returns_bind.
    eapply returns_intro with (a := Z.lor b (sig_bits pf pz)) (s' := s1).
    { apply (wait_filled _ _ _ _ b); [done|lia| |done|done|].
      - unfold task_wait_mask. rewrite (bs_idle _ _ _ Hb). change (ph_idle MS41908M_RZ_IDLE) with true. cbn iota.
        unfold has. by rewrite (land_sub b 195).
      - unfold task_wait_mask. rewrite (bs_idle _ _ _ Hb), has_lor by (by apply (land_sub b 195)). by destruct pf, pz. }
    rstep. eapply returns_mono; [apply (task_woken off dst cnt cb s1 (Z.lor b (sig_bits pf pz)) pf pz); try done|naive_solver].
    intros e He. apply has_lor. by eapply land_sub.
  - pose proof (idle_wake off dst cnt cb s b pf pz Hb Ht Hl Hn Eg Hg Htime Hp) as R.
    apply returns_elim in R as ([] & s2 & E2 & Hb2 & Ht2 & _ & Hn2 & Eg2 & Ei). rrun E2.
    assert (Ew : work s2 = work s) by (unfold work; by rewrite Ei). rewrite <- Ew.
    apply (signalled_wake off dst cnt cb s2 b pf pz); rewrite ?Ei; auto.
Qed.
End Rounds.
