(* ===== verification/Ms41908mStart.v ===== *)
(** Starting moves on hardware in working order: the first batch of each axis is
    loaded, and the invariant of the counters holds with the new destination. *)
From S2P Require Import Prelude Ms41908mReg Ms41908m Ms41908mPort Ms41908mRun Ms41908mRounds.

(** ** The first batch *)
Lemma sync_psum_range pps n : 1 <= n <= 65535 -> 1 <= sync_psum pps n <= 255 /\ sync_psum pps n <= n.
Proof.
  intros Hn. unfold sync_psum. set (p := u16 (MS41908M_CALC_PSUM_FROM_INTCT _)).
  assert (0 <= p < 65536) by apply u16_range. rewrite (u16_small n) by lia.
  destruct (n <? p) eqn:E1, (255 <? _) eqn:E2; cbool; destruct (_ <? 1) eqn:E3; cbool; lia.
Qed.
Lemma start_psum_range pps n : 1 <= n <= 65535 -> 1 <= start_psum pps n <= 255 /\ start_psum pps n <= n.
Proof.
  intros Hn. unfold start_psum. set (p := u16 (MS41908M_CALC_PSUM_FROM_INTCT _)).
  assert (0 <= p < 65536) by apply u16_range. rewrite (u16_small n) by lia.
  destruct (255 <? p) eqn:E1; cbool; [|destruct (p <? 1) eqn:E2; cbool]; destruct (n <? _) eqn:E3; cbool; lia.
Qed.
Lemma sync_intct_range psum : 0 <= sync_intct psum < 65536.
Proof.
  unfold sync_intct. pose proof (u16_range (MS41908M_CALC_INTCT_FROM_PSUM psum)).
  destruct (65535 <? _) eqn:E1; cbool; destruct (_ <? 1) eqn:E2; cbool; lia.
Qed.
Lemma start_intct_range pps : 0 <= start_intct pps < 65536.
Proof.
  unfold start_intct. pose proof (u16_range (MS41908M_CALC_INTCT_FROM_PPS pps)).
  destruct (65535 <? _) eqn:E1; cbool; [lia|]. destruct (_ <? 1) eqn:E2; cbool; lia.
Qed.
Lemma land_half v : 0 <= v < 65536 -> Z.land v 65535 = v.
Proof. intros. change 65535 with (Z.ones 16). rewrite Z.land_ones by lia. apply Z.mod_small. change (2 ^ 16) with 65536. lia. Qed.

(** Arguments of a move that are in range. *)
Definition move_ok (pps n pos : Z) : Prop :=
  n = 0 \/ (MS41908M_RAW_PPS_MIN <= pps <= MS41908M_RAW_PPS_MAX /\ 1 <= Z.abs n <= 65535 /\ in32 (pos + n)).

(** The run configuration for a move of [n] micro steps with a first batch of [psum]. *)
Definition loaded (psum intct n : Z) : ms41908m_run_config_t :=
  mkRun true (if 0 <=? n then 1 else 0) intct (Z.abs n - psum) psum.

Definition move_to (ty : ms41908m_type_t) (n : Z) (dst : ms41908m_type_t -> Z) (t : ms41908m_type_t) : Z :=
  if bool_decide (t = ty) then dst t + n else dst t.
Definition count_up (ty : ms41908m_type_t) (n : Z) (cnt : ms41908m_type_t -> nat) (t : ms41908m_type_t) : nat :=
  if bool_decide (t = ty) then if n =? 0 then cnt t else S (cnt t) else cnt t.

Lemma other_neq ty : motor ty -> bool_decide (other_axis ty = ty) = false.
Proof. intros Hm. apply bool_decide_eq_false_2. by destruct ty; [| |destruct Hm]. Qed.
Lemma move_to_own ty n dst : move_to ty n dst ty = dst ty + n.
Proof. unfold move_to. by rewrite bool_decide_eq_true_2. Qed.
Lemma move_to_other ty n dst : motor ty -> move_to ty n dst (other_axis ty) = dst (other_axis ty).
Proof. intros. unfold move_to. by rewrite other_neq. Qed.
Lemma count_up_other ty n cnt : motor ty -> count_up ty n cnt (other_axis ty) = cnt (other_axis ty).
Proof. intros. unfold count_up. by rewrite other_neq. Qed.
Lemma move_to_zero ty dst t : move_to ty 0 dst t = dst t.
Proof. unfold move_to. destruct (bool_decide _); lia. Qed.
Lemma count_up_zero ty cnt t : count_up ty 0 cnt t = cnt t.
Proof. unfold count_up. by destruct (bool_decide _). Qed.

Section Start.
Context `{LensHwLaws D}.
Notation ms := (ms_state D).
Notation axis ty s := (axis_of ty (s_instance s)).

Lemma tracked_ext off dst dst' cnt cnt' (s : ms) :
  (forall ty, dst' ty = dst ty) -> (forall ty, cnt' ty = cnt ty) -> tracked off dst cnt s -> tracked off dst' cnt' s.
Proof. intros Ed Ec Ht ty Hm. unfold axis_ok. rewrite Ed, Ec. by apply Ht. Qed.

Lemma abs_ok n (s : ms) : in32 (- n) -> MS41908M_ABS n s = Ret (Z.abs n) s.
Proof.
  intros Hn. unfold MS41908M_ABS. destruct (n <? 0) eqn:E; cbool; [rewrite int32_ok by done|]; unfold mret, M_ret; f_equal; lia.
Qed.

Lemma pps_addr_range ty : 0 <= pps_addr ty < 64.
Proof. destruct ty; cbn; unfold MS41908M_REG_FOCUS_PPS, MS41908M_REG_ZOOM_PPS; lia. Qed.
Lemma pps_not_step ty t : (step_addr t =? pps_addr ty) = false.
Proof. by destruct ty, t. Qed.

(** An idle axis whose first batch was written to the chip and that is set running. *)
Lemma loaded_moving ty d d' off dst a psum intct n :
  axis_idle ty d off dst a -> 1 <= psum <= 255 -> psum <= Z.abs n <= 65535 -> n <> 0 -> in32 (dst + n) ->
  (forall t, hw_moved d' t = hw_moved d t) ->
  step_loaded (hw_reg d' (step_addr ty)) (if 0 <=? n then 1 else 0) psum ->
  forall b, running b = true -> ax_run_config b = loaded psum intct n -> ax_position b = ax_position a ->
  batch_pending b = false -> axis_moving ty d' off (dst + n) b.
Proof.
  intros Hi Hp Hn Hnz Hin Mv Hs b Er Ec Epos Epend. pose proof (ai_moved _ _ _ _ _ Hi). pose proof (ai_in _ _ _ _ _ Hi).
  constructor; rewrite ?Ec, ?Epend, ?Epos, ?Mv; cbn [loaded rc_is_valid rc_direction rc_load_psum rc_unload_psum];
    try done; try lia.
  - destruct (0 <=? n); auto.
  - rewrite (ai_dst _ _ _ _ _ Hi). unfold sign. destruct (0 <=? n) eqn:E; cbool; cbn; lia.
  - by rewrite (ai_dst _ _ _ _ _ Hi).
Qed.

Lemma loaded_left a psum intct n :
  1 <= psum -> psum <= Z.abs n -> running a = true -> ax_run_config a = loaded psum intct n ->
  left_of a = Z.to_nat ((Z.abs n + psum - 1) / psum).
Proof.
  intros Hp Hn Hr Ec. unfold left_of. rewrite Hr, Ec. cbn [loaded rc_load_psum rc_unload_psum].
  replace (Z.abs n + psum - 1) with ((Z.abs n - psum + psum - 1) + 1 * psum) by lia.
  rewrite Z.div_add by lia. rewrite Z2Nat.inj_add by (try apply Z.div_pos; lia). lia.
Qed.

Definition batches (psum n : Z) : nat := if n =? 0 then 0 else Z.to_nat ((Z.abs n + psum - 1) / psum).

(** Axis [ty] is about to move by [n]; nothing else has changed. *)
Record started off dst cnt (cb : Z) (m : bool) (ty : ms41908m_type_t) (psum n : Z) (s s' : ms) : Prop := {
  sd_base : base cb m s';
  sd_tracked : tracked off (move_to ty n dst) (count_up ty n cnt) s';
  sd_notify : s_app_notify s' = s_app_notify s;
  sd_other : axis (other_axis ty) s' = axis (other_axis ty) s;
  sd_batch : ax_batch_active (axis ty s') = false;
  sd_run : running (axis ty s') = negb (n =? 0);
  sd_left : left_of (axis ty s') = batches psum n;
  sd_moved t : hw_moved (s_hw s') t = hw_moved (s_hw s) t;
  sd_pos : ax_position (axis ty s') = ax_position (axis ty s);
  sd_reg : n <> 0 -> step_loaded (hw_reg (s_hw s') (step_addr ty)) (if 0 <=? n then 1 else 0) psum;
  sd_group b : s_event_group s = Some b -> exists b', s_event_group s' = Some b' /\ (Z.land b 195 = 0 -> Z.land b' 195 = 0)
}.

Lemma ldiff_zero b m e : Z.land b m = 0 -> Z.land (Z.ldiff b e) m = 0.
Proof. intros Hb. rewrite Z.ldiff_land, <- Z.land_assoc, (Z.land_comm _ m), Z.land_assoc, Hb. apply Z.land_0_l. Qed.

(** The registers are written, the completion bit is cleared, the axis is running. *)
Lemma started_intro off dst cnt cb m ty psum intct n s d' b f :
  motor ty -> base cb m s -> tracked off dst cnt s -> running (axis ty s) = false ->
  1 <= psum <= 255 -> psum <= Z.abs n <= 65535 -> n <> 0 -> in32 (ax_position (axis ty s) + n) ->
  hw_touch ty (s_hw s) d' -> step_loaded (hw_reg d' (step_addr ty)) (if 0 <=? n then 1 else 0) psum ->
  s_event_group s = Some b ->
  running (f (axis ty s)) = true -> ax_run_config (f (axis ty s)) = loaded psum intct n ->
  ax_position (f (axis ty s)) = ax_position (axis ty s) -> ax_batch_active (f (axis ty s)) = false ->
  started off dst cnt cb m ty psum n s
    (set_s_instance (put_axis ty (f (axis ty s)) (s_instance s))
       (set_s_event_group (Some (Z.ldiff b (completed_event ty))) (set_s_hw d' s))).
Proof.
  intros Hm Hb Ht Hr Hp Hn Hnz Hin Hh Hs Eg Fr Fc Fp Fb. destruct (Ht ty Hm) as [[Hi|Hmv] Hc].
  2:{ rewrite (am_run _ _ _ _ _ Hmv) in Hr. done. }
  assert (Fpend : batch_pending (f (axis ty s)) = false) by (unfold batch_pending; by rewrite Fb).
  constructor; cbn [s_instance s_hw s_app_notify s_app_calls s_event_group set_s_instance set_s_hw set_s_event_group];
    rewrite ?axis_of_put, ?axis_of_put_other by done; unfold batches; rewrite ?(proj2 (Z.eqb_neq _ _) Hnz); try done.
  - destruct Hb as [? ? ? ? ? (b0 & Eb & Hg)]. constructor; try done; [apply Hh|by destruct ty|].
    eexists. split; [done|]. apply group_ldiff. congruence.
  - apply tracked_upd with (dst := dst) (cnt := cnt) (ty := ty) (s := s) (a := f (axis ty s)); try done.
    + right. rewrite move_to_own. eapply loaded_moving; try done; [by rewrite <- (ai_dst _ _ _ _ _ Hi)|apply Hh].
    + unfold count_up. rewrite bool_decide_eq_true_2, (proj2 (Z.eqb_neq _ _) Hnz), Fr by done. rewrite Hr in Hc. lia.
    + by apply move_to_other.
    + by apply count_up_other.
  - eapply loaded_left; try done; lia.
  - apply Hh.
  - intros b0 Eb. eexists. split; [done|]. intros Hz. apply ldiff_zero. congruence.
Qed.

(** ** One axis of the synchronous move *)
Lemma sync_axis_ok off dst cnt cb m ty pps n s :
  motor ty -> base cb m s -> tracked off dst cnt s -> running (axis ty s) = false -> ax_batch_active (axis ty s) = false ->
  n <> 0 -> move_ok pps n (ax_position (axis ty s)) ->
  returns (sync_axis ty pps n)
    (fun r s' => r = SyncDone /\ started off dst cnt cb m ty (sync_psum pps (Z.abs n)) n s s') s.
Proof.
  intros Hm Hb Ht Hr Hba Hnz [?|(Hpps & Hn & Hin)]; [done|].
  destruct (sync_psum_range pps (Z.abs n) Hn) as [Hp1 Hp2].
  set (psum := sync_psum pps (Z.abs n)) in *. set (intct := sync_intct psum).
  unfold sync_axis. rewrite (proj2 (Z.eqb_neq _ _) Hnz), (proj2 (Z.ltb_ge _ _)), (proj2 (Z.ltb_ge _ _)) by lia. cbn [orb].
  eapply returns_eq; [erewrite bind_ret_eq; [reflexivity|apply abs_ok; unfold in32; lia]|]. cbn beta.
  unfold MS41908M_RAW_PSUM_MIN, MS41908M_RAW_PSUM_MAX. rewrite (proj2 (Z.ltb_ge _ _)), (proj2 (Z.ltb_ge _ _)) by lia. cbn [orb].
  fold psum. fold intct. rpure.
  match goal with |- returns _ _ ?x => set (s1 := x) end.
  assert (Hd1 : hw_ok (s_hw s1)) by apply Hb.
  rewrite (land_half intct) by apply sync_intct_range.
  destruct (port_write_ok s1 (pps_addr ty) intct Hd1 (pps_addr_range ty) (sync_intct_range psum)) as (d2 & E2 & W2).
  rrun E2.
  change (SYS_OK =? SYS_OK) with true. cbn [negb].
  destruct (step_addr_range ty) as [Hra Hri].
  destruct (port_read_ok (set_s_hw d2 s1) _ (proj1 W2) Hra Hri) as (d3 & E3 & S3).
  rrun E3.
  change (SYS_OK =? SYS_OK) with true. cbn [negb default].
  set (v := step_value _ psum _).
  assert (HL : step_loaded v (if 0 <=? n then 1 else 0) psum) by (apply step_value_loaded; [apply reg_half, W2|lia]).
  destruct (port_write_ok (set_s_hw d3 (set_s_hw d2 s1)) (step_addr ty) v (proj1 S3) Hra (sl_range _ _ _ HL)) as (d4 & E4 & W4).
  rrun E4.
  change (SYS_OK =? SYS_OK) with true. cbn [negb].
  destruct (bs_group _ _ _ Hb) as (b & Eg & Hg).
  eapply returns_eq; [erewrite bind_ret_eq by (by apply (clear_event_eq _ _ b)); reflexivity|]. cbn beta.
  do 2 rpure. rstep. split; [done|].
  assert (Hh : hw_touch ty (s_hw s) d4).
  { eapply touch_trans; [apply (touch_written ty _ _ _ _ (or_intror eq_refl) Hm W2)|].
    eapply touch_trans; [apply (touch_same ty _ _ S3)|apply (touch_written ty _ _ _ _ (or_introl eq_refl) Hm W4)]. }
  assert (HL4 : step_loaded (hw_reg d4 (step_addr ty)) (if 0 <=? n then 1 else 0) psum).
  { destruct W4 as (_ & R & _). by rewrite R, Z.eqb_refl. }
  pose proof (started_intro off dst cnt cb m ty psum intct n s d4 b
    (fun a => set_ax_state MS41908M_STATE_RUNNING (set_ax_start_tick (osKernelGetTickCount d4)
       (set_ax_run_config (loaded psum intct n) a)))) as HS.
  match goal with |- started _ _ _ _ _ _ _ _ _ ?x => match type of HS with context [started _ _ _ _ _ _ _ _ _ ?y] =>
    replace x with y by (unfold s1; by destruct ty, s, s_instance; [| |destruct Hm]) end end.
  apply HS; try done; lia.
Qed.

Lemma sync_axis_any off dst cnt cb m ty pps n s :
  motor ty -> base cb m s -> tracked off dst cnt s -> running (axis ty s) = false -> ax_batch_active (axis ty s) = false ->
  move_ok pps n (ax_position (axis ty s)) ->
  returns (sync_axis ty pps n)
    (fun r s' => r = SyncDone /\ started off dst cnt cb m ty (sync_psum pps (Z.abs n)) n s s') s.
Proof.
  intros Hm Hb Ht Hr Hba Hok. destruct (Z.eq_dec n 0) as [->|Hnz]; [|by apply sync_axis_ok].
  unfold sync_axis. rewrite Z.eqb_refl. rstep. split; [done|]. constructor; try done.
  - eapply tracked_ext; [intros; apply move_to_zero|intros; apply count_up_zero|done].
  - unfold left_of. by rewrite Hr.
  - intros b Eg. by exists b.
Qed.

(** ** The synchronous move *)
Definition startable (a : axis_t) : Prop :=
  running a = false /\ ax_batch_active a = false /\ ax_state a <> MS41908M_STATE_NO_CFG /\
  ax_state a <> MS41908M_STATE_RESET_ZERO.

Lemma startable_cfg a : startable a -> st_eq (ax_state a) MS41908M_STATE_NO_CFG = false.
Proof. intros (_ & _ & ? & _). by apply bool_decide_eq_false_2. Qed.

Lemma axis_busy_ok ty (s : ms) : startable (axis ty s) -> rz_phase (s_rst s) = MS41908M_RZ_IDLE -> axis_busy ty s = Ret false s.
Proof.
  intros (Hr & _ & _ & Hz) Hi. unfold axis_busy, ax, ms41908m_reset_sm_active. do 2 erewrite bind_ret_eq by reflexivity.
  rewrite Hr, Hi. unfold st_eq. by rewrite bool_decide_eq_false_2 by done.
Qed.

Lemma unlocked_ready cb (s : ms) :
  base cb true s -> s_app_notify s = [] -> (exists b, s_event_group s = Some b /\ Z.land b 195 = 0) ->
  ready cb (set_s_mutex (Some false) s).
Proof. intros [] Hn Hg. constructor; [constructor|..]; done. Qed.

Lemma lock_tracked off dst cnt cb s :
  base cb false s -> tracked off dst cnt s ->
  let s1 := set_s_mutex (Some true) (set_s_hw (taken (s_hw s)) s) in
  ms41908m_port_lock s = Ret SYS_OK s1 /\ base cb true s1 /\ tracked off dst cnt s1.
Proof.
  intros Hb Ht s1. destruct (port_lock_ok s (bs_hw _ _ _ Hb) (bs_mutex _ _ _ Hb)) as (E & S).
  split; [done|]. split; [destruct Hb; constructor; try done; apply S|].
  intros ty Hm. destruct (Ht ty Hm) as [T C]. split; [|done]. by apply axis_track_same with (d := s_hw s).
Qed.

Lemma mark_both_rev (k : unit -> M ms Z) s :
  (mark_batch MS41908M_TYPE_ZOOM;; mark_batch MS41908M_TYPE_FOCUS ≫= k) s =
  k tt (set_s_instance (mark_all (now_of s) (s_instance s)) s).
Proof.
  erewrite bind_ret_eq by (by apply mark_batch_eq). erewrite bind_ret_eq by (by apply mark_batch_eq). reflexivity.
Qed.

(** The pulse that starts both axes. *)
Lemma sync_go_ok off dst cnt cb s :
  base cb true s -> tracked off dst cnt s -> s_app_notify s = [] ->
  (exists b, s_event_group s = Some b /\ Z.land b 195 = 0) ->
  (forall ty, motor ty -> ax_batch_active (axis ty s) = false) ->
  returns sync_go (fun r s' => r = SYS_OK /\ ready cb s' /\ tracked off dst cnt s' /\ live s' /\ work s' = work s) s.
Proof.
  intros Hb Ht Hn Hg Hba. unfold sync_go. rpure.
  assert (Hp : MS41908M_BATCH_PENDING (s_instance s) = false).
  { unfold MS41908M_BATCH_PENDING, batch_pending.
    pose proof (Hba MS41908M_TYPE_FOCUS) as Hf. pose proof (Hba MS41908M_TYPE_ZOOM) as Hz. cbn in Hf, Hz.
    by rewrite Hf, Hz. }
  destruct (negb (running (i_zoom (s_instance s))) && negb (running (i_focus (s_instance s)))) eqn:Er; cbool.
  - rrun (port_unlock_ok _ (bs_mutex _ _ _ Hb)). rstep. split_and!; try done; [by apply unlocked_ready|].
    intros ty Hm Hr. by destruct ty; cbn in Hr; congruence.
  - eapply returns_eq; [apply mark_both_rev|]. cbn beta.
    set (s1 := set_s_instance (mark_all (now_of s) (s_instance s)) s).
    destruct (output_vd_ok s1 MS41908M_TYPE_FOCUS (bs_hw _ _ _ Hb)) as (d' & E & He); [done|].
    destruct (fire_state off dst cnt cb true s d' Hb Ht Hp He) as (Hb' & Ht' & Hl' & F').
    rrun E. rrun (port_unlock_ok _ (bs_mutex _ _ _ Hb')). rstep.
    split_and!; try done; [apply unlocked_ready; done|].
    unfold work. f_equal; apply (fd_left _ _ F').
Qed.

Definition both_dst (zn fn : Z) (dst : ms41908m_type_t -> Z) := move_to MS41908M_TYPE_FOCUS fn (move_to MS41908M_TYPE_ZOOM zn dst).
Definition both_cnt (zn fn : Z) (cnt : ms41908m_type_t -> nat) := count_up MS41908M_TYPE_FOCUS fn (count_up MS41908M_TYPE_ZOOM zn cnt).

Lemma sync_run_ok off dst cnt cb zp zn fp fn s :
  ready cb s -> tracked off dst cnt s -> (forall ty, motor ty -> startable (axis ty s)) ->
  move_ok zp zn (ax_position (i_zoom (s_instance s))) -> move_ok fp fn (ax_position (i_focus (s_instance s))) ->
  returns (ms41908m_zf_sync_run zp zn fp fn)
    (fun r s' => r = SYS_OK /\ ready cb s' /\ tracked off (both_dst zn fn dst) (both_cnt zn fn cnt) s' /\ live s' /\
       work s' = (batches (sync_psum zp (Z.abs zn)) zn + batches (sync_psum fp (Z.abs fn)) fn)%nat) s.
Proof.
  intros [Hb Hn (b & Eg & Hg)] Ht Hst Hz Hf. unfold ms41908m_zf_sync_run.
  rpure. rewrite (bs_ini _ _ _ Hb). cbn [negb]. do 2 rpure.
  rewrite !startable_cfg by (by apply Hst). cbn [orb].
  destruct (lock_tracked off dst cnt cb s Hb Ht) as (E1 & Hb1 & Ht1). rrun E1.
  change (SYS_OK =? SYS_OK) with true. cbn [negb]. set (s1 := set_s_mutex _ _) in *.
  rrun (axis_busy_ok MS41908M_TYPE_ZOOM s1 (Hst MS41908M_TYPE_ZOOM ltac:(done)) (bs_idle _ _ _ Hb1)).
  rrun (axis_busy_ok MS41908M_TYPE_FOCUS s1 (Hst MS41908M_TYPE_FOCUS ltac:(done)) (bs_idle _ _ _ Hb1)). cbn [orb].
  rcall (sync_axis_any off dst cnt cb true MS41908M_TYPE_ZOOM zp zn s1); try done.
  { apply (Hst MS41908M_TYPE_ZOOM). done. }
  { apply (Hst MS41908M_TYPE_ZOOM). done. }
  intros r s2 (-> & S2). pose proof (sd_other _ _ _ _ _ _ _ _ _ _ S2) as Ho2. cbn [other_axis] in Ho2.
  rcall (sync_axis_any off _ _ cb true MS41908M_TYPE_FOCUS fp fn s2 ltac:(done) (sd_base _ _ _ _ _ _ _ _ _ _ S2) (sd_tracked _ _ _ _ _ _ _ _ _ _ S2)).
  { rewrite Ho2. apply (Hst MS41908M_TYPE_FOCUS). done. }
  { rewrite Ho2. apply (Hst MS41908M_TYPE_FOCUS). done. }
  { rewrite Ho2. done. }
  intros r s3 (-> & S3). pose proof (sd_other _ _ _ _ _ _ _ _ _ _ S3) as Ho3. cbn [other_axis] in Ho3.
  destruct (sd_group _ _ _ _ _ _ _ _ _ _ S2 b Eg) as (b2 & Eg2 & Hg2).
  destruct (sd_group _ _ _ _ _ _ _ _ _ _ S3 b2 Eg2) as (b3 & Eg3 & Hg3).
  eapply returns_mono; [apply (sync_go_ok off (both_dst zn fn dst) (both_cnt zn fn cnt) cb); try apply S3|].
  - by rewrite (sd_notify _ _ _ _ _ _ _ _ _ _ S3), (sd_notify _ _ _ _ _ _ _ _ _ _ S2).
  - exists b3. auto.
  - apply (motor_cases _ MS41908M_TYPE_FOCUS); [done|apply S3|]. cbn [other_axis]. rewrite Ho3. apply S2.
  - intros r s4 (-> & Hr4 & Ht4 & Hl4 & Hw4). split_and!; try done. rewrite Hw4. unfold work. rewrite Ho3.
    rewrite (sd_left _ _ _ _ _ _ _ _ _ _ S3), (sd_left _ _ _ _ _ _ _ _ _ _ S2). lia.
Qed.

(** ** A move of one axis *)
Definition within_limits (a : axis_t) (n : Z) : Prop :=
  ax_is_r_zero a = true -> ax_pos_min a < ax_pos_max a -> ax_pos_min a <= ax_position a + n <= ax_pos_max a.

Lemma limits_refuse_ok a n (s : ms) : in32 (ax_position a + n) -> within_limits a n -> limits_refuse a n s = Ret false s.
Proof.
  intros Hin Hw. unfold limits_refuse. destruct (ax_is_r_zero a && (ax_pos_min a <? ax_pos_max a)) eqn:E; [|done].
  cbool. erewrite bind_ret_eq by (by apply int32_ok). destruct (Hw) as [? ?]; [done..|].
  rewrite !(proj2 (Z.ltb_ge _ _)) by lia. done.
Qed.

Lemma start_impl_ok off dst cnt cb m ty pps n s :
  motor ty -> base cb m s -> tracked off dst cnt s -> ax_state (axis ty s) = MS41908M_STATE_STOPPED ->
  ax_batch_active (axis ty s) = false -> n <> 0 -> move_ok pps n (ax_position (axis ty s)) -> within_limits (axis ty s) n ->
  returns (ms41908m_motor_start_impl ty pps n)
    (fun r s' => r = SYS_OK /\ base cb m s' /\ tracked off (move_to ty n dst) (count_up ty n cnt) s' /\ live s' /\
       s_app_notify s' = s_app_notify s /\
       (forall b, s_event_group s = Some b -> exists b', s_event_group s' = Some b' /\ (Z.land b 195 = 0 -> Z.land b' 195 = 0)) /\
       left_of (axis ty s') = batches (start_psum pps (Z.abs n)) n /\
       left_of (axis (other_axis ty) s') = left_of (axis (other_axis ty) s)) s.
Proof.
  intros Hm Hb Ht Hst Hba Hnz [?|(Hpps & Hn & Hin)] Hlim; [done|].
  destruct (start_psum_range pps (Z.abs n) Hn) as [Hp1 Hp2].
  set (psum := start_psum pps (Z.abs n)) in *. set (intct := start_intct pps).
  assert (Hr : running (axis ty s) = false) by (unfold running, st_eq; by rewrite Hst).
  unfold ms41908m_motor_start_impl. rewrite (proj2 (Z.ltb_ge _ _)), (proj2 (Z.ltb_ge _ _)) by lia. cbn [orb].
  eapply returns_eq; [erewrite bind_ret_eq; [reflexivity|apply abs_ok; unfold in32; lia]|]. cbn beta.
  unfold MS41908M_RAW_PSUM_MIN, MS41908M_RAW_PSUM_MAX. rewrite (proj2 (Z.ltb_ge _ _)), (proj2 (Z.ltb_ge _ _)) by lia. cbn [orb].
  rewrite ty_eq_iris by done. rpure. rewrite Hr, Hst. unfold st_eq. rewrite bool_decide_eq_false_2, bool_decide_eq_true_2 by done.
  cbn [negb andb]. rrun (limits_refuse_ok _ _ s Hin Hlim). fold psum. fold intct. rpure.
  match goal with |- returns _ _ ?x => set (s1 := x) end.
  assert (Hd1 : hw_ok (s_hw s1)) by apply Hb. destruct (step_addr_range ty) as [Hra Hri].
  destruct (port_read_ok s1 _ Hd1 Hra Hri) as (d2 & E2 & S2). rrun E2.
  change (SYS_OK =? SYS_OK) with true. cbn [negb default].
  rewrite (land_half intct) by apply start_intct_range.
  destruct (port_write_ok (set_s_hw d2 s1) (pps_addr ty) intct (proj1 S2) (pps_addr_range ty) (start_intct_range pps)) as (d3 & E3 & W3).
  rrun E3. change (SYS_OK =? SYS_OK) with true. cbn [negb]. set (v := step_value _ psum _).
  assert (HL : step_loaded v (if 0 <=? n then 1 else 0) psum) by (apply step_value_loaded; [apply reg_half, Hb|lia]).
  destruct (port_write_ok (set_s_hw d3 (set_s_hw d2 s1)) (step_addr ty) v (proj1 W3) Hra (sl_range _ _ _ HL)) as (d4 & E4 & W4).
  rrun E4. change (SYS_OK =? SYS_OK) with true. cbn [negb].
  destruct (bs_group _ _ _ Hb) as (b & Eg & Hg).
  eapply returns_eq; [erewrite bind_ret_eq by (by apply (clear_event_eq _ _ b)); reflexivity|]. cbn beta.
  do 2 rpure. match goal with |- returns _ _ ?x => set (s5 := x) end.
  assert (Hh : hw_touch ty (s_hw s) d4).
  { eapply touch_trans; [apply (touch_same ty _ _ S2)|].
    eapply touch_trans; [apply (touch_written ty _ _ _ _ (or_intror eq_refl) Hm W3)|apply (touch_written ty _ _ _ _ (or_introl eq_refl) Hm W4)]. }
  assert (HL4 : step_loaded (hw_reg d4 (step_addr ty)) (if 0 <=? n then 1 else 0) psum).
  { destruct W4 as (_ & R & _). by rewrite R, Z.eqb_refl. }
  assert (S5 : started off dst cnt cb m ty psum n s s5).
  { pose proof (started_intro off dst cnt cb m ty psum intct n s d4 b
      (fun a => set_ax_pls_rcvd false (set_ax_batch_active false (set_ax_start_tick (osKernelGetTickCount d4)
         (set_ax_state MS41908M_STATE_RUNNING (set_ax_run_config (loaded psum intct n) a)))))) as HS.
    match type of HS with context [started _ _ _ _ _ _ _ _ _ ?y] =>
      replace s5 with y by (unfold s5, s1; by destruct ty, s, s_instance; [| |destruct Hm]) end.
    apply HS; try done; lia. }
  rcall (fire_vd_ok off _ _ cb m s5 ty Hm (sd_base _ _ _ _ _ _ _ _ _ _ S5) (sd_tracked _ _ _ _ _ _ _ _ _ _ S5)).
  intros _ s6 (Hb6 & Ht6 & Hl6 & F6). rstep. split_and!; try done.
  - by rewrite (fd_notify _ _ F6), (sd_notify _ _ _ _ _ _ _ _ _ _ S5).
  - rewrite (fd_group _ _ F6). intros. by apply S5.
  - rewrite (fd_left _ _ F6). apply S5.
  - by rewrite (fd_left _ _ F6), (sd_other _ _ _ _ _ _ _ _ _ _ S5).
Qed.

Lemma work_either ty (s : ms) : motor ty -> work s = (left_of (axis ty s) + left_of (axis (other_axis ty) s))%nat.
Proof. unfold work. destruct ty; intros Hm; cbn [other_axis]; [done|lia|by destruct Hm]. Qed.

Lemma axis_run_ok off dst cnt cb ty pps n s :
  motor ty -> ready cb s -> tracked off dst cnt s -> ax_state (axis ty s) = MS41908M_STATE_STOPPED ->
  ax_batch_active (axis ty s) = false -> n <> 0 -> move_ok pps n (ax_position (axis ty s)) -> within_limits (axis ty s) n ->
  returns (axis_run ty pps n)
    (fun r s' => r = SYS_OK /\ ready cb s' /\ tracked off (move_to ty n dst) (count_up ty n cnt) s' /\ live s' /\
       work s' = (batches (start_psum pps (Z.abs n)) n + left_of (axis (other_axis ty) s))%nat) s.
Proof.
  intros Hm [Hb Hn (b & Eg & Hg)] Ht Hst Hba Hnz Hok Hlim.
  assert (Hsa : startable (axis ty s)).
  { unfold startable, running, st_eq. rewrite Hst. by split_and!. }
  unfold axis_run. rpure. rewrite (bs_ini _ _ _ Hb), (proj2 (Z.eqb_neq _ _) Hnz). cbn [negb]. rpure.
  rewrite startable_cfg by done.
  destruct (lock_tracked off dst cnt cb s Hb Ht) as (E1 & Hb1 & Ht1). rrun E1.
  change (SYS_OK =? SYS_OK) with true. cbn [negb]. set (s1 := set_s_mutex _ _) in *.
  rrun (axis_busy_ok ty s1 Hsa (bs_idle _ _ _ Hb1)).
  rcall (start_impl_ok off dst cnt cb true ty pps n s1); try done.
  intros r s2 (-> & Hb2 & Ht2 & Hl2 & Hn2 & Hg2 & L2 & O2).
  rrun (port_unlock_ok _ (bs_mutex _ _ _ Hb2)). rstep. split_and!; try done.
  - apply unlocked_ready; [done| |].
    + rewrite Hn2. exact Hn.
    + destruct (Hg2 b Eg) as (b' & ? & ?). exists b'. auto.
  - rewrite (work_either ty) by done. cbn [s_instance set_s_mutex]. by rewrite L2, O2.
Qed.
End Start.
