(* ===== verification/Ms41908mProps.v ===== *)
(** The properties of the lens driver on hardware in working order: moves end where
    they should, and the ways in which they do not. *)
From stdpp Require Import relations.
From S2P Require Import Prelude Ms41908mReg Ms41908m Ms41908mPort Ms41908mRun Ms41908mRounds.
From S2P Require Import Ms41908mStart.

Section Moves.
Context `{LensHwLaws D}.
Notation ms := (ms_state D).
Notation axis ty s := (axis_of ty (s_instance s)).

Definition at_rest (s : ms) : Prop := forall ty, motor ty -> running (axis ty s) = false.

(** ** Executions *)
Lemma rounds_ok off dst cnt cb k s s' :
  ready cb s -> tracked off dst cnt s -> live s -> nsteps round k s s' ->
  ready cb s' /\ tracked off dst cnt s' /\ live s' /\ (work s' + k <= work s)%nat.
Proof.
  intros Hr Ht Hl Hs. revert Hr Ht Hl. induction Hs as [s|k s s1 s2 [w pf pz Hf Hz Hp Htime Hlate E] _ IH]; intros Hr Ht Hl.
  - split_and!; try done. lia.
  - pose proof (round_ok off dst cnt cb s w pf pz Hr Ht Hl Hf Hz Hp Htime Hlate) as HR. unfold returns in HR. rewrite E in HR.
    destruct HR as (Hr1 & Ht1 & Hl1 & Hw1). destruct (IH Hr1 Ht1 Hl1) as (? & ? & ? & ?). split_and!; try done. lia.
Qed.

(** A batch is under way and its signal is a round. *)
Lemma round_progress off dst cnt cb s :
  ready cb s -> tracked off dst cnt s -> live s -> ~ at_rest s -> in_time s -> exists s', round s s'.
Proof.
  intros Hr Ht Hl Hn Htime.
  assert (Hp : MS41908M_BATCH_PENDING (s_instance s) = true).
  { destruct (running (axis MS41908M_TYPE_FOCUS s)) eqn:Ef; [by apply (Hl MS41908M_TYPE_FOCUS)|].
    destruct (running (axis MS41908M_TYPE_ZOOM s)) eqn:Ez; [by apply (Hl MS41908M_TYPE_ZOOM)|].
    destruct Hn. intros [| |]; by intros. }
  pose proof (round_ok off dst cnt cb s Between (batch_pending (axis MS41908M_TYPE_FOCUS s)) (batch_pending (axis MS41908M_TYPE_ZOOM s))
    Hr Ht Hl id id Hp Htime ltac:(done)) as HR.
  apply returns_elim in HR as ([] & s' & E & _). exists s'. by eapply (round_intro _ _ Between); try exact E.
Qed.

(** What an axis at rest has done since [s]. *)
Definition moved_by (ty : ms41908m_type_t) (n : Z) (s s' : ms) : Prop :=
  ax_position (axis ty s') = ax_position (axis ty s) + n /\
  hw_moved (s_hw s') ty = hw_moved (s_hw s) ty + n /\
  Z.land (hw_reg (s_hw s') (step_addr ty)) 255 = 0 /\
  done_count ty s' = (done_count ty s + if (n =? 0)%Z then 0 else 1)%nat.

Lemma rest_idle off dst cnt s ty :
  tracked off dst cnt s -> at_rest s -> motor ty ->
  axis_idle ty (s_hw s) (off ty) (dst ty) (axis ty s) /\ done_count ty s = cnt ty.
Proof.
  intros Ht Hr Hm. destruct (Ht ty Hm) as [[Hi|Hv] Hc]; rewrite (Hr ty Hm) in Hc; [split; [done|lia]|].
  pose proof (am_run _ _ _ _ _ Hv) as E. rewrite (Hr ty Hm) in E. done.
Qed.

(** Both axes are configured and at rest, and the chip has nothing loaded. *)
Record settled (cb : Z) (s : ms) : Prop := {
  st_ready : ready cb s;
  st_start ty : motor ty -> startable (axis ty s);
  st_reg ty : motor ty -> Z.land (hw_reg (s_hw s) (step_addr ty)) 255 = 0;
  st_pos ty : motor ty -> in32 (ax_position (axis ty s))
}.

Definition off0 (s : ms) (ty : ms41908m_type_t) : Z := hw_moved (s_hw s) ty - ax_position (axis ty s).
Definition dst0 (s : ms) (ty : ms41908m_type_t) : Z := ax_position (axis ty s).
Definition cnt0 (s : ms) (ty : ms41908m_type_t) : nat := done_count ty s.

Lemma settled_tracked cb s : settled cb s -> tracked (off0 s) (dst0 s) (cnt0 s) s.
Proof.
  intros Hs ty Hm. destruct (st_start _ _ Hs ty Hm) as (Hr & Hb & _). split.
  - left. constructor; try done; [by apply (st_reg _ _ Hs)|unfold off0; lia|by apply (st_pos _ _ Hs)].
  - rewrite Hr. unfold cnt0. lia.
Qed.

Lemma moved_by_intro off dst cnt s s' ty n :
  tracked off dst cnt s' -> at_rest s' -> motor ty -> dst ty = ax_position (axis ty s) + n ->
  off ty + ax_position (axis ty s) = hw_moved (s_hw s) ty -> cnt ty = (done_count ty s + if (n =? 0)%Z then 0 else 1)%nat ->
  moved_by ty n s s'.
Proof.
  intros Ht Hr Hm Ed Eo Ec. destruct (rest_idle off dst cnt s' ty Ht Hr Hm) as [Hi Hc].
  pose proof (ai_moved _ _ _ _ _ Hi). pose proof (ai_dst _ _ _ _ _ Hi). split_and!; [lia|lia|apply Hi|lia].
Qed.

(** Both axes from rest to their destinations. *)
Lemma dual_move cb s zp zn fp fn :
  settled cb s -> move_ok zp zn (ax_position (i_zoom (s_instance s))) -> move_ok fp fn (ax_position (i_focus (s_instance s))) ->
  exists s1, ms41908m_zf_sync_run zp zn fp fn s = Ret SYS_OK s1 /\
    forall k s2, nsteps round k s1 s2 ->
      (k <= batches (sync_psum zp (Z.abs zn)) zn + batches (sync_psum fp (Z.abs fn)) fn)%nat /\
      (at_rest s2 -> ready cb s2 /\ moved_by MS41908M_TYPE_ZOOM zn s s2 /\ moved_by MS41908M_TYPE_FOCUS fn s s2) /\
      (~ at_rest s2 -> in_time s2 -> exists s3, round s2 s3).
Proof.
  intros Hs Hz Hf. pose proof (settled_tracked cb s Hs) as Ht.
  pose proof (sync_run_ok _ _ _ cb zp zn fp fn s (st_ready _ _ Hs) Ht (st_start _ _ Hs) Hz Hf) as HR.
  apply returns_elim in HR as (r & s1 & E & -> & Hr1 & Ht1 & Hl1 & Hw1). exists s1. split; [done|]. intros k s2 Hk.
  destruct (rounds_ok _ _ _ cb k s1 s2 Hr1 Ht1 Hl1 Hk) as (Hr2 & Ht2 & Hl2 & Hw2).
  split; [lia|]. split; [intros Hrest; split; [done|split]|].
  - apply (moved_by_intro _ _ _ s s2 _ zn Ht2 Hrest); [done|done|unfold off0; lia|].
    change (both_cnt zn fn (cnt0 s) MS41908M_TYPE_ZOOM) with (if zn =? 0 then cnt0 s MS41908M_TYPE_ZOOM else S (cnt0 s MS41908M_TYPE_ZOOM)).
    unfold cnt0. destruct (zn =? 0); lia.
  - apply (moved_by_intro _ _ _ s s2 _ fn Ht2 Hrest); [done|done|unfold off0; lia|].
    change (both_cnt zn fn (cnt0 s) MS41908M_TYPE_FOCUS) with (if fn =? 0 then cnt0 s MS41908M_TYPE_FOCUS else S (cnt0 s MS41908M_TYPE_FOCUS)).
    unfold cnt0. destruct (fn =? 0); lia.
  - intros Hn Htime. by apply (round_progress _ _ _ cb s2 Hr2 Ht2).
Qed.

(** C4 [dual_move_completes]: on hardware in working order, from rest, a synchronous move
    with arguments in range (speeds, at most 65535 micro steps, targets that fit 32 bits)
    is accepted.  The two motors then report the ends of their batches in any order and
    grouping, in time (within the five seconds of the guard), each report between two
    wake-ups of the task, while it sleeps, or after a wake-up for nothing; a report that
    comes between the wake-up for the other motor's report and the clearing of the bits
    is not covered, it is lost ([late_signal_lost]).  Then there are never more rounds than
    the two moves have batches; while an axis runs, a batch is under way whose
    report is handled; and when both axes are at rest, each counter and each motor
    has moved by exactly the number of micro steps asked for, the step registers are
    cleared, and the completion of each axis that moved was reported once. *)
Theorem dual_move_completes cb s zp zn fp fn :
  settled cb s -> move_ok zp zn (ax_position (i_zoom (s_instance s))) -> move_ok fp fn (ax_position (i_focus (s_instance s))) ->
  exists s1, ms41908m_zf_sync_run zp zn fp fn s = Ret SYS_OK s1 /\
    forall k s2, nsteps round k s1 s2 ->
      (k <= batches (sync_psum zp (Z.abs zn)) zn + batches (sync_psum fp (Z.abs fn)) fn)%nat /\
      (at_rest s2 -> ready cb s2 /\ moved_by MS41908M_TYPE_ZOOM zn s s2 /\ moved_by MS41908M_TYPE_FOCUS fn s s2) /\
      (~ at_rest s2 -> in_time s2 -> exists s3, round s2 s3).
Proof. apply dual_move. Qed.

(** A move of one axis started while the other axis may be in the
    middle of its own is accepted, and both end at their destinations: the axis at
    its position plus the micro steps asked for, the other one where it was going. *)
Theorem run_joins_move off dst cnt cb s ty pps n :
  motor ty -> ready cb s -> tracked off dst cnt s -> ax_state (axis ty s) = MS41908M_STATE_STOPPED ->
  ax_batch_active (axis ty s) = false -> n <> 0 -> move_ok pps n (ax_position (axis ty s)) -> within_limits (axis ty s) n ->
  exists s1, axis_run ty pps n s = Ret SYS_OK s1 /\
    forall k s2, nsteps round k s1 s2 ->
      (k <= batches (start_psum pps (Z.abs n)) n + left_of (axis (other_axis ty) s))%nat /\
      (at_rest s2 -> moved_by ty n s s2 /\
         ax_position (axis (other_axis ty) s2) = dst (other_axis ty) /\
         hw_moved (s_hw s2) (other_axis ty) = off (other_axis ty) + dst (other_axis ty) /\
         done_count (other_axis ty) s2 = cnt (other_axis ty)) /\
      (~ at_rest s2 -> in_time s2 -> exists s3, round s2 s3).
Proof.
  intros Hm Hr Ht Hst Hba Hnz Hok Hlim.
  pose proof (axis_run_ok off dst cnt cb ty pps n s Hm Hr Ht Hst Hba Hnz Hok Hlim) as HR.
  apply returns_elim in HR as (r & s1 & E & -> & Hr1 & Ht1 & Hl1 & Hw1). exists s1. split; [done|]. intros k s2 Hk.
  destruct (rounds_ok _ _ _ cb k s1 s2 Hr1 Ht1 Hl1 Hk) as (Hr2 & Ht2 & Hl2 & Hw2).
  assert (Hi : axis_idle ty (s_hw s) (off ty) (dst ty) (axis ty s)).
  { destruct (Ht ty Hm) as [[Hi|Hv] _]; [done|]. pose proof (am_run _ _ _ _ _ Hv) as Er. apply running_state in Er. congruence. }
  split; [lia|]. split; [intros Hrest; split|].
  - apply (moved_by_intro _ _ _ s s2 ty n Ht2 Hrest Hm).
    + rewrite move_to_own. f_equal. symmetry. apply Hi.
    + symmetry. apply Hi.
    + unfold count_up. rewrite bool_decide_eq_true_2, (proj2 (Z.eqb_neq _ _) Hnz) by done.
      destruct (Ht ty Hm) as [_ C]. rewrite (ai_run _ _ _ _ _ Hi) in C. lia.
  - destruct (rest_idle _ _ _ s2 (other_axis ty) Ht2 Hrest (motor_other ty)) as [Ho Hc].
    rewrite move_to_other in Ho by done. rewrite count_up_other in Hc by done. split_and!; [apply Ho| |done].
    rewrite (ai_moved _ _ _ _ _ Ho). f_equal. apply Ho.
  - intros Hn Htime. by apply (round_progress _ _ _ cb s2 Hr2 Ht2).
Qed.
End Moves.
