(* ===== verification/Ms41908mFaults.v ===== *)
(** Behaviour of the lens driver that is surely not meant: lost signals, dropped
    requests, waits without an end, and moves nobody asked for. *)
From S2P Require Import Prelude Ms41908mReg Ms41908m Ms41908mPort Ms41908mRun Ms41908mRounds.
From S2P Require Import Ms41908mStart Ms41908mProps.

(** The synchronous move recomputes the interval counter
    from the batch size; for one micro step per batch the value does not fit the 16
    bits of the variable, so all speeds from 24 to 31 micro steps per second (and
    every move of a single micro step) are run with the counter 4776, more than seven times
    smaller (faster) than the one the move of a single axis uses. *)
Theorem slow_sync_move_is_fast pps n :
  24 <= pps <= 31 -> 1 <= n <= 65535 ->
  sync_intct (sync_psum pps n) = 4776 /\ sync_intct (sync_psum 8000 1) = 4776 /\
  7 * sync_intct (sync_psum pps n) < start_intct pps.
Proof.
  intros Hp Hn.
  assert (E : sync_psum pps n = 1).
  { unfold sync_psum. assert (Eu : u16 (MS41908M_CALC_PSUM_FROM_INTCT (u16 (MS41908M_CALC_INTCT_FROM_PPS pps))) = 1).
    { assert (pps = 24 \/ pps = 25 \/ pps = 26 \/ pps = 27 \/ pps = 28 \/ pps = 29 \/ pps = 30 \/ pps = 31) as Hc by lia.
      by repeat (destruct Hc as [->|Hc]); [..|rewrite Hc]. }
    rewrite Eu. destruct (n <? 1) eqn:El; cbool; [lia|reflexivity]. }
  rewrite E. split; [reflexivity|]. split; [reflexivity|]. change (sync_intct 1) with 4776.
  assert (pps = 24 \/ pps = 25 \/ pps = 26 \/ pps = 27 \/ pps = 28 \/ pps = 29 \/ pps = 30 \/ pps = 31) as Hc by lia.
  by repeat (destruct Hc as [->|Hc]); [..|rewrite Hc].
Qed.

Section Faults.
Context `{LensHwLaws D}.
Notation ms := (ms_state D).
Notation axis ty s := (axis_of ty (s_instance s)).

(** ** A signal that comes while the task waits for the lock *)

(** Both axes are in the middle of a batch and the focus motor
    has signalled; the zoom motor signals while the task waits for the lock.  The
    task handles the focus signal and then clears both bits: afterwards no signal is
    pending, the driver still waits for the end of the zoom batch, and the next
    wake-up (in time) changes neither axis and issues no pulse; nothing will come. *)
Theorem late_signal_lost off dst cnt cb s :
  ready cb s -> tracked off dst cnt s -> in_time s ->
  batch_pending (axis MS41908M_TYPE_FOCUS s) = true -> batch_pending (axis MS41908M_TYPE_ZOOM s) = true ->
  exists s1, (ms41908m_port_irq_handler PLS1_Pin;;
              ms41908m_motor_task_handler (mret tt) (ms41908m_port_irq_handler PLS2_Pin)) s = Ret tt s1 /\
    ready cb s1 /\ batch_pending (axis MS41908M_TYPE_ZOOM s1) = true /\ axis MS41908M_TYPE_ZOOM s1 = axis MS41908M_TYPE_ZOOM s /\
    (in_time s1 -> exists s2, ms41908m_motor_task_handler (mret tt) (mret tt) s1 = Ret tt s2 /\
       s_instance s2 = s_instance s1 /\ (forall ty, hw_moved (s_hw s2) ty = hw_moved (s_hw s1) ty)).
Proof.
  intros [Hb Hn (b & Eg & Hg)] Ht Htime Hf Hz.
  set (b1 := Z.lor b (sig_bits true false)). set (s1 := set_s_event_group (Some b1) s).
  set (b2 := Z.lor b1 MS41908M_EVENT_PLS2). set (s2 := set_s_event_group (Some b2) s).
  assert (Hbits : forall e, Z.land 195 e = e -> has b1 e = has (sig_bits true false) e).
  { intros e He. apply has_lor. by eapply land_sub. }
  assert (Hg1 : Z.land b 192 = 0) by (by apply (land_sub b 195)).
  assert (Hb2 : base cb false s2).
  { destruct Hb. constructor; try done. exists b2. split; [done|]. by apply group_lor; [apply group_lor|]. }
  assert (R : returns (ms41908m_port_irq_handler PLS1_Pin;;
              ms41908m_motor_task_handler (mret tt) (ms41908m_port_irq_handler PLS2_Pin))
    (fun _ s' => ready cb s' /\ axis MS41908M_TYPE_ZOOM s' = axis MS41908M_TYPE_ZOOM s) s).
  { apply returns_bind. apply returns_intro with (a := tt) (s' := s1).
    { unfold ms41908m_port_irq_handler, set_bits, modify. by rewrite Eg. }
    unfold ms41908m_motor_task_handler. rstep. apply returns_bind.
    eapply returns_intro; [apply wait_ready with (b := b1); [done|]|].
    { unfold task_wait_mask. cbn [s_rst set_s_event_group s1]. by rewrite (bs_idle _ _ _ Hb), Hbits by reflexivity. }
    apply returns_bind. apply returns_intro with (a := tt) (s' := s2); [reflexivity|].
    eapply returns_mono; [by apply (task_woken off dst cnt cb s2 b1 true false)|].
    intros ? s' (Hr & _ & _ & _ & HZ). split; [done|]. by apply HZ. }
  apply returns_elim in R as ([] & s3 & E & Hr3 & Hz3). exists s3.
  split; [exact E|]. split; [done|]. split; [by rewrite Hz3|]. split; [done|]. intros Htime3.
  destruct Hr3 as [Hb3 Hn3 (b3 & Eg3 & Hg3)].
  destruct (port_lock_ok s3 (bs_hw _ _ _ Hb3) (bs_mutex _ _ _ Hb3)) as (E4 & S4).
  assert (R : returns (ms41908m_motor_task_handler (mret tt) (mret tt))
    (fun _ s' => s_instance s' = s_instance s3 /\ (forall ty, hw_moved (s_hw s') ty = hw_moved (s_hw s3) ty)) s3).
  { unfold ms41908m_motor_task_handler. rstep. apply returns_bind. eapply returns_intro with (a := 0) (s' := s3).
    { apply wait_nothing with (b := b3); [done|]. unfold task_wait_mask. rewrite (bs_idle _ _ _ Hb3).
      change (ph_idle MS41908M_RZ_IDLE) with true. cbn iota. unfold has. by rewrite (land_sub b3 195). }
    rstep. rrun E4. change (SYS_OK =? SYS_OK) with true. cbn [negb]. unfold motor_task_locked. rstep.
    cbn [s_rst set_s_mutex set_s_hw]. rewrite (bs_idle _ _ _ Hb3). change (ph_idle MS41908M_RZ_IDLE) with true. cbn iota.
    unfold tick. rstep.
    eapply returns_eq; [erewrite bind_ret_eq; [reflexivity|apply timeout_guard_ok; intros; by apply (Htime3 MS41908M_TYPE_FOCUS)]|].
    cbn beta. eapply returns_intro; [apply timeout_guard_ok; intros; by apply (Htime3 MS41908M_TYPE_ZOOM)|].
    do 3 rpure. cbn [s_rst set_s_mutex set_s_hw]. rewrite (bs_idle _ _ _ Hb3). change (ph_idle MS41908M_RZ_IDLE) with true. cbn iota.
    rstep. rpure. unfold ms41908m_dispatch_pending_app_events. rstep. cbn [s_app_event_cb set_s_mutex set_s_hw].
    rewrite (bs_cb _ _ _ Hb3). rstep. split; [done|]. apply S4. }
  apply returns_elim in R as ([] & s4 & E5 & ? & ?). by exists s4.
Qed.

(** ** A refused move that is carried out later *)
Lemma sync_axis_refused ty pps n (s : ms) :
  n <> 0 -> pps < MS41908M_RAW_PPS_MIN \/ MS41908M_RAW_PPS_MAX < pps -> sync_axis ty pps n s = Ret SyncArg s.
Proof.
  intros Hn Hp. unfold sync_axis. rewrite (proj2 (Z.eqb_neq _ _) Hn).
  destruct Hp; [rewrite (proj2 (Z.ltb_lt pps _)) by done|rewrite (proj2 (Z.ltb_lt _ pps)), orb_true_r by done]; done.
Qed.

(** A synchronous move whose zoom part is in range and
    whose focus speed is not is refused, and the zoom axis is reported as stopped where
    it was; but the step register of the zoom motor keeps the first batch, so the next
    pulse, issued for a move of the focus axis, moves the zoom motor as well, and its
    position counter does not follow. *)
Theorem refused_move_happens_later cb s zp zn fp fn :
  settled cb s -> zn <> 0 -> move_ok zp zn (ax_position (i_zoom (s_instance s))) ->
  fn <> 0 -> fp < MS41908M_RAW_PPS_MIN \/ MS41908M_RAW_PPS_MAX < fp ->
  exists s1 d, ms41908m_zf_sync_run zp zn fp fn s = Ret SYS_ERR_INVALID_ARG s1 /\
    ax_state (i_zoom (s_instance s1)) = MS41908M_STATE_STOPPED /\
    ms41908m_port_output_vd MS41908M_TYPE_FOCUS s1 = Ret tt (set_s_hw d s1) /\
    hw_moved d MS41908M_TYPE_ZOOM =
      hw_moved (s_hw s) MS41908M_TYPE_ZOOM + sign (if 0 <=? zn then 1 else 0) * sync_psum zp (Z.abs zn) /\
    ax_position (i_zoom (s_instance s1)) = ax_position (i_zoom (s_instance s)) /\
    1 <= sync_psum zp (Z.abs zn).
Proof.
  intros Hs Hzn Hz Hfn Hf. pose proof (settled_tracked cb s Hs) as Ht. destruct (st_ready _ _ Hs) as [Hb Hn Hg].
  pose proof (st_start _ _ Hs) as Hst.
  set (Q := fun (r : Z) (s1 : ms) => r = SYS_ERR_INVALID_ARG /\ ax_state (i_zoom (s_instance s1)) = MS41908M_STATE_STOPPED /\
    hw_ok (s_hw s1) /\ hw_moved (s_hw s1) MS41908M_TYPE_ZOOM = hw_moved (s_hw s) MS41908M_TYPE_ZOOM /\
    step_loaded (hw_reg (s_hw s1) MS41908M_REG_ZOOM_STEP) (if 0 <=? zn then 1 else 0) (sync_psum zp (Z.abs zn)) /\
    ax_position (i_zoom (s_instance s1)) = ax_position (i_zoom (s_instance s))).
  assert (R : returns (ms41908m_zf_sync_run zp zn fp fn) Q s).
  { unfold ms41908m_zf_sync_run. rpure. rewrite (bs_ini _ _ _ Hb). cbn [negb]. do 2 rpure.
    rewrite !startable_cfg by (by apply Hst). cbn [orb].
    destruct (lock_tracked _ _ _ cb s Hb Ht) as (E1 & Hb1 & Ht1). rrun E1.
    change (SYS_OK =? SYS_OK) with true. cbn [negb]. set (s1 := set_s_mutex _ _) in *.
    rrun (axis_busy_ok MS41908M_TYPE_ZOOM s1 (Hst MS41908M_TYPE_ZOOM ltac:(done)) (bs_idle _ _ _ Hb1)).
    rrun (axis_busy_ok MS41908M_TYPE_FOCUS s1 (Hst MS41908M_TYPE_FOCUS ltac:(done)) (bs_idle _ _ _ Hb1)). cbn [orb].
    rcall (sync_axis_ok _ _ _ cb true MS41908M_TYPE_ZOOM zp zn s1 ltac:(done) Hb1 Ht1); try done.
    { apply (Hst MS41908M_TYPE_ZOOM). done. }
    { apply (Hst MS41908M_TYPE_ZOOM). done. }
    intros r s2 (-> & S2). rrun (sync_axis_refused MS41908M_TYPE_FOCUS fp fn s2 Hfn Hf).
    rewrite (proj2 (Z.eqb_neq _ _) Hzn). cbn [negb]. apply returns_bind. do 2 rpure.
    eapply returns_intro; [reflexivity|]. eapply returns_eq.
    { erewrite bind_ret_eq; [reflexivity|]. apply port_unlock_ok, (bs_mutex _ _ _ (sd_base _ _ _ _ _ _ _ _ _ _ S2)). }
    cbn beta. rstep. unfold Q. split_and!; try done; cbn.
    - apply (sd_base _ _ _ _ _ _ _ _ _ _ S2).
    - rewrite (sd_moved _ _ _ _ _ _ _ _ _ _ S2). apply (port_lock_ok s (bs_hw _ _ _ Hb) (bs_mutex _ _ _ Hb)).
    - apply (sd_reg _ _ _ _ _ _ _ _ _ _ S2 Hzn).
    - apply (sd_pos _ _ _ _ _ _ _ _ _ _ S2). }
  apply returns_elim in R as (r & s1 & E & -> & Hst1 & Hd1 & Hm1 & HL1 & Hp1).
  destruct (output_vd_ok s1 MS41908M_TYPE_FOCUS Hd1) as (d & E2 & _ & _ & Hmv); [done|].
  exists s1, d. split_and!; try done.
  - rewrite Hmv, Hm1. f_equal. apply (commanded_loaded _ _ _ HL1).
  - destruct Hz as [?|(_ & Hn' & _)]; [done|]. apply (sync_psum_range zp (Z.abs zn) Hn').
Qed.

(** ** Two resets at once *)
Lemma reset_zero_accepted ty b s :
  motor ty -> hw_ok (s_hw s) -> is_initialized (s_instance s) = true -> rz_phase (s_rst s) = MS41908M_RZ_IDLE ->
  s_mutex s = Some false -> s_event_group s = Some b -> startable (axis ty s) -> running (axis (other_axis ty) s) = false ->
  axis_reset_zero ty s = Ret SYS_OK
    (set_s_event_group (Some (Z.lor (Z.ldiff b (reset_done_event ty)) (req_reset_event ty)))
      (set_s_mutex (Some false) (set_s_instance
        (put_axis ty (set_ax_state MS41908M_STATE_RESET_ZERO (set_ax_is_r_zero false (axis ty s))) (s_instance s))
        (set_s_hw (taken (s_hw s)) s)))) /\ hw_ok (taken (s_hw s)).
Proof.
  intros Hm Hd Hi Hp Hx Eg Hst Ho. destruct (port_lock_ok s Hd Hx) as (E1 & S1). split; [|apply S1].
  unfold axis_reset_zero. erewrite bind_ret_eq by reflexivity. rewrite Hi. cbn [negb].
  erewrite bind_ret_eq by reflexivity. rewrite startable_cfg by done. erewrite bind_ret_eq by exact E1.
  change (SYS_OK =? SYS_OK) with true. cbn [negb]. set (s1 := set_s_mutex _ _).
  erewrite bind_ret_eq by reflexivity. erewrite bind_ret_eq by (by apply (axis_busy_ok ty s1 Hst)).
  cbn [s1 s_instance set_s_mutex set_s_hw]. rewrite Ho. cbn [orb].
  erewrite bind_ret_eq by (by apply (clear_event_eq _ _ b)). erewrite bind_ret_eq by reflexivity.
  erewrite bind_ret_eq by (by apply port_unlock_ok). erewrite bind_ret_eq by reflexivity. by destruct s.
Qed.

(** Arming the state machine for an axis that asked for it. *)
Lemma try_arm_ok ty b (s : ms) :
  motor ty -> rz_phase (s_rst s) = MS41908M_RZ_IDLE -> ax_state (axis ty s) = MS41908M_STATE_RESET_ZERO ->
  limits_bad (axis ty s) = false -> s_event_group s = Some b ->
  exists s' e, try_arm ty s = Ret tt s' /\ ph_idle (rz_phase (s_rst s')) = false /\ rz_type (s_rst s') = ty /\
    axis (other_axis ty) s' = axis (other_axis ty) s /\ s_event_group s' = Some (Z.ldiff b e) /\
    s_app_notify s' = s_app_notify s.
Proof.
  intros Hm Hp Hst Hl Eg. unfold try_arm. do 2 erewrite bind_ret_eq by reflexivity. rewrite Hp, Hst, Hl.
  change (ph_idle MS41908M_RZ_IDLE) with true. change (st_eq MS41908M_STATE_RESET_ZERO MS41908M_STATE_RESET_ZERO) with true. cbn [negb].
  unfold ms41908m_reset_sm_arm_locked. do 2 erewrite bind_ret_eq by reflexivity.
  erewrite bind_ret_eq by (by apply (clear_event_eq _ _ b)).
  unfold ms41908m_port_pi_irq_enable. erewrite bind_ret_eq.
  2:{ erewrite bind_ret_eq by (by apply clear_event_eq). reflexivity. }
  erewrite bind_ret_eq by reflexivity. eexists _, (Z.lor (Z.lor (pi_event_of ty) (completed_event ty)) PI_EVENTS).
  split; [reflexivity|]. cbn. rewrite Z.ldiff_ldiff_l. split; [by destruct (HAL_GPIO_ReadPin _ _)|].
  split; [done|]. split; [by destruct ty; [| |destruct Hm]|]. done.
Qed.

(** A reset of the focus axis requested before the task has
    taken up a reset of the zoom axis is accepted.  The task then starts the reset of
    the zoom axis, consumes both requests and does nothing for the focus axis: it is
    left in the state of a running reset, in which it refuses every command as busy,
    no request is pending and nothing is reported. *)
Theorem second_reset_dropped cb s :
  settled cb s -> limits_bad (i_zoom (s_instance s)) = false ->
  exists s1 s2 s3 b, ms41908m_zoom_reset_zero s = Ret SYS_OK s1 /\ ms41908m_focus_reset_zero s1 = Ret SYS_OK s2 /\
    s_event_group s2 = Some b /\ handle_requests b s2 = Ret tt s3 /\
    ph_idle (rz_phase (s_rst s3)) = false /\ rz_type (s_rst s3) = MS41908M_TYPE_ZOOM /\
    ax_state (i_focus (s_instance s3)) = MS41908M_STATE_RESET_ZERO /\ axis_busy MS41908M_TYPE_FOCUS s3 = Ret true s3 /\
    (exists b3, s_event_group s3 = Some b3 /\ Z.land b3 192 = 0) /\ s_app_notify s3 = [].
Proof.
  intros Hs Hlim. pose proof (st_start _ _ Hs) as Hst. destruct (st_ready _ _ Hs) as [Hb Hn (b & Eg & Hg)].
  destruct (reset_zero_accepted MS41908M_TYPE_ZOOM b s) as (E1 & D1);
    [done|apply Hb|apply Hb|apply Hb|apply Hb|done|by apply Hst|by apply (Hst MS41908M_TYPE_FOCUS)|].
  set (s1 := set_s_event_group _ _) in E1.
  destruct (reset_zero_accepted MS41908M_TYPE_FOCUS (Z.lor (Z.ldiff b MS41908M_EVENT_ZOOM_RESET_DONE) MS41908M_EVENT_REQ_RESET_ZOOM) s1)
    as (E2 & D2); [done|done|apply Hb|apply Hb|done|done|by apply (Hst MS41908M_TYPE_FOCUS)|done|].
  set (s2 := set_s_event_group _ _) in E2. set (b2 := Z.lor _ (req_reset_event MS41908M_TYPE_FOCUS)) in s2.
  destruct (try_arm_ok MS41908M_TYPE_ZOOM b2 s2) as (s3 & e & E3 & P3 & T3 & O3 & G3 & N3); [done|apply Hb|done|done|done|].
  cbn [other_axis axis_of] in O3.
  exists s1, s2, (set_s_event_group (Some (Z.ldiff (Z.ldiff (Z.ldiff b2 e) MS41908M_EVENT_REQ_RESET_ZOOM) MS41908M_EVENT_REQ_RESET_FOCUS)) s3), b2.
  split; [exact E1|]. split; [exact E2|]. split; [done|].
  assert (Hf2 : has b2 MS41908M_EVENT_REQ_RESET_FOCUS = true /\ has b2 MS41908M_EVENT_REQ_RESET_ZOOM = true).
  { split; unfold has; apply negb_true_iff, Z.eqb_neq; intros E0.
    - apply (f_equal (fun z => Z.testbit z 7)) in E0. unfold b2 in E0. rewrite Z.land_spec, Z.lor_spec in E0.
      cbn [req_reset_event] in E0. change (Z.testbit MS41908M_EVENT_REQ_RESET_FOCUS 7) with true in E0. by rewrite orb_true_r in E0.
    - apply (f_equal (fun z => Z.testbit z 6)) in E0. unfold b2 in E0. rewrite Z.land_spec, Z.lor_spec, Z.ldiff_spec, Z.lor_spec in E0.
      change (Z.testbit MS41908M_EVENT_REQ_RESET_ZOOM 6) with true in E0. rewrite orb_true_r in E0. done. }
  destruct Hf2 as [Hf2 Hz2].
  assert (Hfoc : ax_state (i_focus (s_instance s3)) = MS41908M_STATE_RESET_ZERO) by (by rewrite O3).
  split_and!.
  - unfold handle_requests. rewrite Hz2, Hf2. erewrite bind_ret_eq.
    2:{ erewrite bind_ret_eq by exact E3. by apply (clear_event_eq _ _ (Z.ldiff b2 e)). }
    erewrite bind_ret_eq.
    2:{ unfold ms41908m_reset_sm_try_arm_focus_locked, try_arm. do 2 erewrite bind_ret_eq by reflexivity.
        cbn [s_rst set_s_event_group]. rewrite P3. reflexivity. }
    erewrite clear_event_eq by reflexivity. by destruct s3.
  - done.
  - done.
  - done.
  - unfold axis_busy. do 2 erewrite bind_ret_eq by reflexivity. cbn [s_rst s_instance axis_of set_s_event_group].
    rewrite P3. by rewrite orb_true_r.
  - eexists. split; [done|]. rewrite !Z.ldiff_ldiff_l. apply Z.bits_inj'. intros k Hk. rewrite Z.bits_0, Z.land_spec, Z.ldiff_spec, !Z.lor_spec.
    change 192 with (Z.lor MS41908M_EVENT_REQ_RESET_ZOOM MS41908M_EVENT_REQ_RESET_FOCUS). rewrite Z.lor_spec.
    by destruct (Z.testbit MS41908M_EVENT_REQ_RESET_ZOOM k), (Z.testbit MS41908M_EVENT_REQ_RESET_FOCUS k), (Z.testbit e k), (Z.testbit b2 k).
  - cbn. by rewrite N3.
Qed.

(** ** A reset whose motor stands still *)

(** The state machine waits for the motor or the sensor and neither has anything to say. *)
Definition reset_waiting (s : ms) : Prop :=
  let r := s_rst s in
  rz_abort_requested r = false /\ running (axis (rz_type r) s) = true /\
  (rz_phase r = MS41908M_RZ_CAPTURE_WAIT \/
   rz_phase r = MS41908M_RZ_EXIT_LOW_WAIT /\ HAL_GPIO_ReadPin (irq_gpio (rz_pi_irq r)) (s_hw s) = false) /\
  exists b, s_event_group s = Some b /\ has b (task_wait_mask r) = false.

Lemma has_sub b m e : Z.land m e = e -> has b m = false -> has b e = false.
Proof.
  unfold has. intros He Hb. apply negb_false_iff, Z.eqb_eq in Hb. apply negb_false_iff, Z.eqb_eq. by apply (land_sub b m).
Qed.

Lemma land_lor_r m e : Z.land (Z.lor m e) e = e.
Proof. apply Z.bits_inj'. intros k Hk. rewrite Z.land_spec, Z.lor_spec. by destruct (Z.testbit m k), (Z.testbit e k). Qed.
Lemma land_lor_l m e : Z.land (Z.lor m e) m = m.
Proof. rewrite Z.lor_comm. apply land_lor_r. Qed.

Lemma waiting_events s : reset_waiting s ->
  exists b, s_event_group s = Some b /\ has b (task_wait_mask (s_rst s)) = false /\ has b (rst_events (s_rst s)) = false /\
    has b (rz_complete_event (s_rst s)) = false.
Proof.
  intros (_ & _ & Hp & b & Eg & Hb). exists b. split; [done|]. split; [done|].
  assert (Hm : has b (rst_events (s_rst s)) = false).
  { eapply has_sub; [|exact Hb]. unfold task_wait_mask.
    replace (ph_idle (rz_phase (s_rst s))) with false by (by destruct Hp as [-> | [-> _]]). apply land_lor_r. }
  split; [done|]. eapply has_sub; [|exact Hm]. apply land_lor_r.
Qed.

Lemma pi_high_eq (s : ms) :
  ms41908m_rz_pi_is_high_locked s = Ret (HAL_GPIO_ReadPin (irq_gpio (rz_pi_irq (s_rst s))) (s_hw s)) s.
Proof.
  unfold ms41908m_rz_pi_is_high_locked, ms41908m_port_read_irq_status. do 2 erewrite bind_ret_eq by reflexivity.
  by destruct (HAL_GPIO_ReadPin _ _).
Qed.

Lemma waiting_step s : reset_waiting s -> ms41908m_reset_sm_step_once_locked s = Ret tt s.
Proof.
  intros Hw. destruct (waiting_events s Hw) as (b & Eg & _ & He & Hc). destruct Hw as (Ha & Hr & Hp & _).
  unfold ms41908m_reset_sm_step_once_locked. erewrite bind_ret_eq by reflexivity. rewrite Ha.
  destruct Hp as [-> | [-> Hpi]].
  - unfold capture_wait, poll_event. erewrite bind_ret_eq by reflexivity.
    erewrite bind_ret_eq by (apply (wait_nothing _ _ s b Eg He)). erewrite bind_ret_eq by reflexivity.
    by unfold has; rewrite !Z.land_0_l.
  - unfold exit_low_wait, poll_event. erewrite bind_ret_eq by reflexivity. erewrite bind_ret_eq by apply pi_high_eq. rewrite Hpi.
    erewrite bind_ret_eq by (apply (wait_nothing _ _ s b Eg Hc)). erewrite bind_ret_eq by reflexivity.
    unfold has. rewrite Z.land_0_l. cbn [Z.eqb negb]. erewrite bind_ret_eq by reflexivity. by rewrite Hr.
Qed.

Lemma waiting_loop n s : reset_waiting s -> reset_sm_loop n s = Ret tt s.
Proof.
  intros Hw. induction n as [|n IH]; [done|]. cbn [reset_sm_loop]. erewrite bind_ret_eq by reflexivity.
  destruct (ph_idle _); [done|]. by erewrite bind_ret_eq by (by apply waiting_step).
Qed.

(** The task guards against motors that stop signalling
    only when no reset is in progress.  While a reset waits for a motor that stands
    still, a wake-up of the task changes nothing, whatever the time is: the axis keeps
    running and the reset is never reported as failed. *)
Theorem reset_never_times_out s :
  hw_ok (s_hw s) -> s_mutex s = Some false -> reset_waiting s -> reset_waiting (set_s_hw (taken (s_hw s)) s) ->
  exists s', ms41908m_motor_task_handler (mret tt) (mret tt) s = Ret tt s' /\
    s_instance s' = s_instance s /\ s_rst s' = s_rst s /\ s_event_group s' = s_event_group s /\ s_mutex s' = Some false /\
    s_hw s' = taken (s_hw s).
Proof.
  intros Hd Hx Hw Hw'. destruct (waiting_events s Hw) as (b & Eg & Hm & He & Hc).
  assert (Hi : ph_idle (rz_phase (s_rst s)) = false) by (destruct Hw as (_ & _ & [-> | [-> _]] & _); done).
  destruct (port_lock_ok s Hd Hx) as (E1 & S1). set (s1 := set_s_mutex _ _) in E1.
  assert (Hw1 : reset_waiting s1) by exact Hw'.
  assert (E : ms41908m_motor_task_handler (mret tt) (mret tt) s =
    ms41908m_dispatch_pending_app_events (set_s_mutex (Some false) s1)).
  { unfold ms41908m_motor_task_handler. erewrite bind_ret_eq by reflexivity.
    erewrite bind_ret_eq by (apply (wait_nothing _ _ s b Eg Hm)). erewrite bind_ret_eq by reflexivity.
    erewrite bind_ret_eq by exact E1. change (SYS_OK =? SYS_OK) with true. cbn [negb].
    erewrite bind_ret_eq.
    2:{ unfold motor_task_locked. erewrite bind_ret_eq by reflexivity. cbn [s_rst set_s_mutex set_s_hw s1]. rewrite Hi.
        do 3 erewrite bind_ret_eq by reflexivity. erewrite bind_ret_eq by reflexivity. cbn [s_rst set_s_mutex set_s_hw s1]. rewrite Hi.
        apply (waiting_loop 32 s1 Hw1). }
    by erewrite bind_ret_eq by (by apply port_unlock_ok). }
  rewrite E. unfold ms41908m_dispatch_pending_app_events. erewrite bind_ret_eq by reflexivity.
  cbn [s_app_event_cb set_s_mutex set_s_hw s1]. destruct (s_app_event_cb s); eexists; split; try reflexivity; done.
Qed.
End Faults.
