(* ===== verification/Ms41908mHome.v ===== *)
(** The end of a reset to zero: the limit sensor fires while the motor approaches it. *)
From S2P Require Import Prelude Ms41908mReg Ms41908m Ms41908mPort Ms41908mRun Ms41908mRounds.
From S2P Require Import Ms41908mStart Ms41908mProps.

Section Home.
Context `{LensHwLaws D}.
Notation ms := (ms_state D).
Notation axis ty s := (axis_of ty (s_instance s)).

(** A pulse when neither axis runs and nothing is loaded. *)
Lemma fire_vd_idle ty s :
  motor ty -> hw_ok (s_hw s) -> (forall t, motor t -> running (axis t s) = false /\ ax_batch_active (axis t s) = false /\
    Z.land (hw_reg (s_hw s) (step_addr t)) 255 = 0) ->
  exists d', fire_vd ty s = Ret tt (set_s_hw d' s) /\ hw_ok d' /\ (forall x, hw_reg d' x = hw_reg (s_hw s) x) /\
    (forall t, motor t -> hw_moved d' t = hw_moved (s_hw s) t).
Proof.
  intros Hm Hd Hi. destruct (output_vd_ok s ty Hd Hm) as (d' & E & Ho & R & Mv). exists d'.
  split; [|split_and!; [done..|]; intros t Ht; rewrite Mv, commanded_zero by (by apply Hi); lia].
  destruct (Hi MS41908M_TYPE_FOCUS) as (Rf & Bf & _); [done|]. destruct (Hi MS41908M_TYPE_ZOOM) as (Rz & Bz & _); [done|].
  cbn [axis_of] in *. unfold fire_vd. erewrite bind_ret_eq by reflexivity.
  unfold MS41908M_BATCH_PENDING, batch_pending. rewrite Bf, Bz. cbn [andb orb negb].
  rewrite (mark_both_eq (fun _ => ms41908m_port_output_vd ty)). unfold mark_all. rewrite !marked_idle by done.
  replace (set_s_instance _ s) with s by (by destruct s, s_instance). exact E.
Qed.

(** The end of a reset, when the motor is already stopped. *)
Definition with_result (ty : ms41908m_type_t) (v : Z) (s : ms) : ms :=
  match ty with MS41908M_TYPE_FOCUS => set_s_focus_rst_last_result v s | _ => set_s_zoom_rst_last_result v s end.
Definition cleared (b : Z) (r : ms41908m_reset_sm_t) : Z := Z.ldiff (Z.ldiff b (rst_events r)) PI_EVENTS.
Definition reset_ended (upd : axis_t -> axis_t) (res b : Z) (s : ms) : ms :=
  let ty := rz_type (s_rst s) in
  set_s_app_notify (s_app_notify s ++ [(reset_done_event ty, res)])
    (set_s_event_group (Some (Z.lor (cleared b (s_rst s)) (reset_done_event ty)))
      (with_result ty res
        (set_s_hw (gpio_pi_irq false (s_hw s))
          (set_s_rst (set_rz_abort_requested false (set_rz_phase MS41908M_RZ_IDLE (s_rst s)))
            (set_s_instance (put_axis ty (set_ax_state MS41908M_STATE_STOPPED (upd (axis ty s))) (s_instance s)) s))))).

Lemma reset_complete_eq upd res b s :
  running (axis (rz_type (s_rst s)) s) = false -> s_event_group s = Some b -> (length (s_app_notify s) < 8)%nat ->
  reset_sm_complete upd res s = Ret tt (reset_ended upd res b s).
Proof.
  intros Hr Eg Hq. unfold reset_sm_complete. do 2 erewrite bind_ret_eq by reflexivity. rewrite Hr.
  do 4 erewrite bind_ret_eq by reflexivity. set (s1 := set_s_rst _ _).
  erewrite bind_ret_eq by (by apply (clear_event_eq _ s1 b)). unfold ms41908m_port_pi_irq_disable.
  erewrite bind_ret_eq.
  2:{ erewrite bind_ret_eq by reflexivity. by apply clear_event_eq. }
  cbn [s_event_group set_s_event_group]. set (s2 := set_s_event_group _ _).
  assert (El : set_last_result (rz_type (s_rst s)) res s2 = Ret tt (with_result (rz_type (s_rst s)) res s2)) by (by destruct (rz_type (s_rst s))).
  erewrite bind_ret_eq by exact El. set (s3 := with_result _ res s2).
  assert (Eg3 : s_event_group s3 = Some (cleared b (s_rst s))) by (unfold s3; by destruct (rz_type (s_rst s))).
  assert (En3 : s_app_notify s3 = s_app_notify s) by (unfold s3; by destruct (rz_type (s_rst s))).
  unfold ms41908m_port_set_event_notify. erewrite bind_ret_eq.
  2:{ unfold ms41908m_port_set_event. erewrite bind_ret_eq by reflexivity. rewrite Eg3.
      erewrite bind_ret_eq; [reflexivity|]. unfold set_bits, modify. by rewrite Eg3. }
  unfold ms41908m_queue_app_notify. erewrite bind_ret_eq by reflexivity. cbn [s_app_notify set_s_event_group].
  rewrite En3, (proj2 (Nat.ltb_lt _ MS41908M_APP_NOTIFY_CAP) Hq). unfold reset_ended, s3, s2, s1.
  by destruct (rz_type (s_rst s)), s.
Qed.

(** The slow approach of axis [ty] is under way, the other axis is at rest, and the
    sensor has fired. *)
Record capturing (cb : Z) (ty : ms41908m_type_t) (s : ms) : Prop := {
  cp_hw : hw_ok (s_hw s);
  cp_ini : is_initialized (s_instance s) = true;
  cp_cb : s_app_event_cb s = Some cb;
  cp_mutex : s_mutex s = Some false;
  cp_notify : s_app_notify s = [];
  cp_rst : s_rst s = mkRst MS41908M_RZ_CAPTURE_WAIT ty (pi_irq_of ty) (pi_event_of ty) (completed_event ty) false false;
  cp_group : exists b, s_event_group s = Some b /\ Z.land b 195 = 0 /\ has b (pi_event_of ty) = true;
  cp_cfg : ax_state (axis ty s) <> MS41908M_STATE_NO_CFG;
  cp_other : startable (axis (other_axis ty) s);
  cp_reg : Z.land (hw_reg (s_hw s) (step_addr (other_axis ty))) 255 = 0;
  cp_pos : in32 (ax_position (axis (other_axis ty) s))
}.

(** The state machine takes the sensor's signal. *)
Definition homed (a : axis_t) : axis_t :=
  set_ax_state MS41908M_STATE_STOPPED (set_ax_is_r_zero true (set_ax_position 0 (halted MS41908M_STATE_RESET_ZERO a))).

Lemma capture_edge cb ty mx s :
  motor ty -> capturing cb ty (set_s_mutex (Some false) s) -> s_mutex s = mx ->
  returns ms41908m_reset_sm_step_once_locked (fun _ s' =>
    rz_phase (s_rst s') = MS41908M_RZ_IDLE /\ hw_ok (s_hw s') /\
    s_instance s' = put_axis ty (homed (axis ty s)) (s_instance s) /\
    (forall t, motor t -> hw_moved (s_hw s') t = hw_moved (s_hw s) t /\ Z.land (hw_reg (s_hw s') (step_addr t)) 255 = 0) /\
    s_app_notify s' = [(reset_done_event ty, SYS_OK)] /\ s_app_calls s' = s_app_calls s /\ s_app_event_cb s' = Some cb /\
    s_mutex s' = mx /\ last_result ty s' = Ret SYS_OK s' /\
    (exists b, s_event_group s' = Some b /\ Z.land b 195 = 0 /\ has b (reset_done_event ty) = true)) s.
Proof.
  intros Hm [Hd Hi Hcb _ Hn Hr (b & Eg & Hg & Hpi) Hcfg Ho Hreg Hpos] Hx.
  cbn [s_hw s_instance s_app_event_cb s_app_notify s_rst s_event_group set_s_mutex] in *.
  unfold ms41908m_reset_sm_step_once_locked. rpure. rewrite Hr. cbn [rz_phase rz_abort_requested].
  unfold capture_wait. rpure. rewrite Hr. cbn [rz_pi_event rz_complete_event rz_type rz_pi_triggered rst_events].
  assert (Hev : has b (Z.lor (pi_event_of ty) (completed_event ty)) = true).
  { unfold has in *. apply negb_true_iff, Z.eqb_neq. intros E0. apply negb_true_iff, Z.eqb_neq in Hpi. apply Hpi.
    apply (land_sub b (Z.lor (pi_event_of ty) (completed_event ty))); [by destruct ty|done]. }
  rrun (wait_ready (mret tt) _ 0 s b Eg Hev). rpure. rewrite Hpi.
  destruct (stop_impl_eq ty s Hm Hd Hcfg) as (d1 & W1 & E1).
  replace (stop_state ty (s_rst s)) with MS41908M_STATE_RESET_ZERO in E1
    by (rewrite Hr; unfold stop_state, ty_eq; cbn [rz_phase rz_type]; by rewrite bool_decide_eq_true_2).
  set (s1 := set_s_instance _ _) in E1.
  assert (Hidle : forall t, motor t -> running (axis t s1) = false /\ ax_batch_active (axis t s1) = false /\
    Z.land (hw_reg (s_hw s1) (step_addr t)) 255 = 0).
  { apply (motor_cases _ ty Hm); unfold s1; cbn [s_instance s_hw set_s_instance set_s_hw].
    - rewrite axis_of_put by done. split_and!; try done. rewrite (proj1 (proj2 W1)), Z.eqb_refl. apply unstep_zero, reg_half, Hd.
    - rewrite axis_of_put_other by done. split; [apply Ho|]. split; [apply Ho|].
      destruct (touch_written ty _ _ _ _ (or_introl eq_refl) Hm W1) as (_ & R & _). by rewrite R. }
  destruct (fire_vd_idle ty s1 Hm (proj1 W1) Hidle) as (d2 & E2 & D2 & R2 & M2).
  assert (Es : ms41908m_motor_stop_impl ty s = Ret SYS_OK (set_s_hw d2 s1)) by (rewrite E1; by erewrite bind_ret_eq by exact E2).
  rrun Es. rpure.
  eapply returns_eq; [erewrite bind_ret_eq by (by apply (clear_event_eq _ _ b)); reflexivity|]. cbn beta.
  set (s3 := set_s_event_group _ _).
  assert (Er3 : s_rst s3 = mkRst MS41908M_RZ_CAPTURE_WAIT ty (pi_irq_of ty) (pi_event_of ty) (completed_event ty) true false).
  { change (s_rst s3) with (set_rz_pi_triggered true (s_rst s)). by rewrite Hr. }
  assert (Ea3 : axis ty s3 = halted MS41908M_STATE_RESET_ZERO (axis ty s)) by (by apply axis_of_put).
  assert (Ei3 : s_instance s3 = put_axis ty (halted MS41908M_STATE_RESET_ZERO (axis ty s)) (s_instance s)) by done.
  eapply returns_intro.
  { apply (reset_complete_eq _ _ (Z.ldiff b (Z.lor (pi_event_of ty) (completed_event ty)))); [|done|].
    - rewrite Er3. cbn [rz_type]. by rewrite Ea3.
    - change (s_app_notify s3) with (s_app_notify s). rewrite Hn. cbn. lia. }
  destruct (pi_irq_ok d2 false D2) as (D3 & R3 & M3). unfold reset_ended. rewrite Er3. cbn [rz_type]. rewrite Ea3, Ei3.
  set (b3 := cleared _ _). assert (Hg3 : Z.land b3 195 = 0) by (by do 3 apply ldiff_zero).
  assert (Hm2 : forall t, motor t -> hw_moved (gpio_pi_irq false d2) t = hw_moved (s_hw s) t /\
    Z.land (hw_reg (gpio_pi_irq false d2) (step_addr t)) 255 = 0).
  { intros t Ht. rewrite M3, R3, R2, M2 by done. split; [apply W1|by apply Hidle]. }
  assert (Hdone : Z.land (Z.lor b3 (reset_done_event ty)) 195 = 0 /\ has (Z.lor b3 (reset_done_event ty)) (reset_done_event ty) = true).
  { rewrite Z.land_lor_distr_l, Hg3. split; [by destruct ty|]. unfold has. rewrite Z.land_lor_distr_l, Z.land_diag.
    apply negb_true_iff, Z.eqb_neq. intros E0. apply Z.lor_eq_0_iff in E0 as [_ E0]. by destruct ty. }
  split_and!.
  - by destruct ty.
  - by destruct ty.
  - by destruct ty; [| |destruct Hm].
  - intros t Ht. replace (s_hw _) with (gpio_pi_irq false d2) by (by destruct ty). by apply Hm2.
  - cbn. by rewrite Hn.
  - by destruct ty.
  - by destruct ty.
  - by destruct ty.
  - by destruct ty.
  - eexists. split; [done|]. done.
Qed.

(** The part under the lock, when only the sensor has signalled. *)
Lemma locked_capture b (s s' : ms) :
  (forall e, Z.land 195 e = e -> has b e = false) -> ph_idle (rz_phase (s_rst s)) = false ->
  ms41908m_reset_sm_step_once_locked s = Ret tt s' -> rz_phase (s_rst s') = MS41908M_RZ_IDLE ->
  motor_task_locked b s = Ret tt s'.
Proof.
  intros Hno Hi E Hi'. unfold motor_task_locked. erewrite bind_ret_eq by reflexivity. rewrite Hi.
  erewrite bind_ret_eq by reflexivity. unfold handle_requests. rewrite !Hno by reflexivity.
  erewrite bind_ret_eq by reflexivity. unfold handle_pls_events. rewrite Hno by reflexivity.
  do 2 erewrite bind_ret_eq by reflexivity. rewrite Hi. unfold ms41908m_reset_sm_run_locked. cbn [reset_sm_loop].
  erewrite bind_ret_eq by reflexivity. rewrite Hi. erewrite bind_ret_eq by exact E.
  erewrite bind_ret_eq by reflexivity. by rewrite Hi'.
Qed.

(** C19 [home_edge_sets_zero]: when the limit sensor fires during the slow approach, the
    next wake-up of the task ends the reset: the motor stands where it was, its step
    register is cleared, the position is zero and known, the result is a success
    and is reported once to the application and to a caller that waits; and the
    driver is at rest, ready for moves. *)
Theorem home_edge_sets_zero cb ty s :
  motor ty -> capturing cb ty s ->
  exists s', ms41908m_motor_task_handler (mret tt) (mret tt) s = Ret tt s' /\ settled cb s' /\
    ax_state (axis ty s') = MS41908M_STATE_STOPPED /\ ax_position (axis ty s') = 0 /\ ax_is_r_zero (axis ty s') = true /\
    axis (other_axis ty) s' = axis (other_axis ty) s /\
    (forall t, motor t -> hw_moved (s_hw s') t = hw_moved (s_hw s) t) /\
    s_app_calls s' = s_app_calls s ++ [(cb, reset_done_event ty, SYS_OK)] /\
    exists s'', axis_wait_reset ty (mret tt) 1000 s' = Ret SYS_OK s''.
Proof.
  intros Hm [Hd Hi Hcb Hx Hn Hr (b & Eg & Hg & Hpi) Hcfg Ho Hreg Hpos].
  destruct (port_lock_ok s Hd Hx) as (E1 & S1). set (s1 := set_s_mutex _ _) in E1.
  assert (Hc1 : capturing cb ty (set_s_mutex (Some false) s1)).
  { constructor; try done; [apply S1|by exists b|]. cbn [s_hw set_s_mutex set_s_hw s1]. by rewrite (proj1 (proj2 S1)). }
  pose proof (capture_edge cb ty (Some true) s1 Hm Hc1 eq_refl) as HE.
  apply returns_elim in HE as ([] & s2 & E2 & P2 & D2 & I2 & M2 & N2 & C2 & B2 & X2 & L2 & (b2 & G2 & Hg2 & Hd2)).
  set (s3 := set_s_app_notify [] (set_s_app_calls (s_app_calls s2 ++ [(cb, reset_done_event ty, SYS_OK)]) (set_s_mutex (Some false) s2))).
  assert (Hw : has b (task_wait_mask (s_rst s)) = true).
  { rewrite Hr. unfold task_wait_mask. cbn [rz_phase]. change (ph_idle MS41908M_RZ_CAPTURE_WAIT) with false. cbn iota.
    unfold has in *. apply negb_true_iff, Z.eqb_neq. intros E0.
    apply negb_true_iff, Z.eqb_neq in Hpi. apply Hpi. eapply land_sub; [|exact E0]. by destruct ty. }
  assert (Hno : forall e, Z.land 195 e = e -> has b e = false).
  { intros e He. unfold has. by rewrite (land_sub b 195 e He Hg). }
  assert (E3 : ms41908m_motor_task_handler (mret tt) (mret tt) s = Ret tt s3).
  { unfold ms41908m_motor_task_handler. erewrite bind_ret_eq by reflexivity.
    erewrite bind_ret_eq by (apply (wait_ready _ _ _ s b Eg Hw)). erewrite bind_ret_eq by reflexivity.
    erewrite bind_ret_eq by exact E1. change (SYS_OK =? SYS_OK) with true. cbn [negb].
    erewrite bind_ret_eq.
    2:{ apply (locked_capture b s1 s2); try done. change (s_rst s1) with (s_rst s). by rewrite Hr. }
    erewrite bind_ret_eq by (by apply port_unlock_ok). unfold ms41908m_dispatch_pending_app_events.
    erewrite bind_ret_eq by reflexivity. cbn [s_app_event_cb set_s_mutex]. rewrite B2. erewrite bind_ret_eq by reflexivity.
    unfold modify, s3. cbn [s_app_notify set_s_mutex]. by rewrite N2. }
  assert (Hax : axis ty s3 = homed (axis ty s)).
  { change (s_instance s3) with (s_instance s2). rewrite I2. by apply axis_of_put. }
  assert (Hot : axis (other_axis ty) s3 = axis (other_axis ty) s).
  { change (s_instance s3) with (s_instance s2). rewrite I2. by apply axis_of_put_other. }
  assert (Hini : is_initialized (s_instance s2) = true) by (rewrite I2; by destruct ty).
  exists s3. split; [done|]. split.
  { constructor; [constructor; [constructor|..]|..]; try done.
    - exists b2. split; [done|]. by apply (land_sub b2 195).
    - by exists b2.
    - apply (motor_cases _ ty Hm); [rewrite Hax|by rewrite Hot]. by split_and!.
    - intros t Ht. by apply M2.
    - apply (motor_cases _ ty Hm); [rewrite Hax; cbn; unfold in32; lia|by rewrite Hot]. }
  rewrite Hax. split_and!; try done.
  - intros t Ht. change (s_hw s3) with (s_hw s2). rewrite (proj1 (M2 t Ht)). apply S1.
  - unfold s3. cbn [s_app_calls set_s_app_notify set_s_app_calls]. by rewrite C2.
  - unfold axis_wait_reset. erewrite bind_ret_eq by reflexivity. cbn [s_instance set_s_app_notify set_s_app_calls set_s_mutex s3].
    rewrite Hini. cbn [negb]. unfold ms41908m_port_wait_for_event. erewrite bind_ret_eq.
    2:{ erewrite bind_ret_eq by reflexivity. cbn [s_event_group set_s_app_notify set_s_app_calls set_s_mutex s3]. rewrite G2.
        unfold bits_ready. rewrite Hd2. cbn [negb andb]. erewrite bind_ret_eq by reflexivity. erewrite bind_ret_eq by reflexivity.
        cbn [s_event_group set_s_app_notify set_s_app_calls set_s_mutex s3]. rewrite G2.
        change (default 0 (Some b2)) with b2. rewrite Hd2. cbn [andb]. erewrite bind_ret_eq by reflexivity. reflexivity. }
    rewrite Hd2. eexists. unfold last_result, gets in *. injection L2 as L2. rewrite <- L2 at 1. by destruct ty.
Qed.
End Home.
