(* ===== verification/Ms41908mSafe.v ===== *)
(** Whatever the hardware answers: every call of the lens driver's interface, every
    interrupt and every wake-up of the task returns, gives the lock back and keeps the
    run data of the axes consistent. *)
From S2P Require Import Prelude Ms41908mReg Ms41908m Ms41908mRun Ms41908mStart.

Definition bound : Z := 1073741824.

(** [B] bounds how far the counters have gone. *)
Record axis_safe (B : Z) (a : axis_t) : Prop := {
  as_pos : Z.abs (ax_position a) <= B;
  as_min : Z.abs (ax_pos_min a) < bound;
  as_max : Z.abs (ax_pos_max a) < bound;
  as_run : running a = true ->
             1 <= rc_load_psum (ax_run_config a) <= 255 /\ 0 <= rc_unload_psum (ax_run_config a) <= 65535
}.

Section Safe.
Context `{LensHw D}.
Notation ms := (ms_state D).
Notation axis ty s := (axis_of ty (s_instance s)).

Record safe (B : Z) (s : ms) : Prop := {
  sf_axis ty : axis_safe B (axis ty s);
  sf_queue : (length (s_app_notify s) <= 8)%nat
}.

(** What only the lifecycle calls change. *)
Record kept (s s' : ms) : Prop := {
  kp_mutex : s_mutex s' = s_mutex s;
  kp_group : is_Some (s_event_group s') <-> is_Some (s_event_group s);
  kp_ini : is_initialized (s_instance s') = is_initialized (s_instance s);
  kp_task : s_motor_task s' = s_motor_task s;
  kp_timer : s_iris_timer s' = s_iris_timer s;
  kp_cb : s_app_event_cb s' = s_app_event_cb s
}.
Lemma kept_refl s : kept s s.
Proof. by constructor. Qed.
Lemma kept_trans s1 s2 s3 : kept s1 s2 -> kept s2 s3 -> kept s1 s3.
Proof. intros [] []. constructor; try congruence; tauto. Qed.

Definition keeps {A} (B : Z) (m : M ms A) : Prop :=
  forall s, safe B s -> returns m (fun _ s' => safe B s' /\ kept s s') s.

(** ** Composition *)
Lemma safe_ret {A} B (a : A) : keeps B (mret a).
Proof. intros s Hs. rstep. split; [done|apply kept_refl]. Qed.
Lemma safe_gets {A} B (f : ms -> A) : keeps B (gets f).
Proof. intros s Hs. rstep. split; [done|apply kept_refl]. Qed.
Lemma safe_bind {A C} B (m : M ms A) (f : A -> M ms C) : keeps B m -> (forall a, keeps B (f a)) -> keeps B (m ≫= f).
Proof.
  intros Hm Hf s Hs. rcall (Hm s Hs). intros a s1 [Hs1 K1]. eapply returns_mono; [by apply Hf|].
  intros c s2 [Hs2 K2]. split; [done|by eapply kept_trans].
Qed.
Lemma safe_modify B (f : ms -> ms) : (forall s, safe B s -> safe B (f s) /\ kept s (f s)) -> keeps B (modify f).
Proof. intros Hf s Hs. rstep. by apply Hf. Qed.

Lemma keeps_upd_ax B ty f : (forall a, axis_safe B a -> axis_safe B (f a)) -> keeps B (upd_ax ty f).
Proof.
  intros Hf. apply safe_modify. intros s [Ha Hq]. split.
  - constructor; [|done]. intros t. cbn [s_instance set_s_instance].
    pose proof (Hf _ (Ha ty)) as Ht. pose proof (Ha t) as Hx. by destruct ty, t.
  - constructor; try done. by destruct ty.
Qed.

Lemma keeps_hw_do B f : keeps B (hw_do f).
Proof. apply safe_modify. intros s []. split; by constructor. Qed.
Lemma keeps_hw_call {A} B (f : D -> A * D) : keeps B (hw_call f).
Proof.
  unfold hw_call. apply safe_bind; [apply safe_gets|]. intros d. destruct (f d) as [a d'].
  apply safe_bind; [|intros; apply safe_ret]. apply safe_modify. intros s []. split; by constructor.
Qed.
End Safe.

Create HintDb drv.
#[export] Hint Resolve safe_ret safe_gets keeps_hw_do keeps_hw_call : drv.

(** [kgo] splits a computation into its actions. *)
Ltac kgo :=
  repeat match goal with
  | |- keeps _ (_ ≫= _) => apply safe_bind; [|intros]
  | |- keeps _ (if ?b then _ else _) => destruct b
  | |- keeps _ (let '(_, _) := ?x in _) => destruct x
  | |- keeps _ (match ?x with _ => _ end) => destruct x
  end; eauto with drv.

Section Calls.
Context `{LensHw D}.
Notation ms := (ms_state D).
Notation axis ty s := (axis_of ty (s_instance s)).

(** ** The port *)
Lemma keeps_set_bits B bits : keeps (D := D) B (set_bits bits).
Proof.
  apply safe_modify. intros s [Ha Hq]. destruct (s_event_group s) eqn:E; [|by split; constructor].
  split; constructor; try done; rewrite E; done.
Qed.
Lemma keeps_clear B bits : keeps (D := D) B (ms41908m_port_clear_event bits).
Proof.
  apply safe_modify. intros s [Ha Hq]. destruct (s_event_group s) eqn:E; [|by split; constructor].
  split; constructor; try done; rewrite E; done.
Qed.
#[local] Hint Resolve keeps_set_bits keeps_clear : drv.

Lemma keeps_write B a v : keeps (D := D) B (ms41908m_port_write a v).
Proof. unfold ms41908m_port_write, ms41908m_cs_high, ms41908m_cs_low. kgo. Qed.
Lemma keeps_read B a : keeps (D := D) B (ms41908m_port_read a).
Proof. unfold ms41908m_port_read, ms41908m_cs_high, ms41908m_cs_low. kgo. Qed.
Lemma keeps_output_vd B ty : keeps (D := D) B (ms41908m_port_output_vd ty).
Proof. destruct ty; cbn; unfold ms41908m_vd_pulse; kgo. Qed.
#[local] Hint Resolve keeps_write keeps_read keeps_output_vd : drv.

Lemma keeps_set_event B bits : keeps (D := D) B (ms41908m_port_set_event bits).
Proof. unfold ms41908m_port_set_event. kgo. Qed.
Lemma keeps_notify B ev r : keeps (D := D) B (ms41908m_port_set_event_notify ev r).
Proof.
  unfold ms41908m_port_set_event_notify, ms41908m_queue_app_notify. apply safe_bind; [apply keeps_set_event|]. intros _.
  intros s Hs. rstep. destruct (Nat.ltb_spec (length (s_app_notify s)) MS41908M_APP_NOTIFY_CAP) as [E|E];
    rstep; [|split; [done|apply kept_refl]].
  split; [|by constructor]. destruct Hs. constructor; [done|].
  cbn. rewrite length_app. cbn. unfold MS41908M_APP_NOTIFY_CAP in E. lia.
Qed.
Lemma keeps_pi_enable B : keeps (D := D) B ms41908m_port_pi_irq_enable.
Proof. unfold ms41908m_port_pi_irq_enable. kgo. Qed.
Lemma keeps_pi_disable B : keeps (D := D) B ms41908m_port_pi_irq_disable.
Proof. unfold ms41908m_port_pi_irq_disable. kgo. Qed.
Lemma keeps_pi_high B : keeps (D := D) B ms41908m_rz_pi_is_high_locked.
Proof. unfold ms41908m_rz_pi_is_high_locked, ms41908m_port_read_irq_status. kgo. Qed.
Lemma keeps_ax B ty : keeps (D := D) B (ax ty).
Proof. unfold ax. kgo. Qed.
Lemma keeps_tick B : keeps (D := D) B tick.
Proof. unfold tick. kgo. Qed.
Lemma keeps_upd_rst B f : keeps (D := D) B (upd_rst f).
Proof. apply safe_modify. intros s []. split; by constructor. Qed.
Lemma keeps_timer B c : keeps (D := D) B (ms41908m_port_timer c).
Proof. unfold ms41908m_port_timer. kgo. Qed.
Lemma keeps_iris B st : keeps (D := D) B (upd_iris st).
Proof. apply safe_modify. intros s [Ha Hq]. split; [constructor; [|done]|by constructor]. intros t. pose proof (Ha t). by destruct t. Qed.
#[local] Hint Resolve keeps_set_event keeps_notify keeps_pi_enable keeps_pi_disable keeps_pi_high keeps_ax keeps_tick
  keeps_upd_rst keeps_timer keeps_iris : drv.

(** ** Pulses and stops *)
Lemma keeps_mark B ty : keeps (D := D) B (mark_batch ty).
Proof. unfold mark_batch. kgo. apply keeps_upd_ax. intros b []. by constructor. Qed.
#[local] Hint Resolve keeps_mark : drv.
Lemma keeps_fire B ty : keeps (D := D) B (fire_vd ty).
Proof. unfold fire_vd, can_fire_vd_fz. kgo. Qed.
Lemma keeps_fire_phase B : keeps (D := D) B fire_phase.
Proof. unfold fire_phase, can_fire_vd_fz. kgo. Qed.
#[local] Hint Resolve keeps_fire keeps_fire_phase : drv.

Lemma keeps_upd_run B ty f :
  (forall r, 1 <= rc_load_psum r <= 255 /\ 0 <= rc_unload_psum r <= 65535 ->
     1 <= rc_load_psum (f r) <= 255 /\ 0 <= rc_unload_psum (f r) <= 65535) -> keeps (D := D) B (upd_run ty f).
Proof. intros Hf. apply keeps_upd_ax. intros a [Hp Hm Hx Hr]. constructor; try done. cbn. intros R. by apply Hf, Hr. Qed.

Lemma keeps_stop B ty : keeps (D := D) B (ms41908m_motor_stop_impl ty).
Proof.
  unfold ms41908m_motor_stop_impl. kgo.
  - apply keeps_upd_ax. intros b []. by constructor.
  - apply keeps_upd_run. cbn. lia.
  - apply keeps_upd_ax. intros b []. constructor; try done. cbn. by destruct (_ && _).
Qed.
#[local] Hint Resolve keeps_stop : drv.

(** A change of an axis that stops it. *)
Lemma keeps_upd_stopped B ty f :
  (forall a, ax_position (f a) = ax_position a /\ ax_pos_min (f a) = ax_pos_min a /\ ax_pos_max (f a) = ax_pos_max a /\
     running (f a) = false) -> keeps (D := D) B (upd_ax ty f).
Proof.
  intros Hf. apply keeps_upd_ax. intros a []. destruct (Hf a) as (Ep & Em & Ex & Er).
  constructor; rewrite ?Ep, ?Em, ?Ex, ?Er; done.
Qed.

(** ** Starts *)
Lemma safe_hw B (s : ms) d : safe B s -> safe B (set_s_hw d s).
Proof. intros []. by constructor. Qed.

Lemma read_hw a (s : ms) : exists r d, ms41908m_port_read a s = Ret r (set_s_hw d s).
Proof.
  unfold ms41908m_port_read, ms41908m_cs_high, ms41908m_cs_low, hw_do, hw_call. mstep.
  destruct (HAL_SPI_TransmitReceive _ _) as [[[] rx] d]; mstep; eexists _, _; reflexivity.
Qed.
Lemma write_hw a v (s : ms) : exists r d, ms41908m_port_write a v s = Ret r (set_s_hw d s).
Proof.
  unfold ms41908m_port_write, ms41908m_cs_high, ms41908m_cs_low, hw_do, hw_call. mstep.
  destruct (HAL_SPI_Transmit _ _) as [[] d]; mstep; eexists _, _; reflexivity.
Qed.

(** The rest of a start once the run data are in place. *)
Definition run_ready (ty : ms41908m_type_t) (s : ms) : Prop :=
  1 <= rc_load_psum (ax_run_config (axis ty s)) <= 255 /\ 0 <= rc_unload_psum (ax_run_config (axis ty s)) <= 65535.

Lemma safe_set_run B ty st (f : axis_t -> axis_t) (s : ms) :
  safe B s -> run_ready ty s ->
  (forall a, ax_position (f a) = ax_position a /\ ax_pos_min (f a) = ax_pos_min a /\ ax_pos_max (f a) = ax_pos_max a /\
     ax_run_config (f a) = ax_run_config a) ->
  returns (upd_ax ty (fun a => f (set_ax_state st a))) (fun _ s' => safe B s' /\ kept s s') s.
Proof.
  intros [Ha Hq] Hr Hf. unfold upd_ax, upd_inst. rstep. destruct (Hf (set_ax_state st (axis ty s))) as (Ep & Em & Ex & Ec).
  assert (Hn : axis_safe B (f (set_ax_state st (axis ty s)))).
  { destruct (Ha ty). constructor; rewrite ?Ep, ?Em, ?Ex, ?Ec; done. }
  split; [constructor; [|done]|constructor; try done; by destruct ty].
  intros t. cbn [s_instance set_s_instance]. pose proof (Ha t). by destruct ty, t.
Qed.

Lemma kept_hw (s : ms) d : kept s (set_s_hw d s).
Proof. by constructor. Qed.

(** Accesses that leave the axes as they are. *)
Definition keepsi {A} B (m : M ms A) : Prop :=
  forall s, safe B s -> returns m (fun _ s' => safe B s' /\ kept s s' /\ s_instance s' = s_instance s) s.
Lemma keepsi_read B a : keepsi B (ms41908m_port_read a).
Proof. intros s Hs. destruct (read_hw a s) as (r & d & E). eapply returns_intro; [exact E|]. split; [by apply safe_hw|done]. Qed.
Lemma keepsi_write B a v : keepsi B (ms41908m_port_write a v).
Proof. intros s Hs. destruct (write_hw a v s) as (r & d & E). eapply returns_intro; [exact E|]. split; [by apply safe_hw|done]. Qed.
Lemma keepsi_clear B e : keepsi B (ms41908m_port_clear_event e).
Proof.
  intros s Hs. eapply returns_mono; [apply returns_and; [by apply (keeps_clear B e s Hs)|]|].
  { instantiate (1 := fun _ s' => s_instance s' = s_instance s). unfold ms41908m_port_clear_event. rstep. by destruct (s_event_group s). }
  intros ? ? [[? ?] ?]. done.
Qed.

(** [m] may rely on run data that are in place; the accesses above keep them. *)
Definition keepsr {A} B ty (m : M ms A) : Prop :=
  forall s, safe B s -> run_ready ty s -> returns m (fun _ s' => safe B s' /\ kept s s') s.
Lemma keepsr_keeps {A} B ty (m : M ms A) : keeps B m -> keepsr B ty m.
Proof. intros Hm s Hs _. by apply Hm. Qed.
Lemma keepsr_bind {A C} B ty (m : M ms A) (f : A -> M ms C) :
  keepsi B m -> (forall a, keepsr B ty (f a)) -> keepsr B ty (m ≫= f).
Proof.
  intros Hm Hf s Hs Hr. rcall (Hm s Hs). intros a s1 (Hs1 & K1 & I1). eapply returns_mono.
  - apply Hf; [done|]. unfold run_ready. by rewrite I1.
  - intros c s2 [Hs2 K2]. split; [done|by eapply kept_trans].
Qed.
Lemma keepsr_set {A} B ty st f (k : M ms A) :
  (forall a, ax_position (f a) = ax_position a /\ ax_pos_min (f a) = ax_pos_min a /\ ax_pos_max (f a) = ax_pos_max a /\
     ax_run_config (f a) = ax_run_config a) -> keeps B k -> keepsr B ty (upd_ax ty (fun a => f (set_ax_state st a));; k).
Proof.
  intros Hf Hk s Hs Hr. rcall (safe_set_run B ty st f s Hs Hr Hf). intros _ s1 [Hs1 K1].
  eapply returns_mono; [by apply Hk|]. intros c s2 [Hs2 K2]. split; [done|by eapply kept_trans].
Qed.
Lemma keeps_set_run {A} B ty rc (k : M ms A) :
  1 <= rc_load_psum rc <= 255 -> 0 <= rc_unload_psum rc <= 65535 -> keepsr B ty k -> keeps B (upd_run ty (fun _ => rc);; k).
Proof.
  intros Hl Hu Hk s Hs. apply returns_bind. eapply returns_mono.
  - apply returns_and; [by apply (keeps_upd_run B ty (fun _ => rc)); [intros; done|exact Hs]|].
    instantiate (1 := fun _ s' => run_ready ty s'). unfold upd_run, upd_ax, upd_inst. rstep. unfold run_ready. by destruct ty.
  - intros _ s1 [[Hs1 K1] R1]. eapply returns_mono; [by apply Hk|]. intros c s2 [Hs2 K2]. split; [done|by eapply kept_trans].
Qed.

Lemma fail_run_keeps B ty r : keeps B (fail_run ty r : M ms Z).
Proof. unfold fail_run. kgo. apply keeps_upd_run. intros []. done. Qed.
#[local] Hint Resolve fail_run_keeps keepsi_read keepsi_write keepsi_clear : drv.

Lemma keeps_int32 B z : in32 z -> keeps (D := D) B (int32 z).
Proof.
  intros [? ?] s Hs. unfold int32. rewrite (proj2 (Z.leb_le _ _)), (proj2 (Z.leb_le _ _)) by done. cbn [andb].
  rstep. split; [done|apply kept_refl].
Qed.

Lemma returns_int32 z (s : ms) (Q : Z -> ms -> Prop) : in32 z -> Q z s -> returns (int32 z) Q s.
Proof.
  intros [? ?] HQ. unfold int32. rewrite (proj2 (Z.leb_le _ _)), (proj2 (Z.leb_le _ _)) by done. exact HQ.
Qed.

(** The run data and the registers of the first batch, then the axis is running. *)
Lemma keeps_start B ty pps n : 0 <= B < bound -> in32 (- n) -> keeps (D := D) B (ms41908m_motor_start_impl ty pps n).
Proof.
  intros HB Hn. unfold ms41908m_motor_start_impl. destruct (_ || _); [apply safe_ret|].
  intros s Hs. eapply returns_eq; [erewrite bind_ret_eq; [reflexivity|]|].
  { unfold MS41908M_ABS. instantiate (2 := Z.abs n). destruct (n <? 0) eqn:E; cbool.
    - unfold int32. rewrite (proj2 (Z.leb_le _ _)), (proj2 (Z.leb_le _ _)) by (unfold in32 in Hn; lia). cbn [andb].
      unfold mret, M_ret. f_equal. lia.
    - unfold mret, M_ret. f_equal. lia. }
  cbn beta. destruct (_ || _) eqn:Er; [by apply safe_ret|]. cbool. unfold MS41908M_RAW_PSUM_MIN, MS41908M_RAW_PSUM_MAX in *.
  destruct (ty_eq ty MS41908M_TYPE_IRIS); [by apply safe_ret|]. rpure.
  destruct (st_eq _ _); [by apply safe_ret|]. destruct (running _); [by apply safe_ret|]. destruct (_ && _); [by apply safe_ret|].
  apply returns_bind. unfold limits_refuse. pose proof (as_pos _ _ (sf_axis _ _ Hs ty)) as Hp.
  assert (Hgo : returns
    (let intct := start_intct pps in let psum := start_psum pps (Z.abs n) in let direction := if 0 <=? n then 1 else 0 in
     upd_run ty (fun _ => mkRun true direction intct (Z.abs n - psum) psum);;
     '(ret, v) ← ms41908m_port_read (step_addr ty);
     if negb (ret =? SYS_OK) then fail_run ty ret
     else
       let step_reg := step_value (default 0 v) psum direction in
       ret ← ms41908m_port_write (pps_addr ty) (Z.land intct 65535);
       if negb (ret =? SYS_OK) then fail_run ty ret
       else
         ret ← ms41908m_port_write (step_addr ty) step_reg;
         if negb (ret =? SYS_OK) then fail_run ty ret
         else
           ms41908m_port_clear_event (completed_event ty);;
           now ← tick;
           upd_ax ty (fun a => set_ax_pls_rcvd false (set_ax_batch_active false
                                 (set_ax_start_tick now (set_ax_state MS41908M_STATE_RUNNING a))));;
           fire_vd ty;;
           mret SYS_OK) (fun _ s' => safe B s' /\ kept s s') s).
  { destruct (start_psum_range pps (Z.abs n)) as [Hs1 Hs2]; [lia|]. cbn zeta.
    match goal with |- returns ?m _ s => enough (K : keeps B m) by exact (K s Hs) end.
    apply keeps_set_run; [cbn; lia|cbn; lia|].
    apply keepsr_bind; [apply keepsi_read|]. intros [ret v]. destruct (negb _); [by apply keepsr_keeps, fail_run_keeps|].
    apply keepsr_bind; [apply keepsi_write|]. intros ret2. destruct (negb _); [by apply keepsr_keeps, fail_run_keeps|].
    apply keepsr_bind; [apply keepsi_write|]. intros ret3. destruct (negb _); [by apply keepsr_keeps, fail_run_keeps|].
    apply keepsr_bind; [apply keepsi_clear|]. intros _.
    apply keepsr_bind; [intros s' Hs'; unfold tick; rstep; split; [done|split; [apply kept_refl|done]]|]. intros now.
    apply (keepsr_set B ty MS41908M_STATE_RUNNING (fun a => set_ax_pls_rcvd false (set_ax_batch_active false (set_ax_start_tick now a))));
      [done|]. kgo. }
  destruct (_ && _); [|exact Hgo].
  apply returns_bind. apply returns_int32; [unfold in32, bound in *; lia|]. rstep.
  destruct (_ || _); [|exact Hgo]. by apply safe_ret.
Qed.

Lemma abs_returns n (s : ms) (Q : Z -> ms -> Prop) : in32 (- n) -> Q (Z.abs n) s -> returns (MS41908M_ABS n) Q s.
Proof.
  intros Hn HQ. unfold MS41908M_ABS. destruct (n <? 0) eqn:E; cbool.
  - apply returns_int32; [done|]. by replace (- n) with (Z.abs n) by lia.
  - rstep. by replace n with (Z.abs n) at 1 by lia.
Qed.

Lemma keeps_sync_axis B ty pps n : in32 (- n) -> keeps (D := D) B (sync_axis ty pps n).
Proof.
  intros Hn. unfold sync_axis. destruct (n =? 0); [apply safe_ret|]. destruct (_ || _); [apply safe_ret|].
  intros s Hs. apply returns_bind. apply abs_returns; [done|]. destruct (_ || _) eqn:Er; [by apply safe_ret|]. cbool.
  unfold MS41908M_RAW_PSUM_MIN, MS41908M_RAW_PSUM_MAX in *.
  destruct (sync_psum_range pps (Z.abs n)) as [Hs1 Hs2]; [lia|]. cbn zeta.
  match goal with |- returns ?m _ s => enough (K : keeps B m) by exact (K s Hs) end.
  apply keeps_set_run; [cbn; lia|cbn; lia|].
  apply keepsr_bind; [apply keepsi_write|]. intros ret. destruct (negb _); [by apply keepsr_keeps, safe_ret|].
  apply keepsr_bind; [apply keepsi_read|]. intros [ret2 v]. destruct (negb _); [by apply keepsr_keeps, safe_ret|].
  apply keepsr_bind; [apply keepsi_write|]. intros ret3. destruct (negb _); [by apply keepsr_keeps, safe_ret|].
  apply keepsr_bind; [apply keepsi_clear|]. intros _.
  apply keepsr_bind; [intros s' Hs'; unfold tick; rstep; split; [done|split; [apply kept_refl|done]]|]. intros now s' Hs' Hr'.
  eapply returns_eq with (m' := upd_ax ty (fun a => set_ax_start_tick now (set_ax_state MS41908M_STATE_RUNNING a));; mret SyncDone);
    [by destruct ty|]. apply (keepsr_set B ty MS41908M_STATE_RUNNING (set_ax_start_tick now)); [done|apply safe_ret|done|done].
Qed.

Lemma keeps_write_regs B l : keeps (D := D) B (write_regs l).
Proof. induction l as [|[a v] l IH]; cbn [write_regs]; kgo. Qed.
#[local] Hint Resolve keeps_write_regs : drv.
Lemma keeps_write_motor B c : keeps (D := D) B (ms41908m_write_motor_config c).
Proof. unfold ms41908m_write_motor_config. kgo. Qed.
#[local] Hint Resolve keeps_write_motor : drv.

(** ** The reset state machine *)
Lemma keeps_last_result B ty v : keeps (D := D) B (set_last_result ty v).
Proof. destruct ty; apply safe_modify; intros s []; split; by constructor. Qed.
#[local] Hint Resolve keeps_last_result : drv.

Lemma keeps_complete B upd res : (forall a, axis_safe B a -> Z.abs (ax_position (upd a)) <= B /\ ax_pos_min (upd a) = ax_pos_min a /\ ax_pos_max (upd a) = ax_pos_max a) ->
  keeps (D := D) B (reset_sm_complete upd res).
Proof.
  intros Hu. unfold reset_sm_complete. kgo. apply keeps_upd_ax. intros b Hb. destruct (Hu b Hb) as (Hp & Em & Ex). destruct Hb.
  constructor; cbn; rewrite ?Em, ?Ex; done.
Qed.
Lemma keeps_complete_ok B : 0 <= B -> keeps (D := D) B ms41908m_reset_sm_complete_ok_locked.
Proof. intros. apply keeps_complete. intros a []. cbn. done. Qed.
Lemma keeps_complete_err B e : keeps (D := D) B (ms41908m_reset_sm_complete_err_locked e).
Proof. apply keeps_complete. intros a []. done. Qed.
#[local] Hint Resolve keeps_complete_ok keeps_complete_err : drv.

Lemma keeps_set_phase B p : keeps (D := D) B (set_phase p).
Proof. apply keeps_upd_rst. Qed.
#[local] Hint Resolve keeps_set_phase : drv.

Lemma with_margin_range x : Z.abs x < bound -> 0 <= with_margin x <= bound + 400.
Proof.
  intros Hx. unfold with_margin, bound, MS41908M_TRAVEL_MARGIN, s32 in *. cbn zeta.
  set (w := (if x <? 0 then 0 else x) + 400). assert (Hw : 400 <= w < 2147483648) by (unfold w; destruct (x <? 0) eqn:E; cbool; lia).
  rewrite !(u32_small w) by lia. rewrite (proj2 (Z.ltb_lt _ _)) by lia. unfold w in *. destruct (x <? 0) eqn:E; cbool; lia.
Qed.

(** The travels of the state machine: the limits bound them. *)
Lemma span_min_travel {A} B (k : Z -> M ms A) :
  (forall z, 0 <= z <= bound + 400 -> keeps B (k z)) -> keeps B (ms41908m_rz_span_zero_to_min_locked ≫= k).
Proof.
  intros Hk s Hs. unfold ms41908m_rz_span_zero_to_min_locked. apply returns_bind. do 2 rpure.
  pose proof (as_min _ _ (sf_axis _ _ Hs (rz_type (s_rst s)))) as Hm. apply returns_bind.
  apply returns_int32; [unfold in32, bound in *; lia|]. rstep.
  apply Hk; [|done]. apply with_margin_range. lia.
Qed.
Lemma span_max_travel {A} B (k : Z -> M ms A) :
  (forall z, 0 <= z <= bound + 400 -> keeps B (k z)) -> keeps B (ms41908m_rz_span_zero_to_max_locked ≫= k).
Proof.
  intros Hk s Hs. unfold ms41908m_rz_span_zero_to_max_locked. apply returns_bind. do 2 rpure.
  pose proof (as_max _ _ (sf_axis _ _ Hs (rz_type (s_rst s)))) as Hm. rstep.
  apply Hk; [|done]. by apply with_margin_range.
Qed.
Lemma keeps_eq {A} B (m m' : M ms A) : (forall s, m s = m' s) -> keeps B m' -> keeps B m.
Proof. intros E Hm s Hs. eapply returns_eq; [apply E|]. by apply Hm. Qed.
Lemma negated_travel {A} B (k : Z -> M ms A) :
  (forall n, in32 (- n) -> keeps B (k n)) ->
  keeps B ((span ← ms41908m_rz_span_zero_to_max_locked; int32 (- span)) ≫= k).
Proof.
  intros Hk. eapply keeps_eq; [intros; apply bind_assoc|]. apply span_max_travel. intros z Hz s Hs.
  apply returns_bind, returns_int32; [unfold in32, bound in *; lia|]. apply Hk; [|done]. unfold in32, bound in *. lia.
Qed.

Lemma steps_to_clear_travel {A} B (k : Z -> M ms A) :
  (forall n, in32 (- n) -> keeps B (k n)) -> keeps B (ms41908m_rz_steps_to_clear_pi_locked ≫= k).
Proof.
  intros Hk. unfold ms41908m_rz_steps_to_clear_pi_locked. eapply keeps_eq; [intros; apply bind_assoc|].
  apply safe_bind; [apply safe_gets|]. intros ty. destruct (ty_eq _ _).
  - apply span_min_travel. intros z Hz. apply Hk. unfold in32, bound in *. lia.
  - by apply negated_travel.
Qed.
Lemma steps_to_home_travel {A} B (k : Z -> M ms A) :
  (forall n, in32 (- n) -> keeps B (k n)) -> keeps B (ms41908m_rz_steps_to_home_edge_locked ≫= k).
Proof.
  intros Hk. unfold ms41908m_rz_steps_to_home_edge_locked. eapply keeps_eq; [intros; apply bind_assoc|].
  apply safe_bind; [apply safe_gets|]. intros ty. destruct (ty_eq _ _).
  - by apply negated_travel.
  - apply span_min_travel. intros z Hz. apply Hk. unfold in32, bound in *. lia.
Qed.

(** A wait during which [meanwhile] happens. *)
Lemma keeps_clear_bits B b bits : forall s : ms, safe B s -> s_event_group s = Some b ->
  safe B (set_s_event_group (Some bits) s) /\ kept s (set_s_event_group (Some bits) s).
Proof. intros s [] E. split; constructor; try done; by rewrite E. Qed.

Lemma keeps_poll B e : keeps (D := D) B (poll_event e).
Proof.
  intros s Hs. unfold poll_event, ms41908m_port_wait_for_event. rpure. destruct (s_event_group s) as [b|] eqn:E.
  - change (0 =? 0) with true. rewrite andb_false_r. do 3 rpure. rstep. split; [done|apply kept_refl].
  - rstep. split; [done|apply kept_refl].
Qed.
#[local] Hint Resolve keeps_poll : drv.

Section Bounded.
Context (B : Z) (HB : 0 <= B < bound).
Let H0B : 0 <= B := proj1 HB.

Lemma keeps_step_once : keeps (D := D) B ms41908m_reset_sm_step_once_locked.
Proof.
  assert (Hs : forall ty pps n, in32 (- n) -> keeps (D := D) B (ms41908m_motor_start_impl ty pps n)) by (intros; by apply keeps_start).
  unfold ms41908m_reset_sm_step_once_locked. kgo.
  - unfold exit_low_start. apply safe_bind; [kgo|]. intros []; [kgo|]. apply steps_to_clear_travel. intros n Hn. kgo.
  - unfold exit_low_wait. kgo.
  - unfold capture_start. do 2 (apply safe_bind; [kgo|intros]). apply steps_to_home_travel. intros n Hn. kgo.
  - unfold capture_wait. kgo.
Qed.

Lemma keeps_reset_loop n : keeps (D := D) B (reset_sm_loop n).
Proof. induction n as [|n IH]; cbn [reset_sm_loop]; kgo. apply keeps_step_once. Qed.

Lemma keeps_arm ty i e c : keeps (D := D) B (ms41908m_reset_sm_arm_locked ty i e c).
Proof.
  unfold ms41908m_reset_sm_arm_locked. kgo.
  - apply safe_modify. intros s []. split; by constructor.
  - apply keeps_upd_ax. intros b []. by constructor.
Qed.
Lemma keeps_try_arm ty : keeps (D := D) B (try_arm ty).
Proof. unfold try_arm. kgo; [apply keeps_upd_stopped; intros a'; by split_and!|apply keeps_arm]. Qed.

Lemma keeps_timeout ty now : keeps (D := D) B (timeout_guard ty now).
Proof.
  unfold timeout_guard. kgo. apply keeps_upd_ax. intros b []. by constructor.
Qed.

#[local] Hint Resolve keeps_reset_loop keeps_try_arm keeps_timeout : drv.

Lemma keeps_requests bits : keeps (D := D) B (handle_requests bits).
Proof.
  unfold handle_requests, ms41908m_reset_sm_try_arm_zoom_locked, ms41908m_reset_sm_try_arm_focus_locked. kgo.
Qed.
Lemma keeps_run_completed ty : keeps (D := D) B (run_completed ty).
Proof. unfold run_completed. kgo. Qed.
End Bounded.
#[local] Hint Resolve keeps_reset_loop keeps_timeout keeps_requests keeps_run_completed : drv.

(** ** Batches: a finished batch moves the counter by 255 micro-steps at most *)
Lemma safe_mono B B' (s : ms) : B <= B' -> safe B s -> safe B' s.
Proof. intros HB [Ha Hq]. constructor; [|done]. intros ty. destruct (Ha ty). constructor; try done; lia. Qed.

Definition grows {A} (B B' : Z) (m : M ms A) : Prop :=
  forall s, safe B s -> returns m (fun _ s' => safe B' s' /\ kept s s') s.
Lemma grows_keeps {A} B B' (m : M ms A) : B <= B' -> keeps B' m -> grows B B' m.
Proof. intros HB Hm s Hs. apply Hm. by eapply safe_mono. Qed.
Lemma grows_bind {A C} B B' B'' (m : M ms A) (f : A -> M ms C) :
  grows B B' m -> (forall a, grows B' B'' (f a)) -> grows B B'' (m ≫= f).
Proof.
  intros Hm Hf s Hs. rcall (Hm s Hs). intros a s1 [Hs1 K1]. eapply returns_mono; [by apply Hf|].
  intros c s2 [Hs2 K2]. split; [done|by eapply kept_trans].
Qed.

Lemma keeps_error B ty : keeps (D := D) B (upd_ax ty (fun a => set_ax_is_r_zero false (set_ax_state MS41908M_STATE_ERROR a))).
Proof. apply keeps_upd_stopped. intros a. by split_and!. Qed.
#[local] Hint Resolve keeps_error : drv.

Lemma next_batch_safe B ty ret (s : ms) :
  safe B s -> running (axis ty s) = true -> 0 < rc_unload_psum (ax_run_config (axis ty s)) ->
  returns (next_batch ty ret) (fun _ s' => safe B s' /\ kept s s') s.
Proof.
  intros Hs R Hu. pose proof (as_run _ _ (sf_axis _ _ Hs ty) R) as [Hl Hun]. unfold next_batch. rpure. cbn zeta.
  destruct (_ <=? _) eqn:E; cbool;
    match goal with |- returns ?m _ s => enough (K : keeps B m) by exact (K s Hs) end.
  - kgo. apply keeps_upd_run. cbn. lia.
  - kgo. apply keeps_upd_run. cbn. lia.
Qed.

Lemma handle_pls_safe B ty ret (s : ms) :
  0 <= B < bound -> safe B s -> running (axis ty s) = true ->
  returns (handle_pls ty ret) (fun _ s' => safe (B + 255) s' /\ kept s s') s.
Proof.
  intros HB Hs R. unfold handle_pls. apply returns_bind. eapply returns_mono.
  - apply returns_and; [apply (keeps_upd_ax B ty (set_ax_pls_rcvd true)); [intros a []; by constructor|exact Hs]|].
    instantiate (1 := fun _ s' => running (axis ty s') = true). unfold upd_ax, upd_inst. rstep. by destruct ty.
  - clear Hs R. intros _ s0 [[Hs K0] R]. pose proof (sf_axis _ _ Hs ty) as [Hp Hm Hx Hr]. specialize (Hr R). unfold bound in *.
    rpure. cbn zeta. destruct (negb _); [rstep; split; [eapply safe_mono; [|done]; lia|done]|].
    set (pos := if _ =? 1 then _ else _). assert (Hpos : Z.abs pos <= B + 255) by (unfold pos; destruct (_ =? 1); lia).
    apply returns_bind, returns_int32; [unfold in32; lia|]. apply returns_bind.
    assert (Hs1 : safe (B + 255) s0) by (eapply safe_mono; [|done]; lia).
    eapply returns_mono.
    { apply returns_and; [apply (keeps_upd_ax (B + 255) ty (set_ax_position pos)); [intros a []; by constructor|exact Hs1]|].
      instantiate (1 := fun _ s' => running (axis ty s') = true /\ ax_run_config (axis ty s') = ax_run_config (axis ty s0)).
      unfold upd_ax, upd_inst. rstep. by destruct ty. }
    intros _ s2 [[Hs2 K2] [R2 E2]]. destruct (0 <? _) eqn:Eu; cbool.
    + apply returns_bind. eapply returns_mono; [apply next_batch_safe; [done|done|by rewrite E2]|].
      intros r s3 [Hs3 K3]. match goal with |- returns ?m _ s3 => assert (K : keeps (B + 255) m) by kgo end.
      eapply returns_mono; [exact (K s3 Hs3)|]. intros ? ? [? ?]. split; [done|]. eauto using kept_trans.
    + match goal with |- returns ?m _ s2 => assert (K : keeps (B + 255) m) by kgo end.
      eapply returns_mono; [exact (K s2 Hs2)|]. intros ? ? [? ?]. split; [done|]. eauto using kept_trans.
Qed.

Lemma grows_pls B ty bits ret : 0 <= B < bound -> grows B (B + 255) (pls_of_axis ty bits ret : M ms Z).
Proof.
  intros HB s Hs. unfold pls_of_axis. rpure. destruct (has _ _); cbn [andb].
  - destruct (running _) eqn:R; [by apply handle_pls_safe|]. apply (grows_keeps B); [lia|kgo|done].
  - apply (grows_keeps B); [lia|kgo|done].
Qed.
Lemma grows_pls_events B bits ret : 0 <= B < bound - 255 -> grows B (B + 510) (handle_pls_events bits ret : M ms unit).
Proof.
  intros HB. unfold handle_pls_events. destruct (has _ _); [|apply grows_keeps; [lia|kgo]].
  eapply grows_bind; [apply grows_pls; lia|]. intros r.
  eapply grows_bind; [apply grows_pls; lia|]. intros _. replace (B + 255 + 255) with (B + 510) by lia.
  apply grows_keeps; [lia|]. kgo.
Qed.
Lemma grows_locked B bits : 0 <= B < bound - 510 -> grows B (B + 510) (motor_task_locked bits : M ms unit).
Proof.
  intros HB. unfold motor_task_locked.
  do 3 (eapply (grows_bind B B); [apply grows_keeps; [lia|]; kgo; lia|intros]).
  eapply grows_bind; [apply grows_pls_events; lia|]. intros _. apply grows_keeps; [lia|].
  unfold ms41908m_reset_sm_run_locked. kgo. apply keeps_reset_loop. lia.
Qed.
End Calls.

#[export] Hint Resolve keeps_set_bits keeps_clear keeps_write keeps_read keeps_output_vd keeps_set_event keeps_notify
  keeps_pi_enable keeps_pi_disable keeps_pi_high keeps_ax keeps_tick keeps_upd_rst keeps_timer keeps_iris keeps_mark
  keeps_fire keeps_fire_phase keeps_stop fail_run_keeps keeps_write_regs keeps_write_motor keeps_last_result
  keeps_poll : drv.
