(* ===== verification/Ms41908mCalls.v ===== *)
(** The calls of the lens driver's interface in any order, with interrupts and wake-ups
    of the task in between, on hardware that answers as it likes. *)
From S2P Require Import Prelude Ms41908mReg Ms41908m Ms41908mPort Ms41908mRun Ms41908mStart Ms41908mSafe.

(** ** Calls, and what can happen while one of them waits *)
Inductive env_event : Type :=
  | EIrq (pin : gpio_t)
  | EIrisTimer
  | ETask (waiting locking : list gpio_t).

Inductive ms_call : Type :=
  | CEnv (e : env_event)
  | CInit
  | CDeinit
  | CCallback (cb : option Z)
  | CIrisConfig (c : option ms41908m_iris_config_t)
  | CIrisTarget (target : Z)
  | CIrisAdc
  | CIrisRun
  | CIrisStop
  | CMotorConfig (c : option ms41908m_motor_config_t)
  | CRun (ty : ms41908m_type_t) (pps micro_steps : Z)
  | CRunTo (ty : ms41908m_type_t) (pps position : Z)
  | CReset (ty : ms41908m_type_t)
  | CWaitReset (ty : ms41908m_type_t) (meanwhile : list env_event) (timeout_ms : Z)
  | CWaitRun (ty : ms41908m_type_t) (meanwhile : list env_event) (timeout_ms : Z)
  | CLimit (ty : ms41908m_type_t) (lo hi : Z)
  | CReadPi (ty : ms41908m_type_t)
  | CStop (ty : ms41908m_type_t)
  | CSync (zm_pps zm_steps fs_pps fs_steps : Z)
  | CSyncWait (meanwhile : list env_event) (timeout_ms : Z).

(** The arguments: an [int32_t] other than the least one for a number of steps, 31 bits
    for positions and limits. *)
Definition steps_ok (n : Z) : bool := (- 2147483648 <? n) && (n <? 2147483648).
Definition position_ok (n : Z) : bool := Z.abs n <? bound.
Definition call_ok (c : ms_call) : bool :=
  match c with
  | CRun _ _ n => steps_ok n
  | CRunTo _ _ p => position_ok p
  | CLimit _ lo hi => position_ok lo && position_ok hi
  | CSync _ z _ f => steps_ok z && steps_ok f
  | _ => true
  end.

(** By how much a call can move the counters. *)
Definition env_cost (e : env_event) : Z := match e with ETask _ _ => 510 | _ => 0 end.
Fixpoint envs_cost (l : list env_event) : Z := match l with [] => 0 | e :: l => env_cost e + envs_cost l end.
Definition call_cost (c : ms_call) : Z :=
  match c with
  | CEnv e => env_cost e
  | CWaitReset _ l _ | CWaitRun _ l _ | CSyncWait l _ => envs_cost l
  | _ => 0
  end.
Fixpoint calls_cost (l : list ms_call) : Z := match l with [] => 0 | c :: l => call_cost c + calls_cost l end.
Lemma env_cost_nonneg e : 0 <= env_cost e.
Proof. destruct e; cbn; lia. Qed.
Lemma envs_cost_nonneg l : 0 <= envs_cost l.
Proof. induction l as [|e l IH]; cbn [envs_cost]; [done|]. pose proof (env_cost_nonneg e). lia. Qed.
Lemma call_cost_nonneg c : 0 <= call_cost c.
Proof. destruct c; cbn [call_cost]; try done; try apply envs_cost_nonneg. apply env_cost_nonneg. Qed.
Lemma calls_cost_nonneg l : 0 <= calls_cost l.
Proof. induction l as [|c l IH]; cbn [calls_cost]; [done|]. pose proof (call_cost_nonneg c). lia. Qed.

Section Calls.
Context `{LensHw D}.
Notation ms := (ms_state D).
Notation axis ty s := (axis_of ty (s_instance s)).

Fixpoint irqs (l : list gpio_t) : M ms unit :=
  match l with [] => mret tt | p :: l => ms41908m_port_irq_handler p;; irqs l end.
Definition do_env (e : env_event) : M ms unit :=
  match e with
  | EIrq p => ms41908m_port_irq_handler p
  | EIrisTimer => t ← gets s_iris_timer; if t : bool then ms41908m_iris_timer_handler else mret tt
  | ETask w l => t ← gets s_motor_task; if t : bool then ms41908m_motor_task_handler (irqs w) (irqs l) else mret tt
  end.
Fixpoint do_envs (l : list env_event) : M ms unit :=
  match l with [] => mret tt | e :: l => do_env e;; do_envs l end.

Definition do_call (c : ms_call) : M ms Z :=
  match c with
  | CEnv e => do_env e;; mret 0
  | CInit => ms41908m_init
  | CDeinit => ms41908m_deinit;; mret 0
  | CCallback cb => ms41908m_set_event_callback cb;; mret 0
  | CIrisConfig c => ms41908m_iris_config c
  | CIrisTarget t => ms41908m_iris_update_target t
  | CIrisAdc => ms41908m_iris_read_adc
  | CIrisRun => ms41908m_iris_run
  | CIrisStop => ms41908m_iris_stop
  | CMotorConfig c => ms41908m_motor_config c
  | CRun ty pps n => axis_run ty pps n
  | CRunTo ty pps p => axis_run_to ty pps p
  | CReset ty => axis_reset_zero ty
  | CWaitReset ty l t => axis_wait_reset ty (do_envs l) t
  | CWaitRun ty l t => axis_wait_run ty (do_envs l) t
  | CLimit ty lo hi => axis_set_limit ty lo hi
  | CReadPi ty => read_pi ty
  | CStop ty => axis_stop ty
  | CSync zp zn fp fn => ms41908m_zf_sync_run zp zn fp fn
  | CSyncWait l t => ms41908m_zf_sync_wait_for_completion (do_envs l) t
  end.
Fixpoint do_calls (l : list ms_call) : M ms unit :=
  match l with [] => mret tt | c :: l => do_call c;; do_calls l end.

(** ** Calls outside and inside the lock *)
Definition free {A} (B B' : Z) (m : M ms A) : Prop :=
  forall s, safe B s -> s_mutex s <> Some true -> returns m (fun _ s' => safe B' s' /\ kept s s') s.
Definition ends {A} (B B' : Z) (m : M ms A) : Prop :=
  forall s, safe B s -> s_mutex s = Some true ->
    returns m (fun _ s' => safe B' s' /\ kept (set_s_mutex (Some false) s) s') s.

Lemma free_keeps {A} B (m : M ms A) : keeps B m -> free B B m.
Proof. intros Hm s Hs _. by apply Hm. Qed.
Lemma free_bind {A C} B B' B'' (m : M ms A) (f : A -> M ms C) :
  free B B' m -> (forall a, free B' B'' (f a)) -> free B B'' (m ≫= f).
Proof.
  intros Hm Hf s Hs Hx. rcall (Hm s Hs Hx). intros a s1 [Hs1 K1]. eapply returns_mono; [apply Hf; [done|]|].
  - by rewrite (kp_mutex _ _ K1).
  - intros c s2 [Hs2 K2]. split; [done|by eapply kept_trans].
Qed.
Lemma kept_unlocked (s s1 : ms) : kept s s1 -> kept (set_s_mutex (Some false) s) (set_s_mutex (Some false) s1).
Proof. intros []. by constructor. Qed.
Lemma unlock_bind {A C} B B' B'' (m : M ms A) (f : A -> M ms C) :
  grows B B' m -> (forall a, ends B' B'' (f a)) -> ends B B'' (m ≫= f).
Proof.
  intros Hm Hf s Hs Hx. rcall (Hm s Hs). intros a s1 [Hs1 K1]. eapply returns_mono; [apply Hf; [done|]|].
  - by rewrite (kp_mutex _ _ K1).
  - intros c s2 [Hs2 K2]. split; [done|]. eapply kept_trans; [|done]. by apply kept_unlocked.
Qed.
Lemma ends_unlock {A} B (k : M ms A) : keeps B k -> ends B B (ms41908m_port_unlock;; k).
Proof.
  intros Hk s Hs Hx. unfold ms41908m_port_unlock. apply returns_bind. rpure. rewrite Hx. rpure. rstep.
  apply Hk. destruct Hs. by constructor.
Qed.
Lemma free_lock {A} B B' (k1 : Z -> M ms A) (k2 : M ms A) :
  (forall ret, free B B' (k1 ret)) -> ends B B' k2 ->
  free B B' (ret ← ms41908m_port_lock; if negb (ret =? SYS_OK) then k1 ret else k2).
Proof.
  intros H1 H2 s Hs Hx. unfold ms41908m_port_lock. apply returns_bind. rpure.
  destruct (s_mutex s) as [[]|] eqn:Em; [done| |rstep; apply H1; [done|by rewrite Em]]. unfold hw_call. apply returns_bind. rpure.
  destruct (xSemaphoreTake _) as [ok d] eqn:Et. rpure. rstep. cbn [negb andb]. destruct ok.
  - rpure. rstep. change (SYS_OK =? SYS_OK) with true. cbn [negb].
    eapply returns_mono; [apply H2; [destruct Hs; by constructor|done]|]. intros ? ? [? [? ? ? ? ? ?]]. split; [done|].
    constructor; try done. rewrite Em. done.
  - rstep. eapply returns_mono; [apply H1; [destruct Hs; by constructor|cbn in *; congruence]|].
    intros ? ? [? ?]. split; [done|]. eapply kept_trans; [|done]. by constructor.
Qed.
End Calls.

(** [cgo] splits a call: outside the lock, the lock, inside. *)
Ltac cgo :=
  repeat match goal with
  | |- free _ _ (if ?b then _ else _) => destruct b
  | |- free _ _ (match ?x with _ => _ end) => destruct x
  | |- free _ _ (ms41908m_port_lock ≫= _) => apply free_lock; [intros|]
  | |- free _ _ (_ ≫= _) => eapply free_bind; [|intros]
  | |- ends _ _ (if ?b then _ else _) => destruct b
  | |- ends _ _ (let '(_, _) := ?x in _) => destruct x
  | |- ends _ _ (match ?x with _ => _ end) => destruct x
  | |- ends _ _ (ms41908m_port_unlock ≫= _) => apply ends_unlock
  | |- ends _ _ (_ ≫= _) => eapply unlock_bind; [apply grows_keeps; [reflexivity|]|intros]
  | |- free _ _ _ => eapply free_keeps
  | |- keeps _ _ => progress kgo
  end.

Section Api.
Context `{LensHw D}.
Notation ms := (ms_state D).
Notation axis ty s := (axis_of ty (s_instance s)).

Lemma free_iris_config B c : free B B (ms41908m_iris_config c : M ms Z).
Proof. unfold ms41908m_iris_config, initialized. cgo. Qed.

Lemma free_iris_target B v : free B B (ms41908m_iris_update_target v : M ms Z).
Proof. unfold ms41908m_iris_update_target, iris_ready. cgo. Qed.
Lemma free_iris_adc B : free B B (ms41908m_iris_read_adc : M ms Z).
Proof. unfold ms41908m_iris_read_adc, initialized. cgo. Qed.
Lemma keeps_iris_run B : keeps B (ms41908m_iris_run : M ms Z).
Proof. unfold ms41908m_iris_run, iris_ready, ms41908m_iris_get_state, ms41908m_port_start_timer. kgo. Qed.
Lemma keeps_iris_stop B : keeps B (ms41908m_iris_stop : M ms Z).
Proof. unfold ms41908m_iris_stop, ms41908m_port_stop_timer. kgo. Qed.
Lemma keeps_read_pi B ty : keeps B (read_pi ty : M ms Z).
Proof. unfold read_pi, initialized, ms41908m_port_read_irq_status. kgo. Qed.
Lemma keeps_settle B ty : keeps B (settle ty : M ms unit).
Proof. unfold settle. kgo. apply keeps_upd_stopped. intros a'. by split_and!. Qed.
#[local] Hint Resolve keeps_iris_run keeps_iris_stop keeps_read_pi keeps_settle : drv.

Lemma free_motor_config B c : free B B (ms41908m_motor_config c : M ms Z).
Proof. unfold ms41908m_motor_config, initialized, ms41908m_reset_sm_active. cgo. Qed.

Lemma keeps_busy B ty : keeps B (axis_busy ty : M ms bool).
Proof. unfold axis_busy, ms41908m_reset_sm_active. kgo. Qed.
Lemma keeps_no_cfg B ty : keeps B (no_cfg ty : M ms bool).
Proof. unfold no_cfg. kgo. Qed.
#[local] Hint Resolve keeps_busy keeps_no_cfg : drv.

Lemma steps_ok_in32 n : steps_ok n = true -> in32 (- n).
Proof. unfold steps_ok, in32. intros ?. cbool. lia. Qed.

Lemma free_run B ty pps n : 0 <= B < bound -> steps_ok n = true -> free B B (axis_run ty pps n : M ms Z).
Proof. intros HB Hn. unfold axis_run, initialized. cgo. apply keeps_start; [done|by apply steps_ok_in32]. Qed.

Lemma free_reset B ty : free B B (axis_reset_zero ty : M ms Z).
Proof.
  unfold axis_reset_zero, initialized. cgo. apply keeps_upd_stopped. intros a'. by split_and!.
Qed.
Lemma free_limit B ty lo hi : position_ok lo = true -> position_ok hi = true -> free B B (axis_set_limit ty lo hi : M ms Z).
Proof.
  unfold position_ok. intros. cbool. unfold axis_set_limit, initialized. cgo. apply keeps_upd_ax. intros b []. by constructor.
Qed.
Lemma free_stop B ty : free B B (axis_stop ty : M ms Z).
Proof. unfold axis_stop, initialized. cgo. apply keeps_upd_ax. intros b []. by constructor. Qed.

(** The distance to a position. *)
Lemma free_run_to B ty pps p : 0 <= B < bound -> position_ok p = true -> free B B (axis_run_to ty pps p : M ms Z).
Proof.
  unfold position_ok. intros HB Hp. cbool. unfold axis_run_to, initialized.
  eapply free_bind; [cgo|intros ini]. destruct (negb ini); [cgo|]. eapply free_bind; [cgo|intros a].
  destruct (st_eq _ _); [cgo|]. destruct (negb _); [cgo|]. apply free_lock; [intros; cgo|].
  eapply unlock_bind; [apply grows_keeps; [reflexivity|kgo]|intros busy]. destruct busy; [cgo|]. intros s Hs Hx. rpure. pose proof (as_pos _ _ (sf_axis _ _ Hs ty)) as Hq. unfold bound in *.
  apply returns_bind, returns_int32; [unfold in32; lia|].
  match goal with |- returns ?m _ s => enough (K : ends B B m) by exact (K s Hs Hx) end. cgo.
  apply keeps_start; [done|unfold in32; lia].
Qed.

Lemma keeps_stopped_unless B ty : keeps B (upd_ax ty stopped_unless_no_cfg : M ms unit).
Proof. apply keeps_upd_stopped. intros a. split_and!; try done. unfold running, stopped_unless_no_cfg. cbn. by destruct (st_eq (ax_state a) _). Qed.
Lemma keeps_invalidate B ty : keeps B (upd_run ty (set_rc_is_valid false) : M ms unit).
Proof. apply keeps_upd_run. cbn. lia. Qed.
#[local] Hint Resolve keeps_stopped_unless keeps_invalidate : drv.
Lemma ends_sync_err B ret : ends B B (sync_err ret : M ms Z).
Proof. unfold sync_err. cgo. Qed.
Lemma ends_sync_go B : ends B B (sync_go : M ms Z).
Proof. unfold sync_go. cgo. Qed.
Lemma free_sync B zp zn fp fn : steps_ok zn = true -> steps_ok fn = true -> free B B (ms41908m_zf_sync_run zp zn fp fn : M ms Z).
Proof.
  intros Hz Hf. unfold ms41908m_zf_sync_run, initialized.
  pose proof (fun ty pps => keeps_sync_axis (D := D) B ty pps zn (steps_ok_in32 _ Hz)).
  pose proof (fun ty pps => keeps_sync_axis (D := D) B ty pps fn (steps_ok_in32 _ Hf)).
  cgo; auto using ends_sync_err, ends_sync_go. apply keeps_upd_stopped. intros a'. by split_and!.
Qed.

(** ** Waits and the task *)
Lemma free_wait B B' w e t c a : B <= B' -> free B B' w -> free B B' (ms41908m_port_wait_for_event w e t c a : M ms Z).
Proof.
  intros HB Hw s Hs Hx. unfold ms41908m_port_wait_for_event. rpure.
  destruct (s_event_group s) as [b0|] eqn:E; [|rstep; split; [by eapply safe_mono|apply kept_refl]].
  apply returns_bind. eapply returns_mono.
  { instantiate (1 := fun _ s' => safe B' s' /\ kept s s'). destruct (_ && _); [by apply Hw|].
    rstep. split; [by eapply safe_mono|apply kept_refl]. }
  intros _ s1 [Hs1 K1]. destruct (proj2 (kp_group _ _ K1)) as [b1 E1]; [rewrite E; done|]. rpure.
  destruct (_ && _); rpure; rstep; [|done]. destruct (keeps_clear_bits B' b1 (Z.ldiff b1 e) s1 Hs1 E1) as [Hs2 K2].
  rewrite E1. cbn [default]. split; [done|by eapply kept_trans].
Qed.

Lemma keeps_irqs B l : keeps B (irqs l : M ms unit).
Proof. induction l as [|p l IH]; cbn [irqs]; unfold ms41908m_port_irq_handler in *; kgo. Qed.
Lemma keeps_dispatch B : keeps B (ms41908m_dispatch_pending_app_events : M ms unit).
Proof.
  intros s Hs. unfold ms41908m_dispatch_pending_app_events. rpure. destruct Hs as [Ha Hq].
  destruct (s_app_event_cb s); [rpure|]; rstep; (split; [|by constructor]); (constructor; [done|cbn; lia]).
Qed.
Lemma keeps_iris_timer B : keeps B (ms41908m_iris_timer_handler : M ms unit).
Proof. unfold ms41908m_iris_timer_handler. kgo. Qed.
#[local] Hint Resolve keeps_irqs keeps_dispatch keeps_iris_timer : drv.

Lemma free_task B w l : 0 <= B < bound - 510 -> free B (B + 510) (ms41908m_motor_task_handler (irqs w) (irqs l) : M ms unit).
Proof.
  intros HB. unfold ms41908m_motor_task_handler. eapply free_bind; [cgo|]. intros r.
  eapply free_bind; [apply free_wait; [reflexivity|]; cgo|]. intros bits. eapply free_bind; [cgo|]. intros _.
  apply free_lock; [intros ret s Hs Hx; rstep; split; [eapply safe_mono; [|done]; lia|apply kept_refl]|].
  eapply unlock_bind; [by apply grows_locked|]. intros _. cgo.
Qed.

Lemma free_env B e : 0 <= B -> B + env_cost e < bound -> free B (B + env_cost e) (do_env e : M ms unit).
Proof.
  intros HB HC. destruct e as [p| |w l]; cbn [do_env env_cost] in *; rewrite ?Z.add_0_r.
  - unfold ms41908m_port_irq_handler. cgo.
  - cgo.
  - eapply free_bind; [cgo|]. intros []; [apply free_task; lia|].
    intros s Hs Hx. rstep. split; [eapply safe_mono; [|done]; lia|apply kept_refl].
Qed.
Lemma free_envs l : forall B, 0 <= B -> B + envs_cost l < bound -> free B (B + envs_cost l) (do_envs l : M ms unit).
Proof.
  induction l as [|e l IH]; intros B HB HC; cbn [do_envs envs_cost] in *.
  - rewrite Z.add_0_r. cgo.
  - pose proof (env_cost_nonneg e). pose proof (envs_cost_nonneg l). rewrite Z.add_assoc in *.
    eapply free_bind; [apply free_env; lia|]. intros _. apply IH; lia.
Qed.

Lemma free_mono {A} B B' B'' (m : M ms A) : B' <= B'' -> free B B' m -> free B B'' m.
Proof.
  intros HB Hm s Hs Hx. eapply returns_mono; [by apply Hm|]. intros ? ? [? ?]. split; [by eapply safe_mono|done].
Qed.
Lemma free_wait_reset B ty l t : 0 <= B -> B + envs_cost l < bound -> free B (B + envs_cost l) (axis_wait_reset ty (do_envs l) t : M ms Z).
Proof.
  intros HB HC. pose proof (envs_cost_nonneg l). unfold axis_wait_reset, initialized. eapply free_bind; [cgo|]. intros [];
    cbn [negb]; [|eapply free_mono; [|cgo]; lia].
  eapply free_bind; [apply free_wait, free_envs; lia|]. intros ev. unfold last_result. cgo.
Qed.
Lemma free_wait_run B ty l t : 0 <= B -> B + envs_cost l < bound -> free B (B + envs_cost l) (axis_wait_run ty (do_envs l) t : M ms Z).
Proof.
  intros HB HC. pose proof (envs_cost_nonneg l). unfold axis_wait_run, initialized. eapply free_bind; [cgo|]. intros [];
    cbn [negb]; [|eapply free_mono; [|cgo]; lia].
  eapply free_bind; [cgo|]. intros a. destruct (negb _); [eapply free_mono; [|cgo]; lia|].
  eapply free_bind; [apply free_wait, free_envs; lia|]. intros ev. cgo.
Qed.
Lemma free_sync_wait B l t : 0 <= B -> B + envs_cost l < bound ->
  free B (B + envs_cost l) (ms41908m_zf_sync_wait_for_completion (do_envs l) t : M ms Z).
Proof.
  intros HB HC. pose proof (envs_cost_nonneg l). unfold ms41908m_zf_sync_wait_for_completion. cbn zeta.
  eapply free_bind; [cgo|]. intros i. destruct (negb _); [eapply free_mono; [|cgo]; lia|].
  destruct (_ && _); [eapply free_mono; [|cgo]; lia|].
  eapply free_bind; [apply free_wait, free_envs; lia|]. intros ev. cgo.
Qed.

(** ** Between calls *)
Record between (B : Z) (s : ms) : Prop := {
  bt_safe : safe B s;
  bt_mutex : s_mutex s = if is_initialized (s_instance s) then Some false else None;
  bt_group : is_Some (s_event_group s) <-> is_initialized (s_instance s) = true;
  bt_task : s_motor_task s = is_initialized (s_instance s);
  bt_timer : s_iris_timer s = is_initialized (s_instance s)
}.
Lemma between_kept {A} B B' (m : M ms A) s :
  free B B' m -> between B s -> returns m (fun _ s' => between B' s' /\ kept s s') s.
Proof.
  intros Hm [Hs Hx Hg Ht Hi]. eapply returns_mono; [apply Hm; [done|rewrite Hx; by case_match]|].
  intros _ s' [Hs' K]. split; [|done]. destruct K as [Km Kg Ki Kt Kr Kc].
  constructor; rewrite ?Km, ?Kg, ?Ki, ?Kt, ?Kr; done.
Qed.
Lemma between_free {A} B B' (m : M ms A) s : free B B' m -> between B s -> returns m (fun _ s' => between B' s') s.
Proof. intros Hm Hb. eapply returns_mono; [by apply (between_kept B)|]. by intros ? ? [? ?]. Qed.

Lemma zero_safe B (s : ms) : 0 <= B -> (length (s_app_notify s) <= 8)%nat ->
  (forall ty, axis ty s = axis_zero) -> safe B s.
Proof. intros HB Hq Hi. constructor; [|done]. intros ty. rewrite Hi. by constructor. Qed.

(** How far the initialisation has come: the lock, the events, the task, the timer. *)
Record stage (m g t r : bool) (s : ms) : Prop := {
  sg_axis ty : axis ty s = axis_zero;
  sg_queue : (length (s_app_notify s) <= 8)%nat;
  sg_ini : is_initialized (s_instance s) = false;
  sg_mutex : s_mutex s = if m then Some false else None;
  sg_group : is_Some (s_event_group s) <-> g = true;
  sg_task : s_motor_task s = t;
  sg_timer : s_iris_timer s = r
}.

Lemma stage_do {C} m g t r m' g' t' r' f (k : M ms C) Q (s : ms) :
  stage m g t r s -> (forall s, stage m g t r s -> stage m' g' t' r' (f s)) ->
  (forall s', stage m' g' t' r' s' -> returns k Q s') -> returns (modify f;; k) Q s.
Proof. intros Hs Hf Hk. rstep. by apply Hk, Hf. Qed.
Lemma stage_hw {C} m g t r f (k : M ms C) Q (s : ms) :
  stage m g t r s -> (forall s', stage m g t r s' -> returns k Q s') -> returns (hw_do f;; k) Q s.
Proof. intros Hs Hk. eapply stage_do; [done| |done]. intros s1 []. by constructor. Qed.
(** The operating system answers as it likes. *)
Lemma stage_answer {A C} m g t r (f : D -> A * D) (k : A -> M ms C) Q (s : ms) :
  stage m g t r s -> (forall a s', stage m g t r s' -> returns (k a) Q s') -> returns (hw_call f ≫= k) Q s.
Proof.
  intros Hs Hk. unfold hw_call. apply returns_bind. rpure. destruct (f _) as [a d]. rpure. rstep. apply Hk.
  destruct Hs. by constructor.
Qed.
Lemma stage_between B (s : ms) : 0 <= B -> stage false false false false s -> between B s.
Proof. intros HB [Ha Hq Hi Hm Hg Ht Hr]. constructor; rewrite ?Hi; try done. by apply zero_safe. Qed.

Lemma stage_port_init (s : ms) : stage false false false false s ->
  returns ms41908m_port_init (fun ret s' => (ret = SYS_OK /\ stage true true false false s') \/
    (ret = SYS_ERR_NO_MEM /\ stage false false false false s')) s.
Proof.
  intros Hs. unfold ms41908m_port_init. rpure. pose proof Hs as [Ha Hq Hi Hm Hg Ht Hr]. rewrite Hm.
  destruct (s_event_group s) as [b|] eqn:Eg; [discriminate (proj1 Hg ltac:(done))|].
  rewrite !bool_decide_eq_false_2 by (by intros [? ?]). cbn [orb].
  eapply stage_answer; [exact Hs|]. clear s Hs Ha Hq Hi Hm Hg Ht Hr Eg. intros [] s Hs; cbn [negb]; [|rstep; by right].
  eapply (stage_do false false false false true false false false); [exact Hs|intros s1 []; by constructor|].
  clear s Hs. intros s Hs. eapply stage_answer; [exact Hs|]. clear s Hs. intros [] s Hs; cbn [negb].
  - eapply (stage_do true false false false true true false false); [exact Hs|intros s1 []; constructor; done|].
    clear s Hs. intros s Hs. do 6 (eapply stage_hw; [exact Hs|]; clear s Hs; intros s Hs). rstep. by left.
  - eapply (stage_do true false false false false false false false); [exact Hs|intros s1 []; by constructor|].
    clear s Hs. intros s Hs. rstep. by right.
Qed.

Lemma stage_port_deinit {C} m g t r (k : M ms C) Q (s : ms) :
  stage m g t r s -> (forall s', stage false false t r s' -> returns k Q s') -> returns (ms41908m_port_deinit;; k) Q s.
Proof.
  intros Hs Hk. unfold ms41908m_port_deinit. apply returns_bind.
  eapply (stage_do m g t r m false t r); [exact Hs| |].
  - intros s1 []. constructor; try done. split; [by intros []|done].
  - clear s Hs. intros s []. rstep. apply Hk. by constructor.
Qed.

(** The driver is initialised exactly when [ms41908m_init] says so; the callback is not
    touched. *)
Lemma between_init B (s : ms) : 0 <= B -> between B s ->
  returns ms41908m_init (fun ret s' => between B s' /\
    (is_initialized (s_instance s) = false -> is_initialized (s_instance s') = (ret =? SYS_OK))) s.
Proof.
  intros HB Hb. unfold ms41908m_init, initialized. rpure.
  destruct (is_initialized (s_instance s)) eqn:E; [by rstep; split|]. pose proof Hb as [[Ha Hq] Hx Hg Ht Hi]. rewrite E in *.
  do 4 rpure. rcall (stage_port_init (set_s_focus_rst_last_result SYS_ERR_INVALID_STATE
      (set_s_zoom_rst_last_result SYS_ERR_INVALID_STATE (set_s_rst rst_zero (set_s_instance instance_zero s))))).
  { constructor; try done. by intros []. }
  clear s E Hb Ha Hq Hx Hg Ht Hi. intros ret s [[-> Hs]|[-> Hs]]; [|rstep; split; [by apply stage_between|intros _; apply Hs]].
  change (SYS_OK =? SYS_OK) with true. cbn [negb]. unfold ms41908m_port_create_task, ms41908m_port_create_timer.
  eapply stage_answer; [exact Hs|]. clear s Hs. intros t s Hs.
  eapply (stage_do true true false false true true t false); [exact Hs|intros s1 []; by constructor|]. clear s Hs. intros s Hs.
  destruct t; cbn [negb].
  2: { eapply stage_port_deinit; [exact Hs|]. clear s Hs. intros s Hs. rstep. split; [by apply stage_between|intros _; apply Hs]. }
  eapply stage_answer; [exact Hs|]. clear s Hs. intros t s Hs.
  eapply (stage_do true true true false true true true t); [exact Hs|intros s1 []; by constructor|]. clear s Hs. intros s Hs.
  destruct t; cbn [negb].
  - unfold upd_inst. rstep. split; [|done]. destruct Hs as [Ha Hq Hi Hm Hg Ht Hr]. constructor; try done.
    apply zero_safe; [done|done|]. intros ty. rewrite <- (Ha ty). by destruct ty.
  - eapply (stage_do true true true false true true false false); [exact Hs|intros s1 []; by constructor|]. clear s Hs. intros s Hs.
    eapply stage_port_deinit; [exact Hs|]. clear s Hs. intros s Hs. rstep. split; [by apply stage_between|intros _; apply Hs].
Qed.

Lemma between_deinit B (s : ms) : 0 <= B -> between B s -> 
  returns ms41908m_deinit (fun _ s' => between B s' /\ is_initialized (s_instance s') = false) s.
Proof.
  intros HB Hb. unfold ms41908m_deinit, initialized. rpure. destruct (is_initialized _) eqn:Ei; cbn [negb]; [|by rstep].
  rcall (between_free B B _ s (free_keeps B _ (keeps_iris_stop B)) Hb). clear s Hb Ei. intros _ s Hb.
  rcall (between_free B B _ s (free_stop B MS41908M_TYPE_FOCUS) Hb). clear s Hb. intros _ s Hb.
  rcall (between_free B B _ s (free_stop B MS41908M_TYPE_ZOOM) Hb). clear s Hb. intros _ s Hb.
  rpure. apply returns_bind. eapply (returns_mono _ (fun _ s' => s_iris_timer s' = false)).
  { destruct (s_iris_timer s) eqn:Er; [|by rstep].
    rcall (keeps_timer B TimerStop s (bt_safe _ _ Hb)). intros _ s1 [Hs1 _].
    rcall (keeps_timer B TimerDelete s1 Hs1). intros _ s2 _. by rstep. }
  clear s Hb. intros _ s Er. unfold ms41908m_port_deinit. rstep. split; [|done].
  constructor; try done; [|split; [by intros []|done]]. apply zero_safe; [done|cbn; lia|by intros []].
Qed.

Lemma between_call B c (s : ms) :
  0 <= B -> B + call_cost c < bound -> call_ok c = true -> between B s ->
  returns (do_call c) (fun _ s' => between (B + call_cost c) s') s.
Proof.
  intros HB HC Hok Hb.
  destruct c; cbn [do_call call_cost call_ok] in *; rewrite ?Z.add_0_r in *; cbool;
    first [eapply returns_mono; [by apply between_init|by intros ? ? [? ?]]
      | rcall (between_deinit B s HB Hb); intros _ s' [Hs' _]; by rstep
      | unfold ms41908m_set_event_callback; rstep; destruct Hb as [[] ? ? ? ?]; by constructor
      | apply (between_free B); [|done]];
    eauto using free_iris_config, free_iris_target, free_iris_adc, free_motor_config, free_run, free_run_to, free_reset,
      free_wait_reset, free_wait_run, free_limit, free_stop, free_sync, free_sync_wait, free_keeps with drv.
  - eapply free_bind; [by apply free_env|]. intros _. cgo.
Qed.

Lemma between_calls l : forall B (s : ms),
  0 <= B -> B + calls_cost l < bound -> forallb call_ok l = true -> between B s ->
  returns (do_calls l) (fun _ s' => between (B + calls_cost l) s') s.
Proof.
  induction l as [|c l IH]; intros B s HB HC Hok Hb; cbn [do_calls calls_cost forallb] in *.
  - rstep. by rewrite Z.add_0_r.
  - apply andb_true_iff in Hok as [Hc Hl]. pose proof (call_cost_nonneg c). pose proof (calls_cost_nonneg l).
    rewrite Z.add_assoc in *. rcall (between_call B c s HB ltac:(lia) Hc Hb). intros _ s1 Hs1. apply IH; [lia|done|done|done].
Qed.

Lemma between_boot (d : D) : between 0 (ms0 d).
Proof. constructor; try done; [apply zero_safe; [done|cbn; lia|by intros []]|]. split; [intros []|]; done. Qed.
End Api.

(** C14 [driver_calls_safe]: from power-on, on hardware that answers every transfer, lock,
    timer and creation request as it likes, take a sequence of calls of the driver's
    interface, interrupts and wake-ups of the task, also while a call waits, in which no
    move is by -2^31 micro steps, absolute targets and limits are below 2^30 in magnitude,
    and 510 times the number of wake-ups is below 2^30 (without the first condition a call
    overflows: [lowest_move_overflows]).  It runs to its
    end without an overflow, and afterwards: the lock is free, the lock, the events, the
    task and the timer exist exactly when the driver is initialised, the queue of
    notifications is within its eight places, a running axis has run data the step
    register can hold, and the counters have moved at most 510 micro-steps per wake-up. *)
Theorem driver_calls_safe `{LensHw D} (d : D) (l : list ms_call)
  (Hargs : forallb call_ok l = true) (Hlen : calls_cost l < bound) :
  returns (do_calls l) (fun _ s => between (calls_cost l) s) (ms0 d).
Proof. apply (between_calls l 0); [done|done|done|apply between_boot]. Qed.
