(* ===== verification/Ms41908mWitness.v ===== *)
(** The lens driver on the bench: the bench keeps the promises made for the hardware,
    and every property of the driver is applied to runs of it. *)
From stdpp Require Import relations.
From S2P Require Import Prelude Ms41908mReg Ms41908m Ms41908mPort Ms41908mRun Ms41908mRounds.
From S2P Require Import Ms41908mStart Ms41908mProps Ms41908mFaults Ms41908mHome Ms41908mSafe Ms41908mCalls.

(** ** The bench in working order is a chip in working order *)
Lemma b_addr a : 0 <= a < 64 -> Z.land (Z.lor a 64) 63 = a.
Proof.
  intros Ha. rewrite Z.land_lor_distr_l. change (Z.land 64 63) with 0. rewrite Z.lor_0_r. by apply land_address.
Qed.

#[export, refine] Instance bench_laws : LensHwLaws bench := {
  hw_ok d := b_fails d = [];
  hw_reg := b_reg;
  hw_moved d ty := match ty with MS41908M_TYPE_FOCUS => b_focus d | _ => b_zoom d end;
  hw_cs d := b_pins d SPI1_CS
}.
Proof.
  - intros d a _. unfold b_reg, u16. apply Z.mod_pos_bound. lia.
  - intros d a lo hi Hf Hc Ha Hl Hh. destruct d as [r p [|] t f z]; [|done]. cbn in Hc. eexists. split; [reflexivity|].
    unfold b_write. cbn. rewrite Hc. cbn. split_and!; try done. intros x. unfold b_reg. cbn.
    destruct (x =? a); [|done]. unfold is_byte, u16, u8 in *. rewrite !(Z.mod_small _ 256) by lia. apply Z.mod_small. lia.
  - intros d a Hf Hc Ha _. destruct d as [r p [|] t f z]; [|done]. cbn in Hc. eexists _, _, _, _. split; [reflexivity|].
    cbn [nth]. rewrite b_addr by done. split_and!; try done; try apply byte_land.
    apply split_half. unfold b_reg, u16. apply Z.mod_pos_bound. lia.
  - intros d p b Hf Hp. destruct d as [r q [|] t f z]; [|done]. unfold HAL_GPIO_WritePin, bench_hw.
    destruct Hp as [-> | [-> | ->]], b; cbn; split_and!; try done; intros []; cbn; destruct (bool_decide _ && _); cbn; try lia; done.
  - intros d Hf. destruct d as [r q [|] t f z]; [|done]. eexists. split; [reflexivity|]. done.
  - done.
Defined.

(** ** Runs *)
Definition after {A} (m : M (ms_state bench) A) (s : ms_state bench) : ms_state bench :=
  match m s with Ret _ s' => s' | _ => s end.

(** Initialised and configured, with a callback. *)
Definition up : ms_state bench :=
  after (ms41908m_init;; ms41908m_set_event_callback (Some 7);; ms41908m_motor_config (Some g_default_motor_config)) (ms0 bench0).

(** [bt] evaluates a closed condition on a state of the bench. *)
Ltac bt := vm_compute; repeat split; intros; first [reflexivity | discriminate | congruence].

Lemma bench_base cb m (s : ms_state bench) b :
  b_fails (s_hw s) = [] -> is_initialized (s_instance s) = true -> rz_phase (s_rst s) = MS41908M_RZ_IDLE ->
  s_app_event_cb s = Some cb -> s_mutex s = Some m -> s_event_group s = Some b -> Z.land b 192 = 0 -> base cb m s.
Proof. intros. constructor; try done. by exists b. Qed.
Lemma bench_ready cb (s : ms_state bench) b :
  b_fails (s_hw s) = [] -> is_initialized (s_instance s) = true -> rz_phase (s_rst s) = MS41908M_RZ_IDLE ->
  s_app_event_cb s = Some cb -> s_mutex s = Some false -> s_event_group s = Some b -> Z.land b 195 = 0 -> s_app_notify s = [] ->
  ready cb s.
Proof.
  intros. constructor; [|done|by exists b]. apply (bench_base cb false s b); try done. by apply (land_sub b 195).
Qed.

Lemma up_ready : ready 7 up.
Proof. apply (bench_ready 7 up 0); bt. Qed.
Lemma up_settled : settled 7 up.
Proof.
  constructor; [exact up_ready|..]; intros [] Hm; first [by destruct Hm | bt].
Qed.

Lemma dual_move_completes_witness :
  exists s1, ms41908m_zf_sync_run 800 700 24 (-3) up = Ret SYS_OK s1 /\
    forall k s2, nsteps round k s1 s2 ->
      (k <= batches (sync_psum 800 700) 700 + batches (sync_psum 24 3) (-3))%nat /\
      (at_rest s2 -> ready 7 s2 /\ moved_by MS41908M_TYPE_ZOOM 700 up s2 /\ moved_by MS41908M_TYPE_FOCUS (-3) up s2) /\
      (~ at_rest s2 -> in_time s2 -> exists s3, round s2 s3).
Proof. apply (dual_move_completes 7 up 800 700 24 (-3)); [exact up_settled|right; bt|right; bt]. Defined.

(** The same move run to its end on the bench, both motors signalling in every round
    they take part in. *)
Fixpoint signal_rounds (n : nat) : M (ms_state bench) unit :=
  match n with
  | O => mret tt
  | S n => ms41908m_motor_task_handler (irqs [PLS1_Pin; PLS2_Pin]) (mret tt);; signal_rounds n
  end.
Example dual_move_run :
  let s := after (ms41908m_zf_sync_run 800 700 24 (-3);; signal_rounds 28) up in
  (ax_position (i_zoom (s_instance s)), b_zoom (s_hw s), ax_position (i_focus (s_instance s)), b_focus (s_hw s)) = (700, 700, -3, -3) /\
  running (i_zoom (s_instance s)) = false /\ running (i_focus (s_instance s)) = false.
Proof. vm_compute. done. Qed.

(** The conditions on an axis, and on both. *)
Ltac axis_cond := constructor; first [bt | right; bt | left; bt].
Ltac both_axes t := intros [] Hm; [t|t|by destruct Hm].
Ltac track := split; [first [left; axis_cond | right; axis_cond]|bt].

(** The zoom axis is on its way, the focus axis stands. *)
Definition zooming : ms_state bench := after (ms41908m_zf_sync_run 800 700 800 0) up.
Definition one_going (z f : Z) (ty : ms41908m_type_t) : Z := match ty with MS41908M_TYPE_FOCUS => f | _ => z end.
Definition one_done (z f : nat) (ty : ms41908m_type_t) : nat := match ty with MS41908M_TYPE_FOCUS => f | _ => z end.
Lemma zooming_tracked : tracked (fun _ => 0) (one_going 700 0) (one_done 1 0) zooming.
Proof. both_axes track. Qed.
Lemma zooming_ready : ready 7 zooming.
Proof. apply (bench_ready 7 zooming 0); bt. Qed.

Lemma run_joins_move_witness :
  exists s1, axis_run MS41908M_TYPE_FOCUS 800 100 zooming = Ret SYS_OK s1 /\
    forall k s2, nsteps round k s1 s2 ->
      (k <= batches (start_psum 800 (Z.abs 100)) 100 + left_of (axis_of (other_axis MS41908M_TYPE_FOCUS) (s_instance zooming)))%nat /\
      (at_rest s2 -> moved_by MS41908M_TYPE_FOCUS 100 zooming s2 /\
         ax_position (axis_of (other_axis MS41908M_TYPE_FOCUS) (s_instance s2)) = one_going 700 0 (other_axis MS41908M_TYPE_FOCUS) /\
         hw_moved (s_hw s2) (other_axis MS41908M_TYPE_FOCUS) = 0 + one_going 700 0 (other_axis MS41908M_TYPE_FOCUS) /\
         done_count (other_axis MS41908M_TYPE_FOCUS) s2 = one_done 1 0 (other_axis MS41908M_TYPE_FOCUS)) /\
      (~ at_rest s2 -> in_time s2 -> exists s3, round s2 s3).
Proof.
  apply (run_joins_move (fun _ => 0) (one_going 700 0) (one_done 1 0) 7 zooming MS41908M_TYPE_FOCUS 800 100);
    [done|exact zooming_ready|exact zooming_tracked|bt|bt|done|right; bt|bt].
Defined.

(** Both axes are on their way. *)
Definition both : ms_state bench := after (ms41908m_zf_sync_run 800 700 800 300) up.
Lemma both_tracked : tracked (fun _ => 0) (one_going 700 300) (one_done 1 1) both.
Proof. both_axes track. Qed.
Lemma both_ready : ready 7 both.
Proof. apply (bench_ready 7 both 0); bt. Qed.
Lemma both_in_time : in_time both.
Proof. both_axes bt. Qed.

Lemma late_signal_lost_witness :
  exists s1, (ms41908m_port_irq_handler PLS1_Pin;;
              ms41908m_motor_task_handler (mret tt) (ms41908m_port_irq_handler PLS2_Pin)) both = Ret tt s1 /\
    ready 7 s1 /\ batch_pending (axis_of MS41908M_TYPE_ZOOM (s_instance s1)) = true /\
    axis_of MS41908M_TYPE_ZOOM (s_instance s1) = axis_of MS41908M_TYPE_ZOOM (s_instance both) /\
    (in_time s1 -> exists s2, ms41908m_motor_task_handler (mret tt) (mret tt) s1 = Ret tt s2 /\
       s_instance s2 = s_instance s1 /\ (forall ty, hw_moved (s_hw s2) ty = hw_moved (s_hw s1) ty)).
Proof.
  apply (late_signal_lost (fun _ => 0) (one_going 700 300) (one_done 1 1) 7 both);
    [exact both_ready|exact both_tracked|exact both_in_time|bt|bt].
Defined.

Lemma slow_sync_move_is_fast_witness :
  sync_intct (sync_psum 24 3) = 4776 /\ sync_intct (sync_psum 8000 1) = 4776 /\
  7 * sync_intct (sync_psum 24 3) < start_intct 24.
Proof. apply (slow_sync_move_is_fast 24 3); lia. Defined.

Lemma refused_move_happens_later_witness :
  exists s1 d, ms41908m_zf_sync_run 800 700 9 5 up = Ret SYS_ERR_INVALID_ARG s1 /\
    ax_state (i_zoom (s_instance s1)) = MS41908M_STATE_STOPPED /\
    ms41908m_port_output_vd MS41908M_TYPE_FOCUS s1 = Ret tt (set_s_hw d s1) /\
    hw_moved d MS41908M_TYPE_ZOOM =
      hw_moved (s_hw up) MS41908M_TYPE_ZOOM + sign (if 0 <=? 700 then 1 else 0) * sync_psum 800 (Z.abs 700) /\
    ax_position (i_zoom (s_instance s1)) = ax_position (i_zoom (s_instance up)) /\
    1 <= sync_psum 800 (Z.abs 700).
Proof.
  apply (refused_move_happens_later 7 up 800 700 9 5); [exact up_settled|done|right; bt|done|left; bt].
Defined.

(** ** Resets *)
Definition limited : ms_state bench := after (ms41908m_zoom_set_position_limit (-1000) 3000) up.
Lemma limited_settled : settled 7 limited.
Proof.
  constructor; [apply (bench_ready 7 limited 0); bt|..]; intros [] Hm; first [by destruct Hm | bt].
Qed.

Lemma second_reset_dropped_witness :
  exists s1 s2 s3 b, ms41908m_zoom_reset_zero limited = Ret SYS_OK s1 /\ ms41908m_focus_reset_zero s1 = Ret SYS_OK s2 /\
    s_event_group s2 = Some b /\ handle_requests b s2 = Ret tt s3 /\
    ph_idle (rz_phase (s_rst s3)) = false /\ rz_type (s_rst s3) = MS41908M_TYPE_ZOOM /\
    ax_state (i_focus (s_instance s3)) = MS41908M_STATE_RESET_ZERO /\ axis_busy MS41908M_TYPE_FOCUS s3 = Ret true s3 /\
    (exists b3, s_event_group s3 = Some b3 /\ Z.land b3 192 = 0) /\ s_app_notify s3 = [].
Proof. apply (second_reset_dropped 7 limited); [exact limited_settled|bt]. Defined.

(** The slow approach is under way; a day later nothing has come. *)
Definition approaching : ms_state bench :=
  after (ms41908m_zoom_reset_zero;; ms41908m_motor_task_handler (mret tt) (mret tt)) limited.
Definition day_later : ms_state bench := set_s_hw (b_at 86400000 (s_hw approaching)) approaching.

Ltac waiting := split_and!; [bt|bt|left; bt|exists (default 0 (s_event_group day_later)); split; bt].
Lemma day_later_waiting : reset_waiting day_later.
Proof. waiting. Qed.
Lemma day_later_taken : reset_waiting (set_s_hw (taken (s_hw day_later)) day_later).
Proof. waiting. Qed.

Lemma reset_never_times_out_witness :
  exists s', ms41908m_motor_task_handler (mret tt) (mret tt) day_later = Ret tt s' /\
    s_instance s' = s_instance day_later /\ s_rst s' = s_rst day_later /\
    s_event_group s' = s_event_group day_later /\ s_mutex s' = Some false /\ s_hw s' = taken (s_hw day_later).
Proof.
  apply (reset_never_times_out day_later); [bt|bt|exact day_later_waiting|exact day_later_taken].
Defined.

(** The sensor fires. *)
Definition at_home : ms_state bench := after (ms41908m_port_irq_handler Z_RST_Pin) approaching.
Lemma at_home_capturing : capturing 7 MS41908M_TYPE_ZOOM at_home.
Proof.
  constructor; try bt. exists (default 0 (s_event_group at_home)). split_and!; bt.
Qed.
Lemma home_edge_sets_zero_witness :
  exists s', ms41908m_motor_task_handler (mret tt) (mret tt) at_home = Ret tt s' /\ settled 7 s' /\
    ax_state (axis_of MS41908M_TYPE_ZOOM (s_instance s')) = MS41908M_STATE_STOPPED /\ ax_position (axis_of MS41908M_TYPE_ZOOM (s_instance s')) = 0 /\
    ax_is_r_zero (axis_of MS41908M_TYPE_ZOOM (s_instance s')) = true /\
    axis_of (other_axis MS41908M_TYPE_ZOOM) (s_instance s') = axis_of (other_axis MS41908M_TYPE_ZOOM) (s_instance at_home) /\
    (forall t, motor t -> hw_moved (s_hw s') t = hw_moved (s_hw at_home) t) /\
    s_app_calls s' = s_app_calls at_home ++ [(7, reset_done_event MS41908M_TYPE_ZOOM, SYS_OK)] /\
    exists s'', axis_wait_reset MS41908M_TYPE_ZOOM (mret tt) 1000 s' = Ret SYS_OK s''.
Proof. apply (home_edge_sets_zero 7 MS41908M_TYPE_ZOOM at_home); [done|exact at_home_capturing]. Defined.

(** ** Calls on a bench whose bus and lock sometimes fail *)
Definition shaky : bench :=
  mkBench (fun _ => 0) (fun _ => false) [false; false; false; false; true; false; false; true; false; true] 0 0 0.
Definition calls_sample : list ms_call :=
  [CInit; CMotorConfig (Some g_default_motor_config); CCallback (Some 7); CSync 800 700 24 (-3);
   CSyncWait [EIrq PLS1_Pin; ETask [PLS2_Pin] []; ETask [] [PLS1_Pin]] 1000; CStop MS41908M_TYPE_ZOOM; CDeinit; CInit].
Lemma driver_calls_safe_witness :
  returns (do_calls calls_sample) (fun _ s => between (calls_cost calls_sample) s) (ms0 shaky).
Proof. apply (driver_calls_safe shaky calls_sample); vm_compute; reflexivity. Defined.
