(* ===== verification/LensController.v ===== *)
(** The lens controller: profiles of the lens models, conversion of physical steps,
    capabilities, change of the profile with roll-back, the infrared filter
    ([lens/lens_controller.c], [lens_profile.c], [lens_profile_af0832.c],
    [lens_profile_fg2009.c] and the two functions of [bsp_ctrl.c] it calls), over the
    lens driver.

    [lens_model_t], [lens_config_mode_t] and [lens_axis_t] are integers: the host sends
    them.  The mutex of the controller is kept as whether it exists and is held. *)
From stdpp Require Import strings.
From S2P Require Import Prelude Ms41908mReg Ms41908m.

(** What the controller needs of the kernel besides the driver's hardware. *)
Class LensKernel (D : Type) : Type := {
  osMutexNew : D -> bool * D;
  osMutexAcquire : D -> bool * D;
  osKernelGetTickFreq : D -> Z
}.

(** ** Profiles *)
Definition LENS_MODEL_AF0832 : Z := 0.
Definition LENS_MODEL_FG2009 : Z := 1.
Definition LENS_AXIS_ZOOM : Z := 0.
Definition LENS_AXIS_FOCUS : Z := 1.
Definition LENS_CONFIG_ALL : Z := 0.
Definition LENS_CONFIG_IRIS : Z := 1.
Definition LENS_CONFIG_MOTOR : Z := 2.

Inductive lens_ircut_mode_t : Type := LENS_IRCUT_UNKNOWN | LENS_IRCUT_DAY | LENS_IRCUT_NIGHT.

Record lens_axis_profile_t : Type := mkAxisProfile {
  psum_units_per_step : Z;
  min_pps : Z;
  max_pps : Z;
  default_pps : Z;
  nominal_travel_steps : Z;
  travel_tolerance_steps : Z;
  direction_sign : Z
}.
Record lens_capabilities_t : Type := mkCaps {
  supports_relative : bool;
  supports_absolute : bool;
  supports_home : bool;
  supports_pi : bool;
  supports_sync_relative : bool;
  supports_ircut : bool;
  supports_iris : bool
}.
Record lens_profile_t : Type := mkProfile {
  p_model : Z;
  p_name : string;
  p_motor_config : option ms41908m_motor_config_t;
  p_iris_config : option ms41908m_iris_config_t;
  p_zoom : lens_axis_profile_t;
  p_focus : lens_axis_profile_t;
  capabilities : lens_capabilities_t;
  ircut_day_level : Z;
  ircut_night_level : Z;
  ircut_min_interval_ms : Z
}.

Definition g_lens_profile_af0832 : lens_profile_t :=
  mkProfile LENS_MODEL_AF0832 "AF0832D09"%string (Some g_default_motor_config) (Some g_default_iris_config)
    (mkAxisProfile 4 24 1000 800 999 0 1)
    (mkAxisProfile 4 24 1000 800 359 0 1)
    (mkCaps true true true true true true true)
    1 0 0.

Definition s_fg2009_motor_config : ms41908m_motor_config_t :=
  mkMotorConfig 10 30 2 7 1 3 0 200 200 0 0 3 22 200 200 0 0.
Definition g_lens_profile_fg2009 : lens_profile_t :=
  mkProfile LENS_MODEL_FG2009 "FG20090AD4K-H33B78S"%string (Some s_fg2009_motor_config) None
    (mkAxisProfile 8 500 900 600 2463 20 1)
    (mkAxisProfile 8 500 900 600 2453 20 (-1))
    (mkCaps true false false false true true false)
    0 1 2000.

Definition lens_profile_get (model : Z) : option lens_profile_t :=
  if model =? LENS_MODEL_AF0832 then Some g_lens_profile_af0832
  else if model =? LENS_MODEL_FG2009 then Some g_lens_profile_fg2009
  else None.

(** ** State *)
Record lc_state (D : Type) : Type := mkLc {
  lc_ms : ms_state D;
  s_ircut_mode : lens_ircut_mode_t;
  s_ircut_level : Z;
  s_ircut_level_valid : bool;
  s_ircut_action_seen : bool;
  s_ircut_last_tick : Z;
  s_controller_mutex : option bool;
  s_controller_initialized : bool;
  s_controller_configured : bool;
  s_last_config_mode : Z;
  s_event_callback : option Z;
  s_active_profile : lens_profile_t
}.
Arguments mkLc {D}.
Arguments lc_ms {D}.
Arguments s_ircut_mode {D}.
Arguments s_ircut_level {D}.
Arguments s_ircut_level_valid {D}.
Arguments s_ircut_action_seen {D}.
Arguments s_ircut_last_tick {D}.
Arguments s_controller_mutex {D}.
Arguments s_controller_initialized {D}.
Arguments s_controller_configured {D}.
Arguments s_last_config_mode {D}.
Arguments s_event_callback {D}.
Arguments s_active_profile {D}.
Definition set_lc_ms {D} (v : ms_state D) (r : lc_state D) : lc_state D :=
  mkLc v (s_ircut_mode r) (s_ircut_level r) (s_ircut_level_valid r) (s_ircut_action_seen r) (s_ircut_last_tick r) (s_controller_mutex r) (s_controller_initialized r) (s_controller_configured r) (s_last_config_mode r) (s_event_callback r) (s_active_profile r).
Definition set_s_ircut_mode {D} (v : lens_ircut_mode_t) (r : lc_state D) : lc_state D :=
  mkLc (lc_ms r) v (s_ircut_level r) (s_ircut_level_valid r) (s_ircut_action_seen r) (s_ircut_last_tick r) (s_controller_mutex r) (s_controller_initialized r) (s_controller_configured r) (s_last_config_mode r) (s_event_callback r) (s_active_profile r).
Definition set_s_ircut_level {D} (v : Z) (r : lc_state D) : lc_state D :=
  mkLc (lc_ms r) (s_ircut_mode r) v (s_ircut_level_valid r) (s_ircut_action_seen r) (s_ircut_last_tick r) (s_controller_mutex r) (s_controller_initialized r) (s_controller_configured r) (s_last_config_mode r) (s_event_callback r) (s_active_profile r).
Definition set_s_ircut_level_valid {D} (v : bool) (r : lc_state D) : lc_state D :=
  mkLc (lc_ms r) (s_ircut_mode r) (s_ircut_level r) v (s_ircut_action_seen r) (s_ircut_last_tick r) (s_controller_mutex r) (s_controller_initialized r) (s_controller_configured r) (s_last_config_mode r) (s_event_callback r) (s_active_profile r).
Definition set_s_ircut_action_seen {D} (v : bool) (r : lc_state D) : lc_state D :=
  mkLc (lc_ms r) (s_ircut_mode r) (s_ircut_level r) (s_ircut_level_valid r) v (s_ircut_last_tick r) (s_controller_mutex r) (s_controller_initialized r) (s_controller_configured r) (s_last_config_mode r) (s_event_callback r) (s_active_profile r).
Definition set_s_ircut_last_tick {D} (v : Z) (r : lc_state D) : lc_state D :=
  mkLc (lc_ms r) (s_ircut_mode r) (s_ircut_level r) (s_ircut_level_valid r) (s_ircut_action_seen r) v (s_controller_mutex r) (s_controller_initialized r) (s_controller_configured r) (s_last_config_mode r) (s_event_callback r) (s_active_profile r).
Definition set_s_controller_mutex {D} (v : option bool) (r : lc_state D) : lc_state D :=
  mkLc (lc_ms r) (s_ircut_mode r) (s_ircut_level r) (s_ircut_level_valid r) (s_ircut_action_seen r) (s_ircut_last_tick r) v (s_controller_initialized r) (s_controller_configured r) (s_last_config_mode r) (s_event_callback r) (s_active_profile r).
Definition set_s_controller_initialized {D} (v : bool) (r : lc_state D) : lc_state D :=
  mkLc (lc_ms r) (s_ircut_mode r) (s_ircut_level r) (s_ircut_level_valid r) (s_ircut_action_seen r) (s_ircut_last_tick r) (s_controller_mutex r) v (s_controller_configured r) (s_last_config_mode r) (s_event_callback r) (s_active_profile r).
Definition set_s_controller_configured {D} (v : bool) (r : lc_state D) : lc_state D :=
  mkLc (lc_ms r) (s_ircut_mode r) (s_ircut_level r) (s_ircut_level_valid r) (s_ircut_action_seen r) (s_ircut_last_tick r) (s_controller_mutex r) (s_controller_initialized r) v (s_last_config_mode r) (s_event_callback r) (s_active_profile r).
Definition set_s_last_config_mode {D} (v : Z) (r : lc_state D) : lc_state D :=
  mkLc (lc_ms r) (s_ircut_mode r) (s_ircut_level r) (s_ircut_level_valid r) (s_ircut_action_seen r) (s_ircut_last_tick r) (s_controller_mutex r) (s_controller_initialized r) (s_controller_configured r) v (s_event_callback r) (s_active_profile r).
Definition set_s_event_callback {D} (v : option Z) (r : lc_state D) : lc_state D :=
  mkLc (lc_ms r) (s_ircut_mode r) (s_ircut_level r) (s_ircut_level_valid r) (s_ircut_action_seen r) (s_ircut_last_tick r) (s_controller_mutex r) (s_controller_initialized r) (s_controller_configured r) (s_last_config_mode r) v (s_active_profile r).
Definition set_s_active_profile {D} (v : lens_profile_t) (r : lc_state D) : lc_state D :=
  mkLc (lc_ms r) (s_ircut_mode r) (s_ircut_level r) (s_ircut_level_valid r) (s_ircut_action_seen r) (s_ircut_last_tick r) (s_controller_mutex r) (s_controller_initialized r) (s_controller_configured r) (s_last_config_mode r) (s_event_callback r) v.

Section Controller.
Context `{LensHw D} `{LensKernel D}.
Notation lc := (lc_state D).

(** A call of the driver, and an access to the hardware. *)
Definition drv {A} (m : M (ms_state D) A) : M lc A := zoom lc_ms set_lc_ms m.

Definition lens_profile_get_active : M lc lens_profile_t := gets s_active_profile.
Definition lens_profile_get_active_model : M lc Z := gets (fun s => p_model (s_active_profile s)).
Definition lens_profile_select (model : Z) : M lc Z :=
  match lens_profile_get model with
  | None => mret SYS_ERR_INVALID_ARG
  | Some p => modify (set_s_active_profile p);; mret SYS_OK
  end.
Definition caps : M lc lens_capabilities_t := p ← lens_profile_get_active; mret (capabilities p).

(** [bsp_ctrl_set_ir_cut] and [bsp_ctrl_get_ir_cut]. *)
Definition bsp_ctrl_set_ir_cut (enable : Z) : M lc Z :=
  let enable := if negb (enable =? 0) then 1 else 0 in
  drv (hw_do (HAL_GPIO_WritePin IR_CUT_EN_Pin (negb (enable =? 0))));;
  mret SYS_OK.
Definition bsp_ctrl_get_ir_cut : M lc Z :=
  drv (gets (fun s => if HAL_GPIO_ReadPin IR_CUT_EN_Pin (s_hw s) then 1 else 0)).

(** ** The lock *)
Definition lens_controller_bootstrap : M lc Z :=
  m ← gets s_controller_mutex;
  match m with
  | None =>
      ok ← drv (hw_call osMutexNew);
      if negb ok : bool then mret SYS_ERR_NO_MEM
      else modify (set_s_controller_mutex (Some false));; mret SYS_OK
  | Some _ => mret SYS_OK
  end.

(** The wait for a mutex that is held does not end: nobody else runs. *)
Definition deadlock {A} : M lc A := fun _ => NoFuel.
Definition lens_controller_lock : M lc Z :=
  ret ← lens_controller_bootstrap;
  if negb (ret =? SYS_OK) then mret ret
  else
    m ← gets s_controller_mutex;
    match m with
    | Some true => deadlock
    | _ =>
        ok ← drv (hw_call osMutexAcquire);
        if ok : bool then modify (set_s_controller_mutex (Some true));; mret SYS_OK
        else mret SYS_ERR_MUTEX
    end.
Definition lens_controller_unlock : M lc unit :=
  modify (fun s => match s_controller_mutex s with
                   | Some _ => set_s_controller_mutex (Some false) s
                   | None => s
                   end).

Definition lens_reset_runtime_state : M lc unit :=
  modify (set_s_ircut_mode LENS_IRCUT_UNKNOWN);;
  modify (set_s_ircut_level 0);;
  modify (set_s_ircut_level_valid false);;
  modify (set_s_ircut_action_seen false);;
  modify (set_s_ircut_last_tick 0).

Definition lens_axis_profile (axis : Z) : M lc (option lens_axis_profile_t) :=
  p ← lens_profile_get_active;
  mret (if axis =? LENS_AXIS_ZOOM then Some (p_zoom p)
        else if axis =? LENS_AXIS_FOCUS then Some (p_focus p) else None).

Definition lens_elapsed_ms (start now : Z) : M lc Z :=
  tick_freq ← drv (gets (fun s => osKernelGetTickFreq (s_hw s)));
  if tick_freq =? 0 then mret 0
  else mret (u32 ((now -u start) * 1000 / tick_freq)).

(** ** Configuration *)
Definition configure_motor (mode : Z) (p : lens_profile_t) : M lc Z :=
  if (mode =? LENS_CONFIG_ALL) || (mode =? LENS_CONFIG_MOTOR) then
    match p_motor_config p with
    | None => mret SYS_ERR_INVALID_STATE
    | Some c => drv (ms41908m_motor_config (Some c))
    end
  else mret SYS_OK.

Definition lens_controller_configure_locked (mode : Z) : M lc Z :=
  p ← lens_profile_get_active;
  if negb (mode =? LENS_CONFIG_ALL) && negb (mode =? LENS_CONFIG_IRIS) && negb (mode =? LENS_CONFIG_MOTOR)
  then mret SYS_ERR_OUT_OF_RANGE
  else if (mode =? LENS_CONFIG_ALL) || (mode =? LENS_CONFIG_IRIS) then
    match (if supports_iris (capabilities p) then p_iris_config p else None) with
    | None => if mode =? LENS_CONFIG_IRIS then mret SYS_ERR_NOT_SUPPORTED else configure_motor mode p
    | Some c =>
        ret ← drv (ms41908m_iris_config (Some c));
        if negb (ret =? SYS_OK) || (mode =? LENS_CONFIG_IRIS) then mret ret else configure_motor mode p
    end
  else configure_motor mode p.

Definition lens_controller_init : M lc Z :=
  ret ← lens_controller_lock;
  if negb (ret =? SYS_OK) then mret ret
  else
    ini ← gets s_controller_initialized;
    if ini : bool then lens_controller_unlock;; mret SYS_ERR_INVALID_STATE
    else
      lens_reset_runtime_state;;
      ret ← drv ms41908m_init;
      (if ret =? SYS_OK then
         modify (set_s_controller_initialized true);;
         modify (set_s_controller_configured false);;
         cb ← gets s_event_callback;
         drv (ms41908m_set_event_callback cb)
       else mret tt);;
      lens_controller_unlock;;
      mret ret.

Definition lens_controller_deinit : M lc unit :=
  ret ← lens_controller_lock;
  if negb (ret =? SYS_OK) then mret tt
  else
    ini ← gets s_controller_initialized;
    (if ini : bool then drv ms41908m_deinit else mret tt);;
    modify (set_s_controller_initialized false);;
    modify (set_s_controller_configured false);;
    lens_reset_runtime_state;;
    lens_controller_unlock.

Definition lens_controller_configure (mode : Z) : M lc Z :=
  ret ← lens_controller_lock;
  if negb (ret =? SYS_OK) then mret ret
  else
    ini ← gets s_controller_initialized;
    if negb ini : bool then lens_controller_unlock;; mret SYS_ERR_INVALID_STATE
    else
      ret ← lens_controller_configure_locked mode;
      (if ret =? SYS_OK then
         modify (set_s_controller_configured true);;
         modify (set_s_last_config_mode mode)
       else mret tt);;
      lens_controller_unlock;;
      mret ret.

Definition lens_controller_set_event_callback (callback : option Z) : M lc unit :=
  ret ← lens_controller_lock;
  if negb (ret =? SYS_OK) then mret tt
  else
    modify (set_s_event_callback callback);;
    ini ← gets s_controller_initialized;
    (if ini : bool then drv (ms41908m_set_event_callback callback) else mret tt);;
    lens_controller_unlock.

(** ** Change of the profile *)

(** After a successful [ms41908m_init]: the callback, and the configuration again when
    there was one. *)
Definition restart (was_configured : bool) (old_config_mode : Z) : M lc Z :=
  modify (set_s_controller_initialized true);;
  cb ← gets s_event_callback;
  drv (ms41908m_set_event_callback cb);;
  if was_configured then
    ret ← lens_controller_configure_locked old_config_mode;
    (if ret =? SYS_OK then
       modify (set_s_controller_configured true);;
       modify (set_s_last_config_mode old_config_mode)
     else mret tt);;
    mret ret
  else mret SYS_OK.

Definition lens_busy : M lc bool :=
  z ← drv ms41908m_get_zoom_state;
  f ← drv ms41908m_get_focus_state;
  i ← drv ms41908m_iris_get_state;
  mret (st_eq z MS41908M_STATE_RUNNING || st_eq z MS41908M_STATE_RESET_ZERO ||
        st_eq f MS41908M_STATE_RUNNING || st_eq f MS41908M_STATE_RESET_ZERO ||
        st_eq i MS41908M_STATE_RUNNING).

(** Back to the old profile; the result is not reported to the caller. *)
Definition rollback (old_model old_config_mode : Z) (was_configured : bool) : M lc unit :=
  ini ← gets s_controller_initialized;
  (if ini : bool then
     drv ms41908m_deinit;;
     modify (set_s_controller_initialized false)
   else mret tt);;
  lens_profile_select old_model;;
  rollback_ret ← drv ms41908m_init;
  if rollback_ret =? SYS_OK then restart was_configured old_config_mode;; mret tt else mret tt.

Definition switch_profile (model : Z) : M lc Z :=
  old_model ← lens_profile_get_active_model;
  old_config_mode ← gets s_last_config_mode;
  was_configured ← gets s_controller_configured;
  drv ms41908m_deinit;;
  modify (set_s_controller_initialized false);;
  modify (set_s_controller_configured false);;
  ret ← lens_profile_select model;
  ret ← (if ret =? SYS_OK then drv ms41908m_init else mret ret);
  ret ← (if ret =? SYS_OK then restart was_configured old_config_mode else mret ret);
  (if negb (ret =? SYS_OK) then rollback old_model old_config_mode was_configured else mret tt);;
  lens_reset_runtime_state;;
  mret ret.

Definition lens_controller_select_profile (model : Z) : M lc Z :=
  match lens_profile_get model with
  | None => mret SYS_ERR_INVALID_ARG
  | Some _ =>
      ret ← lens_controller_lock;
      if negb (ret =? SYS_OK) then mret ret
      else
        active ← lens_profile_get_active_model;
        if active =? model then lens_controller_unlock;; mret SYS_OK
        else
          ini ← gets s_controller_initialized;
          if negb ini : bool then
            ret ← lens_profile_select model;
            lens_reset_runtime_state;;
            lens_controller_unlock;;
            mret ret
          else
            busy ← lens_busy;
            if busy : bool then lens_controller_unlock;; mret SYS_ERR_BUSY
            else
              ret ← switch_profile model;
              lens_controller_unlock;;
              mret ret
  end.

(** ** Relative moves in physical steps *)

(** [out] tells whether the two result pointers are not [NULL]; the result carries the
    values written through them. *)
Definition lens_convert_relative (axis physical_pps physical_steps : Z) (out : bool) : M lc (Z * option (Z * Z)) :=
  ap ← lens_axis_profile axis;
  match ap with
  | None => mret (SYS_ERR_INVALID_ARG, None)
  | Some ap =>
      if negb out then mret (SYS_ERR_INVALID_ARG, None)
      else
        c ← caps;
        if negb (supports_relative c) then mret (SYS_ERR_NOT_SUPPORTED, None)
        else if physical_steps =? 0 then mret (SYS_OK, Some (0, 0))
        else if (physical_pps <? min_pps ap) || (max_pps ap <? physical_pps) then mret (SYS_ERR_OUT_OF_RANGE, None)
        else
          let converted_pps := u32 (physical_pps * psum_units_per_step ap) in
          let converted_steps := physical_steps * psum_units_per_step ap * direction_sign ap in
          if (65535 <? converted_pps) || (converted_pps <? MS41908M_RAW_PPS_MIN) ||
             (MS41908M_RAW_PPS_MAX <? converted_pps) ||
             (MS41908M_RAW_PSUM_MAX <? converted_steps) || (converted_steps <? - MS41908M_RAW_PSUM_MAX) ||
             (2147483647 <? converted_steps) || (converted_steps <? -2147483648)
          then mret (SYS_ERR_OUT_OF_RANGE, None)
          else mret (SYS_OK, Some (converted_pps, converted_steps))
  end.

(** A call of the driver between lock and unlock. *)
Definition locked (m : M lc Z) : M lc Z :=
  ret ← lens_controller_lock;
  if negb (ret =? SYS_OK) then mret ret
  else
    ret ← m;
    lens_controller_unlock;;
    mret ret.
(** The same behind a capability. *)
Definition gated (cap : lens_capabilities_t -> bool) (m : M lc Z) : M lc Z :=
  c ← caps;
  if cap c then m else mret SYS_ERR_NOT_SUPPORTED.

Definition move_relative (axis : Z) (run : Z -> Z -> M (ms_state D) Z) (physical_pps physical_steps : Z) : M lc Z :=
  locked (
    '(ret, raw) ← lens_convert_relative axis physical_pps physical_steps true;
    if (ret =? SYS_OK) && negb (physical_steps =? 0) then
      let '(raw_pps, raw_steps) := default (0, 0) raw in
      drv (run raw_pps raw_steps)
    else mret ret).
Definition lens_zoom_move_relative (pps steps : Z) : M lc Z := move_relative LENS_AXIS_ZOOM ms41908m_zoom_run pps steps.
Definition lens_focus_move_relative (pps steps : Z) : M lc Z := move_relative LENS_AXIS_FOCUS ms41908m_focus_run pps steps.

Definition lens_dual_move_relative (zoom_pps zoom_steps focus_pps focus_steps : Z) : M lc Z :=
  locked (gated supports_sync_relative (
    '(ret, z) ← lens_convert_relative LENS_AXIS_ZOOM zoom_pps zoom_steps true;
    if negb (ret =? SYS_OK) then mret ret
    else
      '(ret, f) ← lens_convert_relative LENS_AXIS_FOCUS focus_pps focus_steps true;
      if negb (ret =? SYS_OK) then mret ret
      else if (zoom_steps =? 0) && (focus_steps =? 0) then mret SYS_OK
      else
        let '(zoom_raw_pps, zoom_raw_steps) := default (0, 0) z in
        let '(focus_raw_pps, focus_raw_steps) := default (0, 0) f in
        drv (ms41908m_zf_sync_run zoom_raw_pps zoom_raw_steps focus_raw_pps focus_raw_steps))).

(** ** Raw moves, absolute moves, limits, stop *)
Definition lens_zoom_run_raw (raw_pps raw_psum_units : Z) : M lc Z :=
  locked (gated supports_relative (drv (ms41908m_zoom_run raw_pps raw_psum_units))).
Definition lens_focus_run_raw (raw_pps raw_psum_units : Z) : M lc Z :=
  locked (gated supports_relative (drv (ms41908m_focus_run raw_pps raw_psum_units))).
Definition lens_dual_run_raw (zp zn fp fn : Z) : M lc Z :=
  locked (gated supports_sync_relative (drv (ms41908m_zf_sync_run zp zn fp fn))).
Definition lens_zoom_move_absolute (raw_pps raw_position : Z) : M lc Z :=
  locked (gated supports_absolute (drv (ms41908m_zoom_run_to_position raw_pps raw_position))).
Definition lens_focus_move_absolute (raw_pps raw_position : Z) : M lc Z :=
  locked (gated supports_absolute (drv (ms41908m_focus_run_to_position raw_pps raw_position))).
Definition lens_zoom_home : M lc Z := locked (gated supports_home (drv ms41908m_zoom_reset_zero)).
Definition lens_focus_home : M lc Z := locked (gated supports_home (drv ms41908m_focus_reset_zero)).
Definition lens_zoom_set_position_limit (lo hi : Z) : M lc Z :=
  locked (gated supports_absolute (drv (ms41908m_zoom_set_position_limit lo hi))).
Definition lens_focus_set_position_limit (lo hi : Z) : M lc Z :=
  locked (gated supports_absolute (drv (ms41908m_focus_set_position_limit lo hi))).
Definition lens_zoom_stop : M lc Z := locked (drv ms41908m_zoom_stop).
Definition lens_focus_stop : M lc Z := locked (drv ms41908m_focus_stop).

(** ** Waits and queries, without the lock *)
Section Waits.
Context (meanwhile : M (ms_state D) unit) (timeout_ms : Z).
Definition lens_zoom_wait : M lc Z := drv (ms41908m_zoom_wait_for_completion meanwhile timeout_ms).
Definition lens_focus_wait : M lc Z := drv (ms41908m_focus_wait_for_completion meanwhile timeout_ms).
Definition lens_dual_wait : M lc Z := drv (ms41908m_zf_sync_wait_for_completion meanwhile timeout_ms).
Definition lens_zoom_wait_home : M lc Z := gated supports_home (drv (ms41908m_zoom_wait_reset_done meanwhile timeout_ms)).
Definition lens_focus_wait_home : M lc Z := gated supports_home (drv (ms41908m_focus_wait_reset_done meanwhile timeout_ms)).
End Waits.

Definition lens_get_iris_state : M lc ms41908m_state_t :=
  c ← caps;
  if supports_iris c then drv ms41908m_iris_get_state else mret MS41908M_STATE_NO_CFG.
Definition lens_get_zoom_state : M lc ms41908m_state_t := drv ms41908m_get_zoom_state.
Definition lens_get_focus_state : M lc ms41908m_state_t := drv ms41908m_get_focus_state.
Definition lens_get_zoom_position : M lc Z := drv ms41908m_get_zoom_position.
Definition lens_get_focus_position : M lc Z := drv ms41908m_get_focus_position.
Definition lens_zoom_is_homed : M lc Z :=
  c ← caps; if supports_home c then drv ms41908m_zoom_is_reset_zero else mret 0.
Definition lens_focus_is_homed : M lc Z :=
  c ← caps; if supports_home c then drv ms41908m_focus_is_reset_zero else mret 0.
Definition lens_read_pi_zoom : M lc Z := gated supports_pi (drv ms41908m_read_pi_zoom).
Definition lens_read_pi_focus : M lc Z := gated supports_pi (drv ms41908m_read_pi_focus).

(** ** Iris *)
Definition lens_iris_run : M lc Z := locked (gated supports_iris (drv ms41908m_iris_run)).
Definition lens_iris_stop : M lc Z := locked (gated supports_iris (drv ms41908m_iris_stop)).
Definition lens_iris_update_target (target : Z) : M lc Z :=
  locked (gated supports_iris (drv (ms41908m_iris_update_target target))).
(** The value written through [adc] is the second result. *)
Definition lens_iris_read_adc (adc : bool) : M lc (Z * option Z) :=
  if negb adc then mret (SYS_ERR_INVALID_ARG, None)
  else
    ret ← lens_controller_lock;
    if negb (ret =? SYS_OK) then mret (ret, None)
    else
      c ← caps;
      if negb (supports_iris c) then lens_controller_unlock;; mret (SYS_ERR_NOT_SUPPORTED, None)
      else
        v ← drv ms41908m_iris_read_adc;
        lens_controller_unlock;;
        mret (SYS_OK, Some v).

(** ** The infrared filter *)
Definition ircut_mode_of (p : lens_profile_t) (level : Z) : lens_ircut_mode_t :=
  if level =? ircut_day_level p then LENS_IRCUT_DAY
  else if level =? ircut_night_level p then LENS_IRCUT_NIGHT
  else LENS_IRCUT_UNKNOWN.

Definition lens_ircut_set_raw_level_locked (level : Z) : M lc Z :=
  p ← lens_profile_get_active;
  if negb (supports_ircut (capabilities p)) then mret SYS_ERR_NOT_SUPPORTED
  else
    let level := if negb (level =? 0) then 1 else 0 in
    s ← get;
    if s_ircut_level_valid s && (s_ircut_level s =? level) then mret SYS_OK
    else
      now ← drv tick;
      elapsed ← lens_elapsed_ms (s_ircut_last_tick s) now;
      if s_ircut_action_seen s && (0 <? ircut_min_interval_ms p) && (elapsed <? ircut_min_interval_ms p)
      then mret SYS_ERR_BUSY
      else
        ret ← bsp_ctrl_set_ir_cut level;
        if negb (ret =? SYS_OK) then mret SYS_ERR_HAL
        else
          modify (set_s_ircut_level level);;
          modify (set_s_ircut_level_valid true);;
          modify (set_s_ircut_action_seen true);;
          modify (set_s_ircut_last_tick now);;
          modify (set_s_ircut_mode (ircut_mode_of p level));;
          mret SYS_OK.

Definition lens_ircut_set_raw_level (level : Z) : M lc Z := locked (lens_ircut_set_raw_level_locked level).
Definition lens_ircut_get_raw_level : M lc Z := bsp_ctrl_get_ir_cut.
Definition lens_ircut_set_day : M lc Z :=
  locked (p ← lens_profile_get_active; lens_ircut_set_raw_level_locked (ircut_day_level p)).
Definition lens_ircut_set_night : M lc Z :=
  locked (p ← lens_profile_get_active; lens_ircut_set_raw_level_locked (ircut_night_level p)).
Definition lens_ircut_get_mode : M lc lens_ircut_mode_t := gets s_ircut_mode.
End Controller.

(** Power on. *)
Definition lc0 {D} (s : ms_state D) : lc_state D :=
  mkLc s LENS_IRCUT_UNKNOWN 0 false false 0 None false false LENS_CONFIG_ALL None g_lens_profile_af0832.
