(* ===== verification/LensInv.v ===== *)
(** The invariant of the lens controller and of the driver below it: which calls keep
    it, on hardware that answers as it likes. *)
From S2P Require Import Prelude Ms41908mReg Ms41908m Ms41908mRun Ms41908mSafe Ms41908mCalls LensController.

(** ** A call of the driver in the controller's state *)
Definition lens_model (p : lens_profile_t) : Prop := lens_profile_get (p_model p) = Some p.
Definition config_mode (mode : Z) : Prop := mode = LENS_CONFIG_ALL \/ mode = LENS_CONFIG_IRIS \/ mode = LENS_CONFIG_MOTOR.

Section Inv.
Context `{LensHw D} `{LensKernel D}.
Notation lc := (lc_state D).

(** [lw] is the invariant without what is known of the infrared filter. *)
Record lw (B : Z) (s : lc) : Prop := {
  li_ms : between B (lc_ms s);
  li_ini : s_controller_initialized s = is_initialized (s_instance (lc_ms s));
  li_cfg : s_controller_configured s = true -> s_controller_initialized s = true;
  li_cb : s_controller_initialized s = true -> s_app_event_cb (lc_ms s) = s_event_callback s;
  li_prof : lens_model (s_active_profile s);
  li_mode : config_mode (s_last_config_mode s)
}.
Definition ir_ok (s : lc) : Prop :=
  s_ircut_level_valid s = true ->
  s_ircut_mode s = ircut_mode_of (s_active_profile s) (s_ircut_level s) /\ (s_ircut_level s = 0 \/ s_ircut_level s = 1).
Definition li (B : Z) (s : lc) : Prop := lw B s /\ ir_ok s.

(** [m] changes the state of the driver only, and keeps the driver's promises. *)
Definition only {A} (B B' : Z) (m : M lc A) : Prop :=
  forall s, between B (lc_ms s) ->
    returns m (fun _ s' => between B' (lc_ms s') /\ kept (lc_ms s) (lc_ms s') /\ s' = set_lc_ms (lc_ms s') s) s.

Lemma only_ret {A} B (a : A) : only B B (mret a).
Proof. intros s Hs. rstep. split_and!; [done|apply kept_refl|by destruct s]. Qed.
Lemma only_gets {A} B (f : lc -> A) : only B B (gets f).
Proof. intros s Hs. rstep. split_and!; [done|apply kept_refl|by destruct s]. Qed.
Lemma only_bind {A C} B B' B'' (m : M lc A) (f : A -> M lc C) :
  only B B' m -> (forall a, only B' B'' (f a)) -> only B B'' (m ≫= f).
Proof.
  intros Hm Hf s Hs. rcall (Hm s Hs). intros a s1 (Hs1 & K1 & E1). eapply returns_mono; [by apply Hf|].
  intros c s2 (Hs2 & K2 & E2). split_and!; [done|by eapply kept_trans|]. rewrite E2, E1. done.
Qed.
Lemma only_drv {A} B B' (m : M (ms_state D) A) : free B B' m -> only B B' (drv m).
Proof.
  intros Hm s Hs. apply returns_zoom. eapply returns_mono; [by apply (between_kept B B' m)|].
  intros a p [Hp K]. done.
Qed.

Lemma lw_only {A} B B' (m : M lc A) s : only B B' m -> lw B s -> returns m (fun _ s' => lw B' s' /\ s' = set_lc_ms (lc_ms s') s) s.
Proof.
  intros Hm Hs. eapply returns_mono; [apply Hm, Hs|]. intros a s' (Hb & K & E). split; [|done].
  destruct Hs as [Hb0 Hi Hc Hcb Hp Hm0]. rewrite E. constructor; cbn; try done.
  - by rewrite (kp_ini _ _ K).
  - intros Hini. rewrite (kp_cb _ _ K). by apply Hcb.
Qed.
Lemma li_only {A} B B' (m : M lc A) s : only B B' m -> li B s ->
  returns m (fun _ s' => li B' s' /\ s' = set_lc_ms (lc_ms s') s) s.
Proof.
  intros Hm [Hs Hir]. eapply returns_mono; [by apply (lw_only B B')|]. intros a s' [Hs' E]. split; [|done].
  split; [done|]. rewrite E. done.
Qed.

(** ** The lock *)
Definition unlocked (s : lc) : Prop := s_controller_mutex s <> Some true.

Lemma hw_only {A} B (f : D -> A * D) : only B B (drv (hw_call f)).
Proof. apply only_drv, free_keeps, keeps_hw_call. Qed.

(** [s'] is [s] up to the state of the driver and the lock. *)
Definition rest_same (s s' : lc) : Prop := s' = set_lc_ms (lc_ms s') (set_s_controller_mutex (s_controller_mutex s') s).
Lemma rest_same_drv s s' : s' = set_lc_ms (lc_ms s') s -> rest_same s s'.
Proof. intros E. unfold rest_same. rewrite E. by destruct s. Qed.
Lemma rest_same_trans s1 s2 s3 : rest_same s1 s2 -> rest_same s2 s3 -> rest_same s1 s3.
Proof. unfold rest_same. intros E1 E2. rewrite E2 at 1. rewrite E1. done. Qed.

(** Either the lock is taken, or the call fails; nothing else has changed. *)
Definition lock_post (B : Z) (s : lc) (ret : Z) (s' : lc) : Prop :=
  (li B s' /\ if ret =? SYS_OK then s_controller_mutex s' = Some true else unlocked s') /\ rest_same s s'.
Lemma acquire_ok B s : li B s -> s_controller_mutex s = Some false ->
  returns (ok ← drv (hw_call osMutexAcquire);
           if ok : bool then modify (set_s_controller_mutex (Some true));; mret SYS_OK else mret SYS_ERR_MUTEX)
    (lock_post B s) s.
Proof.
  intros Hs Em. rcall (li_only B B _ s (hw_only B osMutexAcquire) Hs). intros ok s1 [Hs1 E1]. unfold lock_post.
  destruct ok; rstep.
  - split; [|unfold rest_same; cbn; rewrite E1; by destruct s]. split; [|done]. destruct Hs1 as [[] ?]. split; [by constructor|done].
  - split; [|by apply rest_same_drv]. split; [done|]. change (SYS_ERR_MUTEX =? SYS_OK) with false. cbn iota.
    unfold unlocked. rewrite E1. cbn. congruence.
Qed.
Lemma lock_cases B s : li B s -> unlocked s -> returns lens_controller_lock (lock_post B s) s.
Proof.
  intros Hs Hu. unfold lens_controller_lock, lens_controller_bootstrap.
  apply returns_bind. rpure. destruct (s_controller_mutex s) as [b|] eqn:Em.
  - rstep. change (SYS_OK =? SYS_OK) with true. cbn [negb]. rpure. rewrite Em. destruct b; [by destruct Hu|]. by apply acquire_ok.
  - rcall (li_only B B _ s (hw_only B osMutexNew) Hs). intros ok s1 [Hs1 E1]. destruct ok; cbn [negb]; rstep.
    + change (SYS_OK =? SYS_OK) with true. cbn [negb]. rstep. eapply returns_mono; [apply (acquire_ok B); [|done]|].
      * destruct Hs1 as [[] ?]. split; [by constructor|done].
      * intros ret s2 [HQ HR]. split; [done|]. eapply rest_same_trans; [|exact HR]. unfold rest_same. cbn. rewrite E1. by destruct s.
    + change (negb (SYS_ERR_NO_MEM =? SYS_OK)) with true. cbn iota. rstep. split; [|by apply rest_same_drv]. split; [done|].
      change (SYS_ERR_NO_MEM =? SYS_OK) with false. cbn iota. unfold unlocked. rewrite E1. cbn. congruence.
Qed.

Lemma unlock_ok B s : li B s -> returns lens_controller_unlock (fun _ s' => (li B s' /\ unlocked s') /\ rest_same s s') s.
Proof.
  intros Hs. unfold lens_controller_unlock. rstep. destruct (s_controller_mutex s) eqn:E.
  - split; [|by destruct s]. destruct Hs as [[] ?]. split; [|done]. split; [by constructor|done].
  - split; [|by destruct s]. split; [done|]. unfold unlocked. congruence.
Qed.
Lemma unlock_ret {A} B s (a : A) : li B s ->
  returns (lens_controller_unlock;; mret a) (fun r s' => (li B s' /\ unlocked s') /\ rest_same s s' /\ r = a) s.
Proof. intros Hs. rcall (unlock_ok B s Hs). intros _ s1 [Hs1 Hr]. by rstep. Qed.

(** A body run under the lock. *)
Definition body {A} (B B' : Z) (m : M lc A) : Prop := forall s, li B s -> returns m (fun _ s' => li B' s') s.
Definition calls {A} (B B' : Z) (m : M lc A) : Prop := forall s, li B s -> unlocked s -> returns m (fun _ s' => li B' s' /\ unlocked s') s.

Lemma body_only {A} B B' (m : M lc A) : only B B' m -> body B B' m.
Proof. intros Hm s Hs. eapply returns_mono; [by apply (li_only B B')|]. by intros ? ? [? ?]. Qed.
Lemma calls_only {A} B B' (m : M lc A) : only B B' m -> calls B B' m.
Proof.
  intros Hm s Hs Hu. eapply returns_mono; [by apply (li_only B B')|]. intros ? ? [? E]. split; [done|]. unfold unlocked. rewrite E. done.
Qed.
Lemma body_unlock {A} B B' (m : M lc A) : body B B' m ->
  forall s, li B s -> returns (ret ← m; lens_controller_unlock;; mret ret) (fun _ s' => li B' s' /\ unlocked s') s.
Proof.
  intros Hm s Hs. rcall (Hm s Hs). intros r s1 Hs1. eapply returns_mono; [by apply (unlock_ret B')|]. by intros ? ? (? & _).
Qed.
Lemma calls_lock {A} B (k1 : Z -> M lc A) (k2 : M lc A) :
  (forall ret, only B B (k1 ret)) -> (forall s, li B s -> returns k2 (fun _ s' => li B s' /\ unlocked s') s) ->
  calls B B (ret ← lens_controller_lock; if negb (ret =? SYS_OK) then k1 ret else k2).
Proof.
  intros H1 H2 s Hs Hu. rcall (lock_cases B s Hs Hu). intros ret s1 [[Hs1 Hm] _]. destruct (ret =? SYS_OK); cbn [negb].
  - by apply H2.
  - by apply (calls_only B B).
Qed.
Lemma calls_locked B m : body B B m -> calls B B (locked m).
Proof. intros Hm. apply calls_lock; [intros; apply only_ret|]. by apply body_unlock. Qed.
Lemma only_gated B B' cap m : B <= B' -> only B B' m -> only B B' (gated cap m).
Proof.
  intros HB Hm. unfold gated, caps, lens_profile_get_active. eapply only_bind; [eapply only_bind; [apply only_gets|intros; apply only_ret]|].
  intros c. destruct (cap c); [done|]. intros s Hs. rstep. split_and!; [|apply kept_refl|by destruct s].
  destruct Hs. constructor; try done. by eapply safe_mono.
Qed.

(** ** Configuration *)
Lemma only_configure_motor B mode p : only B B (configure_motor mode p).
Proof.
  unfold configure_motor. destruct (_ || _); [|apply only_ret]. destruct (p_motor_config p); [|apply only_ret].
  apply only_drv, free_motor_config.
Qed.
Lemma only_configure B mode : only B B (lens_controller_configure_locked mode).
Proof.
  unfold lens_controller_configure_locked, lens_profile_get_active. eapply only_bind; [apply only_gets|]. intros p.
  pose proof (only_configure_motor B mode p). destruct (_ && _); [apply only_ret|]. destruct (_ || _); [|done].
  destruct (if supports_iris _ then _ else _) as [c|]; [|destruct (_ =? _); [apply only_ret|done]].
  eapply only_bind; [apply only_drv, free_iris_config|]. intros ret. destruct (_ || _); [apply only_ret|done].
Qed.

Lemma configured_mode mode s ret s' :
  lens_controller_configure_locked mode s = Ret ret s' -> ret = SYS_OK -> config_mode mode.
Proof.
  unfold lens_controller_configure_locked, config_mode. erewrite bind_ret_eq by reflexivity.
  destruct (mode =? LENS_CONFIG_ALL) eqn:E0; cbool; [by left|]. destruct (mode =? LENS_CONFIG_IRIS) eqn:E1; cbool; [by right; left|].
  destruct (mode =? LENS_CONFIG_MOTOR) eqn:E2; cbool; [by right; right|]. cbn [negb andb]. intros [= <- <-] Hx. discriminate Hx.
Qed.

Lemma reset_runtime B s : lw B s -> returns lens_reset_runtime_state 
  (fun _ s' => li B s' /\ s_controller_initialized s' = s_controller_initialized s) s.
Proof. intros []. unfold lens_reset_runtime_state. rstep. split; [|done]. split; [by constructor|done]. Qed.

Lemma calls_configure B mode : calls B B (lens_controller_configure mode).
Proof.
  apply calls_lock; [intros; apply only_ret|]. intros s Hs. rpure.
  destruct (s_controller_initialized s) eqn:Ei; cbn [negb].
  2: { eapply returns_mono; [by apply (unlock_ret B)|]. by intros ? ? (? & _). }
  apply returns_bind. destruct (returns_elim _ _ _ (li_only B B _ s (only_configure B mode) Hs)) as (ret & s1 & E & Hs1 & _).
  pose proof (configured_mode mode s ret s1 E) as Hmode.
  destruct (returns_elim _ _ _ (lw_only B B _ s (only_configure B mode) (proj1 Hs))) as (ret' & s1' & E' & _ & Es).
  rewrite E in E'. injection E' as <- <-. eapply returns_intro; [exact E|].
  apply returns_bind. eapply (returns_mono _ (fun _ s' => li B s')).
  - destruct (ret =? SYS_OK) eqn:Er; [|by rstep]. cbool. rstep. destruct Hs1 as [[H1 H2 H3 H4 H5 H6] Hir].
    split; [|done]. constructor; cbn; try done; [|by apply Hmode]. intros _. rewrite Es. done.
  - intros _ s2 Hs2. eapply returns_mono; [by apply (unlock_ret B)|]. by intros ? ? (? & _).
Qed.

(** ** Initialisation *)

(** Neither initialised nor configured as far as the controller knows; [b] tells whether
    the driver is. *)
Record lmid (B : Z) (b : bool) (s : lc) : Prop := {
  lm_ms : between B (lc_ms s);
  lm_drv : is_initialized (s_instance (lc_ms s)) = b;
  lm_ini : s_controller_initialized s = false;
  lm_cfg : s_controller_configured s = false;
  lm_prof : lens_model (s_active_profile s);
  lm_mode : config_mode (s_last_config_mode s)
}.
Lemma lmid_lw B s : lmid B false s -> lw B s.
Proof. intros []. constructor; try done; congruence. Qed.

(** Between the two, the infrared filter is not touched. *)
Lemma mid_init B s : 0 <= B -> lmid B false s ->
  returns (drv ms41908m_init) (fun ret s' => lmid B (ret =? SYS_OK) s' /\ (ir_ok s -> ir_ok s')) s.
Proof.
  intros HB [Hb Hd Hi Hc Hp Hm]. apply returns_zoom. eapply returns_mono; [by apply between_init|].
  intros ret p [Hb' Hd']. split; [|done]. constructor; try done. by apply Hd'.
Qed.

Lemma mid_callback {A} B s (k : M lc A) Q : lmid B true s ->
  (forall s', lw B s' -> s_controller_configured s' = false -> (ir_ok s -> ir_ok s') -> returns k Q s') ->
  returns (modify (set_s_controller_initialized true);; cb ← gets s_event_callback; drv (ms41908m_set_event_callback cb);; k) Q s.
Proof.
  intros [Hb Hd Hi Hc Hp Hm] Hk. rstep. apply returns_bind, returns_zoom. unfold ms41908m_set_event_callback. rstep.
  apply Hk; try done. constructor; cbn; try done. destruct Hb as [[] ? ? ? ?]. by constructor.
Qed.

Lemma li_mid B s : lw B s -> s_controller_initialized s = false -> lmid B false s.
Proof.
  intros [Hb Hi Hc Hcb Hp Hm] Ei. constructor; try done; [congruence|].
  destruct (s_controller_configured s); [|done]. by rewrite Ei in Hc; discriminate Hc.
Qed.

Lemma calls_init B : 0 <= B -> calls B B lens_controller_init.
Proof.
  intros HB. apply calls_lock; [intros; apply only_ret|]. intros s Hs. rpure.
  destruct (s_controller_initialized s) eqn:Ei.
  { eapply returns_mono; [by apply (unlock_ret B)|]. by intros ? ? (? & _). }
  rcall (reset_runtime B s (proj1 Hs)). intros _ s1 [[Hs1 Hir1] E1]. rewrite Ei in E1.
  rcall (mid_init B s1 HB (li_mid B s1 Hs1 E1)). intros ret s2 [Hs2 Hir2]. specialize (Hir2 Hir1).
  apply returns_bind. eapply (returns_mono _ (fun _ s' => li B s')).
  - destruct (ret =? SYS_OK); [|rstep; split; [by apply lmid_lw|done]].
    destruct Hs2 as [Hb Hd Hi Hc Hp Hm]. rstep. apply returns_zoom. unfold ms41908m_set_event_callback. rstep.
    split; [|done]. constructor; cbn; try done. destruct Hb as [[] ? ? ? ?]. by constructor.
  - intros _ s3 Hs3. eapply returns_mono; [by apply (unlock_ret B)|]. by intros ? ? (? & _).
Qed.

Lemma drv_deinit B s (P : lc -> Prop) : 0 <= B -> between B (lc_ms s) ->
  (forall p, between B p -> is_initialized (s_instance p) = false -> P (set_lc_ms p s)) ->
  returns (drv ms41908m_deinit) (fun _ s' => P s') s.
Proof.
  intros HB Hb HP. apply returns_zoom. eapply returns_mono; [by apply between_deinit|]. intros _ p [Hp Hi]. by apply HP.
Qed.

Lemma calls_deinit B : 0 <= B -> calls B B lens_controller_deinit.
Proof.
  intros HB. apply calls_lock; [intros; apply only_ret|]. intros s Hs. rpure. apply returns_bind.
  assert (Hend : forall s, between B (lc_ms s) -> is_initialized (s_instance (lc_ms s)) = false ->
    lens_model (s_active_profile s) -> config_mode (s_last_config_mode s) ->
    returns (modify (set_s_controller_initialized false);; modify (set_s_controller_configured false);;
             lens_reset_runtime_state;; lens_controller_unlock) (fun _ s' => li B s' /\ unlocked s') s).
  { clear s Hs. intros s Hb Hd Hp Hm. rstep. apply returns_bind. eapply returns_mono; [apply (reset_runtime B)|].
    - by constructor.
    - intros _ s1 [Hs1 _]. eapply returns_mono; [by apply unlock_ok|]. by intros ? ? (? & _). }
  destruct Hs as [[Hb Hi Hc Hcb Hp Hm] Hir]. destruct (s_controller_initialized s) eqn:Ei.
  - eapply drv_deinit; [done|done|]. intros p Hp' Hi'. by apply Hend.
  - rstep. apply Hend; congruence.
Qed.

Lemma calls_callback B cb : calls B B (lens_controller_set_event_callback cb).
Proof.
  apply calls_lock; [intros; apply only_ret|]. intros s [[Hb Hi Hc Hcb Hp Hm] Hir]. rpure. rpure. apply returns_bind.
  eapply (returns_mono _ (fun _ s' => li B s')); [|intros _ s1 Hs1; eapply returns_mono; [by apply unlock_ok|]; by intros ? ? (? & _)].
  cbn [s_controller_initialized set_s_event_callback]. destruct (s_controller_initialized s) eqn:Ei.
  - apply returns_zoom. unfold ms41908m_set_event_callback. rstep. split; [|done]. constructor; cbn; try done; [|congruence].
    destruct Hb as [[] ? ? ? ?]. by constructor.
  - rstep. split; [|done]. constructor; cbn; rewrite ?Ei; done.
Qed.

(** ** Change of the profile *)

(** What a change of the profile keeps whatever happens. *)
Definition ctl_same (s s' : lc) : Prop :=
  s_last_config_mode s' = s_last_config_mode s /\ s_event_callback s' = s_event_callback s.

Lemma restart_ok B wc s : lmid B true s ->
  returns (restart wc (s_last_config_mode s)) (fun ret s' => lw B s' /\ s_controller_initialized s' = true /\
    s_controller_configured s' = wc && (ret =? SYS_OK) /\ s_active_profile s' = s_active_profile s /\ ctl_same s s') s.
Proof.
  intros [Hb Hd Hi Hc Hp Hm]. unfold restart. rstep. apply returns_bind, returns_zoom. unfold ms41908m_set_event_callback. rstep.
  match goal with |- returns _ _ ?s1 => set (s1' := s1) end.
  assert (Hs1 : lw B s1'). { constructor; cbn; try done. destruct Hb as [[] ? ? ? ?]. by constructor. }
  destruct wc; [|rstep; by split_and!].
  rcall (lw_only B B _ s1' (only_configure B (s_last_config_mode s)) Hs1). intros ret s2 [Hs2 E2].
  destruct (ret =? SYS_OK) eqn:Er; rstep; (split; [|rewrite E2, ?Er; by split_and!]); [|done].
  destruct Hs2 as [H1 H2 H3 H4 H5 H6]. constructor; cbn; try done. intros _. rewrite E2. done.
Qed.

Lemma mid_select B b s model p : lmid B b s -> lens_profile_get model = Some p ->
  lens_profile_select model s = Ret SYS_OK (set_s_active_profile p s) /\ lmid B b (set_s_active_profile p s) /\
  p_model p = model.
Proof.
  intros [Hb Hd Hi Hc Hp Hm] E. unfold lens_profile_select. rewrite E. split; [done|].
  assert (Em : lens_model p /\ p_model p = model).
  { unfold lens_model, lens_profile_get in *. destruct (model =? LENS_MODEL_AF0832) eqn:E0; cbool; [by injection E as <-|].
    destruct (model =? LENS_MODEL_FG2009) eqn:E1; cbool; [by injection E as <-|done]. }
  split; [|apply Em]. constructor; try done. apply Em.
Qed.

(** The driver is initialised again with the profile [p]. *)
Definition reinit (wc : bool) (mode : Z) : M lc Z :=
  ret ← drv ms41908m_init;
  if ret =? SYS_OK then restart wc mode else mret ret.

Definition reinit_post (B : Z) (wc : bool) (s : lc) (ret : Z) (s' : lc) : Prop :=
  lw B s' /\ s_active_profile s' = s_active_profile s /\ ctl_same s s' /\
  (if ret =? SYS_OK then s_controller_initialized s' = true /\ s_controller_configured s' = wc else s_controller_configured s' = false).

Lemma reinit_ok B wc s : 0 <= B -> lmid B false s -> returns (reinit wc (s_last_config_mode s)) (reinit_post B wc s) s.
Proof.
  intros HB Hs. unfold reinit, reinit_post. apply returns_bind. eapply returns_mono.
  { apply returns_and; [by apply (mid_init B)|]. instantiate (1 := fun _ s' => s' = set_lc_ms (lc_ms s') s).
    apply returns_zoom. eapply returns_mono; [apply between_init; [done|apply Hs]|]. done. }
  intros ret s1 [[Hs1 _] E1]. destruct (ret =? SYS_OK) eqn:Er.
  - replace (s_last_config_mode s) with (s_last_config_mode s1) by (by rewrite E1).
    eapply returns_mono; [by apply (restart_ok B)|]. intros r2 s2 (Hs2 & Hi2 & Hc2 & Hp2 & Hk2). rewrite Hc2.
    rewrite E1 in Hp2, Hk2. destruct (r2 =? SYS_OK), wc; by split_and!.
  - rstep. rewrite Er. split_and!; try done; try (by rewrite E1); [by apply lmid_lw|apply Hs1].
Qed.

Lemma rollback_ok B wc s old : 0 <= B -> lw B s -> s_controller_configured s = false -> lens_profile_get old <> None ->
  returns (rollback old (s_last_config_mode s) wc)
    (fun _ s' => lw B s' /\ lens_profile_get old = Some (s_active_profile s') /\ ctl_same s s') s.
Proof.
  intros HB Hs Hc Hold. unfold rollback. rpure. apply returns_bind.
  eapply (returns_mono _ (fun _ s' => lmid B false s' /\ ctl_same s s')).
  { destruct (s_controller_initialized s) eqn:Ei; [|rstep; split; [by apply li_mid|done]].
    apply returns_bind. destruct Hs as [Hb Hi Hc' Hcb Hp Hm].
    eapply (drv_deinit B s (fun s' => returns (modify (set_s_controller_initialized false)) _ s')); [done|done|].
    intros p Hb' Hi'. rstep. split; [|done]. by constructor. }
  intros _ s1 [Hs1 [Ek1 Ek2]]. destruct (lens_profile_get old) as [p|] eqn:Ep; [|done].
  destruct (mid_select B false s1 old p Hs1 Ep) as (E2 & Hs2 & _). rrun E2.
  match goal with |- returns ?m _ _ => enough (R : returns (reinit wc (s_last_config_mode s)) (fun _ s' => lw B s' /\ Some p = Some (s_active_profile s') /\ ctl_same s s') (set_s_active_profile p s1)) end.
  - unfold reinit in R. apply returns_elim in R as (r & s3 & E3 & Hs3).
    unfold mbind, M_bind in E3 |- *. unfold returns. destruct (drv ms41908m_init _) as [r0 s4| | |]; try done.
    destruct (r0 =? SYS_OK); [|injection E3 as <- <-; done]. rewrite E3. done.
  - rewrite <- Ek1. eapply returns_mono; [by apply (reinit_ok B wc (set_s_active_profile p s1))|].
    intros r s3 (Hs3 & Hp3 & [Ek3 Ek4] & _). split_and!; [done|by rewrite Hp3|]. split; cbn in *; congruence.
Qed.

(** On success the new profile is in force and the controller is initialised and
    configured as before; on failure the old profile is. *)
Definition select_post (model : Z) (s : lc) (ret : Z) (s' : lc) : Prop :=
  ctl_same s s' /\
  if ret =? SYS_OK
  then lens_profile_get model = Some (s_active_profile s') /\ s_controller_initialized s' = s_controller_initialized s /\
    s_controller_configured s' = s_controller_configured s
  else s_active_profile s' = s_active_profile s.

Lemma switch_ok B s model : 0 <= B -> lw B s -> s_controller_initialized s = true -> lens_profile_get model <> None ->
  returns (switch_profile model) (fun ret s' => li B s' /\ select_post model s ret s') s.
Proof.
  intros HB Hs Ei Hm. destruct (lens_profile_get model) as [p|] eqn:Ep; [|done]. pose proof Hs as [Hb Hi Hc Hcb Hp Hmo].
  unfold switch_profile. do 3 rpure. apply returns_bind.
  eapply (drv_deinit B s (fun s' => returns _ _ s')); [done|done|]. intros d Hbd Hid. rpure. rpure.
  match goal with |- returns _ _ ?x => set (s1 := x) end. assert (Hs1 : lmid B false s1) by (by constructor).
  destruct (mid_select B false s1 model p Hs1 Ep) as (E2 & Hs2 & Em). rrun E2.
  change (SYS_OK =? SYS_OK) with true. cbn iota.
  eapply returns_eq; [symmetry; apply (bind_assoc (drv ms41908m_init)
    (fun ret => if ret =? SYS_OK then restart (s_controller_configured s) (s_last_config_mode s) else mret ret))|].
  rcall (reinit_ok B (s_controller_configured s) (set_s_active_profile p s1) HB Hs2).
  intros ret s3 (Hs3 & Hp3 & [Ek1 Ek2] & Hr). apply returns_bind.
  eapply (returns_mono _ (fun _ s' => lw B s' /\ select_post model s ret s')).
  - unfold select_post. destruct (ret =? SYS_OK); cbn [negb].
    + rstep. destruct Hr as [Hr1 Hr2]. rewrite Hp3, Ei. by split_and!.
    + replace (s_last_config_mode s) with (s_last_config_mode s3).
      eapply returns_mono; [apply (rollback_ok B); [done|done|done|by rewrite Hp]|].
      intros _ s4 (Hs4 & Hp4 & [Ek3 Ek4]). split; [done|]. unfold lens_model in Hp. rewrite Hp in Hp4.
      split; [|congruence]. split; cbn in *; congruence.
  - intros _ s4 [Hs4 Hpost]. destruct Hs4 as [H1 H2 H3 H4 H5 H6]. unfold lens_reset_runtime_state. rstep.
    split; [|done]. split; [by constructor|done].
Qed.

Lemma busy_reads (s : lc) : exists b, lens_busy s = Ret b s.
Proof. destruct s. eexists. reflexivity. Qed.

Lemma select_ok B s model : 0 <= B -> li B s -> unlocked s ->
  returns (lens_controller_select_profile model) (fun ret s' => (li B s' /\ unlocked s') /\ select_post model s ret s') s.
Proof.
  intros HB Hs Hu. unfold lens_controller_select_profile. destruct (lens_profile_get model) as [p|] eqn:Ep.
  2: { rstep. by split_and!. }
  rcall (lock_cases B s Hs Hu). intros ret s1 [[Hs1 Hm1] R1].
  assert (Hsame : forall r s', rest_same s s' -> (r =? SYS_OK) = false -> select_post model s r s').
  { intros r s' -> Er. unfold select_post. by rewrite Er. }
  destruct (ret =? SYS_OK) eqn:Er; cbn [negb]; [|rstep; by split; [|apply Hsame]]. rpure.
  destruct (_ =? model) eqn:Em; cbool.
  { eapply returns_mono; [by apply (unlock_ret B)|]. intros r s2 (Hs2 & R2 & ->). split; [done|].
    pose proof (rest_same_trans _ _ _ R1 R2) as R. unfold select_post. change (SYS_OK =? SYS_OK) with true. cbn iota.
    rewrite R. cbn. rewrite R1 in Em. cbn in Em. rewrite <- Em. split_and!; try done. apply Hs. }
  rpure. destruct (s_controller_initialized s1) eqn:Ei; cbn [negb].
  - destruct (busy_reads s1) as [busy Eb]. rrun Eb. destruct busy.
    { eapply returns_mono; [by apply (unlock_ret B)|]. intros r s2 (Hs2 & R2 & ->). split; [done|].
      apply Hsame; [by eapply rest_same_trans|done]. }
    rcall (switch_ok B s1 model HB (proj1 Hs1) Ei ltac:(congruence)). intros r s2 [Hs2 Hp2].
    eapply returns_mono; [by apply (unlock_ret B)|]. intros r' s3 (Hs3 & R3 & ->). split; [done|].
    rewrite R3. unfold select_post, ctl_same in *. rewrite R1 in Hp2. exact Hp2.
  - destruct (mid_select B false s1 model p (li_mid B s1 (proj1 Hs1) Ei) Ep) as (E2 & Hs2 & _). rrun E2.
    apply returns_bind. eapply returns_mono; [apply returns_and; [apply (reset_runtime B _ (lmid_lw B _ Hs2))|]|].
    { instantiate (1 := fun _ s' => ctl_same s s' /\ s_active_profile s' = p /\ s_controller_initialized s' = s_controller_initialized s /\
        s_controller_configured s' = s_controller_configured s).
      unfold lens_reset_runtime_state. rstep. cbn. rewrite R1. by split_and!. }
    intros _ s3 [[Hs3 _] (K3 & Hp3 & Hi3 & Hc3)].
    eapply returns_mono; [by apply (unlock_ret B)|]. intros r' s4 (Hs4 & R4 & ->). split; [done|].
    rewrite R4. unfold select_post, ctl_same in *. change (SYS_OK =? SYS_OK) with true. cbn iota.
    split; [exact K3|]. split_and!; [by rewrite Ep, <- Hp3|exact Hi3|exact Hc3].
Qed.
End Inv.
