(* ===== verification/LensProps.v ===== *)
(** The properties of the lens controller: its calls in any order, the change of the
    profile, and moves in physical steps on hardware in working order, where the
    controller's conversion and lock are over the driver's batches. *)
From stdpp Require Import relations.
From S2P Require Import Prelude Ms41908mReg Ms41908m Ms41908mPort Ms41908mRun Ms41908mRounds Ms41908mStart Ms41908mProps Ms41908mSafe Ms41908mCalls LensController LensInv.

(** ** Conversion *)
Definition axis_profile_of (p : lens_profile_t) (axis : Z) : lens_axis_profile_t :=
  if axis =? LENS_AXIS_ZOOM then p_zoom p else p_focus p.

(** The arguments a profile accepts for a move. *)
Definition phys_ok (ap : lens_axis_profile_t) (pps steps : Z) : bool :=
  (min_pps ap <=? pps) && (pps <=? max_pps ap) && (Z.abs steps * psum_units_per_step ap <=? MS41908M_RAW_PSUM_MAX).
Definition raw_steps (ap : lens_axis_profile_t) (steps : Z) : Z := steps * psum_units_per_step ap * direction_sign ap.
Definition raw_pps (ap : lens_axis_profile_t) (pps : Z) : Z := pps * psum_units_per_step ap.

(** What the two profiles have in common. *)
Record sound_axis (ap : lens_axis_profile_t) : Prop := {
  sa_units : 1 <= psum_units_per_step ap <= 255;
  sa_sign : direction_sign ap = 1 \/ direction_sign ap = -1;
  sa_min : MS41908M_RAW_PPS_MIN <= min_pps ap * psum_units_per_step ap;
  sa_max : max_pps ap * psum_units_per_step ap <= MS41908M_RAW_PPS_MAX;
  sa_pos : 0 <= min_pps ap
}.
Lemma model_cases p : lens_model p -> p = g_lens_profile_af0832 \/ p = g_lens_profile_fg2009.
Proof.
  unfold lens_model, lens_profile_get. destruct (_ =? _); [intros [= ->]; by left|]. destruct (_ =? _); [intros [= ->]; by right|done].
Qed.
Lemma model_axis p axis : lens_model p -> sound_axis (axis_profile_of p axis).
Proof.
  intros Hp. destruct (model_cases p Hp) as [-> | ->]; unfold axis_profile_of; destruct (_ =? _); constructor; unfold MS41908M_RAW_PPS_MIN, MS41908M_RAW_PPS_MAX; cbn; lia.
Qed.

Lemma raw_steps_abs ap steps : sound_axis ap -> Z.abs (raw_steps ap steps) = Z.abs steps * psum_units_per_step ap.
Proof. intros [Hu Hs _ _ _]. unfold raw_steps. rewrite !Z.abs_mul. destruct Hs as [-> | ->]; cbn [Z.abs]; lia. Qed.
Lemma phys_ok_move ap pps steps : sound_axis ap -> phys_ok ap pps steps = true -> steps <> 0 ->
  MS41908M_RAW_PPS_MIN <= raw_pps ap pps <= MS41908M_RAW_PPS_MAX /\ 1 <= Z.abs (raw_steps ap steps) <= 65535.
Proof.
  intros Ha Hok Hn. rewrite raw_steps_abs by done. unfold phys_ok, raw_pps in *. destruct Ha as [Hu Hs Hmin Hmax Hp]. cbool.
  unfold MS41908M_RAW_PSUM_MAX in *. nia.
Qed.

Section Convert.
Context `{LensHw D} `{LensKernel D}.
Notation lc := (lc_state D).

Lemma convert_eq (s : lc) axis pps steps :
  lens_model (s_active_profile s) -> axis = LENS_AXIS_ZOOM \/ axis = LENS_AXIS_FOCUS -> 0 <= pps <= 65535 ->
  lens_convert_relative axis pps steps true s =
  Ret (let ap := axis_profile_of (s_active_profile s) axis in
       if steps =? 0 then (SYS_OK, Some (0, 0))
       else if phys_ok ap pps steps then (SYS_OK, Some (raw_pps ap pps, raw_steps ap steps))
       else (SYS_ERR_OUT_OF_RANGE, None)) s.
Proof.
  intros Hm Hax Hpps. pose proof (model_axis _ axis Hm) as Ha. cbn zeta.
  assert (Hc : supports_relative (capabilities (s_active_profile s)) = true) by (destruct (model_cases _ Hm) as [-> | ->]; done).
  unfold lens_convert_relative, lens_axis_profile, lens_profile_get_active, caps.
  assert (E : (if axis =? LENS_AXIS_ZOOM then Some (p_zoom (s_active_profile s))
    else if axis =? LENS_AXIS_FOCUS then Some (p_focus (s_active_profile s)) else None) = Some (axis_profile_of (s_active_profile s) axis)).
  { unfold axis_profile_of. destruct Hax as [-> | ->]; done. }
  erewrite bind_ret_eq by (unfold lens_axis_profile, lens_profile_get_active; erewrite bind_ret_eq by reflexivity; rewrite E; reflexivity).
  revert Ha. generalize (axis_profile_of (s_active_profile s) axis). clear E Hax. intros ap Ha. cbn iota beta. cbn [negb].
  erewrite bind_ret_eq by (erewrite bind_ret_eq by reflexivity; reflexivity). rewrite Hc. cbn [negb].
  destruct (steps =? 0) eqn:E0; [done|]. cbool. pose proof (raw_steps_abs ap steps Ha) as Habs.
  fold (raw_steps ap steps). change (pps * psum_units_per_step ap) with (raw_pps ap pps).
  destruct Ha as [Hu Hs Hmin Hmax Hp]. unfold phys_ok.
  destruct (pps <? min_pps ap) eqn:E1; cbool; [rewrite (proj2 (Z.leb_gt _ _)) by lia; done|].
  rewrite (proj2 (Z.leb_le _ _)) by lia.
  destruct (max_pps ap <? pps) eqn:E2; cbool; [rewrite (proj2 (Z.leb_gt (_) (_))) by lia; done|].
  rewrite (proj2 (Z.leb_le pps _)) by lia. cbn [orb andb].
  assert (Hr : MS41908M_RAW_PPS_MIN <= raw_pps ap pps <= MS41908M_RAW_PPS_MAX) by (unfold raw_pps; nia).
  unfold MS41908M_RAW_PPS_MIN, MS41908M_RAW_PPS_MAX, MS41908M_RAW_PSUM_MAX in *. rewrite (u32_small (raw_pps ap pps)) by lia.
  rewrite (proj2 (Z.ltb_ge 65535 (raw_pps ap pps))), (proj2 (Z.ltb_ge (raw_pps ap pps) 24)), (proj2 (Z.ltb_ge 8000 (raw_pps ap pps))) by lia.
  cbn [orb]. rewrite <- Habs. destruct (Z.abs (raw_steps ap steps) <=? 65535) eqn:E3; cbool.
  - rewrite !(proj2 (Z.ltb_ge _ _)) by lia. done.
  - assert (E4 : (65535 <? raw_steps ap steps) || (raw_steps ap steps <? -65535) = true).
    { destruct (65535 <? raw_steps ap steps) eqn:E5; [done|]. cbool. cbn [orb]. apply Z.ltb_lt. lia. }
    change (- (65535)) with (-65535). rewrite E4. done.
Qed.
End Convert.

(** With either of the two lens profiles, for every 16-bit speed
    and every number of steps, the conversion of a relative move succeeds exactly when
    nothing is to be moved or the speed is in the range of the profile and the distance
    fits the driver's 65535 micro steps; the result is then the speed times the units
    per step and the steps times the units, with the sign of the axis, and both are in
    the range the driver accepts.  The further checks never refuse a move. *)
Theorem conversion_exact `{LensHw D} `{LensKernel D} (s : lc_state D) axis pps steps
  (Hmodel : lens_model (s_active_profile s)) (Haxis : axis = LENS_AXIS_ZOOM \/ axis = LENS_AXIS_FOCUS)
  (Hpps : 0 <= pps <= 65535) :
  let ap := axis_profile_of (s_active_profile s) axis in
  lens_convert_relative axis pps steps true s =
    Ret (if steps =? 0 then (SYS_OK, Some (0, 0))
         else if phys_ok ap pps steps then (SYS_OK, Some (raw_pps ap pps, raw_steps ap steps))
         else (SYS_ERR_OUT_OF_RANGE, None)) s /\
  (phys_ok ap pps steps = true -> steps <> 0 ->
     MS41908M_RAW_PPS_MIN <= raw_pps ap pps <= MS41908M_RAW_PPS_MAX /\ 1 <= Z.abs (raw_steps ap steps) <= 65535).
Proof.
  cbn zeta. split; [by apply convert_eq|]. intros Hok Hn. apply phys_ok_move; [by apply model_axis|done|done].
Qed.

(** ** Calls of the controller in any order *)
Inductive lens_call : Type :=
  | LEnv (e : env_event)
  | LInit
  | LDeinit
  | LConfigure (mode : Z)
  | LSelect (model : Z)
  | LCallback (cb : option Z)
  | LMove (zoom : bool) (pps steps : Z)
  | LDualMove (zoom_pps zoom_steps focus_pps focus_steps : Z)
  | LRunRaw (zoom : bool) (pps steps : Z)
  | LDualRaw (zoom_pps zoom_steps focus_pps focus_steps : Z)
  | LAbsolute (zoom : bool) (pps position : Z)
  | LHome (zoom : bool)
  | LLimit (zoom : bool) (lo hi : Z)
  | LStop (zoom : bool)
  | LWait (zoom : bool) (meanwhile : list env_event) (timeout_ms : Z)
  | LDualWait (meanwhile : list env_event) (timeout_ms : Z)
  | LWaitHome (zoom : bool) (meanwhile : list env_event) (timeout_ms : Z)
  | LReadPi (zoom : bool)
  | LIrisRun
  | LIrisStop
  | LIrisTarget (target : Z)
  | LIrisAdc (adc : bool)
  | LIrcut (level : Z)
  | LIrcutDay
  | LIrcutNight.

Definition pps_ok (pps : Z) : bool := (0 <=? pps) && (pps <=? 65535).
Definition lens_call_ok (c : lens_call) : bool :=
  match c with
  | LMove _ pps _ => pps_ok pps
  | LDualMove zp _ fp _ => pps_ok zp && pps_ok fp
  | LRunRaw _ _ n => steps_ok n
  | LDualRaw _ zn _ fn => steps_ok zn && steps_ok fn
  | LAbsolute _ _ p => position_ok p
  | LLimit _ lo hi => position_ok lo && position_ok hi
  | _ => true
  end.
Definition lens_cost (c : lens_call) : Z :=
  match c with
  | LEnv e => env_cost e
  | LWait _ l _ | LDualWait l _ | LWaitHome _ l _ => envs_cost l
  | _ => 0
  end.
Fixpoint lens_costs (l : list lens_call) : Z := match l with [] => 0 | c :: l => lens_cost c + lens_costs l end.
Lemma lens_cost_nonneg c : 0 <= lens_cost c.
Proof. destruct c; cbn [lens_cost]; try done; try apply envs_cost_nonneg. apply env_cost_nonneg. Qed.
Lemma lens_costs_nonneg l : 0 <= lens_costs l.
Proof. induction l as [|c l IH]; cbn [lens_costs]; [done|]. pose proof (lens_cost_nonneg c). lia. Qed.

Section Calls.
Context `{LensHw D} `{LensKernel D}.
Notation lc := (lc_state D).

Definition do_lens (c : lens_call) : M lc Z :=
  match c with
  | LEnv e => drv (do_env e);; mret 0
  | LInit => lens_controller_init
  | LDeinit => lens_controller_deinit;; mret 0
  | LConfigure mode => lens_controller_configure mode
  | LSelect model => lens_controller_select_profile model
  | LCallback cb => lens_controller_set_event_callback cb;; mret 0
  | LMove z pps n => if z then lens_zoom_move_relative pps n else lens_focus_move_relative pps n
  | LDualMove zp zn fp fn => lens_dual_move_relative zp zn fp fn
  | LRunRaw z pps n => if z then lens_zoom_run_raw pps n else lens_focus_run_raw pps n
  | LDualRaw zp zn fp fn => lens_dual_run_raw zp zn fp fn
  | LAbsolute z pps p => if z then lens_zoom_move_absolute pps p else lens_focus_move_absolute pps p
  | LHome z => if z then lens_zoom_home else lens_focus_home
  | LLimit z lo hi => if z then lens_zoom_set_position_limit lo hi else lens_focus_set_position_limit lo hi
  | LStop z => if z then lens_zoom_stop else lens_focus_stop
  | LWait z l t => if z then lens_zoom_wait (do_envs l) t else lens_focus_wait (do_envs l) t
  | LDualWait l t => lens_dual_wait (do_envs l) t
  | LWaitHome z l t => if z then lens_zoom_wait_home (do_envs l) t else lens_focus_wait_home (do_envs l) t
  | LReadPi z => if z then lens_read_pi_zoom else lens_read_pi_focus
  | LIrisRun => lens_iris_run
  | LIrisStop => lens_iris_stop
  | LIrisTarget t => lens_iris_update_target t
  | LIrisAdc b => '(ret, _) ← lens_iris_read_adc b; mret ret
  | LIrcut level => lens_ircut_set_raw_level level
  | LIrcutDay => lens_ircut_set_day
  | LIrcutNight => lens_ircut_set_night
  end.
Fixpoint do_lenses (l : list lens_call) : M lc unit :=
  match l with [] => mret tt | c :: l => do_lens c;; do_lenses l end.

Lemma calls_gated B cap m : 0 <= B -> free B B m -> calls B B (locked (gated cap (drv m))).
Proof. intros HB Hm. apply calls_locked, body_only, only_gated; [lia|by apply only_drv]. Qed.

(** The parts of [lens_convert_relative]'s result a move uses. *)
Lemma convert_body B (s : lc) axis pps steps : li B s -> axis = LENS_AXIS_ZOOM \/ axis = LENS_AXIS_FOCUS -> pps_ok pps = true ->
  exists ret raw, lens_convert_relative axis pps steps true s = Ret (ret, raw) s /\ steps_ok (snd (default (0, 0) raw)) = true.
Proof.
  intros [Hs _] Hax Hpps. unfold pps_ok in Hpps. cbool.
  pose proof (convert_eq s axis pps steps (li_prof _ _ Hs) Hax ltac:(lia)) as E. cbn zeta in E.
  pose proof (model_axis _ axis (li_prof _ _ Hs)) as Ha.
  destruct (steps =? 0) eqn:E0; [by eexists _, _|]. cbool. destruct (phys_ok _ _ _) eqn:Eok; [|by eexists _, _].
  eexists _, _. split; [exact E|]. cbn. pose proof (phys_ok_move _ _ _ Ha Eok E0) as [_ Hr]. unfold steps_ok.
  rewrite !(proj2 (Z.ltb_lt _ _)) by lia. done.
Qed.

Lemma body_move B axis run pps steps : axis = LENS_AXIS_ZOOM \/ axis = LENS_AXIS_FOCUS -> pps_ok pps = true ->
  (forall p n, steps_ok n = true -> free B B (run p n)) -> calls B B (move_relative axis run pps steps : M lc Z).
Proof.
  intros Hax Hpps Hrun. apply calls_locked. intros s Hs.
  destruct (convert_body B s axis pps steps Hs Hax Hpps) as (ret & raw & E & Hn). rrun E. destruct (_ && _); [|by rstep].
  destruct (default (0, 0) raw) as [rp rs]. eapply (body_only B); [|exact Hs]. apply only_drv. by apply Hrun.
Qed.

Lemma body_dual B zp zn fp fn : 0 <= B -> pps_ok zp = true -> pps_ok fp = true -> calls B B (lens_dual_move_relative zp zn fp fn : M lc Z).
Proof.
  intros HB Hz Hf. apply calls_locked. intros s Hs. unfold gated, caps, lens_profile_get_active. apply returns_bind. rpure. rstep.
  destruct (supports_sync_relative _); [|by rstep].
  destruct (convert_body B s LENS_AXIS_ZOOM zp zn Hs (or_introl eq_refl) Hz) as (r1 & z & E1 & Hn1). rrun E1.
  destruct (negb _); [by rstep|].
  destruct (convert_body B s LENS_AXIS_FOCUS fp fn Hs (or_intror eq_refl) Hf) as (r2 & f & E2 & Hn2). rrun E2.
  destruct (negb _); [by rstep|]. destruct (_ && _); [by rstep|].
  destruct (default (0, 0) z) as [zrp zrs], (default (0, 0) f) as [frp frs].
  eapply (body_only B); [|exact Hs]. apply only_drv. by apply free_sync.
Qed.

(** The infrared filter: level, mode and profile agree after a change. *)
Lemma body_ircut B level : body B B (lens_ircut_set_raw_level_locked level : M lc Z).
Proof.
  intros s Hs. unfold lens_ircut_set_raw_level_locked. rpure. destruct (negb _); [by rstep|]. cbn zeta.
  set (lv := if negb (level =? 0) then 1 else 0). rpure. destruct (_ && _); [by rstep|].
  rcall (li_only B B _ s (only_drv B B _ (free_keeps B _ (keeps_tick B))) Hs). intros now s1 [Hs1 E1].
  unfold lens_elapsed_ms. apply returns_bind.
  rcall (li_only B B _ s1 (only_drv B B _ (free_keeps B _ (safe_gets B (fun s => osKernelGetTickFreq (s_hw s))))) Hs1).
  intros freq s2 [Hs2 E2]. eapply (returns_mono _ (fun _ s' => s' = s2)); [by destruct (freq =? 0); rstep|]. intros el s' ->.
  destruct (_ && _); [by rstep|]. unfold bsp_ctrl_set_ir_cut. cbn zeta. apply returns_bind.
  rcall (li_only B B _ s2 (only_drv B B _ (free_keeps B _ (keeps_hw_do B (HAL_GPIO_WritePin IR_CUT_EN_Pin (negb ((if negb (lv =? 0) then 1 else 0) =? 0)))))) Hs2).
  intros _ s3 [[Hs3 _] E3]. rstep. change (SYS_OK =? SYS_OK) with true. cbn [negb]. rstep.
  destruct Hs3 as [H1 H2 H3 H4 H5 H6]. split; [by constructor|]. intros _. cbn. rewrite E3, E2, E1. cbn. split; [done|].
  unfold lv. destruct (negb _); auto.
Qed.

Lemma calls_then {A C} B B' (m : M lc A) (c : C) : calls B B' m -> calls B B' (m;; mret c).
Proof. intros Hm s Hs Hu. rcall (Hm s Hs Hu). intros _ s1 Hs1. by rstep. Qed.

Lemma calls_read_adc B b : 0 <= B -> calls B B (lens_iris_read_adc b : M lc (Z * option Z)).
Proof.
  intros HB s Hs Hu. unfold lens_iris_read_adc. destruct (negb b); [by rstep|]. revert s Hs Hu.
  apply (calls_lock B (fun ret => mret (ret, None))); [intros; apply only_ret|]. intros s Hs.
  unfold caps, lens_profile_get_active. apply returns_bind. rpure. rstep. destruct (negb _).
  { eapply returns_mono; [by apply (unlock_ret B)|]. by intros ? ? (? & _). }
  rcall (body_only B B _ (only_drv B B _ (free_iris_adc B)) s Hs). intros v s1 Hs1.
  eapply returns_mono; [by apply (unlock_ret B)|]. by intros ? ? (? & _).
Qed.

Lemma calls_adc B b : 0 <= B -> calls B B ('(ret, _) ← lens_iris_read_adc b; mret ret : M lc Z).
Proof. intros HB s Hs Hu. rcall (calls_read_adc B b HB s Hs Hu). intros [ret v] s1 Hs1. by rstep. Qed.

(** A value is delivered with every success. *)
Lemma read_adc_value b (s s' : lc) r v : lens_iris_read_adc b s = Ret (r, v) s' -> r = SYS_OK -> is_Some v.
Proof.
  unfold lens_iris_read_adc. destruct (negb b); [by intros [= <- <- <-]|]. unfold mbind, M_bind.
  destruct (lens_controller_lock s) as [ret s1| | |]; try done. destruct (ret =? SYS_OK) eqn:E; cbn [negb].
  - destruct (caps s1) as [c s2| | |]; try done. destruct (supports_iris c); cbn [negb].
    + destruct (drv _ s2) as [x s3| | |]; try done. destruct (lens_controller_unlock s3); try done.
      intros [= <- <- <-] _. by eexists.
    + destruct (lens_controller_unlock s2); try done. by intros [= <- <- <-].
  - intros [= <- <- <-] ->. by cbn in E.
Qed.

Lemma calls_select B model : 0 <= B -> calls B B (lens_controller_select_profile model : M lc Z).
Proof. intros HB s Hs Hu. eapply returns_mono; [by apply (select_ok B)|]. by intros ? ? [? _]. Qed.

Lemma calls_day_night B (f : lens_profile_t -> Z) :
  calls B B (locked (p ← lens_profile_get_active; lens_ircut_set_raw_level_locked (f p)) : M lc Z).
Proof. apply calls_locked. intros s Hs. rpure. by apply body_ircut. Qed.

(** The driver's part of a call. *)
Ltac driver_call :=
  first [by apply free_run | by apply free_run_to | by apply free_reset | by apply free_limit | by apply free_sync
    | by apply free_iris_target | by apply free_keeps, keeps_iris_run | by apply free_keeps, keeps_iris_stop
    | by apply free_wait_run | by apply free_sync_wait | by apply free_wait_reset | by apply free_keeps, keeps_read_pi].

Lemma lens_call_safe B c : 0 <= B -> B + lens_cost c < bound -> lens_call_ok c = true -> calls B (B + lens_cost c) (do_lens c : M lc Z).
Proof.
  intros HB HC Hok. pose proof (lens_cost_nonneg c).
  assert (HZ : LENS_AXIS_ZOOM = LENS_AXIS_ZOOM \/ LENS_AXIS_ZOOM = LENS_AXIS_FOCUS) by (by left).
  assert (HF : LENS_AXIS_FOCUS = LENS_AXIS_ZOOM \/ LENS_AXIS_FOCUS = LENS_AXIS_FOCUS) by (by right).
  destruct c; cbn [do_lens lens_cost lens_call_ok] in *; rewrite ?Z.add_0_r in *; cbool; repeat case_match;
    first [apply calls_then | idtac];
    first [by apply calls_init | by apply calls_deinit | by apply calls_configure | by apply calls_select
      | by apply calls_callback | by apply body_dual | apply body_move; [done|done|intros; by apply free_run]
      | by apply calls_adc | apply calls_day_night | apply calls_locked, body_ircut
      | solve [apply calls_gated; [done|]; driver_call]
      | apply calls_locked, body_only, only_drv, free_stop
      | solve [apply calls_only, only_drv, free_env; done]
      | solve [apply calls_only, only_drv; driver_call]
      | solve [apply calls_only, only_gated; [lia|]; apply only_drv; driver_call]].
Qed.

Lemma lens_calls_safe l : forall B (s : lc), 0 <= B -> B + lens_costs l < bound -> forallb lens_call_ok l = true -> li B s -> unlocked s ->
  returns (do_lenses l) (fun _ s' => li (B + lens_costs l) s' /\ unlocked s') s.
Proof.
  induction l as [|c l IH]; intros B s HB HC Hok Hs Hu; cbn [do_lenses lens_costs forallb] in *.
  - rstep. by rewrite Z.add_0_r.
  - apply andb_true_iff in Hok as [Hc Hl]. pose proof (lens_cost_nonneg c). pose proof (lens_costs_nonneg l).
    rewrite Z.add_assoc in *. rcall (lens_call_safe B c HB ltac:(lia) Hc s Hs Hu). intros _ s1 [Hs1 Hu1].
    apply IH; [lia|done|done|done|done].
Qed.

Lemma li_boot (d : D) : li 0 (lc0 (ms0 d)).
Proof. split; [|done]. constructor; try done; [apply between_boot|by left]. Qed.
End Calls.

(** C15 [controller_calls_safe]: from power-on, on hardware and a kernel that answer as
    they like, take a sequence of calls of the lens controller, of interrupts and of
    wake-ups of the motor task, with speeds of 16 bits, in which no raw move is by -2^31 micro steps,
    absolute targets and limits are below 2^30 in magnitude, and 510 times the number of
    wake-ups is below 2^30.  It runs to its end without overflow or deadlock, and
    afterwards: the controller's lock is free; the controller believes the driver
    initialised exactly when it is, and then the driver has the application's callback;
    a configured controller is initialised; the profile in force is one of the two; the
    mode of the infrared filter is the meaning its level has in that profile; and the
    driver's own promises hold. *)
Theorem controller_calls_safe `{LensHw D} `{LensKernel D} (d : D) (l : list lens_call)
  (Hargs : forallb lens_call_ok l = true) (Hlen : lens_costs l < bound) :
  returns (do_lenses l) (fun _ s => li (lens_costs l) s /\ unlocked s) (lc0 (ms0 d)).
Proof. apply (lens_calls_safe l 0); [done|done|done|apply li_boot|done]. Qed.

(** C32 [select_profile_all_or_nothing]: whatever the hardware does, a change of the
    profile gives the lock back and either succeeds, with the new profile in force and
    the controller initialised and configured as it was, or fails, with the old profile
    still in force; the callback and the last mode of configuration stay. *)
Theorem select_profile_all_or_nothing `{LensHw D} `{LensKernel D} (s : lc_state D) B model
  (HB : 0 <= B) (Hs : li B s) (Hu : unlocked s) :
  returns (lens_controller_select_profile model) (fun ret s' =>
    li B s' /\ unlocked s' /\ s_event_callback s' = s_event_callback s /\ s_last_config_mode s' = s_last_config_mode s /\
    (if ret =? SYS_OK
     then lens_profile_get model = Some (s_active_profile s') /\
          s_controller_initialized s' = s_controller_initialized s /\ s_controller_configured s' = s_controller_configured s
     else s_active_profile s' = s_active_profile s)) s.
Proof.
  eapply returns_mono; [by apply (select_ok B)|]. intros ret s' [[Hs' Hu'] [[K1 K2] Hp]]. by split_and!.
Qed.

(** ** Moves in physical steps *)
(** A free mutex can be taken, which does not touch the chip. *)
Class LensKernelLaws (D : Type) `{LensHwLaws D} `{LensKernel D} : Prop := {
  acquire_ok_law d : hw_ok d -> exists d', osMutexAcquire d = (true, d') /\ hw_same d d'
}.

Section Moves.
Context `{LensKernelLaws D}.
Notation lc := (lc_state D).
Notation ms := (ms_state D).

Lemma settled_same cb (s : ms) d : settled cb s -> hw_same (s_hw s) d -> settled cb (set_s_hw d s).
Proof.
  intros [[[G1 G2 G3 G4 G5 G6] Hn Hg] Hst Hr Hp] (Ho & R & Mv). constructor; [|done| |done].
  - constructor; [by constructor|done|done].
  - intros ty Hm. cbn. rewrite R. by apply Hr.
Qed.
Lemma moved_by_same ty n (s s' : ms) d : hw_same (s_hw s) d -> moved_by ty n (set_s_hw d s) s' -> moved_by ty n s s'.
Proof. intros (_ & _ & Mv) (E1 & E2 & E3 & E4). unfold moved_by. cbn in E2. rewrite Mv in E2. done. Qed.

(** The lock of a controller whose mutex exists and is free. *)
Lemma lock_runs (s : lc) : hw_ok (s_hw (lc_ms s)) -> s_controller_mutex s = Some false ->
  exists d, hw_same (s_hw (lc_ms s)) d /\
    lens_controller_lock s = Ret SYS_OK (set_s_controller_mutex (Some true) (set_lc_ms (set_s_hw d (lc_ms s)) s)).
Proof.
  intros Hd Em. destruct (acquire_ok_law _ Hd) as (d & Ed & Hs). exists d. split; [done|].
  unfold lens_controller_lock, lens_controller_bootstrap.
  erewrite bind_ret_eq. 2: { erewrite bind_ret_eq by reflexivity. rewrite Em. reflexivity. }
  change (negb (SYS_OK =? SYS_OK)) with false. cbn iota. erewrite bind_ret_eq by reflexivity. rewrite Em.
  erewrite bind_ret_eq. 2: { apply zoom_ret_eq. unfold hw_call. erewrite bind_ret_eq by reflexivity. rewrite Ed. reflexivity. }
  reflexivity.
Qed.

(** An axis argument of a move in physical steps. *)
Definition phys_move (ap : lens_axis_profile_t) (pps steps pos : Z) : Prop :=
  0 <= pps <= 65535 /\ (steps = 0 \/ phys_ok ap pps steps = true /\ in32 (pos + raw_steps ap steps)).

(** The raw move the controller asks the driver for, and its batches. *)
Definition phys_batches (ap : lens_axis_profile_t) (pps steps : Z) : nat :=
  batches (sync_psum (raw_pps ap pps) (Z.abs (raw_steps ap steps))) (raw_steps ap steps).
Lemma phys_raw (s : lc) axis pps steps pos : lens_model (s_active_profile s) -> axis = LENS_AXIS_ZOOM \/ axis = LENS_AXIS_FOCUS ->
  let ap := axis_profile_of (s_active_profile s) axis in
  phys_move ap pps steps pos ->
  exists rp, lens_convert_relative axis pps steps true s = Ret (SYS_OK, Some (rp, raw_steps ap steps)) s /\
    move_ok rp (raw_steps ap steps) pos /\ batches (sync_psum rp (Z.abs (raw_steps ap steps))) (raw_steps ap steps) = phys_batches ap pps steps.
Proof.
  intros Hm Hax ap [Hpps Hst]. pose proof (convert_eq s axis pps steps Hm Hax Hpps) as E. cbn zeta in E.
  pose proof (model_axis _ axis Hm) as Ha. fold ap in E, Ha, Hst |- *. destruct (steps =? 0) eqn:E0; cbool.
  - subst steps. exists 0. split_and!; [exact E|by left|done].
  - destruct Hst as [|[Hok Hin]]; [done|]. rewrite Hok in E. eexists. split; [exact E|]. split; [|done]. right.
    destruct (phys_ok_move _ _ _ Ha Hok E0). done.
Qed.
End Moves.

(** C16 [physical_dual_move]: with either lens, on hardware in working order, both axes at
    rest and the lock free, a simultaneous move in physical steps, with speeds and
    distances in the range of the profile and targets that fit 32 bits, is accepted and
    the lock is free again.  Whatever the order in which the motors then report, in time
    and as [round] describes, the move takes no more rounds than it has batches; while an
    axis runs, a batch is under way whose report is handled; and once both axes are at rest each motor and
    each counter has moved by exactly the physical steps times the units per step of
    the lens, in the direction the profile gives, and each axis that moved reported once. *)
Theorem physical_dual_move `{LensKernelLaws D} cb (s : lc_state D) zp zs fp fs
  (Hsettled : settled cb (lc_ms s)) (Hfree : s_controller_mutex s = Some false) (Hmodel : lens_model (s_active_profile s))
  (Hz : phys_move (p_zoom (s_active_profile s)) zp zs (ax_position (i_zoom (s_instance (lc_ms s)))))
  (Hf : phys_move (p_focus (s_active_profile s)) fp fs (ax_position (i_focus (s_instance (lc_ms s)))))
  (Hsome : zs <> 0 \/ fs <> 0) :
  let zn := raw_steps (p_zoom (s_active_profile s)) zs in
  let fn := raw_steps (p_focus (s_active_profile s)) fs in
  exists s1, lens_dual_move_relative zp zs fp fs s = Ret SYS_OK s1 /\ s_controller_mutex s1 = Some false /\
    forall k m2, nsteps round k (lc_ms s1) m2 ->
      (k <= phys_batches (p_zoom (s_active_profile s)) zp zs + phys_batches (p_focus (s_active_profile s)) fp fs)%nat /\
      (at_rest m2 -> ready cb m2 /\ moved_by MS41908M_TYPE_ZOOM zn (lc_ms s) m2 /\ moved_by MS41908M_TYPE_FOCUS fn (lc_ms s) m2) /\
      (~ at_rest m2 -> in_time m2 -> exists m3, round m2 m3).
Proof.
  cbn zeta. destruct (lock_runs s (bs_hw _ _ _ (rd_base _ _ (st_ready _ _ Hsettled))) Hfree) as (d & Hd & El).
  set (s0 := set_s_controller_mutex (Some true) (set_lc_ms (set_s_hw d (lc_ms s)) s)) in *.
  destruct (phys_raw s0 LENS_AXIS_ZOOM zp zs (ax_position (i_zoom (s_instance (lc_ms s)))) Hmodel (or_introl eq_refl) Hz) as (rz & Ez & Mz & Bz).
  destruct (phys_raw s0 LENS_AXIS_FOCUS fp fs (ax_position (i_focus (s_instance (lc_ms s)))) Hmodel (or_intror eq_refl) Hf) as (rf & Ef & Mf & Bf).
  change (axis_profile_of (s_active_profile s0) LENS_AXIS_ZOOM) with (p_zoom (s_active_profile s)) in *.
  change (axis_profile_of (s_active_profile s0) LENS_AXIS_FOCUS) with (p_focus (s_active_profile s)) in *.
  destruct (dual_move cb (lc_ms s0) _ _ _ _ (settled_same cb _ d Hsettled Hd) Mz Mf) as (m1 & Em & Hrun).
  exists (set_s_controller_mutex (Some false) (set_lc_ms m1 s0)). split; [|split; [|intros k m2 Hk; destruct (Hrun k m2 Hk) as (Hk1 & Hk2 & Hk3); split_and!]].
  - unfold lens_dual_move_relative, locked. erewrite bind_ret_eq by exact El. change (negb (SYS_OK =? SYS_OK)) with false. cbn iota.
    rewrite (bind_ret_eq _ _ _ SYS_OK (set_lc_ms m1 s0)); [reflexivity|]. unfold gated, caps, lens_profile_get_active.
    erewrite bind_ret_eq by (erewrite bind_ret_eq by reflexivity; reflexivity).
    replace (supports_sync_relative (capabilities (s_active_profile s0))) with true by (destruct (model_cases _ Hmodel) as [E|E]; cbn; rewrite E; done).
    cbn iota. erewrite bind_ret_eq by exact Ez. cbn beta iota. change (negb (SYS_OK =? SYS_OK)) with false. cbn iota.
    erewrite bind_ret_eq by exact Ef. cbn beta iota. change (negb (SYS_OK =? SYS_OK)) with false. cbn iota.
    replace ((zs =? 0) && (fs =? 0)) with false by (destruct Hsome; symmetry; apply andb_false_iff; rewrite !Z.eqb_neq; auto).
    cbn [default]. cbn iota beta. exact (zoom_ret_eq lc_ms set_lc_ms _ s0 SYS_OK m1 Em).
  - done.
  - rewrite <- Bz, <- Bf. exact Hk1.
  - intros Hr. destruct (Hk2 Hr) as (? & ? & ?). split_and!; [done|by eapply moved_by_same|by eapply moved_by_same].
  - done.
Qed.
