(* ===== verification/LensWitness.v ===== *)
(** The lens controller on the bench. *)
From stdpp Require Import relations.
From S2P Require Import Prelude Ms41908mReg Ms41908m Ms41908mPort Ms41908mRun Ms41908mRounds.
From S2P Require Import Ms41908mStart Ms41908mProps Ms41908mSafe Ms41908mCalls Ms41908mWitness LensController LensInv LensProps.

#[export] Instance bench_kernel : LensKernel bench := {
  osMutexNew d := b_pop d;
  osMutexAcquire d := b_pop d;
  osKernelGetTickFreq _ := 1000
}.
#[export] Instance bench_kernel_laws : LensKernelLaws bench.
Proof. constructor. intros d Hf. destruct d as [r q [|] t f z]; [|done]. eexists. split; [reflexivity|]. done. Qed.

(** The state a run ends in. *)
Definition final {S A} (m : M S A) (s : S) : S := match m s with Ret _ s' => s' | _ => s end.
Lemma final_ok {S A} (m : M S A) (Q : A -> S -> Prop) s : returns m Q s -> exists a, Q a (final m s).
Proof. unfold returns, final. destruct (m s); naive_solver. Qed.

Definition lens_up : lc_state bench :=
  final (do_lenses [LCallback (Some 7); LSelect LENS_MODEL_FG2009; LInit; LConfigure LENS_CONFIG_ALL]) (lc0 (ms0 bench0)).

Lemma lens_up_li : li 0 lens_up /\ unlocked lens_up.
Proof.
  pose proof (lens_calls_safe [LCallback (Some 7); LSelect LENS_MODEL_FG2009; LInit; LConfigure LENS_CONFIG_ALL] 0
    (lc0 (ms0 bench0)) ltac:(done) ltac:(done) ltac:(done) (li_boot bench0) ltac:(done)) as R.
  apply final_ok in R as [_ R]. exact R.
Qed.

Lemma lens_up_settled : settled 7 (lc_ms lens_up).
Proof.
  constructor; [apply (bench_ready 7 (lc_ms lens_up) 0); bt|..]; intros [] Hm; first [by destruct Hm | bt].
Qed.

Lemma conversion_exact_witness :
  let ap := axis_profile_of (s_active_profile lens_up) LENS_AXIS_FOCUS in
  lens_convert_relative LENS_AXIS_FOCUS 600 100 true lens_up =
    Ret (if 100 =? 0 then (SYS_OK, Some (0, 0))
         else if phys_ok ap 600 100 then (SYS_OK, Some (raw_pps ap 600, raw_steps ap 100))
         else (SYS_ERR_OUT_OF_RANGE, None)) lens_up /\
  (phys_ok ap 600 100 = true -> 100 <> 0 ->
     MS41908M_RAW_PPS_MIN <= raw_pps ap 600 <= MS41908M_RAW_PPS_MAX /\ 1 <= Z.abs (raw_steps ap 100) <= 65535).
Proof. apply (conversion_exact lens_up LENS_AXIS_FOCUS 600 100); [vm_compute; reflexivity|by right|lia]. Defined.

(** A focus move of 100 steps turns the motor 800 micro steps the other way. *)
Example fg2009_focus_reversed : raw_steps (p_focus (s_active_profile lens_up)) 100 = -800.
Proof. vm_compute. reflexivity. Qed.

Lemma physical_dual_move_witness :
  let zn := raw_steps (p_zoom (s_active_profile lens_up)) 50 in
  let fn := raw_steps (p_focus (s_active_profile lens_up)) 100 in
  exists s1, lens_dual_move_relative 600 50 700 100 lens_up = Ret SYS_OK s1 /\ s_controller_mutex s1 = Some false /\
    forall k m2, nsteps round k (lc_ms s1) m2 ->
      (k <= phys_batches (p_zoom (s_active_profile lens_up)) 600 50 + phys_batches (p_focus (s_active_profile lens_up)) 700 100)%nat /\
      (at_rest m2 -> ready 7 m2 /\ moved_by MS41908M_TYPE_ZOOM zn (lc_ms lens_up) m2 /\ moved_by MS41908M_TYPE_FOCUS fn (lc_ms lens_up) m2) /\
      (~ at_rest m2 -> in_time m2 -> exists m3, round m2 m3).
Proof.
  apply (physical_dual_move 7 lens_up 600 50 700 100);
    [exact lens_up_settled|bt|vm_compute; reflexivity|split; [lia|right; split; bt]|split; [lia|right; split; bt]|by left].
Defined.

(** A bench on which the bus fails while the new profile is being configured. *)
Definition with_hw (d : bench) (s : lc_state bench) : lc_state bench := set_lc_ms (set_s_hw d (lc_ms s)) s.
Lemma with_hw_li B d s : li B s /\ unlocked s -> li B (with_hw d s) /\ unlocked (with_hw d s).
Proof.
  intros [[[[Hs H1 H2 H3 H4] ? ? ? ? ?] Hir] Hu]. split; [|exact Hu]. split; [|exact Hir].
  constructor; try done. constructor; try done. by apply safe_hw.
Qed.
Definition flaky : lc_state bench :=
  with_hw (mkBench (b_regs (s_hw (lc_ms lens_up))) (b_pins (s_hw (lc_ms lens_up))) (replicate 10 false ++ replicate 3 true) 0 0 0) lens_up.
Lemma flaky_li : li 0 flaky /\ unlocked flaky.
Proof. apply with_hw_li, lens_up_li. Qed.

Lemma select_profile_all_or_nothing_witness :
  returns (lens_controller_select_profile LENS_MODEL_AF0832) (fun ret s' =>
    li 0 s' /\ unlocked s' /\ s_event_callback s' = s_event_callback flaky /\ s_last_config_mode s' = s_last_config_mode flaky /\
    (if ret =? SYS_OK
     then lens_profile_get LENS_MODEL_AF0832 = Some (s_active_profile s') /\
          s_controller_initialized s' = s_controller_initialized flaky /\ s_controller_configured s' = s_controller_configured flaky
     else s_active_profile s' = s_active_profile flaky)) flaky.
Proof. apply (select_profile_all_or_nothing flaky 0 LENS_MODEL_AF0832); [lia|exact (proj1 flaky_li)|exact (proj2 flaky_li)]. Defined.

(** The change fails here and the old profile is back, initialised and configured. *)
Example flaky_rolls_back :
  let s := final (lens_controller_select_profile LENS_MODEL_AF0832) flaky in
  p_model (s_active_profile s) = LENS_MODEL_FG2009.
Proof. vm_compute. reflexivity. Qed.

Definition lens_calls_sample : list lens_call :=
  [LSelect LENS_MODEL_FG2009; LInit; LConfigure LENS_CONFIG_ALL; LDualMove 600 50 700 100; LHome true; LIrcutDay;
   LDualWait [EIrq PLS1_Pin; ETask [PLS2_Pin] []] 1000; LSelect LENS_MODEL_AF0832; LStop true; LDeinit].
Lemma controller_calls_safe_witness :
  returns (do_lenses lens_calls_sample) (fun _ s => li (lens_costs lens_calls_sample) s /\ unlocked s) (lc0 (ms0 shaky)).
Proof. apply (controller_calls_safe shaky lens_calls_sample); vm_compute; reflexivity. Defined.
