(* ===== verification/BspCtrl.v ===== *)
(** Board control ([app/Custom/Components/bsp_ctrl/bsp_ctrl.c] and [bsp_ctrl.h]): the
    lamps, the outputs and inputs of the board, the two analogue channels, the alarm
    task and the interrupt callbacks.  The infrared filter pin is modelled with the lens
    controller, which drives it.

    The timers, pins, the converter and the kernel are the class [BspHw].  Interrupts
    and transfers of the DMA happen while a task waits: [meanwhile] is what the
    environment does during one wait.  Lamps and channels are integers, as the host
    sends them. *)
From Stdlib Require Import SpecFloat.
From S2P Require Import Prelude Ms41908mReg.

Definition BSP_EVENT_ADC_HALF_COMPLETE : Z := 1.
Definition BSP_EVENT_ADC_COMPLETE : Z := 2.
Definition BSP_EVENT_ADC_ERROR : Z := 4.
Definition BSP_EVENT_ADC_ALL_BITS : Z := 7.
Definition BSP_EVENT_ALARM_IN0_RISING : Z := 8.
Definition BSP_EVENT_ALARM_IN0_FALLING : Z := 16.
Definition BSP_EVENT_ALARM_IN0_ALL_BITS : Z := 24.
Definition BSP_EVENT_ALARM_IN1_RISING : Z := 32.
Definition BSP_EVENT_ALARM_IN1_FALLING : Z := 64.
Definition BSP_EVENT_ALARM_IN1_ALL_BITS : Z := 96.
Definition BSP_EVENT_ALARM_IN_ALL_BITS : Z := 120.

Definition BSP_ADC_BUFFER_SIZE_MAX : Z := 40.
Definition BSP_ADC_REF_VOLTAGE_MV : Z := 3300.
Definition BSP_ALARM_OUT0_INVERT : Z := 0.
Definition BSP_ALARM_OUT1_INVERT : Z := 1.
Definition BSP_WIEGAND0_INVERT : Z := 1.
Definition BSP_WIEGAND1_INVERT : Z := 1.
Definition BSP_ALARM_IN0_INVERT : Z := 1.
Definition BSP_ALARM_IN1_INVERT : Z := 1.

Definition BSP_LED_IR_NEAR : Z := 0.
Definition BSP_LED_IR_FAR : Z := 1.
Definition BSP_LED_WHITE2 : Z := 2.
Definition BSP_LED_WHITE1 : Z := 3.
Definition BSP_LED_IR1 : Z := 4.
Definition BSP_LED_MAX : Z := 5.
Definition BSP_ALARM_IN0 : Z := 0.
Definition BSP_ALARM_IN1 : Z := 1.
Definition BSP_ALARM_IN_MAX : Z := 2.
Definition BSP_ALARM_OUT0 : Z := 0.
Definition BSP_ALARM_OUT1 : Z := 1.
Definition BSP_ALARM_OUT_MAX : Z := 2.
Definition BSP_WIEGAND0 : Z := 0.
Definition BSP_WIEGAND1 : Z := 1.
Definition BSP_WIEGAND_MAX : Z := 2.

(** Pins of [main.h] that [bsp_ctrl.c] uses, and the channels of the two timers. *)
Inductive bsp_pin : Type :=
| WLED_EN_Pin | RLED_EN_Pin | FAN_EN_Pin | HEAT_EN_Pin | RADAR_EN_Pin | ALARM_OUT0_Pin | ALARM_OUT1_Pin
| WIEGAND_OUT0_Pin | WIEGAND_OUT1_Pin | ALARM_IN0_Pin | ALARM_IN1_Pin | PWR_RST_Pin.
#[export] Instance bsp_pin_eq : EqDecision bsp_pin.
Proof. solve_decision. Defined.

Inductive pwm_channel : Type := TIM1_CH1 | TIM1_CH2 | TIM3_CH2 | TIM3_CH1.
#[export] Instance pwm_channel_eq : EqDecision pwm_channel.
Proof. solve_decision. Defined.

Inductive adc_call : Type :=
| AdcDeInit | AdcInitSingle | AdcConfigVrefint | AdcCalibrate | AdcStart | AdcPoll | AdcStop | AdcStopDma | AdcRestore.

(** What the environment does while a task waits: the DMA stores a sample, or an
    interrupt comes. *)
Inductive bsp_event : Type :=
| DmaSample (i : nat) (v : Z) | ConvCplt | AdcError | AlarmEdge (pin : bsp_pin) (rising : bool).

(** [true] is [HAL_OK], [pdPASS] or a handle that is not [NULL]. *)
Class BspHw (D : Type) : Type := {
  HAL_TIM_PWM_Start : pwm_channel -> D -> bool * D;
  HAL_TIM_PWM_Stop : pwm_channel -> D -> bool * D;
  TIM_SET_COMPARE : pwm_channel -> Z -> D -> D;
  TIM_GET_AUTORELOAD : pwm_channel -> D -> Z;
  channel_busy : pwm_channel -> D -> bool;
  write_pin : bsp_pin -> bool -> D -> D;
  read_pin : bsp_pin -> D -> bool;
  adc_hal : adc_call -> D -> bool * D;
  adc_start_dma : D -> bool * D;
  HAL_ADC_GetValue : D -> Z;
  VREFINT_CAL : D -> Z;
  HAL_Delay : Z -> D -> D;
  create_event_group : D -> bool * D;
  create_task : D -> bool * D;
  meanwhile : Z -> D -> list bsp_event * D
}.

(** Static variables of [bsp_ctrl.c], the hardware, and the calls made of the alarm
    callbacks (callback, input, level).  A callback is an identifier. *)
Record bsp_state (D : Type) : Type := mkBsp {
  s_led_duty : list Z;
  s_adc_buffer : list Z;
  s_adc_vdda_mv : Z;
  bsp_event_group : option Z;
  s_alarm_in_callback : list (option Z);
  bsp_hw : D;
  alarm_calls : list (Z * Z * Z)
}.
Arguments mkBsp {D}.
Arguments s_led_duty {D}.
Arguments s_adc_buffer {D}.
Arguments s_adc_vdda_mv {D}.
Arguments bsp_event_group {D}.
Arguments s_alarm_in_callback {D}.
Arguments bsp_hw {D}.
Arguments alarm_calls {D}.

Definition set_s_led_duty {D} (v : list Z) (s : bsp_state D) : bsp_state D :=
  mkBsp v (s_adc_buffer s) (s_adc_vdda_mv s) (bsp_event_group s) (s_alarm_in_callback s) (bsp_hw s) (alarm_calls s).
Definition set_s_adc_buffer {D} (v : list Z) (s : bsp_state D) : bsp_state D :=
  mkBsp (s_led_duty s) v (s_adc_vdda_mv s) (bsp_event_group s) (s_alarm_in_callback s) (bsp_hw s) (alarm_calls s).
Definition set_s_adc_vdda_mv {D} (v : Z) (s : bsp_state D) : bsp_state D :=
  mkBsp (s_led_duty s) (s_adc_buffer s) v (bsp_event_group s) (s_alarm_in_callback s) (bsp_hw s) (alarm_calls s).
Definition set_bsp_event_group {D} (v : option Z) (s : bsp_state D) : bsp_state D :=
  mkBsp (s_led_duty s) (s_adc_buffer s) (s_adc_vdda_mv s) v (s_alarm_in_callback s) (bsp_hw s) (alarm_calls s).
Definition set_s_alarm_in_callback {D} (v : list (option Z)) (s : bsp_state D) : bsp_state D :=
  mkBsp (s_led_duty s) (s_adc_buffer s) (s_adc_vdda_mv s) (bsp_event_group s) v (bsp_hw s) (alarm_calls s).
Definition set_bsp_hw {D} (v : D) (s : bsp_state D) : bsp_state D :=
  mkBsp (s_led_duty s) (s_adc_buffer s) (s_adc_vdda_mv s) (bsp_event_group s) (s_alarm_in_callback s) v (alarm_calls s).
Definition set_alarm_calls {D} (v : list (Z * Z * Z)) (s : bsp_state D) : bsp_state D :=
  mkBsp (s_led_duty s) (s_adc_buffer s) (s_adc_vdda_mv s) (bsp_event_group s) (s_alarm_in_callback s) (bsp_hw s) v.

(** The state at power-on. *)
Definition bsp_power_on {D} (d : D) : bsp_state D :=
  mkBsp (replicate 5 0) (replicate 40 0) BSP_ADC_REF_VOLTAGE_MV None (replicate 2 None) d [].

Definition bit_set (ev bits : Z) : bool := negb (Z.land ev bits =? 0).

(** ** Levels *)
Definition bsp_ctrl_apply_invert (level invert : Z) : Z :=
  if negb (invert =? 0) then (if negb (level =? 0) then 0 else 1) else level.
Definition bsp_ctrl_get_alarm_out_invert_flag (out : Z) : Z :=
  if out =? BSP_ALARM_OUT1 then BSP_ALARM_OUT1_INVERT else BSP_ALARM_OUT0_INVERT.
Definition bsp_ctrl_get_wiegand_invert_flag (wiegand : Z) : Z :=
  if wiegand =? BSP_WIEGAND1 then BSP_WIEGAND1_INVERT else BSP_WIEGAND0_INVERT.
Definition bsp_ctrl_get_alarm_in_invert_flag (i : Z) : Z :=
  if i =? BSP_ALARM_IN1 then BSP_ALARM_IN1_INVERT else BSP_ALARM_IN0_INVERT.

Section Board.
Context `{BspHw D}.
Notation bsp := (bsp_state D).

Definition bhw_do (f : D -> D) : M bsp unit := modify (fun s => set_bsp_hw (f (bsp_hw s)) s).
Definition bhw_call {A} (f : D -> A * D) : M bsp A :=
  d ← gets bsp_hw;
  let '(a, d') := f d in
  modify (set_bsp_hw d');;
  mret a.

(** ** Interrupt callbacks

    Setting bits of a group that was never created dereferences [NULL]. *)
Definition set_event_bits (bits : Z) : M bsp unit :=
  g ← gets bsp_event_group;
  match g with
  | Some b => modify (set_bsp_event_group (Some (Z.lor b bits)))
  | None => undef
  end.

Definition HAL_ADC_ConvCpltCallback : M bsp unit :=
  bhw_call (adc_hal AdcStopDma);;
  set_event_bits BSP_EVENT_ADC_COMPLETE.

Definition HAL_ADC_ErrorCallback : M bsp unit :=
  bhw_call (adc_hal AdcStopDma);;
  set_event_bits BSP_EVENT_ADC_ERROR.

Definition HAL_GPIO_EXTI_Rising_Callback (pin : bsp_pin) : M bsp unit :=
  if bool_decide (pin = ALARM_IN0_Pin) then set_event_bits BSP_EVENT_ALARM_IN0_RISING
  else if bool_decide (pin = ALARM_IN1_Pin) then set_event_bits BSP_EVENT_ALARM_IN1_RISING
  else mret tt.

(** The branches of the alarm inputs; the other pins belong to the lens driver. *)
Definition falling_alarm (pin : bsp_pin) : M bsp unit :=
  if bool_decide (pin = ALARM_IN0_Pin) then
    g ← gets bsp_event_group;
    if bool_decide (g = None) then mret tt else set_event_bits BSP_EVENT_ALARM_IN0_FALLING
  else if bool_decide (pin = ALARM_IN1_Pin) then
    g ← gets bsp_event_group;
    if bool_decide (g = None) then mret tt else set_event_bits BSP_EVENT_ALARM_IN1_FALLING
  else mret tt.

Definition bsp_happen (e : bsp_event) : M bsp unit :=
  match e with
  | DmaSample i v => modify (fun s => set_s_adc_buffer (<[i := v]> (s_adc_buffer s)) s)
  | ConvCplt => HAL_ADC_ConvCpltCallback
  | AdcError => HAL_ADC_ErrorCallback
  | AlarmEdge pin true => HAL_GPIO_EXTI_Rising_Callback pin
  | AlarmEdge pin false => falling_alarm pin
  end.

Fixpoint bsp_happens (es : list bsp_event) : M bsp unit :=
  match es with
  | [] => mret tt
  | e :: es => bsp_happen e;; bsp_happens es
  end.

(** [xEventGroupWaitBits(s_event_group, bits, pdTRUE, pdFALSE, ..)]. *)
Definition wait_bits (bits : Z) : M bsp Z :=
  g ← gets bsp_event_group;
  match g with
  | None => undef
  | Some b0 =>
      (if bit_set b0 bits then mret tt else es ← bhw_call (meanwhile bits); bsp_happens es);;
      g ← gets bsp_event_group;
      match g with
      | None => undef
      | Some b =>
          (if bit_set b bits then modify (set_bsp_event_group (Some (Z.ldiff b bits))) else mret tt);;
          mret b
      end
  end.

(** ** The converter *)
Definition calc_vdda (cal raw : Z) : M bsp Z :=
  if u16 raw =? 0 then undef else mret (cal *u 3000 / u16 raw).

(** The body of [do { .. } while (0)]: the calls up to the first that fails. *)
Definition measure_vdda : M bsp Z :=
  ok ← bhw_call (adc_hal AdcDeInit);
  if negb ok : bool then mret 0
  else ok ← bhw_call (adc_hal AdcInitSingle);
  if negb ok : bool then mret 0
  else ok ← bhw_call (adc_hal AdcConfigVrefint);
  if negb ok : bool then mret 0
  else bhw_do (HAL_Delay 2);;
  ok ← bhw_call (adc_hal AdcCalibrate);
  if negb ok : bool then mret 0
  else ok ← bhw_call (adc_hal AdcStart);
  if negb ok : bool then mret 0
  else ok ← bhw_call (adc_hal AdcPoll);
  if negb ok : bool then bhw_call (adc_hal AdcStop);; mret 0
  else
    vref_raw ← gets (fun s => HAL_ADC_GetValue (bsp_hw s));
    bhw_call (adc_hal AdcStop);;
    cal ← gets (fun s => VREFINT_CAL (bsp_hw s));
    calc_vdda cal vref_raw.

Definition bsp_ctrl_adc_init_vdda_from_vrefint : M bsp unit :=
  bhw_call (adc_hal AdcStopDma);;
  vdda_mv ← measure_vdda;
  bhw_call (adc_hal AdcDeInit);;
  bhw_call (adc_hal AdcRestore);;
  (if (2500 <=? vdda_mv) && (vdda_mv <=? 3800) then modify (set_s_adc_vdda_mv vdda_mv)
   else modify (set_s_adc_vdda_mv BSP_ADC_REF_VOLTAGE_MV));;
  bhw_call (adc_hal AdcCalibrate);;
  mret tt.

(** The loop over the pairs of samples: both sums, [int] values. *)
Fixpoint sum_pairs (l : list Z) : Z * Z :=
  match l with
  | a :: b :: l => let '(x, y) := sum_pairs l in (a + x, b + y)
  | _ => (0, 0)
  end.

Definition bsp_ctrl_read_adc : M bsp (Z * option (Z * Z)) :=
  ok ← bhw_call adc_start_dma;
  if negb ok : bool then mret (SYS_ERR_HAL, None)
  else
    event_bits ← wait_bits BSP_EVENT_ADC_ALL_BITS;
    if bit_set event_bits BSP_EVENT_ADC_ERROR then mret (SYS_ERR_HAL, None)
    else if negb (bit_set event_bits BSP_EVENT_ADC_COMPLETE) then
      bhw_call (adc_hal AdcStopDma);; mret (SYS_ERR_TIMEOUT, None)
    else
      buf ← gets s_adc_buffer;
      let '(all_value1, all_value2) := sum_pairs buf in
      mret (SYS_OK, Some (all_value1 ÷ (BSP_ADC_BUFFER_SIZE_MAX ÷ 2), all_value2 ÷ (BSP_ADC_BUFFER_SIZE_MAX ÷ 2))).

(** [__HAL_ADC_CALC_DATA_TO_VOLTAGE] at 12 bits, then the clamp to 16 bits. *)
Definition raw_to_mv (vdda raw : Z) : Z :=
  let raw := if raw <? 0 then 0 else raw in
  let mv := raw *u vdda / 4095 in
  u16 (if 65535 <? mv then 65535 else mv).

Definition bsp_ctrl_get_pd_voltage_mv : M bsp Z :=
  '(r, v) ← bsp_ctrl_read_adc;
  match v with
  | Some (pd_raw, _) => vdda ← gets s_adc_vdda_mv; mret (raw_to_mv vdda pd_raw)
  | None => mret 0
  end.

Definition bsp_ctrl_get_temp_voltage_mv : M bsp Z :=
  '(r, v) ← bsp_ctrl_read_adc;
  match v with
  | Some (_, temp_raw) => vdda ← gets s_adc_vdda_mv; mret (raw_to_mv vdda temp_raw)
  | None => mret 0
  end.

(** ** Start and alarm task *)
Definition bsp_ctrl_init : M bsp Z :=
  modify (set_s_led_duty (replicate (Z.to_nat BSP_LED_MAX) 0));;
  bsp_ctrl_adc_init_vdda_from_vrefint;;
  ok ← bhw_call create_event_group;
  if negb ok : bool then modify (set_bsp_event_group None);; mret SYS_ERR_NO_MEM
  else
    modify (set_bsp_event_group (Some 0));;
    ok ← bhw_call create_task;
    mret (if ok : bool then SYS_OK else SYS_ERR_NO_MEM).

Definition alarm_notify (i event_bits all rising : Z) : M bsp unit :=
  if bit_set event_bits all then
    cbs ← gets s_alarm_in_callback;
    match mjoin (cbs !! Z.to_nat i) with
    | Some cb =>
        let level := bsp_ctrl_apply_invert (b2z (bit_set event_bits rising)) (bsp_ctrl_get_alarm_in_invert_flag i) in
        modify (fun s => set_alarm_calls (alarm_calls s ++ [(cb, i, level)]) s)
    | None => mret tt
    end
  else mret tt.

(** One round of the loop of [bsp_ctrl_task]. *)
Definition bsp_ctrl_task_round : M bsp unit :=
  event_bits ← wait_bits BSP_EVENT_ALARM_IN_ALL_BITS;
  alarm_notify BSP_ALARM_IN0 event_bits BSP_EVENT_ALARM_IN0_ALL_BITS BSP_EVENT_ALARM_IN0_RISING;;
  alarm_notify BSP_ALARM_IN1 event_bits BSP_EVENT_ALARM_IN1_ALL_BITS BSP_EVENT_ALARM_IN1_RISING.

(** ** Lamps

    Reading [s_led_duty] outside the array is undefined. *)
Definition led_duty_at (led : Z) : M bsp Z :=
  l ← gets s_led_duty;
  if (0 <=? led) && (led <? BSP_LED_MAX) then mret (nthz l led) else undef.
Definition put_led_duty (led duty : Z) : M bsp unit :=
  modify (fun s => set_s_led_duty (<[Z.to_nat led := duty]> (s_led_duty s)) s).

Definition led_channel (led : Z) : option pwm_channel :=
  if led =? BSP_LED_IR_NEAR then Some TIM1_CH1
  else if led =? BSP_LED_IR_FAR then Some TIM1_CH2
  else if led =? BSP_LED_WHITE2 then Some TIM3_CH2
  else if (led =? BSP_LED_WHITE1) || (led =? BSP_LED_IR1) then Some TIM3_CH1
  else None.

Definition led_pulse (period duty : Z) : Z := (period +u 1) *u duty / 100.

Definition led_stop (led : Z) (ch : pwm_channel) : M bsp Z :=
  ok ← bhw_call (HAL_TIM_PWM_Stop ch);
  if negb ok : bool then mret SYS_ERR_HAL
  else
    bhw_do (TIM_SET_COMPARE ch 0);;
    put_led_duty led 0;;
    mret SYS_OK.

(** The branch that lights a lamp. *)
Definition led_light (led duty : Z) (ch : pwm_channel) : M bsp Z :=
  period ← gets (fun s => TIM_GET_AUTORELOAD ch (bsp_hw s));
  bhw_do (TIM_SET_COMPARE ch (led_pulse period duty));;
  busy ← gets (fun s => channel_busy ch (bsp_hw s));
  ok ← (if negb busy : bool then bhw_call (HAL_TIM_PWM_Start ch) else mret true);
  if negb ok : bool then mret SYS_ERR_HAL
  else
    put_led_duty led duty;;
    (if led =? BSP_LED_WHITE1 then
       bhw_do (write_pin WLED_EN_Pin true);; put_led_duty BSP_LED_IR1 duty
     else if led =? BSP_LED_IR1 then
       bhw_do (write_pin RLED_EN_Pin true);; put_led_duty BSP_LED_WHITE1 duty
     else mret tt);;
    mret SYS_OK.

Definition bsp_ctrl_set_led_duty (led duty : Z) : M bsp Z :=
  let duty := if 100 <? duty then 100 else duty in
  cur ← led_duty_at led;
  if duty =? cur then mret SYS_OK
  else
    match led_channel led with
    | None => mret SYS_ERR_INVALID_ARG
    | Some ch =>
        if duty =? 0 then
          if (led =? BSP_LED_WHITE1) || (led =? BSP_LED_IR1) then
            ir1 ← led_duty_at BSP_LED_IR1;
            white1 ← led_duty_at BSP_LED_WHITE1;
            if ((led =? BSP_LED_WHITE1) && (ir1 =? 0)) || ((led =? BSP_LED_IR1) && (white1 =? 0)) then led_stop led ch
            else
              (if led =? BSP_LED_WHITE1 then bhw_do (write_pin WLED_EN_Pin false)
               else bhw_do (write_pin RLED_EN_Pin false));;
              mret SYS_OK
          else led_stop led ch
        else
          led_light led duty ch
    end.

Definition bsp_ctrl_get_led_duty (led : Z) : M bsp Z :=
  if BSP_LED_MAX <=? led then mret 0 else led_duty_at led.

(** ** Outputs and inputs *)
Definition pin_level (pin : bsp_pin) : M bsp Z := gets (fun s => b2z (read_pin pin (bsp_hw s))).

Definition bsp_ctrl_set_fan_duty (duty : Z) : M bsp Z :=
  let duty := if 100 <? duty then 100 else duty in
  bhw_do (write_pin FAN_EN_Pin (negb (duty =? 0)));;
  mret SYS_OK.
Definition bsp_ctrl_get_fan_duty : M bsp Z :=
  gets (fun s => if read_pin FAN_EN_Pin (bsp_hw s) then 100 else 0).
Definition bsp_ctrl_set_heat_duty (duty : Z) : M bsp Z :=
  let duty := if 100 <? duty then 100 else duty in
  bhw_do (write_pin HEAT_EN_Pin (negb (duty =? 0)));;
  mret SYS_OK.
Definition bsp_ctrl_get_heat_duty : M bsp Z :=
  gets (fun s => if read_pin HEAT_EN_Pin (bsp_hw s) then 100 else 0).
Definition bsp_ctrl_set_radar_en (enable : Z) : M bsp Z :=
  bhw_do (write_pin RADAR_EN_Pin (negb (enable =? 0)));;
  mret SYS_OK.
Definition bsp_ctrl_get_radar_en : M bsp Z := pin_level RADAR_EN_Pin.

Definition alarm_out_pin (out : Z) : option bsp_pin :=
  if out =? BSP_ALARM_OUT0 then Some ALARM_OUT0_Pin else if out =? BSP_ALARM_OUT1 then Some ALARM_OUT1_Pin else None.
Definition bsp_ctrl_set_alarm_out (out enable : Z) : M bsp Z :=
  if BSP_ALARM_OUT_MAX <=? out then mret SYS_ERR_INVALID_ARG
  else
    let enable := bsp_ctrl_apply_invert (b2z (negb (enable =? 0))) (bsp_ctrl_get_alarm_out_invert_flag out) in
    match alarm_out_pin out with
    | None => mret SYS_ERR_INVALID_ARG
    | Some pin => bhw_do (write_pin pin (negb (enable =? 0)));; mret SYS_OK
    end.
Definition bsp_ctrl_get_alarm_out (out : Z) : M bsp Z :=
  if BSP_ALARM_OUT_MAX <=? out then mret 0
  else
    match alarm_out_pin out with
    | None => mret 0
    | Some pin => l ← pin_level pin; mret (bsp_ctrl_apply_invert l (bsp_ctrl_get_alarm_out_invert_flag out))
    end.

Definition wiegand_pin (wiegand : Z) : option bsp_pin :=
  if wiegand =? BSP_WIEGAND0 then Some WIEGAND_OUT0_Pin
  else if wiegand =? BSP_WIEGAND1 then Some WIEGAND_OUT1_Pin else None.
Definition bsp_ctrl_set_wiegand (wiegand enable : Z) : M bsp Z :=
  if BSP_WIEGAND_MAX <=? wiegand then mret SYS_ERR_INVALID_ARG
  else
    let enable := bsp_ctrl_apply_invert (b2z (negb (enable =? 0))) (bsp_ctrl_get_wiegand_invert_flag wiegand) in
    match wiegand_pin wiegand with
    | None => mret SYS_ERR_INVALID_ARG
    | Some pin => bhw_do (write_pin pin (negb (enable =? 0)));; mret SYS_OK
    end.
Definition bsp_ctrl_get_wiegand (wiegand : Z) : M bsp Z :=
  if BSP_WIEGAND_MAX <=? wiegand then mret 0
  else
    match wiegand_pin wiegand with
    | None => mret 0
    | Some pin => l ← pin_level pin; mret (bsp_ctrl_apply_invert l (bsp_ctrl_get_wiegand_invert_flag wiegand))
    end.

Definition bsp_ctrl_register_alarm_in (i : Z) (callback : option Z) : M bsp Z :=
  if BSP_ALARM_IN_MAX <=? i then mret SYS_ERR_INVALID_ARG
  else
    modify (fun s => set_s_alarm_in_callback (<[Z.to_nat i := callback]> (s_alarm_in_callback s)) s);;
    mret SYS_OK.

Definition alarm_in_pin (i : Z) : option bsp_pin :=
  if i =? BSP_ALARM_IN0 then Some ALARM_IN0_Pin else if i =? BSP_ALARM_IN1 then Some ALARM_IN1_Pin else None.
Definition bsp_ctrl_get_alarm_in (i : Z) : M bsp Z :=
  if BSP_ALARM_IN_MAX <=? i then mret SYS_ERR_INVALID_ARG
  else
    match alarm_in_pin i with
    | None => mret SYS_ERR_INVALID_ARG
    | Some pin => l ← pin_level pin; mret (bsp_ctrl_apply_invert l (bsp_ctrl_get_alarm_in_invert_flag i))
    end.

Definition bsp_ctrl_reset_soc_power : M bsp Z :=
  bhw_do (write_pin PWR_RST_Pin true);;
  bhw_do (HAL_Delay 500);;
  bhw_do (write_pin PWR_RST_Pin false);;
  mret SYS_OK.
End Board.

(** ** Sensor conversions

    [float] and [double] are the binary formats of 24 and 53 bits of precision with
    rounding to nearest.  A decimal literal is the rounded quotient of two exact ones. *)
Definition f32 (n : Z) : spec_float := binary_normalize 24 128 n 0 false.
Definition f32_mul : spec_float -> spec_float -> spec_float := SFmul 24 128.
Definition f32_div : spec_float -> spec_float -> spec_float := SFdiv 24 128.
Definition f32_sub : spec_float -> spec_float -> spec_float := SFsub 24 128.
Definition f64 (n : Z) : spec_float := binary_normalize 53 1024 n 0 false.
Definition f64_mul : spec_float -> spec_float -> spec_float := SFmul 53 1024.
Definition f64_div : spec_float -> spec_float -> spec_float := SFdiv 53 1024.
Definition f64_add : spec_float -> spec_float -> spec_float := SFadd 53 1024.
Definition f64_sub : spec_float -> spec_float -> spec_float := SFsub 53 1024.
Definition f64_sqrt : spec_float -> spec_float := SFsqrt 53 1024.
(** The cast of a [double] to [float]. *)
Definition f64_to_f32 (x : spec_float) : spec_float :=
  match x with
  | S754_finite s m e => binary_normalize 24 128 (if s then Zneg m else Zpos m) e s
  | _ => x
  end.
(** The cast to [int32_t]: towards zero, undefined outside the type. *)
Definition f32_to_int32 (x : spec_float) : option Z :=
  match x with
  | S754_zero _ => Some 0
  | S754_finite s m e =>
      let v := if 0 <=? e then Z.shiftl (Zpos m) e else Z.shiftr (Zpos m) (- e) in
      let v := if s then - v else v in
      if (-2147483648 <=? v) && (v <=? 2147483647) then Some v else None
  | _ => None
  end.

Definition BSP_PD_R_EMITTER_KOHM : spec_float := f32 47.
Definition BSP_PD_DARK_PROXY_UA : spec_float := f32 0.
Definition BSP_PD_LUX_PER_PROXY_UA : spec_float := f32 20.
Definition BSP_PD_LUX_CLAMP_MAX : spec_float := f32 200000.

Definition bsp_ctrl_convert_pd_to_lux (voltage_mv : Z) : spec_float :=
  let i_proxy_ua := f32_div (f32 voltage_mv) BSP_PD_R_EMITTER_KOHM in
  if SFleb i_proxy_ua BSP_PD_DARK_PROXY_UA then f32 0
  else
    let i_proxy_ua := f32_sub i_proxy_ua BSP_PD_DARK_PROXY_UA in
    let lux := f32_mul i_proxy_ua BSP_PD_LUX_PER_PROXY_UA in
    if SFltb BSP_PD_LUX_CLAMP_MAX lux then BSP_PD_LUX_CLAMP_MAX else lux.

Definition bsp_ctrl_convert_lmt87_to_celcius (voltage_mv : Z) : spec_float :=
  let v_mv := f64 voltage_mv in
  let a := f64_div (f64 433) (f64 100000) in
  let b := f64_div (f64 13582) (f64 1000) in
  let v0 := f64_div (f64 22308) (f64 10) in
  let t_ref := f64 30 in
  let c := f64_sub v_mv v0 in
  let disc := f64_sub (f64_mul b b) (f64_mul (f64_mul (f64 4) a) c) in
  let disc := if SFltb disc (f64 0) then f64 0 else disc in
  let x := f64_div (f64_add (SFopp b) (f64_sqrt disc)) (f64_mul (f64 2) a) in
  f64_to_f32 (f64_add t_ref x).
