(* ===== verification/BspProps.v ===== *)
(** Theorems on the board control: the calls on arbitrary hardware, the lamps, the
    outputs, the analogue channels and the alarm inputs. *)
From Stdlib Require Import SpecFloat.
From S2P Require Import Prelude Ms41908mReg BspCtrl.

Definition int16 (v : Z) : Prop := -32768 <= v <= 32767.

(** ** What is assumed of the environment and of working hardware *)

(** Samples are 16-bit integers; the reference channel never converts to zero. *)
Definition event_ok (e : bsp_event) : Prop :=
  match e with DmaSample _ v => int16 v | _ => True end.
Class BspEnv (D : Type) `{BspHw D} : Prop := {
  samples_ok bits d : Forall event_ok (meanwhile bits d).1;
  vref_converts d : u16 (HAL_ADC_GetValue d) <> 0
}.

(** Working timers and pins; [compare] is the compare register of a channel. *)
Class BspHwLaws (D : Type) `{BspHw D} : Type := {
  compare : pwm_channel -> D -> Z;
  others (ch : pwm_channel) (d d' : D) : Prop :=
    (forall c, c <> ch -> channel_busy c d' = channel_busy c d /\ compare c d' = compare c d) /\
    (forall p, read_pin p d' = read_pin p d) /\ (forall c, TIM_GET_AUTORELOAD c d' = TIM_GET_AUTORELOAD c d);
  start_law ch d : channel_busy ch d = false ->
    (HAL_TIM_PWM_Start ch d).1 = true /\ others ch d (HAL_TIM_PWM_Start ch d).2 /\
    channel_busy ch (HAL_TIM_PWM_Start ch d).2 = true /\ compare ch (HAL_TIM_PWM_Start ch d).2 = compare ch d;
  stop_law ch d :
    (HAL_TIM_PWM_Stop ch d).1 = true /\ others ch d (HAL_TIM_PWM_Stop ch d).2 /\
    channel_busy ch (HAL_TIM_PWM_Stop ch d).2 = false;
  compare_law ch v d : 0 <= v < 65536 ->
    others ch d (TIM_SET_COMPARE ch v d) /\
    channel_busy ch (TIM_SET_COMPARE ch v d) = channel_busy ch d /\ compare ch (TIM_SET_COMPARE ch v d) = v;
  autoreload_law ch d : 0 <= TIM_GET_AUTORELOAD ch d < 65535;
  pin_law p v d :
    read_pin p (write_pin p v d) = v /\ (forall q, q <> p -> read_pin q (write_pin p v d) = read_pin q d) /\
    (forall c, channel_busy c (write_pin p v d) = channel_busy c d /\ compare c (write_pin p v d) = compare c d /\
       TIM_GET_AUTORELOAD c (write_pin p v d) = TIM_GET_AUTORELOAD c d)
}.

Lemma returns_bhw_call {D A B} (f : D -> A * D) (k : A -> M (bsp_state D) B) Q s :
  returns (k (f (bsp_hw s)).1) Q (set_bsp_hw (f (bsp_hw s)).2 s) -> returns (bhw_call f ≫= k) Q s.
Proof. unfold bhw_call. intros Hk. rstep. by destruct (f (bsp_hw s)). Qed.
Lemma returns_bhw_do {D B} (f : D -> D) (k : unit -> M (bsp_state D) B) Q s :
  returns (k tt) Q (set_bsp_hw (f (bsp_hw s)) s) -> returns (bhw_do f ≫= k) Q s.
Proof. done. Qed.

(** ** The invariant *)
Record bsp_ok {D} (s : bsp_state D) : Prop := {
  bo_leds : length (s_led_duty s) = 5%nat;
  bo_duty : Forall (fun d => 0 <= d <= 100) (s_led_duty s);
  bo_shared : nthz (s_led_duty s) BSP_LED_WHITE1 = nthz (s_led_duty s) BSP_LED_IR1;
  bo_buf : length (s_adc_buffer s) = 40%nat;
  bo_samples : Forall int16 (s_adc_buffer s);
  bo_vdda : 2500 <= s_adc_vdda_mv s <= 3800;
  bo_cbs : length (s_alarm_in_callback s) = 2%nat
}.
(** The event group exists. *)
Definition started {D} (s : bsp_state D) : Prop := is_Some (bsp_event_group s).
Definition bsp_up {D} (s : bsp_state D) : Prop := bsp_ok s /\ started s.

Definition stays {D A} (m : M (bsp_state D) A) : Prop := forall s, bsp_up s -> returns m (fun _ => bsp_up) s.

Lemma stays_ret {D A} (a : A) : stays (D := D) (mret a).
Proof. by intros s Hs. Qed.
Lemma stays_gets {D A} (f : bsp_state D -> A) : stays (gets f).
Proof. by intros s Hs. Qed.
Lemma stays_bind {D A B} (m : M (bsp_state D) A) (f : A -> M _ B) : stays m -> (forall a, stays (f a)) -> stays (m ≫= f).
Proof. intros Hm Hf s Hs. rcall (Hm s Hs). intros. by apply Hf. Qed.
Lemma stays_if {D A} (b : bool) (m1 m2 : M (bsp_state D) A) : stays m1 -> stays m2 -> stays (if b then m1 else m2).
Proof. destruct b; auto. Qed.
Lemma bsp_up_hw {D} d (s : bsp_state D) : bsp_up s -> bsp_up (set_bsp_hw d s).
Proof. intros [[] Hg]. split; [by constructor|]; first [exact Hg | by eexists]. Qed.
Lemma stays_hw_do {D} (f : D -> D) : stays (bhw_do f).
Proof. intros s Hs. unfold bhw_do. rstep. by apply bsp_up_hw. Qed.
Lemma stays_hw_call {D A} (f : D -> A * D) : stays (bhw_call f).
Proof. intros s Hs. unfold bhw_call. rstep. destruct (f _). rstep. by apply bsp_up_hw. Qed.
Lemma stays_modify {D} f : (forall s : bsp_state D, bsp_up s -> bsp_up (f s)) -> stays (modify f).
Proof. intros Hf s Hs. rstep. by apply Hf. Qed.
Lemma bsp_up_group {D} b (s : bsp_state D) : bsp_up s -> bsp_up (set_bsp_event_group (Some b) s).
Proof. intros [[] Hg]. split; [by constructor|]; first [exact Hg | by eexists]. Qed.

Create HintDb bsp.
#[export] Hint Resolve stays_ret stays_gets stays_if stays_hw_do stays_hw_call bsp_up_hw bsp_up_group : bsp.
#[export] Hint Extern 2 (stays (_ ≫= _)) => apply stays_bind; [|intros ?] : bsp.
#[export] Hint Extern 3 (stays (modify _)) => apply stays_modify; intros ?? : bsp.

Section Safe.
Context `{HW : BspHw D}.
Notation bsp := (bsp_state D).

Lemma stays_bits bits : stays (D := D) (set_event_bits bits).
Proof. intros s Hs. pose proof Hs as [_ [b E]]. unfold set_event_bits. rstep. rewrite E. rstep. by apply bsp_up_group. Qed.
#[local] Hint Resolve stays_bits : bsp.

Lemma stays_falling pin : stays (D := D) (falling_alarm pin).
Proof. unfold falling_alarm. auto 6 with bsp. Qed.
Lemma stays_rising pin : stays (D := D) (HAL_GPIO_EXTI_Rising_Callback pin).
Proof. unfold HAL_GPIO_EXTI_Rising_Callback. auto 6 with bsp. Qed.
#[local] Hint Resolve stays_falling stays_rising : bsp.

Lemma stays_happen e : event_ok e -> stays (D := D) (bsp_happen e).
Proof.
  destruct e as [i v| | |pin []]; cbn [bsp_happen event_ok]; intros Hv.
  - apply stays_modify. intros s [[] Hst]. split; [|done]. constructor; cbn; try done.
    + by rewrite length_insert.
    + by apply Forall_insert.
  - unfold HAL_ADC_ConvCpltCallback. auto with bsp.
  - unfold HAL_ADC_ErrorCallback. auto with bsp.
  - auto with bsp.
  - auto with bsp.
Qed.
Lemma stays_happens es : Forall event_ok es -> stays (D := D) (bsp_happens es).
Proof. induction 1; cbn [bsp_happens]; auto using stays_happen with bsp. Qed.

Lemma stays_put_leds led duty : 0 <= duty <= 100 -> led <> BSP_LED_WHITE1 -> led <> BSP_LED_IR1 -> 0 <= led ->
  stays (D := D) (put_led_duty led duty).
Proof.
  intros Hd Hw Hi H0. apply stays_modify. intros s [[] Hst]. split; [|done]. constructor; cbn; try done.
  - by rewrite length_insert.
  - by apply Forall_insert.
  - unfold nthz. rewrite !nth_lookup, !list_lookup_insert_ne by (unfold BSP_LED_WHITE1, BSP_LED_IR1 in *; lia).
    by rewrite <-!nth_lookup.
Qed.
(** Both lamps of the shared channel are written in turn. *)
Lemma shared_up a b duty (s : bsp) : 0 <= duty <= 100 ->
  (a = BSP_LED_WHITE1 /\ b = BSP_LED_IR1) \/ (a = BSP_LED_IR1 /\ b = BSP_LED_WHITE1) -> bsp_up s ->
  bsp_up (set_s_led_duty (<[Z.to_nat b := duty]> (<[Z.to_nat a := duty]> (s_led_duty s))) s).
Proof.
  intros Hd Hab [[] Hst]. split; [|done]. constructor; cbn; try done.
  - by rewrite !length_insert.
  - by repeat apply Forall_insert.
  - destruct (s_led_duty s) as [|? [|? [|? [|? [|? []]]]]]; try done. by destruct Hab as [[-> ->]|[-> ->]].
Qed.

Lemma stays_led_at led : 0 <= led < BSP_LED_MAX -> stays (D := D) (led_duty_at led).
Proof.
  intros Hl. unfold led_duty_at. apply stays_bind; [apply stays_gets|intros l].
  replace ((0 <=? led) && (led <? BSP_LED_MAX)) with true by (unfold BSP_LED_MAX in *; lia). apply stays_ret.
Qed.
Lemma stays_led_stop led ch : 0 <= led -> led <> BSP_LED_WHITE1 -> led <> BSP_LED_IR1 -> stays (D := D) (led_stop led ch).
Proof.
  intros. unfold led_stop. pose proof (stays_put_leds led 0). auto 8 with bsp lia.
Qed.

(** The value the array holds at a lamp. *)
Lemma led_at_eq led (s : bsp) : 0 <= led < BSP_LED_MAX -> led_duty_at led s = Ret (nthz (s_led_duty s) led) s.
Proof. intros Hl. unfold led_duty_at. mstep. by replace ((0 <=? led) && (led <? BSP_LED_MAX)) with true by (unfold BSP_LED_MAX in *; lia). Qed.

(** After the writes of the array and of an enable pin. *)
Lemma stays_light led duty ch : 0 <= led < BSP_LED_MAX -> 0 <= duty <= 100 -> stays (led_light led duty ch).
Proof.
  intros Hl Hd. unfold led_light. do 2 (apply stays_bind; [auto with bsp|intros ?]).
  apply stays_bind; [auto with bsp|intros busy]. apply stays_bind; [auto with bsp|intros ok].
  apply stays_if; [auto with bsp|]. intros s Hs.
  destruct (led =? BSP_LED_WHITE1) eqn:Ew; cbool; [|destruct (led =? BSP_LED_IR1) eqn:Ei; cbool].
  - subst. unfold put_led_duty, bhw_do. rstep. apply (shared_up _ _ duty (set_bsp_hw _ s)); [done|by left|by apply bsp_up_hw].
  - subst. unfold put_led_duty, bhw_do. rstep. apply (shared_up _ _ duty (set_bsp_hw _ s)); [done|by right|by apply bsp_up_hw].
  - rcall (stays_put_leds led duty); [lia|done|done|lia|done|]. intros _ s' Hs'. by rstep.
Qed.

(** The channel of the two lamps that share it is never stopped: when one is set to
    zero the other's record is its own. *)
Lemma stays_set_led led duty : 0 <= led < BSP_LED_MAX -> 0 <= duty -> stays (bsp_ctrl_set_led_duty led duty).
Proof.
  intros Hl Hd s Hs. unfold bsp_ctrl_set_led_duty. rrun (led_at_eq led s Hl).
  set (d := if 100 <? duty then 100 else duty). assert (0 <= d <= 100) by (subst d; cif; lia). clearbody d.
  cif; [by rstep|]. destruct (led_channel led) as [ch|] eqn:Ech; [|by rstep].
  cif; [|by apply stays_light]. subst d. unfold BSP_LED_MAX in Hl.
  destruct ((led =? BSP_LED_WHITE1) || (led =? BSP_LED_IR1)) eqn:Esh.
  - rrun (led_at_eq BSP_LED_IR1 s ltac:(done)). rrun (led_at_eq BSP_LED_WHITE1 s ltac:(done)).
    pose proof (bo_shared s (proj1 Hs)) as Eq. unfold BSP_LED_WHITE1, BSP_LED_IR1 in *.
    replace ((_ && _) || (_ && _)) with false; cycle 1.
    { symmetry. apply not_true_is_false. intros Ht. apply orb_true_iff in Ht as [Ht|Ht]; cbool; subst; congruence. }
    eapply stays_bind; [auto with bsp|auto with bsp|done].
  - cbool. apply stays_led_stop; [lia|done|done|done].
Qed.

Context {EV : BspEnv D}.

Lemma stays_wait bits : stays (wait_bits bits).
Proof.
  intros s Hs. pose proof Hs as [_ [b0 E]]. unfold wait_bits. rstep. rewrite E.
  apply returns_bind. eapply returns_mono with (Q := fun _ => bsp_up).
  - cif; [by rstep|]. apply returns_bhw_call. apply stays_happens; [apply samples_ok|by apply bsp_up_hw].
  - intros _ s1 Hs1. pose proof Hs1 as [_ [b E1]]. rstep. rewrite E1. eapply stays_bind; [|auto with bsp|done].
    auto with bsp.
Qed.

Lemma stays_read_adc : stays bsp_ctrl_read_adc.
Proof.
  unfold bsp_ctrl_read_adc. pose proof stays_wait. apply stays_bind; [auto with bsp|intros ok].
  apply stays_if; [auto with bsp|]. apply stays_bind; [auto|intros ev]. do 2 (apply stays_if; [auto with bsp|]).
  apply stays_bind; [auto with bsp|intros buf]. destruct (sum_pairs buf). auto with bsp.
Qed.
Lemma stays_pd : stays bsp_ctrl_get_pd_voltage_mv.
Proof.
  apply stays_bind; [apply stays_read_adc|intros [r [[a b]|]]]; auto with bsp.
Qed.
Lemma stays_temp : stays bsp_ctrl_get_temp_voltage_mv.
Proof.
  apply stays_bind; [apply stays_read_adc|intros [r [[a b]|]]]; auto with bsp.
Qed.

Lemma stays_alarm_notify i ev all rising : stays (D := D) (alarm_notify i ev all rising).
Proof.
  unfold alarm_notify. apply stays_if; [|auto with bsp]. apply stays_bind; [auto with bsp|intros cbs].
  destruct (mjoin _); [|auto with bsp]. apply stays_modify. intros s [[] Hg]. split; [by constructor|exact Hg].
Qed.
Lemma stays_task : stays bsp_ctrl_task_round.
Proof.
  apply stays_bind; [apply stays_wait|intros ev]. apply stays_bind; [|intros _]; apply stays_alarm_notify.
Qed.

(** ** Start *)
Lemma keeps_call {A} (f : D -> A * D) (P : bsp -> Prop) B (k : A -> M bsp B) (Q : B -> bsp -> Prop) s :
  (forall d s, P s -> P (set_bsp_hw d s)) -> P s ->
  (forall a s', P s' -> returns (k a) Q s') -> returns (bhw_call f ≫= k) Q s.
Proof. intros Hp Hs Hk. apply returns_bhw_call. auto. Qed.

Lemma bsp_ok_hw d (s : bsp) : bsp_ok s -> bsp_ok (set_bsp_hw d s).
Proof. by intros []. Qed.
Ltac hw_step := apply (keeps_call _ bsp_ok); [apply bsp_ok_hw|assumption|intros ? ? ?].

(** Whatever the calls answer, a measured supply is positive or the measurement gave up. *)
Lemma measure_ok (s : bsp) : bsp_ok s -> returns measure_vdda (fun _ => bsp_ok) s.
Proof.
  intros Hs. unfold measure_vdda. do 3 (hw_step; cif; [by rstep|]).
  apply returns_bhw_do. set (s4 := set_bsp_hw _ _). assert (bsp_ok s4) by by apply bsp_ok_hw. clearbody s4.
  do 2 (hw_step; cif; [by rstep|]). hw_step. cif.
  - hw_step. by rstep.
  - rstep. hw_step. rstep. unfold calc_vdda.
    destruct (u16 _ =? 0) eqn:E; [|by rstep]. cbool. by destruct (vref_converts _ E).
Qed.

Lemma init_vdda_ok (s : bsp) : bsp_ok s -> returns bsp_ctrl_adc_init_vdda_from_vrefint (fun _ => bsp_ok) s.
Proof.
  intros Hs. unfold bsp_ctrl_adc_init_vdda_from_vrefint. hw_step. rcall measure_ok; [done|]. intros v s2 Hs2.
  do 2 hw_step. apply returns_bind. apply returns_mono with (Q := fun _ => bsp_ok).
  - cif; rstep; match goal with Hx : bsp_ok ?x |- bsp_ok (set_s_adc_vdda_mv _ ?x) => destruct Hx end; by constructor.
  - intros _ s3 Hs3. hw_step. by rstep.
Qed.

Lemma board_init_ok (s : bsp) : bsp_ok s ->
  returns bsp_ctrl_init (fun r s' => bsp_ok s' /\ (r = SYS_OK -> started s')) s.
Proof.
  intros Hs. unfold bsp_ctrl_init. rstep. rcall init_vdda_ok.
  { destruct Hs. constructor; cbn; try done. by repeat constructor. }
  intros _ s1 Hs1. hw_step. cif.
  - rstep. match goal with Hx : bsp_ok ?x |- context [set_bsp_event_group _ ?x] => destruct Hx end. by split; [constructor|].
  - rstep. apply (keeps_call _ (fun s => bsp_ok s /\ started s)); [apply bsp_up_hw| |].
    + match goal with Hx : bsp_ok ?x |- context [set_bsp_event_group _ ?x] => destruct Hx end.
      split; [by constructor|by eexists].
    + intros ok s2 [Ho Hst]. by rstep.
Qed.

Lemma power_on_ok (d : D) : bsp_ok (bsp_power_on d).
Proof. constructor; try done; by apply Forall_replicate. Qed.

(** ** Sequences of calls *)
Inductive bsp_call : Type :=
| CSetLed (led duty : Z) | CGetLed (led : Z) | CPdVoltage | CTempVoltage | CSetFan (duty : Z) | CGetFan
| CSetHeat (duty : Z) | CGetHeat | CSetRadar (enable : Z) | CGetRadar | CSetAlarmOut (out enable : Z)
| CGetAlarmOut (out : Z) | CSetWiegand (w enable : Z) | CGetWiegand (w : Z) | CRegister (i : Z) (cb : option Z)
| CGetAlarmIn (i : Z) | CResetSoc | CTaskRound | CEvent (e : bsp_event).

Definition do_bsp (c : bsp_call) : M bsp Z :=
  match c with
  | CSetLed led duty => bsp_ctrl_set_led_duty led duty
  | CGetLed led => bsp_ctrl_get_led_duty led
  | CPdVoltage => bsp_ctrl_get_pd_voltage_mv
  | CTempVoltage => bsp_ctrl_get_temp_voltage_mv
  | CSetFan duty => bsp_ctrl_set_fan_duty duty
  | CGetFan => bsp_ctrl_get_fan_duty
  | CSetHeat duty => bsp_ctrl_set_heat_duty duty
  | CGetHeat => bsp_ctrl_get_heat_duty
  | CSetRadar e => bsp_ctrl_set_radar_en e
  | CGetRadar => bsp_ctrl_get_radar_en
  | CSetAlarmOut o e => bsp_ctrl_set_alarm_out o e
  | CGetAlarmOut o => bsp_ctrl_get_alarm_out o
  | CSetWiegand w e => bsp_ctrl_set_wiegand w e
  | CGetWiegand w => bsp_ctrl_get_wiegand w
  | CRegister i cb => bsp_ctrl_register_alarm_in i cb
  | CGetAlarmIn i => bsp_ctrl_get_alarm_in i
  | CResetSoc => bsp_ctrl_reset_soc_power
  | CTaskRound => bsp_ctrl_task_round;; mret SYS_OK
  | CEvent e => bsp_happen e;; mret SYS_OK
  end.

(** What the callers respect: the lamp is one of the five, arguments are unsigned. *)
Definition call_ok (c : bsp_call) : Prop :=
  match c with
  | CSetLed led duty => 0 <= led < BSP_LED_MAX /\ 0 <= duty
  | CGetLed led => 0 <= led
  | CEvent e => event_ok e
  | _ => True
  end.

Fixpoint do_bsps (cs : list bsp_call) : M bsp (list Z) :=
  match cs with
  | [] => mret []
  | c :: cs => r ← do_bsp c; rs ← do_bsps cs; mret (r :: rs)
  end.

Lemma do_bsp_stays c : call_ok c -> stays (do_bsp c).
Proof.
  destruct c; cbn [call_ok do_bsp]; intros Hc;
    unfold bsp_ctrl_set_fan_duty, bsp_ctrl_get_fan_duty, bsp_ctrl_set_heat_duty, bsp_ctrl_get_heat_duty,
      bsp_ctrl_set_radar_en, bsp_ctrl_get_radar_en, bsp_ctrl_set_alarm_out, bsp_ctrl_get_alarm_out,
      bsp_ctrl_set_wiegand, bsp_ctrl_get_wiegand, bsp_ctrl_register_alarm_in, bsp_ctrl_get_alarm_in,
      bsp_ctrl_reset_soc_power, pin_level; auto using stays_pd, stays_temp, stays_task, stays_happen with bsp.
  - destruct Hc. by apply stays_set_led.
  - unfold bsp_ctrl_get_led_duty. destruct (BSP_LED_MAX <=? led) eqn:E; cbool; [auto with bsp|]. by apply stays_led_at.
  - apply stays_if; [auto with bsp|]. destruct (alarm_out_pin out); auto with bsp.
  - apply stays_if; [auto with bsp|]. destruct (alarm_out_pin out); auto with bsp.
  - apply stays_if; [auto with bsp|]. destruct (wiegand_pin w); auto with bsp.
  - apply stays_if; [auto with bsp|]. destruct (wiegand_pin w); auto with bsp.
  - apply stays_if; [auto with bsp|]. apply stays_bind; [|auto with bsp]. apply stays_modify.
    intros s [[] Hg]. split; [constructor; cbn; try done; by rewrite length_insert|exact Hg].
  - apply stays_if; [auto with bsp|]. destruct (alarm_in_pin i); auto with bsp.
Qed.

Lemma do_bsps_stays cs : Forall call_ok cs -> stays (do_bsps cs).
Proof. induction 1; cbn [do_bsps]; auto using do_bsp_stays with bsp. Qed.
End Safe.

(** C29 [board_calls_safe]: on any hardware whose reference channel converts to something
    else than zero, the start of the board control returns from power-on, with the
    static variables well-formed (duties up to 100, the two lamps of the shared channel
    recorded alike, 16-bit samples, a supply between 2500 and 3800 mV).  When it reports success, every
    sequence of calls on lamps that exist, rounds of the alarm task and interrupts, with
    whatever the hardware answers, returns and keeps them so. *)
Theorem board_calls_safe `{HW : BspHw D} {EV : BspEnv D} (d : D) :
  returns bsp_ctrl_init (fun r s1 => bsp_ok s1 /\
    (r = SYS_OK -> forall cs, Forall call_ok cs -> returns (do_bsps cs) (fun _ s2 => bsp_ok s2 /\ started s2) s1))
    (bsp_power_on d).
Proof.
  eapply returns_mono; [apply board_init_ok, power_on_ok|]. intros r s1 [Hok Hst]. split; [done|].
  intros Hr cs Hcs. apply (do_bsps_stays cs Hcs). split; auto.
Qed.

(** ** Lamps on working hardware *)
Section Lamps.
Context `{HW : BspHw D} {LW : BspHwLaws D}.
Notation bsp := (bsp_state D).

(** The compare value a channel really puts out. *)
Definition lamp (ch : pwm_channel) (d : D) : Z := if channel_busy ch d then compare ch d else 0.
(** A lamp with a channel of its own is as bright as its record says. *)
Definition shown (s : bsp) (led : Z) (ch : pwm_channel) : Prop :=
  lamp ch (bsp_hw s) = led_pulse (TIM_GET_AUTORELOAD ch (bsp_hw s)) (nthz (s_led_duty s) led).
Definition own_channel (led : Z) (ch : pwm_channel) : Prop :=
  (led = BSP_LED_IR_NEAR /\ ch = TIM1_CH1) \/ (led = BSP_LED_IR_FAR /\ ch = TIM1_CH2) \/ (led = BSP_LED_WHITE2 /\ ch = TIM3_CH2).
Definition all_shown (s : bsp) : Prop := forall led ch, own_channel led ch -> shown s led ch.

Lemma led_pulse_range period duty : 0 <= period < 65535 -> 0 <= duty <= 100 -> 0 <= led_pulse period duty < 65536.
Proof.
  intros Hp Hd. unfold led_pulse. rewrite (u32_small (period + 1)) by lia.
  assert (0 <= (period + 1) * duty <= (period + 1) * 100) by nia. rewrite u32_small by lia.
  split; [apply Z.div_pos; lia|]. apply Z.div_lt_upper_bound; lia.
Qed.
Lemma led_pulse_zero period : led_pulse period 0 = 0.
Proof. unfold led_pulse. by rewrite Z.mul_0_r. Qed.

Lemma others_refl ch (d : D) : others ch d d.
Proof. done. Qed.
Lemma others_trans ch (d1 d2 d3 : D) : others ch d1 d2 -> others ch d2 d3 -> others ch d1 d3.
Proof.
  intros (A1 & A2 & A3) (B1 & B2 & B3). split_and!; intros.
  - destruct (B1 c ltac:(done)) as [-> ->]. by apply A1.
  - by rewrite B2.
  - by rewrite B3.
Qed.

Lemma nthz_insert_eq (l : list Z) i v : 0 <= i < zlen l -> nthz (<[Z.to_nat i := v]> l) i = v.
Proof. intros Hi. apply nthz_lookup. rewrite list_lookup_insert, decide_True; [done|unfold zlen in Hi; lia]. Qed.
Lemma nthz_insert_ne (l : list Z) i j v : 0 <= i -> 0 <= j -> i <> j -> nthz (<[Z.to_nat i := v]> l) j = nthz l j.
Proof. intros. unfold nthz. rewrite !nth_lookup. by rewrite list_lookup_insert_ne by lia. Qed.

(** Whatever path lights a lamp: the channel runs at the new pulse, nothing else moves. *)
Lemma pwm_run ch v (d : D) : 0 <= v < 65536 ->
  exists d', (forall B (k : bool -> M bsp B) Q s, bsp_hw s = TIM_SET_COMPARE ch v d ->
      returns (k true) Q (set_bsp_hw d' s) ->
      returns (busy ← gets (fun s => channel_busy ch (bsp_hw s));
               ok ← (if negb busy : bool then bhw_call (HAL_TIM_PWM_Start ch) else mret true); k ok) Q s) /\
    others ch d d' /\ channel_busy ch d' = true /\ compare ch d' = v.
Proof.
  intros Hv. destruct (compare_law ch v d Hv) as (Ho & Hb & Hc). set (d1 := TIM_SET_COMPARE ch v d) in *.
  destruct (channel_busy ch d1) eqn:Eb.
  - exists d1. split_and!; [|done|done|done]. intros B k Q s Es Hk. rstep. rewrite Es, Eb. cbn [negb]. rstep.
    rewrite <-Es in Hk. by destruct s.
  - destruct (start_law ch d1 Eb) as (Hok & Ho' & Hb' & Hc'). exists (HAL_TIM_PWM_Start ch d1).2. split_and!.
    + intros B k Q s Es Hk. rstep. rewrite Es, Eb. cbn [negb]. apply returns_bhw_call. rewrite Es, Hok. done.
    + by eapply others_trans.
    + done.
    + by rewrite Hc'.
Qed.

(** The records after a lamp with its own channel was set. *)
Definition set_to (led duty : Z) (ch : pwm_channel) (s s' : bsp) : Prop :=
  s_led_duty s' = <[Z.to_nat led := duty]> (s_led_duty s) /\ others ch (bsp_hw s) (bsp_hw s') /\
  lamp ch (bsp_hw s') = led_pulse (TIM_GET_AUTORELOAD ch (bsp_hw s)) duty.

Lemma own_set led ch duty (s : bsp) : own_channel led ch -> 0 <= duty -> bsp_ok s -> shown s led ch ->
  returns (bsp_ctrl_set_led_duty led duty) (fun r s' => r = SYS_OK /\ set_to led (Z.min duty 100) ch s s') s.
Proof.
  intros Hown Hd Hs Hsh. unfold bsp_ctrl_set_led_duty.
  assert (Hl : 0 <= led < BSP_LED_MAX) by (destruct Hown as [[-> _]|[[-> _]|[-> _]]]; done).
  rrun (led_at_eq led s Hl). replace (if 100 <? duty then 100 else duty) with (Z.min duty 100) by (cif; lia).
  set (dd := Z.min duty 100). assert (0 <= dd <= 100) by lia. clearbody dd.
  assert (Hlen : 0 <= led < zlen (s_led_duty s)) by (unfold zlen; rewrite (bo_leds s Hs); done).
  cif.
  { rstep. split; [done|]. subst dd. split_and!; [|apply others_refl|done].
    unfold nthz. rewrite list_insert_id; [done|]. rewrite nth_lookup.
    destruct (lookup_lt_is_Some_2 (s_led_duty s) (Z.to_nat led)) as [x Ex]; [unfold zlen in Hlen; lia|]. by rewrite Ex. }
  assert (Ech : led_channel led = Some ch) by (destruct Hown as [[-> ->]|[[-> ->]|[-> ->]]]; done). rewrite Ech.
  assert (Ew : (led =? BSP_LED_WHITE1) = false) by (destruct Hown as [[-> _]|[[-> _]|[-> _]]]; done).
  assert (Ei : (led =? BSP_LED_IR1) = false) by (destruct Hown as [[-> _]|[[-> _]|[-> _]]]; done).
  destruct (dd =? 0) eqn:Ez.
  - apply Z.eqb_eq in Ez. subst dd. rewrite Ew, Ei. cbn [orb]. unfold led_stop. destruct (stop_law ch (bsp_hw s)) as (Hok & Ho & Hb).
    apply returns_bhw_call. rewrite Hok. cbn [negb]. apply returns_bhw_do. unfold put_led_duty. rstep. split; [done|].
    destruct (compare_law ch 0 (HAL_TIM_PWM_Stop ch (bsp_hw s)).2 ltac:(lia)) as (Ho' & Hb' & Hc').
    split_and!; cbn; [done|by eapply others_trans|]. unfold lamp. by rewrite Hb', Hb, led_pulse_zero.
  - unfold led_light. rstep. apply returns_bhw_do.
    destruct (pwm_run ch (led_pulse (TIM_GET_AUTORELOAD ch (bsp_hw s)) dd) (bsp_hw s)) as (d' & Hk & Ho & Hb & Hc).
    { apply led_pulse_range; [apply autoreload_law|lia]. }
    eapply Hk; [done|]. cbn [negb]. unfold put_led_duty. rstep. rewrite Ew, Ei. rstep. split; [done|].
    split_and!; cbn; [done|done|]. unfold lamp. by rewrite Hb, Hc.
Qed.

Lemma others_lamp c ch (d d' : D) : others ch d d' -> c <> ch -> lamp c d' = lamp c d.
Proof. intros (Ho & _ & _) Hc. unfold lamp. by destruct (Ho c Hc) as [-> ->]. Qed.
Lemma own_channel_inj led ch led' ch' : own_channel led ch -> own_channel led' ch' -> led <> led' -> ch <> ch'.
Proof. unfold own_channel. intros [[-> ->]|[[-> ->]|[-> ->]]] [[-> ->]|[[-> ->]|[-> ->]]]; congruence. Qed.

Lemma set_to_shown led ch duty (s s' : bsp) : own_channel led ch -> bsp_ok s -> all_shown s ->
  set_to led duty ch s s' -> all_shown s' /\ nthz (s_led_duty s') led = duty.
Proof.
  intros Hown Hs Hsh (El & Ho & Ev).
  assert (Hl : 0 <= led < 5) by (destruct Hown as [[-> _]|[[-> _]|[-> _]]]; done).
  assert (En : nthz (s_led_duty s') led = duty).
  { rewrite El. apply nthz_insert_eq. unfold zlen. rewrite (bo_leds s Hs). lia. }
  split; [|done]. intros led' ch' Hown'. unfold shown. rewrite (proj2 (proj2 Ho)).
  destruct (decide (led = led')) as [<-|Hne].
  - assert (ch' = ch) as ->.
    { destruct Hown as [[-> ->]|[[-> ->]|[-> ->]]], Hown' as [[? ->]|[[? ->]|[? ->]]]; done. }
    by rewrite Ev, En.
  - rewrite (others_lamp ch' ch (bsp_hw s) (bsp_hw s') Ho) by (apply not_eq_sym; by eapply own_channel_inj).
    rewrite El, nthz_insert_ne; [by apply Hsh|lia| |done].
    destruct Hown' as [[-> _]|[[-> _]|[-> _]]]; done.
Qed.

(** ** The lamps that share a channel *)
Definition enable_pin (led : Z) : bsp_pin := if led =? BSP_LED_WHITE1 then WLED_EN_Pin else RLED_EN_Pin.
Definition shared (led : Z) : Prop := led = BSP_LED_WHITE1 \/ led = BSP_LED_IR1.
(** Both records of the shared channel. *)
Definition recorded (s : bsp) (duty : Z) : Prop := forall led, shared led -> nthz (s_led_duty s) led = duty.
(** The light of a shared lamp. *)
Definition shared_lamp (led : Z) (d : D) : Z := if read_pin (enable_pin led) d then lamp TIM3_CH1 d else 0.

Lemma light_shared led duty (s : bsp) : shared led -> 0 < duty <= 100 -> bsp_ok s -> recorded s 0 ->
  returns (bsp_ctrl_set_led_duty led duty) (fun r s' => r = SYS_OK /\ bsp_ok s' /\ recorded s' duty /\
    shared_lamp led (bsp_hw s') = led_pulse (TIM_GET_AUTORELOAD TIM3_CH1 (bsp_hw s)) duty /\
    (forall p, p <> enable_pin led -> read_pin p (bsp_hw s') = read_pin p (bsp_hw s))) s.
Proof.
  intros Hsh Hd Hs Hrec. unfold bsp_ctrl_set_led_duty.
  rrun (led_at_eq led s ltac:(destruct Hsh as [-> | ->]; done)). rewrite (Hrec led Hsh).
  replace (if 100 <? duty then 100 else duty) with duty by (cif; lia). rewrite (proj2 (Z.eqb_neq duty 0)) by lia.
  assert (Ech : led_channel led = Some TIM3_CH1) by (destruct Hsh as [-> | ->]; done). rewrite Ech.
  unfold led_light. rstep. apply returns_bhw_do.
  destruct (pwm_run TIM3_CH1 (led_pulse (TIM_GET_AUTORELOAD TIM3_CH1 (bsp_hw s)) duty) (bsp_hw s)) as (d' & Hk & Ho & Hb & Hc).
  { apply led_pulse_range; [apply autoreload_law|lia]. }
  eapply Hk; [done|]. cbn [negb]. unfold put_led_duty. rstep. destruct (pin_law (enable_pin led) true d') as (Hp & Hq & Hch).
  assert (Hfin : forall a b, (a = BSP_LED_WHITE1 /\ b = BSP_LED_IR1) \/ (a = BSP_LED_IR1 /\ b = BSP_LED_WHITE1) ->
    bsp_ok (set_s_led_duty (<[Z.to_nat b := duty]> (<[Z.to_nat a := duty]> (s_led_duty s))) (set_bsp_hw (write_pin (enable_pin led) true d') s)) /\
    recorded (set_s_led_duty (<[Z.to_nat b := duty]> (<[Z.to_nat a := duty]> (s_led_duty s))) (set_bsp_hw (write_pin (enable_pin led) true d') s)) duty).
  { intros a b Hab. split.
    - destruct Hs. constructor; cbn; try done; [by rewrite !length_insert|repeat apply Forall_insert; [done|lia|lia]|].
      destruct (s_led_duty s) as [|? [|? [|? [|? [|? []]]]]]; try done. by destruct Hab as [[-> ->]|[-> ->]].
    - pose proof (bo_leds s Hs). intros x Hx. cbn. destruct (s_led_duty s) as [|? [|? [|? [|? [|? []]]]]]; try done.
      destruct Hab as [[-> ->]|[-> ->]], Hx as [-> | ->]; done. }
  assert (Hlamp : shared_lamp led (write_pin (enable_pin led) true d') = led_pulse (TIM_GET_AUTORELOAD TIM3_CH1 (bsp_hw s)) duty /\
    (forall p, p <> enable_pin led -> read_pin p (write_pin (enable_pin led) true d') = read_pin p (bsp_hw s))).
  { split.
    - unfold shared_lamp, lamp. rewrite Hp. destruct (Hch TIM3_CH1) as (-> & -> & _). by rewrite Hb, Hc.
    - intros p Hne. rewrite Hq by done. apply Ho. }
  destruct Hsh as [-> | ->]; cbn [Z.eqb Pos.eqb BSP_LED_WHITE1 BSP_LED_IR1]; unfold bhw_do; rstep.
  - destruct (Hfin BSP_LED_WHITE1 BSP_LED_IR1); [by left|]. destruct Hlamp. by split_and!.
  - destruct (Hfin BSP_LED_IR1 BSP_LED_WHITE1); [by right|]. destruct Hlamp. by split_and!.
Qed.

(** Setting a lit shared lamp to zero only lowers its enable pin. *)
Lemma dim_shared led duty (s : bsp) : shared led -> 0 < duty <= 100 -> recorded s duty ->
  bsp_ctrl_set_led_duty led 0 s = Ret SYS_OK (set_bsp_hw (write_pin (enable_pin led) false (bsp_hw s)) s).
Proof.
  intros Hsh Hd Hrec. unfold bsp_ctrl_set_led_duty.
  rewrite (bind_ret_eq _ _ _ _ _ (led_at_eq led s ltac:(destruct Hsh as [-> | ->]; done))). rewrite (Hrec led Hsh).
  change (100 <? 0) with false. cbn iota. rewrite (proj2 (Z.eqb_neq 0 duty)) by lia.
  assert (Ech : led_channel led = Some TIM3_CH1) by (destruct Hsh as [-> | ->]; done). rewrite Ech. cbn iota.
  replace ((led =? BSP_LED_WHITE1) || (led =? BSP_LED_IR1)) with true by (destruct Hsh as [-> | ->]; done).
  change (0 =? 0) with true. cbn iota.
  rewrite (bind_ret_eq _ _ _ _ _ (led_at_eq BSP_LED_IR1 s ltac:(done))).
  rewrite (bind_ret_eq _ _ _ _ _ (led_at_eq BSP_LED_WHITE1 s ltac:(done))).
  rewrite (Hrec BSP_LED_IR1), (Hrec BSP_LED_WHITE1) by (by left + by right).
  rewrite (proj2 (Z.eqb_neq duty 0)) by lia. rewrite !andb_false_r. by destruct Hsh as [-> | ->].
Qed.

(** Setting it to the duty on record does nothing. *)
Lemma same_duty_skipped led duty (s : bsp) : 0 <= led < BSP_LED_MAX -> 0 <= duty <= 100 ->
  nthz (s_led_duty s) led = duty -> bsp_ctrl_set_led_duty led duty s = Ret SYS_OK s.
Proof.
  intros Hl Hd E. unfold bsp_ctrl_set_led_duty. rewrite (bind_ret_eq _ _ _ _ _ (led_at_eq led s Hl)). rewrite E.
  replace (if 100 <? duty then 100 else duty) with duty by (cif; lia). by rewrite Z.eqb_refl.
Qed.
End Lamps.

(** On working timers, with every lamp of its own channel as
    bright as recorded, setting one of them succeeds.  Its channel then puts out the
    pulse of the duty cut to 100 (nothing for zero), reading the duty back gives that
    value, the other lamps keep their duty and their light, and so again every lamp is
    as bright as recorded. *)
Theorem lamp_follows_duty `{HW : BspHw D} {LW : BspHwLaws D} led ch duty (s : bsp_state D) :
  own_channel led ch -> 0 <= duty -> bsp_ok s -> all_shown s ->
  exists s', bsp_ctrl_set_led_duty led duty s = Ret SYS_OK s' /\
    bsp_ctrl_get_led_duty led s' = Ret (Z.min duty 100) s' /\
    lamp ch (bsp_hw s') = led_pulse (TIM_GET_AUTORELOAD ch (bsp_hw s)) (Z.min duty 100) /\
    all_shown s' /\
    (forall c, c <> ch -> lamp c (bsp_hw s') = lamp c (bsp_hw s)) /\
    (forall l, 0 <= l -> l <> led -> nthz (s_led_duty s') l = nthz (s_led_duty s) l).
Proof.
  intros Hown Hd Hs Hsh.
  destruct (returns_elim _ _ _ (own_set led ch duty s Hown Hd Hs (Hsh led ch Hown))) as (r & s' & E & -> & Ht).
  destruct (set_to_shown led ch (Z.min duty 100) s s' Hown Hs Hsh Ht) as [Hsh' En]. destruct Ht as (El & Ho & Ev).
  assert (Hl : 0 <= led < BSP_LED_MAX) by (destruct Hown as [[-> _]|[[-> _]|[-> _]]]; done).
  exists s'. split_and!; try done.
  - unfold bsp_ctrl_get_led_duty. rewrite (proj2 (Z.leb_gt BSP_LED_MAX led)) by lia. by rewrite (led_at_eq led s' Hl), En.
  - intros c Hc. by apply (others_lamp c ch).
  - intros l Hl0 Hne. rewrite El. apply nthz_insert_ne; [lia|done|done].
Qed.

(** The white and the infrared lamp on the shared channel
    are recorded together.  On working hardware, from both dark: lighting one succeeds and lights it;
    setting it to zero succeeds and darkens it, but its duty reads back as before; so
    lighting it again with the same duty, or lighting the other lamp with that duty,
    succeeds and changes nothing: both stay dark. *)
Theorem shared_lamp_stays_dark `{HW : BspHw D} {LW : BspHwLaws D} led duty (s : bsp_state D) :
  shared led -> 0 < duty <= 100 -> bsp_ok s -> recorded s 0 ->
  (forall l, shared l -> read_pin (enable_pin l) (bsp_hw s) = false) ->
  exists s1 s2, bsp_ctrl_set_led_duty led duty s = Ret SYS_OK s1 /\
    shared_lamp led (bsp_hw s1) = led_pulse (TIM_GET_AUTORELOAD TIM3_CH1 (bsp_hw s)) duty /\
    bsp_ctrl_set_led_duty led 0 s1 = Ret SYS_OK s2 /\
    (forall l, shared l -> shared_lamp l (bsp_hw s2) = 0 /\ bsp_ctrl_get_led_duty l s2 = Ret duty s2 /\
       bsp_ctrl_set_led_duty l duty s2 = Ret SYS_OK s2).
Proof.
  intros Hsh Hd Hs Hrec Hpins.
  destruct (returns_elim _ _ _ (light_shared led duty s Hsh Hd Hs Hrec)) as (r & s1 & E1 & -> & Hok1 & Hrec1 & Hl1 & Hp1).
  eexists s1, _. split_and!; [done|done|by eapply dim_shared|].
  destruct (pin_law (enable_pin led) false (bsp_hw s1)) as (Hp & Hq & _). intros l Hl.
  assert (Hb : 0 <= l < BSP_LED_MAX) by (destruct Hl as [-> | ->]; done).
  assert (Er : nthz (s_led_duty s1) l = duty) by by apply Hrec1. split_and!.
  - unfold shared_lamp. cbn [bsp_hw set_bsp_hw]. destruct (decide (enable_pin l = enable_pin led)) as [-> | Hne].
    + by rewrite Hp.
    + rewrite Hq, Hp1 by done. by rewrite Hpins.
  - unfold bsp_ctrl_get_led_duty. rewrite (proj2 (Z.leb_gt BSP_LED_MAX l)) by lia. rewrite led_at_eq by done. cbn [s_led_duty set_bsp_hw]. by rewrite Er.
  - apply same_duty_skipped; [done|lia|done].
Qed.
