(* ===== verification/BspIo.v ===== *)
(** Theorems on the outputs, the analogue channels and the alarm inputs of the board. *)
From Stdlib Require Import SpecFloat.
From S2P Require Import Prelude Ms41908mReg BspCtrl BspProps.

(** ** Outputs *)

(** The switched outputs, with the call that sets and the call that reads each. *)
Inductive output : Type := OFan | OHeat | ORadar | OAlarm (out : Z) | OWiegand (w : Z).
Definition output_ok (o : output) : Prop :=
  match o with
  | OAlarm out => out = BSP_ALARM_OUT0 \/ out = BSP_ALARM_OUT1
  | OWiegand w => w = BSP_WIEGAND0 \/ w = BSP_WIEGAND1
  | _ => True
  end.
Definition output_pin (o : output) : bsp_pin :=
  match o with
  | OFan => FAN_EN_Pin
  | OHeat => HEAT_EN_Pin
  | ORadar => RADAR_EN_Pin
  | OAlarm out => if out =? BSP_ALARM_OUT0 then ALARM_OUT0_Pin else ALARM_OUT1_Pin
  | OWiegand w => if w =? BSP_WIEGAND0 then WIEGAND_OUT0_Pin else WIEGAND_OUT1_Pin
  end.
(** What a set value reads back as: the fan and the heater have no levels in between. *)
Definition read_back (o : output) (v : Z) : Z :=
  match o with
  | OFan | OHeat => if v =? 0 then 0 else 100
  | _ => b2z (negb (v =? 0))
  end.

Section Outputs.
Context `{HW : BspHw D}.
Notation bsp := (bsp_state D).
Definition set_output (o : output) (v : Z) : M bsp Z :=
  match o with
  | OFan => bsp_ctrl_set_fan_duty v
  | OHeat => bsp_ctrl_set_heat_duty v
  | ORadar => bsp_ctrl_set_radar_en v
  | OAlarm out => bsp_ctrl_set_alarm_out out v
  | OWiegand w => bsp_ctrl_set_wiegand w v
  end.
Definition get_output (o : output) : M bsp Z :=
  match o with
  | OFan => bsp_ctrl_get_fan_duty
  | OHeat => bsp_ctrl_get_heat_duty
  | ORadar => bsp_ctrl_get_radar_en
  | OAlarm out => bsp_ctrl_get_alarm_out out
  | OWiegand w => bsp_ctrl_get_wiegand w
  end.

(** The level an output drives its pin to. *)
Definition drive (o : output) (v : Z) : bool :=
  match o with
  | OAlarm out => negb (bsp_ctrl_apply_invert (b2z (negb (v =? 0))) (bsp_ctrl_get_alarm_out_invert_flag out) =? 0)
  | OWiegand w => negb (bsp_ctrl_apply_invert (b2z (negb (v =? 0))) (bsp_ctrl_get_wiegand_invert_flag w) =? 0)
  | _ => negb (v =? 0)
  end.
Lemma cut_zero v : ((if 100 <? v then 100 else v) =? 0) = (v =? 0).
Proof. destruct (100 <? v) eqn:E; cbool; [|done]. symmetry. apply Z.eqb_neq. lia. Qed.
Lemma set_output_eq o v (s : bsp) : output_ok o ->
  set_output o v s = Ret SYS_OK (set_bsp_hw (write_pin (output_pin o) (drive o v) (bsp_hw s)) s).
Proof.
  destruct o as [| | |out|w]; cbn [output_ok set_output output_pin drive].
  - intros _. unfold bsp_ctrl_set_fan_duty. by rewrite cut_zero.
  - intros _. unfold bsp_ctrl_set_heat_duty. by rewrite cut_zero.
  - done.
  - by intros [-> | ->].
  - by intros [-> | ->].
Qed.
Lemma get_output_eq o v (s : bsp) : output_ok o -> read_pin (output_pin o) (bsp_hw s) = drive o v ->
  get_output o s = Ret (read_back o v) s.
Proof.
  destruct o as [| | |out|w]; cbn [output_ok get_output output_pin drive read_back].
  - intros _ E. unfold bsp_ctrl_get_fan_duty, gets. rewrite E. by destruct (v =? 0).
  - intros _ E. unfold bsp_ctrl_get_heat_duty, gets. rewrite E. by destruct (v =? 0).
  - intros _ E. unfold bsp_ctrl_get_radar_en, pin_level, gets. by rewrite E.
  - intros [-> | ->] E; cbn in E; unfold bsp_ctrl_get_alarm_out, pin_level; mstep; cbn; rewrite E; by destruct (v =? 0).
  - intros [-> | ->] E; cbn in E; unfold bsp_ctrl_get_wiegand, pin_level; mstep; cbn; rewrite E; by destruct (v =? 0).
Qed.
End Outputs.

(** Setting a switched output and reading it gives the value that was set, as far as
    the output can show it, through any inversion of the line; no other pin changes. *)
Theorem output_roundtrip `{HW : BspHw D} {LW : BspHwLaws D} o v (s : bsp_state D) :
  output_ok o ->
  exists s', set_output o v s = Ret SYS_OK s' /\ get_output o s' = Ret (read_back o v) s' /\
    (forall p, p <> output_pin o -> read_pin p (bsp_hw s') = read_pin p (bsp_hw s)).
Proof.
  intros Ho. rewrite (set_output_eq o v s Ho). eexists. split; [reflexivity|].
  destruct (pin_law (output_pin o) (drive o v) (bsp_hw s)) as (Hp & Hq & _). split; [|exact Hq].
  apply get_output_eq; [done|]. cbn [bsp_hw set_bsp_hw]. exact Hp.
Qed.

(** ** Analogue channels *)
Definition sample12 (v : Z) : Prop := 0 <= v <= 4095.
Definition event12 (e : bsp_event) : Prop := match e with DmaSample _ v => sample12 v | _ => True end.

Lemma sum_pairs_bounds n (l : list Z) : length l = (2 * n)%nat -> Forall sample12 l ->
  0 <= (sum_pairs l).1 <= 4095 * Z.of_nat n /\ 0 <= (sum_pairs l).2 <= 4095 * Z.of_nat n.
Proof.
  revert l. induction n as [|n IH]; intros l Hl Hf.
  - destruct l; [|done]. cbn. lia.
  - destruct l as [|a [|b l]]; [done|cbn in Hl; lia|]. cbn in Hl.
    apply Forall_cons in Hf as [Ha Hf]. apply Forall_cons in Hf as [Hb Hf]. unfold sample12 in Ha, Hb.
    destruct (IH l ltac:(lia) Hf). cbn [sum_pairs]. destruct (sum_pairs l). cbn [fst snd] in *. lia.
Qed.

Lemma raw_to_mv_bound vdda raw : 0 <= raw <= 4095 -> 2500 <= vdda <= 3800 -> 0 <= raw_to_mv vdda raw <= vdda.
Proof.
  intros Hr Hv. unfold raw_to_mv. rewrite (proj2 (Z.ltb_ge raw 0)) by lia.
  assert (0 <= raw * vdda <= 4095 * vdda) by nia. rewrite (u32_small (raw * vdda)) by lia.
  assert (raw * vdda / 4095 <= vdda) by (apply Z.div_le_upper_bound; lia).
  assert (0 <= raw * vdda / 4095) by (apply Z.div_pos; lia).
  rewrite (proj2 (Z.ltb_ge 65535 _)) by lia. rewrite u16_small by lia. lia.
Qed.

Section Samples.
Context `{HW : BspHw D}.
Notation bsp := (bsp_state D).
Context (samples12 : forall bits d, Forall event12 (meanwhile bits d).1).

(** Calls that leave a buffer of 12-bit samples one. *)
Definition buf12 (s : bsp) : Prop :=
  length (s_adc_buffer s) = 40%nat /\ Forall sample12 (s_adc_buffer s) /\ started s /\ 2500 <= s_adc_vdda_mv s <= 3800.
Lemma group12 b (s : bsp) : buf12 s -> buf12 (set_bsp_event_group (Some b) s).
Proof. intros (Hl & Hf & _ & Hv). exact (conj Hl (conj Hf (conj (ex_intro _ b eq_refl) Hv))). Qed.
Lemma bits12 bits (s : bsp) : buf12 s -> returns (set_event_bits bits) (fun _ => buf12) s.
Proof.
  intros Hs. pose proof Hs as (_ & _ & [b E] & _). unfold set_event_bits. rstep. rewrite E. rstep. by apply group12.
Qed.
Lemma alarm12 e (s : bsp) : event12 e -> buf12 s -> returns (bsp_happen e) (fun _ => buf12) s.
Proof.
  intros He Hs. pose proof Hs as (Hl & Hf & Hst & Hv). destruct e as [i v| | |pin []]; cbn [bsp_happen].
  - rstep. refine (conj _ (conj _ (conj Hst Hv))); [|by apply Forall_insert]. cbn. by rewrite length_insert.
  - unfold HAL_ADC_ConvCpltCallback. apply returns_bhw_call. by apply bits12.
  - unfold HAL_ADC_ErrorCallback. apply returns_bhw_call. by apply bits12.
  - unfold HAL_GPIO_EXTI_Rising_Callback. repeat (cif; [by apply bits12|]). by rstep.
  - unfold falling_alarm. repeat (cif; [rstep; cif; [by rstep|by apply bits12]|]). by rstep.
Qed.
Lemma happens12 es (s : bsp) : Forall event12 es -> buf12 s -> returns (bsp_happens es) (fun _ => buf12) s.
Proof.
  intros Hes. revert s. induction Hes as [|e es He Hes IH]; intros s Hs; cbn [bsp_happens]; [by rstep|].
  rcall alarm12; [done|done|]. intros _ s' Hs'. by apply IH.
Qed.
Lemma wait12 bits (s : bsp) : buf12 s -> returns (wait_bits bits) (fun _ => buf12) s.
Proof.
  intros Hs. pose proof Hs as (_ & _ & [b0 E] & _). unfold wait_bits. rstep. rewrite E. apply returns_bind.
  eapply returns_mono with (Q := fun _ => buf12).
  - cif; [by rstep|]. apply returns_bhw_call. by apply happens12.
  - intros _ s1 Hs1. pose proof Hs1 as (Hl & Hf & [b E1] & Hv). rstep. rewrite E1. apply returns_bind.
    eapply returns_mono with (Q := fun _ => buf12); [|intros _ s2 Hs2; by rstep].
    cif; [|by rstep]. rstep. by apply group12.
Qed.
Lemma read12 (s : bsp) : buf12 s ->
  returns bsp_ctrl_read_adc (fun r s' => buf12 s' /\ forall a b, r.2 = Some (a, b) -> 0 <= a <= 4095 /\ 0 <= b <= 4095) s.
Proof.
  intros Hs. unfold bsp_ctrl_read_adc. apply returns_bhw_call. cif; [by rstep|].
  rcall wait12; [done|]. intros ev s1 Hs1. cif; [by rstep|]. cif; [apply returns_bhw_call; by rstep|].
  rstep. pose proof Hs1 as (Hl & Hf & _ & _). destruct (sum_pairs_bounds 20 _ Hl Hf) as [B1 B2].
  destruct (sum_pairs (s_adc_buffer s1)) as [x y]. rstep. split; [done|]. cbn [fst snd] in *. intros a b [= <- <-].
  change (BSP_ADC_BUFFER_SIZE_MAX ÷ 2) with 20. rewrite !Z.quot_div_nonneg by lia.
  split; (split; [apply Z.div_pos; lia|apply Z.div_le_upper_bound; lia]).
Qed.
End Samples.

(** With 12-bit samples, the voltages of both channels lie between zero and the supply,
    also when a conversion fails or is late; neither the product nor the clamp to 16
    bits ever takes effect. *)
Theorem voltages_below_supply `{HW : BspHw D} (samples12 : forall bits (d : D), Forall event12 (meanwhile bits d).1) (s : bsp_state D) :
  buf12 s ->
  returns bsp_ctrl_get_pd_voltage_mv (fun mv s' => 0 <= mv <= s_adc_vdda_mv s') s /\
  returns bsp_ctrl_get_temp_voltage_mv (fun mv s' => 0 <= mv <= s_adc_vdda_mv s') s.
Proof.
  intros Hs. split.
  - unfold bsp_ctrl_get_pd_voltage_mv. rcall (read12 samples12); [done|]. intros [r [[a b]|]] s' [(_ & _ & _ & Hv) Hr].
    + destruct (Hr a b eq_refl). rstep. by apply raw_to_mv_bound.
    + rstep. lia.
  - unfold bsp_ctrl_get_temp_voltage_mv. rcall (read12 samples12); [done|]. intros [r [[a b]|]] s' [(_ & _ & _ & Hv) Hr].
    + destruct (Hr a b eq_refl). rstep. by apply raw_to_mv_bound.
    + rstep. lia.
Qed.

(** A temperature channel that cannot be read gives 0 mV, which the conversion of the
    sensor turns into 186.444 degrees. *)
Theorem failed_reading_is_hot `{HW : BspHw D} (s : bsp_state D) :
  (adc_start_dma (bsp_hw s)).1 = false ->
  (exists s', bsp_ctrl_get_temp_voltage_mv s = Ret 0 s') /\
  f32_to_int32 (f32_mul (bsp_ctrl_convert_lmt87_to_celcius 0) (f32 1000)) = Some 186444.
Proof.
  intros Hf. split; [|vm_compute; reflexivity]. unfold bsp_ctrl_get_temp_voltage_mv, bsp_ctrl_read_adc, bhw_call. mstep.
  destruct (adc_start_dma (bsp_hw s)) as [ok d'] eqn:E. cbn in Hf. subst ok. by eexists.
Qed.

(** ** Alarm inputs *)

(** A pulse that rises and falls again before the alarm task runs is reported as one
    edge, the rising one, so the last level the callback hears of is not the line's. *)
Theorem alarm_pulse_reports_rise `{HW : BspHw D} cb (s : bsp_state D) :
  bsp_event_group s = Some 0 -> s_alarm_in_callback s = [Some cb; None] ->
  exists s', (HAL_GPIO_EXTI_Rising_Callback ALARM_IN0_Pin;; falling_alarm ALARM_IN0_Pin;; bsp_ctrl_task_round) s = Ret tt s' /\
    alarm_calls s' = alarm_calls s ++ [(cb, BSP_ALARM_IN0, bsp_ctrl_apply_invert 1 BSP_ALARM_IN0_INVERT)] /\
    bsp_event_group s' = Some 0.
Proof.
  intros E Ec. destruct s as [l b v g c d ac]. cbn in E, Ec. subst g c. eexists. split; [reflexivity|]. done.
Qed.

(** A rising edge of an alarm input before the board control was started sets bits of an
    event group that does not exist; a falling edge is ignored. *)
Theorem rising_edge_before_start `{HW : BspHw D} pin (s : bsp_state D) :
  pin = ALARM_IN0_Pin \/ pin = ALARM_IN1_Pin -> bsp_event_group s = None ->
  HAL_GPIO_EXTI_Rising_Callback pin s = Undef /\ falling_alarm pin s = Ret tt s.
Proof. destruct s. cbn. by intros [-> | ->] ->. Qed.
