(* ===== verification/Rs485.v ===== *)
(** The RS485 driver ([app/Custom/Components/rs485_driver/rs485_driver.c]): start and
    stop, sending, the receive task, the frame it hands to [recv] and to the callback,
    and the interrupt callbacks of the UART.

    The UART, the kernel and the scheduler are the class [Rs485Hw].  What interrupts and
    the receive task do while another task waits is a list of [rs_event]s. *)
From S2P Require Import Prelude Ms41908mReg.

Definition RS485_EV_RX_COMPLETE : Z := 1.
Definition RS485_EV_RX_ERROR : Z := 2.
Definition RS485_EV_TX_COMPLETE : Z := 4.
Definition RS485_EV_RX_NOTIFY : Z := 8.
Definition RS485_EV_RX_FRAME : Z := 16.
Definition RS485_EV_EXIT_REQ : Z := 32.
Definition RS485_EV_EXIT_ACK : Z := 64.
Definition RS485_RX_BUFFER_SIZE : Z := 512.
Definition RS485_TX_BUFFER_SIZE : Z := 512.
Definition RS485_DEFAULT_TIMEOUT_MS : Z := 200.

Inductive word_length : Type := UART_WORDLENGTH_7B | UART_WORDLENGTH_8B | UART_WORDLENGTH_9B.
Inductive parity : Type := UART_PARITY_NONE | UART_PARITY_EVEN | UART_PARITY_ODD.
Inductive stop_bits : Type := UART_STOPBITS_1 | UART_STOPBITS_2.
#[export] Instance word_length_eq : EqDecision word_length.
Proof. solve_decision. Defined.
#[export] Instance parity_eq : EqDecision parity.
Proof. solve_decision. Defined.
#[export] Instance stop_bits_eq : EqDecision stop_bits.
Proof. solve_decision. Defined.

(** The fields of [UART_InitTypeDef] the driver changes. *)
Record uart_init_t : Type := mkUartInit {
  BaudRate : Z;
  WordLength : word_length;
  StopBits : stop_bits;
  Parity : parity
}.

Inductive rs_object : Type := RsEventGroup | RsTxMutex | RsFrameMutex | RsTask.
Inductive rs_mutex : Type := TxMutex | FrameMutex.
Inductive uart_call : Type :=
| UartAbort | UartDeInit | Rs485Init | TxFifoThreshold | RxFifoThreshold | FifoOff | UartMxInit
| ReceiveToIdle | AbortReceive | AbortTransmit.

(** What happens while a task waits: the line goes idle after bytes came in, a
    transmission ends, the UART reports an error, or the receive task runs. *)
Inductive rs_event : Type := RxIdle (l : list Z) | TxDone | UartErr | TaskRuns.

(** [true] is [HAL_OK], [pdTRUE], [pdPASS] or a handle that is not [NULL]. *)
Class Rs485Hw (D : Type) : Type := {
  rs_create : rs_object -> D -> bool * D;
  rs_acquire : rs_mutex -> D -> bool * D;
  uart : uart_call -> D -> bool * D;
  transmit_dma : list Z -> D -> bool * D;
  rs_meanwhile : Z -> D -> list rs_event * D
}.

(** The receive task: not created, created but not run yet, in its loop, ended. *)
Inductive task_state : Type := TaskNone | TaskNew | TaskLoop | TaskEnded.
#[export] Instance task_state_eq : EqDecision task_state.
Proof. solve_decision. Defined.

(** A mutex is [Some held] once it exists.  Static variables, [huart3.Init], the hardware, the state of the task and the calls
    made of the receive callback (callback, user, bytes). *)
Record rs_state (D : Type) : Type := mkRs {
  s_events : option Z;
  s_tx_mutex : option bool;
  s_rx_frame_mutex : option bool;
  s_rx_task : bool;
  s_inited : bool;
  s_rx_buf : list Z;
  s_tx_buf : list Z;
  s_rx_frame : list Z;
  s_rx_len : Z;
  s_rx_frame_len : Z;
  s_rx_frame_ready : bool;
  s_rx_cb : option Z;
  s_rx_cb_user : Z;
  uart_init : uart_init_t;
  rx_task : task_state;
  rs_hw : D;
  rx_calls : list (Z * Z * list Z)
}.
Arguments mkRs {D}.
Arguments s_events {D}.
Arguments s_tx_mutex {D}.
Arguments s_rx_frame_mutex {D}.
Arguments s_rx_task {D}.
Arguments s_inited {D}.
Arguments s_rx_buf {D}.
Arguments s_tx_buf {D}.
Arguments s_rx_frame {D}.
Arguments s_rx_len {D}.
Arguments s_rx_frame_len {D}.
Arguments s_rx_frame_ready {D}.
Arguments s_rx_cb {D}.
Arguments s_rx_cb_user {D}.
Arguments uart_init {D}.
Arguments rx_task {D}.
Arguments rs_hw {D}.
Arguments rx_calls {D}.

Definition set_s_events {D} (v : option Z) (s : rs_state D) : rs_state D :=
  mkRs v (s_tx_mutex s) (s_rx_frame_mutex s) (s_rx_task s) (s_inited s) (s_rx_buf s) (s_tx_buf s) (s_rx_frame s)
    (s_rx_len s) (s_rx_frame_len s) (s_rx_frame_ready s) (s_rx_cb s) (s_rx_cb_user s) (uart_init s) (rx_task s)
    (rs_hw s) (rx_calls s).
Definition set_s_tx_mutex {D} (v : option bool) (s : rs_state D) : rs_state D :=
  mkRs (s_events s) v (s_rx_frame_mutex s) (s_rx_task s) (s_inited s) (s_rx_buf s) (s_tx_buf s) (s_rx_frame s)
    (s_rx_len s) (s_rx_frame_len s) (s_rx_frame_ready s) (s_rx_cb s) (s_rx_cb_user s) (uart_init s) (rx_task s)
    (rs_hw s) (rx_calls s).
Definition set_s_rx_frame_mutex {D} (v : option bool) (s : rs_state D) : rs_state D :=
  mkRs (s_events s) (s_tx_mutex s) v (s_rx_task s) (s_inited s) (s_rx_buf s) (s_tx_buf s) (s_rx_frame s) (s_rx_len
    s) (s_rx_frame_len s) (s_rx_frame_ready s) (s_rx_cb s) (s_rx_cb_user s) (uart_init s) (rx_task s) (rs_hw s)
    (rx_calls s).
Definition set_s_rx_task {D} (v : bool) (s : rs_state D) : rs_state D :=
  mkRs (s_events s) (s_tx_mutex s) (s_rx_frame_mutex s) v (s_inited s) (s_rx_buf s) (s_tx_buf s) (s_rx_frame s)
    (s_rx_len s) (s_rx_frame_len s) (s_rx_frame_ready s) (s_rx_cb s) (s_rx_cb_user s) (uart_init s) (rx_task s)
    (rs_hw s) (rx_calls s).
Definition set_s_inited {D} (v : bool) (s : rs_state D) : rs_state D :=
  mkRs (s_events s) (s_tx_mutex s) (s_rx_frame_mutex s) (s_rx_task s) v (s_rx_buf s) (s_tx_buf s) (s_rx_frame s)
    (s_rx_len s) (s_rx_frame_len s) (s_rx_frame_ready s) (s_rx_cb s) (s_rx_cb_user s) (uart_init s) (rx_task s)
    (rs_hw s) (rx_calls s).
Definition set_s_rx_buf {D} (v : list Z) (s : rs_state D) : rs_state D :=
  mkRs (s_events s) (s_tx_mutex s) (s_rx_frame_mutex s) (s_rx_task s) (s_inited s) v (s_tx_buf s) (s_rx_frame s)
    (s_rx_len s) (s_rx_frame_len s) (s_rx_frame_ready s) (s_rx_cb s) (s_rx_cb_user s) (uart_init s) (rx_task s)
    (rs_hw s) (rx_calls s).
Definition set_s_tx_buf {D} (v : list Z) (s : rs_state D) : rs_state D :=
  mkRs (s_events s) (s_tx_mutex s) (s_rx_frame_mutex s) (s_rx_task s) (s_inited s) (s_rx_buf s) v (s_rx_frame s)
    (s_rx_len s) (s_rx_frame_len s) (s_rx_frame_ready s) (s_rx_cb s) (s_rx_cb_user s) (uart_init s) (rx_task s)
    (rs_hw s) (rx_calls s).
Definition set_s_rx_frame {D} (v : list Z) (s : rs_state D) : rs_state D :=
  mkRs (s_events s) (s_tx_mutex s) (s_rx_frame_mutex s) (s_rx_task s) (s_inited s) (s_rx_buf s) (s_tx_buf s) v
    (s_rx_len s) (s_rx_frame_len s) (s_rx_frame_ready s) (s_rx_cb s) (s_rx_cb_user s) (uart_init s) (rx_task s)
    (rs_hw s) (rx_calls s).
Definition set_s_rx_len {D} (v : Z) (s : rs_state D) : rs_state D :=
  mkRs (s_events s) (s_tx_mutex s) (s_rx_frame_mutex s) (s_rx_task s) (s_inited s) (s_rx_buf s) (s_tx_buf s)
    (s_rx_frame s) v (s_rx_frame_len s) (s_rx_frame_ready s) (s_rx_cb s) (s_rx_cb_user s) (uart_init s) (rx_task s)
    (rs_hw s) (rx_calls s).
Definition set_s_rx_frame_len {D} (v : Z) (s : rs_state D) : rs_state D :=
  mkRs (s_events s) (s_tx_mutex s) (s_rx_frame_mutex s) (s_rx_task s) (s_inited s) (s_rx_buf s) (s_tx_buf s)
    (s_rx_frame s) (s_rx_len s) v (s_rx_frame_ready s) (s_rx_cb s) (s_rx_cb_user s) (uart_init s) (rx_task s) (rs_hw
    s) (rx_calls s).
Definition set_s_rx_frame_ready {D} (v : bool) (s : rs_state D) : rs_state D :=
  mkRs (s_events s) (s_tx_mutex s) (s_rx_frame_mutex s) (s_rx_task s) (s_inited s) (s_rx_buf s) (s_tx_buf s)
    (s_rx_frame s) (s_rx_len s) (s_rx_frame_len s) v (s_rx_cb s) (s_rx_cb_user s) (uart_init s) (rx_task s) (rs_hw
    s) (rx_calls s).
Definition set_s_rx_cb {D} (v : option Z) (s : rs_state D) : rs_state D :=
  mkRs (s_events s) (s_tx_mutex s) (s_rx_frame_mutex s) (s_rx_task s) (s_inited s) (s_rx_buf s) (s_tx_buf s)
    (s_rx_frame s) (s_rx_len s) (s_rx_frame_len s) (s_rx_frame_ready s) v (s_rx_cb_user s) (uart_init s) (rx_task s)
    (rs_hw s) (rx_calls s).
Definition set_s_rx_cb_user {D} (v : Z) (s : rs_state D) : rs_state D :=
  mkRs (s_events s) (s_tx_mutex s) (s_rx_frame_mutex s) (s_rx_task s) (s_inited s) (s_rx_buf s) (s_tx_buf s)
    (s_rx_frame s) (s_rx_len s) (s_rx_frame_len s) (s_rx_frame_ready s) (s_rx_cb s) v (uart_init s) (rx_task s)
    (rs_hw s) (rx_calls s).
Definition set_uart_init {D} (v : uart_init_t) (s : rs_state D) : rs_state D :=
  mkRs (s_events s) (s_tx_mutex s) (s_rx_frame_mutex s) (s_rx_task s) (s_inited s) (s_rx_buf s) (s_tx_buf s)
    (s_rx_frame s) (s_rx_len s) (s_rx_frame_len s) (s_rx_frame_ready s) (s_rx_cb s) (s_rx_cb_user s) v (rx_task s)
    (rs_hw s) (rx_calls s).
Definition set_rx_task {D} (v : task_state) (s : rs_state D) : rs_state D :=
  mkRs (s_events s) (s_tx_mutex s) (s_rx_frame_mutex s) (s_rx_task s) (s_inited s) (s_rx_buf s) (s_tx_buf s)
    (s_rx_frame s) (s_rx_len s) (s_rx_frame_len s) (s_rx_frame_ready s) (s_rx_cb s) (s_rx_cb_user s) (uart_init s) v
    (rs_hw s) (rx_calls s).
Definition set_rs_hw {D} (v : D) (s : rs_state D) : rs_state D :=
  mkRs (s_events s) (s_tx_mutex s) (s_rx_frame_mutex s) (s_rx_task s) (s_inited s) (s_rx_buf s) (s_tx_buf s)
    (s_rx_frame s) (s_rx_len s) (s_rx_frame_len s) (s_rx_frame_ready s) (s_rx_cb s) (s_rx_cb_user s) (uart_init s)
    (rx_task s) v (rx_calls s).
Definition set_rx_calls {D} (v : list (Z * Z * list Z)) (s : rs_state D) : rs_state D :=
  mkRs (s_events s) (s_tx_mutex s) (s_rx_frame_mutex s) (s_rx_task s) (s_inited s) (s_rx_buf s) (s_tx_buf s)
    (s_rx_frame s) (s_rx_len s) (s_rx_frame_len s) (s_rx_frame_ready s) (s_rx_cb s) (s_rx_cb_user s) (uart_init s)
    (rx_task s) (rs_hw s) v.

(** The state at power-on. *)
Definition rs_power_on {D} (u : uart_init_t) (d : D) : rs_state D :=
  mkRs None None None false false (replicate 512 0) (replicate 512 0) (replicate 512 0) 0 0 false None 0 u TaskNone d [].

Definition ev_set (ev bits : Z) : bool := negb (Z.land ev bits =? 0).

(** ** Configuration *)
Fixpoint strlen (l : list Z) : Z :=
  match l with
  | [] => 0
  | c :: l => if c =? 0 then 0 else 1 + strlen l
  end.

(** The string is the bytes up to the first zero; [None] is [NULL]. *)
Definition rs485_parse_cfg (cfg : option (list Z)) (init : uart_init_t) : Z * uart_init_t :=
  match cfg with
  | None => (SYS_ERR_INVALID_ARG, init)
  | Some cfg =>
      if negb (strlen cfg =? 3) then (SYS_ERR_INVALID_FMT, init)
      else
        let c0 := nthz cfg 0 in let c1 := nthz cfg 1 in let c2 := nthz cfg 2 in
        let w := if c0 =? 55 then Some UART_WORDLENGTH_7B else if c0 =? 56 then Some UART_WORDLENGTH_8B
                 else if c0 =? 57 then Some UART_WORDLENGTH_9B else None in
        match w with
        | None => (SYS_ERR_INVALID_FMT, init)
        | Some w =>
            let init := mkUartInit (BaudRate init) w (StopBits init) (Parity init) in
            let p := if (c1 =? 78) || (c1 =? 110) then Some UART_PARITY_NONE
                     else if (c1 =? 69) || (c1 =? 101) then Some UART_PARITY_EVEN
                     else if (c1 =? 79) || (c1 =? 111) then Some UART_PARITY_ODD else None in
            match p with
            | None => (SYS_ERR_INVALID_FMT, init)
            | Some p =>
                let init := mkUartInit (BaudRate init) (WordLength init) (StopBits init) p in
                let st := if c2 =? 49 then Some UART_STOPBITS_1 else if c2 =? 50 then Some UART_STOPBITS_2 else None in
                match st with
                | None => (SYS_ERR_INVALID_FMT, init)
                | Some st => (SYS_OK, mkUartInit (BaudRate init) (WordLength init) st (Parity init))
                end
            end
        end
  end.

Section Rs485.
Context `{Rs485Hw D}.
Notation rs := (rs_state D).

Definition rhw_call {A} (f : D -> A * D) : M rs A :=
  d ← gets rs_hw;
  let '(a, d') := f d in
  modify (set_rs_hw d');;
  mret a.

(** Bits of a group that does not exist: [NULL] is dereferenced. *)
Definition rs_set_bits (bits : Z) : M rs unit :=
  g ← gets s_events;
  match g with
  | Some b => modify (set_s_events (Some (Z.lor b bits)))
  | None => undef
  end.

(** [xSemaphoreTake] and [xSemaphoreGive]. *)
Definition mutex_of (m : rs_mutex) (s : rs) : option bool :=
  match m with TxMutex => s_tx_mutex s | FrameMutex => s_rx_frame_mutex s end.
Definition set_mutex (m : rs_mutex) (v : option bool) (s : rs) : rs :=
  match m with TxMutex => set_s_tx_mutex v s | FrameMutex => set_s_rx_frame_mutex v s end.
Definition rs_take (m : rs_mutex) : M rs bool :=
  x ← gets (mutex_of m);
  match x with
  | None => undef
  | Some held =>
      ok ← rhw_call (rs_acquire m);
      if negb held && ok then modify (set_mutex m (Some true));; mret true else mret false
  end.
Definition rs_give (m : rs_mutex) : M rs unit :=
  x ← gets (mutex_of m);
  match x with
  | None => undef
  | Some _ => modify (set_mutex m (Some false))
  end.

(** ** Interrupt callbacks, for [USART3] *)
Definition rs_irq_ready (s : rs) : bool := bool_decide (is_Some (s_events s)) && s_inited s.

Definition rs485_driver_on_uart3_rx_event (size : Z) : M rs unit :=
  s ← get;
  if negb (rs_irq_ready s) then mret tt
  else modify (set_s_rx_len size);; rs_set_bits RS485_EV_RX_NOTIFY.
Definition rs485_driver_on_uart3_tx_done : M rs unit :=
  s ← get;
  if negb (rs_irq_ready s) then mret tt else rs_set_bits RS485_EV_TX_COMPLETE.
Definition rs485_driver_on_uart3_error : M rs unit :=
  s ← get;
  if negb (rs_irq_ready s) then mret tt else rs_set_bits RS485_EV_RX_ERROR.

(** ** The receive task *)
Definition rx_notify : M rs unit :=
  len ← gets s_rx_len;
  let n := if RS485_RX_BUFFER_SIZE <? len then RS485_RX_BUFFER_SIZE else len in
  ok ← rs_take FrameMutex;
  (if ok : bool then
     (if 0 <? n then
        modify (fun s => set_s_rx_frame (memcpy_at 0 (take (Z.to_nat n) (s_rx_buf s)) (s_rx_frame s)) s)
      else mret tt);;
     modify (set_s_rx_frame_len n);;
     modify (set_s_rx_frame_ready true);;
     rs_give FrameMutex;;
     rs_set_bits (Z.lor RS485_EV_RX_FRAME RS485_EV_RX_COMPLETE)
   else mret tt);;
  s ← get;
  (match s_rx_cb s with
   | Some cb =>
       if 0 <? n then
         modify (set_rx_calls (rx_calls s ++ [(cb, s_rx_cb_user s, take (Z.to_nat n) (s_rx_buf s))]))
       else mret tt
   | None => mret tt
   end);;
  rhw_call (uart ReceiveToIdle);;
  mret tt.

Definition RX_TASK_BITS : Z := Z.lor (Z.lor RS485_EV_RX_NOTIFY RS485_EV_RX_ERROR) RS485_EV_EXIT_REQ.

(** One round of the loop, from the wait to the next one.  A task whose group was
    deleted under it waits on [NULL]. *)
Definition rx_loop_round : M rs unit :=
  g ← gets s_events;
  match g with
  | None => undef
  | Some ev =>
      if negb (ev_set ev RX_TASK_BITS) then mret tt
      else
        modify (set_s_events (Some (Z.ldiff ev RX_TASK_BITS)));;
        if ev_set ev RS485_EV_EXIT_REQ then
          rs_set_bits RS485_EV_EXIT_ACK;;
          modify (set_rx_task TaskEnded)
        else if ev_set ev RS485_EV_RX_ERROR then
          rhw_call (uart AbortReceive);;
          rhw_call (uart ReceiveToIdle);;
          mret tt
        else if ev_set ev RS485_EV_RX_NOTIFY then rx_notify
        else mret tt
  end.

(** The scheduler gives the task a turn. *)
Definition rs485_rx_task : M rs unit :=
  t ← gets rx_task;
  match t with
  | TaskNew =>
      ok ← rhw_call (uart ReceiveToIdle);
      (if negb ok : bool then rs_set_bits RS485_EV_RX_ERROR else mret tt);;
      modify (set_rx_task TaskLoop);;
      rx_loop_round
  | TaskLoop => rx_loop_round
  | _ => mret tt
  end.

(** The DMA fills the buffer from its start; the interrupt reports how much. *)
Definition rs_happen (e : rs_event) : M rs unit :=
  match e with
  | RxIdle l =>
      modify (fun s => set_s_rx_buf (memcpy_at 0 (take 512 l) (s_rx_buf s)) s);;
      rs485_driver_on_uart3_rx_event (Z.min 512 (zlen l))
  | TxDone => rs485_driver_on_uart3_tx_done
  | UartErr => rs485_driver_on_uart3_error
  | TaskRuns => rs485_rx_task
  end.

Fixpoint rs_happens (es : list rs_event) : M rs unit :=
  match es with
  | [] => mret tt
  | e :: es => rs_happen e;; rs_happens es
  end.

(** [xEventGroupWaitBits(s_events, bits, pdTRUE, pdFALSE, ..)]. *)
Definition rs_wait (bits : Z) : M rs Z :=
  g ← gets s_events;
  match g with
  | None => undef
  | Some b0 =>
      (if ev_set b0 bits then mret tt else es ← rhw_call (rs_meanwhile bits); rs_happens es);;
      g ← gets s_events;
      match g with
      | None => undef
      | Some b =>
          (if ev_set b bits then modify (set_s_events (Some (Z.ldiff b bits))) else mret tt);;
          mret b
      end
  end.

(** ** Start and stop *)

(** The board's own set-up of the port: 115200 8N1.  Its four HAL calls are one
    operation, taken to succeed (a failure ends in [Error_Handler]). *)
Definition MX_USART3_UART_Init : M rs unit :=
  modify (set_uart_init (mkUartInit 115200 UART_WORDLENGTH_8B UART_STOPBITS_1 UART_PARITY_NONE));;
  rhw_call (uart UartMxInit);;
  mret tt.

Definition rs485_driver_deinit : M rs Z :=
  s ← get;
  (if s_rx_task s && bool_decide (is_Some (s_events s)) then
     rs_set_bits RS485_EV_EXIT_REQ;;
     rs_wait RS485_EV_EXIT_ACK;;
     modify (set_s_rx_task false)
   else mret tt);;
  rhw_call (uart UartAbort);;
  ini ← gets s_inited;
  (if ini : bool then rhw_call (uart UartDeInit);; MX_USART3_UART_Init else mret tt);;
  modify (set_s_inited false);;
  modify (set_s_rx_len 0);;
  modify (set_s_rx_frame_ready false);;
  modify (set_s_rx_frame_mutex None);;
  modify (set_s_tx_mutex None);;
  modify (set_s_events None);;
  mret SYS_OK.

(** From the parsed configuration to the running task. *)
Definition rs485_start (cfg : uart_init_t) : M rs Z :=
  rhw_call (uart UartAbort);;
  rhw_call (uart UartDeInit);;
  modify (set_uart_init cfg);;
  ok ← rhw_call (uart Rs485Init);
  if negb ok : bool then rs485_driver_deinit;; mret SYS_ERR_HAL
  else
    ok ← rhw_call (uart TxFifoThreshold);
    ok ← (if negb ok : bool then mret false else rhw_call (uart RxFifoThreshold));
    ok ← (if negb ok : bool then mret false else rhw_call (uart FifoOff));
    if negb ok : bool then rs485_driver_deinit;; mret SYS_ERR_HAL
    else
      modify (set_s_rx_buf (replicate 512 0));;
      modify (set_s_tx_buf (replicate 512 0));;
      modify (set_s_rx_frame (replicate 512 0));;
      modify (set_s_rx_len 0);;
      modify (set_s_rx_frame_len 0);;
      modify (set_s_rx_frame_ready false);;
      modify (set_s_rx_cb None);;
      modify (set_s_rx_cb_user 0);;
      ok ← rhw_call (rs_create RsTask);
      if negb ok : bool then rs485_driver_deinit;; mret SYS_ERR_NO_MEM
      else
        modify (set_s_rx_task true);;
        modify (set_rx_task TaskNew);;
        es ← rhw_call (rs_meanwhile 0);
        rs_happens es;;
        modify (set_s_inited true);;
        mret SYS_OK.

Definition rs485_driver_init (baudrate : Z) (config : option (list Z)) : M rs Z :=
  s ← get;
  if s_inited s then mret SYS_ERR_INVALID_STATE
  else if (baudrate <? 1200) || (1000000 <? baudrate) then mret SYS_ERR_OUT_OF_RANGE
  else
    ok ← rhw_call (rs_create RsEventGroup);
    if negb ok : bool then modify (set_s_events None);; mret SYS_ERR_NO_MEM
    else
      modify (set_s_events (Some 0));;
      ok ← rhw_call (rs_create RsTxMutex);
      if negb ok : bool then modify (set_s_tx_mutex None);; modify (set_s_events None);; mret SYS_ERR_NO_MEM
      else
        modify (set_s_tx_mutex (Some false));;
        ok ← rhw_call (rs_create RsFrameMutex);
        if negb ok : bool then
          modify (set_s_rx_frame_mutex None);; modify (set_s_tx_mutex None);; modify (set_s_events None);;
          mret SYS_ERR_NO_MEM
        else
          modify (set_s_rx_frame_mutex (Some false));;
          u ← gets uart_init;
          let cfg := mkUartInit baudrate (WordLength u) (StopBits u) (Parity u) in
          match config with
          | None => rs485_start cfg
          | Some _ =>
              let '(ret, cfg) := rs485_parse_cfg config cfg in
              if negb (ret =? SYS_OK) then rs485_driver_deinit;; mret ret else rs485_start cfg
          end.

(** ** Sending and receiving *)

(** From the mutex on. *)
Definition rs_transmit (data : list Z) (len : Z) : M rs Z :=
  ok ← rs_take TxMutex;
  if negb ok : bool then mret SYS_ERR_TIMEOUT
  else
    modify (fun s => set_s_tx_buf (memcpy_at 0 (take (Z.to_nat len) data) (s_tx_buf s)) s);;
    g ← gets s_events;
    match g with
    | None => undef
    | Some b =>
        modify (set_s_events (Some (Z.ldiff b RS485_EV_TX_COMPLETE)));;
        buf ← gets s_tx_buf;
        ok ← rhw_call (transmit_dma (take (Z.to_nat len) buf));
        if negb ok : bool then rs_give TxMutex;; mret SYS_ERR_HAL
        else
          ev ← rs_wait RS485_EV_TX_COMPLETE;
          rs_give TxMutex;;
          if negb (ev_set ev RS485_EV_TX_COMPLETE) then rhw_call (uart AbortTransmit);; mret SYS_ERR_TIMEOUT
          else mret SYS_OK
    end.

(** [data] is the block the caller passes ([None] is [NULL]); [len] bytes of it are read. *)
Definition rs485_driver_send (data : option (list Z)) (len : Z) : M rs Z :=
  s ← get;
  if negb (s_inited s) then mret SYS_ERR_INVALID_STATE
  else
    match data with
    | None => mret SYS_ERR_INVALID_ARG
    | Some data =>
        if (len =? 0) || (RS485_TX_BUFFER_SIZE <? len) then mret SYS_ERR_INVALID_ARG
        else if zlen data <? len then undef
        else rs_transmit data len
    end.

(** The frame, cut to the caller's buffer. *)
Definition take_frame (data_len : Z) : M rs (Z * list Z) :=
  s ← get;
  let rx_len := if data_len <? s_rx_frame_len s then data_len else s_rx_frame_len s in
  modify (set_s_rx_frame_ready false);;
  rs_give FrameMutex;;
  mret (SYS_OK, take (Z.to_nat rx_len) (s_rx_frame s)).

(** The bytes returned are what is copied to [data]; their number is [*out_len]. *)
Definition rs485_driver_recv (data_len : Z) : M rs (Z * list Z) :=
  s ← get;
  if negb (s_inited s) then mret (SYS_ERR_INVALID_STATE, [])
  else if data_len =? 0 then mret (SYS_ERR_INVALID_ARG, [])
  else
    ok ← rs_take FrameMutex;
    ready ← gets s_rx_frame_ready;
    if ok && ready then take_frame data_len
    else
      (if ok : bool then rs_give FrameMutex else mret tt);;
      ev ← rs_wait (Z.lor RS485_EV_RX_FRAME RS485_EV_RX_ERROR);
      if ev_set ev RS485_EV_RX_ERROR then mret (SYS_ERR_HAL, [])
      else if negb (ev_set ev RS485_EV_RX_FRAME) then mret (SYS_ERR_TIMEOUT, [])
      else
        ok ← rs_take FrameMutex;
        if negb ok : bool then mret (SYS_ERR_TIMEOUT, [])
        else
          ready ← gets s_rx_frame_ready;
          if negb ready : bool then rs_give FrameMutex;; mret (SYS_ERR_TIMEOUT, []) else take_frame data_len.

Definition rs485_driver_txrx (tx_data : option (list Z)) (tx_len rx_len : Z) : M rs (Z * list Z) :=
  ret ← rs485_driver_send tx_data tx_len;
  if negb (ret =? SYS_OK) then mret (ret, []) else rs485_driver_recv rx_len.

Definition rs485_driver_is_inited : M rs Z := gets (fun s => b2z (s_inited s)).

Definition rs485_driver_set_rx_callback (cb : option Z) (user : Z) : M rs Z :=
  s ← get;
  if negb (s_inited s) then mret SYS_ERR_INVALID_STATE
  else
    modify (set_s_rx_cb cb);;
    modify (set_s_rx_cb_user user);;
    mret SYS_OK.
End Rs485.
