(* ===== verification/Rs485Props.v ===== *)
(** Theorems on the RS485 driver: every call on arbitrary hardware, the way of a frame
    from the line to the caller, and the event bit that outlives its frame. *)
From S2P Require Import Prelude Ms41908mReg Rs485.

(** ** Bits *)
Lemma ev_set_pow2 b k : 0 <= k -> ev_set b (2 ^ k) = Z.testbit b k.
Proof.
  intros Hk. unfold ev_set. destruct (Z.testbit b k) eqn:E.
  - apply negb_true_iff, Z.eqb_neq. intros E0. apply (f_equal (fun x => Z.testbit x k)) in E0.
    rewrite Z.land_spec, Z.pow2_bits_true, E, Z.bits_0 in E0 by done. done.
  - apply negb_false_iff, Z.eqb_eq. apply Z.bits_inj_iff'. intros i Hi.
    rewrite Z.land_spec, Z.bits_0, Z.pow2_bits_eqb by lia.
    destruct (k =? i) eqn:Ek; [|apply andb_false_r]. apply Z.eqb_eq in Ek. subst. by rewrite E.
Qed.
Lemma exit_req_bit b : ev_set b RS485_EV_EXIT_REQ = Z.testbit b 5.
Proof. by apply (ev_set_pow2 b 5). Qed.
Lemma exit_ack_bit b : ev_set b RS485_EV_EXIT_ACK = Z.testbit b 6.
Proof. by apply (ev_set_pow2 b 6). Qed.
(** A bit asked for is enough for the mask. *)
Lemma ev_set_sub b bits k : 0 <= k -> Z.testbit bits k = true -> Z.testbit b k = true -> ev_set b bits = true.
Proof.
  intros Hk Hb Hx. apply negb_true_iff, Z.eqb_neq. intros E. apply (f_equal (fun x => Z.testbit x k)) in E.
  by rewrite Z.land_spec, Hb, Hx, Z.bits_0 in E.
Qed.

(** ** The invariant *)
Record rs_wf {D} (s : rs_state D) : Prop := {
  wf_rx : length (s_rx_buf s) = 512%nat;
  wf_tx : length (s_tx_buf s) = 512%nat;
  wf_fr : length (s_rx_frame s) = 512%nat;
  wf_len : 0 <= s_rx_len s <= 512;
  wf_flen : 0 <= s_rx_frame_len s <= 512
}.
Definition task_alive {D} (s : rs_state D) : Prop := rx_task s = TaskNew \/ rx_task s = TaskLoop.
Definition task_gone {D} (s : rs_state D) : Prop := rx_task s = TaskNone \/ rx_task s = TaskEnded.

(** Running, with the send mutex held or not; [leaving]: the task was asked to end. *)
Record live {D} (tx leaving : bool) (s : rs_state D) : Prop := {
  lv_wf : rs_wf s;
  lv_tx : s_tx_mutex s = Some tx;
  lv_fr : s_rx_frame_mutex s = Some false;
  lv_ev : exists b, s_events s = Some b /\
    if leaving then (Z.testbit b 5 = true /\ Z.testbit b 6 = false /\ task_alive s) \/ rx_task s = TaskEnded
    else Z.testbit b 5 = false /\ Z.testbit b 6 = false /\ task_alive s
}.
Record stopped {D} (s : rs_state D) : Prop := {
  st_wf : rs_wf s;
  st_tx : s_tx_mutex s = None;
  st_fr : s_rx_frame_mutex s = None;
  st_ev : s_events s = None;
  st_handle : s_rx_task s = false;
  st_task : task_gone s
}.
Definition rs_inv {D} (s : rs_state D) : Prop :=
  if s_inited s then live false false s /\ s_rx_task s = true else stopped s.

(** What an event leaves alone. *)
Record same_flags {D} (s s' : rs_state D) : Prop := {
  sf_ini : s_inited s' = s_inited s;
  sf_handle : s_rx_task s' = s_rx_task s;
  sf_uart : uart_init s' = uart_init s
}.
Lemma same_flags_refl {D} (s : rs_state D) : same_flags s s.
Proof. done. Qed.
Lemma same_flags_trans {D} (s1 s2 s3 : rs_state D) : same_flags s1 s2 -> same_flags s2 s3 -> same_flags s1 s3.
Proof. intros [] []. constructor; congruence. Qed.

Section Events.
Context `{HW : Rs485Hw D}.
Notation rs := (rs_state D).

Lemma returns_rhw_call {A B} (f : D -> A * D) (k : A -> M rs B) Q s :
  returns (k (f (rs_hw s)).1) Q (set_rs_hw (f (rs_hw s)).2 s) -> returns (rhw_call f ≫= k) Q s.
Proof. unfold rhw_call. intros Hk. rstep. by destruct (f (rs_hw s)). Qed.

Definition event_post (tx lv : bool) (s s' : rs) : Prop := live tx lv s' /\ same_flags s s'.
Definition good {A} (tx lv : bool) (m : M rs A) : Prop := forall s, live tx lv s -> returns m (fun _ => event_post tx lv s) s.

Lemma live_hw tx lv d (s : rs) : live tx lv s -> live tx lv (set_rs_hw d s).
Proof. intros [[] ? ? ?]. by constructor; [constructor|..]. Qed.

Lemma good_ret {A} tx lv (a : A) : good tx lv (mret a).
Proof. intros s Hs. rstep. by split. Qed.
Lemma good_bind {A B} tx lv (m : M rs A) (f : A -> M rs B) : good tx lv m -> (forall a, good tx lv (f a)) -> good tx lv (m ≫= f).
Proof.
  intros Hm Hf s Hs. rcall (Hm s Hs). intros a s1 [Hs1 F1]. eapply returns_mono; [by apply Hf|].
  intros b s2 [Hs2 F2]. split; [done|by eapply same_flags_trans].
Qed.
Lemma good_if {A} (b : bool) tx lv (m1 m2 : M rs A) : good tx lv m1 -> good tx lv m2 -> good tx lv (if b then m1 else m2).
Proof. destruct b; auto. Qed.
Lemma good_gets {A} tx lv (f : rs -> A) : good tx lv (gets f).
Proof. intros s Hs. rstep. by split. Qed.
Lemma good_get tx lv : good tx lv (get (S := rs)).
Proof. intros s Hs. unfold returns, get. by split. Qed.
Lemma good_call {A} tx lv (f : D -> A * D) : good tx lv (rhw_call f).
Proof. intros s Hs. unfold rhw_call. rstep. destruct (f _). rstep. split; [by apply live_hw|done]. Qed.
Lemma good_modify tx lv f : (forall s, live tx lv s -> live tx lv (f s) /\ same_flags s (f s)) -> good tx lv (modify f).
Proof. intros Hf s Hs. rstep. by apply Hf. Qed.

(** Bits other than those of the exit protocol. *)
Lemma bits_ok tx lv bits s : Z.testbit bits 5 = false -> Z.testbit bits 6 = false -> live tx lv s ->
  returns (rs_set_bits bits) (fun _ s' => event_post tx lv s s' /\ rx_task s' = rx_task s) s.
Proof.
  intros H5 H6 [Hw Ht Hf (b & E & Hb)]. unfold rs_set_bits. rstep. rewrite E. rstep. split; [|done]. split; [|done].
  destruct Hw. constructor; [by constructor|done|done|]. exists (Z.lor b bits). split; [done|].
  rewrite !Z.lor_spec, H5, H6, !orb_false_r. done.
Qed.
Lemma good_bits tx lv bits : Z.testbit bits 5 = false -> Z.testbit bits 6 = false -> good tx lv (rs_set_bits bits).
Proof. intros H5 H6 s Hs. eapply returns_mono; [by apply bits_ok|]. by intros _ s' [? _]. Qed.
Lemma good_irq_gate tx lv (m : M rs unit) : good tx lv m ->
  good tx lv (s ← get; if negb (rs_irq_ready s) then mret tt else m).
Proof. intros Hm. apply good_bind; [apply good_get|intros s0]. apply good_if; [apply good_ret|done]. Qed.

Lemma good_take lv tx : forall s, live tx lv s ->
  returns (rs_take FrameMutex) (fun ok s' => same_flags s s' /\ s_rx_cb s' = s_rx_cb s /\
    if ok then live tx lv (set_s_rx_frame_mutex (Some false) s') /\ s_rx_frame_mutex s' = Some true else live tx lv s') s.
Proof.
  intros s Hs. unfold rs_take. rstep. cbn [mutex_of]. rewrite (lv_fr _ _ _ Hs). apply returns_rhw_call.
  cbn [negb andb]. destruct (rs_acquire FrameMutex (rs_hw s)).1; rstep; split_and!; try done.
  - apply (live_hw _ _ (rs_acquire FrameMutex (rs_hw s)).2) in Hs. destruct Hs as [[] ? ? ?]. by constructor; [constructor|..].
  - by apply live_hw.
Qed.

(** Giving the mutex back, between taking it and the next event. *)
Lemma give_frame tx lv (s0 s : rs) : live tx lv (set_s_rx_frame_mutex (Some false) s) -> s_rx_frame_mutex s = Some true ->
  same_flags s0 s -> returns (rs_give FrameMutex) (fun _ => event_post tx lv s0) s.
Proof.
  intros Hs E F. unfold rs_give. rstep. cbn [mutex_of]. rewrite E. rstep. split; [done|]. by destruct F.
Qed.

Lemma length_memcpy_0 {A} (n : nat) (src dst : list A) : (length src <= n)%nat -> length dst = n ->
  length (memcpy_at 0 src dst) = n.
Proof. intros. rewrite length_memcpy_at; lia. Qed.

Lemma good_store tx lv n (s0 s : rs) : 0 <= n <= 512 -> live tx lv (set_s_rx_frame_mutex (Some false) s) ->
  s_rx_frame_mutex s = Some true -> same_flags s0 s ->
  returns ((if 0 <? n then
      modify (fun s => set_s_rx_frame (memcpy_at 0 (take (Z.to_nat n) (s_rx_buf s)) (s_rx_frame s)) s) else mret tt);;
     modify (set_s_rx_frame_len n);;
     modify (set_s_rx_frame_ready true);;
     rs_give FrameMutex;;
     rs_set_bits (Z.lor RS485_EV_RX_FRAME RS485_EV_RX_COMPLETE)) (fun _ => event_post tx lv s0) s.
Proof.
  intros Hn Hs E F.
  assert (forall s', live tx lv (set_s_rx_frame_mutex (Some false) s') -> s_rx_frame_mutex s' = Some true -> same_flags s0 s' ->
    returns (modify (set_s_rx_frame_len n);; modify (set_s_rx_frame_ready true);; rs_give FrameMutex;;
      rs_set_bits (Z.lor RS485_EV_RX_FRAME RS485_EV_RX_COMPLETE)) (fun _ => event_post tx lv s0) s') as Hrest.
  { intros s' Hs' E' F'. rstep. rcall (give_frame tx lv s0).
    - destruct Hs' as [[] ? ? ?]. by constructor; [constructor|..].
    - done.
    - by destruct F'.
    - intros _ s1 [Hs1 F1]. eapply returns_mono; [by apply good_bits|]. intros _ s2 [Hs2 F2].
      split; [done|by eapply same_flags_trans]. }
  cif; [|rstep; by apply Hrest]. rstep. apply Hrest; [|done|by destruct F].
  destruct Hs as [[Hr Ht Hf ? ?] ? ? ?]. cbn in *. constructor; cbn; [|done..]. constructor; cbn; try done.
  apply length_memcpy_0; [rewrite length_take; lia|done].
Qed.

Lemma good_notify tx lv : good tx lv rx_notify.
Proof.
  intros s Hs. unfold rx_notify. rstep.
  assert (Hn : 0 <= (if RS485_RX_BUFFER_SIZE <? s_rx_len s then RS485_RX_BUFFER_SIZE else s_rx_len s) <= 512).
  { destruct (lv_wf _ _ _ Hs) as [_ _ _ ? _]. unfold RS485_RX_BUFFER_SIZE. cif; lia. }
  revert Hn. generalize (if RS485_RX_BUFFER_SIZE <? s_rx_len s then RS485_RX_BUFFER_SIZE else s_rx_len s). intros n Hn.
  rcall good_take; [done|]. intros ok s1 (F1 & _ & Hs1).
  apply returns_bind. eapply returns_mono with (Q := fun _ => event_post tx lv s).
  - destruct ok; [destruct Hs1; by apply good_store|]. rstep. by split.
  - intros _ s2 [Hs2 F2]. rstep. eapply returns_mono with (Q := fun _ => event_post tx lv s2).
    + apply good_bind; [|intros _; apply good_bind; [apply good_call|intros _; apply good_ret]|done].
      destruct (s_rx_cb s2); [|apply good_ret]. apply good_if; [|apply good_ret]. apply good_modify.
      intros s3 [[] ? ? ?]. split; [by constructor; [constructor|..]|done].
    + intros _ s3 [Hs3 F3]. split; [done|by eapply same_flags_trans].
Qed.

(** A round of the task.  Asked to end, it ends. *)
Lemma loop_round_ok tx lv (s : rs) : rx_task s = TaskLoop -> live tx lv s ->
  returns rx_loop_round (fun _ s' => event_post tx lv s s' /\ (lv = true -> rx_task s' = TaskEnded)) s.
Proof.
  intros Et Hs. pose proof Hs as [Hw Ht Hf (b & E & Hb)]. unfold rx_loop_round. rstep. rewrite E.
  destruct lv.
  - destruct Hb as [(H5 & H6 & _)|Hend]; [|congruence].
    rewrite (ev_set_sub b RX_TASK_BITS 5) by done. cbn [negb]. rstep. rewrite exit_req_bit, H5.
    unfold rs_set_bits. rstep. split; [|done]. split; [|done].
    destruct Hw. constructor; [by constructor|done|done|]. eexists. split; [done|]. by right.
  - destruct Hb as (H5 & H6 & Ha). cif; [rstep; by split|]. rstep. set (s1 := set_s_events _ s).
    assert (Hs1 : live tx false s1).
    { destruct Hw. constructor; [by constructor|done|done|]. eexists. split; [done|].
      rewrite !Z.ldiff_spec, H5, H6. done. }
    rewrite exit_req_bit, H5. eapply returns_mono with (Q := fun _ => event_post tx false s1).
    + cif; [|cif; [by apply good_notify|rstep; by split]].
      apply good_bind; [apply good_call|intros _; apply good_bind; [apply good_call|intros _; apply good_ret]|done].
    + intros _ s2 [Hs2 [? ? ?]]. by split.
Qed.

Lemma task_ok tx lv (s : rs) : live tx lv s -> task_alive s \/ rx_task s = TaskEnded ->
  returns rs485_rx_task (fun _ s' => event_post tx lv s s' /\ (lv = true -> rx_task s' = TaskEnded)) s.
Proof.
  intros Hs Ha. unfold rs485_rx_task. rstep. destruct (rx_task s) eqn:Et.
  - destruct Ha as [[Ha|Ha]|Ha]; congruence.
  - apply returns_rhw_call. set (s1 := set_rs_hw _ s). assert (Hs1 : live tx lv s1) by by apply live_hw.
    apply returns_bind. eapply returns_mono with (Q := fun r s' => event_post tx lv s1 s' /\ rx_task s' = rx_task s1).
    { cif; [by apply bits_ok|by rstep]. }
    intros _ s2 [[Hs2 F2] Et2]. rstep. eapply returns_mono; [apply (loop_round_ok tx lv)|].
    + done.
    + destruct Hs2 as [[] ? ? (b & E & Hb)]. constructor; [by constructor|done|done|]. exists b. split; [done|].
      destruct lv; [|destruct Hb as (? & ? & _); split_and!; [done..|by right]].
      destruct Hb as [(? & ? & _)|Hend]; [left; split_and!; [done..|by right]|].
      rewrite Et2 in Hend. cbn in Hend. congruence.
    + intros _ s3 [[Hs3 F3] Hend]. split; [|done]. split; [done|]. destruct F2, F3. constructor; cbn in *; congruence.
  - by apply loop_round_ok.
  - rstep. by split.
Qed.

Lemma live_task tx lv (s : rs) : live tx lv s -> task_alive s \/ rx_task s = TaskEnded.
Proof. intros [_ _ _ (b & _ & Hb)]. destruct lv; [destruct Hb as [(_ & _ & ?)|?]|destruct Hb as (_ & _ & ?)]; auto. Qed.

Lemma irq_ok tx lv bits (s : rs) : Z.testbit bits 5 = false -> Z.testbit bits 6 = false -> live tx lv s ->
  returns (s0 ← get; if negb (rs_irq_ready s0) then mret tt else rs_set_bits bits)
    (fun _ s' => event_post tx lv s s' /\ rx_task s' = rx_task s) s.
Proof. intros. rstep. cif; [by rstep|by apply bits_ok]. Qed.

Lemma happen_ok tx lv e (s : rs) : live tx lv s ->
  returns (rs_happen e) (fun _ s' => event_post tx lv s s' /\ (rx_task s = TaskEnded -> rx_task s' = TaskEnded) /\
    (lv = true -> e = TaskRuns -> rx_task s' = TaskEnded)) s.
Proof.
  intros Hs. destruct e as [l| | |]; cbn [rs_happen].
  - rstep. unfold rs485_driver_on_uart3_rx_event. rstep. set (s1 := set_s_rx_buf _ s).
    assert (Hs1 : live tx lv s1 /\ same_flags s s1).
    { split; [|done]. destruct Hs as [[] ? ? ?]. constructor; [|done..]. constructor; cbn; try done.
      apply length_memcpy_0; [rewrite length_take; lia|done]. }
    destruct Hs1 as [Hs1 F1]. cif; [rstep; split_and!; [done|done|intros _ [=]]|]. rstep. eapply returns_mono; [apply (bits_ok tx lv)|].
    + done.
    + done.
    + destruct Hs1 as [[] ? ? ?]. constructor; [|done..]. constructor; cbn; try done. unfold zlen. lia.
    + intros _ s2 [[Hs2 F2] Et]. cbn in Et. split_and!; [split; [done|]|by rewrite Et|intros _ [=]].
      destruct F2. constructor; cbn in *; congruence.
  - eapply returns_mono; [by apply (irq_ok tx lv)|]. intros _ s2 [P2 Et]. split_and!; [done|by rewrite Et|intros _ [=]].
  - eapply returns_mono; [by apply (irq_ok tx lv)|]. intros _ s2 [P2 Et]. split_and!; [done|by rewrite Et|intros _ [=]].
  - destruct (decide (rx_task s = TaskEnded)) as [Et|Hne].
    + unfold rs485_rx_task. rstep. rewrite Et. rstep. by split_and!.
    + eapply returns_mono; [apply (task_ok tx lv); [done|by eapply live_task]|]. intros _ s2 [P2 He].
      split_and!; [done|done|auto].
Qed.

Lemma happens_ok tx lv es (s : rs) : live tx lv s ->
  returns (rs_happens es) (fun _ s' => event_post tx lv s s' /\ (rx_task s = TaskEnded -> rx_task s' = TaskEnded) /\
    (lv = true -> TaskRuns ∈ es -> rx_task s' = TaskEnded)) s.
Proof.
  revert s. induction es as [|e es IH]; intros s Hs; cbn [rs_happens].
  - rstep. split_and!; [done..|]. intros _ Hin. by apply not_elem_of_nil in Hin.
  - rcall (happen_ok tx lv); [done|]. intros _ s1 ([Hs1 F1] & He1 & Hr1). eapply returns_mono; [by apply IH|].
    intros _ s2 ([Hs2 F2] & He2 & Hr2). split_and!; [split; [done|by eapply same_flags_trans]|auto|].
    intros Hlv Hin. apply elem_of_cons in Hin as [<-|Hin]; auto.
Qed.

(** A wait for other bits than those of the exit protocol. *)
Lemma good_wait tx bits : good tx false (rs_wait bits).
Proof.
  intros s Hs. pose proof Hs as [_ _ _ (b0 & E & _)]. unfold rs_wait. rstep. rewrite E. apply returns_bind.
  eapply returns_mono with (Q := fun _ => event_post tx false s).
  - cif; [by rstep|]. apply returns_rhw_call. eapply returns_mono; [by apply (happens_ok tx false), live_hw|].
    intros _ s1 ([Hs1 F1] & _). split; [done|]. destruct F1. by constructor.
  - intros _ s1 [Hs1 F1]. pose proof Hs1 as [Hw ? ? (b & E1 & H5 & H6 & Ha)]. rstep. rewrite E1. apply returns_bind.
    cif; [|by rstep]. rstep. split; [|by destruct F1]. destruct Hw. constructor; [by constructor|done|done|].
    eexists. split; [done|]. rewrite !Z.ldiff_spec, H5, H6. done.
Qed.
End Events.

(** ** Start and stop

    The scheduler runs the receive task during the 100 ms that the driver waits for it. *)
Class Rs485Env (D : Type) `{Rs485Hw D} : Prop := {
  task_answers d : TaskRuns ∈ (rs_meanwhile RS485_EV_EXIT_ACK d).1
}.

Section Calls.
Context `{HW : Rs485Hw D} {EV : Rs485Env D}.
Notation rs := (rs_state D).

Definition can_stop (s : rs) : Prop :=
  (live false false s /\ s_rx_task s = true) \/ (rs_wf s /\ s_rx_task s = false /\ task_gone s).

(** The first part: the task is asked to end, and has ended. *)
Lemma leave_ok (s : rs) : live false false s ->
  returns (rs_set_bits RS485_EV_EXIT_REQ;; rs_wait RS485_EV_EXIT_ACK) (fun _ s' => rs_wf s' /\ rx_task s' = TaskEnded) s.
Proof.
  intros [Hw Ht Hf (b & E & H5 & H6 & Ha)]. unfold rs_set_bits. rstep. rewrite E. rstep.
  set (s1 := set_s_events _ s). unfold rs_wait. rstep. cbn [s_events set_s_events s1].
  rewrite exit_ack_bit, Z.lor_spec, H6. cbn [orb]. change (Z.testbit RS485_EV_EXIT_REQ 6) with false. cbn iota.
  apply returns_bind. apply returns_rhw_call.
  assert (Hs1 : live false true s1).
  { destruct Hw. constructor; [by constructor|done|done|]. eexists. split; [done|]. left.
    rewrite !Z.lor_spec, H5, H6. by split_and!. }
  eapply returns_mono; [apply (happens_ok false true), live_hw, Hs1|].
  intros _ s2 ([Hs2 _] & _ & Hend). specialize (Hend eq_refl (task_answers _)).
  destruct Hs2 as [Hw2 _ _ (b2 & E2 & _)]. rstep. rewrite E2. apply returns_bind.
  cif; rstep; (split; [|done]); [|done]. by destruct Hw2.
Qed.

Lemma rs_deinit_ok (s : rs) : can_stop s ->
  returns rs485_driver_deinit (fun r s' => r = SYS_OK /\ s_inited s' = false /\ stopped s') s.
Proof.
  intros Hs. unfold rs485_driver_deinit. rstep. apply returns_bind.
  eapply returns_mono with (Q := fun _ s' => rs_wf s' /\ s_rx_task s' = false /\ task_gone s').
  - destruct Hs as [[Hl Hh]|(Hw & Hh & Hg)]; rewrite Hh; [|by rstep].
    assert (Hg : bool_decide (is_Some (s_events s)) = true).
    { apply bool_decide_eq_true. destruct Hl as [_ _ _ (b & E & _)]. rewrite E. by eexists. }
    rewrite Hg. cbn [andb]. eapply returns_eq; [symmetry; apply bind_assoc|]. apply returns_bind.
    eapply returns_mono; [by apply leave_ok|]. intros _ s1 [Hw1 Et]. rstep. split_and!; [|done|by right].
    by destruct Hw1.
  - intros _ s1 (Hw & Hh & Hg). apply returns_rhw_call. rstep. apply returns_bind.
    eapply returns_mono with (Q := fun _ s' => rs_wf s' /\ s_rx_task s' = false /\ task_gone s').
    + destruct Hw. cif; [apply returns_rhw_call; unfold MX_USART3_UART_Init; rstep; apply returns_rhw_call|]; rstep; by split_and!.
    + intros _ s2 (Hw2 & Hh2 & Hg2). rstep. split_and!; [done|done|]. destruct Hw2. by constructor.
Qed.

(** ** Initialisation *)
Lemma rhw_keeps {A B} (f : D -> A * D) (P : rs -> Prop) (k : A -> M rs B) Q s :
  (forall d s, P s -> P (set_rs_hw d s)) -> P s -> (forall a s', P s' -> returns (k a) Q s') ->
  returns (rhw_call f ≫= k) Q s.
Proof. intros HP Hs Hk. apply returns_rhw_call. auto. Qed.

(** The kernel objects exist, the task does not. *)
Record opened (s : rs) : Prop := {
  op_wf : rs_wf s;
  op_ini : s_inited s = false;
  op_handle : s_rx_task s = false;
  op_task : task_gone s;
  op_ev : s_events s = Some 0;
  op_tx : s_tx_mutex s = Some false;
  op_fr : s_rx_frame_mutex s = Some false
}.
Lemma opened_hw d s : opened s -> opened (set_rs_hw d s).
Proof. intros [[] ? ? ? ? ? ?]. by constructor; [constructor|..]. Qed.
Ltac op_step := apply (rhw_keeps _ opened); [apply opened_hw|assumption|intros ? ? ?].

Definition init_post (r : Z) (s' : rs) : Prop := rs_inv s' /\ (r = SYS_OK <-> s_inited s' = true).
Lemma init_fails e s : opened s -> e <> SYS_OK -> returns (rs485_driver_deinit;; mret e) init_post s.
Proof.
  intros [] Hne. rcall rs_deinit_ok; [by right|]. intros _ s2 (_ & Hi2 & Hst). rstep.
  unfold init_post, rs_inv. rewrite Hi2. by split.
Qed.

(** From the creation of the task on. *)
Lemma task_created s : opened s ->
  returns (modify (set_s_rx_task true);; modify (set_rx_task TaskNew);; es ← rhw_call (rs_meanwhile 0); rs_happens es;;
    modify (set_s_inited true);; mret SYS_OK) init_post s.
Proof.
  intros [[] ? ? ? ? ? ?]. rstep. apply returns_rhw_call. rcall (happens_ok false false).
  - apply live_hw. constructor; [by constructor|done|done|]. exists 0. split; [done|]. split_and!; [done..|by left].
  - intros _ s1 ([Hs1 [Hi Hh Hu]] & _). rstep. split; [|done]. unfold rs_inv. cbn [s_inited set_s_inited].
    destruct Hs1 as [[] ? ? ?]. split; [by constructor; [constructor|..]|done].
Qed.

Lemma start_ok cfg s : opened s -> returns (rs485_start cfg) init_post s.
Proof.
  intros Hs. unfold rs485_start. do 2 op_step. rstep. set (s1 := set_uart_init cfg _).
  assert (opened s1). { match goal with Hx : opened ?x |- _ => destruct Hx as [[] ? ? ? ? ? ?] end. by constructor; [constructor|..]. }
  clearbody s1. op_step. cif; [by apply init_fails|]. op_step.
  apply returns_bind. apply returns_mono with (Q := fun _ => opened).
  { cif; [by rstep|]. eapply returns_mono with (Q := fun _ => opened); [|done]. unfold rhw_call. rstep. destruct (uart _ _). rstep. by apply opened_hw. }
  intros ok2 s2 Hs2. apply returns_bind. apply returns_mono with (Q := fun _ => opened).
  { cif; [by rstep|]. unfold rhw_call. rstep. destruct (uart _ _). rstep. by apply opened_hw. }
  intros ok3 s3 Hs3. cif; [by apply init_fails|]. rstep.
  apply (rhw_keeps _ opened); [apply opened_hw| |].
  - destruct Hs3 as [[] ? ? ? ? ? ?]. by constructor; [constructor|..].
  - intros ok4 s4 Hs4. cif; [by apply init_fails|]. by apply task_created.
Qed.

Lemma rs_init_ok baudrate config s : rs_inv s ->
  returns (rs485_driver_init baudrate config)
    (fun r s' => rs_inv s' /\ (r = SYS_OK -> s_inited s = false /\ s_inited s' = true) /\ (s_inited s = false -> init_post r s')) s.
Proof.
  intros Hs. unfold rs485_driver_init. rstep. unfold rs_inv in Hs. destruct (s_inited s) eqn:Ei.
  { rstep. split_and!; [|done|done]. unfold rs_inv. by rewrite Ei. }
  eapply returns_mono with (Q := init_post).
  2: { intros r s' [Hi Hr]. split_and!; [done| |done]. intros Er. split; [done|by apply Hr]. }
  destruct Hs as [[] ? ? ? ? ?].
  assert (Hs0 : stopped s) by by constructor; [constructor|..].
  assert (Hst : forall e x, stopped x -> s_inited x = false -> e <> SYS_OK -> init_post e x).
  { intros e x Hx Ex He. unfold init_post, rs_inv. rewrite Ex. by split. }
  cif; [rstep; by apply Hst|].
  apply returns_rhw_call. cif; [rstep; apply Hst; [by constructor; [constructor|..]|done|done]|]. rstep.
  apply returns_rhw_call. cif; [rstep; apply Hst; [by constructor; [constructor|..]|done|done]|]. rstep.
  apply returns_rhw_call. cif; [rstep; apply Hst; [by constructor; [constructor|..]|done|done]|]. rstep.
  match goal with |- returns _ _ ?x => assert (Hop : opened x) by by constructor; [constructor|..] end.
  destruct config as [c|]; [|by apply start_ok].
  destruct (rs485_parse_cfg (Some c) _) as [ret cfg]. destruct (ret =? SYS_OK) eqn:Er; cbn [negb]; [by apply start_ok|].
  apply Z.eqb_neq in Er. by apply init_fails.
Qed.

(** ** Sending and receiving *)
Lemma live_inv (s : rs) : s_inited s = true -> rs_inv s -> live false false s /\ s_rx_task s = true.
Proof. intros Ei. unfold rs_inv. by rewrite Ei. Qed.
Lemma inv_live (s s' : rs) : s_inited s = true -> s_rx_task s = true -> same_flags s s' -> live false false s' -> rs_inv s'.
Proof. intros Ei Eh [E1 E2 _] Hl. unfold rs_inv. rewrite E1, Ei. split; [done|congruence]. Qed.

(** [m], started with the driver running, keeps it running. *)
Lemma running_call {A} (m : M rs A) (e : A) s : rs_inv s -> good false false m ->
  returns (if negb (s_inited s) then mret e else m) (fun _ => rs_inv) s.
Proof.
  intros Hs Hm. destruct (s_inited s) eqn:Ei; cbn [negb]; [|by rstep]. destruct (live_inv s Ei Hs) as [Hl Hh].
  eapply returns_mono; [by apply Hm|]. intros a s' [Hl' F]. by apply (inv_live s).
Qed.

Lemma take_tx_ok (s : rs) : live false false s ->
  returns (rs_take TxMutex) (fun ok s' => same_flags s s' /\ if ok then live true false s' else live false false s') s.
Proof.
  intros Hs. unfold rs_take. rstep. cbn [mutex_of]. rewrite (lv_tx _ _ _ Hs). apply returns_rhw_call.
  cbn [negb andb]. destruct (rs_acquire TxMutex (rs_hw s)).1; rstep; (split; [done|]).
  - apply (live_hw _ _ (rs_acquire TxMutex (rs_hw s)).2) in Hs. destruct Hs as [[] ? ? ?]. by constructor; [constructor|..].
  - by apply live_hw.
Qed.
Lemma give_tx_ok (s : rs) : live true false s -> returns (rs_give TxMutex) (fun _ => event_post false false s) s.
Proof.
  intros Hs. unfold rs_give. rstep. cbn [mutex_of]. rewrite (lv_tx _ _ _ Hs). rstep. split; [|done].
  destruct Hs as [[] ? ? ?]. by constructor; [constructor|..].
Qed.

Lemma good_transmit data len : 0 <= len <= RS485_TX_BUFFER_SIZE -> good false false (rs_transmit data len).
Proof.
  intros Hlen s Hs. unfold rs_transmit.
  rcall take_tx_ok; [done|]. intros ok s1 [F1 Hs1]. destruct ok; cbn [negb]; [|by rstep]. rstep.
  destruct Hs1 as [[] ? ? (b & E & H5 & H6 & Ha)]. cbn [s_events set_s_tx_buf]. rewrite E. rstep. apply returns_rhw_call.
  match goal with |- returns _ _ ?x => assert (Hs2 : live true false x /\ same_flags s x) end.
  { split; [|by destruct F1]. constructor; [|done|done|].
    - constructor; cbn; try done. apply length_memcpy_0; [|done]. rewrite length_take. unfold RS485_TX_BUFFER_SIZE in *. lia.
    - eexists. split; [done|]. rewrite !Z.ldiff_spec, H5, H6. done. }
  destruct Hs2 as [Hs2 F2]. cif.
  - rcall give_tx_ok; [done|]. intros _ s3 [Hs3 F3]. rstep. split; [done|by eapply same_flags_trans].
  - rcall (good_wait true); [done|]. intros ev s3 [Hs3 F3]. rcall give_tx_ok; [done|]. intros _ s4 [Hs4 F4].
    eapply returns_mono with (Q := fun _ => event_post false false s4).
    + cif; [|by rstep]. apply good_bind; [apply good_call|intros ?; apply good_ret|done].
    + intros r s5 [Hs5 F5]. split; [done|]. by repeat (eapply same_flags_trans; [eassumption|]).
Qed.

(** The frame mutex is held when the frame is taken. *)
Lemma take_frame_ok n (s0 s : rs) : live false false (set_s_rx_frame_mutex (Some false) s) -> s_rx_frame_mutex s = Some true ->
  same_flags s0 s -> returns (take_frame n) (fun _ => event_post false false s0) s.
Proof.
  intros Hs E F. unfold take_frame. rstep. rcall (give_frame false false s0).
  - destruct Hs as [[] ? ? ?]. by constructor; [constructor|..].
  - done.
  - by destruct F.
  - intros _ s1 P1. by rstep.
Qed.

Lemma good_recv n (s : rs) : rs_inv s -> returns (rs485_driver_recv n) (fun _ => rs_inv) s.
Proof.
  intros Hs. unfold rs485_driver_recv. rstep. apply running_call; [done|]. apply good_if; [apply good_ret|].
  clear s Hs. intros s Hs. rcall good_take; [done|]. intros ok s1 (F1 & _ & Hs1). rstep.
  destruct ok; cbn [andb]; [destruct (s_rx_frame_ready s1); [destruct Hs1; by apply take_frame_ok|]|].
  all: apply returns_bind; apply returns_mono with (Q := fun _ => event_post false false s);
    [first [destruct Hs1; by apply give_frame | rstep; by split]|].
  all: intros _ s2 [Hs2 F2]; rcall (good_wait false); [done|]; intros ev s3 [Hs3 F3].
  all: assert (F : same_flags s s3) by (by eapply same_flags_trans).
  all: do 2 (cif; [by rstep|]); rcall good_take; [done|]; intros ok s4 (F4 & _ & Hs4).
  all: assert (F' : same_flags s s4) by (by eapply same_flags_trans).
  all: destruct ok; cbn [negb]; [|by rstep]; rstep; destruct Hs4.
  all: cif; [|by apply take_frame_ok]; rcall (give_frame false false s); [done|done|done|]; intros _ s5 P5; by rstep.
Qed.

Lemma good_send data len (s : rs) : (forall l, data = Some l -> len <= zlen l) -> 0 <= len -> rs_inv s ->
  returns (rs485_driver_send data len) (fun _ => rs_inv) s.
Proof.
  intros Hd H0 Hs. unfold rs485_driver_send. rstep. apply running_call; [done|]. destruct data as [l|]; [|apply good_ret].
  specialize (Hd l eq_refl). destruct ((len =? 0) || (RS485_TX_BUFFER_SIZE <? len)) eqn:E; [apply good_ret|]. cbool.
  rewrite (proj2 (Z.ltb_ge (zlen l) len)) by lia. by apply good_transmit.
Qed.

(** ** Sequences of calls *)
Inductive rs_call : Type :=
| RInit (baudrate : Z) (config : option (list Z)) | RDeinit | RSend (data : option (list Z)) (len : Z) | RRecv (n : Z)
| RTxRx (data : option (list Z)) (len n : Z) | RIsInited | RSetCallback (cb : option Z) (user : Z) | REvent (e : rs_event).

(** A block passed with its length is at least that long. *)
Definition rs_call_ok (c : rs_call) : Prop :=
  match c with
  | RSend data len | RTxRx data len _ => 0 <= len /\ forall l, data = Some l -> len <= zlen l
  | _ => True
  end.
Definition do_rs (c : rs_call) : M rs Z :=
  match c with
  | RInit b c => rs485_driver_init b c
  | RDeinit => rs485_driver_deinit
  | RSend data len => rs485_driver_send data len
  | RRecv n => r ← rs485_driver_recv n; mret (fst r)
  | RTxRx data len n => r ← rs485_driver_txrx data len n; mret (fst r)
  | RIsInited => rs485_driver_is_inited
  | RSetCallback cb user => rs485_driver_set_rx_callback cb user
  | REvent e => rs_happen e;; mret SYS_OK
  end.
Fixpoint do_rss (cs : list rs_call) : M rs (list Z) :=
  match cs with
  | [] => mret []
  | c :: cs => r ← do_rs c; rs ← do_rss cs; mret (r :: rs)
  end.

Lemma stopped_event e (s : rs) : stopped s -> s_inited s = false -> returns (rs_happen e) (fun _ => rs_inv) s.
Proof.
  intros Hst Ei. assert (Hs : rs_inv s) by (unfold rs_inv; by rewrite Ei).
  pose proof Hst as [[] ? ? Eg ? Et]. destruct e as [l| | |]; cbn [rs_happen].
  - rstep. unfold rs485_driver_on_uart3_rx_event, rs_irq_ready. rstep. cbn [s_events s_inited set_s_rx_buf].
    rewrite Ei, andb_false_r. cbn [negb]. rstep. unfold rs_inv. cbn [s_inited set_s_rx_buf]. rewrite Ei.
    constructor; try done. constructor; cbn; try done. apply length_memcpy_0; [rewrite length_take; lia|done].
  - unfold rs485_driver_on_uart3_tx_done, rs_irq_ready. rstep. rewrite Ei, andb_false_r. by rstep.
  - unfold rs485_driver_on_uart3_error, rs_irq_ready. rstep. rewrite Ei, andb_false_r. by rstep.
  - unfold rs485_rx_task. rstep. by destruct Et as [-> | ->]; rstep.
Qed.

Lemma do_rs_ok c (s : rs) : rs_call_ok c -> rs_inv s -> returns (do_rs c) (fun _ => rs_inv) s.
Proof.
  intros Hc Hs. destruct c; cbn [do_rs rs_call_ok] in *.
  - eapply returns_mono; [by apply rs_init_ok|]. by intros r s' [? _].
  - eapply returns_mono; [apply rs_deinit_ok|].
    + unfold rs_inv in Hs. destruct (s_inited s) eqn:E; [by left|right]. by destruct Hs.
    + intros r s' (_ & Ei & Hst). unfold rs_inv. by rewrite Ei.
  - destruct Hc. by apply good_send.
  - rcall (good_recv n); [done|]. intros r s' Hs'. by rstep.
  - apply returns_bind. unfold rs485_driver_txrx. rcall good_send; [by apply Hc|by apply Hc|done|]. intros r s1 Hs1. cif; [by rstep|].
    eapply returns_mono; [by apply good_recv|]. intros r2 s2 Hs2. by rstep.
  - unfold rs485_driver_is_inited. by rstep.
  - unfold rs485_driver_set_rx_callback. rstep. apply running_call; [done|].
    repeat (apply good_bind; [apply good_modify; intros s0 [[] ? ? ?]; (split; [by constructor; [constructor|..]|done])|intros _]).
    apply good_ret.
  - apply returns_bind. apply returns_mono with (Q := fun _ => rs_inv); [|intros; by rstep].
    destruct (s_inited s) eqn:Ei; [|apply stopped_event; [unfold rs_inv in Hs; by rewrite Ei in Hs|done]].
    destruct (live_inv s Ei Hs) as [Hl Hh]. eapply returns_mono; [by apply (happen_ok false false)|].
    intros _ s' ([Hl' F] & _). by apply (inv_live s).
Qed.
Lemma do_rss_ok cs (s : rs) : Forall rs_call_ok cs -> rs_inv s -> returns (do_rss cs) (fun _ => rs_inv) s.
Proof.
  intros Hcs. revert s. induction Hcs as [|c cs Hc Hcs IH]; intros s Hs; cbn [do_rss]; [by rstep|].
  rcall do_rs_ok; [done|done|]. intros r s1 Hs1. rcall IH; [done|]. intros rs s2 Hs2. by rstep.
Qed.

Lemma rs_power_on_inv u (d : D) : rs_inv (rs_power_on u d).
Proof. unfold rs_inv. constructor; try done. by left. Qed.
End Calls.

(** C30 [rs485_calls_safe]: on hardware and a kernel that answer every call as they like, provided
    the scheduler runs the receive task while a stop waits for it: from power-on, every
    sequence of calls of the driver, interrupts and turns of the task returns.  After
    each prefix the driver is either fully up, with its objects, its task and no mutex
    held, or every object is released and the task is gone. *)
Theorem rs485_calls_safe `{HW : Rs485Hw D} {EV : Rs485Env D} u (d : D) cs :
  Forall rs_call_ok cs -> returns (do_rss cs) (fun _ s => rs_inv s) (rs_power_on u d).
Proof. intros Hcs. apply do_rss_ok; [done|apply rs_power_on_inv]. Qed.

(** ** The way of a frame *)
Section Frame.
Context `{HW : Rs485Hw D}.
Notation rs := (rs_state D).
#[local] Arguments memcpy_at : simpl never.
#[local] Arguments Z.lor : simpl never.
Context (acquires : forall d, (rs_acquire FrameMutex d).1 = true).

(** The state of an idle receiver: running, its task waiting, no error pending. *)
Record receiving (s : rs) : Prop := {
  rc_live : live false false s;
  rc_ini : s_inited s = true;
  rc_task : rx_task s = TaskLoop;
  rc_ev : exists b, s_events s = Some b /\ ev_set b RS485_EV_RX_ERROR = false
}.
(** A stored frame. *)
Record stored (l : list Z) (s : rs) : Prop := {
  sd_rc : receiving s;
  sd_ready : s_rx_frame_ready s = true;
  sd_len : s_rx_frame_len s = zlen l;
  sd_data : take (length l) (s_rx_frame s) = l;
  sd_bit : exists b, s_events s = Some b /\ ev_set b RS485_EV_RX_FRAME = true
}.

Lemma take_memcpy_0 {A} (src dst : list A) : (length src <= length dst)%nat -> take (length src) (memcpy_at 0 src dst) = src.
Proof. intros Hl. pose proof (sub_memcpy_at 0 src dst) as E. unfold sub in E. rewrite drop_0 in E. apply E. lia. Qed.

Lemma ev_set_lor b x y : ev_set (Z.lor b x) y = ev_set b y || ev_set x y.
Proof.
  unfold ev_set. rewrite Z.land_lor_distr_l. rewrite <-negb_andb. f_equal.
  apply eq_true_iff_eq. rewrite andb_true_iff, !Z.eqb_eq. apply Z.lor_eq_0_iff.
Qed.

(** The line goes idle after [l]: the buffer holds it and the task is notified. *)
Lemma idle_eq l (s : rs) b : receiving s -> s_events s = Some b -> 0 < zlen l <= 512 ->
  rs_happen (RxIdle l) s = Ret tt (set_s_events (Some (Z.lor b RS485_EV_RX_NOTIFY)) (set_s_rx_len (zlen l)
    (set_s_rx_buf (memcpy_at 0 l (s_rx_buf s)) s))).
Proof.
  intros Hs E Hl. cbn [rs_happen]. unfold rs485_driver_on_uart3_rx_event, rs_irq_ready, rs_set_bits. mstep.
  cbn [s_events s_inited set_s_rx_buf set_s_rx_len]. rewrite (rc_ini _ Hs), E. cbn [negb andb bool_decide].
  rewrite bool_decide_true by by eexists. cbn [negb andb]. mstep. rewrite Z.min_r by lia.
  rewrite take_ge by (unfold zlen in Hl; lia). cbn [s_events set_s_rx_len set_s_rx_buf]. by rewrite E.
Qed.

Lemma rhw_call_eq {A} (f : D -> A * D) (s : rs) : rhw_call f s = Ret (f (rs_hw s)).1 (set_rs_hw (f (rs_hw s)).2 s).
Proof. unfold rhw_call. mstep. by destruct (f (rs_hw s)). Qed.
Lemma take_eq (s : rs) : s_rx_frame_mutex s = Some false ->
  rs_take FrameMutex s = Ret true (set_s_rx_frame_mutex (Some true) (set_rs_hw (rs_acquire FrameMutex (rs_hw s)).2 s)).
Proof.
  intros E. unfold rs_take. mstep. cbn [mutex_of]. rewrite E, rhw_call_eq.
  by rewrite acquires.
Qed.
Lemma give_eq x (s : rs) : s_rx_frame_mutex s = Some x -> rs_give FrameMutex s = Ret tt (set_s_rx_frame_mutex (Some false) s).
Proof. intros E. unfold rs_give. mstep. cbn [mutex_of]. by rewrite E. Qed.
Lemma bits_eq bits b (s : rs) : s_events s = Some b -> rs_set_bits bits s = Ret tt (set_s_events (Some (Z.lor b bits)) s).
Proof. intros E. unfold rs_set_bits. mstep. by rewrite E. Qed.

(** What the task changes when it was notified of [l]. *)
Record notified (l : list Z) (b : Z) (s s' : rs) : Prop := {
  nf_ev : s_events s' = Some (Z.lor b (Z.lor RS485_EV_RX_FRAME RS485_EV_RX_COMPLETE));
  nf_fr : s_rx_frame_mutex s' = Some false;
  nf_tx : s_tx_mutex s' = s_tx_mutex s;
  nf_ini : s_inited s' = s_inited s;
  nf_task : rx_task s' = rx_task s;
  nf_rx : s_rx_buf s' = s_rx_buf s;
  nf_txb : s_tx_buf s' = s_tx_buf s;
  nf_len : s_rx_len s' = s_rx_len s;
  nf_frame : s_rx_frame s' = memcpy_at 0 l (s_rx_frame s);
  nf_flen : s_rx_frame_len s' = zlen l;
  nf_ready : s_rx_frame_ready s' = true;
  nf_calls : rx_calls s' = rx_calls s ++ match s_rx_cb s with Some cb => [(cb, s_rx_cb_user s, l)] | None => [] end
}.
Lemma notify_ok l (s : rs) b : s_events s = Some b -> s_rx_frame_mutex s = Some false -> s_rx_len s = zlen l ->
  take (length l) (s_rx_buf s) = l -> 0 < zlen l <= 512 -> returns rx_notify (fun _ => notified l b s) s.
Proof.
  intros E Ef El Eb Hl. unfold rx_notify. rstep. rewrite El.
  rewrite (proj2 (Z.ltb_ge RS485_RX_BUFFER_SIZE (zlen l))) by (unfold RS485_RX_BUFFER_SIZE; lia).
  rewrite (proj2 (Z.ltb_lt 0 (zlen l))) by lia. replace (Z.to_nat (zlen l)) with (length l) by (unfold zlen; lia).
  rrun (take_eq s Ef). rstep. cbn [s_rx_buf s_rx_frame set_s_rx_frame_mutex set_rs_hw]. rewrite Eb.
  match goal with |- returns (rs_give _ ≫= _) _ ?x => rrun (give_eq true x eq_refl) end.
  match goal with |- returns (rs_set_bits _) _ ?x => eapply returns_intro; [apply (bits_eq _ b x E)|] end.
  cbn beta. rstep.
  apply returns_bind. apply returns_mono with (Q := fun _ s' => notified l b s s').
  - cbn [s_rx_cb s_rx_cb_user rx_calls s_rx_buf set_s_events set_s_rx_frame_mutex set_s_rx_frame_ready set_s_rx_frame_len set_s_rx_frame set_rs_hw].
    destruct (s_rx_cb s) as [cb|] eqn:Ecb; rstep; constructor; cbn; rewrite ?Eb, ?Ecb, ?app_nil_r; try done.
  - intros _ s' Hs'. apply returns_rhw_call. rstep. destruct Hs'. by constructor.
Qed.

Lemma loop_notify_eq (s : rs) e : rx_task s = TaskLoop -> s_events s = Some e -> Z.testbit e 5 = false ->
  ev_set e RS485_EV_RX_ERROR = false -> Z.testbit e 3 = true ->
  rs_happen TaskRuns s = rx_notify (set_s_events (Some (Z.ldiff e RX_TASK_BITS)) s).
Proof.
  intros Ht E H5 He H3. cbn [rs_happen]. unfold rs485_rx_task. mstep. rewrite Ht. unfold rx_loop_round. mstep. rewrite E.
  rewrite (ev_set_sub e RX_TASK_BITS 3) by done. cbn [negb]. mstep. rewrite exit_req_bit, H5, He.
  by rewrite (ev_set_sub e RS485_EV_RX_NOTIFY 3) by done.
Qed.

(** The turn of the task after it. *)
Lemma frame_stored l (s : rs) : receiving s -> 0 < zlen l <= 512 ->
  exists s', rs_happens [RxIdle l; TaskRuns] s = Ret tt s' /\ stored l s' /\
    rx_calls s' = rx_calls s ++ match s_rx_cb s with Some cb => [(cb, s_rx_cb_user s, l)] | None => [] end.
Proof.
  intros Hs Hl. pose proof Hs as [[[Hlr ? Hlf ? ?] Htx Hfr (b & E & H5 & H6 & Ha)] Hi Ht (b' & E' & He)].
  assert (b' = b) as -> by congruence. assert (Hll : (length l <= 512)%nat) by (unfold zlen in Hl; lia).
  cbn [rs_happens]. rewrite (bind_ret_eq _ _ _ _ _ (idle_eq l s b Hs E Hl)).
  set (s1 := set_s_events _ _). set (b1 := Z.ldiff (Z.lor b RS485_EV_RX_NOTIFY) RX_TASK_BITS).
  assert (B1 : Z.testbit b1 5 = false /\ Z.testbit b1 6 = false /\ ev_set b1 RS485_EV_RX_ERROR = false).
  { unfold b1, RS485_EV_RX_ERROR. rewrite (ev_set_pow2 _ 1) by lia. rewrite !Z.ldiff_spec, !Z.lor_spec, H5, H6.
    split_and!; [done|done|apply andb_false_r]. }
  assert (Erun : rs_happen TaskRuns s1 = rx_notify (set_s_events (Some b1) s1)).
  { apply (loop_notify_eq s1 (Z.lor b RS485_EV_RX_NOTIFY)); [done|done|by rewrite Z.lor_spec, H5|by rewrite ev_set_lor, He|].
    rewrite Z.lor_spec. apply orb_true_r. }
  destruct (returns_elim _ _ _ (notify_ok l (set_s_events (Some b1) s1) b1 eq_refl Hfr eq_refl
    (take_memcpy_0 l (s_rx_buf s) ltac:(lia)) Hl)) as ([] & s2 & E2 & []).
  rewrite <-Erun in E2. rewrite (bind_ret_eq _ _ _ _ _ E2). exists s2. split; [reflexivity|]. destruct B1 as (B5 & B6 & Be). split; [|done].
  set (b2 := Z.lor b1 _) in *. assert (B2 : Z.testbit b2 5 = false /\ Z.testbit b2 6 = false /\ ev_set b2 RS485_EV_RX_ERROR = false).
  { unfold b2. rewrite !Z.lor_spec, B5, B6, ev_set_lor, Be. done. }
  destruct B2 as (C5 & C6 & Ce). cbn in *. constructor; [|done|done| |].
  - constructor; [|congruence|congruence|by exists b2]. constructor; [|congruence|done|].
    + constructor; [rewrite nf_rx0|rewrite nf_txb0|rewrite nf_frame0|rewrite nf_len0|rewrite nf_flen0]; try done; try lia;
        rewrite length_memcpy_at; cbn; lia.
    + exists b2. split; [done|]. split_and!; [done..|right; congruence].
  - rewrite nf_frame0. apply take_memcpy_0. lia.
  - exists b2. split; [done|]. unfold b2. rewrite ev_set_lor. apply orb_true_r.
Qed.

(** A stored frame is handed over, cut to the caller's buffer. *)
Lemma recv_stored l n (s : rs) : stored l s -> 0 < n ->
  exists s', rs485_driver_recv n s = Ret (SYS_OK, take (Z.to_nat n) l) s' /\ s_rx_frame_ready s' = false /\
    s_events s' = s_events s /\ rx_calls s' = rx_calls s /\ receiving s'.
Proof.
  intros [Hs Hr Hlen Hd _] Hn. destruct Hs as [[Hw Htx Hfr Hev] Hi Ht Hb].
  unfold rs485_driver_recv. mstep. rewrite Hi, (proj2 (Z.eqb_neq n 0)) by lia. cbn [negb].
  rewrite (take_eq s Hfr). mstep. cbn [s_rx_frame_ready set_s_rx_frame_mutex set_rs_hw]. rewrite Hr.
  cbn [andb]. unfold take_frame. mstep. cbn [s_rx_frame_len s_rx_frame set_s_rx_frame_mutex set_rs_hw]. rewrite Hlen.
  match goal with |- context [rs_give FrameMutex ?x] => rewrite (give_eq true x eq_refl) end.
  eexists. split.
  - f_equal. f_equal. unfold zlen. rewrite <-Hd at 3. rewrite take_take. f_equal.
    destruct (n <? Z.of_nat (length l)) eqn:E; cbool; lia.
  - split_and!; [done|done|done|]. constructor; [|done|done|done]. destruct Hw. by constructor; [constructor|..].
Qed.

(** With the event of a frame that is gone, [recv] gives up without waiting. *)
Lemma recv_stale n (s : rs) b : receiving s -> s_rx_frame_ready s = false -> s_events s = Some b ->
  ev_set b RS485_EV_RX_FRAME = true -> 0 < n ->
  exists s', rs485_driver_recv n s = Ret (SYS_ERR_TIMEOUT, []) s' /\
    rs_hw s' = (rs_acquire FrameMutex (rs_acquire FrameMutex (rs_hw s)).2).2.
Proof.
  intros [[Hw Htx Hfr (b' & E' & _)] Hi Ht (b'' & E'' & He)] Hr E Hb Hn.
  assert (b'' = b) as -> by congruence.
  assert (Hany : ev_set b (Z.lor RS485_EV_RX_FRAME RS485_EV_RX_ERROR) = true).
  { apply (ev_set_sub _ _ 4); [done|done|]. by rewrite <-(ev_set_pow2 b 4). }
  unfold rs485_driver_recv. mstep. rewrite Hi, (proj2 (Z.eqb_neq n 0)) by lia. cbn [negb].
  rewrite (take_eq s Hfr). mstep. cbn [s_rx_frame_ready set_s_rx_frame_mutex set_rs_hw]. rewrite Hr.
  cbn [andb]. match goal with |- context [rs_give FrameMutex ?x] => rewrite (give_eq true x eq_refl) end.
  unfold rs_wait. mstep. cbn [s_events set_s_rx_frame_mutex set_rs_hw]. rewrite E, Hany. mstep.
  cbn [s_events set_s_rx_frame_mutex set_rs_hw]. rewrite E, Hany. mstep. rewrite He, Hb. cbn [negb].
  match goal with |- context [rs_take FrameMutex ?x] => rewrite (take_eq x eq_refl) end. cbn [negb].
  mstep. cbn [s_rx_frame_ready set_s_rx_frame_mutex set_rs_hw set_s_events]. rewrite Hr. cbn [negb].
  match goal with |- context [rs_give FrameMutex ?x] => rewrite (give_eq true x eq_refl) end.
  eexists. split; [reflexivity|]. done.
Qed.
End Frame.

(** With the driver running, its task waiting and the frame mutex
    available, a frame of 1 to 512 bytes goes from the line to the callback (all of it)
    and to the caller of [rs485_driver_recv] (cut to its buffer).  The event bit of the
    frame is still set then: the next [rs485_driver_recv] finds no frame and reports a
    time-out at once, without waiting: the hardware sees two attempts at the mutex and no
    wait. *)
Theorem frame_delivered_then_stale `{HW : Rs485Hw D} (acquires : forall d : D, (rs_acquire FrameMutex d).1 = true) l n m (s : rs_state D) :
  receiving s -> 0 < zlen l <= 512 -> 0 < n -> 0 < m ->
  exists s1 s2 s3, rs_happens [RxIdle l; TaskRuns] s = Ret tt s1 /\
    rx_calls s1 = rx_calls s ++ match s_rx_cb s with Some cb => [(cb, s_rx_cb_user s, l)] | None => [] end /\
    rs485_driver_recv n s1 = Ret (SYS_OK, take (Z.to_nat n) l) s2 /\
    rs485_driver_recv m s2 = Ret (SYS_ERR_TIMEOUT, []) s3 /\
    rs_hw s3 = (rs_acquire FrameMutex (rs_acquire FrameMutex (rs_hw s2)).2).2.
Proof.
  intros Hs Hl Hn Hm. destruct (frame_stored acquires l s Hs Hl) as (s1 & E1 & Hst & Hc).
  destruct (recv_stored acquires l n s1 Hst Hn) as (s2 & E2 & Hr2 & Ee & _ & Hs2).
  destruct (sd_bit _ _ Hst) as (b & Eb & Hb). rewrite <-Ee in Eb.
  destruct (recv_stale acquires m s2 b Hs2 Hr2 Eb Hb Hm) as (s3 & E3 & Hh). by exists s1, s2, s3.
Qed.

(** When the receive task does not run within the 100 ms a stop waits for
    it (it is inside its callback, say), the stop reports success and deletes the event
    group, and the next turn of the task uses it. *)
Theorem stop_can_outrun_task `{HW : Rs485Hw D} (s : rs_state D) :
  (forall d : D, (rs_meanwhile RS485_EV_EXIT_ACK d).1 = []) -> live false false s -> s_rx_task s = true -> rx_task s = TaskLoop ->
  exists s', rs485_driver_deinit s = Ret SYS_OK s' /\ s_events s' = None /\ rs_happen TaskRuns s' = Undef.
Proof.
  intros Hq [Hw Ht Hf (b & E & H5 & H6 & Ha)] Hh Hl.
  assert (R : returns rs485_driver_deinit (fun r s' => r = SYS_OK /\ s_events s' = None /\ rx_task s' = TaskLoop) s).
  { unfold rs485_driver_deinit. rstep. rewrite Hh, E. rewrite bool_decide_true by by eexists. cbn [andb].
    unfold rs_set_bits. rstep. rewrite E. rstep. unfold rs_wait. rstep. cbn [s_events set_s_events].
    rewrite exit_ack_bit, Z.lor_spec, H6. change (Z.testbit RS485_EV_EXIT_REQ 6) with false. cbn [orb].
    apply returns_bind, returns_rhw_call. rewrite Hq. cbn [rs_happens]. rstep. cbn [s_events set_s_events set_rs_hw].
    rewrite exit_ack_bit, Z.lor_spec, H6. change (Z.testbit RS485_EV_EXIT_REQ 6) with false. cbn [orb]. rstep.
    apply returns_rhw_call. rstep. apply returns_bind.
    match goal with |- returns _ _ ?x => apply returns_mono with (Q := fun _ s' => rx_task s' = rx_task x) end.
    - cif; [apply returns_rhw_call; unfold MX_USART3_UART_Init; rstep; apply returns_rhw_call|]; by rstep.
    - intros _ s1 Et. rstep. cbn in *. by rewrite Et. }
  destruct (returns_elim _ _ _ R) as (r & s' & Er & -> & Ev & Et). exists s'. split_and!; [done|done|].
  cbn [rs_happen]. unfold rs485_rx_task. mstep. rewrite Et. unfold rx_loop_round. mstep. by rewrite Ev.
Qed.

(** ** Configuration strings *)
Definition cfg_char_w (w : word_length) : Z :=
  match w with UART_WORDLENGTH_7B => 55 | UART_WORDLENGTH_8B => 56 | UART_WORDLENGTH_9B => 57 end.
Definition cfg_char_p (p : parity) : Z :=
  match p with UART_PARITY_NONE => 78 | UART_PARITY_EVEN => 69 | UART_PARITY_ODD => 79 end.
Definition cfg_char_s (st : stop_bits) : Z := match st with UART_STOPBITS_1 => 49 | UART_STOPBITS_2 => 50 end.
(** The string of a format, as in 8N1. *)
Definition cfg_print (u : uart_init_t) : list Z := [cfg_char_w (WordLength u); cfg_char_p (Parity u); cfg_char_s (StopBits u); 0].
Definition to_upper (c : Z) : Z := if (97 <=? c) && (c <=? 122) then c - 32 else c.

Lemma strlen_three l : strlen l = 3 -> exists a b c r, l = a :: b :: c :: r.
Proof.
  intros E. destruct l as [|a [|b [|c r]]]; [..|by exists a, b, c, r]; cbn [strlen] in E.
  - lia.
  - destruct (a =? 0); lia.
  - destruct (a =? 0); [lia|]. destruct (b =? 0); lia.
Qed.

(** Every format parses back from its string, and an accepted string is, up to the case
    of the parity letter, the string of the format it is parsed to; the baud rate is
    kept. *)
Theorem parse_cfg_roundtrip (u init : uart_init_t) :
  rs485_parse_cfg (Some (cfg_print u)) init = (SYS_OK, mkUartInit (BaudRate init) (WordLength u) (StopBits u) (Parity u)) /\
  forall l v, rs485_parse_cfg (Some l) init = (SYS_OK, v) ->
    BaudRate v = BaudRate init /\ map to_upper (take 3 l) = take 3 (cfg_print v).
Proof.
  split; [by destruct u as [br [] [] []]|]. intros l v. unfold rs485_parse_cfg.
  destruct (strlen l =? 3) eqn:El; cbn [negb]; [|done]. apply Z.eqb_eq in El.
  destruct (strlen_three l El) as (a & b & c & r & ->). 
  change (nthz (a :: b :: c :: r) 0) with a. change (nthz (a :: b :: c :: r) 1) with b. change (nthz (a :: b :: c :: r) 2) with c.
  cbn [take map].
  repeat match goal with
  | |- context [if ?x =? ?y then _ else _] => destruct (x =? y) eqn:?; cbool
  | |- context [if (?x =? ?y) || (?x =? ?z) then _ else _] => destruct (x =? y) eqn:?, (x =? z) eqn:?; cbool; cbn [orb]
  end; intros [= <-]; subst; done.
Qed.
