(* ===== verification/BoardWitness.v ===== *)
(** A concrete board: timers, pins and a converter for the board control, and a UART
    with a script for the RS485 driver.  The theorems of both hold on it, and the
    calls run. *)
From S2P Require Import Prelude Ms41908mReg BspCtrl BspProps BspIo Rs485 Rs485Props.

(** ** The board *)
Record bench : Type := mkBench {
  bn_busy : pwm_channel -> bool;
  bn_cmp : pwm_channel -> Z;
  bn_pin : bsp_pin -> bool;
  bn_raw : Z
}.
Definition bench0 : bench := mkBench (fun _ => false) (fun _ => 0) (fun _ => false) 1650.
Definition upd {A B} `{EqDecision A} (a : A) (b : B) (f : A -> B) (x : A) : B := if decide (x = a) then b else f x.

(** One wait sees a whole conversion: forty samples, then the interrupt. *)
Definition conversion (v : Z) : list bsp_event := map (fun i => DmaSample i v) (seq 0 40) ++ [ConvCplt].

#[export] Instance bench_hw : BspHw bench := {
  HAL_TIM_PWM_Start ch d := (true, mkBench (upd ch true (bn_busy d)) (bn_cmp d) (bn_pin d) (bn_raw d));
  HAL_TIM_PWM_Stop ch d := (true, mkBench (upd ch false (bn_busy d)) (bn_cmp d) (bn_pin d) (bn_raw d));
  TIM_SET_COMPARE ch v d := mkBench (bn_busy d) (upd ch v (bn_cmp d)) (bn_pin d) (bn_raw d);
  TIM_GET_AUTORELOAD _ _ := 999;
  channel_busy ch d := bn_busy d ch;
  write_pin p v d := mkBench (bn_busy d) (bn_cmp d) (upd p v (bn_pin d)) (bn_raw d);
  read_pin p d := bn_pin d p;
  adc_hal _ d := (true, d);
  adc_start_dma d := (true, d);
  HAL_ADC_GetValue d := 1500;
  VREFINT_CAL _ := 1650;
  HAL_Delay _ d := d;
  create_event_group d := (true, d);
  create_task d := (true, d);
  meanwhile bits d := (if bits =? BSP_EVENT_ADC_ALL_BITS then conversion 2048 else [], d)
}.

#[export] Instance bench_env : BspEnv bench.
Proof.
  constructor; [|done]. intros bits d. cbn [meanwhile bench_hw fst]. cif; [|done]. unfold conversion.
  apply Forall_app. split; [|by repeat constructor]. apply Forall_map, Forall_forall. intros i _. by vm_compute.
Qed.

Lemma upd_eq {A B} `{EqDecision A} (a : A) (b : B) f : upd a b f a = b.
Proof. unfold upd. by rewrite decide_True. Qed.
Lemma upd_ne {A B} `{EqDecision A} (a : A) (b : B) f x : x <> a -> upd a b f x = f x.
Proof. intros. unfold upd. by rewrite decide_False. Qed.

#[export] Program Instance bench_laws : BspHwLaws bench := { compare ch d := bn_cmp d ch }.
Next Obligation. intros ch d _. cbn. split_and!; [done| |done|done|by rewrite upd_eq|done]. intros c Hc. by rewrite upd_ne. Qed.
Next Obligation. intros ch d. cbn. split_and!; [done| |done|done|by rewrite upd_eq]. intros c Hc. by rewrite upd_ne. Qed.
Next Obligation. intros ch v d _. cbn. split_and!; [|done|done|done|by rewrite upd_eq]. intros c Hc. by rewrite upd_ne. Qed.
Next Obligation. done. Qed.
Next Obligation. intros p v d. cbn. split_and!; [by rewrite upd_eq| |done]. intros q Hq. by rewrite upd_ne. Qed.

(** The board after its start. *)
Definition board : bsp_state bench :=
  mkBsp (replicate 5 0) (replicate 40 0) 3300 (Some 0) (replicate 2 None) bench0 [].
Lemma board_ok : bsp_ok board.
Proof. constructor; try done; by apply Forall_replicate. Qed.
Lemma board_shown : all_shown board.
Proof. intros led ch [[-> ->]|[[-> ->]|[-> ->]]]; by vm_compute. Qed.

Lemma board_calls_safe_witness :
  returns bsp_ctrl_init (fun r s1 => bsp_ok s1 /\
    (r = SYS_OK -> forall cs, Forall call_ok cs -> returns (do_bsps cs) (fun _ s2 => bsp_ok s2 /\ started s2) s1))
    (bsp_power_on bench0).
Proof. exact (board_calls_safe bench0). Defined.

Lemma lamp_follows_duty_witness :
  exists s', bsp_ctrl_set_led_duty BSP_LED_IR_FAR 40 board = Ret SYS_OK s' /\
    bsp_ctrl_get_led_duty BSP_LED_IR_FAR s' = Ret 40 s' /\ lamp TIM1_CH2 (bsp_hw s') = 400.
Proof.
  destruct (lamp_follows_duty BSP_LED_IR_FAR TIM1_CH2 40 board) as (s' & E & Eg & El & _).
  - right. left. done.
  - lia.
  - exact board_ok.
  - exact board_shown.
  - exists s'. split; [exact E|]. split; [exact Eg|exact El].
Defined.

Lemma shared_lamp_stays_dark_witness :
  exists s1 s2, bsp_ctrl_set_led_duty BSP_LED_WHITE1 50 board = Ret SYS_OK s1 /\
    shared_lamp BSP_LED_WHITE1 (bsp_hw s1) = 500 /\
    bsp_ctrl_set_led_duty BSP_LED_WHITE1 0 s1 = Ret SYS_OK s2 /\
    (forall l, shared l -> shared_lamp l (bsp_hw s2) = 0 /\ bsp_ctrl_get_led_duty l s2 = Ret 50 s2 /\
       bsp_ctrl_set_led_duty l 50 s2 = Ret SYS_OK s2).
Proof.
  change 500 with (led_pulse (TIM_GET_AUTORELOAD TIM3_CH1 (bsp_hw board)) 50).
  apply (shared_lamp_stays_dark BSP_LED_WHITE1 50 board).
  - left. reflexivity.
  - lia.
  - exact board_ok.
  - intros l [-> | ->]; reflexivity.
  - intros l [-> | ->]; reflexivity.
Defined.

(** The photo diode at half scale: 2048 of 4095 at 3300 mV. *)
Example pd_reads_half : exists s', bsp_ctrl_get_pd_voltage_mv board = Ret 1650 s'.
Proof. eexists. vm_compute. reflexivity. Qed.
(** The conversion at 1650 mV, in thousandths of a degree and of a lux. *)
Example temp_1650 : f32_to_int32 (f32_mul (bsp_ctrl_convert_lmt87_to_celcius 1650) (f32 1000)) = Some 72194.
Proof. vm_compute. reflexivity. Qed.
Example lux_1650 : f32_to_int32 (f32_mul (bsp_ctrl_convert_pd_to_lux 1650) (f32 1000)) = Some 702127.
Proof. vm_compute. reflexivity. Qed.
Example radar_output : exists s', set_output ORadar 7 board = Ret SYS_OK s' /\ get_output ORadar s' = Ret 1 s'.
Proof. destruct (output_roundtrip ORadar 7 board I) as (s' & E & Eg & _). by exists s'. Qed.

(** ** The RS485 line *)

(** The hardware counts the calls; while a stop waits, the task runs. *)
#[export] Instance line_hw : Rs485Hw nat := {
  rs_create _ d := (true, S d);
  rs_acquire _ d := (true, S d);
  uart _ d := (true, S d);
  transmit_dma _ d := (true, S d);
  rs_meanwhile bits d := (if bits =? RS485_EV_EXIT_ACK then [TaskRuns] else if bits =? 0 then [TaskRuns]
                          else if bits =? RS485_EV_TX_COMPLETE then [TxDone] else [], S d)
}.
#[export] Instance line_env : Rs485Env nat.
Proof. constructor. intros d. cbn. by left. Qed.

Definition line_cfg : uart_init_t := mkUartInit 9600 UART_WORDLENGTH_8B UART_STOPBITS_1 UART_PARITY_NONE.
Definition session : list rs_call :=
  [RInit 115200 (Some [55; 101; 50; 0]); RSetCallback (Some 3) 9; REvent (RxIdle [1; 2; 3]); REvent TaskRuns; RRecv 2;
   RSend (Some [5; 6]) 2; RDeinit; RSend (Some [5]) 1].

Lemma rs485_calls_safe_witness : returns (do_rss session) (fun _ s => rs_inv s) (rs_power_on line_cfg 0%nat).
Proof.
  apply (rs485_calls_safe line_cfg 0%nat session).
  repeat (apply Forall_cons; split; [first [exact I | split; [lia|intros l [= <-]; vm_compute; discriminate]]|]). apply Forall_nil. exact I.
Defined.
Example session_results :
  exists s, do_rss session (rs_power_on line_cfg 0%nat) = Ret [0; 0; 0; 0; 0; 0; 0; SYS_ERR_INVALID_STATE] s /\
    rx_calls s = [(3, 9, [1; 2; 3])].
Proof. eexists. split; vm_compute; reflexivity. Qed.

(** A driver in use. *)
Definition running : rs_state nat :=
  mkRs (Some 0) (Some false) (Some false) true true (replicate 512 0) (replicate 512 0) (replicate 512 0) 0 0 false (Some 3) 9
    line_cfg TaskLoop 0%nat [].
Lemma running_live : live false false running.
Proof. constructor; [by constructor|done|done|]. exists 0. split; [done|]. split_and!; [done|done|by right]. Qed.
Lemma running_receiving : receiving running.
Proof. constructor; [exact running_live|done|done|]. by exists 0. Qed.

Lemma line_acquires (d : nat) : (rs_acquire FrameMutex d).1 = true.
Proof. reflexivity. Qed.

Lemma frame_delivered_then_stale_witness :
  exists s1 s2 s3, rs_happens [RxIdle [10; 20; 30]; TaskRuns] running = Ret tt s1 /\
    rx_calls s1 = [(3, 9, [10; 20; 30])] /\
    rs485_driver_recv 2 s1 = Ret (SYS_OK, [10; 20]) s2 /\
    rs485_driver_recv 64 s2 = Ret (SYS_ERR_TIMEOUT, []) s3 /\ rs_hw s3 = S (S (rs_hw s2)).
Proof.
  apply (frame_delivered_then_stale line_acquires [10; 20; 30] 2 64 running).
  - exact running_receiving.
  - vm_compute. split; [reflexivity|discriminate].
  - lia.
  - lia.
Defined.

(** Hardware on which the task gets no turn. *)
Definition busy_hw : Rs485Hw nat := {|
  rs_create _ d := (true, S d);
  rs_acquire _ d := (true, S d);
  uart _ d := (true, S d);
  transmit_dma _ d := (true, S d);
  rs_meanwhile _ d := ([], S d)
|}.
Lemma stop_can_outrun_task_witness :
  exists s', rs485_driver_deinit (H := busy_hw) running = Ret SYS_OK s' /\ s_events s' = None /\
    rs_happen (H := busy_hw) TaskRuns s' = Undef.
Proof.
  apply (stop_can_outrun_task (HW := busy_hw) running).
  - intros d. reflexivity.
  - exact running_live.
  - reflexivity.
  - reflexivity.
Defined.
