(* ===== verification/HostCommands.v ===== *)
(** The request dispatcher of the application ([app/Custom/User/host_link_app.c],
    [host_link_dispatch_request] and its helpers) with the commands of
    [ota_host/ota_host.c], over the lens controller, the board control, the RS485 driver
    and the update module.

    A payload is the bytes of the frame's block; the structures of [host_link_proto.h]
    are packed and little-endian.  Each case of the switch is a definition that returns
    the reply. *)
From stdpp Require Import gmap.
From S2P Require Import Prelude Heap HostLink OtaModule MsBridging Ms41908mReg Ms41908m LensController BspCtrl Rs485.

(** ** Commands *)
Inductive host_link_cmd_t : Type :=
| HOST_LINK_CMD_PING | HOST_LINK_CMD_ECHO
| HOST_LINK_CMD_GET_VERSION | HOST_LINK_CMD_RTC_GET | HOST_LINK_CMD_RTC_SET
| HOST_LINK_CMD_LED_SET | HOST_LINK_CMD_LED_GET | HOST_LINK_CMD_IRCUT_SET | HOST_LINK_CMD_IRCUT_GET
| HOST_LINK_CMD_PD_GET | HOST_LINK_CMD_TEMP_GET | HOST_LINK_CMD_FAN_SET | HOST_LINK_CMD_FAN_GET
| HOST_LINK_CMD_HEAT_SET | HOST_LINK_CMD_HEAT_GET | HOST_LINK_CMD_RADAR_SET | HOST_LINK_CMD_RADAR_GET
| HOST_LINK_CMD_AOUT_SET | HOST_LINK_CMD_AOUT_GET | HOST_LINK_CMD_WOUT_SET | HOST_LINK_CMD_WOUT_GET
| HOST_LINK_CMD_AIN_GET | HOST_LINK_CMD_RESET_SOC | HOST_LINK_CMD_RS485_INIT | HOST_LINK_CMD_RS485_DEINIT
| HOST_LINK_CMD_RS485_TX
| HOST_LINK_CMD_LENS_INIT | HOST_LINK_CMD_LENS_DEINIT | HOST_LINK_CMD_LENS_CFG | HOST_LINK_CMD_LENS_STATE_GET
| HOST_LINK_CMD_LENS_IRIS_RUN | HOST_LINK_CMD_LENS_IRIS_STOP | HOST_LINK_CMD_LENS_IRIS_TGT_SET
| HOST_LINK_CMD_LENS_IRIS_ADC_GET | HOST_LINK_CMD_LENS_ZOOM_RUN | HOST_LINK_CMD_LENS_ZOOM_ABS
| HOST_LINK_CMD_LENS_ZOOM_STOP | HOST_LINK_CMD_LENS_ZOOM_RZ | HOST_LINK_CMD_LENS_ZOOM_LIM_SET
| HOST_LINK_CMD_LENS_FOCUS_RUN | HOST_LINK_CMD_LENS_FOCUS_ABS | HOST_LINK_CMD_LENS_FOCUS_STOP
| HOST_LINK_CMD_LENS_FOCUS_RZ | HOST_LINK_CMD_LENS_FOCUS_LIM_SET | HOST_LINK_CMD_LENS_ZF_SYNC_RUN
| HOST_LINK_CMD_LENS_PROFILE_GET | HOST_LINK_CMD_LENS_PROFILE_SET
| HOST_LINK_CMD_EV_ALARM_IN | HOST_LINK_CMD_EV_RS485_RX | HOST_LINK_CMD_EV_LENS
| HOST_LINK_CMD_OTA_ENTER_BOOT | HOST_LINK_CMD_REBOOT
| HOST_LINK_CMD_LENS_ZOOM_REL | HOST_LINK_CMD_LENS_FOCUS_REL | HOST_LINK_CMD_LENS_DUAL_REL.
#[export] Instance host_link_cmd_t_eq : EqDecision host_link_cmd_t.
Proof. solve_decision. Defined.

(** The values of the enumeration, in its order. *)
Definition host_link_cmds : list (host_link_cmd_t * Z) := [
  (HOST_LINK_CMD_PING, 0); (HOST_LINK_CMD_ECHO, 1);
  (HOST_LINK_CMD_GET_VERSION, 16); (HOST_LINK_CMD_RTC_GET, 17); (HOST_LINK_CMD_RTC_SET, 18);
  (HOST_LINK_CMD_LED_SET, 32); (HOST_LINK_CMD_LED_GET, 33); (HOST_LINK_CMD_IRCUT_SET, 34); (HOST_LINK_CMD_IRCUT_GET, 35);
  (HOST_LINK_CMD_PD_GET, 36); (HOST_LINK_CMD_TEMP_GET, 37); (HOST_LINK_CMD_FAN_SET, 38); (HOST_LINK_CMD_FAN_GET, 39);
  (HOST_LINK_CMD_HEAT_SET, 40); (HOST_LINK_CMD_HEAT_GET, 41); (HOST_LINK_CMD_RADAR_SET, 42); (HOST_LINK_CMD_RADAR_GET, 43);
  (HOST_LINK_CMD_AOUT_SET, 44); (HOST_LINK_CMD_AOUT_GET, 45); (HOST_LINK_CMD_WOUT_SET, 46); (HOST_LINK_CMD_WOUT_GET, 47);
  (HOST_LINK_CMD_AIN_GET, 48); (HOST_LINK_CMD_RESET_SOC, 49); (HOST_LINK_CMD_RS485_INIT, 50); (HOST_LINK_CMD_RS485_DEINIT, 51);
  (HOST_LINK_CMD_RS485_TX, 52);
  (HOST_LINK_CMD_LENS_INIT, 56); (HOST_LINK_CMD_LENS_DEINIT, 57); (HOST_LINK_CMD_LENS_CFG, 58); (HOST_LINK_CMD_LENS_STATE_GET, 59);
  (HOST_LINK_CMD_LENS_IRIS_RUN, 60); (HOST_LINK_CMD_LENS_IRIS_STOP, 61); (HOST_LINK_CMD_LENS_IRIS_TGT_SET, 62);
  (HOST_LINK_CMD_LENS_IRIS_ADC_GET, 63); (HOST_LINK_CMD_LENS_ZOOM_RUN, 66); (HOST_LINK_CMD_LENS_ZOOM_ABS, 67);
  (HOST_LINK_CMD_LENS_ZOOM_STOP, 68); (HOST_LINK_CMD_LENS_ZOOM_RZ, 69); (HOST_LINK_CMD_LENS_ZOOM_LIM_SET, 70);
  (HOST_LINK_CMD_LENS_FOCUS_RUN, 71); (HOST_LINK_CMD_LENS_FOCUS_ABS, 72); (HOST_LINK_CMD_LENS_FOCUS_STOP, 73);
  (HOST_LINK_CMD_LENS_FOCUS_RZ, 74); (HOST_LINK_CMD_LENS_FOCUS_LIM_SET, 75); (HOST_LINK_CMD_LENS_ZF_SYNC_RUN, 77);
  (HOST_LINK_CMD_LENS_PROFILE_GET, 78); (HOST_LINK_CMD_LENS_PROFILE_SET, 79);
  (HOST_LINK_CMD_EV_ALARM_IN, 64); (HOST_LINK_CMD_EV_RS485_RX, 65); (HOST_LINK_CMD_EV_LENS, 76);
  (HOST_LINK_CMD_OTA_ENTER_BOOT, 80); (HOST_LINK_CMD_REBOOT, 81);
  (HOST_LINK_CMD_LENS_ZOOM_REL, 82); (HOST_LINK_CMD_LENS_FOCUS_REL, 83); (HOST_LINK_CMD_LENS_DUAL_REL, 84) ].

Fixpoint find_cmd (z : Z) (l : list (host_link_cmd_t * Z)) : option host_link_cmd_t :=
  match l with
  | [] => None
  | (c, v) :: l => if z =? v then Some c else find_cmd z l
  end.
Definition cmd_of (z : Z) : option host_link_cmd_t := find_cmd z host_link_cmds.

Definition HOST_LINK_LENS_CAP_RELATIVE : Z := 1.
Definition HOST_LINK_LENS_CAP_ABSOLUTE : Z := 2.
Definition HOST_LINK_LENS_CAP_HOME : Z := 4.
Definition HOST_LINK_LENS_CAP_PI : Z := 8.
Definition HOST_LINK_LENS_CAP_SYNC_RELATIVE : Z := 16.
Definition HOST_LINK_LENS_CAP_IRCUT : Z := 32.
Definition HOST_LINK_LENS_CAP_IRIS : Z := 64.

(** Identifiers of the callbacks the dispatcher installs. *)
Definition hl_lens_host_notify_id : Z := 1.
Definition hl_rs485_host_notify_id : Z := 1.

(** The characters of [APP_VERSION], "0.1.8". *)
Definition APP_VERSION : list Z := [48; 46; 49; 46; 56].

(** ** Wire formats *)
Definition enc32 (v : Z) : list Z := le_enc 4 (u32 v).
Definition byte_at (l : list Z) (off : nat) : Z := le_dec (sub off 1 l).
Definition u16_at (l : list Z) (off : nat) : Z := le_dec (sub off 2 l).
Definition u32_at (l : list Z) (off : nat) : Z := le_dec (sub off 4 l).
Definition i32_at (l : list Z) (off : nat) : Z := s32 (le_dec (sub off 4 l)).

Definition state_code (st : ms41908m_state_t) : Z :=
  match st with
  | MS41908M_STATE_NO_CFG => 0
  | MS41908M_STATE_STOPPED => 1
  | MS41908M_STATE_RUNNING => 2
  | MS41908M_STATE_RESET_ZERO => 3
  | MS41908M_STATE_ERROR => 4
  end.
Definition ota_err_code (e : ota_module_err_t) : Z :=
  match e with
  | OTA_MODULE_ERR_OK => 0
  | OTA_MODULE_ERR_INVALID_ARG => -1
  | OTA_MODULE_ERR_NOT_INIT => -2
  | OTA_MODULE_ERR_ALREADY_IN_PROGRESS => -3
  | OTA_MODULE_ERR_FLASH_OP => -4
  | OTA_MODULE_ERR_RECORD_IO => -5
  | OTA_MODULE_ERR_RECORD_INVALID => -6
  | OTA_MODULE_ERR_PACKAGE_MAGIC => -7
  | OTA_MODULE_ERR_PACKAGE_HEADER_CRC => -8
  | OTA_MODULE_ERR_SLOT_UNAVAILABLE => -9
  | OTA_MODULE_ERR_FLASH_SIZE => -10
  | OTA_MODULE_ERR_SESSION_MISMATCH => -11
  | OTA_MODULE_ERR_OFFSET_MISMATCH => -12
  | OTA_MODULE_ERR_SIZE_MISMATCH => -13
  | OTA_MODULE_ERR_APP_STATUS => -14
  | OTA_MODULE_ERR_CRC_MISMATCH => -15
  | OTA_MODULE_ERR_NO_BOOT_CANDIDATE => -16
  | OTA_MODULE_ERR_JUMP_FAILED => -17
  end.

(** [host_link_rtc_tm_t]. *)
Record rtc_tm : Type := mkTm {
  tm_year : Z; tm_month : Z; tm_day : Z; tm_weekday : Z; tm_hour : Z; tm_minute : Z; tm_second : Z
}.
Definition dec_tm (l : list Z) : rtc_tm :=
  mkTm (byte_at l 0) (byte_at l 1) (byte_at l 2) (byte_at l 3) (byte_at l 4) (byte_at l 5) (byte_at l 6).
Definition enc_tm (t : rtc_tm) : list Z :=
  [u8 (tm_year t); u8 (tm_month t); u8 (tm_day t); u8 (tm_weekday t); u8 (tm_hour t); u8 (tm_minute t); u8 (tm_second t)].
Definition tm_out_of_range (t : rtc_tm) : bool :=
  (tm_month t <? 1) || (12 <? tm_month t) || (tm_day t <? 1) || (31 <? tm_day t) || (tm_weekday t <? 1) ||
  (7 <? tm_weekday t) || (23 <? tm_hour t) || (59 <? tm_minute t) || (59 <? tm_second t).

Definition hl_lens_caps_pack (c : lens_capabilities_t) : Z :=
  let bit (b : bool) (m v : Z) := if b then Z.lor v m else v in
  bit (supports_iris c) HOST_LINK_LENS_CAP_IRIS
    (bit (supports_ircut c) HOST_LINK_LENS_CAP_IRCUT
      (bit (supports_sync_relative c) HOST_LINK_LENS_CAP_SYNC_RELATIVE
        (bit (supports_pi c) HOST_LINK_LENS_CAP_PI
          (bit (supports_home c) HOST_LINK_LENS_CAP_HOME
            (bit (supports_absolute c) HOST_LINK_LENS_CAP_ABSOLUTE
              (bit (supports_relative c) HOST_LINK_LENS_CAP_RELATIVE 0)))))).

Definition enc_axis_info (a : lens_axis_profile_t) : list Z :=
  [u8 (psum_units_per_step a); u8 (direction_sign a)] ++ le_enc 2 (min_pps a) ++ le_enc 2 (max_pps a) ++
  le_enc 2 (default_pps a) ++ le_enc 2 (nominal_travel_steps a) ++ le_enc 2 (travel_tolerance_steps a).
Definition hl_lens_profile_info_fill (p : lens_profile_t) : list Z :=
  [u8 (p_model p); hl_lens_caps_pack (capabilities p)] ++ enc_axis_info (p_zoom p) ++ enc_axis_info (p_focus p).

(** ** The clock and the kernel *)
Class AppHw (D : Type) : Type := {
  HAL_RTC_GetTime : D -> bool * (Z * Z * Z) * D;
  HAL_RTC_GetDate : D -> (Z * Z * Z * Z) * D;
  HAL_RTC_SetTime : Z * Z * Z -> D -> bool * D;
  HAL_RTC_SetDate : Z * Z * Z * Z -> D -> bool * D;
  app_tick : D -> Z
}.

(** Everything behind the link: the four components, the clock, whether the reboot task
    exists and how often it was notified. *)
Record board_state (DL DB DR DA P : Type) : Type := mkBoard {
  b_lens : lc_state DL;
  b_bsp : bsp_state DB;
  b_rs : rs_state DR;
  b_ota : ota_state P;
  b_clock : DA;
  s_reboot_task : bool;
  b_reboots : nat
}.
Arguments mkBoard {DL DB DR DA P}.
Arguments b_lens {DL DB DR DA P}.
Arguments b_bsp {DL DB DR DA P}.
Arguments b_rs {DL DB DR DA P}.
Arguments b_ota {DL DB DR DA P}.
Arguments b_clock {DL DB DR DA P}.
Arguments s_reboot_task {DL DB DR DA P}.
Arguments b_reboots {DL DB DR DA P}.

Section Commands.
Context `{LensHw DL} `{LensKernel DL} `{BspHw DB} `{Rs485Hw DR} `{AppHw DA} `{OtaBuild} {P : Type}.
Notation board := (board_state DL DB DR DA P).

Definition set_b_lens (v : lc_state DL) (b : board) : board :=
  mkBoard v (b_bsp b) (b_rs b) (b_ota b) (b_clock b) (s_reboot_task b) (b_reboots b).
Definition set_b_bsp (v : bsp_state DB) (b : board) : board :=
  mkBoard (b_lens b) v (b_rs b) (b_ota b) (b_clock b) (s_reboot_task b) (b_reboots b).
Definition set_b_rs (v : rs_state DR) (b : board) : board :=
  mkBoard (b_lens b) (b_bsp b) v (b_ota b) (b_clock b) (s_reboot_task b) (b_reboots b).
Definition set_b_ota (v : ota_state P) (b : board) : board :=
  mkBoard (b_lens b) (b_bsp b) (b_rs b) v (b_clock b) (s_reboot_task b) (b_reboots b).
Definition set_b_clock (v : DA) (b : board) : board :=
  mkBoard (b_lens b) (b_bsp b) (b_rs b) (b_ota b) v (s_reboot_task b) (b_reboots b).
Definition set_b_reboots (v : nat) (b : board) : board :=
  mkBoard (b_lens b) (b_bsp b) (b_rs b) (b_ota b) (b_clock b) (s_reboot_task b) v.

Definition lens {A} (m : M (lc_state DL) A) : M board A := zoom b_lens set_b_lens m.
Definition bsp {A} (m : M (bsp_state DB) A) : M board A := zoom b_bsp set_b_bsp m.
Definition rs485 {A} (m : M (rs_state DR) A) : M board A := zoom b_rs set_b_rs m.
Definition ota {A} (m : M (ota_state P) A) : M board A := zoom b_ota set_b_ota m.
Definition clock {A} (f : DA -> A * DA) : M board A :=
  d ← gets b_clock;
  let '(a, d') := f d in
  modify (set_b_clock d');;
  mret a.

(** A reply: the bytes handed to [host_link_response], or [NULL] with length zero. *)
Definition reply : Type := option (list Z).
Definition data (l : list Z) : M board reply := mret (Some l).
Definition status (st : Z) : M board reply := mret (Some (enc32 st)).
Definition status_of (m : M board Z) : M board reply := st ← m; status st.
Definition byte_of (m : M board Z) : M board reply := v ← m; data [u8 v].

(** The guards on the payload: at least [size] bytes, or exactly [size]. *)
Definition with_payload (p : option (list Z)) (len size err : Z) (k : list Z -> M board reply) : M board reply :=
  match p with
  | Some l => if len <? size then status err else k l
  | None => status err
  end.
Definition with_exact (p : option (list Z)) (len size : Z) (k : list Z -> M board reply) : M board reply :=
  match p with
  | Some l => if negb (len =? size) then status SYS_ERR_INVALID_SIZE else k l
  | None => status SYS_ERR_INVALID_SIZE
  end.

(** ** The cases *)
Definition case_ping : M board reply := t ← gets (fun b => app_tick (b_clock b)); data (le_enc 4 t).
Definition case_echo (p : option (list Z)) (len : Z) : M board reply :=
  match p with
  | Some l => if 0 <? len then data (take (Z.to_nat len) l) else mret None
  | None => mret None
  end.
Definition case_get_version : M board reply :=
  let vs := scan_dotted 3 APP_VERSION in
  data (enc32 (nth 0 vs 0) ++ enc32 (nth 1 vs 0) ++ enc32 (nth 2 vs 0) ++ enc32 0).

Definition case_rtc_get : M board reply :=
  '(ok, t) ← clock HAL_RTC_GetTime;
  if negb ok : bool then status SYS_ERR_HAL
  else
    d ← clock HAL_RTC_GetDate;
    let '(hours, minutes, seconds) := t in
    let '(year, month, date, weekday) := d in
    data (enc_tm (mkTm year month date weekday hours minutes seconds)).
Definition case_rtc_set (p : option (list Z)) (len : Z) : M board reply :=
  with_payload p len 7 SYS_ERR_INVALID_ARG (fun l =>
    let tm := dec_tm l in
    if tm_out_of_range tm then status SYS_ERR_OUT_OF_RANGE
    else
      ok ← clock (HAL_RTC_SetTime (tm_hour tm, tm_minute tm, tm_second tm));
      ok ← (if negb ok : bool then mret false
            else clock (HAL_RTC_SetDate (tm_year tm, tm_month tm, tm_day tm, tm_weekday tm)));
      status (if ok : bool then SYS_OK else SYS_ERR_HAL)).

Definition case_led_set (p : option (list Z)) (len : Z) : M board reply :=
  with_payload p len 2 SYS_ERR_INVALID_ARG (fun l =>
    if (BSP_LED_MAX <=? byte_at l 0) || (100 <? byte_at l 1) then status SYS_ERR_OUT_OF_RANGE
    else status_of (bsp (bsp_ctrl_set_led_duty (byte_at l 0) (byte_at l 1)))).
(** The commands whose payload is a channel number. *)
Definition with_channel (p : option (list Z)) (len max : Z) (k : Z -> M board reply) : M board reply :=
  with_payload p len 1 SYS_ERR_INVALID_ARG (fun l =>
    if max <=? byte_at l 0 then status SYS_ERR_INVALID_ARG else k (byte_at l 0)).
Definition case_led_get (p : option (list Z)) (len : Z) : M board reply :=
  with_channel p len BSP_LED_MAX (fun led => byte_of (bsp (bsp_ctrl_get_led_duty led))).
Definition case_ircut_set (p : option (list Z)) (len : Z) : M board reply :=
  with_payload p len 1 SYS_ERR_INVALID_ARG (fun l => status_of (lens (lens_ircut_set_raw_level (byte_at l 0)))).

(** [host_link_adc_milli_t]; a cast of a value outside [int32_t] is undefined. *)
Definition adc_milli (mv : Z) (milli : option Z) : M board reply :=
  match milli with Some v => data (le_enc 2 mv ++ enc32 v) | None => undef end.
Definition case_pd_get : M board reply :=
  mv ← bsp bsp_ctrl_get_pd_voltage_mv;
  adc_milli mv (f32_to_int32 (f32_mul (bsp_ctrl_convert_pd_to_lux mv) (f32 1000))).
Definition case_temp_get : M board reply :=
  mv ← bsp bsp_ctrl_get_temp_voltage_mv;
  adc_milli mv (f32_to_int32 (f32_mul (bsp_ctrl_convert_lmt87_to_celcius mv) (f32 1000))).

(** The fan and the heater. *)
Definition case_duty_set (p : option (list Z)) (len : Z) (set : Z -> M (bsp_state DB) Z) : M board reply :=
  with_payload p len 1 SYS_ERR_INVALID_ARG (fun l =>
    if 100 <? byte_at l 0 then status SYS_ERR_INVALID_ARG else status_of (bsp (set (byte_at l 0)))).
Definition case_radar_set (p : option (list Z)) (len : Z) : M board reply :=
  with_payload p len 1 SYS_ERR_INVALID_ARG (fun l => status_of (bsp (bsp_ctrl_set_radar_en (byte_at l 0)))).
(** The alarm and Wiegand outputs. *)
Definition case_out_set (p : option (list Z)) (len max : Z) (set : Z -> Z -> M (bsp_state DB) Z) : M board reply :=
  with_payload p len 2 SYS_ERR_INVALID_ARG (fun l =>
    if max <=? byte_at l 0 then status SYS_ERR_OUT_OF_RANGE else status_of (bsp (set (byte_at l 0) (byte_at l 1)))).
Definition case_ain_get (p : option (list Z)) (len : Z) : M board reply :=
  with_channel p len BSP_ALARM_IN_MAX (fun i =>
    lv ← bsp (bsp_ctrl_get_alarm_in i);
    if lv <? 0 then status lv else data [u8 lv]).

Definition case_rs485_init (p : option (list Z)) (len : Z) : M board reply :=
  with_payload p len 7 SYS_ERR_INVALID_ARG (fun l =>
    let cfg := [byte_at l 4; byte_at l 5; byte_at l 6; 0] in
    r ← rs485 (rs485_driver_init (u32_at l 0) (Some cfg));
    (if r =? SYS_OK then rs485 (rs485_driver_set_rx_callback (Some hl_rs485_host_notify_id) 0);; mret tt else mret tt);;
    status r).
Definition case_rs485_deinit : M board reply :=
  rs485 (rs485_driver_set_rx_callback None 0);;
  status_of (rs485 rs485_driver_deinit).
Definition case_rs485_tx (p : option (list Z)) (len : Z) : M board reply :=
  match p with
  | Some l => if len =? 0 then status SYS_ERR_INVALID_ARG else status_of (rs485 (rs485_driver_send (Some l) len))
  | None => status SYS_ERR_INVALID_ARG
  end.

Definition case_lens_init : M board reply :=
  lens (lens_controller_set_event_callback (Some hl_lens_host_notify_id));;
  status_of (lens lens_controller_init).
Definition case_lens_deinit : M board reply :=
  lens (lens_controller_set_event_callback None);;
  lens lens_controller_deinit;;
  status SYS_OK.
Definition case_profile_get : M board reply :=
  p ← lens lens_profile_get_active;
  data (hl_lens_profile_info_fill p).
Definition case_profile_set (p : option (list Z)) (len : Z) : M board reply :=
  with_exact p len 1 (fun l => status_of (lens (lens_controller_select_profile (byte_at l 0)))).
Definition case_lens_cfg (p : option (list Z)) (len : Z) : M board reply :=
  let mode := match p with Some l => if 1 <=? len then byte_at l 0 else 0 | None => 0 end in
  status_of (lens (lens_controller_configure mode)).
Definition case_state_get : M board reply :=
  iris ← lens lens_get_iris_state;
  zm ← lens lens_get_zoom_state;
  fs ← lens lens_get_focus_state;
  zrz ← lens lens_zoom_is_homed;
  frz ← lens lens_focus_is_homed;
  zp ← lens lens_get_zoom_position;
  fp ← lens lens_get_focus_position;
  data ([state_code iris; state_code zm; state_code fs; u8 zrz; u8 frz] ++ enc32 zp ++ enc32 fp).
Definition case_iris_target (p : option (list Z)) (len : Z) : M board reply :=
  with_payload p len 2 SYS_ERR_INVALID_ARG (fun l => status_of (lens (lens_iris_update_target (u16_at l 0)))).
Definition case_iris_adc : M board reply :=
  '(r, adc) ← lens (lens_iris_read_adc true);
  if r =? SYS_OK then match adc with Some v => data (le_enc 2 v) | None => undef end else status r.
(** [host_link_lens_motion_t]: the moves of one axis. *)
Definition case_motion (p : option (list Z)) (len : Z) (move : Z -> Z -> M (lc_state DL) Z) : M board reply :=
  with_payload p len 6 SYS_ERR_INVALID_ARG (fun l => status_of (lens (move (u16_at l 0) (i32_at l 2)))).
Definition case_limit (p : option (list Z)) (len : Z) (set : Z -> Z -> M (lc_state DL) Z) : M board reply :=
  with_payload p len 8 SYS_ERR_INVALID_ARG (fun l => status_of (lens (set (i32_at l 0) (i32_at l 4)))).
Definition case_sync_run (p : option (list Z)) (len : Z) : M board reply :=
  with_payload p len 12 SYS_ERR_INVALID_ARG (fun l =>
    status_of (lens (lens_dual_run_raw (u16_at l 0) (i32_at l 2) (u16_at l 6) (i32_at l 8)))).
Definition case_relative (p : option (list Z)) (len : Z) (move : Z -> Z -> M (lc_state DL) Z) : M board reply :=
  with_exact p len 6 (fun l => status_of (lens (move (u16_at l 0) (i32_at l 2)))).
Definition case_dual_relative (p : option (list Z)) (len : Z) : M board reply :=
  with_exact p len 12 (fun l =>
    status_of (lens (lens_dual_move_relative (u16_at l 0) (i32_at l 2) (u16_at l 6) (i32_at l 8)))).

(** The switch. *)
Definition answer (cmd : Z) (p : option (list Z)) (len : Z) : M board reply :=
  match cmd_of cmd with
  | Some HOST_LINK_CMD_PING => case_ping
  | Some HOST_LINK_CMD_ECHO => case_echo p len
  | Some HOST_LINK_CMD_GET_VERSION => case_get_version
  | Some HOST_LINK_CMD_RTC_GET => case_rtc_get
  | Some HOST_LINK_CMD_RTC_SET => case_rtc_set p len
  | Some HOST_LINK_CMD_LED_SET => case_led_set p len
  | Some HOST_LINK_CMD_LED_GET => case_led_get p len
  | Some HOST_LINK_CMD_IRCUT_SET => case_ircut_set p len
  | Some HOST_LINK_CMD_IRCUT_GET => byte_of (lens lens_ircut_get_raw_level)
  | Some HOST_LINK_CMD_PD_GET => case_pd_get
  | Some HOST_LINK_CMD_TEMP_GET => case_temp_get
  | Some HOST_LINK_CMD_FAN_SET => case_duty_set p len bsp_ctrl_set_fan_duty
  | Some HOST_LINK_CMD_FAN_GET => byte_of (bsp bsp_ctrl_get_fan_duty)
  | Some HOST_LINK_CMD_HEAT_SET => case_duty_set p len bsp_ctrl_set_heat_duty
  | Some HOST_LINK_CMD_HEAT_GET => byte_of (bsp bsp_ctrl_get_heat_duty)
  | Some HOST_LINK_CMD_RADAR_SET => case_radar_set p len
  | Some HOST_LINK_CMD_RADAR_GET => byte_of (bsp bsp_ctrl_get_radar_en)
  | Some HOST_LINK_CMD_AOUT_SET => case_out_set p len BSP_ALARM_OUT_MAX bsp_ctrl_set_alarm_out
  | Some HOST_LINK_CMD_AOUT_GET => with_channel p len BSP_ALARM_OUT_MAX (fun c => byte_of (bsp (bsp_ctrl_get_alarm_out c)))
  | Some HOST_LINK_CMD_WOUT_SET => case_out_set p len BSP_WIEGAND_MAX bsp_ctrl_set_wiegand
  | Some HOST_LINK_CMD_WOUT_GET => with_channel p len BSP_WIEGAND_MAX (fun c => byte_of (bsp (bsp_ctrl_get_wiegand c)))
  | Some HOST_LINK_CMD_AIN_GET => case_ain_get p len
  | Some HOST_LINK_CMD_RESET_SOC => status_of (bsp bsp_ctrl_reset_soc_power)
  | Some HOST_LINK_CMD_RS485_INIT => case_rs485_init p len
  | Some HOST_LINK_CMD_RS485_DEINIT => case_rs485_deinit
  | Some HOST_LINK_CMD_RS485_TX => case_rs485_tx p len
  | Some HOST_LINK_CMD_LENS_INIT => case_lens_init
  | Some HOST_LINK_CMD_LENS_DEINIT => case_lens_deinit
  | Some HOST_LINK_CMD_LENS_PROFILE_GET => case_profile_get
  | Some HOST_LINK_CMD_LENS_PROFILE_SET => case_profile_set p len
  | Some HOST_LINK_CMD_LENS_CFG => case_lens_cfg p len
  | Some HOST_LINK_CMD_LENS_STATE_GET => case_state_get
  | Some HOST_LINK_CMD_LENS_IRIS_RUN => status_of (lens lens_iris_run)
  | Some HOST_LINK_CMD_LENS_IRIS_STOP => status_of (lens lens_iris_stop)
  | Some HOST_LINK_CMD_LENS_IRIS_TGT_SET => case_iris_target p len
  | Some HOST_LINK_CMD_LENS_IRIS_ADC_GET => case_iris_adc
  | Some HOST_LINK_CMD_LENS_ZOOM_RUN => case_motion p len lens_zoom_run_raw
  | Some HOST_LINK_CMD_LENS_ZOOM_ABS => case_motion p len lens_zoom_move_absolute
  | Some HOST_LINK_CMD_LENS_ZOOM_STOP => status_of (lens lens_zoom_stop)
  | Some HOST_LINK_CMD_LENS_ZOOM_RZ => status_of (lens lens_zoom_home)
  | Some HOST_LINK_CMD_LENS_ZOOM_LIM_SET => case_limit p len lens_zoom_set_position_limit
  | Some HOST_LINK_CMD_LENS_FOCUS_RUN => case_motion p len lens_focus_run_raw
  | Some HOST_LINK_CMD_LENS_FOCUS_ABS => case_motion p len lens_focus_move_absolute
  | Some HOST_LINK_CMD_LENS_FOCUS_STOP => status_of (lens lens_focus_stop)
  | Some HOST_LINK_CMD_LENS_FOCUS_RZ => status_of (lens lens_focus_home)
  | Some HOST_LINK_CMD_LENS_FOCUS_LIM_SET => case_limit p len lens_focus_set_position_limit
  | Some HOST_LINK_CMD_LENS_ZF_SYNC_RUN => case_sync_run p len
  | Some HOST_LINK_CMD_LENS_ZOOM_REL => case_relative p len lens_zoom_move_relative
  | Some HOST_LINK_CMD_LENS_FOCUS_REL => case_relative p len lens_focus_move_relative
  | Some HOST_LINK_CMD_LENS_DUAL_REL => case_dual_relative p len
  | _ => status SYS_ERR_NOT_SUPPORTED
  end.

(** ** [ota_host.c] *)
Definition ota_host_cmd_enter_boot : M board reply :=
  rc ← ota (ota_module_set_boot_ymodem_flag 1);
  status (if err_ok rc then SYS_OK else ota_err_code rc).
Definition ota_host_cmd_reboot : M board reply := status SYS_OK.
(** The commands it handles, up to the reply; both then notify the reboot task. *)
Definition ota_host_handle_request (cmd : Z) : option (M board reply) :=
  match cmd_of cmd with
  | Some HOST_LINK_CMD_OTA_ENTER_BOOT => Some ota_host_cmd_enter_boot
  | Some HOST_LINK_CMD_REBOOT => Some ota_host_cmd_reboot
  | _ => None
  end.
Definition notify_reboot : M board unit :=
  modify (fun b => if s_reboot_task b then set_b_reboots (S (b_reboots b)) b else b).

(** ** The dispatcher, in the state of the link and of the board *)
Definition app_state : Type := hl * board.
Definition link {A} (m : M hl A) : M app_state A := zoom fst (fun h a => (h, snd a)) m.
Definition brd {A} (m : M board A) : M app_state A := zoom snd (fun b a => (fst a, b)) m.

Definition respond (f : host_link_frame_t) (r : reply) : M app_state unit :=
  link (host_link_response (Some f) r (match r with Some l => zlen l | None => 0 end));;
  mret tt.

(** The bytes of the payload; reading a block that is not allocated is undefined. *)
Definition frame_bytes (f : host_link_frame_t) : M app_state (option (list Z)) :=
  match fr_payload f with
  | Some p => l ← link (load p); mret (Some l)
  | None => mret None
  end.

Definition host_link_dispatch_request (f : host_link_frame_t) : M app_state unit :=
  p ← frame_bytes f;
  let len := hl_len (fr_header f) in
  let cmd := hl_cmd (fr_header f) in
  match ota_host_handle_request cmd with
  | Some m => r ← brd m; respond f r;; brd notify_reboot
  | None => r ← brd (answer cmd p len); respond f r
  end.

(** The callback of the link. *)
Definition app_notify (f : host_link_frame_t) : M app_state unit :=
  if hl_type (fr_header f) =? HOST_LINK_TYPE_REQUEST then host_link_dispatch_request f
  else if hl_type (fr_header f) =? HOST_LINK_TYPE_EVENT then link (host_link_event_ack (Some f));; mret tt
  else mret tt.
End Commands.
