(* ===== verification/HostCommandsProps.v ===== *)
(** Theorems on the request dispatcher: every request is answered once and leaves the
    components behind the link in order; what a short payload, an unknown command and
    the update command do. *)
From stdpp Require Import gmap.
From S2P Require Import Prelude Heap HostLink HostLinkInv HostLinkOps HostLinkProps OtaModule OtaLaws OtaVerify MsBridging.
From S2P Require Import Ms41908mReg Ms41908m Ms41908mRun Ms41908mSafe Ms41908mCalls LensController LensInv LensProps.
From S2P Require Import BspCtrl BspProps Rs485 Rs485Props HostCommands.

(** ** Arguments the host may send

    The values that reach signed arithmetic of the lens driver must not overflow there;
    the two sensor commands cast floating point values and are left out. *)
Definition args_ok (c : host_link_cmd_t) (l : list Z) : Prop :=
  match c with
  | HOST_LINK_CMD_LENS_ZOOM_RUN | HOST_LINK_CMD_LENS_FOCUS_RUN => steps_ok (i32_at l 2) = true
  | HOST_LINK_CMD_LENS_ZOOM_ABS | HOST_LINK_CMD_LENS_FOCUS_ABS => position_ok (i32_at l 2) = true
  | HOST_LINK_CMD_LENS_ZOOM_LIM_SET | HOST_LINK_CMD_LENS_FOCUS_LIM_SET =>
      position_ok (i32_at l 0) = true /\ position_ok (i32_at l 4) = true
  | HOST_LINK_CMD_LENS_ZF_SYNC_RUN => steps_ok (i32_at l 2) = true /\ steps_ok (i32_at l 8) = true
  | HOST_LINK_CMD_PD_GET | HOST_LINK_CMD_TEMP_GET => False
  | _ => True
  end.
Definition host_args_ok (cmd : Z) (p : option (list Z)) : Prop :=
  forall c, cmd_of cmd = Some c -> args_ok c (default [] p).

Definition reply_ok (r : reply) : Prop :=
  match r with Some l => zlen l <= HOST_LINK_CFG_MAX_PAYLOAD | None => True end.

(** Fields of a payload of bytes. *)
Lemma byte_at_range l off : bytes_ok l -> 0 <= byte_at l off < 256.
Proof.
  intros Hl. unfold byte_at. pose proof (le_dec_bound (sub off 1 l) (bytes_ok_sub off 1 l Hl)) as Hb.
  assert (zlen (sub off 1 l) <= 1) by (unfold zlen, sub; rewrite length_take; lia).
  assert (256 ^ zlen (sub off 1 l) <= 256 ^ 1) by (apply Z.pow_le_mono_r; lia). lia.
Qed.
Lemma u16_at_range l off : bytes_ok l -> pps_ok (u16_at l off) = true.
Proof.
  intros Hl. unfold u16_at. pose proof (le_dec_bound (sub off 2 l) (bytes_ok_sub off 2 l Hl)) as Hb.
  assert (zlen (sub off 2 l) <= 2) by (unfold zlen, sub; rewrite length_take; lia).
  assert (256 ^ zlen (sub off 2 l) <= 256 ^ 2) by (apply Z.pow_le_mono_r; lia).
  unfold pps_ok. rewrite !(proj2 (Z.leb_le _ _)) by lia. done.
Qed.

Section Dispatch.
Context `{LH : LensHw DL} `{LK : LensKernel DL} `{BH : BspHw DB} {BE : BspEnv DB} `{RH : Rs485Hw DR} {RE : Rs485Env DR}.
Context `{AH : AppHw DA} `{OB : OtaBuild} {OBL : OtaBuildLaws} {P : Type} `{OP : OtaPlatform P} {OL : OtaPlatformLaws P}.
Notation board := (board_state DL DB DR DA P).

(** The invariants of the four components. *)
Record board_inv (B : Z) (b : board) : Prop := {
  bi_lens : li B (b_lens b);
  bi_unlocked : unlocked (b_lens b);
  bi_bsp : bsp_up (b_bsp b);
  bi_rs : rs_inv (b_rs b);
  bi_ota : ready (b_ota b)
}.
Context (B : Z) (HB : 0 <= B < bound).

Definition answers (m : M board reply) : Prop := forall b, board_inv B b -> returns m (fun r b' => board_inv B b' /\ reply_ok r) b.
Definition keeps_board {A} (m : M board A) : Prop := forall b, board_inv B b -> returns m (fun _ => board_inv B) b.

Lemma keep_lens {A} (m : M (lc_state DL) A) : calls B B m -> keeps_board (lens m).
Proof.
  intros Hm b []. apply returns_zoom. eapply returns_mono; [by apply Hm|]. intros a s [Hs Hu]. by constructor.
Qed.
Lemma keep_lens_call c : lens_call_ok c = true -> lens_cost c = 0 -> keeps_board (lens (do_lens c)).
Proof.
  intros Hc H0. apply keep_lens. pose proof (lens_call_safe B c) as Hs. rewrite H0, Z.add_0_r in Hs. apply Hs; [lia|lia|done].
Qed.
Lemma keep_bsp {A} (m : M (bsp_state DB) A) : stays m -> keeps_board (bsp m).
Proof. intros Hm b []. apply returns_zoom. eapply returns_mono; [by apply Hm|]. intros a s Hs. by constructor. Qed.
Lemma keep_rs {A} (m : M (rs_state DR) A) : (forall s, rs_inv s -> returns m (fun _ => rs_inv) s) -> keeps_board (rs485 m).
Proof. intros Hm b []. apply returns_zoom. eapply returns_mono; [by apply Hm|]. intros a s Hs. by constructor. Qed.
Lemma keep_clock {A} (f : DA -> A * DA) : keeps_board (clock f).
Proof. intros b []. unfold clock. rstep. destruct (f _). rstep. by constructor. Qed.

Lemma answers_bind {A} (m : M board A) (k : A -> M board reply) : keeps_board m -> (forall a, answers (k a)) -> answers (m ≫= k).
Proof. intros Hm Hk b Hb. rcall (Hm b Hb). intros a b' Hb'. by apply Hk. Qed.
Lemma answers_if (c : bool) m1 m2 : answers m1 -> answers m2 -> answers (if c then m1 else m2).
Proof. destruct c; auto. Qed.
Lemma answers_data l : zlen l <= HOST_LINK_CFG_MAX_PAYLOAD -> answers (data l).
Proof. intros Hl b Hb. unfold data. by rstep. Qed.
Lemma answers_status st : answers (status st).
Proof. by apply answers_data. Qed.
Lemma answers_status_of m : keeps_board m -> answers (status_of m).
Proof. intros Hm. apply answers_bind; [done|]. intros st. apply answers_status. Qed.
Lemma answers_byte_of m : keeps_board m -> answers (byte_of m).
Proof. intros Hm. apply answers_bind; [done|]. intros v. by apply answers_data. Qed.
Lemma board_ret {A} (a : A) : keeps_board (mret a).
Proof. by intros b Hb. Qed.
Lemma board_gets {A} (f : board -> A) : keeps_board (gets f).
Proof. by intros b Hb. Qed.
Lemma board_bind {A C} (m : M board A) (k : A -> M board C) : keeps_board m -> (forall a, keeps_board (k a)) -> keeps_board (m ≫= k).
Proof. intros Hm Hk b Hb. rcall (Hm b Hb). intros a b' Hb'. by apply Hk. Qed.

(** A function that only reads the lens controller. *)
Lemma keep_reader {A} (m : M (lc_state DL) A) : (forall s, exists a, m s = Ret a s) -> keeps_board (lens m).
Proof. intros Hm. apply keep_lens. intros s Hs Hu. destruct (Hm s) as [a E]. unfold returns. by rewrite E. Qed.

(** The payload of a frame that was checked. *)
Definition payload (p : option (list Z)) (len : Z) : Prop :=
  0 <= len <= HOST_LINK_CFG_MAX_PAYLOAD /\ match p with Some l => bytes_ok l /\ zlen l = len | None => True end.
Lemma payload_bytes l len : payload (Some l) len -> bytes_ok l.
Proof. by intros [_ [? _]]. Qed.

Lemma answers_payload p len size err k : (forall l, p = Some l -> answers (k l)) -> answers (with_payload p len size err k).
Proof.
  intros Hk. unfold with_payload. destruct p as [l|]; [|apply answers_status]. apply answers_if; [apply answers_status|by apply Hk].
Qed.
Lemma answers_exact p len size k : (forall l, p = Some l -> answers (k l)) -> answers (with_exact p len size k).
Proof.
  intros Hk. unfold with_exact. destruct p as [l|]; [|apply answers_status]. apply answers_if; [apply answers_status|by apply Hk].
Qed.
Lemma answers_channel p len max k : payload p len -> (forall c, 0 <= c < max -> answers (k c)) -> answers (with_channel p len max k).
Proof.
  intros Hp Hk. apply answers_payload. intros l ->. pose proof (byte_at_range l 0 (payload_bytes _ _ Hp)).
  destruct (max <=? byte_at l 0) eqn:E; cbool; [apply answers_status|]. apply Hk. lia.
Qed.

(** ** The cases *)
Lemma state_get_ok : answers case_state_get.
Proof.
  unfold case_state_get. do 7 (apply answers_bind;
    [apply keep_reader; intros [ms ? ? ? ? ? ? ? ? ? ? pr]; destruct pr as [? ? ? ? ? ? [? ? [] ? ? ? []] ? ? ?]; eexists; reflexivity|intros ?]).
  apply answers_data. unfold zlen. rewrite !length_app. unfold enc32. rewrite !length_le_enc. done.
Qed.
Lemma iris_adc_ok : answers case_iris_adc.
Proof.
  intros b Hb. unfold case_iris_adc. pose proof Hb as [Hl Hu Hs Hr Ho].
  assert (R : returns (lens (lens_iris_read_adc true)) (fun r b' => board_inv B b' /\ (r.1 = SYS_OK -> is_Some r.2)) b).
  { apply returns_zoom. apply returns_mono with (Q := fun r s => (li B s /\ unlocked s) /\ (r.1 = SYS_OK -> is_Some r.2)).
    2: { intros r s [[Hs1 Hu1] Hr1]. split; [by constructor|done]. }
    destruct (returns_elim _ _ _ (calls_read_adc B true ltac:(lia) (b_lens b) Hl Hu)) as ([r v] & s & E & Hx).
    eapply returns_intro; [exact E|]. split; [exact Hx|]. intros Er. by eapply read_adc_value. }
  apply returns_bind. eapply returns_mono; [exact R|]. intros [r adc] b' [Hb' Hv]. cbn [fst snd] in Hv.
  destruct (r =? SYS_OK) eqn:E; [|by apply answers_status]. cbool. destruct (Hv E) as [v ->]. by apply answers_data.
Qed.

Lemma rtc_get_ok : answers case_rtc_get.
Proof.
  apply answers_bind; [apply keep_clock|]. intros [ok t]. apply answers_if; [apply answers_status|].
  apply answers_bind; [apply keep_clock|]. intros d. destruct t as [[h m] sec], d as [[[y mo] da] w]. by apply answers_data.
Qed.
Lemma rtc_set_ok p len : answers (case_rtc_set p len).
Proof.
  apply answers_payload. intros l _. apply answers_if; [apply answers_status|].
  apply answers_bind; [apply keep_clock|]. intros ok. apply answers_bind; [destruct (negb ok); [apply board_ret|apply keep_clock]|].
  intros ok2. apply answers_status.
Qed.
Lemma led_set_ok p len : payload p len -> answers (case_led_set p len).
Proof.
  intros Hp. apply answers_payload. intros l ->. pose proof (payload_bytes _ _ Hp) as Hl.
  pose proof (byte_at_range l 0 Hl). pose proof (byte_at_range l 1 Hl).
  destruct ((BSP_LED_MAX <=? byte_at l 0) || (100 <? byte_at l 1)) eqn:E; [apply answers_status|]. cbool.
  apply answers_status_of, keep_bsp, stays_set_led; lia.
Qed.
Lemma rs_cb_ok cb user (s : rs_state DR) : rs_inv s -> returns (rs485_driver_set_rx_callback cb user) (fun _ => rs_inv) s.
Proof. intros Hs. by apply (do_rs_ok (RSetCallback cb user)). Qed.
Lemma rs485_init_ok p len : answers (case_rs485_init p len).
Proof.
  apply answers_payload. intros l _. apply answers_bind.
  { apply keep_rs. intros s Hs. by apply (do_rs_ok (RInit (u32_at l 0) (Some [byte_at l 4; byte_at l 5; byte_at l 6; 0]))). }
  intros r. apply answers_bind; [|intros _; apply answers_status].
  destruct (r =? SYS_OK); [|apply board_ret]. apply board_bind; [|intros _; apply board_ret]. apply keep_rs. intros s Hs. by apply rs_cb_ok.
Qed.
Lemma rs485_deinit_ok : answers case_rs485_deinit.
Proof.
  apply answers_bind; [apply keep_rs; intros s Hs; by apply rs_cb_ok|]. intros _.
  apply answers_status_of, keep_rs. intros s Hs. by apply (do_rs_ok RDeinit).
Qed.
Lemma rs485_tx_ok p len : payload p len -> answers (case_rs485_tx p len).
Proof.
  intros Hp. unfold case_rs485_tx. destruct p as [l|]; [|apply answers_status]. destruct (len =? 0); [apply answers_status|].
  apply answers_status_of, keep_rs. intros s Hs. destruct Hp as [? [_ <-]]. apply (do_rs_ok (RSend (Some l) (zlen l))); [|done].
  split; [lia|]. by intros ? [= <-].
Qed.
Lemma echo_ok p len : payload p len -> answers (case_echo p len).
Proof.
  intros [Hlen Hp]. unfold case_echo. destruct p as [l|]; [|by intros b Hb; rstep]. destruct (0 <? len); [|by intros b Hb; rstep].
  apply answers_data. unfold zlen. rewrite length_take. lia.
Qed.

(** The lens calls of the switch. *)
Ltac lens_call c := exact (keep_lens_call c eq_refl eq_refl).
Lemma lens_init_ok : answers case_lens_init.
Proof.
  apply answers_bind; [apply keep_lens, calls_callback|]. intros _. apply answers_status_of. lens_call LInit.
Qed.
Lemma lens_deinit_ok : answers case_lens_deinit.
Proof.
  apply answers_bind; [apply keep_lens, calls_callback|]. intros _.
  apply answers_bind; [apply keep_lens, calls_deinit; lia|]. intros _. apply answers_status.
Qed.
Lemma profile_get_ok : answers case_profile_get.
Proof.
  apply answers_bind; [apply keep_reader; intros s; by eexists|]. intros pr. apply answers_data.
  unfold hl_lens_profile_info_fill, enc_axis_info, zlen. cbn [app length]. rewrite !length_app. cbn [length].
  rewrite !length_app, !length_le_enc. done.
Qed.
Lemma motion_ok p len move : payload p len ->
  (forall l, p = Some l -> lens_call_ok (move (u16_at l 0) (i32_at l 2)) = true /\ lens_cost (move (u16_at l 0) (i32_at l 2)) = 0) ->
  answers (case_motion p len (fun pps v => do_lens (move pps v))).
Proof.
  intros Hp Hm. apply answers_payload. intros l E. destruct (Hm l E). by apply answers_status_of, keep_lens_call.
Qed.
Lemma relative_ok p len zm : payload p len -> answers (case_relative p len (fun pps v => do_lens (LMove zm pps v))).
Proof.
  intros Hp. apply answers_exact. intros l ->. apply answers_status_of, keep_lens_call; [|done]. apply u16_at_range.
  by eapply payload_bytes.
Qed.

Lemma answer_safe cmd p len : payload p len -> host_args_ok cmd p -> answers (answer cmd p len).
Proof.
  intros Hp Hr. unfold answer, host_args_ok in *. destruct (cmd_of cmd) as [c|]; [|apply answers_status].
  specialize (Hr c eq_refl). destruct c; cbn [args_ok] in Hr; try apply answers_status.
  - apply answers_bind; [apply board_gets|]. intros t. by apply answers_data.
  - by apply echo_ok.
  - by apply answers_data.
  - apply rtc_get_ok.
  - apply rtc_set_ok.
  - by apply led_set_ok.
  - apply answers_channel; [done|]. intros c Hc. apply answers_byte_of, keep_bsp. apply (do_bsp_stays (CGetLed c)). cbn. lia.
  - apply answers_payload. intros l _. apply answers_status_of. lens_call (LIrcut (byte_at l 0)).
  - apply answers_byte_of, keep_reader. intros [? ? ? ? ? ? ? ? ? ? ?]. by eexists.
  - done.
  - done.
  - apply answers_payload. intros l _. apply answers_if; [apply answers_status|].
    apply answers_status_of, keep_bsp. by apply (do_bsp_stays (CSetFan _)).
  - apply answers_byte_of, keep_bsp. by apply (do_bsp_stays CGetFan).
  - apply answers_payload. intros l _. apply answers_if; [apply answers_status|].
    apply answers_status_of, keep_bsp. by apply (do_bsp_stays (CSetHeat _)).
  - apply answers_byte_of, keep_bsp. by apply (do_bsp_stays CGetHeat).
  - apply answers_payload. intros l _. apply answers_status_of, keep_bsp. by apply (do_bsp_stays (CSetRadar _)).
  - apply answers_byte_of, keep_bsp. by apply (do_bsp_stays CGetRadar).
  - apply answers_payload. intros l _. apply answers_if; [apply answers_status|].
    apply answers_status_of, keep_bsp. by apply (do_bsp_stays (CSetAlarmOut _ _)).
  - apply answers_channel; [done|]. intros c _. apply answers_byte_of, keep_bsp. by apply (do_bsp_stays (CGetAlarmOut c)).
  - apply answers_payload. intros l _. apply answers_if; [apply answers_status|].
    apply answers_status_of, keep_bsp. by apply (do_bsp_stays (CSetWiegand _ _)).
  - apply answers_channel; [done|]. intros c _. apply answers_byte_of, keep_bsp. by apply (do_bsp_stays (CGetWiegand c)).
  - apply answers_channel; [done|]. intros c _. apply answers_bind; [apply keep_bsp; by apply (do_bsp_stays (CGetAlarmIn c))|].
    intros lv. apply answers_if; [apply answers_status|]. by apply answers_data.
  - apply answers_status_of, keep_bsp. by apply (do_bsp_stays CResetSoc).
  - apply rs485_init_ok.
  - apply rs485_deinit_ok.
  - by apply rs485_tx_ok.
  - apply lens_init_ok.
  - apply lens_deinit_ok.
  - apply answers_status_of. lens_call (LConfigure (match p with Some l => if 1 <=? len then byte_at l 0 else 0 | None => 0 end)).
  - apply state_get_ok.
  - apply answers_status_of. lens_call LIrisRun.
  - apply answers_status_of. lens_call LIrisStop.
  - apply answers_payload. intros l _. apply answers_status_of. lens_call (LIrisTarget (u16_at l 0)).
  - apply iris_adc_ok.
  - apply (motion_ok p len (LRunRaw true) Hp). intros l ->. by split.
  - apply (motion_ok p len (LAbsolute true) Hp). intros l ->. by split.
  - apply answers_status_of. lens_call (LStop true).
  - apply answers_status_of. lens_call (LHome true).
  - apply answers_payload. intros l ->. destruct Hr as [H1 H2]. apply answers_status_of, (keep_lens_call (LLimit true _ _)); [|done].
    apply andb_true_iff. by split.
  - apply (motion_ok p len (LRunRaw false) Hp). intros l ->. by split.
  - apply (motion_ok p len (LAbsolute false) Hp). intros l ->. by split.
  - apply answers_status_of. lens_call (LStop false).
  - apply answers_status_of. lens_call (LHome false).
  - apply answers_payload. intros l ->. destruct Hr as [H1 H2]. apply answers_status_of, (keep_lens_call (LLimit false _ _)); [|done].
    apply andb_true_iff. by split.
  - apply answers_payload. intros l ->. destruct Hr as [H1 H2]. apply answers_status_of, (keep_lens_call (LDualRaw _ _ _ _)); [|done].
    apply andb_true_iff. by split.
  - apply profile_get_ok.
  - apply answers_exact. intros l _. apply answers_status_of. lens_call (LSelect (byte_at l 0)).
  - by apply relative_ok with (zm := true).
  - by apply relative_ok with (zm := false).
  - apply answers_exact. intros l ->. apply answers_status_of, (keep_lens_call (LDualMove _ _ _ _)); [|done].
    apply andb_true_iff. split; apply u16_at_range; by eapply payload_bytes.
Qed.

(** ** The commands of the update module *)
Lemma enter_boot_eq (b : board) : board_inv B b ->
  exists p', ota_host_cmd_enter_boot b = Ret (Some (enc32 SYS_OK)) (set_b_ota (set_plat p' (b_ota b)) b) /\ op_ok p' /\
    record_at p' (seal (set_boot_flag 1 (effective_record (op_raw (plat (b_ota b)))))) /\
    (forall x, ~ in_record_sector x -> op_raw p' x = op_raw (plat (b_ota b)) x).
Proof.
  intros []. destruct (set_flag_ok (b_ota b) 1 bi_ota0 ltac:(unfold u32_field; lia)) as (p' & E & Hok & Hrec & Hfr). exists p'. split_and!; [|done..].
  unfold ota_host_cmd_enter_boot. erewrite bind_ret_eq by (by apply zoom_ret_eq). done.
Qed.

Lemma ota_ok cmd m : ota_host_handle_request cmd = Some m -> answers m.
Proof.
  unfold ota_host_handle_request. destruct (cmd_of cmd) as [[]|]; try done; intros [= <-].
  - intros b Hb. destruct (enter_boot_eq b Hb) as (p' & E & Hok & _). eapply returns_intro; [exact E|]. split; [|done].
    destruct Hb. constructor; try done. by apply ready_plat.
  - apply answers_status.
Qed.
Lemma reboot_ok : keeps_board notify_reboot.
Proof. intros b []. unfold notify_reboot. rstep. destruct (s_reboot_task b); by constructor. Qed.

(** ** The whole dispatcher *)
Definition frame_data (h : hl) (f : host_link_frame_t) : option (list Z) := match fr_payload f with Some p => heap h !! p | None => None end.

Lemma frame_bytes_eq h (b : board) f : frame_good (heap h) f ->
  frame_bytes f (h, b) = Ret (frame_data h f) (h, b) /\ payload (frame_data h f) (hl_len (fr_header f)).
Proof.
  intros [_ _ _ HL HP]. unfold frame_bytes, frame_data, payload_ok, payload in *. destruct (fr_payload f) as [p|]; [|split; [reflexivity|exact (conj HL I)]].
  destruct HP as (l & Hl & Hz & _ & Hb & _). rewrite Hl. split; [|exact (conj HL (conj Hb Hz))].
  erewrite bind_ret_eq; [reflexivity|]. unfold link, zoom, load. cbn [fst snd]. mstep. by rewrite Hl.
Qed.

(** The response to a frame. *)
Definition response_wire (f : host_link_frame_t) (l : list Z) : list Z :=
  wire_bytes (make_header (hl_frame_id (fr_header f)) HOST_LINK_TYPE_RESPONSE (hl_cmd (fr_header f)) (zlen l)) l.

Lemma respond_idle h (b : board) f r : idle_link h -> reply_ok r ->
  respond f r (h, b) = Ret tt (set_log (log h ++ [EvSend (response_wire f (default [] r))]) h, b).
Proof.
  intros Hi Hr. unfold respond. erewrite bind_ret_eq; [reflexivity|]. unfold link, zoom. cbn [fst snd].
  destruct r as [l|].
  - by rewrite (response_idle h f l Hi Hr).
  - assert (E : host_link_response (Some f) None 0 h =
      send_wire (make_header (hl_frame_id (fr_header f)) HOST_LINK_TYPE_RESPONSE (hl_cmd (fr_header f)) 0) [] h) by reflexivity.
    destruct Hi. by rewrite E, send_wire_idle.
Qed.
Lemma respond_ok A h (b : board) f r : inv A h -> reply_ok r ->
  returns (respond f r) (fun _ a => safely A h (fst a) /\ snd a = b) (h, b).
Proof.
  intros HI Hr. unfold respond. apply returns_bind. apply returns_zoom. cbn [fst].
  eapply returns_mono; [apply (response_ok _ _ _ A h HI)|].
  - destruct r as [l|]; cbn in Hr; unfold HOST_LINK_CFG_MAX_PAYLOAD in Hr.
    + split; [unfold zlen in *; lia|]. intros ? [= <-]. lia.
    + by split.
  - intros e h' Hs. by rstep.
Qed.

(** What a request does up to its reply. *)
Definition handle (f : host_link_frame_t) (p : option (list Z)) : M board reply :=
  match ota_host_handle_request (hl_cmd (fr_header f)) with
  | Some m => m
  | None => answer (hl_cmd (fr_header f)) p (hl_len (fr_header f))
  end.
Definition after (f : host_link_frame_t) : M board unit :=
  match (ota_host_handle_request (hl_cmd (fr_header f)) : option (M board reply)) with
  | Some _ => notify_reboot
  | None => mret tt
  end.
Lemma handle_ok f p : payload p (hl_len (fr_header f)) -> host_args_ok (hl_cmd (fr_header f)) p -> answers (handle f p).
Proof.
  intros Hp Hr. unfold handle. destruct (ota_host_handle_request _) as [m|] eqn:E; [by eapply ota_ok|by apply answer_safe].
Qed.
Lemma after_ok f : keeps_board (after f).
Proof. unfold after. destruct (ota_host_handle_request _); [apply reboot_ok|apply board_ret]. Qed.

Lemma dispatch_eq f h (b : board) p r b1 : frame_bytes f (h, b) = Ret p (h, b) -> handle f p b = Ret r b1 ->
  host_link_dispatch_request f (h, b) = (respond f r;; brd (after f)) (h, b1).
Proof.
  intros Ef Eh. unfold host_link_dispatch_request, handle, after in *. rewrite (bind_ret_eq _ _ _ _ _ Ef).
  destruct (ota_host_handle_request _) as [m|].
  - erewrite bind_ret_eq; [reflexivity|]. unfold brd. by rewrite (zoom_ret_eq _ _ m (h, b) r b1).
  - erewrite bind_ret_eq; [|unfold brd; by rewrite (zoom_ret_eq _ _ (answer _ _ _) (h, b) r b1)]. cbn [fst].
    unfold mbind, M_bind. by destruct (respond f r (h, b1)) as [[] [? ?]| | |].
Qed.

(** C9 [requests_answered]: take a checked request frame whose arguments stay in the range of the lens
    driver (no move by -2^31, positions and limits below 2^30; and that is not one of the two sensor readings), and the components behind
    the link in order.  Assume a flash that works for the update module, samples of
    16 bits and a reference voltage that does not convert to zero, and a scheduler that
    runs the RS485 task within the 100 ms a stop waits for it (if it does not, a stop
    outruns the task: [stop_can_outrun_task]).  Then, whatever allocations and transmissions of the link fail, and
    whatever the lens hardware, the timers, the pins, the UARTs and the kernel answer, the dispatcher returns, the memory of the link stays
    safe and the components are in order again.  On a link that works it sends exactly
    one frame: the response with the identifier and the command of the request. *)
Theorem requests_answered f h (b : board) :
  frame_good (heap h) f -> host_args_ok (hl_cmd (fr_header f)) (frame_data h f) -> board_inv B b ->
  (forall A, inv A h -> returns (host_link_dispatch_request f) (fun _ a => safely A h (fst a) /\ board_inv B (snd a)) (h, b)) /\
  (idle_link h -> exists r b', zlen r <= HOST_LINK_CFG_MAX_PAYLOAD /\ board_inv B b' /\
    host_link_dispatch_request f (h, b) = Ret tt (set_log (log h ++ [EvSend (response_wire f r)]) h, b')).
Proof.
  intros HG Hr Hb. destruct (frame_bytes_eq h b f HG) as [Ef Hp].
  destruct (returns_elim _ _ _ (handle_ok f _ Hp Hr b Hb)) as (r & b1 & E1 & Hb1 & Hrep).
  destruct (returns_elim _ _ _ (after_ok f b1 Hb1)) as ([] & b2 & E2 & Hb2).
  pose proof (dispatch_eq f h b _ r b1 Ef E1) as E. split.
  - intros A HI. eapply returns_eq; [exact E|]. rcall respond_ok; [done|done|]. intros _ [h' b'] [Hs Eb]. cbn in Hs, Eb. subst b'.
    apply returns_zoom. eapply returns_intro; [exact E2|]. by split.
  - intros Hi. exists (default [] r), b2. split; [by destruct r|]. split; [done|]. rewrite E.
    rewrite (bind_ret_eq _ _ _ _ _ (respond_idle h b1 f r Hi Hrep)). unfold brd. by rewrite (zoom_ret_eq _ _ (after f) _ tt b2).
Qed.

(** C33 [enter_boot_request]: with a flash that works, the components in order and an idle
    link that works, a request to enter the bootloader is answered with success.  The
    record in the flash is then the one that was in force (the default one if there was
    none) with the flag the bootloader reads at its next start set to one: the slots keep
    their entries, and no byte outside the sector of the record changes.  The reboot task is notified if
    there is one, and nothing else behind the link changes. *)
Theorem enter_boot_request f h (b : board) :
  frame_good (heap h) f -> cmd_of (hl_cmd (fr_header f)) = Some HOST_LINK_CMD_OTA_ENTER_BOOT -> idle_link h -> board_inv B b ->
  exists p', let r := effective_record (op_raw (plat (b_ota b))) in
    let b' := set_b_reboots (if s_reboot_task b then S (b_reboots b) else b_reboots b) (set_b_ota (set_plat p' (b_ota b)) b) in
    host_link_dispatch_request f (h, b) = Ret tt (set_log (log h ++ [EvSend (response_wire f (enc32 SYS_OK))]) h, b') /\
    record_at p' (seal (set_boot_flag 1 r)) /\ ota_app_info (seal (set_boot_flag 1 r)) = ota_app_info r /\
    (forall x, ~ in_record_sector x -> op_raw p' x = op_raw (plat (b_ota b)) x) /\
    (exists s, ota_module_get_boot_ymodem_flag (b_ota b') = Ret 1 s).
Proof.
  intros HG Hc Hi Hb. destruct (frame_bytes_eq h b f HG) as [Ef _].
  destruct (enter_boot_eq b Hb) as (p' & E1 & Hok & Hrec & Hfr).
  destruct (get_flag_ok (set_plat p' (b_ota b)) _ (ready_plat _ _ (bi_ota _ _ Hb) Hok) Hrec) as (p2 & Eg & _).
  assert (Eh : handle f (frame_data h f) b = Ret (Some (enc32 SYS_OK)) (set_b_ota (set_plat p' (b_ota b)) b)).
  { unfold handle, ota_host_handle_request. by rewrite Hc. }
  exists p'. cbn zeta. split_and!; [|exact Hrec|done|exact Hfr|by eexists].
  rewrite (dispatch_eq f h b _ _ _ Ef Eh). rewrite (bind_ret_eq _ _ _ _ _ (respond_idle h _ f (Some (enc32 SYS_OK)) Hi ltac:(done))).
  unfold after, ota_host_handle_request. rewrite Hc. unfold brd, zoom, notify_reboot, modify. cbn [snd fst].
  cbn. destruct b as [? ? ? ? ? [] ?]; done.
Qed.

(** ** Payloads of the wrong size *)

(** The commands with a payload: its size, whether a longer one is refused too, and the
    error. *)
Definition payload_size (c : host_link_cmd_t) : option (Z * bool * Z) :=
  match c with
  | HOST_LINK_CMD_RTC_SET | HOST_LINK_CMD_RS485_INIT => Some (7, false, SYS_ERR_INVALID_ARG)
  | HOST_LINK_CMD_LED_SET | HOST_LINK_CMD_AOUT_SET | HOST_LINK_CMD_WOUT_SET | HOST_LINK_CMD_LENS_IRIS_TGT_SET =>
      Some (2, false, SYS_ERR_INVALID_ARG)
  | HOST_LINK_CMD_LED_GET | HOST_LINK_CMD_IRCUT_SET | HOST_LINK_CMD_FAN_SET | HOST_LINK_CMD_HEAT_SET
  | HOST_LINK_CMD_RADAR_SET | HOST_LINK_CMD_AOUT_GET | HOST_LINK_CMD_WOUT_GET | HOST_LINK_CMD_AIN_GET
  | HOST_LINK_CMD_RS485_TX => Some (1, false, SYS_ERR_INVALID_ARG)
  | HOST_LINK_CMD_LENS_ZOOM_RUN | HOST_LINK_CMD_LENS_ZOOM_ABS | HOST_LINK_CMD_LENS_FOCUS_RUN
  | HOST_LINK_CMD_LENS_FOCUS_ABS => Some (6, false, SYS_ERR_INVALID_ARG)
  | HOST_LINK_CMD_LENS_ZOOM_LIM_SET | HOST_LINK_CMD_LENS_FOCUS_LIM_SET => Some (8, false, SYS_ERR_INVALID_ARG)
  | HOST_LINK_CMD_LENS_ZF_SYNC_RUN => Some (12, false, SYS_ERR_INVALID_ARG)
  | HOST_LINK_CMD_LENS_PROFILE_SET => Some (1, true, SYS_ERR_INVALID_SIZE)
  | HOST_LINK_CMD_LENS_ZOOM_REL | HOST_LINK_CMD_LENS_FOCUS_REL => Some (6, true, SYS_ERR_INVALID_SIZE)
  | HOST_LINK_CMD_LENS_DUAL_REL => Some (12, true, SYS_ERR_INVALID_SIZE)
  | _ => None
  end.

(** A command with a payload that is missing or too short (or, for the newer
    commands, too long) is answered with its error code and changes nothing behind the
    link; so is a command that is unknown or only an event, as not supported. *)
Theorem wrong_size_refused cmd p len (b : board) :
  (forall c size exact err, cmd_of cmd = Some c -> payload_size c = Some (size, exact, err) ->
    p = None \/ 0 <= len < size \/ (exact = true /\ len <> size) ->
    answer cmd p len b = Ret (Some (enc32 err)) b) /\
  (cmd_of cmd = None \/ cmd_of cmd = Some HOST_LINK_CMD_EV_ALARM_IN \/ cmd_of cmd = Some HOST_LINK_CMD_EV_RS485_RX \/
     cmd_of cmd = Some HOST_LINK_CMD_EV_LENS ->
    answer cmd p len b = Ret (Some (enc32 SYS_ERR_NOT_SUPPORTED)) b).
Proof.
  clear HB B. split.
  - intros c size exact err Ec. unfold answer. rewrite Ec.
    destruct c; cbn [payload_size]; try done; intros [= <- <- <-] Hp.
    all: unfold case_rtc_set, case_rs485_init, case_led_set, case_out_set, case_iris_target, case_led_get, case_ircut_set,
      case_duty_set, case_radar_set, case_ain_get, case_rs485_tx, case_motion, case_limit, case_sync_run, case_profile_set,
      case_relative, case_dual_relative, with_channel, with_payload, with_exact.
    all: destruct p as [l|]; [|reflexivity]; destruct Hp as [?|[?|[? ?]]]; [done| |].
    all: try done.
    all: first [rewrite (proj2 (Z.ltb_lt len _)) by lia | rewrite (proj2 (Z.eqb_eq len 0)) by lia
      | rewrite (proj2 (Z.eqb_neq len _)) by lia]; reflexivity.
  - unfold answer. by intros [-> | [-> | [-> | ->]]].
Qed.
End Dispatch.
