(* ===== verification/HostCommandsWitness.v ===== *)
(** Requests on concrete benches: the theorems on the dispatcher apply, some replies byte
    by byte, and the move that overflows. *)
From stdpp Require Import gmap.
From S2P Require Import Prelude Heap HostLink HostLinkInv HostLinkOps HostLinkWire HostLinkProps HostLinkWitness.
From S2P Require Import FlashPort FlashPortProps OtaModule OtaLaws OtaVerify OtaBoard OtaWitness MsBridging.
From S2P Require Import Ms41908mReg Ms41908m Ms41908mPort Ms41908mRun Ms41908mSafe Ms41908mCalls Ms41908mWitness.
From S2P Require Import LensController LensInv LensProps LensWitness BspCtrl BspProps Rs485 Rs485Props BoardWitness.
From S2P Require Import HostCommands HostCommandsProps.
Import Sim SimCrc.

(** The clock holds a date and a time. *)
#[export] Instance bench_clock : AppHw rtc_tm := {
  HAL_RTC_GetTime t := (true, (tm_hour t, tm_minute t, tm_second t), t);
  HAL_RTC_GetDate t := ((tm_year t, tm_month t, tm_day t, tm_weekday t), t);
  HAL_RTC_SetTime '(h, m, s) t := (true, mkTm (tm_year t) (tm_month t) (tm_day t) (tm_weekday t) h m s);
  HAL_RTC_SetDate '(y, m, d, w) t := (true, mkTm y m d w (tm_hour t) (tm_minute t) (tm_second t));
  app_tick _ := 1234
}.

Notation app_board := (board_state Ms41908mPort.bench BoardWitness.bench nat rtc_tm sboard).
Definition b0 : app_board :=
  mkBoard lens_up BoardWitness.board BoardWitness.running (sim_state (one_slot OTA_APP_STATUS_ACTIVE 0))
    (mkTm 26 7 14 2 9 30 15) true 0.
Lemma b0_inv : board_inv 0 b0.
Proof.
  constructor; [apply lens_up_li|apply lens_up_li| | |apply sim_state_ready].
  - split; [exact board_ok|by exists 0].
  - split; [exact running_live|done].
Qed.

(** A link that holds the payload of a received request. *)
Definition request (cmd : Z) (l : list Z) : host_link_frame_t :=
  mkFrame (sealed (make_header 5 HOST_LINK_TYPE_REQUEST cmd (zlen l))) (match l with [] => None | _ => Some 1%positive end)
    (host_link_crc16 l) true.
Definition link_with (l : list Z) : hl := set_heap (match l with [] => ∅ | _ => {[1%positive := l]} end) link0.
Lemma link_with_idle l : idle_link (link_with l).
Proof. destruct idle0. by constructor. Qed.

Lemma request_good cmd l : bytes_ok l -> zlen l <= HOST_LINK_CFG_MAX_PAYLOAD ->
  frame_good (heap (link_with l)) (request cmd l).
Proof.
  intros Hb Hl. unfold request, sealed, make_header. constructor; cbn [fr_header set_hl_hdr_crc hl_hdr_crc hl_magic hl_version hl_len].
  - reflexivity.
  - reflexivity.
  - reflexivity.
  - split; [unfold zlen; cbn; lia|done].
  - unfold payload_ok, link_with. destruct l as [|x l]; cbn [fr_payload fr_payload_crc heap set_heap fr_header hl_len]; [by split|].
    exists (x :: l). rewrite lookup_singleton_eq. split_and!; [reflexivity|reflexivity|discriminate|exact Hb|reflexivity].
Qed.

Lemma zero_bound : 0 <= 0 < bound.
Proof. split; [lia|reflexivity]. Qed.

(** Lamp 1 to 40 percent. *)
Lemma requests_answered_witness :
  exists r b', zlen r <= HOST_LINK_CFG_MAX_PAYLOAD /\ board_inv 0 b' /\
    host_link_dispatch_request (request 32 [1; 40]) (link_with [1; 40], b0) =
      Ret tt (set_log (log (link_with [1; 40]) ++ [EvSend (response_wire (request 32 [1; 40]) r)]) (link_with [1; 40]), b').
Proof.
  destruct (requests_answered 0 zero_bound (request 32 [1; 40]) (link_with [1; 40]) b0)
    as [_ Hidle].
  - apply request_good; [apply (bool_decide_eq_true_1 (bytes_ok _)); vm_compute; reflexivity|vm_compute; discriminate].
  - intros c Hc. vm_compute in Hc. injection Hc as <-. exact I.
  - exact b0_inv.
  - apply Hidle, link_with_idle.
Defined.

Lemma enter_boot_request_witness :
  exists p', let b' := set_b_reboots 1 (set_b_ota (set_plat p' (b_ota b0)) b0) in
    host_link_dispatch_request (request 80 []) (link_with [], b0) =
      Ret tt (set_log (log (link_with []) ++ [EvSend (response_wire (request 80 []) (enc32 SYS_OK))]) (link_with []), b') /\
    (forall x, ~ in_record_sector x -> op_raw p' x = op_raw (plat (b_ota b0)) x) /\
    (exists s, ota_module_get_boot_ymodem_flag (b_ota b') = Ret 1 s).
Proof.
  destruct (enter_boot_request 0 zero_bound (request 80 []) (link_with []) b0) as (p' & E & _ & _ & Hfr & Hf).
  - apply request_good; [constructor|vm_compute; discriminate].
  - reflexivity.
  - apply link_with_idle.
  - exact b0_inv.
  - exists p'. split; [exact E|]. split; [exact Hfr|exact Hf].
Defined.

Lemma wrong_size_refused_witness :
  answer 83 (Some [1; 2; 3; 4; 5; 6; 7]) 7 b0 = Ret (Some (enc32 SYS_ERR_INVALID_SIZE)) b0.
Proof.
  apply (proj1 (wrong_size_refused 83 (Some [1; 2; 3; 4; 5; 6; 7]) 7 b0) HOST_LINK_CMD_LENS_FOCUS_REL 6 true SYS_ERR_INVALID_SIZE).
  - reflexivity.
  - reflexivity.
  - right. right. split; [reflexivity|lia].
Defined.

(** A zoom move of [INT32_MIN] micro steps reaches the driver, which negates it. *)
Example lowest_move_overflows : answer 66 (Some [100; 0; 0; 0; 0; 128]) 6 b0 = Undef.
Proof. vm_compute. reflexivity. Qed.
(** Lamp 9 does not exist; the version is 0.1.8. *)
Example lamp_out_of_range : answer 32 (Some [9; 40]) 2 b0 = Ret (Some (enc32 SYS_ERR_OUT_OF_RANGE)) b0.
Proof. reflexivity. Qed.
Example version_reply : answer 16 None 0 b0 = Ret (Some [0; 0; 0; 0; 1; 0; 0; 0; 8; 0; 0; 0; 0; 0; 0; 0]) b0.
Proof. reflexivity. Qed.
