(* ===== verification/HostUart.v ===== *)
(** The transport of the host link and its life cycle
    ([app/Custom/User/host_link_app.c]): the circular receive buffer and the task that
    drains it, sending with a completion event, the interrupt callbacks, the events sent
    to the host, start and stop; and [ota_host_init] of [ota_host/ota_host.c].

    The UART and the kernel are the class [UartHw].  Interrupts and turns of the
    receiving task while another task waits are a list of [uart_event]s. *)
From stdpp Require Import gmap.
From S2P Require Import Prelude Heap HostLink OtaModule MsBridging Ms41908mReg Ms41908m LensController BspCtrl Rs485 HostCommands.

Definition HL_EV_TX_DONE : Z := 1.
Definition HL_EV_ERR : Z := 2.
Definition HOST_LINK_APP_RX_BUF_SIZE : Z := 1024.

(** The DMA stores bytes, the transmission under way ends, the UART reports an error
    (which may end the reception), or the receiving task gets a turn. *)
Inductive uart_event : Type :=
| RxBytes (l : list Z)
| TxComplete
| UartError (code : Z) (ends : bool)
| UartTaskRuns.

Inductive app_object : Type := AppEventGroup | AppTxMutex | AppUartTask | AppPollTask | AppRebootTask.

(** [true] is [HAL_OK], [pdTRUE], [pdPASS] or a handle that is not [NULL].  [arrivals] is
    what the DMA stores while the receiving task runs. *)
Class UartHw (D : Type) : Type := {
  app_create : app_object -> D -> bool * D;
  tx_acquire : Z -> D -> bool * D;
  receive_dma : D -> bool * D;
  uart_send_dma : list Z -> D -> bool * D;
  dma_linked : D -> bool;
  arrivals : D -> list Z * D;
  uart_meanwhile : Z -> D -> list uart_event * D;
  link_objects : D -> init_env * env_t * D
}.

(** The receiving task: it does not exist, has not run yet, or is in its loop with the
    result of the last restart. *)
Inductive task_local : Type := UartTaskNone | UartTaskNew | UartTaskLoop (st : bool).

(** Static variables; the write position of the DMA, whether it is receiving, the bytes
    it stored since power-on; the buffer being transmitted and those transmitted whole. *)
Record uart_state (D : Type) : Type := mkUart {
  g_hl : option hl;
  u_events : option Z;
  u_tx_mutex : option bool;
  s_uart_task : bool;
  s_poll_task : bool;
  u_rx_buf : list Z;
  u_dma_pos : Z;
  s_rx_dma_rd : Z;
  s_uart2_last_err : Z;
  rx_busy : bool;
  rx_stream : list Z;
  tx_line : option (list Z);
  tx_sent : list (list Z);
  uart_task : task_local;
  u_hw : D
}.
Arguments mkUart {D}.
Arguments g_hl {D}.
Arguments u_events {D}.
Arguments u_tx_mutex {D}.
Arguments s_uart_task {D}.
Arguments s_poll_task {D}.
Arguments u_rx_buf {D}.
Arguments u_dma_pos {D}.
Arguments s_rx_dma_rd {D}.
Arguments s_uart2_last_err {D}.
Arguments rx_busy {D}.
Arguments rx_stream {D}.
Arguments tx_line {D}.
Arguments tx_sent {D}.
Arguments uart_task {D}.
Arguments u_hw {D}.

Definition set_g_hl {D} (v : option hl) (s : uart_state D) : uart_state D :=
  mkUart v (u_events s) (u_tx_mutex s) (s_uart_task s) (s_poll_task s) (u_rx_buf s) (u_dma_pos s) (s_rx_dma_rd
    s) (s_uart2_last_err s) (rx_busy s) (rx_stream s) (tx_line s) (tx_sent s) (uart_task s) (u_hw s).
Definition set_u_events {D} (v : option Z) (s : uart_state D) : uart_state D :=
  mkUart (g_hl s) v (u_tx_mutex s) (s_uart_task s) (s_poll_task s) (u_rx_buf s) (u_dma_pos s) (s_rx_dma_rd s)
    (s_uart2_last_err s) (rx_busy s) (rx_stream s) (tx_line s) (tx_sent s) (uart_task s) (u_hw s).
Definition set_u_tx_mutex {D} (v : option bool) (s : uart_state D) : uart_state D :=
  mkUart (g_hl s) (u_events s) v (s_uart_task s) (s_poll_task s) (u_rx_buf s) (u_dma_pos s) (s_rx_dma_rd s)
    (s_uart2_last_err s) (rx_busy s) (rx_stream s) (tx_line s) (tx_sent s) (uart_task s) (u_hw s).
Definition set_s_uart_task {D} (v : bool) (s : uart_state D) : uart_state D :=
  mkUart (g_hl s) (u_events s) (u_tx_mutex s) v (s_poll_task s) (u_rx_buf s) (u_dma_pos s) (s_rx_dma_rd s)
    (s_uart2_last_err s) (rx_busy s) (rx_stream s) (tx_line s) (tx_sent s) (uart_task s) (u_hw s).
Definition set_s_poll_task {D} (v : bool) (s : uart_state D) : uart_state D :=
  mkUart (g_hl s) (u_events s) (u_tx_mutex s) (s_uart_task s) v (u_rx_buf s) (u_dma_pos s) (s_rx_dma_rd s)
    (s_uart2_last_err s) (rx_busy s) (rx_stream s) (tx_line s) (tx_sent s) (uart_task s) (u_hw s).
Definition set_u_rx_buf {D} (v : list Z) (s : uart_state D) : uart_state D :=
  mkUart (g_hl s) (u_events s) (u_tx_mutex s) (s_uart_task s) (s_poll_task s) v (u_dma_pos s) (s_rx_dma_rd s)
    (s_uart2_last_err s) (rx_busy s) (rx_stream s) (tx_line s) (tx_sent s) (uart_task s) (u_hw s).
Definition set_u_dma_pos {D} (v : Z) (s : uart_state D) : uart_state D :=
  mkUart (g_hl s) (u_events s) (u_tx_mutex s) (s_uart_task s) (s_poll_task s) (u_rx_buf s) v (s_rx_dma_rd s)
    (s_uart2_last_err s) (rx_busy s) (rx_stream s) (tx_line s) (tx_sent s) (uart_task s) (u_hw s).
Definition set_s_rx_dma_rd {D} (v : Z) (s : uart_state D) : uart_state D :=
  mkUart (g_hl s) (u_events s) (u_tx_mutex s) (s_uart_task s) (s_poll_task s) (u_rx_buf s) (u_dma_pos s) v
    (s_uart2_last_err s) (rx_busy s) (rx_stream s) (tx_line s) (tx_sent s) (uart_task s) (u_hw s).
Definition set_s_uart2_last_err {D} (v : Z) (s : uart_state D) : uart_state D :=
  mkUart (g_hl s) (u_events s) (u_tx_mutex s) (s_uart_task s) (s_poll_task s) (u_rx_buf s) (u_dma_pos s)
    (s_rx_dma_rd s) v (rx_busy s) (rx_stream s) (tx_line s) (tx_sent s) (uart_task s) (u_hw s).
Definition set_rx_busy {D} (v : bool) (s : uart_state D) : uart_state D :=
  mkUart (g_hl s) (u_events s) (u_tx_mutex s) (s_uart_task s) (s_poll_task s) (u_rx_buf s) (u_dma_pos s)
    (s_rx_dma_rd s) (s_uart2_last_err s) v (rx_stream s) (tx_line s) (tx_sent s) (uart_task s) (u_hw s).
Definition set_rx_stream {D} (v : list Z) (s : uart_state D) : uart_state D :=
  mkUart (g_hl s) (u_events s) (u_tx_mutex s) (s_uart_task s) (s_poll_task s) (u_rx_buf s) (u_dma_pos s)
    (s_rx_dma_rd s) (s_uart2_last_err s) (rx_busy s) v (tx_line s) (tx_sent s) (uart_task s) (u_hw s).
Definition set_tx_line {D} (v : option (list Z)) (s : uart_state D) : uart_state D :=
  mkUart (g_hl s) (u_events s) (u_tx_mutex s) (s_uart_task s) (s_poll_task s) (u_rx_buf s) (u_dma_pos s)
    (s_rx_dma_rd s) (s_uart2_last_err s) (rx_busy s) (rx_stream s) v (tx_sent s) (uart_task s) (u_hw s).
Definition set_tx_sent {D} (v : list (list Z)) (s : uart_state D) : uart_state D :=
  mkUart (g_hl s) (u_events s) (u_tx_mutex s) (s_uart_task s) (s_poll_task s) (u_rx_buf s) (u_dma_pos s)
    (s_rx_dma_rd s) (s_uart2_last_err s) (rx_busy s) (rx_stream s) (tx_line s) v (uart_task s) (u_hw s).
Definition set_uart_task {D} (v : task_local) (s : uart_state D) : uart_state D :=
  mkUart (g_hl s) (u_events s) (u_tx_mutex s) (s_uart_task s) (s_poll_task s) (u_rx_buf s) (u_dma_pos s)
    (s_rx_dma_rd s) (s_uart2_last_err s) (rx_busy s) (rx_stream s) (tx_line s) (tx_sent s) v (u_hw s).
Definition set_u_hw {D} (v : D) (s : uart_state D) : uart_state D :=
  mkUart (g_hl s) (u_events s) (u_tx_mutex s) (s_uart_task s) (s_poll_task s) (u_rx_buf s) (u_dma_pos s)
    (s_rx_dma_rd s) (s_uart2_last_err s) (rx_busy s) (rx_stream s) (tx_line s) (tx_sent s) (uart_task s) v.

Definition uart_power_on {D} (d : D) : uart_state D :=
  mkUart None None None false false (replicate 1024 0) 0 0 0 false [] None [] UartTaskNone d.

Section Uart.
Context `{UartHw D}.
Notation ust := (uart_state D).

Definition u_call {A} (f : D -> A * D) : M ust A :=
  d ← gets u_hw;
  let '(a, d') := f d in
  modify (set_u_hw d');;
  mret a.

Definition u_set_bits (bits : Z) : M ust unit :=
  g ← gets u_events;
  match g with
  | Some b => modify (set_u_events (Some (Z.lor b bits)))
  | None => undef
  end.
Definition u_clear_bits (bits : Z) : M ust unit :=
  g ← gets u_events;
  match g with
  | Some b => modify (set_u_events (Some (Z.ldiff b bits)))
  | None => undef
  end.

(** ** The DMA *)
Definition dma_put (b : Z) (s : ust) : ust :=
  set_rx_stream (rx_stream s ++ [b])
    (set_u_dma_pos ((u_dma_pos s + 1) mod HOST_LINK_APP_RX_BUF_SIZE)
      (set_u_rx_buf (<[Z.to_nat (u_dma_pos s) := b]> (u_rx_buf s)) s)).
Fixpoint dma_puts (l : list Z) (s : ust) : ust :=
  match l with
  | [] => s
  | b :: l => dma_puts l (dma_put b s)
  end.
Definition dma_stores (l : list Z) : M ust unit := modify (fun s => if rx_busy s then dma_puts l s else s).
Definition arrive : M ust unit := l ← u_call arrivals; dma_stores l.
(** The counter counts down from the size of the buffer. *)
Definition __HAL_DMA_GET_COUNTER (s : ust) : Z := HOST_LINK_APP_RX_BUF_SIZE - u_dma_pos s.

(** ** Interrupt callbacks, for [USART2] *)
Definition host_link_app_on_uart2_rx_event (size : Z) : M ust unit := mret tt.
Definition host_link_app_on_uart2_tx_done : M ust unit :=
  g ← gets u_events;
  match g with None => mret tt | Some _ => u_set_bits HL_EV_TX_DONE end.
Definition host_link_app_on_uart2_error (code : Z) : M ust unit :=
  g ← gets u_events;
  match g with
  | None => mret tt
  | Some _ => modify (set_s_uart2_last_err code);; u_set_bits HL_EV_ERR
  end.

(** ** Receiving *)
Definition hl_uart2_restart_rx_dma : M ust bool :=
  modify (set_rx_busy false);;
  modify (set_s_rx_dma_rd 0);;
  ok ← u_call receive_dma;
  (if ok : bool then modify (fun s => set_u_dma_pos 0 (set_rx_busy true s)) else mret tt);;
  mret ok.

(** [host_link_feed(g_hl, &s_rx_buf[off], n)]: bytes outside the buffer are undefined. *)
Definition feed_from (off n : Z) : M ust unit :=
  arrive;;
  s ← get;
  match g_hl s with
  | None => mret tt
  | Some h =>
      if (0 <=? off) && (off + n <=? zlen (u_rx_buf s)) then
        zoom (fun _ => h) (fun h s => set_g_hl (Some h) s)
          (host_link_feed (sub (Z.to_nat off) (Z.to_nat n) (u_rx_buf s)))
      else undef
  end.

(** The unread bytes, in one stretch or in two. *)
Definition hand_over (rd w : Z) : M ust unit :=
  if rd <? w then feed_from rd (u16 (w - rd))
  else
    feed_from rd (u16 (HOST_LINK_APP_RX_BUF_SIZE - rd));;
    if 0 <? w then feed_from 0 w else mret tt.

Definition hl_uart2_drain_rx_dma : M ust unit :=
  s ← get;
  if negb (bool_decide (is_Some (g_hl s))) || negb (dma_linked (u_hw s)) then mret tt
  else
    arrive;;
    s ← get;
    let w := u16 (HOST_LINK_APP_RX_BUF_SIZE - __HAL_DMA_GET_COUNTER s) in
    let rd := s_rx_dma_rd s in
    if w =? rd then mret tt
    else
      hand_over rd w;;
      modify (set_s_rx_dma_rd w).

(** One round of the loop, from the wait for an error to the next one. *)
Definition uart_task_round (st : bool) : M ust bool :=
  g ← gets u_events;
  match g with
  | None => undef
  | Some ev =>
      if ev_set ev HL_EV_ERR then
        u_clear_bits HL_EV_ERR;;
        err ← gets s_uart2_last_err;
        modify (set_s_uart2_last_err 0);;
        if err =? 0 then
          busy ← gets rx_busy;
          if negb busy : bool then hl_uart2_restart_rx_dma else mret st
        else hl_uart2_restart_rx_dma
      else if negb st then hl_uart2_restart_rx_dma
      else
        busy ← gets rx_busy;
        (if busy : bool then hl_uart2_drain_rx_dma else mret tt);;
        mret st
  end.

(** The scheduler gives the task a turn. *)
Definition host_link_uart_task : M ust unit :=
  t ← gets uart_task;
  match t with
  | UartTaskNone => mret tt
  | UartTaskNew => st ← hl_uart2_restart_rx_dma; modify (set_uart_task (UartTaskLoop st))
  | UartTaskLoop st => st ← uart_task_round st; modify (set_uart_task (UartTaskLoop st))
  end.

Definition u_happen (e : uart_event) : M ust unit :=
  match e with
  | RxBytes l => dma_stores l
  | TxComplete =>
      t ← gets tx_line;
      match t with
      | None => mret tt
      | Some l =>
          modify (fun s => set_tx_sent (tx_sent s ++ [l]) (set_tx_line None s));;
          host_link_app_on_uart2_tx_done
      end
  | UartError code ends =>
      (if ends : bool then modify (set_rx_busy false) else mret tt);;
      host_link_app_on_uart2_error code
  | UartTaskRuns => host_link_uart_task
  end.
Fixpoint u_happens (es : list uart_event) : M ust unit :=
  match es with
  | [] => mret tt
  | e :: es => u_happen e;; u_happens es
  end.
(** What happens in at most [ms] milliseconds. *)
Definition u_meanwhile (ms : Z) : M ust unit := es ← u_call (uart_meanwhile ms); u_happens es.

(** ** Sending *)
Definition HAL_UART_Transmit_DMA (buf : list Z) : M ust bool :=
  ok ← u_call (uart_send_dma buf);
  t ← gets tx_line;
  match t with
  | Some _ => mret false
  | None => if ok : bool then modify (set_tx_line (Some buf));; mret true else mret false
  end.
Definition HAL_UART_AbortTransmit : M ust unit := modify (set_tx_line None).

(** [xEventGroupWaitBits(s_events, HL_EV_TX_DONE, pdTRUE, pdFALSE, ..)]: whether the bit
    was set. *)
Definition wait_tx_done (ms : Z) : M ust bool :=
  g ← gets u_events;
  match g with
  | None => undef
  | Some b0 =>
      (if ev_set b0 HL_EV_TX_DONE then mret tt else u_meanwhile ms);;
      g ← gets u_events;
      match g with
      | None => undef
      | Some b => if ev_set b HL_EV_TX_DONE then u_clear_bits HL_EV_TX_DONE;; mret true else mret false
      end
  end.

Definition give_tx : M ust unit := modify (set_u_tx_mutex (Some false)).

(** Interrupts may still come between the end of a wait and the abort. *)
Definition hl_uart2_send (buf : list Z) (timeout_ms : Z) : M ust Z :=
  s ← get;
  match u_tx_mutex s, u_events s with
  | Some held, Some _ =>
      ok ← u_call (tx_acquire timeout_ms);
      if held || negb ok : bool then mret (-1)
      else
        modify (set_u_tx_mutex (Some true));;
        ok ← HAL_UART_Transmit_DMA buf;
        if negb ok : bool then HAL_UART_AbortTransmit;; give_tx;; mret (-1)
        else
          done ← wait_tx_done timeout_ms;
          if negb done : bool then u_meanwhile 0;; HAL_UART_AbortTransmit;; give_tx;; mret (-1)
          else give_tx;; mret 0
  | _, _ => mret (-1)
  end.

(** ** The task that polls the link *)
Section PollTask.
Context (notify_cb : host_link_frame_t -> M hl host_link_frame_t).
Definition host_link_poll_task_fn : M ust unit :=
  s ← get;
  match g_hl s with
  | Some h => zoom (fun _ => h) (fun h s => set_g_hl (Some h) s) (host_link_poll notify_cb)
  | None => u_meanwhile 10
  end.
End PollTask.

(** ** Events for the host *)
Definition send_event (fuel : nat) (cmd : Z) (pay : list Z) : M ust unit :=
  s ← get;
  match g_hl s with
  | None => mret tt
  | Some h =>
      zoom (fun _ => h) (fun h s => set_g_hl (Some h) s) (host_link_send_event fuel cmd (Some pay) (zlen pay));;
      mret tt
  end.
Definition hl_alarm_in_host_notify (fuel : nat) (i level : Z) : M ust unit := send_event fuel 64 [u8 i; level].
Definition hl_rs485_host_notify (fuel : nat) (d : option (list Z)) (len : Z) : M ust unit :=
  match d with
  | None => mret tt
  | Some l => if len =? 0 then mret tt else send_event fuel 65 (take (Z.to_nat len) l)
  end.
End Uart.

(** ** Start and stop, with the components behind the link *)
Section Life.
Context `{LensHw DL} `{LensKernel DL} `{BspHw DB} `{Rs485Hw DR} `{AppHw DA} `{OtaBuild} {P : Type} `{UartHw D}.
Notation board := (board_state DL DB DR DA P).
Notation ust := (uart_state D).
Definition host_state : Type := ust * board.
Definition on_uart {A} (m : M ust A) : M host_state A := zoom fst (fun u a => (u, snd a)) m.
Definition on_board {A} (m : M board A) : M host_state A := zoom snd (fun b a => (fst a, b)) m.

Definition hl_lens_host_notify (fuel : nat) (event result : Z) : M host_state unit :=
  s ← get;
  match g_hl (fst s) with
  | None => mret tt
  | Some _ =>
      zp ← on_board (lens lens_get_zoom_position);
      fp ← on_board (lens lens_get_focus_position);
      on_uart (send_event fuel 76 (enc32 event ++ enc32 result ++ enc32 zp ++ enc32 fp))
  end.

(** [ota_host_init]: [SYS_OK] or not. *)
Definition ota_host_init (cfg : ota_module_config_t P) : M host_state bool :=
  rc ← on_board (ota (ota_module_init (Some cfg)));
  if negb (err_ok rc) then mret false
  else
    b ← gets snd;
    if s_reboot_task b then mret true
    else
      ok ← on_uart (u_call (app_create AppRebootTask));
      on_board (modify (fun b => mkBoard (b_lens b) (b_bsp b) (b_rs b) (b_ota b) (b_clock b) ok (b_reboots b)));;
      mret ok.

(** The steps of the clean-up on an error path. *)
Definition drop_link : M ust unit :=
  s ← get;
  match g_hl s with
  | None => mret tt
  | Some h => zoom (fun _ => h) (fun _ s => set_g_hl None s) host_link_deinit;; mret tt
  end.
Definition drop_objects : M ust unit := modify (set_u_tx_mutex None);; modify (set_u_events None).

Definition hl_alarm_in_host_notify_id : Z := 1.

(** [g_hl = host_link_init(..)]. *)
Definition open_link : M ust (option hl) :=
  '(ie, e) ← u_call link_objects;
  let h := fst (host_link_init false false ie e) in
  modify (set_g_hl h);;
  mret h.

(** From the link that was opened to the end. *)
Definition start_rest (cfg : ota_module_config_t P) : M host_state Z :=
  ok ← ota_host_init cfg;
  if negb ok : bool then on_uart drop_link;; on_uart drop_objects;; mret SYS_ERR_INVALID_STATE
  else
    ok ← on_uart (u_call (app_create AppUartTask));
    if negb ok : bool then on_uart drop_link;; on_uart drop_objects;; mret SYS_ERR_NO_MEM
    else
      on_uart (modify (fun s => set_uart_task UartTaskNew (set_s_uart_task true s)));;
      on_uart (u_meanwhile 0);;
      ok ← on_uart (u_call (app_create AppPollTask));
      if negb ok : bool then
        on_uart (modify (fun s => set_uart_task UartTaskNone (set_s_uart_task false s)));;
        on_uart drop_link;; on_uart drop_objects;; mret SYS_ERR_NO_MEM
      else
        on_uart (modify (set_s_poll_task true));;
        on_uart (u_meanwhile 0);;
        on_board (bsp (bsp_ctrl_register_alarm_in BSP_ALARM_IN0 (Some hl_alarm_in_host_notify_id)));;
        on_board (bsp (bsp_ctrl_register_alarm_in BSP_ALARM_IN1 (Some hl_alarm_in_host_notify_id)));;
        on_uart (modify (set_u_rx_buf (replicate 1024 0)));;
        mret SYS_OK.

Definition host_link_app_init (cfg : ota_module_config_t P) : M host_state Z :=
  s ← get;
  match g_hl (fst s) with
  | Some _ => mret SYS_ERR_INVALID_STATE
  | None =>
      ok ← on_uart (u_call (app_create AppEventGroup));
      on_uart (modify (set_u_events (if ok : bool then Some 0 else None)));;
      if negb ok : bool then mret SYS_ERR_NO_MEM
      else
        ok ← on_uart (u_call (app_create AppTxMutex));
        on_uart (modify (set_u_tx_mutex (if ok : bool then Some false else None)));;
        if negb ok : bool then on_uart (modify (set_u_events None));; mret SYS_ERR_NO_MEM
        else
          h ← on_uart open_link;
          match h with
          | None => on_uart drop_objects;; mret SYS_ERR_NO_MEM
          | Some _ => start_rest cfg
          end
  end.

Definition host_link_app_deinit : M host_state unit :=
  on_board (bsp (bsp_ctrl_register_alarm_in BSP_ALARM_IN0 None));;
  on_board (bsp (bsp_ctrl_register_alarm_in BSP_ALARM_IN1 None));;
  on_uart (modify (set_s_poll_task false));;
  on_uart (modify (fun s => set_uart_task UartTaskNone (set_s_uart_task false s)));;
  on_uart (modify (fun s => set_rx_busy false (set_tx_line None s)));;
  on_uart drop_link;;
  on_uart drop_objects.
End Life.
