(* ===== verification/HostUartProps.v ===== *)
(** Theorems on the transport of the host link: the circular buffer hands over exactly
    the received stream, a transmission is reported as done only when it is (and when it
    is not), and what start and stop leave behind. *)
From stdpp Require Import gmap.
From S2P Require Import Prelude Heap HostLink HostLinkInv HostLinkOps HostLinkWire HostLinkRun OtaModule OtaLaws OtaVerify MsBridging.
From S2P Require Import Ms41908mReg Ms41908m LensController LensInv BspCtrl BspProps Rs485 HostCommands HostUart.

Definition event_ok (e : uart_event) : Prop := match e with RxBytes l => bytes_ok l | _ => True end.

(** What the UART and the kernel hand over. *)
Class UartEnv (D : Type) `{UartHw D} : Prop := {
  arrivals_bytes d : bytes_ok (arrivals d).1;
  meanwhile_bytes ms d : Forall event_ok (uart_meanwhile ms d).1;
  link_env_ok d : env_ok (link_objects d).1.2
}.

Lemma ev_set_other a b c : Z.land b c = 0 -> ev_set (Z.lor a b) c = ev_set a c.
Proof. intros E. unfold ev_set. by rewrite Z.land_lor_distr_l, E, Z.lor_0_r. Qed.
Lemma ev_set_ldiff a b c : Z.land b c = 0 -> ev_set (Z.ldiff a b) c = ev_set a c.
Proof.
  intros E. unfold ev_set. do 2 f_equal. apply Z.bits_inj'. intros n Hn. rewrite !Z.land_spec, Z.ldiff_spec.
  assert (B : Z.testbit b n && Z.testbit c n = false) by (by rewrite <- Z.land_spec, E, Z.bits_0).
  by destruct (Z.testbit a n), (Z.testbit b n), (Z.testbit c n).
Qed.
Lemma ev_set_same a c : c <> 0 -> ev_set (Z.lor a c) c = true.
Proof. intros Hc. unfold ev_set. rewrite Z.land_lor_distr_l, Z.land_diag. apply negb_true_iff, Z.eqb_neq. intros [_ ?]%Z.lor_eq_0_iff. done. Qed.
Lemma ev_clear_same a c : ev_set (Z.ldiff a c) c = false.
Proof. unfold ev_set. by rewrite Z.ldiff_land, <- Z.land_assoc, (Z.land_comm (Z.lnot c)), Z.land_lnot_diag, Z.land_0_r. Qed.

Section Receive.
Context `{UH : UartHw D} {UE : UartEnv D}.
Notation ust := (uart_state D).

(** Memory safety of the transport: the positions stay inside the buffer, the task
    only exists with its event group, and the link is in order. *)
Record u_inv (s : ust) : Prop := {
  ui_buf : length (u_rx_buf s) = 1024%nat;
  ui_bytes : bytes_ok (u_rx_buf s);
  ui_pos : 0 <= u_dma_pos s < 1024;
  ui_rd : 0 <= s_rx_dma_rd s < 1024;
  ui_task : uart_task s = UartTaskNone \/ is_Some (u_events s);
  ui_link : match g_hl s with Some h => exists A, inv A h | None => True end
}.

(** The part of the state that receiving leaves alone. *)
Definition tx_bit (s : ust) : option bool := (fun b => ev_set b HL_EV_TX_DONE) <$> u_events s.
Definition rest_of (s : ust) :=
  (tx_line s, tx_sent s, u_tx_mutex s, tx_bit s, (s_uart_task s, s_poll_task s, bool_decide (is_Some (g_hl s)))).
Definition receives {A} (m : M ust A) : Prop :=
  forall s, u_inv s -> returns m (fun _ s' => u_inv s' /\ rest_of s' = rest_of s) s.

Lemma receives_ret {A} (a : A) : receives (mret a).
Proof. by intros s Hs. Qed.
Lemma receives_gets {A B} (f : ust -> A) (k : A -> M ust B) : (forall a, receives (k a)) -> receives (gets f ≫= k).
Proof. intros Hk s Hs. rstep. by apply Hk. Qed.
Lemma receives_bind {A B} (m : M ust A) (k : A -> M ust B) : receives m -> (forall a, receives (k a)) -> receives (m ≫= k).
Proof.
  intros Hm Hk s Hs. rcall (Hm s Hs). intros a s1 [H1 E1]. eapply returns_mono; [by apply Hk|].
  cbn beta. intros b s2 [H2 E2]. split; [done|]. by rewrite E2.
Qed.
Lemma receives_call {A} (f : D -> A * D) : receives (u_call f).
Proof. intros s []. unfold u_call. rstep. destruct (f _). rstep. split; [by constructor|done]. Qed.
Lemma receives_modify (f : ust -> ust) : (forall s, u_inv s -> u_inv (f s) /\ rest_of (f s) = rest_of s) -> receives (modify f).
Proof. intros Hf s Hs. rstep. by apply Hf. Qed.

Lemma dma_put_inv b s : is_byte b -> u_inv s -> u_inv (dma_put b s).
Proof.
  intros Hb []. constructor; cbn; try done.
  - by rewrite length_insert.
  - by apply Forall_insert.
  - unfold HOST_LINK_APP_RX_BUF_SIZE. lia.
Qed.
Lemma dma_puts_inv l s : bytes_ok l -> u_inv s -> u_inv (dma_puts l s) /\ rest_of (dma_puts l s) = rest_of s.
Proof.
  intros Hl. revert s. induction Hl as [|b l Hb Hl IH]; intros s Hs; [done|]. cbn [dma_puts].
  destruct (IH (dma_put b s)) as [H1 H2]; [by apply dma_put_inv|]. split; [done|]. by rewrite H2.
Qed.
Lemma stores_ok l : bytes_ok l -> receives (dma_stores l).
Proof. intros Hl. apply receives_modify. intros s Hs. destruct (rx_busy s); [by apply dma_puts_inv|done]. Qed.
Lemma arrive_ok : receives arrive.
Proof.
  intros s Hs. unfold arrive, u_call. rstep. pose proof (arrivals_bytes (u_hw s)) as Hb. destruct (arrivals (u_hw s)) as [l d].
  rstep. apply (stores_ok l Hb (set_u_hw d s)). destruct Hs. by constructor.
Qed.
Lemma rx_restart_ok : receives hl_uart2_restart_rx_dma.
Proof.
  apply receives_bind; [apply receives_modify; intros s []; split; [by constructor|done]|]. intros _.
  apply receives_bind; [apply receives_modify; intros s []; split; [by constructor|done]|]. intros _.
  apply receives_bind; [apply receives_call|]. intros ok. apply receives_bind; [|intros _; apply receives_ret].
  destruct ok; [|apply receives_ret]. apply receives_modify; intros s []; split; [by constructor|done].
Qed.

Lemma feed_from_ok off n : 0 <= off -> off + n <= 1024 -> receives (feed_from off n).
Proof.
  intros H0 H1 s Hs. unfold feed_from. rcall (arrive_ok s Hs). intros _ s1 [Hs1 E1]. rstep. destruct (g_hl s1) as [h|] eqn:Eh; [|by rstep].
  pose proof Hs1 as []. unfold zlen. rewrite ui_buf0. rewrite (proj2 (Z.leb_le 0 off)), (proj2 (Z.leb_le _ _)) by lia. cbn [andb].
  rewrite Eh in ui_link0. destruct ui_link0 as [A HA]. apply returns_zoom.
  eapply returns_mono; [apply (host_link_feed_ok _ (bytes_ok_sub _ _ _ ui_bytes0) A h HA)|].
  cbn beta. intros _ h' (A' & _ & HA'). split; [by constructor; [..|exists A']|]. rewrite <- E1. unfold rest_of, tx_bit. cbn. by rewrite Eh.
Qed.

Lemma drain_ok : receives hl_uart2_drain_rx_dma.
Proof.
  intros s Hs. unfold hl_uart2_drain_rx_dma. rstep. destruct (_ || _); [by rstep|]. rcall (arrive_ok s Hs). intros _ s1 [Hs1 E1]. rstep.
  set (w := u16 _). assert (Hw : w = u_dma_pos s1).
  { subst w. unfold __HAL_DMA_GET_COUNTER. destruct Hs1. rewrite u16_small; lia. }
  destruct (w =? s_rx_dma_rd s1); [by rstep|]. pose proof (ui_pos _ Hs1). pose proof (ui_rd _ Hs1).
  assert (R : receives (hand_over (s_rx_dma_rd s1) w)).
  { unfold hand_over. destruct (s_rx_dma_rd s1 <? w) eqn:E; cbool; unfold HOST_LINK_APP_RX_BUF_SIZE; rewrite ?u16_small by lia; [apply feed_from_ok; lia|].
    apply receives_bind; [apply feed_from_ok; lia|]. intros _. destruct (0 <? w); [apply feed_from_ok; lia|apply receives_ret]. }
  rcall (R s1 Hs1). intros _ s2 [Hs2 E2]. rstep. split; [destruct Hs2; constructor; try done; cbn; lia|]. by rewrite <- E1, <- E2.
Qed.

(** Clearing the error bit. *)
Lemma clear_err_ok s ev : u_inv s -> u_events s = Some ev ->
  u_inv (set_u_events (Some (Z.ldiff ev HL_EV_ERR)) s) /\ rest_of (set_u_events (Some (Z.ldiff ev HL_EV_ERR)) s) = rest_of s.
Proof.
  intros [] E. split; [constructor; try done; by right|]. unfold rest_of, tx_bit. cbn. rewrite E. cbn. by rewrite ev_set_ldiff.
Qed.
Lemma uart_round_ok st : forall s, u_inv s -> is_Some (u_events s) ->
  returns (uart_task_round st) (fun _ s' => u_inv s' /\ rest_of s' = rest_of s) s.
Proof.
  intros s Hs [ev E]. unfold uart_task_round. rstep. rewrite E. destruct (ev_set ev HL_EV_ERR).
  - destruct (clear_err_ok s ev Hs E) as [H1 E1]. rewrite <- E1.
    assert (Ec : u_clear_bits HL_EV_ERR s = Ret tt (set_u_events (Some (Z.ldiff ev HL_EV_ERR)) s))
      by (unfold u_clear_bits; mstep; by rewrite E).
    rrun Ec. clear E1 Ec. revert H1. generalize (set_u_events (Some (Z.ldiff ev HL_EV_ERR)) s). apply receives_gets. intros err. apply receives_bind; [apply receives_modify; intros s1 []; split; [by constructor|done]|].
    intros _. destruct (err =? 0); [|apply rx_restart_ok]. apply receives_gets. intros busy. destruct (negb busy); [apply rx_restart_ok|apply receives_ret].
  - destruct (negb st); [by apply rx_restart_ok|]. rstep.
    apply (receives_bind (if rx_busy s then hl_uart2_drain_rx_dma else mret tt)); [|intros _; apply receives_ret|done].
    destruct (rx_busy s); [apply drain_ok|apply receives_ret].
Qed.
Lemma events_kept s s' : rest_of s' = rest_of s -> is_Some (u_events s) -> is_Some (u_events s').
Proof. intros E [ev Ev]. apply (f_equal (fun x => x.1.2)) in E. unfold rest_of, tx_bit in E. cbn in E. rewrite Ev in E. by destruct (u_events s'). Qed.
Lemma uart_task_ok : receives host_link_uart_task.
Proof.
  intros s Hs. unfold host_link_uart_task. rstep. destruct (uart_task s) as [| |st] eqn:E; [by rstep|..].
  - destruct (ui_task _ Hs) as [?|Hev]; [congruence|]. rcall (rx_restart_ok s Hs). intros ok s1 [H1 E1]. rstep.
    split; [destruct H1; constructor; try done; right; by eapply events_kept|done].
  - destruct (ui_task _ Hs) as [?|Hev]; [congruence|]. rcall (uart_round_ok st s Hs Hev). intros ok s1 [H1 E1]. rstep.
    split; [destruct H1; constructor; try done; right; by eapply events_kept|done].
Qed.

(** ** Events while a task waits *)
Definition kept (s : ust) := (u_tx_mutex s, bool_decide (is_Some (u_events s)), (s_uart_task s, s_poll_task s, bool_decide (is_Some (g_hl s)))).
(** Nothing was transmitted, or the transmission under way has ended. *)
Definition tx_moves (s s' : ust) : Prop :=
  kept s' = kept s /\
  ((tx_line s' = tx_line s /\ tx_sent s' = tx_sent s /\ tx_bit s' = tx_bit s) \/
   (exists l, tx_line s = Some l /\ tx_line s' = None /\ tx_sent s' = tx_sent s ++ [l] /\ tx_bit s' = (fun _ => true) <$> tx_bit s)).

Lemma rest_kept s s' : rest_of s' = rest_of s -> kept s' = kept s /\ tx_line s' = tx_line s /\ tx_sent s' = tx_sent s /\ tx_bit s' = tx_bit s.
Proof.
  unfold rest_of, kept. intros E. injection E. intros -> -> -> Eb -> -> ->. split_and!; try done. do 2 f_equal.
  unfold tx_bit in Eb. by destruct (u_events s'), (u_events s).
Qed.
Lemma rest_moves s s' : rest_of s' = rest_of s -> tx_moves s s'.
Proof. intros (? & ? & ? & ?)%rest_kept. split; auto. Qed.
Lemma moves_trans s1 s2 s3 : tx_moves s1 s2 -> tx_moves s2 s3 -> tx_moves s1 s3.
Proof.
  intros [K1 M1] [K2 M2]. split; [congruence|]. destruct M1 as [(L1 & S1 & B1)|(l & L0 & L1 & S1 & B1)].
  - destruct M2 as [(-> & -> & ->)|(l & L2 & L3 & -> & ->)]; [by left|]. right. exists l. by rewrite <- L1, S1, B1.
  - destruct M2 as [(L2 & -> & ->)|(l2 & L2 & _)]; [|congruence]. right. exists l. rewrite L2. auto.
Qed.

Lemma u_happen_ok e s : event_ok e -> u_inv s -> returns (u_happen e) (fun _ s' => u_inv s' /\ tx_moves s s') s.
Proof.
  intros He Hs. destruct e as [l| |code ends|].
  - eapply returns_mono; [by apply (stores_ok l)|]. cbn. intros _ s' [? ?%rest_moves]. done.
  - unfold u_happen. rstep. destruct (tx_line s) as [l|] eqn:E; [|rstep; split; [done|by apply rest_moves]]. rstep.
    unfold host_link_app_on_uart2_tx_done, u_set_bits. rstep. cbn [set_tx_sent set_tx_line u_events].
    destruct (u_events s) as [b|] eqn:Eb.
    + do 2 rstep. cbn [set_tx_sent set_tx_line u_events]. rewrite Eb. rstep. split; [destruct Hs; constructor; try done; by right|].
      split; [unfold kept; cbn; by rewrite Eb|]. right. exists l. unfold tx_bit. cbn. rewrite Eb. cbn. by rewrite ev_set_same.
    + rstep. split; [destruct Hs; by constructor|]. split; [done|]. right. exists l. unfold tx_bit. cbn. by rewrite Eb.
  - eapply returns_mono with (Q := fun _ s' => u_inv s' /\ rest_of s' = rest_of s);
      [|by cbn; intros _ s' [? ?%rest_moves]].
    revert s Hs. apply receives_bind.
    { destruct ends; [|apply receives_ret]. apply receives_modify. intros s []. split; [by constructor|done]. }
    intros _ s Hs. unfold host_link_app_on_uart2_error, u_set_bits. rstep. destruct (u_events s) as [b|] eqn:Eb; [|by rstep].
    do 3 rstep. cbn. rewrite Eb. rstep. split; [destruct Hs; constructor; try done; by right|].
    unfold rest_of, tx_bit. cbn. rewrite Eb. cbn. by rewrite ev_set_other.
  - eapply returns_mono; [by apply uart_task_ok|]. cbn. intros _ s' [? ?%rest_moves]. done.
Qed.
Lemma u_happens_ok es : Forall event_ok es -> forall s, u_inv s -> returns (u_happens es) (fun _ s' => u_inv s' /\ tx_moves s s') s.
Proof.
  induction 1 as [|e es He Hes IH]; intros s Hs; cbn [u_happens]; [rstep; split; [done|by apply rest_moves]|].
  rcall (u_happen_ok e s He Hs). intros _ s1 [H1 M1]. eapply returns_mono; [by apply IH|]. cbn beta. intros _ s2 [H2 M2].
  split; [done|]. by eapply moves_trans.
Qed.
Lemma meanwhile_ok ms s : u_inv s -> returns (u_meanwhile ms) (fun _ s' => u_inv s' /\ tx_moves s s') s.
Proof.
  intros Hs. unfold u_meanwhile, u_call. rstep. pose proof (meanwhile_bytes ms (u_hw s)) as Hb. destruct (uart_meanwhile ms (u_hw s)) as [es d].
  rstep. apply (u_happens_ok es Hb (set_u_hw d s)). destruct Hs. by constructor.
Qed.

(** ** Sending *)

(** The state between two transmissions. *)
Record tx_idle (s : ust) : Prop := {
  ti_inv : u_inv s;
  ti_events : is_Some (u_events s);
  ti_mutex : u_tx_mutex s = Some false;
  ti_line : tx_line s = None
}.

(** The wait, from a transmission that has just been started. *)
Lemma wait_ok ms s buf : u_inv s -> is_Some (u_events s) -> tx_line s = Some buf -> tx_bit s = Some false ->
  returns (wait_tx_done ms) (fun done s' => u_inv s' /\ kept s' = kept s /\
    if done : bool then tx_line s' = None /\ tx_sent s' = tx_sent s ++ [buf] /\ tx_bit s' = Some false
    else tx_line s' = Some buf /\ tx_sent s' = tx_sent s /\ tx_bit s' = Some false) s.
Proof.
  intros Hs [b Eb] El Et. unfold wait_tx_done. rstep. rewrite Eb. pose proof Et as Et'. unfold tx_bit in Et. rewrite Eb in Et. cbn in Et.
  injection Et as ->. rcall (meanwhile_ok ms s Hs). intros _ s1 [H1 [K1 M1]]. rstep.
  assert (is_Some (u_events s1)) as [b1 E1].
  { unfold kept in K1. injection K1. rewrite Eb. cbn. intros _ _ _ E _. by apply bool_decide_eq_true_1 in E. }
  rewrite E1. destruct M1 as [(L1 & S1 & B1)|(l & L0 & L1 & S1 & B1)].
  - unfold tx_bit in B1 at 1. rewrite E1, Et' in B1. cbn in B1. injection B1 as B1. rewrite B1. rstep. split_and!; try done; [congruence|].
    unfold tx_bit. rewrite E1. cbn. by rewrite B1.
  - unfold tx_bit in B1 at 1. rewrite E1, Et' in B1. cbn in B1. injection B1 as B1. rewrite B1.
    assert (Ec : u_clear_bits HL_EV_TX_DONE s1 = Ret tt (set_u_events (Some (Z.ldiff b1 HL_EV_TX_DONE)) s1))
      by (unfold u_clear_bits; mstep; by rewrite E1).
    rrun Ec. rstep. assert (l = buf) as -> by congruence. split_and!; try done.
    + destruct H1. constructor; try done. by right.
    + rewrite <- K1. unfold kept. cbn. by rewrite E1.
    + unfold tx_bit. cbn. by rewrite ev_clear_same.
Qed.

(** A send that starts with no transmission under way and no completion pending
    gives the mutex back and leaves the line idle on every path.  It returns zero only
    when the UART has transmitted the whole buffer, and then no completion is pending
    either; on failure the buffer was not transmitted, or its completion came after the
    time-out. *)
Theorem send_reports_truth buf ms s : tx_idle s -> tx_bit s = Some false ->
  returns (hl_uart2_send buf ms) (fun r s' => tx_idle s' /\
    (r = 0 /\ tx_sent s' = tx_sent s ++ [buf] /\ tx_bit s' = Some false \/
     r = -1 /\ (tx_sent s' = tx_sent s /\ tx_bit s' = Some false \/ tx_sent s' = tx_sent s ++ [buf] /\ tx_bit s' = Some true))) s.
Proof.
  intros [Hs [b Eb] Em El] Et. unfold hl_uart2_send. rstep. rewrite Em, Eb. unfold u_call at 1. rstep.
  destruct (tx_acquire ms (u_hw s)) as [ok d]. rstep. cbn [orb]. destruct (negb ok).
  { rstep. split; [|by auto]. constructor; try done; first [by exists b | destruct Hs; by constructor]. }
  rstep. apply returns_bind. eapply returns_mono with (Q := fun ok s1 => u_inv s1 /\ kept s1 = (Some true, true, (kept s).2) /\
    tx_sent s1 = tx_sent s /\ tx_bit s1 = Some false /\ tx_line s1 = if ok : bool then Some buf else None).
  { unfold HAL_UART_Transmit_DMA, u_call. rstep. destruct (uart_send_dma buf _) as [ok2 d2]. do 2 rstep. cbn [tx_line set_u_hw set_u_tx_mutex].
    rewrite El. unfold tx_bit in Et. destruct ok2; repeat rstep; unfold kept, tx_bit; cbn; rewrite Eb in *; cbn;
      (split_and!; [destruct Hs; constructor; try done; right; cbn; rewrite Eb; eauto|done|done|done|done]). }
  cbn beta. intros ok2 s1 (H1 & K1 & S1 & B1 & L1).
  assert (is_Some (u_events s1)) as Hev1 by (unfold tx_bit in B1; destruct (u_events s1); by eauto).
  destruct ok2; cbn [negb].
  - rcall (wait_ok ms s1 buf H1 Hev1 L1 B1). intros dn s2 (H2 & K2 & P2). rewrite S1 in P2.
    assert (Hev2 : is_Some (u_events s2)) by (unfold tx_bit in P2; destruct dn, (u_events s2); try (by eauto); by destruct P2 as (_ & _ & ?)).
    destruct dn; cbn [negb].
    + rstep. destruct P2 as (L2 & S2 & B2). rstep. split; [|by auto]. constructor; try done; destruct H2; by constructor.
    + rcall (meanwhile_ok 0 s2 H2). intros _ s3 [H3 [K3 M3]]. repeat rstep. destruct P2 as (L2 & S2 & B2).
      assert (Hev3 : is_Some (u_events s3)).
      { rewrite K2, K1 in K3. unfold kept in K3. injection K3. intros _ _ _ E _. by apply bool_decide_eq_true_1 in E. }
      split; [constructor; try done; destruct H3; by constructor|]. right. split; [done|]. cbn.
      destruct M3 as [(L3 & S3 & B3)|(l & L0 & L3 & S3 & B3)]; [left|right]; rewrite S3, S2; (split; [congruence|]).
      * change (tx_bit s3 = Some false). congruence.
      * change (tx_bit s3 = Some true). by rewrite B3, B2.
  - repeat rstep. split; [|by auto]. constructor; try done; destruct H1; by constructor.
Qed.

(** A completion that came after the time-out of an earlier send stays
    pending.  The next send then returns success at once, with its buffer still being
    transmitted; the link frees the buffer when the send returns. *)
Theorem stale_completion_ends_send buf ms s d1 d2 : tx_idle s -> tx_bit s = Some true ->
  tx_acquire ms (u_hw s) = (true, d1) -> uart_send_dma buf d1 = (true, d2) ->
  exists s', hl_uart2_send buf ms s = Ret 0 s' /\ tx_line s' = Some buf /\ tx_sent s' = tx_sent s /\ tx_bit s' = Some false.
Proof.
  destruct s. intros [_ [b Eb] Em El] Et Ea Es. cbn in *. subst. cbn in Et. injection Et as Et.
  unfold hl_uart2_send, HAL_UART_Transmit_DMA, wait_tx_done, u_clear_bits, give_tx, u_call. mstep. cbn. rewrite Ea. cbn. rewrite Es. cbn. rewrite Et. cbn.
  rewrite Et. cbn. eexists. split; [reflexivity|]. unfold tx_bit. cbn. by rewrite ev_clear_same.
Qed.
(** ** The circular buffer *)

(** The buffer holds [l] from the read position to the position of the DMA. *)
Record ring_holds (l : list Z) (s : ust) : Prop := {
  rh_buf : length (u_rx_buf s) = 1024%nat;
  rh_rd : 0 <= s_rx_dma_rd s < 1024;
  rh_len : zlen l < 1024;
  rh_pos : u_dma_pos s = (s_rx_dma_rd s + zlen l) mod 1024;
  rh_at i b : l !! i = Some b -> u_rx_buf s !! Z.to_nat ((s_rx_dma_rd s + Z.of_nat i) mod 1024) = Some b
}.

Lemma ring_put b l s : ring_holds l s -> zlen l + 1 < 1024 -> ring_holds (l ++ [b]) (dma_put b s).
Proof.
  intros [HB HR HL HP HA] Hn. unfold zlen in *. constructor; cbn; unfold zlen; rewrite ?length_insert, ?length_app; cbn; unfold HOST_LINK_APP_RX_BUF_SIZE; try (lia || done).
  intros i b' Hi. destruct (decide (i = length l)) as [->|Hne].
  - rewrite lookup_app_r, Nat.sub_diag in Hi by lia. injection Hi as ->. rewrite HP. apply list_lookup_insert_eq. lia.
  - pose proof (lookup_lt_Some _ _ _ Hi) as Hlt. rewrite length_app in Hlt. cbn in Hlt. rewrite lookup_app_l in Hi by lia.
    rewrite list_lookup_insert_ne by (rewrite HP; lia). by apply HA.
Qed.
Lemma ring_puts k : forall l s, ring_holds l s -> zlen l + zlen k < 1024 -> ring_holds (l ++ k) (dma_puts k s).
Proof.
  induction k as [|b k IH]; intros l s Hr Hn; cbn [dma_puts]; [by rewrite app_nil_r|].
  replace (l ++ b :: k) with ((l ++ [b]) ++ k) by (by rewrite <- app_assoc). unfold zlen in *. cbn [length] in Hn.
  apply IH; [apply ring_put; [done|unfold zlen; lia]|rewrite length_app; cbn; lia].
Qed.
(** A stretch of the buffer that does not wrap around. *)
Lemma ring_sub p1 p2 p3 s off : ring_holds (p1 ++ p2 ++ p3) s -> off = (s_rx_dma_rd s + zlen p1) mod 1024 ->
  off + zlen p2 <= 1024 -> sub (Z.to_nat off) (length p2) (u_rx_buf s) = p2.
Proof.
  intros [HB HR HL HP HA] -> Ho. unfold zlen in *. rewrite !length_app in HL. apply list_eq. intros i. unfold sub.
  destruct (decide (i < length p2)%nat) as [Hi|Hi].
  - rewrite lookup_take_lt, lookup_drop by lia. destruct (lookup_lt_is_Some_2 p2 i Hi) as [b Hb]. rewrite Hb.
    rewrite <- (HA (length p1 + i)%nat b).
    + f_equal. lia.
    + rewrite lookup_app_r by lia. rewrite lookup_app_l by lia. rewrite <- Hb. f_equal. lia.
  - rewrite (lookup_ge_None_2 p2) by lia. apply lookup_ge_None_2. rewrite length_take. lia.
Qed.
Lemma ring_consume p q s w : ring_holds (p ++ q) s -> w = (s_rx_dma_rd s + zlen p) mod 1024 -> ring_holds q (set_s_rx_dma_rd w s).
Proof.
  intros [HB HR HL HP HA] ->. unfold zlen in *. rewrite length_app in HL, HP. constructor; cbn; unfold zlen; try (lia || done).
  intros i b Hi. rewrite <- (HA (length p + i)%nat b).
  - f_equal. lia.
  - rewrite lookup_app_r by lia. rewrite <- Hi. f_equal. lia.
Qed.
End Receive.

(** ** The stream that reaches the link *)
Section Stream.
Context `{UH : UartHw D} {UE : UartEnv D}.
Notation ust := (uart_state D).
(** At most [a] bytes come in while the task runs a part of its round. *)
Context (a : Z) (rate : forall d, zlen (arrivals d).1 <= a) (linked : forall d, dma_linked d = true).

(** Between two states the DMA stored [k]; the rest of the receiver is as it was. *)
Record stored (k : list Z) (s s' : ust) : Prop := {
  st_stream : rx_stream s' = rx_stream s ++ k;
  st_busy : rx_busy s' = rx_busy s;
  st_task : uart_task s' = uart_task s;
  st_events : u_events s' = u_events s
}.
Lemma stored_refl s : stored [] s s.
Proof. constructor; try done. by rewrite app_nil_r. Qed.
Lemma stored_trans k1 k2 s1 s2 s3 : stored k1 s1 s2 -> stored k2 s2 s3 -> stored (k1 ++ k2) s1 s3.
Proof. intros [] []. constructor; try congruence. rewrite app_assoc. congruence. Qed.

Lemma puts_stored k : forall s, stored k s (dma_puts k s) /\ g_hl (dma_puts k s) = g_hl s /\ s_rx_dma_rd (dma_puts k s) = s_rx_dma_rd s.
Proof.
  induction k as [|b k IH]; intros s; cbn [dma_puts]; [split; [apply stored_refl|done]|].
  destruct (IH (dma_put b s)) as (H1 & H2 & H3). split_and!; [|by rewrite H2|by rewrite H3].
  change (b :: k) with ([b] ++ k). eapply stored_trans; [|exact H1]. by constructor.
Qed.
Lemma arrive_ring l s : ring_holds l s -> rx_busy s = true -> zlen l + a < 1024 ->
  returns arrive (fun _ s' => exists k, bytes_ok k /\ zlen k <= a /\ ring_holds (l ++ k) s' /\ stored k s s' /\
    g_hl s' = g_hl s /\ s_rx_dma_rd s' = s_rx_dma_rd s) s.
Proof.
  intros Hr Hb Hn. unfold arrive, u_call. rstep. pose proof (arrivals_bytes (u_hw s)) as Hk. pose proof (rate (u_hw s)) as Ha.
  destruct (arrivals (u_hw s)) as [k d]. cbn [fst] in *. unfold dma_stores. repeat rstep. cbn [set_u_hw rx_busy]. rewrite Hb.
  assert (Hr' : ring_holds l (set_u_hw d s)) by (destruct Hr; by constructor).
  destruct (puts_stored k (set_u_hw d s)) as ([] & H2 & H3). exists k. split_and!; try done; first [apply ring_puts; [done|lia] | by constructor].
Qed.

(** One stretch handed to the link. *)
Lemma feed_ring p1 p2 p3 s off n h h' :
  ring_holds (p1 ++ p2 ++ p3) s -> rx_busy s = true -> zlen (p1 ++ p2 ++ p3) + a < 1024 ->
  off = (s_rx_dma_rd s + zlen p1) mod 1024 -> n = zlen p2 -> off + n <= 1024 ->
  g_hl s = Some h -> host_link_feed p2 h = Ret tt h' ->
  returns (feed_from off n) (fun _ s' => exists k, bytes_ok k /\ zlen k <= a /\ ring_holds (p1 ++ p2 ++ p3 ++ k) s' /\ stored k s s' /\
    g_hl s' = Some h' /\ s_rx_dma_rd s' = s_rx_dma_rd s) s.
Proof.
  intros Hr Hb Hn Ho -> Hon Eh Ef. unfold feed_from. rcall (arrive_ring _ s Hr Hb Hn). intros _ s1 (k & Hk & Hka & Hr1 & Hst & Eg & Er).
  rstep. rewrite Eg, Eh. rewrite <- !app_assoc in Hr1. pose proof (rh_buf _ _ Hr1) as HB. pose proof (rh_rd _ _ Hr1).
  assert (Hoff : 0 <= off) by lia. unfold zlen at 2. rewrite HB.
  rewrite (proj2 (Z.leb_le 0 off)), (proj2 (Z.leb_le _ _)) by lia. cbn [andb].
  replace (Z.to_nat (zlen p2)) with (length p2) by (unfold zlen; lia).
  rewrite (ring_sub p1 p2 (p3 ++ k) s1 off) by (done || congruence). apply returns_zoom. eapply returns_intro; [exact Ef|].
  exists k. split_and!; try done; destruct Hr1, Hst; by constructor.
Qed.

Lemma hand_over_ring p s w h h' :
  ring_holds p s -> rx_busy s = true -> zlen p + 2 * a < 1024 -> 0 <= a -> w = u_dma_pos s -> w <> s_rx_dma_rd s ->
  g_hl s = Some h -> host_link_feed p h = Ret tt h' ->
  returns (hand_over (s_rx_dma_rd s) w) (fun _ s' => exists k, bytes_ok k /\ zlen k <= 2 * a /\ ring_holds (p ++ k) s' /\ stored k s s' /\
    g_hl s' = Some h' /\ s_rx_dma_rd s' = s_rx_dma_rd s) s.
Proof.
  intros Hr Hb Hn Ha Hw Hne Eh Ef. pose proof (rh_rd _ _ Hr) as Hrd. pose proof (rh_pos _ _ Hr) as Hpos.
  unfold hand_over, HOST_LINK_APP_RX_BUF_SIZE. destruct (s_rx_dma_rd s <? w) eqn:E; cbool; rewrite u16_small by lia.
  - eapply returns_mono.
    { apply (feed_ring [] p [] s _ _ h h'); cbn [app]; rewrite ?app_nil_r; try done; unfold zlen in *; cbn; lia. }
    cbn beta. intros _ s2 (k1 & Hk1 & Hz1 & Hr2 & Hrest). exists k1. destruct Hrest as (? & ? & ?). split_and!; try done. lia.
  - set (n1 := Z.to_nat (1024 - s_rx_dma_rd s)). assert (Ep : p = take n1 p ++ drop n1 p) by (by rewrite take_drop).
    assert (L1 : zlen (take n1 p) = 1024 - s_rx_dma_rd s) by (unfold zlen in *; rewrite length_take; lia).
    assert (L2 : zlen (drop n1 p) = w) by (unfold zlen in *; rewrite length_drop; lia).
    revert L1 L2 Ep. generalize (take n1 p), (drop n1 p). intros p1 p2 L1 L2 ->. clear n1.
    rewrite feed_app in Ef. apply bind_ret_inv in Ef as ([] & h1 & Ef1 & Ef2).
    assert (Hz : zlen (p1 ++ p2) = zlen p1 + zlen p2) by (unfold zlen; rewrite length_app; lia).
    rcall (feed_ring [] p1 p2 s (s_rx_dma_rd s) (1024 - s_rx_dma_rd s) h h1); try done; [cbn [app]; lia|change (zlen (@nil Z)) with 0; lia|lia|].
    cbn [app]. intros _ s2 (k1 & Hk1 & Hz1 & Hr2 & Hst2 & Eg2 & Er2). destruct (0 <? w) eqn:E0; cbool.
    + assert (Hb2 : rx_busy s2 = true) by (destruct Hst2; congruence).
      eapply returns_mono; [apply (feed_ring p1 p2 k1 s2 0 w h1 h'); try done; unfold zlen in *; rewrite ?length_app in *; lia|].
      cbn beta. intros _ s3 (k2 & Hk2 & Hz2 & Hr3 & Hst3 & Eg3 & Er3). exists (k1 ++ k2). rewrite <- app_assoc.
      split_and!; try done; first [by apply Forall_app|congruence|by eapply stored_trans|unfold zlen in *; rewrite length_app; lia].
    + rstep. assert (p2 = []) as -> by (destruct p2; [done|unfold zlen in *; cbn in *; lia]). cbn in Ef2. injection Ef2 as <-.
      exists k1. rewrite app_nil_r. cbn [app] in Hr2. split_and!; try done; first [congruence|lia].
Qed.

(** A drain hands over everything that was stored when it looked at the counter. *)
Lemma drain_ring l s A h : ring_holds l s -> bytes_ok l -> rx_busy s = true -> zlen l + 3 * a < 1024 -> g_hl s = Some h -> inv A h ->
  returns hl_uart2_drain_rx_dma (fun _ s' => exists k fed pend h', bytes_ok k /\ l ++ k = fed ++ pend /\ zlen pend <= 2 * a /\
    ring_holds pend s' /\ stored k s s' /\ g_hl s' = Some h' /\ host_link_feed fed h = Ret tt h') s.
Proof.
  intros Hr Hl Hb Hn Eh HA. assert (Ha0 : 0 <= a) by (pose proof (rate (u_hw s)); unfold zlen in *; lia).
  unfold hl_uart2_drain_rx_dma. rstep. rewrite Eh, linked, bool_decide_eq_true_2 by eauto. cbn [negb orb].
  rcall (arrive_ring l s Hr Hb); [lia|]. intros _ s1 (k0 & Hk0 & Hz0 & Hr1 & Hst1 & Eg1 & Er1). rstep.
  pose proof (rh_rd _ _ Hr1) as Hrd. pose proof (rh_pos _ _ Hr1) as Hpos. pose proof (rh_len _ _ Hr1) as Hlen.
  unfold __HAL_DMA_GET_COUNTER. set (w := u16 _). assert (Hw : w = u_dma_pos s1) by (subst w; rewrite u16_small; lia).
  clearbody w. assert (Hp : bytes_ok (l ++ k0)) by (by apply Forall_app).
  assert (Hpa : zlen (l ++ k0) + 2 * a < 1024) by (unfold zlen in *; rewrite length_app; lia).
  assert (Eb1 : rx_busy s1 = true) by (destruct Hst1; congruence). rewrite Eh in Eg1.
  destruct (returns_elim _ _ _ (host_link_feed_ok _ Hp A h HA)) as ([] & h' & Ef & _).
  destruct (w =? s_rx_dma_rd s1) eqn:E; cbool.
  { assert (l ++ k0 = []) as Ep by (apply length_zero_iff_nil; unfold zlen in *; lia). rstep.
    exists k0, [], [], h. split_and!; try done; first [change (zlen (@nil Z)) with 0; lia | by rewrite <- Ep]. }
  rcall (hand_over_ring (l ++ k0) s1 w h h'); try done. intros _ s2 (k1 & Hk1 & Hz1 & Hr2 & Hst2 & Eg2 & Er2). rstep.
  exists (k0 ++ k1), (l ++ k0), k1, h'. split_and!; try done; [by apply Forall_app|by rewrite app_assoc|..].
  - eapply ring_consume; [exact Hr2|]. rewrite Er2. lia.
  - eapply stored_trans; [exact Hst1|]. destruct Hst2. by constructor.
Qed.

(** How many bytes are unread at most after a sequence of events, and that the buffer
    never fills up on the way; errors of the UART are left out. *)
Fixpoint unread (n : Z) (es : list uart_event) : Z :=
  match es with
  | [] => n
  | RxBytes l :: es => unread (n + zlen l) es
  | UartTaskRuns :: es => unread (2 * a) es
  | _ :: es => unread n es
  end.
Fixpoint gaps_ok (n : Z) (es : list uart_event) : bool :=
  match es with
  | [] => true
  | RxBytes l :: es => (n + zlen l + 3 * a <? 1024) && gaps_ok (n + zlen l) es
  | UartTaskRuns :: es => gaps_ok (2 * a) es
  | TxComplete :: es => gaps_ok n es
  | UartError _ _ :: _ => false
  end.

(** The receiver at work, without an error pending. *)
Record rx_live (s : ust) : Prop := {
  rl_task : uart_task s = UartTaskLoop true;
  rl_busy : rx_busy s = true;
  rl_events : exists ev, u_events s = Some ev /\ ev_set ev HL_EV_ERR = false
}.
Lemma stored_live k s s' : stored k s s' -> rx_live s -> rx_live s'.
Proof. intros [] [? ? (ev & ? & ?)]. constructor; [congruence..|]. exists ev. split; congruence. Qed.

Lemma task_ring l s A h : ring_holds l s -> bytes_ok l -> rx_live s -> zlen l + 3 * a < 1024 -> g_hl s = Some h -> inv A h ->
  returns host_link_uart_task (fun _ s' => exists k fed pend h', bytes_ok k /\ l ++ k = fed ++ pend /\ zlen pend <= 2 * a /\
    ring_holds pend s' /\ stored k s s' /\ g_hl s' = Some h' /\ host_link_feed fed h = Ret tt h') s.
Proof.
  intros Hr Hl [Ht Hb (ev & Ev & Ez)] Hn Eh HA. unfold host_link_uart_task, uart_task_round. rstep. rewrite Ht. apply returns_bind. rstep. rewrite Ev, Ez.
  cbn [negb]. rstep. rewrite Hb. rcall (drain_ring l s A h); try done. intros _ s1 (k & fed & pend & h' & Hk & E & Hz & Hr1 & Hst & Eg & Ef).
  repeat rstep. exists k, fed, pend, h'. split_and!; try done; [destruct Hr1; by constructor|]. destruct Hst. constructor; try done.
Qed.

(** An event that stores [l2] while [l1] is unread. *)
Lemma puts_live l1 l2 s : ring_holds l1 s -> rx_live s -> zlen l1 + zlen l2 < 1024 ->
  exists s', dma_stores l2 s = Ret tt s' /\ ring_holds (l1 ++ l2) s' /\ rx_stream s' = rx_stream s ++ l2 /\ rx_live s' /\ g_hl s' = g_hl s.
Proof.
  intros Hr Hl Hn. destruct (puts_stored l2 s) as (Hst & Eg & _). exists (dma_puts l2 s). split_and!; [|by apply ring_puts|apply Hst|by eapply stored_live|done].
  unfold dma_stores, modify. by rewrite (rl_busy _ Hl).
Qed.
Lemma tx_complete_live l s : ring_holds l s -> rx_live s ->
  exists s', u_happen TxComplete s = Ret tt s' /\ ring_holds l s' /\ rx_stream s' = rx_stream s /\ rx_live s' /\ g_hl s' = g_hl s.
Proof.
  intros Hr Hl. unfold u_happen, host_link_app_on_uart2_tx_done, u_set_bits. destruct Hl as [Ht Hb (ev & Ev & Ez)]. mstep. destruct (tx_line s) as [b|].
  - mstep. cbn. rewrite Ev. cbn. rewrite Ev. eexists. split; [reflexivity|]. split_and!; try done; [destruct Hr; by constructor|].
    constructor; try done. eexists. split; [reflexivity|]. by rewrite ev_set_other.
  - eexists. split; [reflexivity|]. split_and!; try done. constructor; eauto.
Qed.

Lemma stream_ring (Ha : 5 * a < 1024) es : forall n s l A h, gaps_ok n es = true -> zlen l <= n -> n + 3 * a < 1024 -> Forall event_ok es ->
  rx_live s -> ring_holds l s -> bytes_ok l -> g_hl s = Some h -> inv A h ->
  returns (u_happens es) (fun _ s' => exists k fed pend h', rx_stream s' = rx_stream s ++ k /\ l ++ k = fed ++ pend /\ ring_holds pend s' /\
    zlen pend <= unread n es /\ g_hl s' = Some h' /\ host_link_feed fed h = Ret tt h') s.
Proof.
  induction es as [|e es IH]; intros n s l A h Hg Hln Hn He Hl Hr Hb Eh HA; cbn [u_happens].
  { rstep. exists [], [], l, h. split_and!; try done; by rewrite app_nil_r. }
  inversion He as [|? ? He1 He2]; subst. destruct e as [l2| |code ends|]; cbn [gaps_ok unread] in *; [|..|done|].
  - apply andb_true_iff in Hg as [Hlt%Z.ltb_lt Hg]. destruct (puts_live l l2 s Hr Hl) as (s1 & E1 & Hr1 & Es1 & Hl1 & Eg1); [pose proof (rate (u_hw s)); unfold zlen in *; lia|].
    rrun E1. eapply returns_mono; [eapply (IH _ s1 (l ++ l2) A h Hg); try done; [unfold zlen in *; rewrite length_app; lia|by apply Forall_app|congruence]|].
    cbn beta. intros _ s2 (k & fed & pend & h' & Es & E & Hrest). exists (l2 ++ k), fed, pend, h'. split; [by rewrite Es, Es1, app_assoc|]. split; [by rewrite app_assoc|done].
  - destruct (tx_complete_live l s Hr Hl) as (s1 & E1 & Hr1 & Es1 & Hl1 & Eg1). rrun E1.
    eapply returns_mono; [eapply (IH n s1 l A h Hg); try done; congruence|]. cbn beta. intros _ s2 (k & fed & pend & h' & Es & Hrest). exists k, fed, pend, h'. by rewrite Es, Es1.
  - cbn [u_happen]. rcall (task_ring l s A h); try done; [lia|]. intros _ s1 (k & fed & pend & h1 & Hk & E & Hz & Hr1 & Hst & Eg & Ef).
    assert (bytes_ok (fed ++ pend)) as [Hbf Hbp]%Forall_app by (rewrite <- E; by apply Forall_app).
    destruct (returns_elim _ _ _ (host_link_feed_ok fed Hbf A h HA)) as ([] & h1' & Ef' & A1 & _ & HA1). assert (h1' = h1) as -> by congruence.
    eapply returns_mono; [eapply (IH _ s1 pend A1 h1 Hg); try done; [lia|by eapply stored_live]|].
    cbn beta. intros _ s2 (k2 & fed2 & pend2 & h2 & Es2 & E2 & Hr2 & Hz2 & Eg2 & Ef2). exists (k ++ k2), (fed ++ fed2), pend2, h2.
    split_and!; try done; [by rewrite Es2, (st_stream _ _ _ Hst), app_assoc|by rewrite app_assoc, E, <- !app_assoc, E2|].
    rewrite feed_app. unfold mbind, M_bind. by rewrite Ef.
Qed.

(** C10 [ring_feeds_stream]: the receiver at work on an empty buffer, with a link in order.  Bytes come in
    by DMA, also while the task runs, and the task gets its turns; when the buffer never
    fills up between two turns and the UART reports no error, the link ends up exactly as
    if the received bytes had been fed to it in one piece, in order, up to those that
    are still unread in the buffer.  After a turn these are at most the ones that came in
    during it. *)
Theorem ring_feeds_stream es s A h : 5 * a < 1024 -> gaps_ok 0 es = true -> Forall event_ok es ->
  rx_live s -> ring_holds [] s -> g_hl s = Some h -> inv A h ->
  exists s' h' fed pend, u_happens es s = Ret tt s' /\ rx_stream s' = rx_stream s ++ fed ++ pend /\
    g_hl s' = Some h' /\ host_link_feed fed h = Ret tt h' /\ ring_holds pend s' /\ zlen pend <= unread 0 es.
Proof.
  intros Ha Hg He Hl Hr Eh HA.
  destruct (returns_elim _ _ _ (stream_ring Ha es 0 s [] A h Hg ltac:(done) ltac:(pose proof (rate (u_hw s)); unfold zlen in *; lia) He Hl Hr ltac:(constructor) Eh HA))
    as ([] & s' & E & k & fed & pend & h' & Es & Ek & Hr' & Hz & Eg & Ef).
  exists s', h', fed, pend. cbn [app] in Ek. subst k. done.
Qed.
End Stream.

(** ** Start and stop *)
Section Start.
Context `{LH : LensHw DL} `{LK : LensKernel DL} `{BH : BspHw DB} `{RH : Rs485Hw DR} `{AH : AppHw DA}.
Context `{OB : OtaBuild} {OBL : OtaBuildLaws} {P : Type} `{OP : OtaPlatform P} {OL : OtaPlatformLaws P} `{UH : UartHw D} {UE : UartEnv D}.
Notation board := (board_state DL DB DR DA P).
Notation ust := (uart_state D).

(** Nothing of the transport exists; all of it does. *)
Record off (u : ust) : Prop := {
  off_inv : u_inv u;
  off_link : g_hl u = None;
  off_events : u_events u = None;
  off_mutex : u_tx_mutex u = None;
  off_tasks : s_uart_task u = false /\ s_poll_task u = false /\ uart_task u = UartTaskNone
}.
Record up (u : ust) : Prop := {
  up_inv : u_inv u;
  up_link : is_Some (g_hl u);
  up_events : is_Some (u_events u);
  up_mutex : u_tx_mutex u = Some false;
  up_tasks : s_uart_task u = true /\ s_poll_task u = true
}.
(** The components a start does not touch. *)
Definition beside (b b' : board) : Prop :=
  b_lens b' = b_lens b /\ b_rs b' = b_rs b /\ b_clock b' = b_clock b /\ b_reboots b' = b_reboots b.
Definition alarms (b : board) : list (option Z) := s_alarm_in_callback (b_bsp b).
Definition started_or_off (b : board) (r : Z) (s : ust * board) : Prop :=
  beside b (snd s) /\
  (r = SYS_OK /\ up (fst s) /\ alarms (snd s) = [Some hl_alarm_in_host_notify_id; Some hl_alarm_in_host_notify_id] \/
   r <> SYS_OK /\ off (fst s) /\ b_bsp (snd s) = b_bsp b).

Lemma drop_link_ok (u : ust) : u_inv u -> returns (drop_link (D := D)) (fun _ u' => u' = set_g_hl None u) u.
Proof.
  intros Hu. unfold drop_link. rstep. destruct u as [[h|]]; cbn; [|by rstep]. apply returns_bind, returns_zoom.
  destruct (ui_link _ Hu) as [A HA]. eapply returns_mono; [apply (deinit_ok A h HA)|]. cbn beta. intros ops h' _. by rstep.
Qed.

(** The clean-up of an error path. *)
Lemma give_up_ok (u : ust) (b b0 : board) r : u_inv u -> s_uart_task u = false -> s_poll_task u = false -> uart_task u = UartTaskNone ->
  beside b0 b -> b_bsp b = b_bsp b0 -> r <> SYS_OK ->
  returns (on_uart (drop_link (D := D));; on_uart (drop_objects (D := D));; mret r) (started_or_off b0) (u, b).
Proof.
  intros Hu H1 H2 H3 Hb Hbsp Hr. apply returns_bind, returns_zoom. eapply returns_mono; [by apply drop_link_ok|]. cbn [fst snd]. intros _ u' ->.
  apply returns_bind, returns_zoom. unfold drop_objects. repeat rstep. split; [done|]. right. split; [done|]. split; [|done].
  constructor; try done. destruct Hu. constructor; try done. by left.
Qed.

Lemma ota_init_ready (s : ota_state P) : op_ok (plat s) ->
  exists p', ota_module_init (Some (op_config P)) s = Ret OTA_MODULE_ERR_OK (mkOta (op_config P) true session_zero p') /\ op_ok p'.
Proof.
  intros Ho. destruct (stored_record (op_raw (plat s))) as [r|] eqn:E.
  - destruct (init_ok s r Ho E) as (p' & E' & HS). exists p'. split; [done|]. apply HS.
  - destruct (init_default_ok s Ho E) as (p' & E' & Ho' & _). by exists p'.
Qed.
Lemma ota_host_init_ok (u : ust) (b : board) : u_inv u -> op_ok (plat (b_ota b)) ->
  returns (ota_host_init (op_config P)) (fun ok s => exists d, fst s = set_u_hw d u /\ beside b (snd s) /\ b_bsp (snd s) = b_bsp b /\
    (ok = true -> s_reboot_task (snd s) = true /\ ready (b_ota (snd s)))) (u, b).
Proof.
  intros Hu Ho. destruct (ota_init_ready (b_ota b) Ho) as (p' & E & Ho'). unfold ota_host_init. apply returns_bind, returns_zoom, returns_zoom.
  eapply returns_intro; [exact E|]. cbn [err_ok negb snd fst]. rstep. cbn [snd set_b_ota s_reboot_task]. destruct (s_reboot_task b) eqn:Et.
  - rstep. exists (u_hw u). split_and!; try done; first [by destruct u|intros _; split; [done|by constructor]].
  - apply returns_bind, returns_zoom. unfold u_call. rstep. cbn [fst]. destruct (app_create AppRebootTask (u_hw u)) as [ok d]. repeat rstep.
    apply returns_bind, returns_zoom. repeat rstep. by exists d.
Qed.

(** The kernel creates an object, or not. *)
Lemma create_ok o (u : ust) : u_inv u -> returns (u_call (app_create o)) (fun _ u' => exists d, u' = set_u_hw d u) u.
Proof. intros Hu. unfold u_call. rstep. destruct (app_create o (u_hw u)) as [ok d]. repeat rstep. by exists d. Qed.

Lemma u_inv_wipe (u : ust) : u_inv u -> u_inv (set_u_rx_buf (replicate 1024 0) u).
Proof. intros []. constructor; try done. apply bytes_ok_replicate. by split. Qed.
(** From the running receiving task to the end. *)
Lemma last_steps_ok (u : ust) (b b0 : board) : u_inv u -> is_Some (g_hl u) -> is_Some (u_events u) -> u_tx_mutex u = Some false ->
  s_uart_task u = true -> s_poll_task u = true -> beside b0 b -> length (alarms b) = 2%nat ->
  returns (on_uart (u_meanwhile 0);;
    on_board (bsp (bsp_ctrl_register_alarm_in BSP_ALARM_IN0 (Some hl_alarm_in_host_notify_id)));;
    on_board (bsp (bsp_ctrl_register_alarm_in BSP_ALARM_IN1 (Some hl_alarm_in_host_notify_id)));;
    on_uart (modify (set_u_rx_buf (replicate 1024 0)));;
    mret SYS_OK) (started_or_off b0) (u, b).
Proof.
  intros Hu Hl He Hm H1 H2 Hb Hc. apply returns_bind, returns_zoom. eapply returns_mono; [by apply meanwhile_ok|]. cbn [fst snd].
  intros _ u' [Hu' [K _]]. unfold kept in K. injection K. intros K1 K2 K3 K4 K5.
  assert (HL' : is_Some (g_hl u')) by (apply (bool_decide_eq_true_1 _); rewrite K1; by apply bool_decide_eq_true_2).
  assert (HE' : is_Some (u_events u')) by (apply (bool_decide_eq_true_1 _); rewrite K4; by apply bool_decide_eq_true_2).
  apply returns_bind, returns_zoom, returns_zoom; repeat rstep.
  cbn [fst snd]. split; [done|]. left. split; [done|]. split.
  - constructor; [by apply u_inv_wipe|exact HL'|exact HE'|exact (eq_trans K5 Hm)|split; [exact (eq_trans K3 H1)|exact (eq_trans K2 H2)]].
  - unfold alarms in *. cbn. by destruct (s_alarm_in_callback (b_bsp b)) as [|x [|y [|]]].
Qed.

Lemma open_link_ok (u : ust) : u_inv u -> returns open_link (fun h u' => exists d, u' = set_g_hl h (set_u_hw d u) /\ u_inv u') u.
Proof.
  intros Hu. unfold open_link, u_call. apply returns_bind. rstep. pose proof (link_env_ok (u_hw u)) as He. destruct (link_objects (u_hw u)) as [[ie e] d].
  repeat rstep. exists d. split; [done|]. destruct Hu. constructor; try done. cbn. destruct ie as [[] [] [] []]; try done. exists []. by apply fresh_inv.
Qed.
Lemma start_rest_ok (u : ust) (b : board) h ev : u_inv u -> g_hl u = Some h -> u_events u = Some ev -> u_tx_mutex u = Some false ->
  s_uart_task u = false -> s_poll_task u = false -> uart_task u = UartTaskNone -> op_ok (plat (b_ota b)) -> length (alarms b) = 2%nat ->
  returns (start_rest (op_config P)) (started_or_off b) (u, b).
Proof.
  intros Hu Hl He Hm H1 H2 H3 Ho Hc. unfold start_rest. rcall ota_host_init_ok; [done|done|]. intros ok [u1 b1] (d & E1 & Hb & Hbsp & _).
  cbn [fst snd] in *. subst u1. assert (Hu1 : u_inv (set_u_hw d u)) by (destruct Hu; by constructor).
  destruct ok; cbn [negb]; [|by apply give_up_ok].
  apply returns_bind, returns_zoom. eapply returns_mono; [by apply create_ok|]. cbn [fst snd]. intros ok _ [d2 ->].
  assert (Hu2 : u_inv (set_u_hw d2 (set_u_hw d u))) by (destruct Hu; by constructor).
  destruct ok; cbn [negb]; [|by apply give_up_ok].
  apply returns_bind, returns_zoom, returns_modify. cbn [fst snd]. apply returns_bind, returns_zoom.
  eapply returns_mono; [apply meanwhile_ok|].
  { destruct Hu2. constructor; try done. right. by exists ev. }
  cbn [fst snd]. intros _ u3 [Hu3 [K3 _]]. unfold kept in K3. cbn in K3. rewrite Hl, He, Hm, H2 in K3. cbn in K3.
  injection K3 as Km Ke Ku Kp Kl. apply returns_bind, returns_zoom. eapply returns_mono; [by apply create_ok|]. cbn [fst snd]. intros ok _ [d4 ->].
  assert (Hu4 : u_inv (set_u_hw d4 u3)) by (destruct Hu3; by constructor). destruct ok; cbn [negb].
  - apply returns_bind, returns_zoom, returns_modify. cbn [fst snd]. apply last_steps_ok; try done.
    + destruct Hu4. by constructor.
    + by apply (bool_decide_eq_true_1 _).
    + by apply (bool_decide_eq_true_1 _).
    + unfold alarms in *. by rewrite Hbsp.
  - apply returns_bind, returns_zoom, returns_modify. cbn [fst snd]. apply give_up_ok; try done. destruct Hu4. constructor; try done. by left.
Qed.

(** Starting the host link from the off state, whatever the kernel refuses and
    whatever interrupts come in between, ends with success and everything in place (the
    link, the event group, the free mutex, both tasks and the two alarm callbacks), or
    with an error and nothing of the transport left; the lens, the RS485 driver and the
    clock are never touched. *)
Theorem app_init_all_or_nothing (u : ust) (b : board) : off u -> op_ok (plat (b_ota b)) -> length (alarms b) = 2%nat ->
  returns (host_link_app_init (op_config P)) (started_or_off b) (u, b).
Proof.
  intros [Hu Hl He Hm (H1 & H2 & H3)] Ho Hc. unfold host_link_app_init. rstep. cbn [fst]. rewrite Hl.
  apply returns_bind, returns_zoom. eapply returns_mono; [by apply create_ok|]. cbn [fst snd]. intros ok1 _ [d1 ->].
  apply returns_bind, returns_zoom, returns_modify. cbn [fst snd]. destruct ok1; cbn [negb].
  2: { rstep. split; [done|]. right. split; [done|]. split; [|done]. constructor; try done. destruct Hu. constructor; try done. by left. }
  apply returns_bind, returns_zoom. eapply returns_mono; [apply create_ok|].
  { destruct Hu. constructor; try done. by left. }
  cbn [fst snd]. intros ok2 _ [d2 ->]. apply returns_bind, returns_zoom, returns_modify. cbn [fst snd]. destruct ok2; cbn [negb].
  2: { repeat rstep. split; [done|]. right. split; [done|]. split; [|done]. constructor; try done. destruct Hu. constructor; try done. by left. }
  apply returns_bind, returns_zoom. eapply returns_mono; [apply open_link_ok|].
  { destruct Hu. constructor; try done. by left. }
  cbn [fst snd]. intros [h|] _ (d3 & -> & Hu3); [by eapply start_rest_ok|].
  apply returns_bind, returns_zoom. unfold drop_objects. repeat rstep. split; [done|]. right. split; [done|]. split; [|done].
  constructor; try done. destruct Hu. constructor; try done. by left.
Qed.

(** Stopping the host link from any state in order leaves nothing of the transport and
    no alarm callback.  The RS485 driver is not touched: a callback registered with it
    keeps the address of the link that was freed. *)
Theorem app_deinit_off (u : ust) (b : board) : u_inv u -> length (alarms b) = 2%nat ->
  returns host_link_app_deinit (fun _ s => off (fst s) /\ tx_line (fst s) = None /\ rx_busy (fst s) = false /\
    beside b (snd s) /\ alarms (snd s) = [None; None]) (u, b).
Proof.
  intros Hu Hc. unfold host_link_app_deinit. do 5 rpure.
  apply returns_bind, returns_zoom. eapply returns_mono; [apply drop_link_ok|].
  { destruct Hu. constructor; try done. by left. }
  cbn [fst snd]. intros _ _ ->. apply returns_zoom. unfold drop_objects. repeat rstep. split_and!; try done.
  - constructor; try done. destruct Hu. constructor; try done. by left.
  - unfold alarms in *. cbn. by destruct (s_alarm_in_callback (b_bsp b)) as [|x [|y [|]]].
Qed.
End Start.
