(* ===== verification/HostUartWitness.v ===== *)
(** A UART with a script: the theorems on the transport apply to it, a frame arrives
    across the end of the buffer, and the two defects show. *)
From stdpp Require Import gmap.
From S2P Require Import Prelude Heap HostLink HostLinkInv HostLinkOps HostLinkWire HostLinkProps HostLinkRun HostLinkWitness.
From S2P Require Import FlashPort FlashPortProps OtaModule OtaLaws OtaVerify OtaBoard OtaWitness MsBridging.
From S2P Require Import Ms41908mReg Ms41908m Ms41908mPort Ms41908mRun Ms41908mSafe Ms41908mCalls Ms41908mWitness.
From S2P Require Import LensController LensInv LensProps LensWitness BspCtrl BspProps Rs485 Rs485Props BoardWitness.
From S2P Require Import HostCommands HostCommandsProps HostCommandsWitness HostUart HostUartProps.
Import Sim SimCrc.

(** What arrives in the parts of a round, at most two bytes each, and what happens in
    the waits. *)
Record uscript : Type := mkScript { us_arrive : list (list Z); us_wait : list (list uart_event) }.
Definition clean (e : uart_event) : uart_event := match e with RxBytes l => RxBytes (map u8 l) | _ => e end.

#[export] Instance script_hw : UartHw uscript := {
  app_create _ d := (true, d);
  tx_acquire _ d := (true, d);
  receive_dma d := (true, d);
  uart_send_dma _ d := (true, d);
  dma_linked _ := true;
  arrivals d := (map u8 (take 2 (hd [] (us_arrive d))), mkScript (tail (us_arrive d)) (us_wait d));
  uart_meanwhile _ d := (map clean (hd [] (us_wait d)), mkScript (us_arrive d) (tail (us_wait d)));
  link_objects d := (mkInitEnv true true true true, calm_env 1000, d)
}.
Lemma bytes_map_u8 l : bytes_ok (map u8 l).
Proof. apply Forall_map, Forall_forall. intros x _. apply u8_range. Qed.
#[export] Instance script_env : UartEnv uscript.
Proof.
  constructor.
  - intros d. apply bytes_map_u8.
  - intros ms d. cbn. apply Forall_map, Forall_forall. intros [l| | |] _; cbn; [apply bytes_map_u8|done..].
  - intros d. by apply env_ok0.
Qed.
Lemma link0_inv : inv [] link0.
Proof. apply fresh_inv. by apply env_ok0. Qed.
Lemma script_rate (d : uscript) : zlen (arrivals d).1 <= 2.
Proof. cbn. unfold zlen. rewrite length_map, length_take. lia. Qed.

(** A receiver whose positions stand near the end of the buffer. *)
Definition near_end (d : uscript) : uart_state uscript :=
  mkUart (Some link0) (Some 0) (Some false) true true (replicate 1024 0) 1020 1020 0 true [] None [] (UartTaskLoop true) d.
Lemma near_end_ring d : ring_holds [] (near_end d).
Proof. by constructor. Qed.
Lemma near_end_live d : rx_live (near_end d).
Proof. constructor; try done. by exists 0. Qed.
Lemma near_end_idle d : tx_idle (near_end d).
Proof.
  constructor; [|by eexists|done|done].
  constructor; [done|by apply bytes_ok_replicate|done|done|right; by eexists|exists []; apply link0_inv].
Qed.

(** The header of a ping arrives in two parts around a turn of the task, its checksum
    while the task runs. *)
Definition ping : list Z := wire_bytes (make_header 9 HOST_LINK_TYPE_REQUEST 0 0) [].
Definition ping_events : list uart_event := [RxBytes (take 3 ping); UartTaskRuns; RxBytes (drop 3 (take 14 ping)); TxComplete; UartTaskRuns; UartTaskRuns].
Definition ping_script : uscript := mkScript [[]; []; drop 14 ping] [].

Lemma ring_feeds_stream_witness :
  exists s' h' fed pend, u_happens ping_events (near_end ping_script) = Ret tt s' /\ rx_stream s' = fed ++ pend /\
    g_hl s' = Some h' /\ host_link_feed fed link0 = Ret tt h' /\ ring_holds pend s' /\ zlen pend <= 4.
Proof.
  apply (ring_feeds_stream 2 script_rate (fun _ => eq_refl) ping_events (near_end ping_script) [] link0).
  - lia.
  - vm_compute. reflexivity.
  - repeat (constructor; [first [exact I|apply (bool_decide_eq_true_1 (bytes_ok _)); vm_compute; reflexivity]|]). constructor.
  - apply near_end_live.
  - apply near_end_ring.
  - reflexivity.
  - apply link0_inv.
Defined.

(** The ping is in a slot of the link and the buffer is empty. *)
Example ping_received :
  match u_happens ping_events (near_end ping_script) with
  | Ret _ s => option_map (fun h => (map (fun f => (fr_is_valid f, hl_frame_id (fr_header f))) (take 1 (notify_slot h)))) (g_hl s) = Some [(true, 9)] /\
      u_dma_pos s = s_rx_dma_rd s /\ rx_stream s = ping
  | _ => False
  end.
Proof. vm_compute. done. Qed.

(** The completion of the first send comes after its time-out; the second send does not
    wait for its own. *)
Definition late_script : uscript := mkScript [] [[]; [TxComplete]].
Definition after_late : uart_state uscript := HostLinkWitness.get_state (near_end late_script) (hl_uart2_send [1; 2; 3] 100 (near_end late_script)).
Lemma send_reports_truth_witness :
  returns (hl_uart2_send [1; 2; 3] 100) (fun r s' => tx_idle s' /\
    (r = 0 /\ tx_sent s' = [[1; 2; 3]] /\ tx_bit s' = Some false \/
     r = -1 /\ (tx_sent s' = [] /\ tx_bit s' = Some false \/ tx_sent s' = [[1; 2; 3]] /\ tx_bit s' = Some true))) (near_end late_script).
Proof. apply (send_reports_truth [1; 2; 3] 100 (near_end late_script)); [apply near_end_idle|reflexivity]. Defined.
Example late_completion_pending : hl_uart2_send [1; 2; 3] 100 (near_end late_script) = Ret (-1) after_late /\ tx_bit after_late = Some true.
Proof. split; vm_compute; reflexivity. Qed.
Lemma after_late_idle : tx_idle after_late.
Proof.
  assert (E : after_late = set_u_hw (mkScript [] []) (set_tx_sent [[1; 2; 3]] (set_u_events (Some 1) (near_end late_script)))) by (vm_compute; reflexivity).
  rewrite E. constructor; [|by eexists|done|done].
  constructor; [done|by apply bytes_ok_replicate|done|done|right; by eexists|exists []; apply link0_inv].
Qed.
Lemma stale_completion_ends_send_witness :
  exists s', hl_uart2_send [4; 5] 100 after_late = Ret 0 s' /\ tx_line s' = Some [4; 5] /\ tx_sent s' = tx_sent after_late /\ tx_bit s' = Some false.
Proof.
  apply (stale_completion_ends_send [4; 5] 100 after_late (u_hw after_late) (u_hw after_late)).
  - apply after_late_idle.
  - vm_compute. reflexivity.
  - reflexivity.
  - reflexivity.
Defined.

(** ** The start *)
Lemma power_on_off (d : uscript) : off (uart_power_on d).
Proof. constructor; try done. constructor; try done; [by apply bytes_ok_replicate|by left]. Qed.

(** The receiving task runs as soon as it exists and two bytes arrive at once. *)
Definition early_script : uscript := mkScript [] [[UartTaskRuns; RxBytes [72; 76]]].
Lemma app_init_all_or_nothing_witness :
  returns (host_link_app_init (op_config sboard)) (started_or_off b0) (uart_power_on early_script, b0).
Proof.
  apply (app_init_all_or_nothing (uart_power_on early_script) b0).
  - apply power_on_off.
  - apply b0_inv.
  - reflexivity.
Defined.

(** The start clears the receive buffer when the receiving task is already at work: two
    bytes that came in before are read as zeros, and the start of the frame is lost. *)
Example start_wipes_received :
  let u := mkUart (Some link0) (Some 0) (Some false) true true (replicate 1024 0) 0 0 0 false [] None [] UartTaskNew early_script in
  match (u_meanwhile 0;; modify (set_u_rx_buf (replicate 1024 0));; u_happen UartTaskRuns) u with
  | Ret _ s => rx_stream s = [72; 76] /\ option_map parse_state (g_hl s) = Some PS_SYNC0
  | _ => False
  end /\
  match host_link_feed [72; 76] link0 with Ret _ h => parse_state h = PS_HDR | _ => False end.
Proof. vm_compute. done. Qed.
