(* ===== verification/HalFloat.v ===== *)
(** Floating point of the lens code of the main processor: the casts between [float] and
    [double], decimal literals, comparisons and [lround], on the formats of [BspCtrl]. *)
From Stdlib Require Export Floats.SpecFloat.
From S2P Require Import Prelude Ms41908mReg BspCtrl.

Definition f32_add : spec_float -> spec_float -> spec_float := SFadd 24 128.
(** The cast of a [float] to [double] keeps the value. *)
Definition f32_to_f64 (x : spec_float) : spec_float :=
  match x with
  | S754_finite s m e => binary_normalize 53 1024 (if s then Zneg m else Zpos m) e s
  | _ => x
  end.
(** The literal [n / 10^k]: both are exact, so the quotient is rounded once. *)
Definition dec32 (n : Z) (k : Z) : spec_float := f32_div (f32 n) (f32 (10 ^ k)).
Definition dec64 (n : Z) (k : Z) : spec_float := f64_div (f64 n) (f64 (10 ^ k)).

(** [x >= y] and [x > y]; every comparison with a NaN is false. *)
Definition SFgeb (x y : spec_float) : bool := SFleb y x.
Definition SFgtb (x y : spec_float) : bool := SFltb y x.

(** [lround] and [llround]: to the nearest integer, halves away from zero; [None] where
    the C standard leaves the result unspecified. *)
Definition lround (x : spec_float) : option Z :=
  match x with
  | S754_zero _ => Some 0
  | S754_finite s m e =>
      let v := if 0 <=? e then Z.shiftl (Zpos m) e else Z.shiftr (Zpos m + Z.shiftl 1 (- e - 1)) (- e) in
      let v := if s then - v else v in
      if (- 2 ^ 63 <=? v) && (v <? 2 ^ 63) then Some v else None
  | _ => None
  end.

Example lround_halves : map lround [dec64 25 1; dec64 (-25) 1; dec64 249 2; f64_div (f64 1) (f64 0)] = [Some 3; Some (-3); Some 2; None].
Proof. vm_compute. reflexivity. Qed.

(** ** The order of floats *)
(** The comparison of floats is a lexicographic one, on the sign, the exponent and the
    mantissa. *)
Definition sf_key (x : spec_float) : option (Z * Z * Z) :=
  match x with
  | S754_nan => None
  | S754_zero _ => Some (0, 0, 0)
  | S754_infinity s => Some (if s then -2 else 2, 0, 0)
  | S754_finite s m e => Some (if s then (-1, - e, Zneg m) else (1, e, Zpos m))
  end.
Definition key_lt (k l : Z * Z * Z) : Prop :=
  let '(a, b, c) := k in let '(a', b', c') := l in a < a' \/ a = a' /\ (b < b' \/ b = b' /\ c < c').
Definition sf_lt (x y : spec_float) : Prop := match sf_key x, sf_key y with Some k, Some l => key_lt k l | _, _ => False end.
Ltac sf_cases :=
  cbn; try (split; intros; first [done|lia]);
  change (Pos.compare_cont Eq) with Pos.compare in *;
  match goal with
  | |- context [?e ?= ?e'] => destruct (Z.compare_spec e e')
  end; subst;
  match goal with
  | m : positive, n : positive |- context [Pos.compare ?a ?b] => destruct (Pos.compare_spec a b)
  | _ => idtac
  end; subst; cbn; split; intros; first [done|lia].
Lemma SFltb_key x y : SFltb x y = true <-> sf_lt x y.
Proof. unfold SFltb, sf_lt, key_lt. destruct x as [[]|[]| |[] m e], y as [[]|[]| |[] m' e']; sf_cases. Qed.
Lemma SFltb_trans x y z : SFltb x y = true -> SFltb y z = true -> SFltb x z = true.
Proof.
  rewrite !SFltb_key. unfold sf_lt. destruct (sf_key x) as [[[? ?] ?]|], (sf_key y) as [[[? ?] ?]|], (sf_key z) as [[[? ?] ?]|]; try done. unfold key_lt. lia.
Qed.
Lemma SFleb_key x y : SFleb x y = true <-> match sf_key x, sf_key y with Some k, Some l => ~ key_lt l k | _, _ => False end.
Proof. unfold SFleb, key_lt. destruct x as [[]|[]| |[] m e], y as [[]|[]| |[] m' e']; sf_cases. Qed.
(** [x < y <= z] rules out [z <= x]. *)
Lemma SFltb_leb_false x y z : SFltb x y = true -> SFleb y z = true -> SFleb z x = false.
Proof.
  intros H1 H2. apply not_true_iff_false. intros H3. apply SFltb_key in H1. apply SFleb_key in H2. apply SFleb_key in H3. unfold sf_lt in *.
  destruct (sf_key x) as [[[? ?] ?]|], (sf_key y) as [[[? ?] ?]|], (sf_key z) as [[[? ?] ?]|]; try done. unfold key_lt in *. lia.
Qed.
Lemma SFltb_irrefl x : SFltb x x = false.
Proof. apply not_true_iff_false. intros H. apply SFltb_key in H. unfold sf_lt in H. destruct (sf_key x) as [[[? ?] ?]|]; [|done]. unfold key_lt in H. lia. Qed.
Lemma SFltb_leb x y : SFltb x y = true -> SFleb x y = true.
Proof. rewrite SFltb_key, SFleb_key. unfold sf_lt. destruct (sf_key x) as [[[? ?] ?]|], (sf_key y) as [[[? ?] ?]|]; unfold key_lt; first [done|lia]. Qed.
Lemma SFltb_not_leb x y : SFltb x y = true -> SFleb y x = false.
Proof.
  intros H. apply not_true_iff_false. intros H'. apply SFltb_key in H. apply SFleb_key in H'. unfold sf_lt in H.
  destruct (sf_key x) as [[[? ?] ?]|], (sf_key y) as [[[? ?] ?]|]; done.
Qed.
