(* ===== verification/HalLensFg2009.v ===== *)
(** The position model of the FG2009 lens ([hal_v2/common/devices/hal_lens_fg2009.c]):
    the lens has no position feedback, so after an anchor at the hard stops the software
    counts every relative move, in the coordinates of the vendor's curve.

    Signed overflow is [None].  The state of a [NULL] pointer is [None] for the two
    functions that return a value; the others do nothing then.  A lens with hard stops
    is modelled next to it, and the counting is proved to follow it. *)
From S2P Require Import Prelude Ms41908mReg BspCtrl HalFloat.

Definition HAL_LENS_FG2009_ZOOM_TRAVEL_STEPS : Z := 2463.
Definition HAL_LENS_FG2009_FOCUS_TRAVEL_STEPS : Z := 2453.
Definition HAL_LENS_FG2009_WIDE_EFFL_MM : spec_float := dec32 42393 4.
Definition HAL_LENS_FG2009_TELE_EFFL_MM : spec_float := dec32 95029 4.
Definition HAL_LENS_FG2009_MIN_PPS : Z := 500.
Definition HAL_LENS_FG2009_MAX_PPS : Z := 900.
Definition HAL_LENS_FG2009_DEFAULT_PPS : Z := 600.

Record HalLensFg2009Params : Type := mkFgParams {
  ram_steps : Z;
  park_zoom_steps : Z;
  park_focus_steps : Z;
  fg_zoom_pps : Z;
  fg_focus_pps : Z
}.
Record HalLensFg2009State : Type := mkFg {
  zoom_curve : Z;
  focus_curve : Z;
  anchored : bool
}.

Definition hal_lens_fg2009_params_init_defaults : HalLensFg2009Params :=
  mkFgParams 2500 2400 2164 HAL_LENS_FG2009_DEFAULT_PPS HAL_LENS_FG2009_DEFAULT_PPS.

Definition hal_lens_fg2009_max_ratio : spec_float := f32_div HAL_LENS_FG2009_TELE_EFFL_MM HAL_LENS_FG2009_WIDE_EFFL_MM.

Definition hal_lens_fg2009_clamp_pps (pps : Z) : Z :=
  if pps =? 0 then HAL_LENS_FG2009_DEFAULT_PPS
  else if pps <? HAL_LENS_FG2009_MIN_PPS then HAL_LENS_FG2009_MIN_PPS
  else if HAL_LENS_FG2009_MAX_PPS <? pps then HAL_LENS_FG2009_MAX_PPS
  else pps.
Definition hal_lens_fg2009_clamp_zoom_curve (steps : Z) : Z :=
  if steps <? 0 then 0
  else if HAL_LENS_FG2009_ZOOM_TRAVEL_STEPS <? steps then HAL_LENS_FG2009_ZOOM_TRAVEL_STEPS
  else steps.
Definition hal_lens_fg2009_clamp_focus_curve (steps : Z) : Z :=
  if steps <? 0 then 0
  else if HAL_LENS_FG2009_FOCUS_TRAVEL_STEPS <? steps then HAL_LENS_FG2009_FOCUS_TRAVEL_STEPS
  else steps.

(** ** Zoom ratios and focus levels *)
Definition steps_per_ratio : spec_float :=
  f64_div (f64 HAL_LENS_FG2009_ZOOM_TRAVEL_STEPS) (f32_to_f64 (f32_sub hal_lens_fg2009_max_ratio (f32 1))).

Section Unspecified.
(** The result of [(int32_t)lround(x)] where the standard does not say. *)
Context (unspecified : spec_float -> Z).
Definition lround32 (x : spec_float) : Z := match lround x with Some v => s32 v | None => s32 (unspecified x) end.

Definition hal_lens_fg2009_ratio_to_steps (zoom_ratio : spec_float) : Z :=
  let zoom_ratio := if SFltb zoom_ratio (f32 1) then f32 1 else zoom_ratio in
  let zoom_ratio := if SFgtb zoom_ratio hal_lens_fg2009_max_ratio then hal_lens_fg2009_max_ratio else zoom_ratio in
  let steps := f64_mul (f32_to_f64 (f32_sub zoom_ratio (f32 1))) steps_per_ratio in
  hal_lens_fg2009_clamp_zoom_curve (lround32 steps).

Definition hal_lens_fg2009_focus_level_to_steps (level : spec_float) : Z :=
  let level := if SFltb level (f32 0) then f32 0 else level in
  let level := if SFgtb level (f32 1) then f32 1 else level in
  lround32 (f64_mul (f32_to_f64 level) (f64 HAL_LENS_FG2009_FOCUS_TRAVEL_STEPS)).
End Unspecified.

Definition hal_lens_fg2009_steps_to_ratio (zoom_steps : Z) : spec_float :=
  let clamped := hal_lens_fg2009_clamp_zoom_curve zoom_steps in
  f32_add (f32 1) (f64_to_f32 (f64_div (f64 clamped) steps_per_ratio)).

(** ** Counting *)
Definition sub32 (a b : Z) : option Z :=
  if (-2147483648 <=? a - b) && (a - b <=? 2147483647) then Some (a - b) else None.

Definition hal_lens_fg2009_anchor (state : HalLensFg2009State) : HalLensFg2009State :=
  mkFg HAL_LENS_FG2009_ZOOM_TRAVEL_STEPS HAL_LENS_FG2009_FOCUS_TRAVEL_STEPS true.

Definition hal_lens_fg2009_apply_physical (state : HalLensFg2009State) (zoom_physical focus_physical : Z)
  : option HalLensFg2009State :=
  z ← sub32 (zoom_curve state) zoom_physical;
  f ← sub32 (focus_curve state) focus_physical;
  Some (mkFg (hal_lens_fg2009_clamp_zoom_curve z) (hal_lens_fg2009_clamp_focus_curve f) (anchored state)).

Definition hal_lens_fg2009_park (state : HalLensFg2009State) (params : HalLensFg2009Params) : option HalLensFg2009State :=
  hal_lens_fg2009_apply_physical state (park_zoom_steps params) (park_focus_steps params).

Definition hal_lens_fg2009_zoom_physical_delta (state : option HalLensFg2009State) (target_curve : Z) : option Z :=
  match state with
  | None => Some 0
  | Some st =>
      if negb (anchored st) then Some 0
      else sub32 (zoom_curve st) (hal_lens_fg2009_clamp_zoom_curve target_curve)
  end.
Definition hal_lens_fg2009_focus_physical_delta (state : option HalLensFg2009State) (target_curve : Z) : option Z :=
  match state with
  | None => Some 0
  | Some st =>
      if negb (anchored st) then Some 0
      else sub32 (focus_curve st) (hal_lens_fg2009_clamp_focus_curve target_curve)
  end.

(** ** A lens with hard stops *)

(** Where the two groups of the lens really are, in the same coordinates. *)
Record glass : Type := mkGlass { glass_zoom : Z; glass_focus : Z }.
Definition stop_at (travel x : Z) : Z := Z.max 0 (Z.min travel x).
(** A relative move: physical steps lower the coordinate until a group meets a stop. *)
Definition glass_move (g : glass) (zp fp : Z) : glass :=
  mkGlass (stop_at HAL_LENS_FG2009_ZOOM_TRAVEL_STEPS (glass_zoom g - zp)) (stop_at HAL_LENS_FG2009_FOCUS_TRAVEL_STEPS (glass_focus g - fp)).
Definition glass_ok (g : glass) : Prop :=
  0 <= glass_zoom g <= HAL_LENS_FG2009_ZOOM_TRAVEL_STEPS /\ 0 <= glass_focus g <= HAL_LENS_FG2009_FOCUS_TRAVEL_STEPS.
(** The counters agree with it. *)
Definition agrees (st : HalLensFg2009State) (g : glass) : Prop :=
  zoom_curve st = glass_zoom g /\ focus_curve st = glass_focus g /\ anchored st = true.

(** Moves that do not overflow the subtraction. *)
Definition step_ok (p : Z) : Prop := -2147481184 <= p <= 2147483647.
Fixpoint count_moves (st : HalLensFg2009State) (l : list (Z * Z)) : option HalLensFg2009State :=
  match l with
  | [] => Some st
  | (zp, fp) :: l => st' ← hal_lens_fg2009_apply_physical st zp fp; count_moves st' l
  end.
Fixpoint glass_moves (g : glass) (l : list (Z * Z)) : glass :=
  match l with
  | [] => g
  | (zp, fp) :: l => glass_moves (glass_move g zp fp) l
  end.

Lemma clamp_zoom_stop x : hal_lens_fg2009_clamp_zoom_curve x = stop_at HAL_LENS_FG2009_ZOOM_TRAVEL_STEPS x.
Proof. unfold hal_lens_fg2009_clamp_zoom_curve, stop_at, HAL_LENS_FG2009_ZOOM_TRAVEL_STEPS. repeat cif; cbool; lia. Qed.
Lemma clamp_focus_stop x : hal_lens_fg2009_clamp_focus_curve x = stop_at HAL_LENS_FG2009_FOCUS_TRAVEL_STEPS x.
Proof. unfold hal_lens_fg2009_clamp_focus_curve, stop_at, HAL_LENS_FG2009_FOCUS_TRAVEL_STEPS. repeat cif; cbool; lia. Qed.
Lemma sub32_some a b : -2147483648 <= a - b <= 2147483647 -> sub32 a b = Some (a - b).
Proof. intros H. unfold sub32. by rewrite !(proj2 (Z.leb_le _ _)) by lia. Qed.
Lemma glass_move_ok g zp fp : glass_ok (glass_move g zp fp).
Proof. unfold glass_ok, glass_move, stop_at, HAL_LENS_FG2009_ZOOM_TRAVEL_STEPS, HAL_LENS_FG2009_FOCUS_TRAVEL_STEPS. cbn. lia. Qed.

Lemma apply_agrees st g zp fp : agrees st g -> glass_ok g -> step_ok zp -> step_ok fp ->
  exists st', hal_lens_fg2009_apply_physical st zp fp = Some st' /\ agrees st' (glass_move g zp fp).
Proof.
  intros (Ez & Ef & Ea) [Hz Hf] Hzp Hfp. unfold step_ok, HAL_LENS_FG2009_ZOOM_TRAVEL_STEPS, HAL_LENS_FG2009_FOCUS_TRAVEL_STEPS in *.
  unfold hal_lens_fg2009_apply_physical. rewrite !sub32_some by lia. cbn. eexists. split; [reflexivity|].
  unfold agrees. cbn. by rewrite clamp_zoom_stop, clamp_focus_stop, Ez, Ef.
Qed.
Lemma moves_agree l : Forall (fun m => step_ok m.1 /\ step_ok m.2) l -> forall st g, agrees st g -> glass_ok g ->
  exists st', count_moves st l = Some st' /\ agrees st' (glass_moves g l).
Proof.
  induction 1 as [|[zp fp] l [Hz Hf] _ IH]; intros st g Ha Hg; [by eexists|]. cbn [count_moves glass_moves].
  destruct (apply_agrees st g zp fp Ha Hg Hz Hf) as (st' & E & Ha'). rewrite E. cbn. apply IH; [done|apply glass_move_ok].
Qed.

(** C18 [fg2009_tracks_lens]: drive both groups of a lens, wherever they are, against the far stops with the
    default number of steps and anchor the counters there.  Then the counters give the
    true position of both groups after every sequence of moves, the parking move
    included, also when a group meets a stop on the way; nothing overflows for moves up
    to 2147481184 steps. *)
Theorem fg2009_tracks_lens g st l : glass_ok g -> Forall (fun m => step_ok m.1 /\ step_ok m.2) l ->
  let d := hal_lens_fg2009_params_init_defaults in
  let g0 := glass_move g (- ram_steps d) (- ram_steps d) in
  agrees (hal_lens_fg2009_anchor st) g0 /\
  exists st1 st2, hal_lens_fg2009_park (hal_lens_fg2009_anchor st) d = Some st1 /\ count_moves st1 l = Some st2 /\
    agrees st2 (glass_moves (glass_move g0 (park_zoom_steps d) (park_focus_steps d)) l).
Proof.
  intros Hg Hl d g0. assert (H0 : agrees (hal_lens_fg2009_anchor st) g0).
  { unfold agrees, g0, glass_move, stop_at, d. destruct Hg. cbn. unfold HAL_LENS_FG2009_ZOOM_TRAVEL_STEPS, HAL_LENS_FG2009_FOCUS_TRAVEL_STEPS in *. lia. }
  split; [exact H0|]. destruct (apply_agrees _ g0 (park_zoom_steps d) (park_focus_steps d) H0) as (st1 & E1 & H1);
    [apply glass_move_ok|unfold step_ok; cbn; lia|unfold step_ok; cbn; lia|].
  destruct (moves_agree l Hl st1 _ H1) as (st2 & E2 & H2); [apply glass_move_ok|]. by exists st1, st2.
Qed.

(** For counters that agree with the lens, the move computed for a target takes
    the lens, and the counters, to the target, cut to the travel of each group. *)
Theorem fg2009_reaches_target st g zt ft : agrees st g -> glass_ok g ->
  exists zp fp st', hal_lens_fg2009_zoom_physical_delta (Some st) zt = Some zp /\ hal_lens_fg2009_focus_physical_delta (Some st) ft = Some fp /\
    hal_lens_fg2009_apply_physical st zp fp = Some st' /\ agrees st' (glass_move g zp fp) /\
    glass_move g zp fp = mkGlass (stop_at HAL_LENS_FG2009_ZOOM_TRAVEL_STEPS zt) (stop_at HAL_LENS_FG2009_FOCUS_TRAVEL_STEPS ft).
Proof.
  intros Ha Hg. pose proof Ha as (Ez & Ef & Ea). unfold hal_lens_fg2009_zoom_physical_delta, hal_lens_fg2009_focus_physical_delta. rewrite Ea. cbn [negb].
  rewrite clamp_zoom_stop, clamp_focus_stop. destruct Hg as [Hz Hf].
  set (z := stop_at _ zt). set (f := stop_at _ ft). assert (0 <= z <= 2463) by (subst z; unfold stop_at, HAL_LENS_FG2009_ZOOM_TRAVEL_STEPS; lia).
  assert (0 <= f <= 2453) by (subst f; unfold stop_at, HAL_LENS_FG2009_FOCUS_TRAVEL_STEPS; lia).
  unfold HAL_LENS_FG2009_ZOOM_TRAVEL_STEPS, HAL_LENS_FG2009_FOCUS_TRAVEL_STEPS in Hz, Hf. rewrite !sub32_some by lia.
  destruct (apply_agrees st g (zoom_curve st - z) (focus_curve st - f) Ha) as (st' & E & Ha'); [done|unfold step_ok; lia|unfold step_ok; lia|].
  exists (zoom_curve st - z), (focus_curve st - f), st'. split_and!; try done. unfold glass_move. rewrite Ez, Ef.
  f_equal; unfold stop_at, HAL_LENS_FG2009_ZOOM_TRAVEL_STEPS, HAL_LENS_FG2009_FOCUS_TRAVEL_STEPS; lia.
Qed.

(** ** Ratios *)
Lemma steps_per_ratio_eq : steps_per_ratio = S754_finite false 8724397094387640 (-42).
Proof. vm_compute. reflexivity. Qed.
Lemma max_ratio_eq : hal_lens_fg2009_max_ratio = S754_finite false 9402037 (-22).
Proof. vm_compute. reflexivity. Qed.

(** The two conversions with the constants evaluated, on one position. *)
Definition ratio_back (one mx k : spec_float) (n : Z) : bool :=
  let r := f32_add one (f64_to_f32 (f64_div (f64 n) k)) in
  let r := if SFltb r one then one else r in
  let r := if SFgtb r mx then mx else r in
  match lround (f64_mul (f32_to_f64 (f32_sub r one)) k) with Some v => v =? n | None => false end.
Fixpoint all_back (one mx k : spec_float) (fuel : nat) (n : Z) : bool :=
  match fuel with
  | O => true
  | S fuel => ratio_back one mx k n && all_back one mx k fuel (n + 1)
  end.
Lemma all_back_spec one mx k fuel : forall n0, all_back one mx k fuel n0 = true -> forall n, n0 <= n < n0 + Z.of_nat fuel -> ratio_back one mx k n = true.
Proof.
  induction fuel as [|fuel IH]; intros n0 H n Hn; [lia|]. cbn [all_back] in H. apply andb_true_iff in H as [H1 H2].
  destruct (decide (n = n0)) as [->|]; [done|]. apply (IH (n0 + 1)); [done|lia].
Qed.
Lemma all_positions_back :
  all_back (S754_finite false 8388608 (-23)) (S754_finite false 9402037 (-22)) (S754_finite false 8724397094387640 (-42)) 2464 0 = true.
Proof. vm_compute. reflexivity. Qed.

(** The zoom ratio computed for a position of the travel, in single precision,
    converts back to that position; and the position computed for any ratio, NaN and
    infinities included, lies in the travel. *)
Theorem fg2009_ratio_roundtrip unspecified :
  (forall n, 0 <= n <= HAL_LENS_FG2009_ZOOM_TRAVEL_STEPS ->
    hal_lens_fg2009_ratio_to_steps unspecified (hal_lens_fg2009_steps_to_ratio n) = n) /\
  (forall r, 0 <= hal_lens_fg2009_ratio_to_steps unspecified r <= HAL_LENS_FG2009_ZOOM_TRAVEL_STEPS).
Proof.
  unfold HAL_LENS_FG2009_ZOOM_TRAVEL_STEPS. split.
  - intros n Hn. pose proof (all_back_spec _ _ _ _ _ all_positions_back n ltac:(lia)) as H. unfold ratio_back in H.
    assert (Hc : hal_lens_fg2009_clamp_zoom_curve n = n) by (rewrite clamp_zoom_stop; unfold stop_at, HAL_LENS_FG2009_ZOOM_TRAVEL_STEPS; lia).
    unfold hal_lens_fg2009_ratio_to_steps, hal_lens_fg2009_steps_to_ratio, lround32. rewrite Hc, max_ratio_eq, steps_per_ratio_eq.
    change (f32 1) with (S754_finite false 8388608 (-23)). destruct (lround _) as [v|]; [|done]. apply Z.eqb_eq in H as ->.
    unfold s32. rewrite u32_small by lia. by rewrite (proj2 (Z.ltb_lt _ _)) by lia.
  - intros r. unfold hal_lens_fg2009_ratio_to_steps. rewrite clamp_zoom_stop. unfold stop_at, HAL_LENS_FG2009_ZOOM_TRAVEL_STEPS. lia.
Qed.
