(* ===== verification/HalLensAf0832.v ===== *)
(** The lens device of the main processor
    ([hal_v2/common/devices/hal_lens_af0832.c], without the tables): commands to the
    microcontroller and synchronous waits for the events it sends back.

    [HAL_LENS_OPS] is the class [LensOps]: a table of functions with several
    implementations.  The events the receiving thread delivers while a call or a wait
    runs, and what other threads do to the device meanwhile, are a list of
    [lens_evt]s.  [af_trace] is a ghost variable: what passed between the device, the
    controller and the processor, in order. *)
From S2P Require Import Prelude Ms41908mReg FactoryFormat.

Definition HAL_ERR_INVALID_STATE : Z := -0x0AFF + 2.
Definition HAL_ERR_TIMEOUT : Z := -0x0AFF + 5.
Definition HAL_ERR_NO_MEM : Z := -0x0AFF + 6.
Definition HAL_ERR_NOT_INITIALIZED : Z := -0x0AFF + 10.

Definition HAL_LENS_MS41908M_STATE_NO_CFG : Z := 0.
Definition HAL_LENS_MS41908M_STATE_STOPPED : Z := 1.
Definition HAL_LENS_MS41908M_STATE_RUNNING : Z := 2.
Definition HAL_LENS_MS41908M_STATE_RESET_ZERO : Z := 3.
Definition HAL_LENS_MS41908M_STATE_ERROR : Z := 4.
Definition HAL_LENS_EVT_ZOOM_COMPLETED : Z := 32.
Definition HAL_LENS_EVT_FOCUS_COMPLETED : Z := 16.
Definition HAL_LENS_EVT_ZOOM_RESET_DONE : Z := 256.
Definition HAL_LENS_EVT_FOCUS_RESET_DONE : Z := 512.
Definition HAL_LENS_AF0832_DEFAULT_ZOOM_MIN_POS : Z := -3236.
Definition HAL_LENS_AF0832_DEFAULT_ZOOM_MAX_POS : Z := 760.
Definition HAL_LENS_AF0832_DEFAULT_FOCUS_MIN_POS : Z := -844.
Definition HAL_LENS_AF0832_DEFAULT_FOCUS_MAX_POS : Z := 592.
Definition HAL_LENS_MODE_ALL : Z := 0.

(** ** Data *)
Record HalLensMotion : Type := mkMotion { lm_pps : Z; lm_value : Z }.
Record HalLensLimit : Type := mkLimit { min_pos : Z; max_pos : Z }.
Record HalLensZfSync : Type := mkZf { zm_pps : Z; zm_micro_steps : Z; fs_pps : Z; fs_micro_steps : Z }.
Record HalLensState : Type := mkLensState {
  hs_iris_state : Z;
  hs_zoom_state : Z;
  hs_focus_state : Z;
  hs_zoom_rz_done : bool;
  hs_focus_rz_done : bool;
  hs_zoom_pos : Z;
  hs_focus_pos : Z
}.
Record HalLensAf0832Params : Type := mkAfParams {
  bootstrap_timeout_ms : Z;
  op_timeout_ms : Z;
  zoom_limit : HalLensLimit;
  focus_limit : HalLensLimit;
  af_default_pps : Z
}.

(** The functions of [HalLensOps] that return only a status. *)
Inductive lens_cmd : Type :=
| LensInit | LensDeinit | LensConfig (mode : Z)
| IrisRun (m : HalLensMotion) | IrisStop | IrisTargetSet (target : Z)
| ZoomRun (m : HalLensMotion) | ZoomAbs (m : HalLensMotion) | ZoomStop | ZoomRz | ZoomLimitSet (l : HalLensLimit)
| FocusRun (m : HalLensMotion) | FocusAbs (m : HalLensMotion) | FocusStop | FocusRz | FocusLimitSet (l : HalLensLimit)
| ZfSyncRun (p : HalLensZfSync)
| Subscribe | Unsubscribe
| ProfileSet (model : Z) | ZoomRel (pps steps : Z) | FocusRel (pps steps : Z) | DualRel (zpps zsteps fpps fsteps : Z).

(** An event of the microcontroller with its result and positions, or one of the two
    steps in which another thread destroys the device: it announces the end under the
    lock, and later, without it, frees the device. *)
Inductive lens_evt : Type := LensEvt (event result zoom_pos focus_pos : Z) | DeviceClosing | DeviceFreed.

(** A command with the status it got, an answer to the query for the state, an event, a
    failure of the clock or of a wait; and for the client that owns the link, its closing
    and opening. *)
Inductive lens_obs : Type :=
| OSent (c : lens_cmd) (status : Z)
| ORead (status : Z) (st : HalLensState)
| OCame (e : lens_evt)
| OFault
| OClosed (ctx : Z)
| OOpened (device : option (list Z)) (baud timeout status : Z) (ctx : option Z).

Definition sent_of (o : lens_obs) : option lens_cmd := match o with OSent c _ => Some c | _ => None end.
Definition came_of (o : lens_obs) : option lens_evt := match o with OCame e => Some e | _ => None end.
Definition sent (tr : list lens_obs) : list lens_cmd := omap sent_of tr.
Definition came (tr : list lens_obs) : list lens_evt := omap came_of tr.

(** Seconds and nanoseconds. *)
Record timespec : Type := mkTime { tv_sec : Z; tv_nsec : Z }.

Class LensOps (D : Type) : Type := {
  lens_op : lens_cmd -> D -> Z * D;
  lens_state : D -> Z * HalLensState * D;
  lens_adc : D -> Z * Z * D;
  lens_meanwhile : D -> list lens_evt * D;
  clock_gettime : D -> option timespec * D;
  cond_timedwait : timespec -> D -> Z * D;
  calloc_ok : D -> bool * D
}.
Definition ETIMEDOUT : Z := 110.

Record HalLensAf0832 : Type := mkAf {
  af_params : HalLensAf0832Params;
  bootstrapped : bool;
  closing : bool;
  wait_mask : Z;
  wait_seen_mask : Z;
  wait_result : Z;
  user_cb : option Z
}.
Definition set_af_params (v : HalLensAf0832Params) (s : HalLensAf0832) : HalLensAf0832 :=
  mkAf v (bootstrapped s) (closing s) (wait_mask s) (wait_seen_mask s) (wait_result s) (user_cb s).
Definition set_bootstrapped (v : bool) (s : HalLensAf0832) : HalLensAf0832 :=
  mkAf (af_params s) v (closing s) (wait_mask s) (wait_seen_mask s) (wait_result s) (user_cb s).
Definition set_closing (v : bool) (s : HalLensAf0832) : HalLensAf0832 :=
  mkAf (af_params s) (bootstrapped s) v (wait_mask s) (wait_seen_mask s) (wait_result s) (user_cb s).
Definition set_wait_mask (v : Z) (s : HalLensAf0832) : HalLensAf0832 :=
  mkAf (af_params s) (bootstrapped s) (closing s) v (wait_seen_mask s) (wait_result s) (user_cb s).
Definition set_wait_seen_mask (v : Z) (s : HalLensAf0832) : HalLensAf0832 :=
  mkAf (af_params s) (bootstrapped s) (closing s) (wait_mask s) v (wait_result s) (user_cb s).
Definition set_wait_result (v : Z) (s : HalLensAf0832) : HalLensAf0832 :=
  mkAf (af_params s) (bootstrapped s) (closing s) (wait_mask s) (wait_seen_mask s) v (user_cb s).
Definition set_user_cb (v : option Z) (s : HalLensAf0832) : HalLensAf0832 :=
  mkAf (af_params s) (bootstrapped s) (closing s) (wait_mask s) (wait_seen_mask s) (wait_result s) v.
Record af_state (D : Type) : Type := mkAfState {
  af_dev : option HalLensAf0832;
  af_hw : D;
  af_trace : list lens_obs;
  af_calls : list (Z * lens_evt)
}.
Arguments mkAfState {D}.
Arguments af_dev {D}.
Arguments af_hw {D}.
Arguments af_trace {D}.
Arguments af_calls {D}.
Definition set_af_dev {D} (v : option HalLensAf0832) (s : af_state D) : af_state D :=
  mkAfState v (af_hw s) (af_trace s) (af_calls s).
Definition set_af_hw {D} (v : D) (s : af_state D) : af_state D :=
  mkAfState (af_dev s) v (af_trace s) (af_calls s).
Definition set_af_trace {D} (v : list lens_obs) (s : af_state D) : af_state D :=
  mkAfState (af_dev s) (af_hw s) v (af_calls s).
Definition set_af_calls {D} (v : list (Z * lens_evt)) (s : af_state D) : af_state D :=
  mkAfState (af_dev s) (af_hw s) (af_trace s) v.
Definition af_cmds {D} (s : af_state D) : list lens_cmd := sent (af_trace s).

Definition timespec_add_ms (ts : timespec) (ms : Z) : timespec :=
  let nsec := tv_nsec ts + ms * 1000000 in
  mkTime (tv_sec ts + nsec / 1000000000) (nsec mod 1000000000).

Definition hal_lens_af0832_params_init_defaults : HalLensAf0832Params :=
  mkAfParams 60000 60000 (mkLimit HAL_LENS_AF0832_DEFAULT_ZOOM_MIN_POS HAL_LENS_AF0832_DEFAULT_ZOOM_MAX_POS)
    (mkLimit HAL_LENS_AF0832_DEFAULT_FOCUS_MIN_POS HAL_LENS_AF0832_DEFAULT_FOCUS_MAX_POS) 1200.

Section Device.
Context `{LensOps D}.
Notation af := (af_state D).

Definition ahw {A} (f : D -> A * D) : M af A :=
  d ← gets af_hw;
  let '(a, d') := f d in
  modify (set_af_hw d');;
  mret a.

Definition observe (o : lens_obs) : M af unit := modify (fun s => set_af_trace (af_trace s ++ [o]) s).

(** The device behind the pointer; a freed one is not touched. *)
Definition the_dev : M af HalLensAf0832 :=
  d ← gets af_dev;
  match d with Some d => mret d | None => undef end.
Definition on_dev (f : HalLensAf0832 -> HalLensAf0832) : M af unit :=
  d ← the_dev;
  modify (set_af_dev (Some (f d))).

(** ** Events *)
Definition all_seen (d : HalLensAf0832) : bool := Z.land (wait_seen_mask d) (wait_mask d) =? wait_mask d.

Definition note_event (event result : Z) (d : HalLensAf0832) : HalLensAf0832 :=
  if negb (wait_mask d =? 0) then
    let matched := Z.land event (wait_mask d) in
    if negb (matched =? 0) then
      let d := set_wait_seen_mask (Z.lor (wait_seen_mask d) matched) d in
      if negb (result =? 0) && (wait_result d =? 0) then set_wait_result result d else d
    else d
  else d.

Definition lens_evt_trampoline (e : lens_evt) : M af unit :=
  match e with
  | DeviceClosing | DeviceFreed => mret tt
  | LensEvt event result zp fp =>
      observe (OCame e);;
      s ← get;
      match af_dev s with
      | None => mret tt
      | Some d =>
          on_dev (note_event event result);;
          match user_cb d with
          | Some cb => modify (fun s => set_af_calls (af_calls s ++ [(cb, e)]) s)
          | None => mret tt
          end
      end
  end.

(** A command. *)
Definition raw_op (c : lens_cmd) : M af Z :=
  st ← ahw (lens_op c);
  observe (OSent c st);;
  mret st.

(** The two steps of [hal_lens_af0832_destroy]. *)
Definition destroy_announce : M af unit := on_dev (set_closing true).
Definition destroy_free : M af unit := modify (set_af_dev None).

Fixpoint lens_happen (es : list lens_evt) : M af unit :=
  match es with
  | [] => mret tt
  | DeviceClosing :: es => destroy_announce;; lens_happen es
  | DeviceFreed :: es => raw_op Unsubscribe;; destroy_free;; lens_happen es
  | e :: es => lens_evt_trampoline e;; lens_happen es
  end.
Definition meanwhile_evts : M af unit := es ← ahw lens_meanwhile; lens_happen es.

(** Events may come in while a command or a query is under way. *)
Definition op (c : lens_cmd) : M af Z := st ← raw_op c; meanwhile_evts;; mret st.
Definition state_get : M af (Z * HalLensState) :=
  r ← ahw lens_state;
  observe (ORead r.1 r.2);;
  meanwhile_evts;;
  mret r.

Definition hal_lens_af0832_destroy : M af unit :=
  s ← get;
  match af_dev s with
  | None => mret tt
  | Some _ =>
      destroy_announce;;
      op Unsubscribe;;
      destroy_free
  end.

(** ** The clock and the condition variable *)
Definition read_clock : M af (option timespec) :=
  t ← ahw clock_gettime;
  (match t with None => observe OFault | Some _ => mret tt end);;
  mret t.
(** A wait releases the lock: events come in. *)
Definition cond_wait (abstime : timespec) : M af Z :=
  rc ← ahw (cond_timedwait abstime);
  (if (rc =? 0) || (rc =? ETIMEDOUT) then mret tt else observe OFault);;
  meanwhile_evts;;
  mret rc.

(** ** Waits *)
Definition lens_prepare_wait (mask : Z) : M af unit :=
  on_dev (fun d => set_wait_result 0 (set_wait_seen_mask 0 (set_wait_mask mask d))).
Definition lens_abort_wait : M af unit :=
  on_dev (fun d => set_wait_result 0 (set_wait_seen_mask 0 (set_wait_mask 0 d))).

(** The loop on the condition variable: [Some] status on an error of the wait. *)
Fixpoint finish_loop (fuel : nat) (abstime : timespec) : M af (option Z) :=
  match fuel with
  | O => fun _ => NoFuel
  | S fuel =>
      d ← the_dev;
      if negb (all_seen d) && (wait_result d =? 0) && negb (closing d) then
        rc ← cond_wait abstime;
        if rc =? ETIMEDOUT then mret None
        else if negb (rc =? 0) then lens_abort_wait;; mret (Some HAL_ERROR)
        else finish_loop fuel abstime
      else mret None
  end.

(** The status, and what is stored through [result_out]. *)
Definition lens_finish_wait (fuel : nat) (timeout_ms : Z) : M af (Z * option Z) :=
  t ← read_clock;
  match t with
  | None => lens_abort_wait;; mret (HAL_ERROR, None)
  | Some t =>
      r ← finish_loop fuel (timespec_add_ms t timeout_ms);
      match r with
      | Some e => mret (e, None)
      | None =>
          d ← the_dev;
          let complete := negb (wait_mask d =? 0) && all_seen d in
          let res := wait_result d in
          lens_abort_wait;;
          if closing d then mret (HAL_ERR_INVALID_STATE, None)
          else if negb (res =? 0) then mret (HAL_ERROR, Some res)
          else mret (if complete then HAL_OK else HAL_ERR_TIMEOUT, Some res)
      end
  end.

Definition rz_done (zoom_not_focus : bool) (st : HalLensState) : bool :=
  if zoom_not_focus then hs_zoom_rz_done st else hs_focus_rz_done st.
(** Whether the controller reports the reset as done; then the wait is given up. *)
Definition reset_reported (zoom_not_focus : bool) : M af bool :=
  '(r, st) ← state_get;
  if (r =? HAL_OK) && rz_done zoom_not_focus st then lens_abort_wait;; mret true else mret false.

Definition rem_ms (e now : timespec) : Z := (tv_sec e - tv_sec now) * 1000 + Z.quot (tv_nsec e - tv_nsec now) 1000000.

Fixpoint reset_loop (fuel : nat) (zoom_not_focus : bool) (end_ts : timespec) : M af Z :=
  match fuel with
  | O => fun _ => NoFuel
  | S fuel =>
      now ← read_clock;
      match now with
      | None => mret HAL_ERROR
      | Some now =>
          let rem := rem_ms end_ts now in
          if rem <=? 0 then lens_abort_wait;; mret HAL_ERR_TIMEOUT
          else
            let cur_step := if rem <? 200 then u32 rem else 200 in
            d ← the_dev;
            if closing d then mret HAL_ERR_INVALID_STATE
            else if (negb (wait_mask d =? 0) && all_seen d) || negb (wait_result d =? 0) then
              lens_abort_wait;;
              mret (if wait_result d =? 0 then HAL_OK else HAL_ERROR)
            else
              cond_wait (timespec_add_ms now cur_step);;
              the_dev;;
              ok ← reset_reported zoom_not_focus;
              if ok : bool then mret HAL_OK else reset_loop fuel zoom_not_focus end_ts
      end
  end.
Definition lens_finish_reset_wait (fuel : nat) (zoom_not_focus : bool) (timeout_ms : Z) : M af Z :=
  ok ← reset_reported zoom_not_focus;
  if ok : bool then mret HAL_OK
  else
    t ← read_clock;
    match t with
    | None => mret HAL_ERROR
    | Some t => reset_loop fuel zoom_not_focus (timespec_add_ms t timeout_ms)
    end.

(** ** Life cycle *)
(** [pointers]: neither the context nor [out_dev] is [NULL].  [*out_dev] is left alone on
    an error. *)
Definition hal_lens_af0832_create (pointers : bool) (params : option HalLensAf0832Params) : M af Z :=
  if negb pointers then mret HAL_ERR_INVALID_ARG
  else
  ok ← ahw calloc_ok;
  if negb ok : bool then mret HAL_ERR_NO_MEM
  else
    modify (set_af_dev (Some (mkAf (default hal_lens_af0832_params_init_defaults params) false false 0 0 0 None)));;
    mret HAL_OK.

Definition hal_lens_af0832_set_event_callback (cb : option Z) : M af Z :=
  d ← gets af_dev;
  match d with
  | None => mret HAL_ERR_INVALID_ARG
  | Some _ => on_dev (set_user_cb cb);; mret HAL_OK
  end.

Definition ensure_bootstrapped : M af Z :=
  d ← gets af_dev;
  mret (match d with
        | None => HAL_ERR_INVALID_ARG
        | Some d => if bootstrapped d then HAL_OK else HAL_ERR_NOT_INITIALIZED
        end).
(** [if (r != HAL_OK) return r;] *)
Definition guarded (k : M af Z) : M af Z :=
  r ← ensure_bootstrapped;
  if negb (r =? HAL_OK) then mret r else k.
Definition check_ok (m : M af Z) (k : M af Z) : M af Z :=
  r ← m;
  if negb (r =? HAL_OK) then mret r else k.

(** One axis: arm the wait, start the reset, wait. *)
Definition reset_axis (fuel : nat) (zoom_not_focus : bool) : M af Z :=
  lens_prepare_wait (if zoom_not_focus then HAL_LENS_EVT_ZOOM_RESET_DONE else HAL_LENS_EVT_FOCUS_RESET_DONE);;
  r ← op (if zoom_not_focus then ZoomRz else FocusRz);
  if negb (r =? HAL_OK) then lens_abort_wait;; mret r
  else d ← the_dev; lens_finish_reset_wait fuel zoom_not_focus (bootstrap_timeout_ms (af_params d)).

(** What the state of the controller asks for: initialisation, zoom and focus reset. *)
Definition bootstrap_needs (r : Z) (st : HalLensState) : bool * bool * bool :=
  if r =? HAL_OK then
    let motors_ok := negb (hs_zoom_state st =? HAL_LENS_MS41908M_STATE_NO_CFG) && negb (hs_focus_state st =? HAL_LENS_MS41908M_STATE_NO_CFG) &&
                     negb (hs_zoom_state st =? HAL_LENS_MS41908M_STATE_ERROR) && negb (hs_focus_state st =? HAL_LENS_MS41908M_STATE_ERROR) in
    if motors_ok then (false, negb (hs_zoom_rz_done st), negb (hs_focus_rz_done st)) else (true, true, true)
  else (true, true, true).

Definition bootstrap_resets (fuel : nat) (need_zoom_rz need_focus_rz : bool) : M af Z :=
  check_ok (if need_zoom_rz then reset_axis fuel true else mret HAL_OK)
    (check_ok (if need_focus_rz then reset_axis fuel false else mret HAL_OK)
      (on_dev (set_bootstrapped true);; mret HAL_OK)).

Definition hal_lens_af0832_bootstrap (fuel : nat) : M af Z :=
  d ← gets af_dev;
  match d with
  | None => mret HAL_ERR_INVALID_ARG
  | Some _ =>
      check_ok (op Subscribe)
        ('(r, st) ← state_get;
         let '(need_init, need_zoom_rz, need_focus_rz) := bootstrap_needs r st in
         check_ok (if need_init then op LensInit else mret HAL_OK)
           (check_ok (op (LensConfig HAL_LENS_MODE_ALL))
             (op (IrisRun (mkMotion 0 0));;
              d ← the_dev;
              check_ok (op (ZoomLimitSet (zoom_limit (af_params d))))
                (d ← the_dev;
                 check_ok (op (FocusLimitSet (focus_limit (af_params d))))
                   (bootstrap_resets fuel need_zoom_rz need_focus_rz)))))
  end.

Definition hal_lens_af0832_mark_bootstrapped : M af unit :=
  d ← gets af_dev;
  match d with None => mret tt | Some _ => on_dev (set_bootstrapped true) end.

Definition hal_lens_af0832_force_reset_zero (fuel : nat) : M af Z :=
  guarded (check_ok (reset_axis fuel true) (reset_axis fuel false)).

(** ** Moves *)
Definition hal_lens_af0832_state_get : M af (Z * option HalLensState) :=
  r ← ensure_bootstrapped;
  if negb (r =? HAL_OK) then mret (r, None) else '(r, st) ← state_get; mret (r, Some st).
Definition hal_lens_af0832_iris_target_set (target : Z) : M af Z := guarded (op (IrisTargetSet target)).
Definition hal_lens_af0832_iris_adc_get : M af (Z * option Z) :=
  r ← ensure_bootstrapped;
  if negb (r =? HAL_OK) then mret (r, None) else '(r, v) ← ahw lens_adc; meanwhile_evts;; mret (r, Some v).

Definition run_with_optional_wait (fuel : nat) (mask : Z) (c : lens_cmd) : M af Z :=
  guarded
    (lens_prepare_wait mask;;
     r ← op c;
     if negb (r =? HAL_OK) then lens_abort_wait;; mret r
     else d ← the_dev; '(r, _) ← lens_finish_wait fuel (op_timeout_ms (af_params d)); mret r).

Definition hal_lens_af0832_iris_run (m : HalLensMotion) : M af Z := guarded (op (IrisRun m)).

Definition hal_lens_af0832_zoom_run (fuel : nat) (m : option HalLensMotion) : M af Z :=
  guarded match m with
          | None => mret HAL_ERR_INVALID_ARG
          | Some m => if lm_value m =? 0 then mret HAL_OK else run_with_optional_wait fuel HAL_LENS_EVT_ZOOM_COMPLETED (ZoomRun m)
          end.
Definition hal_lens_af0832_focus_run (fuel : nat) (m : option HalLensMotion) : M af Z :=
  guarded match m with
          | None => mret HAL_ERR_INVALID_ARG
          | Some m => if lm_value m =? 0 then mret HAL_OK else run_with_optional_wait fuel HAL_LENS_EVT_FOCUS_COMPLETED (FocusRun m)
          end.

(** Nothing to do when the axis is already there. *)
Definition unless_there (pos : HalLensState -> Z) (m : HalLensMotion) (k : M af Z) : M af Z :=
  '(r, st) ← state_get;
  if (r =? HAL_OK) && (pos st =? lm_value m) then mret HAL_OK else k.
Definition hal_lens_af0832_zoom_abs (fuel : nat) (m : option HalLensMotion) : M af Z :=
  guarded match m with
          | None => mret HAL_ERR_INVALID_ARG
          | Some m => unless_there hs_zoom_pos m (run_with_optional_wait fuel HAL_LENS_EVT_ZOOM_COMPLETED (ZoomAbs m))
          end.
Definition hal_lens_af0832_focus_abs (fuel : nat) (m : option HalLensMotion) : M af Z :=
  guarded match m with
          | None => mret HAL_ERR_INVALID_ARG
          | Some m => unless_there hs_focus_pos m (run_with_optional_wait fuel HAL_LENS_EVT_FOCUS_COMPLETED (FocusAbs m))
          end.

Definition hal_lens_af0832_zoom_run_async (m : option HalLensMotion) : M af Z :=
  guarded match m with None => mret HAL_ERR_INVALID_ARG | Some m => if lm_value m =? 0 then mret HAL_OK else op (ZoomRun m) end.
Definition hal_lens_af0832_focus_run_async (m : option HalLensMotion) : M af Z :=
  guarded match m with None => mret HAL_ERR_INVALID_ARG | Some m => if lm_value m =? 0 then mret HAL_OK else op (FocusRun m) end.
Definition hal_lens_af0832_zoom_abs_async (m : option HalLensMotion) : M af Z :=
  guarded match m with None => mret HAL_ERR_INVALID_ARG | Some m => unless_there hs_zoom_pos m (op (ZoomAbs m)) end.
Definition hal_lens_af0832_focus_abs_async (m : option HalLensMotion) : M af Z :=
  guarded match m with None => mret HAL_ERR_INVALID_ARG | Some m => unless_there hs_focus_pos m (op (FocusAbs m)) end.

(** [hal_lens_af0832_wait_zoom] and [hal_lens_af0832_wait_focus]. *)
Definition wait_axis (fuel : nat) (mask : Z) (axis_state : HalLensState -> Z) (timeout_ms : Z) : M af (Z * option Z) :=
  r ← ensure_bootstrapped;
  if negb (r =? HAL_OK) then mret (r, None)
  else
    lens_prepare_wait mask;;
    '(r, st) ← state_get;
    if (r =? HAL_OK) && negb (axis_state st =? HAL_LENS_MS41908M_STATE_RUNNING)
    then lens_abort_wait;; mret (HAL_OK, Some 0)
    else lens_finish_wait fuel timeout_ms.
Definition hal_lens_af0832_wait_zoom (fuel : nat) (timeout_ms : Z) : M af (Z * option Z) :=
  wait_axis fuel HAL_LENS_EVT_ZOOM_COMPLETED hs_zoom_state timeout_ms.
Definition hal_lens_af0832_wait_focus (fuel : nat) (timeout_ms : Z) : M af (Z * option Z) :=
  wait_axis fuel HAL_LENS_EVT_FOCUS_COMPLETED hs_focus_state timeout_ms.

Definition sync_mask (p : HalLensZfSync) : Z :=
  Z.lor (if zm_micro_steps p =? 0 then 0 else HAL_LENS_EVT_ZOOM_COMPLETED) (if fs_micro_steps p =? 0 then 0 else HAL_LENS_EVT_FOCUS_COMPLETED).
Definition lens_zf_sync_run_wait (fuel : nat) (params : option HalLensZfSync) (timeout_ms : Z) : M af Z :=
  guarded match params with
          | None => mret HAL_ERR_INVALID_ARG
          | Some p =>
              if (zm_micro_steps p =? 0) && (fs_micro_steps p =? 0) then mret HAL_OK
              else
                lens_prepare_wait (sync_mask p);;
                r ← op (ZfSyncRun p);
                if negb (r =? HAL_OK) then lens_abort_wait;; mret r
                else '(r, _) ← lens_finish_wait fuel timeout_ms; mret r
          end.
Definition hal_lens_af0832_zf_sync_run (fuel : nat) (params : option HalLensZfSync) : M af Z :=
  d ← gets af_dev;
  match d with
  | None => mret HAL_ERR_INVALID_ARG
  | Some d => lens_zf_sync_run_wait fuel params (op_timeout_ms (af_params d))
  end.

Definition clamp_i32 (v lo hi : Z) : Z := if v <? lo then lo else if hi <? v then hi else v.
(** Signed overflow is undefined. *)
Definition diff32 (a b : Z) : M af Z :=
  if (-2147483648 <=? a - b) && (a - b <=? 2147483647) then mret (a - b) else undef.

Definition hal_lens_af0832_zf_sync_abs (fuel : nat) (zoom focus : option HalLensMotion) (timeout_ms : Z) : M af Z :=
  guarded
    (if negb (bool_decide (is_Some zoom)) && negb (bool_decide (is_Some focus)) then mret HAL_ERR_INVALID_ARG
     else
       '(r, st) ← state_get;
       if negb (r =? HAL_OK) then mret r
       else
         d ← the_dev;
         let p := af_params d in
         zs ← (match zoom with
               | Some m => diff32 (clamp_i32 (lm_value m) (min_pos (zoom_limit p)) (max_pos (zoom_limit p))) (hs_zoom_pos st)
               | None => mret 0
               end);
         fs ← (match focus with
               | Some m => diff32 (clamp_i32 (lm_value m) (min_pos (focus_limit p)) (max_pos (focus_limit p))) (hs_focus_pos st)
               | None => mret 0
               end);
         if (zs =? 0) && (fs =? 0) then mret HAL_OK
         else
           lens_zf_sync_run_wait fuel
             (Some (mkZf (default 0 (lm_pps <$> zoom)) zs (default 0 (lm_pps <$> focus)) fs))
             (if 0 <? timeout_ms then timeout_ms else op_timeout_ms p)).
End Device.
