(* ===== verification/HalLensWait.v ===== *)
(** The synchronous moves of the lens device against the events that arrive: a call
    returns within its time, and its status is the one the events since the command
    call for. *)
From S2P Require Import Prelude Ms41908mReg FactoryFormat HalLensAf0832.

(** ** What a wait should report *)
Definition evt_code (e : lens_evt) : Z := match e with LensEvt c _ _ _ => c | _ => 0 end.
Definition evt_result (e : lens_evt) : Z := match e with LensEvt _ r _ _ => r | _ => 0 end.
Definition is_evt (e : lens_evt) : Prop := match e with LensEvt _ _ _ _ => True | _ => False end.
(** An event a wait for [mask] looks at that reports a failure. *)
Definition fails (mask : Z) (e : lens_evt) : bool := negb (Z.land (evt_code e) mask =? 0) && negb (evt_result e =? 0).
(** The bits of all the events. *)
Definition all_codes (es : list lens_evt) : Z := foldr (fun e a => Z.lor (evt_code e) a) 0 es.
Definition wait_spec (mask : Z) (es : list lens_evt) : Z :=
  if existsb (fails mask) es then HAL_ERROR
  else if Z.land mask (all_codes es) =? mask then HAL_OK
  else HAL_ERR_TIMEOUT.

(** Nothing but events, and failures of the clock or of a wait. *)
Definition calm_obs (o : lens_obs) : Prop := match o with OCame _ | OFault => True | _ => False end.
Definition is_fault (o : lens_obs) : bool := match o with OFault => true | _ => false end.
(** What a wait for [mask] should report when [tr] is what happened from its command to
    its end: an error if the clock or the wait itself failed, what the events call for
    else. *)
Definition outcome_of (mask : Z) (tr : list lens_obs) : Z :=
  if existsb is_fault tr then HAL_ERROR else wait_spec mask (came tr).

Lemma came_app a b : came (a ++ b) = came a ++ came b.
Proof. apply omap_app. Qed.
Lemma sent_app a b : sent (a ++ b) = sent a ++ sent b.
Proof. apply omap_app. Qed.
Lemma came_map es : came (map OCame es) = es.
Proof. induction es as [|e es IH]; [done|]. cbn. f_equal. exact IH. Qed.
Lemma sent_calm tr : Forall calm_obs tr -> sent tr = [].
Proof. induction 1 as [|o tr Ho _ IH]; [done|]. by destruct o. Qed.
Lemma calm_map es : Forall calm_obs (map OCame es).
Proof. apply Forall_map, Forall_true. done. Qed.
Lemma no_fault_map es : existsb is_fault (map OCame es) = false.
Proof. by induction es. Qed.

(** ** The processor: its clock, and the waits on a condition variable *)
Definition ns (t : timespec) : Z := tv_sec t * 1000000000 + tv_nsec t.

(** The clock may fail; it is not set back.  A wait on the condition variable ends at a
    signal (also a spurious one) before the given time, reports that the time has come, or
    fails, and only a wait for a time that has come takes no time.  No other thread
    destroys the device. *)
Class LensLaws (D : Type) {LO : LensOps D} : Type := {
  now_ns : D -> Z;
  clock_law : forall d t d', clock_gettime d = (t, d') -> now_ns d <= now_ns d' /\
    forall ts, t = Some ts -> 0 <= tv_nsec ts < 1000000000 /\ now_ns d <= ns ts <= now_ns d';
  wait_law : forall t d rc d', cond_timedwait t d = (rc, d') -> now_ns d <= now_ns d' /\
    (rc = 0 -> now_ns d < ns t) /\ (rc = ETIMEDOUT -> ns t <= now_ns d') /\ (rc <> ETIMEDOUT -> now_ns d < now_ns d');
  op_law : forall c d, now_ns d <= now_ns (lens_op c d).2;
  state_law : forall d, now_ns d <= now_ns (lens_state d).2;
  meanwhile_law : forall d, now_ns d <= now_ns (lens_meanwhile d).2 /\ Forall is_evt (lens_meanwhile d).1
}.

(** ** Events and the fields of the wait *)
Definition note (d : HalLensAf0832) (e : lens_evt) : HalLensAf0832 := note_event (evt_code e) (evt_result e) d.
Definition noted (es : list lens_evt) (d : HalLensAf0832) : HalLensAf0832 := foldl note d es.
Definition arm (mask : Z) (d : HalLensAf0832) : HalLensAf0832 := set_wait_result 0 (set_wait_seen_mask 0 (set_wait_mask mask d)).
(** The calls of the user's callback for the events. *)
Definition told (cb : option Z) (es : list lens_evt) : list (Z * lens_evt) :=
  match cb with Some c => map (pair c) es | None => [] end.

Lemma note_frame d e :
  af_params (note d e) = af_params d /\ bootstrapped (note d e) = bootstrapped d /\ closing (note d e) = closing d /\
  wait_mask (note d e) = wait_mask d /\ user_cb (note d e) = user_cb d.
Proof. unfold note, note_event. by repeat cif. Qed.
Lemma noted_frame es d :
  af_params (noted es d) = af_params d /\ bootstrapped (noted es d) = bootstrapped d /\ closing (noted es d) = closing d /\
  wait_mask (noted es d) = wait_mask d /\ user_cb (noted es d) = user_cb d.
Proof.
  revert d. induction es as [|e es IH]; intros d; [done|]. change (noted (e :: es) d) with (noted es (note d e)). destruct (IH (note d e)) as (-> & -> & -> & -> & ->). apply note_frame.
Qed.
Lemma noted_app es es' d : noted (es ++ es') d = noted es' (noted es d).
Proof. apply foldl_app. Qed.
Lemma arm_noted es m d : arm m (noted es d) = arm m d.
Proof. destruct (noted_frame es d) as (E1 & E2 & E3 & E4 & E5). unfold arm. cbn. unfold set_wait_result, set_wait_seen_mask, set_wait_mask. cbn. by rewrite E1, E2, E3, E5. Qed.
Lemma arm_arm m m' d : arm m (arm m' d) = arm m d.
Proof. done. Qed.
Lemma told_app cb es es' : told cb (es ++ es') = told cb es ++ told cb es'.
Proof. destruct cb; [apply map_app|done]. Qed.

(** The awaited bits the events report, and whether there was a failure. *)
Lemma note_armed d e : wait_mask d <> 0 ->
  wait_seen_mask (note d e) = Z.lor (wait_seen_mask d) (Z.land (evt_code e) (wait_mask d)) /\
  wait_result (note d e) = if negb (wait_result d =? 0) then wait_result d else if fails (wait_mask d) e then evt_result e else 0.
Proof.
  intros Hm. unfold note, note_event, fails. rewrite (proj2 (Z.eqb_neq _ _) Hm). cbn [negb].
  destruct (Z.eqb_spec (Z.land (evt_code e) (wait_mask d)) 0) as [E|E]; cbn [negb andb].
  - rewrite E, Z.lor_0_r. split; [done|]. destruct (Z.eqb_spec (wait_result d) 0) as [E1|E1]; by rewrite ?E1.
  - destruct (Z.eqb_spec (evt_result e) 0) as [E0|E0]; cbn [negb andb]; destruct (Z.eqb_spec (wait_result d) 0) as [E1|E1]; cbn; rewrite ?E0, ?E1; split; try done; by rewrite (proj2 (Z.eqb_neq _ _) E1).
Qed.
Lemma noted_seen es d : wait_mask d <> 0 -> wait_seen_mask (noted es d) = Z.lor (wait_seen_mask d) (Z.land (all_codes es) (wait_mask d)).
Proof.
  revert d. induction es as [|e es IH]; intros d Hm; [cbn; by rewrite Z.lor_0_r|].
  destruct (note_frame d e) as (_ & _ & _ & Em & _). destruct (note_armed d e Hm) as [Es _].
  change (noted (e :: es) d) with (noted es (note d e)). rewrite IH, Es, Em by congruence. change (all_codes (e :: es)) with (Z.lor (evt_code e) (all_codes es)). by rewrite Z.land_lor_distr_l, Z.lor_assoc.
Qed.
Lemma noted_kept es d : wait_result d <> 0 -> wait_result (noted es d) = wait_result d.
Proof.
  revert d. induction es as [|e es IH]; intros d Hr; [done|]. change (noted (e :: es) d) with (noted es (note d e)). assert (E : wait_result (note d e) = wait_result d).
  { unfold note, note_event. cbn. rewrite (proj2 (Z.eqb_neq _ _) Hr), andb_false_r. by repeat cif. }
  rewrite <-E. apply IH. congruence.
Qed.
Lemma noted_failed es d : wait_mask d <> 0 -> wait_result d = 0 ->
  (wait_result (noted es d) =? 0) = negb (existsb (fails (wait_mask d)) es).
Proof.
  revert d. induction es as [|e es IH]; intros d Hm Hr; [cbn; by rewrite Hr|].
  change (noted (e :: es) d) with (noted es (note d e)). cbn [existsb].
  destruct (note_frame d e) as (_ & _ & _ & Em & _). destruct (note_armed d e Hm) as [_ Er]. rewrite Hr in Er. cbn in Er.
  destruct (fails (wait_mask d) e) eqn:Ef; cbn [orb negb].
  - assert (evt_result e <> 0) by (unfold fails in Ef; cbool; lia). rewrite noted_kept by congruence. rewrite Er. by apply Z.eqb_neq.
  - rewrite IH by congruence. by rewrite Em.
Qed.

(** The status a wait computes from its fields is the specified one. *)
Lemma verdict es mask d : mask <> 0 -> let d' := noted es (arm mask d) in
  (if negb (wait_result d' =? 0) then HAL_ERROR else if negb (wait_mask d' =? 0) && all_seen d' then HAL_OK else HAL_ERR_TIMEOUT) = wait_spec mask es.
Proof.
  intros Hm d'. unfold wait_spec, d', all_seen. rewrite noted_failed, noted_seen by done. destruct (noted_frame es (arm mask d)) as (_ & _ & _ & -> & _).
  cbn [arm wait_mask wait_seen_mask set_wait_result set_wait_seen_mask set_wait_mask]. rewrite negb_involutive, (proj2 (Z.eqb_neq _ _) Hm). cbn [negb andb].
  rewrite Z.lor_0_l, <-Z.land_assoc, Z.land_diag, Z.land_comm. done.
Qed.

Section Waits.
Context `{LL : LensLaws D}.
Notation af := (af_state D).
Definition now (s : af) : Z := now_ns (af_hw s).

(** Since [s0] the device has become [d], and [tr] is what happened. *)
Definition since (s0 : af) (d : HalLensAf0832) (tr : list lens_obs) (s : af) : Prop :=
  af_dev s = Some d /\ af_trace s = af_trace s0 ++ tr /\ af_calls s = af_calls s0 ++ told (user_cb d) (came tr) /\ now s0 <= now s.

Lemma since_refl s d : af_dev s = Some d -> since s d [] s.
Proof. intros E. unfold since. rewrite !app_nil_r. destruct (user_cb d); cbn; rewrite ?app_nil_r; repeat split; try done; lia. Qed.
(** Time passes. *)
Lemma since_hw s0 d tr w s : since s0 d tr s -> now s <= now_ns w -> since s0 d tr (set_af_hw w s).
Proof. intros (? & ? & ? & ?) Hn. split_and!; try done. unfold now in *. cbn. lia. Qed.
(** Something that is not an event happens. *)
Lemma since_obs s0 d tr o s : since s0 d tr s -> came_of o = None -> since s0 d (tr ++ [o]) (set_af_trace (af_trace s ++ [o]) s).
Proof.
  intros (Hd & Ht & Hl & Hn) Ho. unfold since. cbn. rewrite Ht, <-app_assoc, came_app. unfold came at 2. cbn. rewrite Ho, app_nil_r. done.
Qed.
Lemma happen_eq es : forall (s : af) d, Forall is_evt es -> af_dev s = Some d ->
  lens_happen es s = Ret tt (mkAfState (Some (noted es d)) (af_hw s) (af_trace s ++ map OCame es) (af_calls s ++ told (user_cb d) es)).
Proof.
  induction es as [|e es IH]; intros s d He Hd; [destruct s, (user_cb d); cbn in *; by rewrite !app_nil_r, Hd|].
  inversion He as [|? ? H1 H2]; subst. destruct e as [c r zp fp| |]; [|done..]. cbn [lens_happen lens_evt_trampoline].
  destruct (note_frame d (LensEvt c r zp fp)) as (_ & _ & _ & _ & Eu).
  set (s1 := mkAfState (Some (note d (LensEvt c r zp fp))) (af_hw s) (af_trace s ++ [OCame (LensEvt c r zp fp)]) (af_calls s ++ told (user_cb d) [LensEvt c r zp fp])).
  erewrite (bind_ret_eq _ _ s tt s1).
  - rewrite (IH s1 (note d (LensEvt c r zp fp))) by done. subst s1. cbn [af_hw af_trace af_calls]. rewrite Eu, <-!app_assoc, <-told_app. done.
  - unfold observe, mbind, M_bind, get, modify. cbn [af_dev set_af_trace]. rewrite Hd. unfold on_dev, the_dev, mbind, M_bind, gets. cbn [af_dev set_af_trace]. rewrite Hd. cbn. subst s1.
    destruct (user_cb d); cbn; [done|]. unfold set_af_dev. by rewrite app_nil_r.
Qed.

Lemma meanwhile_since s0 d tr s : since s0 d tr s ->
  returns meanwhile_evts (fun _ s' => now s <= now s' /\ exists es, since s0 (noted es d) (tr ++ map OCame es) s') s.
Proof.
  intros (Hd & Hc & Hl & Ht). unfold meanwhile_evts, ahw. destruct (meanwhile_law (af_hw s)) as [Hm He].
  rstep. destruct (lens_meanwhile (af_hw s)) as [es w'] eqn:E. rstep. unfold returns. rewrite (happen_eq es (set_af_hw w' s) d He Hd). split; [done|].
  exists es. unfold since. cbn [af_dev af_trace af_calls af_hw]. destruct (noted_frame es d) as (_ & _ & _ & _ & ->).
  rewrite came_app, came_map, told_app. cbn. rewrite Hc, Hl, <-!app_assoc. split_and!; try done. unfold now in *. cbn in *. lia.
Qed.
Lemma op_since s0 d tr c s : since s0 d tr s ->
  returns (op c) (fun r s' => r = (lens_op c (af_hw s)).1 /\ now s <= now s' /\ exists es, since s0 (noted es d) (tr ++ OSent c r :: map OCame es) s') s.
Proof.
  intros Hs. pose proof (op_law c (af_hw s)) as Ho. unfold op, raw_op, ahw, observe. rstep. destruct (lens_op c (af_hw s)) as [r w'] eqn:E. rstep.
  pose proof (since_obs _ _ _ (OSent c r) _ (since_hw _ _ _ w' _ Hs Ho) eq_refl) as H1. set (s1 := set_af_trace _ _) in H1 |- *.
  rcall (meanwhile_since _ _ _ _ H1). intros _ s' [Hn (es & Hs')]. rstep. split_and!; [done| |exists es; by rewrite <-app_assoc in Hs'].
  subst s1. unfold now in *. cbn in *. lia.
Qed.
Lemma state_since s0 d tr s : since s0 d tr s ->
  returns state_get (fun r s' => r = (lens_state (af_hw s)).1 /\ now s <= now s' /\ exists es, since s0 (noted es d) (tr ++ ORead r.1 r.2 :: map OCame es) s') s.
Proof.
  intros Hs. pose proof (state_law (af_hw s)) as Ho. unfold state_get, ahw, observe. rstep. destruct (lens_state (af_hw s)) as [r w'] eqn:E. rstep.
  pose proof (since_obs _ _ _ (ORead r.1 r.2) _ (since_hw _ _ _ w' _ Hs Ho) eq_refl) as H1. set (s1 := set_af_trace _ _) in H1 |- *.
  rcall (meanwhile_since _ _ _ _ H1). intros _ s' [Hn (es & Hs')]. rstep. split_and!; [done| |exists es; by rewrite <-app_assoc in Hs'].
  subst s1. unfold now in *. cbn in *. lia.
Qed.
(** An update of the device that keeps the callback. *)
Lemma on_dev_since s0 d tr f s : since s0 d tr s -> user_cb (f d) = user_cb d ->
  returns (on_dev f) (fun _ s' => now s' = now s /\ since s0 (f d) tr s') s.
Proof.
  intros (Hd & Hc & Hl & Ht) Hu. unfold on_dev, the_dev. rstep. rewrite Hd. rstep. split; [done|]. unfold since. cbn. rewrite Hu. done.
Qed.
Lemma the_dev_eq (s : af) d : af_dev s = Some d -> the_dev s = Ret d s.
Proof. intros E. unfold the_dev, mbind, M_bind, gets. by rewrite E. Qed.

(** The clock: the time it shows, or a failure. *)
Lemma clock_since s0 d tr s : since s0 d tr s ->
  returns read_clock (fun t s' => now s <= now s' /\ match t with
    | Some ts => since s0 d tr s' /\ 0 <= tv_nsec ts < 1000000000 /\ now s <= ns ts <= now s'
    | None => since s0 d (tr ++ [OFault]) s'
    end) s.
Proof.
  intros Hs. unfold read_clock, ahw, observe. rstep. destruct (clock_gettime (af_hw s)) as [t w'] eqn:E. destruct (clock_law _ _ _ E) as [Hm Hv]. rstep.
  pose proof (since_hw _ _ _ w' _ Hs Hm) as H1. destruct t as [ts|]; apply returns_bind; rstep; (split; [exact Hm|]).
  - split; [exact H1|]. apply Hv. done.
  - apply (since_obs _ _ _ OFault _ H1 eq_refl).
Qed.
(** A wait on the condition variable. *)
Lemma cond_since abstime s0 d tr s : since s0 d tr s ->
  returns (cond_wait abstime) (fun rc s' => now s <= now s' /\ (rc = 0 -> now s < ns abstime) /\ (rc = ETIMEDOUT -> ns abstime <= now s') /\ (rc <> ETIMEDOUT -> now s < now s') /\
    exists tr', Forall calm_obs tr' /\ since s0 (noted (came tr') d) (tr ++ tr') s' /\ existsb is_fault tr' = negb ((rc =? 0) || (rc =? ETIMEDOUT))) s.
Proof.
  intros Hs. unfold cond_wait, ahw, observe. rstep. destruct (cond_timedwait abstime (af_hw s)) as [rc w'] eqn:E. destruct (wait_law _ _ _ _ E) as (Hm & H0 & Ht & Hn). rstep.
  pose proof (since_hw _ _ _ w' _ Hs Hm) as H1. change (now_ns (af_hw s)) with (now s) in *.
  set (fl := if (rc =? 0) || (rc =? ETIMEDOUT) then [] else [OFault]).
  assert (H2 : returns (if (rc =? 0) || (rc =? ETIMEDOUT) then mret tt else modify (fun s0 : af => set_af_trace (af_trace s0 ++ [OFault]) s0)) (fun _ s2 => now s2 = now_ns w' /\ since s0 d (tr ++ fl) s2) (set_af_hw w' s)).
  { unfold fl. destruct (_ || _); rstep; (split; [done|]); [by rewrite app_nil_r|apply (since_obs _ _ _ OFault _ H1 eq_refl)]. }
  rcall H2. intros _ s2 [E2 Hs2]. rcall (meanwhile_since _ _ _ _ Hs2). intros _ s3 (Hn3 & es & Hs3). rstep. rewrite E2 in Hn3.
  split_and!; [lia|done|intros Hr; specialize (Ht Hr); lia|intros Hr; specialize (Hn Hr); lia|]. exists (fl ++ map OCame es).
  assert (came fl = []) as Ef by (unfold fl; by destruct (_ || _)). rewrite came_app, came_map, Ef, app_assoc. split_and!; [|done|].
  - apply Forall_app. split; [|apply calm_map]. unfold fl. destruct (_ || _); by repeat constructor.
  - rewrite existsb_app, no_fault_map, orb_false_r. unfold fl. by destruct (_ || _).
Qed.

Lemma ns_add t ms : 0 <= tv_nsec t < 1000000000 -> ns (timespec_add_ms t ms) = ns t + ms * 1000000.
Proof. intros H. unfold ns, timespec_add_ms. cbn. lia. Qed.

(** The loop: no fuel is missed when there is one unit for every nanosecond left. *)
Lemma finish_loop_since fuel : forall abstime s0 d tr s, since s0 d tr s -> ns abstime - now s + 1 < Z.of_nat fuel -> (0 < fuel)%nat ->
  returns (finish_loop fuel abstime) (fun r s' => now s <= now s' /\ exists tr' d', Forall calm_obs tr' /\ since s0 d' (tr ++ tr') s' /\
    match r with
    | Some e => e = HAL_ERROR /\ existsb is_fault tr' = true /\ d' = arm 0 (noted (came tr') d)
    | None => existsb is_fault tr' = false /\ d' = noted (came tr') d /\ (all_seen d' = false -> wait_result d' = 0 -> closing d = false -> ns abstime <= now s')
    end) s.
Proof.
  induction fuel as [|fuel IH]; intros abstime s0 d tr s Hs Hf Hp; [lia|]. cbn [finish_loop].
  rrun (the_dev_eq s d (proj1 Hs)). destruct (_ && negb (closing d)) eqn:Ec.
  - rcall (cond_since abstime _ _ _ _ Hs). intros rc s1 (Hn1 & H0 & Ht & Hw & tr1 & Hc1 & Hs1 & Hf1). destruct (Z.eqb_spec rc ETIMEDOUT) as [->|Hne].
    + rstep. split; [done|]. exists tr1, (noted (came tr1) d). split_and!; auto.
    + destruct (Z.eqb_spec rc 0) as [->|Hz]; cbn [negb].
      * specialize (H0 eq_refl). specialize (Hw Hne). eapply returns_mono; [apply (IH _ _ _ _ _ Hs1); lia|]. cbn beta.
        intros r s2 (Hn2 & tr2 & d2 & Hc2 & Hs2 & Hr). split; [lia|]. exists (tr1 ++ tr2), d2. rewrite came_app, noted_app, existsb_app, app_assoc. cbn in Hf1. rewrite Hf1.
        split_and!; [by apply Forall_app|done|]. destruct r as [e|]; [done|]. destruct Hr as (Hr1 & Hr2 & Hr3). split_and!; try done. intros Ha Hb Hcl. apply Hr3; try done.
        by destruct (noted_frame (came tr1) d) as (_ & _ & -> & _ & _).
      * unfold lens_abort_wait. rcall (on_dev_since _ _ _ (arm 0) _ Hs1 eq_refl). intros _ s2 [Hn2 Hs2]. rstep. split; [lia|]. exists tr1, (arm 0 (noted (came tr1) d)). split_and!; done.
  - rstep. split; [lia|]. exists [], d. rewrite app_nil_r. split_and!; try done. intros Ha Hr Hc. rewrite Ha, Hr, Hc in Ec. done.
Qed.

(** One unit of fuel for every nanosecond of a timeout. *)
Definition enough (timeout_ms : Z) (fuel : nat) : Prop := 0 <= timeout_ms /\ timeout_ms * 1000000 + 1 < Z.of_nat fuel.

Lemma finish_wait_since fuel timeout_ms s0 mask d0 tr0 tr s : enough timeout_ms fuel -> mask <> 0 -> closing d0 = false ->
  Forall calm_obs tr -> existsb is_fault tr = false -> since s0 (noted (came tr) (arm mask d0)) (tr0 ++ tr) s ->
  returns (lens_finish_wait fuel timeout_ms) (fun r s' => exists tr', Forall calm_obs tr' /\ since s0 (arm 0 d0) (tr0 ++ tr ++ tr') s' /\
    r.1 = outcome_of mask (tr ++ tr') /\ (r.1 = HAL_ERR_TIMEOUT -> now s + timeout_ms * 1000000 <= now s')) s.
Proof.
  intros [Ht0 Hf] Hm Hc0 Hct Hft Hs. unfold lens_finish_wait. set (d := noted (came tr) (arm mask d0)) in *.
  assert (Hc : closing d = false) by (subst d; by destruct (noted_frame (came tr) (arm mask d0)) as (_ & _ & -> & _)).
  rcall (clock_since _ _ _ _ Hs). intros t s1 [Hn1 Ht]. destruct t as [t|].
  2:{ unfold lens_abort_wait. rcall (on_dev_since _ _ _ (arm 0) _ Ht eq_refl). intros _ s2 [_ Hs2]. rstep. exists [OFault]. subst d. rewrite arm_noted, arm_arm, <-app_assoc in Hs2.
      split_and!; [by repeat constructor|done| |done]. unfold outcome_of. by rewrite existsb_app, orb_true_r. }
  destruct Ht as (Hs1 & Hns & Hle). apply returns_bind. eapply returns_mono; [apply (finish_loop_since fuel _ _ _ _ _ Hs1); rewrite ?ns_add by done; lia|]. cbn beta.
  intros r s2 (Hn2 & tr1 & d2 & Hc1 & Hs2 & Hr). rewrite <-app_assoc in Hs2. destruct r as [e|].
  { destruct Hr as (-> & Hfl & ->). rstep. exists tr1. subst d. rewrite <-noted_app, arm_noted, arm_arm in Hs2. split_and!; [done|done| |done].
    unfold outcome_of. by rewrite existsb_app, Hfl, orb_true_r. }
  destruct Hr as (Hfl & Ed & Hx). rewrite ns_add in Hx by done. rrun (the_dev_eq s2 _ (proj1 Hs2)).
  assert (Ed2 : d2 = noted (came (tr ++ tr1)) (arm mask d0)) by (subst d; by rewrite came_app, noted_app).
  assert (Hc2 : closing d2 = false) by (rewrite Ed2; by destruct (noted_frame (came (tr ++ tr1)) (arm mask d0)) as (_ & _ & -> & _)).
  unfold lens_abort_wait. rcall (on_dev_since _ _ _ (arm 0) _ Hs2 eq_refl). intros _ s3 [Hn3 Hs3]. rewrite Hc2.
  assert (Ea : arm 0 d2 = arm 0 d0) by (rewrite Ed2; by rewrite arm_noted, arm_arm). rewrite Ea in Hs3.
  assert (Eo : outcome_of mask (tr ++ tr1) = wait_spec mask (came (tr ++ tr1))) by (unfold outcome_of; by rewrite existsb_app, Hft, Hfl).
  pose proof (verdict (came (tr ++ tr1)) mask d0 Hm) as Hv. cbn zeta in Hv. rewrite <-Ed2, <-Eo in Hv.
  assert (Em : wait_mask d2 = mask) by (rewrite Ed2; by destruct (noted_frame (came (tr ++ tr1)) (arm mask d0)) as (_ & _ & _ & -> & _)). clear Ed Ed2.
  destruct (wait_result d2 =? 0) eqn:Er; cbn [negb] in *; rstep; exists tr1; (split; [done|]); (split; [done|]); (split; [exact Hv|]); cbn [fst]; [|done].
  destruct (negb (wait_mask d2 =? 0) && all_seen d2) eqn:Es; [done|]. intros _. apply Z.eqb_eq in Er.
  rewrite Em, (proj2 (Z.eqb_neq _ _) Hm) in Es. cbn [negb andb] in Es. specialize (Hx Es Er Hc). lia.
Qed.

(** A command that got the status [st], and the wait for what it causes: [tr] is what
    happened from the command to the end of the call, [r] what the call returns, [t0] and
    [t1] are the times of its beginning and its end. *)
Definition command_outcome (mask timeout_ms st r : Z) (tr : list lens_obs) (t0 t1 : Z) : Prop :=
  Forall calm_obs tr /\ r = (if st =? HAL_OK then outcome_of mask tr else st) /\
  (st = HAL_OK -> r = HAL_ERR_TIMEOUT -> t0 + timeout_ms * 1000000 <= t1).
Definition waited (fuel : nat) (timeout_ms : Z) : M af Z := '(r, _) ← lens_finish_wait fuel timeout_ms; mret r.
Lemma command_and_wait fuel mask c timeout_ms k s0 d tr s : enough timeout_ms fuel -> mask <> 0 -> closing d = false -> since s0 d tr s ->
  (forall es' s', af_dev s' = Some (noted es' (arm mask d)) -> k s' = waited fuel timeout_ms s') ->
  returns (lens_prepare_wait mask;; r ← op c; if negb (r =? HAL_OK) then lens_abort_wait;; mret r else k)
    (fun r s' => exists st tr', since s0 (arm 0 d) (tr ++ OSent c st :: tr') s' /\ command_outcome mask timeout_ms st r tr' (now s) (now s')) s.
Proof.
  intros Hf Hm Hc Hs Hk. unfold lens_prepare_wait. apply returns_bind. unfold on_dev. rrun (the_dev_eq s d (proj1 Hs)). rstep.
  set (s1 := set_af_dev _ s). assert (Hs1 : since s0 (arm mask d) tr s1) by (destruct Hs as (?&?&?&?); by split_and!).
  rcall (op_since _ _ _ c _ Hs1). intros st s2 (_ & Hn & es1 & Hs2). change (now s1) with (now s) in *. destruct (Z.eqb_spec st HAL_OK) as [->|Hst]; cbn [negb].
  - eapply returns_eq; [apply (Hk es1 s2), Hs2|]. apply returns_bind. eapply returns_mono.
    { apply (finish_wait_since fuel timeout_ms s0 mask d (tr ++ [OSent c HAL_OK]) (map OCame es1) s2 Hf Hm Hc (calm_map es1) (no_fault_map es1)).
      by rewrite came_map, <-app_assoc. }
    cbn beta. intros [r ro] s3 (tr2 & Hc2 & Hs3 & Hr & Ht). rstep. exists HAL_OK, (map OCame es1 ++ tr2). rewrite <-app_assoc in Hs3. split; [done|].
    split_and!; [apply Forall_app; split; [apply calm_map|done]|done|]. intros _ H. specialize (Ht H). lia.
  - unfold lens_abort_wait. rcall (on_dev_since _ _ _ (arm 0) _ Hs2 eq_refl). intros _ s3 [_ Hs3]. rstep. exists st, (map OCame es1). rewrite arm_noted, arm_arm in Hs3.
    split; [done|]. unfold command_outcome. rewrite (proj2 (Z.eqb_neq _ _) Hst). split_and!; [apply calm_map|done|done].
Qed.

Lemma guarded_ready (s : af) d k : af_dev s = Some d -> bootstrapped d = true -> guarded k s = k s.
Proof. intros Hd Hb. unfold guarded, ensure_bootstrapped, mbind, M_bind, gets, mret, M_ret. by rewrite Hd, Hb. Qed.

(** On a device that is ready and not being closed, a synchronous move returns within
    one unit of fuel per nanosecond of its timeout.  It sends its command once; if the
    controller refuses the command, its status is returned.  Otherwise the status is
    decided by what happens from then on to the end of the call: an error if the clock or
    the wait fails or an event waited for reports a failure, success if together the
    events report everything waited for, in any order and any grouping, a timeout else,
    and then only after the time is over.  The wait is disarmed in all cases, and every
    event is passed on to the callback. *)
Theorem lens_move_outcome fuel mask c (s : af) d : af_dev s = Some d -> bootstrapped d = true -> closing d = false ->
  mask <> 0 -> enough (op_timeout_ms (af_params d)) fuel ->
  returns (run_with_optional_wait fuel mask c) (fun r (s' : af) => exists st tr,
    af_dev s' = Some (arm 0 d) /\ af_trace s' = af_trace s ++ OSent c st :: tr /\ af_calls s' = af_calls s ++ told (user_cb d) (came tr) /\
    command_outcome mask (op_timeout_ms (af_params d)) st r tr (now s) (now s')) s.
Proof.
  intros Hd Hb Hc Hm Hf. unfold run_with_optional_wait. eapply returns_eq; [by apply (guarded_ready s d)|].
  eapply returns_mono; [apply (command_and_wait fuel mask c _ _ s d [] s Hf Hm Hc (since_refl s d Hd))|].
  - intros es' s' Hd'. rewrite (bind_ret_eq _ _ _ _ _ (the_dev_eq s' _ Hd')). by destruct (noted_frame es' (arm mask d)) as (-> & _).
  - cbn beta. intros r s' (st & tr & (H1 & H2 & H3 & _) & Hr). by exists st, tr.
Qed.

(** ** Moves to positions *)
Lemma zf_run_since fuel p timeout_ms s0 d tr s : enough timeout_ms fuel -> closing d = false -> bootstrapped d = true -> since s0 d tr s ->
  sync_mask p <> 0 ->
  returns (lens_zf_sync_run_wait fuel (Some p) timeout_ms)
    (fun r s' => exists st tr', since s0 (arm 0 d) (tr ++ OSent (ZfSyncRun p) st :: tr') s' /\
      command_outcome (sync_mask p) timeout_ms st r tr' (now s) (now s')) s.
Proof.
  intros Hf Hc Hb Hs Hm. unfold lens_zf_sync_run_wait. eapply returns_eq; [by apply (guarded_ready s d), Hb; apply Hs|].
  replace ((zm_micro_steps p =? 0) && (fs_micro_steps p =? 0)) with false.
  - by apply (command_and_wait fuel (sync_mask p) _ timeout_ms _ s0 d).
  - unfold sync_mask in Hm. destruct (zm_micro_steps p =? 0), (fs_micro_steps p =? 0); done.
Qed.

(** The move to absolute targets: each axis asked for goes to its target, cut to the
    limits of the device, and the other one stays. *)
Definition axis_steps (l : HalLensLimit) (pos : Z) (m : option HalLensMotion) : Z :=
  match m with Some m => clamp_i32 (lm_value m) (min_pos l) (max_pos l) - pos | None => 0 end.
Definition sync_plan (p : HalLensAf0832Params) (st : HalLensState) (zoom focus : option HalLensMotion) : HalLensZfSync :=
  mkZf (default 0 (lm_pps <$> zoom)) (axis_steps (zoom_limit p) (hs_zoom_pos st) zoom) (default 0 (lm_pps <$> focus)) (axis_steps (focus_limit p) (hs_focus_pos st) focus).
Definition near (x : Z) : Prop := -1073741824 <= x <= 1073741823.
Definition near_limit (l : HalLensLimit) : Prop := near (min_pos l) /\ near (max_pos l).

Lemma clamp_near l v : near_limit l -> near (clamp_i32 v (min_pos l) (max_pos l)).
Proof. unfold near_limit, near, clamp_i32. intros. repeat cif; cbool; lia. Qed.
Lemma axis_diff32 l pos m (s : af) : near_limit l -> near pos ->
  (match m with Some m => diff32 (clamp_i32 (lm_value m) (min_pos l) (max_pos l)) pos | None => mret 0 end : M af Z) s = Ret (axis_steps l pos m) s.
Proof.
  intros Hl Hp. destruct m as [m|]; [|done]. pose proof (clamp_near l (lm_value m) Hl) as Hc. unfold near, axis_steps, diff32 in *.
  by rewrite !(proj2 (Z.leb_le _ _)) by lia.
Qed.
Lemma sync_mask_zero p : sync_mask p = 0 <-> zm_micro_steps p = 0 /\ fs_micro_steps p = 0.
Proof. unfold sync_mask. repeat cif; cbool; cbn; split; try done; lia. Qed.

(** What a move that starts with a query for the state leaves behind, when the query was
    answered with [st] and the move is [p]: the trace of the whole call, in order, is the
    query, some events, and if there is something to move the command and what happened
    from then to the end of the call, which decides the result. *)
Definition moved (s : af) (d : HalLensAf0832) (st : HalLensState) (p : HalLensZfSync) (timeout_ms r : Z) (s' : af) : Prop :=
  exists es rest, af_trace s' = af_trace s ++ ORead HAL_OK st :: map OCame es ++ rest /\
    af_calls s' = af_calls s ++ told (user_cb d) (es ++ came rest) /\
    if sync_mask p =? 0 then rest = [] /\ r = HAL_OK
    else af_dev s' = Some (arm 0 d) /\ exists status tr, rest = OSent (ZfSyncRun p) status :: tr /\
      command_outcome (sync_mask p) timeout_ms status r tr (now s) (now s').

Lemma moved_still s d st p tm es s1 : since s (noted es d) (ORead HAL_OK st :: map OCame es) s1 -> sync_mask p = 0 -> moved s d st p tm HAL_OK s1.
Proof.
  intros (H1 & H2 & H3 & _) Em. exists es, []. destruct (noted_frame es d) as (_ & _ & _ & _ & Eu).
  change (came (ORead HAL_OK st :: map OCame es)) with (came (map OCame es)) in H3. rewrite came_map, Eu in H3. rewrite Em, !app_nil_r. by split_and!.
Qed.
(** From the query on. *)
Lemma moved_run fuel p tm s d st es s1 : enough tm fuel -> bootstrapped d = true -> closing d = false -> sync_mask p <> 0 -> now s <= now s1 ->
  since s (noted es d) (ORead HAL_OK st :: map OCame es) s1 -> returns (lens_zf_sync_run_wait fuel (Some p) tm) (fun r s' => moved s d st p tm r s') s1.
Proof.
  intros Hf Hb Hc Hm Hn Hs. destruct (noted_frame es d) as (_ & Eb & Ecl & _ & _).
  eapply returns_mono; [apply (zf_run_since fuel p tm s (noted es d) (ORead HAL_OK st :: map OCame es) s1 Hf); rewrite ?Ecl, ?Eb; try done; exact Hs|]. cbn beta.
  intros r s2 (status & tr & (H1 & H2 & H3 & _) & Hr). rewrite arm_noted in *. exists es, (OSent (ZfSyncRun p) status :: tr). rewrite (proj2 (Z.eqb_neq _ _) Hm).
  change ((ORead HAL_OK st :: map OCame es) ++ OSent (ZfSyncRun p) status :: tr) with (ORead HAL_OK st :: (map OCame es ++ OSent (ZfSyncRun p) status :: tr)) in *.
  change (came (ORead HAL_OK st :: ?x)) with (came x) in H3. rewrite came_app, came_map in H3. split_and!; try done. exists status, tr. split; [done|]. destruct Hr as (R1 & R2 & R3). split_and!; try done. intros G1 G2. specialize (R3 G1 G2). lia.
Qed.

(** C11 [zf_sync_abs_outcome]: on a device that is ready, with positions and limits below 2^30 in size, moving
    both axes, or one, to absolute targets reads the positions once (the query succeeds
    here).  When every axis asked for is at its target nothing is sent.  Otherwise one command is sent, whose step counts take
    exactly these axes from where they are to their targets, cut to the soft limits,
    without overflow; the call waits for just the axes that move.  A command that is refused
    gives its own status; else what happens from the command to the end of the call
    decides what it returns: an error if the clock
    or the wait fails or one of these axes reports a failure, success if all of them
    report completion, and a timeout else, only once the time is over.  The clock may
    fail, but is not set back, and no other thread destroys the device. *)
Theorem zf_sync_abs_outcome fuel zoom focus timeout_ms (s : af) d st :
  af_dev s = Some d -> bootstrapped d = true -> closing d = false -> (lens_state (af_hw s)).1 = (HAL_OK, st) ->
  near (hs_zoom_pos st) -> near (hs_focus_pos st) -> near_limit (zoom_limit (af_params d)) -> near_limit (focus_limit (af_params d)) ->
  is_Some zoom \/ is_Some focus ->
  let tm := if 0 <? timeout_ms then timeout_ms else op_timeout_ms (af_params d) in
  let p := sync_plan (af_params d) st zoom focus in
  enough tm fuel ->
  returns (hal_lens_af0832_zf_sync_abs fuel zoom focus timeout_ms) (fun r s' => moved s d st p tm r s') s.
Proof.
  intros Hd Hb Hc Hst Hz Hfo Hlz Hlf Hn tm p Hf. unfold hal_lens_af0832_zf_sync_abs. eapply returns_eq; [by apply (guarded_ready s d)|].
  replace (negb (bool_decide (is_Some zoom)) && negb (bool_decide (is_Some focus))) with false
    by (destruct zoom, focus; try done; by destruct Hn as [[? ?]|[? ?]]).
  rcall (state_since s d [] s (since_refl s d Hd)). intros [r0 st0] s1 (E & Hn1 & es1 & Hs1). rewrite Hst in E. injection E as -> ->. cbn [Z.eqb HAL_OK negb].
  rrun (the_dev_eq s1 _ (proj1 Hs1)). destruct (noted_frame es1 d) as (-> & _).
  rrun (axis_diff32 (zoom_limit (af_params d)) (hs_zoom_pos st) zoom s1 Hlz Hz). rrun (axis_diff32 (focus_limit (af_params d)) (hs_focus_pos st) focus s1 Hlf Hfo).
  fold p. change (axis_steps (zoom_limit (af_params d)) _ _) with (zm_micro_steps p). change (axis_steps (focus_limit (af_params d)) _ _) with (fs_micro_steps p).
  destruct (Z.eqb_spec (sync_mask p) 0) as [E|E].
  - pose proof E as [-> ->]%sync_mask_zero. cbn [Z.eqb andb]. rstep. by apply (moved_still s d st p tm es1).
  - replace ((zm_micro_steps p =? 0) && (fs_micro_steps p =? 0)) with false.
    + by apply (moved_run fuel p tm s d st es1).
    + symmetry. apply not_true_iff_false. intros H. apply E, sync_mask_zero. cbool. lia.
Qed.
End Waits.
