(* ===== verification/HalLensBoot.v ===== *)
(** Homing and bootstrap of the lens device: the reset waits end, success means that the
    controller confirmed the reset, and the commands of the bootstrap go out in order. *)
From S2P Require Import Prelude Ms41908mReg FactoryFormat HalLensAf0832 HalLensWait.

Definition rz_cmd (zoom_not_focus : bool) : lens_cmd := if zoom_not_focus then ZoomRz else FocusRz.
Definition rz_mask (zoom_not_focus : bool) : Z := if zoom_not_focus then HAL_LENS_EVT_ZOOM_RESET_DONE else HAL_LENS_EVT_FOCUS_RESET_DONE.

Lemma rem_ms_pos e n : 0 < rem_ms e n -> ns n < ns e.
Proof.
  unfold rem_ms, ns. pose proof (Z.quot_rem' (tv_nsec e - tv_nsec n) 1000000) as Hq.
  pose proof (Z.rem_bound_abs (tv_nsec e - tv_nsec n) 1000000 ltac:(lia)). lia.
Qed.

Section Boot.
Context `{LL : LensLaws D}.
Notation af := (af_state D).

(** What confirms the reset of an axis: an event without a failure that says so, or an
    answer of the controller that reports it as done. *)
Definition confirms (z : bool) (o : lens_obs) : Prop :=
  match o with
  | OCame e => Z.land (evt_code e) (rz_mask z) <> 0 /\ evt_result e = 0
  | ORead r st => r = HAL_OK /\ rz_done z st = true
  | _ => False
  end.
Definition confirmed (z : bool) (tr : list lens_obs) : Prop := exists o, o ∈ tr /\ confirms z o.
(** The controller took the reset of an axis, and confirmed it afterwards, before any
    other command. *)
Definition reset_confirmed (z : bool) (tr : list lens_obs) : Prop :=
  exists a b c, tr = a ++ OSent (rz_cmd z) HAL_OK :: b ++ c /\ sent b = [] /\ confirmed z b.

(** The same device but for the fields of the wait. *)
Definition kin (d d' : HalLensAf0832) : Prop :=
  af_params d' = af_params d /\ bootstrapped d' = bootstrapped d /\ closing d' = closing d /\ user_cb d' = user_cb d.
Lemma kin_noted d d' es : kin d d' -> kin d (noted es d').
Proof. unfold kin. destruct (noted_frame es d') as (-> & -> & -> & _ & ->). done. Qed.
Lemma kin_arm d d' m : kin d d' -> kin d (arm m d').
Proof. done. Qed.
Lemma kin_trans d d1 d2 : kin d d1 -> kin d1 d2 -> kin d d2.
Proof. unfold kin. intros (-> & -> & -> & ->). done. Qed.

Lemma confirmed_app z a b : confirmed z a \/ confirmed z b -> confirmed z (a ++ b).
Proof. intros [(o & Ho & Hc)|(o & Ho & Hc)]; exists o; (split; [|done]); apply elem_of_app; auto. Qed.
Lemma came_confirmed z tr : (exists e, e ∈ came tr /\ Z.land (evt_code e) (rz_mask z) <> 0 /\ evt_result e = 0) -> confirmed z tr.
Proof. intros (e & He & Hc). apply list_elem_of_omap in He as (o & Ho & Eo). exists o. split; [done|]. destruct o; try done. by injection Eo as ->. Qed.

Lemma all_codes_bit es m : Z.land m (all_codes es) <> 0 -> exists e, e ∈ es /\ Z.land (evt_code e) m <> 0.
Proof.
  induction es as [|e es IH]; intros H; [cbn in H; by rewrite Z.land_0_r in H|].
  change (all_codes (e :: es)) with (Z.lor (evt_code e) (all_codes es)) in H. rewrite Z.land_lor_distr_r in H.
  destruct (Z.eqb_spec (Z.land (evt_code e) m) 0) as [E|E]; [|exists e; split; [left|done]].
  rewrite Z.land_comm, E, Z.lor_0_l in H. destruct (IH H) as (e' & ? & ?). exists e'. split; [by right|done].
Qed.
Lemma wait_spec_ok m es : m <> 0 -> wait_spec m es = HAL_OK -> exists e, e ∈ es /\ Z.land (evt_code e) m <> 0 /\ evt_result e = 0.
Proof.
  intros Hm. unfold wait_spec. destruct (existsb _ _) eqn:Ef; [done|]. destruct (Z.eqb_spec (Z.land m (all_codes es)) m) as [E|]; [|done]. intros _.
  destruct (all_codes_bit es m) as (e & He & Hc); [congruence|]. exists e. split_and!; try done.
  destruct (Z.eqb_spec (evt_result e) 0) as [|Hr]; [done|]. exfalso.
  assert (existsb (fails m) es = true); [|congruence]. apply existsb_exists. exists e. split; [by apply list_elem_of_In|].
  unfold fails. by rewrite (proj2 (Z.eqb_neq _ _) Hc), (proj2 (Z.eqb_neq _ _) Hr).
Qed.

Lemma abort_since s0 d0 m es tr s : since s0 (noted es (arm m d0)) tr s ->
  returns lens_abort_wait (fun _ s' => now s' = now s /\ since s0 (arm 0 d0) tr s') s.
Proof.
  intros Hs. eapply returns_mono; [apply (on_dev_since _ _ _ (arm 0) _ Hs eq_refl)|]. cbn beta. intros _ s' H. by rewrite arm_noted, arm_arm in H.
Qed.

(** [seg] is the trace since the wait was armed. *)
Lemma reported_since z s0 d0 m tr seg s : since s0 (noted (came seg) (arm m d0)) (tr ++ seg) s ->
  returns (reset_reported z) (fun ok s' => now s <= now s' /\ exists seg', sent seg' = [] /\
    since s0 (if ok : bool then arm 0 d0 else noted (came (seg ++ seg')) (arm m d0)) (tr ++ seg ++ seg') s' /\ (ok = true -> confirmed z seg')) s.
Proof.
  intros Hs. unfold reset_reported. rcall (state_since _ _ _ _ Hs). intros [r st] s1 (E & Hn & es1 & Hs1). rewrite <-noted_app, <-app_assoc in Hs1.
  set (seg' := ORead r st :: map OCame es1). assert (Es : sent seg' = []) by (apply (sent_calm (map OCame es1)), calm_map).
  assert (Ec : came (seg ++ seg') = came seg ++ es1) by (rewrite came_app; f_equal; apply came_map).
  destruct ((r =? HAL_OK) && rz_done z st) eqn:Eb.
  - rcall (abort_since _ _ _ _ _ _ Hs1). intros _ s2 [En Hs2]. rstep. split; [lia|]. exists seg'. split_and!; [done|done|]. intros _.
    apply andb_true_iff in Eb as [Er Ez]. apply Z.eqb_eq in Er as ->. exists (ORead HAL_OK st). by split; [left|].
  - rstep. split; [lia|]. exists seg'. rewrite Ec. by split_and!.
Qed.

(** After the wait: the device but for the fields of the wait, nothing sent, and success
    only with a confirmation. *)
Definition reset_waited (z : bool) (s0 : af) (d0 : HalLensAf0832) (tr seg : list lens_obs) (r : Z) (s' : af) : Prop :=
  exists seg' d', sent seg' = [] /\ kin d0 d' /\ since s0 d' (tr ++ seg ++ seg') s' /\ (r = HAL_OK -> confirmed z (seg ++ seg')).

Lemma reset_waited_more z s0 d0 tr seg seg1 r s' : sent seg1 = [] -> reset_waited z s0 d0 tr (seg ++ seg1) r s' -> reset_waited z s0 d0 tr seg r s'.
Proof.
  intros H1 (seg2 & d' & H2 & Hk & Hs & Hr). exists (seg1 ++ seg2), d'. rewrite sent_app, H1, H2. rewrite <-app_assoc in *. done.
Qed.

Lemma reset_loop_since z fuel : forall end_ts s0 d0 tr seg s, since s0 (noted (came seg) (arm (rz_mask z) d0)) (tr ++ seg) s -> closing d0 = false ->
  ns end_ts - now s + 1 < Z.of_nat fuel -> (0 < fuel)%nat -> returns (reset_loop fuel z end_ts) (reset_waited z s0 d0 tr seg) s.
Proof.
  induction fuel as [|fuel IH]; intros end_ts s0 d0 tr seg s Hs Hc Hf Hp; [lia|]. cbn [reset_loop].
  set (d := noted (came seg) (arm (rz_mask z) d0)) in *. assert (Hk : kin d0 d) by (apply kin_noted; done).
  rcall (clock_since _ _ _ _ Hs). intros [t|] s1 [Hn1 Ht].
  2:{ rstep. exists [OFault], d. split_and!; [done|done|by rewrite app_assoc|done]. }
  destruct Ht as (Hs1 & Hns & Hle). destruct (Z.leb_spec (rem_ms end_ts t) 0) as [Hr|Hr].
  - rcall (abort_since _ _ _ _ _ _ Hs1). intros _ s2 [_ Hs2]. rstep. exists [], (arm 0 d0). rewrite app_nil_r. by split_and!.
  - pose proof (rem_ms_pos _ _ Hr) as Hlt. rrun (the_dev_eq s1 _ (proj1 Hs1)). pose proof Hk as (_ & _ & Ecl & _). rewrite Ecl, Hc. destruct (_ || _) eqn:Ed.
    + rcall (abort_since _ _ _ _ _ _ Hs1). intros _ s2 [_ Hs2]. rstep. exists [], (arm 0 d0). rewrite !app_nil_r. split_and!; try done.
      intros E. apply came_confirmed, wait_spec_ok; [by destruct z|]. rewrite <-(verdict (came seg) (rz_mask z) d0) by (by destruct z). cbn zeta. fold d.
      destruct (wait_result d =? 0); [|done]. cbn [negb]. rewrite orb_false_r in Ed. by rewrite Ed.
    + assert (Hst : 0 < if rem_ms end_ts t <? 200 then u32 (rem_ms end_ts t) else 200) by (cif; cbool; rewrite ?u32_small; lia).
      rcall (cond_since (timespec_add_ms t (if rem_ms end_ts t <? 200 then u32 (rem_ms end_ts t) else 200)) _ _ _ _ Hs1). intros rc s2 (Hn2 & _ & Hto & Hw & tr1 & Hc1 & Hs2 & _).
      assert (Hn3 : now s < now s2) by (rewrite ns_add in Hto by done; destruct (Z.eqb_spec rc ETIMEDOUT) as [E|E]; [specialize (Hto E)|specialize (Hw E)]; lia).
      unfold d in Hs2. rewrite <-noted_app, <-came_app, <-app_assoc in Hs2. pose proof (sent_calm _ Hc1) as Es1.
      rrun (the_dev_eq s2 _ (proj1 Hs2)). rcall (reported_since z _ _ _ _ _ _ Hs2). intros ok s4 (Hn4 & seg2 & Es2 & Hs4 & Hok). destruct ok.
      * rstep. exists (tr1 ++ seg2), (arm 0 d0). rewrite sent_app, Es1, Es2. rewrite <-!app_assoc in *. split_and!; try done. intros _. apply confirmed_app. right. apply confirmed_app. auto.
      * eapply returns_mono; [apply (IH end_ts s0 d0 tr ((seg ++ tr1) ++ seg2)); first [done|lia]|]. cbn beta. intros r s5 H5. apply (reset_waited_more _ _ _ _ _ (tr1 ++ seg2)); [by rewrite sent_app, Es1, Es2|].
        by rewrite <-app_assoc in H5.
Qed.

Lemma reset_wait_since z fuel timeout_ms s0 d0 tr seg s : enough timeout_ms fuel -> closing d0 = false ->
  since s0 (noted (came seg) (arm (rz_mask z) d0)) (tr ++ seg) s -> returns (lens_finish_reset_wait fuel z timeout_ms) (reset_waited z s0 d0 tr seg) s.
Proof.
  intros [Ht Hf] Hc Hs. unfold lens_finish_reset_wait. rcall (reported_since z _ _ _ _ _ _ Hs). intros ok s1 (Hn1 & seg1 & Es1 & Hs1 & Hok). destruct ok.
  - rstep. exists seg1, (arm 0 d0). split_and!; try done. intros _. apply confirmed_app. auto.
  - rewrite app_assoc in Hs1. rcall (clock_since _ _ _ _ Hs1). intros [t|] s2 [Hn2 Ht2].
    + destruct Ht2 as (Hs2 & Hns & Hle). eapply returns_mono; [apply (reset_loop_since z fuel _ s0 d0 tr (seg ++ seg1)); rewrite ?ns_add; first [done|lia|by rewrite app_assoc]|].
      cbn beta. intros r s3. by apply reset_waited_more.
    + rstep. exists (seg1 ++ [OFault]), (noted (came (seg ++ seg1)) (arm (rz_mask z) d0)). rewrite sent_app, Es1. split_and!; [done|by apply kin_noted|by rewrite !app_assoc|done].
Qed.

Lemma reset_axis_since z fuel s0 d tr s : enough (bootstrap_timeout_ms (af_params d)) fuel -> closing d = false -> since s0 d tr s ->
  returns (reset_axis fuel z) (fun r s' => exists d' tr', kin d d' /\ since s0 d' (tr ++ tr') s' /\ sent tr' = [rz_cmd z] /\ (r = HAL_OK -> reset_confirmed z tr')) s.
Proof.
  intros Hf Hc Hs. unfold reset_axis, lens_prepare_wait. fold (rz_mask z) (rz_cmd z). rcall (on_dev_since _ _ _ (arm (rz_mask z)) _ Hs eq_refl). intros _ s1 [_ Hs1].
  rcall (op_since _ _ _ (rz_cmd z) _ Hs1). intros r s2 (_ & _ & es1 & Hs2). destruct (Z.eqb_spec r HAL_OK) as [->|Hr]; cbn [negb].
  - rrun (the_dev_eq s2 _ (proj1 Hs2)). destruct (noted_frame es1 (arm (rz_mask z) d)) as (-> & _).
    eapply returns_mono; [apply (reset_wait_since z fuel _ s0 d (tr ++ [OSent (rz_cmd z) HAL_OK]) (map OCame es1) s2 Hf Hc); by rewrite came_map, <-app_assoc|]. cbn beta.
    intros r s3 (seg & d' & Es & Hk & Hs3 & Hr). exists d', (OSent (rz_cmd z) HAL_OK :: map OCame es1 ++ seg).
    assert (Eb : sent (map OCame es1 ++ seg) = []) by (by rewrite sent_app, Es, (sent_calm _ (calm_map es1))).
    rewrite <-app_assoc in Hs3. split_and!; [done|done|unfold sent; cbn; f_equal; exact Eb|]. intros E. exists [], (map OCame es1 ++ seg), []. rewrite app_nil_r. split_and!; try done. by apply Hr.
  - rcall (abort_since _ _ _ _ _ _ Hs2). intros _ s3 [_ Hs3]. rstep. exists (arm 0 d), (OSent (rz_cmd z) r :: map OCame es1). split_and!; try done.
    unfold sent. cbn. f_equal. apply (sent_calm _ (calm_map es1)).
Qed.

(** ** The bootstrap *)
(** The commands it sends when the controller answers the first query with [q]. *)
Definition boot_plan (p : HalLensAf0832Params) (q : Z * HalLensState) : list lens_cmd :=
  let '(need_init, need_zoom_rz, need_focus_rz) := bootstrap_needs q.1 q.2 in
  [Subscribe] ++ (if need_init then [LensInit] else []) ++
  [LensConfig HAL_LENS_MODE_ALL; IrisRun (mkMotion 0 0); ZoomLimitSet (zoom_limit p); FocusLimitSet (focus_limit p)] ++
  (if need_zoom_rz then [ZoomRz] else []) ++ (if need_focus_rz then [FocusRz] else []).

Section Steps.
Context (s0 : af) (d : HalLensAf0832) (Q : Z -> af -> Prop) (k : M af Z).
Lemma check_op c d1 tr s : since s0 d1 tr s -> kin d d1 ->
  (forall r es d2 s', r <> HAL_OK -> kin d d2 -> since s0 d2 (tr ++ OSent c r :: map OCame es) s' -> Q r s') ->
  (forall es d2 s', kin d d2 -> since s0 d2 (tr ++ OSent c HAL_OK :: map OCame es) s' -> returns k Q s') ->
  returns (check_ok (op c) k) Q s.
Proof.
  intros Hs Hk Hbad Hok. unfold check_ok. rcall (op_since _ _ _ c _ Hs). intros r s' (_ & _ & es' & Hs').
  destruct (Z.eqb_spec r HAL_OK) as [->|Hr]; cbn [negb].
  - by eapply Hok; [apply (kin_noted d d1 es')|].
  - rstep. by eapply Hbad; [|apply (kin_noted d d1 es')|].
Qed.
Lemma check_reset fuel z (need : bool) d1 tr s : since s0 d1 tr s -> kin d d1 -> closing d = false -> enough (bootstrap_timeout_ms (af_params d)) fuel ->
  (forall r tr' d2 s', r <> HAL_OK -> kin d d2 -> sent tr' = (if need then [rz_cmd z] else []) -> since s0 d2 (tr ++ tr') s' -> Q r s') ->
  (forall tr' d2 s', kin d d2 -> sent tr' = (if need then [rz_cmd z] else []) -> since s0 d2 (tr ++ tr') s' -> (need = true -> reset_confirmed z tr') -> returns k Q s') ->
  returns (check_ok (if need then reset_axis fuel z else mret HAL_OK) k) Q s.
Proof.
  intros Hs Hk Hc Hf Hbad Hok. unfold check_ok. destruct need.
  - pose proof Hk as (Ep & _ & Ec & _). rewrite <-Ep in Hf. rewrite <-Ec in Hc. rcall (reset_axis_since z fuel _ _ _ _ Hf Hc Hs). intros r s' (d2 & tr' & Hk2 & Hs' & Es & Hr).
    pose proof (kin_trans _ _ _ Hk Hk2) as Hk3. destruct (Z.eqb_spec r HAL_OK) as [->|Hn]; cbn [negb].
    + eapply Hok; [exact Hk3|done|exact Hs'|]. intros _. by apply Hr.
    + rstep. by eapply Hbad.
  - rstep. apply (Hok [] d1); [done|done|by rewrite app_nil_r|done].
Qed.
End Steps.

(** The first answer about the state of the controller. *)
Fixpoint first_read (tr : list lens_obs) : option (Z * HalLensState) :=
  match tr with [] => None | ORead r st :: _ => Some (r, st) | _ :: tr => first_read tr end.
Lemma first_read_app a b : first_read (a ++ b) = match first_read a with Some q => Some q | None => first_read b end.
Proof. induction a as [|o a IH]; [done|]. by destruct o. Qed.
Lemma first_read_map es : first_read (map OCame es) = None.
Proof. by induction es. Qed.
Lemma reset_confirmed_mid z a b c : reset_confirmed z b -> reset_confirmed z (a ++ b ++ c).
Proof. intros (x & y & w & -> & Hy & Hc). exists (a ++ x), y, (w ++ c). rewrite <-!app_assoc. cbn. by rewrite <-!app_assoc. Qed.

(** What the bootstrap leaves behind: [tr] is the trace of the whole call, and [q] the
    answer the controller gave to its first query. *)
Definition booted (s : af) (d : HalLensAf0832) (r : Z) (s' : af) : Prop :=
  exists d' tr q, af_dev s' = Some d' /\ bootstrapped d' = bootstrapped d || (r =? HAL_OK) /\
    af_trace s' = af_trace s ++ tr /\ af_calls s' = af_calls s ++ told (user_cb d) (came tr) /\
    (first_read tr = Some q \/ first_read tr = None) /\ sent tr `prefix_of` boot_plan (af_params d) q /\
    (r = HAL_OK -> first_read tr = Some q /\ sent tr = boot_plan (af_params d) q /\
      ((bootstrap_needs q.1 q.2).1.2 = true -> reset_confirmed true tr) /\ ((bootstrap_needs q.1 q.2).2 = true -> reset_confirmed false tr)).

Lemma booted_bad s d q r d' tr s' : r <> HAL_OK -> kin d d' -> since s d' tr s' -> first_read tr = Some q \/ first_read tr = None ->
  sent tr `prefix_of` boot_plan (af_params d) q -> booted s d r s'.
Proof.
  intros Hr (Ep & Eb & Ec & Eu) (Hd & Hc & Hl & _) Hq Hp. exists d', tr, q. rewrite <-Eu, Eb. split_and!; try done.
  by rewrite (proj2 (Z.eqb_neq _ _) Hr), orb_false_r.
Qed.
Lemma resets_booted fuel s d q d1 tr s1 : since s d1 tr s1 -> kin d d1 -> closing d = false -> enough (bootstrap_timeout_ms (af_params d)) fuel -> first_read tr = Some q ->
  let '(_, nz, nf) := bootstrap_needs q.1 q.2 in
  sent tr ++ (if nz then [ZoomRz] else []) ++ (if nf then [FocusRz] else []) = boot_plan (af_params d) q ->
  returns (bootstrap_resets fuel nz nf) (booted s d) s1.
Proof.
  intros Hs Hk Hc Hf Hq. destruct (bootstrap_needs q.1 q.2) as [[ni nz] nf] eqn:En. intros Hp. unfold bootstrap_resets.
  assert (Hfr : forall x, first_read (tr ++ x) = Some q) by (intros x; by rewrite first_read_app, Hq).
  eapply (check_reset s d _ _ fuel true nz d1 tr s1 Hs Hk Hc Hf).
  - intros r tr' d2 s' Hr Hk2 Es Hs2. eapply (booted_bad _ _ q); try done; [by left|]. rewrite <-Hp, sent_app, Es, app_assoc. by eexists.
  - intros tr' d2 s' Hk2 Es Hs2 Hz. eapply (check_reset s d _ _ fuel false nf d2 _ s' Hs2 Hk2 Hc Hf).
    + intros r tr2 d3 s3 Hr Hk3 Es3 Hs3. rewrite <-app_assoc in Hs3. eapply (booted_bad _ _ q); try done; [by left|]. rewrite <-Hp, !sent_app, Es, Es3. done.
    + intros tr2 d3 s3 Hk3 Es3 Hs3 Hfo. rcall (on_dev_since _ _ _ (set_bootstrapped true) _ Hs3 eq_refl). intros _ s4 (_ & Hd4 & Hc4 & Hl4 & _). rstep.
      destruct Hk3 as (_ & _ & _ & Eu). exists (set_bootstrapped true d3), (tr ++ tr' ++ tr2), q. cbn [user_cb set_bootstrapped] in Hl4. rewrite Eu in Hl4.
      assert (Ep : sent (tr ++ tr' ++ tr2) = boot_plan (af_params d) q) by (by rewrite <-Hp, !sent_app, Es, Es3). rewrite <-!app_assoc in Hc4, Hl4.
      rewrite En, Ep. split_and!; try done; [by rewrite orb_true_r|by left|]. intros _. split_and!; try done.
      * intros E. apply reset_confirmed_mid. auto.
      * intros E. rewrite <-(app_nil_r (tr' ++ tr2)), <-app_assoc, app_assoc. apply reset_confirmed_mid. auto.
Qed.

Lemma sent_op c r es tr : sent (tr ++ OSent c r :: map OCame es) = sent tr ++ [c].
Proof. rewrite sent_app. f_equal. unfold sent. cbn. f_equal. apply (sent_calm _ (calm_map es)). Qed.
Lemma first_op c r es tr : first_read (tr ++ OSent c r :: map OCame es) = first_read tr.
Proof. rewrite first_read_app. cbn. rewrite first_read_map. by destruct (first_read tr). Qed.

(** From the configuration of the controller on. *)
Lemma configure_booted fuel s d q d1 tr s1 : since s d1 tr s1 -> kin d d1 -> closing d = false -> enough (bootstrap_timeout_ms (af_params d)) fuel -> first_read tr = Some q ->
  let '(ni, nz, nf) := bootstrap_needs q.1 q.2 in
  sent tr = Subscribe :: (if ni then [LensInit] else []) ->
  returns (check_ok (op (LensConfig HAL_LENS_MODE_ALL))
             (op (IrisRun (mkMotion 0 0));;
              d ← the_dev;
              check_ok (op (ZoomLimitSet (zoom_limit (af_params d))))
                (d ← the_dev;
                 check_ok (op (FocusLimitSet (focus_limit (af_params d)))) (bootstrap_resets fuel nz nf)))) (booted s d) s1.
Proof.
  intros Hs Hk Hc Hf Hq. pose proof (fun d1 tr s1 H1 H2 => resets_booted fuel s d q d1 tr s1 H1 H2 Hc Hf) as Hre.
  destruct (bootstrap_needs q.1 q.2) as [[ni nz] nf] eqn:En. intros Ecs.
  assert (Hp : boot_plan (af_params d) q = sent tr ++ [LensConfig HAL_LENS_MODE_ALL; IrisRun (mkMotion 0 0); ZoomLimitSet (zoom_limit (af_params d)); FocusLimitSet (focus_limit (af_params d))] ++
    (if nz then [ZoomRz] else []) ++ (if nf then [FocusRz] else [])) by (unfold boot_plan; by rewrite En, Ecs).
  eapply (check_op s d _ _ _ d1 tr s1 Hs Hk).
  { intros r es' d2 s' Hr Hk2 Hs2. eapply (booted_bad _ _ q); try done; [left; by rewrite first_op|]. rewrite sent_op, Hp. eexists. rewrite <-app_assoc. reflexivity. }
  intros es2 d2 s2 Hk2 Hs2. rcall (op_since _ _ _ (IrisRun (mkMotion 0 0)) _ Hs2). intros r3 s3 (_ & _ & es3 & Hs3).
  rrun (the_dev_eq s3 _ (proj1 Hs3)). pose proof (kin_noted d d2 es3 Hk2) as Hk3. rewrite (proj1 Hk3).
  eapply (check_op s d _ _ _ _ _ s3 Hs3 Hk3).
  { intros r es' d4 s' Hr Hk4 Hs4. eapply (booted_bad _ _ q); try done; [left; by rewrite !first_op|]. rewrite !sent_op, Hp. eexists. rewrite <-!app_assoc. reflexivity. }
  intros es4 d4 s4 Hk4 Hs4. rrun (the_dev_eq s4 _ (proj1 Hs4)). rewrite (proj1 Hk4). eapply (check_op s d _ _ _ _ _ s4 Hs4 Hk4).
  { intros r es' d5 s' Hr Hk5 Hs5. eapply (booted_bad _ _ q); try done; [left; by rewrite !first_op|]. rewrite !sent_op, Hp. eexists. rewrite <-!app_assoc. reflexivity. }
  intros es5 d5 s5 Hk5 Hs5. apply (Hre _ _ _ Hs5 Hk5); [by rewrite !first_op|]. rewrite !sent_op, Hp, <-!app_assoc. done.
Qed.

(** C17 [lens_bootstrap_order]: the bootstrap of a device returns, with one unit of fuel for every nanosecond of
    its timeout, and always sends a beginning of one sequence of commands: subscribe,
    initialise if the controller's answer to the first query says that the motors are not
    configured or failed, configure, open the iris, set both limits, and only then the
    resets to zero which that answer asks for.  It reports success only if the whole
    sequence was sent and, for each reset, after the controller took the command and
    before the next one, an event or another answer of the controller confirmed it; the
    device becomes usable exactly then.  The clock may fail, but is not set back, and no
    other thread destroys the device. *)
Theorem lens_bootstrap_order fuel (s : af) d : af_dev s = Some d -> closing d = false -> enough (bootstrap_timeout_ms (af_params d)) fuel ->
  returns (hal_lens_af0832_bootstrap fuel) (booted s d) s.
Proof.
  intros Hd Hc Hf. unfold hal_lens_af0832_bootstrap. rstep. rewrite Hd. assert (Hk : kin d d) by done.
  eapply (check_op s d _ _ Subscribe d [] s (since_refl s d Hd) Hk).
  { intros r es' d2 s' Hr Hk2 Hs2. eapply (booted_bad _ _ (HAL_OK, mkLensState 0 0 0 false false 0 0)); try done; [right; apply (first_op _ _ _ [])|].
    rewrite (sent_op Subscribe r es' []). unfold boot_plan. destruct (bootstrap_needs _ _) as [[? ?] ?]. by eexists. }
  intros es1 d1 s1 Hk1 Hs1. rcall (state_since _ _ _ _ Hs1). intros [r st] s2 (_ & _ & es2 & Hs2). cbn [fst snd] in Hs2.
  set (tr := ([] ++ OSent Subscribe HAL_OK :: map OCame es1) ++ ORead r st :: map OCame es2) in *.
  assert (Hq : first_read tr = Some (r, st)) by (unfold tr; by rewrite first_read_app, first_op).
  assert (Es : sent tr = [Subscribe]).
  { unfold tr. rewrite sent_app, (sent_op Subscribe HAL_OK es1 []). change (sent (ORead r st :: map OCame es2)) with (sent (map OCame es2)). by rewrite (sent_calm _ (calm_map es2)). }
  pose proof (kin_noted d d1 es2 Hk1) as Hk2.
  pose proof (fun d1 tr s1 H1 H2 => configure_booted fuel s d (r, st) d1 tr s1 H1 H2 Hc Hf) as Hcf. cbn [fst snd] in Hcf.
  destruct (bootstrap_needs r st) as [[ni nz] nf] eqn:En. destruct ni.
  - eapply (check_op s d _ _ _ _ _ s2 Hs2 Hk2).
    { intros r3 es' d3 s' Hr Hk3 Hs3. eapply (booted_bad _ _ (r, st)); try done; [left; by rewrite first_op|]. rewrite sent_op, Es. unfold boot_plan. cbn [fst snd]. rewrite En. by eexists. }
    intros es3 d3 s3 Hk3 Hs3. apply (Hcf _ _ _ Hs3 Hk3); [by rewrite first_op|by rewrite sent_op, Es].
  - unfold check_ok at 1. rstep. by apply (Hcf _ _ _ Hs2 Hk2).
Qed.
End Boot.
