(* ===== verification/HalLensSim.v ===== *)
(** A lens controller that executes commands, as an instance of the operations and the
    laws of the lens device; runs of the device on it, and the theorems of the lens
    devices at concrete inputs. *)
From S2P Require Import Prelude Ms41908mReg FactoryFormat BspCtrl HalFloat HalLensFg2009 HalLensAf0832 HalLensWait HalLensBoot.

(** The time, the events (code and result) that will be sent, those on the wire, and the
    state. *)
Record sim : Type := mkSim { sim_now : Z; sim_pending : list (Z * Z); sim_wire : list (Z * Z); sim_state : HalLensState }.
Definition sim_op (c : lens_cmd) (d : sim) : Z * sim :=
  let st := sim_state d in
  let zr := hs_zoom_rz_done st in let fr := hs_focus_rz_done st in
  let done_ es st := (HAL_OK, mkSim (sim_now d + 1000000) (sim_pending d ++ es) (sim_wire d) st) in
  match c with
  | ZoomRz => done_ [(HAL_LENS_EVT_ZOOM_RESET_DONE, 0)] (mkLensState 1 1 1 true fr 0 (hs_focus_pos st))
  | FocusRz => done_ [(HAL_LENS_EVT_FOCUS_RESET_DONE, 0)] (mkLensState 1 1 1 zr true (hs_zoom_pos st) 0)
  | ZoomRun m => done_ [(HAL_LENS_EVT_ZOOM_COMPLETED, 0)] (mkLensState 1 1 1 zr fr (hs_zoom_pos st + lm_value m) (hs_focus_pos st))
  | ZfSyncRun p =>
      done_ [(HAL_LENS_EVT_FOCUS_COMPLETED, 0); (HAL_LENS_EVT_ZOOM_COMPLETED, 0)]
        (mkLensState 1 1 1 zr fr (hs_zoom_pos st + zm_micro_steps p) (hs_focus_pos st + fs_micro_steps p))
  | LensInit => done_ [] (mkLensState 1 1 1 false false 0 0)
  | _ => done_ [] st
  end.
(** A wait puts one event on the wire, or lasts as long as it may. *)
Definition sim_wait (t : timespec) (d : sim) : Z * sim :=
  match sim_pending d with
  | e :: es => if sim_now d <? ns t then (0, mkSim (sim_now d + 1000000) es [e] (sim_state d)) else (ETIMEDOUT, d)
  | [] => (ETIMEDOUT, mkSim (Z.max (sim_now d) (ns t)) [] (sim_wire d) (sim_state d))
  end.
#[export] Instance sim_ops : LensOps sim := {|
  lens_op := sim_op;
  lens_state d := (HAL_OK, sim_state d, d);
  lens_adc d := (HAL_OK, 0, d);
  lens_meanwhile d := (map (fun e => LensEvt e.1 e.2 0 0) (sim_wire d), mkSim (sim_now d) (sim_pending d) [] (sim_state d));
  clock_gettime d := (Some (mkTime (sim_now d / 1000000000) (sim_now d mod 1000000000)), d);
  cond_timedwait := sim_wait;
  calloc_ok d := (true, d)
|}.
#[export] Instance sim_laws : LensLaws sim.
Proof.
  refine {| now_ns := sim_now |}.
  - intros d t d' E. injection E as <- <-. split; [lia|]. intros ts [= <-]. unfold ns. cbn. lia.
  - intros t d rc d' E. cbn in E. unfold sim_wait, ETIMEDOUT in *. destruct (sim_pending d) as [|e es]; [injection E as <- <-; cbn; lia|].
    destruct (Z.ltb_spec (sim_now d) (ns t)); injection E as <- <-; cbn; lia.
  - intros c d. cbn. destruct c; cbn; lia.
  - intros d. cbn. lia.
  - intros d. cbn. split; [lia|]. apply Forall_map, Forall_true. done.
Defined.

(** ** Runs *)
Definition idle_device : HalLensAf0832 := mkAf hal_lens_af0832_params_init_defaults true false 0 0 0 (Some 7).
Definition parked : HalLensState := mkLensState 1 1 1 true true (-100) 20.
Definition ready_state : af_state sim := mkAfState (Some idle_device) (mkSim 5000000000 [] [] parked) [] [].

(** Both axes go to their targets, the focus one cut to its limit; its completion comes
    first, and both are awaited. *)
Example zf_sync_abs_runs :
  match hal_lens_af0832_zf_sync_abs 10 (Some (mkMotion 600 50)) (Some (mkMotion 700 9999)) 0 ready_state with
  | Ret r s => r = HAL_OK /\ af_cmds s = [ZfSyncRun (mkZf 600 150 700 572)] /\ hs_zoom_pos (sim_state (af_hw s)) = 50 /\ hs_focus_pos (sim_state (af_hw s)) = 592 /\
      map fst (af_calls s) = [7; 7]
  | _ => False
  end.
Proof. vm_compute. done. Qed.
(** A new device is homed. *)
Example bootstrap_runs :
  match hal_lens_af0832_bootstrap 10 (mkAfState (Some (set_bootstrapped false idle_device)) (mkSim 0 [] [] (mkLensState 0 0 0 false false 0 0)) [] []) with
  | Ret r s => r = HAL_OK /\ length (af_cmds s) = 8%nat /\ (bootstrapped <$> af_dev s) = Some true
  | _ => False
  end.
Proof. vm_compute. done. Qed.

(** ** Destroying a device another thread waits on *)

(** Another thread announces the end of the device between the events [es1] and [es2],
    and may have freed it when the waiter runs again. *)
Definition closing_events (es1 es2 : list lens_evt) (freed : bool) : list lens_evt :=
  es1 ++ DeviceClosing :: es2 ++ if freed then [DeviceFreed] else [].



(** A controller during whose waits another thread destroys the device. *)
#[export] Instance doomed_ops : LensOps bool := {|
  lens_op (c : lens_cmd) (d : bool) := (HAL_OK, d);
  lens_state d := (HAL_OK, parked, d);
  lens_adc d := (HAL_OK, 0, d);
  lens_meanwhile (d : bool) := (closing_events [] [LensEvt 1 0 0 0] d, d);
  clock_gettime d := (Some (mkTime 0 0), d);
  cond_timedwait (t : timespec) (d : bool) := (0, d);
  calloc_ok d := (true, d)
|}.

(** ** The theorems at concrete inputs *)
Lemma fg2009_tracks_lens_witness :
  let d := hal_lens_fg2009_params_init_defaults in let l := [(-3000, 0); (100, -2147481184)] in let g0 := glass_move (mkGlass 12 34) (-2500) (-2500) in
  glass_ok (mkGlass 12 34) /\ agrees (hal_lens_fg2009_anchor (mkFg 0 0 false)) g0 /\
  exists st1 st2, hal_lens_fg2009_park (hal_lens_fg2009_anchor (mkFg 0 0 false)) d = Some st1 /\ count_moves st1 l = Some st2 /\ agrees st2 (glass_moves (glass_move g0 2400 2164) l).
Proof.
  split; [unfold glass_ok; cbn; unfold HAL_LENS_FG2009_ZOOM_TRAVEL_STEPS, HAL_LENS_FG2009_FOCUS_TRAVEL_STEPS; lia|].
  apply (fg2009_tracks_lens (mkGlass 12 34) (mkFg 0 0 false) [(-3000, 0); (100, -2147481184)]).
  - unfold glass_ok. cbn. unfold HAL_LENS_FG2009_ZOOM_TRAVEL_STEPS, HAL_LENS_FG2009_FOCUS_TRAVEL_STEPS. lia.
  - repeat constructor; unfold step_ok; cbn; lia.
Defined.
Lemma fg2009_reaches_target_witness :
  exists zp fp st', hal_lens_fg2009_zoom_physical_delta (Some (mkFg 63 289 true)) 5000 = Some zp /\ hal_lens_fg2009_focus_physical_delta (Some (mkFg 63 289 true)) 7 = Some fp /\
    hal_lens_fg2009_apply_physical (mkFg 63 289 true) zp fp = Some st' /\ agrees st' (glass_move (mkGlass 63 289) zp fp) /\
    glass_move (mkGlass 63 289) zp fp = mkGlass (stop_at HAL_LENS_FG2009_ZOOM_TRAVEL_STEPS 5000) (stop_at HAL_LENS_FG2009_FOCUS_TRAVEL_STEPS 7).
Proof.
  apply (fg2009_reaches_target (mkFg 63 289 true) (mkGlass 63 289) 5000 7); [done|].
  unfold glass_ok. cbn. unfold HAL_LENS_FG2009_ZOOM_TRAVEL_STEPS, HAL_LENS_FG2009_FOCUS_TRAVEL_STEPS. lia.
Defined.
Lemma fg2009_ratio_roundtrip_witness : hal_lens_fg2009_ratio_to_steps (fun _ => 0) (hal_lens_fg2009_steps_to_ratio 1234) = 1234.
Proof. apply (fg2009_ratio_roundtrip (fun _ => 0)). unfold HAL_LENS_FG2009_ZOOM_TRAVEL_STEPS. lia. Defined.

Lemma enough_ms (ms : Z) (fuel : nat) : 0 <= ms -> fuel = Z.to_nat (ms * 1000000 + 2) -> enough ms fuel.
Proof. unfold enough. lia. Qed.
Definition minute : nat := Z.to_nat (60000 * 1000000 + 2).

Lemma lens_move_outcome_witness :
  bootstrapped idle_device = true /\
  returns (run_with_optional_wait minute HAL_LENS_EVT_ZOOM_COMPLETED (ZoomRun (mkMotion 600 5))) (fun r s' => exists st tr,
    af_dev s' = Some (arm 0 idle_device) /\ af_trace s' = OSent (ZoomRun (mkMotion 600 5)) st :: tr /\ af_calls s' = told (Some 7) (came tr) /\
    command_outcome HAL_LENS_EVT_ZOOM_COMPLETED 60000 st r tr (now ready_state) (now s')) ready_state.
Proof.
  split; [reflexivity|].
  eapply returns_mono; [apply (lens_move_outcome minute HAL_LENS_EVT_ZOOM_COMPLETED (ZoomRun (mkMotion 600 5)) ready_state idle_device); try reflexivity; [done|]|].
  - apply enough_ms; [cbn; lia|reflexivity].
  - intros r s' (st & tr & H). exists st, tr. exact H.
Defined.
Lemma zf_sync_abs_outcome_witness :
  sync_plan (af_params idle_device) parked (Some (mkMotion 600 50)) None = mkZf 600 150 0 0 /\
  returns (hal_lens_af0832_zf_sync_abs minute (Some (mkMotion 600 50)) None 0) (fun r s' =>
    moved ready_state idle_device parked (mkZf 600 150 0 0) 60000 r s') ready_state.
Proof.
  split; [reflexivity|].
  eapply returns_mono; [apply (zf_sync_abs_outcome minute (Some (mkMotion 600 50)) None 0 ready_state idle_device parked); [reflexivity..| | | | | |]|].
  - unfold near. cbn. lia.
  - unfold near. cbn. lia.
  - split; split; apply Z.leb_le; reflexivity.
  - split; split; apply Z.leb_le; reflexivity.
  - left. by eexists.
  - apply enough_ms; [cbn; lia|reflexivity].
  - intros r s' H. exact H.
Defined.
Lemma lens_bootstrap_order_witness :
  returns (hal_lens_af0832_bootstrap minute) (booted ready_state idle_device) ready_state.
Proof. apply (lens_bootstrap_order minute ready_state idle_device); [reflexivity..|]. apply enough_ms; [cbn; lia|reflexivity]. Defined.
