(* ===== verification/HalLensTable.v ===== *)
(** The tracking table of the AF0832 lens
    ([hal_v2/common/devices/hal_lens_af0832_table_560nm_bf_m01.inc]): for each zoom ratio
    the zoom position and the focus positions for seven distances, in table steps.

    The decimal literals of the source are written as integers over a power of ten: the
    ratios in units of [10^-14], the focus positions in hundredths. *)
From S2P Require Import Prelude Ms41908mReg BspCtrl HalFloat.

Record Af0832TableRow : Type := mkRow {
  ratio : spec_float;
  zoom_steps_w2t : spec_float;
  focus_inf : spec_float;
  focus_10m : spec_float;
  focus_5m : spec_float;
  focus_3m : spec_float;
  focus_2_5m : spec_float;
  focus_2m : spec_float;
  focus_1_5m : spec_float
}.
Definition row (r z f0 f1 f2 f3 f4 f5 f6 : Z) : Af0832TableRow :=
  mkRow (dec64 r 14) (f64 z) (dec64 f0 2) (dec64 f1 2) (dec64 f2 2) (dec64 f3 2) (dec64 f4 2) (dec64 f5 2) (dec64 f6 2).

Definition AF0832_TABLE : list Af0832TableRow := Eval vm_compute in [
  row 100000000000000 799 (-7859) (-7981) (-8102) (-8263) (-8343) (-8462) (-8661);
  row 100087916381752 798 (-7878) (-8000) (-8122) (-8283) (-8363) (-8483) (-8681);
  row 100175832763505 797 (-7898) (-8020) (-8141) (-8303) (-8383) (-8503) (-8702);
  row 100273517632119 796 (-7917) (-8039) (-8161) (-8323) (-8403) (-8523) (-8722);
  row 100361434013871 795 (-7936) (-8059) (-8181) (-8342) (-8423) (-8544) (-8743);
  row 100449350395624 794 (-7955) (-8078) (-8200) (-8362) (-8443) (-8564) (-8764);
  row 100537266777376 793 (-7975) (-8098) (-8220) (-8382) (-8463) (-8584) (-8784);
  row 100634951645990 792 (-7994) (-8117) (-8240) (-8402) (-8483) (-8604) (-8805);
  row 100722868027743 791 (-8013) (-8136) (-8259) (-8422) (-8503) (-8624) (-8825);
  row 100810784409495 790 (-8032) (-8156) (-8279) (-8442) (-8523) (-8645) (-8846);
  row 100908469278109 789 (-8051) (-8175) (-8298) (-8462) (-8543) (-8665) (-8867);
  row 100996385659861 788 (-8071) (-8194) (-8318) (-8482) (-8563) (-8685) (-8887);
  row 101094070528475 787 (-8090) (-8214) (-8337) (-8502) (-8583) (-8705) (-8908);
  row 101181986910228 786 (-8109) (-8233) (-8357) (-8521) (-8603) (-8725) (-8928);
  row 101269903291980 785 (-8128) (-8252) (-8377) (-8541) (-8623) (-8746) (-8949);
  row 101367588160594 784 (-8147) (-8272) (-8396) (-8561) (-8643) (-8766) (-8969);
  row 101455504542346 783 (-8166) (-8291) (-8416) (-8581) (-8663) (-8786) (-8989);
  row 101553189410960 782 (-8185) (-8310) (-8435) (-8600) (-8683) (-8806) (-9010);
  row 101641105792713 781 (-8204) (-8330) (-8454) (-8620) (-8703) (-8826) (-9030);
  row 101738790661327 780 (-8223) (-8349) (-8474) (-8640) (-8723) (-8846) (-9051);
  row 101826707043079 779 (-8242) (-8368) (-8493) (-8660) (-8742) (-8866) (-9071);
  row 101924391911693 778 (-8261) (-8387) (-8513) (-8679) (-8762) (-8886) (-9092);
  row 102012308293445 777 (-8280) (-8406) (-8532) (-8699) (-8782) (-8906) (-9112);
  row 102109993162059 776 (-8299) (-8426) (-8552) (-8719) (-8802) (-8926) (-9132);
  row 102197909543812 775 (-8318) (-8445) (-8571) (-8738) (-8822) (-8946) (-9153);
  row 102295594412426 774 (-8337) (-8464) (-8590) (-8758) (-8841) (-8966) (-9173);
  row 102383510794178 773 (-8356) (-8483) (-8610) (-8778) (-8861) (-8986) (-9193);
  row 102481195662792 772 (-8375) (-8502) (-8629) (-8797) (-8881) (-9006) (-9214);
  row 102578880531406 771 (-8394) (-8521) (-8648) (-8817) (-8901) (-9026) (-9234);
  row 102666796913158 770 (-8412) (-8540) (-8668) (-8836) (-8920) (-9046) (-9254);
  row 102764481781772 769 (-8431) (-8559) (-8687) (-8856) (-8940) (-9066) (-9274);
  row 102852398163524 768 (-8450) (-8578) (-8706) (-8875) (-8960) (-9086) (-9295);
  row 102950083032138 767 (-8469) (-8597) (-8725) (-8895) (-8980) (-9106) (-9315);
  row 103047767900752 766 (-8488) (-8616) (-8745) (-8915) (-8999) (-9126) (-9335);
  row 103135684282505 765 (-8506) (-8635) (-8764) (-8934) (-9019) (-9145) (-9355);
  row 103233369151118 764 (-8525) (-8654) (-8783) (-8954) (-9038) (-9165) (-9376);
  row 103331054019732 763 (-8544) (-8673) (-8802) (-8973) (-9058) (-9185) (-9396);
  row 103418970401485 762 (-8563) (-8692) (-8821) (-8992) (-9078) (-9205) (-9416);
  row 103516655270099 761 (-8581) (-8711) (-8840) (-9012) (-9097) (-9225) (-9436);
  row 103614340138713 760 (-8600) (-8730) (-8860) (-9031) (-9117) (-9245) (-9456);
  row 103712025007326 759 (-8619) (-8749) (-8879) (-9051) (-9136) (-9264) (-9477);
  row 103799941389079 758 (-8637) (-8768) (-8898) (-9070) (-9156) (-9284) (-9499);
  row 103897626257693 757 (-8656) (-8787) (-8917) (-9089) (-9175) (-9304) (-9519);
  row 103995311126307 756 (-8675) (-8806) (-8936) (-9109) (-9195) (-9324) (-9537);
  row 104092995994920 755 (-8693) (-8824) (-8955) (-9128) (-9214) (-9343) (-9557);
  row 104180912376673 754 (-8712) (-8843) (-8974) (-9147) (-9234) (-9363) (-9577);
  row 104278597245287 753 (-8730) (-8862) (-8993) (-9167) (-9253) (-9383) (-9600);
  row 104376282113901 752 (-8749) (-8881) (-9012) (-9186) (-9273) (-9402) (-9620);
  row 104473966982514 751 (-8767) (-8899) (-9031) (-9205) (-9292) (-9422) (-9638);
  row 104571651851128 750 (-8786) (-8918) (-9050) (-9225) (-9312) (-9441) (-9660);
  row 104669336719742 749 (-8804) (-8937) (-9069) (-9244) (-9331) (-9461) (-9680);
  row 104767021588356 748 (-8823) (-8956) (-9088) (-9263) (-9350) (-9483) (-9698);
  row 104854937970108 747 (-8841) (-8974) (-9107) (-9282) (-9370) (-9501) (-9720);
  row 104952622838722 746 (-8860) (-8993) (-9126) (-9301) (-9389) (-9520) (-9740);
  row 105050307707336 745 (-8878) (-9012) (-9144) (-9321) (-9408) (-9542) (-9758);
  row 105147992575950 744 (-8897) (-9030) (-9163) (-9340) (-9428) (-9562) (-9780);
  row 105245677444564 743 (-8915) (-9049) (-9182) (-9359) (-9447) (-9581) (-9797);
  row 105343362313178 742 (-8933) (-9067) (-9201) (-9378) (-9466) (-9599) (-9817);
  row 105441047181792 741 (-8952) (-9086) (-9220) (-9397) (-9488) (-9618) (-9839);
  row 105538732050405 740 (-8970) (-9104) (-9239) (-9416) (-9505) (-9638) (-9857);
  row 105636416919019 739 (-8988) (-9123) (-9257) (-9435) (-9524) (-9657) (-9879);
  row 105734101787633 738 (-9006) (-9142) (-9276) (-9454) (-9544) (-9679) (-9896);
  row 105831786656247 737 (-9025) (-9160) (-9295) (-9476) (-9565) (-9698) (-9919);
  row 105929471524861 736 (-9043) (-9178) (-9313) (-9493) (-9584) (-9717) (-9936);
  row 106027156393475 735 (-9061) (-9197) (-9332) (-9512) (-9603) (-9737) (-9958);
  row 106124841262088 734 (-9079) (-9215) (-9351) (-9533) (-9620) (-9756) (-9976);
  row 106222526130702 733 (-9098) (-9234) (-9369) (-9550) (-9640) (-9776) (-9995);
  row 106329979486178 732 (-9116) (-9252) (-9388) (-9571) (-9661) (-9795) (-10017);
  row 106427664354791 731 (-9134) (-9271) (-9407) (-9588) (-9680) (-9814) (-10035);
  row 106525349223405 730 (-9152) (-9289) (-9425) (-9609) (-9697) (-9834) (-10057);
  row 106623034092019 729 (-9170) (-9307) (-9444) (-9626) (-9718) (-9853) (-10074);
  row 106720718960633 728 (-9188) (-9326) (-9465) (-9646) (-9737) (-9872) (-10094);
  row 106818403829247 727 (-9206) (-9344) (-9483) (-9663) (-9754) (-9889) (-10116);
  row 106916088697861 726 (-9224) (-9362) (-9502) (-9684) (-9775) (-9908) (-10133);
  row 107023542053336 725 (-9242) (-9380) (-9520) (-9701) (-9792) (-9928) (-10153);
  row 107121226921950 724 (-9260) (-9399) (-9539) (-9722) (-9811) (-9947) (-10175);
  row 107218911790564 723 (-9278) (-9417) (-9557) (-9741) (-9832) (-9968) (-10194);
  row 107316596659177 722 (-9296) (-9435) (-9576) (-9757) (-9849) (-9987) (-10211);
  row 107414281527791 721 (-9314) (-9453) (-9594) (-9778) (-9870) (-10004) (-10231);
  row 107521734883267 720 (-9332) (-9473) (-9612) (-9795) (-9887) (-10024) (-10250);
  row 107619419751880 719 (-9350) (-9490) (-9631) (-9814) (-9908) (-10045) (-10272);
  row 107717104620494 718 (-9368) (-9508) (-9649) (-9834) (-9924) (-10064) (-10292);
  row 107824557975970 717 (-9386) (-9528) (-9668) (-9853) (-9943) (-10081) (-10309);
  row 107922242844583 716 (-9404) (-9544) (-9686) (-9870) (-9964) (-10100) (-10328);
  row 108019927713197 715 (-9421) (-9564) (-9703) (-9888) (-9981) (-10121) (-10348);
  row 108127381068672 714 (-9439) (-9581) (-9721) (-9909) (-10002) (-10138) (-10367);
  row 108225065937286 713 (-9457) (-9599) (-9739) (-9928) (-10018) (-10157) (-10387);
  row 108322750805900 712 (-9475) (-9618) (-9759) (-9946) (-10037) (-10178) (-10406);
  row 108430204161375 711 (-9494) (-9635) (-9777) (-9963) (-10058) (-10195) (-10425);
  row 108527889029989 710 (-9512) (-9654) (-9794) (-9981) (-10075) (-10216) (-10445);
  row 108625573898603 709 (-9528) (-9671) (-9812) (-10000) (-10093) (-10233) (-10464);
  row 108733027254078 708 (-9546) (-9688) (-9832) (-10018) (-10114) (-10254) (-10483);
  row 108830712122692 707 (-9564) (-9708) (-9850) (-10037) (-10133) (-10271) (-10503);
  row 108938165478167 706 (-9581) (-9724) (-9867) (-10055) (-10149) (-10292) (-10522);
  row 109035850346781 705 (-9600) (-9744) (-9886) (-10074) (-10168) (-10308) (-10541);
  row 109143303702257 704 (-9618) (-9762) (-9905) (-10092) (-10186) (-10330) (-10561);
  row 109240988570870 703 (-9635) (-9778) (-9921) (-10111) (-10207) (-10346) (-10580);
  row 109348441926346 702 (-9653) (-9797) (-9941) (-10129) (-10226) (-10367) (-10599);
  row 109446126794959 701 (-9670) (-9815) (-9957) (-10147) (-10244) (-10384) (-10621);
  row 109553580150435 700 (-9688) (-9831) (-9977) (-10166) (-10261) (-10403) (-10640);
  row 109651265019049 699 (-9705) (-9849) (-9993) (-10184) (-10279) (-10423) (-10657);
  row 109758718374524 698 (-9723) (-9868) (-10013) (-10202) (-10298) (-10440) (-10676);
  row 109856403243138 697 (-9739) (-9886) (-10029) (-10223) (-10316) (-10459) (-10695);
  row 109963856598613 696 (-9756) (-9902) (-10049) (-10241) (-10335) (-10480) (-10716);
  row 110071309954088 695 (-9774) (-9920) (-10065) (-10259) (-10353) (-10496) (-10733);
  row 110168994822702 694 (-9791) (-9937) (-10084) (-10275) (-10371) (-10515) (-10752);
  row 110276448178177 693 (-9810) (-9955) (-10101) (-10294) (-10390) (-10533) (-10771);
  row 110374133046791 692 (-9827) (-9973) (-10118) (-10314) (-10408) (-10554) (-10793);
  row 110481586402266 691 (-9843) (-9990) (-10138) (-10332) (-10427) (-10571) (-10809);
  row 110589039757742 690 (-9861) (-10008) (-10154) (-10348) (-10447) (-10589) (-10831);
  row 110686724626355 689 (-9879) (-10025) (-10172) (-10368) (-10465) (-10608) (-10847);
  row 110794177981831 688 (-9896) (-10043) (-10191) (-10386) (-10483) (-10626) (-10866);
  row 110901631337306 687 (-9912) (-10060) (-10209) (-10403) (-10500) (-10645) (-10888);
  row 111009084692781 686 (-9931) (-10078) (-10225) (-10423) (-10518) (-10665) (-10904);
  row 111106769561395 685 (-9947) (-10095) (-10243) (-10439) (-10536) (-10684) (-10925);
  row 111214222916870 684 (-9964) (-10112) (-10260) (-10457) (-10556) (-10702) (-10942);
  row 111321676272345 683 (-9982) (-10130) (-10280) (-10475) (-10572) (-10721) (-10963);
  row 111429129627821 682 (-9998) (-10149) (-10297) (-10493) (-10591) (-10739) (-10979);
  row 111526814496434 681 (-10016) (-10166) (-10315) (-10511) (-10611) (-10758) (-11001);
  row 111634267851910 680 (-10032) (-10182) (-10333) (-10529) (-10627) (-10776) (-11017);
  row 111741721207385 679 (-10050) (-10199) (-10348) (-10546) (-10645) (-10792) (-11036);
  row 111849174562860 678 (-10066) (-10216) (-10366) (-10566) (-10665) (-10810) (-11057);
  row 111956627918335 677 (-10083) (-10235) (-10384) (-10582) (-10681) (-10829) (-11073);
  row 112064081273811 676 (-10101) (-10251) (-10401) (-10602) (-10699) (-10847) (-11095);
  row 112171534629286 675 (-10117) (-10268) (-10419) (-10618) (-10717) (-10865) (-11111);
  row 112269219497900 674 (-10135) (-10287) (-10438) (-10636) (-10735) (-10886) (-11129);
  row 112376672853375 673 (-10152) (-10302) (-10455) (-10655) (-10753) (-10904) (-11148);
  row 112484126208850 672 (-10168) (-10321) (-10473) (-10671) (-10771) (-10920) (-11169);
  row 112591579564325 671 (-10185) (-10337) (-10490) (-10689) (-10789) (-10938) (-11185);
  row 112699032919801 670 (-10203) (-10354) (-10506) (-10707) (-10809) (-10956) (-11204);
  row 112806486275276 669 (-10219) (-10371) (-10523) (-10726) (-10825) (-10977) (-11223);
  row 112913939630751 668 (-10235) (-10388) (-10540) (-10744) (-10845) (-10993) (-11241);
  row 113021392986226 667 (-10252) (-10405) (-10559) (-10760) (-10860) (-11011) (-11262);
  row 113128846341702 666 (-10268) (-10423) (-10575) (-10777) (-10878) (-11031) (-11281);
  row 113236299697177 665 (-10285) (-10439) (-10592) (-10795) (-10898) (-11047) (-11297);
  row 113343753052652 664 (-10302) (-10457) (-10611) (-10813) (-10914) (-11067) (-11315);
  row 113451206408127 663 (-10320) (-10473) (-10628) (-10830) (-10932) (-11083) (-11334);
  row 113558659763603 662 (-10336) (-10490) (-10644) (-10848) (-10949) (-11101) (-11352);
  row 113666113119078 661 (-10353) (-10508) (-10662) (-10865) (-10969) (-11119) (-11371);
  row 113783334961414 660 (-10369) (-10525) (-10678) (-10883) (-10985) (-11137) (-11389);
  row 113890788316890 659 (-10385) (-10540) (-10695) (-10900) (-11002) (-11155) (-11407);
  row 113998241672365 658 (-10401) (-10557) (-10712) (-10918) (-11020) (-11175) (-11426);
  row 114105695027840 657 (-10418) (-10575) (-10729) (-10935) (-11037) (-11191) (-11444);
  row 114213148383315 656 (-10434) (-10592) (-10746) (-10952) (-11055) (-11211) (-11465);
  row 114320601738791 655 (-10451) (-10609) (-10763) (-10970) (-11073) (-11226) (-11483);
  row 114428055094266 654 (-10468) (-10624) (-10780) (-10989) (-11090) (-11244) (-11499);
  row 114545276936603 653 (-10483) (-10641) (-10799) (-11006) (-11108) (-11264) (-11517);
  row 114652730292078 652 (-10500) (-10657) (-10814) (-11022) (-11125) (-11280) (-11535);
  row 114760183647553 651 (-10516) (-10674) (-10831) (-11039) (-11143) (-11297) (-11553);
  row 114867637003028 650 (-10534) (-10690) (-10849) (-11056) (-11160) (-11315) (-11574);
  row 114984858845365 649 (-10549) (-10707) (-10865) (-11075) (-11178) (-11335) (-11590);
  row 115092312200840 648 (-10565) (-10724) (-10881) (-11091) (-11195) (-11350) (-11608);
  row 115199765556315 647 (-10582) (-10740) (-10900) (-11108) (-11212) (-11368) (-11626);
  row 115316987398652 646 (-10597) (-10758) (-10917) (-11127) (-11230) (-11386) (-11644);
  row 115424440754127 645 (-10615) (-10774) (-10932) (-11142) (-11249) (-11403) (-11662);
  row 115531894109602 644 (-10630) (-10791) (-10949) (-11161) (-11264) (-11421) (-11683);
  row 115649115951939 643 (-10647) (-10806) (-10965) (-11176) (-11282) (-11439) (-11698);
  row 115756569307414 642 (-10662) (-10822) (-10982) (-11194) (-11299) (-11458) (-11716);
  row 115864022662890 641 (-10679) (-10839) (-10999) (-11211) (-11318) (-11476) (-11734);
  row 115981244505226 640 (-10694) (-10856) (-11015) (-11229) (-11333) (-11493) (-11752);
  row 116088697860701 639 (-10710) (-10871) (-11032) (-11245) (-11350) (-11511) (-11770);
  row 116205919703038 638 (-10727) (-10888) (-11048) (-11263) (-11370) (-11526) (-11788);
  row 116313373058513 637 (-10742) (-10905) (-11065) (-11278) (-11385) (-11543) (-11806);
  row 116430594900850 636 (-10758) (-10920) (-11081) (-11295) (-11402) (-11561) (-11826);
  row 116538048256325 635 (-10774) (-10938) (-11098) (-11314) (-11419) (-11578) (-11842);
  row 116655270098662 634 (-10791) (-10952) (-11114) (-11329) (-11436) (-11595) (-11860);
  row 116762723454137 633 (-10805) (-10969) (-11131) (-11346) (-11453) (-11613) (-11877);
  row 116879945296474 632 (-10821) (-10985) (-11149) (-11365) (-11470) (-11632) (-11895);
  row 116987398651949 631 (-10837) (-11002) (-11165) (-11381) (-11487) (-11647) (-11913);
  row 117104620494285 630 (-10853) (-11017) (-11180) (-11396) (-11506) (-11665) (-11933);
  row 117212073849761 629 (-10869) (-11034) (-11196) (-11413) (-11521) (-11682) (-11948);
  row 117329295692097 628 (-10884) (-11049) (-11214) (-11430) (-11538) (-11699) (-11966);
  row 117446517534434 627 (-10900) (-11065) (-11229) (-11446) (-11555) (-11716) (-11984);
  row 117553970889909 626 (-10916) (-11082) (-11245) (-11463) (-11571) (-11735) (-12001);
  row 117671192732246 625 (-10931) (-11097) (-11263) (-11482) (-11588) (-11750) (-12021);
  row 117778646087721 624 (-10947) (-11113) (-11278) (-11498) (-11607) (-11768) (-12039);
  row 117895867930058 623 (-10962) (-11129) (-11294) (-11515) (-11622) (-11785) (-12054);
  row 118013089772394 622 (-10978) (-11146) (-11310) (-11531) (-11639) (-11802) (-12071);
  row 118120543127870 621 (-10995) (-11162) (-11326) (-11546) (-11655) (-11819) (-12089);
  row 118237764970206 620 (-11009) (-11176) (-11342) (-11562) (-11672) (-11836) (-12107);
  row 118354986812543 619 (-11024) (-11192) (-11360) (-11579) (-11689) (-11853) (-12124);
  row 118472208654879 618 (-11040) (-11207) (-11374) (-11595) (-11705) (-11870) (-12141);
  row 118579662010355 617 (-11056) (-11223) (-11390) (-11612) (-11724) (-11886) (-12159);
  row 118696883852691 616 (-11071) (-11239) (-11406) (-11630) (-11740) (-11903) (-12179);
  row 118814105695028 615 (-11086) (-11254) (-11422) (-11644) (-11757) (-11920) (-12194);
  row 118931327537364 614 (-11102) (-11270) (-11438) (-11661) (-11772) (-11937) (-12211);
  row 119048549379701 613 (-11116) (-11286) (-11456) (-11677) (-11788) (-11954) (-12228);
  row 119156002735176 612 (-11133) (-11303) (-11470) (-11695) (-11805) (-11973) (-12246);
  row 119273224577513 611 (-11147) (-11318) (-11486) (-11710) (-11821) (-11987) (-12265);
  row 119390446419850 610 (-11163) (-11332) (-11502) (-11726) (-11837) (-12004) (-12280);
  row 119507668262186 609 (-11177) (-11348) (-11517) (-11742) (-11854) (-12021) (-12297);
  row 119624890104523 608 (-11192) (-11363) (-11533) (-11758) (-11872) (-12038) (-12314);
  row 119742111946859 607 (-11209) (-11380) (-11550) (-11774) (-11887) (-12054) (-12332);
  row 119859333789196 606 (-11223) (-11394) (-11566) (-11790) (-11903) (-12071) (-12349);
  row 119976555631533 605 (-11238) (-11409) (-11582) (-11807) (-11919) (-12087) (-12368);
  row 120093777473869 604 (-11254) (-11426) (-11597) (-11823) (-11935) (-12104) (-12383);
  row 120210999316206 603 (-11268) (-11440) (-11611) (-11839) (-11952) (-12121) (-12400);
  row 120328221158543 602 (-11282) (-11456) (-11627) (-11856) (-11970) (-12137) (-12417);
  row 120445443000879 601 (-11297) (-11470) (-11642) (-11871) (-11984) (-12154) (-12434);
  row 120562664843216 600 (-11312) (-11487) (-11658) (-11887) (-12000) (-12170) (-12451);
  row 120679886685552 599 (-11327) (-11501) (-11673) (-11904) (-12016) (-12186) (-12470);
  row 120797108527889 598 (-11343) (-11517) (-11690) (-11918) (-12032) (-12203) (-12485);
  row 120914330370226 597 (-11358) (-11531) (-11704) (-11934) (-12049) (-12221) (-12502);
  row 121031552212562 596 (-11373) (-11546) (-11720) (-11950) (-12066) (-12236) (-12519);
  row 121148774054899 595 (-11387) (-11562) (-11735) (-11966) (-12081) (-12252) (-12536);
  row 121265995897236 594 (-11401) (-11576) (-11750) (-11982) (-12097) (-12268) (-12552);
  row 121392986226434 593 (-11415) (-11591) (-11766) (-11999) (-12114) (-12284) (-12569);
  row 121510208068770 592 (-11430) (-11606) (-11783) (-12015) (-12128) (-12301) (-12586);
  row 121627429911107 591 (-11445) (-11622) (-11796) (-12030) (-12144) (-12319) (-12602);
  row 121744651753443 590 (-11459) (-11637) (-11813) (-12046) (-12160) (-12333) (-12619);
  row 121861873595780 589 (-11475) (-11651) (-11827) (-12062) (-12178) (-12349) (-12636);
  row 121979095438117 588 (-11488) (-11666) (-11843) (-12076) (-12192) (-12365) (-12653);
  row 122106085767315 587 (-11503) (-11680) (-11857) (-12091) (-12208) (-12381) (-12669);
  row 122223307609651 586 (-11518) (-11695) (-11872) (-12107) (-12223) (-12398) (-12686);
  row 122340529451988 585 (-11532) (-11710) (-11889) (-12122) (-12239) (-12416) (-12702);
  row 122467519781186 584 (-11547) (-11724) (-11902) (-12138) (-12255) (-12430) (-12719);
  row 122584741623523 583 (-11560) (-11739) (-11917) (-12155) (-12270) (-12446) (-12736);
  row 122701963465859 582 (-11575) (-11755) (-11932) (-12168) (-12286) (-12462) (-12752);
  row 122828953795057 581 (-11589) (-11768) (-11948) (-12184) (-12302) (-12477) (-12768);
  row 122946175637394 580 (-11604) (-11783) (-11962) (-12201) (-12317) (-12493) (-12785);
  row 123063397479730 579 (-11617) (-11797) (-11977) (-12214) (-12333) (-12509) (-12801);
  row 123190387808928 578 (-11631) (-11812) (-11992) (-12230) (-12350) (-12527) (-12820);
  row 123307609651265 577 (-11646) (-11826) (-12006) (-12245) (-12364) (-12541) (-12834);
  row 123434599980463 576 (-11660) (-11841) (-12021) (-12260) (-12379) (-12557) (-12850);
  row 123551821822800 575 (-11674) (-11855) (-12036) (-12275) (-12395) (-12572) (-12867);
  row 123669043665136 574 (-11688) (-11870) (-12051) (-12291) (-12411) (-12588) (-12883);
  row 123796033994334 573 (-11703) (-11884) (-12065) (-12306) (-12425) (-12604) (-12899);
  row 123913255836671 572 (-11717) (-11898) (-12080) (-12322) (-12441) (-12619) (-12915);
  row 124040246165869 571 (-11730) (-11913) (-12095) (-12336) (-12456) (-12635) (-12932);
  row 124157468008206 570 (-11743) (-11927) (-12111) (-12351) (-12471) (-12651) (-12948);
  row 124284458337404 569 (-11757) (-11942) (-12124) (-12368) (-12486) (-12666) (-12964);
  row 124411448666602 568 (-11771) (-11955) (-12138) (-12381) (-12502) (-12682) (-12980);
  row 124528670508938 567 (-11785) (-11969) (-12153) (-12396) (-12517) (-12699) (-12996);
  row 124655660838136 566 (-11800) (-11984) (-12167) (-12411) (-12532) (-12713) (-13014);
  row 124772882680473 565 (-11813) (-11997) (-12182) (-12426) (-12547) (-12728) (-13028);
  row 124899873009671 564 (-11826) (-12011) (-12197) (-12440) (-12564) (-12744) (-13044);
  row 125026863338869 563 (-11840) (-12025) (-12210) (-12455) (-12577) (-12761) (-13062);
  row 125144085181205 562 (-11853) (-12039) (-12225) (-12472) (-12592) (-12774) (-13076);
  row 125271075510403 561 (-11868) (-12053) (-12239) (-12486) (-12607) (-12790) (-13092);
  row 125398065839601 560 (-11880) (-12068) (-12254) (-12499) (-12624) (-12805) (-13107);
  row 125515287681938 559 (-11894) (-12082) (-12267) (-12514) (-12637) (-12820) (-13123);
  row 125642278011136 558 (-11907) (-12096) (-12281) (-12529) (-12652) (-12835) (-13139);
  row 125769268340334 557 (-11921) (-12109) (-12296) (-12543) (-12667) (-12850) (-13155);
  row 125896258669532 556 (-11934) (-12122) (-12310) (-12558) (-12681) (-12866) (-13171);
  row 126013480511869 555 (-11947) (-12136) (-12324) (-12572) (-12696) (-12881) (-13186);
  row 126140470841067 554 (-11961) (-12150) (-12339) (-12587) (-12711) (-12896) (-13202);
  row 126267461170265 553 (-11974) (-12163) (-12352) (-12601) (-12726) (-12913) (-13218);
  row 126394451499463 552 (-11987) (-12178) (-12366) (-12616) (-12740) (-12926) (-13233);
  row 126521441828661 551 (-12000) (-12191) (-12380) (-12630) (-12755) (-12941) (-13249);
  row 126648432157859 550 (-12014) (-12204) (-12394) (-12645) (-12769) (-12956) (-13266);
  row 126765654000195 549 (-12027) (-12219) (-12407) (-12660) (-12785) (-12973) (-13280);
  row 126892644329393 548 (-12040) (-12231) (-12421) (-12673) (-12799) (-12986) (-13295);
  row 127019634658591 547 (-12053) (-12245) (-12435) (-12688) (-12813) (-13000) (-13311);
  row 127146624987789 546 (-12066) (-12258) (-12449) (-12702) (-12827) (-13015) (-13326);
  row 127273615316987 545 (-12079) (-12272) (-12462) (-12716) (-12842) (-13030) (-13341);
  row 127400605646185 544 (-12092) (-12284) (-12477) (-12730) (-12856) (-13045) (-13357);
  row 127527595975383 543 (-12105) (-12298) (-12490) (-12744) (-12872) (-13060) (-13372);
  row 127654586304581 542 (-12118) (-12311) (-12503) (-12758) (-12885) (-13074) (-13387);
  row 127781576633779 541 (-12130) (-12324) (-12517) (-12774) (-12901) (-13089) (-13403);
  row 127908566962977 540 (-12143) (-12337) (-12530) (-12786) (-12914) (-13104) (-13418);
  row 128035557292175 539 (-12156) (-12351) (-12544) (-12800) (-12928) (-13118) (-13433);
  row 128162547621373 538 (-12169) (-12364) (-12557) (-12814) (-12942) (-13133) (-13448);
  row 128289537950571 537 (-12181) (-12377) (-12571) (-12828) (-12956) (-13147) (-13463);
  row 128426296766631 536 (-12194) (-12390) (-12584) (-12842) (-12972) (-13162) (-13478);
  row 128553287095829 535 (-12207) (-12403) (-12598) (-12856) (-12984) (-13176) (-13493);
  row 128680277425027 534 (-12219) (-12415) (-12612) (-12870) (-12998) (-13191) (-13508);
  row 128807267754225 533 (-12232) (-12428) (-12624) (-12883) (-13012) (-13205) (-13523);
  row 128934258083423 532 (-12244) (-12441) (-12637) (-12897) (-13026) (-13219) (-13538);
  row 129061248412621 531 (-12257) (-12454) (-12652) (-12911) (-13042) (-13234) (-13553);
  row 129198007228680 530 (-12269) (-12468) (-12664) (-12926) (-13054) (-13248) (-13568);
  row 129324997557878 529 (-12282) (-12480) (-12677) (-12938) (-13068) (-13262) (-13585);
  row 129451987887076 528 (-12294) (-12492) (-12690) (-12952) (-13082) (-13276) (-13598);
  row 129578978216274 527 (-12306) (-12505) (-12703) (-12965) (-13096) (-13290) (-13613);
  row 129715737032334 526 (-12318) (-12518) (-12716) (-12979) (-13111) (-13305) (-13627);
  row 129842727361532 525 (-12331) (-12530) (-12729) (-12992) (-13123) (-13319) (-13642);
  row 129969717690730 524 (-12342) (-12543) (-12742) (-13007) (-13137) (-13333) (-13659);
  row 130106476506789 523 (-12355) (-12555) (-12755) (-13019) (-13151) (-13347) (-13671);
  row 130233466835987 522 (-12367) (-12568) (-12768) (-13034) (-13164) (-13361) (-13686);
  row 130360457165185 521 (-12379) (-12580) (-12780) (-13046) (-13178) (-13375) (-13701);
  row 130497215981245 520 (-12391) (-12593) (-12793) (-13059) (-13191) (-13389) (-13715);
  row 130624206310443 519 (-12403) (-12605) (-12806) (-13072) (-13205) (-13402) (-13730);
  row 130760965126502 518 (-12414) (-12617) (-12820) (-13085) (-13218) (-13416) (-13744);
  row 130887955455700 517 (-12427) (-12630) (-12831) (-13099) (-13232) (-13430) (-13758);
  row 131024714271759 516 (-12438) (-12641) (-12844) (-13112) (-13245) (-13444) (-13773);
  row 131151704600957 515 (-12450) (-12654) (-12857) (-13125) (-13258) (-13458) (-13787);
  row 131288463417017 514 (-12462) (-12666) (-12869) (-13138) (-13272) (-13471) (-13802);
  row 131415453746215 513 (-12473) (-12678) (-12881) (-13151) (-13285) (-13485) (-13816);
  row 131552212562274 512 (-12485) (-12690) (-12894) (-13164) (-13298) (-13499) (-13830);
  row 131679202891472 511 (-12497) (-12702) (-12907) (-13177) (-13311) (-13512) (-13844);
  row 131815961707531 510 (-12508) (-12714) (-12919) (-13190) (-13326) (-13526) (-13859);
  row 131942952036729 509 (-12520) (-12726) (-12931) (-13203) (-13338) (-13539) (-13873);
  row 132079710852789 508 (-12531) (-12738) (-12944) (-13215) (-13351) (-13553) (-13887);
  row 132216469668848 507 (-12543) (-12750) (-12955) (-13229) (-13364) (-13566) (-13901);
  row 132343459998046 506 (-12554) (-12762) (-12968) (-13241) (-13377) (-13579) (-13915);
  row 132480218814106 505 (-12565) (-12773) (-12980) (-13254) (-13390) (-13593) (-13929);
  row 132616977630165 504 (-12577) (-12785) (-12992) (-13266) (-13403) (-13606) (-13943);
  row 132743967959363 503 (-12588) (-12797) (-13004) (-13279) (-13415) (-13619) (-13957);
  row 132880726775422 502 (-12599) (-12808) (-13016) (-13291) (-13428) (-13633) (-13971);
  row 133017485591482 501 (-12611) (-12820) (-13028) (-13304) (-13441) (-13646) (-13984);
  row 133154244407541 500 (-12622) (-12831) (-13040) (-13316) (-13454) (-13659) (-13998);
  row 133281234736739 499 (-12633) (-12843) (-13052) (-13329) (-13467) (-13672) (-14012);
  row 133417993552799 498 (-12644) (-12854) (-13064) (-13341) (-13479) (-13685) (-14026);
  row 133554752368858 497 (-12654) (-12865) (-13075) (-13354) (-13492) (-13698) (-14039);
  row 133691511184917 496 (-12665) (-12878) (-13087) (-13366) (-13504) (-13711) (-14053);
  row 133818501514115 495 (-12676) (-12888) (-13099) (-13378) (-13517) (-13724) (-14067);
  row 133955260330175 494 (-12687) (-12899) (-13111) (-13390) (-13530) (-13737) (-14080);
  row 134092019146234 493 (-12698) (-12911) (-13123) (-13404) (-13542) (-13750) (-14094);
  row 134228777962294 492 (-12709) (-12922) (-13134) (-13415) (-13554) (-13763) (-14107);
  row 134365536778353 491 (-12719) (-12933) (-13145) (-13427) (-13567) (-13776) (-14121);
  row 134502295594412 490 (-12730) (-12944) (-13157) (-13439) (-13579) (-13788) (-14134);
  row 134639054410472 489 (-12740) (-12955) (-13168) (-13451) (-13591) (-13801) (-14148);
  row 134775813226531 488 (-12751) (-12966) (-13180) (-13463) (-13604) (-13814) (-14161);
  row 134912572042591 487 (-12762) (-12977) (-13191) (-13475) (-13616) (-13826) (-14174);
  row 135049330858650 486 (-12772) (-12988) (-13203) (-13487) (-13628) (-13839) (-14188);
  row 135186089674709 485 (-12782) (-12999) (-13214) (-13499) (-13640) (-13851) (-14201);
  row 135322848490769 484 (-12793) (-13010) (-13225) (-13510) (-13652) (-13864) (-14214);
  row 135459607306828 483 (-12804) (-13020) (-13236) (-13522) (-13664) (-13876) (-14227);
  row 135596366122888 482 (-12813) (-13032) (-13247) (-13534) (-13676) (-13889) (-14240);
  row 135733124938947 481 (-12823) (-13042) (-13259) (-13546) (-13688) (-13901) (-14253);
  row 135869883755006 480 (-12833) (-13052) (-13270) (-13557) (-13700) (-13914) (-14266);
  row 136016411057927 479 (-12843) (-13063) (-13281) (-13569) (-13712) (-13926) (-14279);
  row 136153169873987 478 (-12853) (-13073) (-13292) (-13580) (-13724) (-13938) (-14292);
  row 136289928690046 477 (-12864) (-13084) (-13303) (-13592) (-13736) (-13950) (-14305);
  row 136426687506105 476 (-12873) (-13094) (-13313) (-13603) (-13747) (-13963) (-14318);
  row 136563446322165 475 (-12883) (-13105) (-13324) (-13615) (-13759) (-13975) (-14331);
  row 136709973625085 474 (-12893) (-13116) (-13335) (-13626) (-13771) (-13987) (-14344);
  row 136846732441145 473 (-12904) (-13125) (-13346) (-13637) (-13782) (-13999) (-14356);
  row 136983491257204 472 (-12912) (-13135) (-13356) (-13649) (-13794) (-14011) (-14369);
  row 137130018560125 471 (-12922) (-13146) (-13367) (-13660) (-13806) (-14023) (-14382);
  row 137266777376184 470 (-12931) (-13156) (-13378) (-13671) (-13817) (-14035) (-14394);
  row 137403536192244 469 (-12941) (-13166) (-13388) (-13682) (-13828) (-14046) (-14407);
  row 137550063495165 468 (-12950) (-13176) (-13399) (-13693) (-13840) (-14058) (-14419);
  row 137686822311224 467 (-12959) (-13186) (-13409) (-13704) (-13851) (-14070) (-14432);
  row 137823581127283 466 (-12969) (-13196) (-13419) (-13715) (-13862) (-14082) (-14444);
  row 137970108430204 465 (-12977) (-13205) (-13430) (-13726) (-13874) (-14094) (-14457);
  row 138106867246264 464 (-12987) (-13216) (-13440) (-13737) (-13885) (-14105) (-14469);
  row 138253394549184 463 (-12996) (-13225) (-13450) (-13748) (-13896) (-14117) (-14481);
  row 138390153365244 462 (-13005) (-13234) (-13461) (-13759) (-13907) (-14128) (-14494);
  row 138536680668165 461 (-13014) (-13244) (-13471) (-13770) (-13918) (-14140) (-14506);
  row 138673439484224 460 (-13022) (-13254) (-13481) (-13780) (-13929) (-14151) (-14518);
  row 138819966787145 459 (-13031) (-13263) (-13491) (-13791) (-13940) (-14163) (-14530);
  row 138956725603204 458 (-13040) (-13273) (-13501) (-13802) (-13951) (-14174) (-14542);
  row 139103252906125 457 (-13049) (-13282) (-13511) (-13812) (-13962) (-14185) (-14554);
  row 139249780209046 456 (-13057) (-13291) (-13521) (-13823) (-13973) (-14197) (-14566);
  row 139386539025105 455 (-13066) (-13300) (-13530) (-13833) (-13984) (-14208) (-14578);
  row 139533066328026 454 (-13075) (-13310) (-13540) (-13844) (-13994) (-14219) (-14590);
  row 139669825144085 453 (-13083) (-13319) (-13550) (-13854) (-14005) (-14230) (-14602);
  row 139816352447006 452 (-13092) (-13328) (-13560) (-13864) (-14016) (-14241) (-14614);
  row 139962879749927 451 (-13100) (-13337) (-13569) (-13875) (-14026) (-14252) (-14626);
  row 140109407052848 450 (-13108) (-13346) (-13579) (-13885) (-14037) (-14263) (-14638);
  row 140246165868907 449 (-13117) (-13355) (-13588) (-13895) (-14047) (-14274) (-14649);
  row 140392693171828 448 (-13125) (-13363) (-13598) (-13905) (-14058) (-14285) (-14661);
  row 140539220474748 447 (-13133) (-13372) (-13607) (-13915) (-14068) (-14296) (-14673);
  row 140685747777669 446 (-13141) (-13381) (-13616) (-13925) (-14078) (-14307) (-14684);
  row 140822506593729 445 (-13150) (-13389) (-13626) (-13935) (-14089) (-14318) (-14696);
  row 140969033896649 444 (-13159) (-13398) (-13635) (-13945) (-14099) (-14328) (-14707);
  row 141115561199570 443 (-13166) (-13406) (-13644) (-13955) (-14109) (-14339) (-14719);
  row 141262088502491 442 (-13174) (-13415) (-13653) (-13965) (-14119) (-14350) (-14730);
  row 141408615805412 441 (-13182) (-13423) (-13662) (-13975) (-14129) (-14360) (-14741);
  row 141555143108333 440 (-13190) (-13432) (-13671) (-13984) (-14139) (-14371) (-14753);
  row 141701670411253 439 (-13198) (-13440) (-13680) (-13994) (-14149) (-14381) (-14764);
  row 141848197714174 438 (-13205) (-13448) (-13689) (-14004) (-14159) (-14392) (-14775);
  row 141994725017095 437 (-13213) (-13456) (-13698) (-14013) (-14169) (-14402) (-14786);
  row 142141252320016 436 (-13221) (-13465) (-13706) (-14023) (-14179) (-14412) (-14797);
  row 142287779622936 435 (-13228) (-13473) (-13715) (-14032) (-14189) (-14423) (-14808);
  row 142434306925857 434 (-13237) (-13481) (-13723) (-14041) (-14199) (-14433) (-14819);
  row 142580834228778 433 (-13244) (-13489) (-13732) (-14051) (-14208) (-14443) (-14830);
  row 142727361531699 432 (-13251) (-13497) (-13741) (-14060) (-14218) (-14453) (-14841);
  row 142873888834620 431 (-13259) (-13504) (-13749) (-14069) (-14228) (-14463) (-14852);
  row 143020416137540 430 (-13266) (-13512) (-13757) (-14078) (-14237) (-14473) (-14863);
  row 143166943440461 429 (-13273) (-13520) (-13766) (-14088) (-14246) (-14483) (-14874);
  row 143323239230243 428 (-13281) (-13528) (-13774) (-14097) (-14256) (-14493) (-14884);
  row 143469766533164 427 (-13288) (-13536) (-13782) (-14106) (-14265) (-14503) (-14895);
  row 143616293836085 426 (-13295) (-13543) (-13790) (-14115) (-14275) (-14513) (-14906);
  row 143762821139006 425 (-13302) (-13551) (-13798) (-14123) (-14284) (-14522) (-14916);
  row 143909348441926 424 (-13309) (-13558) (-13806) (-14132) (-14293) (-14532) (-14927);
  row 144065644231708 423 (-13316) (-13566) (-13814) (-14141) (-14302) (-14542) (-14937);
  row 144212171534629 422 (-13323) (-13573) (-13822) (-14150) (-14311) (-14551) (-14948);
  row 144358698837550 421 (-13330) (-13581) (-13830) (-14158) (-14320) (-14561) (-14958);
  row 144514994627332 420 (-13337) (-13588) (-13838) (-14167) (-14329) (-14570) (-14968);
  row 144661521930253 419 (-13344) (-13592) (-13845) (-14175) (-14338) (-14580) (-14979);
  row 144808049233174 418 (-13351) (-13602) (-13853) (-14184) (-14347) (-14589) (-14989);
  row 144964345022956 417 (-13358) (-13609) (-13861) (-14192) (-14356) (-14599) (-14999);
  row 145110872325877 416 (-13364) (-13617) (-13868) (-14201) (-14364) (-14608) (-15009);
  row 145267168115659 415 (-13371) (-13624) (-13876) (-14209) (-14373) (-14617) (-15019);
  row 145413695418580 414 (-13377) (-13631) (-13883) (-14217) (-14382) (-14626) (-15029);
  row 145569991208362 413 (-13384) (-13638) (-13891) (-14225) (-14390) (-14635) (-15039);
  row 145716518511283 412 (-13391) (-13644) (-13898) (-14233) (-14399) (-14644) (-15049);
  row 145872814301065 411 (-13398) (-13652) (-13905) (-14242) (-14407) (-14653) (-15059);
  row 146019341603986 410 (-13405) (-13658) (-13913) (-14249) (-14416) (-14662) (-15069);
  row 146175637393768 409 (-13411) (-13665) (-13920) (-14257) (-14424) (-14671) (-15078);
  row 146322164696688 408 (-13418) (-13672) (-13927) (-14265) (-14432) (-14680) (-15088);
  row 146478460486471 407 (-13424) (-13678) (-13934) (-14273) (-14440) (-14689) (-15098);
  row 146624987789391 406 (-13431) (-13685) (-13941) (-14281) (-14449) (-14698) (-15107);
  row 146781283579174 405 (-13437) (-13691) (-13948) (-14288) (-14457) (-14706) (-15117);
  row 146937579368956 404 (-13444) (-13698) (-13955) (-14296) (-14465) (-14715) (-15126);
  row 147093875158738 403 (-13450) (-13704) (-13962) (-14303) (-14473) (-14723) (-15136);
  row 147240402461659 402 (-13456) (-13710) (-13968) (-14311) (-14480) (-14732) (-15145);
  row 147396698251441 401 (-13462) (-13717) (-13975) (-14318) (-14488) (-14740) (-15155);
  row 147552994041223 400 (-13468) (-13723) (-13982) (-14326) (-14496) (-14749) (-15164);
  row 147699521344144 399 (-13474) (-13729) (-13989) (-14333) (-14504) (-14757) (-15173);
  row 147855817133926 398 (-13480) (-13735) (-13995) (-14340) (-14511) (-14765) (-15182);
  row 148012112923708 397 (-13486) (-13741) (-14002) (-14347) (-14519) (-14773) (-15191);
  row 148168408713490 396 (-13492) (-13747) (-14008) (-14355) (-14527) (-14782) (-15200);
  row 148324704503272 395 (-13498) (-13753) (-14014) (-14362) (-14534) (-14790) (-15209);
  row 148481000293055 394 (-13503) (-13759) (-14021) (-14369) (-14541) (-14798) (-15218);
  row 148637296082837 393 (-13509) (-13765) (-14027) (-14376) (-14549) (-14805) (-15227);
  row 148793591872619 392 (-13515) (-13770) (-14033) (-14382) (-14556) (-14813) (-15236);
  row 148940119175540 391 (-13520) (-13776) (-14040) (-14389) (-14563) (-14821) (-15245);
  row 149096414965322 390 (-13526) (-13782) (-14046) (-14396) (-14570) (-14829) (-15253);
  row 149252710755104 389 (-13531) (-13787) (-14052) (-14403) (-14577) (-14837) (-15262);
  row 149409006544886 388 (-13536) (-13793) (-14058) (-14409) (-14584) (-14844) (-15271);
  row 149565302334668 387 (-13542) (-13798) (-14064) (-14416) (-14591) (-14852) (-15279);
  row 149731366611312 386 (-13547) (-13804) (-14070) (-14423) (-14598) (-14859) (-15288);
  row 149887662401094 385 (-13552) (-13809) (-14075) (-14429) (-14605) (-14867) (-15296);
  row 150043958190876 384 (-13557) (-13814) (-14081) (-14435) (-14612) (-14874) (-15304);
  row 150200253980658 383 (-13562) (-13819) (-14087) (-14442) (-14619) (-14882) (-15313);
  row 150356549770441 382 (-13567) (-13825) (-14092) (-14448) (-14625) (-14889) (-15321);
  row 150512845560223 381 (-13572) (-13830) (-14098) (-14454) (-14632) (-14896) (-15329);
  row 150669141350005 380 (-13577) (-13835) (-14104) (-14461) (-14638) (-14903) (-15337);
  row 150835205626648 379 (-13582) (-13840) (-14109) (-14467) (-14645) (-14910) (-15345);
  row 150991501416431 378 (-13586) (-13845) (-14114) (-14473) (-14651) (-14917) (-15353);
  row 151147797206213 377 (-13591) (-13849) (-14120) (-14479) (-14658) (-14924) (-15361);
  row 151304092995995 376 (-13596) (-13854) (-14125) (-14485) (-14664) (-14931) (-15369);
  row 151470157272638 375 (-13600) (-13859) (-14130) (-14491) (-14670) (-14938) (-15377);
  row 151626453062421 374 (-13605) (-13863) (-14135) (-14496) (-14676) (-14944) (-15385);
  row 151782748852203 373 (-13609) (-13868) (-14141) (-14502) (-14682) (-14951) (-15393);
  row 151948813128846 372 (-13614) (-13873) (-14146) (-14508) (-14688) (-14958) (-15400);
  row 152105108918628 371 (-13618) (-13877) (-14151) (-14514) (-14694) (-14964) (-15408);
  row 152261404708411 370 (-13622) (-13881) (-14155) (-14519) (-14700) (-14971) (-15415);
  row 152427468985054 369 (-13626) (-13886) (-14160) (-14525) (-14706) (-14977) (-15423);
  row 152583764774836 368 (-13630) (-13890) (-14165) (-14530) (-14712) (-14984) (-15430);
  row 152749829051480 367 (-13634) (-13894) (-14170) (-14536) (-14718) (-14990) (-15437);
  row 152906124841262 366 (-13638) (-13898) (-14174) (-14541) (-14723) (-14996) (-15445);
  row 153072189117906 365 (-13642) (-13902) (-14179) (-14546) (-14729) (-15002) (-15452);
  row 153228484907688 364 (-13646) (-13906) (-14184) (-14551) (-14735) (-15008) (-15459);
  row 153394549184331 363 (-13650) (-13910) (-14188) (-14557) (-14740) (-15015) (-15466);
  row 153550844974114 362 (-13653) (-13914) (-14192) (-14562) (-14746) (-15021) (-15473);
  row 153716909250757 361 (-13657) (-13918) (-14197) (-14567) (-14751) (-15026) (-15480);
  row 153882973527401 360 (-13660) (-13922) (-14201) (-14572) (-14756) (-15032) (-15487);
  row 154039269317183 359 (-13664) (-13925) (-14205) (-14577) (-14762) (-15038) (-15494);
  row 154205333593826 358 (-13667) (-13929) (-14209) (-14582) (-14767) (-15044) (-15501);
  row 154371397870470 357 (-13670) (-13932) (-14213) (-14586) (-14772) (-15050) (-15507);
  row 154527693660252 356 (-13674) (-13936) (-14217) (-14591) (-14777) (-15055) (-15514);
  row 154693757936896 355 (-13677) (-13939) (-14221) (-14596) (-14782) (-15061) (-15521);
  row 154859822213539 354 (-13680) (-13942) (-14225) (-14600) (-14787) (-15066) (-15527);
  row 155025886490183 353 (-13683) (-13946) (-14229) (-14605) (-14792) (-15072) (-15533);
  row 155191950766826 352 (-13686) (-13949) (-14233) (-14609) (-14797) (-15077) (-15540);
  row 155348246556608 351 (-13689) (-13952) (-14236) (-14614) (-14801) (-15082) (-15546);
  row 155514310833252 350 (-13691) (-13955) (-14240) (-14618) (-14806) (-15087) (-15552);
  row 155680375109895 349 (-13694) (-13958) (-14243) (-14622) (-14811) (-15093) (-15558);
  row 155846439386539 348 (-13697) (-13961) (-14247) (-14626) (-14815) (-15098) (-15565);
  row 156012503663183 347 (-13699) (-13964) (-14250) (-14631) (-14820) (-15103) (-15571);
  row 156178567939826 346 (-13702) (-13966) (-14254) (-14635) (-14824) (-15108) (-15577);
  row 156344632216470 345 (-13704) (-13969) (-14257) (-14639) (-14829) (-15113) (-15583);
  row 156510696493113 344 (-13707) (-13972) (-14260) (-14643) (-14833) (-15117) (-15588);
  row 156676760769757 343 (-13709) (-13974) (-14263) (-14646) (-14837) (-15122) (-15594);
  row 156842825046400 342 (-13711) (-13977) (-14266) (-14650) (-14841) (-15127) (-15600);
  row 157008889323044 341 (-13713) (-13979) (-14269) (-14654) (-14845) (-15132) (-15605);
  row 157174953599687 340 (-13715) (-13981) (-14272) (-14658) (-14849) (-15136) (-15611);
  row 157341017876331 339 (-13717) (-13984) (-14275) (-14661) (-14853) (-15141) (-15617);
  row 157507082152974 338 (-13719) (-13986) (-14278) (-14665) (-14857) (-15145) (-15622);
  row 157682914916479 337 (-13721) (-13988) (-14280) (-14668) (-14861) (-15150) (-15627);
  row 157848979193123 336 (-13722) (-13990) (-14283) (-14672) (-14865) (-15154) (-15633);
  row 158015043469767 335 (-13724) (-13992) (-14286) (-14675) (-14869) (-15158) (-15638);
  row 158181107746410 334 (-13726) (-13994) (-14288) (-14678) (-14872) (-15162) (-15643);
  row 158347172023054 333 (-13727) (-13995) (-14290) (-14681) (-14876) (-15166) (-15648);
  row 158523004786559 332 (-13728) (-13997) (-14293) (-14684) (-14879) (-15170) (-15653);
  row 158689069063202 331 (-13730) (-13999) (-14295) (-14687) (-14883) (-15174) (-15658);
  row 158855133339846 330 (-13731) (-14000) (-14297) (-14690) (-14886) (-15178) (-15663);
  row 159030966103351 329 (-13732) (-14002) (-14299) (-14693) (-14889) (-15182) (-15668);
  row 159197030379994 328 (-13733) (-14003) (-14301) (-14696) (-14892) (-15186) (-15672);
  row 159363094656638 327 (-13734) (-14005) (-14303) (-14699) (-14896) (-15190) (-15677);
  row 159538927420143 326 (-13735) (-14006) (-14305) (-14701) (-14899) (-15193) (-15682);
  row 159704991696786 325 (-13736) (-14007) (-14307) (-14704) (-14902) (-15197) (-15686);
  row 159880824460291 324 (-13737) (-14008) (-14309) (-14707) (-14905) (-15200) (-15691);
  row 160046888736935 323 (-13738) (-14009) (-14310) (-14709) (-14907) (-15204) (-15695);
  row 160222721500440 322 (-13738) (-14010) (-14312) (-14711) (-14910) (-15207) (-15699);
  row 160388785777083 321 (-13739) (-14011) (-14313) (-14714) (-14913) (-15211) (-15704);
  row 160564618540588 320 (-13739) (-14012) (-14315) (-14716) (-14916) (-15214) (-15708);
  row 160730682817232 319 (-13739) (-14013) (-14316) (-14718) (-14918) (-15217) (-15712);
  row 160906515580737 318 (-13740) (-14014) (-14317) (-14720) (-14921) (-15220) (-15716);
  row 161082348344241 317 (-13740) (-14015) (-14319) (-14722) (-14923) (-15223) (-15720);
  row 161248412620885 316 (-13740) (-14016) (-14320) (-14724) (-14925) (-15226) (-15724);
  row 161424245384390 315 (-13740) (-14016) (-14321) (-14726) (-14928) (-15229) (-15728);
  row 161600078147895 314 (-13740) (-14017) (-14322) (-14728) (-14930) (-15232) (-15731);
  row 161766142424538 313 (-13740) (-14017) (-14323) (-14730) (-14932) (-15234) (-15735);
  row 161941975188043 312 (-13740) (-14018) (-14324) (-14731) (-14934) (-15237) (-15739);
  row 162117807951548 311 (-13739) (-14018) (-14324) (-14733) (-14936) (-15240) (-15742);
  row 162293640715053 310 (-13739) (-14018) (-14325) (-14734) (-14938) (-15242) (-15746);
  row 162469473478558 309 (-13738) (-14019) (-14326) (-14736) (-14940) (-15245) (-15749);
  row 162635537755202 308 (-13738) (-14019) (-14326) (-14737) (-14942) (-15247) (-15753);
  row 162811370518707 307 (-13737) (-14019) (-14326) (-14738) (-14943) (-15249) (-15756);
  row 162987203282212 306 (-13736) (-14019) (-14327) (-14740) (-14945) (-15251) (-15759);
  row 163163036045717 305 (-13736) (-14018) (-14327) (-14741) (-14946) (-15254) (-15762);
  row 163338868809221 304 (-13735) (-14018) (-14327) (-14742) (-14948) (-15256) (-15765);
  row 163514701572726 303 (-13734) (-14018) (-14327) (-14743) (-14949) (-15258) (-15768);
  row 163690534336231 302 (-13733) (-14017) (-14327) (-14743) (-14950) (-15259) (-15771);
  row 163866367099736 301 (-13732) (-14017) (-14327) (-14744) (-14952) (-15261) (-15774);
  row 164042199863241 300 (-13730) (-14016) (-14327) (-14745) (-14953) (-15263) (-15777);
  row 164218032626746 299 (-13729) (-14016) (-14327) (-14746) (-14954) (-15265) (-15780);
  row 164393865390251 298 (-13727) (-14015) (-14327) (-14746) (-14955) (-15266) (-15782);
  row 164569698153756 297 (-13726) (-14014) (-14326) (-14747) (-14956) (-15268) (-15785);
  row 164745530917261 296 (-13724) (-14013) (-14326) (-14747) (-14957) (-15269) (-15787);
  row 164931132167627 295 (-13723) (-14012) (-14325) (-14747) (-14957) (-15271) (-15790);
  row 165106964931132 294 (-13721) (-14011) (-14325) (-14748) (-14958) (-15272) (-15792);
  row 165282797694637 293 (-13719) (-14010) (-14324) (-14748) (-14959) (-15273) (-15794);
  row 165458630458142 292 (-13717) (-14008) (-14323) (-14748) (-14959) (-15274) (-15797);
  row 165644231708508 291 (-13715) (-14007) (-14322) (-14748) (-14959) (-15275) (-15799);
  row 165820064472013 290 (-13713) (-14006) (-14321) (-14748) (-14960) (-15276) (-15801);
  row 165995897235518 289 (-13711) (-14004) (-14320) (-14748) (-14960) (-15277) (-15803);
  row 166171729999023 288 (-13708) (-14002) (-14319) (-14747) (-14960) (-15278) (-15805);
  row 166357331249389 287 (-13706) (-14001) (-14318) (-14747) (-14960) (-15279) (-15806);
  row 166533164012894 286 (-13703) (-13999) (-14317) (-14747) (-14960) (-15280) (-15808);
  row 166718765263261 285 (-13701) (-13997) (-14315) (-14746) (-14960) (-15280) (-15810);
  row 166894598026766 284 (-13698) (-13995) (-14314) (-14746) (-14960) (-15281) (-15811);
  row 167080199277132 283 (-13695) (-13993) (-14312) (-14745) (-14960) (-15281) (-15813);
  row 167256032040637 282 (-13692) (-13991) (-14311) (-14744) (-14960) (-15282) (-15814);
  row 167441633291003 281 (-13689) (-13988) (-14309) (-14743) (-14959) (-15282) (-15816);
  row 167617466054508 280 (-13686) (-13986) (-14307) (-14742) (-14959) (-15282) (-15817);
  row 167803067304874 279 (-13683) (-13984) (-14305) (-14741) (-14958) (-15282) (-15818);
  row 167978900068379 278 (-13680) (-13981) (-14303) (-14740) (-14958) (-15282) (-15819);
  row 168164501318746 277 (-13677) (-13978) (-14301) (-14739) (-14957) (-15282) (-15820);
  row 168340334082251 276 (-13673) (-13976) (-14299) (-14738) (-14956) (-15282) (-15821);
  row 168525935332617 275 (-13670) (-13973) (-14297) (-14737) (-14955) (-15282) (-15822);
  row 168711536582983 274 (-13666) (-13970) (-14294) (-14735) (-14954) (-15281) (-15823);
  row 168897137833350 273 (-13662) (-13967) (-14292) (-14734) (-14953) (-15281) (-15824);
  row 169072970596855 272 (-13658) (-13964) (-14289) (-14732) (-14952) (-15281) (-15824);
  row 169258571847221 271 (-13654) (-13961) (-14287) (-14730) (-14951) (-15280) (-15825);
  row 169444173097587 270 (-13650) (-13957) (-14284) (-14729) (-14950) (-15279) (-15825);
  row 169629774347953 269 (-13646) (-13954) (-14281) (-14727) (-14948) (-15279) (-15826);
  row 169815375598320 268 (-13642) (-13950) (-14278) (-14725) (-14947) (-15278) (-15826);
  row 169991208361825 267 (-13638) (-13947) (-14275) (-14723) (-14945) (-15277) (-15826);
  row 170176809612191 266 (-13633) (-13943) (-14272) (-14721) (-14943) (-15276) (-15826);
  row 170362410862557 265 (-13629) (-13939) (-14269) (-14718) (-14942) (-15275) (-15826);
  row 170548012112924 264 (-13624) (-13935) (-14266) (-14716) (-14940) (-15274) (-15826);
  row 170733613363290 263 (-13620) (-13931) (-14263) (-14714) (-14938) (-15273) (-15826);
  row 170919214613656 262 (-13615) (-13927) (-14259) (-14711) (-14936) (-15271) (-15826);
  row 171104815864023 261 (-13610) (-13923) (-14256) (-14709) (-14934) (-15270) (-15826);
  row 171290417114389 260 (-13605) (-13919) (-14252) (-14706) (-14932) (-15268) (-15826);
  row 171476018364755 259 (-13600) (-13914) (-14248) (-14703) (-14929) (-15267) (-15825);
  row 171661619615122 258 (-13594) (-13910) (-14244) (-14700) (-14927) (-15265) (-15825);
  row 171856989352349 257 (-13589) (-13905) (-14241) (-14697) (-14924) (-15263) (-15824);
  row 172042590602716 256 (-13584) (-13901) (-14237) (-14694) (-14922) (-15262) (-15823);
  row 172228191853082 255 (-13578) (-13896) (-14233) (-14691) (-14919) (-15260) (-15823);
  row 172413793103448 254 (-13573) (-13891) (-14228) (-14688) (-14917) (-15258) (-15822);
  row 172599394353815 253 (-13567) (-13886) (-14224) (-14685) (-14914) (-15255) (-15821);
  row 172794764091042 252 (-13561) (-13881) (-14220) (-14681) (-14911) (-15253) (-15820);
  row 172980365341409 251 (-13555) (-13876) (-14215) (-14678) (-14908) (-15251) (-15819);
  row 173165966591775 250 (-13549) (-13871) (-14211) (-14674) (-14905) (-15249) (-15817);
  row 173351567842141 249 (-13543) (-13865) (-14206) (-14671) (-14901) (-15246) (-15816);
  row 173546937579369 248 (-13537) (-13860) (-14201) (-14667) (-14898) (-15244) (-15815);
  row 173732538829735 247 (-13530) (-13854) (-14196) (-14663) (-14895) (-15241) (-15813);
  row 173927908566963 246 (-13524) (-13848) (-14191) (-14659) (-14891) (-15238) (-15812);
  row 174113509817329 245 (-13517) (-13843) (-14186) (-14655) (-14888) (-15235) (-15810);
  row 174308879554557 244 (-13511) (-13837) (-14181) (-14651) (-14884) (-15232) (-15808);
  row 174494480804923 243 (-13504) (-13831) (-14176) (-14646) (-14880) (-15229) (-15807);
  row 174689850542151 242 (-13497) (-13825) (-14171) (-14642) (-14876) (-15226) (-15805);
  row 174875451792517 241 (-13490) (-13818) (-14165) (-14638) (-14873) (-15223) (-15803);
  row 175070821529745 240 (-13483) (-13812) (-14160) (-14633) (-14868) (-15220) (-15801);
  row 175256422780111 239 (-13476) (-13806) (-14154) (-14629) (-14864) (-15216) (-15798);
  row 175451792517339 238 (-13469) (-13799) (-14148) (-14624) (-14860) (-15213) (-15796);
  row 175647162254567 237 (-13461) (-13792) (-14142) (-14619) (-14856) (-15209) (-15794);
  row 175832763504933 236 (-13454) (-13786) (-14137) (-14614) (-14851) (-15206) (-15791);
  row 176028133242161 235 (-13446) (-13779) (-14130) (-14609) (-14847) (-15202) (-15789);
  row 176223502979388 234 (-13438) (-13772) (-14124) (-14604) (-14842) (-15198) (-15786);
  row 176418872716616 233 (-13430) (-13765) (-14118) (-14599) (-14838) (-15194) (-15783);
  row 176604473966983 232 (-13422) (-13758) (-14112) (-14593) (-14833) (-15190) (-15781);
  row 176799843704210 231 (-13414) (-13750) (-14105) (-14588) (-14828) (-15186) (-15778);
  row 176995213441438 230 (-13406) (-13743) (-14099) (-14582) (-14823) (-15182) (-15775);
  row 177190583178666 229 (-13398) (-13736) (-14092) (-14577) (-14818) (-15177) (-15772);
  row 177385952915893 228 (-13389) (-13728) (-14085) (-14571) (-14812) (-15173) (-15768);
  row 177581322653121 227 (-13381) (-13720) (-14078) (-14565) (-14807) (-15168) (-15765);
  row 177776692390349 226 (-13372) (-13712) (-14072) (-14559) (-14802) (-15164) (-15762);
  row 177972062127576 225 (-13363) (-13704) (-14064) (-14553) (-14796) (-15159) (-15758);
  row 178167431864804 224 (-13355) (-13696) (-14057) (-14547) (-14791) (-15154) (-15755);
  row 178362801602032 223 (-13346) (-13688) (-14050) (-14541) (-14785) (-15149) (-15751);
  row 178558171339260 222 (-13336) (-13680) (-14043) (-14535) (-14779) (-15144) (-15747);
  row 178753541076487 221 (-13327) (-13672) (-14035) (-14528) (-14773) (-15139) (-15743);
  row 178948910813715 220 (-13318) (-13663) (-14028) (-14522) (-14767) (-15134) (-15739);
  row 179144280550943 219 (-13308) (-13655) (-14020) (-14515) (-14761) (-15128) (-15735);
  row 179339650288170 218 (-13299) (-13646) (-14012) (-14508) (-14755) (-15123) (-15731);
  row 179535020025398 217 (-13289) (-13637) (-14004) (-14501) (-14748) (-15117) (-15727);
  row 179740158249487 216 (-13279) (-13628) (-13996) (-14494) (-14742) (-15112) (-15723);
  row 179935527986715 215 (-13269) (-13619) (-13988) (-14487) (-14735) (-15106) (-15718);
  row 180130897723943 214 (-13259) (-13610) (-13980) (-14480) (-14729) (-15100) (-15714);
  row 180336035948032 213 (-13249) (-13601) (-13971) (-14473) (-14722) (-15094) (-15709);
  row 180531405685259 212 (-13239) (-13591) (-13963) (-14465) (-14715) (-15088) (-15704);
  row 180726775422487 211 (-13229) (-13582) (-13954) (-14458) (-14708) (-15082) (-15699);
  row 180931913646576 210 (-13218) (-13572) (-13946) (-14450) (-14701) (-15076) (-15695);
  row 181127283383804 209 (-13207) (-13562) (-13937) (-14443) (-14694) (-15069) (-15690);
  row 181332421607893 208 (-13197) (-13552) (-13928) (-14435) (-14687) (-15063) (-15684);
  row 181527791345121 207 (-13186) (-13542) (-13919) (-14427) (-14679) (-15056) (-15679);
  row 181732929569210 206 (-13175) (-13532) (-13910) (-14419) (-14672) (-15050) (-15674);
  row 181928299306437 205 (-13164) (-13522) (-13901) (-14411) (-14664) (-15043) (-15668);
  row 182133437530527 204 (-13152) (-13512) (-13891) (-14402) (-14657) (-15036) (-15663);
  row 182328807267754 203 (-13141) (-13501) (-13882) (-14394) (-14649) (-15029) (-15657);
  row 182533945491843 202 (-13130) (-13490) (-13872) (-14386) (-14641) (-15022) (-15651);
  row 182739083715932 201 (-13118) (-13480) (-13862) (-14377) (-14633) (-15015) (-15646);
  row 182934453453160 200 (-13106) (-13469) (-13853) (-14368) (-14625) (-15007) (-15640);
  row 183139591677249 199 (-13095) (-13458) (-13843) (-14360) (-14616) (-15000) (-15634);
  row 183344729901338 198 (-13082) (-13447) (-13833) (-14351) (-14608) (-14992) (-15627);
  row 183540099638566 197 (-13071) (-13436) (-13823) (-14342) (-14600) (-14985) (-15621);
  row 183745237862655 196 (-13058) (-13424) (-13812) (-14333) (-14591) (-14977) (-15615);
  row 183950376086744 195 (-13045) (-13413) (-13802) (-14323) (-14582) (-14969) (-15608);
  row 184155514310833 194 (-13033) (-13402) (-13792) (-14314) (-14574) (-14961) (-15602);
  row 184360652534922 193 (-13020) (-13390) (-13781) (-14304) (-14565) (-14953) (-15595);
  row 184565790759011 192 (-13008) (-13378) (-13770) (-14295) (-14556) (-14945) (-15588);
  row 184770928983101 191 (-12995) (-13366) (-13759) (-14285) (-14547) (-14937) (-15581);
  row 184976067207190 190 (-12982) (-13354) (-13748) (-14275) (-14537) (-14928) (-15574);
  row 185181205431279 189 (-12969) (-13342) (-13737) (-14265) (-14528) (-14920) (-15567);
  row 185386343655368 188 (-12956) (-13330) (-13726) (-14255) (-14518) (-14911) (-15560);
  row 185591481879457 187 (-12942) (-13318) (-13715) (-14245) (-14509) (-14902) (-15553);
  row 185796620103546 186 (-12929) (-13304) (-13703) (-14235) (-14499) (-14893) (-15545);
  row 186001758327635 185 (-12915) (-13292) (-13692) (-14224) (-14489) (-14884) (-15538);
  row 186206896551724 184 (-12902) (-13280) (-13680) (-14214) (-14479) (-14875) (-15530);
  row 186412034775813 183 (-12888) (-13265) (-13668) (-14203) (-14469) (-14866) (-15522);
  row 186626941486764 182 (-12874) (-13252) (-13657) (-14193) (-14459) (-14857) (-15514);
  row 186832079710853 181 (-12860) (-13243) (-13645) (-14182) (-14449) (-14847) (-15506);
  row 187037217934942 180 (-12846) (-13230) (-13632) (-14171) (-14438) (-14838) (-15498);
  row 187242356159031 179 (-12831) (-13217) (-13620) (-14160) (-14428) (-14828) (-15490);
  row 187457262869981 178 (-12817) (-13203) (-13608) (-14148) (-14417) (-14819) (-15482);
  row 187662401094071 177 (-12802) (-13187) (-13595) (-14137) (-14406) (-14809) (-15473);
  row 187867539318160 176 (-12787) (-13175) (-13583) (-14126) (-14396) (-14799) (-15465);
  row 188082446029110 175 (-12772) (-13159) (-13570) (-14114) (-14385) (-14789) (-15456);
  row 188287584253199 174 (-12757) (-13147) (-13557) (-14102) (-14374) (-14778) (-15447);
  row 188492722477288 173 (-12742) (-13134) (-13544) (-14090) (-14362) (-14768) (-15438);
  row 188707629188239 172 (-12727) (-13119) (-13531) (-14079) (-14351) (-14757) (-15429);
  row 188922535899189 171 (-12711) (-13105) (-13518) (-14066) (-14339) (-14747) (-15420);
  row 189127674123278 170 (-12695) (-13090) (-13504) (-14054) (-14328) (-14736) (-15411);
  row 189342580834229 169 (-12678) (-13076) (-13491) (-14042) (-14316) (-14725) (-15402);
  row 189547719058318 168 (-12662) (-13061) (-13477) (-14029) (-14304) (-14714) (-15392);
  row 189762625769268 167 (-12645) (-13047) (-13463) (-14017) (-14292) (-14703) (-15383);
  row 189977532480219 166 (-12628) (-13032) (-13449) (-14004) (-14280) (-14692) (-15373);
  row 190182670704308 165 (-12616) (-13017) (-13435) (-13991) (-14268) (-14681) (-15363);
  row 190397577415258 164 (-12593) (-13002) (-13421) (-13978) (-14256) (-14669) (-15353);
  row 190612484126209 163 (-12577) (-12987) (-13407) (-13965) (-14243) (-14658) (-15343);
  row 190817622350298 162 (-12567) (-12972) (-13393) (-13952) (-14231) (-14646) (-15333);
  row 191032529061248 161 (-12543) (-12957) (-13378) (-13939) (-14218) (-14634) (-15323);
  row 191247435772199 160 (-12525) (-12941) (-13363) (-13925) (-14205) (-14623) (-15312);
  row 191462342483149 159 (-12508) (-12926) (-13349) (-13912) (-14192) (-14610) (-15302);
  row 191677249194100 158 (-12491) (-12910) (-13334) (-13898) (-14179) (-14598) (-15291);
  row 191892155905050 157 (-12481) (-12886) (-13319) (-13884) (-14166) (-14586) (-15280);
  row 192107062616001 156 (-12456) (-12869) (-13304) (-13870) (-14152) (-14574) (-15270);
  row 192321969326951 155 (-12439) (-12862) (-13288) (-13856) (-14139) (-14561) (-15259);
  row 192536876037902 154 (-12421) (-12846) (-13273) (-13842) (-14125) (-14548) (-15248);
  row 192751782748852 153 (-12403) (-12829) (-13257) (-13828) (-14112) (-14536) (-15236);
  row 192966689459803 152 (-12392) (-12813) (-13242) (-13813) (-14098) (-14523) (-15225);
  row 193181596170753 151 (-12374) (-12796) (-13226) (-13799) (-14084) (-14510) (-15213);
  row 193396502881704 150 (-12356) (-12780) (-13210) (-13784) (-14070) (-14496) (-15202);
  row 193611409592654 149 (-12330) (-12763) (-13194) (-13769) (-14056) (-14483) (-15190);
  row 193836084790466 148 (-12311) (-12746) (-13177) (-13754) (-14041) (-14470) (-15178);
  row 194050991501416 147 (-12293) (-12729) (-13161) (-13739) (-14027) (-14456) (-15166);
  row 194265898212367 146 (-12274) (-12712) (-13145) (-13724) (-14012) (-14443) (-15154);
  row 194480804923317 145 (-12255) (-12679) (-13128) (-13708) (-13997) (-14429) (-15142);
  row 194705480121129 144 (-12235) (-12677) (-13111) (-13693) (-13982) (-14415) (-15130);
  row 194920386832080 143 (-12223) (-12648) (-13094) (-13677) (-13967) (-14401) (-15117);
  row 195145062029892 142 (-12197) (-12642) (-13077) (-13661) (-13952) (-14386) (-15104);
  row 195359968740842 141 (-12184) (-12624) (-13060) (-13645) (-13937) (-14372) (-15092);
  row 195574875451793 140 (-12157) (-12606) (-13043) (-13629) (-13921) (-14358) (-15079);
  row 195799550649604 139 (-12137) (-12588) (-13025) (-13613) (-13906) (-14343) (-15066);
  row 196014457360555 138 (-12117) (-12569) (-13008) (-13597) (-13890) (-14328) (-15053);
  row 196239132558367 137 (-12097) (-12551) (-12975) (-13580) (-13874) (-14313) (-15040);
  row 196463807756179 136 (-12077) (-12532) (-12972) (-13563) (-13858) (-14298) (-15026);
  row 196678714467129 135 (-12056) (-12513) (-12954) (-13547) (-13842) (-14283) (-15013);
  row 196903389664941 134 (-12036) (-12494) (-12936) (-13530) (-13826) (-14268) (-14999);
  row 197118296375891 133 (-12015) (-12474) (-12918) (-13513) (-13810) (-14253) (-14985);
  row 197342971573703 132 (-11994) (-12455) (-12899) (-13496) (-13793) (-14237) (-14971);
  row 197567646771515 131 (-11977) (-12435) (-12881) (-13478) (-13776) (-14221) (-14957);
  row 197792321969327 130 (-11952) (-12415) (-12862) (-13461) (-13759) (-14206) (-14943);
  row 198016997167139 129 (-11932) (-12395) (-12843) (-13443) (-13743) (-14190) (-14929);
  row 198231903878089 128 (-11909) (-12375) (-12824) (-13425) (-13725) (-14174) (-14914);
  row 198456579075901 127 (-11887) (-12354) (-12805) (-13408) (-13708) (-14157) (-14900);
  row 198681254273713 126 (-11864) (-12333) (-12786) (-13389) (-13691) (-14141) (-14885);
  row 198905929471525 125 (-11843) (-12313) (-12766) (-13371) (-13673) (-14125) (-14870);
  row 199130604669337 124 (-11821) (-12292) (-12747) (-13353) (-13656) (-14108) (-14855);
  row 199355279867149 123 (-11799) (-12271) (-12727) (-13335) (-13638) (-14091) (-14840);
  row 199579955064960 122 (-11776) (-12249) (-12707) (-13316) (-13620) (-14074) (-14825);
  row 199804630262772 121 (-11753) (-12228) (-12687) (-13286) (-13602) (-14057) (-14810);
  row 200029305460584 120 (-11731) (-12206) (-12667) (-13278) (-13584) (-14040) (-14794);
  row 200253980658396 119 (-11708) (-12184) (-12647) (-13259) (-13565) (-14023) (-14779);
  row 200478655856208 118 (-11685) (-12163) (-12626) (-13240) (-13547) (-14005) (-14763);
  row 200713099540881 117 (-11661) (-12140) (-12606) (-13221) (-13528) (-13987) (-14747);
  row 200937774738693 116 (-11638) (-12118) (-12585) (-13201) (-13509) (-13970) (-14731);
  row 201162449936505 115 (-11614) (-12096) (-12564) (-13182) (-13490) (-13952) (-14715);
  row 201396893621178 114 (-11586) (-12073) (-12543) (-13162) (-13471) (-13934) (-14698);
  row 201621568818990 113 (-11566) (-12051) (-12522) (-13142) (-13452) (-13915) (-14682);
  row 201846244016802 112 (-11542) (-12008) (-12501) (-13122) (-13433) (-13897) (-14665);
  row 202070919214614 111 (-11518) (-12005) (-12479) (-13089) (-13413) (-13879) (-14648);
  row 202305362899287 110 (-11494) (-11981) (-12457) (-13081) (-13393) (-13860) (-14632);
  row 202530038097099 109 (-11469) (-11958) (-12436) (-13061) (-13373) (-13841) (-14615);
  row 202764481781772 108 (-11440) (-11934) (-12414) (-13040) (-13353) (-13822) (-14597);
  row 202989156979584 107 (-11419) (-11893) (-12392) (-13019) (-13333) (-13803) (-14580);
  row 203223600664257 106 (-11394) (-11887) (-12369) (-12985) (-13313) (-13784) (-14563);
  row 203448275862069 105 (-11369) (-11863) (-12325) (-12977) (-13293) (-13764) (-14545);
  row 203682719546742 104 (-11344) (-11839) (-12324) (-12956) (-13272) (-13745) (-14527);
  row 203917163231415 103 (-11318) (-11814) (-12301) (-12934) (-13251) (-13725) (-14509);
  row 204151606916089 102 (-11287) (-11790) (-12278) (-12912) (-13230) (-13705) (-14491);
  row 204376282113901 101 (-11266) (-11765) (-12255) (-12891) (-13209) (-13685) (-14473);
  row 204610725798574 100 (-11240) (-11740) (-12209) (-12869) (-13188) (-13665) (-14455);
  row 204845169483247 99 (-11209) (-11715) (-12208) (-12833) (-13167) (-13645) (-14436);
  row 205069844681059 98 (-11188) (-11690) (-12184) (-12811) (-13145) (-13625) (-14418);
  row 205314056852594 97 (-11156) (-11652) (-12160) (-12802) (-13123) (-13604) (-14399);
  row 205538732050405 96 (-11134) (-11639) (-12136) (-12779) (-13101) (-13583) (-14380);
  row 205773175735079 95 (-11107) (-11613) (-12112) (-12757) (-13079) (-13562) (-14361);
  row 206007619419752 94 (-11075) (-11576) (-12087) (-12734) (-13057) (-13541) (-14342);
  row 206242063104425 93 (-11053) (-11551) (-12040) (-12711) (-13035) (-13520) (-14322);
  row 206476506789098 92 (-11020) (-11535) (-12037) (-12673) (-13013) (-13499) (-14303);
  row 206710950473772 91 (-10992) (-11509) (-11990) (-12664) (-12990) (-13477) (-14283);
  row 206945394158445 90 (-10965) (-11482) (-11987) (-12641) (-12967) (-13455) (-14263);
  row 207189606329979 89 (-10936) (-11455) (-11962) (-12617) (-12944) (-13434) (-14243);
  row 207414281527791 88 (-10914) (-11429) (-11936) (-12593) (-12921) (-13412) (-14223);
  row 207658493699326 87 (-10885) (-11401) (-11911) (-12569) (-12898) (-13386) (-14203);
  row 207892937383999 86 (-10851) (-11366) (-11885) (-12545) (-12862) (-13367) (-14182);
  row 208127381068672 85 (-10823) (-11347) (-11858) (-12521) (-12851) (-13345) (-14162);
  row 208361824753346 84 (-10799) (-11319) (-11811) (-12496) (-12827) (-13322) (-14141);
  row 208606036924880 83 (-10770) (-11291) (-11806) (-12471) (-12803) (-13299) (-14120);
  row 208840480609554 82 (-10741) (-11263) (-11779) (-12447) (-12779) (-13276) (-14099);
  row 209084692781088 81 (-10711) (-11235) (-11752) (-12406) (-12754) (-13253) (-14078);
  row 209319136465761 80 (-10682) (-11200) (-11705) (-12396) (-12730) (-13230) (-14056);
  row 209563348637296 79 (-10652) (-11178) (-11698) (-12371) (-12693) (-13206) (-14035);
  row 209797792321969 78 (-10622) (-11143) (-11650) (-12345) (-12681) (-13183) (-14013);
  row 210042004493504 77 (-10586) (-11121) (-11623) (-12303) (-12643) (-13159) (-13991);
  row 210286216665039 76 (-10556) (-11092) (-11595) (-12294) (-12631) (-13135) (-13969);
  row 210520660349712 75 (-10525) (-11063) (-11588) (-12268) (-12605) (-13111) (-13947);
  row 210764872521246 74 (-10500) (-11033) (-11560) (-12242) (-12580) (-13086) (-13925);
  row 211009084692781 73 (-10463) (-11004) (-11531) (-12198) (-12554) (-13062) (-13902);
  row 211243528377454 72 (-10438) (-10974) (-11503) (-12189) (-12528) (-13037) (-13880);
  row 211487740548989 71 (-10401) (-10944) (-11474) (-12162) (-12502) (-13013) (-13857);
  row 211731952720524 70 (-10370) (-10907) (-11427) (-12135) (-12476) (-12988) (-13834);
  row 211966396405197 69 (-10343) (-10877) (-11417) (-12108) (-12450) (-12962) (-13811);
  row 212210608576731 68 (-10311) (-10853) (-11387) (-12081) (-12410) (-12937) (-13787);
  row 212454820748266 67 (-10274) (-10822) (-11358) (-12053) (-12397) (-12912) (-13764);
  row 212699032919801 66 (-10247) (-10791) (-11328) (-12025) (-12370) (-12886) (-13740);
  row 212943245091335 65 (-10215) (-10760) (-11299) (-11980) (-12329) (-12860) (-13717);
  row 213187457262870 64 (-10176) (-10729) (-11269) (-11970) (-12316) (-12834) (-13693);
  row 213441437921266 63 (-10144) (-10697) (-11239) (-11942) (-12288) (-12808) (-13668);
  row 213685650092801 62 (-10111) (-10659) (-11208) (-11913) (-12261) (-12771) (-13644);
  row 213929862264335 61 (-10077) (-10628) (-11178) (-11866) (-12219) (-12755) (-13620);
  row 214174074435870 60 (-10049) (-10602) (-11130) (-11856) (-12205) (-12728) (-13595);
  row 214418286607405 59 (-10016) (-10563) (-11116) (-11827) (-12177) (-12702) (-13570);
  row 214662498778939 58 (-9982) (-10537) (-11085) (-11798) (-12149) (-12675) (-13545);
  row 214906710950474 57 (-9948) (-10498) (-11054) (-11769) (-12120) (-12647) (-13520);
  row 215160691608870 56 (-9908) (-10466) (-11007) (-11739) (-12077) (-12620) (-13495);
  row 215404903780404 55 (-9879) (-10433) (-10991) (-11710) (-12063) (-12592) (-13469);
  row 215649115951939 54 (-9845) (-10405) (-10959) (-11661) (-12034) (-12565) (-13444);
  row 215903096610335 53 (-9810) (-10372) (-10927) (-11631) (-12004) (-12537) (-13418);
  row 216147308781870 52 (-9775) (-10338) (-10895) (-11619) (-11975) (-12508) (-13392);
  row 216401289440266 51 (-9734) (-10305) (-10848) (-11589) (-11931) (-12480) (-13366);
  row 216655270098662 50 (-9699) (-10271) (-10830) (-11558) (-11916) (-12452) (-13339);
  row 216899482270196 49 (-9663) (-10236) (-10797) (-11528) (-11886) (-12423) (-13313);
  row 217153462928592 48 (-9633) (-10196) (-10764) (-11497) (-11856) (-12394) (-13286);
  row 217397675100127 47 (-9597) (-10167) (-10717) (-11466) (-11810) (-12365) (-13259);
  row 217651655758523 46 (-9560) (-10127) (-10698) (-11434) (-11795) (-12336) (-13232);
  row 217905636416919 45 (-9524) (-10098) (-10664) (-11383) (-11764) (-12306) (-13205);
  row 218159617075315 44 (-9487) (-10056) (-10631) (-11351) (-11733) (-12277) (-13177);
  row 218413597733711 43 (-9445) (-10021) (-10583) (-11339) (-11702) (-12247) (-13150);
  row 218667578392107 42 (-9408) (-9985) (-10562) (-11307) (-11655) (-12206) (-13122);
  row 218921559050503 41 (-9370) (-9956) (-10515) (-11274) (-11639) (-12187) (-13094);
  row 219175539708899 40 (-9333) (-9914) (-10481) (-11242) (-11608) (-12157) (-13066);
  row 219419751880434 39 (-9301) (-9883) (-10459) (-11209) (-11576) (-12114) (-13038);
  row 219683501025691 38 (-9257) (-9847) (-10424) (-11176) (-11528) (-12095) (-13009);
  row 219937481684087 37 (-9219) (-9804) (-10389) (-11143) (-11511) (-12064) (-12980);
  row 220191462342483 36 (-9180) (-9773) (-10353) (-11110) (-11479) (-12033) (-12951);
  row 220445443000879 35 (-9147) (-9736) (-10318) (-11076) (-11446) (-12002) (-12922);
  row 220699423659275 34 (-9108) (-9699) (-10270) (-11042) (-11414) (-11971) (-12893);
  row 220953404317671 33 (-9069) (-9661) (-10246) (-10988) (-11364) (-11939) (-12864);
  row 221207384976067 32 (-9030) (-9618) (-10210) (-10974) (-11347) (-11907) (-12834);
  row 221471134121325 31 (-8990) (-9580) (-10173) (-10940) (-11314) (-11875) (-12797);
  row 221725114779721 30 (-8951) (-9542) (-10125) (-10884) (-11280) (-11843) (-12774);
  row 221979095438117 29 (-8911) (-9503) (-10100) (-10870) (-11246) (-11810) (-12744);
  row 222242844583374 28 (-8871) (-9471) (-10063) (-10835) (-11196) (-11777) (-12714);
  row 222496825241770 27 (-8830) (-9432) (-10025) (-10779) (-11178) (-11745) (-12683);
  row 222760574387027 26 (-8790) (-9393) (-9977) (-10765) (-11143) (-11700) (-12652);
  row 223014555045423 25 (-8749) (-9354) (-9950) (-10729) (-11109) (-11678) (-12622);
  row 223278304190681 24 (-8708) (-9314) (-9912) (-10693) (-11074) (-11645) (-12583);
  row 223532284849077 23 (-8667) (-9269) (-9874) (-10657) (-11039) (-11599) (-12559);
  row 223796033994334 22 (-8625) (-9229) (-9825) (-10621) (-11003) (-11577) (-12528);
  row 224059783139592 21 (-8583) (-9195) (-9797) (-10563) (-10951) (-11543) (-12496);
  row 224323532284849 20 (-8541) (-9154) (-9759) (-10548) (-10932) (-11497) (-12464);
  row 224577512943245 19 (-8499) (-9113) (-9720) (-10511) (-10896) (-11474) (-12432);
  row 224841262088502 18 (-8457) (-9072) (-9670) (-10474) (-10860) (-11440) (-12392);
  row 225105011233760 17 (-8414) (-9031) (-9641) (-10415) (-10824) (-11405) (-12359);
  row 225368760379017 16 (-8371) (-8990) (-9601) (-10399) (-10771) (-11370) (-12334);
  row 225632509524275 15 (-8328) (-8948) (-9561) (-10361) (-10734) (-11334) (-12301);
  row 225896258669532 14 (-8285) (-8907) (-9511) (-10323) (-10697) (-11299) (-12268);
  row 226160007814789 13 (-8241) (-8865) (-9481) (-10263) (-10659) (-11263) (-12235);
  row 226423756960047 12 (-8197) (-8823) (-9441) (-10246) (-10639) (-11215) (-12202);
  row 226687506105304 11 (-8153) (-8780) (-9400) (-10208) (-10601) (-11191) (-12168);
  row 226961023737423 10 (-8109) (-8738) (-9349) (-10169) (-10563) (-11155) (-12134);
  row 227224772882680 9 (-8064) (-8695) (-9318) (-10108) (-10525) (-11106) (-12100);
  row 227488522027938 8 (-8020) (-8652) (-9276) (-10090) (-10487) (-11069) (-12066);
  row 227752271173195 7 (-7975) (-8608) (-9224) (-10051) (-10431) (-11032) (-12031);
  row 228025788805314 6 (-7929) (-8565) (-9191) (-10011) (-10393) (-11007) (-11989);
  row 228289537950571 5 (-7884) (-8521) (-9149) (-9949) (-10371) (-10958) (-11961);
  row 228563055582690 4 (-7838) (-8477) (-9107) (-9931) (-10315) (-10932) (-11919);
  row 228826804727948 3 (-7792) (-8432) (-9064) (-9890) (-10292) (-10894) (-11891);
  row 229100322360066 2 (-7746) (-8388) (-9021) (-9828) (-10252) (-10856) (-11855);
  row 229364071505324 1 (-7699) (-8343) (-8978) (-9809) (-10196) (-10818) (-11820);
  row 229637589137443 0 (-7653) (-8298) (-8935) (-9746) (-10172) (-10779) (-11784);
  row 229911106769561 (-1) (-7606) (-8253) (-8891) (-9704) (-10132) (-10740) (-11748);
  row 230174855914819 (-2) (-7559) (-8207) (-8847) (-9684) (-10092) (-10689) (-11711);
  row 230448373546938 (-3) (-7511) (-8162) (-8803) (-9621) (-10034) (-10662) (-11675);
  row 230721891179056 (-4) (-7463) (-8116) (-8759) (-9579) (-10010) (-10623) (-11638);
  row 230995408811175 (-5) (-7415) (-8069) (-8715) (-9536) (-9969) (-10583) (-11601);
  row 231268926443294 (-6) (-7367) (-8023) (-8670) (-9516) (-9927) (-10531) (-11556);
  row 231542444075413 (-7) (-7319) (-7976) (-8625) (-9451) (-9868) (-10503) (-11526);
  row 231815961707532 (-8) (-7270) (-7929) (-8580) (-9430) (-9843) (-10463) (-11488);
  row 232089479339650 (-9) (-7221) (-7882) (-8534) (-9365) (-9801) (-10411) (-11443);
  row 232362996971769 (-10) (-7172) (-7835) (-8488) (-9343) (-9742) (-10382) (-11413);
  row 232636514603888 (-11) (-7122) (-7787) (-8442) (-9278) (-9716) (-10329) (-11374);
  row 232910032236007 (-12) (-7072) (-7739) (-8396) (-9234) (-9657) (-10288) (-11336);
  row 233183549868125 (-13) (-7022) (-7691) (-8350) (-9209) (-9630) (-10258) (-11297);
  row 233466835987106 (-14) (-6972) (-7642) (-8303) (-9164) (-9587) (-10205) (-11258);
  row 233740353619224 (-15) (-6922) (-7594) (-8256) (-9119) (-9527) (-10174) (-11211);
  row 234013871251343 (-16) (-6871) (-7545) (-8209) (-9074) (-9483) (-10132) (-11179);
  row 234297157370323 (-17) (-6820) (-7495) (-8161) (-9029) (-9455) (-10078) (-11140);
  row 234570675002442 (-18) (-6768) (-7446) (-8114) (-8984) (-9411) (-10047) (-11100);
  row 234853961121422 (-19) (-6717) (-7396) (-8066) (-8937) (-9366) (-10004) (-11053);
  row 235127478753541 (-20) (-6665) (-7346) (-8017) (-8892) (-9322) (-9961) (-11020);
  row 235410764872521 (-21) (-6613) (-7296) (-7969) (-8845) (-9277) (-9906) (-10979);
  row 235694050991501 (-22) (-6560) (-7245) (-7920) (-8799) (-9231) (-9863) (-10938);
  row 235967568623620 (-23) (-6508) (-7194) (-7871) (-8752) (-9184) (-9819) (-10897);
  row 236250854742600 (-24) (-6455) (-7143) (-7822) (-8705) (-9139) (-9775) (-10856);
  row 236534140861580 (-25) (-6401) (-7092) (-7772) (-8658) (-9092) (-9742) (-10807);
  row 236817426980561 (-26) (-6348) (-7040) (-7723) (-8610) (-9046) (-9698) (-10773);
  row 237100713099541 (-27) (-6294) (-6988) (-7673) (-8562) (-8999) (-9653) (-10731);
  row 237383999218521 (-28) (-6240) (-6936) (-7622) (-8514) (-8953) (-9597) (-10682);
  row 237667285337501 (-29) (-6186) (-6884) (-7572) (-8466) (-8906) (-9563) (-10647);
  row 237950571456481 (-30) (-6131) (-6831) (-7521) (-8417) (-8858) (-9517) (-10604);
  row 238233857575462 (-31) (-6076) (-6778) (-7470) (-8368) (-8811) (-9460) (-10561);
  row 238517143694442 (-32) (-6021) (-6725) (-7418) (-8319) (-8763) (-9426) (-10511);
  row 238800429813422 (-33) (-5965) (-6671) (-7367) (-8270) (-8715) (-9379) (-10475);
  row 239093484419263 (-34) (-5910) (-6618) (-7315) (-8220) (-8666) (-9333) (-10431);
  row 239376770538244 (-35) (-5854) (-6563) (-7263) (-8170) (-8618) (-9275) (-10381);
  row 239660056657224 (-36) (-5797) (-6509) (-7210) (-8120) (-8569) (-9239) (-10344);
  row 239953111263065 (-37) (-5741) (-6455) (-7157) (-8070) (-8520) (-9191) (-10299);
  row 240236397382046 (-38) (-5684) (-6400) (-7104) (-8019) (-8470) (-9144) (-10255);
  row 240529451987887 (-39) (-5627) (-6344) (-7051) (-7968) (-8420) (-9096) (-10203);
  row 240812738106867 (-40) (-5569) (-6289) (-6997) (-7917) (-8370) (-9048) (-10165);
  row 241105792712709 (-41) (-5511) (-6233) (-6944) (-7865) (-8320) (-9000) (-10120);
  row 241398847318550 (-42) (-5453) (-6177) (-6890) (-7814) (-8270) (-8951) (-10068);
  row 241691901924392 (-43) (-5395) (-6121) (-6835) (-7762) (-8219) (-8902) (-10029);
  row 241975188043372 (-44) (-5336) (-6064) (-6780) (-7709) (-8168) (-8853) (-9983);
  row 242268242649214 (-45) (-5277) (-6007) (-6725) (-7657) (-8117) (-8804) (-9937);
  row 242561297255055 (-46) (-5218) (-5950) (-6670) (-7604) (-8065) (-8754) (-9884);
  row 242854351860897 (-47) (-5159) (-5893) (-6615) (-7551) (-8014) (-8704) (-9844);
  row 243147406466738 (-48) (-5099) (-5835) (-6559) (-7497) (-7961) (-8654) (-9797);
  row 243440461072580 (-49) (-5038) (-5777) (-6503) (-7443) (-7909) (-8604) (-9743);
  row 243733515678421 (-50) (-4978) (-5718) (-6446) (-7389) (-7857) (-8553) (-9702);
  row 244036338771124 (-51) (-4917) (-5660) (-6390) (-7335) (-7804) (-8503) (-9654);
  row 244329393376966 (-52) (-4856) (-5601) (-6333) (-7281) (-7751) (-8451) (-9606);
  row 244622447982807 (-53) (-4795) (-5541) (-6275) (-7226) (-7697) (-8400) (-9552);
  row 244915502588649 (-54) (-4733) (-5482) (-6218) (-7171) (-7643) (-8348) (-9504);
  row 245218325681352 (-55) (-4671) (-5422) (-6160) (-7115) (-7589) (-8296) (-9455);
  row 245521148774055 (-56) (-4603) (-5362) (-6101) (-7060) (-7535) (-8244) (-9412);
  row 245814203379896 (-57) (-4541) (-5295) (-6043) (-7004) (-7481) (-8192) (-9363);
  row 246107257985738 (-58) (-4483) (-5241) (-5984) (-6948) (-7426) (-8139) (-9314);
  row 246410081078441 (-59) (-4420) (-5172) (-5902) (-6891) (-7371) (-8086) (-9263);
  row 246712904171144 (-60) (-4356) (-5110) (-5843) (-6819) (-7315) (-8032) (-9213);
  row 247015727263847 (-61) (-4292) (-5057) (-5808) (-6778) (-7248) (-7979) (-9163);
  row 247308781869688 (-62) (-4228) (-4985) (-5747) (-6720) (-7204) (-7926) (-9112);
  row 247611604962391 (-63) (-4163) (-4932) (-5687) (-6647) (-7148) (-7862) (-9057);
  row 247914428055094 (-64) (-4098) (-4858) (-5626) (-6589) (-7091) (-7808) (-9006);
  row 248217251147797 (-65) (-4033) (-4806) (-5564) (-6530) (-7034) (-7762) (-8960);
  row 248520074240500 (-66) (-3967) (-4743) (-5477) (-6486) (-6977) (-7698) (-8908);
  row 248822897333203 (-67) (-3901) (-4679) (-5415) (-6413) (-6919) (-7643) (-8856);
  row 249135488912767 (-68) (-3829) (-4599) (-5378) (-6354) (-6861) (-7587) (-8799);
  row 249438312005470 (-69) (-3762) (-4534) (-5315) (-6294) (-6792) (-7540) (-8752);
  row 249741135098173 (-70) (-3701) (-4486) (-5252) (-6248) (-6734) (-7484) (-8699);
  row 250053726677738 (-71) (-3628) (-4421) (-5188) (-6188) (-6675) (-7427) (-8642);
  row 250356549770441 (-72) (-3566) (-4355) (-5124) (-6114) (-6627) (-7362) (-8593);
  row 250669141350005 (-73) (-3498) (-4290) (-5060) (-6067) (-6568) (-7313) (-8540);
  row 250971964442708 (-74) (-3430) (-4224) (-4995) (-6005) (-6508) (-7256) (-8486);
  row 251284556022272 (-75) (-3361) (-4135) (-4930) (-5944) (-6448) (-7198) (-8432);
  row 251597147601836 (-76) (-3287) (-4090) (-4865) (-5882) (-6378) (-7141) (-8378);
  row 251899970694539 (-77) (-3223) (-4023) (-4779) (-5808) (-6314) (-7082) (-8323);
  row 252212562274104 (-78) (-3153) (-3956) (-4733) (-5758) (-6267) (-7024) (-8265);
  row 252525153853668 (-79) (-3083) (-3888) (-4667) (-5695) (-6206) (-6965) (-8214);
  row 252837745433232 (-80) (-3013) (-3820) (-4600) (-5632) (-6144) (-6906) (-8158);
  row 253150337012797 (-81) (-2942) (-3752) (-4534) (-5569) (-6083) (-6847) (-8103);
  row 253462928592361 (-82) (-2871) (-3683) (-4467) (-5506) (-6021) (-6787) (-8043);
  row 253775520171925 (-83) (-2800) (-3614) (-4399) (-5442) (-5959) (-6727) (-7991);
  row 254088111751490 (-84) (-2728) (-3544) (-4331) (-5378) (-5896) (-6667) (-7934);
  row 254400703331054 (-85) (-2656) (-3474) (-4263) (-5313) (-5833) (-6607) (-7878);
  row 254723063397480 (-86) (-2583) (-3404) (-4195) (-5248) (-5770) (-6546) (-7821);
  row 255035654977044 (-87) (-2510) (-3333) (-4127) (-5183) (-5707) (-6485) (-7764);
  row 255358015043470 (-88) (-2437) (-3261) (-4058) (-5118) (-5643) (-6423) (-7706);
  row 255670606623034 (-89) (-2363) (-3189) (-3988) (-5052) (-5579) (-6362) (-7648);
  row 255992966689460 (-90) (-2289) (-3116) (-3919) (-4986) (-5514) (-6300) (-7590);
  row 256305558269024 (-91) (-2215) (-3043) (-3849) (-4920) (-5450) (-6237) (-7532);
  row 256627918335450 (-92) (-2141) (-2969) (-3779) (-4853) (-5385) (-6175) (-7474);
  row 256950278401876 (-93) (-2065) (-2895) (-3708) (-4786) (-5319) (-6112) (-7415);
  row 257272638468301 (-94) (-1990) (-2821) (-3637) (-4719) (-5254) (-6049) (-7356);
  row 257594998534727 (-95) (-1914) (-2746) (-3566) (-4651) (-5188) (-5985) (-7296);
  row 257917358601153 (-96) (-1838) (-2672) (-3495) (-4583) (-5121) (-5922) (-7237);
  row 258239718667578 (-97) (-1762) (-2597) (-3423) (-4515) (-5055) (-5858) (-7177);
  row 258562078734004 (-98) (-1685) (-2521) (-3350) (-4446) (-4988) (-5793) (-7116);
  row 258884438800430 (-99) (-1607) (-2445) (-3278) (-4377) (-4921) (-5728) (-7056);
  row 259216567353717 (-100) (-1530) (-2369) (-3205) (-4308) (-4853) (-5663) (-6995);
  row 259538927420143 (-101) (-1452) (-2293) (-3132) (-4238) (-4785) (-5598) (-6934);
  row 259861287486568 (-102) (-1373) (-2216) (-3058) (-4168) (-4717) (-5533) (-6873);
  row 260193416039855 (-103) (-1295) (-2139) (-2984) (-4098) (-4649) (-5467) (-6811);
  row 260525544593143 (-104) (-1215) (-2062) (-2910) (-4028) (-4580) (-5400) (-6750);
  row 260847904659568 (-105) (-1136) (-1984) (-2835) (-3957) (-4511) (-5334) (-6688);
  row 261180033212855 (-106) (-1056) (-1906) (-2760) (-3885) (-4441) (-5267) (-6625);
  row 261512161766142 (-107) (-977) (-1828) (-2685) (-3814) (-4371) (-5200) (-6563);
  row 261844290319430 (-108) (-897) (-1749) (-2609) (-3742) (-4301) (-5132) (-6500);
  row 262176418872717 (-109) (-819) (-1670) (-2533) (-3669) (-4231) (-5065) (-6436);
  row 262508547426004 (-110) (-740) (-1591) (-2457) (-3597) (-4160) (-4997) (-6373);
  row 262840675979291 (-111) (-658) (-1511) (-2380) (-3524) (-4089) (-4928) (-6309);
  row 263172804532578 (-112) (-576) (-1431) (-2303) (-3451) (-4017) (-4860) (-6245);
  row 263504933085865 (-113) (-493) (-1352) (-2226) (-3377) (-3946) (-4790) (-6180);
  row 263837061639152 (-114) (-410) (-1271) (-2148) (-3303) (-3873) (-4721) (-6115);
  row 264178958679301 (-115) (-327) (-1191) (-2069) (-3228) (-3801) (-4652) (-6050);
  row 264511087232588 (-116) (-243) (-1110) (-1991) (-3154) (-3728) (-4582) (-5984);
  row 264852984272736 (-117) (-159) (-1028) (-1912) (-3079) (-3655) (-4511) (-5918);
  row 265185112826023 (-118) (-74) (-946) (-1833) (-3003) (-3581) (-4441) (-5851);
  row 265527009866172 (-119) 11 (-864) (-1753) (-2927) (-3508) (-4370) (-5784);
  row 265868906906320 (-120) 97 (-781) (-1673) (-2851) (-3433) (-4299) (-5717);
  row 266210803946469 (-121) 183 (-698) (-1592) (-2775) (-3359) (-4227) (-5649);
  row 266542932499756 (-122) 269 (-617) (-1511) (-2698) (-3284) (-4155) (-5581);
  row 266884829539904 (-123) 356 (-533) (-1430) (-2621) (-3209) (-4083) (-5513);
  row 267226726580053 (-124) 443 (-449) (-1348) (-2543) (-3133) (-4011) (-5444);
  row 267578392107063 (-125) 531 (-363) (-1266) (-2465) (-3058) (-3938) (-5374);
  row 267920289147211 (-126) 619 (-278) (-1184) (-2387) (-2981) (-3865) (-5305);
  row 268262186187360 (-127) 708 (-193) (-1101) (-2308) (-2905) (-3792) (-5235);
  row 268613851714369 (-128) 797 (-106) (-1018) (-2229) (-2828) (-3718) (-5165);
  row 268955748754518 (-129) 887 (-20) (-934) (-2150) (-2751) (-3645) (-5094);
  row 269307414281528 (-130) 977 67 (-850) (-2070) (-2673) (-3571) (-5023);
  row 269659079808538 (-131) 1067 155 (-766) (-1990) (-2595) (-3496) (-4951);
  row 270000976848686 (-132) 1158 243 (-681) (-1910) (-2517) (-3421) (-4880);
  row 270352642375696 (-133) 1250 331 (-596) (-1829) (-2438) (-3345) (-4807);
  row 270704307902706 (-134) 1341 420 (-511) (-1748) (-2360) (-3269) (-4735);
  row 271055973429716 (-135) 1434 509 (-425) (-1666) (-2280) (-3193) (-4662);
  row 271417407443587 (-136) 1527 600 (-338) (-1585) (-2201) (-3116) (-4589);
  row 271769072970597 (-137) 1620 687 (-251) (-1502) (-2121) (-3038) (-4515);
  row 272120738497607 (-138) 1714 777 (-164) (-1420) (-2041) (-2960) (-4441);
  row 272482172511478 (-139) 1808 867 (-77) (-1337) (-1961) (-2882) (-4367);
  row 272833838038488 (-140) 1903 959 11 (-1253) (-1880) (-2803) (-4292);
  row 273195272052359 (-141) 1998 1051 100 (-1170) (-1799) (-2724) (-4217);
  row 273556706066230 (-142) 2094 1143 189 (-1086) (-1717) (-2644) (-4142);
  row 273918140080102 (-143) 2190 1236 278 (-1001) (-1636) (-2564) (-4066);
  row 274279574093973 (-144) 2287 1329 367 (-917) (-1553) (-2483) (-3990);
  row 274641008107844 (-145) 2384 1421 458 (-832) (-1470) (-2402) (-3913);
  row 275002442121715 (-146) 2482 1514 548 (-747) (-1387) (-2320) (-3836);
  row 275363876135587 (-147) 2580 1612 639 (-661) (-1303) (-2238) (-3759);
  row 275725310149458 (-148) 2679 1708 730 (-575) (-1218) (-2156) (-3681);
  row 276096512650190 (-149) 2778 1803 822 (-489) (-1133) (-2073) (-3603);
  row 276457946664062 (-150) 2878 1900 914 (-402) (-1047) (-1990) (-3524);
  row 276829149164794 (-151) 2979 1996 1007 (-316) (-961) (-1906) (-3445);
  row 277200351665527 (-152) 3080 2093 1100 (-228) (-874) (-1822) (-3366);
  row 277571554166260 (-153) 3181 2191 1193 (-140) (-786) (-1738) (-3286);
  row 277942756666992 (-154) 3283 2289 1287 (-51) (-699) (-1653) (-3206);
  row 278313959167725 (-155) 3386 2388 1381 39 (-610) (-1568) (-3126);
  row 278685161668458 (-156) 3489 2487 1476 130 (-522) (-1482) (-3045);
  row 279066132656052 (-157) 3592 2586 1571 221 (-432) (-1396) (-2964);
  row 279437335156784 (-158) 3697 2686 1666 312 (-343) (-1309) (-2882);
  row 279818306144378 (-159) 3801 2784 1762 404 (-253) (-1222) (-2800);
  row 280189508645111 (-160) 3907 2883 1858 497 (-162) (-1135) (-2718);
  row 280570479632705 (-161) 4013 2990 1954 590 (-71) (-1047) (-2635);
  row 280951450620299 (-162) 4119 3090 2051 684 21 (-958) (-2552);
  row 281332421607893 (-163) 4226 3193 2148 778 113 (-870) (-2468);
  row 281713392595487 (-164) 4334 3297 2245 872 205 (-780) (-2384);
  row 282094363583081 (-165) 4442 3401 2343 968 298 (-691) (-2300);
  row 282485103057536 (-166) 4551 3506 2441 1063 391 (-601) (-2215);
  row 282866074045130 (-167) 4660 3611 2539 1159 485 (-510) (-2129);
  row 283256813519586 (-168) 4770 3717 2639 1256 580 (-419) (-2044);
  row 283647552994041 (-169) 4881 3823 2739 1353 674 (-328) (-1958);
  row 284028523981635 (-170) 4992 3930 2841 1451 770 (-236) (-1871);
  row 284419263456091 (-171) 5104 4036 2944 1549 865 (-143) (-1784);
  row 284819771417407 (-172) 5216 4142 3047 1647 962 (-51) (-1697);
  row 285210510891863 (-173) 5329 4248 3151 1746 1058 43 (-1609);
  row 285601250366318 (-174) 5443 4355 3255 1846 1155 136 (-1521);
  row 286001758327635 (-175) 5557 4462 3360 1946 1253 231 (-1432);
  row 286392497802090 (-176) 5673 4569 3466 2046 1351 325 (-1343);
  row 286793005763407 (-177) 5788 4676 3572 2147 1450 420 (-1253);
  row 287193513724724 (-178) 5905 4783 3678 2249 1549 516 (-1163);
  row 287594021686041 (-179) 6021 4892 3786 2351 1649 612 (-1073);
  row 287994529647358 (-180) 6139 5002 3893 2454 1749 709 (-982)
].
