(* ===== verification/HalLensGeometry.v ===== *)
(** Zoom ratios, distances and motor positions of the AF0832 lens (the table functions of
    [hal_v2/common/devices/hal_lens_af0832.c]), and the move to a ratio and a distance.

    Undefined behaviour is [None]: a negation that overflows.  Out-parameters are
    results; a [NULL] one is [false]. *)
From S2P Require Import Prelude Ms41908mReg FactoryFormat BspCtrl HalFloat HalLensFg2009 HalLensAf0832 HalLensTable.

Definition clamp_double (v lo hi : spec_float) : spec_float := if SFltb v lo then lo else if SFgtb v hi then hi else v.
Definition lerp (a b t : spec_float) : spec_float := f64_add a (f64_mul (f64_sub b a) t).
Definition neg32 (v : Z) : option Z := if v =? -2147483648 then None else Some (- v).

Definition no_row : Af0832TableRow := row 0 0 0 0 0 0 0 0 0.
Definition trow (i : nat) : Af0832TableRow := nth i AF0832_TABLE no_row.
Definition table_n : nat := length AF0832_TABLE.

(** ** The segment of the table a ratio lies in *)
(** [rows] are those from [i] on. *)
Fixpoint segment_loop (rows : list Af0832TableRow) (i : nat) (r : spec_float) : nat * nat * spec_float :=
  match rows with
  | a :: ((b :: _) as rest) =>
      let r0 := ratio a in let r1 := ratio b in
      if SFgeb r r0 && SFleb r r1 then (i, S i, if SFeqb r1 r0 then f64 0 else f64_div (f64_sub r r0) (f64_sub r1 r0))
      else segment_loop rest (S i) r
  | _ => ((table_n - 1)%nat, (table_n - 1)%nat, f64 0)
  end.
Definition find_zoom_segment (r : spec_float) : nat * nat * spec_float :=
  if (table_n =? 0)%nat then (0%nat, 0%nat, f64 0)
  else if SFleb r (ratio (trow 0)) then (0%nat, 0%nat, f64 0)
  else if SFgeb r (ratio (trow (table_n - 1))) then ((table_n - 1)%nat, (table_n - 1)%nat, f64 0)
  else segment_loop AF0832_TABLE 0 r.

(** ** The focus position in a row *)
Definition known_distances : list spec_float := Eval vm_compute in [f64 10; f64 5; f64 3; dec64 25 1; f64 2; dec64 15 1].
Fixpoint distance_loop (ds fs : list spec_float) (dist_m : spec_float) : option spec_float :=
  match ds, fs with
  | d0 :: ((d1 :: _) as ds'), f0 :: ((f1 :: _) as fs') =>
      if SFleb dist_m d0 && SFgeb dist_m d1
      then Some (lerp f0 f1 (if SFeqb d1 d0 then f64 0 else f64_div (f64_sub dist_m d0) (f64_sub d1 d0)))
      else distance_loop ds' fs' dist_m
  | _, _ => None
  end.
Definition focus_at_distance_in_row (w : Af0832TableRow) (dist_m : spec_float) : spec_float :=
  if SFleb dist_m (f64 0) then focus_inf w
  else
    let dist_m := clamp_double dist_m (dec64 15 1) (f64 10) in
    if SFgeb dist_m (f64 10) then focus_10m w
    else if SFleb dist_m (dec64 15 1) then focus_1_5m w
    else
      default (focus_1_5m w)
        (distance_loop known_distances [focus_10m w; focus_5m w; focus_3m w; focus_2_5m w; focus_2m w; focus_1_5m w] dist_m).

Definition zoom_steps_for_ratio (r : spec_float) : spec_float :=
  let '(i0, i1, t) := find_zoom_segment r in lerp (zoom_steps_w2t (trow i0)) (zoom_steps_w2t (trow i1)) t.
Definition focus_steps_for_ratio_distance (r dist_m : spec_float) : spec_float :=
  let '(i0, i1, t) := find_zoom_segment r in
  lerp (focus_at_distance_in_row (trow i0) dist_m) (focus_at_distance_in_row (trow i1) dist_m) t.

Section Unspecified.
(** The result of [llround] where the standard does not say. *)
Context (unspecified : spec_float -> Z).

Definition table_steps_to_hal_steps (table_steps : spec_float) : Z := lround32 unspecified (f64_mul table_steps (f64 4)).

(** The targets before they are cut to the limits, for a ratio and a distance of type
    [float]. *)
Definition table_ratio (zoom_ratio : spec_float) : spec_float :=
  let zr := f32_to_f64 zoom_ratio in
  if (0 <? table_n)%nat then clamp_double zr (ratio (trow 0)) (ratio (trow (table_n - 1)))
  else clamp_double zr (f64 1) (dec64 288 2).
Definition raw_targets (zoom_ratio focus_distance_m : spec_float) : option (Z * Z) :=
  let zr := table_ratio zoom_ratio in
  zt ← neg32 (table_steps_to_hal_steps (zoom_steps_for_ratio zr));
  Some (zt, table_steps_to_hal_steps (focus_steps_for_ratio_distance zr (f32_to_f64 focus_distance_m))).

(** The status, and what is stored through the two pointers. *)
Definition hal_lens_af0832_calc_targets (zoom_ratio focus_distance_m : spec_float) (zoom_target focus_target : bool)
  : option (Z * option Z * option Z) :=
  if negb zoom_target && negb focus_target then Some (HAL_ERR_INVALID_ARG, None, None)
  else
    '(zt, ft) ← raw_targets zoom_ratio focus_distance_m;
    let zt := clamp_i32 zt HAL_LENS_AF0832_DEFAULT_ZOOM_MIN_POS HAL_LENS_AF0832_DEFAULT_ZOOM_MAX_POS in
    let ft := clamp_i32 ft HAL_LENS_AF0832_DEFAULT_FOCUS_MIN_POS HAL_LENS_AF0832_DEFAULT_FOCUS_MAX_POS in
    Some (HAL_OK, if zoom_target then Some zt else None, if focus_target then Some ft else None).

(** ** Estimating the distance *)
Definition dists : list spec_float := Eval vm_compute in [f64 0; f64 10; f64 5; f64 3; dec64 25 1; f64 2; dec64 15 1].
Fixpoint focus_positions (zoom_ratio : spec_float) (ds : list spec_float) : option (list Z) :=
  match ds with
  | [] => Some []
  | d :: ds =>
      '(_, _, f) ← hal_lens_af0832_calc_targets zoom_ratio (f64_to_f32 d) false true;
      fs ← focus_positions zoom_ratio ds;
      Some (default 0 f :: fs)
  end.
(** Whether the position is between those for two neighbouring distances. *)
Definition between (focus_pos f0 f1 : Z) : bool := (Z.min f0 f1 <=? focus_pos) && (focus_pos <=? Z.max f0 f1).
Definition err_to (focus_pos f : Z) : spec_float := SFabs (f64_sub (f64 focus_pos) (f64 f)).
Fixpoint band_loop (ds : list spec_float) (fs : list Z) (focus_pos : Z) : option spec_float :=
  match ds, fs with
  | d0 :: ((d1 :: _) as ds'), f0 :: ((f1 :: _) as fs') =>
      if between focus_pos f0 f1 then
        let t := if f1 =? f0 then f64 0 else f64_div (f64_sub (f64 focus_pos) (f64 f0)) (f64_sub (f64 f1) (f64 f0)) in
        Some (f64_to_f32 (lerp d0 d1 t))
      else band_loop ds' fs' focus_pos
  | _, _ => None
  end.
Fixpoint best_loop (ds : list spec_float) (fs : list Z) (focus_pos : Z) (best best_err : spec_float) : spec_float :=
  match ds, fs with
  | d :: ds, f :: fs =>
      let err := err_to focus_pos f in
      if SFltb err best_err then best_loop ds fs focus_pos d err else best_loop ds fs focus_pos best best_err
  | _, _ => f64_to_f32 best
  end.
(** The status and [*distance_m]. *)
Definition hal_lens_af0832_estimate_distance (zoom_ratio : spec_float) (focus_pos : Z) (distance_m : bool) : option (Z * option spec_float) :=
  if negb distance_m then Some (HAL_ERR_INVALID_ARG, None)
  else
    fpos ← focus_positions zoom_ratio dists;
    let f0 := nth 0 fpos 0 in let f1 := nth 1 fpos 0 in
    if between focus_pos f0 f1 then
      Some (HAL_OK, Some (if SFleb (err_to focus_pos f0) (err_to focus_pos f1) then f32 0 else f32 10))
    else
      match band_loop (tl dists) (tl fpos) focus_pos with
      | Some d => Some (HAL_OK, Some d)
      | None => Some (HAL_OK, Some (best_loop (tl dists) (tl fpos) focus_pos (f64 0) (err_to focus_pos f0)))
      end.

(** ** From a zoom position to the ratio *)
Fixpoint ratio_loop (rows : list Af0832TableRow) (table_steps : spec_float) : spec_float :=
  match rows with
  | a :: ((b :: _) as rest) =>
      let s0 := zoom_steps_w2t a in let s1 := zoom_steps_w2t b in
      if SFleb table_steps s0 && SFgeb table_steps s1
      then f64_to_f32 (lerp (ratio a) (ratio b) (if SFeqb s0 s1 then f64 0 else f64_div (f64_sub s0 table_steps) (f64_sub s0 s1)))
      else ratio_loop rest table_steps
  | _ => f64_to_f32 (ratio (trow (table_n - 1)))
  end.
Definition hal_lens_af0832_pos_to_ratio (hal_zoom_pos : Z) : option spec_float :=
  if (table_n =? 0)%nat then Some (f32 1)
  else
    neg ← neg32 hal_zoom_pos;
    let table_steps := f64_div (f64 neg) (f64 4) in
    Some (if SFgeb table_steps (zoom_steps_w2t (trow 0)) then f64_to_f32 (ratio (trow 0))
          else if SFleb table_steps (zoom_steps_w2t (trow (table_n - 1))) then f64_to_f32 (ratio (trow (table_n - 1)))
          else ratio_loop AF0832_TABLE table_steps).

(** ** The move to a ratio and a distance *)
Definition pps_min : Z := 24.
(** The speeds of the two axes: the shorter travel is slowed down. *)
Definition balance (default_pps zm_abs fs_abs : Z) : Z * Z :=
  if (0 <? zm_abs) && (0 <? fs_abs) then
    if fs_abs <? zm_abs then
      let scaled := u32 (default_pps * fs_abs) / zm_abs in
      (default_pps, if scaled <? pps_min then pps_min else u16 scaled)
    else
      let scaled := u32 (default_pps * zm_abs) / fs_abs in
      (if scaled <? pps_min then pps_min else u16 scaled, default_pps)
  else (default_pps, default_pps).

Section Device.
Context `{LensOps D}.
Notation af := (af_state D).
Definition some_or_undef {A} (o : option A) : M af A := match o with Some a => mret a | None => undef end.

Definition hal_lens_af0832_goto_by_ratio_distance (fuel : nat) (zoom_ratio focus_distance_m : spec_float) : M af Z :=
  guarded
    ('(zt, ft) ← some_or_undef (raw_targets zoom_ratio focus_distance_m);
     d ← the_dev;
     let p := af_params d in
     let zoom_target := clamp_i32 zt (min_pos (zoom_limit p)) (max_pos (zoom_limit p)) in
     let focus_target := clamp_i32 ft (min_pos (focus_limit p)) (max_pos (focus_limit p)) in
     '(r, st) ← state_get;
     if negb (r =? HAL_OK) then mret r
     else
       zm_delta ← diff32 zoom_target (hs_zoom_pos st);
       fs_delta ← diff32 focus_target (hs_focus_pos st);
       if (zm_delta =? 0) && (fs_delta =? 0) then mret HAL_OK
       else
         d ← the_dev;
         zm_abs ← (if zm_delta <? 0 then some_or_undef (neg32 zm_delta) else mret zm_delta);
         fs_abs ← (if fs_delta <? 0 then some_or_undef (neg32 fs_delta) else mret fs_delta);
         let '(zm_pps, fs_pps) := balance (af_default_pps (af_params d)) zm_abs fs_abs in
         hal_lens_af0832_zf_sync_run fuel (Some (mkZf zm_pps zm_delta fs_pps fs_delta))).
End Device.
End Unspecified.
