(* ===== verification/HalLensGeoProps.v ===== *)
(** The conversions between zoom positions and zoom ratios on the table of the AF0832
    lens: every position comes back. *)
From stdpp Require Import sorting.
From S2P Require Import Prelude Ms41908mReg FactoryFormat BspCtrl HalFloat HalLensFg2009 HalLensAf0832 HalLensTable HalLensGeometry.

(** ** Searching a sorted table *)
Definition up (a b : Af0832TableRow) : Prop := SFltb (ratio a) (ratio b) = true.
Definition down (a b : Af0832TableRow) : Prop := SFltb (zoom_steps_w2t b) (zoom_steps_w2t a) = true.
#[export] Instance up_trans : Transitive up.
Proof. intros a b c. apply SFltb_trans. Qed.
#[export] Instance down_trans : Transitive down.
Proof. intros a b c H1 H2. by apply (SFltb_trans _ _ _ H2). Qed.
Fixpoint adjacent (R : Af0832TableRow -> Af0832TableRow -> bool) (l : list Af0832TableRow) : bool :=
  match l with
  | a :: ((b :: _) as rest) => R a b && adjacent R rest
  | _ => true
  end.
Lemma adjacent_sorted (R : Af0832TableRow -> Af0832TableRow -> bool) l : adjacent R l = true -> Sorted (fun a b => R a b = true) l.
Proof.
  induction l as [|a [|b l] IH]; intros H; [constructor|by repeat constructor|]. cbn [adjacent] in H. apply andb_true_iff in H as [H1 H2].
  constructor; [by apply IH|by constructor].
Qed.
Lemma table_sorted : StronglySorted up AF0832_TABLE /\ StronglySorted down AF0832_TABLE.
Proof.
  split; apply Sorted_StronglySorted; try apply _.
  - apply (adjacent_sorted (fun a b => SFltb (ratio a) (ratio b))). vm_compute. reflexivity.
  - apply (adjacent_sorted (fun a b => SFltb (zoom_steps_w2t b) (zoom_steps_w2t a))). vm_compute. reflexivity.
Qed.

(** The fraction of a segment. *)
Definition seg_t (a b : Af0832TableRow) (r : spec_float) : spec_float :=
  if SFeqb (ratio b) (ratio a) then f64 0 else f64_div (f64_sub r (ratio a)) (f64_sub (ratio b) (ratio a)).
Definition steps_t (a b : Af0832TableRow) (ts : spec_float) : spec_float :=
  if SFeqb (zoom_steps_w2t a) (zoom_steps_w2t b) then f64 0 else f64_div (f64_sub (zoom_steps_w2t a) ts) (f64_sub (zoom_steps_w2t a) (zoom_steps_w2t b)).

Lemma sorted_after {A} (R : relation A) pre x y post : StronglySorted R (x :: pre ++ y :: post) -> R x y.
Proof. intros H. apply StronglySorted_inv in H as [_ H]. rewrite Forall_forall in H. apply H. apply elem_of_app. right. by left. Qed.

Lemma segment_hit pre : forall i a b post r, StronglySorted up (pre ++ a :: b :: post) -> SFltb (ratio a) r = true -> SFleb r (ratio b) = true ->
  segment_loop (pre ++ a :: b :: post) i r = ((i + length pre)%nat, S (i + length pre), seg_t a b r).
Proof.
  induction pre as [|x pre IH]; intros i a b post r Hs Ha Hb.
  - cbn [app segment_loop length]. rewrite Hb. unfold SFgeb. rewrite (SFltb_leb _ _ Ha). cbn [andb]. by rewrite Nat.add_0_r.
  - assert (Hrec : segment_loop (pre ++ a :: b :: post) (S i) r = ((S i + length pre)%nat, S (S i + length pre), seg_t a b r)) by (apply IH; try done; by apply StronglySorted_inv in Hs as [? _]).
    cbn [app length]. rewrite <-plus_n_Sm. change (S (i + length pre)) with (S i + length pre)%nat. rewrite <-Hrec.
    destruct pre as [|y pre]; cbn [app segment_loop]; (replace (SFleb r _) with false; [by rewrite andb_false_r|]); symmetry.
    + by apply SFltb_not_leb.
    + apply SFltb_not_leb. eapply SFltb_trans; [|exact Ha]. apply StronglySorted_inv in Hs as [Hs _]. by apply (sorted_after up pre y a (b :: post)).
Qed.
Lemma ratio_hit pre : forall a b post ts, StronglySorted down (pre ++ a :: b :: post) -> SFltb ts (zoom_steps_w2t a) = true -> SFleb (zoom_steps_w2t b) ts = true ->
  ratio_loop (pre ++ a :: b :: post) ts = f64_to_f32 (lerp (ratio a) (ratio b) (steps_t a b ts)).
Proof.
  induction pre as [|x pre IH]; intros a b post ts Hs Ha Hb.
  - cbn [app ratio_loop]. unfold SFgeb. by rewrite Hb, (SFltb_leb _ _ Ha).
  - assert (Hs' : StronglySorted down (pre ++ a :: b :: post)) by (by apply StronglySorted_inv in Hs as [? _]). rewrite <-(IH a b post ts Hs' Ha Hb).
    destruct pre as [|y pre]; cbn [app ratio_loop]; (replace (SFgeb ts _) with false; [by rewrite andb_false_r|]); symmetry; unfold SFgeb.
    + by apply SFltb_not_leb.
    + apply SFltb_not_leb. eapply SFltb_trans; [exact Ha|]. by apply (sorted_after down pre y a (b :: post)).
Qed.

(** ** The round trip at one position *)
(** [a], [b] and [c] are consecutive rows, and the position lies between those of [a] and
    [b]; the ratio computed for it, rounded to single precision, may lie in the next
    segment. *)
Definition in_segment (a b : Af0832TableRow) (r : spec_float) : bool := SFltb (ratio a) r && SFleb r (ratio b).
Definition lands (a b : Af0832TableRow) (r four : spec_float) (n : Z) : bool :=
  match lround (f64_mul (lerp (zoom_steps_w2t a) (zoom_steps_w2t b) (seg_t a b r)) four) with Some v => v =? n | None => false end.
Definition comes_back (first last a b c : Af0832TableRow) (four : spec_float) (p : Z) : bool :=
  let ts := f64_div (f64 (- p)) four in
  SFltb ts (zoom_steps_w2t a) && SFleb (zoom_steps_w2t b) ts && negb (SFleb ts (zoom_steps_w2t last)) && negb (SFgeb ts (zoom_steps_w2t first)) &&
  let r := clamp_double (f32_to_f64 (f64_to_f32 (lerp (ratio a) (ratio b) (steps_t a b ts)))) (ratio first) (ratio last) in
  negb (SFleb r (ratio first)) && negb (SFgeb r (ratio last)) &&
  if in_segment a b r then lands a b r four (- p) else in_segment b c r && lands b c r four (- p).

Fixpoint walk (first last : Af0832TableRow) (four : spec_float) (rows : list Af0832TableRow) (p : Z) : bool :=
  match rows with
  | a :: ((b :: ((c :: _) as rest)) as rows) =>
      comes_back first last a b c four (p + 1) && comes_back first last a b c four (p + 2) && comes_back first last a b c four (p + 3) &&
      comes_back first last a b c four (p + 4) && walk first last four rows (p + 4)
  | _ => true
  end.
Lemma walk_spec first last four pre : forall a b c post p q, walk first last four (pre ++ a :: b :: c :: post) p = true -> 1 <= q <= 4 ->
  comes_back first last a b c four (p + 4 * Z.of_nat (length pre) + q) = true.
Proof.
  induction pre as [|x pre IH]; intros a b c post p q H Hq.
  - cbn [app walk] in H. apply andb_true_iff in H as [H _]. do 3 apply andb_true_iff in H as [H ?]. cbn [length]. replace (p + 4 * Z.of_nat 0 + q) with (p + q) by lia.
    assert (q = 1 \/ q = 2 \/ q = 3 \/ q = 4) as [->|[->|[->| ->]]] by lia; done.
  - assert (Hw : walk first last four (pre ++ a :: b :: c :: post) (p + 4) = true).
    { destruct pre as [|y [|z pre]]; cbn [app walk] in H |- *; by apply andb_true_iff in H as [_ H]. }
    replace (p + 4 * Z.of_nat (length (x :: pre)) + q) with (p + 4 + 4 * Z.of_nat (length pre) + q) by (cbn [length]; lia). by apply (IH a b c post).
Qed.
Definition first_row : Af0832TableRow := Eval vm_compute in trow 0.
Definition last_row : Af0832TableRow := Eval vm_compute in trow 979.
Lemma table_ends : table_n = 980%nat /\ trow 0 = first_row /\ trow (table_n - 1) = last_row.
Proof. by vm_compute. Qed.
Lemma walk_table : walk first_row last_row (S754_finite false 4503599627370496 (-50)) AF0832_TABLE (-3196) = true.
Proof. vm_compute. reflexivity. Qed.

(** ** The round trip on the table *)
Definition zoom_lands (r : spec_float) (n : Z) : Prop := lround (f64_mul (zoom_steps_for_ratio (table_ratio r)) (f64 4)) = Some n.
Definition returns_at (p : Z) : Prop := exists r, hal_lens_af0832_pos_to_ratio p = Some r /\ zoom_lands r (- p).

Lemma lands_eq a b r four n : lands a b r four n = true -> lround (f64_mul (lerp (zoom_steps_w2t a) (zoom_steps_w2t b) (seg_t a b r)) four) = Some n.
Proof. unfold lands. destruct (lround (f64_mul (lerp _ _ _) _)) as [v|]; [|done]. intros H. apply Z.eqb_eq in H. by subst. Qed.
Lemma lands_zoom a b pre post r n : AF0832_TABLE = pre ++ a :: b :: post -> SFleb r (ratio first_row) = false -> SFgeb r (ratio last_row) = false ->
  in_segment a b r = true -> lands a b r (S754_finite false 4503599627370496 (-50)) n = true -> lround (f64_mul (zoom_steps_for_ratio r) (f64 4)) = Some n.
Proof.
  intros E Hf Hl Hi Hn. destruct table_ends as (En & E0 & E1). unfold zoom_steps_for_ratio, find_zoom_segment. rewrite E0, E1, Hf, Hl.
  rewrite (proj2 (Nat.eqb_neq table_n 0)) by (rewrite En; lia). apply andb_true_iff in Hi as [H1 H2].
  assert (Hseg : segment_loop AF0832_TABLE 0 r = (length pre, S (length pre), seg_t a b r)) by (rewrite E; apply segment_hit; [rewrite <-E; apply table_sorted|done..]).
  rewrite Hseg. unfold trow. assert (Ha : nth (length pre) AF0832_TABLE no_row = a) by (rewrite E; by rewrite app_nth2, Nat.sub_diag by lia).
  assert (Hb : nth (S (length pre)) AF0832_TABLE no_row = b) by (rewrite E, app_nth2 by lia; by replace (S (length pre) - length pre)%nat with 1%nat by lia).
  rewrite Ha, Hb. change (f64 4) with (S754_finite false 4503599627370496 (-50)). by apply lands_eq.
Qed.

Lemma back_at a b c pre post p : AF0832_TABLE = pre ++ a :: b :: c :: post -> p <> -2147483648 ->
  comes_back first_row last_row a b c (S754_finite false 4503599627370496 (-50)) p = true -> returns_at p.
Proof.
  intros E Hp H. destruct table_ends as (En & E0 & E1). unfold comes_back in H. set (four := S754_finite false 4503599627370496 (-50)) in *.
  set (ts := f64_div (f64 (- p)) four) in *. apply andb_true_iff in H as [H Hr]. apply andb_true_iff in H as [H Hnf]. apply andb_true_iff in H as [H Hnl].
  apply andb_true_iff in H as [Ha Hb]. apply negb_true_iff in Hnf, Hnl. cbn zeta in Hr. apply andb_true_iff in Hr as [H Hs]. apply andb_true_iff in H as [Hf Hl]. apply negb_true_iff in Hf, Hl.
  exists (f64_to_f32 (lerp (ratio a) (ratio b) (steps_t a b ts))). split.
  - unfold hal_lens_af0832_pos_to_ratio, neg32. rewrite (proj2 (Nat.eqb_neq table_n 0)), (proj2 (Z.eqb_neq p _) Hp) by (rewrite En; lia). cbn [mbind option_bind]. change (f64 4) with four. fold ts.
    rewrite E0, E1, Hnf, Hnl. f_equal. rewrite E. apply ratio_hit; [rewrite <-E; apply table_sorted|done..].
  - unfold zoom_lands, table_ratio. rewrite E0, E1, En. cbn [Nat.ltb Nat.leb]. set (r := clamp_double _ _ _) in *.
    destruct (in_segment a b r) eqn:Ei; [by apply (lands_zoom a b pre (c :: post) r)|]. apply andb_true_iff in Hs as [Hi Hn].
    apply (lands_zoom b c (pre ++ [a]) post r); [rewrite <-app_assoc; exact E|exact Hf|exact Hl|exact Hi|exact Hn].
Qed.

(** The ends of the table, one by one. *)
Definition back_by_search (p : Z) : bool :=
  match hal_lens_af0832_pos_to_ratio p with
  | Some r => match lround (f64_mul (zoom_steps_for_ratio (table_ratio r)) (f64 4)) with Some v => v =? - p | None => false end
  | None => false
  end.
Lemma back_by_search_ok p : back_by_search p = true -> returns_at p.
Proof.
  unfold back_by_search, returns_at, zoom_lands. destruct (hal_lens_af0832_pos_to_ratio p) as [r|]; [|done]. intros H. exists r. split; [done|].
  destruct (lround _) as [v|]; [|done]. apply Z.eqb_eq in H. by subst.
Qed.
Lemma ends_back : forallb back_by_search [-3196; 717; 718; 719; 720] = true.
Proof. vm_compute. reflexivity. Qed.

Lemma all_back_table p : -3196 <= p <= 720 -> returns_at p.
Proof.
  intros Hp. pose proof (proj1 (forallb_forall _ _) ends_back) as He. destruct (decide (p = -3196 \/ 717 <= p)) as [H|H].
  - apply back_by_search_ok, He. cbn. lia.
  - set (k := Z.to_nat ((p + 3195) / 4)). assert (Hk : (k < 978)%nat) by lia. destruct table_ends as (En & _).
    assert (Hr : forall i, (i < 980)%nat -> is_Some (AF0832_TABLE !! i)) by (intros i Hi; apply lookup_lt_is_Some_2; change (length AF0832_TABLE) with table_n; lia).
    destruct (Hr k) as [a Ea]; [lia|]. destruct (Hr (S k)) as [b Eb]; [lia|]. destruct (Hr (S (S k))) as [c Ec]; [lia|].
    assert (E : AF0832_TABLE = take k AF0832_TABLE ++ a :: b :: c :: drop (S (S (S k))) AF0832_TABLE) by (by rewrite <-(drop_S _ _ _ Ec), <-(drop_S _ _ _ Eb), <-(drop_S _ _ _ Ea), take_drop).
    apply (back_at a b c _ _ p E); [lia|]. pose proof walk_table as Hw. rewrite E in Hw.
    apply (walk_spec _ _ _ _ _ _ _ _ _ (p + 3196 - 4 * Z.of_nat k)) in Hw; [|lia]. rewrite length_take in Hw. change (length AF0832_TABLE) with table_n in Hw. rewrite En in Hw.
    replace (-3196 + 4 * Z.of_nat (k `min` 980) + (p + 3196 - 4 * Z.of_nat k)) with p in Hw by lia. exact Hw.
Qed.

(** C26 [zoom_ratio_roundtrip]: for every position of the zoom motor over the whole travel of the table, the ratio
    reported for it, a single precision number, is converted back to that position,
    whatever the distance asked for: through the double precision searches and
    interpolations in both directions nothing is lost. *)
Theorem zoom_ratio_roundtrip unspecified p distance_m : -3196 <= p <= 720 ->
  exists r, hal_lens_af0832_pos_to_ratio p = Some r /\ hal_lens_af0832_calc_targets unspecified r distance_m true false = Some (HAL_OK, Some p, None).
Proof.
  intros Hp. destruct (all_back_table p Hp) as (r & E & Hz). exists r. split; [done|]. unfold zoom_lands in Hz.
  assert (Hs : s32 (- p) = - p) by (unfold s32, u32; repeat cif; cbool; lia).
  assert (Ht : table_steps_to_hal_steps unspecified (zoom_steps_for_ratio (table_ratio r)) = - p) by (unfold table_steps_to_hal_steps, lround32; by rewrite Hz).
  unfold hal_lens_af0832_calc_targets, raw_targets. cbn [negb andb]. cbn zeta. rewrite Ht. unfold neg32. rewrite (proj2 (Z.eqb_neq (- p) _)) by lia. cbn [mbind option_bind].
  rewrite Z.opp_involutive. unfold clamp_i32, HAL_LENS_AF0832_DEFAULT_ZOOM_MIN_POS, HAL_LENS_AF0832_DEFAULT_ZOOM_MAX_POS. by rewrite !(proj2 (Z.ltb_ge _ _)) by lia.
Qed.
Lemma zoom_ratio_roundtrip_witness :
  exists r, hal_lens_af0832_pos_to_ratio (-1001) = Some r /\ hal_lens_af0832_calc_targets (fun _ => 0) r (f32 3) true false = Some (HAL_OK, Some (-1001), None).
Proof. apply (zoom_ratio_roundtrip (fun _ => 0) (-1001) (f32 3)). lia. Defined.
