(* ===== verification/HalLensSafe.v ===== *)
(** Every call of the lens device returns and leaves a device that is fit for the next
    one, which is what its clients rely on; and the move to a zoom ratio and a distance is
    one command with balanced speeds. *)
From S2P Require Import Prelude FactoryFormat Ms41908mReg BspCtrl HalFloat HalLensFg2009 HalLensAf0832 HalLensWait HalLensBoot HalLensTable HalLensGeometry.

(** The positions the controller reports are far from the ends of the integers. *)
Class LensNear (D : Type) {LO : LensOps D} : Prop :=
  reported_near : forall d, let st := (lens_state d).1.2 in near (hs_zoom_pos st) /\ near (hs_focus_pos st).

Section Safe.
Context `{LL : LensLaws D} {LN : LensNear D} (fuel : nat).
Notation af := (af_state D).

(** A device that is not being closed, with sensible limits and enough fuel. *)
Definition fit (d : HalLensAf0832) : Prop :=
  closing d = false /\ near_limit (zoom_limit (af_params d)) /\ near_limit (focus_limit (af_params d)) /\
  enough (bootstrap_timeout_ms (af_params d)) fuel /\ enough (op_timeout_ms (af_params d)) fuel.
Lemma fit_kin d d' : kin d d' -> fit d -> fit d'.
Proof. unfold kin, fit. by intros (-> & _ & -> & _). Qed.

(** [m] returns on a fit device, the result satisfies [P], and the device stays fit. *)
Definition keeps_fit {A} (m : M af A) (P : A -> Prop) : Prop :=
  forall s d, af_dev s = Some d -> fit d -> returns m (fun a s' => P a /\ exists d', af_dev s' = Some d' /\ fit d') s.
Notation T := (fun _ => True).

Lemma kf_bind {A B} (m : M af A) (k : A -> M af B) P Q : keeps_fit m P -> (forall a, P a -> keeps_fit (k a) Q) -> keeps_fit (m ≫= k) Q.
Proof. intros Hm Hk s d Hd Hf. rcall (Hm s d Hd Hf). intros a s' (Ha & d' & Hd' & Hf'). by apply (Hk a Ha s' d'). Qed.
Lemma kf_ret {A} (a : A) (P : A -> Prop) : P a -> keeps_fit (mret a) P.
Proof. intros Ha s d Hd Hf. rstep. split; [done|by exists d]. Qed.
Lemma kf_weaken {A} (m : M af A) (P Q : A -> Prop) : keeps_fit m P -> (forall a, P a -> Q a) -> keeps_fit m Q.
Proof. intros Hm HPQ s d Hd Hf. eapply returns_mono; [by apply (Hm s d)|]. cbn beta. intros a s' [? ?]. auto. Qed.
Lemma kf_since {A} (m : M af A) (P : A -> Prop) :
  (forall s d, af_dev s = Some d -> fit d -> returns m (fun a s' => P a /\ exists d' tr, kin d d' /\ since s d' tr s') s) -> keeps_fit m P.
Proof.
  intros Hm s d Hd Hf. eapply returns_mono; [by apply (Hm s d)|]. cbn beta. intros a s' (Ha & d' & tr & Hk & Hs).
  split; [done|]. exists d'. split; [apply Hs|by apply (fit_kin d)].
Qed.

Lemma kf_the_dev : keeps_fit the_dev fit.
Proof. intros s d Hd Hf. unfold returns. rewrite (the_dev_eq s d Hd). split; [done|by exists d]. Qed.
Lemma kf_dev : keeps_fit (gets af_dev) (fun o => exists d, o = Some d /\ fit d).
Proof. intros s d Hd Hf. rstep. split; by exists d. Qed.
Lemma kf_on_dev f : (forall d, fit d -> fit (f d)) -> keeps_fit (on_dev f) T.
Proof. intros Hk s d Hd Hf. unfold on_dev. rrun (the_dev_eq s d Hd). rstep. split; [done|]. exists (f d). split; [done|by apply Hk]. Qed.
Lemma kf_op c : keeps_fit (op c) T.
Proof.
  apply kf_since. intros s d Hd _. eapply returns_mono; [apply (op_since s d [] c s (since_refl s d Hd))|]. cbn beta.
  intros r s' (_ & _ & es & Hs). split; [done|]. eexists (noted es d), _. split; [by apply kin_noted|exact Hs].
Qed.
Lemma kf_state_get : keeps_fit state_get (fun r => near (hs_zoom_pos r.2) /\ near (hs_focus_pos r.2)).
Proof.
  apply kf_since. intros s d Hd _. eapply returns_mono; [apply (state_since s d [] s (since_refl s d Hd))|]. cbn beta.
  intros r s' (-> & _ & es & Hs). split; [apply reported_near|]. eexists (noted es d), _. split; [by apply kin_noted|exact Hs].
Qed.
Lemma kf_prepare mask : keeps_fit (lens_prepare_wait mask) T.
Proof. by apply kf_on_dev. Qed.
Lemma kf_abort : keeps_fit lens_abort_wait T.
Proof. by apply kf_on_dev. Qed.
Lemma kf_finish_wait timeout_ms : enough timeout_ms fuel -> keeps_fit (lens_finish_wait fuel timeout_ms) T.
Proof.
  intros [Ht Hf]. apply kf_since. intros s d Hd _. unfold lens_finish_wait.
  assert (Hk : forall es, kin d (noted es d)) by (intros es; apply kin_noted; by split_and!).
  rcall (clock_since _ _ _ _ (since_refl s d Hd)). intros [t|] s1 [Hn1 H1].
  2:{ rcall (on_dev_since _ _ _ (arm 0) _ H1 eq_refl). intros _ s2 [_ Hs2]. rstep. split; [done|]. by eexists (arm 0 d), _. }
  destruct H1 as (Hs1 & Hns & Hle). apply returns_bind. eapply returns_mono; [apply (finish_loop_since fuel _ _ _ _ _ Hs1); rewrite ?ns_add by done; lia|]. cbn beta.
  intros [e|] s2 (_ & tr & d2 & _ & Hs2 & Hr).
  - destruct Hr as (_ & _ & ->). rstep. split; [done|]. eexists _, _. split; [|exact Hs2]. apply kin_arm, Hk.
  - destruct Hr as (_ & -> & _). rrun (the_dev_eq s2 _ (proj1 Hs2)). rcall (on_dev_since _ _ _ (arm 0) _ Hs2 eq_refl). intros _ s3 [_ Hs3].
    assert (exists d' tr, kin d d' /\ since s d' tr s3) by (exists (arm 0 (noted (came tr) d)), ([] ++ tr); split; [apply kin_arm, Hk|exact Hs3]).
    repeat cif; rstep; done.
Qed.
Lemma kf_reset_axis z : keeps_fit (reset_axis fuel z) T.
Proof.
  apply kf_since. intros s d Hd (Hc & _ & _ & Hb & _). eapply returns_mono; [apply (reset_axis_since z fuel s d [] s Hb Hc (since_refl s d Hd))|]. cbn beta.
  intros r s' (d' & tr & Hk & Hs & _). split; [done|]. by exists d', tr.
Qed.

(** Compound calls. *)
Lemma kf_if {A} (b : bool) (m m' : M af A) P : keeps_fit m P -> keeps_fit m' P -> keeps_fit (if b then m else m') P.
Proof. by destruct b. Qed.
Lemma kf_then {A B} (m : M af A) (k : M af B) P Q : keeps_fit m P -> keeps_fit k Q -> keeps_fit (m;; k) Q.
Proof. intros Hm Hk. by apply (kf_bind _ _ P). Qed.
Lemma kf_check m k : keeps_fit m T -> keeps_fit k T -> keeps_fit (check_ok m k) T.
Proof. intros Hm Hk. apply (kf_bind _ _ T); [done|]. intros r _. apply kf_if; [by apply kf_ret|done]. Qed.
Lemma kf_guarded k : keeps_fit k T -> keeps_fit (guarded k) T.
Proof.
  intros Hk. apply (kf_bind _ _ T); [|intros r _; apply kf_if; [by apply kf_ret|done]].
  apply (kf_bind _ _ T); [by eapply kf_weaken; [apply kf_dev|]|]. intros o _. by apply kf_ret.
Qed.
Lemma kf_waited timeout_ms : enough timeout_ms fuel -> keeps_fit ('(r, _) ← lens_finish_wait fuel timeout_ms; mret r) T.
Proof. intros Hf. apply (kf_bind _ _ T); [by apply kf_finish_wait|]. intros [r o] _. by apply kf_ret. Qed.
(** A command with its wait; [k] is the wait. *)
Lemma kf_command mask c k : keeps_fit k T -> keeps_fit (lens_prepare_wait mask;; r ← op c; if negb (r =? HAL_OK) then lens_abort_wait;; mret r else k) T.
Proof.
  intros Hk. eapply kf_then; [apply kf_prepare|]. apply (kf_bind _ _ T); [apply kf_op|]. intros r _.
  apply kf_if; [|done]. eapply kf_then; [apply kf_abort|by apply kf_ret].
Qed.
Lemma kf_run mask c : keeps_fit (run_with_optional_wait fuel mask c) T.
Proof. apply kf_guarded, kf_command. apply (kf_bind _ _ fit); [apply kf_the_dev|]. intros d Hd. apply kf_waited, Hd. Qed.
Lemma kf_unless pos m k : keeps_fit k T -> keeps_fit (unless_there pos m k) T.
Proof. intros Hk. eapply kf_bind; [apply kf_state_get|]. intros [r st] _. apply kf_if; [by apply kf_ret|done]. Qed.
Lemma kf_zoom_abs m : keeps_fit (hal_lens_af0832_zoom_abs fuel (Some m)) T.
Proof. apply kf_guarded, kf_unless, kf_run. Qed.
Lemma kf_focus_abs m : keeps_fit (hal_lens_af0832_focus_abs fuel (Some m)) T.
Proof. apply kf_guarded, kf_unless, kf_run. Qed.
Lemma kf_sync_run_wait p timeout_ms : enough timeout_ms fuel -> keeps_fit (lens_zf_sync_run_wait fuel (Some p) timeout_ms) T.
Proof. intros Hf. apply kf_guarded, kf_if; [by apply kf_ret|]. by apply kf_command, kf_waited. Qed.
Lemma kf_sync_run p : keeps_fit (hal_lens_af0832_zf_sync_run fuel (Some p)) T.
Proof. eapply kf_bind; [apply kf_dev|]. intros o (d & -> & Hd). apply kf_sync_run_wait, Hd. Qed.
Lemma kf_eq {A} (m : M af A) a : (forall s, m s = Ret a s) -> keeps_fit m (fun b => b = a).
Proof. intros E s d Hd Hf. unfold returns. rewrite E. split; [done|by exists d]. Qed.
Lemma kf_diff a b : near a -> near b -> keeps_fit (diff32 a b) (fun v => v = a - b).
Proof. intros Ha Hb. apply kf_eq. intros s. unfold diff32, near in *. by rewrite !(proj2 (Z.leb_le _ _)) by lia. Qed.
Lemma kf_sync_abs zm fm timeout_ms : (0 < timeout_ms -> enough timeout_ms fuel) ->
  keeps_fit (hal_lens_af0832_zf_sync_abs fuel (Some zm) (Some fm) timeout_ms) T.
Proof.
  intros Ht. apply kf_guarded. cbn [negb andb bool_decide]. apply kf_if; [by apply kf_ret|]. eapply kf_bind; [apply kf_state_get|]. intros [r st] [Hz Hfo].
  apply kf_if; [by apply kf_ret|]. eapply kf_bind; [apply kf_the_dev|]. intros d Hd. cbn [snd] in *. pose proof Hd as (_ & Hlz & Hlf & _ & He).
  eapply kf_bind; [apply kf_diff; [by apply clamp_near|done]|]. intros zs ->. eapply kf_bind; [apply kf_diff; [by apply clamp_near|done]|]. intros fs ->.
  apply kf_if; [by apply kf_ret|]. apply kf_sync_run_wait. cif; cbool; auto.
Qed.
Lemma kf_bootstrap : keeps_fit (hal_lens_af0832_bootstrap fuel) T.
Proof.
  eapply kf_bind; [apply kf_dev|]. intros o (d & -> & _). apply kf_check; [apply kf_op|]. eapply kf_bind; [apply kf_state_get|]. intros [r st] _.
  destruct (bootstrap_needs r st) as [[ni nz] nf]. apply kf_check; [apply kf_if; [apply kf_op|by apply kf_ret]|]. apply kf_check; [apply kf_op|].
  eapply kf_then; [apply kf_op|]. eapply kf_bind; [apply kf_the_dev|]. intros d1 _. apply kf_check; [apply kf_op|]. eapply kf_bind; [apply kf_the_dev|]. intros d2 _.
  apply kf_check; [apply kf_op|]. apply kf_check; [apply kf_if; [apply kf_reset_axis|by apply kf_ret]|]. apply kf_check; [apply kf_if; [apply kf_reset_axis|by apply kf_ret]|].
  eapply kf_then; [by apply kf_on_dev|by apply kf_ret].
Qed.
Lemma kf_mark : keeps_fit hal_lens_af0832_mark_bootstrapped T.
Proof. eapply kf_bind; [apply kf_dev|]. intros o (d & -> & _). by apply kf_on_dev. Qed.
Lemma kf_force_reset : keeps_fit (hal_lens_af0832_force_reset_zero fuel) T.
Proof. apply kf_guarded, kf_check; apply kf_reset_axis. Qed.
Lemma kf_abs32 v : v <> -2147483648 -> keeps_fit (if v <? 0 then some_or_undef (neg32 v) else mret v) (fun a => a = Z.abs v).
Proof.
  intros Hv. destruct (Z.ltb_spec v 0).
  - apply kf_eq. intros s. unfold neg32. rewrite (proj2 (Z.eqb_neq _ _)) by lia. cbn. by replace (- v) with (Z.abs v) by lia.
  - apply kf_ret. lia.
Qed.
Lemma kf_goto u zr fd : is_Some (raw_targets u zr fd) -> keeps_fit (hal_lens_af0832_goto_by_ratio_distance u fuel zr fd) T.
Proof.
  intros [[zt ft] E]. apply kf_guarded. apply (kf_bind _ _ (fun a => a = (zt, ft))); [apply kf_eq; intros s; by rewrite E|]. intros ? ->.
  eapply kf_bind; [apply kf_the_dev|]. intros d Hd. pose proof Hd as (_ & Hlz & Hlf & _). eapply kf_bind; [apply kf_state_get|]. intros [r st] [Hz Hfo]. cbn [snd] in *.
  apply kf_if; [by apply kf_ret|]. pose proof (clamp_near _ zt Hlz) as Hcz. pose proof (clamp_near _ ft Hlf) as Hcf.
  eapply kf_bind; [by apply kf_diff|]. intros zs Ezs. eapply kf_bind; [by apply kf_diff|]. intros fs Efs. unfold near in *.
  apply kf_if; [by apply kf_ret|]. eapply kf_bind; [apply kf_the_dev|]. intros d2 _. eapply kf_bind; [apply kf_abs32; lia|]. intros za _.
  eapply kf_bind; [apply kf_abs32; lia|]. intros fa _. destruct (balance _ za fa) as [zp fp]. apply kf_sync_run.
Qed.
End Safe.

(** ** The move to a zoom ratio and a distance *)
(** The shorter axis is slowed to the time of the longer one, [far], to within one pulse per
    second, but not below the minimum. *)
Definition matched (default_pps far short pps : Z) : Prop :=
  pps = pps_min /\ default_pps * short < pps_min * far \/ pps * far <= default_pps * short < (pps + 1) * far.

Lemma balance_ok dp za fa : pps_min <= dp < 65536 -> 0 <= za < 65536 -> 0 <= fa < 65536 ->
  let '(zp, fp) := balance dp za fa in
  pps_min <= zp <= dp /\ pps_min <= fp <= dp /\ (fa < za -> zp = dp /\ (0 < fa -> matched dp za fa fp)) /\ (za <= fa -> fp = dp /\ (0 < za -> matched dp fa za zp)).
Proof.
  unfold pps_min, matched, pps_min. intros Hd Hz Hf. unfold balance, pps_min.
  assert (Hm : forall a, 0 <= a < 65536 -> u32 (dp * a) = dp * a) by (intros a Ha; apply u32_small; nia). rewrite !Hm by done.
  destruct (Z.ltb_spec 0 za); cbn [andb]; [|lia]. destruct (Z.ltb_spec 0 fa); cbn [andb]; [|lia].
  assert (Hs : forall far short, 0 < short <= far -> far < 65536 -> let q := dp * short / far in
    let v := if q <? 24 then 24 else u16 q in 24 <= v <= dp /\ (v = 24 /\ dp * short < 24 * far \/ v * far <= dp * short < (v + 1) * far)).
  { intros far short Hsh Hfar. pose proof (Z.div_mod (dp * short) far ltac:(lia)) as E. pose proof (Z.mod_pos_bound (dp * short) far ltac:(lia)) as Hr.
    set (q := dp * short / far) in *. set (r := (dp * short) mod far) in *. clearbody q r. cbn zeta. assert (q <= dp) by nia.
    destruct (Z.ltb_spec q 24); [split; [lia|left; split; [done|nia]]|]. rewrite u16_small by lia. split; [lia|right; nia]. }
  destruct (Z.ltb_spec fa za); [destruct (Hs za fa) as [? ?]; [lia..|]|destruct (Hs fa za) as [? ?]; [lia..|]]; cbn zeta in *; split_and!; try lia; intros; split_and!; try lia; done.
Qed.

Section Goto.
Context `{LL : LensLaws D} (unspecified : spec_float -> Z).
Notation af := (af_state D).
Definition short_range (x : Z) : Prop := -16384 <= x <= 16383.
Definition short_limit (l : HalLensLimit) : Prop := short_range (min_pos l) /\ short_range (max_pos l).
Lemma clamp_short l v : short_limit l -> short_range (clamp_i32 v (min_pos l) (max_pos l)).
Proof. unfold short_limit, short_range, clamp_i32. intros. repeat cif; cbool; lia. Qed.

(** Speeds between the minimum and the default: the axis with the longer way at the
    default, the other one, if it moves, so that both arrive together. *)
Definition balanced (default_pps zd fd zp fp : Z) : Prop :=
  pps_min <= zp <= default_pps /\ pps_min <= fp <= default_pps /\
  (Z.abs fd < Z.abs zd -> zp = default_pps /\ (fd <> 0 -> matched default_pps (Z.abs zd) (Z.abs fd) fp)) /\
  (Z.abs zd <= Z.abs fd -> fp = default_pps /\ (zd <> 0 -> matched default_pps (Z.abs fd) (Z.abs zd) zp)).

(** C25 [goto_balanced]: on a device that is ready, with positions and limits within 14 bits and a default
    speed within 16, the move to a ratio and a distance reads the positions once, and
    sends nothing if the lens is there.  Otherwise it sends one command that takes both
    axes to the targets of the table, cut to the soft limits, at speeds between the
    minimum and the default: the axis with the longer way, or the only one that moves, at
    the default, the other one so that both arrive together, to within one pulse per
    second.  It waits for the axes that move, and what happens from the command to the end
    of the call decides its result, a timeout only once the time is over; a command that is
    refused gives its own status.  The query of the positions succeeds here, the clock may
    fail, but is not set back, and no other thread destroys the device. *)
Theorem goto_balanced fuel zoom_ratio distance_m (s : af) d st zt ft :
  af_dev s = Some d -> bootstrapped d = true -> closing d = false -> (lens_state (af_hw s)).1 = (HAL_OK, st) ->
  raw_targets unspecified zoom_ratio distance_m = Some (zt, ft) ->
  let p := af_params d in
  short_range (hs_zoom_pos st) -> short_range (hs_focus_pos st) -> short_limit (zoom_limit p) -> short_limit (focus_limit p) ->
  pps_min <= af_default_pps p < 65536 -> enough (op_timeout_ms p) fuel ->
  let zd := clamp_i32 zt (min_pos (zoom_limit p)) (max_pos (zoom_limit p)) - hs_zoom_pos st in
  let fd := clamp_i32 ft (min_pos (focus_limit p)) (max_pos (focus_limit p)) - hs_focus_pos st in
  returns (hal_lens_af0832_goto_by_ratio_distance unspecified fuel zoom_ratio distance_m) (fun r s' =>
    exists zp fp, balanced (af_default_pps p) zd fd zp fp /\ moved s d st (mkZf zp zd fp fd) (op_timeout_ms p) r s') s.
Proof.
  intros Hd Hb Hc Hst Ht p Hz Hfo Hlz Hlf Hpps Hf zd fd. unfold hal_lens_af0832_goto_by_ratio_distance. eapply returns_eq; [by apply (guarded_ready s d)|]. rewrite Ht. cbn [some_or_undef]. rstep.
  rrun (the_dev_eq s d Hd). fold p. rcall (state_since s d [] s (since_refl s d Hd)). intros [r0 st0] s1 (E & Hn1 & es1 & Hs1). rewrite Hst in E. injection E as -> ->. cbn [Z.eqb HAL_OK negb].
  pose proof (clamp_short _ zt Hlz) as Hcz. pose proof (clamp_short _ ft Hlf) as Hcf. unfold short_range in *.
  assert (Ez : forall a b (s : af), -16384 <= a <= 16383 -> -16384 <= b <= 16383 -> diff32 a b s = Ret (a - b) s) by (intros a b s2 Ha Hb2; unfold diff32; by rewrite !(proj2 (Z.leb_le _ _)) by lia).
  rrun (Ez _ _ s1 Hcz Hz). fold zd. rrun (Ez _ _ s1 Hcf Hfo). fold fd. assert (Hzd : -32768 <= zd <= 32767) by (subst zd; lia). assert (Hfd : -32768 <= fd <= 32767) by (subst fd; lia).
  pose proof (balance_ok (af_default_pps p) (Z.abs zd) (Z.abs fd) Hpps ltac:(lia) ltac:(lia)) as Hbal. destruct (balance (af_default_pps p) (Z.abs zd) (Z.abs fd)) as [zp fp] eqn:Eb.
  assert (Hbl : balanced (af_default_pps p) zd fd zp fp).
  { destruct Hbal as (H1 & H2 & H3 & H4). split_and!; try lia; intros H; [destruct (H3 H) as [G1 G2]|destruct (H4 H) as [G1 G2]]; (split; [done|]); intros; apply G2; lia. }
  destruct ((zd =? 0) && (fd =? 0)) eqn:E0.
  - rstep. exists zp, fp. split; [done|]. apply (moved_still s d st _ _ es1); [done|]. apply sync_mask_zero. cbool. done.
  - rrun (the_dev_eq s1 _ (proj1 Hs1)). destruct (noted_frame es1 d) as (-> & _). fold p.
    assert (Ea : forall v (s : af), -32768 <= v <= 32767 -> (if v <? 0 then some_or_undef (neg32 v) else mret v) s = Ret (Z.abs v) s).
    { intros v s2 Hv. destruct (Z.ltb_spec v 0); [|by replace (Z.abs v) with v by lia]. unfold neg32. rewrite (proj2 (Z.eqb_neq _ _)) by lia. cbn. by replace (Z.abs v) with (- v) by lia. }
    rrun (Ea zd s1 Hzd). rrun (Ea fd s1 Hfd). rewrite Eb. unfold hal_lens_af0832_zf_sync_run. rstep. rewrite (proj1 Hs1). destruct (noted_frame es1 d) as (-> & _). fold p.
    eapply returns_mono; [apply (moved_run fuel (mkZf zp zd fp fd) (op_timeout_ms p) s d st es1 s1 Hf Hb Hc); [|lia|done]|].
    + intros E. apply sync_mask_zero in E as [E1 E2]. cbn in E1, E2. by rewrite E1, E2 in E0.
    + cbn beta. intros r s2 Hm. by exists zp, fp.
Qed.
End Goto.
