(* ===== verification/HalLensBridge.v ===== *)
(** The bridge of the device-control service to the lens
    ([hal_v2/platforms/hailo15/bridge/hal_lens_bridge.c]): one link to the
    microcontroller, one lens device on demand, and the reset of the link after
    repeated errors.

    The link ([HAL_MCU_OPS]) and the allocator are the class [McuOps]; [HAL_LENS_OPS] is
    the class [LensOps] of the lens device.  [g_af0832] is the device of the embedded
    state of that component, and the openings and closings of the link are recorded in
    its trace.  A path of the caller must not be freed: [undef]. *)
From S2P Require Import Prelude Ms41908mReg FactoryFormat BspCtrl HalFloat HalLensFg2009 HalLensAf0832 HalLensTable HalLensGeometry.

Definition CONSECUTIVE_ERROR_THRESHOLD : Z := 5.
Definition HAL_LENS_MODEL_AF0832 : Z := 0.

(** A string the bridge allocated, or one of its caller. *)
Inductive path : Type := Owned (bytes : list Z) | Callers (bytes : list Z).
Definition path_bytes (p : path) : list Z := match p with Owned l | Callers l => l end.
(** The fields for the reset line are zero here. *)
Record HalMcuConfig : Type := mkMcuCfg { serial_device : option path; baud_rate : Z; timeout_ms : Z }.

Class McuOps (D : Type) : Type := {
  mcu_init : HalMcuConfig -> D -> Z * option Z * D;
  mcu_deinit : Z -> D -> Z * D;
  malloc_ok : D -> bool * D;
  lens_profile_get : D -> Z * list Z * D
}.

(** The variables of the file. *)
Record bridge_state (D : Type) : Type := mkBridge {
  br_ctx : option Z;
  br_lens : af_state D;
  br_profile_model : Z;
  br_mcu_config : HalMcuConfig;
  br_config_saved : bool;
  br_consecutive_errors : Z
}.
Arguments mkBridge {D}.
Arguments br_ctx {D}.
Arguments br_lens {D}.
Arguments br_profile_model {D}.
Arguments br_mcu_config {D}.
Arguments br_config_saved {D}.
Arguments br_consecutive_errors {D}.
Definition set_br_ctx {D} (v : option Z) (s : bridge_state D) : bridge_state D :=
  mkBridge v (br_lens s) (br_profile_model s) (br_mcu_config s) (br_config_saved s) (br_consecutive_errors s).
Definition set_br_lens {D} (v : af_state D) (s : bridge_state D) : bridge_state D :=
  mkBridge (br_ctx s) v (br_profile_model s) (br_mcu_config s) (br_config_saved s) (br_consecutive_errors s).
Definition set_br_profile_model {D} (v : Z) (s : bridge_state D) : bridge_state D :=
  mkBridge (br_ctx s) (br_lens s) v (br_mcu_config s) (br_config_saved s) (br_consecutive_errors s).
Definition set_br_mcu_config {D} (v : HalMcuConfig) (s : bridge_state D) : bridge_state D :=
  mkBridge (br_ctx s) (br_lens s) (br_profile_model s) v (br_config_saved s) (br_consecutive_errors s).
Definition set_br_config_saved {D} (v : bool) (s : bridge_state D) : bridge_state D :=
  mkBridge (br_ctx s) (br_lens s) (br_profile_model s) (br_mcu_config s) v (br_consecutive_errors s).
Definition set_br_consecutive_errors {D} (v : Z) (s : bridge_state D) : bridge_state D :=
  mkBridge (br_ctx s) (br_lens s) (br_profile_model s) (br_mcu_config s) (br_config_saved s) v.

Section Bridge.
Context `{LO : LensOps D} {MO : McuOps D}.
Notation br := (bridge_state D).

Definition on_lens {A} (m : M (af_state D) A) : M br A := zoom br_lens set_br_lens m.
Definition bhw {A} (f : D -> A * D) : M br A := on_lens (ahw f).

Definition free_path (p : option path) : M br unit := match p with Some (Callers _) => undef | _ => mret tt end.
(** [errors + 1] overflows at the largest [int]. *)
Definition count_error : M br unit :=
  n ← gets br_consecutive_errors;
  if n =? 2147483647 then undef else modify (set_br_consecutive_errors (n + 1)).

(** ** The reset of the link *)
Definition close_link (ctx : Z) : M br Z :=
  r ← bhw (mcu_deinit ctx);
  on_lens (observe (OClosed ctx));;
  modify (set_br_ctx None);;
  mret r.
Definition drop_device : M br unit := on_lens hal_lens_af0832_destroy.
(** [HAL_MCU_OPS.init] with the variable of the context. *)
Definition open_mcu (cfg : HalMcuConfig) : M br Z :=
  '(r, ctx) ← bhw (mcu_init cfg);
  on_lens (observe (OOpened (path_bytes <$> serial_device cfg) (baud_rate cfg) (timeout_ms cfg) r ctx));;
  match ctx with Some c => modify (set_br_ctx (Some c)) | None => mret tt end;;
  mret r.
(** A step of the new start: if it fails, the link is closed again. *)
Definition restart_step (c : lens_cmd) (k : M br unit) : M br unit :=
  r ← on_lens (op c);
  if negb (r =? 0) then
    ctx ← gets br_ctx;
    match ctx with Some x => close_link x;; mret tt | None => undef end
  else k.

Definition try_reset_mcu_context : M br unit :=
  s ← get;
  if negb (br_config_saved s) then modify (set_br_consecutive_errors 0)
  else
    drop_device;;
    match br_ctx s with Some c => close_link c;; mret tt | None => mret tt end;;
    r ← open_mcu (br_mcu_config s);
    if negb (r =? 0) then mret tt
    else
      restart_step LensInit
        (restart_step (LensConfig 0)
          (model ← gets br_profile_model;
           let finish := modify (set_br_consecutive_errors 0) in
           if negb (model =? HAL_LENS_MODEL_AF0832) then restart_step (ProfileSet model) finish else finish)).

Definition TRACK_MCU_ERROR (ret : Z) : M br unit :=
  if negb (ret =? 0) then
    count_error;;
    n ← gets br_consecutive_errors;
    if CONSECUTIVE_ERROR_THRESHOLD <=? n then try_reset_mcu_context else mret tt
  else modify (set_br_consecutive_errors 0).

(** ** The link *)
Definition hal_bridge_io_init (device : list Z) (baud timeout : Z) : M br Z :=
  s ← get;
  match br_ctx s with
  | Some _ => mret 0
  | None =>
      let cfg := mkMcuCfg (Some (Callers device)) baud timeout in
      (if br_config_saved s then free_path (serial_device (br_mcu_config s)) else mret tt);;
      modify (set_br_mcu_config cfg);;
      ok ← bhw malloc_ok;
      if negb ok : bool then mret (-1)
      else
        modify (set_br_mcu_config (mkMcuCfg (Some (Owned device)) baud timeout));;
        modify (set_br_config_saved true);;
        open_mcu cfg
  end.
Definition hal_bridge_io_deinit : M br Z :=
  s ← get;
  match br_ctx s with
  | None => mret 0
  | Some c =>
      drop_device;;
      ret ← close_link c;
      cfg ← gets br_mcu_config;
      (if br_config_saved s && bool_decide (is_Some (serial_device cfg))
       then free_path (serial_device cfg);; modify (set_br_mcu_config (mkMcuCfg None (baud_rate cfg) (timeout_ms cfg)))
       else mret tt);;
      modify (set_br_config_saved false);;
      modify (set_br_consecutive_errors 0);;
      mret ret
  end.
Definition hal_bridge_get_mcu_ctx : M br (option Z) := gets br_ctx.

(** ** Commands *)
(** [if (g_mcu_ctx == NULL) return -1;] *)
Definition with_link (k : M br Z) : M br Z := ctx ← gets br_ctx; match ctx with None => mret (-1) | Some _ => k end.
Definition tracked (m : M (af_state D) Z) : M br Z := ret ← on_lens m; TRACK_MCU_ERROR ret;; mret ret.
Definition command (c : lens_cmd) : M br Z := with_link (tracked (op c)).

Definition hal_bridge_lens_init : M br Z := with_link (on_lens (op LensInit)).
Definition hal_bridge_lens_deinit : M br Z := with_link (on_lens (op LensDeinit)).
Definition hal_bridge_lens_config (mode : Z) : M br Z := with_link (on_lens (op (LensConfig mode))).
Definition hal_bridge_lens_state_get : M br (Z * option HalLensState) :=
  ctx ← gets br_ctx;
  match ctx with
  | None => mret (-1, None)
  | Some _ => '(ret, st) ← on_lens state_get; TRACK_MCU_ERROR ret;; mret (ret, Some st)
  end.
Definition hal_bridge_zoom_run (pps steps : Z) : M br Z := command (ZoomRun (mkMotion pps steps)).
Definition hal_bridge_zoom_abs (pps position : Z) : M br Z := command (ZoomAbs (mkMotion pps position)).
Definition hal_bridge_zoom_stop : M br Z := command ZoomStop.
Definition hal_bridge_zoom_rz : M br Z := command ZoomRz.
Definition hal_bridge_zoom_limit_set (min max : Z) : M br Z := command (ZoomLimitSet (mkLimit min max)).
Definition hal_bridge_focus_run (pps steps : Z) : M br Z := command (FocusRun (mkMotion pps steps)).
Definition hal_bridge_focus_abs (pps position : Z) : M br Z := command (FocusAbs (mkMotion pps position)).
Definition hal_bridge_focus_stop : M br Z := command FocusStop.
Definition hal_bridge_focus_rz : M br Z := command FocusRz.
Definition hal_bridge_focus_limit_set (min max : Z) : M br Z := command (FocusLimitSet (mkLimit min max)).
Definition hal_bridge_zf_sync_run (zm_pps zm_micro_steps fs_pps fs_micro_steps : Z) : M br Z :=
  command (ZfSyncRun (mkZf zm_pps zm_micro_steps fs_pps fs_micro_steps)).
Definition hal_bridge_profile_set (model : Z) : M br Z :=
  with_link
    (ret ← tracked (op (ProfileSet model));
     (if ret =? 0 then modify (set_br_profile_model model) else mret tt);;
     mret ret).
Definition hal_bridge_profile_get (info : bool) : M br (Z * option (list Z)) :=
  ctx ← gets br_ctx;
  match ctx with
  | Some _ =>
      if negb info then mret (-1, None)
      else '(ret, i) ← bhw lens_profile_get; on_lens meanwhile_evts;; TRACK_MCU_ERROR ret;; mret (ret, Some i)
  | None => mret (-1, None)
  end.
Definition hal_bridge_zoom_rel (pps steps : Z) : M br Z := command (ZoomRel pps steps).
Definition hal_bridge_focus_rel (pps steps : Z) : M br Z := command (FocusRel pps steps).
Definition hal_bridge_dual_rel (zoom_pps zoom_steps focus_pps focus_steps : Z) : M br Z := command (DualRel zoom_pps zoom_steps focus_pps focus_steps).
Definition hal_bridge_iris_run (pps steps : Z) : M br Z := command (IrisRun (mkMotion pps steps)).
Definition hal_bridge_iris_stop : M br Z := command IrisStop.
Definition hal_bridge_iris_target_set (target : Z) : M br Z := command (IrisTargetSet target).
Definition hal_bridge_iris_adc_get : M br (Z * option Z) :=
  ctx ← gets br_ctx;
  match ctx with
  | None => mret (-1, None)
  | Some _ => '(ret, adc) ← bhw lens_adc; on_lens meanwhile_evts;; TRACK_MCU_ERROR ret;; mret (ret, Some adc)
  end.

(** ** The lens device *)
Definition hal_bridge_af0832_create (zoom_min zoom_max focus_min focus_max default_pps : Z) : M br Z :=
  with_link
    (s ← gets br_lens;
     match af_dev s with
     | Some _ => mret 0
     | None => on_lens (hal_lens_af0832_create true (Some (mkAfParams 60000 60000 (mkLimit zoom_min zoom_max) (mkLimit focus_min focus_max) default_pps)))
     end).
(** [if (g_af0832 == NULL) return -1;] and the tracking of the result. *)
Definition with_device (m : M (af_state D) Z) : M br Z :=
  s ← gets br_lens;
  match af_dev s with None => mret (-1) | Some _ => tracked m end.
Definition hal_bridge_af0832_mark_bootstrapped : M br unit := on_lens hal_lens_af0832_mark_bootstrapped.
Definition hal_bridge_af0832_bootstrap (fuel : nat) : M br Z := with_device (hal_lens_af0832_bootstrap fuel).
Definition hal_bridge_af0832_force_reset_zero (fuel : nat) : M br Z := with_device (hal_lens_af0832_force_reset_zero fuel).
Definition hal_bridge_af0832_goto_by_ratio_distance (unspecified : spec_float -> Z) (fuel : nat) (zoom_ratio focus_distance_m : spec_float) : M br Z :=
  with_device (hal_lens_af0832_goto_by_ratio_distance unspecified fuel zoom_ratio focus_distance_m).
Definition hal_bridge_af0832_zoom_abs (fuel : nat) (pps position : Z) : M br Z := with_device (hal_lens_af0832_zoom_abs fuel (Some (mkMotion pps position))).
Definition hal_bridge_af0832_focus_abs (fuel : nat) (pps position : Z) : M br Z := with_device (hal_lens_af0832_focus_abs fuel (Some (mkMotion pps position))).
Definition hal_bridge_af0832_zf_sync_abs (fuel : nat) (zoom_pps zoom_position focus_pps focus_position timeout : Z) : M br Z :=
  with_device (hal_lens_af0832_zf_sync_abs fuel (Some (mkMotion zoom_pps zoom_position)) (Some (mkMotion focus_pps focus_position)) timeout).
Definition hal_bridge_af0832_destroy : M br unit := drop_device.
End Bridge.

Definition hal_bridge_af0832_pos_to_ratio : Z -> option spec_float := hal_lens_af0832_pos_to_ratio.
Definition hal_bridge_af0832_calc_targets : (spec_float -> Z) -> spec_float -> spec_float -> bool -> bool -> option (Z * option Z * option Z) := hal_lens_af0832_calc_targets.
Definition hal_bridge_af0832_estimate_distance : (spec_float -> Z) -> spec_float -> Z -> bool -> option (Z * option spec_float) := hal_lens_af0832_estimate_distance.
