(* ===== verification/HalLensBridgeProps.v ===== *)
(** The bridge: every sequence of calls keeps the link, the device and the saved
    configuration consistent, and the reset of the link is done completely or not at
    all. *)
From S2P Require Import Prelude Ms41908mReg FactoryFormat BspCtrl HalFloat HalLensFg2009 HalLensAf0832 HalLensWait HalLensBoot HalLensTable HalLensGeometry HalLensSafe HalLensBridge.

(** [init] hands out a context when it succeeds, and only then. *)
Class McuLaws (D : Type) {MO : McuOps D} : Prop :=
  mcu_init_law : forall cfg d, ((mcu_init cfg d).1.1 = 0 <-> is_Some (mcu_init cfg d).1.2).

Section Bridge.
Context `{LL : LensLaws D} {LN : LensNear D} {MO : McuOps D} {ML : McuLaws D} (fuel : nat).
Hypothesis fuel_minute : enough 60000 fuel.
Notation af := (af_state D).
Notation br := (bridge_state D).

(** ** The lens component below the bridge *)
Definition fits (s : af) : Prop := match af_dev s with Some d => fit fuel d | None => True end.
(** The device is still there, or still not. *)
Definition level (s s' : af) : Prop := fits s' /\ (is_Some (af_dev s') <-> is_Some (af_dev s)).
Lemma kf_level {A} (m : M af A) P s : keeps_fit fuel m P -> is_Some (af_dev s) -> fits s -> returns m (fun a s' => P a /\ level s s') s.
Proof.
  intros Hm [d Hd] Hf. unfold fits in Hf. rewrite Hd in Hf. eapply returns_mono; [by apply (Hm s d)|]. cbn beta. intros a s' (Ha & d' & Hd' & Hf').
  split; [done|]. unfold level, fits. rewrite Hd', Hd. by split.
Qed.

(** What the bridge does: commands, and the opening and closing of the link. *)
Definition is_act (o : lens_obs) : bool := match o with OSent _ _ | OClosed _ | OOpened _ _ _ _ _ => true | _ => false end.
Definition acts (tr : list lens_obs) : list lens_obs := List.filter is_act tr.
(** From [s] to [s'] it did [l], in this order. *)
Definition acted (s s' : af) (l : list lens_obs) : Prop := exists tr, af_trace s' = af_trace s ++ tr /\ acts tr = l.
Lemma acted_same s s' : af_trace s' = af_trace s -> acted s s' [].
Proof. intros E. exists []. by rewrite app_nil_r. Qed.
Lemma acted_trans s s1 s2 l1 l2 : acted s s1 l1 -> acted s1 s2 l2 -> acted s s2 (l1 ++ l2).
Proof. intros (t1 & E1 & <-) (t2 & E2 & <-). exists (t1 ++ t2). rewrite E2, E1, app_assoc. split; [done|]. apply List.filter_app. Qed.
Lemma acts_came es : acts (map OCame es) = [].
Proof. by induction es. Qed.
Lemma acted_one s s' o es : is_act o = true -> af_trace s' = af_trace s ++ o :: map OCame es -> acted s s' [o].
Proof. intros Ho E. exists (o :: map OCame es). split; [done|]. unfold acts. cbn. rewrite Ho. f_equal. apply acts_came. Qed.

(** Events without a device. *)
Lemma happen_none es : forall s : af, Forall is_evt es -> af_dev s = None -> lens_happen es s = Ret tt (set_af_trace (af_trace s ++ map OCame es) s).
Proof.
  induction es as [|e es IH]; intros s He Hd; [destruct s; cbn; by rewrite app_nil_r|]. inversion He as [|? ? H1 H2]; subst. destruct e; [|done..].
  cbn [lens_happen lens_evt_trampoline]. erewrite (bind_ret_eq _ _ s tt).
  2:{ unfold observe, mbind, M_bind, get, modify. cbn [af_dev set_af_trace]. by rewrite Hd. }
  rewrite IH by done. cbn. by rewrite <-app_assoc.
Qed.
Lemma meanwhile_level s : fits s -> returns meanwhile_evts (fun _ s' => level s s' /\ exists es, af_trace s' = af_trace s ++ map OCame es) s.
Proof.
  intros Hf. unfold level. destruct (af_dev s) as [d|] eqn:Hd.
  - eapply returns_mono; [apply (meanwhile_since s d [] s (since_refl s d Hd))|]. cbn beta. intros _ s' (_ & es & Hs). destruct Hs as (Hd' & Hc & _).
    split; [|by exists es]. unfold fits in *. rewrite Hd in Hf. rewrite Hd'. split; [|done]. apply (fit_kin fuel d); [by apply kin_noted|done].
  - unfold meanwhile_evts, ahw. rstep. destruct (meanwhile_law (af_hw s)) as [_ He]. destruct (lens_meanwhile (af_hw s)) as [es w]. cbn [fst] in He. rstep.
    unfold returns. rewrite (happen_none es (set_af_hw w s) He Hd). unfold fits. cbn. rewrite Hd. split; [done|]. by exists es.
Qed.
Lemma op_level c s : fits s -> returns (op c) (fun r s' => r = (lens_op c (af_hw s)).1 /\ level s s' /\ acted s s' [OSent c r]) s.
Proof.
  intros Hf. unfold op, raw_op, ahw, observe. rstep. destruct (lens_op c (af_hw s)) as [r w]. rstep.
  set (s1 := set_af_trace _ _). assert (Hf1 : fits s1) by exact Hf. rcall (meanwhile_level s1 Hf1). intros _ s' [Hl (es & Hc)]. rstep. split_and!; [done|exact Hl|].
  apply (acted_one _ _ _ es); [done|]. rewrite Hc. unfold s1. cbn. by rewrite <-app_assoc.
Qed.
Lemma state_level s : fits s -> returns state_get (fun _ s' => level s s') s.
Proof.
  intros Hf. unfold state_get, ahw, observe. rstep. destruct (lens_state (af_hw s)) as [r w]. rstep. set (s1 := set_af_trace _ _).
  assert (Hf1 : fits s1) by exact Hf. rcall (meanwhile_level s1 Hf1). intros _ s' [Hl _]. by rstep.
Qed.
(** The end of a subscription, if there is a device. *)
Definition unsubscribed (s : af) (l : list lens_obs) : Prop :=
  match af_dev s with Some _ => exists u, l = [OSent Unsubscribe u] | None => l = [] end.
Lemma destroy_none s : fits s -> returns hal_lens_af0832_destroy (fun _ s' => af_dev s' = None /\ exists l, unsubscribed s l /\ acted s s' l) s.
Proof.
  intros Hf. unfold hal_lens_af0832_destroy, unsubscribed. rstep. destruct (af_dev s) as [d|] eqn:Hd; [|rstep; split; [done|]; exists []; split; [done|by apply acted_same]].
  unfold destroy_announce. rcall (on_dev_since _ _ _ (set_closing true) _ (since_refl s d Hd) eq_refl). intros _ s1 [_ Hs1].
  rcall (op_since _ _ _ Unsubscribe _ Hs1). intros u s2 (_ & _ & es & (_ & Ht & _)). unfold destroy_free. rstep. split; [done|]. exists [OSent Unsubscribe u]. split; [by exists u|].
  apply (acted_one _ _ _ es); [done|]. exact Ht.
Qed.

(** ** The variables of the bridge *)
(** Consistent after [k] calls: the device needs the link, the link was opened with a
    configuration that is saved, and the saved path is the bridge's own copy. *)
Definition sound (k : Z) (s : br) : Prop :=
  fits (br_lens s) /\ (is_Some (af_dev (br_lens s)) -> is_Some (br_ctx s)) /\ (is_Some (br_ctx s) -> br_config_saved s = true) /\
  (br_config_saved s = true -> exists l, serial_device (br_mcu_config s) = Some (Owned l)) /\ 0 <= br_consecutive_errors s <= k.

(** A step of the lens component that leaves the device there, or not. *)
Lemma on_lens_level {A} (m : M af A) (P : A -> af -> Prop) s : returns m (fun a l => P a l /\ level (br_lens s) l) (br_lens s) ->
  returns (on_lens m) (fun a s' => P a (br_lens s') /\ level (br_lens s) (br_lens s') /\ s' = set_br_lens (br_lens s') s) s.
Proof. intros H. unfold on_lens. apply returns_zoom. eapply returns_mono; [exact H|]. cbn beta. intros a l [? ?]. by split_and!. Qed.
Lemma sound_level k s l : sound k s -> level (br_lens s) l -> sound k (set_br_lens l s).
Proof. intros (Hf & Hd & Hs) [Hl Hi]. split; [exact Hl|]. split; [|exact Hs]. cbn. intros H. by apply Hd, Hi. Qed.

Lemma drop_device_ok k s : sound k s -> returns drop_device (fun _ s' => exists l a, s' = set_br_lens l s /\ af_dev l = None /\
  unsubscribed (br_lens s) a /\ acted (br_lens s) l a) s.
Proof. intros Hs. unfold drop_device, on_lens. apply returns_zoom. eapply returns_mono; [apply destroy_none, Hs|]. cbn beta. intros _ l (H1 & a & H2). by exists l, a. Qed.
Lemma bhw_eq {A} (f : D -> A * D) (s : br) : bhw f s = Ret (f (af_hw (br_lens s))).1 (set_br_lens (set_af_hw (f (af_hw (br_lens s))).2 (br_lens s)) s).
Proof. unfold bhw, on_lens, zoom, ahw, mbind, M_bind, gets. destruct (f (af_hw (br_lens s))). reflexivity. Qed.
(** Closing the link. *)
Lemma close_link_ok x s : returns (close_link x) (fun _ s' => exists l, s' = set_br_ctx None (set_br_lens l s) /\ af_dev l = af_dev (br_lens s) /\ acted (br_lens s) l [OClosed x]) s.
Proof.
  unfold close_link. rrun (bhw_eq (mcu_deinit x) s). unfold on_lens, observe, zoom, modify. rstep. eexists. split; [reflexivity|]. split; [done|]. by exists [OClosed x].
Qed.
(** Opening it with the configuration [cfg]. *)
Definition opened (cfg : HalMcuConfig) (st : Z) (ctx : option Z) : lens_obs := OOpened (path_bytes <$> serial_device cfg) (baud_rate cfg) (timeout_ms cfg) st ctx.
Lemma open_mcu_ok cfg s : returns (open_mcu cfg) (fun r s' => exists l ctx, af_dev l = af_dev (br_lens s) /\ acted (br_lens s) l [opened cfg r ctx] /\ (r = 0 <-> is_Some ctx) /\
  s' = match ctx with Some c => set_br_ctx (Some c) (set_br_lens l s) | None => set_br_lens l s end) s.
Proof.
  unfold open_mcu. rrun (bhw_eq (mcu_init cfg) s). pose proof (mcu_init_law cfg (af_hw (br_lens s))) as Hi. destruct (mcu_init cfg (af_hw (br_lens s))) as [[r ctx] w]. cbn [fst snd] in *.
  unfold on_lens, observe, zoom, modify. rstep.
  destruct ctx as [c|]; rstep; [eexists _, (Some c)|eexists _, None]; (split_and!; [| |exact Hi|reflexivity]); try done; eexists [_]; split; reflexivity.
Qed.

(** The commands of the new start. *)
Definition restart_plan (model : Z) : list lens_cmd :=
  [LensInit; LensConfig 0] ++ if negb (model =? HAL_LENS_MODEL_AF0832) then [ProfileSet model] else [].
(** Commands the controller took. *)
Definition taken (cs : list lens_cmd) : list lens_obs := map (fun c => OSent c 0) cs.
(** Nothing of the bridge but the link, the lens component and the count has changed. *)
Definition framed (s s' : br) : Prop :=
  br_profile_model s' = br_profile_model s /\ br_mcu_config s' = br_mcu_config s /\ br_config_saved s' = br_config_saved s.

(** What a new start on the link [x] leaves behind: either the controller took all the
    commands, the link is up and the errors are forgotten, or it refused one of them, and
    the link is closed again. *)
Definition restarted (model x : Z) (s s' : br) (rest : list lens_obs) : Prop :=
  br_ctx s' = Some x /\ br_consecutive_errors s' = 0 /\ rest = taken (restart_plan model) \/
  br_ctx s' = None /\ br_consecutive_errors s' = br_consecutive_errors s /\
    exists cs c e, (cs ++ [c]) `prefix_of` restart_plan model /\ e <> 0 /\ rest = taken cs ++ [OSent c e; OClosed x].

(** One step: the commands [cs] have been taken since [s]. *)
Lemma restart_step_ok model x s cs c k s1 : br_ctx s1 = Some x -> af_dev (br_lens s1) = None -> framed s s1 -> br_consecutive_errors s1 = br_consecutive_errors s ->
  acted (br_lens s) (br_lens s1) (taken cs) -> (cs ++ [c]) `prefix_of` restart_plan model ->
  (forall s2, br_ctx s2 = Some x -> af_dev (br_lens s2) = None -> framed s s2 -> br_consecutive_errors s2 = br_consecutive_errors s ->
    acted (br_lens s) (br_lens s2) (taken (cs ++ [c])) -> returns k (fun _ s' => af_dev (br_lens s') = None /\ framed s s' /\ exists rest, acted (br_lens s) (br_lens s') rest /\ restarted model x s s' rest) s2) ->
  returns (restart_step c k) (fun _ s' => af_dev (br_lens s') = None /\ framed s s' /\ exists rest, acted (br_lens s) (br_lens s') rest /\ restarted model x s s' rest) s1.
Proof.
  intros Hx Hd Hfr He Ha Hp Hk. unfold restart_step. assert (Hf : fits (br_lens s1)) by (unfold fits; by rewrite Hd).
  rcall (on_lens_level (op c) (fun r l => acted (br_lens s1) l [OSent c r]) s1).
  { eapply returns_mono; [by apply op_level|]. cbn beta. intros r l (? & ? & ?). by split_and!. }
  intros r s2 (Hc & [_ Hi] & E2). assert (Hl : af_dev (br_lens s2) = None) by (destruct (af_dev (br_lens s2)); [|done]; exfalso; rewrite Hd in Hi; by destruct (proj1 Hi)).
  rewrite E2. set (l := br_lens s2) in *. pose proof (acted_trans _ _ _ _ _ Ha Hc) as Ha2. destruct (Z.eqb_spec r 0) as [->|Hr]; cbn [negb].
  - apply Hk; try done. unfold taken. by rewrite map_app.
  - rstep. cbn [br_ctx set_br_lens]. rewrite Hx. rcall (close_link_ok x (set_br_lens l s1)). intros _ s3 (l3 & -> & Hd3 & Ha3). rstep. split; [by cbn; rewrite Hd3|]. split; [exact Hfr|].
    eexists. split; [exact (acted_trans _ _ _ _ _ Ha2 Ha3)|]. right. split_and!; [done|exact He|]. exists cs, c, r. split_and!; try done. by rewrite <-app_assoc.
Qed.

(** From the opened link on. *)
Lemma mcu_restart_ok x s : br_ctx s = Some x -> af_dev (br_lens s) = None ->
  returns (restart_step LensInit
        (restart_step (LensConfig 0)
          (model ← gets br_profile_model;
           let finish := modify (set_br_consecutive_errors 0) in
           if negb (model =? HAL_LENS_MODEL_AF0832) then restart_step (ProfileSet model) finish else finish)))
    (fun _ s' => af_dev (br_lens s') = None /\ framed s s' /\ exists rest, acted (br_lens s) (br_lens s') rest /\ restarted (br_profile_model s) x s s' rest) s.
Proof.
  intros Hx Hd. assert (Hp : forall k, take k (restart_plan (br_profile_model s)) `prefix_of` restart_plan (br_profile_model s)) by (intros k; eexists; symmetry; apply take_drop).
  assert (Hfin : forall s1, br_ctx s1 = Some x -> af_dev (br_lens s1) = None -> framed s s1 -> acted (br_lens s) (br_lens s1) (taken (restart_plan (br_profile_model s))) ->
    returns (modify (set_br_consecutive_errors 0)) (fun _ s' => af_dev (br_lens s') = None /\ framed s s' /\ exists rest, acted (br_lens s) (br_lens s') rest /\ restarted (br_profile_model s) x s s' rest) s1).
  { intros s1 H1 H2 H3 H4. rstep. split_and!; try apply H3; [done|]. eexists. split; [exact H4|]. left. by split_and!. }
  apply (restart_step_ok _ x s []); try done; [by apply acted_same|apply (Hp 1%nat)|]. intros s1 H1 H2 H3 H4 H5. cbn [app] in H5.
  apply (restart_step_ok _ x s [LensInit]); try done; [apply (Hp 2%nat)|]. intros s2 G1 G2 G3 G4 G5. cbn [app] in G5. rstep. pose proof G3 as (Em & _). rewrite Em.
  destruct (negb (br_profile_model s =? HAL_LENS_MODEL_AF0832)) eqn:En.
  - apply (restart_step_ok _ x s [LensInit; LensConfig 0]); try done.
    + unfold restart_plan. rewrite En. done.
    + intros s3 K1 K2 K3 K4 K5. apply Hfin; try done. unfold restart_plan. by rewrite En.
  - apply Hfin; try done. unfold restart_plan. by rewrite En.
Qed.

(** What a reset leaves behind: the device is dropped, the link closed if it was open, and
    opened again with the saved configuration; then the new start. *)
Definition reset_done (s s' : br) : Prop := af_dev (br_lens s') = None /\ framed s s' /\
  exists a st ctx rest, unsubscribed (br_lens s) a /\
    acted (br_lens s) (br_lens s') (a ++ match br_ctx s with Some x => [OClosed x] | None => [] end ++ opened (br_mcu_config s) st ctx :: rest) /\
    (st = 0 /\ (exists x, ctx = Some x /\ restarted (br_profile_model s) x s s' rest) \/
     st <> 0 /\ rest = [] /\ br_ctx s' = None /\ br_consecutive_errors s' = br_consecutive_errors s).

Lemma try_reset_ok k s : sound k s -> br_config_saved s = true -> returns try_reset_mcu_context (fun _ => reset_done s) s.
Proof.
  intros Hs Hsv. unfold try_reset_mcu_context. rstep. rewrite Hsv. cbn [negb]. rcall (drop_device_ok k s Hs). intros _ s1 (l & a & -> & Hl & Hu & Ha).
  set (cl := match br_ctx s with Some x => [OClosed x] | None => [] end). apply returns_bind.
  assert (Hclose : returns (match br_ctx s with Some c => close_link c;; mret tt | None => mret tt end)
    (fun _ s2 => exists l2, s2 = set_br_ctx None (set_br_lens l2 s) /\ af_dev l2 = None /\ acted l l2 cl) (set_br_lens l s)).
  { subst cl. destruct (br_ctx s) as [c|] eqn:Ex.
    - rcall (close_link_ok c (set_br_lens l s)). intros _ s2 (l2 & -> & Hd2 & Ha2). rstep. exists l2. cbn in *. rewrite Hd2. done.
    - rstep. exists l. split_and!; [|done|by apply acted_same]. destruct s. cbn in *. by subst. }
  eapply returns_mono; [exact Hclose|]. cbn beta. intros _ s2 (l2 & -> & Hl2 & Ha2). set (s2 := set_br_ctx None (set_br_lens l2 s)).
  rcall (open_mcu_ok (br_mcu_config s) s2). intros st s3 (l3 & ctx & Hd3 & Ha3 & Hst & ->). pose proof (acted_trans _ _ _ _ _ Ha (acted_trans _ _ _ _ _ Ha2 Ha3)) as Ha4.
  assert (Hl3 : af_dev l3 = None) by (by rewrite Hd3). destruct ctx as [x|].
  - rewrite (proj2 Hst) in * by done. cbn [Z.eqb negb]. set (s3 := set_br_ctx (Some x) _). eapply returns_mono; [by apply (mcu_restart_ok x s3)|]. cbn beta.
    intros _ s4 (H1 & H2 & rest & H3 & H4). split; [done|]. split; [exact H2|]. exists a, 0, (Some x), rest. split; [done|]. split.
    + change (opened (br_mcu_config s) 0 (Some x) :: rest) with ([opened (br_mcu_config s) 0 (Some x)] ++ rest). rewrite !app_assoc, <-(app_assoc a).
      exact (acted_trans _ _ _ _ _ Ha4 H3).
    + left. split; [done|]. exists x. by split.
  - destruct (Z.eqb_spec st 0) as [->|Hr]; [by destruct (proj1 Hst eq_refl)|]. cbn [negb]. rstep. split; [done|]. split; [done|]. exists a, st, None, []. split; [done|].
    split; [exact Ha4|]. right. by split_and!.
Qed.

Lemma sound_more k k' s : sound k s -> k <= k' -> sound k' s.
Proof. intros (? & ? & ? & ? & ?) ?. split_and!; try done; lia. Qed.
Lemma reset_sound k s s' : sound k s -> br_config_saved s = true -> reset_done s s' -> sound k s'.
Proof.
  intros (_ & _ & _ & Hp & He) Hsv (H1 & (_ & H3 & H4) & a & st & ctx & rest & _ & _ & H6). rewrite Hsv in H4. split; [unfold fits; by rewrite H1|].
  split; [rewrite H1; by intros [? ?]|]. rewrite H3, H4. split; [done|]. split; [by intros _; apply Hp|].
  destruct H6 as [(_ & x & _ & [(_ & -> & _)|(_ & -> & _)])|(_ & _ & _ & ->)]; lia.
Qed.
Lemma try_reset_sound k s : sound k s -> returns try_reset_mcu_context (fun _ => sound k) s.
Proof.
  intros Hs. destruct (br_config_saved s) eqn:Hsv.
  - eapply returns_mono; [by apply (try_reset_ok k)|]. cbn beta. intros _ s'. by apply reset_sound.
  - unfold try_reset_mcu_context. rstep. rewrite Hsv. cbn [negb]. rstep. destruct Hs as (? & ? & ? & ? & ?). split_and!; try done; cbn; lia.
Qed.
Definition INT_MAX : Z := 2147483647.
Lemma track_sound k r s : k < INT_MAX -> sound k s -> returns (TRACK_MCU_ERROR r) (fun _ => sound (k + 1)) s.
Proof.
  intros Hk Hs. pose proof Hs as (? & ? & ? & ? & He). unfold TRACK_MCU_ERROR, INT_MAX in *. destruct (negb (r =? 0)).
  - unfold count_error. apply returns_bind. rstep. rewrite (proj2 (Z.eqb_neq _ _)) by lia. rstep. set (s1 := set_br_consecutive_errors _ s).
    assert (Hs1 : sound (k + 1) s1) by (split_and!; try done; cbn; lia). destruct (_ <=? _); [by apply try_reset_sound|by rstep].
  - rstep. split_and!; try done; cbn; lia.
Qed.

(** [m] keeps the variables consistent, and may count one error. *)
Definition safe {A} (m : M br A) : Prop := forall k s, k < INT_MAX -> sound k s -> returns m (fun _ => sound (k + 1)) s.
Lemma with_link_safe m : (forall k s, k < INT_MAX -> sound k s -> is_Some (br_ctx s) -> returns m (fun _ => sound (k + 1)) s) -> safe (with_link m).
Proof.
  intros Hm k s Hk Hs. unfold with_link. rstep. destruct (br_ctx s) eqn:E; [by apply Hm|]. rstep. apply (sound_more k); [done|lia].
Qed.
(** A call of the lens component, tracked. *)
Lemma tracked_safe (m : M af Z) k s : k < INT_MAX -> sound k s -> returns m (fun _ l => level (br_lens s) l) (br_lens s) -> returns (tracked m) (fun _ => sound (k + 1)) s.
Proof.
  intros Hk Hs Hm. unfold tracked. apply returns_bind. eapply returns_mono; [apply (on_lens_level m (fun _ _ => True)); eapply returns_mono; [exact Hm|done]|]. cbn beta.
  intros r s' (_ & Hl & ->). rcall (track_sound k r _ Hk (sound_level k s _ Hs Hl)). intros _ s2 H2. by rstep.
Qed.
Lemma device_call_safe {A B} (m : M af A) (g : A -> Z) (f : A -> B) k s : k < INT_MAX -> sound k s -> returns m (fun _ l => level (br_lens s) l) (br_lens s) ->
  returns (a ← on_lens m; TRACK_MCU_ERROR (g a);; mret (f a)) (fun _ => sound (k + 1)) s.
Proof.
  intros Hk Hs Hm. apply returns_bind. eapply returns_mono; [apply (on_lens_level m (fun _ _ => True)); eapply returns_mono; [exact Hm|done]|]. cbn beta.
  intros r s' (_ & Hl & ->). rcall (track_sound k (g r) _ Hk (sound_level k s _ Hs Hl)). intros _ s2 H2. by rstep.
Qed.
Lemma op_level' c s : fits s -> returns (op c) (fun _ l => level s l) s.
Proof. intros Hf. eapply returns_mono; [by apply op_level|]. by cbn beta; intros r l (_ & ? & _). Qed.
Lemma command_safe c : safe (command c).
Proof. apply with_link_safe. intros k s Hk Hs _. apply tracked_safe; [done..|]. by apply op_level', Hs. Qed.
Lemma untracked_safe c : safe (with_link (on_lens (op c))).
Proof.
  apply with_link_safe. intros k s Hk Hs _. eapply returns_mono; [apply (on_lens_level (op c) (fun _ _ => True)); eapply returns_mono; [by apply op_level', Hs|done]|]. cbn beta.
  intros r s' (_ & Hl & ->). apply (sound_more k); [by apply sound_level|lia].
Qed.
(** The calls through the device. *)
Lemma with_device_safe m : keeps_fit fuel m (fun _ => True) -> safe (with_device m).
Proof.
  intros Hm k s Hk Hs. unfold with_device. rstep. destruct (af_dev (br_lens s)) as [d|] eqn:Hd; [|rstep; apply (sound_more k); [done|lia]].
  apply tracked_safe; [done..|]. eapply returns_mono; [apply (kf_level m); [done|by rewrite Hd|apply Hs]|]. by cbn beta; intros r l [_ ?].
Qed.

Lemma state_get_safe : safe hal_bridge_lens_state_get.
Proof.
  intros k s Hk Hs. unfold hal_bridge_lens_state_get. rstep. destruct (br_ctx s); [|rstep; apply (sound_more k); [done|lia]].
  eapply returns_eq; [|apply (device_call_safe state_get fst (fun p => (p.1, Some p.2)) k s Hk Hs); apply state_level, Hs].
  unfold mbind, M_bind. by destruct (on_lens state_get s) as [[? ?]| | |].
Qed.
(** A query whose answer is [f], and the events that come in meanwhile. *)
Lemma query_safe {A} (f : D -> Z * A * D) k s : k < INT_MAX -> sound k s ->
  returns ('(ret, a) ← bhw f; on_lens meanwhile_evts;; TRACK_MCU_ERROR ret;; mret (ret, Some a)) (fun _ => sound (k + 1)) s.
Proof.
  intros Hk Hs. rrun (bhw_eq f s). set (s1 := set_br_lens _ s). destruct (f (af_hw (br_lens s))).1 as [r a] eqn:E.
  assert (Hs1 : sound k s1) by (apply sound_level; [done|]; split; [apply Hs|done]).
  apply returns_bind. eapply returns_mono; [apply (on_lens_level meanwhile_evts (fun _ _ => True)); eapply returns_mono; [apply meanwhile_level, Hs1|]; by intros _ l [? _]|]. cbn beta.
  intros _ s2 (_ & Hl & ->). rcall (track_sound k r _ Hk (sound_level k s1 _ Hs1 Hl)). intros _ s3 H3. by rstep.
Qed.
Lemma profile_get_safe i : safe (hal_bridge_profile_get i).
Proof.
  intros k s Hk Hs. unfold hal_bridge_profile_get. rstep. destruct (br_ctx s); [destruct i; cbn [negb]; [by apply query_safe|]|]; rstep; apply (sound_more k); try done; lia.
Qed.
Lemma adc_get_safe : safe hal_bridge_iris_adc_get.
Proof. intros k s Hk Hs. unfold hal_bridge_iris_adc_get. rstep. destruct (br_ctx s); [by apply query_safe|]. rstep. apply (sound_more k); [done|lia]. Qed.
Lemma profile_set_safe m : safe (hal_bridge_profile_set m).
Proof.
  apply with_link_safe. intros k s Hk Hs _. rcall (tracked_safe (op (ProfileSet m)) k s Hk Hs (op_level' _ _ (proj1 Hs))). intros r s' H'.
  apply returns_bind. destruct (r =? 0); rstep; exact H'.
Qed.
Lemma mark_safe : safe hal_bridge_af0832_mark_bootstrapped.
Proof.
  intros k s Hk Hs. unfold hal_bridge_af0832_mark_bootstrapped. eapply returns_mono; [apply (on_lens_level _ (fun _ _ => True))|].
  - destruct (af_dev (br_lens s)) as [d|] eqn:Hd.
    + eapply returns_mono; [apply (kf_level _ (fun _ => True)); [apply kf_mark|by rewrite Hd|apply Hs]|]. done.
    + unfold hal_lens_af0832_mark_bootstrapped. rstep. rewrite Hd. rstep. split; [done|]. split; [apply Hs|done].
  - cbn beta. intros r s' (_ & Hl & ->). apply (sound_more k); [by apply sound_level|lia].
Qed.
Lemma gone_sound k s l : sound k s -> af_dev l = None -> sound k (set_br_lens l s).
Proof. intros (_ & _ & Hs) Hl. split; [unfold fits; cbn; by rewrite Hl|]. split; [cbn; rewrite Hl; by intros [? ?]|exact Hs]. Qed.
Lemma destroy_safe : safe hal_bridge_af0832_destroy.
Proof.
  intros k s Hk Hs. eapply returns_mono; [apply (drop_device_ok k s Hs)|]. cbn beta. intros _ s' (l & a & -> & Hl & _). apply (sound_more k); [by apply gone_sound|lia].
Qed.
Lemma create_safe a b c e p : near a -> near b -> near c -> near e -> safe (hal_bridge_af0832_create a b c e p).
Proof.
  intros Ha Hb Hc He. apply with_link_safe. intros k s Hk Hs Hx. rstep. destruct (af_dev (br_lens s)) as [d|] eqn:Hd; [rstep; apply (sound_more k); [done|lia]|].
  apply returns_zoom. unfold hal_lens_af0832_create, ahw. cbn [negb]. apply returns_bind. rstep. destruct (calloc_ok (af_hw (br_lens s))) as [ok w]. rstep. destruct ok; cbn [negb]; rstep.
  - apply (sound_more k); [|lia]. destruct Hs as (_ & _ & Hs). split; [|split; [by intros _|exact Hs]]. unfold fits. cbn. by split_and!.
  - apply (sound_more k); [|lia]. apply gone_sound; [done|]. exact Hd.
Qed.
Lemma io_deinit_safe : safe hal_bridge_io_deinit.
Proof.
  intros k s Hk Hs. unfold hal_bridge_io_deinit. rstep. destruct (br_ctx s) as [c|] eqn:Hx; [|rstep; apply (sound_more k); [done|lia]].
  rcall (drop_device_ok k s Hs). intros _ s1 (l & a & -> & Hl & _). rcall (close_link_ok c (set_br_lens l s)). intros r s2 (l2 & -> & Hd2 & _). cbn in Hd2. rewrite Hl in Hd2. clear Hl. rename Hd2 into Hl. rstep.
  cbn [br_mcu_config set_br_ctx set_br_lens]. destruct Hs as (_ & _ & Hsv & Hp & He). rewrite Hsv in * by done. destruct (Hp eq_refl) as [path Ep]. rewrite Ep, bool_decide_eq_true_2 by done. cbn [andb free_path]. apply returns_bind. rstep.
  unfold sound, fits. cbn. rewrite Hl. split_and!; try done; try lia; by intros [? ?].
Qed.

(** An allocator that never fails. *)
Hypothesis malloc_works : forall d, (malloc_ok d).1 = true.
Lemma io_init_safe dev baud tm : safe (hal_bridge_io_init dev baud tm).
Proof.
  intros k s Hk Hs. unfold hal_bridge_io_init. rstep. destruct (br_ctx s) as [c|] eqn:Hx; [rstep; apply (sound_more k); [done|lia]|].
  pose proof Hs as (Hf & Hd & Hsv & Hp & He). assert (Hdev : af_dev (br_lens s) = None) by (destruct (af_dev (br_lens s)); [|done]; destruct Hd as [y Hy]; [done|]; by rewrite Hx in Hy).
  assert (Hfree : (if br_config_saved s then free_path (serial_device (br_mcu_config s)) else mret tt) s = Ret tt s).
  { destruct (br_config_saved s); [|done]. by destruct (Hp eq_refl) as [path ->]. }
  rrun Hfree. rstep. rrun (bhw_eq malloc_ok (set_br_mcu_config (mkMcuCfg (Some (Callers dev)) baud tm) s)). cbn [br_lens set_br_mcu_config]. rewrite malloc_works. cbn [negb]. rstep.
  set (cfg := mkMcuCfg (Some (Callers dev)) baud tm). set (s1 := set_br_config_saved true _). eapply returns_mono; [apply (open_mcu_ok cfg s1)|]. cbn beta.
  intros r s2 (l & ctx & Hl & _ & _ & ->). unfold s1 in Hl. cbn in Hl. rewrite Hdev in Hl.
  destruct ctx as [x|]; subst s1; unfold sound, fits; cbn; rewrite Hl; split_and!; try done; try lia; try (by intros [? ?]); intros _; by eexists.
Qed.

(** ** Sequences of calls *)
Inductive bridge_call : Type :=
| CIoInit (device : list Z) (baud timeout : Z) | CIoDeinit
| CLensInit | CLensDeinit | CLensConfig (mode : Z) | CStateGet | CAdcGet | CProfileSet (model : Z) | CProfileGet (info : bool)
| CCommand (c : lens_cmd)
| CCreate (zoom_min zoom_max focus_min focus_max pps : Z) | CMark | CBootstrap | CForceReset
| CGoto (unspecified : spec_float -> Z) (zoom_ratio distance_m : spec_float)
| CZoomAbs (pps position : Z) | CFocusAbs (pps position : Z) | CSyncAbs (zoom_pps zoom_position focus_pps focus_position timeout : Z)
| CDestroy.
Definition ignore {A} (m : M br A) : M br unit := m;; mret tt.
Definition bridge_do (c : bridge_call) : M br unit :=
  match c with
  | CIoInit d b t => ignore (hal_bridge_io_init d b t)
  | CIoDeinit => ignore hal_bridge_io_deinit
  | CLensInit => ignore hal_bridge_lens_init
  | CLensDeinit => ignore hal_bridge_lens_deinit
  | CLensConfig m => ignore (hal_bridge_lens_config m)
  | CStateGet => ignore hal_bridge_lens_state_get
  | CAdcGet => ignore hal_bridge_iris_adc_get
  | CProfileSet m => ignore (hal_bridge_profile_set m)
  | CProfileGet i => ignore (hal_bridge_profile_get i)
  | CCommand c => ignore (command c)
  | CCreate a b c d p => ignore (hal_bridge_af0832_create a b c d p)
  | CMark => hal_bridge_af0832_mark_bootstrapped
  | CBootstrap => ignore (hal_bridge_af0832_bootstrap fuel)
  | CForceReset => ignore (hal_bridge_af0832_force_reset_zero fuel)
  | CGoto u r d => ignore (hal_bridge_af0832_goto_by_ratio_distance u fuel r d)
  | CZoomAbs p x => ignore (hal_bridge_af0832_zoom_abs fuel p x)
  | CFocusAbs p x => ignore (hal_bridge_af0832_focus_abs fuel p x)
  | CSyncAbs zp z fp f t => ignore (hal_bridge_af0832_zf_sync_abs fuel zp z fp f t)
  | CDestroy => hal_bridge_af0832_destroy
  end.
Fixpoint bridge_run (cs : list bridge_call) : M br unit := match cs with [] => mret tt | c :: cs => bridge_do c;; bridge_run cs end.
(** Limits of a sensible size, a ratio and distance with targets, fuel for the timeout. *)
Definition call_ok (c : bridge_call) : Prop :=
  match c with
  | CCreate a b c d _ => near a /\ near b /\ near c /\ near d
  | CGoto u r d => is_Some (raw_targets u r d)
  | CSyncAbs _ _ _ _ t => 0 < t -> enough t fuel
  | _ => True
  end.
Definition bridge_init (w : D) : br := mkBridge None (mkAfState None w [] []) HAL_LENS_MODEL_AF0832 (mkMcuCfg None 0 0) false 0.

Lemma ignore_safe {A} (m : M br A) : safe m -> safe (ignore m).
Proof. intros Hm k s Hk Hs. unfold ignore. rcall (Hm k s Hk Hs). intros _ s' H. by rstep. Qed.
Lemma call_safe c : call_ok c -> safe (bridge_do c).
Proof.
  intros Hc. destruct c; cbn [bridge_do call_ok] in *; try apply mark_safe; try apply destroy_safe; apply ignore_safe.
  - apply io_init_safe.
  - apply io_deinit_safe.
  - apply untracked_safe.
  - apply untracked_safe.
  - apply untracked_safe.
  - apply state_get_safe.
  - apply adc_get_safe.
  - apply profile_set_safe.
  - apply profile_get_safe.
  - apply command_safe.
  - destruct Hc as (? & ? & ? & ?). by apply create_safe.
  - apply with_device_safe, kf_bootstrap.
  - apply with_device_safe, kf_force_reset.
  - by apply with_device_safe, kf_goto.
  - apply with_device_safe, kf_zoom_abs.
  - apply with_device_safe, kf_focus_abs.
  - by apply with_device_safe, kf_sync_abs.
Qed.
Lemma run_sound cs : forall k s, Forall call_ok cs -> k + zlen cs <= INT_MAX -> sound k s -> returns (bridge_run cs) (fun _ => sound (k + zlen cs)) s.
Proof.
  unfold zlen. induction cs as [|c cs IH]; intros k s Hc Hk Hs; [rstep; by rewrite Z.add_0_r|]. inversion Hc; subst. cbn [bridge_run]. cbn [length] in *.
  rcall (call_safe c ltac:(done) k s ltac:(lia) Hs). intros _ s' Hs'. eapply returns_mono; [apply (IH (k + 1)); [done|lia|done]|]. cbn beta. intros _ s2.
  by replace (k + 1 + Z.of_nat (length cs)) with (k + Z.of_nat (S (length cs))) by lia.
Qed.

(** C12 [lens_bridge_calls_safe]: every sequence of calls of the bridge, fewer than 2^31 of them, returns, whatever the
    controller answers and whatever events arrive: with an allocator that works, limits
    and positions below 2^30 in size, a clock that may fail but is not set back, and no
    other thread that destroys the device, no call uses a freed device or frees what is not its own.  At the end a device exists only with a link, a link only with a
    saved configuration, and the saved path is the bridge's own copy. *)
Theorem lens_bridge_calls_safe cs w : Forall call_ok cs -> zlen cs <= INT_MAX ->
  returns (bridge_run cs) (fun _ => sound (zlen cs)) (bridge_init w).
Proof. intros Hc Hl. apply (run_sound cs 0); [done|lia|]. unfold sound, fits. cbn. split_and!; try done; try lia; by intros [? ?]. Qed.
End Bridge.

Section Reset.
Context `{LL : LensLaws D} {LN : LensNear D} {MO : McuOps D} {ML : McuLaws D} (fuel : nat).
Notation br := (bridge_state D).

(** C27 [fifth_error_resets]: when a command fails and it is at least the fifth failure in a row, the bridge ends
    the subscription of the lens device and drops it, closes the link, and opens it again
    with the saved path, baud rate and timeout, in this order.  If the link opens and the
    controller takes initialisation, configuration and, for another lens than the default
    one, its profile, in this order, the link is up and the failures are forgotten.  If
    the link does not open, nothing more is sent; if the controller refuses one of these
    commands, the link is closed at once; and in both cases there is no link then, and
    the count is kept.  The caller gets the status of its command. *)
Theorem fifth_error_resets c k x (s : br) : sound fuel k s -> k < INT_MAX -> br_ctx s = Some x -> CONSECUTIVE_ERROR_THRESHOLD - 1 <= br_consecutive_errors s ->
  (lens_op c (af_hw (br_lens s))).1 <> 0 ->
  returns (command c) (fun r s' => r = (lens_op c (af_hw (br_lens s))).1 /\ af_dev (br_lens s') = None /\ framed s s' /\
    exists a st ctx rest, unsubscribed (br_lens s) a /\
      acted (br_lens s) (br_lens s') (OSent c r :: a ++ OClosed x :: opened (br_mcu_config s) st ctx :: rest) /\
      (st = 0 /\ (exists y, ctx = Some y /\
         (br_ctx s' = Some y /\ br_consecutive_errors s' = 0 /\ rest = taken (restart_plan (br_profile_model s)) \/
          br_ctx s' = None /\ br_consecutive_errors s' = br_consecutive_errors s + 1 /\
            exists cs e st', (cs ++ [e]) `prefix_of` restart_plan (br_profile_model s) /\ st' <> 0 /\ rest = taken cs ++ [OSent e st'; OClosed y])) \/
       st <> 0 /\ rest = [] /\ br_ctx s' = None /\ br_consecutive_errors s' = br_consecutive_errors s + 1)) s.
Proof.
  intros Hs Hk Hx He Hr. unfold command, with_link. rstep. rewrite Hx. unfold tracked.
  rcall (on_lens_level fuel (op c) (fun r l => r = (lens_op c (af_hw (br_lens s))).1 /\ acted (br_lens s) l [OSent c r]) s).
  { eapply returns_mono; [apply (op_level fuel), Hs|]. cbn beta. intros r l (? & ? & ?). by split_and!. }
  intros r s' ((Er & Hc) & Hl & ->). rewrite <-Er in *. set (l := br_lens s') in *. pose proof (sound_level fuel k s l Hs Hl) as Hs1. pose proof Hs as (_ & _ & Hsv & _ & Hb). specialize (Hsv (mk_is_Some _ _ Hx)).
  unfold TRACK_MCU_ERROR. rewrite (proj2 (Z.eqb_neq _ _) Hr). cbn [negb]. unfold CONSECUTIVE_ERROR_THRESHOLD, INT_MAX in *. apply returns_bind. unfold count_error. apply returns_bind. rstep.
  cbn [br_consecutive_errors set_br_lens]. rewrite (proj2 (Z.eqb_neq (br_consecutive_errors s) 2147483647)) by lia. rstep. cbn [br_consecutive_errors set_br_consecutive_errors]. rewrite (proj2 (Z.leb_le _ _)) by lia.
  set (s2 := set_br_consecutive_errors _ _). assert (Hs2 : sound fuel (k + 1) s2) by (destruct Hs1 as (? & ? & ? & ? & ?); split_and!; try done; cbn; lia).
  eapply returns_mono; [by apply (try_reset_ok fuel (k + 1) s2 Hs2)|]. cbn beta. intros _ s3 (H1 & H2 & a & st & ctx & rest & H3 & H4 & H5). rstep. split_and!; [done|done|exact H2|].
  exists a, st, ctx, rest. cbn in H4. rewrite Hx in H4. split; [|split; [exact (acted_trans _ _ _ _ _ Hc H4)|exact H5]].
  destruct Hl as [_ [Hi1 Hi2]]. unfold unsubscribed in *. cbn in H3. fold l in H3. destruct (af_dev l), (af_dev (br_lens s)); try done; [by destruct Hi1|by destruct Hi2].
Qed.

(** A call that fails for lack of memory after an earlier attempt to open the link failed
    leaves the caller's path in the saved configuration; the next attempt frees it. *)
Theorem lost_copy_freed (s : br) l dev baud tm dev' baud' tm' : br_ctx s = None -> br_config_saved s = true -> serial_device (br_mcu_config s) = Some (Owned l) ->
  (malloc_ok (af_hw (br_lens s))).1 = false ->
  exists s', hal_bridge_io_init dev baud tm s = Ret (-1) s' /\ hal_bridge_io_init dev' baud' tm' s' = Undef.
Proof.
  intros Hx Hsv Hp Hm. eexists. split.
  - unfold hal_bridge_io_init, mbind, M_bind, get. rewrite Hx, Hsv, Hp. cbn. rewrite (bhw_eq malloc_ok). cbn. rewrite Hm. reflexivity.
  - unfold hal_bridge_io_init, mbind, M_bind, get. cbn. by rewrite Hx, Hsv.
Qed.
End Reset.
