(* ===== verification/HalLensBridgeWitness.v ===== *)
(** The bridge and the move to a ratio at concrete inputs, on a controller that refuses
    one command. *)
From S2P Require Import Prelude Ms41908mReg FactoryFormat BspCtrl HalFloat HalLensFg2009 HalLensAf0832 HalLensWait HalLensBoot HalLensSim HalLensTable HalLensGeometry HalLensSafe HalLensBridge HalLensBridgeProps.

(** The time, and whether there is memory left.  Stopping the zoom motor fails. *)
Record bus : Type := mkBus { bus_now : Z; bus_memory : bool }.
#[export] Instance bus_ops : LensOps bus := {|
  lens_op c d := (match c with ZoomStop => -5 | _ => HAL_OK end, d);
  lens_state d := (HAL_OK, parked, d);
  lens_adc d := (HAL_OK, 512, d);
  lens_meanwhile d := ([LensEvt HAL_LENS_EVT_ZOOM_COMPLETED 0 0 0], d);
  clock_gettime d := (Some (mkTime (bus_now d / 1000000000) (bus_now d mod 1000000000)), d);
  cond_timedwait t d := (ETIMEDOUT, mkBus (Z.max (bus_now d) (ns t)) (bus_memory d));
  calloc_ok d := (bus_memory d, d)
|}.
#[export] Instance bus_laws : LensLaws bus.
Proof.
  refine {| now_ns := bus_now |}.
  - intros d t d' E. injection E as <- <-. split; [lia|]. intros ts [= <-]. unfold ns. cbn. lia.
  - intros t d rc d' E. injection E as <- <-. unfold ETIMEDOUT. cbn. lia.
  - intros c d. cbn. lia.
  - intros d. cbn. lia.
  - intros d. cbn. split; [lia|]. by repeat constructor.
Defined.
#[export] Instance bus_near : LensNear bus.
Proof. intros d. cbn. unfold near. lia. Defined.
#[export] Instance bus_mcu : McuOps bus := {|
  mcu_init cfg d := (0, Some 1, d);
  mcu_deinit x d := (0, d);
  malloc_ok d := (bus_memory d, d);
  lens_profile_get d := (0, [], d)
|}.
#[export] Instance bus_mcu_laws : McuLaws bus.
Proof. intros cfg d. cbn. by split. Defined.

(** A session: five refused commands make the bridge reopen the link and select the
    profile again. *)
Definition session : list bridge_call :=
  [CIoInit [47] 115200 100; CProfileSet 1; CCreate (-3236) 760 (-844) 592 1200; CMark; CCommand ZoomStop; CCommand ZoomStop; CCommand ZoomStop; CCommand ZoomStop; CCommand ZoomStop].
Example session_runs :
  match bridge_run 10 session (bridge_init (mkBus 0 true)) with
  | Ret _ s => br_ctx s = Some 1 /\ br_consecutive_errors s = 0 /\ af_dev (br_lens s) = None /\
      acts (af_trace (br_lens s)) = [OOpened (Some [47]) 115200 100 0 (Some 1); OSent (ProfileSet 1) 0; OSent ZoomStop (-5); OSent ZoomStop (-5); OSent ZoomStop (-5); OSent ZoomStop (-5); OSent ZoomStop (-5);
        OSent Unsubscribe 0; OClosed 1; OOpened (Some [47]) 115200 100 0 (Some 1); OSent LensInit 0; OSent (LensConfig 0) 0; OSent (ProfileSet 1) 0]
  | _ => False
  end.
Proof. vm_compute. done. Qed.

(** The same controller with an allocator that never fails. *)
Record still : Type := mkStill { still_now : Z }.
#[export] Instance still_ops : LensOps still := {|
  lens_op c d := (match c with ZoomStop => -5 | _ => HAL_OK end, d);
  lens_state d := (HAL_OK, parked, d);
  lens_adc d := (HAL_OK, 512, d);
  lens_meanwhile d := ([LensEvt HAL_LENS_EVT_ZOOM_COMPLETED 0 0 0], d);
  clock_gettime d := (Some (mkTime (still_now d / 1000000000) (still_now d mod 1000000000)), d);
  cond_timedwait t d := (ETIMEDOUT, mkStill (Z.max (still_now d) (ns t)));
  calloc_ok d := (true, d)
|}.
#[export] Instance still_laws : LensLaws still.
Proof.
  refine {| now_ns := still_now |}.
  - intros d t d' E. injection E as <- <-. split; [lia|]. intros ts [= <-]. unfold ns. cbn. lia.
  - intros t d rc d' E. injection E as <- <-. unfold ETIMEDOUT. cbn. lia.
  - intros c d. cbn. lia.
  - intros d. cbn. lia.
  - intros d. cbn. split; [lia|]. by repeat constructor.
Defined.
#[export] Instance still_near : LensNear still.
Proof. intros d. cbn. unfold near. lia. Defined.
#[export] Instance still_mcu : McuOps still := {|
  mcu_init cfg d := (0, Some 1, d);
  mcu_deinit x d := (0, d);
  malloc_ok d := (true, d);
  lens_profile_get d := (0, [], d)
|}.
#[export] Instance still_mcu_laws : McuLaws still.
Proof. intros cfg d. cbn. by split. Defined.
Definition still_start : still := mkStill 0.
Definition still_session : list bridge_call := session ++ [CBootstrap; CSyncAbs 600 50 700 9999 0; CIoDeinit].

Lemma minute_enough : enough 60000 minute.
Proof. by apply enough_ms. Qed.
Lemma lens_bridge_calls_safe_witness : returns (bridge_run minute still_session) (fun _ => sound minute (zlen still_session)) (bridge_init still_start).
Proof.
  apply (lens_bridge_calls_safe (MO := still_mcu) minute minute_enough (fun _ => eq_refl) still_session still_start); [|unfold zlen, INT_MAX; cbn; lia].
  unfold still_session, session. repeat (constructor; [cbn [call_ok]; first [exact I|unfold near; lia|lia]|]). constructor.
Defined.

Definition fourth : bridge_state bus :=
  mkBridge (Some 1) (mkAfState None (mkBus 0 true) [] []) 1 (mkMcuCfg (Some (Owned [47])) 115200 100) true 4.
Lemma fifth_error_resets_witness :
  returns (command ZoomStop) (fun r s' => r = -5 /\ af_dev (br_lens s') = None /\
    exists st ctx rest, acted (br_lens fourth) (br_lens s') (OSent ZoomStop (-5) :: OClosed 1 :: OOpened (Some [47]) 115200 100 st ctx :: rest)) fourth.
Proof.
  eapply returns_mono; [apply (fifth_error_resets 0 ZoomStop 4 1 fourth)|].
  - unfold sound, fits. cbn. split_and!; try done; try lia. by exists [47].
  - unfold INT_MAX. lia.
  - reflexivity.
  - cbn. unfold CONSECUTIVE_ERROR_THRESHOLD. lia.
  - cbn. lia.
  - intros r s' (H1 & H2 & _ & a & st & ctx & rest & Ha & H3 & _). cbn in H1, Ha. subst a r. split; [reflexivity|]. split; [exact H2|]. exists st, ctx, rest. exact H3.
Defined.
Definition low_memory : bridge_state bus :=
  mkBridge None (mkAfState None (mkBus 0 false) [] []) 0 (mkMcuCfg (Some (Owned [47])) 115200 100) true 0.
Lemma lost_copy_freed_witness : exists s', hal_bridge_io_init [48] 9600 5 low_memory = Ret (-1) s' /\ hal_bridge_io_init [49] 9600 5 s' = Undef.
Proof. apply (lost_copy_freed low_memory [47] [48] 9600 5 [49] 9600 5); reflexivity. Defined.

(** Ratio 2 at 3 metres. *)
Definition two_at_three : option (Z * Z) := Eval vm_compute in raw_targets (fun _ => 0) (f32 2) (f32 3).
Example goto_runs :
  match two_at_three with
  | Some (zt, ft) =>
      match hal_lens_af0832_goto_by_ratio_distance (fun _ => 0) 10 (f32 2) (f32 3) ready_state with
      | Ret r s => r = HAL_OK /\ hs_zoom_pos (sim_state (af_hw s)) = zt /\ hs_focus_pos (sim_state (af_hw s)) = ft
      | _ => False
      end
  | None => False
  end.
Proof. vm_compute. done. Qed.

Lemma two_at_three_eq : raw_targets (fun _ => 0) (f32 2) (f32 3) = Some (-481, -531).
Proof. vm_compute. reflexivity. Qed.
Lemma goto_balanced_witness :
  returns (hal_lens_af0832_goto_by_ratio_distance (fun _ => 0) minute (f32 2) (f32 3)) (fun r s' =>
    exists zp, 24 <= zp <= 1200 /\ matched 1200 551 381 zp /\ moved ready_state idle_device parked (mkZf zp (-381) 1200 (-551)) 60000 r s') ready_state.
Proof.
  eapply returns_mono; [apply (goto_balanced (fun _ => 0) minute (f32 2) (f32 3) ready_state idle_device parked (-481) (-531))|].
  - reflexivity.
  - reflexivity.
  - reflexivity.
  - reflexivity.
  - exact two_at_three_eq.
  - unfold short_range. cbn. lia.
  - unfold short_range. cbn. lia.
  - split; split; apply Z.leb_le; reflexivity.
  - split; split; apply Z.leb_le; reflexivity.
  - unfold pps_min. cbn. lia.
  - apply minute_enough.
  - cbn beta. intros r s' (zp & fp & (H1 & _ & _ & H4) & Hm). destruct H4 as [E H4]; [cbn; lia|]. change (af_default_pps (af_params idle_device)) with 1200 in *. subst fp. exists zp. split; [exact H1|]. split; [apply H4; discriminate|exact Hm].
Defined.
