(* ===== verification/HalPostprocess.v ===== *)
(** Post-processing of detections ([hal_v2/common/hal_postprocess_common.c]): the default
    configuration of a detector, the overlap of two boxes, and non-maximum suppression.

    [float]s are IEEE single precision numbers, NaN and infinities included.  Reading
    past the end of the array of the caller is [None]; the array for the results is taken
    to have the length the caller says it has. *)
From S2P Require Import Prelude Ms41908mReg BspCtrl HalFloat.

Definition HAL_MAX_DETECTIONS : Z := 256.

Record HalBBox : Type := mkBox { bb_x : spec_float; bb_y : spec_float; bb_w : spec_float; bb_h : spec_float }.
Record HalDetection : Type := mkDet {
  bbox : HalBBox;
  confidence : spec_float;
  class_id : Z;
  label : list Z;
  track_id : Z
}.
#[export] Instance HalDetection_inhabited : Inhabited HalDetection :=
  populate (mkDet (mkBox S754_nan S754_nan S754_nan S754_nan) S754_nan 0 [] 0).

(** ** The default configuration *)
(** Its pointers ([class_ids_filter], the label and configuration files) are [NULL]. *)
Record HalDetectionConfig : Type := mkDetCfg {
  confidence_threshold : spec_float;
  nms_threshold : spec_float;
  max_detections : Z;
  num_class_ids_filter : Z
}.
Definition hal_detection_config_init : HalDetectionConfig := mkDetCfg (dec32 25 2) (dec32 45 2) HAL_MAX_DETECTIONS 0.

(** ** Overlap *)
Definition hal_bbox_iou (a b : option HalBBox) : spec_float :=
  match a, b with
  | Some a, Some b =>
      let ax2 := f32_add (bb_x a) (bb_w a) in
      let ay2 := f32_add (bb_y a) (bb_h a) in
      let bx2 := f32_add (bb_x b) (bb_w b) in
      let by2 := f32_add (bb_y b) (bb_h b) in
      let ix1 := if SFgtb (bb_x a) (bb_x b) then bb_x a else bb_x b in
      let iy1 := if SFgtb (bb_y a) (bb_y b) then bb_y a else bb_y b in
      let ix2 := if SFltb ax2 bx2 then ax2 else bx2 in
      let iy2 := if SFltb ay2 by2 then ay2 else by2 in
      let iw := f32_sub ix2 ix1 in
      let ih := f32_sub iy2 iy1 in
      if SFleb iw (f32 0) || SFleb ih (f32 0) then f32 0
      else
        let inter := f32_mul iw ih in
        let area_a := if SFgtb (bb_w a) (f32 0) && SFgtb (bb_h a) (f32 0) then f32_mul (bb_w a) (bb_h a) else f32 0 in
        let area_b := if SFgtb (bb_w b) (f32 0) && SFgtb (bb_h b) (f32 0) then f32_mul (bb_w b) (bb_h b) else f32 0 in
        let uni := f32_sub (f32_add area_a area_b) inter in
        if SFleb uni (f32 0) then f32 0 else f32_div inter uni
  | _, _ => f32 0
  end.

(** ** Sorting *)
Definition swap_det (dets : list HalDetection) (a b : nat) : list HalDetection :=
  <[b := dets !!! a]> (<[a := dets !!! b]> dets).
(** The inner loop: the index of the most confident one from [i] on. *)
Definition best_from (dets : list HalDetection) (n i : nat) : nat :=
  foldl (fun best j => if SFgtb (confidence (dets !!! j)) (confidence (dets !!! best)) then j else best) i (seq (S i) (n - S i)).
Definition sort_step (n : nat) (dets : list HalDetection) (i : nat) : list HalDetection :=
  let best := best_from dets n i in if (best =? i)%nat then dets else swap_det dets i best.
Definition sort_by_confidence_desc (dets : list HalDetection) (n : nat) : list HalDetection := foldl (sort_step n) dets (seq 0 n).

(** ** Suppression *)
Definition overlaps (thr : spec_float) (a b : HalDetection) : bool := SFgeb (hal_bbox_iou (Some (bbox a)) (Some (bbox b))) thr.
(** The inner loop: mark what overlaps the detection [i]. *)
Definition suppress_from (tmp : list HalDetection) (thr : spec_float) (n i : nat) (suppressed : list bool) : list bool :=
  foldl (fun (sup : list bool) j => if (sup !!! j : bool) then sup else if overlaps thr (tmp !!! i) (tmp !!! j) then <[j := true]> sup else sup : list bool) suppressed (seq (S i) (n - S i)).
Fixpoint nms_loop (tmp : list HalDetection) (thr : spec_float) (n : nat) (max_output : Z) (ix : list nat) (out : list HalDetection) (suppressed : list bool)
  : list HalDetection :=
  match ix with
  | [] => out
  | i :: ix =>
      if max_output <=? zlen out then out
      else if (suppressed !!! i : bool) then nms_loop tmp thr n max_output ix out suppressed
      else nms_loop tmp thr n max_output ix (out ++ [tmp !!! i]) (suppress_from tmp thr n i suppressed)
  end.

(** The returned count, and what is written to [output]. *)
Definition hal_nms (detections : option (list HalDetection)) (num_detections : Z) (thr : spec_float) (output : bool) (max_output : Z)
  : option (Z * list HalDetection) :=
  match detections with
  | None => Some (0, [])
  | Some dets =>
      if negb output || (max_output =? 0) then Some (0, [])
      else if num_detections =? 0 then Some (0, [])
      else
        let n := if HAL_MAX_DETECTIONS <? num_detections then HAL_MAX_DETECTIONS else num_detections in
        if zlen dets <? n then None
        else
          let n := Z.to_nat n in
          let tmp := sort_by_confidence_desc (take n dets) n in
          let out := nms_loop tmp thr n max_output (seq 0 n) [] (replicate 256 false) in
          Some (zlen out, out)
  end.
