(* ===== verification/HalPostprocessProps.v ===== *)
(** Non-maximum suppression: the sort, and the equivalence of the loops over flags with
    the greedy algorithm on lists. *)
From stdpp Require Import sorting.
From S2P Require Import Prelude Ms41908mReg BspCtrl HalFloat HalPostprocess.

(** ** The sort *)
(** [b] is not more confident than [a]; always so when one of them is NaN. *)
Definition no_better (a b : HalDetection) : Prop := SFgtb (confidence b) (confidence a) = false.

Lemma delete_insert_same {A} (l : list A) i y : delete i (<[i := y]> l) = delete i l.
Proof. revert i. induction l as [|x l IH]; intros [|i]; cbn; try done. f_equal. apply IH. Qed.
Lemma swap_perm (l : list HalDetection) i j : (i < length l)%nat -> (j < length l)%nat -> i <> j -> swap_det l i j ≡ₚ l.
Proof.
  intros Hi Hj Hne. destruct (lookup_lt_is_Some_2 l i Hi) as [x Ex]. destruct (lookup_lt_is_Some_2 l j Hj) as [y Ey].
  unfold swap_det. rewrite (list_lookup_total_correct _ _ _ Ex), (list_lookup_total_correct _ _ _ Ey).
  set (l' := <[i := y]> l). assert (E1 : l' !! j = Some y) by (subst l'; by rewrite list_lookup_insert_ne by done).
  assert (E2 : l' !! i = Some y) by (subst l'; by rewrite list_lookup_insert_eq).
  assert (E3 : <[j := x]> l' !! j = Some x) by (rewrite list_lookup_insert_eq; [done|subst l'; by rewrite length_insert]).
  pose proof (delete_Permutation _ _ _ E3) as H3. rewrite delete_insert_same in H3.
  pose proof (delete_Permutation _ _ _ E1) as H1. pose proof (delete_Permutation _ _ _ E2) as H2.
  pose proof (delete_Permutation _ _ _ Ex) as H4. subst l'. rewrite delete_insert_same in H2.
  etrans; [exact H3|]. etrans; [|symmetry; exact H4]. constructor. apply (Permutation_cons_inv (a := y)). etrans; [symmetry; exact H1|exact H2].
Qed.

(** The inner loop of the sort. *)
Definition best_step (l : list HalDetection) (best j : nat) : nat := if SFgtb (confidence (l !!! j)) (confidence (l !!! best)) then j else best.
Lemma best_loop_ok l m : forall k best, let r := foldl (best_step l) best (seq k m) in
  (r = best \/ (k <= r < k + m)%nat) /\ (forall x, no_better (l !!! best) x -> no_better (l !!! r) x) /\
  (forall j, (k <= j < k + m)%nat -> no_better (l !!! r) (l !!! j)).
Proof.
  induction m as [|m IH]; intros k best; [cbn; split_and!; [by left|done|lia]|]. cbn [seq foldl].
  destruct (IH (S k) (best_step l best k)) as (H1 & H2 & H3). set (r := foldl _ _ _) in *. cbn zeta in *.
  assert (Hk : no_better (l !!! best_step l best k) (l !!! k)).
  { unfold best_step, no_better. destruct (SFgtb (confidence (l !!! k)) (confidence (l !!! best))) eqn:E; [apply SFltb_irrefl|done]. }
  split_and!.
  - destruct H1 as [H1|H1]; [|right; lia]. unfold best_step in H1. destruct (SFgtb (confidence (l !!! k)) _); [right; lia|by left].
  - intros x Hx. apply H2. unfold best_step, no_better in *. destruct (SFgtb (confidence (l !!! k)) (confidence (l !!! best))) eqn:E; [|done].
    apply not_true_iff_false. intros Hc. apply (not_true_iff_false (SFgtb (confidence x) (confidence (l !!! best)))); [done|]. by apply (SFltb_trans _ _ _ E).
  - intros j Hj. destruct (decide (j = k)) as [->|]; [by apply H2|]. apply H3. lia.
Qed.
Lemma best_from_ok l n i : (i < n)%nat -> (i <= best_from l n i < n)%nat /\ (forall j, (i <= j < n)%nat -> no_better (l !!! best_from l n i) (l !!! j)).
Proof.
  intros Hi. destruct (best_loop_ok l (n - S i) (S i) i) as (H1 & H2 & H3). fold (best_step l) in *.
  change (foldl (best_step l) i (seq (S i) (n - S i))) with (best_from l n i) in *. split; [lia|]. intros j Hj. destruct (decide (j = i)) as [->|]; [|apply H3; lia].
  apply H2, SFltb_irrefl.
Qed.

Lemma swap_lookup (l : list HalDetection) a b k : (a < length l)%nat -> (b < length l)%nat ->
  swap_det l a b !!! k = if decide (k = b) then l !!! a else if decide (k = a) then l !!! b else l !!! k.
Proof.
  intros Ha Hb. unfold swap_det. destruct (decide (k = b)) as [->|Hkb].
  - apply list_lookup_total_insert_eq. by rewrite length_insert.
  - rewrite list_lookup_total_insert_ne by done. destruct (decide (k = a)) as [->|]; [by apply list_lookup_total_insert_eq|by apply list_lookup_total_insert_ne].
Qed.
(** One round: the best of the rest comes to place [i], what is before [i] stays, and what
    is behind comes from behind. *)
Lemma sort_step_ok n l i : length l = n -> (i < n)%nat -> let l' := sort_step n l i in
  l' ≡ₚ l /\ (forall k, (k < i)%nat -> l' !!! k = l !!! k) /\
  (forall j, (i <= j < n)%nat -> exists j', (i <= j' < n)%nat /\ l' !!! j = l !!! j') /\ (forall j, (i < j < n)%nat -> no_better (l' !!! i) (l' !!! j)).
Proof.
  intros Hl Hi l'. destruct (best_from_ok l n i Hi) as [Hb Hbest]. subst l'. unfold sort_step. destruct (Nat.eqb_spec (best_from l n i) i) as [E|E].
  - rewrite E in Hbest. split_and!; try done; [intros j Hj; by exists j|]. intros j Hj. apply Hbest. lia.
  - set (b := best_from l n i) in *. split_and!; [apply swap_perm; lia| | |].
    + intros k Hk. rewrite swap_lookup by lia. by rewrite !decide_False by lia.
    + intros j Hj. rewrite swap_lookup by lia. destruct (decide (j = b)); [by exists i; split; [lia|]|]. destruct (decide (j = i)); [by exists b|by exists j].
    + intros j Hj. rewrite !swap_lookup by lia. rewrite (decide_False (P := i = b)), (decide_True (P := i = i)) by lia.
      destruct (decide (j = b)); [apply Hbest; lia|]. rewrite decide_False by lia. apply Hbest. lia.
Qed.

Lemma sort_loop_ok n m : forall k l, length l = n -> (k + m = n)%nat ->
  (forall a b, (a < k)%nat -> (a < b < n)%nat -> no_better (l !!! a) (l !!! b)) ->
  let l' := foldl (sort_step n) l (seq k m) in l' ≡ₚ l /\ (forall a b, (a < b < n)%nat -> no_better (l' !!! a) (l' !!! b)).
Proof.
  induction m as [|m IH]; intros k l Hl Hk Hs; [split; [done|]; cbn; intros; apply Hs; lia|]. cbn [seq foldl].
  destruct (sort_step_ok n l k Hl) as (Hp & Hpre & Hsrc & Hnew); [lia|].
  destruct (IH (S k) (sort_step n l k)) as [Hp' Hs']; [by rewrite Hp|lia| |].
  - intros a b Ha Hb. destruct (decide (a = k)) as [->|]; [apply Hnew; lia|]. rewrite Hpre by lia.
    destruct (decide (b < k)%nat); [rewrite Hpre by lia; apply Hs; lia|]. destruct (Hsrc b) as (j' & Hj' & ->); [lia|]. apply Hs; lia.
  - cbn zeta in *. split; [by rewrite Hp', Hp|done].
Qed.
Lemma sort_ok l n : length l = n -> sort_by_confidence_desc l n ≡ₚ l /\ StronglySorted no_better (sort_by_confidence_desc l n).
Proof.
  intros Hl. unfold sort_by_confidence_desc. destruct (sort_loop_ok n n 0 l Hl) as [Hp Hs]; [lia|intros; lia|]. split; [done|].
  set (l' := foldl _ _ _) in *. assert (Hl' : length l' = n) by (by rewrite Hp). clearbody l'. clear Hp Hl.
  revert n Hl' Hs. induction l' as [|x l' IH]; intros n Hl' Hs; constructor.
  - apply (IH (length l')); try done. intros a b Hab. apply (Hs (S a) (S b)). cbn in Hl'. lia.
  - apply Forall_lookup_2. intros j y Hy. apply lookup_lt_Some in Hy as Hlt. cbn in Hl'.
    pose proof (Hs 0%nat (S j) ltac:(lia)) as H. by rewrite (list_lookup_total_correct (x :: l') (S j) y Hy) in H.
Qed.

(** ** The greedy algorithm *)
Definition keeps (thr : spec_float) (d e : HalDetection) : Prop := overlaps thr d e = false.
#[export] Instance keeps_dec thr d e : Decision (keeps thr d e).
Proof. unfold keeps. apply _. Defined.
(** Keep the first, drop what overlaps it, and go on with the rest. *)
Fixpoint greedy_nms (fuel : nat) (thr : spec_float) (l : list HalDetection) : list HalDetection :=
  match fuel, l with
  | S fuel, d :: l => d :: greedy_nms fuel thr (filter (keeps thr d) l)
  | _, _ => []
  end.

(** What is not marked, from place [i] on. *)
Definition alive (tmp : list HalDetection) (sup : list bool) (i : nat) : list HalDetection :=
  fst <$> filter (fun p => p.2 = false) (drop i (zip tmp sup)).

Lemma alive_all tmp : forall k, (length tmp <= k)%nat -> alive tmp (replicate k false) 0 = tmp.
Proof. unfold alive. induction tmp as [|d tmp IH]; intros [|k] Hk; cbn in *; try done; [lia|].
  rewrite decide_True by done. cbn. f_equal. apply IH. lia.
Qed.

Section Loop.
Context (tmp : list HalDetection) (thr : spec_float) (n : nat).
Hypothesis tmp_len : length tmp = n.
Notation mark i := (fun (sup : list bool) j => if (sup !!! j : bool) then sup else if overlaps thr (tmp !!! i) (tmp !!! j) then <[j := true]> sup else sup).

Lemma mark_length i js : forall sup, length (foldl (mark i) sup js) = length sup.
Proof. induction js as [|j js IH]; intros sup; [done|]. cbn [foldl]. rewrite IH. repeat cif; by rewrite ?length_insert. Qed.
Lemma mark_lookup i m : forall k sup j, (k + m <= length sup)%nat ->
  foldl (mark i) sup (seq k m) !!! j = if decide (k <= j < k + m)%nat then (sup !!! j) || overlaps thr (tmp !!! i) (tmp !!! j) else sup !!! j.
Proof.
  induction m as [|m IH]; intros k sup j Hk; [cbn; by rewrite decide_False by lia|]. cbn [seq foldl].
  set (sup' := if (sup !!! k : bool) then _ else _). assert (Hl : length sup' = length sup) by (subst sup'; repeat cif; by rewrite ?length_insert).
  rewrite IH by lia. assert (Hj : sup' !!! j = if decide (j = k) then (sup !!! k) || overlaps thr (tmp !!! i) (tmp !!! k) else sup !!! j).
  { subst sup'. destruct (decide (j = k)) as [->|Hne]; destruct (sup !!! k) eqn:E; cbn [orb]; try done; destruct (overlaps _ _ _) eqn:E'; try done.
    - apply list_lookup_total_insert_eq. lia.
    - by apply list_lookup_total_insert_ne. }
  rewrite Hj. destruct (decide (j = k)) as [->|]; [rewrite decide_False, decide_True by lia; done|].
  destruct (decide (S k <= j < S k + m)%nat); [rewrite decide_True by lia; done|rewrite decide_False by lia; done].
Qed.

Lemma drop_zip_cons (sup : list bool) i : (n <= length sup)%nat -> (i < n)%nat -> drop i (zip tmp sup) = (tmp !!! i, sup !!! i) :: drop (S i) (zip tmp sup).
Proof.
  intros Hs Hi. destruct (lookup_lt_is_Some_2 tmp i) as [x Ex]; [lia|]. destruct (lookup_lt_is_Some_2 sup i) as [y Ey]; [lia|].
  erewrite drop_S; [|apply lookup_zip_with_Some; by exists x, y]. by rewrite (list_lookup_total_correct _ _ _ Ex), (list_lookup_total_correct _ _ _ Ey).
Qed.

(** Marking what overlaps [i] is dropping it from the list. *)
Lemma alive_suppress i sup : (n <= length sup)%nat -> (i < n)%nat ->
  alive tmp (suppress_from tmp thr n i sup) (S i) = filter (keeps thr (tmp !!! i)) (alive tmp sup (S i)).
Proof.
  intros Hs Hi. set (sup' := suppress_from tmp thr n i sup). assert (Hl : length sup' = length sup) by apply mark_length.
  assert (Hj : forall j, (S i <= j < n)%nat -> sup' !!! j = (sup !!! j) || overlaps thr (tmp !!! i) (tmp !!! j)).
  { intros j Hj. unfold sup', suppress_from. rewrite mark_lookup by lia. by rewrite decide_True by lia. }
  clearbody sup'. remember (n - S i)%nat as m eqn:Em. assert (Hm : (S i + m = n)%nat) by lia. clear Em. remember (S i) as k eqn:Ek.
  assert (Hk : (i < k)%nat) by lia. clear Ek. revert k Hk Hj Hm. induction m as [|m IH]; intros k Hk Hj Hm; unfold alive in *.
  - rewrite !drop_ge; [done|rewrite length_zip_with; lia..].
  - rewrite !(drop_zip_cons _ k) by lia. rewrite Hj by lia. rewrite !filter_cons. cbn [snd fst].
    destruct (sup !!! k) eqn:E; cbn [orb].
    + rewrite !decide_False by done. apply IH; try lia. intros j ?. apply Hj. lia.
    + rewrite (decide_True (P := false = false)) by done. cbn [fmap list_fmap]. rewrite filter_cons. cbn [fst].
      destruct (overlaps thr (tmp !!! i) (tmp !!! k)) eqn:E'.
      * rewrite (decide_False (P := true = false)) by done. rewrite (decide_False (P := keeps thr (tmp !!! i) (tmp !!! k))) by (unfold keeps; by rewrite E'). apply IH; try lia. intros j ?. apply Hj. lia.
      * rewrite (decide_True (P := false = false)) by done. rewrite (decide_True (P := keeps thr (tmp !!! i) (tmp !!! k))) by exact E'. cbn. f_equal. apply IH; try lia. intros j ?. apply Hj. lia.
Qed.

Lemma nms_loop_greedy max_output : 0 <= max_output -> forall m i out sup fuel, (i + m = n)%nat -> (n <= length sup)%nat -> zlen out <= max_output -> (m <= fuel)%nat ->
  nms_loop tmp thr n max_output (seq i m) out sup = out ++ take (Z.to_nat (max_output - zlen out)) (greedy_nms fuel thr (alive tmp sup i)).
Proof.
  intros Hmax. induction m as [|m IH]; intros i out sup fuel Hi Hs Ho Hf; cbn [seq nms_loop].
  - unfold alive. rewrite drop_ge by (rewrite length_zip_with; lia). destruct fuel; cbn; by rewrite take_nil, app_nil_r.
  - destruct (Z.leb_spec max_output (zlen out)) as [Hge|Hlt]; [replace (max_output - zlen out) with 0 by lia; cbn; by rewrite app_nil_r|].
    destruct fuel as [|fuel]; [lia|]. unfold alive. rewrite (drop_zip_cons sup i) by lia. rewrite filter_cons. cbn [snd fst].
    destruct (sup !!! i) eqn:E.
    + rewrite decide_False by done. apply IH; lia.
    + rewrite decide_True by done.
      change (greedy_nms (S fuel) thr _) with (tmp !!! i :: greedy_nms fuel thr (filter (keeps thr (tmp !!! i)) (alive tmp sup (S i)))).
      rewrite <-alive_suppress by lia.
      assert (Hz : zlen (out ++ [tmp !!! i]) = zlen out + 1) by (unfold zlen; rewrite length_app; cbn; lia).
      rewrite (IH (S i) _ _ fuel); [|lia|unfold suppress_from; rewrite mark_length; lia|lia|lia]. rewrite Hz, <-app_assoc. f_equal.
      replace (Z.to_nat (max_output - zlen out)) with (S (Z.to_nat (max_output - (zlen out + 1)))) by lia. done.
Qed.
End Loop.

(** ** What the greedy algorithm keeps *)
Lemma sorted_sublist {A} (R : relation A) k l : sublist k l -> StronglySorted R l -> StronglySorted R k.
Proof.
  induction 1 as [|x k l Hk IH|x k l Hk IH]; intros H; [done|apply StronglySorted_inv in H as [H Hx]..]; [|by apply IH].
  constructor; [by apply IH|]. rewrite Forall_forall in *. intros y Hy. apply Hx. by eapply elem_of_sublist.
Qed.
Lemma greedy_sublist fuel thr : forall l, sublist (greedy_nms fuel thr l) l.
Proof.
  induction fuel as [|fuel IH]; intros [|d l]; cbn; try constructor; try apply sublist_nil_l.
  etrans; [apply IH|apply sublist_filter].
Qed.
Lemma greedy_apart fuel thr : forall l, StronglySorted (keeps thr) (greedy_nms fuel thr l).
Proof.
  induction fuel as [|fuel IH]; intros [|d l]; cbn; constructor; [apply IH|].
  apply Forall_forall. intros e He. pose proof (elem_of_sublist _ _ e He (greedy_sublist fuel thr _)) as H. by apply list_elem_of_filter in H as [? _].
Qed.
Lemma greedy_covers fuel thr : forall l x, (length l <= fuel)%nat -> StronglySorted no_better l -> x ∈ l ->
  x ∈ greedy_nms fuel thr l \/ exists k, k ∈ greedy_nms fuel thr l /\ overlaps thr k x = true /\ no_better k x.
Proof.
  induction fuel as [|fuel IH]; intros [|d l] x Hf Hs Hx; try (by apply not_elem_of_nil in Hx); [cbn in Hf; lia|]. cbn [greedy_nms].
  apply StronglySorted_inv in Hs as [Hs Hd]. apply elem_of_cons in Hx as [->|Hx]; [left; by left|].
  destruct (overlaps thr d x) eqn:E.
  - right. exists d. split; [by left|]. split; [done|]. by rewrite Forall_forall in Hd; apply Hd.
  - destruct (IH (filter (keeps thr d) l) x) as [H|(k & Hk & H)].
    + pose proof (length_filter (keeps thr d) l). cbn in Hf. lia.
    + by eapply sorted_sublist; [apply sublist_filter|].
    + by apply list_elem_of_filter.
    + left. by right.
    + right. exists k. split; [by right|done].
Qed.

(** ** The function *)
(** The detections it looks at. *)
Definition considered (dets : list HalDetection) (num : Z) : list HalDetection := take (Z.to_nat (Z.min num HAL_MAX_DETECTIONS)) dets.

Lemma hal_nms_eq dets num thr max_output : 0 < num <= zlen dets -> 0 < max_output ->
  let n := Z.to_nat (Z.min num HAL_MAX_DETECTIONS) in
  let out := take (Z.to_nat max_output) (greedy_nms n thr (sort_by_confidence_desc (considered dets num) n)) in
  length (considered dets num) = n /\ hal_nms (Some dets) num thr true max_output = Some (zlen out, out).
Proof.
  intros Hn Hm n out. assert (Hl : length (considered dets num) = n) by (unfold considered, zlen in *; rewrite length_take; lia).
  split; [done|]. unfold hal_nms. cbn [negb orb]. rewrite !(proj2 (Z.eqb_neq _ _)) by lia.
  replace (if HAL_MAX_DETECTIONS <? num then HAL_MAX_DETECTIONS else num) with (Z.min num HAL_MAX_DETECTIONS) by (unfold HAL_MAX_DETECTIONS; cif; cbool; lia).
  rewrite (proj2 (Z.ltb_ge _ _)) by lia. fold (considered dets num) n. set (tmp := sort_by_confidence_desc (considered dets num) n).
  assert (Ht : length tmp = n) by (unfold tmp; by rewrite (proj1 (sort_ok (considered dets num) n Hl))).
  assert (Hr : (n <= length (replicate 256 false))%nat) by (rewrite length_replicate; unfold n, HAL_MAX_DETECTIONS; lia).
  assert (E : nms_loop tmp thr n max_output (seq 0 n) [] (replicate 256 false) = out); [|by rewrite E].
  rewrite (nms_loop_greedy tmp thr n Ht max_output ltac:(lia) n 0 [] (replicate 256 false) n) by (try done; unfold zlen; cbn; lia). unfold out. cbn [app].
  replace (max_output - zlen []) with max_output by (unfold zlen; cbn; lia). by rewrite alive_all by (rewrite Ht; rewrite length_replicate in Hr; done).
Qed.

Lemma nms_considered dets num thr max_output c out x : 0 < num <= zlen dets -> 0 < max_output ->
  hal_nms (Some dets) num thr true max_output = Some (c, out) -> x ∈ out -> x ∈ considered dets num.
Proof.
  intros Hn Hm E Hx. destruct (hal_nms_eq dets num thr max_output Hn Hm) as [Hl E']. rewrite E' in E. injection E as _ <-.
  rewrite <-(proj1 (sort_ok _ _ Hl)). eapply elem_of_sublist; [|apply greedy_sublist]. by eapply elem_of_sublist; [exact Hx|apply sublist_take].
Qed.

(** C13 [nms_is_greedy]: for at least one detection, an array that holds as many as announced, and a non-empty
    output, non-maximum suppression computes what the greedy algorithm on lists does: of
    the first 256 detections at most, in an order in which none is more confident than
    one before it, keep the first, drop what overlaps it, go on with the rest, and return
    the first [max_output].  This holds for all float values, NaN included. *)
Theorem nms_is_greedy dets num thr max_output : 0 < num <= zlen dets -> 0 < max_output ->
  exists sorted, sorted ≡ₚ considered dets num /\ StronglySorted no_better sorted /\
    let out := take (Z.to_nat max_output) (greedy_nms (length sorted) thr sorted) in
    hal_nms (Some dets) num thr true max_output = Some (zlen out, out).
Proof.
  intros Hn Hm. destruct (hal_nms_eq dets num thr max_output Hn Hm) as [Hl E]. destruct (sort_ok _ _ Hl) as [Hp Hs].
  eexists. split; [exact Hp|]. split; [exact Hs|]. cbn zeta. by rewrite (Permutation_length Hp), Hl.
Qed.

(** C28 [nms_result]: the count returned is that of the detections written, at most [max_output]; they are
    among the first 256 given, the most confident first, and none overlaps a later one
    by the threshold or more.  If there was room for one more, every detection that was
    considered and is not returned overlaps a returned one that is no less confident. *)
Theorem nms_result dets num thr max_output : 0 < num <= zlen dets -> 0 < max_output ->
  exists out, hal_nms (Some dets) num thr true max_output = Some (zlen out, out) /\ zlen out <= max_output /\
    out ⊆+ considered dets num /\ StronglySorted no_better out /\ StronglySorted (keeps thr) out /\
    (zlen out < max_output -> forall x, x ∈ considered dets num -> x ∈ out \/ exists k, k ∈ out /\ overlaps thr k x = true /\ no_better k x).
Proof.
  intros Hn Hm. destruct (hal_nms_eq dets num thr max_output Hn Hm) as [Hl E]. destruct (sort_ok _ _ Hl) as [Hp Hs].
  set (n := Z.to_nat (Z.min num HAL_MAX_DETECTIONS)) in *. set (l := sort_by_confidence_desc (considered dets num) n) in *.
  cbn zeta in E. set (g := greedy_nms n thr l) in *. exists (take (Z.to_nat max_output) g). split; [exact E|].
  assert (Hg : sublist (take (Z.to_nat max_output) g) l) by (etrans; [apply sublist_take|apply greedy_sublist]).
  split_and!.
  - unfold zlen. rewrite length_take. lia.
  - rewrite <-Hp. by apply sublist_submseteq.
  - by eapply sorted_sublist.
  - eapply sorted_sublist; [apply sublist_take|apply greedy_apart].
  - intros Hlt x Hx. rewrite take_ge by (unfold zlen in Hlt; rewrite length_take in Hlt; lia).
    apply greedy_covers; [|done|by rewrite Hp]. by rewrite (Permutation_length Hp), Hl.
Qed.

(** ** Runs *)
Definition box (x y w h : Z) : HalBBox := mkBox (f32 x) (f32 y) (f32 w) (f32 h).
Definition some_dets : list HalDetection :=
  [mkDet (box 0 0 10 10) (dec32 5 1) 1 [] 0; mkDet (box 1 1 10 10) (dec32 9 1) 2 [] 0; mkDet (box 50 50 5 5) S754_nan 3 [] 0; mkDet (box 20 20 5 5) (dec32 7 1) 4 [] 0].
Example nms_runs : option_map (fun r => (r.1, map class_id r.2)) (hal_nms (Some some_dets) 4 (nms_threshold hal_detection_config_init) true 10) = Some (3, [2; 4; 3]).
Proof. vm_compute. reflexivity. Qed.
(** The array is cut to 256 entries before it is sorted: the most confident detection is
    lost when it is the 257th. *)
Example nms_cut_before_sort : let weak := mkDet (box 0 0 1 1) (dec32 3 1) 0 [] 0 in let best := mkDet (box 9 9 1 1) (dec32 9 1) 1 [] 0 in
  forall out, hal_nms (Some (replicate 256 weak ++ [best])) 257 (dec32 45 2) true 300 = Some (zlen out, out) -> best ∉ out.
Proof.
  intros weak best out E Hb. 
  assert (Hn : 0 < 257 <= zlen (replicate 256 weak ++ [best])) by (unfold zlen; rewrite length_app, length_replicate; cbn [length]; lia).
  apply (nms_considered _ 257 _ 300 _ _ _ Hn ltac:(lia) E) in Hb.
  unfold considered in Hb. rewrite take_app_le in Hb by (rewrite length_replicate; unfold HAL_MAX_DETECTIONS; lia). apply elem_of_take in Hb as (i & H & _).
  by apply lookup_replicate_1 in H as [H _].
Qed.

Lemma nms_is_greedy_witness :
  exists sorted, sorted ≡ₚ considered some_dets 4 /\ StronglySorted no_better sorted /\
    let out := take (Z.to_nat 2) (greedy_nms (length sorted) (dec32 45 2) sorted) in hal_nms (Some some_dets) 4 (dec32 45 2) true 2 = Some (zlen out, out).
Proof. apply (nms_is_greedy some_dets 4 (dec32 45 2) 2); [unfold zlen; cbn; lia|lia]. Defined.
Lemma nms_result_witness :
  exists out, hal_nms (Some some_dets) 4 (dec32 45 2) true 10 = Some (zlen out, out) /\ zlen out <= 10 /\
    out ⊆+ considered some_dets 4 /\ StronglySorted no_better out /\ StronglySorted (keeps (dec32 45 2)) out /\
    (zlen out < 10 -> forall x, x ∈ considered some_dets 4 -> x ∈ out \/ exists k, k ∈ out /\ overlaps (dec32 45 2) k x = true /\ no_better k x).
Proof. apply (nms_result some_dets 4 (dec32 45 2) 10); [unfold zlen; cbn; lia|lia]. Defined.
